(* ===== verification/_CoqProject ===== *)
-Q . S2P
Prelude.v
GuestMem.v
LinuxX86.v
PageTable.v
ListH.v
Text.v
Tasks.v
Modules.v
NetDev.v
Float32.v
MemUsage.v
CpuUsage.v
Config.v
SyscallChecker.v
Daemon.v
Hmp.v
MemSlots.v
GuestCopy.v
KvmCrypto.v
I8259.v
Xbzrle.v
PageCache.v
Fifo8.v
Lapic.v
ApicBus.v
IoApic.v
IrqRouting.v
IrqVm.v
I8254.v
Hypercall.v
Spte.v
PteList.v
Rmap.v
RmapSpec.v
ShadowPages.v
ShadowSpec.v
RoomSpec.v
DirectMap.v
PageRefs.v
DirectSpec.v
DirectSet.v
DirectFault.v
LargePages.v
DirectTdp.v
MmuRoots.v
MmuNotifier.v
MmuHistory.v
AsyncPf.v
HvaToPfn.v
FaultPath.v
Paging.v
GuestWalk.v
WalkSpec.v
