(* ===== verification/Prelude.v ===== *)
(** * Verification of qemu-vmi

    qemu-vmi adds virtual machine introspection to QEMU 2.0: a plugin reads
    the memory of a running Linux guest from the host and rebuilds its task
    list, its modules, its network devices, its CPU and memory figures, and
    watches its system call table.  A patched kvm-kmod 3.16 adds a hypercall
    with which the guest lets the host encrypt a buffer.

    ** The parts and how they meet

    - The plugin ([src/qemu-2.0/plugin]).  Monitor commands
      ([extra_hmp.c]) call the listers, each of which walks structures of
      the guest kernel through guest RAM, converting addresses
      ([linux-x86_64.c]) or walking page tables ([memory.c]).  Two threads
      run on their own: the system call checker and the remote listener.
    - The kernel module ([src/kvm-kmod-3.16/x86]).  The slot table maps
      guest frames to host memory ([kvm_main.c]); the guest copies go
      through it; the crypto hypercall ([x86.c], [kvm_crypto.c]) goes
      through the copies, and the guest's driver
      ([src/programs/kvm_crypto_mod]) makes it.  The memory management
      unit ([mmu.c], [paging_tmpl.h]) keeps the page tables the processor
      uses: a fault asks the host for the frame behind an address
      ([kvm_main.c]), perhaps by a worker ([async_pf.c]), and maps it; when
      the host changes its own page table it calls the notifiers
      ([kvm_main.c]), which take the mappings away again by the reverse map.
      The interrupt hardware is a machine of its own: an interrupt line goes through the routing table ([irqchip.c], [irq_comm.c]) to the
      8259 ([i8259.c]) and the I/O APIC ([ioapic.c]), whose messages the
      delivery code ([irq_comm.c], [lapic.c]) brings to local APICs; a
      processor takes its next interrupt from either ([irq.c]), and the end
      of interrupt goes back to the I/O APIC.  The interval timer
      ([i8254.c]) is a device of it: it raises interrupt 0 and counts its
      acknowledgements.
    - Migration and device helpers of QEMU ([xbzrle.c], [page_cache.c],
      [util/fifo8.c]): pages sent before are kept in the cache, sent again
      as differences.

    ** The files

    - [Prelude]: machine integers, the error monad [res] and the state monad
      [st], congruence modulo 2^64, lemmas the components share.
    - [GuestMem]: guest RAM with little-endian loads and stores that fail
      outside it.
    - [LinuxX86] ([linux-x86_64.c], [lib.c], [symbol-x86_64.h]): the two
      kernel mappings and the symbols and offsets of the guest kernel.
    - [PageTable] ([memory.c], [memory.h]): the walk of [trans_addr] and the
      processor's four-level walk it refines.
    - [ListH] ([list.h]): intrusive lists on a heap whose freed blocks are
      remembered.
    - [Text]: the formats of printf that the listers print.
    - [Tasks], [Modules], [NetDev] ([tasks.c], [module.c], [net.c]): a
      traversal each, and what is printed.
    - [Float32], [MemUsage], [CpuUsage] ([mem_usage.c], [cpu_usage.c]): the
      figures, with single-precision percentages.
    - [Config] ([configuration.c]): the guest's host name.
    - [SyscallChecker] ([syscall_checker.c]): start, stop and the checking
      thread, alone and interleaved with the guest.
    - [Daemon] ([daemon.c]): the report as libxml2 calls, what the listener
      sends, the life of its thread and socket.
    - [Hmp] ([extra_hmp.c]): all commands over the state they share.
    - [MemSlots] ([kvm_main.c], [kvm_host.h]): the slot table.
    - [GuestCopy] ([kvm_main.c]): guest reads and writes with dirty logging.
    - [KvmCrypto] ([kvm_crypto.c]): queue, threads and hypercall.
    - [Hypercall] ([x86.c], [programs/kvm_crypto_mod]): the dispatch of
      hypercalls, the guest's driver and its user program, over [KvmCrypto]
      and [ApicBus].
    - [I8259] ([i8259.c], [irq.h]): the two interrupt controllers.
    - [Lapic] ([lapic.c]): one local APIC: bit vectors, priorities, taking
      and ending an interrupt, the timer.
    - [ApicBus] ([lapic.c], [irq_comm.c]): all of them: addressing, the
      lookup table, delivery, reset and the startup of processors.
    - [IoApic] ([ioapic.c]): pins, messages, ends of interrupt, the register
      window; over any state [E] of the devices behind its notifiers.
    - [IrqRouting] ([irqchip.c], [irq_comm.c]): the routing table and
      injection; [vm D] is the state of all controllers, with devices [D].
    - [IrqVm] ([lapic.c], [irq.c]): register accesses that reach other
      controllers, restored states, the next interrupt, and histories.
    - [I8254] ([i8254.c], [x86.c]): the interval timer, a device of that
      machine, with the host's timer and the worker thread.
    - [Spte] ([mmu.c]): entries of the processor's page tables, their
      updates in a race with the processor, entries for MMIO.
    - [PteList], [Rmap], [RmapSpec] ([mmu.c]): lists of pointers to entries
      with the pool of their descriptors, the reverse map, its handlers for
      ranges of host addresses, write protection.
    - [ShadowPages], [ShadowSpec], [RoomSpec] ([mmu.c]): pages of entries,
      found by hash, unsynchronised or not, zapped one by one, by generation
      and to make room; their invariant [settled] and that each operation
      keeps it.
    - [DirectMap] ([mmu.c]): a fault with two-dimensional paging, whole; its
      proofs are in [PageRefs] (references to host pages), [DirectSpec] and
      [DirectSet] (one entry), [DirectFault] (the walk to it), [LargePages]
      (page sizes, with [kvm_arch_create_memslot] of [x86.c]) and
      [DirectTdp] (all of it, with room and caches).
    - [MmuRoots] ([mmu.c]): roots, loading, unloading, changes of mode.
    - [MmuNotifier], [MmuHistory] ([kvm_main.c], [kvm_host.h]): the notifiers,
      and histories of faults, notifiers and a host that changes.
    - [AsyncPf] ([async_pf.c], [x86.c]): faults a worker completes.
    - [HvaToPfn] ([kvm_main.c], [mmu.c]): from a guest frame to a host frame.
    - [FaultPath]: the fault of [DirectMap] over the lookup of [HvaToPfn].
    - [Paging] ([mmu.c], [mmu.h], [paging_tmpl.h]): the modes of the guest
      and the tables made for them, beside the architecture's rules.
    - [GuestWalk], [WalkSpec] ([paging_tmpl.h]): the walker of the guest's
      page tables, the processor's walk, and that they agree.
    - [Xbzrle] ([xbzrle.c], [util/cutils.c]): encoder and decoder.
    - [PageCache] ([page_cache.c]): the cache over a heap of page buffers.
    - [Fifo8] ([util/fifo8.c]): the ring buffer.

    A definition has the name of the C function it translates; helpers for
    the body of a loop or one branch are named after what they do, and the
    comment before them says which statement they are.

    ** What the theorems show

    - Refinement: the page walk computes the processor's translation for
      present 4 KB pages; the ring buffer implements a bounded queue; a
      level-triggered pin of the I/O APIC implements an abstract line; the
      word scans of XBZRLE are byte scans; guest copies by pages are copies
      by bytes; the walker of the guest's page tables is the processor's walk,
      with its error codes, its rights and its accessed and dirty bits, also
      when one word serves several levels.
    - The memory management unit: a fault with two-dimensional paging ends,
      unless a slot leads to ordinary memory that is mapped as raw frames,
      and leaves only translations the host has, in order and without a
      leaked or doubled reference to a host page; in any history of one
      processor's faults, notifiers and changes of the host, of the sizes of
      its pages too, no stale translation survives; a
      range of host addresses taken away removes exactly its entries; the
      update of an entry is atomic although it often uses a plain store; the
      tables of the modes answer by the architecture's rules.
    - Functional results: each lister prints exactly the guest's list; the
      figures are the sums of the guest's counters; a memory region request
      makes the change asked for; an insertion into the page cache and a
      resize have the effect on lookups they promise; the hypercall returns
      the cipher of the guest's input; a message with a destination below the
      broadcast reaches exactly the processors it addresses, by the lookup
      table as by a scan; a local
      APIC gives the interrupt of highest priority; its timer counts as
      programmed; INIT and STARTUP start a processor.
    - Round trips: XBZRLE encode and decode, guest write and read, entries
      of the I/O APIC through its window, a counter of the interval timer
      programmed and read, and a user's buffer encrypted and decrypted by
      the guest's driver, the hypercall and the pool together.
    - Typing and errors: every routing table the ioctl installs is well
      formed, and a refused request changes nothing; a hypercall is refused
      exactly outside ring 0 or with an unknown number; the accesses a local
      APIC refuses, exactly, have no effect, and the others leave the written
      bits in their register.
    - Progress: an interrupt line still asserted at the end of interrupt
      interrupts every addressed processor again, from the guest's write of
      the register through both APICs, also when the notifiers of the end of
      interrupt change the line; ticks of the interval timer that wait
      are all injected once the guest acknowledges.
    - Invariants over histories: slot table, page cache, listener, monitor
      session, rows of CPU counters, and the whole interrupt machine, also
      with the interval timer in it, under any sequence of guest, device and
      user-space operations; no tick of the timer is lost or counted twice.
    - Concurrency: the crypto pool under any interleaving of hypercalls and
      threads; the checker interleaved with the guest.
    - Faults, proved on the same definitions: reads of freed list entries, a
      guest list that never ends, a hook hidden behind a zero entry, an
      array sized by one read of guest memory and filled by another, and in
      the hypercall a request longer than its buffer, one whose length the guest changes
      between two fetches, jobs freed in use, and a failure the driver does
      not report; a logical destination the scan cuts to a byte, a counter
      restored without a count, a square wave of odd length, the reference
      of a reserved page that is never dropped.

    ** Machine integers, errors and fuel

    C integers are [Z] in the range of their type with the truncation
    written where the C type wraps.  Undefined behaviour and failed
    [BUG_ON]s are values of [err], so that a theorem whose conclusion is
    [Ok] excludes them.  The [ASSERT]s of kvm-kmod are empty in its build
    ([mmu.c] undefines MMU_DEBUG, and DEBUG is not defined) and are not
    modelled.  Loops whose length the guest decides take fuel.
    Their theorems state results and not only partial correctness: the
    traversals return with fuel of the length of the guest's list, the
    copies compute their own fuel from the length ([page_fuel]), the
    encoder and decoder run with one turn more than the bytes of their
    input, and [get_cpu_num] with the 64 bits of its mask.  The mutual
    recursion of the real-time clock's tracking in [IoApic] takes depth 2,
    which is proved to be enough.  Zapping pages takes the square of one more
    than the number of pages ([zap_enough]); the processor's translation five
    levels; the walker of the guest's page tables six rounds, one more than
    the bits there are to set.

    ** Parameters

    Code outside the repository is a parameter of the definitions that use
    it: libxml2 and sockets ([Daemon]), the kernel's [sort] and the outcomes
    of allocation and mapping ([MemSlots]), the block cipher ([KvmCrypto]),
    acknowledgement and mask notifiers ([I8259], [IoApic], [IrqVm], where the
    classes [AckNotifier], [DeviceNotifier] and [NotifiersOk] state what the
    controllers rely on; [I8254] has instances), the time and the time stamp
    counter ([Lapic], [I8254]), the guest's
    CPUID bit for x2APIC, the guest kernel's allocator and the fields it leaves
    uninitialised ([Hypercall]), [g_try_malloc] ([PageCache]), the page table
    and areas of the host process, [get_user_pages] and the kernel's
    allocators ([Rmap], [DirectMap], [HvaToPfn], [GuestWalk]), [hash_32]
    ([AsyncPf]), and, modelled nowhere here though it is in the repository,
    the synchronisation of one shadow page ([ShadowPages]).  Every
    theorem with a hypothesis on a parameter has a witness with a concrete
    one.

    ** Not modelled

    Upstream QEMU and KVM beyond the files named (processor back ends, the
    instruction emulator, device models, block layer, code translation), which the
    introspection code only calls; registration and teardown with the host
    kernel; RCU, locks and wait queues, which appear as the atomicity of
    steps; the module that prints structure offsets; bundled firmware and generated files.  Of the local
    APIC: hardware-assisted delivery (APICv, posted interrupts), the
    paravirtual end of interrupt and the vapic page, reports of TPR accesses,
    and the static keys, which only skip tests.  The controllers' locks make
    their operations atomic here; the I/O APIC drops its lock around a
    notifier, so what a notifier does to the machine is a step in between.
    Of the memory management unit: filling, synchronising and invalidating
    shadows of guest page tables, whose entries are made from the guest's
    words ([FNAME(fetch)], [FNAME(sync_page)], [FNAME(invlpg)]), emulated
    writes to guest page tables, the shrinker, the audit and nested paging. *)

From stdpp Require Export base gmap list strings.
From Stdlib Require Export ZArith Lia.

#[global] Open Scope Z_scope.

(** ** Machine integers

    A w-bit unsigned C integer is a [Z] in [0, 2^w); every C operation
    that can wrap is followed by the truncation of its type. *)

Definition u8 (z : Z) : Z := z mod 2 ^ 8.
Definition u16 (z : Z) : Z := z mod 2 ^ 16.
Definition u32 (z : Z) : Z := z mod 2 ^ 32.
Definition u64 (z : Z) : Z := z mod 2 ^ 64.

(** Conversion to [int] (two's complement, 32 bits). *)
Definition s32 (z : Z) : Z := (z + 2 ^ 31) mod 2 ^ 32 - 2 ^ 31.

(** ** Errors

    What can go wrong in the modelled C code.  Every constructor but the
    last two is behaviour the C standard leaves undefined; [AssertFailed]
    is a failed assertion or a call of [abort]; [OutOfFuel] says that a loop did not finish within the number of
    iterations the caller of the model allowed. *)

Inductive err : Type :=
| OutOfRam        (** access outside the guest RAM block *)
| BufferOverflow  (** write past the end of a host buffer *)
| BadPointer      (** dereference of a pointer to no object *)
| Uninitialized   (** use of a variable that was never assigned *)
| BadArith        (** division by zero or too large a shift *)
| AssertFailed    (** failed assertion, or [abort] *)
| OutOfFuel.      (** loop iteration bound of the model reached *)

#[global] Instance err_eq_dec : EqDecision err.
Proof. solve_decision. Defined.

Inductive res (A : Type) : Type :=
| Ok (a : A)
| Err (e : err).
Arguments Ok {A} a.
Arguments Err {A} e.

#[global] Instance res_ret : MRet res := fun A a => Ok a.
#[global] Instance res_bind : MBind res :=
  fun A B f m => match m with Ok a => f a | Err e => Err e end.

(** State passing with errors: code that mutates a host-side state. *)
Definition st (S A : Type) : Type := S -> res (A * S).

#[global] Instance st_ret S : MRet (st S) := fun A a s => Ok (a, s).
#[global] Instance st_bind S : MBind (st S) :=
  fun A B f m s => match m s with Ok (a, s') => f a s' | Err e => Err e end.

Definition lift_res {S A} (r : res A) : st S A :=
  fun s => match r with Ok a => Ok (a, s) | Err e => Err e end.

(** ** Lemmas on machine integers *)

Lemma u64_range z : 0 <= u64 z < 2 ^ 64.
Proof. apply Z.mod_pos_bound. lia. Qed.

Lemma u64_small z : 0 <= z < 2 ^ 64 -> u64 z = z.
Proof. apply Z.mod_small. Qed.

Lemma u64_u64 z : u64 (u64 z) = u64 z.
Proof. apply u64_small, u64_range. Qed.

Lemma u64_add_l a b : u64 (u64 a + b) = u64 (a + b).
Proof. apply Zplus_mod_idemp_l. Qed.

Lemma u64_add_r a b : u64 (a + u64 b) = u64 (a + b).
Proof. apply Zplus_mod_idemp_r. Qed.

Lemma u64_sub_l a b : u64 (u64 a - b) = u64 (a - b).
Proof. apply Zminus_mod_idemp_l. Qed.

Lemma u64_sub_r a b : u64 (a - u64 b) = u64 (a - b).
Proof. apply Zminus_mod_idemp_r. Qed.

(** *** Bit operations and ranges *)

Lemma land_split x y : x = Z.ldiff x y + Z.land x y.
Proof.
  pose proof (Z.add_lor_land (Z.ldiff x y) (Z.land x y)) as E. rewrite Z.lor_ldiff_and in E.
  rewrite <- E. replace (Z.land (Z.ldiff x y) (Z.land x y)) with 0; [lia|].
  apply Z.bits_inj'. intros i Hi. rewrite Z.bits_0, !Z.land_spec, Z.ldiff_spec.
  by destruct (Z.testbit x i), (Z.testbit y i).
Qed.

Lemma land_le_l x y : 0 <= x -> Z.land x y <= x.
Proof. intros Hx. pose proof (land_split x y). assert (0 <= Z.ldiff x y) by (apply Z.ldiff_nonneg; lia). lia. Qed.

Lemma land_le_r x y : 0 <= y -> Z.land x y <= y.
Proof. rewrite Z.land_comm. apply land_le_l. Qed.

Lemma ldiff_le x y : 0 <= x -> Z.ldiff x y <= x.
Proof. intros Hx. pose proof (land_split x y). assert (0 <= Z.land x y) by (apply Z.land_nonneg; lia). lia. Qed.

Lemma testbit_above x n i : 0 <= x < 2 ^ n -> 0 <= n <= i -> Z.testbit x i = false.
Proof. intros Hx Hi. rewrite <- (Z.mod_small x (2 ^ n)) by done. apply Z.mod_pow2_bits_high. lia. Qed.

(** Whether any bit of a mask is set. *)
Definition any (x mask : Z) : bool := negb (Z.land x mask =? 0).

Lemma any_spec x y : any x y = true <-> Z.land x y <> 0.
Proof. unfold any. destruct (Z.eqb_spec (Z.land x y) 0); cbn; split; done || congruence. Qed.

Lemma any_pow2 i l : 0 <= i -> any (2 ^ i) l = Z.testbit l i.
Proof.
  intros Hi. apply eq_true_iff_eq. rewrite any_spec. destruct (Z.testbit l i) eqn:E.
  - split; [done|]. intros _ H0. assert (H : Z.testbit (Z.land (2 ^ i) l) i = true)
      by (rewrite Z.land_spec, Z.pow2_bits_true by done; by rewrite E).
    by rewrite H0, Z.testbit_0_l in H.
  - split; [|done]. intros H. exfalso. apply H. apply Z.bits_inj'. intros j Hj. rewrite Z.land_spec, Z.testbit_0_l.
    destruct (Z.eq_dec i j) as [<-|Hne]; [by rewrite E, andb_false_r|]. by rewrite Z.pow2_bits_false.
Qed.

(** *** Congruence modulo 2^64

    Sums of counters are compared up to wrap-around: [eqm] is a congruence
    for the ring operations, and truncation disappears under it. *)

Definition eqm (a b : Z) : Prop := u64 a = u64 b.

#[global] Instance eqm_equiv : Equivalence eqm.
Proof. split; unfold eqm; [by intros ?|by intros ???|intros ?????; congruence]. Qed.

#[global] Instance eqm_add : Proper (eqm ==> eqm ==> eqm) Z.add.
Proof.
  unfold eqm. intros a a' Ha b b' Hb.
  by rewrite <- u64_add_l, <- u64_add_r, Ha, Hb, u64_add_l, u64_add_r.
Qed.

#[global] Instance eqm_sub : Proper (eqm ==> eqm ==> eqm) Z.sub.
Proof.
  unfold eqm. intros a a' Ha b b' Hb.
  by rewrite <- u64_sub_l, <- u64_sub_r, Ha, Hb, u64_sub_l, u64_sub_r.
Qed.

Lemma eqm_u64 a : eqm (u64 a) a.
Proof. apply u64_u64. Qed.

(** ** Lemmas on the error monad *)

Lemma bind_Ok_inv {A B} (m : res A) (f : A -> res B) b :
  (m ≫= f) = Ok b -> exists a, m = Ok a /\ f a = Ok b.
Proof. destruct m as [a|e]; cbn; [eauto|discriminate]. Qed.

Lemma bind_Ok {A B} (a : A) (f : A -> res B) : (Ok a ≫= f) = f a.
Proof. done. Qed.

Lemma bind_Err {A B} e (f : A -> res B) : (Err e ≫= f) = Err e.
Proof. done. Qed.

Lemma st_bind_Ok {S A B} (m : st S A) (f : A -> st S B) s a s' :
  m s = Ok (a, s') -> (m ≫= f) s = f a s'.
Proof. unfold mbind, st_bind. by intros ->. Qed.

Lemma st_bind_assoc {S A B C} (m : st S A) (f : A -> st S B) (g : B -> st S C) s :
  ((m ≫= f) ≫= g) s = (m ≫= fun a => f a ≫= g) s.
Proof. unfold mbind, st_bind. by destruct (m s) as [[a s']|e]. Qed.

Lemma st_bind_Err {S A B} (m : st S A) (f : A -> st S B) s e :
  m s = Err e -> (m ≫= f) s = Err e.
Proof. unfold mbind, st_bind. by intros ->. Qed.

Lemma st_bind_inv {S A B} (m : st S A) (f : A -> st S B) s b s' :
  (m ≫= f) s = Ok (b, s') -> exists a s1, m s = Ok (a, s1) /\ f a s1 = Ok (b, s').
Proof. unfold mbind, st_bind. destruct (m s) as [[a s1]|e]; [eauto|discriminate]. Qed.

Lemma lift_res_inv {S A} (r : res A) (s : S) a s' :
  lift_res r s = Ok (a, s') -> r = Ok a /\ s' = s.
Proof. unfold lift_res. destruct r; [|discriminate]. by intros [= -> ->]. Qed.

Lemma lift_res_Ok {S A} (r : res A) (s : S) a : r = Ok a -> lift_res r s = Ok (a, s).
Proof. by intros ->. Qed.

Create HintDb mach discriminated.
Create Rewrite HintDb mach.
#[export] Hint Resolve u64_range u64_small : mach.
#[export] Hint Rewrite u64_u64 u64_add_l u64_add_r u64_sub_l u64_sub_r : mach.
#[export] Hint Rewrite @bind_Ok @bind_Err : mach.

(** ** Tactics *)

(** An equation between 64-bit sums that differ by inner truncations. *)
Ltac u64_congr :=
  match goal with
  | |- u64 ?a = u64 ?b => change (eqm a b); rewrite ?eqm_u64; unfold eqm; f_equal; lia
  end.

(** Case split on an integer comparison of the code, in the goal. *)
Ltac zcase :=
  match goal with
  | |- context [Z.eqb ?a ?b] => destruct (Z.eqb_spec a b)
  | |- context [Z.ltb ?a ?b] => destruct (Z.ltb_spec a b)
  | |- context [Z.leb ?a ?b] => destruct (Z.leb_spec a b)
  end.

(** Discharge a comparison whose value is known to [lia]. *)
Ltac zsimp :=
  repeat match goal with
  | |- context [Z.eqb ?a ?b] =>
      first [ rewrite (proj2 (Z.eqb_eq a b)) by lia
            | rewrite (proj2 (Z.eqb_neq a b)) by lia ]
  | |- context [Z.ltb ?a ?b] =>
      first [ rewrite (proj2 (Z.ltb_lt a b)) by lia
            | rewrite (proj2 (Z.ltb_ge a b)) by lia ]
  | |- context [Z.leb ?a ?b] =>
      first [ rewrite (proj2 (Z.leb_le a b)) by lia
            | rewrite (proj2 (Z.leb_gt a b)) by lia ]
  end.

(** Evaluate the [decide]s whose proposition is settled by the context. *)
Ltac decide_all :=
  repeat first [ rewrite decide_True by done | rewrite decide_False by done ].
