(* ===== verification/GuestMem.v ===== *)
(** * Guest physical memory as the plugin sees it

    [qemu_get_ram_ptr(0)] gives the plugin the host address [mem] of the
    first byte of the guest RAM block; the plugin then reads and writes
    [*(T * )(mem + gpa)].  The model keeps the block as a size and the
    bytes written so far (RAM starts zeroed) and identifies the host
    pointer [mem + gpa] with the 64-bit offset [gpa]: pointer arithmetic
    wraps at 2^64 and an access that is not inside the block is
    [OutOfRam].  The host is a little-endian x86-64. *)

From coqutil Require Import Byte Word.LittleEndianList.
From S2P Require Import Prelude.

#[global] Instance byte_eq_dec : EqDecision byte := Byte.byte_eq_dec.

Record ram := Ram {
  ram_size : Z;
  ram_data : gmap Z byte
}.

Definition byte_at (m : ram) (a : Z) : byte := default Byte.x00 (ram_data m !! a).

Definition load_bytes (m : ram) (a : Z) (n : nat) : list byte :=
  (fun i => byte_at m (a + Z.of_nat i)) <$> seq 0 n.

(** A read of [n] bytes at [mem + off], as an unsigned integer. *)
Definition ld (n : nat) (m : ram) (off : Z) : res Z :=
  let a := u64 off in
  if a + Z.of_nat n <=? ram_size m
  then Ok (le_combine (load_bytes m a n))
  else Err OutOfRam.

Fixpoint store_bytes (d : gmap Z byte) (a : Z) (bs : list byte) : gmap Z byte :=
  match bs with
  | [] => d
  | b :: bs => store_bytes (<[a := b]> d) (a + 1) bs
  end.

(** A write of [n] bytes at [mem + off]. *)
Definition sto (n : nat) (m : ram) (off v : Z) : res ram :=
  let a := u64 off in
  if a + Z.of_nat n <=? ram_size m
  then Ok (Ram (ram_size m) (store_bytes (ram_data m) a (le_split n v)))
  else Err OutOfRam.

Abbreviation ld64 := (ld 8).
Abbreviation ld32 := (ld 4).
Abbreviation st64 := (sto 8).

(** [*(char * )(mem + off)] *)
Definition ldb (m : ram) (off : Z) : res byte :=
  let a := u64 off in
  if a + 1 <=? ram_size m then Ok (byte_at m a) else Err OutOfRam.

(** The bytes of the NUL-terminated string at [mem + off]; [e] is the
    error when none of the first [n] bytes is NUL. *)
Fixpoint cstring (e : err) (n : nat) (m : ram) (off : Z) : res (list byte) :=
  match n with
  | O => Err e
  | S n =>
      c ← ldb m off;
      if decide (c = Byte.x00) then Ok []
      else s ← cstring e n m (off + 1); Ok (c :: s)
  end.

(** [sprintf(buf, "%s", mem + off)] with [char buf[cap]]: the copied
    string, or an overflow when string and terminator do not fit. *)
Definition sprintf_s (cap : nat) (m : ram) (off : Z) : res (list byte) :=
  cstring BufferOverflow cap m off.

(** ** Properties of loads and stores *)

Lemma length_load_bytes m a n : length (load_bytes m a n) = n.
Proof. unfold load_bytes. by rewrite length_fmap, length_seq. Qed.

Lemma ld_range n m off v : ld n m off = Ok v -> 0 <= v < 2 ^ (8 * Z.of_nat n).
Proof.
  unfold ld. destruct (_ <=? _); [|discriminate]. intros [= <-].
  pose proof (le_combine_bound (load_bytes m (u64 off) n)) as H.
  rewrite length_load_bytes in H. exact H.
Qed.

Lemma ld64_u64 m off v : ld64 m off = Ok v -> u64 v = v.
Proof. intros H%ld_range. by apply u64_small. Qed.

Lemma ld_off_u64 n m off : ld n m (u64 off) = ld n m off.
Proof. unfold ld. by rewrite u64_u64. Qed.

Lemma ld_in_ram n m off v : ld n m off = Ok v -> u64 off + Z.of_nat n <= ram_size m.
Proof. unfold ld. destruct (Z.leb_spec (u64 off + Z.of_nat n) (ram_size m)); [done|discriminate]. Qed.

Lemma store_bytes_lookup_ne d a bs k :
  k < a \/ a + Z.of_nat (length bs) <= k -> store_bytes d a bs !! k = d !! k.
Proof.
  revert d a. induction bs as [|b bs IH]; intros d a Hk; [done|].
  cbn [store_bytes length] in *. rewrite IH by lia.
  rewrite lookup_insert_ne; [done|lia].
Qed.

Lemma store_bytes_lookup d a bs (i : nat) b :
  bs !! i = Some b -> store_bytes d a bs !! (a + Z.of_nat i) = Some b.
Proof.
  revert d a i. induction bs as [|c bs IH]; intros d a i Hi; [done|].
  cbn [store_bytes]. destruct i as [|i]; cbn in Hi.
  - injection Hi as ->. rewrite Z.add_0_r, store_bytes_lookup_ne by lia.
    apply lookup_insert_eq.
  - replace (a + Z.of_nat (S i)) with ((a + 1) + Z.of_nat i) by lia. by apply IH.
Qed.

Lemma load_store_bytes sz d a bs :
  load_bytes (Ram sz (store_bytes d a bs)) a (length bs) = bs.
Proof.
  apply list_eq. intros i. unfold load_bytes. rewrite list_lookup_fmap.
  destruct (bs !! i) as [b|] eqn:Hb.
  - pose proof (lookup_lt_Some _ _ _ Hb).
    rewrite lookup_seq_lt by done. cbn. unfold byte_at. cbn.
    by rewrite (store_bytes_lookup _ _ _ _ _ Hb).
  - apply lookup_ge_None in Hb. by rewrite lookup_seq_ge.
Qed.

(** Reading back what was stored. *)
Lemma ld_sto_eq n m off v m' :
  sto n m off v = Ok m' -> ld n m' off = Ok (v mod 2 ^ (Z.of_nat n * 8)).
Proof.
  unfold sto, ld. destruct (_ <=? _) eqn:E; [|discriminate]. intros [= <-].
  cbn [ram_size ram_data]. rewrite E.
  pose proof (load_store_bytes (ram_size m) (ram_data m) (u64 off) (le_split n v)) as H.
  rewrite length_le_split in H. by rewrite H, le_combine_split.
Qed.

(** A store does not change the bytes outside its range. *)
Lemma byte_at_sto_ne n m off v m' k :
  sto n m off v = Ok m' -> k < u64 off \/ u64 off + Z.of_nat n <= k ->
  byte_at m' k = byte_at m k.
Proof.
  unfold sto. destruct (_ <=? _); [|discriminate]. intros [= <-] Hk.
  unfold byte_at. cbn. by rewrite store_bytes_lookup_ne by (rewrite length_le_split; lia).
Qed.

Lemma sto_size n m off v m' : sto n m off v = Ok m' -> ram_size m' = ram_size m.
Proof. unfold sto. destruct (_ <=? _); [|discriminate]. by intros [= <-]. Qed.

Lemma ld_sto_ne k n m off off' v m' :
  sto n m off v = Ok m' ->
  u64 off' + Z.of_nat k <= u64 off \/ u64 off + Z.of_nat n <= u64 off' ->
  ld k m' off' = ld k m off'.
Proof.
  intros Hst Hd. unfold ld. rewrite (sto_size _ _ _ _ _ Hst).
  destruct (_ <=? _); [|done]. do 2 f_equal. unfold load_bytes.
  apply list_fmap_ext. intros i j [-> Hj]%lookup_seq.
  apply (byte_at_sto_ne _ _ _ _ _ _ Hst). lia.
Qed.

(** A store inside the block succeeds. *)
Lemma sto_ok n m off v :
  u64 off + Z.of_nat n <= ram_size m -> is_Some (match sto n m off v with Ok m' => Some m' | _ => None end).
Proof. intros H. unfold sto. rewrite (proj2 (Z.leb_le _ _)) by done. by eexists. Qed.

(** ** C strings *)

(** The NUL-terminated string [s] is stored at offset [off]. *)
Fixpoint has_cstr (m : ram) (off : Z) (s : list byte) : Prop :=
  match s with
  | [] => ldb m off = Ok Byte.x00
  | c :: s => ldb m off = Ok c /\ c <> Byte.x00 /\ has_cstr m (off + 1) s
  end.

Lemma cstring_ok e n m off s :
  has_cstr m off s -> (length s < n)%nat -> cstring e n m off = Ok s.
Proof.
  revert n off. induction s as [|c s IH]; intros [|n] off H Hn; cbn in *; try lia.
  - by rewrite H.
  - destruct H as (-> & Hc & H). cbn. rewrite decide_False by done.
    by rewrite (IH n) by (done || lia).
Qed.

Lemma cstring_too_long e n m off s :
  has_cstr m off s -> (n <= length s)%nat -> cstring e n m off = Err e.
Proof.
  revert n off. induction s as [|c s IH]; intros [|n] off H Hn; cbn in *; try lia; try done.
  destruct H as (-> & Hc & H). cbn. rewrite decide_False by done.
  by rewrite (IH n) by (done || lia).
Qed.

Lemma cstring_sound e n m off s :
  cstring e n m off = Ok s -> has_cstr m off s /\ (length s < n)%nat.
Proof.
  revert off s. induction n as [|n IH]; intros off s H; cbn in H; [discriminate|].
  apply bind_Ok_inv in H as (c & Hc & H). case_decide as Hz.
  - injection H as <-. subst. cbn. auto with lia.
  - apply bind_Ok_inv in H as (s' & Hs & [= <-]). apply IH in Hs as [? ?].
    cbn. auto with lia.
Qed.

(** ** Concrete memories

    A RAM block of [size] bytes with the given contents, for examples. *)

Definition ram_of (size : Z) (l : list (Z * list byte)) : ram :=
  Ram size (foldr (fun '(a, bs) d => store_bytes d a bs) ∅ l).

Definition word64 (v : Z) : list byte := le_split 8 v.
Definition word32 (v : Z) : list byte := le_split 4 v.
Definition cstr (s : string) : list byte := String.list_byte_of_string s ++ [Byte.x00].
