(* ===== verification/LinuxX86.v ===== *)
(** * Address arithmetic of the Linux x86-64 guest

    The guest symbols of plugin/symbol-x86_64.h that describe the kernel's
    two linear mappings, and the conversions of plugin/linux-x86_64.c and
    plugin/lib.c built on them. *)

From S2P Require Import Prelude.

(** ** plugin/symbol-x86_64.h: guest OS memory mapping *)

Definition __START_KERNEL_map : Z := 0xffffffff80000000.
Definition PAGE_OFFSET : Z := 0xffff880000000000.

(** ** plugin/linux-x86_64.c *)

(** GPA to GVA, through the kernel's direct mapping. *)
Definition __va (x : Z) : Z := u64 (x + PAGE_OFFSET).

(** GVA to GPA.  The comparison [x > y] is the carry of the subtraction:
    it tells the kernel image mapping from the direct mapping. *)
Definition virt_to_phys (x : Z) : Z :=
  let y := u64 (x - __START_KERNEL_map) in
  u64 (y + (if x >? y then 0x0 else u64 (__START_KERNEL_map - PAGE_OFFSET))).

Definition __pa (x : Z) : Z := virt_to_phys x.

(** ** plugin/lib.c *)

(** [(unsigned long)log2((double)v)], which is the integer logarithm for
    the powers of two the plugin calls it with ([PTRS_PER_PTE]). *)
Definition ilog2 (v : Z) : Z := Z.log2 v.

(** ** Properties *)

(** An address of the kernel image mapping. *)
Definition in_kernel_map (x : Z) : Prop := __START_KERNEL_map <= x < 2 ^ 64.

(** An address of the direct mapping of physical memory. *)
Definition in_direct_map (x : Z) : Prop := PAGE_OFFSET <= x < __START_KERNEL_map.

Lemma virt_to_phys_kernel x :
  in_kernel_map x -> virt_to_phys x = x - __START_KERNEL_map.
Proof.
  unfold in_kernel_map, virt_to_phys, __START_KERNEL_map, u64. intros H.
  rewrite (Z.mod_small (x - _)) by lia.
  rewrite Z.gtb_ltb, (proj2 (Z.ltb_lt _ _)) by lia.
  rewrite Z.add_0_r. apply Z.mod_small. lia.
Qed.

Lemma virt_to_phys_direct x :
  in_direct_map x -> virt_to_phys x = x - PAGE_OFFSET.
Proof.
  unfold in_direct_map, virt_to_phys, __START_KERNEL_map, PAGE_OFFSET, u64. intros H.
  replace ((x - 18446744071562067968) mod 2 ^ 64)
    with (x - 18446744071562067968 + 2 ^ 64).
  2: { rewrite <- (Z.mod_add _ 1) by lia. symmetry. apply Z.mod_small. lia. }
  rewrite Z.gtb_ltb, (proj2 (Z.ltb_ge _ _)) by lia.
  replace ((18446744071562067968 - 18446612132314218496) mod 2 ^ 64)
    with (18446744071562067968 - 18446612132314218496) by reflexivity.
  replace (_ + _) with ((x - 18446612132314218496) + 1 * 2 ^ 64) by lia.
  rewrite Z.mod_add by lia. apply Z.mod_small. lia.
Qed.

(** Physical addresses the direct mapping covers below the kernel image. *)
Definition direct_mapped (p : Z) : Prop :=
  0 <= p < __START_KERNEL_map - PAGE_OFFSET.

Lemma __va_direct p : direct_mapped p -> __va p = p + PAGE_OFFSET.
Proof.
  unfold direct_mapped, __va, __START_KERNEL_map, PAGE_OFFSET. intros.
  apply u64_small. lia.
Qed.

Lemma virt_to_phys_va p : direct_mapped p -> virt_to_phys (__va p) = p.
Proof.
  intros H. rewrite __va_direct by done.
  rewrite virt_to_phys_direct; [lia|].
  unfold direct_mapped, in_direct_map in *. lia.
Qed.

Lemma virt_to_phys_va_off p k :
  0 <= k -> direct_mapped p -> direct_mapped (p + k) ->
  virt_to_phys (u64 (__va p + k)) = p + k.
Proof.
  intros. transitivity (virt_to_phys (__va (p + k))); [|by apply virt_to_phys_va].
  unfold __va. rewrite u64_add_l. do 2 f_equal. lia.
Qed.

#[export] Hint Rewrite virt_to_phys_va using done : mach.

(** ** Claims *)

(** [virt_to_phys] inverts both of the kernel's linear mappings: an
    address of the kernel image goes to its offset in the image, an
    address of the direct mapping to the physical address it maps, and
    [__va] followed by [virt_to_phys] is the identity on every physical
    address below the kernel image's window, with no 64-bit wrap-around. *)
Theorem virt_to_phys_correct :
  (forall x, in_kernel_map x -> virt_to_phys x = x - __START_KERNEL_map) /\
  (forall x, in_direct_map x -> virt_to_phys x = x - PAGE_OFFSET) /\
  (forall p, direct_mapped p -> in_direct_map (__va p) /\ __pa (__va p) = p).
Proof.
  split_and!; [exact virt_to_phys_kernel|exact virt_to_phys_direct|].
  intros p Hp. split; [|by apply virt_to_phys_va].
  rewrite __va_direct by done. unfold in_direct_map, direct_mapped in *. lia.
Qed.

Lemma virt_to_phys_correct_witness :
  virt_to_phys 0xffffffff81c14440 = 0x1c14440 /\ __pa (__va 0x100000) = 0x100000.
Proof.
  split.
  - rewrite (proj1 virt_to_phys_correct); [done|].
    unfold in_kernel_map, __START_KERNEL_map. lia.
  - apply (proj2 (proj2 virt_to_phys_correct)).
    unfold direct_mapped, __START_KERNEL_map, PAGE_OFFSET. lia.
Defined.
