(* ===== verification/PageTable.v ===== *)
(** * Guest page-table walk (plugin/memory.h, plugin/memory.c)

    The four-level walk [trans_addr] uses to turn a guest virtual address
    into a guest physical one, and the architectural walk it is meant to
    implement. *)

From S2P Require Import Prelude GuestMem LinuxX86.

(** ** plugin/memory.h *)

Definition PGDIR_SHIFT : Z := 39.
Definition PTRS_PER_PGD : Z := 512.
Definition PUD_SHIFT : Z := 30.
Definition PTRS_PER_PUD : Z := 512.
Definition PMD_SHIFT : Z := 21.
Definition PTRS_PER_PMD : Z := 512.
Definition PTRS_PER_PTE : Z := 512.
Definition PAGE_SHIFT : Z := 12.
Definition PTE_PFN_MASK : Z := 0x00003ffffffff000.

Definition sizeof_unsigned_long : Z := 8.

Definition pgd_index (address : Z) : Z :=
  Z.land (Z.shiftr address PGDIR_SHIFT) (PTRS_PER_PGD - 1).
Definition pgd_offset (cr3 address : Z) : Z :=
  u64 (cr3 + sizeof_unsigned_long * pgd_index address).

(** The accessors that take a pointer to an entry read it from guest RAM. *)
Definition pgd_page_vaddr (m : ram) (pgd : Z) : res Z :=
  v ← ld64 m pgd; Ok (__va (Z.land v PTE_PFN_MASK)).

Definition pud_index (address : Z) : Z :=
  Z.land (Z.shiftr address PUD_SHIFT) (PTRS_PER_PUD - 1).
Definition pud_offset (m : ram) (pgd address : Z) : res Z :=
  b ← pgd_page_vaddr m pgd; Ok (u64 (b + pud_index address * sizeof_unsigned_long)).
Definition pud_page_vaddr (m : ram) (pud : Z) : res Z :=
  v ← ld64 m pud; Ok (__va (Z.land v PTE_PFN_MASK)).

Definition pmd_index (address : Z) : Z :=
  Z.land (Z.shiftr address PMD_SHIFT) (PTRS_PER_PMD - 1).
Definition pmd_offset (m : ram) (pud address : Z) : res Z :=
  b ← pud_page_vaddr m pud; Ok (u64 (b + pmd_index address * sizeof_unsigned_long)).
Definition pmd_page_vaddr (m : ram) (pmd : Z) : res Z :=
  v ← ld64 m pmd; Ok (__va (Z.land v PTE_PFN_MASK)).

Definition pte_index (address : Z) : Z :=
  Z.land (Z.shiftr address PAGE_SHIFT) (PTRS_PER_PTE - 1).
Definition pte_offset_kernel (m : ram) (pmd address : Z) : res Z :=
  b ← pmd_page_vaddr m pmd; Ok (u64 (b + pte_index address * sizeof_unsigned_long)).

Inductive pg_level := PG_LEVEL_NONE | PG_LEVEL_4K | PG_LEVEL_2M | PG_LEVEL_1G | PG_LEVEL_NUM.

Definition pg_level_val (l : pg_level) : Z :=
  match l with
  | PG_LEVEL_NONE => 0 | PG_LEVEL_4K => 1 | PG_LEVEL_2M => 2
  | PG_LEVEL_1G => 3 | PG_LEVEL_NUM => 4
  end.

Definition PTE_SHIFT : Z := ilog2 PTRS_PER_PTE.
Definition page_level_shift (level : pg_level) : Z :=
  s32 (u64 ((PAGE_SHIFT - PTE_SHIFT) + pg_level_val level * PTE_SHIFT)).
Definition page_level_size (level : pg_level) : Z :=
  u64 (Z.shiftl 1 (page_level_shift level)).
Definition page_level_mask (level : pg_level) : Z :=
  u64 (Z.lnot (page_level_size level - 1)).

Definition pte_pfn (m : ram) (pte : Z) : res Z :=
  v ← ld64 m pte; Ok (Z.shiftr (Z.land v PTE_PFN_MASK) PAGE_SHIFT).

(** ** plugin/memory.c *)

(** The NULL test is on the host address [mem + gpa], which is not NULL
    for an address inside the block. *)
Definition read_gpa_ul (m : ram) (gpa : Z) : res Z := ld64 m gpa.

Definition trans_addr (m : ram) (addr cr3 : Z) : res Z :=
  let pgd_gva := pgd_offset cr3 addr in
  let pgd_hva := virt_to_phys pgd_gva in
  pud_gva ← pud_offset m pgd_hva addr;
  let pud_hva := virt_to_phys pud_gva in
  pmd_gva ← pmd_offset m pud_hva addr;
  let pmd_hva := virt_to_phys pmd_gva in
  pte_gva ← pte_offset_kernel m pmd_hva addr;
  let pte_hva := virt_to_phys pte_gva in
  let page_mask := page_level_mask PG_LEVEL_4K in
  pfn ← pte_pfn m pte_hva;
  let phys_addr := u64 (Z.shiftl pfn PAGE_SHIFT) in
  let offset := Z.land addr (u64 (Z.lnot page_mask)) in
  Ok (Z.lor phys_addr offset).

(** ** The architecture's walk

    Intel SDM, 4-level paging with a 46-bit physical address: an entry
    has a present bit 0, a page-size bit 7 (at the levels that map 1 GB
    and 2 MB pages) and a frame number in bits 12 to 45. *)

Inductive mapping := NotPresent | Page4K (pa : Z) | Page2M (pa : Z) | Page1G (pa : Z).

Definition present (e : Z) : bool := Z.testbit e 0.
Definition page_size_bit (e : Z) : bool := Z.testbit e 7.
Definition frame (e : Z) : Z := (e / 2 ^ 12) mod 2 ^ 34 * 2 ^ 12.
Definition entry_addr (table va level : Z) : Z :=
  table + 8 * ((va / 2 ^ (12 + 9 * level)) mod 512).

Definition x86_walk (m : ram) (cr3 va : Z) : res mapping :=
  e4 ← ld64 m (entry_addr cr3 va 3);
  if negb (present e4) then Ok NotPresent else
  e3 ← ld64 m (entry_addr (frame e4) va 2);
  if negb (present e3) then Ok NotPresent else
  if page_size_bit e3 then Ok (Page1G (frame e3 / 2 ^ 30 * 2 ^ 30 + va mod 2 ^ 30)) else
  e2 ← ld64 m (entry_addr (frame e3) va 1);
  if negb (present e2) then Ok NotPresent else
  if page_size_bit e2 then Ok (Page2M (frame e2 / 2 ^ 21 * 2 ^ 21 + va mod 2 ^ 21)) else
  e1 ← ld64 m (entry_addr (frame e2) va 0);
  if negb (present e1) then Ok NotPresent else
  Ok (Page4K (frame e1 + va mod 2 ^ 12)).

(** What [trans_addr] computes, without the entries' flag bits. *)
Definition flat_walk (m : ram) (cr3 va : Z) : res Z :=
  e4 ← ld64 m (entry_addr cr3 va 3);
  e3 ← ld64 m (entry_addr (frame e4) va 2);
  e2 ← ld64 m (entry_addr (frame e3) va 1);
  e1 ← ld64 m (entry_addr (frame e2) va 0);
  Ok (frame e1 + va mod 2 ^ 12).

(** ** Properties *)

Lemma land_pfn_mask e : Z.land e PTE_PFN_MASK = frame e.
Proof.
  unfold frame, PTE_PFN_MASK.
  change 70368744173568 with (Z.shiftl (Z.ones 34) 12).
  rewrite <- Z.shiftr_div_pow2, <- Z.land_ones, <- Z.shiftl_mul_pow2 by lia.
  apply Z.bits_inj'. intros i Hi.
  rewrite Z.land_spec. destruct (Z.ltb_spec i 12).
  - rewrite !Z.shiftl_spec_low by lia. apply andb_false_r.
  - rewrite !Z.shiftl_spec by lia. rewrite Z.land_spec, Z.shiftr_spec by lia.
    do 2 f_equal. lia.
Qed.

Lemma frame_range e : 0 <= frame e /\ frame e + 4096 <= 2 ^ 46.
Proof. unfold frame. pose proof (Z.mod_pos_bound (e / 2 ^ 12) (2 ^ 34)). lia. Qed.

Lemma index_mod a s : 0 <= s -> Z.land (Z.shiftr a s) 511 = (a / 2 ^ s) mod 512.
Proof. intros. change 511 with (Z.ones 9). by rewrite Z.land_ones, Z.shiftr_div_pow2 by lia. Qed.

(** A table entry reached through the direct mapping. *)
Lemma table_entry_addr t va level s :
  0 <= t -> t + 4096 <= 2 ^ 46 -> s = 12 + 9 * level -> 0 <= level ->
  virt_to_phys (u64 (__va t + Z.land (Z.shiftr va s) 511 * 8)) = entry_addr t va level.
Proof.
  intros ? ? -> ?. rewrite index_mod, Z.mul_comm by lia. unfold entry_addr.
  pose proof (Z.mod_pos_bound (va / 2 ^ (12 + 9 * level)) 512).
  apply virt_to_phys_va_off; unfold direct_mapped, __START_KERNEL_map, PAGE_OFFSET; lia.
Qed.

Lemma page_offset_mask a :
  0 <= a < 2 ^ 64 ->
  Z.land a (u64 (Z.lnot (page_level_mask PG_LEVEL_4K))) = a mod 2 ^ 12.
Proof.
  intros. replace (u64 (Z.lnot (page_level_mask PG_LEVEL_4K))) with (Z.ones 12) by reflexivity.
  by rewrite Z.land_ones by lia.
Qed.

Lemma frame_lor_offset e a : Z.lor (frame e) (a mod 2 ^ 12) = frame e + a mod 2 ^ 12.
Proof.
  symmetry. rewrite <- Z.lxor_lor, Z.add_nocarry_lxor; [done| |];
    apply Z.bits_inj'; intros i Hi; rewrite Z.land_spec, Z.bits_0;
    unfold frame; rewrite <- Z.shiftl_mul_pow2 by lia;
    (destruct (Z.ltb_spec i 12);
     [rewrite Z.shiftl_spec_low by lia; done
     |rewrite (Z.mod_pow2_bits_high a) by lia; apply andb_false_r]).
Qed.

Lemma pfn_roundtrip e : u64 (Z.shiftl (Z.shiftr (Z.land e PTE_PFN_MASK) PAGE_SHIFT) PAGE_SHIFT) = frame e.
Proof.
  rewrite land_pfn_mask. unfold PAGE_SHIFT. pose proof (frame_range e).
  rewrite Z.shiftr_div_pow2, Z.shiftl_mul_pow2 by lia.
  unfold frame at 1. rewrite Z.div_mul by lia. fold (frame e). apply u64_small. lia.
Qed.

(** [trans_addr], with its masks and shifts, is the arithmetic walk. *)
Lemma trans_addr_flat m pgd va :
  0 <= va < 2 ^ 64 -> 0 <= pgd -> pgd + 4096 <= 2 ^ 46 ->
  trans_addr m va (__va pgd) = flat_walk m pgd va.
Proof.
  intros Hva Hp Hp'. unfold trans_addr, flat_walk.
  unfold pgd_offset, pgd_index, pud_offset, pgd_page_vaddr, pud_index, pmd_offset,
    pud_page_vaddr, pmd_index, pte_offset_kernel, pmd_page_vaddr, pte_index, pte_pfn,
    sizeof_unsigned_long, PTRS_PER_PGD, PTRS_PER_PUD, PTRS_PER_PMD, PTRS_PER_PTE.
  change (512 - 1) with 511. rewrite (Z.mul_comm 8 (Z.land (Z.shiftr va PGDIR_SHIFT) 511)).
  rewrite (table_entry_addr pgd va 3 PGDIR_SHIFT) by (done || lia).
  destruct (ld64 m (entry_addr pgd va 3)) as [e4|]; rewrite ?bind_Ok, ?bind_Err; [|done].
  rewrite land_pfn_mask.
  pose proof (frame_range e4) as [? ?].
  rewrite (table_entry_addr (frame e4) va 2 PUD_SHIFT) by (done || lia).
  destruct (ld64 m (entry_addr (frame e4) va 2)) as [e3|]; rewrite ?bind_Ok, ?bind_Err; [|done].
  rewrite land_pfn_mask.
  pose proof (frame_range e3) as [? ?].
  rewrite (table_entry_addr (frame e3) va 1 PMD_SHIFT) by (done || lia).
  destruct (ld64 m (entry_addr (frame e3) va 1)) as [e2|]; rewrite ?bind_Ok, ?bind_Err; [|done].
  rewrite land_pfn_mask.
  pose proof (frame_range e2) as [? ?].
  rewrite (table_entry_addr (frame e2) va 0 PAGE_SHIFT) by (done || lia).
  destruct (ld64 m (entry_addr (frame e2) va 0)) as [e1|]; rewrite ?bind_Ok, ?bind_Err; [|done].
  rewrite pfn_roundtrip, page_offset_mask by done. by rewrite frame_lor_offset.
Qed.

Lemma x86_walk_4k_flat m pgd va pa :
  x86_walk m pgd va = Ok (Page4K pa) -> flat_walk m pgd va = Ok pa.
Proof.
  unfold x86_walk, flat_walk. intros H.
  repeat (apply bind_Ok_inv in H as (? & -> & H); rewrite bind_Ok;
          repeat (case_match; try discriminate H)).
  by injection H as <-.
Qed.

(** ** Claims *)

(** C1: for every address the architecture's four-level walk maps through
    a 4 KB page, [trans_addr], called with the page directory's direct-map
    address as the tasks' [cr3] field holds it, returns the same physical
    address, and it never reads outside the tables that walk reads. *)
Theorem trans_addr_refines_x86 m pgd va pa :
  0 <= va < 2 ^ 64 -> 0 <= pgd -> pgd + 4096 <= 2 ^ 46 ->
  x86_walk m pgd va = Ok (Page4K pa) ->
  trans_addr m va (__va pgd) = Ok pa.
Proof. intros. rewrite trans_addr_flat by done. by apply x86_walk_4k_flat. Qed.

(** A guest with one page directory at 0x1000 that maps 0xffffffffa0000000
    (module space) through a 4 KB page and 0xffffffffa0200000 through a
    2 MB page. *)
Definition demo_va : Z := 0xffffffffa0000123.
Definition demo_large_va : Z := 0xffffffffa0200123.
Definition demo_page_ram : ram := ram_of 0x4000000 [
  (0x1000 + 8 * 511, word64 0x2067); (0x2000 + 8 * 510, word64 0x3067);
  (0x3000 + 8 * 256, word64 0x4067); (0x4000, word64 0x8000000000005067);
  (0x3000 + 8 * 257, word64 0xe00083)].

Lemma trans_addr_refines_x86_witness :
  x86_walk demo_page_ram 0x1000 demo_va = Ok (Page4K 0x5123) /\
  trans_addr demo_page_ram demo_va (__va 0x1000) = Ok 0x5123.
Proof.
  assert (H : x86_walk demo_page_ram 0x1000 demo_va = Ok (Page4K 0x5123))
    by (vm_compute; reflexivity).
  split; [exact H|].
  apply (trans_addr_refines_x86 demo_page_ram 0x1000 demo_va 0x5123);
    [unfold demo_va; lia|lia|lia|exact H].
Defined.

(** [trans_addr] ignores the present and page-size bits.  It returns
    an address for a page that is not present, and on a 2 MB mapping it
    goes on as if the page were a page table, which gives another address
    than the processor's. *)
Theorem trans_addr_ignores_flags :
  (exists pa, x86_walk demo_page_ram 0x1000 demo_large_va = Ok (Page2M pa) /\
     trans_addr demo_page_ram demo_large_va (__va 0x1000) <> Ok pa) /\
  (exists va pa', x86_walk demo_page_ram 0x1000 va = Ok NotPresent /\
     trans_addr demo_page_ram va (__va 0x1000) = Ok pa').
Proof.
  split.
  - eexists. split; [vm_compute; reflexivity|]. vm_compute. discriminate.
  - exists 0, 0. split; vm_compute; reflexivity.
Qed.
