(* ===== verification/ListH.v ===== *)
(** * Intrusive lists on the host heap (plugin/list.h)

    The plugin returns its results in circular doubly linked lists of
    malloc'ed entries.  The heap maps the address of a [struct list_head]
    to its two pointers and to the payload of the structure it is embedded
    in ([list_entry] is the identity on these addresses).  [free] marks a
    block and keeps its last contents: an access to a freed block goes on
    with the stale contents, as it does under the C library's allocator,
    and is recorded in [h_uaf]. *)

From S2P Require Import Prelude.

Record list_head := LH { next : Z; prev : Z }.

Record heap (A : Type) := Heap {
  h_nodes : gmap Z list_head;   (** blocks, allocated or freed *)
  h_data : gmap Z A;            (** payload of the entries *)
  h_freed : gset Z;             (** blocks given back with [free] *)
  h_brk : Z;                    (** next fresh address *)
  h_uaf : list Z                (** accesses to freed blocks, latest first *)
}.
Arguments Heap {A}.
Arguments h_nodes {A}.
Arguments h_data {A}.
Arguments h_freed {A}.
Arguments h_brk {A}.
Arguments h_uaf {A}.

Definition empty_heap {A} : heap A := Heap ∅ ∅ ∅ 1 [].

Section ops.
  Context {A : Type}.

(** [p->...]: the block at [p]. *)
Definition deref (p : Z) : st (heap A) list_head := fun h =>
  match h_nodes h !! p with
  | None => Err BadPointer
  | Some n =>
      Ok (n, if decide (p ∈ h_freed h)
             then Heap (h_nodes h) (h_data h) (h_freed h) (h_brk h) (p :: h_uaf h)
             else h)
  end.

Definition put_node (p : Z) (n : list_head) : st (heap A) unit := fun h =>
  Ok (tt, Heap (<[p := n]> (h_nodes h)) (h_data h) (h_freed h) (h_brk h) (h_uaf h)).

Definition set_next (p v : Z) : st (heap A) unit :=
  n ← deref p; put_node p (LH v (prev n)).
Definition set_prev (p v : Z) : st (heap A) unit :=
  n ← deref p; put_node p (LH (next n) v).

(** [malloc] of a block that holds a [struct list_head]; the allocator is
    assumed to succeed, as the plugin assumes. *)
Definition malloc : st (heap A) Z := fun h =>
  Ok (h_brk h, Heap (<[h_brk h := LH 0 0]> (h_nodes h)) (h_data h) (h_freed h) (h_brk h + 1) (h_uaf h)).

(** Assignment of the payload fields of the entry at [p]. *)
Definition put_data (p : Z) (d : A) : st (heap A) unit := fun h =>
  Ok (tt, Heap (h_nodes h) (<[p := d]> (h_data h)) (h_freed h) (h_brk h) (h_uaf h)).
Definition set_data (p : Z) (d : A) : st (heap A) unit :=
  _ ← deref p; put_data p d.

(** The payload fields of the entry at [p]. *)
Definition the_data (p : Z) : st (heap A) A := fun h =>
  match h_data h !! p with Some d => Ok (d, h) | None => Err BadPointer end.
Definition get_data (p : Z) : st (heap A) A :=
  _ ← deref p; the_data p.

Definition free (p : Z) : st (heap A) unit := fun h =>
  if decide (p ∈ dom (h_nodes h) /\ p ∉ h_freed h)
  then Ok (tt, Heap (h_nodes h) (h_data h) ({[p]} ∪ h_freed h) (h_brk h) (h_uaf h))
  else Err BadPointer.

(** ** plugin/list.h *)

Definition INIT_LIST_HEAD (p : Z) : st (heap A) unit :=
  set_next p p ;; set_prev p p.

Definition __list_add (new prev next : Z) : st (heap A) unit :=
  set_prev next new ;;
  set_next new next ;;
  set_prev new prev ;;
  set_next prev new.

Definition list_add (new head : Z) : st (heap A) unit :=
  h ← deref head; __list_add new head (next h).

Definition list_add_tail (new head : Z) : st (heap A) unit :=
  h ← deref head; __list_add new (prev h) head.

Definition __list_del (prev next : Z) : st (heap A) unit :=
  set_prev next prev ;;
  set_next prev next.

Definition list_del (entry : Z) : st (heap A) unit :=
  e ← deref entry; __list_del (prev e) (next e).

(** The [for] of [list_for_each_entry]: [body] runs on each entry and
    says whether it executed [break]. *)
Fixpoint for_each_from {B} (fuel : nat) (pos head : Z)
    (body : Z -> B -> st (heap A) (B * bool)) (acc : B) : st (heap A) B :=
  match fuel with
  | O => fun _ => Err OutOfFuel
  | S fuel =>
      if pos =? head then mret acc
      else
        r ← body pos acc;
        let '(acc', brk) := r in
        if (brk : bool) then mret acc'
        else
          n ← deref pos;
          for_each_from fuel (next n) head body acc'
  end.

Definition list_for_each_entry {B} (fuel : nat) (head : Z)
    (body : Z -> B -> st (heap A) (B * bool)) (acc : B) : st (heap A) B :=
  h ← deref head; for_each_from fuel (next h) head body acc.

(** The loop by which every command of the plugin releases a list:
    [list_for_each_entry(e, head, list) { list_del(&e->list); free(e); }]. *)
Definition release_entry (p : Z) (_ : unit) : st (heap A) (unit * bool) :=
  list_del p ;; free p ;; mret (tt, false).
Definition free_list (fuel : nat) (head : Z) : st (heap A) unit :=
  list_for_each_entry fuel head release_entry tt.

(** [LIST_HEAD] on the heap: [malloc] and [INIT_LIST_HEAD]. *)
Definition new_list : st (heap A) Z :=
  p ← malloc; INIT_LIST_HEAD p ;; mret p.

(** Allocation of an entry with payload [d], appended to a list. *)
Definition append_entry (d : A) (head : Z) : st (heap A) unit :=
  p ← malloc; set_data p d ;; list_add_tail p head.

End ops.

(** ** Well-formed lists *)

Definition nxt (N : gmap Z list_head) (p : Z) : option Z := next <$> N !! p.
Definition prv (N : gmap Z list_head) (p : Z) : option Z := prev <$> N !! p.
Definition linked (N : gmap Z list_head) (a b : Z) : Prop :=
  nxt N a = Some b /\ prv N b = Some a.

Fixpoint chain (N : gmap Z list_head) (a : Z) (ps : list Z) (z : Z) : Prop :=
  match ps with
  | [] => linked N a z
  | p :: ps => linked N a p /\ chain N p ps z
  end.

(** [head] is the head of a circular list of the entries [ps]. *)
Definition dll (N : gmap Z list_head) (head : Z) (ps : list Z) : Prop :=
  NoDup (head :: ps) /\ chain N head ps head.

Lemma linked_dom N a b : linked N a b -> is_Some (N !! a) /\ is_Some (N !! b).
Proof.
  unfold linked, nxt, prv. intros [H1 H2].
  destruct (N !! a), (N !! b); cbn in *; simplify_eq; eauto.
Qed.

Lemma chain_snoc N a ps p z :
  chain N a (ps ++ [p]) z <-> chain N a ps p /\ linked N p z.
Proof. revert a. induction ps as [|q ps IH]; intros a; cbn; [done|]. rewrite IH. tauto. Qed.

Lemma chain_frame N N' a ps z :
  (forall p, p ∈ a :: ps -> nxt N' p = nxt N p) ->
  (forall p, p ∈ ps ++ [z] -> prv N' p = prv N p) ->
  chain N a ps z -> chain N' a ps z.
Proof.
  revert a. induction ps as [|q ps IH]; intros a Hn Hp; cbn; unfold linked.
  - rewrite Hn, Hp by set_solver. done.
  - rewrite Hn, Hp by set_solver. intros [? ?]. split; [done|].
    apply IH; [set_solver..|done].
Qed.

Lemma chain_dom N a ps z p : chain N a ps z -> p ∈ a :: ps ++ [z] -> is_Some (N !! p).
Proof.
  revert a. induction ps as [|q ps IH]; intros a; cbn.
  - intros [??]%linked_dom. intros [->|[->|[]%not_elem_of_nil]%elem_of_cons]%elem_of_cons; done.
  - intros [[? ?]%linked_dom Hc]. intros [->|Hp]%elem_of_cons; [done|]. by eapply IH.
Qed.

(** The node updates of list.h, on the two pointer fields. *)
Definition upd_next (N : gmap Z list_head) (p v : Z) : gmap Z list_head :=
  <[p := LH v (default 0 (prv N p))]> N.
Definition upd_prev (N : gmap Z list_head) (p v : Z) : gmap Z list_head :=
  <[p := LH (default 0 (nxt N p)) v]> N.

Lemma nxt_upd_next N p v q : nxt (upd_next N p v) q = if decide (p = q) then Some v else nxt N q.
Proof. unfold nxt, upd_next. rewrite lookup_insert. by case_decide. Qed.

Lemma prv_upd_prev N p v q : prv (upd_prev N p v) q = if decide (p = q) then Some v else prv N q.
Proof. unfold prv, upd_prev. rewrite lookup_insert. by case_decide. Qed.

Lemma prv_upd_next N p v q : is_Some (N !! p) -> prv (upd_next N p v) q = prv N q.
Proof.
  intros [n Hn]. unfold upd_next. unfold prv at 1. rewrite lookup_insert.
  case_decide as E; [subst|done]. unfold prv. by rewrite Hn.
Qed.

Lemma nxt_upd_prev N p v q : is_Some (N !! p) -> nxt (upd_prev N p v) q = nxt N q.
Proof.
  intros [n Hn]. unfold upd_prev. unfold nxt at 1. rewrite lookup_insert.
  case_decide as E; [subst|done]. unfold nxt. by rewrite Hn.
Qed.

Lemma upd_next_dom N p v q : is_Some (N !! q) -> is_Some (upd_next N p v !! q).
Proof. intros. unfold upd_next. rewrite lookup_insert. case_decide; eauto. Qed.

Lemma upd_prev_dom N p v q : is_Some (N !! q) -> is_Some (upd_prev N p v !! q).
Proof. intros. unfold upd_prev. rewrite lookup_insert. case_decide; eauto. Qed.

#[export] Hint Resolve upd_next_dom upd_prev_dom : mach.

(** ** The operations on a heap whose list is live *)

Section specs.
  Context {A : Type}.
  Implicit Types h : heap A.

Definition with_nodes (h : heap A) (N : gmap Z list_head) : heap A :=
  Heap N (h_data h) (h_freed h) (h_brk h) (h_uaf h).

(** A block that can be accessed. *)
Definition live (h : heap A) (p : Z) : Prop := is_Some (h_nodes h !! p) /\ p ∉ h_freed h.

Lemma deref_live h p : live h p -> exists n, h_nodes h !! p = Some n /\ deref p h = Ok (n, h).
Proof.
  intros [[n Hn] Hf]. exists n. split; [done|]. unfold deref.
  rewrite Hn, decide_False by done. done.
Qed.

Lemma set_next_live h p v :
  live h p -> set_next p v h = Ok (tt, with_nodes h (upd_next (h_nodes h) p v)).
Proof.
  intros Hl. destruct (deref_live _ _ Hl) as (n & Hn & Hd).
  unfold set_next, mbind, st_bind. rewrite Hd. unfold put_node, with_nodes, upd_next, prv.
  by rewrite Hn.
Qed.

Lemma set_prev_live h p v :
  live h p -> set_prev p v h = Ok (tt, with_nodes h (upd_prev (h_nodes h) p v)).
Proof.
  intros Hl. destruct (deref_live _ _ Hl) as (n & Hn & Hd).
  unfold set_prev, mbind, st_bind. rewrite Hd. unfold put_node, with_nodes, upd_prev, nxt.
  by rewrite Hn.
Qed.

Lemma live_upd_next h p v q : live h q -> live (with_nodes h (upd_next (h_nodes h) p v)) q.
Proof. intros [? ?]. split; cbn; auto with mach. Qed.

Lemma live_upd_prev h p v q : live h q -> live (with_nodes h (upd_prev (h_nodes h) p v)) q.
Proof. intros [? ?]. split; cbn; auto with mach. Qed.

#[local] Hint Resolve live_upd_next live_upd_prev : mach.

Lemma __list_add_live h new p n :
  live h new -> live h p -> live h n ->
  __list_add new p n h =
    Ok (tt, with_nodes h
      (upd_next (upd_prev (upd_next (upd_prev (h_nodes h) n new) new n) new p) p new)).
Proof.
  intros. unfold __list_add, mbind, st_bind.
  rewrite set_prev_live by done.
  rewrite set_next_live by auto with mach.
  rewrite set_prev_live by auto with mach.
  rewrite set_next_live by auto with mach. done.
Qed.

Lemma __list_del_live h p n :
  live h p -> live h n ->
  __list_del p n h = Ok (tt, with_nodes h (upd_next (upd_prev (h_nodes h) n p) p n)).
Proof.
  intros. unfold __list_del, mbind, st_bind.
  rewrite set_prev_live by done. by rewrite set_next_live by auto with mach.
Qed.

(** *** Insertion at the tail and removal, on the chain of entries *)

Lemma dll_last N head ps :
  dll N head ps -> prv N head = Some (List.last ps head).
Proof.
  intros [_ H]. destruct ps as [|p ps _] using rev_ind.
  - apply H.
  - rewrite chain_snoc in H. rewrite List.last_last. apply H.
Qed.

Lemma dll_add_tail N head ps new :
  dll N head ps -> new ∉ head :: ps -> is_Some (N !! new) ->
  let l := List.last ps head in
  dll (upd_next (upd_prev (upd_next (upd_prev N head new) new head) new l) l new)
    head (ps ++ [new]).
Proof.
  intros [Hnd Hc] Hnew Hdom l.
  assert (Hhead : is_Some (N !! head)) by (eapply chain_dom; [done|set_solver]).
  assert (Hl : is_Some (N !! l)).
  { eapply chain_dom; [done|]. subst l. destruct ps using rev_ind; [set_solver|].
    rewrite List.last_last. set_solver. }
  split.
  { rewrite app_comm_cons. apply NoDup_app. split; [done|]. split; [set_solver|]. apply NoDup_singleton. }
  rewrite chain_snoc.
  assert (Hpn : forall q, prv (upd_next (upd_prev (upd_next (upd_prev N head new) new head) new l) l new) q
      = if decide (new = q) then Some l else if decide (head = q) then Some new else prv N q).
  { intros q. rewrite prv_upd_next by auto with mach. rewrite prv_upd_prev.
    case_decide; [done|]. rewrite prv_upd_next by auto with mach. by rewrite prv_upd_prev. }
  assert (Hnn : forall q, nxt (upd_next (upd_prev (upd_next (upd_prev N head new) new head) new l) l new) q
      = if decide (l = q) then Some new else if decide (new = q) then Some head else nxt N q).
  { intros q. rewrite nxt_upd_next. case_decide; [done|].
    rewrite nxt_upd_prev by auto with mach. rewrite nxt_upd_next. case_decide; [done|].
    by rewrite nxt_upd_prev by auto with mach. }
  subst l. destruct ps as [|p ps _] using rev_ind.
  - assert (new <> head) by set_solver.
    cbn. unfold linked. rewrite !Hpn, !Hnn. decide_all. done.
  - rewrite List.last_last in *. rewrite chain_snoc in Hc. destruct Hc as [Hc Hlk].
    rewrite NoDup_cons, NoDup_app in Hnd. destruct Hnd as (Hhp & _ & Hps & _).
    assert (new <> head /\ new <> p /\ head <> p) as (? & ? & ?) by set_solver.
    rewrite chain_snoc. unfold linked. rewrite !Hpn, !Hnn. decide_all.
    split_and!; try done.
    eapply chain_frame; [| |exact Hc]; intros q Hq.
    + assert (p <> q /\ new <> q) as [? ?] by (split; intros <-; set_solver).
      rewrite Hnn. by decide_all.
    + assert (head <> q /\ new <> q) as [? ?] by (split; intros <-; set_solver).
      rewrite Hpn. by decide_all.
Qed.

Lemma dll_del_first N head p ps :
  dll N head (p :: ps) ->
  let n := List.hd head ps in
  nxt N p = Some n /\ prv N p = Some head /\
  dll (upd_next (upd_prev N n head) head n) head ps /\
  nxt (upd_next (upd_prev N n head) head n) p = Some n.
Proof.
  intros [Hnd Hc] n.
  assert (Hn : is_Some (N !! n)).
  { eapply chain_dom; [done|]. subst n. destruct ps; set_solver. }
  assert (Hh : is_Some (N !! head)) by (eapply chain_dom; [done|set_solver]).
  cbn in Hc. destruct Hc as [[H1 H2] Hc].
  rewrite !NoDup_cons in Hnd.
  assert (Hpn : forall q, prv (upd_next (upd_prev N n head) head n) q
      = if decide (n = q) then Some head else prv N q).
  { intros q. rewrite prv_upd_next by auto with mach. by rewrite prv_upd_prev. }
  assert (Hnn : forall q, nxt (upd_next (upd_prev N n head) head n) q
      = if decide (head = q) then Some n else nxt N q).
  { intros q. rewrite nxt_upd_next. case_decide; [done|]. by rewrite nxt_upd_prev. }
  assert (Hp : nxt N p = Some n) by (subst n; destruct ps as [|q ps]; apply Hc).
  split_and!; [done..| |].
  - split; [rewrite NoDup_cons; set_solver|].
    subst n. destruct ps as [|q ps]; cbn [chain List.hd] in *; unfold linked in *; rewrite !Hpn, !Hnn.
    + by rewrite !decide_True by done.
    + rewrite !decide_True by done. split; [done|]. destruct Hc as [_ Hc].
      rewrite NoDup_cons in Hnd. destruct Hnd as (Hhp & Hpp & Hqp & _).
      eapply chain_frame; [| |exact Hc]; intros r Hr.
      * rewrite Hnn, decide_False by (intros <-; set_solver). done.
      * rewrite Hpn, decide_False by (intros <-; set_solver). done.
  - rewrite Hnn, decide_False by set_solver. done.
Qed.

(** *** Lists of payloads: the abstract view of a list *)

(** Every block, freed or not, is below the next fresh address. *)
Definition hwf (h : heap A) : Prop :=
  (forall p, is_Some (h_nodes h !! p) -> p < h_brk h) /\
  (forall p, p ∈ h_freed h -> p < h_brk h).

Definition payloads (h : heap A) (ps : list Z) (l : list A) : Prop :=
  Forall2 (fun p d => h_data h !! p = Some d) ps l.

(** [head] is a live list of [h] whose entries [ps] hold [l], in order. *)
Definition repr_at (h : heap A) (head : Z) (ps : list Z) (l : list A) : Prop :=
  hwf h /\ dll (h_nodes h) head ps /\ Forall (live h) (head :: ps) /\ payloads h ps l.
Definition repr (h : heap A) (head : Z) (l : list A) : Prop :=
  exists ps, repr_at h head ps l.

Lemma live_dll h head ps p :
  Forall (live h) (head :: ps) -> p ∈ head :: ps -> live h p.
Proof. rewrite Forall_forall. auto. Qed.

Lemma new_list_spec h :
  hwf h ->
  exists p h', new_list h = Ok (p, h') /\ repr h' p [] /\
    h_uaf h' = h_uaf h /\ h_freed h' = h_freed h.
Proof.
  intros [Hd Hf]. set (p := h_brk h).
  assert (Hfr : p ∉ h_freed h) by (intros ?%Hf; lia).
  set (h1 := Heap (<[p := LH 0 0]> (h_nodes h)) (h_data h) (h_freed h) (p + 1) (h_uaf h)).
  assert (Hl1 : live h1 p) by (split; [cbn; rewrite lookup_insert_eq; eauto|done]).
  exists p. unfold new_list, malloc, INIT_LIST_HEAD, mbind, st_bind. fold p. fold h1.
  rewrite (set_next_live h1) by done.
  rewrite set_prev_live by (by apply live_upd_next).
  eexists. split; [reflexivity|]. split_and!; [|done..].
  exists []. split_and!.
  - split; cbn; [|intros q ?%Hf; lia]. intros q. unfold upd_prev, upd_next.
    rewrite !lookup_insert. repeat case_decide; intros ?; subst; try lia.
    assert (q < p) by eauto. lia.
  - split; [apply NoDup_singleton|]. cbn. split.
    + rewrite nxt_upd_prev by (apply upd_next_dom, Hl1). rewrite nxt_upd_next. by decide_all.
    + rewrite prv_upd_prev. by decide_all.
  - apply Forall_singleton. apply live_upd_prev, live_upd_next, Hl1.
  - constructor.
Qed.

Lemma append_entry_spec h head l d :
  repr h head l ->
  exists h', append_entry d head h = Ok (tt, h') /\ repr h' head (l ++ [d]) /\
    h_uaf h' = h_uaf h /\ h_freed h' = h_freed h.
Proof.
  intros (ps & [Hd Hf] & Hdll & Hlive & Hpay). set (p := h_brk h).
  assert (Hfr : p ∉ h_freed h) by (intros ?%Hf; lia).
  assert (Hnew : p ∉ head :: ps).
  { intros Hin. destruct (live_dll _ _ _ _ Hlive Hin) as [Hp _]. apply Hd in Hp. lia. }
  set (h1 := Heap (<[p := LH 0 0]> (h_nodes h)) (h_data h) (h_freed h) (p + 1) (h_uaf h)).
  set (h2 := Heap (h_nodes h1) (<[p := d]> (h_data h)) (h_freed h) (p + 1) (h_uaf h)).
  assert (Hl1 : live h1 p) by (split; [cbn; rewrite lookup_insert_eq; eauto|done]).
  assert (Hl2 : forall q, q ∈ p :: head :: ps -> live h2 q).
  { intros q [->|Hq]%elem_of_cons; [exact Hl1|].
    destruct (live_dll _ _ _ _ Hlive Hq) as [? ?]. split; [|done].
    cbn. rewrite lookup_insert_ne by set_solver. done. }
  assert (Hdll2 : dll (h_nodes h2) head ps).
  { destruct Hdll as [Hnd Hc]. split; [done|].
    eapply chain_frame; [| |exact Hc]; intros q Hq; unfold nxt, prv; cbn;
      (rewrite lookup_insert_ne by set_solver); done. }
  set (l0 := List.last ps head).
  assert (Hl0 : l0 ∈ head :: ps).
  { subst l0. destruct ps using rev_ind; [set_solver|]. rewrite List.last_last. set_solver. }
  destruct (deref_live h2 head) as (nh & Hnh & Hdh); [apply Hl2; set_solver|].
  assert (Hprev : prev nh = l0).
  { pose proof (dll_last _ _ _ Hdll2) as H. unfold prv in H. rewrite Hnh in H. by injection H. }
  eexists. split.
  { unfold append_entry, malloc, mbind, st_bind. fold p. fold h1.
    destruct (deref_live h1 p Hl1) as (np & _ & Hdp).
    unfold set_data, mbind, st_bind. rewrite Hdp. unfold put_data.
    change (Heap (h_nodes h1) _ _ _ _) with h2.
    unfold list_add_tail, mbind, st_bind. rewrite Hdh, Hprev.
    rewrite __list_add_live; [reflexivity| | |]; apply Hl2; set_solver. }
  split_and!; [|done..]. exists (ps ++ [p]). split_and!.
  - split; cbn; [|intros q ?%Hf; lia]. intros q. unfold upd_prev, upd_next.
    rewrite !lookup_insert. intros Hq. destruct (decide (q = p)); [lia|].
    enough (q < p) by lia. apply Hd. repeat case_decide; subst; try done.
    + eapply chain_dom; [apply Hdll|]. set_solver.
    + eapply chain_dom; [apply Hdll|]. set_solver.
  - apply dll_add_tail; [done|done|apply Hl1].
  - apply Forall_forall. intros q Hq.
    destruct (Hl2 q) as [? ?]; [set_solver|]. split; [|done]. cbn [with_nodes h_nodes].
    auto with mach.
  - apply Forall2_app.
    + apply Forall2_same_length_lookup. split; [by eapply Forall2_length|].
      intros i q x Hq Hx. pose proof (Forall2_lookup_lr _ _ _ _ _ _ Hpay Hq Hx) as H.
      cbn. rewrite lookup_insert_ne; [done|]. apply list_elem_of_lookup_2 in Hq. set_solver.
    + repeat constructor. cbn. apply lookup_insert_eq.
Qed.

(** *** Iteration *)

(** A loop body that only reads the entry's payload. *)
Definition visit {B} (f : B -> A -> B * bool) (p : Z) (acc : B) : st (heap A) (B * bool) :=
  d ← get_data p; mret (f acc d).

(** The loop on the abstract list. *)
Fixpoint fold_break {B} (f : B -> A -> B * bool) (acc : B) (l : list A) : B :=
  match l with
  | [] => acc
  | d :: l => let '(acc', brk) := f acc d in if brk then acc' else fold_break f acc' l
  end.

Lemma chain_next N a ps z : chain N a ps z -> nxt N a = Some (List.hd z ps).
Proof. destruct ps; cbn; [intros [? ?]|intros [[? ?] ?]]; done. Qed.

Lemma for_each_from_visit {B} (f : B -> A -> B * bool) h head fuel ps l acc :
  (forall a, List.hd_error ps = Some a -> chain (h_nodes h) a (List.tl ps) head) ->
  head ∉ ps -> Forall (live h) ps -> payloads h ps l -> (length l < fuel)%nat ->
  for_each_from fuel (List.hd head ps) head (visit f) acc h = Ok (fold_break f acc l, h).
Proof.
  revert ps l acc. induction fuel as [|fuel IH]; intros ps l acc Hc Hh Hl Hp Hlen; [lia|].
  destruct Hp as [|p d ps l Hd Hp]; cbn [for_each_from List.hd].
  - by rewrite Z.eqb_refl.
  - rewrite (proj2 (Z.eqb_neq p head)) by set_solver.
    apply Forall_cons in Hl as [Hlp Hl].
    destruct (deref_live _ _ Hlp) as (n & Hn & Hdn).
    unfold visit, get_data, the_data, mbind, st_bind. rewrite Hdn, Hd. cbn.
    destruct (f acc d) as [acc' [|]]; [done|]. rewrite Hdn.
    specialize (Hc p eq_refl). cbn in Hc.
    pose proof (chain_next _ _ _ _ Hc) as Hnx. unfold nxt in Hnx. rewrite Hn in Hnx.
    injection Hnx as ->. apply IH; [|set_solver|done|done|cbn in Hlen; lia].
    intros a Ha. destruct ps; [done|]. cbn in Ha. injection Ha as ->. apply Hc.
Qed.

Lemma for_each_visit {B} (f : B -> A -> B * bool) h head ps l fuel acc :
  repr_at h head ps l -> (length l < fuel)%nat ->
  list_for_each_entry fuel head (visit f) acc h = Ok (fold_break f acc l, h).
Proof.
  intros (_ & [Hnd Hc] & Hl & Hp) Hlen.
  apply Forall_cons in Hl as [Hlh Hl]. apply NoDup_cons in Hnd as [Hh _].
  destruct (deref_live _ _ Hlh) as (n & Hn & Hdn).
  unfold list_for_each_entry, mbind, st_bind. rewrite Hdn.
  pose proof (chain_next _ _ _ _ Hc) as Hnx. unfold nxt in Hnx. rewrite Hn in Hnx.
  injection Hnx as ->. apply for_each_from_visit; try done.
  intros a Ha. destruct ps; [done|]. cbn in Ha. injection Ha as ->. apply Hc.
Qed.

(** *** Release of a list: every entry is freed, then read once more *)

Definition after_free (h : heap A) (N : gmap Z list_head) (ps : list Z) : heap A :=
  Heap N (h_data h) (list_to_set ps ∪ h_freed h) (h_brk h) (reverse ps ++ h_uaf h).

Lemma free_from_spec h head ps fuel :
  dll (h_nodes h) head ps -> Forall (live h) (head :: ps) -> (length ps < fuel)%nat ->
  exists N, for_each_from fuel (List.hd head ps) head release_entry tt h
    = Ok (tt, after_free h N ps) /\ dll N head [] /\ dom N = dom (h_nodes h).
Proof.
  revert h ps. induction fuel as [|fuel IH]; intros h ps Hdll Hl Hlen; [lia|].
  destruct ps as [|p ps]; cbn [for_each_from List.hd].
  { rewrite Z.eqb_refl. exists (h_nodes h). split_and!; [|done..].
    unfold after_free. cbn. rewrite union_empty_l_L. by destruct h. }
  assert (Hph : p <> head) by (destruct Hdll as [Hnd _]; rewrite !NoDup_cons in Hnd; set_solver).
  rewrite (proj2 (Z.eqb_neq p head)) by done.
  destruct (dll_del_first _ _ _ _ Hdll) as (Hn & Hp & Hdll' & Hn').
  set (n := List.hd head ps) in *.
  assert (Hlp : live h p) by (eapply live_dll; [done|set_solver]).
  assert (Hlh : live h head) by (eapply live_dll; [done|set_solver]).
  assert (Hln : live h n) by (eapply live_dll; [done|subst n; destruct ps; set_solver]).
  set (N := upd_next (upd_prev (h_nodes h) n head) head n) in *.
  assert (HdomN : forall q, is_Some (h_nodes h !! q) -> is_Some (N !! q)) by (subst N; auto with mach).
  set (h1 := Heap N (h_data h) ({[p]} ∪ h_freed h) (h_brk h) (p :: h_uaf h)).
  destruct (IH h1 ps) as (N' & Hrun & Hd' & Hdom).
  { exact Hdll'. }
  { destruct Hdll as [Hnd _]. rewrite !NoDup_cons in Hnd. apply Forall_forall. intros q Hq.
    destruct (live_dll h head (p :: ps) q) as [? ?]; [done|set_solver|].
    split; [cbn; auto|]. cbn. set_solver. }
  { cbn in Hlen. lia. }
  fold n in Hrun. exists N'. split; [|split; [done|]].
  - destruct (deref_live _ _ Hlp) as (np & Hnp & Hdp).
    unfold nxt, prv in Hn, Hp. rewrite Hnp in Hn, Hp. injection Hn as Hn. injection Hp as Hp.
    assert (Hrel : release_entry p tt h = Ok ((tt, false),
      Heap N (h_data h) ({[p]} ∪ h_freed h) (h_brk h) (h_uaf h))).
    { unfold release_entry, list_del, mbind, st_bind. rewrite Hdp, Hp, Hn.
      rewrite __list_del_live by done. fold N. unfold free. rewrite decide_True; [done|].
      split; [apply elem_of_dom; cbn; apply HdomN, Hlp|apply Hlp]. }
    unfold mbind, st_bind. rewrite Hrel. unfold deref at 1. cbn.
    unfold nxt in Hn'. destruct (N !! p) as [m|] eqn:Em; [|done]. injection Hn' as Hn'.
    rewrite decide_True by set_solver. fold h1. rewrite Hn', Hrun. f_equal. f_equal.
    unfold after_free. f_equal; [subst h1; cbn [h_freed]; set_solver|].
    rewrite reverse_cons, <- app_assoc. done.
  - rewrite Hdom. cbn. subst N. unfold upd_next, upd_prev.
    rewrite !dom_insert_L. destruct Hlh as [?%elem_of_dom _], Hln as [?%elem_of_dom _]. set_solver.
Qed.

Lemma free_list_spec h head ps l fuel :
  repr_at h head ps l -> (length ps < fuel)%nat ->
  exists N, free_list fuel head h = Ok (tt, after_free h N ps) /\ dll N head [] /\
    dom N = dom (h_nodes h).
Proof.
  intros (_ & Hdll & Hl & _) Hlen.
  destruct (deref_live h head) as (n & Hn & Hdn); [by apply Forall_cons in Hl as [? _]|].
  unfold free_list, list_for_each_entry, mbind at 1, st_bind at 1. rewrite Hdn.
  pose proof (chain_next _ _ _ _ (proj2 Hdll)) as Hnx. unfold nxt in Hnx. rewrite Hn in Hnx.
  injection Hnx as ->. by apply free_from_spec.
Qed.

Lemma hwf_after_free h N ps :
  hwf h -> dom N = dom (h_nodes h) -> Forall (live h) ps -> hwf (after_free h N ps).
Proof.
  intros [H1 H2] HN Hl. split; cbn.
  - intros p Hp%elem_of_dom. rewrite HN in Hp. by apply H1, elem_of_dom.
  - intros p [Hp%elem_of_list_to_set|Hp]%elem_of_union; [|by apply H2].
    rewrite Forall_forall in Hl. by apply H1, Hl.
Qed.

End specs.
