(* ===== verification/Text.v ===== *)
(** * Text the monitor commands print

    The conversions of the C library's [printf] family that the plugin
    uses, on [string]s: ["%d"]/["%u"]/["%lu"], ["%016lx"], ["%2.2X"],
    ["%s"] of a guest string, and [inet_ntoa]. *)

From Stdlib Require Import DecimalString Ascii.
From stdpp Require Import strings.
From coqutil Require Import Byte.
From S2P Require Import Prelude.

Definition nl : string := String (Ascii.ascii_of_nat 10) EmptyString.

(** ["%d"], ["%u"], ["%lu"] of a value of the type. *)
Definition fmt_d (z : Z) : string := NilZero.string_of_int (Z.to_int z).

Definition hex_digit (upper : bool) (d : Z) : ascii :=
  Ascii.ascii_of_nat (Z.to_nat (if d <? 10 then 48 + d else (if upper then 55 else 87) + d)).

(** The [n] low hexadecimal digits of [z]. *)
Fixpoint hex (upper : bool) (n : nat) (z : Z) : string :=
  match n with
  | O => EmptyString
  | S n => hex upper n (z / 16) +:+ String (hex_digit upper (z mod 16)) EmptyString
  end.

(** ["%016lx"] *)
Definition fmt_016lx (z : Z) : string := hex false 16 z.
(** ["%2.2X"] of a byte *)
Definition fmt_22X (b : byte) : string := hex true 2 (byte.unsigned b).
(** ["%s"] *)
Definition fmt_s (s : list byte) : string := String.string_of_list_byte s.

(** [inet_ntoa] of a 32-bit address in network byte order, as loaded by a
    little-endian host: the first byte is the low one. *)
Definition inet_ntoa (a : Z) : string :=
  fmt_d (a mod 256) +:+ "." +:+ fmt_d (a / 2 ^ 8 mod 256) +:+ "." +:+
  fmt_d (a / 2 ^ 16 mod 256) +:+ "." +:+ fmt_d (a / 2 ^ 24 mod 256).

(** ** Properties *)

Lemma string_app_nil_r s : s +:+ EmptyString = s.
Proof. induction s as [|c s IH]; [done|]. exact (f_equal (String c) IH). Qed.

Lemma string_app_assoc s t u : (s +:+ t) +:+ u = s +:+ (t +:+ u).
Proof. induction s as [|c s IH]; [done|]. exact (f_equal (String c) IH). Qed.
