(* ===== verification/Tasks.v ===== *)
(** * Listing the guest's tasks (plugin/tasks.c) *)

From coqutil Require Import Byte.
From S2P Require Import Prelude GuestMem LinuxX86 ListH Text.

(** ** plugin/symbol-x86_64.h: task_struct and mm_struct *)

Definition INIT_TASK_GVA : Z := 0xffffffff81c14440.
Definition TASK_PID_OFFSET : Z := 732.
Definition TASK_COMM_OFFSET : Z := 1184.
Definition TASK_TASKS_OFFSET : Z := 616.
Definition TASK_MM_OFFSET : Z := 672.
Definition MM_PGD_OFFSET : Z := 64.

(** ** plugin/tasks.h *)

Definition TASK_NAME_LEN : nat := 30.

Record task := Task {
  pid : Z;
  name : list byte;
  cr3 : Z
}.

#[global] Instance task_eq_dec : EqDecision task.
Proof. solve_decision. Defined.

(** ** plugin/tasks.c *)

(** The page directory of the task_struct at host offset [base], zero for
    a kernel thread ([task_struct.mm == NULL]). *)
Definition task_cr3 (m : ram) (base : Z) : res Z :=
  mm_base ← ld64 m (base + TASK_MM_OFFSET);
  if mm_base =? 0 then Ok 0
  else ld64 m (virt_to_phys mm_base + MM_PGD_OFFSET).

(** The [struct task] filled from the task_struct at [base]. *)
Definition read_task (m : ram) (base : Z) : res task :=
  c ← task_cr3 m base;
  p ← ld32 m (base + TASK_PID_OFFSET);
  n ← sprintf_s TASK_NAME_LEN m (base + TASK_COMM_OFFSET);
  Ok (Task (s32 p) n c).

(** [(void * )( *next_task_tasks - TASK_TASKS_OFFSET)] *)
Definition next_task (m : ram) (base : Z) : res Z :=
  t ← ld64 m (base + TASK_TASKS_OFFSET);
  Ok (u64 (t - TASK_TASKS_OFFSET)).

(** [while(next_task_gva != init_task_gva)] *)
Fixpoint traverse_loop (fuel : nat) (m : ram) (next_task_gva tasks : Z) : st (heap task) unit :=
  match fuel with
  | O => fun _ => Err OutOfFuel
  | S fuel =>
      if next_task_gva =? INIT_TASK_GVA then mret tt
      else
        let next_task_base := virt_to_phys next_task_gva in
        tsk ← lift_res (read_task m next_task_base);
        append_entry tsk tasks ;;
        g ← lift_res (next_task m next_task_base);
        traverse_loop fuel m g tasks
  end.

Definition traverse_tasks (fuel : nat) (m : ram) : st (heap task) Z :=
  tasks ← new_list;
  let init_task_base := virt_to_phys INIT_TASK_GVA in
  tsk ← lift_res (read_task m init_task_base);
  append_entry tsk tasks ;;
  g ← lift_res (next_task m init_task_base);
  traverse_loop fuel m g tasks ;;
  mret tasks.

(** One line of the [ps] command, after [tot_task++]. *)
Definition task_line (tot_task : Z) (tsk : task) : string :=
  fmt_d tot_task +:+ ", " +:+ fmt_d (pid tsk) +:+ ", " +:+ fmt_s (name tsk) +:+ ", 0x"
  +:+ fmt_016lx (cr3 tsk) +:+ nl.

Definition print_task (acc : Z * string) (tsk : task) : (Z * string) * bool :=
  let tot_task := fst acc + 1 in
  ((tot_task, snd acc +:+ task_line tot_task tsk), false).

(** The result is what [monitor_printf] was given. *)
Definition list_tasks (fuel : nat) (m : ram) : st (heap task) string :=
  head ← traverse_tasks fuel m;
  out ← list_for_each_entry fuel head (visit print_task) (0, EmptyString);
  free_list fuel head ;;
  mret (snd out +:+ "Total Tasks: " +:+ fmt_d (fst out) +:+ nl).

(** ** The address space the other commands borrow

    module.c and configuration.c take the page directory of the first task
    that has one, by the same statements: traverse the tasks, stop at the
    first non-zero [cr3], free the list. *)

Definition find_cr3 (acc : Z) (tsk : task) : Z * bool :=
  if negb (cr3 tsk =? 0x0) then (cr3 tsk, true) else (acc, false).

Definition borrow_cr3 (fuel : nat) (m : ram) : st (heap task) Z :=
  tasks ← traverse_tasks fuel m;
  c ← list_for_each_entry fuel tasks (visit find_cr3) 0x0;
  free_list fuel tasks ;;
  mret c.

(** ** The guest's task ring *)

(** A task_struct at guest virtual address [gva] described by [t]. *)
Definition task_at (m : ram) (gva : Z) (t : task) : Prop :=
  let base := virt_to_phys gva in
  (exists p, ld32 m (base + TASK_PID_OFFSET) = Ok p /\ pid t = s32 p) /\
  has_cstr m (base + TASK_COMM_OFFSET) (name t) /\ (length (name t) < TASK_NAME_LEN)%nat /\
  ((ld64 m (base + TASK_MM_OFFSET) = Ok 0 /\ cr3 t = 0) \/
   (exists mm, ld64 m (base + TASK_MM_OFFSET) = Ok mm /\ mm <> 0 /\
      ld64 m (virt_to_phys mm + MM_PGD_OFFSET) = Ok (cr3 t))).

(** [list_entry(t->tasks.next, struct task_struct, tasks)] is [gva']. *)
Definition task_next (m : ram) (gva gva' : Z) : Prop :=
  exists t, ld64 m (virt_to_phys gva + TASK_TASKS_OFFSET) = Ok t /\
    gva' = u64 (t - TASK_TASKS_OFFSET).

(** From the task at [gva], following [tasks.next], the tasks [ts] come
    before init_task is reached again. *)
Inductive task_path (m : ram) : Z -> list task -> Prop :=
| path_end : task_path m INIT_TASK_GVA []
| path_step gva t gva' ts :
    gva <> INIT_TASK_GVA -> task_at m gva t -> task_next m gva gva' ->
    task_path m gva' ts -> task_path m gva (t :: ts).

(** The ring of init_task: init_task itself, then the others in order. *)
Definition task_ring (m : ram) (ts : list task) : Prop :=
  exists t0 g ts', ts = t0 :: ts' /\ task_at m INIT_TASK_GVA t0 /\
    task_next m INIT_TASK_GVA g /\ task_path m g ts'.

(** ** Properties *)

Lemma read_task_iff m gva t : read_task m (virt_to_phys gva) = Ok t <-> task_at m gva t.
Proof.
  unfold read_task, task_cr3, task_at. split.
  - intros (c & Hc & H)%bind_Ok_inv. apply bind_Ok_inv in H as (p & Hp & H).
    apply bind_Ok_inv in H as (n & Hn & [= <-]).
    apply bind_Ok_inv in Hc as (mm & Hmm & Hc).
    apply cstring_sound in Hn as [? ?]. cbn [pid name cr3]. split_and!; [by eauto|done|done|].
    destruct (Z.eqb_spec mm 0) as [->|]; [left; by injection Hc|right; eauto].
  - intros ((p & Hp & Hpid) & Hs & Hlen & Hmm). destruct t as [tp tn tc]; cbn [pid name cr3] in *.
    assert (Hc : (mm_base ← ld64 m (virt_to_phys gva + TASK_MM_OFFSET);
       if mm_base =? 0 then Ok 0 else ld64 m (virt_to_phys mm_base + MM_PGD_OFFSET)) = Ok tc).
    { destruct Hmm as [[-> ->]|(mm & -> & Hne & Hc)]; rewrite bind_Ok; [done|].
      by rewrite (proj2 (Z.eqb_neq mm 0)). }
    rewrite Hc, bind_Ok, Hp, bind_Ok. unfold sprintf_s.
    by rewrite (cstring_ok _ _ _ _ _ Hs Hlen), bind_Ok, <- Hpid.
Qed.

Lemma next_task_iff m gva g : next_task m (virt_to_phys gva) = Ok g <-> task_next m gva g.
Proof.
  unfold next_task, task_next. split.
  - intros (t & Ht & [= <-])%bind_Ok_inv. eauto.
  - intros (t & -> & ->). done.
Qed.

(** The loop appends exactly the tasks of the path. *)
Lemma traverse_loop_complete m g ts :
  task_path m g ts -> forall fuel tasks l h,
  repr h tasks l -> (length ts < fuel)%nat ->
  exists h', traverse_loop fuel m g tasks h = Ok (tt, h') /\ repr h' tasks (l ++ ts) /\
    h_uaf h' = h_uaf h /\ h_freed h' = h_freed h.
Proof.
  induction 1 as [|gva t gva' ts Hne Ht Hn _ IH]; intros [|fuel] tasks l h Hr Hlen;
    cbn [length] in Hlen; try lia; cbn [traverse_loop].
  - rewrite Z.eqb_refl. exists h. by rewrite app_nil_r.
  - rewrite (proj2 (Z.eqb_neq _ _) Hne).
    destruct (append_entry_spec _ _ _ t Hr) as (h1 & Ha & Hr1 & Hu1 & Hf1).
    destruct (IH fuel tasks (l ++ [t]) h1 Hr1) as (h2 & Hl & Hr2 & Hu2 & Hf2); [lia|].
    exists h2. rewrite <- app_assoc in Hr2. split_and!; [|done|congruence..].
    rewrite (st_bind_Ok _ _ _ t h) by (by apply lift_res_Ok, read_task_iff).
    rewrite (st_bind_Ok _ _ _ _ _ Ha).
    by rewrite (st_bind_Ok _ _ _ gva' h1) by (by apply lift_res_Ok, next_task_iff).
Qed.

Lemma traverse_loop_sound m fuel : forall g tasks l h h',
  traverse_loop fuel m g tasks h = Ok (tt, h') -> repr h tasks l ->
  exists ts, task_path m g ts /\ repr h' tasks (l ++ ts).
Proof.
  induction fuel as [|fuel IH]; intros g tasks l h h' H Hr; cbn [traverse_loop] in H; [discriminate|].
  destruct (Z.eqb_spec g INIT_TASK_GVA) as [->|Hne].
  - injection H as <-. exists []. rewrite app_nil_r. split; [constructor|done].
  - apply st_bind_inv in H as (t & h1 & [Ht ->]%lift_res_inv & H).
    apply st_bind_inv in H as ([] & h2 & Ha & H).
    destruct (append_entry_spec _ _ _ t Hr) as (h2' & Ha' & Hr2 & _).
    rewrite Ha in Ha'. injection Ha' as <-.
    apply st_bind_inv in H as (g' & h3 & [Hg ->]%lift_res_inv & H).
    destruct (IH _ _ _ _ _ H Hr2) as (ts & Hp & Hr3). exists (t :: ts).
    rewrite <- app_assoc in Hr3. split; [|done].
    econstructor; [done|by apply read_task_iff|by apply next_task_iff|done].
Qed.

Lemma traverse_tasks_complete m ts fuel h :
  task_ring m ts -> hwf h -> (length ts <= fuel)%nat ->
  exists p h', traverse_tasks fuel m h = Ok (p, h') /\ repr h' p ts /\
    h_uaf h' = h_uaf h /\ h_freed h' = h_freed h.
Proof.
  intros (t0 & g & ts' & -> & Ht0 & Hg & Hpath) Hw Hlen.
  destruct (new_list_spec h Hw) as (p & h1 & Hnew & Hr1 & Hu1 & Hf1).
  destruct (append_entry_spec _ _ _ t0 Hr1) as (h2 & Ha & Hr2 & Hu2 & Hf2).
  destruct (traverse_loop_complete m g ts' Hpath fuel p _ h2 Hr2) as (h3 & Hl & Hr3 & Hu3 & Hf3);
    [cbn in Hlen; lia|].
  exists p, h3. split_and!; [|done|congruence..]. unfold traverse_tasks.
  rewrite (st_bind_Ok _ _ _ _ _ Hnew).
  rewrite (st_bind_Ok _ _ _ t0 h1) by (by apply lift_res_Ok, read_task_iff).
  rewrite (st_bind_Ok _ _ _ _ _ Ha).
  rewrite (st_bind_Ok _ _ _ g h2) by (by apply lift_res_Ok, next_task_iff).
  by rewrite (st_bind_Ok _ _ _ _ _ Hl).
Qed.

Lemma traverse_tasks_sound m fuel h p h' :
  traverse_tasks fuel m h = Ok (p, h') -> hwf h ->
  exists ts, task_ring m ts /\ repr h' p ts.
Proof.
  intros H Hw. unfold traverse_tasks in H.
  destruct (new_list_spec h Hw) as (p' & h1 & Hnew & Hr1 & _).
  rewrite (st_bind_Ok _ _ _ _ _ Hnew) in H.
  apply st_bind_inv in H as (t0 & h1' & [Ht ->]%lift_res_inv & H).
  destruct (append_entry_spec _ _ _ t0 Hr1) as (h2 & Ha & Hr2 & _).
  rewrite (st_bind_Ok _ _ _ _ _ Ha) in H.
  apply st_bind_inv in H as (g & h2' & [Hg ->]%lift_res_inv & H).
  apply st_bind_inv in H as ([] & h3 & Hl & H). injection H as <- <-.
  destruct (traverse_loop_sound _ _ _ _ _ _ _ Hl Hr2) as (ts & Hp & Hr3).
  exists (t0 :: ts). split; [|done].
  exists t0, g, ts. split_and!; [done|by apply read_task_iff|by apply next_task_iff|done].
Qed.

(** A chain of tasks that never comes back to init_task. *)
Definition rogue_set (m : ram) (X : Z -> Prop) : Prop :=
  forall g, X g -> g <> INIT_TASK_GVA /\
    (exists t, task_at m g t) /\ (exists g', task_next m g g' /\ X g').

Lemma traverse_loop_diverges m X fuel : rogue_set m X -> forall g tasks l h,
  X g -> repr h tasks l -> traverse_loop fuel m g tasks h = Err OutOfFuel.
Proof.
  intros HX. induction fuel as [|fuel IH]; intros g tasks l h Hg Hr; [done|].
  destruct (HX g Hg) as (Hne & (t & Ht) & g' & Hn & Hg'). cbn [traverse_loop].
  rewrite (proj2 (Z.eqb_neq _ _) Hne).
  rewrite (st_bind_Ok _ _ _ t h) by (by apply lift_res_Ok, read_task_iff).
  destruct (append_entry_spec _ _ _ t Hr) as (h1 & Ha & Hr1 & _).
  rewrite (st_bind_Ok _ _ _ _ _ Ha).
  rewrite (st_bind_Ok _ _ _ g' h1) by (by apply lift_res_Ok, next_task_iff).
  by eapply IH.
Qed.

(** The text of the [ps] command. *)
Fixpoint task_lines (n : Z) (ts : list task) : string :=
  match ts with
  | [] => EmptyString
  | t :: ts => task_line (n + 1) t +:+ task_lines (n + 1) ts
  end.

Lemma fold_print_task ts n s :
  fold_break print_task (n, s) ts = (n + Z.of_nat (length ts), s +:+ task_lines n ts).
Proof.
  revert n s. induction ts as [|t ts IH]; intros n s; cbn.
  - by rewrite Z.add_0_r, string_app_nil_r.
  - rewrite IH. f_equal; [lia|]. by rewrite string_app_assoc.
Qed.

(** The first page directory of a list of tasks, zero when none has one. *)
Fixpoint first_cr3 (ts : list task) : Z :=
  match ts with
  | [] => 0
  | t :: ts => if cr3 t =? 0 then first_cr3 ts else cr3 t
  end.

Lemma fold_find_cr3 ts : fold_break find_cr3 0 ts = first_cr3 ts.
Proof.
  induction ts as [|t ts IH]; [done|]. cbn [fold_break find_cr3 first_cr3]. unfold find_cr3.
  destruct (cr3 t =? 0); done.
Qed.

Lemma borrow_cr3_spec m ts fuel h :
  task_ring m ts -> hwf h -> (length ts < fuel)%nat ->
  exists h', borrow_cr3 fuel m h = Ok (first_cr3 ts, h') /\ hwf h' /\
    length (h_uaf h') = (length ts + length (h_uaf h))%nat.
Proof.
  intros Hring Hw Hlen.
  destruct (traverse_tasks_complete m ts fuel h Hring Hw) as (p & h1 & Ht & (ps & Hr) & Hu & Hf); [lia|].
  assert (Hps : length ps = length ts).
  { destruct Hr as (_ & _ & _ & Hp). by rewrite (Forall2_length _ _ _ Hp). }
  destruct (free_list_spec h1 p ps ts fuel Hr) as (N & Hfree & _ & Hdom); [lia|].
  eexists. split.
  { unfold borrow_cr3. rewrite (st_bind_Ok _ _ _ _ _ Ht).
    rewrite (st_bind_Ok _ _ _ _ _ (for_each_visit find_cr3 _ _ _ _ _ _ Hr Hlen)).
    rewrite (st_bind_Ok _ _ _ _ _ Hfree). rewrite fold_find_cr3. reflexivity. }
  destruct Hr as (Hw1 & _ & Hl & _). split.
  - apply hwf_after_free; [done..|]. by apply Forall_cons in Hl as [_ Hl].
  - cbn [after_free h_uaf]. by rewrite length_app, length_reverse, Hps, Hu.
Qed.

(** ** Claims *)

(** C30: traversal of the guest's task list is sound and complete.  When
    the task_structs reachable from init_task through [tasks.next] form a
    ring of readable tasks, [traverse_tasks] terminates and returns the
    list of exactly these tasks, init_task first and in ring order, and
    whenever it returns, what it returns is such a ring. *)
Theorem traverse_tasks_exact m h :
  hwf h ->
  (forall ts fuel, task_ring m ts -> (length ts <= fuel)%nat ->
     exists p h', traverse_tasks fuel m h = Ok (p, h') /\ repr h' p ts) /\
  (forall fuel p h', traverse_tasks fuel m h = Ok (p, h') ->
     exists ts, task_ring m ts /\ repr h' p ts).
Proof.
  intros Hw. split.
  - intros ts fuel Hr Hlen.
    destruct (traverse_tasks_complete m ts fuel h Hr Hw Hlen) as (p & h' & H & Hr' & _). eauto.
  - intros. by eapply traverse_tasks_sound.
Qed.

(** The monitor's [ps] command prints one numbered line per task of
    the ring, in order, then the number of tasks; it frees every entry of
    the list it built, and reads each entry once more after freeing it. *)
Theorem list_tasks_output m ts fuel h :
  task_ring m ts -> hwf h -> (length ts < fuel)%nat ->
  exists ps h', list_tasks fuel m h =
      Ok (task_lines 0 ts +:+ "Total Tasks: " +:+ fmt_d (Z.of_nat (length ts)) +:+ nl, h') /\
    length ps = length ts /\ NoDup ps /\
    h_freed h' = list_to_set ps ∪ h_freed h /\ h_uaf h' = reverse ps ++ h_uaf h.
Proof.
  intros Hring Hw Hlen.
  destruct (traverse_tasks_complete m ts fuel h Hring Hw) as (p & h1 & Ht & (ps & Hr) & Hu & Hf); [lia|].
  destruct (free_list_spec h1 p ps ts fuel Hr) as (N & Hfree & _ & _).
  { destruct Hr as (_ & _ & _ & Hp). rewrite (Forall2_length _ _ _ Hp). lia. }
  exists ps. eexists. split.
  { unfold list_tasks. rewrite (st_bind_Ok _ _ _ _ _ Ht).
    rewrite (st_bind_Ok _ _ _ _ _ (for_each_visit print_task _ _ _ _ _ _ Hr Hlen)).
    rewrite (st_bind_Ok _ _ _ _ _ Hfree). rewrite fold_print_task. reflexivity. }
  destruct Hr as (_ & [Hnd _] & _ & Hp). cbn [h_freed h_uaf after_free].
  rewrite (Forall2_length _ _ _ Hp), Hu, Hf. apply NoDup_cons in Hnd as [_ Hnd]. done.
Qed.

(** A guest that links its task list into a cycle that avoids
    init_task makes the traversal run forever: no iteration bound is
    enough. *)
Theorem traverse_tasks_hangs_on_rogue_list m X t0 g fuel h :
  hwf h -> task_at m INIT_TASK_GVA t0 -> task_next m INIT_TASK_GVA g ->
  X g -> rogue_set m X ->
  traverse_tasks fuel m h = Err OutOfFuel.
Proof.
  intros Hw Ht0 Hg HX Hrogue. unfold traverse_tasks.
  destruct (new_list_spec h Hw) as (p & h1 & Hnew & Hr1 & _).
  rewrite (st_bind_Ok _ _ _ _ _ Hnew).
  rewrite (st_bind_Ok _ _ _ t0 h1) by (by apply lift_res_Ok, read_task_iff).
  destruct (append_entry_spec _ _ _ t0 Hr1) as (h2 & Ha & Hr2 & _).
  rewrite (st_bind_Ok _ _ _ _ _ Ha).
  rewrite (st_bind_Ok _ _ _ g h2) by (by apply lift_res_Ok, next_task_iff).
  apply st_bind_Err. by eapply traverse_loop_diverges.
Qed.

(** ** Examples *)

(** A guest with two tasks: the idle task, which has no mm, and init. *)
Definition demo_swapper : Z := 0x1c14440.
Definition demo_init_gva : Z := 0xffff880000100000.
Definition demo_task_ram : ram := ram_of 0x8000000 [
  (demo_swapper + 732, word32 0); (demo_swapper + 1184, cstr "swapper/0");
  (demo_swapper + 616, word64 (demo_init_gva + 616)); (demo_swapper + 672, word64 0);
  (0x100000 + 732, word32 1); (0x100000 + 1184, cstr "init");
  (0x100000 + 616, word64 (INIT_TASK_GVA + 616));
  (0x100000 + 672, word64 0xffff880000200000);
  (0x200000 + 64, word64 0xffff880000300000)].

Definition demo_tasks : list task :=
  [Task 0 (String.list_byte_of_string "swapper/0") 0;
   Task 1 (String.list_byte_of_string "init") 0xffff880000300000].

Lemma demo_task_ring : task_ring demo_task_ram demo_tasks.
Proof.
  exists (Task 0 (String.list_byte_of_string "swapper/0") 0), demo_init_gva,
    [Task 1 (String.list_byte_of_string "init") 0xffff880000300000].
  split_and!; [done|apply read_task_iff; vm_compute; reflexivity
    |apply next_task_iff; vm_compute; reflexivity|].
  eapply path_step with (gva' := INIT_TASK_GVA);
    [done|apply read_task_iff; vm_compute; reflexivity
    |apply next_task_iff; vm_compute; reflexivity|constructor].
Qed.

Lemma empty_heap_wf {A} : hwf (@empty_heap A).
Proof. split; cbn; [intros p [x Hx]; by rewrite lookup_empty in Hx|set_solver]. Qed.

Lemma traverse_tasks_exact_witness :
  exists p h', traverse_tasks 2 demo_task_ram empty_heap = Ok (p, h') /\ repr h' p demo_tasks.
Proof.
  apply (traverse_tasks_exact demo_task_ram empty_heap empty_heap_wf).
  - exact demo_task_ring.
  - cbn. lia.
Defined.

Lemma list_tasks_output_witness :
  exists ps h', list_tasks 3 demo_task_ram empty_heap =
      Ok (task_lines 0 demo_tasks +:+ "Total Tasks: " +:+ fmt_d 2 +:+ nl, h') /\
    length ps = 2%nat /\ NoDup ps /\
    h_freed h' = list_to_set ps ∪ ∅ /\ h_uaf h' = reverse ps ++ [].
Proof.
  apply (list_tasks_output demo_task_ram demo_tasks 3 empty_heap).
  - exact demo_task_ring.
  - exact empty_heap_wf.
  - cbn. lia.
Defined.

(** The same guest with init's successor changed to init itself. *)
Definition rogue_task_ram : ram :=
  Ram (ram_size demo_task_ram)
    (store_bytes (ram_data demo_task_ram) (0x100000 + 616) (word64 (demo_init_gva + 616))).

Lemma traverse_tasks_hangs_witness :
  traverse_tasks 1000 rogue_task_ram empty_heap = Err OutOfFuel.
Proof.
  apply (traverse_tasks_hangs_on_rogue_list rogue_task_ram (fun g => g = demo_init_gva)
    (Task 0 (String.list_byte_of_string "swapper/0") 0) demo_init_gva).
  - exact empty_heap_wf.
  - apply read_task_iff. vm_compute. reflexivity.
  - apply next_task_iff. vm_compute. reflexivity.
  - reflexivity.
  - intros g ->. split; [done|]. split.
    + exists (Task 1 (String.list_byte_of_string "init") 0xffff880000300000).
      apply read_task_iff. vm_compute. reflexivity.
    + exists demo_init_gva. split; [|done]. apply next_task_iff. vm_compute. reflexivity.
Defined.
