(* ===== verification/Modules.v ===== *)
(** * Listing the guest's kernel modules (plugin/module.c) *)

From coqutil Require Import Byte.
From S2P Require Import Prelude GuestMem LinuxX86 PageTable ListH Text Tasks.

(** ** plugin/symbol-x86_64.h: modules *)

Definition MODULES_HEAD_GVA : Z := 0xffffffff81c4e130.
Definition MODULE_LIST_OFFSET : Z := 8.
Definition MODULE_NAME_OFFSET : Z := 24.
Definition MODULE_MODULE_CORE_OFFSET : Z := 352.

(** ** plugin/module.h *)

Definition MOD_NAME_LEN : nat := 32.

Record module := Mod {
  mname : list byte;
  core : Z
}.

(** ** plugin/module.c *)

(** The host heap while a command runs: the entries of the task lists and
    those of the module list. *)
Record hosts := Hosts { t_heap : heap task; m_heap : heap module }.

Definition on_tasks {A} (c : st (heap task) A) : st hosts A := fun s =>
  match c (t_heap s) with
  | Ok (a, h) => Ok (a, Hosts h (m_heap s))
  | Err e => Err e
  end.
Definition on_mods {A} (c : st (heap module) A) : st hosts A := fun s =>
  match c (m_heap s) with
  | Ok (a, h) => Ok (a, Hosts (t_heap s) h)
  | Err e => Err e
  end.

(** The [struct module] filled from the guest module whose [list] field is
    at guest physical address [mod_list_gpa]. *)
Definition read_module (m : ram) (mod_list_gpa : Z) : res module :=
  let mod_base_hva := mod_list_gpa - MODULE_LIST_OFFSET in
  c ← ld64 m (mod_base_hva + MODULE_MODULE_CORE_OFFSET);
  n ← sprintf_s MOD_NAME_LEN m (mod_base_hva + MODULE_NAME_OFFSET);
  Ok (Mod n c).

(** [while(mod_list_gva != MODULES_HEAD_GVA)] *)
Fixpoint modules_loop (fuel : nat) (m : ram) (cr3 mod_list_gva mods : Z) : st (heap module) unit :=
  match fuel with
  | O => fun _ => Err OutOfFuel
  | S fuel =>
      if mod_list_gva =? MODULES_HEAD_GVA then mret tt
      else
        mod_list_gpa ← lift_res (trans_addr m mod_list_gva cr3);
        md ← lift_res (read_module m mod_list_gpa);
        append_entry md mods ;;
        g ← lift_res (ld64 m mod_list_gpa);
        modules_loop fuel m cr3 g mods
  end.

(** [None] is the NULL the function returns when no task has a page
    directory. *)
Definition traverse_modules (fuel : nat) (m : ram) : st hosts (option Z) :=
  mods ← on_mods new_list;
  cr3 ← on_tasks (borrow_cr3 fuel m);
  if cr3 =? 0x0 then mret None
  else
    mod_list_gva ← lift_res (ld64 m (virt_to_phys MODULES_HEAD_GVA));
    on_mods (modules_loop fuel m cr3 mod_list_gva mods) ;;
    mret (Some mods).

Definition module_line (tot_mod : Z) (md : module) : string :=
  fmt_d tot_mod +:+ ", " +:+ fmt_s (mname md) +:+ ", 0x" +:+ fmt_016lx (core md) +:+ nl.

Definition print_module (acc : Z * string) (md : module) : (Z * string) * bool :=
  let tot_mod := fst acc + 1 in
  ((tot_mod, snd acc +:+ module_line tot_mod md), false).

Definition list_modules (fuel : nat) (m : ram) : st hosts string :=
  head ← traverse_modules fuel m;
  out ← match head with
        | None => mret (0, EmptyString)
        | Some head =>
            out ← on_mods (list_for_each_entry fuel head (visit print_module) (0, EmptyString));
            on_mods (free_list fuel head) ;;
            mret out
        end;
  mret (snd out +:+ "Total Modules: " +:+ fmt_d (fst out) +:+ nl).

(** ** The guest's module list, by virtual address

    Modules live in the vmalloc area: their structures are contiguous in
    the virtual address space only. *)

Definition mapped (m : ram) (pgd va pa : Z) : Prop := x86_walk m pgd va = Ok (Page4K pa).

Definition vread64 (m : ram) (pgd va v : Z) : Prop :=
  exists pa, mapped m pgd va pa /\ ld64 m pa = Ok v.

Fixpoint vcstr (m : ram) (pgd va : Z) (s : list byte) : Prop :=
  exists pa, mapped m pgd va pa /\
  match s with
  | [] => ldb m pa = Ok Byte.x00
  | c :: s => ldb m pa = Ok c /\ c <> Byte.x00 /\ vcstr m pgd (va + 1) s
  end.

(** A [struct module] whose [list] field is at virtual address [gva]. *)
Definition module_at (m : ram) (pgd gva : Z) (md : module) : Prop :=
  let base := gva - MODULE_LIST_OFFSET in
  0 <= gva < 2 ^ 64 /\
  vcstr m pgd (base + MODULE_NAME_OFFSET) (mname md) /\ (length (mname md) < MOD_NAME_LEN)%nat /\
  vread64 m pgd (base + MODULE_MODULE_CORE_OFFSET) (core md).

(** The structure, up to [module_core], lies in one page. *)
Definition one_page (gva : Z) : Prop :=
  gva mod 2 ^ 12 + (MODULE_MODULE_CORE_OFFSET - MODULE_LIST_OFFSET) + 8 <= 2 ^ 12.

Inductive module_path (m : ram) (pgd : Z) : Z -> list module -> Prop :=
| mpath_end : module_path m pgd MODULES_HEAD_GVA []
| mpath_step gva md gva' mds :
    gva <> MODULES_HEAD_GVA -> one_page gva -> module_at m pgd gva md ->
    vread64 m pgd gva gva' -> module_path m pgd gva' mds ->
    module_path m pgd gva (md :: mds).

(** The kernel's [modules] list, whose head is in the kernel image. *)
Definition module_list (m : ram) (pgd : Z) (mds : list module) : Prop :=
  exists g, ld64 m (virt_to_phys MODULES_HEAD_GVA) = Ok g /\ module_path m pgd g mds.

(** ** Properties *)

Lemma div_same_page va k s :
  0 <= k -> va mod 2 ^ 12 + k < 2 ^ 12 -> 12 <= s -> (va + k) / 2 ^ s = va / 2 ^ s.
Proof.
  intros Hk Hp Hs. replace s with (12 + (s - 12)) by lia.
  rewrite Z.pow_add_r, <- !Z.div_div by lia. f_equal.
  rewrite (Z.div_mod va (2 ^ 12)) at 1 by lia. rewrite <- Z.add_assoc.
  rewrite (Z.mul_comm (2 ^ 12)), Z.div_add_l by lia.
  pose proof (Z.mod_pos_bound va (2 ^ 12)). rewrite (Z.div_small (_ + k)) by lia. lia.
Qed.

Lemma mod_same_page va k :
  0 <= k -> va mod 2 ^ 12 + k < 2 ^ 12 -> (va + k) mod 2 ^ 12 = va mod 2 ^ 12 + k.
Proof.
  intros. rewrite <- Z.add_mod_idemp_l by lia. apply Z.mod_small.
  pose proof (Z.mod_pos_bound va (2 ^ 12)). lia.
Qed.

Lemma entry_addr_same_page t va k level :
  0 <= k -> va mod 2 ^ 12 + k < 2 ^ 12 -> 0 <= level ->
  entry_addr t (va + k) level = entry_addr t va level.
Proof. intros. unfold entry_addr. by rewrite div_same_page by lia. Qed.

(** Addresses of one page are translated alike. *)
Lemma mapped_same_page m pgd va pa k :
  0 <= k -> va mod 2 ^ 12 + k < 2 ^ 12 ->
  mapped m pgd va pa -> mapped m pgd (va + k) (pa + k).
Proof.
  unfold mapped, x86_walk. intros Hk Hp H.
  repeat (let e := fresh "e" in apply bind_Ok_inv in H as (e & He & H);
    rewrite entry_addr_same_page, He, bind_Ok by lia; clear He;
    destruct (present e); cbn [negb] in *; [|discriminate H];
    try (destruct (page_size_bit e); [discriminate H|])).
  injection H as <-. rewrite mod_same_page by lia. do 2 f_equal. lia.
Qed.

Lemma mapped_fun m pgd va pa pa' : mapped m pgd va pa -> mapped m pgd va pa' -> pa = pa'.
Proof. unfold mapped. intros -> H. by injection H. Qed.

Lemma vcstr_same_page m pgd va pa s :
  mapped m pgd va pa -> va mod 2 ^ 12 + Z.of_nat (length s) < 2 ^ 12 ->
  vcstr m pgd va s -> has_cstr m pa s.
Proof.
  revert va pa. induction s as [|c s IH]; intros va pa Hm Hp (pa' & Hm' & H);
    rewrite (mapped_fun _ _ _ _ _ Hm Hm'); cbn [length] in *; [done|].
  destruct H as (Hc & Hz & Hs). cbn [has_cstr]. split_and!; [done..|].
  apply (IH (va + 1)); [|rewrite mod_same_page; lia|done].
  apply mapped_same_page; [lia..|done].
Qed.

Section with_pgd.
  Context (m : ram) (pgd : Z) (Hpgd : 0 <= pgd) (Hpgd' : pgd + 4096 <= 2 ^ 46).

Lemma trans_addr_mapped va pa :
  0 <= va < 2 ^ 64 -> mapped m pgd va pa -> trans_addr m va (__va pgd) = Ok pa.
Proof. intros. rewrite trans_addr_flat by done. by apply x86_walk_4k_flat. Qed.

(** A module in one page is read from the physical address of its list
    field. *)
Lemma read_module_ok gva pa md :
  one_page gva -> mapped m pgd gva pa -> module_at m pgd gva md -> read_module m pa = Ok md.
Proof.
  unfold one_page, module_at, read_module.
  unfold MODULE_MODULE_CORE_OFFSET, MODULE_LIST_OFFSET, MODULE_NAME_OFFSET.
  intros Hp Hm (Hg & Hs & Hlen & pc & Hmc & Hc).
  replace (gva - 8 + 352) with (gva + 344) in Hmc by lia.
  replace (gva - 8 + 24) with (gva + 16) in Hs by lia.
  assert (Epc : pc = pa + 344) by (eapply mapped_fun; [done|]; apply mapped_same_page; [lia..|done]).
  replace (pa - 8 + 352) with (pa + 344) by lia. rewrite <- Epc, Hc, bind_Ok.
  replace (pa - 8 + 24) with (pa + 16) by lia. unfold sprintf_s.
  rewrite (cstring_ok _ _ _ _ (mname md)), bind_Ok; [by destruct md| |done].
  unfold MOD_NAME_LEN in Hlen.
  apply (vcstr_same_page m pgd (gva + 16)); [|rewrite mod_same_page; lia|done].
  apply mapped_same_page; [lia..|done].
Qed.

Lemma modules_loop_complete g mds :
  module_path m pgd g mds -> forall fuel mods l h,
  repr h mods l -> (length mds < fuel)%nat ->
  exists h', modules_loop fuel m (__va pgd) g mods h = Ok (tt, h') /\ repr h' mods (l ++ mds) /\
    h_uaf h' = h_uaf h /\ h_freed h' = h_freed h.
Proof.
  induction 1 as [|gva md gva' mds Hne Hpg Hmd (pa & Hpa & Hg) _ IH]; intros [|fuel] mods l h Hr Hlen;
    cbn [length] in Hlen; try lia; cbn [modules_loop].
  - rewrite Z.eqb_refl. exists h. by rewrite app_nil_r.
  - rewrite (proj2 (Z.eqb_neq _ _) Hne).
    destruct (append_entry_spec _ _ _ md Hr) as (h1 & Ha & Hr1 & Hu1 & Hf1).
    destruct (IH fuel mods (l ++ [md]) h1 Hr1) as (h2 & Hl & Hr2 & Hu2 & Hf2); [lia|].
    exists h2. rewrite <- app_assoc in Hr2. split_and!; [|done|congruence..].
    rewrite (st_bind_Ok _ _ _ pa h) by (apply lift_res_Ok, trans_addr_mapped; [apply Hmd|done]).
    rewrite (st_bind_Ok _ _ _ md h) by (by eapply lift_res_Ok, read_module_ok).
    rewrite (st_bind_Ok _ _ _ _ _ Ha).
    by rewrite (st_bind_Ok _ _ _ gva' h1) by (by apply lift_res_Ok).
Qed.

End with_pgd.

Lemma on_tasks_Ok {A} (c : st (heap task) A) s a h :
  c (t_heap s) = Ok (a, h) -> on_tasks c s = Ok (a, Hosts h (m_heap s)).
Proof. unfold on_tasks. by intros ->. Qed.

Lemma on_mods_Ok {A} (c : st (heap module) A) s a h :
  c (m_heap s) = Ok (a, h) -> on_mods c s = Ok (a, Hosts (t_heap s) h).
Proof. unfold on_mods. by intros ->. Qed.

Lemma traverse_modules_complete m pgd ts mds fuel s :
  hwf (t_heap s) -> hwf (m_heap s) -> 0 <= pgd -> pgd + 4096 <= 2 ^ 46 ->
  task_ring m ts -> first_cr3 ts = __va pgd -> module_list m pgd mds ->
  (length ts < fuel)%nat -> (length mds < fuel)%nat ->
  exists p s', traverse_modules fuel m s = Ok (Some p, s') /\ repr (m_heap s') p mds /\
    h_uaf (m_heap s') = h_uaf (m_heap s) /\ h_freed (m_heap s') = h_freed (m_heap s).
Proof.
  intros Ht Hm Hp Hp' Hring Hcr3 (g & Hg & Hpath) Hl1 Hl2.
  destruct (new_list_spec _ Hm) as (p & h1 & Hnew & Hr1 & Hu1 & Hf1).
  destruct (borrow_cr3_spec m ts fuel _ Hring Ht Hl1) as (h2 & Hb & _ & _).
  destruct (modules_loop_complete m pgd Hp Hp' g mds Hpath fuel p _ h1 Hr1 Hl2)
    as (h3 & Hloop & Hr3 & Hu3 & Hf3).
  exists p, (Hosts h2 h3). cbn [m_heap]. split_and!; [|done|congruence..].
  unfold traverse_modules.
  rewrite (st_bind_Ok _ _ _ _ _ (on_mods_Ok _ _ _ _ Hnew)).
  rewrite (st_bind_Ok _ _ _ _ _ (on_tasks_Ok _ (Hosts (t_heap s) h1) _ _ Hb)). cbn [m_heap].
  rewrite Hcr3. rewrite (proj2 (Z.eqb_neq (__va pgd) 0)).
  2: { rewrite __va_direct; [unfold PAGE_OFFSET; lia|].
       unfold direct_mapped, __START_KERNEL_map, PAGE_OFFSET. lia. }
  rewrite (st_bind_Ok _ _ _ g (Hosts h2 h1)) by (by apply lift_res_Ok).
  by rewrite (st_bind_Ok _ _ _ _ _ (on_mods_Ok _ (Hosts h2 h1) _ _ Hloop)).
Qed.

Fixpoint module_lines (n : Z) (mds : list module) : string :=
  match mds with
  | [] => EmptyString
  | md :: mds => module_line (n + 1) md +:+ module_lines (n + 1) mds
  end.

Lemma fold_print_module mds n s :
  fold_break print_module (n, s) mds = (n + Z.of_nat (length mds), s +:+ module_lines n mds).
Proof.
  revert n s. induction mds as [|md mds IH]; intros n s; cbn.
  - by rewrite Z.add_0_r, string_app_nil_r.
  - rewrite IH. f_equal; [lia|]. by rewrite string_app_assoc.
Qed.

(** ** Claims *)

(** C33: [lsmod] lists the kernel's modules.  Given a task ring whose first
    page directory is at [pgd] and a [modules] list whose structures each
    lie in one 4 KB page of that address space, the command translates
    every list address, prints one numbered line per module in list order
    and then their number, and frees the entries it allocated. *)
Theorem list_modules_output m pgd ts mds fuel s :
  hwf (t_heap s) -> hwf (m_heap s) -> 0 <= pgd -> pgd + 4096 <= 2 ^ 46 ->
  task_ring m ts -> first_cr3 ts = __va pgd -> module_list m pgd mds ->
  (length ts < fuel)%nat -> (length mds < fuel)%nat ->
  exists ps s', list_modules fuel m s =
      Ok (module_lines 0 mds +:+ "Total Modules: " +:+ fmt_d (Z.of_nat (length mds)) +:+ nl, s') /\
    length ps = length mds /\ h_freed (m_heap s') = list_to_set ps ∪ h_freed (m_heap s).
Proof.
  intros Ht Hm Hp Hp' Hring Hcr3 Hmods Hl1 Hl2.
  destruct (traverse_modules_complete m pgd ts mds fuel s) as (p & s1 & Htr & (ps & Hr) & Hu & Hf); try done.
  assert (Hps : length ps = length mds).
  { destruct Hr as (_ & _ & _ & Hpay). by rewrite (Forall2_length _ _ _ Hpay). }
  destruct (free_list_spec _ p ps mds fuel Hr) as (N & Hfree & _ & _); [lia|].
  exists ps. eexists. split.
  { unfold list_modules. rewrite (st_bind_Ok _ _ _ _ _ Htr).
    erewrite st_bind_Ok.
    2: { rewrite (st_bind_Ok _ _ _ _ _ (on_mods_Ok _ s1 _ _
           (for_each_visit print_module _ _ _ _ _ _ Hr Hl2))).
         erewrite st_bind_Ok; [reflexivity|]. apply on_mods_Ok. exact Hfree. }
    rewrite fold_print_module. reflexivity. }
  cbn [m_heap after_free h_freed]. by rewrite Hf.
Qed.

(** When no task of the ring has a page directory, [traverse_modules]
    returns NULL without reading the module list and [lsmod] reports zero
    modules. *)
Theorem list_modules_no_cr3 m ts fuel s :
  hwf (t_heap s) -> hwf (m_heap s) -> task_ring m ts -> first_cr3 ts = 0 ->
  (length ts < fuel)%nat ->
  exists s', list_modules fuel m s = Ok ("Total Modules: 0" +:+ nl, s').
Proof.
  intros Ht Hm Hring Hz Hl.
  destruct (new_list_spec _ Hm) as (p & h1 & Hnew & _).
  destruct (borrow_cr3_spec m ts fuel _ Hring Ht Hl) as (h2 & Hb & _ & _).
  exists (Hosts h2 h1). unfold list_modules.
  erewrite st_bind_Ok.
  2: { unfold traverse_modules.
       rewrite (st_bind_Ok _ _ _ _ _ (on_mods_Ok _ _ _ _ Hnew)).
       rewrite (st_bind_Ok _ _ _ _ _ (on_tasks_Ok _ (Hosts (t_heap s) h1) _ _ Hb)).
       rewrite Hz. reflexivity. }
  reflexivity.
Qed.

(** ** Examples *)

Lemma vcstr_of_has_cstr m pgd va pa s :
  mapped m pgd va pa -> va mod 2 ^ 12 + Z.of_nat (length s) < 2 ^ 12 ->
  has_cstr m pa s -> vcstr m pgd va s.
Proof.
  revert va pa. induction s as [|c s IH]; intros va pa Hm Hp H; exists pa; split; try done.
  destruct H as (Hc & Hz & Hs). cbn [length] in Hp. split_and!; [done..|].
  apply (IH _ (pa + 1)); [|rewrite mod_same_page; lia|done].
  apply mapped_same_page; [lia..|done].
Qed.

(** The two-task guest of [Tasks] with one module mapped in the address
    space of init, whose page directory is at 0x300000. *)
Definition demo_mod_gva : Z := 0xffffffffa0000108.
Definition demo_mod_ram : ram := ram_of 0x8000000 ([
  (0x300000 + 8 * 511, word64 0x2067); (0x2000 + 8 * 510, word64 0x3067);
  (0x3000 + 8 * 256, word64 0x4067); (0x4000, word64 0x5067); (0x4008, word64 0x7067);
  (0x1c4e130, word64 demo_mod_gva);
  (0x5108, word64 MODULES_HEAD_GVA); (0x5100 + 24, cstr "virtio_net");
  (0x5100 + 352, word64 0xffffffffa0010000);
  (demo_swapper + 732, word32 0); (demo_swapper + 1184, cstr "swapper/0");
  (demo_swapper + 616, word64 (demo_init_gva + 616)); (demo_swapper + 672, word64 0);
  (0x100000 + 732, word32 1); (0x100000 + 1184, cstr "init");
  (0x100000 + 616, word64 (INIT_TASK_GVA + 616));
  (0x100000 + 672, word64 0xffff880000200000);
  (0x200000 + 64, word64 0xffff880000300000);
  (0x5f08, word64 MODULES_HEAD_GVA); (0x5f00 + 24, cstr "loop");
  (0x7060, word64 0xffffffffa0020000)])%list.
Definition demo_mods : list module :=
  [Mod (String.list_byte_of_string "virtio_net") 0xffffffffa0010000].

Lemma demo_mod_tasks : task_ring demo_mod_ram demo_tasks.
Proof.
  exists (Task 0 (String.list_byte_of_string "swapper/0") 0), demo_init_gva,
    [Task 1 (String.list_byte_of_string "init") 0xffff880000300000].
  split_and!; [done|apply read_task_iff; vm_compute; reflexivity
    |apply next_task_iff; vm_compute; reflexivity|].
  eapply path_step with (gva' := INIT_TASK_GVA);
    [done|apply read_task_iff; vm_compute; reflexivity
    |apply next_task_iff; vm_compute; reflexivity|constructor].
Qed.

Lemma demo_mod_list : module_list demo_mod_ram 0x300000 demo_mods.
Proof.
  exists demo_mod_gva. split; [vm_compute; reflexivity|].
  eapply mpath_step with (gva' := MODULES_HEAD_GVA); [done| | | |constructor].
  - vm_compute. discriminate.
  - split; [unfold demo_mod_gva; lia|]. split_and!.
    + apply (vcstr_of_has_cstr _ _ _ (0x5100 + 24)); [vm_compute; reflexivity|vm_compute; reflexivity|].
      apply (cstring_sound OutOfFuel 32). vm_compute. reflexivity.
    + vm_compute. lia.
    + exists (0x5100 + 352). split; vm_compute; reflexivity.
  - exists 0x5108. split; vm_compute; reflexivity.
Qed.

Lemma list_modules_output_witness :
  exists ps s', list_modules 5 demo_mod_ram (Hosts empty_heap empty_heap) =
      Ok (module_lines 0 demo_mods +:+ "Total Modules: " +:+ fmt_d 1 +:+ nl, s') /\
    length ps = 1%nat /\ h_freed (m_heap s') = list_to_set ps ∪ ∅.
Proof.
  apply (list_modules_output demo_mod_ram 0x300000 demo_tasks demo_mods 5 (Hosts empty_heap empty_heap));
    [exact empty_heap_wf|exact empty_heap_wf|lia|lia|exact demo_mod_tasks|vm_compute; reflexivity
    |exact demo_mod_list|cbn; lia|cbn; lia].
Defined.

(** A guest that runs kernel threads only. *)
Definition demo_kthread_ram : ram := ram_of 0x8000000 [
  (demo_swapper + 732, word32 0); (demo_swapper + 1184, cstr "swapper/0");
  (demo_swapper + 616, word64 (INIT_TASK_GVA + 616)); (demo_swapper + 672, word64 0)].

Lemma list_modules_no_cr3_witness :
  exists s', list_modules 5 demo_kthread_ram (Hosts empty_heap empty_heap)
    = Ok ("Total Modules: 0" +:+ nl, s').
Proof.
  apply (list_modules_no_cr3 demo_kthread_ram [Task 0 (String.list_byte_of_string "swapper/0") 0]);
    [exact empty_heap_wf|exact empty_heap_wf| |reflexivity|cbn; lia].
  exists (Task 0 (String.list_byte_of_string "swapper/0") 0), INIT_TASK_GVA, [].
  split_and!; [done|apply read_task_iff; vm_compute; reflexivity
    |apply next_task_iff; vm_compute; reflexivity|constructor].
Defined.

(** Only the list field of a module is translated, the other fields
    are read at the same distance in physical memory.  For a module that
    straddles two pages whose frames are not adjacent this is another
    structure: a mapped module is reported with a wrong core address. *)
Theorem read_module_straddling_wrong :
  exists pgd gva pa md, mapped demo_mod_ram pgd gva pa /\ module_at demo_mod_ram pgd gva md /\
    exists md', read_module demo_mod_ram pa = Ok md' /\ core md' <> core md.
Proof.
  exists 0x300000, 0xffffffffa0000f08, 0x5f08,
    (Mod (String.list_byte_of_string "loop") 0xffffffffa0020000).
  split; [vm_compute; reflexivity|]. split.
  - split; [lia|]. split_and!.
    + apply (vcstr_of_has_cstr _ _ _ (0x5f00 + 24)); [vm_compute; reflexivity|vm_compute; reflexivity|].
      apply (cstring_sound OutOfFuel 32). vm_compute. reflexivity.
    + vm_compute. lia.
    + exists 0x7060. split; vm_compute; reflexivity.
  - exists (Mod (String.list_byte_of_string "loop") 0). split; [vm_compute; reflexivity|].
    vm_compute. discriminate.
Qed.
