(* ===== verification/NetDev.v ===== *)
(** * Listing the guest's network devices (plugin/net.c) *)

From coqutil Require Import Byte.
From S2P Require Import Prelude GuestMem LinuxX86 Text.

(** ** plugin/symbol-x86_64.h: network devices *)

Definition DEV_BASE_HEAD_GVA : Z := 0xffffffff81cd2008.
Definition ND_DEVICE_LIST_OFFSET : Z := 80.
Definition ND_NAME_OFFSET : Z := 0.
Definition ND_DEV_ADDR_OFFSET : Z := 672.
Definition ND_IP_PTR_OFFSET : Z := 624.
Definition IND_IFA_LIST_OFFSET : Z := 16.
Definition INA_IFA_ADDRESS_OFFSET : Z := 52.
Definition INA_IFA_BROADCAST_OFFSET : Z := 60.
Definition INA_IFA_MASK_OFFSET : Z := 56.

(** ** plugin/net.h *)

Definition IP_LEN : nat := 16.

(** ** plugin/net.c *)

(** [sprintf(buf, "%s", inet_ntoa(ia))] into [char buf[IP_LEN]] *)
Definition sprintf_ip (a : Z) : res string :=
  let s := inet_ntoa a in
  if decide (String.length s < IP_LEN)%nat then Ok s else Err BufferOverflow.

Definition HWaddr_line (b0 b1 b2 b3 b4 b5 : byte) : string :=
  "   HWaddr     : " +:+ fmt_22X b0 +:+ ":" +:+ fmt_22X b1 +:+ ":" +:+ fmt_22X b2 +:+ ":"
  +:+ fmt_22X b3 +:+ ":" +:+ fmt_22X b4 +:+ ":" +:+ fmt_22X b5 +:+ nl.

Definition ip_lines (ip broadcast mask : string) : string :=
  "   IP Address : " +:+ ip +:+ nl +:+ "   Broadcast  : " +:+ broadcast +:+ nl
  +:+ "   IP Mask    : " +:+ mask +:+ nl.

(** The addresses of the device's first in_ifaddr, when it has one. *)
Definition print_ifaddr (m : ram) (net_base_hva : Z) : res string :=
  ind_gva ← ld64 m (net_base_hva + ND_IP_PTR_OFFSET);
  if ind_gva =? 0x0 then Ok EmptyString else
  let ind_hva := virt_to_phys ind_gva in
  ina_gva ← ld64 m (ind_hva + IND_IFA_LIST_OFFSET);
  if ina_gva =? 0x0 then Ok EmptyString else
  let ina_hva := virt_to_phys ina_gva in
  ip_net ← ld32 m (ina_hva + INA_IFA_ADDRESS_OFFSET);
  broadcast_net ← ld32 m (ina_hva + INA_IFA_BROADCAST_OFFSET);
  mask_net ← ld32 m (ina_hva + INA_IFA_MASK_OFFSET);
  ip ← sprintf_ip ip_net;
  broadcast ← sprintf_ip broadcast_net;
  mask ← sprintf_ip mask_net;
  Ok (ip_lines ip broadcast mask).

(** What the loop body prints for the device whose [dev_list] is at guest
    physical address [net_list_gpa]; [fuel] bounds the device's name. *)
Definition print_one_device (fuel : nat) (m : ram) (net_list_gpa : Z) : res string :=
  let net_base_hva := net_list_gpa - ND_DEVICE_LIST_OFFSET in
  name ← cstring OutOfFuel fuel m (net_base_hva + ND_NAME_OFFSET);
  dev_addr_gva ← ld64 m (net_base_hva + ND_DEV_ADDR_OFFSET);
  let dev_addr_hva := virt_to_phys dev_addr_gva in
  b0 ← ldb m (dev_addr_hva + 0);
  b1 ← ldb m (dev_addr_hva + 1);
  b2 ← ldb m (dev_addr_hva + 2);
  b3 ← ldb m (dev_addr_hva + 3);
  b4 ← ldb m (dev_addr_hva + 4);
  b5 ← ldb m (dev_addr_hva + 5);
  addrs ← print_ifaddr m net_base_hva;
  Ok ("Device: " +:+ fmt_s name +:+ nl +:+ HWaddr_line b0 b1 b2 b3 b4 b5 +:+ addrs).

(** [while(net_list_gva != DEV_BASE_HEAD_GVA)] *)
Fixpoint net_loop (fuel : nat) (m : ram) (net_list_gva : Z) (out : string) : res string :=
  match fuel with
  | O => Err OutOfFuel
  | S fuel' =>
      if net_list_gva =? DEV_BASE_HEAD_GVA then Ok out
      else
        let net_list_gpa := virt_to_phys net_list_gva in
        s ← print_one_device fuel m net_list_gpa;
        g ← ld64 m net_list_gpa;
        net_loop fuel' m g (out +:+ s)
  end.

Definition print_net_device (fuel : nat) (m : ram) : res string :=
  net_list_gva ← ld64 m (virt_to_phys DEV_BASE_HEAD_GVA);
  net_loop fuel m net_list_gva EmptyString.

(** ** The guest's device list *)

Record ifaddr := IfAddr { ifa_address : Z; ifa_broadcast : Z; ifa_mask : Z }.

Record netdev := NetDev {
  nd_name : list byte;
  nd_mac : list byte;
  nd_addr : option ifaddr
}.

(** The net_device whose [dev_list] field is at [gva]. *)
Definition netdev_at (m : ram) (gva : Z) (d : netdev) : Prop :=
  let base := virt_to_phys gva - ND_DEVICE_LIST_OFFSET in
  has_cstr m (base + ND_NAME_OFFSET) (nd_name d) /\
  (exists mac, ld64 m (base + ND_DEV_ADDR_OFFSET) = Ok mac /\ length (nd_mac d) = 6%nat /\
     forall i b, nd_mac d !! i = Some b -> ldb m (virt_to_phys mac + Z.of_nat i) = Ok b) /\
  exists ind, ld64 m (base + ND_IP_PTR_OFFSET) = Ok ind /\
  match nd_addr d with
  | None => ind = 0 \/ (ind <> 0 /\ ld64 m (virt_to_phys ind + IND_IFA_LIST_OFFSET) = Ok 0)
  | Some a => ind <> 0 /\ exists ina, ina <> 0 /\
      ld64 m (virt_to_phys ind + IND_IFA_LIST_OFFSET) = Ok ina /\
      ld32 m (virt_to_phys ina + INA_IFA_ADDRESS_OFFSET) = Ok (ifa_address a) /\
      ld32 m (virt_to_phys ina + INA_IFA_BROADCAST_OFFSET) = Ok (ifa_broadcast a) /\
      ld32 m (virt_to_phys ina + INA_IFA_MASK_OFFSET) = Ok (ifa_mask a)
  end.

Inductive netdev_path (m : ram) : Z -> list netdev -> Prop :=
| npath_end : netdev_path m DEV_BASE_HEAD_GVA []
| npath_step gva d gva' ds :
    gva <> DEV_BASE_HEAD_GVA -> netdev_at m gva d -> ld64 m (virt_to_phys gva) = Ok gva' ->
    netdev_path m gva' ds -> netdev_path m gva (d :: ds).

Definition netdev_list (m : ram) (ds : list netdev) : Prop :=
  exists g, ld64 m (virt_to_phys DEV_BASE_HEAD_GVA) = Ok g /\ netdev_path m g ds.

(** The report of a device. *)
Definition mac_byte (d : netdev) (i : nat) : byte := default Byte.x00 (nd_mac d !! i).
Definition netdev_text (d : netdev) : string :=
  "Device: " +:+ fmt_s (nd_name d) +:+ nl
  +:+ HWaddr_line (mac_byte d 0) (mac_byte d 1) (mac_byte d 2)
        (mac_byte d 3) (mac_byte d 4) (mac_byte d 5)
  +:+ match nd_addr d with
      | None => EmptyString
      | Some a => ip_lines (inet_ntoa (ifa_address a)) (inet_ntoa (ifa_broadcast a))
                    (inet_ntoa (ifa_mask a))
      end.
Definition netdevs_text (ds : list netdev) : string :=
  foldr (fun d s => netdev_text d +:+ s) EmptyString ds.

(** ** Properties *)

Lemma length_string_app s t : String.length (s +:+ t) = (String.length s + String.length t)%nat.
Proof. induction s as [|c s IH]; [done|]. exact (f_equal S IH). Qed.

Lemma fmt_d_byte_length b : (String.length (fmt_d (b mod 256)) <= 3)%nat.
Proof.
  assert (H : forallb (fun n => (String.length (fmt_d (Z.of_nat n)) <=? 3)%nat) (seq 0 256) = true)
    by (vm_compute; reflexivity).
  rewrite forallb_forall in H.
  pose proof (Z.mod_pos_bound b 256 ltac:(lia)) as Hb.
  specialize (H (Z.to_nat (b mod 256))). rewrite Z2Nat.id in H by lia.
  apply Nat.leb_le, H, in_seq. lia.
Qed.

(** A dotted quad always fits the plugin's 16-byte buffers. *)
Lemma inet_ntoa_length a : (String.length (inet_ntoa a) < IP_LEN)%nat.
Proof.
  unfold inet_ntoa, IP_LEN. rewrite !length_string_app.
  pose proof (fmt_d_byte_length a). pose proof (fmt_d_byte_length (a / 2 ^ 8)).
  pose proof (fmt_d_byte_length (a / 2 ^ 16)). pose proof (fmt_d_byte_length (a / 2 ^ 24)).
  change (String.length ".") with 1%nat. lia.
Qed.

Lemma sprintf_ip_ok a : sprintf_ip a = Ok (inet_ntoa a).
Proof. unfold sprintf_ip. by rewrite decide_True by apply inet_ntoa_length. Qed.

Lemma print_ifaddr_ok m gva d :
  netdev_at m gva d ->
  print_ifaddr m (virt_to_phys gva - ND_DEVICE_LIST_OFFSET) = Ok (
    match nd_addr d with
    | None => EmptyString
    | Some a => ip_lines (inet_ntoa (ifa_address a)) (inet_ntoa (ifa_broadcast a))
                  (inet_ntoa (ifa_mask a))
    end).
Proof.
  intros (_ & _ & ind & Hind & H). unfold print_ifaddr. rewrite Hind, bind_Ok.
  destruct (nd_addr d) as [a|].
  - destruct H as (Hne & ina & Hne' & Hina & Hip & Hbc & Hmask).
    rewrite (proj2 (Z.eqb_neq _ _) Hne), Hina, bind_Ok, (proj2 (Z.eqb_neq _ _) Hne').
    rewrite Hip, bind_Ok, Hbc, bind_Ok, Hmask, bind_Ok.
    by rewrite !sprintf_ip_ok, !bind_Ok.
  - destruct H as [->|[Hne Hz]]; [done|].
    by rewrite (proj2 (Z.eqb_neq _ _) Hne), Hz, bind_Ok.
Qed.

Lemma print_one_device_ok fuel m gva d :
  netdev_at m gva d -> (length (nd_name d) < fuel)%nat ->
  print_one_device fuel m (virt_to_phys gva) = Ok (netdev_text d).
Proof.
  intros Hd Hlen. unfold print_one_device. pose proof (print_ifaddr_ok _ _ _ Hd) as Hif.
  destruct Hd as (Hs & (mac & Hmac & Hl6 & Hb) & _).
  rewrite (cstring_ok _ _ _ _ _ Hs Hlen), bind_Ok, Hmac, bind_Ok.
  destruct d as [nm mc ad]. cbn [nd_mac nd_name nd_addr] in *. unfold netdev_text, mac_byte.
  cbn [nd_mac nd_name nd_addr].
  do 6 (destruct mc as [|? mc]; [discriminate|]). destruct mc; [|discriminate].
  rewrite (Hb 0%nat _ eq_refl : ldb m (virt_to_phys mac + 0) = Ok _), bind_Ok,
    (Hb 1%nat _ eq_refl : ldb m (virt_to_phys mac + 1) = Ok _), bind_Ok,
    (Hb 2%nat _ eq_refl : ldb m (virt_to_phys mac + 2) = Ok _), bind_Ok,
    (Hb 3%nat _ eq_refl : ldb m (virt_to_phys mac + 3) = Ok _), bind_Ok,
    (Hb 4%nat _ eq_refl : ldb m (virt_to_phys mac + 4) = Ok _), bind_Ok,
    (Hb 5%nat _ eq_refl : ldb m (virt_to_phys mac + 5) = Ok _), bind_Ok.
  rewrite Hif, bind_Ok. reflexivity.
Qed.

Lemma net_loop_ok m g ds :
  netdev_path m g ds -> forall fuel out,
  (length ds + foldr Nat.max 0 (length ∘ nd_name <$> ds) < fuel)%nat ->
  net_loop fuel m g out = Ok (out +:+ netdevs_text ds).
Proof.
  induction 1 as [|gva d gva' ds Hne Hd Hg _ IH]; intros [|fuel] out Hlen; cbn in Hlen; try lia;
    cbn [net_loop].
  - by rewrite Z.eqb_refl, string_app_nil_r.
  - rewrite (proj2 (Z.eqb_neq _ _) Hne).
    rewrite (print_one_device_ok _ _ _ _ Hd), bind_Ok, Hg, bind_Ok by lia.
    rewrite IH by lia. cbn [netdevs_text foldr]. by rewrite string_app_assoc.
Qed.

(** ** Claims *)

(** C34: [ifconfig] reports every device on the kernel's device list, in
    order, with its name, its hardware address and, when the device has an
    in_ifaddr, its three IPv4 addresses in dotted notation; the text of an
    address always fits the 16-byte buffers. *)
Theorem print_net_device_exact m ds fuel :
  netdev_list m ds ->
  (length ds + foldr Nat.max 0 (length ∘ nd_name <$> ds) < fuel)%nat ->
  print_net_device fuel m = Ok (netdevs_text ds).
Proof.
  intros (g & Hg & Hp) Hfuel. unfold print_net_device. rewrite Hg, bind_Ok.
  by rewrite (net_loop_ok _ _ _ Hp).
Qed.

(** ** Examples *)

(** The loopback device, without an in_device, and eth0 at 10.0.2.15. *)
Definition demo_net_ram : ram := ram_of 0x8000000 [
  (0x1cd2008, word64 0xffff880000400050);
  (0x400000, cstr "lo"); (0x400050, word64 0xffff880000500050);
  (0x400000 + 672, word64 0xffff880000600000); (0x400000 + 624, word64 0);
  (0x500000, cstr "eth0"); (0x500050, word64 DEV_BASE_HEAD_GVA);
  (0x500000 + 672, word64 0xffff880000600010); (0x500000 + 624, word64 0xffff880000700000);
  (0x600010, [Byte.x52; Byte.x54; Byte.x00; Byte.x12; Byte.x34; Byte.x56]);
  (0x700000 + 16, word64 0xffff880000800000);
  (0x800000 + 52, word32 0x0f02000a); (0x800000 + 56, word32 0x00ffffff);
  (0x800000 + 60, word32 0xff02000a)].

Definition demo_netdevs : list netdev :=
  [NetDev (String.list_byte_of_string "lo") (replicate 6 Byte.x00) None;
   NetDev (String.list_byte_of_string "eth0")
     [Byte.x52; Byte.x54; Byte.x00; Byte.x12; Byte.x34; Byte.x56]
     (Some (IfAddr 0x0f02000a 0xff02000a 0x00ffffff))].

Lemma demo_netdev_list : netdev_list demo_net_ram demo_netdevs.
Proof.
  assert (Hb : forall (a : Z) bs, forallb (fun i => match ldb demo_net_ram (a + Z.of_nat i), bs !! i with
      | Ok c, Some b => Byte.eqb c b | _, _ => false end) (seq 0 (length bs)) = true ->
    forall i b, bs !! i = Some b -> ldb demo_net_ram (a + Z.of_nat i) = Ok b).
  { intros a bs H i b Hi. rewrite forallb_forall in H.
    specialize (H i). rewrite Hi in H. apply lookup_lt_Some in Hi.
    destruct (ldb _ _) as [c|]; [f_equal; apply Byte.byte_dec_bl, H|discriminate H];
      apply in_seq; lia. }
  exists 0xffff880000400050. split; [vm_compute; reflexivity|].
  eapply npath_step with (gva' := 0xffff880000500050); [done| |vm_compute; reflexivity|
  eapply npath_step with (gva' := DEV_BASE_HEAD_GVA); [done| |vm_compute; reflexivity|constructor]].
  - split; [apply (cstring_sound OutOfFuel 32); vm_compute; reflexivity|]. split.
    + eexists. split; [vm_compute; reflexivity|]. split; [done|]. apply Hb. vm_compute. reflexivity.
    + exists 0. split; [vm_compute; reflexivity|]. by left.
  - split; [apply (cstring_sound OutOfFuel 32); vm_compute; reflexivity|]. split.
    + eexists. split; [vm_compute; reflexivity|]. split; [done|]. apply Hb. vm_compute. reflexivity.
    + eexists. split; [vm_compute; reflexivity|]. split; [done|].
      exists 0xffff880000800000. split; [done|]. split_and!; vm_compute; reflexivity.
Qed.

Lemma print_net_device_exact_witness :
  print_net_device 10 demo_net_ram = Ok (netdevs_text demo_netdevs).
Proof.
  apply (print_net_device_exact demo_net_ram demo_netdevs 10).
  - exact demo_netdev_list.
  - vm_compute. lia.
Defined.
