(* ===== verification/Float32.v ===== *)
(** * The C type [float] and its ["%.1f"] text

    The usage statistics are computed in IEEE 754 binary32, rounding to
    nearest even; [SpecFloat] of the standard library gives the operations
    with [prec = 24] and [emax = 128]. *)

From Stdlib Require Import SpecFloat.
From S2P Require Import Prelude Text.

Definition f32 : Type := spec_float.

(** [(float)z] of an [unsigned long]. *)
Definition f32_of_u64 (z : Z) : f32 := binary_normalize 24 128 z 0 false.
Definition f32_mul (x y : f32) : f32 := SFmul 24 128 x y.
Definition f32_div (x y : f32) : f32 := SFdiv 24 128 x y.

Definition f32_0 : f32 := f32_of_u64 0.
Definition f32_100 : f32 := f32_of_u64 100.

(** [m * 2^e] in tenths, rounded half to even on the exact value. *)
Definition tenths (m e : Z) : Z :=
  if 0 <=? e then 10 * m * 2 ^ e
  else
    let d := 2 ^ (- e) in
    let q := (10 * m) / d in
    let r := (10 * m) mod d in
    if 2 * r <? d then q
    else if d <? 2 * r then q + 1
    else if Z.even q then q else q + 1.

(** ["%.1f"]; the default NaN of the SSE unit has its sign bit set. *)
Definition fmt_1f (x : f32) : string :=
  match x with
  | S754_zero s => (if s then "-" else EmptyString) +:+ "0.0"
  | S754_infinity s => (if s then "-" else EmptyString) +:+ "inf"
  | S754_nan => "-nan"
  | S754_finite s m e =>
      let t := tenths (Zpos m) e in
      (if s then "-" else EmptyString) +:+ fmt_d (t / 10) +:+ "." +:+ fmt_d (t mod 10)
  end.

(** ["%5.1f"] *)
Fixpoint pad_left (n : nat) (s : string) : string :=
  match n with O => s | S n => " " +:+ pad_left n s end.
Definition fmt_51f (x : f32) : string :=
  let s := fmt_1f x in pad_left (5 - String.length s) s.

Example fmt_33 : fmt_1f (f32_div (f32_mul f32_100 (f32_of_u64 1)) (f32_of_u64 3)) = "33.3".
Proof. reflexivity. Qed.
Example fmt_100 : fmt_51f f32_100 = "100.0".
Proof. reflexivity. Qed.
