(* ===== verification/MemUsage.v ===== *)
(** * Memory utilisation (plugin/mem_usage.c) *)

From S2P Require Import Prelude GuestMem LinuxX86 Text Float32.

(** ** plugin/symbol-x86_64.h: memory utilisation *)

Definition PAGE_KB : Z := 4.
Definition ALL_BDEVS_GVA : Z := 0xffffffff81c6e520.
Definition TOTALRAM_PAGES_GVA : Z := 0xffffffff81d06228.
Definition VM_STAT_GVA : Z := 0xffffffff81c06200.
Definition SWAPPER_SPACES_GVA : Z := 0xffffffff81c5cc60.
Definition ADDRESS_SPACE_SIZE : Z := 168.
Definition ADDRESS_SPACE_NRPAGES_OFFSET : Z := 96.
Definition MAX_SWAPFILES : nat := 29.
Definition BLOCK_DEVICE_BD_LIST_OFFSET : Z := 168.
Definition BLOCK_DEVICE_BD_INODE_OFFSET : Z := 8.
Definition INODE_I_MAPPING_OFFSET : Z := 48.

(** enum zone_stat_item: the two members the plugin uses. *)
Definition NR_FREE_PAGES : Z := 0.
Definition NR_FILE_PAGES : Z := 9.

(** ** plugin/mem_usage.h *)

Record mem_usage_stat := MemStat {
  MemTotal : Z;  (** in kB *)
  MemFree : Z;
  Buffers : Z;
  Cached : Z;
  mem_usage : f32
}.

(** ** plugin/mem_usage.c *)

Definition getMemTotal (m : ram) : res Z :=
  v ← ld64 m (virt_to_phys TOTALRAM_PAGES_GVA); Ok (u64 (v * PAGE_KB)).

Definition getMemFree (m : ram) : res Z :=
  v ← ld64 m (virt_to_phys VM_STAT_GVA + 8 * NR_FREE_PAGES); Ok (u64 (v * PAGE_KB)).

(** The page-cache pages of the block device whose [bd_list] field is at
    host offset [next_bd_list_hva]. *)
Definition bdev_nrpages (m : ram) (next_bd_list_hva : Z) : res Z :=
  let bdev_base_hva := next_bd_list_hva - BLOCK_DEVICE_BD_LIST_OFFSET in
  inode_base_gva ← ld64 m (bdev_base_hva + BLOCK_DEVICE_BD_INODE_OFFSET);
  let inode_base_hva := virt_to_phys inode_base_gva in
  address_space_gva ← ld64 m (inode_base_hva + INODE_I_MAPPING_OFFSET);
  let address_space_hva := virt_to_phys address_space_gva in
  ld64 m (address_space_hva + ADDRESS_SPACE_NRPAGES_OFFSET).

(** [while(next_bd_list_gva != ALL_BDEVS_GVA)] *)
Fixpoint buffers_loop (fuel : nat) (m : ram) (next_bd_list_gva tot : Z) : res Z :=
  match fuel with
  | O => Err OutOfFuel
  | S fuel =>
      if next_bd_list_gva =? ALL_BDEVS_GVA then Ok (u64 (tot * PAGE_KB))
      else
        let next_bd_list_hva := virt_to_phys next_bd_list_gva in
        nrpages ← bdev_nrpages m next_bd_list_hva;
        g ← ld64 m next_bd_list_hva;
        buffers_loop fuel m g (u64 (tot + nrpages))
  end.

Definition getBuffers (fuel : nat) (m : ram) : res Z :=
  next_bd_list_gva ← ld64 m (virt_to_phys ALL_BDEVS_GVA);
  buffers_loop fuel m next_bd_list_gva 0.

Definition getMemFile (m : ram) : res Z :=
  v ← ld64 m (virt_to_phys VM_STAT_GVA + 8 * NR_FILE_PAGES); Ok (u64 (v * PAGE_KB)).

(** [for(i=0; i<MAX_SWAPFILES; i++)] over the swapper spaces. *)
Fixpoint swapcache_loop (n : nat) (m : ram) (swapper_spaces_hva swapcache_pages : Z) : res Z :=
  match n with
  | O => Ok (u64 (swapcache_pages * PAGE_KB))
  | S n =>
      v ← ld64 m (swapper_spaces_hva + ADDRESS_SPACE_NRPAGES_OFFSET);
      swapcache_loop n m (swapper_spaces_hva + ADDRESS_SPACE_SIZE) (u64 (swapcache_pages + v))
  end.

Definition getMemSwapCache (m : ram) : res Z :=
  swapcache_loop MAX_SWAPFILES m (virt_to_phys SWAPPER_SPACES_GVA) 0.

(** [swapcache_size] is declared [unsigned]: the value is cut to 32 bits. *)
Definition getCached (fuel : nat) (m : ram) : res Z :=
  file_size ← getMemFile m;
  swapcache ← getMemSwapCache m;
  let swapcache_size := u32 swapcache in
  bufferram ← getBuffers fuel m;
  Ok (u64 (file_size - swapcache_size - bufferram)).

Definition get_mem_usage (fuel : nat) (m : ram) : res mem_usage_stat :=
  MemTotal ← getMemTotal m;
  MemFree ← getMemFree m;
  Buffers ← getBuffers fuel m;
  Cached ← getCached fuel m;
  let mem_usage := f32_div (f32_of_u64 (u64 (MemTotal - MemFree - Buffers - Cached)))
                     (f32_of_u64 MemTotal) in
  let mem_usage := f32_mul mem_usage f32_100 in
  Ok (MemStat MemTotal MemFree Buffers Cached mem_usage).

Definition mem_usage_handle (fuel : nat) (m : ram) : res string :=
  stat ← get_mem_usage fuel m;
  Ok ("MemTotal  : " +:+ fmt_d (MemTotal stat) +:+ " kB" +:+ nl
      +:+ "MemFree   : " +:+ fmt_d (MemFree stat) +:+ " kB" +:+ nl
      +:+ "Buffers   : " +:+ fmt_d (Buffers stat) +:+ " kB" +:+ nl
      +:+ "Cached    : " +:+ fmt_d (Cached stat) +:+ " kB" +:+ nl
      +:+ "Mem Usage : " +:+ fmt_1f (mem_usage stat) +:+ "%" +:+ nl).

(** ** The guest's accounting *)

(** The list of block devices, with the pages each one caches. *)
Inductive bdev_path (m : ram) : Z -> list Z -> Prop :=
| bpath_end : bdev_path m ALL_BDEVS_GVA []
| bpath_step gva n gva' ns :
    gva <> ALL_BDEVS_GVA -> bdev_nrpages m (virt_to_phys gva) = Ok n ->
    ld64 m (virt_to_phys gva) = Ok gva' -> bdev_path m gva' ns ->
    bdev_path m gva (n :: ns).

Definition zsum (l : list Z) : Z := foldr Z.add 0 l.

(** A guest whose counters are, in pages: total, free, file cache, the
    swap caches, and the block devices' caches. *)
Record accounting (m : ram) (total nfree nfile : Z) (swap bufs : list Z) : Prop := {
  acc_total : ld64 m (virt_to_phys TOTALRAM_PAGES_GVA) = Ok total;
  acc_free : ld64 m (virt_to_phys VM_STAT_GVA + 8 * NR_FREE_PAGES) = Ok nfree;
  acc_file : ld64 m (virt_to_phys VM_STAT_GVA + 8 * NR_FILE_PAGES) = Ok nfile;
  acc_swap_len : length swap = MAX_SWAPFILES;
  acc_swap : forall i v, swap !! i = Some v ->
    ld64 m (virt_to_phys SWAPPER_SPACES_GVA + Z.of_nat i * ADDRESS_SPACE_SIZE
            + ADDRESS_SPACE_NRPAGES_OFFSET) = Ok v;
  acc_bufs : exists g, ld64 m (virt_to_phys ALL_BDEVS_GVA) = Ok g /\ bdev_path m g bufs
}.

(** ** Properties *)

Lemma u64_mul_l a b : u64 (u64 a * b) = u64 (a * b).
Proof. apply Zmult_mod_idemp_l. Qed.

Lemma buffers_loop_ok m g ns :
  bdev_path m g ns -> forall fuel tot, (length ns < fuel)%nat ->
  buffers_loop fuel m g (u64 tot) = Ok (u64 ((tot + zsum ns) * PAGE_KB)).
Proof.
  induction 1 as [|gva n gva' ns Hne Hn Hg _ IH]; intros [|fuel] tot Hlen; cbn [length] in Hlen;
    try lia; cbn [buffers_loop].
  - rewrite Z.eqb_refl, u64_mul_l. cbn. by rewrite Z.add_0_r.
  - rewrite (proj2 (Z.eqb_neq _ _) Hne), Hn, bind_Ok, Hg, bind_Ok, u64_add_l.
    rewrite IH by lia. cbn [zsum foldr]. do 3 f_equal. unfold zsum. lia.
Qed.

Lemma swapcache_loop_ok m l : forall hva tot,
  (forall i v, l !! i = Some v ->
    ld64 m (hva + Z.of_nat i * ADDRESS_SPACE_SIZE + ADDRESS_SPACE_NRPAGES_OFFSET) = Ok v) ->
  swapcache_loop (length l) m hva (u64 tot) = Ok (u64 ((tot + zsum l) * PAGE_KB)).
Proof.
  induction l as [|v l IH]; intros hva tot H; cbn [length swapcache_loop].
  - rewrite u64_mul_l. cbn. by rewrite Z.add_0_r.
  - replace (hva + ADDRESS_SPACE_NRPAGES_OFFSET)
      with (hva + Z.of_nat 0 * ADDRESS_SPACE_SIZE + ADDRESS_SPACE_NRPAGES_OFFSET) by lia.
    rewrite (H 0%nat v eq_refl), bind_Ok, u64_add_l, IH.
    + cbn [zsum foldr]. do 3 f_equal. unfold zsum. lia.
    + intros i w Hi. rewrite <- (H (S i) w Hi). f_equal. lia.
Qed.

Section accounted.
  Context {m : ram} {total nfree nfile : Z} {swap bufs : list Z}
    (Hacc : accounting m total nfree nfile swap bufs).

Lemma getBuffers_ok fuel :
  (length bufs < fuel)%nat -> getBuffers fuel m = Ok (u64 (zsum bufs * PAGE_KB)).
Proof.
  intros. destruct (acc_bufs _ _ _ _ _ _ Hacc) as (g & Hg & Hp). unfold getBuffers.
  rewrite Hg, bind_Ok. change 0 with (u64 0). by rewrite (buffers_loop_ok _ _ _ Hp).
Qed.

Lemma getMemSwapCache_ok : getMemSwapCache m = Ok (u64 (zsum swap * PAGE_KB)).
Proof.
  unfold getMemSwapCache. rewrite <- (acc_swap_len _ _ _ _ _ _ Hacc). change 0 with (u64 0).
  by rewrite swapcache_loop_ok by apply (acc_swap _ _ _ _ _ _ Hacc).
Qed.

Lemma getCached_ok fuel :
  (length bufs < fuel)%nat ->
  getCached fuel m =
    Ok (u64 (u64 (nfile * PAGE_KB) - u32 (zsum swap * PAGE_KB) - u64 (zsum bufs * PAGE_KB))).
Proof.
  intros Hf. unfold getCached, getMemFile. rewrite (acc_file _ _ _ _ _ _ Hacc), !bind_Ok.
  rewrite getMemSwapCache_ok, bind_Ok, getBuffers_ok, bind_Ok by done. do 4 f_equal.
  unfold u32, u64. rewrite Z.mod_mod_divide; [done|].
  by exists (2 ^ 32).
Qed.

End accounted.

Lemma zsum_nonneg l : Forall (fun v => 0 <= v) l -> 0 <= zsum l.
Proof. induction 1; cbn; [lia|]. unfold zsum in *. lia. Qed.

(** ** Claims *)

(** C35: the figures of [free] are the guest's counters in kB.  For
    counters that fit the machine words and satisfy the kernel's own
    accounting (cached pages include swap cache and buffers, used pages
    are not negative), total, free, buffers and cached are four times the
    page counts, cached being the file pages less swap cache and buffers,
    and the percentage is computed from total less free, buffers and
    cached. *)
Theorem get_mem_usage_correct m total nfree nfile swap bufs fuel :
  accounting m total nfree nfile swap bufs -> (length bufs < fuel)%nat ->
  Forall (fun v => 0 <= v) (total :: nfree :: nfile :: swap ++ bufs) ->
  total < 2 ^ 62 -> nfile < 2 ^ 62 ->
  zsum swap < 2 ^ 30 -> zsum swap + zsum bufs <= nfile ->
  nfree + zsum bufs + (nfile - zsum swap - zsum bufs) <= total ->
  exists stat, get_mem_usage fuel m = Ok stat /\
    MemTotal stat = 4 * total /\ MemFree stat = 4 * nfree /\ Buffers stat = 4 * zsum bufs /\
    Cached stat = 4 * (nfile - zsum swap - zsum bufs) /\
    mem_usage stat = f32_mul (f32_div (f32_of_u64 (4 * (total - nfree - (nfile - zsum swap))))
                                (f32_of_u64 (4 * total))) f32_100.
Proof.
  intros Hacc Hf Hpos Ht Hnf Hs Hle Hused.
  rewrite !Forall_cons, Forall_app in Hpos. destruct Hpos as (? & ? & ? & Hsw & Hbf).
  apply zsum_nonneg in Hsw, Hbf.
  unfold get_mem_usage, getMemTotal, getMemFree.
  rewrite (acc_total _ _ _ _ _ _ Hacc), (acc_free _ _ _ _ _ _ Hacc), !bind_Ok.
  rewrite (getBuffers_ok Hacc), bind_Ok, (getCached_ok Hacc), bind_Ok by done.
  unfold PAGE_KB. rewrite !(u64_small (_ * 4)) by lia. unfold u32. rewrite Z.mod_small by lia.
  rewrite (u64_small (nfile * 4 - _ - _)) by lia. rewrite u64_small by lia.
  eexists. split; [reflexivity|]. cbn [MemTotal MemFree Buffers Cached mem_usage].
  split_and!; [lia..|]. do 3 f_equal; lia.
Qed.

(** The swap cache is cut to 32 bits before it is subtracted: with
    2^32 kB (4 TB) or more of swap cache the reported figure is too large
    by a multiple of 2^32 kB. *)
Theorem getCached_truncates_swap m total nfree nfile swap bufs fuel c :
  accounting m total nfree nfile swap bufs -> (length bufs < fuel)%nat ->
  getCached fuel m = Ok c ->
  c = u64 (4 * (nfile - zsum swap - zsum bufs) + 2 ^ 32 * (4 * zsum swap / 2 ^ 32)).
Proof.
  intros Hacc Hf H. rewrite (getCached_ok Hacc) in H by done. injection H as <-.
  unfold PAGE_KB. rewrite u64_sub_r. unfold u32.
  rewrite <- Z.sub_add_distr, u64_sub_l. f_equal.
  pose proof (Z.div_mod (4 * zsum swap) (2 ^ 32)).
  rewrite (Z.mul_comm (zsum swap)). lia.
Qed.

(** ** Examples *)

(** A 1 GB guest with one block device. *)
Definition demo_mem_ram : ram := ram_of 0x8000000 [
  (0x1d06228, word64 0x40000); (0x1c06200, word64 0x10000); (0x1c06200 + 72, word64 0x8000);
  (0x1c5cc60 + 96, word64 0x100);
  (0x1c6e520, word64 0xffff8800009000a8); (0x9000a8, word64 ALL_BDEVS_GVA);
  (0x900008, word64 0xffff880000a00000); (0xa00030, word64 0xffff880000b00000);
  (0xb00060, word64 0x200)].

Lemma demo_accounting :
  accounting demo_mem_ram 0x40000 0x10000 0x8000 (0x100 :: replicate 28 0) [0x200].
Proof.
  split; [vm_compute; reflexivity|vm_compute; reflexivity|vm_compute; reflexivity|vm_compute; reflexivity| |].
  - assert (H : forallb (fun i => match (0x100 :: replicate 28 0) !! i with
        | None => false
        | Some v => match ld64 demo_mem_ram (virt_to_phys SWAPPER_SPACES_GVA
              + Z.of_nat i * ADDRESS_SPACE_SIZE + ADDRESS_SPACE_NRPAGES_OFFSET) with
            | Ok w => w =? v | Err _ => false end end) (seq 0 29) = true)
      by (vm_compute; reflexivity).
    intros i v Hi. rewrite forallb_forall in H. specialize (H i). rewrite Hi in H.
    apply lookup_lt_Some in Hi. cbn in Hi.
    destruct (ld64 _ _); [f_equal; apply Z.eqb_eq, H|discriminate H]; apply in_seq; lia.
  - exists 0xffff8800009000a8. split; [vm_compute; reflexivity|].
    eapply bpath_step with (gva' := ALL_BDEVS_GVA); [done|vm_compute; reflexivity..|constructor].
Qed.

Lemma get_mem_usage_correct_witness :
  exists stat, get_mem_usage 5 demo_mem_ram = Ok stat /\
    MemTotal stat = 4 * 0x40000 /\ MemFree stat = 4 * 0x10000 /\ Buffers stat = 4 * 0x200 /\
    Cached stat = 4 * (0x8000 - 0x100 - 0x200) /\
    mem_usage stat = f32_mul (f32_div (f32_of_u64 (4 * (0x40000 - 0x10000 - (0x8000 - 0x100))))
                                (f32_of_u64 (4 * 0x40000))) f32_100.
Proof.
  apply (get_mem_usage_correct demo_mem_ram 0x40000 0x10000 0x8000 (0x100 :: replicate 28 0) [0x200]);
    try (vm_compute; congruence); [exact demo_accounting|cbn; lia|].
  repeat constructor; lia.
Defined.

Lemma getCached_truncates_swap_witness :
  4 * (0x8000 - 0x300) = u64 (4 * (0x8000 - 0x100 - 0x200) + 2 ^ 32 * (4 * 0x100 / 2 ^ 32)).
Proof.
  apply (getCached_truncates_swap demo_mem_ram 0x40000 0x10000 0x8000 (0x100 :: replicate 28 0) [0x200] 5);
    [exact demo_accounting|cbn; lia|vm_compute; reflexivity].
Defined.
