(* ===== verification/CpuUsage.v ===== *)
(** * CPU utilisation (plugin/cpu_usage.c)

    The statistics are sampled twice, [TOP_SLEEP_TIME] seconds apart, while
    the guest runs: the functions that sleep take the memory before and
    after as two arguments. *)

From S2P Require Import Prelude GuestMem LinuxX86 Text Float32.

(** ** plugin/symbol-x86_64.h: CPU utilisation *)

Definition CPU_POSSIBLE_MASK_GVA : Z := 0xffffffff81d03dc0.
Definition __PER_CPU_OFFSET_GVA : Z := 0xffffffff81d030a0.
Definition KERNEL_CPUSTAT : Z := 0x000000000000e340.

(** [enum cpu_stat]; [CPUTIME_TOTAL] follows and indexes the sum. *)
Inductive cpu_stat :=
| CPUTIME_USER | CPUTIME_NICE | CPUTIME_SYSTEM | CPUTIME_SOFTIRQ | CPUTIME_IRQ
| CPUTIME_IDLE | CPUTIME_IOWAIT | CPUTIME_STEAL.

Definition cpu_stat_val (s : cpu_stat) : Z :=
  match s with
  | CPUTIME_USER => 0 | CPUTIME_NICE => 1 | CPUTIME_SYSTEM => 2 | CPUTIME_SOFTIRQ => 3
  | CPUTIME_IRQ => 4 | CPUTIME_IDLE => 5 | CPUTIME_IOWAIT => 6 | CPUTIME_STEAL => 7
  end.

(** A row [cpustat[c]] of [NR_STATS] counters. *)
Record stats := Stats {
  t_user : Z; t_nice : Z; t_system : Z; t_softirq : Z; t_irq : Z;
  t_idle : Z; t_iowait : Z; t_steal : Z; t_total : Z
}.

(** ** plugin/cpu_usage.c *)

(** [while(cpu_bit)] counts the positions up to the highest set bit. *)
Fixpoint cpu_bit_loop (fuel : nat) (cpu_bit num : Z) : res Z :=
  match fuel with
  | O => Err OutOfFuel
  | S fuel =>
      if cpu_bit =? 0 then Ok num
      else cpu_bit_loop fuel (Z.shiftr cpu_bit 1) (num + 1)
  end.

(** 64 iterations empty an [unsigned long]. *)
Definition get_cpu_num (m : ram) : res Z :=
  cpu_bit ← ld64 m (virt_to_phys CPU_POSSIBLE_MASK_GVA);
  cpu_bit_loop 65 cpu_bit 0.

(** The eight accessors [cpu_user_time] ... [cpu_steal_time]. *)
Definition cpu_time (s : cpu_stat) (m : ram) (cpustat_hva : Z) : res Z :=
  ld64 m (cpustat_hva + 8 * cpu_stat_val s).

(** The row of one CPU, [CPUTIME_TOTAL] being the sum of the others. *)
Definition read_stats (m : ram) (hva : Z) : res stats :=
  user ← cpu_time CPUTIME_USER m hva;
  nice ← cpu_time CPUTIME_NICE m hva;
  sys ← cpu_time CPUTIME_SYSTEM m hva;
  idle ← cpu_time CPUTIME_IDLE m hva;
  iowait ← cpu_time CPUTIME_IOWAIT m hva;
  irq ← cpu_time CPUTIME_IRQ m hva;
  softirq ← cpu_time CPUTIME_SOFTIRQ m hva;
  steal ← cpu_time CPUTIME_STEAL m hva;
  let total := 0 in
  let total := u64 (total + user) in
  let total := u64 (total + nice) in
  let total := u64 (total + sys) in
  let total := u64 (total + idle) in
  let total := u64 (total + iowait) in
  let total := u64 (total + irq) in
  let total := u64 (total + softirq) in
  let total := u64 (total + steal) in
  Ok (Stats user nice sys softirq irq idle iowait steal total).

Definition stats_zip (f : Z -> Z -> Z) (a b : stats) : stats :=
  Stats (f (t_user a) (t_user b)) (f (t_nice a) (t_nice b)) (f (t_system a) (t_system b))
    (f (t_softirq a) (t_softirq b)) (f (t_irq a) (t_irq b)) (f (t_idle a) (t_idle b))
    (f (t_iowait a) (t_iowait b)) (f (t_steal a) (t_steal b)) (f (t_total a) (t_total b)).

(** [cpustat[num_cpu][s] += cpustat[c][s]] for every [s]. *)
Definition stats_add : stats -> stats -> stats := stats_zip (fun x y => u64 (x + y)).
Definition stats_zero : stats := Stats 0 0 0 0 0 0 0 0 0.

(** [for(c=0; c<num_cpu; c++)], with [n] iterations left. *)
Fixpoint cpustat_loop (n : nat) (c : Z) (m : ram) (avg : stats) : res (list stats * stats) :=
  match n with
  | O => Ok ([], avg)
  | S n =>
      off ← ld64 m (virt_to_phys __PER_CPU_OFFSET_GVA + 8 * c);
      let base_cpustat_gva := u64 (off + KERNEL_CPUSTAT) in
      row ← read_stats m (virt_to_phys base_cpustat_gva);
      r ← cpustat_loop n (c + 1) m (stats_add avg row);
      Ok (row :: fst r, snd r)
  end.

(** The [num_cpu] rows, then the row [cpustat[num_cpu]] of their sums. *)
Definition get_cpustat (m : ram) (num_cpu : Z) : res (list stats) :=
  r ← cpustat_loop (Z.to_nat num_cpu) 0 m stats_zero;
  Ok (fst r ++ [snd r]).

Record cpu_usage_stat := Usage {
  us : f32; sy : f32; id : f32; ni : f32; wa : f32; hi : f32; si : f32; st_ : f32
}.

(** [100.0f * (float)n / tot_time] *)
Definition percent (n : Z) (tot_time : f32) : f32 :=
  f32_div (f32_mul f32_100 (f32_of_u64 n)) tot_time.

Definition usage_of (d : stats) : cpu_usage_stat :=
  if t_total d =? 0 then
    Usage f32_0 f32_0 f32_100 f32_0 f32_0 f32_0 f32_0 f32_0
  else
    let tot_time := f32_of_u64 (t_total d) in
    Usage (percent (u64 (t_user d + t_nice d)) tot_time)
      (percent (u64 (u64 (t_system d + t_irq d) + t_softirq d)) tot_time)
      (percent (t_idle d) tot_time) (percent (t_nice d) tot_time)
      (percent (t_iowait d) tot_time) (percent (t_irq d) tot_time)
      (percent (t_softirq d) tot_time) (percent (t_steal d) tot_time).

Definition stats_diff (after before : stats) : stats :=
  stats_zip (fun x y => u64 (x - y)) after before.

(** [comp_cpu_usage(mem, stat)] with [stat] an array of [cap] elements:
    the elements written, [m2] being the memory after the sleep. *)
Definition comp_cpu_usage (m1 m2 : ram) (cap : Z) : res (list cpu_usage_stat) :=
  num_cpu ← get_cpu_num m1;
  cpustat1 ← get_cpustat m1 num_cpu;
  cpustat2 ← get_cpustat m2 num_cpu;
  let cpustat_diff := zip_with stats_diff cpustat2 cpustat1 in
  if cap <? Z.of_nat (length cpustat_diff) then Err BufferOverflow
  else Ok (usage_of <$> cpustat_diff).

Definition usage_line (stat : cpu_usage_stat) : string :=
  fmt_51f (us stat) +:+ "%us, " +:+ fmt_51f (sy stat) +:+ "%sy, "
  +:+ fmt_51f (id stat) +:+ "%id, " +:+ fmt_51f (ni stat) +:+ "%ni, "
  +:+ fmt_51f (wa stat) +:+ "%wa, " +:+ fmt_51f (hi stat) +:+ "%hi, "
  +:+ fmt_51f (si stat) +:+ "%si, " +:+ fmt_51f (st_ stat) +:+ "%st" +:+ nl.

Definition fmt_3d (c : Z) : string := pad_left (3 - String.length (fmt_d c)) (fmt_d c).

(** [stat[c]], which [comp_cpu_usage] may not have written. *)
Definition stat_at (stat : list cpu_usage_stat) (c : Z) : res cpu_usage_stat :=
  match stat !! Z.to_nat c with Some s => Ok s | None => Err Uninitialized end.

Fixpoint cpu_lines (n : nat) (c : Z) (stat : list cpu_usage_stat) : res string :=
  match n with
  | O => Ok EmptyString
  | S n =>
      s ← stat_at stat c;
      rest ← cpu_lines n (c + 1) stat;
      Ok ("CPU " +:+ fmt_3d c +:+ " : " +:+ usage_line s +:+ rest)
  end.

(** The thread reads the number of CPUs for its own array ([m0]) before
    [comp_cpu_usage] reads it again ([m1]). *)
Definition cpu_usage_thread (m0 m1 m2 : ram) : res string :=
  num_cpu ← get_cpu_num m0;
  stat ← comp_cpu_usage m1 m2 (num_cpu + 1);
  avg ← stat_at stat num_cpu;
  cpus ← cpu_lines (Z.to_nat num_cpu) 0 stat;
  Ok (nl +:+ "CPU AVG : " +:+ usage_line avg +:+ cpus +:+ "(qemu) ").

(** ** Properties *)

Lemma cpu_bit_loop_ok fuel : forall b n,
  0 <= b < 2 ^ (Z.of_nat fuel - 1) -> (0 < fuel)%nat ->
  cpu_bit_loop fuel b n = Ok (n + (if b =? 0 then 0 else Z.log2 b + 1)).
Proof.
  induction fuel as [|fuel IH]; intros b n Hb Hf; [lia|]. cbn [cpu_bit_loop].
  destruct (Z.eqb_spec b 0) as [->|Hne]; [by rewrite Z.add_0_r|].
  destruct fuel as [|fuel].
  { change (2 ^ (Z.of_nat 1 - 1)) with 1 in Hb. lia. }
  rewrite IH; [|split; [apply Z.shiftr_nonneg; lia|]|lia].
  - f_equal. rewrite Z.shiftr_div_pow2 by lia. change (2 ^ 1) with 2.
    destruct (Z.eqb_spec (b / 2) 0) as [E|E].
    + assert (b = 1) as -> by (pose proof (Z.div_mod b 2 ltac:(lia)); pose proof (Z.mod_pos_bound b 2); lia).
      cbn. lia.
    + pose proof (Z.log2_shiftr b 1) as L. rewrite Z.shiftr_div_pow2 in L by lia.
      change (2 ^ 1) with 2 in L. rewrite L by lia.
      assert (1 <= Z.log2 b).
      { apply Z.log2_le_pow2; [lia|]. change (2 ^ 1) with 2.
        destruct (Z.lt_ge_cases b 2); [|done]. rewrite Z.div_small in E; lia. }
      lia.
  - rewrite Z.shiftr_div_pow2 by lia. apply Z.div_lt_upper_bound; [lia|].
    rewrite <- Z.pow_add_r by lia. replace (1 + (Z.of_nat (S fuel) - 1)) with (Z.of_nat (S (S fuel)) - 1) by lia.
    lia.
Qed.

Lemma get_cpu_num_ok m mask :
  ld64 m (virt_to_phys CPU_POSSIBLE_MASK_GVA) = Ok mask ->
  get_cpu_num m = Ok (if mask =? 0 then 0 else Z.log2 mask + 1).
Proof.
  intros H. unfold get_cpu_num. rewrite H, bind_Ok. apply ld_range in H.
  rewrite cpu_bit_loop_ok; [done|exact H|lia].
Qed.

(** The eight counters of a row, without the total. *)
Definition stats_sum (s : stats) : Z :=
  t_user s + t_nice s + t_system s + t_softirq s + t_irq s + t_idle s + t_iowait s + t_steal s.

(** A row whose total is the 64-bit sum of its counters. *)
Definition row_ok (s : stats) : Prop := t_total s = u64 (stats_sum s).

Lemma read_stats_ok m hva s : read_stats m hva = Ok s -> row_ok s.
Proof.
  unfold read_stats. intros H. repeat apply bind_Ok_inv in H as (? & _ & H).
  injection H as <-. unfold row_ok, stats_sum. cbn. u64_congr.
Qed.

Lemma stats_add_ok a b : row_ok a -> row_ok b -> row_ok (stats_add a b).
Proof.
  unfold row_ok, stats_sum, stats_add, stats_zip. cbn. intros -> ->.
  u64_congr.
Qed.

Lemma cpustat_loop_ok n : forall c m avg rows tot,
  cpustat_loop n c m avg = Ok (rows, tot) -> row_ok avg ->
  length rows = n /\ Forall row_ok rows /\ row_ok tot /\ tot = foldl stats_add avg rows.
Proof.
  induction n as [|n IH]; intros c m avg rows tot H Ha; cbn [cpustat_loop] in H.
  - injection H as <- <-. done.
  - apply bind_Ok_inv in H as (off & _ & H). apply bind_Ok_inv in H as (row & Hrow & H).
    apply bind_Ok_inv in H as ([rows' tot'] & Hr & [= <- <-]). apply read_stats_ok in Hrow.
    destruct (IH _ _ _ _ _ Hr) as (<- & Hf & Ht & ->); [by apply stats_add_ok|].
    cbn. auto.
Qed.

(** Sums of a counter over rows wrap like the machine's. *)
Lemma foldl_stats_add_field (p : stats -> Z) rows : forall avg,
  (forall a b, p (stats_add a b) = u64 (p a + p b)) ->
  u64 (p (foldl stats_add avg rows)) = u64 (p avg + foldr (fun r s => p r + s) 0 rows).
Proof.
  induction rows as [|r rows IH]; intros avg Hp; cbn [foldl foldr]; [by rewrite Z.add_0_r|].
  rewrite IH by done. rewrite Hp. rewrite u64_add_l. f_equal. lia.
Qed.

(** ** Claims *)

(** The CPUs of a mask. *)
Definition cpus_in (mask : Z) : list Z := filter (fun i => Z.testbit mask i = true) (seqZ 0 64).

Lemma filter_whole {A} (P : A -> Prop) `{!forall x, Decision (P x)} (l : list A) :
  (length (filter P l) <= length l)%nat /\ (length (filter P l) = length l <-> Forall P l).
Proof.
  induction l as [|x l [IH1 IH2]]; [done|]. rewrite filter_cons, Forall_cons. case_decide; cbn [length]; [|split; [lia|]; split; [lia|tauto]].
  split; [lia|]. split; [intros E; split; [done|]; apply IH2; lia|intros [_ Hl]; apply IH2 in Hl; lia].
Qed.

Lemma filter_none {A} (P : A -> Prop) `{!forall x, Decision (P x)} (l : list A) : (forall x, x ∈ l -> ~ P x) -> filter P l = [].
Proof.
  induction l as [|x l IH]; intros Hn; [done|]. rewrite filter_cons, decide_False by (apply Hn; by left). apply IH. intros y Hy. apply Hn. by right.
Qed.

Lemma cpus_below mask n : 0 <= n <= 64 -> (forall i, n <= i -> Z.testbit mask i = false) ->
  Z.of_nat (length (cpus_in mask)) <= n /\ (n = Z.of_nat (length (cpus_in mask)) <-> forall i, 0 <= i < n -> Z.testbit mask i = true).
Proof.
  intros Hn Hz. unfold cpus_in. replace 64 with (n + (64 - n)) by lia. rewrite seqZ_app, filter_app, length_app by lia.
  rewrite (filter_none _ (seqZ (0 + n) (64 - n))) by (intros i Hi%elem_of_seqZ; rewrite Hz by lia; done). cbn [length]. rewrite Nat.add_0_r.
  destruct (filter_whole (fun i => Z.testbit mask i = true) (seqZ 0 n)) as [H1 H2]. rewrite length_seqZ in H1, H2. split; [lia|].
  rewrite Forall_forall in H2. split.
  - intros E i Hi. apply H2; [lia|]. apply elem_of_seqZ. lia.
  - intros Hall. rewrite (proj2 H2); [lia|]. intros i Hi%elem_of_seqZ. apply Hall. lia.
Qed.

(** C40: [get_cpu_num] gives the index of the highest set bit of the possible
    mask plus one, and the loop ends within 64 iterations for every mask.
    This is the number of CPUs of the mask when they are numbered without
    gaps, and more than that otherwise ([sparse_mask_overcounted]). *)
Theorem get_cpu_num_correct m mask :
  ld64 m (virt_to_phys CPU_POSSIBLE_MASK_GVA) = Ok mask ->
  exists num_cpu, get_cpu_num m = Ok num_cpu /\ 0 <= num_cpu <= 64 /\
    (forall i, num_cpu <= i -> Z.testbit mask i = false) /\
    (0 < num_cpu -> Z.testbit mask (num_cpu - 1) = true) /\
    Z.of_nat (length (cpus_in mask)) <= num_cpu /\
    (num_cpu = Z.of_nat (length (cpus_in mask)) <-> forall i, 0 <= i < num_cpu -> Z.testbit mask i = true).
Proof.
  intros H. rewrite (get_cpu_num_ok _ _ H). eexists. split; [reflexivity|]. apply ld_range in H. change (8 * Z.of_nat 8) with 64 in H.
  enough (forall n, n = (if mask =? 0 then 0 else Z.log2 mask + 1) -> 0 <= n <= 64 /\ (forall i, n <= i -> Z.testbit mask i = false) /\ (0 < n -> Z.testbit mask (n - 1) = true)) as Hn.
  { destruct (Hn _ eq_refl) as (H1 & H2 & H3). split; [done|]. split; [done|]. split; [done|]. by apply cpus_below. }
  intros n ->. destruct (Z.eqb_spec mask 0) as [->|Hne].
  - split_and!; [lia|lia| |lia]. intros. apply Z.bits_0.
  - pose proof (Z.log2_nonneg mask). split_and!; [lia| | |].
    + assert (Z.log2 mask < 64) by (apply Z.log2_lt_pow2; lia). lia.
    + intros i Hi. apply Z.bits_above_log2; lia.
    + intros _. replace (Z.log2 mask + 1 - 1) with (Z.log2 mask) by lia.
      apply Z.bit_log2. lia.
Qed.

(** [get_cpustat] returns one row per CPU and a last row.  In every
    row the total is the sum of the eight counters, and every counter of
    the last row, the total included, is the sum of that counter over the
    CPUs, all modulo 2^64. *)
Theorem get_cpustat_consistent m num_cpu rows :
  0 <= num_cpu -> get_cpustat m num_cpu = Ok rows ->
  exists cpus avg, rows = cpus ++ [avg] /\ Z.of_nat (length cpus) = num_cpu /\
    Forall row_ok rows /\
    u64 (t_total avg) = u64 (foldr (fun r s => t_total r + s) 0 cpus) /\
    u64 (t_user avg) = u64 (foldr (fun r s => t_user r + s) 0 cpus) /\
    u64 (t_nice avg) = u64 (foldr (fun r s => t_nice r + s) 0 cpus) /\
    u64 (t_system avg) = u64 (foldr (fun r s => t_system r + s) 0 cpus) /\
    u64 (t_softirq avg) = u64 (foldr (fun r s => t_softirq r + s) 0 cpus) /\
    u64 (t_irq avg) = u64 (foldr (fun r s => t_irq r + s) 0 cpus) /\
    u64 (t_idle avg) = u64 (foldr (fun r s => t_idle r + s) 0 cpus) /\
    u64 (t_iowait avg) = u64 (foldr (fun r s => t_iowait r + s) 0 cpus) /\
    u64 (t_steal avg) = u64 (foldr (fun r s => t_steal r + s) 0 cpus).
Proof.
  intros Hn H. unfold get_cpustat in H. apply bind_Ok_inv in H as ([cpus avg] & H & [= <-]).
  destruct (cpustat_loop_ok _ _ _ _ _ _ H) as (Hlen & Hf & Ha & ->); [done|].
  eexists cpus, _. split; [reflexivity|]. cbn [fst snd].
  split; [lia|]. split; [by apply Forall_app; auto|].
  split_and!; by rewrite foldl_stats_add_field.
Qed.

(** The percentages overlap.  %us counts nice time that %ni counts
    again, and %sy counts the interrupt times that %hi and %si count
    again: the eight numerators add up to the elapsed time plus the nice,
    hardware and software interrupt times. *)
Theorem usage_numerators_overlap d :
  row_ok d ->
  u64 ((t_user d + t_nice d) + (t_system d + t_irq d + t_softirq d) + t_idle d + t_nice d
       + t_iowait d + t_irq d + t_softirq d + t_steal d)
  = u64 (t_total d + t_nice d + t_irq d + t_softirq d) /\
  (t_total d <> 0 -> exists t, t = f32_of_u64 (t_total d) /\
    us (usage_of d) = percent (u64 (t_user d + t_nice d)) t /\
    sy (usage_of d) = percent (u64 (t_system d + t_irq d + t_softirq d)) t /\
    id (usage_of d) = percent (t_idle d) t /\ ni (usage_of d) = percent (t_nice d) t /\
    wa (usage_of d) = percent (t_iowait d) t /\ hi (usage_of d) = percent (t_irq d) t /\
    si (usage_of d) = percent (t_softirq d) t /\ st_ (usage_of d) = percent (t_steal d) t).
Proof.
  intros Hd. split.
  - rewrite Hd. unfold stats_sum. u64_congr.
  - intros Hne. eexists. split; [reflexivity|]. unfold usage_of.
    rewrite (proj2 (Z.eqb_neq _ _) Hne). cbn. rewrite u64_add_l. done.
Qed.

(** The number of CPUs is read twice.  A guest that raises its
    possible mask between the two reads makes [comp_cpu_usage] write past
    the end of the array the thread sized by the first one; one that
    lowers it makes the thread print elements that were never written. *)
Theorem cpu_usage_thread_toctou m0 m1 m2 n0 n1 :
  get_cpu_num m0 = Ok n0 -> get_cpu_num m1 = Ok n1 -> 0 <= n0 -> 0 <= n1 -> n0 <> n1 ->
  (exists rows1 rows2, get_cpustat m1 n1 = Ok rows1 /\ get_cpustat m2 n1 = Ok rows2) ->
  cpu_usage_thread m0 m1 m2 = Err (if n0 <? n1 then BufferOverflow else Uninitialized).
Proof.
  intros H0 H1 Hp0 Hp1 Hne (r1 & r2 & Hr1 & Hr2).
  assert (L : forall m r, get_cpustat m n1 = Ok r -> Z.of_nat (length r) = n1 + 1).
  { intros m r Hr. unfold get_cpustat in Hr. apply bind_Ok_inv in Hr as ([cs a] & Hr & [= <-]).
    destruct (cpustat_loop_ok _ _ _ _ _ _ Hr) as (Hl & _); [done|]. cbn.
    rewrite length_app. cbn. lia. }
  unfold cpu_usage_thread, comp_cpu_usage. rewrite H0, bind_Ok, H1, bind_Ok, Hr1, bind_Ok, Hr2, bind_Ok.
  apply L in Hr1, Hr2. rewrite length_zip_with, Nat2Z.inj_min.
  destruct (Z.ltb_spec n0 n1).
  - by rewrite (proj2 (Z.ltb_lt _ _)) by lia.
  - rewrite (proj2 (Z.ltb_ge _ _)), bind_Ok by lia. unfold stat_at.
    rewrite (proj2 (lookup_ge_None _ _)); [done|].
    rewrite length_fmap, length_zip_with. lia.
Qed.

(** ** Examples *)

(** A two-CPU guest at two instants, and the same guest with four
    possible CPUs. *)
Definition demo_cpu_words (a b : list Z) : list (Z * list Byte.byte) :=
  imap (fun i v => (0x100e340 + 8 * Z.of_nat i, word64 v)) a ++
  imap (fun i v => (0x200e340 + 8 * Z.of_nat i, word64 v)) b.
Definition demo_cpu_ram (mask : Z) (a b : list Z) : ram := ram_of 0x8000000 (
  (0x1d03dc0, word64 mask) ::
  (0x1d030a0, word64 0xffff880001000000) :: (0x1d030a8, word64 0xffff880002000000) ::
  (0x1d030b0, word64 0xffff880001000000) :: (0x1d030b8, word64 0xffff880002000000) ::
  demo_cpu_words a b).
Definition demo_cpu_1 : ram := demo_cpu_ram 3 [10; 1; 5; 0; 0; 100; 2; 0] [20; 0; 5; 0; 0; 90; 2; 0].
Definition demo_cpu_2 : ram := demo_cpu_ram 3 [60; 1; 25; 2; 1; 220; 2; 0] [20; 0; 5; 0; 0; 390; 2; 0].
Definition demo_cpu_4 : ram := demo_cpu_ram 15 [60; 1; 25; 2; 1; 220; 2; 0] [20; 0; 5; 0; 0; 390; 2; 0].

Example demo_top : cpu_usage_thread demo_cpu_1 demo_cpu_1 demo_cpu_2 =
  Ok (nl +:+ "CPU AVG :  10.1%us,   4.7%sy,  85.2%id,   0.0%ni,   0.0%wa,   0.2%hi,   0.4%si,   0.0%st" +:+ nl
      +:+ "CPU   0 :  25.9%us,  11.9%sy,  62.2%id,   0.0%ni,   0.0%wa,   0.5%hi,   1.0%si,   0.0%st" +:+ nl
      +:+ "CPU   1 :   0.0%us,   0.0%sy, 100.0%id,   0.0%ni,   0.0%wa,   0.0%hi,   0.0%si,   0.0%st" +:+ nl
      +:+ "(qemu) ").
Proof. vm_compute. reflexivity. Qed.

Lemma get_cpu_num_correct_witness :
  exists num_cpu, get_cpu_num demo_cpu_1 = Ok num_cpu /\ num_cpu = Z.of_nat (length (cpus_in 3)).
Proof.
  destruct (get_cpu_num_correct demo_cpu_1 3) as (n & E & Hn & _ & _ & _ & Hc); [vm_compute; reflexivity|]. exists n. split; [exact E|].
  assert (E' : get_cpu_num demo_cpu_1 = Ok 2) by (vm_compute; reflexivity). rewrite E in E'. injection E' as ->.
  apply Hc. intros i Hi. assert (i = 0 \/ i = 1) as [->| ->] by lia; reflexivity.
Defined.

(** CPUs 0 and 2 count as three. *)
Lemma sparse_mask_overcounted : get_cpu_num (demo_cpu_ram 5 [] []) = Ok 3 /\ length (cpus_in 5) = 2%nat.
Proof. split; vm_compute; reflexivity. Qed.

Definition demo_rows : list stats :=
  [Stats 10 1 5 0 0 100 2 0 118; Stats 20 0 5 0 0 90 2 0 117; Stats 30 1 10 0 0 190 4 0 235].

Lemma get_cpustat_consistent_witness :
  exists cpus avg, demo_rows = cpus ++ [avg] /\ Z.of_nat (length cpus) = 2 /\
    Forall row_ok demo_rows.
Proof.
  destruct (get_cpustat_consistent demo_cpu_1 2 demo_rows) as (cpus & avg & H1 & H2 & H3 & _);
    [lia|vm_compute; reflexivity|].
  exists cpus, avg. exact (conj H1 (conj H2 H3)).
Defined.

Lemma usage_numerators_overlap_witness :
  u64 ((10 + 1) + (5 + 3 + 4) + 100 + 1 + 2 + 3 + 4 + 0) = u64 (125 + 1 + 3 + 4).
Proof.
  apply (usage_numerators_overlap (Stats 10 1 5 4 3 100 2 0 125)). vm_compute. reflexivity.
Defined.

Lemma cpu_usage_thread_toctou_witness :
  cpu_usage_thread demo_cpu_1 demo_cpu_4 demo_cpu_4 = Err BufferOverflow.
Proof.
  apply (cpu_usage_thread_toctou demo_cpu_1 demo_cpu_4 demo_cpu_4 2 4);
    [vm_compute; reflexivity|vm_compute; reflexivity|lia|lia|lia|].
  do 2 eexists. split; vm_compute; reflexivity.
Defined.
