(* ===== verification/Config.v ===== *)
(** * The guest's uname (plugin/configuration.c) *)

From coqutil Require Import Byte.
From S2P Require Import Prelude GuestMem LinuxX86 ListH Text Tasks.

(** ** plugin/symbol-x86_64.h: nsproxy and uts_namespace *)

Definition TASK_NSPROXY_OFFSET : Z := 1424.
Definition NSPROXY_UTS_NS_OFFSET : Z := 8.
Definition UTS_NAMESPACE_NAME : Z := 4.
Definition __NEW_UTS_LEN_JUMP : Z := 65.

(** ** plugin/configuration.h *)

Definition HOSTNAME_LEN : nat := 65.

Record hostname_stat := Hostname {
  sysname : list byte; nodename : list byte; release : list byte;
  version : list byte; machine : list byte; domainname : list byte
}.

(** ** plugin/configuration.c *)

(** The address of the uts_namespace's new_utsname, as a host offset. *)
Definition new_name (m : ram) : res Z :=
  let init_task_base := virt_to_phys INIT_TASK_GVA in
  nsproxy_gva ← ld64 m (init_task_base + TASK_NSPROXY_OFFSET);
  let nsproxy_hva := virt_to_phys nsproxy_gva in
  uts_namespace_gva ← ld64 m (nsproxy_hva + NSPROXY_UTS_NS_OFFSET);
  let new_name_gva := u64 (uts_namespace_gva + UTS_NAMESPACE_NAME) in
  Ok (virt_to_phys new_name_gva).

Definition read_hostname (m : ram) : res hostname_stat :=
  new_name_hva ← new_name m;
  s0 ← sprintf_s HOSTNAME_LEN m new_name_hva;
  s1 ← sprintf_s HOSTNAME_LEN m (new_name_hva + __NEW_UTS_LEN_JUMP);
  s2 ← sprintf_s HOSTNAME_LEN m (new_name_hva + 2 * __NEW_UTS_LEN_JUMP);
  s3 ← sprintf_s HOSTNAME_LEN m (new_name_hva + 3 * __NEW_UTS_LEN_JUMP);
  s4 ← sprintf_s HOSTNAME_LEN m (new_name_hva + 4 * __NEW_UTS_LEN_JUMP);
  s5 ← sprintf_s HOSTNAME_LEN m (new_name_hva + 5 * __NEW_UTS_LEN_JUMP);
  Ok (Hostname s0 s1 s2 s3 s4 s5).

(** [get_hostname(mem, stat)]: the contents of [*stat] afterwards, [None]
    when the function returned early and left it unassigned. *)
Definition get_hostname (fuel : nat) (m : ram) : st (heap task) (option hostname_stat) :=
  cr3 ← borrow_cr3 fuel m;
  if cr3 =? 0x0 then mret None
  else s ← lift_res (read_hostname m); mret (Some s).

Definition hostname_text (s : hostname_stat) : string :=
  "sysname    : " +:+ fmt_s (sysname s) +:+ nl +:+ "nodename   : " +:+ fmt_s (nodename s) +:+ nl
  +:+ "release    : " +:+ fmt_s (release s) +:+ nl +:+ "version    : " +:+ fmt_s (version s) +:+ nl
  +:+ "machine    : " +:+ fmt_s (machine s) +:+ nl +:+ "domainname : " +:+ fmt_s (domainname s) +:+ nl.

(** The local variable [stat] of the caller is not initialised. *)
Definition print_hostname (fuel : nat) (m : ram) : st (heap task) string :=
  r ← get_hostname fuel m;
  match r with
  | None => lift_res (Err Uninitialized)
  | Some s => mret (hostname_text s)
  end.

(** ** The guest's new_utsname *)

(** The six 65-byte fields at guest virtual address [gva], each holding a
    terminated string. *)
Record utsname_at (m : ram) (gva : Z) (s : hostname_stat) : Prop := {
  uts_0 : has_cstr m (virt_to_phys gva) (sysname s);
  uts_1 : has_cstr m (virt_to_phys gva + 65) (nodename s);
  uts_2 : has_cstr m (virt_to_phys gva + 130) (release s);
  uts_3 : has_cstr m (virt_to_phys gva + 195) (version s);
  uts_4 : has_cstr m (virt_to_phys gva + 260) (machine s);
  uts_5 : has_cstr m (virt_to_phys gva + 325) (domainname s);
  uts_len : Forall (fun f => length f < 65)%nat
    [sysname s; nodename s; release s; version s; machine s; domainname s]
}.

(** init_task's UTS namespace. *)
Definition init_utsname (m : ram) (s : hostname_stat) : Prop :=
  exists nsproxy uts, ld64 m (virt_to_phys INIT_TASK_GVA + TASK_NSPROXY_OFFSET) = Ok nsproxy /\
    ld64 m (virt_to_phys nsproxy + NSPROXY_UTS_NS_OFFSET) = Ok uts /\
    utsname_at m (u64 (uts + UTS_NAMESPACE_NAME)) s.

(** ** Properties *)

Lemma read_hostname_ok m s : init_utsname m s -> read_hostname m = Ok s.
Proof.
  intros (ns & uts & Hns & Huts & [H0 H1 H2 H3 H4 H5 Hlen]).
  unfold read_hostname, new_name. rewrite Hns, bind_Ok, Huts, !bind_Ok.
  rewrite !Forall_cons in Hlen. destruct Hlen as (? & ? & ? & ? & ? & ? & _).
  unfold sprintf_s, HOSTNAME_LEN, __NEW_UTS_LEN_JUMP.
  rewrite (cstring_ok _ _ _ _ _ H0), bind_Ok, (cstring_ok _ _ _ _ _ H1), bind_Ok by done.
  change (2 * 65) with 130. rewrite (cstring_ok _ _ _ _ _ H2), bind_Ok by done.
  change (3 * 65) with 195. rewrite (cstring_ok _ _ _ _ _ H3), bind_Ok by done.
  change (4 * 65) with 260. rewrite (cstring_ok _ _ _ _ _ H4), bind_Ok by done.
  change (5 * 65) with 325. rewrite (cstring_ok _ _ _ _ _ H5), bind_Ok by done.
  by destruct s.
Qed.

(** ** Claims *)

(** The [hostname] command prints the six fields of init_task's
    new_utsname when some task has a page directory; when every task is a
    kernel thread, [get_hostname] returns without assigning the structure
    and the command prints uninitialised memory. *)
Theorem print_hostname_correct m ts s fuel h :
  task_ring m ts -> hwf h -> (length ts < fuel)%nat -> init_utsname m s ->
  (first_cr3 ts <> 0 -> exists h', print_hostname fuel m h = Ok (hostname_text s, h')) /\
  (first_cr3 ts = 0 -> print_hostname fuel m h = Err Uninitialized).
Proof.
  intros Hring Hw Hlen Hs. destruct (borrow_cr3_spec m ts fuel h Hring Hw Hlen) as (h1 & Hb & _).
  split; intros Hc.
  - exists h1. unfold print_hostname, get_hostname. erewrite st_bind_Ok.
    2: { rewrite (st_bind_Ok _ _ _ _ _ Hb), (proj2 (Z.eqb_neq _ _) Hc).
         cbv beta iota. rewrite (st_bind_Ok _ _ _ s h1) by (by apply lift_res_Ok, read_hostname_ok).
         reflexivity. }
    reflexivity.
  - unfold print_hostname, get_hostname. erewrite st_bind_Ok.
    2: { rewrite (st_bind_Ok _ _ _ _ _ Hb), Hc. reflexivity. }
    reflexivity.
Qed.

(** ** Examples *)

Definition demo_uts_ram : ram := Ram (ram_size demo_task_ram) (ram_data (ram_of 0 [
  (demo_swapper + 1424, word64 0xffff880000c00000); (0xc00008, word64 0xffff880000d00000);
  (0xd00004, cstr "Linux"); (0xd00004 + 65, cstr "guest"); (0xd00004 + 130, cstr "3.11.0");
  (0xd00004 + 195, cstr "#1 SMP"); (0xd00004 + 260, cstr "x86_64"); (0xd00004 + 325, cstr "(none)")])
  ∪ ram_data demo_task_ram).
Definition demo_hostname : hostname_stat :=
  Hostname (String.list_byte_of_string "Linux") (String.list_byte_of_string "guest")
    (String.list_byte_of_string "3.11.0") (String.list_byte_of_string "#1 SMP")
    (String.list_byte_of_string "x86_64") (String.list_byte_of_string "(none)").

Lemma demo_uts_tasks : task_ring demo_uts_ram demo_tasks.
Proof.
  exists (Task 0 (String.list_byte_of_string "swapper/0") 0), demo_init_gva,
    [Task 1 (String.list_byte_of_string "init") 0xffff880000300000].
  split_and!; [done|apply read_task_iff; vm_compute; reflexivity
    |apply next_task_iff; vm_compute; reflexivity|].
  eapply path_step with (gva' := INIT_TASK_GVA);
    [done|apply read_task_iff; vm_compute; reflexivity
    |apply next_task_iff; vm_compute; reflexivity|constructor].
Qed.

Lemma print_hostname_correct_witness :
  exists h', print_hostname 5 demo_uts_ram empty_heap = Ok (hostname_text demo_hostname, h').
Proof.
  apply (print_hostname_correct demo_uts_ram demo_tasks demo_hostname 5 empty_heap);
    [exact demo_uts_tasks|exact empty_heap_wf|cbn; lia| |vm_compute; discriminate].
  exists 0xffff880000c00000, 0xffff880000d00000.
  split; [vm_compute; reflexivity|]. split; [vm_compute; reflexivity|].
  split; [apply (cstring_sound OutOfFuel 65); vm_compute; reflexivity..|].
  repeat constructor; vm_compute; lia.
Defined.
