(* ===== verification/SyscallChecker.v ===== *)
(** * The system-call table integrity checker (plugin/syscall_checker.c)

    [check_syscall start] copies the guest's system-call table and starts
    a thread that compares the two tables every five seconds and restores
    the entries that differ.  The thread runs beside the guest: the table
    can change between any two of its loop iterations.  The results of the
    pthread calls are arguments of the operations that make them. *)

From coqutil Require Import Byte Word.LittleEndianList.
From S2P Require Import Prelude GuestMem LinuxX86 Text.

(** ** plugin/symbol-x86_64.h *)

Definition SYSTEM_CALL_GVA : Z := 0xffffffff81801420.

(** ** plugin/syscall_checker.c *)

Record syscall_info := SyscallInfo {
  syscall_table_hva : Z;            (** original syscall table address *)
  syscall_table_shadow : list Z;    (** copy of syscall table *)
  syscall_table_size : Z            (** size of syscall table, in bytes *)
}.

(** [info->syscall_table_hva[sys_num]] *)
Definition table_entry (m : ram) (hva sys_num : Z) : res Z := ld64 m (hva + 8 * sys_num).

Definition alert (sys_num : Z) : string :=
  nl +:+ "ALERT: syscall hook detected on " +:+ fmt_d sys_num +:+ nl +:+ "(qemu) ".

(** One iteration of the inner [while] of [thread_func]: [None] when the
    entry is zero and the loop ends, else the memory and what was printed.
    The shadow table is a heap block of [syscall_table_size] bytes. *)
Definition check_iter (m : ram) (info : syscall_info) (sys_num : nat) : res (option (ram * string)) :=
  e ← table_entry m (syscall_table_hva info) (Z.of_nat sys_num);
  if e =? 0 then Ok None
  else
    match syscall_table_shadow info !! sys_num with
    | None => Err BadPointer
    | Some sh =>
        if negb (e =? sh) then
          m' ← st64 m (syscall_table_hva info + 8 * Z.of_nat sys_num) sh;
          Ok (Some (m', alert (Z.of_nat sys_num)))
        else Ok (Some (m, EmptyString))
    end.

(** The inner loop, when the guest does not touch the table meanwhile. *)
Fixpoint check_loop (fuel : nat) (m : ram) (info : syscall_info) (sys_num : nat) (out : string)
    : res (ram * string) :=
  match fuel with
  | O => Err OutOfFuel
  | S fuel =>
      r ← check_iter m info sys_num;
      match r with
      | None => Ok (m, out)
      | Some (m', s) => check_loop fuel m' info (S sys_num) (out +:+ s)
      end
  end.

Definition check_pass (fuel : nat) (m : ram) (info : syscall_info) : res (ram * string) :=
  check_loop fuel m info 0 EmptyString.

(** What the globals [is_check_started] and [tid] hold. *)
Inductive thread := NoThread | Running (info : syscall_info) | Canceled (info : syscall_info) | Joined.

Record checker := Checker {
  is_check_started : Z;
  tid : thread;
  console : string       (** text given to [monitor_printf] *)
}.

Definition checker_init : checker := Checker 0 NoThread EmptyString.

(** [while(syscall_table_hva[syscall_table_size]) syscall_table_size++;] *)
Fixpoint table_len (fuel : nat) (m : ram) (hva : Z) (n : nat) : res nat :=
  match fuel with
  | O => Err OutOfFuel
  | S fuel =>
      e ← table_entry m hva (Z.of_nat n);
      if e =? 0 then Ok n else table_len fuel m hva (S n)
  end.

(** [memcpy] of [n] entries. *)
Fixpoint copy_table (n : nat) (m : ram) (hva i : Z) : res (list Z) :=
  match n with
  | O => Ok []
  | S n => e ← table_entry m hva i; l ← copy_table n m hva (i + 1); Ok (e :: l)
  end.

Definition syscall_checker_start (fuel : nat) (m : ram) (pthread_create : Z) (c : checker) : res checker :=
  if is_check_started c =? 1 then
    Ok (Checker (is_check_started c) (tid c)
          (console c +:+ "error: system call checker already started." +:+ nl))
  else
    let hva := virt_to_phys SYSTEM_CALL_GVA in
    n ← table_len fuel m hva 0;
    let size := u32 (Z.of_nat n * 8) in
    shadow ← copy_table (Z.to_nat (size / 8)) m hva 0;
    let info := SyscallInfo hva shadow size in
    if negb (pthread_create =? 0) then Ok c
    else Ok (Checker 1 (Running info) (console c +:+ "system call checker started." +:+ nl +:+ nl)).

Definition cancel (t : thread) : thread :=
  match t with Running info => Canceled info | t => t end.

Definition syscall_checker_stop (pthread_cancel pthread_join : Z) (c : checker) : checker :=
  if is_check_started c =? 0 then
    Checker (is_check_started c) (tid c)
      (console c +:+ "system call checker NOT started." +:+ nl)
  else if negb (pthread_cancel =? 0) then c
  else if negb (pthread_join =? 0) then Checker (is_check_started c) (cancel (tid c)) (console c)
  else Checker (is_check_started c) Joined
         (console c +:+ "system call checker stopped." +:+ nl).

(** ** The thread beside the guest *)

Inductive tpos := Sleeping | At (sys_num : nat).

Record world := World { w_ram : ram; w_pos : tpos; w_out : string }.

Section steps.
  Context (info : syscall_info).

Inductive thread_step : world -> world -> Prop :=
| step_wake m out : thread_step (World m Sleeping out) (World m (At 0) out)
| step_end m n out :
    check_iter m info n = Ok None ->
    thread_step (World m (At n) out) (World m Sleeping out)
| step_check m n out m' s :
    check_iter m info n = Ok (Some (m', s)) ->
    thread_step (World m (At n) out) (World m' (At (S n)) (out +:+ s)).

(** The guest stores any word anywhere in its memory. *)
Inductive guest_step : world -> world -> Prop :=
| step_guest k m off v m' pos out :
    sto k m off v = Ok m' -> guest_step (World m pos out) (World m' pos out).

Definition world_step (w w' : world) : Prop := thread_step w w' \/ guest_step w w'.

End steps.

(** ** Specification *)

(** The table of the kernel at [m]: the non-zero entries [es], then zero. *)
Definition syscall_table (m : ram) (hva : Z) (es : list Z) : Prop :=
  0 <= hva /\ hva + 8 * Z.of_nat (S (length es)) <= 2 ^ 64 /\
  (forall i e, es !! i = Some e -> table_entry m hva (Z.of_nat i) = Ok e /\ e <> 0) /\
  table_entry m hva (Z.of_nat (length es)) = Ok 0.

(** The alerts for a table [es] whose entries should be [good]. *)
Fixpoint alerts (n : nat) (es good : list Z) : string :=
  match es, good with
  | e :: es, g :: good =>
      (if e =? g then EmptyString else alert (Z.of_nat n)) +:+ alerts (S n) es good
  | _, _ => EmptyString
  end.

(** Two memories that agree outside the first [n] entries of the table. *)
Definition same_outside (m m' : ram) (hva : Z) (n : nat) : Prop :=
  ram_size m' = ram_size m /\
  forall a, a < hva \/ hva + 8 * Z.of_nat n <= a -> byte_at m' a = byte_at m a.

(** ** Properties *)

Section table.
  Context (hva : Z) (Hhva : 0 <= hva).

Lemma table_entry_sto_ne m i j v m' :
  hva + 8 * Z.of_nat (S (Nat.max i j)) <= 2 ^ 64 -> i <> j ->
  st64 m (hva + 8 * Z.of_nat i) v = Ok m' ->
  table_entry m' hva (Z.of_nat j) = table_entry m hva (Z.of_nat j).
Proof.
  intros Hb Hij H. unfold table_entry. apply (ld_sto_ne _ _ _ _ _ _ _ H).
  rewrite !u64_small by lia. lia.
Qed.

Lemma table_entry_sto_eq m i v m' :
  0 <= v < 2 ^ 64 -> st64 m (hva + 8 * Z.of_nat i) v = Ok m' ->
  table_entry m' hva (Z.of_nat i) = Ok v.
Proof. intros Hv H. apply ld_sto_eq in H. unfold table_entry. rewrite H. by rewrite Z.mod_small. Qed.

Lemma table_entry_sto_ok m i e v :
  table_entry m hva (Z.of_nat i) = Ok e -> exists m', st64 m (hva + 8 * Z.of_nat i) v = Ok m'.
Proof.
  intros H%ld_in_ram. unfold sto. rewrite (proj2 (Z.leb_le _ _)) by done. eauto.
Qed.

Lemma same_outside_refl m n : same_outside m m hva n.
Proof. done. Qed.

Lemma same_outside_trans m1 m2 m3 n :
  same_outside m1 m2 hva n -> same_outside m2 m3 hva n -> same_outside m1 m3 hva n.
Proof. intros [H1 H2] [H3 H4]. split; [congruence|]. intros a Ha. by rewrite H4, H2. Qed.

Lemma same_outside_sto m i n v m' :
  (i < n)%nat -> hva + 8 * Z.of_nat n <= 2 ^ 64 ->
  st64 m (hva + 8 * Z.of_nat i) v = Ok m' -> same_outside m m' hva n.
Proof.
  intros Hi Hb H. split; [by eapply sto_size|]. intros a Ha.
  apply (byte_at_sto_ne _ _ _ _ _ _ H). rewrite u64_small by lia. lia.
Qed.

(** The loop from entry [n] on: every later non-zero entry is restored. *)
Lemma check_loop_restores good size es : forall fuel m n out,
  (n + length es)%nat = length good -> hva + 8 * Z.of_nat (S (length good)) <= 2 ^ 64 ->
  Forall (fun g => 0 <= g < 2 ^ 64) good ->
  (forall i e, es !! i = Some e -> table_entry m hva (Z.of_nat (n + i)) = Ok e /\ e <> 0) ->
  table_entry m hva (Z.of_nat (length good)) = Ok 0 -> (length es < fuel)%nat ->
  exists m', check_loop fuel m (SyscallInfo hva good size) n out
      = Ok (m', out +:+ alerts n es (drop n good)) /\
    same_outside m m' hva (length good) /\
    (forall i, (i < n)%nat -> table_entry m' hva (Z.of_nat i) = table_entry m hva (Z.of_nat i)) /\
    (forall i g, good !! i = Some g -> (n <= i)%nat -> table_entry m' hva (Z.of_nat i) = Ok g).
Proof.
  induction es as [|e es IH]; intros [|fuel] m n out Hlen Hb Hg He Hz Hf; cbn [length] in *; try lia;
    cbn [check_loop]; unfold check_iter; cbn [syscall_table_hva syscall_table_shadow].
  - replace n with (length good) by lia. rewrite Hz, bind_Ok, Z.eqb_refl, bind_Ok.
    exists m. rewrite drop_all. cbn [alerts]. rewrite string_app_nil_r. split_and!; [done..|].
    intros i g Hi Hn. apply lookup_lt_Some in Hi. lia.
  - destruct (He 0%nat e eq_refl) as [He0 Hne]. rewrite Nat.add_0_r in He0.
    rewrite He0, bind_Ok, (proj2 (Z.eqb_neq _ _) Hne).
    destruct (lookup_lt_is_Some_2 good n) as [g Hgn]; [lia|].
    rewrite Hgn. assert (Hgr : 0 <= g < 2 ^ 64) by (rewrite Forall_lookup in Hg; eauto).
    rewrite (drop_S good g n Hgn). cbn [alerts].
    destruct (Z.eqb_spec e g) as [->|Hd]; cbn [negb].
    + rewrite bind_Ok.
      destruct (IH fuel m (S n) (out +:+ EmptyString)) as (m' & Hl & Hs & Hlo & Hhi); try done; try lia.
      { intros i e' Hi. replace (S n + i)%nat with (n + S i)%nat by lia. by apply He. }
      exists m'. rewrite Hl, string_app_assoc. split_and!; [done|done|..].
      * intros i Hi. apply Hlo. lia.
      * intros i g' Hi Hle. destruct (decide (i = n)) as [->|]; [|apply Hhi; [done|lia]].
        rewrite Hgn in Hi. injection Hi as <-. rewrite Hlo by lia. done.
    + destruct (table_entry_sto_ok m n e g He0) as [m1 Hm1]. rewrite Hm1, !bind_Ok.
      assert (Hkeep : forall j, j <> n -> (j <= length good)%nat ->
          table_entry m1 hva (Z.of_nat j) = table_entry m hva (Z.of_nat j)).
      { intros j Hj Hle. apply (table_entry_sto_ne m n j g); [|congruence|done]. lia. }
      destruct (IH fuel m1 (S n) (out +:+ alert (Z.of_nat n))) as (m' & Hl & Hs & Hlo & Hhi); try done; try lia.
      { intros i e' Hi. replace (S n + i)%nat with (n + S i)%nat by lia.
        pose proof (lookup_lt_Some _ _ _ Hi). rewrite Hkeep by lia. by apply He. }
      { rewrite Hkeep by lia. done. }
      exists m'. rewrite Hl, string_app_assoc. split_and!; [done|..].
      * eapply same_outside_trans; [|exact Hs]. eapply same_outside_sto; [| |exact Hm1]; lia.
      * intros i Hi. rewrite Hlo, Hkeep by lia. done.
      * intros i g' Hi Hle. destruct (decide (i = n)) as [->|]; [|apply Hhi; [done|lia]].
        rewrite Hgn in Hi. injection Hi as <-. rewrite Hlo by lia. by eapply table_entry_sto_eq.
Qed.

End table.

Lemma table_len_ok m hva es : forall fuel n,
  (forall i e, es !! i = Some e -> table_entry m hva (Z.of_nat (n + i)) = Ok e /\ e <> 0) ->
  table_entry m hva (Z.of_nat (n + length es)) = Ok 0 -> (length es < fuel)%nat ->
  table_len fuel m hva n = Ok (n + length es)%nat.
Proof.
  induction es as [|e es IH]; intros [|fuel] n He Hz Hf; cbn [length] in *; try lia; cbn [table_len].
  - rewrite Nat.add_0_r in *. by rewrite Hz, bind_Ok.
  - destruct (He 0%nat e eq_refl) as [He0 Hne]. rewrite Nat.add_0_r in He0.
    rewrite He0, bind_Ok, (proj2 (Z.eqb_neq _ _) Hne).
    rewrite IH; [f_equal; lia| |rewrite <- Hz; do 2 f_equal; lia|lia].
    intros i e' Hi. replace (S n + i)%nat with (n + S i)%nat by lia. by apply He.
Qed.

Lemma copy_table_ok m hva es : forall n,
  (forall i e, es !! i = Some e -> table_entry m hva (n + Z.of_nat i) = Ok e) ->
  copy_table (length es) m hva n = Ok es.
Proof.
  induction es as [|e es IH]; intros n He; cbn [length copy_table]; [done|].
  pose proof (He 0%nat e eq_refl) as H0. rewrite Z.add_0_r in H0. rewrite H0, bind_Ok.
  rewrite IH, bind_Ok; [done|]. intros i e' Hi. rewrite <- (He (S i) e' Hi). f_equal. lia.
Qed.

(** The state of a checker started on a table [es]. *)
Definition table_hva : Z := virt_to_phys SYSTEM_CALL_GVA.
Definition info_of (es : list Z) : syscall_info :=
  SyscallInfo table_hva es (8 * Z.of_nat (length es)).

Lemma start_ok fuel m es c :
  syscall_table m table_hva es -> is_check_started c <> 1 ->
  Z.of_nat (length es) < 2 ^ 29 -> (length es < fuel)%nat ->
  syscall_checker_start fuel m 0 c =
    Ok (Checker 1 (Running (info_of es)) (console c +:+ "system call checker started." +:+ nl +:+ nl)).
Proof.
  intros (_ & _ & He & Hz) Hs Hb Hf. unfold syscall_checker_start.
  rewrite (proj2 (Z.eqb_neq _ _) Hs). fold table_hva.
  rewrite (table_len_ok m table_hva es fuel 0), bind_Ok by done. cbn [Nat.add].
  assert (E : u32 (Z.of_nat (length es) * 8) = 8 * Z.of_nat (length es)).
  { unfold u32. rewrite Z.mod_small; lia. }
  rewrite E, (Z.mul_comm 8), Z.div_mul, Nat2Z.id by lia.
  rewrite (copy_table_ok m table_hva es 0), bind_Ok by (intros; by apply He).
  unfold info_of. by rewrite (Z.mul_comm 8).
Qed.

Lemma syscall_table_range m hva es : syscall_table m hva es -> Forall (fun g => 0 <= g < 2 ^ 64) es.
Proof.
  intros (_ & _ & He & _). apply Forall_lookup. intros i e Hi.
  destruct (He i e Hi) as [H _]. by apply ld_range in H.
Qed.

(** Entries below [n] that equal the shadow are passed over. *)
Lemma check_loop_skip m info n k : forall fuel out,
  (forall i, (i < k)%nat -> exists g, syscall_table_shadow info !! (n + i)%nat = Some g /\ g <> 0 /\
     table_entry m (syscall_table_hva info) (Z.of_nat (n + i)) = Ok g) ->
  check_loop (k + fuel) m info n out = check_loop fuel m info (n + k) out.
Proof.
  revert n. induction k as [|k IH]; intros n fuel out H; [by rewrite Nat.add_0_r|].
  destruct (H 0%nat) as (g & Hg & Hne & He); [lia|]. rewrite Nat.add_0_r in *.
  cbn [Nat.add check_loop]. unfold check_iter at 1.
  rewrite He, bind_Ok, (proj2 (Z.eqb_neq _ _) Hne), Hg, Z.eqb_refl. cbn [negb].
  rewrite bind_Ok, string_app_nil_r. rewrite IH.
  - f_equal; lia.
  - intros i Hi. replace (S n + i)%nat with (n + S i)%nat by lia. apply H. lia.
Qed.

(** ** Claims *)

(** C29: The checker detects and undoes every hook.  Started for the first time
    on a table [good] of fewer than 2^29 entries and run on a memory whose
    table has the same length and no zero entry ([checker_reads_past_shadow],
    [checker_evaded_by_zero_entry]), one pass ends, prints one alert for each
    entry that was changed and no other, in order, puts every original entry
    back, and changes no byte outside the table. *)
Theorem checker_restores fuel m0 good c m1 hooked :
  syscall_table m0 table_hva good -> is_check_started c = 0 ->
  Z.of_nat (length good) < 2 ^ 29 -> (length good < fuel)%nat ->
  syscall_table m1 table_hva hooked -> length hooked = length good ->
  exists c' info m2, syscall_checker_start fuel m0 0 c = Ok c' /\ tid c' = Running info /\
    check_pass fuel m1 info = Ok (m2, alerts 0 hooked good) /\
    syscall_table m2 table_hva good /\ same_outside m1 m2 table_hva (length good).
Proof.
  intros Hgood Hc Hb Hf Hhook Hlen.
  eexists _, _. destruct (check_loop_restores table_hva ltac:(apply Hgood) good
    (8 * Z.of_nat (length good)) hooked fuel m1 0 EmptyString) as (m2 & Hl & Hs & _ & Hr); try done; try lia.
  - apply Hgood.
  - by eapply syscall_table_range.
  - apply Hhook.
  - rewrite <- Hlen. apply Hhook.
  - exists m2. rewrite (start_ok _ _ _ _ Hgood) by lia. split; [done|]. split; [done|].
    unfold check_pass, info_of. rewrite Hl. split; [done|]. split; [|done].
    destruct Hgood as (H0 & H1 & H2 & H3). split_and!; [done|done| |].
    + intros i e Hi. split; [apply Hr; [done|lia]|by eapply H2].
    + destruct Hhook as (_ & _ & _ & Hz). rewrite Hlen in Hz. rewrite <- Hz.
      destruct Hs as [Hsz Hs]. unfold table_entry, ld in Hz |- *. rewrite Hsz.
      destruct (_ <=? _) eqn:E; [|done]. do 2 f_equal. unfold load_bytes.
      apply list_fmap_ext. intros j k [-> Hk]%lookup_seq. apply Hs. right.
      rewrite u64_small by lia. lia.
Qed.

(** An attacker evades the checker by zeroing one entry: the pass
    stops there, and whatever the later entries hold is neither reported
    nor restored. *)
Theorem checker_evaded_by_zero_entry fuel good m k :
  (forall i, (i < k)%nat -> exists g, good !! i = Some g /\ g <> 0 /\
     table_entry m table_hva (Z.of_nat i) = Ok g) ->
  table_entry m table_hva (Z.of_nat k) = Ok 0 -> (k < fuel)%nat ->
  check_pass fuel m (info_of good) = Ok (m, EmptyString).
Proof.
  intros H Hz Hf. unfold check_pass. replace fuel with (k + S (fuel - k - 1))%nat by lia.
  rewrite check_loop_skip by done. cbn [Nat.add check_loop]. unfold check_iter.
  cbn [info_of syscall_table_hva]. by rewrite Hz, bind_Ok, Z.eqb_refl, bind_Ok.
Qed.

(** A guest that overwrites the terminating zero entry makes the
    thread read past the end of the shadow table, whose size it keeps but
    never uses. *)
Theorem checker_reads_past_shadow fuel good m e :
  (forall i g, good !! i = Some g -> g <> 0 /\ table_entry m table_hva (Z.of_nat i) = Ok g) ->
  table_entry m table_hva (Z.of_nat (length good)) = Ok e -> e <> 0 -> (length good < fuel)%nat ->
  check_pass fuel m (info_of good) = Err BadPointer.
Proof.
  intros H He Hne Hf. unfold check_pass.
  replace fuel with (length good + S (fuel - length good - 1))%nat by lia.
  rewrite check_loop_skip.
  - cbn [Nat.add check_loop]. unfold check_iter. cbn [info_of syscall_table_hva syscall_table_shadow].
    rewrite He, bind_Ok, (proj2 (Z.eqb_neq _ _) Hne).
    by rewrite (proj2 (lookup_ge_None good (length good))) by done.
  - cbn [info_of syscall_table_shadow syscall_table_hva Nat.add]. intros i Hi.
    destruct (lookup_lt_is_Some_2 good i Hi) as [g Hg]. exists g. split; [done|]. by apply H.
Qed.

(** The checker cannot be restarted.  [syscall_checker_stop] cancels
    and joins the thread but leaves [is_check_started] set, so every later
    [start] is refused with "already started" while no thread runs. *)
Theorem checker_not_restartable fuel m es c m' fuel' rc :
  syscall_table m table_hva es -> is_check_started c = 0 ->
  Z.of_nat (length es) < 2 ^ 29 -> (length es < fuel)%nat ->
  exists c1 c2 c3, syscall_checker_start fuel m 0 c = Ok c1 /\
    syscall_checker_stop 0 0 c1 = c2 /\ syscall_checker_start fuel' m' rc c2 = Ok c3 /\
    tid c2 = Joined /\ is_check_started c2 = 1 /\ tid c3 = Joined /\
    console c3 = console c2 +:+ "error: system call checker already started." +:+ nl.
Proof.
  intros Ht Hc Hb Hf. rewrite (start_ok _ _ _ _ Ht) by lia.
  do 3 eexists. split; [reflexivity|]. split; [reflexivity|]. split; [reflexivity|]. done.
Qed.

(** Stores of the guest that leave the table alone. *)
Definition benign (good : list Z) (w w' : world) : Prop :=
  exists k m off v m' pos out, sto k m off v = Ok m' /\
    (u64 off + Z.of_nat k <= table_hva \/ table_hva + 8 * Z.of_nat (S (length good)) <= u64 off) /\
    w = World m pos out /\ w' = World m' pos out.

Definition quiet (good : list Z) (out : string) (w : world) : Prop :=
  syscall_table (w_ram w) table_hva good /\ w_out w = out /\
  match w_pos w with Sleeping => True | At n => (n <= length good)%nat end.

Lemma quiet_step good out w w' :
  quiet good out w -> thread_step (info_of good) w w' \/ benign good w w' -> quiet good out w'.
Proof.
  intros (Ht & Ho & Hp) [Hs|Hg].
  - destruct Hs as [m o|m n o Hi|m n o m' s Hi]; unfold quiet; cbn [w_ram w_out w_pos] in *;
      [split_and!; [done|done|lia]|done|].
    destruct Ht as (H0 & H1 & He & Hz). unfold check_iter in Hi. cbn in Hi.
    assert (Hn : (n < length good)%nat).
    { apply Nat.lt_eq_cases in Hp as [|Hp]; [done|]. subst n.
      rewrite Hz in Hi. discriminate Hi. }
    destruct (lookup_lt_is_Some_2 good n Hn) as [g Hgn]. destruct (He n g Hgn) as [Heq Hne].
    rewrite Heq, Hgn in Hi. cbn in Hi. rewrite (proj2 (Z.eqb_neq _ _) Hne), Z.eqb_refl in Hi.
    injection Hi as <- <-. rewrite string_app_nil_r. by split_and!.
  - destruct Hg as (k & m & off & v & m' & pos & o & Hst & Hd & -> & ->). cbn in *.
    split; [|done]. destruct Ht as (H0 & H1 & He & Hz).
    assert (Hk : forall i, (i <= length good)%nat ->
        table_entry m' table_hva (Z.of_nat i) = table_entry m table_hva (Z.of_nat i)).
    { intros i Hi. unfold table_entry. apply (ld_sto_ne _ _ _ _ _ _ _ Hst).
      rewrite (u64_small (table_hva + _)) by lia. lia. }
    split_and!; [done|done| |by rewrite Hk].
    intros i e Hi. rewrite Hk by (apply lookup_lt_Some in Hi; lia). by apply He.
Qed.

(** No false alarm and no interference.  As long as the guest does
    not write to its system-call table, in every interleaving of its
    stores with the thread's steps the thread prints nothing and the table
    keeps its contents. *)
Theorem checker_no_false_alarm good out m w :
  syscall_table m table_hva good ->
  rtc (fun w w' => thread_step (info_of good) w w' \/ benign good w w') (World m Sleeping out) w ->
  w_out w = out /\ syscall_table (w_ram w) table_hva good.
Proof.
  intros Ht Hrun. enough (quiet good out w) as (? & ? & _) by done.
  assert (H0 : quiet good out (World m Sleeping out)) by done.
  revert H0. induction Hrun as [|x y z Hxy _ IH]; intros H0; [done|]. eauto using quiet_step.
Qed.

(** ** Examples *)

(** A guest with three system calls, and variants of its table. *)
Definition demo_table : list Z := [0xffffffff81188000; 0xffffffff81188100; 0xffffffff81188200].
Definition table_ram (es : list Z) : ram :=
  ram_of 0x2000000 (imap (fun i e => (0x1801420 + 8 * Z.of_nat i, word64 e)) es).
Definition demo_hooked : list Z := [0xffffffff81188000; 0xffffffffa0001000; 0xffffffff81188200].

(** An executable check of [syscall_table]. *)
Definition is_table (m : ram) (es : list Z) : bool :=
  forallb (fun i => match es !! i, table_entry m table_hva (Z.of_nat i) with
    | Some e, Ok v => (v =? e) && negb (e =? 0) | _, _ => false end) (seq 0 (length es))
  && match table_entry m table_hva (Z.of_nat (length es)) with Ok v => v =? 0 | _ => false end
  && (table_hva + 8 * Z.of_nat (S (length es)) <=? 2 ^ 64).

Lemma is_table_sound m es : is_table m es = true -> syscall_table m table_hva es.
Proof.
  unfold is_table. rewrite !andb_true_iff, forallb_forall. intros [[He Hz] Hb].
  split; [vm_compute; congruence|]. split; [by apply Z.leb_le|]. split.
  - intros i e Hi. specialize (He i). rewrite Hi in He. apply lookup_lt_Some in Hi.
    destruct (table_entry m table_hva (Z.of_nat i)); [|discriminate He; apply in_seq; lia].
    rewrite andb_true_iff, negb_true_iff, Z.eqb_eq, Z.eqb_neq in He.
    destruct He as [-> ?]; [apply in_seq; lia|done].
  - destruct (table_entry m table_hva (Z.of_nat (length es))); [|discriminate Hz].
    by apply Z.eqb_eq in Hz as ->.
Qed.

Lemma checker_restores_witness :
  exists c' info m2, syscall_checker_start 10 (table_ram demo_table) 0 checker_init = Ok c' /\
    tid c' = Running info /\
    check_pass 10 (table_ram demo_hooked) info = Ok (m2, alerts 0 demo_hooked demo_table) /\
    syscall_table m2 table_hva demo_table /\
    same_outside (table_ram demo_hooked) m2 table_hva 3.
Proof.
  apply (checker_restores 10 (table_ram demo_table) demo_table checker_init
    (table_ram demo_hooked) demo_hooked);
    [apply is_table_sound; vm_compute; reflexivity|reflexivity|vm_compute; reflexivity|cbn; lia
    |apply is_table_sound; vm_compute; reflexivity|reflexivity].
Defined.

(** The first entry zeroed, the second hooked. *)
Definition demo_evading : ram := table_ram [0; 0xffffffffa0001000; 0xffffffff81188200].

Lemma checker_evaded_witness : check_pass 10 demo_evading (info_of demo_table) = Ok (demo_evading, EmptyString).
Proof.
  apply (checker_evaded_by_zero_entry 10 demo_table demo_evading 0);
    [intros i Hi; lia|vm_compute; reflexivity|lia].
Defined.

Lemma checker_reads_past_shadow_witness :
  check_pass 10 (table_ram (demo_table ++ [1])) (info_of demo_table) = Err BadPointer.
Proof.
  apply (checker_reads_past_shadow 10 demo_table (table_ram (demo_table ++ [1])) 1);
    [|vm_compute; reflexivity|lia|cbn; lia].
  intros i g Hi. do 3 (destruct i as [|i]; [injection Hi as <-; split; [lia|vm_compute; reflexivity]|]).
  discriminate Hi.
Defined.

Lemma checker_not_restartable_witness :
  exists c1 c2 c3, syscall_checker_start 10 (table_ram demo_table) 0 checker_init = Ok c1 /\
    syscall_checker_stop 0 0 c1 = c2 /\ syscall_checker_start 10 (table_ram demo_table) 0 c2 = Ok c3 /\
    tid c2 = Joined /\ is_check_started c2 = 1 /\ tid c3 = Joined /\
    console c3 = console c2 +:+ "error: system call checker already started." +:+ nl.
Proof.
  apply (checker_not_restartable 10 (table_ram demo_table) demo_table checker_init);
    [apply is_table_sound; vm_compute; reflexivity|reflexivity|vm_compute; reflexivity|cbn; lia].
Defined.

Lemma checker_no_false_alarm_witness :
  w_out (World (table_ram demo_table) (At 0) "x") = "x".
Proof.
  apply (checker_no_false_alarm demo_table "x" (table_ram demo_table)).
  - apply is_table_sound. vm_compute. reflexivity.
  - apply rtc_once. left. constructor.
Defined.
