(* ===== verification/Daemon.v ===== *)
(** * The remote monitoring listener (plugin/daemon.c)

    A connection to the listener is answered with an XML report of the
    guest.  The report is built by calls to libxml2, which the model
    records as the sequence of calls made; what libxml2 writes to the file
    for such a sequence is a parameter. *)

From coqutil Require Import Byte.
From S2P Require Import Prelude GuestMem LinuxX86 ListH Text Float32 Tasks Config CpuUsage MemUsage.

(** ** The calls of [gen_xml] *)

(** The nodes [gen_xml] keeps in variables. *)
Inductive xnode := root | host_node | cpu_node | avg_node | cnode (c : Z) | mem_node.

Inductive xcall :=
| xmlNewNode (n : xnode) (tag : string)
| xmlDocSetRootElement (n : xnode)
| xmlAddChild (parent child : xnode)
| xmlNewChild (parent : xnode) (tag content : string)
| xmlNewProp (n : xnode) (attr value : string).

(** [sprintf(tmp, "%.1f%%", x)] *)
Definition pct (x : f32) : string := fmt_1f x +:+ "%".

Definition host_calls (h : hostname_stat) : list xcall := [
  xmlNewNode host_node "host"; xmlAddChild root host_node;
  xmlNewChild host_node "sysname" (fmt_s (sysname h));
  xmlNewChild host_node "nodename" (fmt_s (nodename h));
  xmlNewChild host_node "release" (fmt_s (release h));
  xmlNewChild host_node "version" (fmt_s (version h));
  xmlNewChild host_node "machine" (fmt_s (machine h));
  xmlNewChild host_node "domainname" (fmt_s (domainname h))].

Definition usage_calls (n : xnode) (u : cpu_usage_stat) : list xcall := [
  xmlNewChild n "US" (pct (us u)); xmlNewChild n "SY" (pct (sy u));
  xmlNewChild n "ID" (pct (id u)); xmlNewChild n "NI" (pct (ni u));
  xmlNewChild n "WA" (pct (wa u)); xmlNewChild n "HI" (pct (hi u));
  xmlNewChild n "SI" (pct (si u)); xmlNewChild n "ST" (pct (st_ u))].

(** [for(c=0; c<num_cpu; c++)] *)
Fixpoint cpu_calls (n : nat) (c : Z) (cstat : list cpu_usage_stat) : res (list xcall) :=
  match n with
  | O => Ok []
  | S n =>
      u ← stat_at cstat c;
      rest ← cpu_calls n (c + 1) cstat;
      Ok (xmlNewNode (cnode c) "cpu" :: xmlAddChild cpu_node (cnode c)
          :: xmlNewProp (cnode c) "index" (fmt_d c) :: usage_calls (cnode c) u ++ rest)
  end.

(** The five children of the memory node all have the same tag. *)
Definition mem_calls (s : mem_usage_stat) : list xcall := [
  xmlNewNode mem_node "mem-usage"; xmlAddChild root mem_node;
  xmlNewChild mem_node "MemTotal" (fmt_d (MemTotal s) +:+ " kB");
  xmlNewChild mem_node "MemTotal" (fmt_d (MemFree s) +:+ " kB");
  xmlNewChild mem_node "MemTotal" (fmt_d (Buffers s) +:+ " kB");
  xmlNewChild mem_node "MemTotal" (fmt_d (Cached s) +:+ " kB");
  xmlNewChild mem_node "MemTotal" (pct (mem_usage s))].

Section listener.
  (** [xmlSaveFormatFileEnc]: its result and the contents of the file. *)
  Context (save : list xcall -> Z * list byte).

(** The memory at the successive reads of a running guest. *)
Record samples := Samples { at_host : ram; at_num : ram; at_cpu1 : ram; at_cpu2 : ram; at_mem : ram }.

(** The document [gen_xml] builds. *)
Definition xml_doc (fuel : nat) (g : samples) : st (heap task) (list xcall) :=
  h ← get_hostname fuel (at_host g);
  hstat ← lift_res (match h with Some s => Ok s | None => Err Uninitialized end);
  num_cpu ← lift_res (get_cpu_num (at_num g));
  cstat ← lift_res (comp_cpu_usage (at_cpu1 g) (at_cpu2 g) (num_cpu + 1));
  avg ← lift_res (stat_at cstat num_cpu);
  cpus ← lift_res (cpu_calls (Z.to_nat num_cpu) 0 cstat);
  mstat ← lift_res (get_mem_usage fuel (at_mem g));
  mret ([xmlNewNode root "info"; xmlDocSetRootElement root] ++ host_calls hstat
    ++ [xmlNewNode cpu_node "cpu-usage"; xmlAddChild root cpu_node;
        xmlNewNode avg_node "average"; xmlAddChild cpu_node avg_node]
    ++ usage_calls avg_node avg ++ cpus ++ mem_calls mstat).

(** [gen_xml(mem)]: the buffer of [size + 1] zeroed bytes after the file
    was read back, [None] for the NULL returned when it cannot be opened;
    [fd] and [i] are the results of [open] and [read]. *)
Definition gen_xml (fuel : nat) (g : samples) (fd i : Z) : st (heap task) (option (list byte)) :=
  doc ← xml_doc fuel g;
  let '(size, file) := save doc in
  if fd <? 0 then mret None
  else
    let cap := Z.to_nat (size + 1) in
    let got := if i <? 0 then [] else take cap file in
    mret (Some (got ++ replicate (cap - length got) Byte.x00)).

(** [strlen(buf)] and the bytes before the terminator. *)
Fixpoint until_nul (buf : list byte) : res (list byte) :=
  match buf with
  | [] => Err BadPointer
  | b :: buf => if decide (b = Byte.x00) then Ok [] else s ← until_nul buf; Ok (b :: s)
  end.

(** One turn of the accept loop of [listener_service]: what is given to
    [write] on the connection. *)
Definition serve (fuel : nat) (g : samples) (fd i : Z) : st (heap task) (list byte) :=
  buf ← gen_xml fuel g fd i;
  match buf with
  | None => lift_res (Err BadPointer)
  | Some b => lift_res (until_nul b)
  end.

End listener.

(** ** Starting and stopping *)

(** The thread [listen_tid] names: created and before it assigns
    [listenfd], in the accept loop, returned from [listener_service],
    cancelled but not joined, or joined. *)
Inductive listener_thread := NoListener | LStarted | LListening | LReturned | LCanceled | LJoined.

Record listener := Listener {
  is_listener_started : Z;
  listen_tid : listener_thread;
  listenfd : Z;
  closed : list Z;            (** arguments of [close(listenfd)], latest first *)
  lconsole : string
}.

Definition listener_init : listener := Listener 0 NoListener 0 [] EmptyString.

Definition SRV_PORT : Z := 50001.

(** The text printed by the thread; [ip] is the address of eth0 when the
    ioctl succeeds. *)
Definition service_banner (ip : option Z) : string :=
  match ip with
  | None => "failed to obtain the ip address" +:+ nl
  | Some a => "Please connect to IP: " +:+ inet_ntoa a +:+ ":" +:+ fmt_d SRV_PORT +:+ nl
  end +:+ "(qemu) ".

(** [listener_service] up to its accept loop, [sock] and [bind] being the
    results of the two calls. *)
Definition listener_service (ip : option Z) (sock bind : Z) (l : listener) : listener :=
  match listen_tid l with
  | LStarted =>
      let t := if (sock <? 0) || (bind <? 0) then LReturned else LListening in
      Listener (is_listener_started l) t sock (closed l) (lconsole l +:+ service_banner ip)
  | _ => l
  end.

Definition listener_start (pthread_create : Z) (l : listener) : listener :=
  if is_listener_started l =? 1 then
    Listener (is_listener_started l) (listen_tid l) (listenfd l) (closed l)
      (lconsole l +:+ "error: listener already started." +:+ nl)
  else if negb (pthread_create =? 0) then l
  else Listener 1 LStarted (listenfd l) (closed l)
         (lconsole l +:+ "listener started." +:+ nl +:+ nl).

Definition listener_stop (pthread_cancel pthread_join : Z) (l : listener) : listener :=
  if is_listener_started l =? 0 then
    Listener (is_listener_started l) (listen_tid l) (listenfd l) (closed l)
      (lconsole l +:+ "listener NOT started." +:+ nl)
  else if negb (pthread_cancel =? 0) then l
  else if negb (pthread_join =? 0) then
    Listener (is_listener_started l) LCanceled (listenfd l) (closed l) (lconsole l)
  else Listener 0 LJoined (listenfd l) (listenfd l :: closed l)
         (lconsole l +:+ "listener stopped." +:+ nl).

(** ** Properties *)

Lemma until_nul_app s rest :
  Forall (fun b => b <> Byte.x00) s -> until_nul (s ++ Byte.x00 :: rest) = Ok s.
Proof.
  induction 1 as [|b s Hb _ IH]; cbn; [done|]. rewrite decide_False by done.
  by rewrite IH, bind_Ok.
Qed.

(** What happens to the listener: commands of the monitor, with the
    results of the thread calls, and the thread reaching its loop. *)
Inductive lop :=
| LStart (create : Z)
| LService (ip : option Z) (sock bind : Z)
| LStop (cancel join : Z).

Definition run_lop (o : lop) (l : listener) : listener :=
  match o with
  | LStart rc => listener_start rc l
  | LService ip sock bind => listener_service ip sock bind l
  | LStop c j => listener_stop c j l
  end.

Definition run_lops (ops : list lop) (l : listener) : listener :=
  fold_left (fun l o => run_lop o l) ops l.

(** A thread that was created and not joined. *)
Definition outstanding (t : listener_thread) : Prop :=
  match t with NoListener | LJoined => False | _ => True end.

(** The flag tells whether there is a thread to join, and a listening
    thread has its socket. *)
Definition listener_ok (l : listener) : Prop :=
  (is_listener_started l = 1 /\ outstanding (listen_tid l) \/
   is_listener_started l = 0 /\ ~ outstanding (listen_tid l)) /\
  (listen_tid l = LListening -> 0 <= listenfd l).

Lemma listener_ok_init : listener_ok listener_init.
Proof. split; [right|]; cbn; [tauto|done]. Qed.

Lemma listener_ok_step o l : listener_ok l -> listener_ok (run_lop o l).
Proof.
  intros [Hf Hl]. destruct o as [rc|ip sock bind|c j]; cbn [run_lop].
  - unfold listener_start. destruct Hf as [[H1 H2]|[H1 H2]]; rewrite H1; cbn [Z.eqb Pos.eqb].
    + split; [left|]; done.
    + destruct (rc =? 0); cbn [negb]; [split; [left|]; done|]. split; [right|]; done.
  - unfold listener_service. destruct (listen_tid l) eqn:Et; try (split; rewrite ?Et; done).
    destruct Hf as [[H1 _]|[_ []]]; [|done].
    split; cbn [is_listener_started listen_tid listenfd]; [left; split; [done|]|];
      destruct (Z.ltb_spec sock 0), (Z.ltb_spec bind 0); done.
  - unfold listener_stop. destruct Hf as [[H1 H2]|[H1 H2]]; rewrite H1; cbn [Z.eqb Pos.eqb].
    + destruct (c =? 0), (j =? 0); cbn [negb]; try (split; [left|]; done).
      split; [right|]; cbn; [tauto|done].
    + split; [right|]; done.
Qed.

Lemma listener_ok_run ops l : listener_ok l -> listener_ok (run_lops ops l).
Proof.
  revert l. induction ops as [|o ops IH]; intros l H; [done|]. cbn. by apply IH, listener_ok_step.
Qed.

(** ** Claims *)

(** Every connection is answered with the document.  When the report
    can be built, saved and read back, the bytes sent are the bytes of the
    file libxml2 wrote and nothing after them, provided the file holds as
    many bytes as the call reported and no NUL. *)
Theorem serve_sends_document save fuel g fd i h doc h' size file :
  xml_doc fuel g h = Ok (doc, h') -> save doc = (size, file) ->
  size = Z.of_nat (length file) -> Forall (fun b => b <> Byte.x00) file -> 0 <= fd -> 0 <= i ->
  serve save fuel g fd i h = Ok (file, h').
Proof.
  intros Hdoc Hsave -> Hnz Hfd Hi. unfold serve, gen_xml. erewrite st_bind_Ok.
  2: { rewrite (st_bind_Ok _ _ _ _ _ Hdoc), Hsave. rewrite !(proj2 (Z.ltb_ge _ _)) by done.
       reflexivity. }
  cbv beta iota. replace (Z.to_nat (Z.of_nat (length file) + 1)) with (S (length file)) by lia.
  rewrite take_ge by lia. replace (S (length file) - length file)%nat with 1%nat by lia.
  cbn [replicate]. unfold lift_res. by rewrite until_nul_app.
Qed.

(** When the temporary file cannot be opened, [gen_xml] returns NULL
    and the listener passes it to [strlen]; when it could not be saved (the
    call returns -1), the buffer has no byte and [strlen] reads past it. *)
Theorem serve_unusable_buffer save fuel g fd i h doc h' :
  xml_doc fuel g h = Ok (doc, h') -> fd < 0 \/ (save doc).1 = -1 ->
  serve save fuel g fd i h = Err BadPointer.
Proof.
  intros Hdoc Hbad. unfold serve, gen_xml. rewrite st_bind_assoc, (st_bind_Ok _ _ _ _ _ Hdoc).
  destruct (save doc) as [size file]. destruct (Z.ltb_spec fd 0); [reflexivity|].
  destruct Hbad as [?|E]; [lia|]. cbn in E. subst size. cbn. by destruct (i <? 0).
Qed.

(** The report does not tell the memory figures apart: the total, the
    free memory, the buffers, the cache and the percentage are five
    elements of the same name. *)
Theorem mem_report_tags_ambiguous s :
  omap (fun c => match c with xmlNewChild mem_node tag _ => Some tag | _ => None end) (mem_calls s)
  = replicate 5 "MemTotal".
Proof. reflexivity. Qed.

(** The lifecycle of the listener.  After any sequence of commands and
    thread steps, whatever the thread and socket calls return, the flag is
    set exactly when a created thread was not joined, so that a start never
    loses track of a thread; and a stop whose calls succeed lets the
    listener be started again. *)
Theorem listener_lifecycle ops :
  let l := run_lops ops listener_init in
  listener_ok l /\
  (~ outstanding (listen_tid l) -> listen_tid (listener_start 0 l) = LStarted) /\
  (outstanding (listen_tid l) ->
    listen_tid (listener_start 0 l) = listen_tid l /\
    listen_tid (listener_start 0 (listener_stop 0 0 l)) = LStarted).
Proof.
  intros l. assert (Hl : listener_ok l) by apply listener_ok_run, listener_ok_init.
  split; [done|]. unfold listener_start, listener_stop.
  destruct Hl as [[(H1 & H2)|(H1 & H2)] _]; rewrite H1; done.
Qed.

(** A stop that cancels the thread before it has created its socket
    closes whatever [listenfd] held before: on the first start that is file
    descriptor 0, and after an earlier run of the listener it is the
    descriptor that run already closed. *)
Theorem listener_stop_closes_stale_fd ip sock bind :
  closed (run_lops [LStart 0; LStop 0 0] listener_init) = [0] /\
  closed (run_lops [LStart 0; LService ip sock bind; LStop 0 0; LStart 0; LStop 0 0] listener_init)
  = [sock; sock].
Proof. split; reflexivity. Qed.

(** ** Examples *)

Definition demo_samples : samples := Samples demo_uts_ram demo_cpu_1 demo_cpu_1 demo_cpu_2 demo_mem_ram.

Definition demo_run : list xcall * heap task :=
  match xml_doc 8 demo_samples empty_heap with Ok r => r | Err _ => ([], empty_heap) end.

(** A saver that writes the elements in the order of the calls. *)
Definition demo_save (doc : list xcall) : Z * list byte :=
  let file := concat (map (fun c =>
    match c with
    | xmlNewChild _ tag text => String.list_byte_of_string (tag +:+ "=" +:+ text +:+ ";")
    | _ => []
    end) doc) in
  (Z.of_nat (length file), file).

Example demo_run_ok : xml_doc 8 demo_samples empty_heap = Ok demo_run.
Proof. vm_compute. reflexivity. Qed.

Example demo_report_text :
  fmt_s (take 62 (demo_save demo_run.1).2)
  = "sysname=Linux;nodename=guest;release=3.11.0;version=#1 SMP;mac".
Proof. vm_compute. reflexivity. Qed.

Lemma serve_sends_document_witness :
  serve demo_save 8 demo_samples 3 0 empty_heap = Ok ((demo_save demo_run.1).2, demo_run.2).
Proof.
  apply (serve_sends_document demo_save 8 demo_samples 3 0 empty_heap demo_run.1 demo_run.2
           (demo_save demo_run.1).1); [vm_compute; reflexivity|reflexivity|reflexivity| |lia|lia].
  apply (bool_decide_unpack _). vm_compute. exact I.
Defined.

Lemma serve_unusable_buffer_witness :
  serve demo_save 8 demo_samples (-1) 0 empty_heap = Err BadPointer.
Proof.
  apply (serve_unusable_buffer demo_save 8 demo_samples (-1) 0 empty_heap demo_run.1 demo_run.2);
    [vm_compute; reflexivity|left; lia].
Defined.
