(* ===== verification/Hmp.v ===== *)
(** * The monitor commands (plugin/extra_hmp.c) and the memory logger
      switch (plugin/memory.c)

    Each command reads its arguments from the monitor and calls one
    component.  Their effects on the state that outlives a command are
    composed here: the two service threads, the switch of the memory
    logger, and the heap the lists are built on. *)

From S2P Require Import Prelude GuestMem LinuxX86 PageTable ListH Text Tasks Modules NetDev.
From S2P Require Import Float32 MemUsage CpuUsage Config SyscallChecker Daemon.

(** The arguments of the ioctl KVM_MEM_LOGGER, latest first. *)
Definition mem_logger (action : Z) (ioctls : list Z) : list Z := action :: ioctls.

(** [cpu_usage_handle]: what the thread prints when it could be created. *)
Definition cpu_usage_handle (pthread_create : Z) (m0 m1 m2 : ram) : res string :=
  if negb (pthread_create =? 0) then Ok EmptyString else cpu_usage_thread m0 m1 m2.

Record vmi := Vmi {
  v_hosts : hosts;
  v_checker : checker;
  v_listener : listener;
  v_ioctls : list Z
}.

Definition vmi_init : vmi := Vmi (Hosts empty_heap empty_heap) checker_init listener_init [].

(** A command with its arguments; [QDict] integers are 64-bit signed. *)
Inductive command :=
| list_process
| list_modules_cmd
| check_syscall (action : string)
| top
| free_cmd
| read_data (addr_class addr_type : string) (size addr : Z)
| trans_addr_cmd (gva cr3 : Z)
| hostname
| ifconfig
| listen (action : string)
| mem_logger_cmd (action : string).

(** What the host's thread calls return to a command. *)
Record syscalls := Syscalls { create : Z; cancel_rc : Z; join_rc : Z }.

Definition hmp_syscall_checker (fuel : nat) (m : ram) (rc : syscalls) (action : string)
    (c : checker) : res (checker * string) :=
  if decide (action = "start") then
    c' ← syscall_checker_start fuel m (create rc) c; Ok (c', EmptyString)
  else if decide (action = "stop") then
    Ok (syscall_checker_stop (cancel_rc rc) (join_rc rc) c, EmptyString)
  else Ok (c, "Usage: check_syscall start|stop." +:+ nl).

Definition hmp_listen (rc : syscalls) (action : string) (l : listener) : listener * string :=
  if decide (action = "start") then (listener_start (create rc) l, EmptyString)
  else if decide (action = "stop") then
    (listener_stop (cancel_rc rc) (join_rc rc) l, EmptyString)
  else (l, "Usage: listen start|stop." +:+ nl).

Definition hmp_mem_logger (action : string) (ioctls : list Z) : list Z * string :=
  if decide (action = "start") then
    (mem_logger 1 ioctls, "Waiting..." +:+ nl +:+ "Mem-Logger Started." +:+ nl)
  else if decide (action = "stop") then
    (mem_logger 2 ioctls, "Waiting..." +:+ nl +:+ "Mem-Logger Stopped." +:+ nl)
  else (ioctls, "Usage: mem-logger start|stop." +:+ nl).

Definition hmp_read_data (m : ram) (addr_class addr_type : string) (size addr : Z) : res string :=
  let addr_size := u64 size in
  let addr_base := u64 addr in
  val ← read_gpa_ul m addr_base;
  Ok (addr_class +:+ ", " +:+ addr_type +:+ ", " +:+ fmt_d addr_size +:+ ", 0x" +:+
      fmt_016lx addr_base +:+ ", 0x" +:+ fmt_016lx val +:+ nl).

Definition hmp_trans_addr (m : ram) (gva0 cr30 : Z) : res string :=
  let gva := u64 gva0 in
  let cr3 := u64 cr30 in
  gpa ← trans_addr m gva cr3;
  Ok ("gva: 0x" +:+ fmt_016lx gva +:+ nl +:+ "cr3: 0x" +:+ fmt_016lx cr3 +:+ nl +:+
      "gpa: 0x" +:+ fmt_016lx gpa +:+ nl).

(** A command run while the guest's memory is [m]; [m1] and [m2] are later
    contents, read by the thread of [top].  The string is what the command
    itself prints; the two services print to their own logs. *)
Definition run_command (fuel : nat) (m m1 m2 : ram) (rc : syscalls) (c : command) : st vmi string :=
  fun s =>
  match c with
  | list_process =>
      r ← on_tasks (list_tasks fuel m) (v_hosts s);
      Ok (r.1, Vmi r.2 (v_checker s) (v_listener s) (v_ioctls s))
  | list_modules_cmd =>
      r ← list_modules fuel m (v_hosts s);
      Ok (r.1, Vmi r.2 (v_checker s) (v_listener s) (v_ioctls s))
  | check_syscall action =>
      r ← hmp_syscall_checker fuel m rc action (v_checker s);
      Ok (r.2, Vmi (v_hosts s) r.1 (v_listener s) (v_ioctls s))
  | top => o ← cpu_usage_handle (create rc) m m1 m2; Ok (o, s)
  | free_cmd => o ← mem_usage_handle fuel m; Ok (o, s)
  | read_data cl ty size addr => o ← hmp_read_data m cl ty size addr; Ok (o, s)
  | trans_addr_cmd gva cr3 => o ← hmp_trans_addr m gva cr3; Ok (o, s)
  | hostname =>
      r ← on_tasks (print_hostname fuel m) (v_hosts s);
      Ok (r.1, Vmi r.2 (v_checker s) (v_listener s) (v_ioctls s))
  | ifconfig => o ← print_net_device fuel m; Ok (o, s)
  | listen action =>
      let r := hmp_listen rc action (v_listener s) in
      Ok (r.2, Vmi (v_hosts s) (v_checker s) r.1 (v_ioctls s))
  | mem_logger_cmd action =>
      let r := hmp_mem_logger action (v_ioctls s) in
      Ok (r.2, Vmi (v_hosts s) (v_checker s) (v_listener s) r.1)
  end.

(** A session: commands, each with the memory and the results of its time. *)
Record event := Event {
  e_cmd : command; e_ram : ram; e_ram1 : ram; e_ram2 : ram; e_rc : syscalls }.

Fixpoint session (fuel : nat) (es : list event) : st vmi (list string) :=
  match es with
  | [] => mret []
  | e :: es =>
      o ← run_command fuel (e_ram e) (e_ram1 e) (e_ram2 e) (e_rc e) (e_cmd e);
      os ← session fuel es;
      mret (o :: os)
  end.

(** ** Properties *)

(** The commands that leave a component alone. *)
Definition touches_checker (c : command) : bool :=
  match c with check_syscall a => bool_decide (a = "start" \/ a = "stop") | _ => false end.
Definition touches_listener (c : command) : bool :=
  match c with listen a => bool_decide (a = "start" \/ a = "stop") | _ => false end.

(** The checker's flag says whether a checker thread was ever created. *)
Definition checker_ok (c : checker) : Prop :=
  (is_check_started c = 1 /\ tid c <> NoThread) \/ (is_check_started c = 0 /\ tid c = NoThread).

Lemma checker_start_ok fuel m rc c c' :
  syscall_checker_start fuel m rc c = Ok c' -> checker_ok c -> checker_ok c'.
Proof.
  unfold syscall_checker_start. intros H [[H1 H2]|[H1 H2]]; rewrite H1 in H; cbn [Z.eqb Pos.eqb] in H.
  - injection H as <-. left. done.
  - apply bind_Ok_inv in H as (n & _ & H). apply bind_Ok_inv in H as (sh & _ & H).
    destruct (rc =? 0); injection H as <-; [left|right]; done.
Qed.

Lemma checker_stop_ok c j k : checker_ok k -> checker_ok (syscall_checker_stop c j k).
Proof.
  unfold syscall_checker_stop. intros [[H1 H2]|[H1 H2]]; rewrite H1; cbn [Z.eqb Pos.eqb].
  - left. destruct (c =? 0), (j =? 0); cbn; try done. split; [done|]. by destruct (tid k).
  - right. done.
Qed.

Definition vmi_ok (s : vmi) : Prop :=
  checker_ok (v_checker s) /\ listener_ok (v_listener s) /\
  Forall (fun a => a = 1 \/ a = 2) (v_ioctls s).

Lemma hmp_listen_ok rc action l : listener_ok l -> listener_ok (hmp_listen rc action l).1.
Proof.
  intros H. unfold hmp_listen. case_decide; [exact (listener_ok_step (LStart _) l H)|].
  case_decide; [exact (listener_ok_step (LStop _ _) l H)|done].
Qed.

Lemma hmp_checker_ok fuel m rc action c r :
  hmp_syscall_checker fuel m rc action c = Ok r -> checker_ok c -> checker_ok r.1.
Proof.
  unfold hmp_syscall_checker. intros H Hc. case_decide.
  - apply bind_Ok_inv in H as (c' & H & E). injection E as <-. by eapply checker_start_ok.
  - case_decide; injection H as <-; [by apply checker_stop_ok|done].
Qed.

Lemma run_command_ok fuel m m1 m2 rc c s o s' :
  run_command fuel m m1 m2 rc c s = Ok (o, s') -> vmi_ok s -> vmi_ok s'.
Proof.
  intros H (Hc & Hl & Hi). destruct c; cbn [run_command] in H;
    try (apply bind_Ok_inv in H as (r & Hr & H)); injection H as <- <-; split_and!; cbn;
    try done.
  - by eapply hmp_checker_ok.
  - by apply hmp_listen_ok.
  - unfold hmp_mem_logger, mem_logger. repeat case_decide; cbn; auto.
Qed.

(** ** Claims *)

(** A session of monitor commands keeps the services' state coherent.
    After any sequence of commands that returned, whatever the guest's
    memory and the thread calls' results: each service's flag agrees with
    its thread, and the only values the memory logger's ioctl was given are
    its start and stop codes. *)
Theorem session_invariant fuel es os s' :
  session fuel es vmi_init = Ok (os, s') -> vmi_ok s' /\ length os = length es.
Proof.
  assert (H0 : vmi_ok vmi_init).
  { split_and!; [right; done|apply listener_ok_init|constructor]. }
  revert H0. generalize vmi_init. revert os. induction es as [|e es IH]; intros os s H0 H.
  - injection H as <- <-. done.
  - apply st_bind_inv in H as (o & s1 & Ho & H). apply st_bind_inv in H as (os1 & s2 & Hs & H).
    injection H as <- <-. destruct (IH _ _ (run_command_ok _ _ _ _ _ _ _ _ _ Ho H0) Hs) as [Hok Hlen].
    split; [done|]. cbn. by rewrite Hlen.
Qed.

(** No command but the start and stop of a service touches it: listing
    tasks, modules, devices, names, usage or memory, translating addresses,
    and a mistyped action leave both services as they were. *)
Theorem commands_leave_services fuel m m1 m2 rc c s o s' :
  run_command fuel m m1 m2 rc c s = Ok (o, s') ->
  (touches_checker c = false -> v_checker s' = v_checker s) /\
  (touches_listener c = false -> v_listener s' = v_listener s).
Proof.
  intros H. destruct c; cbn [run_command] in H;
    try (apply bind_Ok_inv in H as (r & Hr & H)); injection H as <- <-; split; cbn; try done;
    intros Ht; apply bool_decide_eq_false in Ht.
  - unfold hmp_syscall_checker in Hr. rewrite !decide_False in Hr by tauto. by injection Hr as <-.
  - unfold hmp_listen. by rewrite !decide_False by tauto.
Qed.

(** ** Examples *)

Definition demo_session : list event :=
  map (fun c => Event c demo_task_ram demo_task_ram demo_task_ram (Syscalls 0 0 0))
    [list_process; listen "start"; listen "sotp"; mem_logger_cmd "start"; listen "stop"].

Definition demo_end : list string * vmi :=
  match session 5 demo_session vmi_init with Ok r => r | Err _ => ([], vmi_init) end.

Lemma session_invariant_witness : vmi_ok demo_end.2 /\ length demo_end.1 = 5%nat.
Proof. apply (session_invariant 5 demo_session demo_end.1 demo_end.2). vm_compute. reflexivity. Defined.

Lemma commands_leave_services_witness :
  (touches_checker (trans_addr_cmd demo_va (__va 0x1000)) = false -> v_checker vmi_init = v_checker vmi_init) /\
  (touches_listener (trans_addr_cmd demo_va (__va 0x1000)) = false -> v_listener vmi_init = v_listener vmi_init).
Proof.
  apply (commands_leave_services 5 demo_page_ram demo_page_ram demo_page_ram (Syscalls 0 0 0)
    (trans_addr_cmd demo_va (__va 0x1000)) vmi_init
    (match hmp_trans_addr demo_page_ram demo_va (__va 0x1000) with Ok o => o | _ => EmptyString end)).
  vm_compute. reflexivity.
Defined.
