(* ===== verification/MemSlots.v ===== *)
(** * Guest memory slots (kvm-kmod x86/kvm_main.c, include/linux/kvm_host.h)

    KVM gives a guest its physical memory in slots: ranges of guest frames
    backed by ranges of the host process.  The table of slots is kept
    sorted by size and is searched up to its first empty slot.  The file
    models the table, the ioctl that changes it, the lookups, and the
    copies between guest memory and the kernel built on them. *)

From coqutil Require Import Byte.
From stdpp Require Import sorting.
From S2P Require Import Prelude.

(** ** Constants *)

Definition PAGE_SHIFT : Z := 12.
Definition PAGE_SIZE : Z := 4096.
Definition KVM_USER_MEM_SLOTS : Z := 125.
Definition KVM_PRIVATE_MEM_SLOTS : Z := 3.
Definition KVM_MEM_SLOTS_NUM : Z := KVM_USER_MEM_SLOTS + KVM_PRIVATE_MEM_SLOTS.
Definition KVM_MEM_MAX_NR_PAGES : Z := 2 ^ 31 - 1.
Definition KVM_MEM_LOG_DIRTY_PAGES : Z := 1.
Definition KVM_MEM_READONLY : Z := 2.
Definition KVM_MEMSLOT_INVALID : Z := 2 ^ 16.

Definition EINVAL : Z := 22.
Definition EEXIST : Z := 17.
Definition ENOMEM : Z := 12.
Definition EFAULT : Z := 14.

(** ** The table *)

(** [dirty_bitmap] is the set of the frames marked, relative to
    [base_gfn], when the slot has a bitmap. *)
Record kvm_memory_slot := Slot {
  base_gfn : Z; npages : Z; dirty_bitmap : option (gset Z);
  userspace_addr : Z; flags : Z; id : Z
}.

Record kvm_memslots := Memslots {
  generation : Z;
  memslots : list kvm_memory_slot;
  id_to_index : list nat
}.

(** A zeroed table after [kvm_init_memslots_id]. *)
Definition kvm_init_memslots_id : kvm_memslots :=
  let n := Z.to_nat KVM_MEM_SLOTS_NUM in
  Memslots 0 (Slot 0 0 None 0 0 <$> seqZ 0 KVM_MEM_SLOTS_NUM) (seq 0 n).

(** The slot with identifier [i] and its position. *)
Definition id_to_memslot (slots : kvm_memslots) (i : Z) : res (nat * kvm_memory_slot) :=
  match id_to_index slots !! Z.to_nat i with
  | None => Err BadPointer
  | Some index =>
      match memslots slots !! index with
      | None => Err BadPointer
      | Some slot => Ok (index, slot)
      end
  end.

(** The slots [kvm_for_each_memslot] visits. *)
Fixpoint live (l : list kvm_memory_slot) : list kvm_memory_slot :=
  match l with
  | [] => []
  | s :: l => if npages s =? 0 then [] else s :: live l
  end.

Section table.
  (** lib/sort.c of the kernel, with [cmp_memslot] *)
  Context (sort : list kvm_memory_slot -> list kvm_memory_slot).

(** [for (i = 0; ...) slots->id_to_index[slots->memslots[i].id] = i;] *)
Fixpoint reindex (i : nat) (l : list kvm_memory_slot) (idx : list nat) : list nat :=
  match l with
  | [] => idx
  | s :: l => reindex (S i) l (<[Z.to_nat (id s) := i]> idx)
  end.

Definition sort_memslots (slots : kvm_memslots) : kvm_memslots :=
  let l := sort (memslots slots) in
  Memslots (generation slots) l (reindex 0 l (id_to_index slots)).

Definition set_generation (slots : kvm_memslots) (last_generation : Z) : kvm_memslots :=
  Memslots (u64 (last_generation + 1)) (memslots slots) (id_to_index slots).

Definition update_memslots (slots : kvm_memslots) (new : option kvm_memory_slot)
    (last_generation : Z) : res kvm_memslots :=
  match new with
  | None => Ok (set_generation slots last_generation)
  | Some new =>
      old ← id_to_memslot slots (id new);
      let slots' := Memslots (generation slots) (<[old.1 := new]> (memslots slots)) (id_to_index slots) in
      let slots'' := if npages new =? npages old.2 then slots' else sort_memslots slots' in
      Ok (set_generation slots'' last_generation)
  end.

(** ** KVM_SET_USER_MEMORY_REGION *)

Record kvm_userspace_memory_region := Region {
  slot : Z; mflags : Z; guest_phys_addr : Z; memory_size : Z; muserspace_addr : Z
}.

Inductive kvm_mr_change := KVM_MR_CREATE | KVM_MR_DELETE | KVM_MR_MOVE | KVM_MR_FLAGS_ONLY.

Definition check_memory_region_flags (mem : kvm_userspace_memory_region) : Z :=
  let valid_flags := Z.lor KVM_MEM_LOG_DIRTY_PAGES KVM_MEM_READONLY in
  if negb (Z.ldiff (mflags mem) valid_flags =? 0) then - EINVAL else 0.

(** What the rest of the kernel answers during a call. *)
Record outcomes := Outcomes {
  access_ok : bool;           (** [access_ok] of the userspace range *)
  create_ok : bool;           (** [kvm_arch_create_memslot] *)
  bitmap_ok : bool;           (** [kvm_create_dirty_bitmap] *)
  dup_ok : bool;              (** [kmemdup] of the table *)
  mmap : Z;                   (** [vm_mmap], an error code when negative *)
  iommu : Z                   (** [kvm_iommu_map_pages] *)
}.

(** The checks up to the choice of the change: a return code, or the
    change with the old and the new contents of the slot. *)
Definition sane_region (o : outcomes) (mem : kvm_userspace_memory_region) : bool :=
  (Z.land (memory_size mem) (PAGE_SIZE - 1) =? 0) &&
  (Z.land (guest_phys_addr mem) (PAGE_SIZE - 1) =? 0) &&
  negb ((slot mem <? KVM_USER_MEM_SLOTS) &&
        (negb (Z.land (muserspace_addr mem) (PAGE_SIZE - 1) =? 0) || negb (access_ok o))) &&
  negb (KVM_MEM_SLOTS_NUM <=? slot mem) &&
  negb (u64 (guest_phys_addr mem + memory_size mem) <? guest_phys_addr mem) &&
  negb (KVM_MEM_MAX_NR_PAGES <? Z.shiftr (memory_size mem) PAGE_SHIFT).

(** The flags after [mem->flags &= ~KVM_MEM_LOG_DIRTY_PAGES] for an empty
    region. *)
Definition region_flags (mem : kvm_userspace_memory_region) : Z :=
  if Z.shiftr (memory_size mem) PAGE_SHIFT =? 0
  then Z.ldiff (mflags mem) KVM_MEM_LOG_DIRTY_PAGES else mflags mem.

Definition new_slot (old : kvm_memory_slot) (mem : kvm_userspace_memory_region) : kvm_memory_slot :=
  Slot (Z.shiftr (guest_phys_addr mem) PAGE_SHIFT) (Z.shiftr (memory_size mem) PAGE_SHIFT)
    (dirty_bitmap old) (userspace_addr old) (region_flags mem) (slot mem).

Definition region_change (old new : kvm_memory_slot) (mem : kvm_userspace_memory_region)
    : Z + kvm_mr_change :=
  if negb (npages new =? 0) then
    if npages old =? 0 then inr KVM_MR_CREATE
    else if negb (muserspace_addr mem =? userspace_addr old) || negb (npages new =? npages old)
         || negb (Z.land (Z.lxor (flags new) (flags old)) KVM_MEM_READONLY =? 0)
    then inl (- EINVAL)
    else if negb (base_gfn new =? base_gfn old) then inr KVM_MR_MOVE
    else if negb (flags new =? flags old) then inr KVM_MR_FLAGS_ONLY
    else inl 0
  else if negb (npages old =? 0) then inr KVM_MR_DELETE
  else inl (- EINVAL).

Definition overlaps (new s : kvm_memory_slot) : bool :=
  negb ((KVM_USER_MEM_SLOTS <=? id s) || (id s =? id new)) &&
  negb ((base_gfn new + npages new <=? base_gfn s) || (base_gfn s + npages s <=? base_gfn new)).

Definition relocates (c : kvm_mr_change) : bool :=
  match c with KVM_MR_CREATE | KVM_MR_MOVE => true | _ => false end.
Definition retires (c : kvm_mr_change) : bool :=
  match c with KVM_MR_DELETE | KVM_MR_MOVE => true | _ => false end.

Definition with_bitmap (s : kvm_memory_slot) (b : option (gset Z)) : kvm_memory_slot :=
  Slot (base_gfn s) (npages s) b (userspace_addr s) (flags s) (id s).
Definition with_addr (s : kvm_memory_slot) (a : Z) : kvm_memory_slot :=
  Slot (base_gfn s) (npages s) (dirty_bitmap s) a (flags s) (id s).
Definition with_flags (s : kvm_memory_slot) (f : Z) : kvm_memory_slot :=
  Slot (base_gfn s) (npages s) (dirty_bitmap s) (userspace_addr s) f (id s).

Definition logs_dirty (s : kvm_memory_slot) : bool :=
  negb (Z.land (flags s) KVM_MEM_LOG_DIRTY_PAGES =? 0).

(** The new slot once its userspace address and its bitmap are set up,
    [None] when an allocation failed. *)
Definition set_up_slot (o : outcomes) (c : kvm_mr_change) (new : kvm_memory_slot)
    (mem : kvm_userspace_memory_region) : option kvm_memory_slot :=
  let new := if logs_dirty new then new else with_bitmap new None in
  let new := match c with KVM_MR_CREATE => with_addr new (muserspace_addr mem) | _ => new end in
  if (match c with KVM_MR_CREATE => negb (create_ok o) | _ => false end) then None
  else if logs_dirty new && bool_decide (dirty_bitmap new = None) then
    if bitmap_ok o then Some (with_bitmap new (Some ∅)) else None
  else Some new.

(** x86: a private slot is mapped when it is created. *)
Definition kvm_arch_prepare_memory_region (o : outcomes) (memslot : kvm_memory_slot)
    (c : kvm_mr_change) : Z + kvm_memory_slot :=
  if (KVM_USER_MEM_SLOTS <=? id memslot) &&
     (match c with KVM_MR_CREATE => true | _ => false end) then
    if mmap o <? 0 then inl (mmap o) else inr (with_addr memslot (mmap o))
  else inr memslot.

(** A deleted or moved slot is first marked invalid in the table in use. *)
Definition invalidate (slots : kvm_memslots) (i : Z) : res kvm_memslots :=
  s ← id_to_memslot slots i;
  let s' := with_flags s.2 (Z.lor (flags s.2) KVM_MEMSLOT_INVALID) in
  update_memslots (Memslots (generation slots) (<[s.1 := s']> (memslots slots)) (id_to_index slots))
    None (generation slots).

(** Installation of the change.  [slots] is the copy [update_memslots]
    works on, without the invalid mark, [k] the table in use. *)
Definition install (o : outcomes) (k slots : kvm_memslots) (c : kvm_mr_change)
    (new : kvm_memory_slot) : res (kvm_memslots * Z) :=
  match kvm_arch_prepare_memory_region o new c with
  | inl r => Ok (k, r)
  | inr new =>
      if negb (retires c) && negb (dup_ok o) then Ok (k, - ENOMEM)
      else
        let new := match c with KVM_MR_DELETE => with_bitmap new None | _ => new end in
        k' ← update_memslots slots (Some new) (generation k);
        Ok (k', if relocates c then iommu o else 0)
  end.

Definition __kvm_set_memory_region (o : outcomes) (k : kvm_memslots)
    (mem : kvm_userspace_memory_region) : res (kvm_memslots * Z) :=
  if negb (check_memory_region_flags mem =? 0) then Ok (k, check_memory_region_flags mem)
  else if negb (sane_region o mem) then Ok (k, - EINVAL)
  else
    s ← id_to_memslot k (slot mem);
    let old := s.2 in
    let new := new_slot old mem in
    match region_change old new mem with
    | inl r => Ok (k, r)
    | inr c =>
        if relocates c && existsb (overlaps new) (live (memslots k)) then Ok (k, - EEXIST)
        else
          match set_up_slot o c new mem with
          | None => Ok (k, - ENOMEM)
          | Some new =>
              if retires c then
                if dup_ok o then
                  k' ← invalidate k (slot mem); install o k' k c new
                else Ok (k, - ENOMEM)
              else install o k k c new
          end
    end.

Definition kvm_vm_ioctl_set_memory_region (o : outcomes) (k : kvm_memslots)
    (mem : kvm_userspace_memory_region) : res (kvm_memslots * Z) :=
  if KVM_USER_MEM_SLOTS <=? slot mem then Ok (k, - EINVAL) else __kvm_set_memory_region o k mem.

End table.

(** ** The invariant of the table *)

Definition ge_sorted (l : list kvm_memory_slot) : Prop :=
  StronglySorted (fun a b => b <= a) (npages <$> l).

(** Two slots of userspace that are both in use share no frame. *)
Definition apart (a b : kvm_memory_slot) : Prop :=
  id a < KVM_USER_MEM_SLOTS -> id b < KVM_USER_MEM_SLOTS -> npages a <> 0 -> npages b <> 0 ->
  base_gfn a + npages a <= base_gfn b \/ base_gfn b + npages b <= base_gfn a.

Record slot_ok (s : kvm_memory_slot) : Prop := {
  sl_npages : 0 <= npages s <= KVM_MEM_MAX_NR_PAGES;
  sl_base : 0 <= base_gfn s /\ base_gfn s + npages s <= 2 ^ 52;
  sl_bitmap : logs_dirty s = bool_decide (is_Some (dirty_bitmap s))
}.

Record slots_ok (s : kvm_memslots) : Prop := {
  ok_ids : id <$> memslots s ≡ₚ seqZ 0 KVM_MEM_SLOTS_NUM;
  ok_len : length (id_to_index s) = Z.to_nat KVM_MEM_SLOTS_NUM;
  ok_index i sl : memslots s !! i = Some sl -> id_to_index s !! Z.to_nat (id sl) = Some i;
  ok_sorted : ge_sorted (memslots s);
  ok_slots : Forall slot_ok (memslots s);
  ok_apart a b : a ∈ memslots s -> b ∈ memslots s -> id a <> id b -> apart a b
}.

(** The slot with identifier [i]. *)
Definition by_id (s : kvm_memslots) (i : Z) : option kvm_memory_slot :=
  match id_to_memslot s i with Ok r => Some r.2 | Err _ => None end.

(** ** Lookups *)

Lemma live_elem l : ge_sorted l -> Forall slot_ok l ->
  forall s, s ∈ live l <-> s ∈ l /\ npages s <> 0.
Proof.
  induction l as [|a l IH]; intros Hs Hf s; cbn [live]; [set_solver|].
  apply Forall_cons in Hf as [Ha Hf]. unfold ge_sorted in Hs. rewrite fmap_cons in Hs. apply StronglySorted_inv in Hs as [Hs Hle].
  destruct (Z.eqb_spec (npages a) 0) as [E|E].
  - split; [set_solver|]. intros [Hin Hn]. apply elem_of_cons in Hin as [->|Hin]; [done|].
    rewrite Forall_fmap, Forall_forall in Hle. rewrite Forall_forall in Hf.
    pose proof (Hle s Hin). pose proof (sl_npages s (Hf s Hin)). cbn in *. lia.
  - rewrite !elem_of_cons, IH by done. naive_solver.
Qed.

Section invariant.
  Context (s : kvm_memslots) (Hok : slots_ok s).

Lemma ids_nodup : NoDup (id <$> memslots s).
Proof. rewrite (ok_ids _ Hok). apply NoDup_seqZ. Qed.

Lemma id_range sl : sl ∈ memslots s -> 0 <= id sl < KVM_MEM_SLOTS_NUM.
Proof.
  intros H. assert (Hin : id sl ∈ id <$> memslots s) by (apply list_elem_of_fmap; eauto).
  rewrite (ok_ids _ Hok) in Hin. apply elem_of_seqZ in Hin. lia.
Qed.

Lemma id_inj a b : a ∈ memslots s -> b ∈ memslots s -> id a = id b -> a = b.
Proof.
  intros [i Hi]%list_elem_of_lookup [j Hj]%list_elem_of_lookup E.
  pose proof (ok_index _ Hok _ _ Hi) as H1. pose proof (ok_index _ Hok _ _ Hj) as H2.
  rewrite E, H2 in H1. simplify_eq. done.
Qed.

Lemma id_to_memslot_ok i : 0 <= i < KVM_MEM_SLOTS_NUM -> exists k sl,
  id_to_memslot s i = Ok (k, sl) /\ memslots s !! k = Some sl /\ id sl = i.
Proof.
  intros Hi. assert (Hin : i ∈ id <$> memslots s).
  { rewrite (ok_ids _ Hok). apply elem_of_seqZ. lia. }
  apply list_elem_of_fmap in Hin as (sl & E & Hin). subst i.
  apply list_elem_of_lookup in Hin as [k Hk]. exists k, sl.
  unfold id_to_memslot. by rewrite (ok_index _ Hok _ _ Hk), Hk.
Qed.

Lemma by_id_elem i sl : 0 <= i < KVM_MEM_SLOTS_NUM ->
  by_id s i = Some sl <-> sl ∈ memslots s /\ id sl = i.
Proof.
  intros Hi. destruct (id_to_memslot_ok i Hi) as (k & sl' & E & Hk & Hid).
  assert (Hin : sl' ∈ memslots s) by (apply list_elem_of_lookup; eauto).
  unfold by_id. rewrite E. cbn. split; [intros [= <-]; done|].
  intros [Hsl E']. f_equal. apply id_inj; congruence.
Qed.

End invariant.

(** ** Updates keep the invariant *)

Lemma length_reindex l : forall i idx, length (reindex i l idx) = length idx.
Proof. induction l as [|a l IH]; intros; cbn; [done|]. by rewrite IH, length_insert. Qed.

Lemma reindex_other l k : forall i idx,
  k ∉ ((fun s => Z.to_nat (id s)) <$> l) -> reindex i l idx !! k = idx !! k.
Proof.
  induction l as [|a l IH]; intros i idx Hk; cbn; [done|].
  rewrite fmap_cons, not_elem_of_cons in Hk. destruct Hk as [Hne Hk].
  rewrite IH by done. by rewrite list_lookup_insert_ne.
Qed.

Lemma reindex_lookup l : forall i idx k sl, NoDup ((fun s => Z.to_nat (id s)) <$> l) ->
  Forall (fun s => (Z.to_nat (id s) < length idx)%nat) l -> l !! k = Some sl ->
  reindex i l idx !! Z.to_nat (id sl) = Some (i + k)%nat.
Proof.
  induction l as [|a l IH]; intros i idx k sl Hnd Hf Hk; [done|]. cbn.
  rewrite fmap_cons, NoDup_cons in Hnd. destruct Hnd as [Hna Hnd].
  apply Forall_cons in Hf as [Ha Hf]. destruct k as [|k]; cbn in Hk.
  - simplify_eq. rewrite reindex_other by done. rewrite list_lookup_insert_eq by done.
    f_equal. lia.
  - rewrite IH with (k := k) by (rewrite ?length_insert; done). f_equal. lia.
Qed.

(** What is left of the invariant when the order and the index are put
    aside. *)
Record body_ok (l : list kvm_memory_slot) : Prop := {
  b_ids : id <$> l ≡ₚ seqZ 0 KVM_MEM_SLOTS_NUM;
  b_slots : Forall slot_ok l;
  b_apart a b : a ∈ l -> b ∈ l -> id a <> id b -> apart a b
}.

Lemma body_nodup l : body_ok l -> NoDup ((fun s => Z.to_nat (id s)) <$> l).
Proof.
  intros H. rewrite (list_fmap_compose id Z.to_nat), (b_ids _ H).
  apply NoDup_fmap_2_strong; [|apply NoDup_seqZ].
  intros x y Hx%elem_of_seqZ Hy%elem_of_seqZ. lia.
Qed.

Lemma body_range l sl : body_ok l -> sl ∈ l -> 0 <= id sl < KVM_MEM_SLOTS_NUM.
Proof.
  intros H Hin. assert (E : id sl ∈ id <$> l) by (apply list_elem_of_fmap; eauto).
  rewrite (b_ids _ H) in E. apply elem_of_seqZ in E. lia.
Qed.

Lemma slots_ok_body s : slots_ok s -> body_ok (memslots s).
Proof. intros [? ? ? ? ? ?]. by split. Qed.

Lemma apart_sym a b : apart a b -> apart b a.
Proof. unfold apart. intros H ? ? ? ?. destruct H; auto. Qed.

(** A slot that may replace the one with its identifier. *)
Definition fits (s : kvm_memslots) (new : kvm_memory_slot) : Prop :=
  slot_ok new /\ 0 <= id new < KVM_MEM_SLOTS_NUM /\
  forall b, b ∈ memslots s -> id b <> id new -> apart new b.

Lemma replace_elem s k old new b : slots_ok s -> memslots s !! k = Some old -> id old = id new ->
  b ∈ <[k := new]> (memslots s) <-> b = new \/ (b ∈ memslots s /\ id b <> id new).
Proof.
  intros Hok Hk Hid. split.
  - intros [j Hj]%list_elem_of_lookup. destruct (decide (j = k)) as [->|Hne].
    + rewrite list_lookup_insert_eq in Hj by (eapply lookup_lt_Some; eauto). left. congruence.
    + rewrite list_lookup_insert_ne in Hj by done. right.
      split; [apply list_elem_of_lookup; eauto|]. intros E. apply Hne.
      pose proof (ok_index _ Hok _ _ Hj) as H1. pose proof (ok_index _ Hok _ _ Hk) as H2.
      rewrite E, <- Hid, H2 in H1. congruence.
  - intros [->|[[j Hj]%list_elem_of_lookup Hne]]; apply list_elem_of_lookup.
    + exists k. apply list_lookup_insert_eq. eapply lookup_lt_Some; eauto.
    + exists j. rewrite list_lookup_insert_ne; [done|]. intros <-. congruence.
Qed.

Lemma replace_body s k old new : slots_ok s -> fits s new -> memslots s !! k = Some old ->
  id old = id new -> body_ok (<[k := new]> (memslots s)).
Proof.
  intros Hok (Hn & Hr & Ha) Hk Hid. split.
  - rewrite list_fmap_insert, <- Hid. rewrite list_insert_id; [apply (ok_ids _ Hok)|].
    by rewrite list_lookup_fmap, Hk.
  - apply Forall_insert; [apply (ok_slots _ Hok)|done].
  - intros a b Hb1 Hb2 Hne. apply (replace_elem _ _ _ _ _ Hok Hk Hid) in Hb1, Hb2.
    destruct Hb1 as [->|[Hb1 Hb1']], Hb2 as [->|[Hb2 Hb2']]; [done|by apply Ha| |].
    + apply apart_sym. by apply Ha.
    + by apply (ok_apart _ Hok).
Qed.

Section sorting.
  Context (sort : list kvm_memory_slot -> list kvm_memory_slot).
  Context (sort_perm : forall l, sort l ≡ₚ l) (sort_desc : forall l, ge_sorted (sort l)).

Lemma body_ok_sort l : body_ok l -> body_ok (sort l).
Proof.
  intros [H1 H2 H3]. split.
  - by rewrite sort_perm.
  - by rewrite sort_perm.
  - intros a b. rewrite !sort_perm. apply H3.
Qed.

Lemma sort_memslots_ok s : body_ok (memslots s) ->
  length (id_to_index s) = Z.to_nat KVM_MEM_SLOTS_NUM -> slots_ok (sort_memslots sort s).
Proof.
  intros Hb Hlen. apply body_ok_sort in Hb as Hs. split; cbn.
  - apply (b_ids _ Hs).
  - by rewrite length_reindex.
  - intros i sl Hi. apply (reindex_lookup _ 0 _ i); [by apply body_nodup| |done].
    apply Forall_forall. intros x Hx. pose proof (body_range _ _ Hs Hx). rewrite Hlen. lia.
  - apply sort_desc.
  - apply (b_slots _ Hs).
  - apply (b_apart _ Hs).
Qed.

(** An update in place: the sizes do not change. *)
Lemma replace_ok s g k old new : slots_ok s -> fits s new -> memslots s !! k = Some old ->
  id old = id new -> npages old = npages new ->
  slots_ok (Memslots g (<[k := new]> (memslots s)) (id_to_index s)).
Proof.
  intros Hok Hf Hk Hid Hn. destruct (replace_body _ _ _ _ Hok Hf Hk Hid) as [H1 H2 H3].
  split; cbn [memslots id_to_index]; [done|apply (ok_len _ Hok)| | |done|done].
  - intros i sl Hi. destruct (decide (i = k)) as [->|Hne].
    + rewrite list_lookup_insert_eq in Hi by (eapply lookup_lt_Some; eauto). simplify_eq.
      rewrite <- Hid. by apply (ok_index _ Hok).
    + rewrite list_lookup_insert_ne in Hi by done. by apply (ok_index _ Hok).
  - unfold ge_sorted. rewrite list_fmap_insert, <- Hn, list_insert_id; [apply (ok_sorted _ Hok)|].
    by rewrite list_lookup_fmap, Hk.
Qed.

Lemma slots_ok_generation s g : slots_ok s -> slots_ok (set_generation s g).
Proof. intros [? ? ? ? ? ?]. by split. Qed.

Lemma update_memslots_ok s new g : slots_ok s -> fits s new -> exists s',
  update_memslots sort s (Some new) g = Ok s' /\ slots_ok s' /\ generation s' = u64 (g + 1) /\
  forall b, b ∈ memslots s' <-> b = new \/ (b ∈ memslots s /\ id b <> id new).
Proof.
  intros Hok Hf. destruct (id_to_memslot_ok s Hok (id new)) as (k & old & E & Hk & Hid); [apply Hf|].
  cbn [update_memslots]. rewrite E, bind_Ok. eexists. split; [reflexivity|].
  cbn [fst snd]. destruct (Z.eqb_spec (npages new) (npages old)) as [Hn|Hn].
  - split; [apply slots_ok_generation; by eapply replace_ok|]. split; [done|].
    intros b. by apply replace_elem with (old := old).
  - split; [|split; [done|]].
    + apply slots_ok_generation, sort_memslots_ok; [by eapply replace_body|apply (ok_len _ Hok)].
    + intros b. cbn. rewrite sort_perm. by apply replace_elem with (old := old).
Qed.

End sorting.

(** ** The ioctl *)

(** The fields of a request are unsigned, of 32 and 64 bits. *)
Definition region_typed (mem : kvm_userspace_memory_region) : Prop :=
  0 <= slot mem < 2 ^ 32 /\ 0 <= mflags mem < 2 ^ 32 /\
  0 <= guest_phys_addr mem < 2 ^ 64 /\ 0 <= memory_size mem < 2 ^ 64 /\
  0 <= muserspace_addr mem < 2 ^ 64.

Lemma sane_region_ok o mem old : region_typed mem -> sane_region o mem = true ->
  0 <= slot mem < KVM_MEM_SLOTS_NUM /\ 0 <= npages (new_slot old mem) <= KVM_MEM_MAX_NR_PAGES /\
  0 <= base_gfn (new_slot old mem) /\
  base_gfn (new_slot old mem) + npages (new_slot old mem) <= 2 ^ 52.
Proof.
  intros (Hs & _ & Hg & Hm & _) H. unfold sane_region in H.
  rewrite !andb_true_iff, !negb_true_iff in H. destruct H as [[[[[_ _] _] H1] H2] H3].
  apply Z.leb_gt in H1. apply Z.ltb_ge in H2, H3. cbn [new_slot npages base_gfn].
  unfold PAGE_SHIFT in *. rewrite !Z.shiftr_div_pow2 in * by lia.
  assert (guest_phys_addr mem + memory_size mem < 2 ^ 64).
  { destruct (Z.lt_ge_cases (guest_phys_addr mem + memory_size mem) (2 ^ 64)) as [?|E]; [done|].
    unfold u64 in H2. rewrite (Z.mod_eq _ (2 ^ 64)) in H2 by lia.
    assert ((guest_phys_addr mem + memory_size mem) / 2 ^ 64 = 1) as Hd
      by (symmetry; apply Z.div_unique with (guest_phys_addr mem + memory_size mem - 2 ^ 64); lia).
    rewrite Hd in H2. lia. }
  pose proof (Z.div_mod (guest_phys_addr mem) (2 ^ 12) ltac:(lia)).
  pose proof (Z.div_mod (memory_size mem) (2 ^ 12) ltac:(lia)).
  pose proof (Z.mod_pos_bound (guest_phys_addr mem) (2 ^ 12) ltac:(lia)).
  pose proof (Z.mod_pos_bound (memory_size mem) (2 ^ 12) ltac:(lia)).
  change (2 ^ 12) with 4096 in *. lia.
Qed.

(** The contents of the changed slot that the request decides. *)
Definition requested (mem : kvm_userspace_memory_region) (new : kvm_memory_slot) : Prop :=
  id new = slot mem /\ base_gfn new = guest_phys_addr mem / PAGE_SIZE /\
  npages new = memory_size mem / PAGE_SIZE /\ flags new = region_flags mem /\
  (id new < KVM_USER_MEM_SLOTS -> npages new <> 0 -> userspace_addr new = muserspace_addr mem).

Definition bitmap_fits (s : kvm_memory_slot) : Prop :=
  logs_dirty s = bool_decide (is_Some (dirty_bitmap s)).

Lemma region_change_addr old new mem c : region_change old new mem = inr c ->
  npages new <> 0 -> c <> KVM_MR_CREATE -> userspace_addr old = muserspace_addr mem.
Proof.
  unfold region_change. intros H Hn Hc. rewrite (proj2 (Z.eqb_neq _ _) Hn) in H. cbn [negb] in H.
  destruct (npages old =? 0); [congruence|].
  destruct (Z.eqb_spec (muserspace_addr mem) (userspace_addr old)); [done|discriminate].
Qed.

Lemma region_unchanged old mem : region_change old (new_slot old mem) mem = inl 0 ->
  id old = slot mem -> requested mem old.
Proof.
  unfold region_change, requested. cbn [new_slot npages base_gfn flags]. intros H Hid.
  destruct (Z.eqb_spec (Z.shiftr (memory_size mem) PAGE_SHIFT) 0); cbn [negb] in H;
    [destruct (negb _); discriminate|].
  destruct (npages old =? 0); [discriminate|].
  destruct (Z.eqb_spec (muserspace_addr mem) (userspace_addr old)),
    (Z.eqb_spec (Z.shiftr (memory_size mem) PAGE_SHIFT) (npages old)); cbn [negb orb] in H; try discriminate.
  destruct (negb _); [discriminate|].
  destruct (Z.eqb_spec (Z.shiftr (guest_phys_addr mem) PAGE_SHIFT) (base_gfn old)); [|discriminate].
  destruct (Z.eqb_spec (region_flags mem) (flags old)); [|discriminate].
  unfold PAGE_SHIFT in *. rewrite !Z.shiftr_div_pow2 in * by lia. unfold PAGE_SIZE.
  change (2 ^ 12) with 4096 in *. done.
Qed.

Lemma set_up_slot_spec o c new mem new' : set_up_slot o c new mem = Some new' ->
  base_gfn new' = base_gfn new /\ npages new' = npages new /\ flags new' = flags new /\
  id new' = id new /\ bitmap_fits new' /\
  userspace_addr new' = (match c with KVM_MR_CREATE => muserspace_addr mem | _ => userspace_addr new end).
Proof.
  unfold set_up_slot, bitmap_fits, logs_dirty. intros H.
  destruct new as [b n d u f i]. cbn [flags] in H.
  destruct (Z.land f KVM_MEM_LOG_DIRTY_PAGES =? 0) eqn:El; cbn [negb with_bitmap] in H.
  - destruct c, (create_ok o); cbn in H; try discriminate; rewrite ?El in H; cbn in H;
      injection H as <-; cbn; rewrite El; done.
  - destruct c, (create_ok o); cbn in H; try discriminate; rewrite ?El in H;
      destruct d as [d|]; cbn in H; try (destruct (bitmap_ok o); [|discriminate]);
      injection H as <-; cbn; rewrite ?El; done.
Qed.

Lemma prepare_spec o s c s' : kvm_arch_prepare_memory_region o s c = inr s' ->
  base_gfn s' = base_gfn s /\ npages s' = npages s /\ flags s' = flags s /\
  id s' = id s /\ dirty_bitmap s' = dirty_bitmap s /\
  (id s < KVM_USER_MEM_SLOTS -> userspace_addr s' = userspace_addr s).
Proof.
  unfold kvm_arch_prepare_memory_region. destruct (Z.leb_spec KVM_USER_MEM_SLOTS (id s));
    cbn [andb]; [destruct c; [destruct (mmap o <? 0)|..]|]; intros H'; simplify_eq; cbn;
    split_and!; try done; lia.
Qed.

Lemma invalidate_ok sort k i : slots_ok k -> 0 <= i < KVM_MEM_SLOTS_NUM ->
  exists k', invalidate sort k i = Ok k'.
Proof.
  intros Hok Hi. destruct (id_to_memslot_ok k Hok i Hi) as (j & sl & E & _).
  unfold invalidate. rewrite E, bind_Ok. eexists. reflexivity.
Qed.

Definition same_range (a b : kvm_memory_slot) : Prop :=
  base_gfn a = base_gfn b /\ npages a = npages b /\ flags a = flags b /\ id a = id b /\
  (id b < KVM_USER_MEM_SLOTS -> userspace_addr a = userspace_addr b).

Lemma fits_same s a b : same_range a b -> bitmap_fits a -> fits s b -> fits s a.
Proof.
  intros (H1 & H2 & H3 & H4 & _) Hbm ([Hn Hb _] & Hr & Ha). split; [|split].
  - split; [by rewrite H2|by rewrite H1, H2|done].
  - by rewrite H4.
  - intros c Hc. rewrite H4. intros Hne. specialize (Ha c Hc Hne).
    unfold apart in *. by rewrite H1, H2, H4.
Qed.

(** [new] took the place of the slot with its identifier. *)
Definition committed (s : kvm_memslots) (new : kvm_memory_slot) (s' : kvm_memslots) : Prop :=
  slots_ok s' /\ forall b, b ∈ memslots s' <-> b = new \/ (b ∈ memslots s /\ id b <> id new).

Lemma delete_bitmap s : logs_dirty s = false -> bitmap_fits (with_bitmap s None).
Proof. intros H. unfold bitmap_fits. exact H. Qed.

Section ioctl.
  Context (sort : list kvm_memory_slot -> list kvm_memory_slot).
  Context (sort_perm : forall l, sort l ≡ₚ l) (sort_desc : forall l, ge_sorted (sort l)).

Lemma install_ok o k1 s c new : slots_ok s -> (retires c = false -> k1 = s) -> fits s new ->
  (c = KVM_MR_DELETE -> logs_dirty new = false) ->
  exists k' r, install sort o k1 s c new = Ok (k', r) /\
    ((k' = s /\ r <> 0) \/
     (exists new', same_range new' new /\ committed s new' k' /\
        r = if relocates c then iommu o else 0)).
Proof.
  intros Hok Hk Hf Hd. unfold install.
  destruct (kvm_arch_prepare_memory_region o new c) as [r|new1] eqn:Ep.
  - exists k1, r. split; [done|]. left. unfold kvm_arch_prepare_memory_region in Ep.
    destruct c; rewrite ?andb_false_r in Ep; try discriminate.
    rewrite andb_true_r in Ep. split; [by apply Hk|].
    destruct (_ <=? _); [|discriminate]. destruct (Z.ltb_spec (mmap o) 0); [|discriminate].
    simplify_eq. lia.
  - apply prepare_spec in Ep as (E1 & E2 & E3 & E4 & E5 & E6).
    destruct (negb (retires c) && negb (dup_ok o)) eqn:Ed.
    + exists k1, (- ENOMEM). split; [done|]. left. split; [|done].
      apply Hk. by destruct (retires c).
    + set (new2 := match c with KVM_MR_DELETE => with_bitmap new1 None | _ => new1 end).
      assert (Hs : same_range new2 new) by (unfold same_range; subst new2; by destruct c).
      assert (Hbm : bitmap_fits new2).
      { subst new2. destruct Hf as ([_ _ Hb] & _). unfold bitmap_fits, logs_dirty in *.
        destruct c; rewrite ?E3, ?E5; try done.
        cbn [flags with_bitmap dirty_bitmap]. rewrite E3. exact (Hd eq_refl). }
      destruct (update_memslots_ok sort sort_perm sort_desc s new2 (generation k1) Hok)
        as (k' & -> & Hok' & _ & He); [by eapply fits_same|].
      rewrite bind_Ok. eexists _, _. split; [reflexivity|]. right.
      exists new2. split; [exact Hs|]. by split.
Qed.

(** Every change a request can make fits the table. *)
Lemma change_fits o k mem j old c new : slots_ok k -> region_typed mem ->
  sane_region o mem = true -> memslots k !! j = Some old -> id old = slot mem ->
  region_change old (new_slot old mem) mem = inr c ->
  relocates c && existsb (overlaps (new_slot old mem)) (live (memslots k)) = false ->
  set_up_slot o c (new_slot old mem) mem = Some new -> fits k new.
Proof.
  intros Hok Ht Hs Hj Hid Hc Hov Hup.
  destruct (sane_region_ok o mem old Ht Hs) as (Hr & Hn & Hb).
  apply set_up_slot_spec in Hup as (E1 & E2 & E3 & E4 & Hbm & _).
  assert (Hold : old ∈ memslots k) by (apply list_elem_of_lookup; eauto).
  split; [split; rewrite ?E1, ?E2; done|]. split; [rewrite E4; apply Hr|].
  intros b Hin Hne. rewrite E4 in Hne. unfold apart. rewrite E1, E2, E4. intros Hu Hub Hn0 Hnb.
  destruct (relocates c) eqn:Er; cbn [andb] in Hov.
  - assert (Hl : b ∈ live (memslots k)).
    { apply live_elem; [apply (ok_sorted _ Hok)|apply (ok_slots _ Hok)|done]. }
    destruct (overlaps (new_slot old mem) b) eqn:Eo.
    { exfalso. rewrite (proj2 (existsb_exists _ _)) in Hov; [done|].
      exists b. split; [by apply list_elem_of_In|done]. }
    unfold overlaps in Eo. rewrite (proj2 (Z.leb_gt _ _) Hub), (proj2 (Z.eqb_neq _ _) Hne) in Eo.
    cbn [orb negb andb] in Eo. apply negb_false_iff, orb_true_iff in Eo.
    destruct Eo as [Eo|Eo]; apply Z.leb_le in Eo; auto.
  - unfold region_change in Hc.
    rewrite (proj2 (Z.eqb_neq _ _) Hn0) in Hc. cbn [negb] in Hc.
    destruct (Z.eqb_spec (npages old) 0); [simplify_eq|].
    destruct (muserspace_addr mem =? _), (Z.eqb_spec (npages (new_slot old mem)) (npages old));
      cbn [negb orb] in Hc; try discriminate.
    destruct (negb _); [discriminate|].
    destruct (Z.eqb_spec (base_gfn (new_slot old mem)) (base_gfn old)) as [Eb|]; cbn [negb] in Hc;
      [|simplify_eq].
    rewrite Eb, e. apply (ok_apart _ Hok old b); try done; by rewrite Hid.
Qed.

(** The slot the request changed, as a row of the table [k']. *)
Definition changed (k : kvm_memslots) (mem : kvm_userspace_memory_region) (k' : kvm_memslots) : Prop :=
  exists new, requested mem new /\
    forall i, 0 <= i < KVM_MEM_SLOTS_NUM ->
      by_id k' i = if i =? slot mem then Some new else by_id k i.

Lemma committed_changed k mem new k' :
  slots_ok k -> requested mem new -> committed k new k' -> changed k mem k'.
Proof.
  intros Hok Hreq [Hok' Hel]. exists new. split; [done|]. intros i Hi. pose proof Hreq as (Hid & _).
  apply option_eq. intros sl. rewrite (by_id_elem k' Hok' i sl Hi), Hel.
  destruct (Z.eqb_spec i (slot mem)) as [->|Hne].
  - rewrite Hid. split; [|intros [= <-]; auto]. intros [[->|[_ ?]] ?]; congruence.
  - rewrite (by_id_elem k Hok i sl Hi), Hid. split; [|naive_solver].
    intros [[->|[Hin _]] E']; [congruence|done].
Qed.

Lemma unchanged_changed k mem j old : slots_ok k -> memslots k !! j = Some old ->
  id old = slot mem -> requested mem old -> changed k mem k.
Proof.
  intros Hok Hj Hid Hreq. exists old. split; [done|]. intros i Hi.
  destruct (Z.eqb_spec i (slot mem)) as [->|]; [|done].
  apply by_id_elem; [done|done|]. split; [apply list_elem_of_lookup; eauto|done].
Qed.

(** The outcome of a call, given the code [r] it returned. *)
Definition outcome (o : outcomes) (k : kvm_memslots) (mem : kvm_userspace_memory_region)
    (k' : kvm_memslots) (r : Z) : Prop :=
  slots_ok k' /\ (r = 0 -> changed k mem k') /\ (r <> 0 -> k' = k \/ (r = iommu o /\ changed k mem k')).

Lemma refused o k mem r : slots_ok k -> r <> 0 -> outcome o k mem k r.
Proof. intros Hok Hr. split_and!; [done|done|auto]. Qed.

Lemma install_outcome o k k1 mem j old c new : slots_ok k -> (retires c = false -> k1 = k) ->
  fits k new -> memslots k !! j = Some old -> id old = slot mem ->
  region_change old (new_slot old mem) mem = inr c ->
  set_up_slot o c (new_slot old mem) mem = Some new ->
  exists k' r, install sort o k1 k c new = Ok (k', r) /\ outcome o k mem k' r.
Proof.
  intros Hok Hk1 Hf Hj Hid Hc Hup. apply set_up_slot_spec in Hup as (E1 & E2 & E3 & E4 & _ & E5).
  assert (Hd : c = KVM_MR_DELETE -> logs_dirty new = false).
  { intros ->. unfold logs_dirty. rewrite E3. cbn [new_slot flags]. unfold region_flags.
    unfold region_change in Hc. cbn [new_slot npages] in Hc.
    destruct (Z.shiftr (memory_size mem) PAGE_SHIFT =? 0); cbn [negb] in Hc.
    - apply negb_false_iff, Z.eqb_eq, Z.bits_inj'. intros i Hi.
      rewrite Z.land_spec, Z.ldiff_spec, Z.bits_0. by destruct (Z.testbit _ i), (Z.testbit _ i).
    - repeat case_match; discriminate. }
  destruct (install_ok o k1 k c new Hok Hk1 Hf Hd) as (k' & r & -> & Hres).
  exists k', r. split; [done|].
  destruct Hres as [[-> Hr]|(new' & (S1 & S2 & S3 & S4 & S5) & Hcm & ->)]; [by apply refused|].
  assert (Hreq : requested mem new').
  { unfold requested. rewrite S1, S2, S3, S4, E1, E2, E3, E4. cbn [new_slot base_gfn npages flags id].
    unfold PAGE_SHIFT, PAGE_SIZE. rewrite !Z.shiftr_div_pow2 by lia. split_and!; try done.
    intros Hu Hn. rewrite S5, E5 by (by rewrite E4). destruct c; try done;
      apply (region_change_addr _ _ _ _ Hc); try done; cbn [new_slot npages]; unfold PAGE_SHIFT;
      by rewrite Z.shiftr_div_pow2 by lia. }
  pose proof (committed_changed k mem new' k' Hok Hreq Hcm) as Hch.
  split; [apply Hcm|]. split; [done|]. destruct (relocates c); [auto|done].
Qed.

Lemma set_memory_region_step o k mem : slots_ok k -> region_typed mem ->
  exists k' r, __kvm_set_memory_region sort o k mem = Ok (k', r) /\ outcome o k mem k' r.
Proof.
  intros Hok Ht. unfold __kvm_set_memory_region.
  destruct (Z.eqb_spec (check_memory_region_flags mem) 0); cbn [negb]; [|eauto using refused].
  destruct (sane_region o mem) eqn:Es; cbn [negb]; [|eauto using refused].
  assert (Hr : 0 <= slot mem < KVM_MEM_SLOTS_NUM)
    by (destruct (sane_region_ok o mem (Slot 0 0 None 0 0 0) Ht Es); done).
  destruct (id_to_memslot_ok k Hok _ Hr) as (j & old & -> & Hj & Hid).
  rewrite bind_Ok. cbn [snd].
  destruct (region_change old (new_slot old mem) mem) as [r|c] eqn:Ec.
  { exists k, r. split; [done|]. split_and!; [done| |auto]. intros ->.
    by eapply unchanged_changed, region_unchanged. }
  destruct (relocates c && existsb _ _) eqn:Eo; [eauto using refused|].
  destruct (set_up_slot o c (new_slot old mem) mem) as [new|] eqn:Eu; [|eauto using refused].
  assert (Hf : fits k new) by (by eapply change_fits).
  destruct (retires c) eqn:Er; [|by eapply install_outcome].
  destruct (dup_ok o); [|eauto using refused].
  destruct (invalidate_ok sort k (slot mem) Hok Hr) as [k1 ->]. rewrite bind_Ok.
  eapply install_outcome; eauto. congruence.
Qed.

End ioctl.

(** ** Finding the slot of a frame *)

Definition covers (s : kvm_memory_slot) (gfn : Z) : bool :=
  (base_gfn s <=? gfn) && (gfn <? base_gfn s + npages s).

(** [search_memslots], [__gfn_to_memslot] and [gfn_to_memslot] *)
Definition search_memslots (slots : kvm_memslots) (gfn : Z) : option kvm_memory_slot :=
  find (fun s => covers s gfn) (live (memslots slots)).

Definition kvm_is_visible_gfn (k : kvm_memslots) (gfn : Z) : bool :=
  match search_memslots k gfn with
  | None => false
  | Some s => negb ((KVM_USER_MEM_SLOTS <=? id s) || negb (Z.land (flags s) KVM_MEMSLOT_INVALID =? 0))
  end.

Definition memslot_is_readonly (s : kvm_memory_slot) : bool :=
  negb (Z.land (flags s) KVM_MEM_READONLY =? 0).

(** Host addresses from [PAGE_OFFSET] up belong to the host kernel and
    stand for errors. *)
Definition HOST_PAGE_OFFSET : Z := 0xffff880000000000.
Definition kvm_is_error_hva (addr : Z) : bool := HOST_PAGE_OFFSET <=? addr.

Definition __gfn_to_hva_memslot (s : kvm_memory_slot) (gfn : Z) : Z :=
  u64 (userspace_addr s + (gfn - base_gfn s) * PAGE_SIZE).

(** [None] stands for an error address. *)
Definition __gfn_to_hva_many (s : option kvm_memory_slot) (gfn : Z) (write : bool) : option Z :=
  match s with
  | None => None
  | Some s =>
      if negb (Z.land (flags s) KVM_MEMSLOT_INVALID =? 0) then None
      else if memslot_is_readonly s && write then None
      else if kvm_is_error_hva (__gfn_to_hva_memslot s gfn) then None
      else Some (__gfn_to_hva_memslot s gfn)
  end.

Definition gfn_to_hva (k : kvm_memslots) (gfn : Z) : option Z :=
  __gfn_to_hva_many (search_memslots k gfn) gfn true.
Definition gfn_to_hva_prot (k : kvm_memslots) (gfn : Z) : option Z :=
  __gfn_to_hva_many (search_memslots k gfn) gfn false.

Lemma search_Some k gfn s : slots_ok k -> search_memslots k gfn = Some s ->
  s ∈ memslots k /\ covers s gfn = true.
Proof.
  intros Hok H. apply find_some in H as [Hin Hc]. split; [|done].
  apply list_elem_of_In in Hin. apply live_elem in Hin; [tauto|apply (ok_sorted _ Hok)|apply (ok_slots _ Hok)].
Qed.

Lemma search_None k gfn s : slots_ok k -> search_memslots k gfn = None ->
  s ∈ memslots k -> covers s gfn = false.
Proof.
  intros Hok H Hin. destruct (covers s gfn) eqn:E; [|done].
  assert (Hl : s ∈ live (memslots k)).
  { apply live_elem; [apply (ok_sorted _ Hok)|apply (ok_slots _ Hok)|split; [done|]].
    unfold covers in E. apply andb_true_iff in E as [E1 E2]. apply Z.leb_le in E1.
    apply Z.ltb_lt in E2. lia. }
  apply list_elem_of_In in Hl. by rewrite (find_none _ _ H s Hl) in E.
Qed.

Lemma covers_unique k gfn a b : slots_ok k -> a ∈ memslots k -> b ∈ memslots k ->
  id a < KVM_USER_MEM_SLOTS -> id b < KVM_USER_MEM_SLOTS ->
  covers a gfn = true -> covers b gfn = true -> a = b.
Proof.
  intros Hok Ha Hb Hua Hub Hca Hcb. destruct (decide (id a = id b)) as [E|E]; [by eapply id_inj|].
  unfold covers in *. rewrite !andb_true_iff, !Z.leb_le, !Z.ltb_lt in *.
  destruct (ok_apart _ Hok a b Ha Hb E Hua Hub); lia.
Qed.

(** ** Claims *)

(** C19: the slot table stays well formed.  Whatever userspace asks and
    whatever the allocations and mappings of the kernel answer, the call
    returns and leaves a table that is sorted by size with every
    identifier once, an index that agrees with it, slots within the limits,
    a bitmap exactly on the slots that log dirty pages, and no two userspace
    slots sharing a frame. *)
Theorem set_memory_region_preserves sort o k mem :
  (forall l, sort l ≡ₚ l) -> (forall l, ge_sorted (sort l)) ->
  slots_ok k -> region_typed mem ->
  exists k' r, __kvm_set_memory_region sort o k mem = Ok (k', r) /\ slots_ok k'.
Proof.
  intros Hp Hd Hok Ht. destruct (set_memory_region_step sort Hp Hd o k mem Hok Ht)
    as (k' & r & E & Hok' & _); eauto.
Qed.

(** The effect of a request.  A call that returns zero leaves the slot
    named with the range, the flags and the userspace address asked for and
    every other slot as it was; a call that fails leaves the table
    unchanged, unless it is the IOMMU mapping that failed after the
    change. *)
Theorem set_memory_region_effect sort o k mem k' r :
  (forall l, sort l ≡ₚ l) -> (forall l, ge_sorted (sort l)) ->
  slots_ok k -> region_typed mem -> __kvm_set_memory_region sort o k mem = Ok (k', r) ->
  (r = 0 -> changed k mem k') /\
  (r <> 0 -> k' = k \/ (r = iommu o /\ changed k mem k')).
Proof.
  intros Hp Hd Hok Ht E.
  destruct (set_memory_region_step sort Hp Hd o k mem Hok Ht) as (k1 & r1 & E1 & _ & H).
  rewrite E1 in E. by simplify_eq.
Qed.

(** The search finds a slot for a frame exactly when some slot holds
    it, although it stops at the first empty one; and when the frame is in
    a userspace slot and in no private one, that is the slot found. *)
Theorem search_memslots_correct k gfn :
  slots_ok k ->
  (forall s, search_memslots k gfn = Some s -> s ∈ memslots k /\ covers s gfn = true) /\
  (search_memslots k gfn = None -> forall s, s ∈ memslots k -> covers s gfn = false) /\
  (forall s, s ∈ memslots k -> covers s gfn = true -> id s < KVM_USER_MEM_SLOTS ->
     (forall p, p ∈ memslots k -> KVM_USER_MEM_SLOTS <= id p -> covers p gfn = false) ->
     search_memslots k gfn = Some s).
Proof.
  intros Hok. split_and!; [intros s; by apply search_Some|intros H s; by apply search_None|].
  intros s Hin Hc Hu Hpriv. destruct (search_memslots k gfn) as [s'|] eqn:E.
  - apply search_Some in E as [Hin' Hc']; [|done]. f_equal.
    eapply (covers_unique k gfn); eauto. destruct (Z.lt_ge_cases (id s') KVM_USER_MEM_SLOTS); [done|].
    rewrite Hpriv in Hc' by done. discriminate.
  - by rewrite (search_None _ _ _ Hok E Hin) in Hc.
Qed.

(** ** Examples *)

Definition by_size (a b : kvm_memory_slot) : Prop := npages b <= npages a.
#[export] Instance by_size_dec : RelDecision by_size := fun a b => decide (npages b <= npages a).

Definition demo_sort : list kvm_memory_slot -> list kvm_memory_slot := merge_sort by_size.

Lemma demo_sort_perm l : demo_sort l ≡ₚ l.
Proof. apply merge_sort_Permutation. Qed.

Lemma demo_sort_desc l : ge_sorted (demo_sort l).
Proof.
  assert (Ht : Transitive by_size) by (intros a b c; unfold by_size; lia).
  assert (Ho : Total by_size) by (intros a b; unfold by_size; lia).
  pose proof (StronglySorted_merge_sort by_size l) as H. unfold ge_sorted, demo_sort.
  induction H as [|a l' _ IH Hf]; [constructor|]. rewrite fmap_cons. constructor; [done|].
  by rewrite Forall_fmap.
Qed.

Lemma init_slots_ok : slots_ok kvm_init_memslots_id.
Proof.
  assert (Hnp : Forall (fun s => npages s = 0 /\ slot_ok s) (memslots kvm_init_memslots_id)).
  { apply Forall_fmap, Forall_forall. intros i _. cbn. split; [done|]. split; cbn; done. }
  split.
  - cbn [kvm_init_memslots_id memslots]. rewrite <- list_fmap_compose.
    rewrite (list_fmap_ext _ Datatypes.id) by done. by rewrite list_fmap_id.
  - reflexivity.
  - intros i sl H. unfold kvm_init_memslots_id in *. cbn [memslots id_to_index] in *.
    rewrite list_lookup_fmap in H. destruct (seqZ 0 KVM_MEM_SLOTS_NUM !! i) as [z|] eqn:E; [|done].
    cbn in H. simplify_eq. cbn [id]. apply lookup_seqZ in E as [-> Hi].
    apply lookup_seq. split; lia.
  - unfold ge_sorted. induction Hnp as [|a l [Ha _] Hl IH]; [constructor|]. rewrite fmap_cons.
    constructor; [done|]. apply Forall_fmap. apply (Forall_impl _ _ _ Hl). intros x [Hx _]. cbn. lia.
  - apply (Forall_impl _ _ _ Hnp). tauto.
  - intros a b Ha Hb _ _ _ H. rewrite Forall_forall in Hnp. by destruct (Hnp a Ha).
Qed.

(** A guest with 128 MB of memory in slot 0, logged. *)
Definition demo_region : kvm_userspace_memory_region := Region 0 1 0 0x8000000 0x7f0000000000.
Definition demo_outcomes : outcomes := Outcomes true true true true 0x7e0000000000 0.
Definition demo_slots : kvm_memslots := Eval vm_compute in
  match __kvm_set_memory_region demo_sort demo_outcomes kvm_init_memslots_id demo_region with
  | Ok (k, _) => k
  | Err _ => kvm_init_memslots_id
  end.

Lemma set_memory_region_preserves_witness :
  exists k' r, __kvm_set_memory_region demo_sort demo_outcomes kvm_init_memslots_id demo_region
    = Ok (k', r) /\ slots_ok k'.
Proof.
  apply (set_memory_region_preserves demo_sort demo_outcomes kvm_init_memslots_id demo_region
    demo_sort_perm demo_sort_desc init_slots_ok). unfold region_typed. cbn. lia.
Defined.

Lemma demo_create_ok :
  __kvm_set_memory_region demo_sort demo_outcomes kvm_init_memslots_id demo_region = Ok (demo_slots, 0).
Proof. vm_compute. reflexivity. Qed.

Lemma set_memory_region_effect_witness : changed kvm_init_memslots_id demo_region demo_slots.
Proof.
  apply (set_memory_region_effect demo_sort demo_outcomes kvm_init_memslots_id demo_region
    demo_slots 0 demo_sort_perm demo_sort_desc init_slots_ok); [unfold region_typed; cbn; lia| |done].
  exact demo_create_ok.
Defined.

Lemma demo_slots_ok : slots_ok demo_slots.
Proof.
  destruct (set_memory_region_step demo_sort demo_sort_perm demo_sort_desc demo_outcomes
    kvm_init_memslots_id demo_region init_slots_ok) as (k' & r & E & Hok & _);
    [unfold region_typed; cbn; lia|].
  rewrite demo_create_ok in E. injection E as <- _. exact Hok.
Qed.

(** The last frame of the slot is found, the frame after it is not. *)
Lemma search_memslots_correct_witness :
  (exists s, search_memslots demo_slots 0x7fff = Some s /\ covers s 0x7fff = true) /\
  Forall (fun s => covers s 0x8000 = false) (memslots demo_slots).
Proof.
  destruct (search_memslots_correct demo_slots 0x7fff demo_slots_ok) as [Hf _].
  destruct (search_memslots_correct demo_slots 0x8000 demo_slots_ok) as (_ & Hn & _). split.
  - destruct (search_memslots demo_slots 0x7fff) as [s|] eqn:E; [|by vm_compute in E].
    exists s. split; [done|]. by apply Hf.
  - apply Forall_forall. apply Hn. by vm_compute.
Defined.
