(* ===== verification/GuestCopy.v ===== *)
(** * Copies to and from guest memory (kvm-kmod x86/kvm_main.c)

    [kvm_read_guest] and [kvm_write_guest] go page by page through the slot
    table to the memory of the host process, and mark what they write in
    the dirty bitmaps.  They are compared with byte-by-byte definitions of
    guest memory. *)

From coqutil Require Import Byte.
From S2P Require Import Prelude MemSlots.

(** ** Copies between guest memory and the kernel *)

Definition next_segment (len offset : Z) : Z :=
  if PAGE_SIZE - offset <? len then PAGE_SIZE - offset else len.

Definition offset_in_page (gpa : Z) : Z := Z.land gpa (PAGE_SIZE - 1).

(** The mapped bytes of the host process. *)
Abbreviation umem := (gmap Z byte).

(** [__copy_from_user]: [None] when a byte is not mapped. *)
Fixpoint copy_from_user (um : umem) (a : Z) (n : nat) : option (list byte) :=
  match n with
  | O => Some []
  | S n => b ← um !! a; bs ← copy_from_user um (a + 1) n; Some (b :: bs)
  end.

(** [__copy_to_user]: stops at the first byte that is not mapped. *)
Fixpoint copy_to_user (um : umem) (a : Z) (bs : list byte) : umem * bool :=
  match bs with
  | [] => (um, true)
  | b :: bs =>
      match um !! a with
      | None => (um, false)
      | Some _ => copy_to_user (<[a := b]> um) (a + 1) bs
      end
  end.

Definition kvm_read_guest_page (k : kvm_memslots) (um : umem) (gfn offset len : Z) : option (list byte) :=
  addr ← gfn_to_hva_prot k gfn; copy_from_user um (addr + offset) (Z.to_nat len).

(** The loop over pages: what was copied, page by page, and the result. *)
Fixpoint read_loop (fuel : nat) (k : kvm_memslots) (um : umem) (gfn offset len : Z)
    (data : list byte) : res (list byte * Z) :=
  match fuel with
  | O => Err OutOfFuel
  | S fuel =>
      let seg := next_segment len offset in
      if seg =? 0 then Ok (data, 0)
      else
        match kvm_read_guest_page k um gfn offset seg with
        | None => Ok (data, - EFAULT)
        | Some bs => read_loop fuel k um (gfn + 1) 0 (len - seg) (data ++ bs)
        end
  end.

(** The number of pages bounds the loop. *)
Definition page_fuel (len : Z) : nat := Z.to_nat (len / PAGE_SIZE + 3).

Definition kvm_read_guest (k : kvm_memslots) (um : umem) (gpa len : Z) : res (list byte * Z) :=
  read_loop (page_fuel len) k um (Z.shiftr gpa PAGE_SHIFT) (offset_in_page gpa) len [].

(** [mark_page_dirty_in_slot] on the slot [gfn_to_memslot] finds. *)
Definition set_dirty (gfn : Z) (s : kvm_memory_slot) : kvm_memory_slot :=
  with_bitmap s ((fun d => {[gfn - base_gfn s]} ∪ d) <$> dirty_bitmap s).

Fixpoint mark_first (l : list kvm_memory_slot) (gfn : Z) : list kvm_memory_slot :=
  match l with
  | [] => []
  | s :: l =>
      if npages s =? 0 then s :: l
      else if covers s gfn then set_dirty gfn s :: l
      else s :: mark_first l gfn
  end.

Definition mark_page_dirty (k : kvm_memslots) (gfn : Z) : kvm_memslots :=
  Memslots (generation k) (mark_first (memslots k) gfn) (id_to_index k).

Definition kvm_write_guest_page (k : kvm_memslots) (um : umem) (gfn : Z) (data : list byte)
    (offset : Z) : kvm_memslots * umem * Z :=
  match gfn_to_hva k gfn with
  | None => (k, um, - EFAULT)
  | Some addr =>
      let '(um', ok) := copy_to_user um (addr + offset) data in
      if ok then (mark_page_dirty k gfn, um', 0) else (k, um', - EFAULT)
  end.

Fixpoint write_loop (fuel : nat) (k : kvm_memslots) (um : umem) (gfn offset : Z)
    (data : list byte) : res (kvm_memslots * umem * Z) :=
  match fuel with
  | O => Err OutOfFuel
  | S fuel =>
      let seg := next_segment (Z.of_nat (length data)) offset in
      if seg =? 0 then Ok (k, um, 0)
      else
        let '(k', um', ret) := kvm_write_guest_page k um gfn (take (Z.to_nat seg) data) offset in
        if ret <? 0 then Ok (k', um', ret)
        else write_loop fuel k' um' (gfn + 1) 0 (drop (Z.to_nat seg) data)
  end.

Definition kvm_write_guest (k : kvm_memslots) (um : umem) (gpa : Z) (data : list byte)
    : res (kvm_memslots * umem * Z) :=
  write_loop (page_fuel (Z.of_nat (length data))) k um (Z.shiftr gpa PAGE_SHIFT)
    (offset_in_page gpa) data.

(** ** Guest memory byte by byte *)

(** The host address of a guest physical address. *)
Definition guest_hva (k : kvm_memslots) (write : bool) (gpa : Z) : option Z :=
  h ← __gfn_to_hva_many (search_memslots k (gpa / PAGE_SIZE)) (gpa / PAGE_SIZE) write;
  Some (h + gpa mod PAGE_SIZE).

Fixpoint flat_read (k : kvm_memslots) (um : umem) (gpa : Z) (n : nat) : option (list byte) :=
  match n with
  | O => Some []
  | S n =>
      a ← guest_hva k false gpa;
      b ← um !! a;
      bs ← flat_read k um (gpa + 1) n;
      Some (b :: bs)
  end.

Fixpoint flat_write (k : kvm_memslots) (um : umem) (gpa : Z) (bs : list byte) : option umem :=
  match bs with
  | [] => Some um
  | b :: bs =>
      a ← guest_hva k true gpa;
      _ ← um !! a;
      flat_write k (<[a := b]> um) (gpa + 1) bs
  end.

Definition dirty (k : kvm_memslots) (gfn : Z) : bool :=
  match search_memslots k gfn with
  | Some (Slot b _ (Some d) _ _ _) => bool_decide (gfn - b ∈ d)
  | _ => false
  end.

Definition logged (k : kvm_memslots) (gfn : Z) : bool :=
  match search_memslots k gfn with Some s => bool_decide (is_Some (dirty_bitmap s)) | None => false end.

(** ** Pages *)

Lemma guest_hva_page k w gfn i : 0 <= i < PAGE_SIZE ->
  guest_hva k w (gfn * PAGE_SIZE + i)
  = (h ← __gfn_to_hva_many (search_memslots k gfn) gfn w; Some (h + i)).
Proof.
  intros Hi. unfold guest_hva.
  rewrite Z.div_add_l, (Z.div_small i), Z.add_0_r by (unfold PAGE_SIZE in *; lia).
  rewrite Z.add_comm, Z.mod_add, Z.mod_small by (unfold PAGE_SIZE in *; lia). done.
Qed.

Lemma flat_read_page k um gfn h : gfn_to_hva_prot k gfn = Some h ->
  forall n i, 0 <= i -> i + Z.of_nat n <= PAGE_SIZE ->
  flat_read k um (gfn * PAGE_SIZE + i) n = copy_from_user um (h + i) n.
Proof.
  intros Hh. induction n as [|n IH]; intros i Hi Hn; [done|]. cbn [flat_read copy_from_user].
  rewrite guest_hva_page by lia. unfold gfn_to_hva_prot in Hh. rewrite Hh. cbn.
  replace (gfn * PAGE_SIZE + i + 1) with (gfn * PAGE_SIZE + (i + 1)) by lia.
  rewrite IH by lia. by rewrite Z.add_assoc.
Qed.

Lemma flat_read_unmapped k um gfn n i : gfn_to_hva_prot k gfn = None ->
  0 <= i < PAGE_SIZE -> (0 < n)%nat -> flat_read k um (gfn * PAGE_SIZE + i) n = None.
Proof.
  intros Hh Hi Hn. destruct n; [lia|]. cbn [flat_read]. rewrite guest_hva_page by lia.
  unfold gfn_to_hva_prot in Hh. by rewrite Hh.
Qed.

Lemma flat_read_length k um n : forall gpa bs, flat_read k um gpa n = Some bs -> length bs = n.
Proof.
  induction n as [|n IH]; intros gpa bs H; cbn in H; [by simplify_eq|].
  destruct (guest_hva k false gpa) as [a|]; [|done]. cbn in H. destruct (um !! a); [|done]. cbn in H.
  destruct (flat_read k um (gpa + 1) n) eqn:E; [|done]. cbn in H. simplify_eq. cbn. by erewrite IH.
Qed.

Lemma flat_read_app k um n m : forall gpa,
  flat_read k um gpa (n + m)
  = (l1 ← flat_read k um gpa n; l2 ← flat_read k um (gpa + Z.of_nat n) m; Some (l1 ++ l2)).
Proof.
  induction n as [|n IH]; intros gpa.
  - cbn. rewrite Z.add_0_r. by destruct (flat_read k um gpa m).
  - cbn [flat_read Nat.add]. destruct (guest_hva k false gpa) as [a|]; [|done]. cbn.
    destruct (um !! a); [|done]. cbn. rewrite IH.
    replace (gpa + 1 + Z.of_nat n) with (gpa + Z.of_nat (S n)) by lia.
    destruct (flat_read k um (gpa + 1) n); [|done]. cbn. by destruct (flat_read _ _ _ m).
Qed.

Lemma next_segment_spec len offset : 0 <= len -> 0 <= offset < PAGE_SIZE ->
  0 <= next_segment len offset <= len /\ offset + next_segment len offset <= PAGE_SIZE /\
  (next_segment len offset = 0 <-> len = 0) /\
  (next_segment len offset < len -> offset + next_segment len offset = PAGE_SIZE).
Proof. unfold next_segment, PAGE_SIZE. intros. destruct (Z.ltb_spec (4096 - offset) len); lia. Qed.

(** The pages left to visit, with one more turn to leave the loop. *)
Definition enough (fuel : nat) (len offset : Z) : Prop := offset + len <= (Z.of_nat fuel - 1) * PAGE_SIZE.

Lemma enough_step fuel len offset : 0 <= len -> 0 <= offset < PAGE_SIZE ->
  enough (S fuel) len offset -> next_segment len offset <> 0 ->
  enough fuel (len - next_segment len offset) 0.
Proof.
  unfold enough. intros Hl Ho Hf Hne. destruct (next_segment_spec len offset Hl Ho) as (H1 & H2 & H3 & H4).
  unfold PAGE_SIZE in *. destruct (Z.lt_ge_cases (next_segment len offset) len); lia.
Qed.

Lemma page_fuel_enough len offset : 0 <= len -> 0 <= offset < PAGE_SIZE -> enough (page_fuel len) len offset.
Proof.
  intros. unfold enough, page_fuel, PAGE_SIZE in *.
  pose proof (Z.div_mod len 4096 ltac:(lia)). pose proof (Z.mod_pos_bound len 4096 ltac:(lia)).
  pose proof (Z.div_pos len 4096). rewrite Z2Nat.id by lia. lia.
Qed.

Lemma gpa_split gpa : 0 <= gpa ->
  Z.shiftr gpa PAGE_SHIFT * PAGE_SIZE + offset_in_page gpa = gpa /\ 0 <= offset_in_page gpa < PAGE_SIZE.
Proof.
  intros H. unfold offset_in_page, PAGE_SHIFT, PAGE_SIZE. change (4096 - 1) with (Z.ones 12).
  rewrite Z.shiftr_div_pow2, Z.land_ones by lia. change (2 ^ 12) with 4096.
  pose proof (Z.div_mod gpa 4096 ltac:(lia)). pose proof (Z.mod_pos_bound gpa 4096 ltac:(lia)). lia.
Qed.

Lemma copy_from_user_length um n : forall a bs, copy_from_user um a n = Some bs -> length bs = n.
Proof.
  induction n as [|n IH]; intros a bs H; cbn in H; [by simplify_eq|].
  destruct (um !! a); [|done]. cbn in H. destruct (copy_from_user um (a + 1) n) eqn:E; [|done].
  cbn in H. simplify_eq. cbn. by erewrite IH.
Qed.

(** ** Reads *)

Lemma next_page_read k um gfn offset seg len : 0 <= seg <= len ->
  (seg < len -> offset + seg = PAGE_SIZE) ->
  flat_read k um (gfn * PAGE_SIZE + offset + Z.of_nat (Z.to_nat seg)) (Z.to_nat (len - seg))
  = flat_read k um ((gfn + 1) * PAGE_SIZE + 0) (Z.to_nat (len - seg)).
Proof.
  intros H1 H2. destruct (Z.eq_dec seg len) as [->|Hne]; [by rewrite Z.sub_diag|].
  f_equal. lia.
Qed.

Lemma read_loop_flat fuel : forall k um gfn offset len data,
  0 <= len -> 0 <= offset < PAGE_SIZE -> enough fuel len offset ->
  match flat_read k um (gfn * PAGE_SIZE + offset) (Z.to_nat len) with
  | Some bs => read_loop fuel k um gfn offset len data = Ok (data ++ bs, 0)
  | None => exists got, read_loop fuel k um gfn offset len data = Ok (data ++ got, - EFAULT) /\
      flat_read k um (gfn * PAGE_SIZE + offset) (length got) = Some got /\ Z.of_nat (length got) < len
  end.
Proof.
  induction fuel as [|fuel IH]; intros k um gfn offset len data Hl Ho Hf.
  { unfold enough, PAGE_SIZE in *. lia. }
  cbn [read_loop]. destruct (next_segment_spec len offset Hl Ho) as (H1 & H2 & H3 & H4).
  destruct (Z.eqb_spec (next_segment len offset) 0) as [E|E].
  { rewrite (proj1 H3 E). change (Z.to_nat 0) with O. cbn [flat_read]. by rewrite app_nil_r. }
  pose proof (enough_step fuel len offset Hl Ho Hf E) as Hf'.
  set (seg := next_segment len offset) in *.
  replace (Z.to_nat len) with (Z.to_nat seg + Z.to_nat (len - seg))%nat by lia.
  rewrite flat_read_app. unfold kvm_read_guest_page.
  destruct (gfn_to_hva_prot k gfn) as [h|] eqn:Eh.
  2: { rewrite flat_read_unmapped by (done || lia). cbn.
       exists []. rewrite app_nil_r. split; [done|]. split; [done|]. cbn. lia. }
  rewrite (flat_read_page k um gfn h Eh) by lia. cbn.
  destruct (copy_from_user um (h + offset) (Z.to_nat seg)) as [bs|] eqn:Ec; cbn.
  2: { exists []. rewrite app_nil_r. split; [done|]. split; [done|]. cbn. lia. }
  pose proof (copy_from_user_length _ _ _ _ Ec) as Hlen.
  specialize (IH k um (gfn + 1) 0 (len - seg) (data ++ bs) ltac:(lia) ltac:(unfold PAGE_SIZE; lia) Hf').
  rewrite (next_page_read k um gfn offset seg len) by lia.
  destruct (flat_read k um ((gfn + 1) * PAGE_SIZE + 0) (Z.to_nat (len - seg))) as [l2|]; cbn.
  - by rewrite IH, <- app_assoc.
  - destruct IH as (got & -> & Hg & Hlt). exists (bs ++ got). rewrite <- app_assoc. split; [done|].
    rewrite length_app, flat_read_app, (flat_read_page k um gfn h Eh), Hlen, Ec by lia. cbn.
    replace (gfn * PAGE_SIZE + offset + Z.of_nat (Z.to_nat seg)) with ((gfn + 1) * PAGE_SIZE + 0) by lia.
    rewrite Hg. cbn. split; [done|]. lia.
Qed.

(** ** Dirty marking *)

(** The search after a mark: the slot found is the same, or it is the one
    that was marked, and that is the case for the frame marked. *)
Lemma find_mark l gfn g :
  match find (fun s => covers s g) (live l) with
  | None => find (fun s => covers s g) (live (mark_first l gfn)) = None
  | Some s =>
      (find (fun s => covers s g) (live (mark_first l gfn)) = Some s /\ g <> gfn) \/
      find (fun s => covers s g) (live (mark_first l gfn)) = Some (set_dirty gfn s)
  end.
Proof.
  induction l as [|s l IH]; cbn [mark_first live]; [done|].
  destruct (npages s =? 0) eqn:E; cbn [live]; [by rewrite E|]. cbn [find].
  destruct (covers s gfn) eqn:Ec; cbn [live].
  - change (npages (set_dirty gfn s)) with (npages s). rewrite E. cbn [find].
    change (covers (set_dirty gfn s) g) with (covers s g).
    destruct (covers s g) eqn:Eg; [auto|]. destruct (find _ (live l)); [left|done].
    split; [done|]. intros ->. congruence.
  - rewrite E. cbn [find]. destruct (covers s g) eqn:Eg; [|done]. left. split; [done|].
    intros ->. congruence.
Qed.

Lemma search_mark k gfn g :
  match search_memslots k g with
  | None => search_memslots (mark_page_dirty k gfn) g = None
  | Some s =>
      (search_memslots (mark_page_dirty k gfn) g = Some s /\ g <> gfn) \/
      search_memslots (mark_page_dirty k gfn) g = Some (set_dirty gfn s)
  end.
Proof. apply find_mark. Qed.

(** [k'] is [k] with the pages of [P] marked where they are logged. *)
Record marked (k k' : kvm_memslots) (P : Z -> bool) : Prop := {
  mk_hva g w : __gfn_to_hva_many (search_memslots k' g) g w = __gfn_to_hva_many (search_memslots k g) g w;
  mk_logged g : logged k' g = logged k g;
  mk_dirty g : dirty k' g = dirty k g || (logged k g && P g);
  mk_ok : slots_ok k -> slots_ok k'
}.

Lemma set_dirty_bit s gfn g b d : dirty_bitmap s = Some d -> b = base_gfn s ->
  dirty_bitmap (set_dirty gfn s) = Some ({[gfn - b]} ∪ d) /\
  bool_decide (g - b ∈ ({[gfn - b]} ∪ d : gset Z)) = bool_decide (g - b ∈ d) || bool_decide (g = gfn).
Proof.
  intros Hd ->. unfold set_dirty. cbn. rewrite Hd. split; [done|].
  destruct (decide (g = gfn)) as [->|Hne].
  - rewrite (bool_decide_true (gfn = gfn)), orb_true_r by done. apply bool_decide_true. set_solver.
  - rewrite (bool_decide_false (g = gfn)), orb_false_r by done. apply bool_decide_ext.
    rewrite elem_of_union, elem_of_singleton. split; [intros [?|?]; [lia|done]|auto].
Qed.

Lemma mark_first_lookup l gfn i s : mark_first l gfn !! i = Some s ->
  exists s0, l !! i = Some s0 /\ (s = s0 \/ s = set_dirty gfn s0).
Proof.
  revert i. induction l as [|a l IH]; intros i H; cbn in H; [done|].
  destruct (npages a =? 0); [eauto|].
  destruct (covers a gfn), i as [|i]; cbn in *; simplify_eq; eauto.
Qed.

Lemma mark_first_fmap {B} (f : kvm_memory_slot -> B) l gfn :
  (forall s, f (set_dirty gfn s) = f s) -> f <$> mark_first l gfn = f <$> l.
Proof.
  intros Hf. induction l as [|a l IH]; cbn; [done|]. destruct (npages a =? 0); [done|].
  destruct (covers a gfn); cbn; [by rewrite Hf|]. by rewrite IH.
Qed.

Lemma mark_page_dirty_ok k gfn : slots_ok k -> slots_ok (mark_page_dirty k gfn).
Proof.
  intros Hok.
  assert (Hel : forall s, s ∈ mark_first (memslots k) gfn ->
    exists s0, s0 ∈ memslots k /\ (s = s0 \/ s = set_dirty gfn s0)).
  { intros s [i Hi]%list_elem_of_lookup. apply mark_first_lookup in Hi as (s0 & H0 & Hs).
    exists s0. split; [apply list_elem_of_lookup; eauto|done]. }
  split; cbn.
  - rewrite mark_first_fmap by done. apply (ok_ids _ Hok).
  - apply (ok_len _ Hok).
  - intros i s Hi. apply mark_first_lookup in Hi as (s0 & H0 & Hs).
    replace (id s) with (id s0) by (by destruct Hs as [->| ->]). by apply (ok_index _ Hok).
  - unfold ge_sorted. rewrite mark_first_fmap by done. apply (ok_sorted _ Hok).
  - apply Forall_forall. intros s (s0 & H0 & Hs)%Hel. pose proof (ok_slots _ Hok) as Hf.
    rewrite Forall_forall in Hf. destruct (Hf s0 H0) as [H1 H2 H3].
    destruct Hs as [->| ->]; [done|]. split; cbn; [done|done|]. unfold logs_dirty in *. cbn.
    rewrite H3. apply bool_decide_ext. by rewrite fmap_is_Some.
  - intros a b (a0 & Ha & Hsa)%Hel (b0 & Hb & Hsb)%Hel Hne.
    assert (Hap : id a0 <> id b0 -> apart a0 b0) by (by apply (ok_apart _ Hok)).
    destruct Hsa as [->| ->], Hsb as [->| ->]; exact (Hap Hne).
Qed.

Lemma mark_marked k gfn : marked k (mark_page_dirty k gfn) (fun g => bool_decide (g = gfn)).
Proof.
  split; [intros g w|intros g|intros g|apply mark_page_dirty_ok];
    pose proof (search_mark k gfn g) as H; unfold dirty, logged;
    (destruct (search_memslots k g) as [s|]; [|by rewrite H]); destruct H as [[-> Hne]| ->]; try done.
  - cbn. apply bool_decide_ext. by rewrite fmap_is_Some.
  - rewrite (bool_decide_false (g = gfn)), andb_false_r, orb_false_r by done. done.
  - destruct s as [b n [d|] u fl i]; [|done]. cbn -[bool_decide].
    rewrite (bool_decide_true (is_Some _)) by eauto. cbn [andb].
    by destruct (set_dirty_bit (Slot b n (Some d) u fl i) gfn g b d).
Qed.

Lemma marked_refl k : marked k k (fun _ => false).
Proof. split; try done. intros g. by rewrite andb_false_r, orb_false_r. Qed.

Lemma marked_trans k1 k2 k3 P Q R : marked k1 k2 P -> marked k2 k3 Q ->
  (forall g, R g = P g || Q g) -> marked k1 k3 R.
Proof.
  intros [A1 A2 A3 A4] [B1 B2 B3 B4] HR. split; [congruence|congruence| |auto].
  intros g. rewrite B3, A3, A2, HR. by destruct (dirty k1 g), (logged k1 g), (P g), (Q g).
Qed.

Lemma marked_guest_hva k k' P w gpa : marked k k' P -> guest_hva k' w gpa = guest_hva k w gpa.
Proof. intros H. unfold guest_hva. by rewrite (mk_hva _ _ _ H). Qed.

Lemma marked_flat_write k k' P bs : marked k k' P ->
  forall um gpa, flat_write k' um gpa bs = flat_write k um gpa bs.
Proof.
  intros H. induction bs as [|b bs IH]; intros um gpa; cbn; [done|].
  rewrite (marked_guest_hva _ _ _ _ _ H). destruct (guest_hva k true gpa) as [a|]; [|done].
  cbn. destruct (um !! a); [|done]. cbn. apply IH.
Qed.

(** ** Writes *)

Lemma flat_write_page k gfn h : gfn_to_hva k gfn = Some h ->
  forall bs um i, 0 <= i -> i + Z.of_nat (length bs) <= PAGE_SIZE ->
  flat_write k um (gfn * PAGE_SIZE + i) bs
  = (let '(um', ok) := copy_to_user um (h + i) bs in if ok then Some um' else None).
Proof.
  intros Hh. induction bs as [|b bs IH]; intros um i Hi Hn; [done|]. cbn [length] in Hn.
  cbn [flat_write copy_to_user]. rewrite guest_hva_page by lia.
  unfold gfn_to_hva in Hh. rewrite Hh. cbn. destruct (um !! (h + i)); cbn; [|done].
  replace (gfn * PAGE_SIZE + i + 1) with (gfn * PAGE_SIZE + (i + 1)) by lia.
  rewrite IH by lia. by rewrite Z.add_assoc.
Qed.

Lemma flat_write_unmapped k um gfn bs i : gfn_to_hva k gfn = None ->
  0 <= i < PAGE_SIZE -> bs <> [] -> flat_write k um (gfn * PAGE_SIZE + i) bs = None.
Proof.
  intros Hh Hi Hn. destruct bs as [|b bs]; [done|]. cbn [flat_write]. rewrite guest_hva_page by lia.
  unfold gfn_to_hva in Hh. by rewrite Hh.
Qed.

Lemma flat_write_app k bs1 bs2 : forall um gpa,
  flat_write k um gpa (bs1 ++ bs2)
  = (um1 ← flat_write k um gpa bs1; flat_write k um1 (gpa + Z.of_nat (length bs1)) bs2).
Proof.
  induction bs1 as [|b bs1 IH]; intros um gpa.
  - cbn. by rewrite Z.add_0_r.
  - cbn [flat_write app length]. destruct (guest_hva k true gpa) as [a|]; [|done]. cbn.
    destruct (um !! a); [|done]. cbn. rewrite IH.
    by replace (gpa + 1 + Z.of_nat (length bs1)) with (gpa + Z.of_nat (S (length bs1))) by lia.
Qed.

(** The page [g] meets the bytes [start, start + len). *)
Definition touched (start len g : Z) : bool :=
  (g * PAGE_SIZE <? start + len) && (start <? (g + 1) * PAGE_SIZE) && (0 <? len).

Lemma touched_step gfn offset seg len g : 0 < seg <= len -> 0 <= offset -> offset + seg <= PAGE_SIZE ->
  (seg < len -> offset + seg = PAGE_SIZE) ->
  touched (gfn * PAGE_SIZE + offset) len g
  = bool_decide (g = gfn) || touched ((gfn + 1) * PAGE_SIZE + 0) (len - seg) g.
Proof.
  intros H1 H2 H3 H4. unfold touched, PAGE_SIZE in *.
  destruct (decide (g = gfn)) as [->|Hne]; [rewrite bool_decide_true by done|rewrite bool_decide_false by done].
  - destruct (Z.ltb_spec (gfn * 4096) (gfn * 4096 + offset + len)),
      (Z.ltb_spec (gfn * 4096 + offset) ((gfn + 1) * 4096)), (Z.ltb_spec 0 len); cbn; done || lia.
  - cbn [orb].
    destruct (Z.ltb_spec (g * 4096) (gfn * 4096 + offset + len)),
      (Z.ltb_spec (gfn * 4096 + offset) ((g + 1) * 4096)), (Z.ltb_spec 0 len),
      (Z.ltb_spec (g * 4096) ((gfn + 1) * 4096 + 0 + (len - seg))),
      (Z.ltb_spec ((gfn + 1) * 4096 + 0) ((g + 1) * 4096)), (Z.ltb_spec 0 (len - seg)); cbn; done || lia.
Qed.

Lemma next_page_write k um gfn offset seg data : 0 <= seg <= Z.of_nat (length data) ->
  (seg < Z.of_nat (length data) -> offset + seg = PAGE_SIZE) ->
  flat_write k um (gfn * PAGE_SIZE + offset + seg) (drop (Z.to_nat seg) data)
  = flat_write k um ((gfn + 1) * PAGE_SIZE + 0) (drop (Z.to_nat seg) data).
Proof.
  intros H1 H2. destruct (Z.eq_dec seg (Z.of_nat (length data))) as [->|Hne].
  - by rewrite drop_ge by lia.
  - f_equal. lia.
Qed.

Lemma write_loop_flat fuel : forall k um gfn offset data,
  0 <= offset < PAGE_SIZE -> enough fuel (Z.of_nat (length data)) offset ->
  match flat_write k um (gfn * PAGE_SIZE + offset) data with
  | Some um' => exists k', write_loop fuel k um gfn offset data = Ok (k', um', 0) /\
      marked k k' (touched (gfn * PAGE_SIZE + offset) (Z.of_nat (length data)))
  | None => exists k' um', write_loop fuel k um gfn offset data = Ok (k', um', - EFAULT)
  end.
Proof.
  induction fuel as [|fuel IH]; intros k um gfn offset data Ho Hf.
  { unfold enough, PAGE_SIZE in *. lia. }
  cbn [write_loop]. destruct (next_segment_spec (Z.of_nat (length data)) offset ltac:(lia) Ho) as (H1 & H2 & H3 & H4).
  destruct (Z.eqb_spec (next_segment (Z.of_nat (length data)) offset) 0) as [E|E].
  { destruct data; [|apply H3 in E; cbn in E; lia]. cbn [flat_write]. exists k. split; [done|].
    eapply marked_trans; [apply marked_refl|apply marked_refl|]. intros g. unfold touched. by rewrite andb_false_r. }
  pose proof (enough_step fuel (Z.of_nat (length data)) offset ltac:(lia) Ho Hf E) as Hf'.
  set (seg := next_segment (Z.of_nat (length data)) offset) in *.
  assert (Hlt : length (take (Z.to_nat seg) data) = Z.to_nat seg) by (rewrite length_take; lia).
  pose proof (flat_write_app k (take (Z.to_nat seg) data) (drop (Z.to_nat seg) data) um
    (gfn * PAGE_SIZE + offset)) as Hsplit. rewrite take_drop, Hlt in Hsplit. rewrite Hsplit.
  replace (Z.of_nat (Z.to_nat seg)) with seg by lia. unfold kvm_write_guest_page.
  destruct (gfn_to_hva k gfn) as [h|] eqn:Eh.
  2: { rewrite flat_write_unmapped; [cbn; eauto|done|lia|].
       destruct (take (Z.to_nat seg) data); [cbn in Hlt; lia|done]. }
  rewrite (flat_write_page k gfn h Eh) by (rewrite ?Hlt; lia).
  destruct (copy_to_user um (h + offset) (take (Z.to_nat seg) data)) as [um1 [|]]; cbn; [|eauto].
  rewrite next_page_write by lia. pose proof (mark_marked k gfn) as Hm.
  assert (Hl' : Z.of_nat (length (drop (Z.to_nat seg) data)) = Z.of_nat (length data) - seg)
    by (rewrite length_drop; lia).
  specialize (IH (mark_page_dirty k gfn) um1 (gfn + 1) 0 (drop (Z.to_nat seg) data)
    ltac:(unfold PAGE_SIZE; lia)). rewrite Hl', (marked_flat_write _ _ _ _ Hm) in IH. specialize (IH Hf').
  destruct (flat_write k um1 ((gfn + 1) * PAGE_SIZE + 0) (drop (Z.to_nat seg) data)) as [um'|]; [|done].
  destruct IH as (k' & -> & Hm'). exists k'. split; [done|]. eapply marked_trans; [exact Hm|exact Hm'|].
  intros g. apply touched_step; lia.
Qed.

(** ** Reading back *)

Lemma guest_hva_write_read k gpa a : guest_hva k true gpa = Some a -> guest_hva k false gpa = Some a.
Proof.
  unfold guest_hva, __gfn_to_hva_many. destruct (search_memslots k _) as [s|]; [|done].
  destruct (negb _); [done|]. destruct (memslot_is_readonly s); done.
Qed.

(** No two of the bytes [gpa, gpa + n) have the same host address. *)
Definition hva_distinct (k : kvm_memslots) (gpa : Z) (n : nat) : Prop :=
  forall i j a, 0 <= i < j -> j < Z.of_nat n ->
    guest_hva k true (gpa + i) = Some a -> guest_hva k true (gpa + j) <> Some a.

Lemma hva_distinct_tail k gpa n : hva_distinct k gpa (S n) -> hva_distinct k (gpa + 1) n.
Proof.
  intros H i j a Hi Hj. rewrite <- !Z.add_assoc. apply H; lia.
Qed.

Lemma flat_write_other k bs : forall um gpa um' a, flat_write k um gpa bs = Some um' ->
  (forall i, 0 <= i < Z.of_nat (length bs) -> guest_hva k true (gpa + i) <> Some a) ->
  um' !! a = um !! a.
Proof.
  induction bs as [|b bs IH]; intros um gpa um' a H Ha; cbn in H; [by simplify_eq|].
  destruct (guest_hva k true gpa) as [c|] eqn:Ec; [|done]. cbn in H.
  destruct (um !! c); [|done]. cbn in H. rewrite (IH _ _ _ a H).
  - rewrite lookup_insert_ne; [done|]. intros ->. apply (Ha 0); [cbn; lia|]. by rewrite Z.add_0_r.
  - intros i Hi. rewrite <- Z.add_assoc. apply Ha. cbn. lia.
Qed.

Lemma flat_read_written k bs : forall um gpa um', hva_distinct k gpa (length bs) ->
  flat_write k um gpa bs = Some um' -> flat_read k um' gpa (length bs) = Some bs.
Proof.
  induction bs as [|b bs IH]; intros um gpa um' Hd H; [done|]. cbn [length] in *. cbn in H.
  destruct (guest_hva k true gpa) as [a|] eqn:Ea; [|done]. cbn in H.
  destruct (um !! a); [|done]. cbn in H. cbn [flat_read].
  rewrite (guest_hva_write_read _ _ _ Ea). cbn.
  rewrite (flat_write_other _ _ _ _ _ a H).
  - rewrite lookup_insert_eq. cbn. rewrite (IH _ _ _ (hva_distinct_tail _ _ _ Hd) H). done.
  - intros i Hi. rewrite <- Z.add_assoc. apply (Hd 0 (1 + i) a); [lia|lia|]. by rewrite Z.add_0_r.
Qed.

Lemma marked_flat_read k k' P n : marked k k' P ->
  forall um gpa, flat_read k' um gpa n = flat_read k um gpa n.
Proof.
  intros H. induction n as [|n IH]; intros um gpa; cbn; [done|].
  rewrite (marked_guest_hva _ _ _ _ _ H). destruct (guest_hva k false gpa) as [a|]; [|done].
  cbn. destruct (um !! a); [|done]. cbn. by rewrite IH.
Qed.

Lemma kvm_read_guest_spec k um gpa len : 0 <= gpa -> 0 <= len ->
  match flat_read k um gpa (Z.to_nat len) with
  | Some bs => kvm_read_guest k um gpa len = Ok (bs, 0)
  | None => exists got, kvm_read_guest k um gpa len = Ok (got, - EFAULT) /\
      flat_read k um gpa (length got) = Some got /\ Z.of_nat (length got) < len
  end.
Proof.
  intros Hg Hl. destruct (gpa_split gpa Hg) as [E Ho].
  pose proof (read_loop_flat (page_fuel len) k um (Z.shiftr gpa PAGE_SHIFT) (offset_in_page gpa) len []
    Hl Ho (page_fuel_enough _ _ Hl Ho)) as H. rewrite E in H. exact H.
Qed.

Lemma kvm_write_guest_spec k um gpa data : 0 <= gpa ->
  match flat_write k um gpa data with
  | Some um' => exists k', kvm_write_guest k um gpa data = Ok (k', um', 0) /\
      marked k k' (touched gpa (Z.of_nat (length data)))
  | None => exists k' um', kvm_write_guest k um gpa data = Ok (k', um', - EFAULT)
  end.
Proof.
  intros Hg. destruct (gpa_split gpa Hg) as [E Ho].
  pose proof (write_loop_flat (page_fuel (Z.of_nat (length data))) k um (Z.shiftr gpa PAGE_SHIFT)
    (offset_in_page gpa) data Ho (page_fuel_enough (Z.of_nat (length data)) _ ltac:(lia) Ho)) as H. rewrite E in H. exact H.
Qed.

(** ** Claims *)

(** A read of guest memory that goes page by page returns, and gives
    the bytes a byte-by-byte read of the slots gives: all of them with
    result zero when every byte is mapped, else a prefix with -EFAULT. *)
Theorem kvm_read_guest_flat k um gpa len :
  0 <= gpa -> 0 <= len ->
  match flat_read k um gpa (Z.to_nat len) with
  | Some bs => kvm_read_guest k um gpa len = Ok (bs, 0)
  | None => exists got, kvm_read_guest k um gpa len = Ok (got, - EFAULT) /\
      flat_read k um gpa (length got) = Some got /\ Z.of_nat (length got) < len
  end.
Proof. apply kvm_read_guest_spec. Qed.

(** C20: a write to guest memory is logged.  When every byte is writable
    the write returns zero with the memory of the byte-by-byte write; in
    the slots that log, exactly the pages that hold a byte of the range
    become dirty beside those that were, and the slot table stays well
    formed.  A write that meets an unwritable byte returns -EFAULT. *)
Theorem kvm_write_guest_logged k um gpa data :
  0 <= gpa -> slots_ok k ->
  match flat_write k um gpa data with
  | Some um' => exists k', kvm_write_guest k um gpa data = Ok (k', um', 0) /\ slots_ok k' /\
      forall g, dirty k' g = dirty k g || (logged k g && touched gpa (Z.of_nat (length data)) g)
  | None => exists k' um', kvm_write_guest k um gpa data = Ok (k', um', - EFAULT)
  end.
Proof.
  intros Hg Hok. pose proof (kvm_write_guest_spec k um gpa data Hg) as H.
  destruct (flat_write k um gpa data) as [um'|]; [|done].
  destruct H as (k' & E & [_ _ Hd Hk]). eauto.
Qed.

(** What is written to guest memory is read back, when userspace has
    not given the same host memory to two of the bytes. *)
Theorem kvm_write_read_roundtrip k um gpa data k' um' :
  0 <= gpa -> hva_distinct k gpa (length data) ->
  kvm_write_guest k um gpa data = Ok (k', um', 0) ->
  kvm_read_guest k' um' gpa (Z.of_nat (length data)) = Ok (data, 0).
Proof.
  intros Hg Hd E. pose proof (kvm_write_guest_spec k um gpa data Hg) as H.
  destruct (flat_write k um gpa data) as [um1|] eqn:Ew.
  2: { destruct H as (? & ? & H). rewrite H in E. discriminate. }
  destruct H as (k1 & E1 & Hm). rewrite E in E1. simplify_eq.
  pose proof (kvm_read_guest_spec k1 um1 gpa (Z.of_nat (length data)) Hg ltac:(lia)) as Hr.
  rewrite Nat2Z.id, (marked_flat_read _ _ _ _ Hm), (flat_read_written _ _ _ _ _ Hd Ew) in Hr. exact Hr.
Qed.

(** ** Examples *)

(** 32 mapped bytes around the end of the first guest page. *)
Definition demo_um : umem :=
  list_to_map ((fun i => (0x7f0000000ff0 + i, Byte.x2a)) <$> seqZ 0 32).
Definition demo_data : list byte :=
  String.list_byte_of_string "across the page".
Definition demo_written : umem :=
  default ∅ (flat_write demo_slots demo_um 0xff8 demo_data).

Lemma kvm_read_guest_flat_witness :
  exists bs, flat_read demo_slots demo_um 0xff8 16 = Some bs /\
    kvm_read_guest demo_slots demo_um 0xff8 16 = Ok (bs, 0).
Proof.
  exists (replicate 16 Byte.x2a).
  assert (E : flat_read demo_slots demo_um 0xff8 16 = Some (replicate 16 Byte.x2a))
    by (vm_compute; reflexivity).
  split; [exact E|].
  pose proof (kvm_read_guest_flat demo_slots demo_um 0xff8 16 ltac:(lia) ltac:(lia)) as H.
  change (Z.to_nat 16) with 16%nat in H. rewrite E in H. exact H.
Defined.

Lemma demo_write_ok : flat_write demo_slots demo_um 0xff8 demo_data = Some demo_written.
Proof. vm_compute. reflexivity. Qed.

Lemma kvm_write_guest_logged_witness :
  exists k', kvm_write_guest demo_slots demo_um 0xff8 demo_data = Ok (k', demo_written, 0) /\
    slots_ok k' /\
    forall g, dirty k' g = dirty demo_slots g || (logged demo_slots g && touched 0xff8 15 g).
Proof.
  pose proof (kvm_write_guest_logged demo_slots demo_um 0xff8 demo_data ltac:(lia) demo_slots_ok) as H.
  rewrite demo_write_ok in H. exact H.
Defined.

Definition demo_marked : kvm_memslots :=
  match kvm_write_guest demo_slots demo_um 0xff8 demo_data with
  | Ok (k, _, _) => k
  | Err _ => demo_slots
  end.

Lemma demo_distinct : hva_distinct demo_slots 0xff8 (length demo_data).
Proof.
  intros i j a Hi Hj H1 H2. change (Z.of_nat (length demo_data)) with 15 in Hj.
  assert (Hx : forall x, 0 <= x < 15 -> guest_hva demo_slots true (0xff8 + x) = Some (0x7f0000000ff8 + x)).
  { intros x Hx. assert (Hc : Forall (fun x => guest_hva demo_slots true (0xff8 + x)
      = Some (0x7f0000000ff8 + x)) (seqZ 0 15)) by (repeat constructor; vm_compute; reflexivity).
    rewrite Forall_forall in Hc. apply Hc, elem_of_seqZ. lia. }
  rewrite Hx in H1, H2 by lia. simplify_eq. lia.
Qed.

Lemma kvm_write_read_roundtrip_witness :
  kvm_read_guest demo_marked demo_written 0xff8 15 = Ok (demo_data, 0).
Proof.
  apply (kvm_write_read_roundtrip demo_slots demo_um 0xff8 demo_data demo_marked demo_written);
    [lia|exact demo_distinct|vm_compute; reflexivity].
Defined.

Example demo_dirty_pages :
  map (dirty demo_marked) [0; 1; 2] = [true; true; false].
Proof. vm_compute. reflexivity. Qed.
