(* ===== verification/KvmCrypto.v ===== *)
(** * The encryption service for guests (kvm-kmod x86/kvm_crypto.c, kvm_crypto.h)

    A guest driver submits a job by hypercall; the job is queued, a pool of
    kernel threads takes jobs from the queue, encrypts or decrypts them, and
    the hypercall copies the result to the guest.  The queue is a linked
    list of jobs under a mutex: every critical section is one operation on
    the pool here, and an access to a job that was freed is an error. *)

From coqutil Require Import Byte Word.LittleEndianList.
From S2P Require Import Prelude MemSlots GuestCopy.

(** ** kvm_crypto.h *)

Definition KVM_ENCRYPTION : Z := 0.
Definition KVM_DECRYPTION : Z := 1.
Definition MAX_JOB_ID : Z := 65536.
Definition AES_BLOCK_SIZE : nat := 16.

Record vm_job := VmJob { input_gpa : Z; output_gpa : Z; vlen : Z; voperation : Z }.

(** Pointers are numbers, NULL is 0. *)
Record crypto_job := Job {
  job_id : Z; input : list byte; output : list byte; len : Z; operation : Z; status : Z; next : Z
}.

Record crypto_queue := Queue { head : Z; tail : Z; num : Z; stop : Z }.

Record pool := Pool {
  jobs : gmap Z crypto_job;    (** the jobs allocated and not freed *)
  cq : crypto_queue;
  global_job_id : Z;
  brk : Z                      (** next address [kmalloc] returns *)
}.

(** ** AES over a buffer *)

Section cipher.
  (** [crypto_cipher_encrypt_one] and [crypto_cipher_decrypt_one] on the
      transform [crypto_alloc_cipher] returned; no key is ever set. *)
  Context (encrypt_one decrypt_one : list byte -> list byte).

(** [for(i=0; i<len; i+=AES_BLOCK_SIZE)] from the buffer [src] to the
    buffer [dst]. *)
Fixpoint aes_loop (one : list byte -> list byte) (fuel i : nat) (len : Z) (src dst : list byte)
    : res (list byte) :=
  match fuel with
  | O => Err OutOfFuel
  | S fuel =>
      if Z.of_nat i <? len then
        if decide (i + AES_BLOCK_SIZE <= length src /\ i + AES_BLOCK_SIZE <= length dst)%nat then
          aes_loop one fuel (i + AES_BLOCK_SIZE) len src
            (take i dst ++ one (take AES_BLOCK_SIZE (drop i src)) ++ drop (i + AES_BLOCK_SIZE) dst)
        else Err BufferOverflow
      else Ok dst
  end.

Definition aes_encrypt (pdata cdata : list byte) (len : Z) : res (list byte) :=
  aes_loop encrypt_one (S (Z.to_nat len)) 0 len pdata cdata.
Definition aes_decrypt (cdata pdata : list byte) (len : Z) : res (list byte) :=
  aes_loop decrypt_one (S (Z.to_nat len)) 0 len cdata pdata.

(** ** The queue *)

Definition deref (p : Z) : st pool crypto_job := fun s =>
  match jobs s !! p with Some j => Ok (j, s) | None => Err BadPointer end.
Definition put_job (p : Z) (j : crypto_job) : st pool unit := fun s =>
  Ok (tt, Pool (<[p := j]> (jobs s)) (cq s) (global_job_id s) (brk s)).
Definition get_cq : st pool crypto_queue := fun s => Ok (cq s, s).
Definition put_cq (q : crypto_queue) : st pool unit := fun s =>
  Ok (tt, Pool (jobs s) q (global_job_id s) (brk s)).
Definition kfree (p : Z) : st pool unit := fun s =>
  if decide (is_Some (jobs s !! p)) then Ok (tt, Pool (delete p (jobs s)) (cq s) (global_job_id s) (brk s))
  else if p =? 0 then Ok (tt, s) else Err BadPointer.

Definition set_next (j : crypto_job) (n : Z) : crypto_job :=
  Job (job_id j) (input j) (output j) (len j) (operation j) (status j) n.
Definition finish (j : crypto_job) (out : list byte) : crypto_job :=
  Job (job_id j) (input j) out (len j) (operation j) 1 (next j).

(** Allocation of a job and its fields; the identifier is
    [global_job_id > MAX_JOB_ID ? 0 : global_job_id++]. *)
Definition alloc_job (ibuf obuf : list byte) (len operation : Z) : st pool Z := fun s =>
  let gid := global_job_id s in
  let job_id := if MAX_JOB_ID <? gid then 0 else gid in
  let gid' := if MAX_JOB_ID <? gid then gid else gid + 1 in
  let p := brk s in
  Ok (p, Pool (<[p := Job job_id ibuf obuf len operation 0 0]> (jobs s)) (cq s) gid' (p + 1)).

(** The critical section of [crypto_produce_job]. *)
Definition enqueue (j : Z) : st pool unit :=
  q ← get_cq;
  if num q =? 0 then put_cq (Queue j j (num q + 1) (stop q))
  else
    t ← deref (tail q);
    put_job (tail q) (set_next t j) ;;
    put_cq (Queue (head q) j (num q + 1) (stop q)).

(** The critical section of [crypto_consume_job]: the job taken, or NULL. *)
Definition dequeue : st pool Z :=
  q ← get_cq;
  if 0 <? num q then
    let nj := head q in
    j ← deref nj;
    put_job nj (set_next j 0) ;;
    let n := num q - 1 in
    put_cq (Queue (next j) (if n =? 0 then 0 else tail q) n (stop q)) ;;
    mret nj
  else mret 0.

(** The work of a kernel thread on the job it took. *)
Definition job_result (j : crypto_job) : res (list byte) :=
  if operation j =? KVM_ENCRYPTION then aes_encrypt (input j) (output j) (len j)
  else if operation j =? KVM_DECRYPTION then aes_decrypt (input j) (output j) (len j)
  else Ok (output j).

Definition process (nj : Z) : st pool unit :=
  j ← deref nj;
  out ← lift_res (job_result j);
  put_job nj (finish j out).

Definition crypto_pool_initialization : pool := Pool ∅ (Queue 0 0 0 0) 0 1.

(** [while(head)] of [crypto_pool_reclaim]. *)
Fixpoint reclaim_loop (fuel : nat) (head : Z) : st pool unit :=
  match fuel with
  | O => lift_res (Err OutOfFuel)
  | S fuel =>
      if head =? 0 then mret tt
      else
        j ← deref head;
        kfree head ;;
        reclaim_loop fuel (next j)
  end.

Definition crypto_pool_reclaim (fuel : nat) : st pool unit :=
  q ← get_cq;
  reclaim_loop fuel (head q) ;;
  put_cq (Queue 0 0 0 1).

(** ** The hypercall *)

(** [struct vm_job] from its 24 bytes. *)
Definition vm_job_of (bs : list byte) : vm_job :=
  VmJob (le_combine (take 8 bs)) (le_combine (take 8 (drop 8 bs)))
    (s32 (le_combine (take 4 (drop 16 bs)))) (s32 (le_combine (take 4 (drop 20 bs)))).

Definition sizeof_vm_job : nat := 24.

(** Up to the allocation of the job: the request and the input, or [None]
    when the guest's memory cannot be read and the hypercall returns 1.
    [kmalloc_ok] tells which sizes the kernel can allocate; the allocations
    of the two buffers are not tested. *)
Definition fetch_job (kmalloc_ok : Z -> bool) (k : kvm_memslots) (um : umem) (vjob_gpa vjob_len : Z)
    : res (option (vm_job * list byte)) :=
  if negb (kmalloc_ok (Z.of_nat sizeof_vm_job)) then Ok None else
  r ← kvm_read_guest k um vjob_gpa (u64 vjob_len);
  if decide (sizeof_vm_job < length r.1)%nat then Err BufferOverflow
  else if negb (r.2 =? 0) then Ok None
  else if decide (length r.1 < sizeof_vm_job)%nat then Err Uninitialized
  else
    let vjob := vm_job_of r.1 in
    if (vlen vjob <? 0) || negb (kmalloc_ok (vlen vjob)) then Err BadPointer
    else
      i ← kvm_read_guest k um (input_gpa vjob) (vlen vjob);
      if negb (i.2 =? 0) then Ok None else Ok (Some (vjob, i.1)).

(** The end of the hypercall: the output is copied to the guest and the
    job freed. *)
Definition return_job (k : kvm_memslots) (um : umem) (output_gpa : Z) (j : Z)
    : st pool (kvm_memslots * umem * Z) :=
  job ← deref j;
  r ← lift_res (kvm_write_guest k um output_gpa (output job));
  kfree j ;;
  mret (r.1, if r.2 =? 0 then 0 else 1).

(** [crypto_produce_job] with one kernel thread serving the job while it
    waits. *)
Definition crypto_produce_job (kmalloc_ok : Z -> bool) (k : kvm_memslots) (um : umem)
    (vjob_gpa vjob_len : Z) : st pool (kvm_memslots * umem * Z) :=
  f ← lift_res (fetch_job kmalloc_ok k um vjob_gpa vjob_len);
  match f with
  | None => mret (k, um, 1)
  | Some (vjob, ibuf) =>
      j ← alloc_job ibuf (replicate (Z.to_nat (vlen vjob)) Byte.x00) (vlen vjob) (voperation vjob);
      enqueue j ;;
      nj ← dequeue;
      process nj ;;
      return_job k um (output_gpa vjob) j
  end.

End cipher.

Lemma kfree_ok p (s : pool) j : jobs s !! p = Some j ->
  kfree p s = Ok (tt, Pool (delete p (jobs s)) (cq s) (global_job_id s) (brk s)).
Proof. intros E. unfold kfree. by rewrite decide_True by (by eexists). Qed.

(** ** AES: blocks *)

(** [n] blocks, each through [one]. *)
Fixpoint blocks (one : list byte -> list byte) (n : nat) (src : list byte) : list byte :=
  match n with
  | O => []
  | S n => one (take AES_BLOCK_SIZE src) ++ blocks one n (drop AES_BLOCK_SIZE src)
  end.

Definition keeps_block (one : list byte -> list byte) : Prop :=
  forall b, length b = AES_BLOCK_SIZE -> length (one b) = AES_BLOCK_SIZE.

Lemma blocks_length one n : keeps_block one -> forall src,
  length src = (AES_BLOCK_SIZE * n)%nat -> length (blocks one n src) = (AES_BLOCK_SIZE * n)%nat.
Proof.
  intros Hone. induction n as [|n IH]; intros src Hs; cbn [blocks]; [done|].
  rewrite length_app, Hone, IH; unfold AES_BLOCK_SIZE in *; rewrite ?length_take, ?length_drop; lia.
Qed.

Lemma blocks_inverse enc dec n : keeps_block enc ->
  (forall b, length b = AES_BLOCK_SIZE -> dec (enc b) = b) -> forall src,
  length src = (AES_BLOCK_SIZE * n)%nat -> blocks dec n (blocks enc n src) = src.
Proof.
  intros Hone Hinv. induction n as [|n IH]; intros src Hs; cbn [blocks].
  { destruct src; [done|]. unfold AES_BLOCK_SIZE in Hs. cbn in Hs. lia. }
  assert (Ht : length (take AES_BLOCK_SIZE src) = AES_BLOCK_SIZE)
    by (rewrite length_take; unfold AES_BLOCK_SIZE in *; lia).
  pose proof (Hone _ Ht) as Hl.
  rewrite take_app_length' by done. rewrite drop_app_length' by done.
  rewrite Hinv, IH by (rewrite ?length_drop; unfold AES_BLOCK_SIZE in *; done || lia).
  apply take_drop.
Qed.

Lemma aes_loop_blocks one : keeps_block one -> forall n fuel i src dst,
  (n < fuel)%nat -> length src = (i + AES_BLOCK_SIZE * n)%nat -> length dst = length src ->
  aes_loop one fuel i (Z.of_nat (length src)) src dst
  = Ok (take i dst ++ blocks one n (drop i src)).
Proof.
  intros Hone. induction n as [|n IH]; intros fuel i src dst Hf Hs Hd;
    (destruct fuel as [|fuel]; [lia|]); cbn [aes_loop blocks].
  - rewrite (proj2 (Z.ltb_ge _ _)) by lia. by rewrite app_nil_r, take_ge by lia.
  - unfold AES_BLOCK_SIZE in *. rewrite (proj2 (Z.ltb_lt _ _)) by lia. rewrite decide_True by lia.
    assert (Hb : length (one (take 16 (drop i src))) = 16%nat)
      by (apply Hone; rewrite length_take, length_drop; unfold AES_BLOCK_SIZE; lia).
    rewrite IH; [|lia|lia|rewrite !length_app, length_take, length_drop, Hb; lia].
    f_equal. rewrite app_assoc, take_app_length' by (rewrite length_app, length_take, Hb; lia).
    by rewrite <- app_assoc, drop_drop.
Qed.

Lemma aes_loop_partial one r : keeps_block one -> (0 < r < AES_BLOCK_SIZE)%nat -> forall n fuel i src dst,
  (n < fuel)%nat -> length src = (i + AES_BLOCK_SIZE * n + r)%nat -> length dst = length src ->
  aes_loop one fuel i (Z.of_nat (length src)) src dst = Err BufferOverflow.
Proof.
  intros Hone Hr. unfold AES_BLOCK_SIZE in Hr. induction n as [|n IH]; intros fuel i src dst Hf Hs Hd;
    (destruct fuel as [|fuel]; [lia|]); cbn [aes_loop]; unfold AES_BLOCK_SIZE in *;
    rewrite (proj2 (Z.ltb_lt _ _)) by lia.
  - rewrite decide_False by lia. done.
  - rewrite decide_True by lia.
    assert (Hb : length (one (take 16 (drop i src))) = 16%nat)
      by (apply Hone; rewrite length_take, length_drop; unfold AES_BLOCK_SIZE; lia).
    apply IH; [lia|lia|]. rewrite !length_app, length_take, length_drop, Hb. lia.
Qed.

Lemma aes_run one n src dst len : keeps_block one -> length src = (AES_BLOCK_SIZE * n)%nat ->
  length dst = length src -> len = Z.of_nat (length src) ->
  aes_loop one (S (Z.to_nat len)) 0 len src dst = Ok (blocks one n src).
Proof.
  intros Hone Hs Hd ->. rewrite (aes_loop_blocks one Hone n); [done| |done|done].
  unfold AES_BLOCK_SIZE in *. lia.
Qed.

(** ** The queue: representation *)

Fixpoint qchain (m : gmap Z crypto_job) (p : Z) (ps : list Z) : Prop :=
  match ps with
  | [] => p = 0
  | a :: ps => p = a /\ a <> 0 /\ exists j, m !! a = Some j /\ qchain m (next j) ps
  end.

(** The queue holds the jobs [ps], oldest first. *)
Record qrepr (s : pool) (ps : list Z) : Prop := {
  q_chain : qchain (jobs s) (head (cq s)) ps;
  q_tail : tail (cq s) = default 0 (last ps);
  q_num : num (cq s) = Z.of_nat (length ps);
  q_nodup : NoDup ps
}.

Lemma qchain_lookup m ps : forall p a, qchain m p ps -> a ∈ ps -> exists j, m !! a = Some j.
Proof.
  induction ps as [|b ps IH]; intros p a H Ha; [set_solver|].
  destruct H as (-> & _ & j & Hj & H). apply elem_of_cons in Ha as [->|Ha]; eauto.
Qed.

Lemma qchain_insert m ps : forall p a j, qchain m p ps -> a ∉ ps -> qchain (<[a := j]> m) p ps.
Proof.
  induction ps as [|b ps IH]; intros p a j H Ha; [done|].
  destruct H as (-> & Hb & i & Hi & H). apply not_elem_of_cons in Ha as [Hne Ha].
  split; [done|]. split; [done|]. exists i. rewrite lookup_insert_ne by done. auto.
Qed.

Lemma qchain_delete m ps : forall p a, qchain m p ps -> a ∉ ps -> qchain (delete a m) p ps.
Proof.
  induction ps as [|b ps IH]; intros p a H Ha; [done|].
  destruct H as (-> & Hb & i & Hi & H). apply not_elem_of_cons in Ha as [Hne Ha].
  split; [done|]. split; [done|]. exists i. rewrite lookup_delete_ne by done. auto.
Qed.

(** Linking a new job behind the last one. *)
Lemma qchain_snoc m ps t j p : forall h, qchain m h (ps ++ [t]) -> m !! t = Some j ->
  NoDup (ps ++ [t]) -> p ∉ ps ++ [t] -> p <> 0 -> (exists i, m !! p = Some i /\ next i = 0) ->
  qchain (<[t := set_next j p]> m) h ((ps ++ [t]) ++ [p]).
Proof.
  induction ps as [|b ps IH]; intros h H Ht Hnd Hp Hp0 (i & Hi & Hn).
  - destruct H as (-> & Ht0 & j' & Hj' & _). rewrite Ht in Hj'. injection Hj' as <-. cbn in Hp.
    split; [done|]. split; [done|]. exists (set_next j p). rewrite lookup_insert_eq. split; [done|].
    split; [done|]. split; [done|]. exists i. rewrite lookup_insert_ne by set_solver. done.
  - destruct H as (-> & Hb & j' & Hj' & H). cbn in Hnd. apply NoDup_cons in Hnd as [Hnb Hnd].
    cbn in Hp. apply not_elem_of_cons in Hp as [Hpb Hp].
    split; [done|]. split; [done|]. exists j'. rewrite lookup_insert_ne by set_solver. split; [done|].
    apply IH; eauto.
Qed.

(** A job without its link. *)
Definition core (m : gmap Z crypto_job) (a : Z) : option crypto_job :=
  (fun j => set_next j 0) <$> m !! a.

Lemma core_set_next m a j n b : m !! a = Some j -> core (<[a := set_next j n]> m) b = core m b.
Proof.
  intros H. unfold core. destruct (decide (b = a)) as [->|Hne].
  - by rewrite lookup_insert_eq, H.
  - by rewrite lookup_insert_ne.
Qed.

Lemma enqueue_spec s ps p : qrepr s ps -> p ∉ ps -> p <> 0 ->
  (exists i, jobs s !! p = Some i /\ next i = 0) ->
  exists s', enqueue p s = Ok (tt, s') /\ qrepr s' (ps ++ [p]) /\ brk s' = brk s /\
    forall a, core (jobs s') a = core (jobs s) a.
Proof.
  intros [Hc Ht Hn Hd] Hp Hp0 Hi. unfold enqueue. rewrite (st_bind_Ok _ _ _ (cq s) s eq_refl).
  assert (Hnd : NoDup (ps ++ [p])).
  { apply NoDup_app. split; [done|]. split; [set_solver|apply NoDup_singleton]. }
  rewrite Hn. destruct (Z.eqb_spec (Z.of_nat (length ps)) 0) as [E|E].
  - destruct ps; [|cbn in E; lia]. eexists. split; [reflexivity|]. split; [|done].
    destruct Hi as (i & Hi & Hi0). split; cbn; try done. split; [done|]. split; [done|]. eauto.
  - destruct (exists_last (l := ps)) as (ps' & t & ->); [by intros ->|].
    rewrite last_snoc in Ht. cbn in Ht. rewrite Ht.
    destruct (qchain_lookup _ _ _ t Hc ltac:(set_solver)) as [j Hj].
    erewrite (st_bind_Ok _ _ _ j s) by (unfold deref; by rewrite Hj).
    eexists. split; [reflexivity|]. split; [|split; [done|intros a; cbn; by apply core_set_next]].
    split; cbn; [by apply qchain_snoc|by rewrite last_snoc| |done].
    rewrite !length_app in *. cbn in *. lia.
Qed.

Lemma dequeue_spec s p ps : qrepr s (p :: ps) ->
  exists s', dequeue s = Ok (p, s') /\ qrepr s' ps /\ brk s' = brk s /\
    forall a, core (jobs s') a = core (jobs s) a.
Proof.
  intros [(Hh & Hp0 & j & Hj & Hc) Ht Hn Hd]. apply NoDup_cons in Hd as [Hp Hd]. cbn in Hn.
  unfold dequeue. rewrite (st_bind_Ok _ _ _ (cq s) s eq_refl).
  rewrite (proj2 (Z.ltb_lt _ _)) by lia. rewrite Hh.
  erewrite (st_bind_Ok _ _ _ j s) by (unfold deref; by rewrite Hj).
  eexists. split; [reflexivity|]. split; [|split; [done|intros a; cbn; by apply core_set_next]].
  split; cbn; [by apply qchain_insert| |lia|done].
  rewrite Hn. destruct ps as [|q ps]; [done|].
  rewrite (proj2 (Z.eqb_neq _ _)) by (cbn; lia). exact Ht.
Qed.

Lemma dequeue_empty s : qrepr s [] -> dequeue s = Ok (0, s).
Proof. intros [_ _ Hn _]. unfold dequeue, mbind, st_bind, get_cq. cbn in Hn. by rewrite Hn. Qed.

(** ** The pool beside the hypercalls *)

(** [waiting] are the jobs whose hypercall waits for them, [held] those a
    kernel thread took and has not finished; the rest records the order of
    events and the jobs as the hypercalls found them at the end. *)
Record world := World {
  pl : pool; waiting : list Z; held : list Z;
  submitted : list Z; taken : list Z; delivered : list crypto_job
}.

Definition world_init : world := World crypto_pool_initialization [] [] [] [] [].

(** [Interrupt] is the wait of a hypercall that ends on a signal. *)
Inductive event :=
| Submit (ibuf : list byte) (op : Z)
| Take
| Process (p : Z)
| Complete (p : Z)
| Interrupt (p : Z)
| Reclaim.

Definition without (p : Z) (l : list Z) : list Z := filter (fun x => x <> p) l.

(** The wait of a hypercall is over: it takes the output and frees the
    job. *)
Definition leave (w : world) (p : Z) (j : crypto_job) : res world :=
  r ← kfree p (pl w);
  Ok (World r.2 (without p (waiting w)) (held w) (submitted w) (taken w) (delivered w ++ [j])).

Section world.
  Context (encrypt_one decrypt_one : list byte -> list byte).

Definition exec (e : event) (w : world) : res world :=
  match e with
  | Submit ibuf op =>
      r ← (p ← alloc_job ibuf (replicate (length ibuf) Byte.x00) (Z.of_nat (length ibuf)) op;
           enqueue p ;; mret p) (pl w);
      Ok (World r.2 (waiting w ++ [r.1]) (held w) (submitted w ++ [r.1]) (taken w) (delivered w))
  | Take =>
      r ← dequeue (pl w);
      if r.1 =? 0 then Ok (World r.2 (waiting w) (held w) (submitted w) (taken w) (delivered w))
      else Ok (World r.2 (waiting w) (held w ++ [r.1]) (submitted w) (taken w ++ [r.1]) (delivered w))
  | Process p =>
      if decide (p ∈ held w) then
        r ← process encrypt_one decrypt_one p (pl w);
        Ok (World r.2 (waiting w) (without p (held w)) (submitted w) (taken w) (delivered w))
      else Ok w
  | Complete p =>
      if decide (p ∈ waiting w) then
        r ← deref p (pl w);
        if status r.1 =? 1 then leave w p r.1 else Ok w
      else Ok w
  | Interrupt p =>
      if decide (p ∈ waiting w) then r ← deref p (pl w); leave w p r.1 else Ok w
  | Reclaim =>
      r ← crypto_pool_reclaim (S (length (submitted w))) (pl w);
      Ok (World r.2 (waiting w) (held w) (submitted w) (taken w) (delivered w))
  end.

Fixpoint run (es : list event) (w : world) : res world :=
  match es with
  | [] => Ok w
  | e :: es => w' ← exec e w; run es w'
  end.

(** What a job's output has to be. *)
Definition reference (j : crypto_job) : list byte :=
  let n := (length (input j) / AES_BLOCK_SIZE)%nat in
  if operation j =? KVM_ENCRYPTION then blocks encrypt_one n (input j)
  else if operation j =? KVM_DECRYPTION then blocks decrypt_one n (input j)
  else replicate (length (input j)) Byte.x00.

Definition whole_blocks (l : list byte) : Prop := exists n, length l = (AES_BLOCK_SIZE * n)%nat.

Definition job_pending (j : crypto_job) : Prop :=
  status j = 0 /\ len j = Z.of_nat (length (input j)) /\ whole_blocks (input j) /\
  output j = replicate (length (input j)) Byte.x00.

Definition job_done (j : crypto_job) : Prop := status j = 1 /\ output j = reference j.

Lemma job_result_pending j : keeps_block encrypt_one -> keeps_block decrypt_one ->
  job_pending j -> job_result encrypt_one decrypt_one j = Ok (reference j).
Proof.
  intros He Hd (_ & Hl & [n Hn] & Ho). unfold job_result, reference, aes_encrypt, aes_decrypt.
  rewrite Hn, Nat.mul_comm, Nat.div_mul by (unfold AES_BLOCK_SIZE; lia).
  assert (Hlen : length (output j) = length (input j)) by (by rewrite Ho, length_replicate).
  destruct (operation j =? KVM_ENCRYPTION); [by apply aes_run|].
  destruct (operation j =? KVM_DECRYPTION); [by apply aes_run|]. by rewrite Ho, Hn, Nat.mul_comm.
Qed.

(** The jobs still queued are [qs], those finished and not yet returned
    [ds]. *)
Record inv (w : world) (qs ds : list Z) : Prop := {
  i_q : qrepr (pl w) qs;
  i_wait : waiting w ≡ₚ qs ++ held w ++ ds;
  i_nodup : NoDup (qs ++ held w ++ ds);
  i_brk p : p ∈ waiting w -> 0 < p < brk (pl w);
  i_brk0 : 0 < brk (pl w);
  i_pend p : p ∈ qs ++ held w -> exists j, core (jobs (pl w)) p = Some j /\ job_pending j;
  i_done p : p ∈ ds -> exists j, core (jobs (pl w)) p = Some j /\ job_done j;
  i_fifo : submitted w = taken w ++ qs;
  i_deliv : Forall job_done (delivered w)
}.

Lemma core_Some m p j : core m p = Some j -> exists j', m !! p = Some j' /\ j = set_next j' 0.
Proof. unfold core. destruct (m !! p) as [j'|]; [|done]. cbn. intros [= <-]. eauto. Qed.

Lemma core_insert_ne m p q j : q <> p -> core (<[p := j]> m) q = core m q.
Proof. intros H. unfold core. by rewrite lookup_insert_ne. Qed.

Lemma inv_init : inv world_init [] [].
Proof.
  assert (Hno : forall P : Z -> Prop, forall p, p ∈ [] -> P p) by (intros P p Hp; by apply elem_of_nil in Hp).
  split; cbn; [split; cbn; done || constructor|done|constructor|apply Hno|done|apply Hno|apply Hno|done|constructor].
Qed.

Lemma inv_mem w qs ds p : inv w qs ds -> p ∈ qs ++ held w ++ ds <-> p ∈ waiting w.
Proof. intros H. by rewrite (i_wait _ _ _ H). Qed.

Lemma submit_ok w qs ds ibuf op : inv w qs ds -> whole_blocks ibuf ->
  exists w', exec (Submit ibuf op) w = Ok w' /\ inv w' (qs ++ [brk (pl w)]) ds.
Proof.
  intros H Hb. set (p := brk (pl w)). pose proof H as [Hq Hw Hn Hbr Hb0 Hp Hd Hf Hdl].
  assert (Hfresh : p ∉ qs ++ held w ++ ds).
  { rewrite (inv_mem _ _ _ _ H). intros Hin. apply Hbr in Hin. subst p. lia. }
  cbn [exec]. unfold alloc_job at 1.
  set (j := Job (if MAX_JOB_ID <? global_job_id (pl w) then 0 else global_job_id (pl w)) ibuf
    (replicate (length ibuf) Byte.x00) (Z.of_nat (length ibuf)) op 0 0).
  set (s1 := Pool (<[p := j]> (jobs (pl w))) (cq (pl w))
    (if MAX_JOB_ID <? global_job_id (pl w) then global_job_id (pl w) else global_job_id (pl w) + 1) (p + 1)).
  assert (Hq1 : qrepr s1 qs).
  { destruct Hq as [A B C D]. split; cbn; [apply qchain_insert; [done|set_solver]|done..]. }
  destruct (enqueue_spec s1 qs p Hq1) as (s2 & E & Hq2 & Hbrk & Hcore); [set_solver|subst p; lia| |].
  { exists j. cbn. by rewrite lookup_insert_eq. }
  rewrite (st_bind_Ok _ _ _ p s1 eq_refl), (st_bind_Ok _ _ _ tt s2 E). cbn [mret st_ret].
  eexists. split; [reflexivity|]. split; cbn; try done.
  - rewrite Hw, <- (app_assoc qs [p]), <- (app_assoc qs (held w ++ ds) [p]).
    apply Permutation_app_head, Permutation_app_comm.
  - rewrite <- app_assoc. apply NoDup_app in Hn as (N1 & N2 & N3). apply NoDup_app. split; [done|].
    split; [set_solver|]. cbn. apply NoDup_cons. split; [set_solver|done].
  - intros q. rewrite elem_of_app, list_elem_of_singleton, Hbrk. cbn. intros [Hq'|Hq'].
    + apply Hbr in Hq'. subst p. lia.
    + subst q. lia.
  - rewrite Hbrk. cbn. subst p. lia.
  - intros q Hq'. rewrite Hcore. cbn. destruct (decide (q = p)) as [->|Hne].
    + exists j. unfold core. rewrite lookup_insert_eq. done.
    + rewrite core_insert_ne by done. apply Hp. set_solver.
  - intros q Hq'. rewrite Hcore. cbn. rewrite core_insert_ne by set_solver. by apply Hd.
  - by rewrite Hf, app_assoc.
Qed.

Lemma take_perm (p : Z) qs hs ds : (p :: qs) ++ hs ++ ds ≡ₚ qs ++ (hs ++ [p]) ++ ds.
Proof. rewrite <- (app_assoc hs). cbn. by rewrite <- !Permutation_middle. Qed.

Lemma take_ok w qs ds : inv w qs ds -> exists w' , exec Take w = Ok w' /\ delivered w' = delivered w /\
  match qs with [] => inv w' [] ds | p :: qs' => inv w' qs' ds /\ held w' = held w ++ [p] end.
Proof.
  intros [Hq Hw Hn Hbr Hb0 Hp Hd Hf Hdl]. cbn [exec]. destruct qs as [|p qs].
  { rewrite (dequeue_empty _ Hq), bind_Ok. cbn. eexists. split; [reflexivity|]. done. }
  destruct (dequeue_spec _ _ _ Hq) as (s' & -> & Hq' & Hbrk & Hcore). rewrite bind_Ok. cbn.
  assert (0 < p) by (apply Hbr; rewrite Hw; set_solver).
  rewrite (proj2 (Z.eqb_neq _ _)) by lia. eexists. split; [reflexivity|]. split; [done|].
  split; [|done]. split; cbn; try done.
  - by rewrite Hw, take_perm.
  - by rewrite <- take_perm.
  - intros q. rewrite Hbrk. apply Hbr.
  - by rewrite Hbrk.
  - intros q Hq1. rewrite Hcore. apply Hp. set_solver.
  - intros q Hq1. rewrite Hcore. by apply Hd.
  - by rewrite Hf, <- app_assoc.
Qed.

Lemma without_absent (p : Z) l : p ∉ l -> without p l = l.
Proof.
  unfold without. induction l as [|a l IH]; intros Hp; [done|].
  apply not_elem_of_cons in Hp as [Hne Hp]. rewrite filter_cons_True by done. by rewrite IH.
Qed.

Lemma without_perm (p : Z) l : NoDup l -> p ∈ l -> l ≡ₚ p :: without p l.
Proof.
  induction l as [|a l IH]; intros Hn Hp; [set_solver|].
  apply NoDup_cons in Hn as [Ha Hn]. unfold without. rewrite filter_cons. fold (without p l). destruct (decide (a <> p)) as [Hne|E].
  - rewrite <- Permutation_swap, <- IH by set_solver. done.
  - assert (a = p) as -> by (by destruct (decide (a = p))). f_equiv.
    by rewrite (without_absent p l Ha).
Qed.

Lemma without_elem (p q : Z) l : q ∈ without p l <-> q <> p /\ q ∈ l.
Proof. unfold without. by rewrite list_elem_of_filter. Qed.

Lemma process_ok w qs ds p : keeps_block encrypt_one -> keeps_block decrypt_one ->
  inv w qs ds -> p ∈ held w ->
  exists w', exec (Process p) w = Ok w' /\ inv w' qs (ds ++ [p]) /\
    length (held w) = S (length (held w')).
Proof.
  intros He Hdc [Hq Hw Hn Hbr Hb0 Hp Hd Hf Hdl] Hin. cbn [exec]. rewrite decide_True by done.
  destruct (Hp p) as (j0 & Hj0 & Hpend); [set_solver|].
  apply core_Some in Hj0 as (j & Hj & ->).
  pose proof (job_result_pending j He Hdc Hpend) as Hr. unfold process.
  erewrite (st_bind_Ok _ _ _ j) by (unfold deref; by rewrite Hj).
  rewrite (st_bind_Ok _ _ _ _ _ (lift_res_Ok _ _ _ Hr)). cbn.
  assert (Hperm : held w ≡ₚ p :: without p (held w)).
  { apply without_perm; [|done]. apply NoDup_app in Hn as (_ & _ & Hn). by apply NoDup_app in Hn as (? & _). }
  assert (Hswap : qs ++ held w ++ ds ≡ₚ qs ++ without p (held w) ++ ds ++ [p]).
  { apply Permutation_app_head. rewrite Hperm at 1. cbn. by rewrite app_assoc, <- Permutation_cons_append. }
  assert (Hnq : p ∉ qs) by (apply NoDup_app in Hn as (_ & Hn & _); set_solver).
  assert (Hnd : p ∉ ds).
  { apply NoDup_app in Hn as (_ & _ & Hn). apply NoDup_app in Hn as (_ & Hn & _). set_solver. }
  eexists. split; [reflexivity|]. split; [|by apply Permutation_length in Hperm]. split; cbn; try done.
  - destruct Hq as [A B C D]. split; cbn; [by apply qchain_insert|done..].
  - by rewrite Hw.
  - by rewrite <- Hswap.
  - intros q. rewrite elem_of_app, without_elem. intros Hq'.
    rewrite core_insert_ne by set_solver. apply Hp. set_solver.
  - intros q. rewrite elem_of_app, list_elem_of_singleton. intros [Hq'| ->].
    + rewrite core_insert_ne by set_solver. by apply Hd.
    + unfold core. rewrite lookup_insert_eq. eexists. split; [reflexivity|]. done.
Qed.

Lemma complete_ok w qs ds p : inv w qs ds ->
  exists w' ds', exec (Complete p) w = Ok w' /\ inv w' qs ds' /\
    (p ∈ ds -> length (delivered w') = S (length (delivered w)) /\ length ds = S (length ds') /\
       held w' = held w).
Proof.
  intros H. pose proof H as [Hq Hw Hn Hbr Hb0 Hp Hd Hf Hdl]. cbn [exec].
  destruct (decide (p ∈ waiting w)) as [Hin|Hin].
  2: { exists w, ds. split; [done|]. split; [done|]. intros Hds. destruct Hin. rewrite Hw. set_solver. }
  rewrite <- (inv_mem _ _ _ _ H), app_assoc in Hin. apply elem_of_app in Hin as [Hin|Hin].
  - destruct (Hp p Hin) as (j0 & Hj0 & Hst & _). apply core_Some in Hj0 as (j & Hj & ->).
    unfold deref. rewrite Hj, bind_Ok. cbn in *. rewrite Hst. cbn. exists w, ds. split; [done|].
    split; [done|]. intros Hds. rewrite app_assoc in Hn. apply NoDup_app in Hn as (_ & Hn & _). set_solver.
  - destruct (Hd p Hin) as (j0 & Hj0 & Hst & Hout). apply core_Some in Hj0 as (j & Hj & ->).
    unfold deref. rewrite Hj, bind_Ok. cbn in Hst. cbn [fst]. rewrite Hst. cbn.
    assert (Hperm : ds ≡ₚ p :: without p ds).
    { apply without_perm; [|done]. rewrite app_assoc in Hn. by apply NoDup_app in Hn as (_ & _ & ?). }
    assert (Hswap : qs ++ held w ++ ds ≡ₚ p :: (qs ++ held w ++ without p ds)).
    { rewrite Hperm at 1. by rewrite <- !Permutation_middle. }
    assert (Hpn : p ∉ qs ++ held w ++ without p ds /\ NoDup (qs ++ held w ++ without p ds)).
    { rewrite Hswap in Hn. by apply NoDup_cons in Hn. }
    destruct Hpn as [Hpn Hn']. unfold leave. cbn. exists (World
      (Pool (delete p (jobs (pl w))) (cq (pl w)) (global_job_id (pl w)) (brk (pl w)))
      (without p (waiting w)) (held w) (submitted w) (taken w) (delivered w ++ [j])), (without p ds).
    split; [by rewrite (kfree_ok _ _ _ Hj)|].
    assert (Hcore : forall q, q <> p -> core (delete p (jobs (pl w))) q = core (jobs (pl w)) q)
      by (intros q Hne; unfold core; by rewrite lookup_delete_ne).
    split; [split; cbn; try done|].
    + destruct Hq as [A B C D]. split; cbn; [apply qchain_delete; [done|set_solver]|done..].
    + apply (Permutation_cons_inv (a := p)). rewrite <- Hswap, <- Hw. symmetry.
      apply without_perm; [by rewrite Hw|rewrite Hw; set_solver].
    + intros q. rewrite without_elem. intros [_ ?]. auto.
    + intros q Hq'. rewrite Hcore by set_solver. by apply Hp.
    + intros q Hq'. rewrite Hcore by (apply without_elem in Hq'; tauto). apply Hd.
      apply without_elem in Hq'. tauto.
    + apply Forall_app. split; [done|]. constructor; [|constructor]. by split.
    + intros _. cbn [delivered held]. split; [rewrite length_app; cbn; lia|]. split; [|done].
      apply Permutation_length in Hperm. done.
Qed.

(** The events of a pool that is neither interrupted nor shut down. *)
Definition regular (e : event) : Prop :=
  match e with
  | Submit ibuf _ => whole_blocks ibuf
  | Interrupt _ | Reclaim => False
  | _ => True
  end.

Lemma exec_ok w qs ds e : keeps_block encrypt_one -> keeps_block decrypt_one ->
  inv w qs ds -> regular e -> exists w' qs' ds', exec e w = Ok w' /\ inv w' qs' ds'.
Proof.
  intros He Hd H Hr. destruct e as [ibuf op| |p|p|p|]; try done.
  - destruct (submit_ok w qs ds ibuf op H Hr) as (w' & E & H'). eauto.
  - destruct (take_ok w qs ds H) as (w' & E & _ & H'). destruct qs; [|destruct H']; eauto.
  - cbn [exec]. destruct (decide (p ∈ held w)) as [Hin|]; [|eauto].
    destruct (process_ok w qs ds p He Hd H Hin) as (w' & E & H' & _).
    cbn [exec] in E. rewrite decide_True in E by done. eauto.
  - destruct (complete_ok w qs ds p H) as (w' & ds' & E & H' & _). eauto.
Qed.

Lemma run_ok es : forall w qs ds, keeps_block encrypt_one -> keeps_block decrypt_one ->
  inv w qs ds -> Forall regular es -> exists w' qs' ds', run es w = Ok w' /\ inv w' qs' ds'.
Proof.
  induction es as [|e es IH]; intros w qs ds He Hd H Hf; [cbn; eauto|].
  apply Forall_cons in Hf as [Hr Hf]. destruct (exec_ok w qs ds e He Hd H Hr) as (w1 & qs1 & ds1 & E & H1).
  cbn. rewrite E, bind_Ok. eauto.
Qed.

(** The kernel threads and the waiting hypercalls alone empty the pool. *)
Lemma drain n : forall w qs ds, keeps_block encrypt_one -> keeps_block decrypt_one ->
  inv w qs ds -> (3 * length qs + 2 * length (held w) + length ds <= n)%nat ->
  exists es w', Forall regular es /\ run es w = Ok w' /\ waiting w' = [].
Proof.
  induction n as [|n IH]; intros w qs ds He Hd H Hn.
  { exists [], w. split; [constructor|]. split; [done|].
    destruct qs, ds; try (cbn in Hn; lia). destruct (held w) eqn:Eh; [|cbn in Hn; lia].
    pose proof (i_wait _ _ _ H) as Hw. rewrite Eh in Hw. by apply Permutation_nil_r in Hw. }
  assert (Hgo : forall e w1 qs1 ds1, regular e -> exec e w = Ok w1 -> inv w1 qs1 ds1 ->
    (3 * length qs1 + 2 * length (held w1) + length ds1 <= n)%nat ->
    exists es w', Forall regular es /\ run es w = Ok w' /\ waiting w' = []).
  { intros e w1 qs1 ds1 Hr E H1 Hm. destruct (IH w1 qs1 ds1 He Hd H1 Hm) as (es & w' & Hf & Er & Hw).
    exists (e :: es), w'. split; [by constructor|]. split; [|done]. cbn. by rewrite E, bind_Ok. }
  destruct qs as [|p qs].
  2: { destruct (take_ok w _ ds H) as (w1 & E & _ & H1 & Hh). eapply (Hgo Take); eauto; [done|].
       rewrite Hh, length_app. cbn in *. lia. }
  destruct (held w) as [|p hs] eqn:Eh.
  2: { destruct (process_ok w [] ds p He Hd H) as (w1 & E & H1 & Hl); [rewrite Eh; set_solver|].
       eapply (Hgo (Process p)); eauto; [done|]. rewrite Eh in Hl. rewrite length_app. cbn in *. lia. }
  destruct ds as [|p ds].
  - apply (IH w [] []); [done|done|done|]. rewrite Eh. cbn. lia.
  - destruct (complete_ok w [] (p :: ds) p H) as (w1 & ds1 & E & H1 & Hl).
    destruct Hl as (_ & Hl & Hh); [set_solver|].
    eapply (Hgo (Complete p)); eauto; [done|]. rewrite Hh, Eh. cbn in *. lia.
Qed.

End world.

Lemma job_result_partial enc dec j r n : keeps_block enc -> keeps_block dec ->
  (0 < r < AES_BLOCK_SIZE)%nat -> length (input j) = (AES_BLOCK_SIZE * n + r)%nat ->
  length (output j) = length (input j) -> len j = Z.of_nat (length (input j)) ->
  operation j = KVM_ENCRYPTION \/ operation j = KVM_DECRYPTION ->
  job_result enc dec j = Err BufferOverflow.
Proof.
  intros He Hd Hr Hn Ho Hl Hop. unfold job_result, aes_encrypt, aes_decrypt. rewrite Hl.
  assert (Hf : (n < S (Z.to_nat (Z.of_nat (length (input j)))))%nat) by (unfold AES_BLOCK_SIZE in *; lia).
  destruct Hop as [->| ->]; cbn [KVM_ENCRYPTION KVM_DECRYPTION Z.eqb Pos.eqb];
    by apply (aes_loop_partial _ r) with (n := n).
Qed.

(** ** Claims *)

(** C21: The pool serves every job, in order, correctly.  Under any
    interleaving of hypercalls and kernel threads in which every job is a
    number of whole 16-byte blocks ([partial_block_overflows]), no wait is
    interrupted ([interrupted_wait_use_after_free]) and the module is not
    unloaded ([reclaim_use_after_free]), no freed job is touched, jobs are
    taken in the order they were submitted, every job returned to a guest
    holds the block-wise result of its input, and the threads can always
    bring the pool to a state where no hypercall waits. *)
Theorem crypto_pool_correct enc dec es :
  keeps_block enc -> keeps_block dec -> Forall regular es ->
  exists w, run enc dec es world_init = Ok w /\
    (exists queued, submitted w = taken w ++ queued) /\
    Forall (job_done enc dec) (delivered w) /\
    exists es' w', Forall regular es' /\ run enc dec es' w = Ok w' /\ waiting w' = [].
Proof.
  intros He Hd Hes.
  destruct (run_ok enc dec es world_init [] [] He Hd (inv_init enc dec) Hes) as (w & qs & ds & E & H).
  exists w. split; [done|]. split; [exists qs; apply (i_fifo _ _ _ _ _ H)|].
  split; [apply (i_deliv _ _ _ _ _ H)|]. by eapply drain.
Qed.

(** A hypercall whose wait ends on a signal frees the job a kernel
    thread is working on, and the thread then writes to freed memory. *)
Theorem interrupted_wait_use_after_free enc dec ibuf op :
  run enc dec [Submit ibuf op; Take; Interrupt 1; Process 1] world_init = Err BadPointer.
Proof. reflexivity. Qed.

(** Unloading the module frees the queued jobs although their
    hypercalls still wait, and the next look at the job's status reads
    freed memory. *)
Theorem reclaim_use_after_free enc dec ibuf op :
  run enc dec [Submit ibuf op; Reclaim; Complete 1] world_init = Err BadPointer.
Proof. reflexivity. Qed.

(** A job whose length is not a multiple of the block size is
    processed past the end of its buffers. *)
Theorem partial_block_overflows enc dec j :
  keeps_block enc -> keeps_block dec ->
  (length (input j) mod AES_BLOCK_SIZE <> 0)%nat ->
  length (output j) = length (input j) -> len j = Z.of_nat (length (input j)) ->
  operation j = KVM_ENCRYPTION \/ operation j = KVM_DECRYPTION ->
  job_result enc dec j = Err BufferOverflow.
Proof.
  intros He Hd Hm Ho Hl Hop. assert (HB : AES_BLOCK_SIZE <> 0%nat) by done.
  pose proof (Nat.div_mod_eq (length (input j)) AES_BLOCK_SIZE).
  pose proof (Nat.mod_upper_bound (length (input j)) AES_BLOCK_SIZE HB).
  eapply (job_result_partial enc dec j (length (input j) mod AES_BLOCK_SIZE)
    (length (input j) / AES_BLOCK_SIZE)); try done; lia.
Qed.

(** The guest chooses how many bytes the hypercall copies into a
    structure of 24 bytes: a longer request overruns it. *)
Theorem fetch_job_overflow kmalloc_ok k um vjob_gpa vjob_len bs :
  kmalloc_ok (Z.of_nat sizeof_vm_job) = true -> 0 <= vjob_gpa -> 24 < vjob_len < 2 ^ 31 ->
  flat_read k um vjob_gpa (Z.to_nat vjob_len) = Some bs ->
  fetch_job kmalloc_ok k um vjob_gpa vjob_len = Err BufferOverflow.
Proof.
  intros Hk Hg Hl Hr. unfold fetch_job. rewrite Hk. cbn [negb]. rewrite u64_small by lia.
  pose proof (kvm_read_guest_spec k um vjob_gpa vjob_len Hg ltac:(lia)) as H. rewrite Hr in H.
  rewrite H, bind_Ok. cbn [fst]. apply flat_read_length in Hr.
  rewrite decide_True; [done|]. unfold sizeof_vm_job. lia.
Qed.

(** ** A whole hypercall *)

Lemma fetch_job_Some kmalloc_ok k um gpa l vjob ibuf :
  fetch_job kmalloc_ok k um gpa l = Ok (Some (vjob, ibuf)) -> vlen vjob = Z.of_nat (length ibuf).
Proof.
  unfold fetch_job. intros H. destruct (negb (kmalloc_ok _)); [discriminate|].
  apply bind_Ok_inv in H as (r & _ & H). case_decide; [discriminate|].
  destruct (negb (r.2 =? 0)); [discriminate|]. case_decide; [discriminate|].
  destruct (Z.ltb_spec (vlen (vm_job_of r.1)) 0); [discriminate|].
  destruct (kmalloc_ok (vlen _)); [|discriminate]. cbn [negb orb] in H.
  apply bind_Ok_inv in H as ([bs ret] & Hi & H). cbn in H.
  destruct (Z.eqb_spec ret 0) as [->|]; [|discriminate]. cbn [negb] in H. injection H as <- <-.
  pose proof (kvm_read_guest_spec k um (input_gpa (vm_job_of r.1)) (vlen (vm_job_of r.1))) as Hs.
  destruct (flat_read k um _ _) as [bs'|] eqn:Ef.
  - rewrite Hs in Hi; [|cbn; apply le_combine_bound|done]. simplify_eq.
    apply flat_read_length in Ef. lia.
  - destruct Hs as (got & Hg & _); [cbn; apply le_combine_bound|done|]. rewrite Hg in Hi. discriminate.
Qed.

(** The cipher an operation selects. *)
Definition cipher_of (enc dec : list byte -> list byte) (op : Z) : list byte -> list byte :=
  if op =? KVM_ENCRYPTION then enc else dec.

Lemma job_result_cipher enc dec j n : keeps_block enc -> keeps_block dec ->
  operation j = KVM_ENCRYPTION \/ operation j = KVM_DECRYPTION ->
  length (input j) = (AES_BLOCK_SIZE * n)%nat -> length (output j) = length (input j) ->
  len j = Z.of_nat (length (input j)) ->
  job_result enc dec j = Ok (blocks (cipher_of enc dec (operation j)) n (input j)).
Proof.
  intros He Hd Hop Hn Ho Hl. unfold job_result, cipher_of, aes_encrypt, aes_decrypt.
  destruct Hop as [->| ->]; cbn [KVM_ENCRYPTION KVM_DECRYPTION Z.eqb Pos.eqb]; by apply aes_run.
Qed.

Lemma serve_alone enc dec s p j out : qrepr s [] -> p <> 0 -> jobs s !! p = Some j -> next j = 0 ->
  job_result enc dec j = Ok out ->
  exists s', (enqueue p ;; nj ← dequeue; process enc dec nj) s = Ok (tt, s') /\ qrepr s' [] /\ brk s' = brk s /\
    exists j', jobs s' !! p = Some j' /\ output j' = out.
Proof.
  intros Hq Hp0 Hj Hn Hr.
  destruct (enqueue_spec s [] p Hq) as (s1 & E1 & Hq1 & B1 & Hc1); [set_solver|done|eauto|].
  destruct (dequeue_spec s1 p [] Hq1) as (s2 & E2 & Hq2 & B2 & Hc2).
  assert (Hc : core (jobs s2) p = Some (set_next j 0)) by (rewrite Hc2, Hc1; unfold core; by rewrite Hj).
  apply core_Some in Hc as (j2 & Hj2 & Ej).
  assert (Hr2 : job_result enc dec j2 = Ok out) by (destruct j, j2; cbn in Ej; by simplify_eq).
  rewrite (st_bind_Ok _ _ _ _ _ E1), (st_bind_Ok _ _ _ _ _ E2). unfold process.
  erewrite (st_bind_Ok _ _ _ j2) by (unfold deref; by rewrite Hj2).
  rewrite (st_bind_Ok _ _ _ _ _ (lift_res_Ok _ _ _ Hr2)). eexists. split; [reflexivity|].
  split; [by destruct Hq2 as [? ? ? ?]|]. split; [cbn; congruence|]. exists (finish j2 out). cbn. by rewrite lookup_insert_eq.
Qed.

Lemma produce_job_spec enc dec kmalloc_ok k um gpa l vjob ibuf n um' s :
  keeps_block enc -> keeps_block dec ->
  fetch_job kmalloc_ok k um gpa l = Ok (Some (vjob, ibuf)) ->
  voperation vjob = KVM_ENCRYPTION \/ voperation vjob = KVM_DECRYPTION ->
  length ibuf = (AES_BLOCK_SIZE * n)%nat -> 0 <= output_gpa vjob ->
  flat_write k um (output_gpa vjob) (blocks (cipher_of enc dec (voperation vjob)) n ibuf) = Some um' ->
  qrepr s [] -> 0 < brk s ->
  exists k' s', crypto_produce_job enc dec kmalloc_ok k um gpa l s = Ok ((k', um', 0), s') /\ qrepr s' [] /\ 0 < brk s' /\
    forall w g, guest_hva k' w g = guest_hva k w g.
Proof.
  intros He Hd Hf Hop Hn Hg Hw Hq Hb. pose proof (fetch_job_Some _ _ _ _ _ _ _ Hf) as Hlen.
  unfold crypto_produce_job. rewrite (st_bind_Ok _ _ _ _ _ (lift_res_Ok _ _ _ Hf)). cbv beta iota.
  rewrite Hlen, Nat2Z.id. erewrite st_bind_Ok by reflexivity.
  match goal with |- context [Pool (<[_ := ?j']> _) _ _ _] => set (j := j') end.
  set (s1 := Pool _ _ _ _).
  assert (Hr : job_result enc dec j = Ok (blocks (cipher_of enc dec (voperation vjob)) n ibuf))
    by (apply (job_result_cipher enc dec j n); cbn; rewrite ?length_replicate; done).
  destruct (serve_alone enc dec s1 (brk s) j _ ltac:(by destruct Hq as [? ? ? ?]) ltac:(lia)
    ltac:(cbn; apply lookup_insert_eq) eq_refl Hr) as (s2 & E & Hq2 & Hb2 & j2 & Hj2 & Ho).
  pose proof (kvm_write_guest_spec k um (output_gpa vjob)
    (blocks (cipher_of enc dec (voperation vjob)) n ibuf) Hg) as Hws. rewrite Hw in Hws.
  destruct Hws as (k' & Hws & Hmk).
  exists k', (Pool (delete (brk s) (jobs s2)) (cq s2) (global_job_id s2) (brk s2)). split.
  - revert E. unfold mbind, st_bind. destruct (enqueue (brk s) s1) as [[? s3]|]; [|done].
    destruct (dequeue s3) as [[nj s4]|]; [|done]. destruct (process enc dec nj s4) as [[? s5]|]; [|done].
    intros [= _ ->]. unfold return_job, mbind, st_bind, deref. rewrite Hj2. cbn [lift_res].
    unfold lift_res. rewrite Ho, Hws, (kfree_ok _ _ _ Hj2). reflexivity.
  - split; [by destruct Hq2 as [A B C D]|]. split; [cbn; rewrite Hb2; cbn; lia|]. intros w g. by apply (marked_guest_hva k k' _ w g Hmk).
Qed.

(** A hypercall end to end.  When the request and the input can be
    read, the input is a whole number of blocks and the output writable,
    the hypercall on an idle pool returns zero, the guest's output buffer
    holds the input put through the cipher block by block, and the pool is
    idle again. *)
Theorem crypto_produce_job_correct enc dec kmalloc_ok k um gpa l vjob ibuf n um' s :
  keeps_block enc -> keeps_block dec ->
  fetch_job kmalloc_ok k um gpa l = Ok (Some (vjob, ibuf)) ->
  voperation vjob = KVM_ENCRYPTION \/ voperation vjob = KVM_DECRYPTION ->
  length ibuf = (AES_BLOCK_SIZE * n)%nat -> 0 <= output_gpa vjob ->
  flat_write k um (output_gpa vjob) (blocks (cipher_of enc dec (voperation vjob)) n ibuf) = Some um' ->
  qrepr s [] -> 0 < brk s ->
  exists k' s', crypto_produce_job enc dec kmalloc_ok k um gpa l s = Ok ((k', um', 0), s') /\ qrepr s' [].
Proof.
  intros He Hd Hf Hop Hn Hg Hw Hq Hb.
  destruct (produce_job_spec enc dec kmalloc_ok k um gpa l vjob ibuf n um' s) as (k' & s' & E & Hq' & _); eauto.
Qed.

(** ** Examples *)

(** A toy block cipher that is its own inverse. *)
Definition demo_cipher (b : list byte) : list byte :=
  map (fun x => byte.of_Z (Z.lxor (byte.unsigned x) 0x5a)) b.

Lemma demo_cipher_keeps : keeps_block demo_cipher.
Proof. intros b Hb. unfold demo_cipher. by rewrite length_map. Qed.

Lemma crypto_pool_correct_witness :
  exists w, run demo_cipher demo_cipher
      [Submit (replicate 32 Byte.x41) 0; Submit (replicate 16 Byte.x42) 1; Take; Take; Process 2;
       Complete 1; Complete 2; Process 1] world_init = Ok w /\
    (exists queued, submitted w = taken w ++ queued) /\
    Forall (job_done demo_cipher demo_cipher) (delivered w) /\
    exists es' w', Forall regular es' /\ run demo_cipher demo_cipher es' w = Ok w' /\ waiting w' = [].
Proof.
  apply (crypto_pool_correct demo_cipher demo_cipher
    [Submit (replicate 32 Byte.x41) 0; Submit (replicate 16 Byte.x42) 1; Take; Take; Process 2;
     Complete 1; Complete 2; Process 1] demo_cipher_keeps demo_cipher_keeps).
  repeat constructor; [by exists 2%nat|by exists 1%nat].
Defined.

Lemma partial_block_overflows_witness :
  job_result demo_cipher demo_cipher
    (Job 0 (replicate 17 Byte.x41) (replicate 17 Byte.x00) 17 0 0 0) = Err BufferOverflow.
Proof.
  apply (partial_block_overflows demo_cipher demo_cipher _ demo_cipher_keeps demo_cipher_keeps);
    [vm_compute; discriminate|reflexivity|reflexivity|left; reflexivity].
Defined.

Lemma fetch_job_overflow_witness :
  fetch_job (fun _ => true) demo_slots demo_um 0xff0 30 = Err BufferOverflow.
Proof.
  apply (fetch_job_overflow (fun _ => true) demo_slots demo_um 0xff0 30 (replicate 30 Byte.x2a));
    [reflexivity|lia|lia|vm_compute; reflexivity].
Defined.

(** A guest that asks for one block at 0x2000 to be encrypted to 0x3000. *)
Definition place (gpa : Z) (bs : list byte) : list (Z * byte) :=
  imap (fun i b => (0x7f0000000000 + gpa + Z.of_nat i, b)) bs.
Definition demo_vjob : vm_job := VmJob 0x2000 0x3000 16 0.
Definition demo_guest : umem := list_to_map (
  place 0x1000 (le_split 8 0x2000 ++ le_split 8 0x3000 ++ le_split 4 16 ++ le_split 4 0) ++
  place 0x2000 (replicate 16 Byte.x41) ++ place 0x3000 (replicate 16 Byte.x00)).

Lemma crypto_produce_job_correct_witness :
  exists k' s', crypto_produce_job demo_cipher demo_cipher (fun _ => true) demo_slots demo_guest 0x1000 24
      crypto_pool_initialization
    = Ok ((k', default ∅ (flat_write demo_slots demo_guest 0x3000 (replicate 16 Byte.x1b)), 0), s') /\
    qrepr s' [].
Proof.
  apply (crypto_produce_job_correct demo_cipher demo_cipher (fun _ => true) demo_slots demo_guest 0x1000 24
    demo_vjob (replicate 16 Byte.x41) 1);
    [exact demo_cipher_keeps|exact demo_cipher_keeps|vm_compute; reflexivity|left; reflexivity
    |reflexivity|cbn; lia|vm_compute; reflexivity| |cbn; lia].
  split; cbn; done || constructor.
Defined.
