(* ===== verification/I8259.v ===== *)
(** * The 8259 interrupt controllers (kvm-kmod x86/i8259.c, irq.h)

    The guest's two cascaded interrupt controllers, emulated in the kernel.
    Registers are bytes; a line of the 8 of a controller is a bit.  The
    acknowledgement notifiers, which run with the lock dropped and may call
    into the controller again, are a parameter of the operations that call
    them. *)

From S2P Require Import Prelude.

(** ** irq.h *)

Definition PIC_NUM_PINS : Z := 16.

Record kvm_kpic_state := KPic {
  last_irr : Z; irr : Z; imr : Z; isr : Z; priority_add : Z; irq_base : Z; read_reg_select : Z;
  poll : Z; special_mask : Z; init_state : Z; auto_eoi : Z; rotate_on_auto_eoi : Z;
  special_fully_nested_mode : Z; init4 : Z; elcr : Z; elcr_mask : Z
}.

(** The events the controllers give to the rest of KVM. *)
Inductive note := Kick | MaskNotify (irq : Z) (masked : bool) | Acked (irq : Z).

Record kvm_pic := Pic {
  master : kvm_kpic_state;
  slave : kvm_kpic_state;
  output : Z;                  (** intr from master PIC *)
  wakeup_needed : bool;
  irq_states : list Z;         (** per pin, the sources that assert it *)
  notes : list note
}.

Definition set_last_irr (v : Z) (s : kvm_kpic_state) : kvm_kpic_state :=
  KPic v (irr s) (imr s) (isr s) (priority_add s) (irq_base s) (read_reg_select s) (poll s)
    (special_mask s) (init_state s) (auto_eoi s) (rotate_on_auto_eoi s)
    (special_fully_nested_mode s) (init4 s) (elcr s) (elcr_mask s).
Definition set_irr (v : Z) (s : kvm_kpic_state) : kvm_kpic_state :=
  KPic (last_irr s) v (imr s) (isr s) (priority_add s) (irq_base s) (read_reg_select s) (poll s)
    (special_mask s) (init_state s) (auto_eoi s) (rotate_on_auto_eoi s)
    (special_fully_nested_mode s) (init4 s) (elcr s) (elcr_mask s).
Definition set_imr (v : Z) (s : kvm_kpic_state) : kvm_kpic_state :=
  KPic (last_irr s) (irr s) v (isr s) (priority_add s) (irq_base s) (read_reg_select s) (poll s)
    (special_mask s) (init_state s) (auto_eoi s) (rotate_on_auto_eoi s)
    (special_fully_nested_mode s) (init4 s) (elcr s) (elcr_mask s).
Definition set_isr (v : Z) (s : kvm_kpic_state) : kvm_kpic_state :=
  KPic (last_irr s) (irr s) (imr s) v (priority_add s) (irq_base s) (read_reg_select s) (poll s)
    (special_mask s) (init_state s) (auto_eoi s) (rotate_on_auto_eoi s)
    (special_fully_nested_mode s) (init4 s) (elcr s) (elcr_mask s).
Definition set_priority_add (v : Z) (s : kvm_kpic_state) : kvm_kpic_state :=
  KPic (last_irr s) (irr s) (imr s) (isr s) v (irq_base s) (read_reg_select s) (poll s)
    (special_mask s) (init_state s) (auto_eoi s) (rotate_on_auto_eoi s)
    (special_fully_nested_mode s) (init4 s) (elcr s) (elcr_mask s).
Definition set_irq_base (v : Z) (s : kvm_kpic_state) : kvm_kpic_state :=
  KPic (last_irr s) (irr s) (imr s) (isr s) (priority_add s) v (read_reg_select s) (poll s)
    (special_mask s) (init_state s) (auto_eoi s) (rotate_on_auto_eoi s)
    (special_fully_nested_mode s) (init4 s) (elcr s) (elcr_mask s).
Definition set_read_reg_select (v : Z) (s : kvm_kpic_state) : kvm_kpic_state :=
  KPic (last_irr s) (irr s) (imr s) (isr s) (priority_add s) (irq_base s) v (poll s)
    (special_mask s) (init_state s) (auto_eoi s) (rotate_on_auto_eoi s)
    (special_fully_nested_mode s) (init4 s) (elcr s) (elcr_mask s).
Definition set_poll (v : Z) (s : kvm_kpic_state) : kvm_kpic_state :=
  KPic (last_irr s) (irr s) (imr s) (isr s) (priority_add s) (irq_base s) (read_reg_select s) v
    (special_mask s) (init_state s) (auto_eoi s) (rotate_on_auto_eoi s)
    (special_fully_nested_mode s) (init4 s) (elcr s) (elcr_mask s).
Definition set_special_mask (v : Z) (s : kvm_kpic_state) : kvm_kpic_state :=
  KPic (last_irr s) (irr s) (imr s) (isr s) (priority_add s) (irq_base s) (read_reg_select s)
    (poll s) v (init_state s) (auto_eoi s) (rotate_on_auto_eoi s) (special_fully_nested_mode s)
    (init4 s) (elcr s) (elcr_mask s).
Definition set_init_state (v : Z) (s : kvm_kpic_state) : kvm_kpic_state :=
  KPic (last_irr s) (irr s) (imr s) (isr s) (priority_add s) (irq_base s) (read_reg_select s)
    (poll s) (special_mask s) v (auto_eoi s) (rotate_on_auto_eoi s) (special_fully_nested_mode s)
    (init4 s) (elcr s) (elcr_mask s).
Definition set_auto_eoi (v : Z) (s : kvm_kpic_state) : kvm_kpic_state :=
  KPic (last_irr s) (irr s) (imr s) (isr s) (priority_add s) (irq_base s) (read_reg_select s)
    (poll s) (special_mask s) (init_state s) v (rotate_on_auto_eoi s)
    (special_fully_nested_mode s) (init4 s) (elcr s) (elcr_mask s).
Definition set_rotate_on_auto_eoi (v : Z) (s : kvm_kpic_state) : kvm_kpic_state :=
  KPic (last_irr s) (irr s) (imr s) (isr s) (priority_add s) (irq_base s) (read_reg_select s)
    (poll s) (special_mask s) (init_state s) (auto_eoi s) v (special_fully_nested_mode s)
    (init4 s) (elcr s) (elcr_mask s).
Definition set_special_fully_nested_mode (v : Z) (s : kvm_kpic_state) : kvm_kpic_state :=
  KPic (last_irr s) (irr s) (imr s) (isr s) (priority_add s) (irq_base s) (read_reg_select s)
    (poll s) (special_mask s) (init_state s) (auto_eoi s) (rotate_on_auto_eoi s) v (init4 s)
    (elcr s) (elcr_mask s).
Definition set_init4 (v : Z) (s : kvm_kpic_state) : kvm_kpic_state :=
  KPic (last_irr s) (irr s) (imr s) (isr s) (priority_add s) (irq_base s) (read_reg_select s)
    (poll s) (special_mask s) (init_state s) (auto_eoi s) (rotate_on_auto_eoi s)
    (special_fully_nested_mode s) v (elcr s) (elcr_mask s).
Definition set_elcr (v : Z) (s : kvm_kpic_state) : kvm_kpic_state :=
  KPic (last_irr s) (irr s) (imr s) (isr s) (priority_add s) (irq_base s) (read_reg_select s)
    (poll s) (special_mask s) (init_state s) (auto_eoi s) (rotate_on_auto_eoi s)
    (special_fully_nested_mode s) (init4 s) v (elcr_mask s).

(** [&s->pics[b]] *)
Definition chip (b : bool) (s : kvm_pic) : kvm_kpic_state := if b then slave s else master s.
Definition on_chip (b : bool) (f : kvm_kpic_state -> kvm_kpic_state) (s : kvm_pic) : kvm_pic :=
  if b then Pic (master s) (f (slave s)) (output s) (wakeup_needed s) (irq_states s) (notes s)
  else Pic (f (master s)) (slave s) (output s) (wakeup_needed s) (irq_states s) (notes s).

(** ** i8259.c *)

(** [1 << irq] *)
Definition bit (irq : Z) : Z := Z.shiftl 1 irq.
Definition is_set (reg mask : Z) : bool := negb (Z.land reg mask =? 0).

Definition pic_unlock (s : kvm_pic) : kvm_pic :=
  Pic (master s) (slave s) (output s) false (irq_states s)
    (if wakeup_needed s then Kick :: notes s else notes s).

(** The request line [irq] of a controller goes to [level]: the new state
    and 1 (a new request), 0 (coalesced with a pending one) or -1 (masked). *)
Definition pic_set_irq1 (s : kvm_kpic_state) (irq : Z) (level : bool) : kvm_kpic_state * Z :=
  let mask := bit irq in
  let '(s', ret) :=
    if is_set (elcr s) mask then
      if level then
        (set_last_irr (Z.lor (last_irr s) mask) (set_irr (Z.lor (irr s) mask) s),
         if is_set (irr s) mask then 0 else 1)
      else (set_last_irr (Z.ldiff (last_irr s) mask) (set_irr (Z.ldiff (irr s) mask) s), 1)
    else if level then
      if negb (is_set (last_irr s) mask) then
        (set_last_irr (Z.lor (last_irr s) mask) (set_irr (Z.lor (irr s) mask) s),
         if is_set (irr s) mask then 0 else 1)
      else (set_last_irr (Z.lor (last_irr s) mask) s, 1)
    else (set_last_irr (Z.ldiff (last_irr s) mask) s, 1) in
  (s', if is_set (imr s) mask then - 1 else ret).

(** The [while] of [get_priority]; [n] bounds the remaining turns. *)
Fixpoint priority_loop (n : nat) (add mask priority : Z) : Z :=
  match n with
  | O => priority
  | S n =>
      if Z.land mask (bit (Z.land (priority + add) 7)) =? 0
      then priority_loop n add mask (priority + 1)
      else priority
  end.

Definition get_priority (s : kvm_kpic_state) (mask : Z) : Z :=
  if mask =? 0 then 8 else priority_loop 8 (priority_add s) mask 0.

Definition pic_get_irq (is_master : bool) (s : kvm_kpic_state) : Z :=
  let mask := Z.ldiff (irr s) (imr s) in
  let priority := get_priority s mask in
  if priority =? 8 then - 1
  else
    let mask := if negb (special_fully_nested_mode s =? 0) && is_master
                then Z.ldiff (isr s) (bit 2) else isr s in
    let cur_priority := get_priority s mask in
    if priority <? cur_priority then Z.land (priority + priority_add s) 7 else - 1.

Definition pic_irq_request (level : bool) (s : kvm_pic) : kvm_pic :=
  Pic (master s) (slave s) (if level then 1 else 0)
    (if output s =? 0 then true else wakeup_needed s) (irq_states s) (notes s).

Definition pic_update_irq (s : kvm_pic) : kvm_pic :=
  let irq2 := pic_get_irq false (slave s) in
  let s := if 0 <=? irq2 then
             on_chip false (fun m => fst (pic_set_irq1 (fst (pic_set_irq1 m 2 true)) 2 false)) s
           else s in
  pic_irq_request (0 <=? pic_get_irq true (master s)) s.

Definition kvm_pic_update_irq (s : kvm_pic) : kvm_pic := pic_unlock (pic_update_irq s).

(** [__kvm_irq_line_state]: source [irq_source_id] sets its bit of a word. *)
Definition line_state (states irq_source_id : Z) (level : bool) : Z :=
  if level then Z.lor states (bit irq_source_id) else Z.ldiff states (bit irq_source_id).

(** [BUG_ON] of a pin out of range is an error. *)
Definition kvm_pic_set_irq (s : kvm_pic) (irq irq_source_id : Z) (level : bool) : res (kvm_pic * Z) :=
  if (irq <? 0) || (PIC_NUM_PINS <=? irq) then Err BadPointer
  else if (irq_source_id <? 0) || (64 <=? irq_source_id) then Err BufferOverflow
  else
    match irq_states s !! Z.to_nat irq with
    | None => Err BadPointer
    | Some st =>
        let st' := line_state st irq_source_id level in
        let s1 := Pic (master s) (slave s) (output s) (wakeup_needed s)
                    (<[Z.to_nat irq := st']> (irq_states s)) (notes s) in
        let b := negb (Z.shiftr irq 3 =? 0) in
        let r := pic_set_irq1 (chip b s1) (Z.land irq 7) (negb (st' =? 0)) in
        Ok (pic_unlock (pic_update_irq (on_chip b (fun _ => fst r) s1)), snd r)
    end.

Definition kvm_pic_clear_all (s : kvm_pic) (irq_source_id : Z) : kvm_pic :=
  pic_unlock (Pic (master s) (slave s) (output s) (wakeup_needed s)
    ((fun st => Z.ldiff st (bit irq_source_id)) <$> irq_states s) (notes s)).

(** A signal to the rest of the machine. *)
Definition signal (n : note) (s : kvm_pic) : kvm_pic :=
  Pic (master s) (slave s) (output s) (wakeup_needed s) (irq_states s) (n :: notes s).

Section acknowledge.
  (** What the notifiers do to the controllers when pin [irq] is
      acknowledged. *)
  Context (notify : Z -> kvm_pic -> kvm_pic).

Definition pic_clear_isr (b : bool) (irq : Z) (s : kvm_pic) : kvm_pic :=
  let s := on_chip b (fun c => set_isr (Z.ldiff (isr c) (bit irq)) c) s in
  let irq := if b then irq + 8 else irq in
  notify irq (signal (Acked irq) (pic_unlock s)).

Definition pic_intack (b : bool) (irq : Z) (s : kvm_pic) : kvm_pic :=
  let s := on_chip b (fun c => set_isr (Z.lor (isr c) (bit irq)) c) s in
  let s := if negb (is_set (elcr (chip b s)) (bit irq))
           then on_chip b (fun c => set_irr (Z.ldiff (irr c) (bit irq)) c) s else s in
  if negb (auto_eoi (chip b s) =? 0) then
    let s := if negb (rotate_on_auto_eoi (chip b s) =? 0)
             then on_chip b (set_priority_add (Z.land (irq + 1) 7)) s else s in
    pic_clear_isr b irq s
  else s.

(** The interrupt the processor takes, and its vector. *)
Definition kvm_pic_read_irq (s : kvm_pic) : kvm_pic * Z :=
  let s := Pic (master s) (slave s) 0 (wakeup_needed s) (irq_states s) (notes s) in
  let irq := pic_get_irq true (master s) in
  let '(s, intno) :=
    if 0 <=? irq then
      let s := pic_intack false irq s in
      if irq =? 2 then
        let irq2 := pic_get_irq false (slave s) in
        let '(s, irq2) := if 0 <=? irq2 then (pic_intack true irq2 s, irq2) else (s, 7) in
        (s, irq_base (slave s) + irq2)
      else (s, irq_base (master s) + irq)
    else (s, irq_base (master s) + 7) in
  (pic_unlock (pic_update_irq s), intno).

(** [for (irq = 0; irq < 8; irq++) if (edge_irr & (1 << irq)) ...] *)
Definition clear_edges (b : bool) (edge_irr : Z) (s : kvm_pic) : kvm_pic :=
  fold_left (fun s irq => if is_set edge_irr (bit irq) then pic_clear_isr b irq s else s)
    (seqZ 0 8) s.

(** [found]: some vCPU accepts interrupts of the PIC. *)
Definition kvm_pic_reset (found : bool) (b : bool) (s : kvm_pic) : kvm_pic :=
  let edge_irr := Z.ldiff (irr (chip b s)) (elcr (chip b s)) in
  let s := on_chip b (fun c =>
    let c := set_last_irr 0 c in
    let c := set_irr (Z.land (irr c) (elcr c)) c in
    let c := set_imr 0 c in
    let c := set_priority_add 0 c in
    let c := set_special_mask 0 c in
    let c := set_read_reg_select 0 c in
    let c := if init4 c =? 0 then set_auto_eoi 0 (set_special_fully_nested_mode 0 c) else c in
    set_init_state 1 c) s in
  if found then clear_edges b edge_irr s else s.

(** The operation command words, [val] with bits 3 and 4 clear. *)
Definition pic_ocw2 (b : bool) (val : Z) (s : kvm_pic) : kvm_pic :=
  let cmd := Z.shiftr val 5 in
  let c := chip b s in
  if (cmd =? 0) || (cmd =? 4) then on_chip b (set_rotate_on_auto_eoi (Z.shiftr cmd 2)) s
  else if (cmd =? 1) || (cmd =? 5) then
    let priority := get_priority c (isr c) in
    if negb (priority =? 8) then
      let irq := Z.land (priority + priority_add c) 7 in
      let s := if cmd =? 5 then on_chip b (set_priority_add (Z.land (irq + 1) 7)) s else s in
      pic_update_irq (pic_clear_isr b irq s)
    else s
  else if cmd =? 3 then pic_update_irq (pic_clear_isr b (Z.land val 7) s)
  else if cmd =? 6 then pic_update_irq (on_chip b (set_priority_add (Z.land (val + 1) 7)) s)
  else if cmd =? 7 then
    let irq := Z.land val 7 in
    pic_update_irq (pic_clear_isr b irq (on_chip b (set_priority_add (Z.land (irq + 1) 7)) s))
  else s.

(** The mask notifiers fired when the mask register changes. *)
Definition mask_notes (b : bool) (old new : Z) : list note :=
  let off := if b then 8 else 0 in
  fold_left (fun l irq =>
      if is_set (Z.lxor old new) (bit irq) then MaskNotify (irq + off) (is_set new (bit irq)) :: l else l)
    (seqZ 0 8) [].

Definition pic_ioport_write (found b : bool) (addr val : Z) (s : kvm_pic) : kvm_pic :=
  if Z.land addr 1 =? 0 then
    if is_set val 0x10 then kvm_pic_reset found b (on_chip b (set_init4 (Z.land val 1)) s)
    else if is_set val 0x08 then
      let s := if is_set val 0x04 then on_chip b (set_poll 1) s else s in
      let s := if is_set val 0x02 then on_chip b (set_read_reg_select (Z.land val 1)) s else s in
      if is_set val 0x40 then on_chip b (set_special_mask (Z.land (Z.shiftr val 5) 1)) s else s
    else pic_ocw2 b val s
  else
    let c := chip b s in
    if init_state c =? 0 then
      let n := mask_notes b (imr c) val in
      let s := on_chip b (set_imr val) s in
      pic_update_irq (Pic (master s) (slave s) (output s) (wakeup_needed s) (irq_states s) (n ++ notes s))
    else if init_state c =? 1 then on_chip b (fun c => set_init_state 2 (set_irq_base (Z.land val 0xf8) c)) s
    else if init_state c =? 2 then
      on_chip b (fun c => set_init_state (if negb (init4 c =? 0) then 3 else 0) c) s
    else if init_state c =? 3 then
      on_chip b (fun c => set_init_state 0 (set_auto_eoi (Z.land (Z.shiftr val 1) 1)
        (set_special_fully_nested_mode (Z.land (Z.shiftr val 4) 1) c))) s
    else s.

Definition pic_poll_read (b : bool) (addr1 : Z) (s : kvm_pic) : kvm_pic * Z :=
  let ret := pic_get_irq (negb b) (chip b s) in
  if 0 <=? ret then
    let high := negb (Z.shiftr addr1 7 =? 0) in
    let s := if high then
               on_chip false (fun c => set_irr (Z.ldiff (irr c) (bit 2)) (set_isr (Z.ldiff (isr c) (bit 2)) c)) s
             else s in
    let s := on_chip b (fun c => set_irr (Z.ldiff (irr c) (bit ret)) c) s in
    let s := pic_clear_isr b ret s in
    (if high || negb (ret =? 2) then pic_update_irq s else s, ret)
  else (pic_update_irq s, 7).

Definition pic_ioport_read (b : bool) (addr1 : Z) (s : kvm_pic) : kvm_pic * Z :=
  let c := chip b s in
  if negb (poll c =? 0) then
    let '(s, ret) := pic_poll_read b addr1 s in (on_chip b (set_poll 0) s, ret)
  else if Z.land addr1 1 =? 0 then (s, if negb (read_reg_select c =? 0) then isr c else irr c)
  else (s, imr c).

Definition elcr_ioport_write (b : bool) (val : Z) (s : kvm_pic) : kvm_pic :=
  on_chip b (fun c => set_elcr (Z.land val (elcr_mask c)) c) s.
Definition elcr_ioport_read (b : bool) (s : kvm_pic) : Z := elcr (chip b s).

(** ** Port accesses *)

Definition EOPNOTSUPP : Z := 95.

Definition picdev_in_range (addr : Z) : bool :=
  bool_decide (addr ∈ [0x20; 0x21; 0xa0; 0xa1; 0x4d0; 0x4d1]).

Definition picdev_write (found : bool) (addr len data : Z) (s : kvm_pic) : kvm_pic * Z :=
  if negb (picdev_in_range addr) then (s, - EOPNOTSUPP)
  else if negb (len =? 1) then (s, 0)
  else if addr <? 0x4d0
  then (pic_unlock (pic_ioport_write found (negb (Z.shiftr addr 7 =? 0)) addr data s), 0)
  else (pic_unlock (elcr_ioport_write (negb (Z.land addr 1 =? 0)) data s), 0).

(** The value read, when there is one. *)
Definition picdev_read (addr len : Z) (s : kvm_pic) : kvm_pic * option Z * Z :=
  if negb (picdev_in_range addr) then (s, None, - EOPNOTSUPP)
  else if negb (len =? 1) then (s, None, 0)
  else if addr <? 0x4d0 then
    let '(s, v) := pic_ioport_read (negb (Z.shiftr addr 7 =? 0)) addr s in (pic_unlock s, Some v, 0)
  else (pic_unlock s, Some (elcr_ioport_read (negb (Z.land addr 1 =? 0)) s), 0).

End acknowledge.

(** [kvm_create_pic]: the zeroed controllers with their ELCR masks. *)
Definition kvm_create_pic : kvm_pic :=
  Pic (KPic 0 0 0 0 0 0 0 0 0 0 0 0 0 0 0 0xf8) (KPic 0 0 0 0 0 0 0 0 0 0 0 0 0 0 0 0xde)
    0 false (replicate 16 0) [].

#[local] Arguments Z.land : simpl never.
#[local] Arguments Z.lor : simpl never.
#[local] Arguments Z.ldiff : simpl never.
#[local] Arguments Z.shiftr : simpl never.
#[local] Arguments bit : simpl never.

(** ** Priorities *)

Definition byte_ok (x : Z) : Prop := 0 <= x < 256.

(** The rank of line [i] when line [add] has the highest priority. *)
Definition rank (add i : Z) : Z := (i - add) mod 8.

Definition priority_check (add mask : Z) : bool :=
  let p := priority_loop 8 add mask 0 in
  let irq := Z.land (p + add) 7 in
  (0 <=? p) && (p <? 8) && (0 <=? irq) && (irq <? 8) && Z.testbit mask irq && (rank add irq =? p) &&
  forallb (fun i => implb (Z.testbit mask i) (p <=? rank add i)) (seqZ 0 8).

(** All 8 rotations and 255 masks. *)
Lemma priority_checked :
  forallb (fun add => forallb (fun mask => priority_check add mask) (seqZ 1 255)) (seqZ 0 8) = true.
Proof. vm_compute. reflexivity. Qed.

Lemma get_priority_spec s mask : 0 <= priority_add s < 8 -> 0 < mask < 256 ->
  let p := get_priority s mask in let irq := Z.land (p + priority_add s) 7 in
  0 <= p < 8 /\ 0 <= irq < 8 /\ Z.testbit mask irq = true /\ rank (priority_add s) irq = p /\
  forall i, 0 <= i < 8 -> Z.testbit mask i = true -> p <= rank (priority_add s) i.
Proof.
  intros Ha Hm. unfold get_priority. rewrite (proj2 (Z.eqb_neq _ _)) by lia. cbv zeta.
  pose proof priority_checked as H. rewrite forallb_forall in H.
  specialize (H (priority_add s) ltac:(apply list_elem_of_In, elem_of_seqZ; lia)).
  rewrite forallb_forall in H. specialize (H mask ltac:(apply list_elem_of_In, elem_of_seqZ; lia)).
  unfold priority_check in H. rewrite !andb_true_iff, !Z.leb_le, !Z.ltb_lt, Z.eqb_eq in H.
  destruct H as [[[[[[H1 H2] H3] H4] H5] H6] H7]. split_and!; try done.
  intros i Hi Ht. rewrite forallb_forall in H7.
  specialize (H7 i ltac:(apply list_elem_of_In, elem_of_seqZ; lia)). rewrite Ht in H7. by apply Z.leb_le.
Qed.

Lemma get_priority_zero s : get_priority s 0 = 8.
Proof. done. Qed.

(** ** Bytes *)

Lemma byte_ok_land x : byte_ok x <-> Z.land x 255 = x.
Proof.
  unfold byte_ok. change 255 with (Z.ones 8). rewrite Z.land_ones by lia. change (2 ^ 8) with 256.
  split; [intros H; apply Z.mod_small; lia|]. intros <-. apply Z.mod_pos_bound. lia.
Qed.

Lemma byte_ok_lor x y : byte_ok x -> byte_ok y -> byte_ok (Z.lor x y).
Proof. rewrite !byte_ok_land. intros <- <-. rewrite <- Z.land_lor_distr_l, <- Z.land_assoc. by f_equal. Qed.

Lemma byte_ok_land_r x y : byte_ok y -> byte_ok (Z.land x y).
Proof. rewrite !byte_ok_land. intros Hy. by rewrite <- Z.land_assoc, Hy. Qed.

Lemma byte_ok_ldiff x y : byte_ok x -> 0 <= y -> byte_ok (Z.ldiff x y).
Proof.
  rewrite !byte_ok_land. intros Hx Hy. apply Z.bits_inj'. intros i Hi.
  rewrite <- Hx at 2. rewrite Z.land_spec, !Z.ldiff_spec, Z.land_spec.
  by destruct (Z.testbit x i), (Z.testbit y i), (Z.testbit 255 i).
Qed.

Lemma bit_nonneg i : 0 <= bit i.
Proof. unfold bit. by rewrite Z.shiftl_nonneg. Qed.

Lemma bit_byte i : 0 <= i < 8 -> byte_ok (bit i).
Proof.
  intros Hi. unfold bit, byte_ok. rewrite Z.shiftl_1_l. split; [lia|].
  change 256 with (2 ^ 8). apply Z.pow_lt_mono_r; lia.
Qed.

Lemma bit_testbit i j : 0 <= i -> Z.testbit (bit i) j = (i =? j).
Proof. intros Hi. unfold bit. rewrite Z.shiftl_1_l. by apply Z.pow2_bits_eqb. Qed.

Lemma land7 x : 0 <= Z.land x 7 < 8.
Proof. change 7 with (Z.ones 3). rewrite Z.land_ones by lia. apply Z.mod_pos_bound. lia. Qed.

Lemma land1 x : 0 <= Z.land x 1 < 2.
Proof. change 1 with (Z.ones 1). rewrite Z.land_ones by lia. apply Z.mod_pos_bound. lia. Qed.

#[export] Hint Resolve byte_ok_lor byte_ok_ldiff bit_nonneg bit_byte : mach.

(** ** The invariant of the registers *)

Record kpic_ok (c : kvm_kpic_state) : Prop := {
  k_last : byte_ok (last_irr c); k_irr : byte_ok (irr c); k_imr : byte_ok (imr c);
  k_isr : byte_ok (isr c); k_add : 0 <= priority_add c < 8;
  k_state : 0 <= init_state c <= 3; k_elcr : byte_ok (elcr c);
  k_elcr_mask : byte_ok (elcr_mask c); k_level : Z.land (elcr c) (elcr_mask c) = elcr c
}.

Record pic_ok (s : kvm_pic) : Prop := {
  p_master : kpic_ok (master s);
  p_slave : kpic_ok (slave s);
  p_output : 0 <= output s <= 1;
  p_states : length (irq_states s) = 16%nat
}.

Lemma chip_ok b s : pic_ok s -> kpic_ok (chip b s).
Proof. intros H. destruct b; apply H. Qed.

Lemma on_chip_ok b f s : pic_ok s -> kpic_ok (f (chip b s)) -> pic_ok (on_chip b f s).
Proof. intros [? ? ? ?] Hf. destruct b; by split. Qed.

Lemma pic_unlock_ok s : pic_ok s -> pic_ok (pic_unlock s).
Proof. intros [? ? ? ?]. by split. Qed.

Lemma signal_ok n s : pic_ok s -> pic_ok (signal n s).
Proof. intros [? ? ? ?]. by split. Qed.

Ltac kpic := intros [? ? ? ? ? ? ? ? ?]; split; cbn; try done; auto with mach lia.

Lemma pic_set_irq1_ok c irq level : 0 <= irq < 8 -> kpic_ok c -> kpic_ok (fst (pic_set_irq1 c irq level)).
Proof.
  intros Hi. unfold pic_set_irq1.
  destruct (is_set (elcr c) (bit irq)), level, (negb (is_set (last_irr c) (bit irq))); cbn [fst]; kpic.
Qed.

Lemma pic_update_irq_ok s : pic_ok s -> pic_ok (pic_update_irq s).
Proof.
  intros H. unfold pic_update_irq.
  assert (H' : pic_ok (if 0 <=? pic_get_irq false (slave s) then
    on_chip false (fun m => fst (pic_set_irq1 (fst (pic_set_irq1 m 2 true)) 2 false)) s else s)).
  { destruct (0 <=? _); [|done]. apply on_chip_ok; [done|].
    apply pic_set_irq1_ok, pic_set_irq1_ok; [lia|lia|apply H]. }
  destruct H' as [? ? ? ?]. split; cbn; try done. destruct (0 <=? pic_get_irq true _); lia.
Qed.
#[export] Hint Resolve pic_unlock_ok pic_update_irq_ok chip_ok : mach.

Lemma set_add_ok b v s : pic_ok s -> pic_ok (on_chip b (set_priority_add (Z.land v 7)) s).
Proof. intros H. apply on_chip_ok; [done|]. generalize (chip_ok b s H). pose proof (land7 v). kpic. Qed.

Section preserved.
  Context (notify : Z -> kvm_pic -> kvm_pic) (notify_ok : forall irq s, pic_ok s -> pic_ok (notify irq s)).

Lemma pic_clear_isr_ok b irq s : 0 <= irq < 8 -> pic_ok s -> pic_ok (pic_clear_isr notify b irq s).
Proof.
  intros Hi H. unfold pic_clear_isr. apply notify_ok, signal_ok, pic_unlock_ok, on_chip_ok; [done|].
  generalize (chip_ok b s H). kpic.
Qed.

Lemma pic_intack_ok b irq s : 0 <= irq < 8 -> pic_ok s -> pic_ok (pic_intack notify b irq s).
Proof.
  intros Hi H. unfold pic_intack.
  set (s1 := on_chip b (fun c => set_isr (Z.lor (isr c) (bit irq)) c) s).
  assert (H1 : pic_ok s1) by (apply on_chip_ok; [done|]; generalize (chip_ok b s H); kpic).
  set (s2 := if negb (is_set (elcr (chip b s1)) (bit irq)) then _ else s1).
  assert (H2 : pic_ok s2).
  { subst s2. destruct (negb _); [|done]. apply on_chip_ok; [done|]. generalize (chip_ok b s1 H1). kpic. }
  destruct (negb (auto_eoi (chip b s2) =? 0)); [|done]. apply pic_clear_isr_ok; [done|].
  destruct (negb (rotate_on_auto_eoi (chip b s2) =? 0)); [by apply set_add_ok|done].
Qed.

Lemma pic_get_irq_range m c : kpic_ok c -> pic_get_irq m c = - 1 \/ 0 <= pic_get_irq m c < 8.
Proof.
  intros _. unfold pic_get_irq. destruct (_ =? 8); [auto|]. destruct (_ <? _); [|auto]. right. apply land7.
Qed.

Lemma kvm_pic_read_irq_ok s : pic_ok s -> pic_ok (fst (kvm_pic_read_irq notify s)).
Proof.
  intros H. unfold kvm_pic_read_irq.
  set (s0 := Pic (master s) (slave s) 0 _ _ _). assert (H0 : pic_ok s0) by (destruct H; by split).
  destruct (pic_get_irq_range true (master s0) (p_master _ H0)) as [E|E]; [rewrite E; cbn [Z.leb Z.compare fst]; auto with mach|].
  rewrite (proj2 (Z.leb_le _ _)) by lia.
  pose proof (pic_intack_ok false (pic_get_irq true (master s0)) s0 E H0) as H1.
  set (s1 := pic_intack notify false (pic_get_irq true (master s0)) s0) in *.
  destruct (pic_get_irq true (master s0) =? 2); [|cbn; auto with mach].
  destruct (pic_get_irq_range false (slave s1) (p_slave _ H1)) as [E1|E1].
  - rewrite E1. cbn. auto with mach.
  - rewrite (proj2 (Z.leb_le _ _)) by lia. cbn. apply pic_unlock_ok, pic_update_irq_ok.
    by apply pic_intack_ok.
Qed.

Lemma kvm_pic_reset_ok found b s : pic_ok s -> pic_ok (kvm_pic_reset notify found b s).
Proof.
  intros H. unfold kvm_pic_reset. set (s1 := on_chip b _ s).
  assert (H1 : pic_ok s1).
  { apply on_chip_ok; [done|]. generalize (chip_ok b s H). intros [? ? ? ? ? ? ? ? ?].
    cbn [init4]. destruct (init4 _ =? 0); split; cbn; try done; try lia; by apply byte_ok_land_r. }
  destruct found; [|done]. unfold clear_edges. generalize (Z.ldiff (irr (chip b s)) (elcr (chip b s))).
  intros e. assert (Hall : Forall (fun i => 0 <= i < 8) (seqZ 0 8))
    by (apply Forall_forall; intros i Hi%elem_of_seqZ; lia).
  clearbody s1. revert s1 H1. induction Hall as [|i l Hi _ IH]; intros s1 H1; cbn; [done|].
  apply IH. destruct (is_set e (bit i)); [by apply pic_clear_isr_ok|done].
Qed.

Lemma pic_ocw2_ok b val s : pic_ok s -> pic_ok (pic_ocw2 notify b val s).
Proof.
  intros H. unfold pic_ocw2.
  destruct ((Z.shiftr val 5 =? 0) || (Z.shiftr val 5 =? 4)).
  { apply on_chip_ok; [done|]. generalize (chip_ok b s H). kpic. }
  destruct ((Z.shiftr val 5 =? 1) || (Z.shiftr val 5 =? 5)).
  { destruct (negb _); [|done]. apply pic_update_irq_ok, pic_clear_isr_ok; [apply land7|].
    destruct (Z.shiftr val 5 =? 5); [by apply set_add_ok|done]. }
  destruct (Z.shiftr val 5 =? 3); [by apply pic_update_irq_ok, pic_clear_isr_ok; [apply land7|]|].
  destruct (Z.shiftr val 5 =? 6); [by apply pic_update_irq_ok, set_add_ok|].
  destruct (Z.shiftr val 5 =? 7); [|done].
  apply pic_update_irq_ok, pic_clear_isr_ok; [apply land7|]. by apply set_add_ok.
Qed.

Lemma pic_ioport_write_ok found b addr val s : byte_ok val -> pic_ok s ->
  pic_ok (pic_ioport_write notify found b addr val s).
Proof.
  intros Hv H. unfold pic_ioport_write. pose proof (chip_ok b s H) as Hc.
  assert (Hsame : forall f, (forall c, kpic_ok c -> kpic_ok (f c)) -> forall s, pic_ok s -> pic_ok (on_chip b f s))
    by (intros f Hf s' H'; apply on_chip_ok; [done|]; by apply Hf, chip_ok).
  destruct (Z.land addr 1 =? 0).
  - destruct (is_set val 0x10); [apply kvm_pic_reset_ok, Hsame; [intros c; kpic|done]|].
    destruct (is_set val 0x08); [|by apply pic_ocw2_ok].
    destruct (is_set val 0x04), (is_set val 0x02), (is_set val 0x40);
      repeat (apply Hsame; [intros c; kpic|]); done.
  - destruct (init_state (chip b s) =? 0).
    { apply pic_update_irq_ok. assert (H1 : pic_ok (on_chip b (set_imr val) s))
        by (apply Hsame; [intros c; kpic|done]). destruct H1. by split. }
    destruct (init_state (chip b s) =? 1); [apply Hsame; [intros c; kpic|done]|].
    destruct (init_state (chip b s) =? 2);
      [apply Hsame; [intros c; destruct (negb (init4 c =? 0)); kpic|done]|].
    destruct (init_state (chip b s) =? 3); [apply Hsame; [intros c; kpic|done]|done].
Qed.

Lemma pic_ioport_read_ok b addr s : pic_ok s -> pic_ok (fst (pic_ioport_read notify b addr s)).
Proof.
  intros H. unfold pic_ioport_read. destruct (negb (poll (chip b s) =? 0)).
  2: { by destruct (Z.land addr 1 =? 0). }
  assert (Hp : pic_ok (fst (pic_poll_read notify b addr s))).
  { unfold pic_poll_read. destruct (pic_get_irq_range (negb b) (chip b s) (chip_ok b s H)) as [E|E].
    { rewrite E. cbn. auto with mach. }
    rewrite (proj2 (Z.leb_le _ _)) by lia. cbn [fst].
    set (s1 := if negb (Z.shiftr addr 7 =? 0) then _ else s).
    assert (H1 : pic_ok s1).
    { subst s1. destruct (negb (Z.shiftr addr 7 =? 0)); [|done]. apply on_chip_ok; [done|]. generalize (chip_ok false s H). kpic. }
    set (s2 := on_chip b _ s1). assert (H2 : pic_ok s2).
    { apply on_chip_ok; [done|]. generalize (chip_ok b s1 H1). kpic. }
    pose proof (pic_clear_isr_ok b _ s2 E H2). destruct (_ || _); auto with mach. }
  destruct (pic_poll_read notify b addr s) as [s' ret]. cbn in *. apply on_chip_ok; [done|].
  generalize (chip_ok b s' Hp). kpic.
Qed.

End preserved.

(** ** Histories *)

Inductive pic_op :=
| SetIrq (irq irq_source_id : Z) (level : bool)
| ClearAll (irq_source_id : Z)
| ReadIrq
| UpdateIrq
| PortWrite (found : bool) (addr len data : Z)
| PortRead (addr len : Z).

Definition exec_pic (notify : Z -> kvm_pic -> kvm_pic) (o : pic_op) (s : kvm_pic) : res kvm_pic :=
  match o with
  | SetIrq irq src level => r ← kvm_pic_set_irq s irq src level; Ok r.1
  | ClearAll src => Ok (kvm_pic_clear_all s src)
  | ReadIrq => Ok (fst (kvm_pic_read_irq notify s))
  | UpdateIrq => Ok (kvm_pic_update_irq s)
  | PortWrite found addr len data => Ok (fst (picdev_write notify found addr len data s))
  | PortRead addr len => Ok (fst (fst (picdev_read notify addr len s)))
  end.

Fixpoint run_pic (notify : Z -> kvm_pic -> kvm_pic) (os : list pic_op) (s : kvm_pic) : res kvm_pic :=
  match os with
  | [] => Ok s
  | o :: os => s' ← exec_pic notify o s; run_pic notify os s'
  end.

(** Pins and sources exist and the data of a port write is a byte. *)
Definition op_typed (o : pic_op) : Prop :=
  match o with
  | SetIrq irq src _ => 0 <= irq < PIC_NUM_PINS /\ 0 <= src < 64
  | PortWrite _ _ _ data => byte_ok data
  | _ => True
  end.

Lemma kvm_pic_set_irq_ok s irq src level : 0 <= irq < PIC_NUM_PINS -> 0 <= src < 64 -> pic_ok s ->
  exists s' r, kvm_pic_set_irq s irq src level = Ok (s', r) /\ pic_ok s'.
Proof.
  intros Hi Hsrc H. unfold kvm_pic_set_irq.
  rewrite !(proj2 (Z.ltb_ge _ _)), !(proj2 (Z.leb_gt _ _)) by lia. cbn [orb].
  destruct (lookup_lt_is_Some_2 (irq_states s) (Z.to_nat irq)) as [st Est].
  { rewrite (p_states _ H). unfold PIC_NUM_PINS in Hi. lia. }
  rewrite Est. eexists _, _. split; [reflexivity|].
  assert (H1 : pic_ok (Pic (master s) (slave s) (output s) (wakeup_needed s)
    (<[Z.to_nat irq := line_state st src level]> (irq_states s)) (notes s))).
  { destruct H. split; try done. cbn. by rewrite length_insert. }
  apply pic_unlock_ok, pic_update_irq_ok, on_chip_ok; [done|].
  apply pic_set_irq1_ok; [apply land7|by apply chip_ok].
Qed.

Lemma exec_pic_ok notify o s : (forall irq s, pic_ok s -> pic_ok (notify irq s)) -> op_typed o ->
  pic_ok s -> exists s', exec_pic notify o s = Ok s' /\ pic_ok s'.
Proof.
  intros Hn Ho H. destruct o as [irq src level|src| | |found addr len data|addr len]; cbn [exec_pic].
  - destruct (kvm_pic_set_irq_ok s irq src level (proj1 Ho) (proj2 Ho) H) as (s' & r & -> & H'). rewrite bind_Ok. eauto.
  - eexists. split; [done|]. apply pic_unlock_ok. destruct H. split; try done. cbn. by rewrite length_fmap.
  - eexists. split; [done|]. by apply kvm_pic_read_irq_ok.
  - eexists. split; [done|]. apply pic_unlock_ok. auto with mach.
  - eexists. split; [done|]. unfold picdev_write. destruct (negb _); [done|]. destruct (negb _); [done|].
    destruct (addr <? 0x4d0); cbn [fst]; apply pic_unlock_ok; [by apply pic_ioport_write_ok|].
    apply on_chip_ok; [done|]. generalize (chip_ok (negb (Z.land addr 1 =? 0)) s H).
    intros [? ? ? ? ? ? ? ? ?]. split; cbn; try done; [by apply byte_ok_land_r|].
    by rewrite <- Z.land_assoc, Z.land_diag.
  - eexists. split; [done|]. unfold picdev_read. destruct (negb _); [done|]. destruct (negb _); [done|].
    destruct (addr <? 0x4d0); [|cbn; by apply pic_unlock_ok].
    pose proof (pic_ioport_read_ok notify Hn (negb (Z.shiftr addr 7 =? 0)) addr s H) as Hr.
    destruct (pic_ioport_read _ _ _ _) as [s' v]. cbn in *. by apply pic_unlock_ok.
Qed.

Lemma create_pic_ok : pic_ok kvm_create_pic.
Proof. split; [split; cbn; unfold byte_ok; done || lia..|cbn; lia|done]. Qed.

(** ** Priorities of a controller *)

Definition pending (c : kvm_kpic_state) (i : Z) : bool := Z.testbit (Z.ldiff (irr c) (imr c)) i.

(** The lines in service that count: on the master in special fully nested
    mode, not the one of the slave. *)
Definition service (m : bool) (c : kvm_kpic_state) : Z :=
  if negb (special_fully_nested_mode c =? 0) && m then Z.ldiff (isr c) (bit 2) else isr c.

Lemma service_byte m c : kpic_ok c -> byte_ok (service m c).
Proof.
  intros [? ? ? ? ? ? ? ? ?]. unfold service. destruct (_ && _); [|done].
  apply byte_ok_ldiff; [done|apply bit_nonneg].
Qed.

Lemma byte_testbit x : byte_ok x -> x <> 0 -> exists i, 0 <= i < 8 /\ Z.testbit x i = true.
Proof.
  intros [H1 H2] Hne. exists (Z.log2 x). split; [|apply Z.bit_log2; lia].
  split; [apply Z.log2_nonneg|]. apply Z.log2_lt_pow2; [lia|]. done.
Qed.

Lemma get_irq_found m c : kpic_ok c -> 0 <= pic_get_irq m c ->
  let irq := pic_get_irq m c in
  irq < 8 /\ pending c irq = true /\
  (forall i, 0 <= i < 8 -> pending c i = true -> rank (priority_add c) irq <= rank (priority_add c) i) /\
  (forall i, 0 <= i < 8 -> Z.testbit (service m c) i = true -> rank (priority_add c) irq < rank (priority_add c) i).
Proof.
  intros Hc Hp. pose proof (k_add _ Hc) as Hadd.
  assert (Hb : byte_ok (Z.ldiff (irr c) (imr c))) by (apply byte_ok_ldiff; [apply Hc|apply (k_imr _ Hc)]).
  pose proof (service_byte m c Hc) as Hs. unfold pending.
  unfold pic_get_irq in *. fold (service m c) in *.
  destruct (Z.eq_dec (Z.ldiff (irr c) (imr c)) 0) as [E|E]; [rewrite E in Hp; cbn in Hp; lia|].
  destruct (get_priority_spec c (Z.ldiff (irr c) (imr c)) Hadd ltac:(unfold byte_ok in Hb; lia))
    as (P1 & P2 & P3 & P4 & P5).
  rewrite (proj2 (Z.eqb_neq (get_priority c (Z.ldiff (irr c) (imr c))) 8)) in * by lia.
  destruct (Z.ltb_spec (get_priority c (Z.ldiff (irr c) (imr c))) (get_priority c (service m c))) as [L|L]; [|lia].
  cbv zeta. split; [lia|]. split; [done|]. rewrite P4. split; [done|].
  intros i Hi Ht. destruct (Z.eq_dec (service m c) 0) as [E'|E']; [rewrite E', Z.bits_0 in Ht; done|].
  destruct (get_priority_spec c (service m c) Hadd ltac:(unfold byte_ok in Hs; lia)) as (_ & _ & _ & _ & Q).
  specialize (Q i Hi Ht). lia.
Qed.

Lemma get_irq_none m c i : kpic_ok c -> pic_get_irq m c < 0 -> 0 <= i < 8 -> pending c i = true ->
  exists j, 0 <= j < 8 /\ Z.testbit (service m c) j = true /\ rank (priority_add c) j <= rank (priority_add c) i.
Proof.
  intros Hc Hn Hi Ht. pose proof (k_add _ Hc) as Hadd. unfold pending in Ht.
  assert (Hb : byte_ok (Z.ldiff (irr c) (imr c))) by (apply byte_ok_ldiff; [apply Hc|apply (k_imr _ Hc)]).
  pose proof (service_byte m c Hc) as Hs.
  destruct (Z.eq_dec (Z.ldiff (irr c) (imr c)) 0) as [E|E]; [rewrite E, Z.bits_0 in Ht; done|].
  destruct (get_priority_spec c (Z.ldiff (irr c) (imr c)) Hadd ltac:(unfold byte_ok in Hb; lia))
    as (P1 & P2 & P3 & P4 & P5). specialize (P5 i Hi Ht).
  unfold pic_get_irq in Hn. fold (service m c) in Hn.
  rewrite (proj2 (Z.eqb_neq (get_priority c (Z.ldiff (irr c) (imr c))) 8)) in Hn by lia.
  destruct (Z.ltb_spec (get_priority c (Z.ldiff (irr c) (imr c))) (get_priority c (service m c))) as [L|L].
  { pose proof (land7 (get_priority c (Z.ldiff (irr c) (imr c)) + priority_add c)). lia. }
  destruct (Z.eq_dec (service m c) 0) as [E'|E']; [rewrite E', get_priority_zero in L; lia|].
  destruct (get_priority_spec c (service m c) Hadd ltac:(unfold byte_ok in Hs; lia)) as (Q1 & Q2 & Q3 & Q4 & _).
  eexists. split; [exact Q2|]. split; [exact Q3|]. lia.
Qed.

(** ** End of interrupt *)

Lemma chip_on_chip b f s : chip b (on_chip b f s) = f (chip b s).
Proof. by destruct b. Qed.

Lemma update_irq_isr b s : isr (chip b (pic_update_irq s)) = isr (chip b s).
Proof.
  assert (Hset : forall c i l, isr (fst (pic_set_irq1 c i l)) = isr c).
  { intros c i l. unfold pic_set_irq1.
    by destruct (is_set (elcr c) (bit i)), l, (negb (is_set (last_irr c) (bit i))). }
  unfold pic_update_irq. destruct (0 <=? pic_get_irq false (slave s)), b; try reflexivity.
  change (isr (fst (pic_set_irq1 (fst (pic_set_irq1 (master s) 2 true)) 2 false)) = isr (master s)).
  by rewrite !Hset.
Qed.

Lemma ldiff_lor_bit x i : 0 <= i -> Z.testbit x i = false -> Z.ldiff (Z.lor x (bit i)) (bit i) = x.
Proof.
  intros Hi Ht. apply Z.bits_inj'. intros j Hj. rewrite Z.ldiff_spec, Z.lor_spec, bit_testbit by done.
  destruct (Z.eqb_spec i j) as [->|]; [by rewrite Ht|]. by rewrite orb_false_r, andb_true_r.
Qed.

(** The line just acknowledged is the one with the highest priority in
    service. *)
Lemma acked_is_highest m c irq isr' : kpic_ok c -> special_fully_nested_mode c = 0 ->
  pic_get_irq m c = irq -> 0 <= irq -> isr' = Z.lor (isr c) (bit irq) ->
  Z.testbit (isr c) irq = false /\ get_priority c isr' <> 8 /\
  Z.land (get_priority c isr' + priority_add c) 7 = irq.
Proof.
  intros Hc Hsf <- Hirq ->. destruct (get_irq_found m c Hc Hirq) as (H1 & _ & _ & H4).
  set (irq := pic_get_irq m c) in *. assert (Es : service m c = isr c).
  { unfold service. by rewrite Hsf. }
  rewrite Es in H4. split.
  { destruct (Z.testbit (isr c) irq) eqn:E; [|done]. specialize (H4 irq ltac:(lia) E). lia. }
  assert (Hb : byte_ok (Z.lor (isr c) (bit irq))) by (apply byte_ok_lor; [apply Hc|apply bit_byte; lia]).
  assert (Ht : Z.testbit (Z.lor (isr c) (bit irq)) irq = true).
  { rewrite Z.lor_spec, bit_testbit, Z.eqb_refl by lia. apply orb_true_r. }
  assert (Hnz : Z.lor (isr c) (bit irq) <> 0) by (intros E; by rewrite E, Z.bits_0 in Ht).
  destruct (get_priority_spec c (Z.lor (isr c) (bit irq)) (k_add _ Hc) ltac:(unfold byte_ok in Hb; lia))
    as (P1 & P2 & P3 & P4 & P5). specialize (P5 irq ltac:(lia) Ht). split; [lia|].
  rewrite Z.lor_spec, bit_testbit in P3 by lia. apply orb_true_iff in P3 as [P3|P3].
  - specialize (H4 _ P2 P3). lia.
  - by apply Z.eqb_eq in P3.
Qed.

(** ** Claims *)

(** The controllers' registers keep their ranges: after any history of
    line changes, acknowledgements, port reads and port writes, with
    notifiers that themselves keep the invariant, every register is a byte,
    the rotation and the initialisation state are in range, the
    level-triggered lines are among those the chipset allows, and no
    operation fails. *)
Theorem pic_history_ok notify os :
  (forall irq s, pic_ok s -> pic_ok (notify irq s)) -> Forall op_typed os ->
  exists s, run_pic notify os kvm_create_pic = Ok s /\ pic_ok s.
Proof.
  intros Hn. generalize create_pic_ok. generalize kvm_create_pic.
  induction os as [|o os IH]; intros s H Hf; [cbn; eauto|].
  apply Forall_cons in Hf as [Ho Hf]. destruct (exec_pic_ok notify o s Hn Ho H) as (s' & E & H').
  cbn. rewrite E, bind_Ok. by apply IH.
Qed.

(** C28: the controller asks for the right interrupt.  The line it presents
    is requested and not masked, no requested line has a higher priority
    under the current rotation, and every line in service has a strictly
    lower one; it presents none only if each requested line is outranked by
    a line in service. *)
Theorem pic_get_irq_correct m c :
  kpic_ok c ->
  (0 <= pic_get_irq m c -> let irq := pic_get_irq m c in
     irq < 8 /\ pending c irq = true /\
     (forall i, 0 <= i < 8 -> pending c i = true -> rank (priority_add c) irq <= rank (priority_add c) i) /\
     (forall i, 0 <= i < 8 -> Z.testbit (service m c) i = true ->
        rank (priority_add c) irq < rank (priority_add c) i)) /\
  (pic_get_irq m c < 0 -> forall i, 0 <= i < 8 -> pending c i = true ->
     exists j, 0 <= j < 8 /\ Z.testbit (service m c) j = true /\
       rank (priority_add c) j <= rank (priority_add c) i).
Proof.
  intros Hc. split; [by apply get_irq_found|]. intros Hn i Hi Hp. by eapply get_irq_none.
Qed.

(** Interrupts nest.  A non-specific end of interrupt retires exactly
    the interrupt that was acknowledged last: acknowledging the line the
    controller presents and then writing the command leaves the in-service
    register as it was, when the notifiers leave it alone and neither
    automatic end of interrupt nor special nesting is on. *)
Theorem ack_then_eoi notify b irq s :
  pic_ok s -> (forall i s, isr (chip b (notify i s)) = isr (chip b s)) ->
  special_fully_nested_mode (chip b s) = 0 -> auto_eoi (chip b s) = 0 ->
  pic_get_irq (negb b) (chip b s) = irq -> 0 <= irq ->
  isr (chip b (pic_ocw2 notify b 0x20 (pic_intack notify b irq s))) = isr (chip b s).
Proof.
  intros H Hn Hsf Hae Hirq Hpos.
  destruct (acked_is_highest (negb b) (chip b s) irq _ (chip_ok b s H) Hsf Hirq Hpos eq_refl) as (Hf & Hne & Hhi).
  set (s1 := pic_intack notify b irq s).
  assert (E : isr (chip b s1) = Z.lor (isr (chip b s)) (bit irq) /\
    priority_add (chip b s1) = priority_add (chip b s)).
  { subst s1. unfold pic_intack.
    destruct (negb (is_set (elcr (chip b (on_chip b _ s))) (bit irq)));
      rewrite !chip_on_chip; cbn; rewrite Hae; cbn; by rewrite !chip_on_chip. }
  destruct E as [E1 E2]. unfold pic_ocw2. change (Z.shiftr 0x20 5) with 1. cbn [Z.eqb Pos.eqb orb].
  assert (Eg : get_priority (chip b s1) (isr (chip b s1)) =
    get_priority (chip b s) (Z.lor (isr (chip b s)) (bit irq))) by (unfold get_priority; by rewrite E1, E2).
  rewrite Eg, (proj2 (Z.eqb_neq _ _) Hne). cbn [negb]. rewrite update_irq_isr.
  unfold pic_clear_isr. rewrite Hn.
  rewrite E2, Hhi. assert (Hu : forall n x, isr (chip b (signal n (pic_unlock x))) = isr (chip b x)) by (by destruct b).
  rewrite Hu, chip_on_chip. cbn. rewrite E1. by apply ldiff_lor_bit.
Qed.

(** Both controllers initialised, idle, edge triggered, with the vectors
    [base0] and [base1]. *)
Definition idle (base0 base1 : Z) : kvm_pic :=
  Pic (KPic 0 0 0 0 0 base0 0 0 0 0 0 0 0 0 0 0xf8) (KPic 0 0 0 0 0 base1 0 0 0 0 0 0 0 0 0 0xde)
    0 false (replicate 16 0) [].

Lemma line_state_raised src : 0 <= src -> negb (line_state 0 src true =? 0) = true.
Proof.
  intros Hs. unfold line_state. rewrite Z.lor_0_l. unfold bit. rewrite Z.shiftl_1_l.
  apply negb_true_iff, Z.eqb_neq. pose proof (Z.pow_pos_nonneg 2 src). lia.
Qed.

(** The request of a pin of idle controllers, its line being raised. *)
Definition raised (base0 base1 pin st : Z) : kvm_pic :=
  let s := idle base0 base1 in
  let s1 := Pic (master s) (slave s) (output s) (wakeup_needed s) (<[Z.to_nat pin := st]> (irq_states s)) (notes s) in
  let b := negb (Z.shiftr pin 3 =? 0) in
  pic_unlock (pic_update_irq (on_chip b (fun _ => fst (pic_set_irq1 (chip b s1) (Z.land pin 7) true)) s1)).

Lemma set_irq_idle base0 base1 pin src : 0 <= pin < 16 -> 0 <= src < 64 ->
  kvm_pic_set_irq (idle base0 base1) pin src true
  = Ok (raised base0 base1 pin (line_state 0 src true),
        snd (pic_set_irq1 (chip (negb (Z.shiftr pin 3 =? 0)) (idle base0 base1)) (Z.land pin 7) true)).
Proof.
  intros Hp Hs. unfold kvm_pic_set_irq. rewrite !(proj2 (Z.ltb_ge _ _)), !(proj2 (Z.leb_gt _ _))
    by (unfold PIC_NUM_PINS; lia). cbn [orb]. unfold idle at 1. cbn [irq_states].
  rewrite lookup_replicate_2 by lia. rewrite (line_state_raised src (proj1 Hs)). unfold raised.
  by destruct (negb (Z.shiftr pin 3 =? 0)).
Qed.

(** An interrupt reaches the processor.  On idle controllers, raising
    any pin but the cascade raises the output, and the acknowledgement
    returns the vector of that pin, through the cascade for the pins of the
    slave. *)
Theorem interrupt_delivered notify base0 base1 pin src :
  0 <= pin < 16 -> pin <> 2 -> 0 <= src < 64 ->
  exists s1 s2, kvm_pic_set_irq (idle base0 base1) pin src true = Ok (s1, 1) /\ output s1 = 1 /\
    kvm_pic_read_irq notify s1 = (s2, if pin <? 8 then base0 + pin else base1 + (pin - 8)) /\
    output s2 = 0.
Proof.
  intros Hp Hne Hs. exists (raised base0 base1 pin (line_state 0 src true)),
    (fst (kvm_pic_read_irq notify (raised base0 base1 pin (line_state 0 src true)))).
  rewrite set_irq_idle by done. generalize (line_state 0 src true). intros st.
  assert (Hin : pin ∈ seqZ 0 16) by (apply elem_of_seqZ; lia).
  change (seqZ 0 16) with [0;1;2;3;4;5;6;7;8;9;10;11;12;13;14;15] in Hin.
  rewrite !elem_of_cons in Hin. repeat destruct Hin as [->|Hin]; 
    try (exfalso; apply Hne; reflexivity); try (apply elem_of_nil in Hin; destruct Hin);
    clear; vm_compute; repeat split.
Qed.

(** ** Examples *)

Definition demo_ops : list pic_op :=
  [PortWrite true 0x20 1 0x11; PortWrite true 0x21 1 0x30; SetIrq 4 0 true; ReadIrq;
   PortWrite true 0x20 1 0x20; PortRead 0x20 1].

Lemma demo_ops_typed : Forall op_typed demo_ops.
Proof. repeat (constructor; [cbn; unfold byte_ok, PIC_NUM_PINS; lia|]). constructor. Qed.

Lemma pic_history_ok_witness :
  exists s, run_pic (fun _ s => s) demo_ops kvm_create_pic = Ok s /\ pic_ok s.
Proof. exact (pic_history_ok (fun _ s => s) demo_ops (fun _ s H => H) demo_ops_typed). Defined.

Definition demo_kpic : kvm_kpic_state := KPic 0 0x18 0 0x20 0 0x30 0 0 0 0 0 0 0 0 0 0xf8.

Lemma demo_kpic_ok : kpic_ok demo_kpic.
Proof. split; cbn; unfold byte_ok; done || lia. Qed.

Lemma pic_get_irq_correct_witness : pic_get_irq true demo_kpic = 3 /\ pending demo_kpic 3 = true.
Proof.
  split; [vm_compute; reflexivity|].
  apply (pic_get_irq_correct true demo_kpic demo_kpic_ok). vm_compute. discriminate.
Defined.

Definition demo_pic : kvm_pic := Pic demo_kpic (slave (idle 0x30 0x38)) 0 false (replicate 16 0) [].

Lemma ack_then_eoi_witness :
  isr (chip false (pic_ocw2 (fun _ s => s) false 0x20 (pic_intack (fun _ s => s) false 3 demo_pic))) = 0x20.
Proof.
  apply (ack_then_eoi (fun _ s => s) false 3 demo_pic); try reflexivity; [|lia].
  split; [exact demo_kpic_ok|split; cbn; unfold byte_ok; done || lia|cbn; lia|reflexivity].
Defined.

Lemma interrupt_delivered_witness :
  exists s1 s2, kvm_pic_set_irq (idle 0x30 0x38) 12 0 true = Ok (s1, 1) /\ output s1 = 1 /\
    kvm_pic_read_irq (fun _ s => s) s1 = (s2, 0x38 + 4) /\ output s2 = 0.
Proof. apply (interrupt_delivered (fun _ s => s) 0x30 0x38 12 0); lia. Defined.
