(* ===== verification/Xbzrle.v ===== *)
(** * Delta encoding of migrated pages (xbzrle.c, util/cutils.c)

    A page that was sent before is sent again as the differences to the
    copy the receiver has: runs of equal bytes are counted and runs of
    different bytes are copied.  The encoder compares eight bytes at a time
    and finds the end of a run of differences with a bit trick. *)

From coqutil Require Import Byte Word.LittleEndianList.
From S2P Require Import Prelude GuestMem.

(** ** util/cutils.c *)

(** The bytes [uleb128_encode_small] writes; its assertion is an error. *)
Definition uleb128_encode_small (n : Z) : res (list byte) :=
  if 0x3fff <? n then Err AssertFailed
  else if n <? 0x80 then Ok [byte.of_Z n]
  else Ok [byte.of_Z (Z.lor (Z.land n 0x7f) 0x80); byte.of_Z (Z.shiftr n 7)].

(** The number read at the start of [src] and the bytes it took, [None]
    for the result -1. *)
Definition uleb128_decode_small (src : list byte) : res (option (nat * Z)) :=
  match src with
  | [] => Err BadPointer
  | b0 :: src =>
      if Z.land (byte.unsigned b0) 0x80 =? 0 then Ok (Some (1%nat, byte.unsigned b0))
      else
        match src with
        | [] => Err BadPointer
        | b1 :: _ =>
            if negb (Z.land (byte.unsigned b1) 0x80 =? 0) then Ok None
            else Ok (Some (2%nat, Z.lor (Z.land (byte.unsigned b0) 0x7f) (Z.shiftl (byte.unsigned b1) 7)))
        end
  end.

(** ** Scanning *)

(** [*(long * )(buf + i)] *)
Definition word (buf : list byte) (i : nat) : Z := le_combine (take 8 (drop i buf)).
Definition at_ (buf : list byte) (i : nat) : byte := default Byte.x00 (buf !! i).

Definition same (a b : byte) : bool := bool_decide (a = b).
Definition differ (a b : byte) : bool := negb (same a b).

(** [long mask = 0x0101010101010101ULL] and the test
    [(xor - mask) & ~xor & (mask << 7)]. *)
Definition lmask : Z := 0x0101010101010101.
Definition has_zero_byte (x : Z) : bool :=
  negb (Z.land (Z.ldiff (u64 (x - lmask)) x) (Z.shiftl lmask 7) =? 0).

Section encoder.
  Context (old_buf new_buf : list byte) (slen : nat).

(** [while (n-- && p(old_buf[i], new_buf[i])) i++] *)
Fixpoint run_bytes (p : byte -> byte -> bool) (n i : nat) : nat :=
  match n with
  | O => i
  | S n => if p (at_ old_buf i) (at_ new_buf i) then run_bytes p n (S i) else i
  end.

(** [while (i < slen && equal words) i += 8] *)
Fixpoint run_words (fuel i : nat) : nat :=
  match fuel with
  | O => i
  | S fuel =>
      if (i <? slen)%nat && (word old_buf i =? word new_buf i) then run_words fuel (i + 8) else i
  end.

(** The end of the run of equal bytes from [i]. *)
Definition zrun_end (i : nat) : nat :=
  let res := ((slen - i) mod 8)%nat in
  let i1 := run_bytes same res i in
  if (res - (i1 - i) =? 0)%nat then
    let i2 := run_words slen i1 in
    run_bytes same (slen - i2) i2
  else i1.

(** The loop over the words of a run of different bytes. *)
Fixpoint nz_words (fuel i : nat) : nat :=
  match fuel with
  | O => i
  | S fuel =>
      if (i <? slen)%nat then
        if has_zero_byte (Z.lxor (word old_buf i) (word new_buf i))
        then run_bytes differ (slen - i) i
        else nz_words fuel (i + 8)
      else i
  end.

Definition nzrun_end (i : nat) : nat :=
  let res := ((slen - i) mod 8)%nat in
  let i1 := run_bytes differ res i in
  if (res - (i1 - i) =? 0)%nat then nz_words slen i1 else i1.

(** ** The encoder *)

(** [out] is what was written to [dst], so that [d] is its length. *)
Fixpoint encode_loop (fuel : nat) (dlen i : nat) (out : list byte) : res (Z * list byte) :=
  match fuel with
  | O => Err OutOfFuel
  | S fuel =>
      if (slen <=? i)%nat then Ok (Z.of_nat (length out), out)
      else if (dlen <? length out + 2)%nat then Ok (- 1, out)
      else
        let i1 := zrun_end i in
        let zrun_len := (i1 - i)%nat in
        if (zrun_len =? slen)%nat then Ok (0, out)
        else if (i1 =? slen)%nat then Ok (Z.of_nat (length out), out)
        else
          z ← uleb128_encode_small (Z.of_nat zrun_len);
          let out := out ++ z in
          if (dlen <? length out + 2)%nat then Ok (- 1, out)
          else
            let i2 := nzrun_end i1 in
            let nzrun_len := (i2 - i1)%nat in
            n ← uleb128_encode_small (Z.of_nat nzrun_len);
            let out := out ++ n in
            if (dlen <? length out + nzrun_len)%nat then Ok (- 1, out)
            else encode_loop fuel dlen i2 (out ++ take nzrun_len (drop i1 new_buf))
  end.

(** The assertion on the length; the buffers are aligned. *)
Definition xbzrle_encode_buffer (dlen : nat) : res (Z * list byte) :=
  if negb (slen mod 8 =? 0)%nat then Err AssertFailed
  else encode_loop (S slen) dlen 0 [].

End encoder.

(** ** The decoder *)

(** [memcpy(dst + d, bytes, ...)] *)
Definition overwrite (dst : list byte) (d : nat) (bs : list byte) : list byte :=
  take d dst ++ bs ++ drop (d + length bs) dst.

(** [dst] has [dlen] bytes; an access outside a buffer is an error. *)
Fixpoint decode_loop (fuel : nat) (src : list byte) (i : nat) (dst : list byte) (d dlen : nat)
    : res (Z * list byte) :=
  match fuel with
  | O => Err OutOfFuel
  | S fuel =>
      let slen := length src in
      if (slen <=? i)%nat then Ok (Z.of_nat d, dst)
      else if (slen - i <? 2)%nat then Ok (- 1, dst)
      else
        z ← uleb128_decode_small (drop i src);
        match z with
        | None => Ok (- 1, dst)
        | Some (ret, count) =>
            if negb (i =? 0)%nat && (count =? 0) then Ok (- 1, dst)
            else
              let i := (i + ret)%nat in
              let d := (d + Z.to_nat count)%nat in
              if (dlen <? d)%nat then Ok (- 1, dst)
              else if (slen - i <? 2)%nat then Ok (- 1, dst)
              else
                n ← uleb128_decode_small (drop i src);
                match n with
                | None => Ok (- 1, dst)
                | Some (ret, count) =>
                    if count =? 0 then Ok (- 1, dst)
                    else
                      let i := (i + ret)%nat in
                      let count := Z.to_nat count in
                      if (dlen <? d + count)%nat || (slen <? i + count)%nat then Ok (- 1, dst)
                      else if (length dst <? d + count)%nat || (length src <? i + count)%nat
                      then Err BufferOverflow
                      else decode_loop fuel src (i + count) (overwrite dst d (take count (drop i src)))
                             (d + count) dlen
                end
        end
  end.

Definition xbzrle_decode_buffer (src dst : list byte) (dlen : nat) : res (Z * list byte) :=
  decode_loop (S (length src)) src 0 dst 0 dlen.

(** ** The bit trick *)

Lemma le_cons (b : byte) bs : le_combine (b :: bs) = byte.unsigned b + 256 * le_combine bs.
Proof.
  change (le_combine (b :: bs)) with (Z.lor (byte.unsigned b) (Z.shiftl (le_combine bs) 8)).
  rewrite Z.shiftl_mul_pow2 by lia. change (2 ^ 8) with 256. rewrite (Z.mul_comm 256).
  enough (H : Z.land (byte.unsigned b) (le_combine bs * 256) = 0)
    by (by rewrite <- Z.lxor_lor, <- Z.add_nocarry_lxor).
  apply Z.bits_inj'. intros i Hi. rewrite Z.land_spec, Z.bits_0.
  change 256 with (2 ^ 8). destruct (Z.lt_ge_cases i 8).
  - rewrite Z.mul_pow2_bits_low by lia. apply andb_false_r.
  - replace (Z.testbit (byte.unsigned b) i) with false; [done|]. symmetry.
    pose proof (byte.unsigned_range b). destruct (Z.eq_dec (byte.unsigned b) 0) as [->|]; [apply Z.bits_0|].
    apply Z.bits_above_log2; [lia|]. apply Z.log2_lt_pow2; [lia|].
    apply Z.lt_le_trans with (2 ^ 8); [lia|]. apply Z.pow_le_mono_r; lia.
Qed.

(** [n] bytes of value one. *)
Definition ones (n : nat) : Z := le_combine (replicate n Byte.x01).

Lemma ones_S n : ones (S n) = 1 + 256 * ones n.
Proof. unfold ones. cbn [replicate]. by rewrite le_cons. Qed.

(** Bits of a number with a low byte. *)
Lemma testbit_low b y i : 0 <= b < 256 -> 0 <= i < 8 -> Z.testbit (b + 256 * y) i = Z.testbit b i.
Proof.
  intros Hb Hi. rewrite <- (Z.mod_pow2_bits_low (b + 256 * y) 8 i), <- (Z.mod_pow2_bits_low b 8 i) by lia.
  f_equal. change (2 ^ 8) with 256. rewrite Z.mul_comm, Z.mod_add by lia. done.
Qed.

Lemma testbit_high b y i : 0 <= b < 256 -> 0 <= i -> Z.testbit (b + 256 * y) (8 + i) = Z.testbit y i.
Proof.
  intros Hb Hi. rewrite Z.add_comm, (Z.add_comm 8), <- Z.div_pow2_bits by lia.
  change (2 ^ 8) with 256. f_equal. rewrite Z.add_comm, Z.mul_comm, Z.div_add by lia.
  by rewrite Z.div_small.
Qed.

Definition nonzero (b : byte) : Prop := byte.unsigned b <> 0.

Lemma zero_byte_found lo : forall hi, Forall nonzero lo ->
  let l := lo ++ Byte.x00 :: hi in
  Z.testbit (le_combine l - ones (length l)) (8 * Z.of_nat (length lo) + 7) = true /\
  Z.testbit (le_combine l) (8 * Z.of_nat (length lo) + 7) = false.
Proof.
  induction lo as [|b lo IH]; intros hi Hf; cbn [app length].
  - rewrite ones_S, le_cons. change (byte.unsigned Byte.x00) with 0. change (8 * Z.of_nat 0 + 7) with 7.
    replace (0 + 256 * le_combine hi - (1 + 256 * ones (length hi)))
      with (255 + 256 * (le_combine hi - ones (length hi) - 1)) by lia.
    by rewrite !testbit_low by lia.
  - apply Forall_cons in Hf as [Hb Hf]. unfold nonzero in Hb. specialize (IH hi Hf). cbv zeta in IH.
    pose proof (byte.unsigned_range b). rewrite ones_S, le_cons.
    replace (8 * Z.of_nat (S (length lo)) + 7) with (8 + (8 * Z.of_nat (length lo) + 7)) by lia.
    match goal with |- context [le_combine ?l] => set (X := le_combine l) in *; set (N := length l) in * end.
    replace (byte.unsigned b + 256 * X - (1 + 256 * ones N))
      with ((byte.unsigned b - 1) + 256 * (X - ones N)) by lia.
    rewrite !testbit_high by lia. exact IH.
Qed.

Lemma testbit7 b : 0 <= b < 256 -> Z.testbit b 7 = (128 <=? b).
Proof.
  intros Hb. rewrite Z.testbit_eqb by lia. change (2 ^ 7) with 128.
  destruct (Z.leb_spec 128 b).
  - replace (b / 128) with 1; [done|]. apply Z.div_unique with (b - 128); lia.
  - by rewrite Z.div_small by lia.
Qed.

Lemma no_zero_byte l : Forall nonzero l -> forall k, (k < length l)%nat ->
  Z.testbit (le_combine l - ones (length l)) (8 * Z.of_nat k + 7) = true ->
  Z.testbit (le_combine l) (8 * Z.of_nat k + 7) = true.
Proof.
  induction 1 as [|b l Hb Hl IH]; intros k Hk; cbn [length] in *; [lia|].
  unfold nonzero in Hb. pose proof (byte.unsigned_range b). rewrite ones_S, le_cons.
  replace (byte.unsigned b + 256 * le_combine l - (1 + 256 * ones (length l)))
    with ((byte.unsigned b - 1) + 256 * (le_combine l - ones (length l))) by lia.
  destruct k as [|k].
  - change (8 * Z.of_nat 0 + 7) with 7. rewrite !testbit_low, !testbit7 by lia. rewrite !Z.leb_le. lia.
  - replace (8 * Z.of_nat (S k) + 7) with (8 + (8 * Z.of_nat k + 7)) by lia.
    rewrite !testbit_high by lia. apply IH. lia.
Qed.

(** The bits of [mask << 7]. *)
Lemma high_bits i : 0 <= i -> Z.testbit (Z.shiftl lmask 7) i = true <-> exists k, (k < 8)%nat /\ i = 8 * Z.of_nat k + 7.
Proof.
  intros Hi. destruct (Z.lt_ge_cases i 64) as [Hlt|Hge].
  - assert (Hc : forallb (fun i => eqb (Z.testbit (Z.shiftl lmask 7) i) (i mod 8 =? 7)) (seqZ 0 64) = true)
      by (vm_compute; reflexivity).
    rewrite forallb_forall in Hc. specialize (Hc i ltac:(apply list_elem_of_In, elem_of_seqZ; lia)).
    apply eqb_prop in Hc. rewrite Hc, Z.eqb_eq. split.
    + intros Hm. exists (Z.to_nat (i / 8)). pose proof (Z.div_mod i 8 ltac:(lia)).
      pose proof (Z.div_pos i 8). split; [|rewrite Z2Nat.id by lia; lia].
      apply Nat2Z.inj_lt. rewrite Z2Nat.id by lia. lia.
    + intros (k & Hk & ->). rewrite Z.mul_comm, Z.add_comm, Z.mod_add by lia. done.
  - split; [|intros (k & Hk & ->); lia]. intros Ht. exfalso.
    assert (Z.testbit (Z.shiftl lmask 7) i = false); [|congruence].
    apply Z.bits_above_log2; [vm_compute; discriminate|]. apply Z.lt_le_trans with 64; [reflexivity|lia].
Qed.

Lemma has_zero_byte_iff l : length l = 8%nat ->
  has_zero_byte (le_combine l) = true <-> Exists (fun b => byte.unsigned b = 0) l.
Proof.
  intros Hl. assert (HM : lmask = ones (length l)) by (by rewrite Hl).
  assert (Hbit : forall k, (k < 8)%nat ->
    Z.testbit (u64 (le_combine l - lmask)) (8 * Z.of_nat k + 7)
    = Z.testbit (le_combine l - lmask) (8 * Z.of_nat k + 7))
    by (intros k Hk; unfold u64; apply Z.mod_pow2_bits_low; lia).
  unfold has_zero_byte. rewrite negb_true_iff, Z.eqb_neq. split.
  - intros Hne. destruct (decide (Exists (fun b => byte.unsigned b = 0) l)) as [|Hno]; [done|]. exfalso.
    apply Hne. apply Z.bits_inj'. intros i Hi. rewrite Z.bits_0, Z.land_spec, Z.ldiff_spec.
    destruct (Z.testbit (Z.shiftl lmask 7) i) eqn:Et; [|apply andb_false_r].
    apply high_bits in Et as (k & Hk & ->); [|done]. rewrite Hbit, HM by done.
    apply not_Exists_Forall in Hno; [|intros b; apply _].
    destruct (Z.testbit (le_combine l - ones (length l)) (8 * Z.of_nat k + 7)) eqn:E1; [|done].
    rewrite (no_zero_byte l Hno k) by (done || lia). done.
  - intros Hex Hz. assert (Hsplit : exists lo hi, l = lo ++ Byte.x00 :: hi /\ Forall nonzero lo).
    { clear -Hex. induction Hex as [b l Hb|b l _ (lo & hi & -> & Hf)].
      - exists [], l. split; [|constructor]. cbn. f_equal. apply byte.unsigned_inj. by rewrite Hb.
      - destruct (Z.eq_dec (byte.unsigned b) 0) as [Hb|Hb].
        + exists [], (lo ++ Byte.x00 :: hi). split; [|constructor]. cbn. f_equal.
          apply byte.unsigned_inj. by rewrite Hb.
        + exists (b :: lo), hi. split; [done|]. by constructor. }
    destruct Hsplit as (lo & hi & E & Hf). destruct (zero_byte_found lo hi Hf) as [H1 H2].
    rewrite <- E in H1, H2. assert (Hk : (length lo < 8)%nat) by (rewrite <- Hl, E, length_app; cbn; lia).
    assert (Ht : Z.testbit 0 (8 * Z.of_nat (length lo) + 7) = true); [|by rewrite Z.bits_0 in Ht].
    rewrite <- Hz, Z.land_spec, Z.ldiff_spec, Hbit, HM, H1, H2 by done. cbn [andb negb].
    rewrite <- HM. apply high_bits; [lia|eauto].
Qed.

(** ** Scanning by words is scanning by bytes *)

(** The length of the longest prefix on which [p] holds. *)
Fixpoint preflen (p : byte -> byte -> bool) (l1 l2 : list byte) : nat :=
  match l1, l2 with
  | a :: l1, b :: l2 => if p a b then S (preflen p l1 l2) else O
  | _, _ => O
  end.

Definition bxor (a b : byte) : byte := byte.of_Z (Z.lxor (byte.unsigned a) (byte.unsigned b)).

Lemma bxor_unsigned a b : byte.unsigned (bxor a b) = Z.lxor (byte.unsigned a) (byte.unsigned b).
Proof.
  unfold bxor. rewrite byte.unsigned_of_Z. unfold byte.wrap. apply Z.mod_small.
  pose proof (byte.unsigned_range a). pose proof (byte.unsigned_range b).
  split; [apply Z.lxor_nonneg; lia|]. change (2 ^ 8) with 256.
  destruct (Z.eq_dec (Z.lxor (byte.unsigned a) (byte.unsigned b)) 0) as [->|Hne]; [lia|].
  assert (0 <= Z.lxor (byte.unsigned a) (byte.unsigned b)) by (apply Z.lxor_nonneg; lia).
  change 256 with (2 ^ 8). apply Z.log2_lt_pow2; [lia|].
  apply Z.le_lt_trans with (Z.max (Z.log2 (byte.unsigned a)) (Z.log2 (byte.unsigned b)));
    [apply Z.log2_lxor; lia|].
  assert (Hlog : forall x, 0 <= x < 256 -> Z.log2 x < 8).
  { intros x Hx. destruct (Z.eq_dec x 0) as [->|]; [done|]. apply Z.log2_lt_pow2; [lia|]. cbn. lia. }
  pose proof (Hlog _ H). pose proof (Hlog _ H0). lia.
Qed.

Lemma bxor_zero a b : byte.unsigned (bxor a b) = 0 <-> a = b.
Proof.
  rewrite bxor_unsigned, Z.lxor_eq_0_iff. split; [apply byte.unsigned_inj|congruence].
Qed.

Lemma lxor_le_combine a : forall b, length a = length b ->
  Z.lxor (le_combine a) (le_combine b) = le_combine (zip_with bxor a b).
Proof.
  induction a as [|x a IH]; intros [|y b] Hl; try discriminate; [done|]. injection Hl as Hl.
  cbn [zip_with]. rewrite !le_cons, <- IH, bxor_unsigned by done.
  pose proof (byte.unsigned_range x). pose proof (byte.unsigned_range y).
  pose proof (byte.unsigned_range (bxor x y)) as Hxy. rewrite bxor_unsigned in Hxy.
  apply Z.bits_inj'. intros i Hi. destruct (Z.lt_ge_cases i 8) as [Hlt|Hge].
  - by rewrite Z.lxor_spec, !testbit_low, Z.lxor_spec by lia.
  - replace i with (8 + (i - 8)) by lia. by rewrite Z.lxor_spec, !testbit_high, Z.lxor_spec by lia.
Qed.

Lemma preflen_same_take k : forall l1 l2, (k <= length l1)%nat -> (k <= length l2)%nat ->
  take k l1 = take k l2 -> preflen same l1 l2 = (k + preflen same (drop k l1) (drop k l2))%nat.
Proof.
  induction k as [|k IH]; intros l1 l2 H1 H2 E; [done|].
  destruct l1 as [|a l1], l2 as [|b l2]; cbn in *; try lia. injection E as -> E.
  unfold same at 1. rewrite bool_decide_true by done. rewrite IH by (done || lia). done.
Qed.

Lemma preflen_differ_take k : forall l1 l2, (k <= length l1)%nat -> (k <= length l2)%nat ->
  Forall (fun b => byte.unsigned b <> 0) (zip_with bxor (take k l1) (take k l2)) ->
  preflen differ l1 l2 = (k + preflen differ (drop k l1) (drop k l2))%nat.
Proof.
  induction k as [|k IH]; intros l1 l2 H1 H2 E; [done|].
  destruct l1 as [|a l1], l2 as [|b l2]; cbn in *; try lia. apply Forall_cons in E as [Hne E].
  rewrite bxor_zero in Hne. unfold differ at 1, same. rewrite bool_decide_false by done. cbn.
  rewrite IH by (done || lia). done.
Qed.

Section scan.
  Context (old_buf new_buf : list byte) (slen : nat).
  Context (Hold : length old_buf = slen) (Hnew : length new_buf = slen).

Definition ref_len (p : byte -> byte -> bool) (i : nat) : nat :=
  preflen p (drop i old_buf) (drop i new_buf).

Lemma at_drop (buf : list byte) i : (i < length buf)%nat -> drop i buf = at_ buf i :: drop (S i) buf.
Proof.
  intros Hi. unfold at_. destruct (lookup_lt_is_Some_2 buf i Hi) as [b Hb]. rewrite Hb.
  cbn. by apply drop_S.
Qed.

Lemma ref_len_step p i : (i < slen)%nat ->
  ref_len p i = if p (at_ old_buf i) (at_ new_buf i) then S (ref_len p (S i)) else 0%nat.
Proof. intros Hi. unfold ref_len. rewrite (at_drop old_buf i), (at_drop new_buf i) by lia. done. Qed.

Lemma ref_len_end p i : (slen <= i)%nat -> ref_len p i = 0%nat.
Proof. intros Hi. unfold ref_len. by rewrite !drop_ge by lia. Qed.

Lemma preflen_le p l1 : forall l2, (preflen p l1 l2 <= length l1)%nat.
Proof.
  induction l1 as [|a l1 IH]; intros [|b l2]; cbn; try lia. destruct (p a b); [|lia].
  specialize (IH l2). lia.
Qed.

Lemma ref_len_le p i : (i <= slen)%nat -> (i + ref_len p i <= slen)%nat.
Proof. intros Hi. unfold ref_len. pose proof (preflen_le p (drop i old_buf) (drop i new_buf)) as H.
  rewrite length_drop in H. lia. Qed.

Lemma run_bytes_spec p n : forall i, (i + n <= slen)%nat ->
  run_bytes old_buf new_buf p n i = (i + Nat.min n (ref_len p i))%nat.
Proof.
  induction n as [|n IH]; intros i Hi; cbn [run_bytes]; [lia|].
  rewrite (ref_len_step p i) by lia. destruct (p _ _); [rewrite IH by lia|]; lia.
Qed.

Lemma run_to_end p i : (i <= slen)%nat -> run_bytes old_buf new_buf p (slen - i) i = (i + ref_len p i)%nat.
Proof.
  intros Hi. rewrite run_bytes_spec by lia. pose proof (ref_len_le p i Hi). lia.
Qed.

Lemma ref_len_shift p k : forall i, (k <= ref_len p i)%nat ->
  ref_len p i = (k + ref_len p (i + k))%nat.
Proof.
  induction k as [|k IH]; intros i Hk; [by rewrite Nat.add_0_r|].
  destruct (decide (i < slen)%nat) as [Hi|]; [|rewrite ref_len_end in Hk by lia; lia].
  rewrite (ref_len_step p i) in Hk |- * by done. destruct (p _ _); [|lia].
  rewrite (IH (S i)) by lia. by replace (S i + k)%nat with (i + S k)%nat by lia.
Qed.

Lemma run_words_spec fuel : forall q i, slen = (i + 8 * q)%nat ->
  exists k, run_words old_buf new_buf slen fuel i = (i + 8 * k)%nat /\ (k <= q)%nat /\
            ref_len same i = (8 * k + ref_len same (i + 8 * k))%nat.
Proof.
  induction fuel as [|fuel IH]; intros q i Hq; cbn [run_words];
    [exists 0%nat; rewrite Nat.add_0_r; lia|].
  destruct (Nat.ltb_spec i slen) as [Hi|]; cbn [andb];
    [|exists 0%nat; rewrite Nat.add_0_r; lia].
  destruct (Z.eqb_spec (word old_buf i) (word new_buf i)) as [E|];
    [|exists 0%nat; rewrite Nat.add_0_r; lia].
  destruct (IH (q - 1)%nat (i + 8)%nat ltac:(lia)) as (k & -> & Hk & E').
  exists (S k). replace (i + 8 * S k)%nat with (i + 8 + 8 * k)%nat by lia.
  split; [done|]. split; [lia|].
  assert (Hw : take 8 (drop i old_buf) = take 8 (drop i new_buf)).
  { apply le_combine_inj; [by rewrite !length_take, !length_drop, Hold, Hnew|exact E]. }
  unfold ref_len at 1. rewrite (preflen_same_take 8) by (rewrite ?length_drop; lia || done).
  rewrite !drop_drop. fold (ref_len same (i + 8)). lia.
Qed.

Lemma mod_words i : (i <= slen)%nat -> exists q, slen = (i + (slen - i) mod 8 + 8 * q)%nat.
Proof. intros Hi. exists ((slen - i) / 8)%nat. pose proof (Nat.div_mod_eq (slen - i) 8). lia. Qed.

Lemma zrun_end_spec i : (i <= slen)%nat ->
  zrun_end old_buf new_buf slen i = (i + ref_len same i)%nat.
Proof.
  intros Hi. unfold zrun_end. destruct (mod_words i Hi) as [q Hq].
  set (r := ((slen - i) mod 8)%nat) in *. rewrite run_bytes_spec by lia.
  destruct (Nat.eqb_spec (r - (i + Nat.min r (ref_len same i) - i)) 0); [|lia].
  replace (Nat.min r (ref_len same i)) with r by lia.
  destruct (run_words_spec slen q (i + r)%nat ltac:(lia)) as (k & -> & Hk & E).
  rewrite run_to_end by lia. rewrite (ref_len_shift same r i) by lia. lia.
Qed.

(** A word of the run, and the word where it ends. *)
Lemma nz_words_spec fuel : forall q i, (q <= fuel)%nat -> slen = (i + 8 * q)%nat ->
  nz_words old_buf new_buf slen fuel i = (i + ref_len differ i)%nat.
Proof.
  induction fuel as [|fuel IH]; intros q i Hf Hq; cbn [nz_words];
    [rewrite ref_len_end by lia; lia|].
  destruct (Nat.ltb_spec i slen) as [Hi|]; [|rewrite ref_len_end by lia; lia].
  destruct (has_zero_byte _) eqn:E; [apply run_to_end; lia|].
  rewrite (IH (q - 1)%nat) by lia. unfold ref_len at 2.
  rewrite (preflen_differ_take 8); [|rewrite length_drop; lia..|].
  - rewrite !drop_drop. fold (ref_len differ (i + 8)). lia.
  - apply not_true_iff_false in E. unfold word in E.
    rewrite lxor_le_combine in E by (rewrite !length_take, !length_drop; lia).
    rewrite has_zero_byte_iff in E by (rewrite length_zip_with, !length_take, !length_drop; lia).
    by apply Forall_Exists_neg.
Qed.

Lemma nzrun_end_spec i : (i <= slen)%nat ->
  nzrun_end old_buf new_buf slen i = (i + ref_len differ i)%nat.
Proof.
  intros Hi. unfold nzrun_end. destruct (mod_words i Hi) as [q Hq].
  set (r := ((slen - i) mod 8)%nat) in *. rewrite run_bytes_spec by lia.
  destruct (Nat.eqb_spec (r - (i + Nat.min r (ref_len differ i) - i)) 0); [|lia].
  replace (Nat.min r (ref_len differ i)) with r by lia.
  rewrite (nz_words_spec slen q (i + r)%nat) by lia. rewrite (ref_len_shift differ r i) by lia. lia.
Qed.

(** What a byte-by-byte scan says of the bytes it passed and of the byte
    it stopped at. *)
Lemma ref_len_same_eq i : take (ref_len same i) (drop i old_buf) = take (ref_len same i) (drop i new_buf).
Proof.
  unfold ref_len. generalize (drop i new_buf). generalize (drop i old_buf).
  induction l as [|a l IH]; intros [|b l']; cbn; try done.
  unfold same at 1 3. destruct (decide (a = b)) as [->|Hne].
  - rewrite !bool_decide_true by done. cbn. by rewrite IH.
  - by rewrite !bool_decide_false.
Qed.

Lemma ref_len_stops p i : (i + ref_len p i < slen)%nat ->
  p (at_ old_buf (i + ref_len p i)) (at_ new_buf (i + ref_len p i)) = false.
Proof.
  intros Hi. pose proof (ref_len_shift p (ref_len p i) i ltac:(lia)) as E.
  rewrite (ref_len_step p (i + ref_len p i)) in E by done. destruct (p _ _); [lia|done].
Qed.
End scan.

(** ** The numbers *)

Definition uleb (n : nat) : list byte :=
  match uleb128_encode_small (Z.of_nat n) with Ok l => l | Err _ => [] end.

Lemma uleb_ok n : Z.of_nat n <= 0x3fff -> uleb128_encode_small (Z.of_nat n) = Ok (uleb n).
Proof.
  intros Hn. unfold uleb, uleb128_encode_small.
  destruct (Z.ltb_spec 0x3fff (Z.of_nat n)); [lia|]. by destruct (_ <? 0x80).
Qed.

Lemma uleb_length n : Z.of_nat n <= 0x3fff ->
  (1 <= length (uleb n) <= 2)%nat /\ (length (uleb n) <= Nat.max 1 n)%nat.
Proof.
  intros Hn. unfold uleb, uleb128_encode_small.
  destruct (Z.ltb_spec 0x3fff (Z.of_nat n)); [lia|]. destruct (Z.ltb_spec (Z.of_nat n) 0x80); cbn; lia.
Qed.

Lemma of_Z_small z : 0 <= z < 256 -> byte.unsigned (byte.of_Z z) = z.
Proof. intros. rewrite byte.unsigned_of_Z. by apply Z.mod_small. Qed.

Lemma land_bit7 z : 0 <= z < 128 -> Z.land z 0x80 = 0.
Proof.
  intros Hz. rewrite <- (Z.mod_small z (2 ^ 7)), <- Z.land_ones by lia.
  rewrite <- Z.land_assoc. apply Z.land_0_r.
Qed.

Lemma two_bytes z : 0 <= z <= 0x3fff ->
  0 <= Z.lor (Z.land z 0x7f) 0x80 < 256 /\ 0 <= Z.shiftr z 7 < 128 /\
  Z.land (Z.lor (Z.land z 0x7f) 0x80) 0x80 = 0x80 /\
  Z.lor (Z.land (Z.lor (Z.land z 0x7f) 0x80) 0x7f) (Z.shiftl (Z.shiftr z 7) 7) = z.
Proof.
  intros Hz. assert (Hlow : Z.land z 0x7f = z mod 128) by (apply (Z.land_ones z 7); lia).
  pose proof (Z.mod_pos_bound z 128 ltac:(lia)).
  assert (Hd : Z.land (Z.land z 0x7f) 0x80 = 0) by (rewrite <- Z.land_assoc; apply Z.land_0_r).
  split; [|split; [|split]].
  - pose proof (Z.add_lor_land (Z.land z 127) 128) as E. rewrite Hd in E. lia.
  - rewrite Z.shiftr_div_pow2 by lia. change (2 ^ 7) with 128.
    split; [apply Z.div_pos; lia|]. apply Z.div_lt_upper_bound; lia.
  - by rewrite Z.land_lor_distr_l, Hd.
  - rewrite Z.land_lor_distr_l, <- Z.land_assoc. change (Z.land 127 127) with (Z.ones 7).
    change (Z.land 128 127) with 0. rewrite Z.lor_0_r, Z.lor_comm, <- Z.ldiff_ones_r by lia.
    apply Z.lor_ldiff_and.
Qed.

Lemma uleb_roundtrip n l : Z.of_nat n <= 0x3fff ->
  uleb128_decode_small (uleb n ++ l) = Ok (Some (length (uleb n), Z.of_nat n)).
Proof.
  intros Hn. unfold uleb, uleb128_encode_small.
  destruct (Z.ltb_spec 0x3fff (Z.of_nat n)); [lia|]. destruct (Z.ltb_spec (Z.of_nat n) 0x80).
  - cbn [app uleb128_decode_small length]. by rewrite of_Z_small, land_bit7 by lia.
  - destruct (two_bytes (Z.of_nat n) ltac:(lia)) as (H1 & H2 & H3 & H4).
    cbn [app uleb128_decode_small length]. rewrite !of_Z_small, H3, land_bit7, H4 by lia. done.
Qed.

(** ** The round trip *)

Lemma drop_pre (src l1 l2 : list byte) i : drop i src = l1 ++ l2 -> drop (i + length l1) src = l2.
Proof. intros E. by rewrite <- drop_drop, E, drop_app_length. Qed.

Lemma ltb_false a b : (b <= a)%nat -> (a <? b)%nat = false.
Proof. apply Nat.ltb_ge. Qed.

(** One turn of the decoder over one encoded pair of runs. *)
Lemma decode_step fuel src i rest dst d dlen zl body :
  Z.of_nat zl <= 0x3fff -> Z.of_nat (length body) <= 0x3fff -> body <> [] ->
  (i = 0 \/ 0 < zl)%nat -> (d + zl + length body <= dlen)%nat -> (dlen <= length dst)%nat ->
  drop i src = uleb zl ++ uleb (length body) ++ body ++ rest ->
  decode_loop (S fuel) src i dst d dlen =
  decode_loop fuel src (i + length (uleb zl ++ uleb (length body) ++ body))
    (overwrite dst (d + zl) body) (d + zl + length body) dlen.
Proof.
  intros Hz Hn Hb Hpre Hd Hlen Hs.
  assert (Hbl : (1 <= length body)%nat) by (destruct body; [done|cbn; lia]).
  destruct (uleb_length zl Hz) as [Hz' _]. destruct (uleb_length _ Hn) as [Hn' _].
  pose proof (f_equal length Hs) as Hsrc. rewrite length_drop, !length_app in Hsrc.
  pose proof (drop_pre _ _ _ _ Hs) as Hs2. pose proof (drop_pre _ _ _ _ Hs2) as Hs3.
  cbn [decode_loop]. destruct (Nat.leb_spec (length src) i); [lia|].
  rewrite ltb_false by lia. rewrite Hs, uleb_roundtrip by done. cbn [mbind res_bind].
  destruct (negb (i =? 0)%nat && (Z.of_nat zl =? 0)) eqn:E;
    [apply andb_true_iff in E as [E1%negb_true_iff E2]; apply Nat.eqb_neq in E1; lia|].
  rewrite !Nat2Z.id, ltb_false, ltb_false by lia. rewrite Hs2, uleb_roundtrip by done.
  cbn [mbind res_bind]. destruct (Z.eqb_spec (Z.of_nat (length body)) 0); [lia|].
  rewrite !Nat2Z.id, !ltb_false by lia. cbn [orb].
  rewrite Hs3, take_app_length, !length_app. f_equal; lia.
Qed.

Section roundtrip.
  Context (old_buf new_buf : list byte) (slen : nat).
  Context (Hold : length old_buf = slen) (Hnew : length new_buf = slen) (Hmax : Z.of_nat slen <= 0x3fff).

(** The page with its first [i] bytes updated. *)
Definition upto (i : nat) : list byte := take i new_buf ++ drop i old_buf.

Lemma upto_length i : length (upto i) = slen.
Proof. unfold upto. rewrite length_app, length_take, length_drop. lia. Qed.

Lemma upto_step i n : let z := ref_len old_buf new_buf same i in
  (i + z + n <= slen)%nat ->
  overwrite (upto i) (i + z) (take n (drop (i + z) new_buf)) = upto (i + z + n).
Proof.
  intros z Hi. unfold overwrite. rewrite length_take_le by (rewrite length_drop; lia).
  assert (Ht : take (i + z) (upto i) = take (i + z) new_buf).
  { unfold upto. rewrite take_app, take_take, length_take.
    replace (i `min` length new_buf)%nat with i by lia. replace ((i + z) `min` i)%nat with i by lia.
    replace (i + z - i)%nat with z by lia. unfold z. rewrite ref_len_same_eq.
    by rewrite take_take_drop. }
  assert (Hdr : drop (i + z + n) (upto i) = drop (i + z + n) old_buf).
  { unfold upto. rewrite drop_app, drop_ge, drop_drop, length_take by (rewrite length_take; lia).
    cbn. f_equal. lia. }
  rewrite Ht, Hdr. unfold upto. by rewrite app_assoc, take_take_drop.
Qed.

Lemma upto_end i : (i <= slen)%nat -> (i + ref_len old_buf new_buf same i = slen)%nat -> upto i = new_buf.
Proof.
  intros Hi Hz. pose proof (ref_len_same_eq old_buf new_buf i) as E.
  rewrite !take_ge in E by (rewrite length_drop; lia). unfold upto. rewrite E. apply take_drop.
Qed.

(** What holds of the encoder's position and output between two pairs of
    runs. *)
Record enc_inv (i : nat) (out : list byte) : Prop := {
  inv_pos : (i <= slen)%nat;
  inv_start : (i = 0)%nat -> out = [];
  inv_zrun : (0 < i < slen)%nat -> (0 < ref_len old_buf new_buf same i)%nat;
  inv_size : (length out <= 2 * i + 1)%nat;
  inv_dec : forall rest, exists k, (k <= length out)%nat /\ forall fuel,
    decode_loop (k + fuel) (out ++ rest) 0 old_buf 0 slen =
    decode_loop fuel (out ++ rest) (length out) (upto i) i slen
}.

Lemma enc_inv_start : enc_inv 0 [].
Proof.
  split; try done; try (cbn; lia). intros rest. by exists 0%nat.
Qed.

(** A pair of runs. *)
Definition pair_len (i : nat) : nat * nat :=
  let z := ref_len old_buf new_buf same i in (z, ref_len old_buf new_buf differ (i + z)).

Definition pair_out (i : nat) : list byte :=
  let z := (pair_len i).1 in let n := (pair_len i).2 in
  uleb z ++ uleb n ++ take n (drop (i + z) new_buf).

Lemma pair_bounds i : (i + (pair_len i).1 < slen)%nat ->
  (0 < (pair_len i).2)%nat /\ (i + (pair_len i).1 + (pair_len i).2 <= slen)%nat.
Proof.
  cbn. intros Hi. pose proof (ref_len_stops _ _ _ Hold Hnew same i Hi) as Hs.
  pose proof (ref_len_le _ _ _ Hold Hnew differ (i + ref_len old_buf new_buf same i)%nat ltac:(lia)).
  split; [|done]. rewrite (ref_len_step _ _ _ Hold Hnew) by done.
  unfold differ at 1. rewrite Hs. cbn. lia.
Qed.

(** The room a pair of runs takes. *)
Lemma pair_size i out : enc_inv i out -> (i + (pair_len i).1 < slen)%nat ->
  (i = 0 \/ 0 < (pair_len i).1)%nat /\
  (length out + length (uleb (pair_len i).1) <= 2 * (i + (pair_len i).1) + 1)%nat /\
  (length (uleb (pair_len i).1) <= 2)%nat /\
  (length (uleb (pair_len i).2) <= Nat.min 2 (pair_len i).2)%nat.
Proof.
  intros Hinv Hi. destruct (pair_bounds i Hi) as [Hn Hb].
  destruct (uleb_length (pair_len i).1 ltac:(lia)). destruct (uleb_length (pair_len i).2 ltac:(lia)).
  pose proof (inv_size _ _ Hinv). destruct (decide (i = 0)%nat) as [Hi0|Hi0].
  - pose proof (inv_start _ _ Hinv Hi0) as ->. cbn [length]. lia.
  - assert (0 < (pair_len i).1)%nat by (apply (inv_zrun _ _ Hinv); lia). lia.
Qed.

Lemma enc_inv_step i out : enc_inv i out -> (i + (pair_len i).1 < slen)%nat ->
  enc_inv (i + (pair_len i).1 + (pair_len i).2) (out ++ pair_out i).
Proof.
  intros Hinv Hi. destruct (pair_bounds i Hi) as [Hn Hb].
  destruct (pair_size i out Hinv Hi) as (Hz & Hs1 & _ & Hs2).
  destruct Hinv as [Hpos Hst Hzr Hsz Hdec].
  assert (Hbody : length (take (pair_len i).2 (drop (i + (pair_len i).1) new_buf)) = (pair_len i).2)
    by (rewrite length_take_le; [done|rewrite length_drop; lia]).
  split.
  - done.
  - lia.
  - intros Hin. rewrite (ref_len_step _ _ _ Hold Hnew) by lia.
    assert (Hstop : differ (at_ old_buf (i + (pair_len i).1 + (pair_len i).2))
                      (at_ new_buf (i + (pair_len i).1 + (pair_len i).2)) = false).
    { apply (ref_len_stops _ _ _ Hold Hnew differ (i + (pair_len i).1)). exact (proj2 Hin). }
    unfold differ in Hstop. apply negb_false_iff in Hstop. rewrite Hstop. lia.
  - unfold pair_out. rewrite !length_app, Hbody. lia.
  - intros rest. destruct (Hdec (pair_out i ++ rest)) as (k & Hk & E). exists (k + 1)%nat. split.
    { rewrite length_app. unfold pair_out. rewrite !length_app, Hbody. lia. }
    intros fuel. rewrite <- !app_assoc, <- Nat.add_assoc, E. cbn [Nat.add].
    rewrite (decode_step fuel _ _ rest _ _ _ (pair_len i).1
               (take (pair_len i).2 (drop (i + (pair_len i).1) new_buf)));
      rewrite ?Hbody, ?upto_length; try lia.
    + rewrite (length_app out). pose proof (upto_step i (pair_len i).2 Hb) as Hu. cbn zeta in Hu.
      change (ref_len old_buf new_buf same i) with (pair_len i).1 in Hu.
      by rewrite Hu.
    + intros E0. rewrite E0 in Hbody. change (0%nat = (pair_len i).2) in Hbody. lia.
    + destruct Hz as [H0|]; [left; by rewrite (Hst H0)|by right].
    + rewrite drop_app_length. unfold pair_out. by rewrite <- !app_assoc.
Qed.

(** The encoder's turn in terms of the byte-by-byte runs. *)
Lemma encode_loop_step fuel dlen i out : (i < slen)%nat ->
  let z := (pair_len i).1 in let n := (pair_len i).2 in
  encode_loop old_buf new_buf slen (S fuel) dlen i out =
  if (dlen <? length out + 2)%nat then Ok (- 1, out)
  else if (z =? slen)%nat then Ok (0, out)
  else if (i + z =? slen)%nat then Ok (Z.of_nat (length out), out)
  else if (dlen <? length (out ++ uleb z) + 2)%nat then Ok (- 1, out ++ uleb z)
  else if (dlen <? length (out ++ uleb z ++ uleb n) + n)%nat then Ok (- 1, out ++ uleb z ++ uleb n)
  else encode_loop old_buf new_buf slen fuel dlen (i + z + n) (out ++ pair_out i).
Proof.
  intros Hi z n. cbn [encode_loop]. destruct (Nat.leb_spec slen i); [lia|].
  destruct (_ <? _)%nat; [done|]. rewrite zrun_end_spec by lia. fold (pair_len i).
  pose proof (ref_len_le _ _ _ Hold Hnew same i ltac:(lia)) as Hle.
  change (ref_len old_buf new_buf same i) with z in *. replace (i + z - i)%nat with z by lia.
  destruct (_ =? _)%nat; [done|]. destruct (Nat.eqb_spec (i + z) slen); [done|].
  destruct (pair_bounds i ltac:(fold z; lia)) as [Hn Hb]. fold z n in Hb, Hn.
  rewrite (uleb_ok z) by lia. cbn [mbind res_bind]. destruct (_ <? _)%nat; [done|].
  rewrite nzrun_end_spec by lia. change (ref_len old_buf new_buf differ (i + z)) with n.
  replace (i + z + n - (i + z))%nat with n by lia. rewrite (uleb_ok n) by lia. cbn [mbind res_bind].
  unfold pair_out. fold z n. by rewrite <- !app_assoc.
Qed.

(** What the encoder may return: it gave up for lack of room, or what it
    wrote turns the old page into the new one. *)
Definition encoded (dlen : nat) (r : Z) (out : list byte) : Prop :=
  (length out <= dlen)%nat /\
  (r = - 1 /\ (dlen <= 2 * slen)%nat \/
   r = Z.of_nat (length out) /\
   exists d, (d <= slen)%nat /\ xbzrle_decode_buffer out old_buf slen = Ok (Z.of_nat d, new_buf)).

Lemma enc_inv_done i out : enc_inv i out ->
  (i + ref_len old_buf new_buf same i = slen)%nat ->
  xbzrle_decode_buffer out old_buf slen = Ok (Z.of_nat i, new_buf).
Proof.
  intros [Hpos _ _ _ Hdec] Hz. destruct (Hdec []) as (k & Hk & E). rewrite app_nil_r in E.
  unfold xbzrle_decode_buffer. replace (S (length out)) with (k + S (length out - k))%nat by lia.
  rewrite E. cbn [decode_loop]. rewrite Nat.leb_refl. by rewrite upto_end by lia.
Qed.

Lemma encode_loop_correct fuel : forall dlen i out, enc_inv i out ->
  (length out <= dlen)%nat -> (slen - i < fuel)%nat ->
  exists r out', encode_loop old_buf new_buf slen fuel dlen i out = Ok (r, out') /\ encoded dlen r out'.
Proof.
  induction fuel as [|fuel IH]; intros dlen i out Hinv Hd Hf; [lia|].
  pose proof (inv_pos _ _ Hinv). pose proof (inv_size _ _ Hinv) as Hsz.
  destruct (decide (i < slen)%nat) as [Hi|Hi].
  2:{ cbn [encode_loop]. destruct (Nat.leb_spec slen i); [|lia]. eexists _, _. split; [done|].
      split; [done|right]. split; [done|exists i]. split; [done|].
      apply (enc_inv_done _ _ Hinv). rewrite (ref_len_end _ _ _ Hold Hnew) by lia. lia. }
  rewrite encode_loop_step by done. cbn zeta.
  pose proof (ref_len_le _ _ _ Hold Hnew same i ltac:(lia)) as Hle.
  change (ref_len old_buf new_buf same i) with (pair_len i).1 in Hle.
  destruct (Nat.ltb_spec dlen (length out + 2));
    [eexists _, _; split; [done|split; [done|left]; split; [done|lia]]|].
  assert (Hstop : (i + (pair_len i).1 = slen)%nat -> encoded dlen (Z.of_nat (length out)) out).
  { intros Hz. split; [done|right]. split; [done|exists i]. split; [done|]. by apply enc_inv_done. }
  destruct (Nat.eqb_spec (pair_len i).1 slen) as [E|].
  { assert (i = 0)%nat as Hi0 by lia. rewrite (inv_start _ _ Hinv Hi0) in Hstop |- *.
    eexists _, _. split; [done|]. apply Hstop. lia. }
  destruct (Nat.eqb_spec (i + (pair_len i).1) slen); [eexists _, _; split; [done|auto]|].
  assert (Hi1 : (i + (pair_len i).1 < slen)%nat) by lia.
  destruct (pair_bounds i Hi1) as [Hn Hb].
  destruct (pair_size i out Hinv Hi1) as (_ & Hs1 & Hs2 & Hs3). rewrite !length_app.
  destruct (Nat.ltb_spec dlen (length out + length (uleb (pair_len i).1) + 2));
    [eexists _, _; split; [done|]; split; [rewrite length_app; lia|left; split; [done|lia]]|].
  destruct (Nat.ltb_spec dlen (length out + (length (uleb (pair_len i).1) +
              length (uleb (pair_len i).2)) + (pair_len i).2));
    [eexists _, _; split; [done|]; split; [rewrite !length_app; lia|left; split; [done|lia]]|].
  apply IH; [by apply enc_inv_step| |lia].
  unfold pair_out. rewrite !length_app, length_take_le by (rewrite length_drop; lia). lia.
Qed.
End roundtrip.

Lemma preflen_same_refl l : preflen same l l = length l.
Proof.
  induction l as [|a l IH]; [done|]. cbn. unfold same at 1. rewrite bool_decide_true by done. by rewrite IH.
Qed.

Lemma encode_unchanged buf slen dlen : length buf = slen -> Z.of_nat slen <= 0x3fff ->
  (slen = 0 \/ 2 <= dlen)%nat -> encode_loop buf buf slen (S slen) dlen 0 [] = Ok (0, []).
Proof.
  intros Hl Hmax Hd. destruct (decide (slen = 0)%nat) as [->|Hne]; [done|].
  rewrite encode_loop_step by (done || lia). cbn zeta. rewrite ltb_false by (cbn; lia).
  cbn [pair_len fst]. unfold ref_len. rewrite !drop_0, preflen_same_refl, Hl, Nat.eqb_refl. done.
Qed.

(** A page of sixteen bytes and its next version. *)
Definition old_page : list byte := replicate 16 Byte.x00.
Definition new_page : list byte := replicate 3 Byte.x00 ++ [Byte.x01; Byte.x02] ++ replicate 11 Byte.x00.

(** Scanning eight bytes at a time, with the bit trick that finds an
    equal byte in a word, stops where a scan byte by byte stops: after the
    longest run of equal bytes and after the longest run of different
    bytes, from any position. *)
Theorem word_scan_correct old_buf new_buf slen i :
  length old_buf = slen -> length new_buf = slen -> (i <= slen)%nat ->
  zrun_end old_buf new_buf slen i = (i + preflen same (drop i old_buf) (drop i new_buf))%nat /\
  nzrun_end old_buf new_buf slen i = (i + preflen differ (drop i old_buf) (drop i new_buf))%nat.
Proof.
  intros Hold Hnew Hi. split; [by apply zrun_end_spec|by apply nzrun_end_spec].
Qed.

Lemma word_scan_correct_witness :
  zrun_end old_page new_page 16 0 = 3%nat /\ nzrun_end old_page new_page 16 3 = 5%nat.
Proof.
  destruct (word_scan_correct old_page new_page 16 0 eq_refl eq_refl ltac:(lia)) as [-> _].
  destruct (word_scan_correct old_page new_page 16 3 eq_refl eq_refl ltac:(lia)) as [_ ->].
  by vm_compute.
Defined.

(** C22: Encoding a page of at most 0x3fff bytes succeeds and stays inside
    the destination.  Either there was no room, which cannot happen when the
    destination has more than twice the size of the page, or decoding what
    was written over the old page gives exactly the new page; zero is
    returned just for an unchanged page. *)
Theorem xbzrle_roundtrip old_buf new_buf slen dlen :
  length old_buf = slen -> length new_buf = slen -> (slen mod 8 = 0)%nat -> Z.of_nat slen <= 0x3fff ->
  exists r out, xbzrle_encode_buffer old_buf new_buf slen dlen = Ok (r, out) /\
    (length out <= dlen)%nat /\
    (r = - 1 /\ (dlen <= 2 * slen)%nat \/
     r = Z.of_nat (length out) /\ (r = 0 <-> old_buf = new_buf) /\
     exists d, (d <= slen)%nat /\ xbzrle_decode_buffer out old_buf slen = Ok (Z.of_nat d, new_buf)).
Proof.
  intros Hold Hnew Hal Hmax. unfold xbzrle_encode_buffer. rewrite Hal. cbn [Nat.eqb negb].
  destruct (encode_loop_correct _ _ _ Hold Hnew Hmax (S slen) dlen 0 [] (enc_inv_start _ _ _ Hold Hnew)
              (Nat.le_0_l _) ltac:(lia)) as (r & out & E & Hlen & Hr).
  exists r, out. split; [done|]. split; [done|]. destruct Hr as [Hr|(Hr & d & Hd & Hdec)]; [by left|right].
  split; [done|]. split; [split; intros Heq|by exists d].
  - destruct out; [|cbn in Hr; lia]. by injection Hdec.
  - destruct (decide (slen = 0 \/ 2 <= dlen)%nat) as [Hc|Hc].
    + rewrite <- Heq, encode_unchanged in E by done. by injection E as <- _.
    + cbn [encode_loop] in E. destruct (Nat.leb_spec slen 0); [lia|].
      destruct (Nat.ltb_spec dlen (length (@nil byte) + 2)) as [|Hge]; [|cbn in Hge; lia].
      injection E as <- <-. cbn in Hr. lia.
Qed.

Lemma xbzrle_roundtrip_witness :
  exists r out, xbzrle_encode_buffer old_page new_page 16 16 = Ok (r, out) /\
    r = 4 /\ exists d, xbzrle_decode_buffer out old_page 16 = Ok (d, new_page).
Proof.
  destruct (xbzrle_roundtrip old_page new_page 16 16 eq_refl eq_refl eq_refl ltac:(cbn; lia))
    as (r & out & E & _ & [[Hr _]|(Hr & _ & d & _ & Hd)]).
  - vm_compute in E. injection E as <- _. discriminate Hr.
  - exists r, out. split; [done|]. split; [|by exists (Z.of_nat d)]. vm_compute in E. by injection E as <- _.
Defined.

(** ** The decoder on any input *)

Lemma uleb_decode_safe src : (2 <= length src)%nat ->
  exists z, uleb128_decode_small src = Ok z /\
    forall ret count, z = Some (ret, count) -> (1 <= ret <= 2)%nat /\ 0 <= count.
Proof.
  intros Hl. destruct src as [|b0 [|b1 src]]; cbn in Hl; try lia. cbn [uleb128_decode_small].
  pose proof (byte.unsigned_range b0). pose proof (byte.unsigned_range b1).
  destruct (_ =? 0); [|destruct (negb _)]; eexists; (split; [done|]); intros; simplify_eq; split; try lia.
  apply Z.lor_nonneg. split; [apply Z.land_nonneg; lia|apply Z.shiftl_nonneg; lia].
Qed.

Lemma overwrite_frame dst d bs n : (d + length bs <= n <= length dst)%nat ->
  length (overwrite dst d bs) = length dst /\ drop n (overwrite dst d bs) = drop n dst.
Proof.
  intros H. unfold overwrite. rewrite !length_app, length_take, length_drop. split; [lia|].
  rewrite app_assoc, drop_app, drop_ge, drop_drop by (rewrite length_app, length_take; lia).
  rewrite length_app, length_take. cbn. f_equal. lia.
Qed.

(** What the decoder may do to its destination. *)
Definition contained (dlen : nat) (dst : list byte) (o : Z * list byte) : Prop :=
  - 1 <= o.1 <= Z.of_nat dlen /\ length o.2 = length dst /\ drop dlen o.2 = drop dlen dst.

Lemma decode_loop_safe fuel : forall src i dst d dlen,
  (length src - i < fuel)%nat -> (d <= dlen <= length dst)%nat ->
  exists o, decode_loop fuel src i dst d dlen = Ok o /\ contained dlen dst o.
Proof.
  induction fuel as [|fuel IH]; intros src i dst d dlen Hf Hd; [lia|]. cbn [decode_loop].
  assert (Hrej : exists o, Ok (- 1, dst) = Ok o /\ contained dlen dst o)
    by (eexists; split; [done|]; unfold contained; cbn; repeat split; lia).
  destruct (Nat.leb_spec (length src) i);
    [eexists; split; [done|]; unfold contained; cbn; repeat split; lia|].
  destruct (Nat.ltb_spec (length src - i) 2); [done|].
  destruct (uleb_decode_safe (drop i src)) as (z & -> & Hz); [rewrite length_drop; lia|].
  cbn [mbind res_bind]. destruct z as [[ret count]|]; [|done].
  destruct (Hz _ _ eq_refl) as [Hret Hcount]. destruct (_ && _); [done|].
  destruct (Nat.ltb_spec dlen (d + Z.to_nat count)); [done|].
  destruct (Nat.ltb_spec (length src - (i + ret)) 2); [done|].
  destruct (uleb_decode_safe (drop (i + ret) src)) as (z & -> & Hz'); [rewrite length_drop; lia|].
  cbn [mbind res_bind]. destruct z as [[ret' count']|]; [|done].
  destruct (Hz' _ _ eq_refl) as [Hret' Hcount']. destruct (count' =? 0); [done|].
  set (e := (d + Z.to_nat count)%nat) in *. set (n := Z.to_nat count').
  destruct (Nat.ltb_spec dlen (e + n)); [done|].
  destruct (Nat.ltb_spec (length src) (i + ret + ret' + n)); [done|]. cbn [orb].
  rewrite (ltb_false (length dst)) by lia. cbn [orb].
  assert (Hbs : length (take n (drop (i + ret + ret') src)) = n)
    by (rewrite length_take_le; [done|rewrite length_drop; lia]).
  destruct (overwrite_frame dst e (take n (drop (i + ret + ret') src)) dlen ltac:(lia)) as [Hl Hdr].
  destruct (IH src (i + ret + ret' + n)%nat (overwrite dst e (take n (drop (i + ret + ret') src)))
              (e + n)%nat dlen ltac:(lia) ltac:(lia)) as (o & -> & Ho1 & Ho2 & Ho3).
  exists o. split; [done|]. unfold contained. rewrite Ho2, Ho3. done.
Qed.

(** The decoder is safe on any input, well formed or not: it reads
    only inside the source, returns -1 or at most [dlen], and leaves the
    destination's length and every byte from [dlen] on unchanged. *)
Theorem xbzrle_decode_safe src dst dlen : (dlen <= length dst)%nat ->
  exists r dst', xbzrle_decode_buffer src dst dlen = Ok (r, dst') /\
    - 1 <= r <= Z.of_nat dlen /\ length dst' = length dst /\ drop dlen dst' = drop dlen dst.
Proof.
  intros Hd. destruct (decode_loop_safe (S (length src)) src 0 dst 0 dlen ltac:(lia) ltac:(lia))
    as ([r dst'] & E & H). by exists r, dst'.
Qed.

(** A run that claims more bytes than there are is refused. *)
Lemma xbzrle_decode_safe_witness :
  (exists r dst', xbzrle_decode_buffer [Byte.x03; Byte.x7f; Byte.x01] old_page 16 = Ok (r, dst') /\
     length dst' = 16%nat) /\
  xbzrle_decode_buffer [Byte.x03; Byte.x7f; Byte.x01] old_page 16 = Ok (- 1, old_page).
Proof.
  split; [|by vm_compute].
  destruct (xbzrle_decode_safe [Byte.x03; Byte.x7f; Byte.x01] old_page 16 ltac:(cbn; lia))
    as (r & dst' & E & _ & Hl & _). by exists r, dst'.
Defined.
