(* ===== verification/PageCache.v ===== *)
(** * The cache of pages sent before (page_cache.c)

    A direct-mapped cache: the page at a guest address has one slot, chosen
    by the page number.  Page buffers live in a heap of which every block is
    known, so that a leak, a double free and a read of a freed page show. *)

From coqutil Require Import Byte.
From S2P Require Import Prelude GuestMem.

(** ** Powers of two (qemu-common.h, util/cutils.c, host-utils.h) *)

Definition s64 (z : Z) : Z := (z + 2 ^ 63) mod 2 ^ 64 - 2 ^ 63.

Definition is_power_of_2 (value : Z) : bool :=
  if value =? 0 then false else Z.land value (value - 1) =? 0.

Definition clz64 (val : Z) : Z := if val =? 0 then 64 else 63 - Z.log2 val.

(** The shift by 64 for zero is undefined. *)
Definition pow2floor (value : Z) : res Z :=
  if is_power_of_2 (u64 value) then Ok value
  else
    let n := clz64 (u64 value) in
    if n =? 64 then Err BadArith else Ok (s64 (Z.shiftr 0x8000000000000000 n)).

(** ** Data *)

(** [it_data] is the number of a heap block, [None] for NULL. *)
Record CacheItem := {
  it_addr : Z;
  it_age : Z;
  it_data : option nat
}.

Record PageCache := {
  page_cache : option (list CacheItem);
  page_size : Z;
  max_num_items : Z;
  max_item_age : Z;
  num_items : Z
}.

(** The page buffers allocated now and the number of allocations tried. *)
Record heap := {
  tried : nat;
  pages : gmap nat (list byte)
}.

Definition set_pages (f : gmap nat (list byte) -> gmap nat (list byte)) (h : heap) : heap :=
  {| tried := tried h; pages := f (pages h) |}.

Definition NO_ADDR : Z := u64 (- 1).
Definition empty_item : CacheItem := {| it_addr := NO_ADDR; it_age := 0; it_data := None |}.

Section cache.
  (** Whether the n-th call of [g_try_malloc] returns NULL. *)
  Context (fails : nat -> bool).

(** The outcome of an allocation that is not a page buffer. *)
Definition try_malloc_struct : st heap bool :=
  fun h => Ok (negb (fails (tried h)), {| tried := S (tried h); pages := pages h |}).

(** A page buffer; nothing is written to it yet. *)
Definition try_malloc_page : st heap (option nat) :=
  fun h =>
    let p := tried h in
    if fails p then Ok (None, {| tried := S p; pages := pages h |})
    else Ok (Some p, {| tried := S p; pages := <[p := []]> (pages h) |}).

Definition g_free (p : option nat) : st heap unit :=
  fun h =>
    match p with
    | None => Ok (tt, h)
    | Some p =>
        match pages h !! p with
        | Some _ => Ok (tt, set_pages (delete p) h)
        | None => Err BadPointer
        end
    end.

(** [memcpy(p, pdata, n)] into a whole page buffer. *)
Definition copy_page (p : nat) (pdata : list byte) (n : Z) : st heap unit :=
  fun h =>
    match pages h !! p with
    | None => Err BadPointer
    | Some _ =>
        if (length pdata <? Z.to_nat n)%nat then Err BufferOverflow
        else Ok (tt, set_pages <[p := take (Z.to_nat n) pdata]> h)
    end.

(** ** Operations *)

Definition cache_init (num_pages page_size : Z) : st heap (option PageCache) :=
  if num_pages <=? 0 then mret None
  else
    ok ← try_malloc_struct;
    if negb ok then mret None
    else
      num_pages ← (if negb (is_power_of_2 (u64 num_pages)) then lift_res (pow2floor num_pages)
                   else mret num_pages);
      ok ← try_malloc_struct;
      if negb ok then mret None
      else
        mret (Some {| page_cache := Some (replicate (Z.to_nat num_pages) empty_item);
                      page_size := page_size; max_num_items := num_pages;
                      max_item_age := 0; num_items := 0 |}).

Fixpoint free_items (items : list CacheItem) : st heap unit :=
  match items with
  | [] => mret tt
  | it :: items => g_free (it_data it);; free_items items
  end.

Definition items_of (cache : PageCache) : res (list CacheItem) :=
  match page_cache cache with Some items => Ok items | None => Err AssertFailed end.

Definition with_items (cache : PageCache) (items : option (list CacheItem)) : PageCache :=
  {| page_cache := items; page_size := page_size cache; max_num_items := max_num_items cache;
     max_item_age := max_item_age cache; num_items := num_items cache |}.

Definition cache_fini (cache : PageCache) : st heap PageCache :=
  items ← lift_res (items_of cache);
  free_items (take (Z.to_nat (max_num_items cache)) items);;
  mret (with_items cache None).

Definition cache_get_cache_pos (cache : PageCache) (address : Z) : res nat :=
  if max_num_items cache =? 0 then Err AssertFailed
  else if page_size cache =? 0 then Err BadArith
  else Ok (Z.to_nat (Z.land (address / page_size cache) (max_num_items cache - 1))).

(** The slot of an address, with its position. *)
Definition cache_get_by_addr (cache : PageCache) (addr : Z) : res (nat * CacheItem) :=
  items ← items_of cache;
  pos ← cache_get_cache_pos cache addr;
  match items !! pos with Some it => Ok (pos, it) | None => Err BadPointer end.

Definition cache_is_cached (cache : PageCache) (addr : Z) : res bool :=
  it ← cache_get_by_addr cache addr;
  mret (it_addr it.2 =? addr).

Definition get_cached_data (cache : PageCache) (addr : Z) : res (option nat) :=
  it ← cache_get_by_addr cache addr;
  mret (it_data it.2).

(** [*it = new] for the slot at [pos]. *)
Definition put_item (pos : nat) (it : CacheItem) (cache : PageCache) : PageCache :=
  with_items cache (<[pos := it]> <$> page_cache cache).

Definition add_items (n : Z) (cache : PageCache) : PageCache :=
  {| page_cache := page_cache cache; page_size := page_size cache;
     max_num_items := max_num_items cache; max_item_age := max_item_age cache;
     num_items := num_items cache + n |}.

Definition next_age (cache : PageCache) : PageCache :=
  {| page_cache := page_cache cache; page_size := page_size cache;
     max_num_items := max_num_items cache; max_item_age := u64 (max_item_age cache + 1);
     num_items := num_items cache |}.

Definition cache_insert (cache : PageCache) (addr : Z) (pdata : list byte) : st heap (Z * PageCache) :=
  '(pos, it) ← lift_res (cache_get_by_addr cache addr);
  '(data, cache) ←
    match it_data it with
    | Some p => mret (Some p, cache)
    | None =>
        p ← try_malloc_page;
        mret (p, match p with Some _ => add_items 1 cache | None => cache end)
    end;
  match data with
  | None => mret (- 1, cache)
  | Some p =>
      copy_page p pdata (page_size cache);;
      let cache := next_age cache in
      mret (0, put_item pos {| it_addr := addr; it_age := max_item_age cache; it_data := Some p |} cache)
  end.

(** One slot of the old cache moved to the new one. *)
Definition move_item (old_it : CacheItem) (new_cache : PageCache) : st heap PageCache :=
  if it_addr old_it =? NO_ADDR then mret new_cache
  else
    '(pos, new_it) ← lift_res (cache_get_by_addr new_cache (it_addr old_it));
    if bool_decide (is_Some (it_data new_it)) && (it_age old_it <=? it_age new_it) then
      g_free (it_data old_it);;
      mret new_cache
    else
      let new_cache := match it_data new_it with
                       | None => add_items 1 new_cache
                       | Some _ => new_cache
                       end in
      g_free (it_data new_it);;
      mret (put_item pos {| it_addr := it_addr old_it; it_age := it_age old_it;
                            it_data := it_data old_it |} new_cache).

Fixpoint move_items (items : list CacheItem) (new_cache : PageCache) : st heap PageCache :=
  match items with
  | [] => mret new_cache
  | it :: items => new_cache ← move_item it new_cache; move_items items new_cache
  end.

Definition cache_resize (cache : PageCache) (new_num_pages : Z) : st heap (Z * PageCache) :=
  match page_cache cache with
  | None => mret (- 1, cache)
  | Some items =>
      n ← lift_res (pow2floor new_num_pages);
      if n =? max_num_items cache then mret (max_num_items cache, cache)
      else
        new_cache ← cache_init new_num_pages (page_size cache);
        match new_cache with
        | None => mret (- 1, cache)
        | Some new_cache =>
            new_cache ← move_items (take (Z.to_nat (max_num_items cache)) items) new_cache;
            let cache :=
              {| page_cache := page_cache new_cache; page_size := page_size cache;
                 max_num_items := max_num_items new_cache; max_item_age := max_item_age cache;
                 num_items := num_items new_cache |} in
            mret (max_num_items cache, cache)
        end
  end.

End cache.

(** ** Powers of two *)

Lemma land_pred_pow2 n : 0 < n -> Z.land n (n - 1) = 0 -> n = 2 ^ Z.log2 n.
Proof.
  intros Hn Hl. destruct (Z.log2_spec n Hn) as [Hlo Hhi].
  destruct (Z.eq_dec n (2 ^ Z.log2 n)) as [|Hne]; [done|exfalso].
  assert (Hlog : Z.log2 (n - 1) = Z.log2 n) by (apply Z.log2_unique; [apply Z.log2_nonneg|lia]).
  assert (0 < 2 ^ Z.log2 n) by (apply Z.pow_pos_nonneg; [lia|apply Z.log2_nonneg]).
  assert (E : Z.testbit (Z.land n (n - 1)) (Z.log2 n) = true).
  { rewrite Z.land_spec, Z.bit_log2 by lia. rewrite <- Hlog. apply Z.bit_log2. lia. }
  by rewrite Hl, Z.bits_0 in E.
Qed.

Lemma u64_pos n : 0 < n < 2 ^ 63 -> u64 n = n.
Proof. intros. apply u64_small. lia. Qed.

Lemma log2_63 n : 0 < n < 2 ^ 63 -> 0 <= Z.log2 n < 63.
Proof. intros Hn. split; [apply Z.log2_nonneg|]. apply Z.log2_lt_pow2; lia. Qed.

Lemma is_power_of_2_eq n : 0 < n < 2 ^ 63 -> is_power_of_2 (u64 n) = true -> n = 2 ^ Z.log2 n.
Proof.
  intros Hn. rewrite u64_pos by done. unfold is_power_of_2.
  destruct (Z.eqb_spec n 0); [lia|]. intros E%Z.eqb_eq. apply land_pred_pow2; [lia|done].
Qed.

Lemma pow2floor_spec n : 0 < n < 2 ^ 63 -> pow2floor n = Ok (2 ^ Z.log2 n).
Proof.
  intros Hn. unfold pow2floor. destruct (is_power_of_2 (u64 n)) eqn:E.
  { f_equal. by apply is_power_of_2_eq. }
  rewrite u64_pos by done. unfold clz64. destruct (Z.eqb_spec n 0); [lia|].
  pose proof (log2_63 n Hn). destruct (Z.eqb_spec (63 - Z.log2 n) 64); [lia|]. f_equal.
  rewrite Z.shiftr_div_pow2 by lia. change 0x8000000000000000 with (2 ^ 63).
  rewrite <- Z.pow_sub_r by lia. replace (63 - (63 - Z.log2 n)) with (Z.log2 n) by lia.
  unfold s64. assert (0 < 2 ^ Z.log2 n < 2 ^ 63)
    by (split; [apply Z.pow_pos_nonneg; lia|apply Z.pow_lt_mono_r; lia]).
  rewrite Z.mod_small; lia.
Qed.

(** ** The invariant *)

(** The slot of an address in a cache of [2^k] pages of [ps] bytes. *)
Definition slot (ps k addr : Z) : nat := Z.to_nat ((addr / ps) mod 2 ^ k).

Definition item_ok (ps k : Z) (i : nat) (it : CacheItem) : Prop :=
  match it_data it with
  | None => it = empty_item
  | Some _ => it_addr it <> NO_ADDR /\ slot ps k (it_addr it) = i
  end.

(** The buffers a list of slots points to. *)
Definition ptrs (items : list CacheItem) : list nat := omap it_data items.

Record shape (c : PageCache) (items : list CacheItem) (k : Z) : Prop := {
  sh_items : page_cache c = Some items;
  sh_log : 0 <= k < 63;
  sh_max : max_num_items c = 2 ^ k;
  sh_len : length items = Z.to_nat (2 ^ k);
  sh_page : 0 < page_size c;
  sh_slot : forall i it, items !! i = Some it -> item_ok (page_size c) k i it;
  sh_num : num_items c = Z.of_nat (length (ptrs items))
}.

(** The heap holds exactly the buffers [ps], each of the size of a page. *)
Record sound (h : heap) (size : Z) (ps : list nat) : Prop := {
  so_nodup : NoDup ps;
  so_dom : forall p, is_Some (pages h !! p) <-> p ∈ ps;
  so_size : forall p d, pages h !! p = Some d -> length d = Z.to_nat size;
  so_fresh : forall p d, pages h !! p = Some d -> (p < tried h)%nat
}.

Definition wf (c : PageCache) (h : heap) : Prop :=
  exists items k, shape c items k /\ sound h (page_size c) (ptrs items).

(** What the cache holds for an address, as its users read it:
    [cache_is_cached] and then [get_cached_data]. *)
Definition cached (c : PageCache) (h : heap) (addr : Z) : option (list byte) :=
  match cache_is_cached c addr, get_cached_data c addr with
  | Ok true, Ok (Some p) => pages h !! p
  | _, _ => None
  end.

Definition age (c : PageCache) (addr : Z) : Z :=
  match cache_get_by_addr c addr with Ok (_, it) => it_age it | Err _ => 0 end.

#[export] Instance sound_perm h size : Proper ((≡ₚ) ==> iff) (sound h size).
Proof.
  intros l l' E. split; intros [H1 H2 H3 H4]; split; try done.
  - by rewrite <- E.
  - intros p. by rewrite H2, E.
  - by rewrite E.
  - intros p. by rewrite H2, E.
Qed.

Lemma sound_free h size p ps : sound h size (p :: ps) ->
  exists h', g_free (Some p) h = Ok (tt, h') /\ sound h' size ps /\ tried h' = tried h /\
             pages h' = delete p (pages h).
Proof.
  intros [Hnd Hdom Hsz Hfr]. apply NoDup_cons in Hnd as [Hp Hnd].
  destruct (proj2 (Hdom p) ltac:(set_solver)) as [d Hd]. eexists. cbn. rewrite Hd.
  split; [done|]. split; [|done]. split; cbn.
  - done.
  - intros q. destruct (decide (q = p)) as [->|Hne].
    + rewrite lookup_delete_eq, is_Some_alt. split; [done|]. by intros ?%Hp.
    + rewrite lookup_delete_ne by done. rewrite Hdom, elem_of_cons. naive_solver.
  - intros q e [_ Hq]%lookup_delete_Some. by eapply Hsz.
  - intros q e [_ Hq]%lookup_delete_Some. by eapply Hfr.
Qed.

Lemma free_items_spec items R : forall h size, sound h size (ptrs items ++ R) ->
  exists h', free_items items h = Ok (tt, h') /\ sound h' size R.
Proof.
  induction items as [|it items IH]; intros h size Hs; [by exists h|].
  cbn [free_items]. unfold mbind, st_bind. unfold ptrs in Hs. cbn [omap list_omap] in Hs.
  destruct (it_data it) as [p|].
  - destruct (sound_free _ _ _ _ Hs) as (h1 & -> & Hs1 & _). by apply IH.
  - cbn [g_free]. by apply IH.
Qed.

Lemma ptrs_insert items pos it0 it : items !! pos = Some it0 ->
  option_list (it_data it0) ++ ptrs (<[pos := it]> items) ≡ₚ option_list (it_data it) ++ ptrs items.
Proof.
  intros Hpos. pose proof (take_drop_middle _ _ _ Hpos) as E.
  assert (Hlt : (pos < length items)%nat) by (by apply lookup_lt_Some in Hpos).
  rewrite <- E at 2. rewrite (insert_take_drop _ _ _ Hlt). unfold ptrs. rewrite !omap_app. cbn.
  destruct (it_data it0), (it_data it); cbn; solve_Permutation.
Qed.

Lemma slot_lt ps k addr : 0 <= k -> (slot ps k addr < Z.to_nat (2 ^ k))%nat.
Proof.
  intros Hk. unfold slot. assert (0 < 2 ^ k) by (apply Z.pow_pos_nonneg; lia).
  pose proof (Z.mod_pos_bound (addr / ps) (2 ^ k) ltac:(lia)). lia.
Qed.

Lemma get_by_addr_spec c items k addr : shape c items k ->
  exists it, items !! slot (page_size c) k addr = Some it /\
             cache_get_by_addr c addr = Ok (slot (page_size c) k addr, it).
Proof.
  intros [Hi Hk Hm Hl Hp _ _]. pose proof (slot_lt (page_size c) k addr ltac:(lia)) as Hlt.
  rewrite <- Hl in Hlt. destruct (lookup_lt_is_Some_2 items _ Hlt) as [it Hit]. exists it.
  split; [done|]. unfold cache_get_by_addr, items_of. rewrite Hi. cbn [mbind res_bind].
  assert (0 < 2 ^ k) by (apply Z.pow_pos_nonneg; lia).
  unfold cache_get_cache_pos. rewrite Hm. destruct (Z.eqb_spec (2 ^ k) 0); [lia|].
  destruct (Z.eqb_spec (page_size c) 0); [lia|]. cbn [mbind res_bind].
  replace (2 ^ k - 1) with (Z.ones k) by (rewrite Z.ones_equiv; lia).
  rewrite Z.land_ones by lia. fold (slot (page_size c) k addr). by rewrite Hit.
Qed.

Lemma cached_item c h items k addr it : shape c items k ->
  items !! slot (page_size c) k addr = Some it ->
  cached c h addr =
    match it_data it with
    | Some p => if it_addr it =? addr then pages h !! p else None
    | None => None
    end.
Proof.
  intros Hs Hit. destruct (get_by_addr_spec c items k addr Hs) as (it' & Hit' & E). simplify_eq.
  unfold cached, cache_is_cached, get_cached_data. rewrite E. cbn.
  destruct (it_addr it =? addr), (it_data it); done.
Qed.

(** A page is cached exactly when some slot has it. *)
Lemma cached_iff c h items k addr pg : shape c items k ->
  cached c h addr = Some pg <->
  exists it p, it ∈ items /\ it_addr it = addr /\ it_data it = Some p /\ pages h !! p = Some pg.
Proof.
  intros Hs. destruct (get_by_addr_spec c items k addr Hs) as (it & Hit & _).
  rewrite (cached_item c h items k addr it Hs Hit). split.
  - destruct (it_data it) as [p|] eqn:Ed; [|done]. destruct (Z.eqb_spec (it_addr it) addr); [|done].
    intros Hp. exists it, p. split; [by eapply list_elem_of_lookup_2|done].
  - intros (it' & p & [i Hi]%list_elem_of_lookup & <- & Ed & Hp).
    pose proof (sh_slot _ _ _ Hs i it' Hi) as Hok. unfold item_ok in Hok. rewrite Ed in Hok.
    destruct Hok as [_ Hok]. rewrite Hok in Hit. simplify_eq. by rewrite Ed, Z.eqb_refl.
Qed.

(** Filling a slot. *)
Lemma shape_put c items k pos it0 it c' : shape c items k -> items !! pos = Some it0 ->
  item_ok (page_size c) k pos it -> is_Some (it_data it) ->
  page_cache c' = page_cache c -> page_size c' = page_size c -> max_num_items c' = max_num_items c ->
  num_items c' = num_items c + (if it_data it0 then 0 else 1) ->
  shape (put_item pos it c') (<[pos := it]> items) k.
Proof.
  intros [Hi Hk Hm Hl Hp Hsl Hn] Hpos Hok [p Hp'] E1 E2 E3 E4. split; cbn.
  - by rewrite E1, Hi.
  - done.
  - congruence.
  - by rewrite length_insert.
  - by rewrite E2.
  - intros i x Hx. rewrite E2. destruct (decide (i = pos)) as [->|Hne].
    + rewrite list_lookup_insert_eq in Hx by (by apply lookup_lt_Some in Hpos). by simplify_eq.
    + rewrite list_lookup_insert_ne in Hx by done. by apply Hsl.
  - rewrite E4, Hn. pose proof (Permutation_length (ptrs_insert items pos it0 it Hpos)) as Hperm.
    rewrite !length_app, Hp' in Hperm. destruct (it_data it0); cbn in *; lia.
Qed.

(** ** Insertion *)

(** The buffer of a slot once [cache_insert] has one. *)
Definition insert_at (c : PageCache) (addr : Z) (pdata : list byte) (pos p : nat)
    : st heap (Z * PageCache) :=
  copy_page p pdata (page_size c);;
  mret (0, put_item pos {| it_addr := addr; it_age := max_item_age (next_age c); it_data := Some p |}
             (next_age c)).

Lemma copy_page_spec h p d pdata n : pages h !! p = Some d -> (Z.to_nat n <= length pdata)%nat ->
  copy_page p pdata n h = Ok (tt, set_pages <[p := take (Z.to_nat n) pdata]> h).
Proof.
  intros Hp Hl. unfold copy_page. rewrite Hp. destruct (Nat.ltb_spec (length pdata) (Z.to_nat n)); [lia|done].
Qed.

(** A page written into a buffer that the slot had or that is new. *)
Lemma sound_write h size p ps pg : NoDup (p :: ps) -> (p < tried h)%nat -> length pg = Z.to_nat size ->
  (forall q, q <> p -> is_Some (pages h !! q) <-> q ∈ ps) ->
  (forall q d, q <> p -> pages h !! q = Some d -> length d = Z.to_nat size /\ (q < tried h)%nat) ->
  sound (set_pages <[p := pg]> h) size (p :: ps).
Proof.
  intros Hnd Hp Hl Hdom Hok. split; cbn.
  - done.
  - intros q. destruct (decide (q = p)) as [->|Hne].
    + rewrite lookup_insert_eq. split; [set_solver|by eexists].
    + rewrite lookup_insert_ne by done. rewrite Hdom by done. set_solver.
  - intros q d [[<- <-]|[Hne Hq]]%lookup_insert_Some; [done|]. by apply (Hok q d).
  - intros q d [[<- <-]|[Hne Hq]]%lookup_insert_Some; [done|]. by apply (Hok q d).
Qed.

(** The buffers of the other slots. *)
Definition others (items : list CacheItem) (pos : nat) : list nat := ptrs (<[pos := empty_item]> items).

Lemma ptrs_others items pos it : items !! pos = Some it ->
  ptrs items ≡ₚ option_list (it_data it) ++ others items pos.
Proof. intros Hpos. by rewrite (ptrs_insert items pos it empty_item Hpos). Qed.

Lemma ptrs_put items pos it0 it : items !! pos = Some it0 ->
  ptrs (<[pos := it]> items) ≡ₚ option_list (it_data it) ++ others items pos.
Proof.
  intros Hpos. assert (Hlt : (pos < length items)%nat) by (by apply lookup_lt_Some in Hpos).
  rewrite (ptrs_others _ pos it) by (by apply list_lookup_insert_eq).
  unfold others. by rewrite list_insert_insert_eq.
Qed.

Lemma others_elem items pos i it p : items !! i = Some it -> i <> pos -> it_data it = Some p ->
  p ∈ others items pos.
Proof.
  intros Hi Hne Hp. unfold others, ptrs. apply list_elem_of_omap. exists it. split; [|done].
  apply (list_elem_of_lookup_2 _ i). by rewrite list_lookup_insert_ne.
Qed.

Lemma insert_result c h c1 h' items k addr it0 p pg : shape c items k ->
  let pos := slot (page_size c) k addr in
  items !! pos = Some it0 -> addr <> NO_ADDR ->
  page_cache c1 = page_cache c -> page_size c1 = page_size c -> max_num_items c1 = max_num_items c ->
  num_items c1 = num_items c + (if it_data it0 then 0 else 1) ->
  sound h' (page_size c) (p :: others items pos) ->
  (forall q, q <> p -> pages h' !! q = pages h !! q) -> pages h' !! p = Some pg ->
  let c' := put_item pos {| it_addr := addr; it_age := max_item_age c1; it_data := Some p |} c1 in
  wf c' h' /\ cached c' h' addr = Some pg /\
  forall a, a <> addr ->
    cached c' h' a = if decide (slot (page_size c) k a = pos) then None else cached c h a.
Proof.
  intros Hs pos Hpos Ha E1 E2 E3 E4 Hso Hfr Hp c'.
  set (it := {| it_addr := addr; it_age := max_item_age c1; it_data := Some p |}) in c'.
  assert (Hs' : shape c' (<[pos := it]> items) k).
  { eapply shape_put; [exact Hs|exact Hpos| |by eexists|done..]. split; [exact Ha|done]. }
  assert (Hps : page_size c' = page_size c) by exact E2.
  assert (Hlt : (pos < length items)%nat) by (by apply lookup_lt_Some in Hpos).
  assert (Hat : forall a, slot (page_size c) k a = pos ->
            cached c' h' a = if addr =? a then Some pg else None).
  { intros a Hsl. rewrite (cached_item c' h' _ k a it Hs');
      [cbn; by rewrite Hp|rewrite Hps, Hsl; by apply list_lookup_insert_eq]. }
  split; [exists (<[pos := it]> items), k|split].
  - split; [done|]. rewrite Hps, (ptrs_put _ _ it0) by done. exact Hso.
  - by rewrite Hat, Z.eqb_refl.
  - intros a Hne. case_decide as Hsl.
    { rewrite Hat by done. by destruct (Z.eqb_spec addr a). }
    destruct (get_by_addr_spec c items k a Hs) as (x & Hx & _).
    rewrite (cached_item c h items k a x Hs Hx), (cached_item c' h' (<[pos := it]> items) k a x Hs')
      by (by rewrite Hps, list_lookup_insert_ne).
    destruct (it_data x) as [q|] eqn:Eq; [|done]. destruct (_ =? _); [|done]. apply Hfr.
    intros ->. pose proof (so_nodup _ _ _ Hso) as Hnd. apply NoDup_cons in Hnd as [Hnd _].
    apply Hnd. by apply (others_elem items pos (slot (page_size c) k a) x).
Qed.

Section insert.
  Context (fails : nat -> bool) (c : PageCache) (h : heap) (items : list CacheItem) (k : Z).
  Context (Hs : shape c items k) (Hso : sound h (page_size c) (ptrs items)).
  Context (addr : Z) (pdata : list byte).
  Context (Ha : addr <> NO_ADDR) (Hd : (Z.to_nat (page_size c) <= length pdata)%nat).

(** What insertion does to what the cache holds. *)
Definition inserted (c' : PageCache) (h' : heap) : Prop :=
  wf c' h' /\ cached c' h' addr = Some (take (Z.to_nat (page_size c)) pdata) /\
  forall a, a <> addr ->
    cached c' h' a = if decide (slot (page_size c) k a = slot (page_size c) k addr) then None
                     else cached c h a.

Lemma insert_reuse it p : items !! slot (page_size c) k addr = Some it -> it_data it = Some p ->
  exists c' h', insert_at c addr pdata (slot (page_size c) k addr) p h = Ok ((0, c'), h') /\
    inserted c' h' /\ page_size c' = page_size c.
Proof.
  intros Hit Hp. set (pos := slot (page_size c) k addr) in *.
  pose proof (ptrs_others items pos it Hit) as E. rewrite Hp in E. cbn in E.
  assert (Hso' := Hso). rewrite E in Hso'. destruct Hso' as [Hnd Hdom Hsz Hfr].
  destruct (proj2 (Hdom p) ltac:(set_solver)) as [d Hpd].
  unfold insert_at, mbind, st_bind. rewrite (copy_page_spec _ _ d) by done. cbn [mret st_ret].
  eexists _, _. split; [done|]. split; [|done].
  refine (insert_result c h (next_age c) _ items k addr it p _ Hs Hit Ha eq_refl eq_refl eq_refl _ _ _ _).
  - cbn. rewrite Hp. lia.
  - apply sound_write; [done|by eapply Hfr|rewrite length_take; lia| |].
    + intros q Hq. rewrite Hdom. set_solver.
    + intros q e _ Hq. split; [by eapply Hsz|by eapply Hfr].
  - intros q Hq. cbn. by rewrite lookup_insert_ne.
  - cbn. by rewrite lookup_insert_eq.
Qed.

Lemma insert_fresh it : items !! slot (page_size c) k addr = Some it -> it_data it = None ->
  exists c' h', insert_at (add_items 1 c) addr pdata (slot (page_size c) k addr) (tried h)
      {| tried := S (tried h); pages := <[tried h := []]> (pages h) |} = Ok ((0, c'), h') /\
    inserted c' h' /\ page_size c' = page_size c.
Proof.
  intros Hit Hp. set (pos := slot (page_size c) k addr) in *.
  pose proof (ptrs_others items pos it Hit) as E. rewrite Hp in E. cbn in E.
  assert (Hso' := Hso). rewrite E in Hso'. destruct Hso' as [Hnd Hdom Hsz Hfr].
  unfold insert_at, mbind, st_bind. rewrite (copy_page_spec _ _ []) by (done || apply lookup_insert_eq).
  cbn [mret st_ret]. eexists _, _. split; [done|]. split; [|done].
  refine (insert_result c h (next_age (add_items 1 c)) _ items k addr it (tried h) _ Hs Hit Ha eq_refl
            eq_refl eq_refl _ _ _ _).
  - cbn. by rewrite Hp.
  - apply sound_write; cbn; [|lia|rewrite length_take; lia| |].
    + apply NoDup_cons. split; [|done]. intros [d Hin]%Hdom. apply Hfr in Hin. lia.
    + intros q Hq. by rewrite lookup_insert_ne.
    + intros q e Hne Hq. rewrite lookup_insert_ne in Hq by done.
      split; [by eapply Hsz|apply Hfr in Hq; lia].
  - intros q Hq. cbn. by rewrite !lookup_insert_ne by done.
  - cbn. by rewrite lookup_insert_eq.
Qed.

(** Insertion, for the slot of the address. *)
Lemma cache_insert_ok :
  exists r c' h', cache_insert fails c addr pdata h = Ok ((r, c'), h') /\
    (r = - 1 /\ c' = c /\ pages h' = pages h /\ wf c' h' /\ fails (tried h) = true \/
     r = 0 /\ inserted c' h' /\ page_size c' = page_size c).
Proof.
  destruct (get_by_addr_spec c items k addr Hs) as (it & Hit & E).
  unfold cache_insert. unfold mbind, st_bind. unfold lift_res. rewrite E.
  destruct (it_data it) as [p|] eqn:Ed.
  - destruct (insert_reuse it p Hit Ed) as (c' & h' & Hi & Hr). exists 0, c', h'. split; [exact Hi|by right].
  - unfold try_malloc_page. destruct (fails (tried h)) eqn:Ef.
    + exists (- 1), c, {| tried := S (tried h); pages := pages h |}. split; [done|left].
      repeat (split; [done|]). split; [|done]. exists items, k. split; [done|].
      destruct Hso as [H1 H2 H3 H4]. split; try done. intros p d Hp. cbn. apply H4 in Hp. lia.
    + destruct (insert_fresh it Hit Ed) as (c' & h' & Hi & Hr). exists 0, c', h'. split; [exact Hi|by right].
Qed.
End insert.

(** ** Resizing *)

(** An item of the old cache: empty, or with an address and a buffer. *)
Definition old_ok (it : CacheItem) : Prop :=
  it = empty_item \/ it_addr it <> NO_ADDR /\ is_Some (it_data it).

(** How the slots of the new cache change when an old item is moved. *)
Inductive moved (ps k : Z) (it : CacheItem) (items : list CacheItem) : list CacheItem -> Prop :=
| moved_empty : it = empty_item -> moved ps k it items items
| moved_kept new_it : items !! slot ps k (it_addr it) = Some new_it -> is_Some (it_data new_it) ->
    it_age it <= it_age new_it -> moved ps k it items items
| moved_put new_it : items !! slot ps k (it_addr it) = Some new_it -> is_Some (it_data it) ->
    (it_data new_it = None \/ it_age new_it < it_age it) ->
    moved ps k it items (<[slot ps k (it_addr it) := it]> items).

Lemma sound_free_opt h size o ps : sound h size (option_list o ++ ps) ->
  exists h', g_free o h = Ok (tt, h') /\ sound h' size ps /\ pages h' ⊆ pages h.
Proof.
  destruct o as [p|]; [|by exists h]. intros (h' & E & Hs & _ & Ep)%sound_free. exists h'.
  rewrite Ep. split; [done|]. split; [done|apply delete_subseteq].
Qed.

Lemma put_moved c items k it x c1 : shape c items k ->
  let pos := slot (page_size c) k (it_addr it) in
  items !! pos = Some x -> it_addr it <> NO_ADDR -> is_Some (it_data it) ->
  bool_decide (is_Some (it_data x)) && (it_age it <=? it_age x) = false ->
  c1 = match it_data x with None => add_items 1 c | Some _ => c end ->
  shape (put_item pos it c1) (<[pos := it]> items) k /\
  page_size (put_item pos it c1) = page_size c /\
  moved (page_size c) k it items (<[pos := it]> items).
Proof.
  intros Hs pos Hx Hne [p Hp] Eb ->. split; [|split].
  - eapply shape_put; [exact Hs|exact Hx|unfold item_ok; by rewrite Hp|by eexists|..];
      destruct (it_data x); cbn; (done || lia).
  - by destruct (it_data x).
  - eapply moved_put; [done|by eexists|]. apply andb_false_iff in Eb as [Eb|Eb%Z.leb_gt]; [|by right].
    apply bool_decide_eq_false in Eb. left. by apply eq_None_not_Some.
Qed.

Lemma move_item_spec c h items k it R : shape c items k -> old_ok it ->
  sound h (page_size c) (ptrs items ++ option_list (it_data it) ++ R) ->
  exists c' h' items', move_item it c h = Ok (c', h') /\ shape c' items' k /\
    sound h' (page_size c) (ptrs items' ++ R) /\ page_size c' = page_size c /\
    pages h' ⊆ pages h /\ moved (page_size c) k it items items'.
Proof.
  intros Hs Hok Hso. unfold move_item. destruct Hok as [->|[Hne Hp]].
  { exists c, h, items. repeat (split; [done|]). by apply moved_empty. }
  destruct (Z.eqb_spec (it_addr it) NO_ADDR); [done|].
  destruct (get_by_addr_spec c items k (it_addr it) Hs) as (x & Hx & E).
  unfold mbind, st_bind. unfold lift_res. rewrite E.
  destruct (bool_decide (is_Some (it_data x)) && (it_age it <=? it_age x)) eqn:Eb.
  - apply andb_true_iff in Eb as [Eb1%bool_decide_eq_true Eb2%Z.leb_le].
    rewrite Permutation_app_swap_app in Hso.
    destruct (sound_free_opt _ _ _ _ Hso) as (h' & Ef & Hso' & Hsub).
    rewrite Ef. exists c, h', items. repeat (split; [done|]). by eapply moved_kept.
  - assert (Eit : {| it_addr := it_addr it; it_age := it_age it; it_data := it_data it |} = it)
      by (by destruct it).
    rewrite (ptrs_others _ _ x Hx), <- app_assoc in Hso. rewrite Eit.
    destruct (sound_free_opt _ _ _ _ Hso) as (h' & -> & Hso' & Hsub).
    destruct (put_moved c items k it x _ Hs Hx Hne Hp Eb eq_refl) as (Hsh & Hps & Hmv).
    eexists _, h', _. split; [done|]. split; [exact Hsh|]. split; [|split; [exact Hps|done]].
    by rewrite (ptrs_put _ _ x), <- app_assoc, Permutation_app_swap_app by done.
Qed.

(** What moving keeps, of the items moved so far. *)
Record moves (ps k : Z) (old items : list CacheItem) : Prop := {
  mv_from : forall it, it ∈ items -> is_Some (it_data it) -> it ∈ old;
  mv_mru : forall it, it ∈ old -> is_Some (it_data it) ->
    exists it', items !! slot ps k (it_addr it) = Some it' /\ is_Some (it_data it') /\
                it_age it <= it_age it'
}.

Lemma moves_step ps k old items it items' : moves ps k old items -> old_ok it ->
  moved ps k it items items' -> moves ps k (old ++ [it]) items'.
Proof.
  intros [Hfrom Hmru] Hok Hmv. destruct Hmv as [->|x Hx Hd Ha|x Hx Hd Ha].
  - split; [intros; apply elem_of_app; left; by apply Hfrom|].
    intros it [Hin| ->%list_elem_of_singleton]%elem_of_app; [by apply Hmru|]. by intros [].
  - split; [intros; apply elem_of_app; left; by apply Hfrom|].
    intros it' [Hin| ->%list_elem_of_singleton]%elem_of_app; [by apply Hmru|]. intros _. by exists x.
  - assert (Hlt : (slot ps k (it_addr it) < length items)%nat) by (by apply lookup_lt_Some in Hx).
    split.
    + intros y [i Hi]%list_elem_of_lookup Hy. apply elem_of_app.
      destruct (decide (i = slot ps k (it_addr it))) as [->|Hne].
      * rewrite list_lookup_insert_eq in Hi by done. simplify_eq. right. by apply list_elem_of_singleton.
      * rewrite list_lookup_insert_ne in Hi by done. left. apply Hfrom; [|done].
        by eapply list_elem_of_lookup_2.
    + intros y [Hin| ->%list_elem_of_singleton]%elem_of_app Hy.
      2:{ exists it. by rewrite list_lookup_insert_eq. }
      destruct (Hmru y Hin Hy) as (y' & Hy1 & Hy2 & Hy3).
      destruct (decide (slot ps k (it_addr y) = slot ps k (it_addr it))) as [Es|Hne].
      * rewrite Es in *. simplify_eq. exists it. rewrite list_lookup_insert_eq by done.
        destruct Ha as [Hn|]; [rewrite Hn in Hy2; by destruct Hy2|]. split; [done|]. split; [done|lia].
      * exists y'. by rewrite list_lookup_insert_ne.
Qed.

Lemma move_items_spec rest : forall c h items k done_, shape c items k ->
  Forall old_ok rest -> sound h (page_size c) (ptrs items ++ ptrs rest) ->
  moves (page_size c) k done_ items ->
  exists c' h' items', move_items rest c h = Ok (c', h') /\ shape c' items' k /\
    sound h' (page_size c) (ptrs items') /\ page_size c' = page_size c /\
    pages h' ⊆ pages h /\ moves (page_size c) k (done_ ++ rest) items'.
Proof.
  induction rest as [|it rest IH]; intros c h items k dn Hs Hok Hso Hmv.
  { exists c, h, items. cbn in Hso. rewrite app_nil_r in *. done. }
  apply Forall_cons in Hok as [Hit Hok].
  assert (Hso' : sound h (page_size c) (ptrs items ++ option_list (it_data it) ++ ptrs rest)).
  { unfold ptrs in Hso |- *. cbn in Hso. by destruct (it_data it). }
  destruct (move_item_spec c h items k it _ Hs Hit Hso') as (c1 & h1 & items1 & E & Hs1 & Hso1 & Hps & Hsub & Hm).
  pose proof (moves_step _ _ _ _ _ _ Hmv Hit Hm) as Hmv1.
  destruct (IH c1 h1 items1 k (dn ++ [it]) Hs1 Hok) as (c' & h' & items' & E' & Hs' & Hso2 & Hps' & Hsub' & Hmv');
    [by rewrite Hps..|].
  rewrite Hps in *. exists c', h', items'. cbn [move_items]. unfold mbind, st_bind. rewrite E.
  split; [done|]. split; [done|]. split; [done|]. split; [congruence|].
  split; [by etrans|]. by rewrite <- app_assoc in Hmv'.
Qed.

Lemma ptrs_replicate n : ptrs (replicate n empty_item) = [].
Proof. by induction n. Qed.

Lemma pos_slot c items k addr : shape c items k ->
  cache_get_cache_pos c addr = Ok (slot (page_size c) k addr).
Proof.
  intros Hs. destruct (get_by_addr_spec c items k addr Hs) as (it & _ & E).
  unfold cache_get_by_addr, items_of in E. rewrite (sh_items _ _ _ Hs) in E. cbn in E.
  apply bind_Ok_inv in E as (pos & -> & E). destruct (_ !! _); by simplify_eq.
Qed.

Lemma empty_shape ps n : 0 < ps -> 0 < n < 2 ^ 63 ->
  shape {| page_cache := Some (replicate (Z.to_nat (2 ^ Z.log2 n)) empty_item); page_size := ps;
           max_num_items := 2 ^ Z.log2 n; max_item_age := 0; num_items := 0 |}
        (replicate (Z.to_nat (2 ^ Z.log2 n)) empty_item) (Z.log2 n).
Proof.
  intros Hps Hn. split; cbn; try done.
  - by apply log2_63.
  - by rewrite length_replicate.
  - intros i it [-> _]%lookup_replicate. done.
  - by rewrite ptrs_replicate.
Qed.

Section history.
  Context (fails : nat -> bool).

(** The two allocations of [cache_init] that start from [h]. *)
Definition init_fails (h : heap) : bool := fails (tried h) || fails (S (tried h)).

Lemma cache_init_spec n ps h : 0 < ps -> 0 < n < 2 ^ 63 ->
  exists o h', cache_init fails n ps h = Ok (o, h') /\ pages h' = pages h /\ (tried h <= tried h')%nat /\
    match o with
    | None => init_fails h = true
    | Some c => shape c (replicate (Z.to_nat (2 ^ Z.log2 n)) empty_item) (Z.log2 n) /\ page_size c = ps
    end.
Proof.
  intros Hps Hn. unfold cache_init. destruct (Z.leb_spec n 0); [lia|].
  unfold init_fails, mbind, st_bind, try_malloc_struct at 1.
  destruct (fails (tried h)) eqn:E1; cbn [negb orb]; [by eexists _, _; repeat split; cbn; lia|].
  assert (Hpow : (if negb (is_power_of_2 (u64 n)) then lift_res (pow2floor n) else mret n)
            {| tried := S (tried h); pages := pages h |} =
            Ok (2 ^ Z.log2 n, {| tried := S (tried h); pages := pages h |})).
  { destruct (is_power_of_2 (u64 n)) eqn:Ep; cbn [negb].
    - rewrite <- is_power_of_2_eq by done. done.
    - by rewrite (lift_res_Ok _ _ _ (pow2floor_spec n Hn)). }
  rewrite Hpow. unfold try_malloc_struct. cbn [tried pages].
  destruct (fails (S (tried h))) eqn:E2; cbn [negb]; eexists _, _; (split; [done|]); (split; [done|]);
    (split; [cbn; lia|]); [done|]. split; [by apply empty_shape|done].
Qed.

(** What resizing to [n] pages does to what the cache holds. *)
Definition resized (n : Z) (c : PageCache) (h : heap) (c' : PageCache) (h' : heap) : Prop :=
  max_num_items c' = 2 ^ Z.log2 n /\
  (forall a pg, cached c' h' a = Some pg -> cached c h a = Some pg) /\
  (forall a pg, cached c h a = Some pg -> exists a' pg',
     cache_get_cache_pos c' a' = cache_get_cache_pos c' a /\
     cached c' h' a' = Some pg' /\ age c a <= age c a') /\
  (max_num_items c <= max_num_items c' -> forall a, cached c' h' a = cached c h a).

Lemma age_item c items k it : shape c items k -> it ∈ items -> is_Some (it_data it) ->
  age c (it_addr it) = it_age it /\ items !! slot (page_size c) k (it_addr it) = Some it.
Proof.
  intros Hs [i Hi]%list_elem_of_lookup [p Hp]. pose proof (sh_slot _ _ _ Hs i it Hi) as Hok.
  unfold item_ok in Hok. rewrite Hp in Hok. destruct Hok as [_ <-]. split; [|done].
  destruct (get_by_addr_spec c items k (it_addr it) Hs) as (it' & Hit' & E). simplify_eq.
  unfold age. by rewrite E.
Qed.

Lemma slot_coarser ps k k' a a' : 0 <= k <= k' -> slot ps k' a = slot ps k' a' -> slot ps k a = slot ps k a'.
Proof.
  intros Hk E. unfold slot in *. assert (0 < 2 ^ k') by (apply Z.pow_pos_nonneg; lia).
  pose proof (Z.mod_pos_bound (a / ps) (2 ^ k') ltac:(lia)).
  pose proof (Z.mod_pos_bound (a' / ps) (2 ^ k') ltac:(lia)).
  assert (Em : (a / ps) mod 2 ^ k' = (a' / ps) mod 2 ^ k') by lia.
  assert (Hdiv : (2 ^ k | 2 ^ k')).
  { exists (2 ^ (k' - k)). rewrite <- Z.pow_add_r by lia. f_equal. lia. }
  rewrite <- (Z.mod_mod_divide (a / ps) _ _ Hdiv), <- (Z.mod_mod_divide (a' / ps) _ _ Hdiv). by rewrite Em.
Qed.

Section moves.
  Context (c c' : PageCache) (h h' : heap) (items items' : list CacheItem) (k k' : Z).
  Context (Hs : shape c items k) (Hs' : shape c' items' k').
  Context (Hso' : sound h' (page_size c) (ptrs items')).
  Context (Hps : page_size c' = page_size c) (Hsub : pages h' ⊆ pages h).
  Context (Hmv : moves (page_size c) k' items items').

Lemma moves_back a pg : cached c' h' a = Some pg -> cached c h a = Some pg.
Proof.
  intros (it & p & Hin & Ha & Hp & Hpg)%(cached_iff _ _ _ _ _ _ Hs').
  apply (cached_iff _ _ _ _ _ _ Hs). exists it, p. split; [apply (mv_from _ _ _ _ Hmv); [done|by eexists]|].
  repeat (split; [done|]). by eapply lookup_weaken.
Qed.

(** The slot of a moved page holds it or a page used later. *)
Lemma moves_keep it : it ∈ items -> is_Some (it_data it) -> exists it' pg',
  slot (page_size c) k' (it_addr it') = slot (page_size c) k' (it_addr it) /\ it' ∈ items /\
  is_Some (it_data it') /\ cached c' h' (it_addr it') = Some pg' /\ it_age it <= it_age it'.
Proof.
  intros Hin Hd. destruct (mv_mru _ _ _ _ Hmv it Hin Hd) as (it' & Hit' & [p Hp] & Hage).
  assert (Hin' : it' ∈ items') by (by eapply list_elem_of_lookup_2).
  destruct (proj2 (so_dom _ _ _ Hso' p)) as [pg Hpg].
  { apply list_elem_of_omap. by exists it'. }
  exists it', pg. pose proof (sh_slot _ _ _ Hs' _ _ Hit') as Hok. unfold item_ok in Hok.
  rewrite Hp, Hps in Hok. split; [by destruct Hok|].
  split; [apply (mv_from _ _ _ _ Hmv); [done|by eexists]|]. split; [by eexists|].
  split; [|done]. apply (cached_iff _ _ _ _ _ _ Hs'). by exists it', p.
Qed.

Lemma moves_grown a : k <= k' -> cached c' h' a = cached c h a.
Proof.
  intros Hk. destruct (cached c h a) as [pg|] eqn:E.
  2:{ destruct (cached c' h' a) eqn:E'; [|done]. apply moves_back in E'. congruence. }
  apply (cached_iff _ _ _ _ _ _ Hs) in E as E'. destruct E' as (it & p & Hin & <- & Hp & Hpg).
  assert (Hd : is_Some (it_data it)) by (by eexists).
  destruct (moves_keep it Hin Hd) as (it' & pg' & Hsl & Hin' & Hd' & Hc' & _).
  apply (slot_coarser _ k) in Hsl; [|pose proof (sh_log _ _ _ Hs); lia].
  destruct (age_item _ _ _ _ Hs Hin' Hd') as [_ H1]. destruct (age_item _ _ _ it Hs Hin Hd) as [_ H2].
  rewrite Hsl in H1. simplify_eq. apply moves_back in Hc' as Hc. congruence.
Qed.

Lemma moves_resized n : k' = Z.log2 n -> resized n c h c' h'.
Proof.
  intros Hn. split; [by rewrite (sh_max _ _ _ Hs'), Hn|]. split; [exact moves_back|]. split.
  - intros a pg (it & p & Hin & <- & Hp & Hpg)%(cached_iff _ _ _ _ _ _ Hs).
    assert (Hd : is_Some (it_data it)) by (by eexists).
    destruct (moves_keep it Hin Hd) as (it' & pg' & Hsl & Hin' & Hd' & Hc' & Hage).
    exists (it_addr it'), pg'. rewrite !(pos_slot _ _ _ _ Hs'), Hps. split; [by rewrite Hsl|].
    split; [done|]. destruct (age_item _ _ _ _ Hs Hin' Hd') as [-> _].
    by destruct (age_item _ _ _ it Hs Hin Hd) as [-> _].
  - rewrite (sh_max _ _ _ Hs), (sh_max _ _ _ Hs'). intros Hle a. apply moves_grown.
    apply (Z.pow_le_mono_r_iff 2); [lia|apply (sh_log _ _ _ Hs')|done].
Qed.
End moves.

Lemma cache_resize_ok c h n : wf c h -> 0 < n < 2 ^ 63 ->
  exists r c' h', cache_resize fails c n h = Ok ((r, c'), h') /\ wf c' h' /\
    page_size c' = page_size c /\
    (r = - 1 /\ c' = c /\ pages h' = pages h /\ init_fails h = true \/
     r = 2 ^ Z.log2 n /\ resized n c h c' h').
Proof.
  intros (items & k & Hs & Hso) Hn. unfold cache_resize. rewrite (sh_items _ _ _ Hs).
  unfold mbind, st_bind. rewrite (lift_res_Ok _ _ _ (pow2floor_spec n Hn)).
  destruct (Z.eqb_spec (2 ^ Z.log2 n) (max_num_items c)) as [E|_].
  { exists (max_num_items c), c, h. split; [done|]. split; [by exists items, k|]. split; [done|right].
    split; [done|]. split; [done|]. split; [done|]. split; [|done].
    intros a pg Hc. exists a, pg. done. }
  destruct (cache_init_spec n (page_size c) h (sh_page _ _ _ Hs) Hn) as (o & h1 & -> & Hpg & Ht & Ho).
  assert (Hso1 : sound h1 (page_size c) (ptrs items)).
  { destruct Hso as [H1 H2 H3 H4]. split; rewrite ?Hpg; try done. intros p d Hp%H4. lia. }
  destruct o as [c0|].
  2:{ exists (- 1), c, h1. split; [done|]. split; [by exists items, k|]. split; [done|by left]. }
  destruct Ho as [Hs0 Hps0].
  assert (Hold : Forall old_ok items).
  { apply Forall_lookup. intros i it Hi. pose proof (sh_slot _ _ _ Hs i it Hi) as Hok. unfold item_ok in Hok.
    destruct (it_data it) eqn:Ed; [right|by left]. destruct Hok. by rewrite Ed. }
  rewrite (sh_max _ _ _ Hs), <- (sh_len _ _ _ Hs), firstn_all.
  destruct (move_items_spec items c0 h1 _ _ [] Hs0 Hold)
    as (c1 & h2 & items' & -> & Hs1 & Hso2 & Hps1 & Hsub & Hmv).
  - by rewrite ptrs_replicate, Hps0.
  - split; [intros it [i [-> _]%lookup_replicate]%list_elem_of_lookup []; done|]. by intros it ?%elem_of_nil.
  - rewrite Hps0 in *.
    set (c' := {| page_cache := page_cache c1; page_size := page_size c; max_num_items := max_num_items c1;
                  max_item_age := max_item_age c; num_items := num_items c1 |}).
    assert (Hs' : shape c' items' (Z.log2 n)) by (destruct Hs1; split; cbn; try done; by rewrite <- Hps1).
    exists (max_num_items c'), c', h2. split; [done|]. split; [by exists items', (Z.log2 n)|].
    split; [done|right]. split; [apply (sh_max _ _ _ Hs')|].
    by eapply moves_resized; [exact Hs|exact Hs'|exact Hso2|done|rewrite <- Hpg|exact Hmv|].
Qed.
End history.

(** ** Histories *)

Inductive op :=
| Insert (addr : Z) (pdata : list byte)
| Resize (new_num_pages : Z).

(** A whole page at an address that is not the marker of an empty slot;
    a positive number of pages. *)
Definition op_ok (page_size : Z) (o : op) : Prop :=
  match o with
  | Insert addr pdata => addr <> NO_ADDR /\ (Z.to_nat page_size <= length pdata)%nat
  | Resize n => 0 < n < 2 ^ 63
  end.

Section run.
  Context (fails : nat -> bool).

Definition step_op (o : op) (c : PageCache) : st heap PageCache :=
  '(_, c) ← match o with
            | Insert addr pdata => cache_insert fails c addr pdata
            | Resize n => cache_resize fails c n
            end;
  mret c.

Fixpoint run_ops (ops : list op) (c : PageCache) : st heap PageCache :=
  match ops with
  | [] => mret c
  | o :: ops => c ← step_op o c; run_ops ops c
  end.

Lemma step_op_ok o c h : wf c h -> op_ok (page_size c) o ->
  exists c' h', step_op o c h = Ok (c', h') /\ wf c' h' /\ page_size c' = page_size c.
Proof.
  intros Hwf Hok. unfold step_op, mbind, st_bind. destruct o as [addr pdata|n].
  - destruct Hwf as (items & k & Hs & Hso). destruct Hok as [Ha Hd].
    destruct (cache_insert_ok fails c h items k Hs Hso addr pdata Ha Hd)
      as (r & c' & h' & -> & [(_ & -> & _ & Hw & _)|(_ & (Hw & _) & Hps)]); eauto.
  - destruct (cache_resize_ok fails c h n Hwf Hok) as (r & c' & h' & -> & Hw & Hps & _). eauto.
Qed.

Lemma run_ops_ok ops : forall c h, wf c h -> Forall (op_ok (page_size c)) ops ->
  exists c' h', run_ops ops c h = Ok (c', h') /\ wf c' h'.
Proof.
  induction ops as [|o ops IH]; intros c h Hwf Hok; [by exists c, h|].
  apply Forall_cons in Hok as [Ho Hok]. cbn [run_ops]. unfold mbind, st_bind.
  destruct (step_op_ok o c h Hwf Ho) as (c1 & h1 & -> & Hw1 & Hps). apply IH; [done|by rewrite Hps].
Qed.
End run.

Lemma cache_fini_ok c h : wf c h ->
  exists h', cache_fini c h = Ok (with_items c None, h') /\ pages h' = ∅.
Proof.
  intros (items & k & Hs & Hso). unfold cache_fini, mbind, st_bind, items_of.
  rewrite (sh_items _ _ _ Hs). cbn [lift_res]. rewrite (sh_max _ _ _ Hs), <- (sh_len _ _ _ Hs), firstn_all.
  rewrite <- (app_nil_r (ptrs items)) in Hso. destruct (free_items_spec _ _ _ _ Hso) as (h' & -> & Hso').
  exists h'. split; [done|]. apply map_empty. intros p. apply eq_None_not_Some. rewrite (so_dom _ _ _ Hso').
  apply not_elem_of_nil.
Qed.

(** Inserting a page succeeds unless the allocation of its buffer
    fails, and then the cache is as before.  Afterwards the address reads
    as the new page, another address of the same slot is no longer cached,
    and every other address reads as before.  The invariant is kept: no
    buffer is shared, leaked or freed twice. *)
Theorem cache_insert_correct fails c h addr pdata : wf c h -> addr <> NO_ADDR ->
  (Z.to_nat (page_size c) <= length pdata)%nat ->
  exists r c' h', cache_insert fails c addr pdata h = Ok ((r, c'), h') /\ wf c' h' /\
    (r = - 1 /\ c' = c /\ pages h' = pages h /\ fails (tried h) = true \/
     r = 0 /\ cached c' h' addr = Some (take (Z.to_nat (page_size c)) pdata) /\
     forall a, a <> addr ->
       (cache_get_cache_pos c a = cache_get_cache_pos c addr -> cached c' h' a = None) /\
       (cache_get_cache_pos c a <> cache_get_cache_pos c addr -> cached c' h' a = cached c h a)).
Proof.
  intros (items & k & Hs & Hso) Ha Hd.
  destruct (cache_insert_ok fails c h items k Hs Hso addr pdata Ha Hd)
    as (r & c' & h' & E & [(Hr & Hc & Hp & Hw & Hf)|(Hr & (Hw & Hc & Ho) & _)]); exists r, c', h'.
  - split; [done|]. split; [done|by left].
  - split; [done|]. split; [done|right]. split; [done|]. split; [done|]. intros a Hne.
    rewrite !(pos_slot c items k) by done. rewrite (Ho a Hne). case_decide; split; congruence.
Qed.

(** C31: Resizing to a positive number of pages gives a cache of the largest
    power of two not above it, or leaves the cache alone when an allocation
    fails.  No page appears or changes; a page that was cached is still
    cached unless its new slot holds a page inserted at least as late; and a
    cache that grows keeps every page.  Every buffer is moved or freed
    exactly once. *)
Theorem cache_resize_correct fails c h n : wf c h -> 0 < n < 2 ^ 63 ->
  exists r c' h', cache_resize fails c n h = Ok ((r, c'), h') /\ wf c' h' /\
    (r = - 1 /\ c' = c /\ pages h' = pages h /\ init_fails fails h = true \/
     r = max_num_items c' /\ resized n c h c' h').
Proof.
  intros Hwf Hn. destruct (cache_resize_ok fails c h n Hwf Hn) as (r & c' & h' & E & Hw & _ & Hr).
  exists r, c', h'. split; [done|]. split; [done|]. destruct Hr as [Hr|[-> Hr]]; [by left|right].
  split; [|done]. by destruct Hr as [-> _].
Qed.

(** From its creation on an empty heap, any sequence of insertions and
    resizings runs without a memory error whatever allocations fail, keeps
    the invariant, and destroying the cache then frees every page. *)
Theorem cache_history fails n ps ops h0 c h : 0 < ps -> 0 < n < 2 ^ 63 -> pages h0 = ∅ ->
  cache_init fails n ps h0 = Ok (Some c, h) -> Forall (op_ok ps) ops ->
  exists c' h' h'', run_ops fails ops c h = Ok (c', h') /\ wf c' h' /\
    cache_fini c' h' = Ok (with_items c' None, h'') /\ pages h'' = ∅.
Proof.
  intros Hps Hn H0 Hi Hok. destruct (cache_init_spec fails n ps h0 Hps Hn) as (o & h1 & E & Hp & _ & Ho).
  rewrite Hi in E. injection E as <- <-. destruct Ho as [Hs <-].
  assert (Hwf : wf c h).
  { eexists _, _. split; [exact Hs|]. rewrite ptrs_replicate. split; rewrite ?Hp, ?H0.
    - constructor.
    - intros p. rewrite lookup_empty, is_Some_alt. by rewrite elem_of_nil.
    - done.
    - done. }
  destruct (run_ops_ok fails ops c h Hwf Hok) as (c' & h' & Hr & Hw').
  destruct (cache_fini_ok c' h' Hw') as (h'' & Hf & He). by exists c', h', h''.
Qed.

(** A cache of two pages of one byte, asked for three. *)
Definition demo_heap : heap := {| tried := 0; pages := ∅ |}.
Definition never (_ : nat) : bool := false.
Definition demo : PageCache * heap :=
  match cache_init never 3 1 demo_heap with
  | Ok (Some c, h) => (c, h)
  | _ => (with_items {| page_cache := None; page_size := 0; max_num_items := 0; max_item_age := 0;
                        num_items := 0 |} None, demo_heap)
  end.

Lemma demo_wf : wf demo.1 demo.2.
Proof.
  exists (replicate 2 empty_item), 1. split.
  - apply (empty_shape 1 3); lia.
  - split; [constructor| |done..]. intros p.
    change (is_Some ((∅ : gmap nat (list byte)) !! p) <-> p ∈ @nil nat).
    by rewrite lookup_empty, is_Some_alt, elem_of_nil.
Qed.

Lemma cache_insert_correct_witness :
  exists c' h', cache_insert never demo.1 5 [Byte.x2a] demo.2 = Ok ((0, c'), h') /\
    cached c' h' 5 = Some [Byte.x2a] /\ cached c' h' 3 = None.
Proof.
  destruct (cache_insert_correct never demo.1 demo.2 5 [Byte.x2a] demo_wf ltac:(by vm_compute) ltac:(vm_compute; lia))
    as (r & c' & h' & E & _ & [(_ & _ & _ & Hf)|(-> & Hc & Ho)]); [done|].
  exists c', h'. split; [done|]. split; [exact Hc|]. by apply (proj1 (Ho 3 ltac:(lia))).
Defined.

(** Two pages of the same new slot: the one inserted later stays. *)
Definition demo2 : PageCache * heap :=
  match run_ops never [Insert 4 [Byte.x01]; Insert 5 [Byte.x02]] demo.1 demo.2 with
  | Ok ch => ch
  | Err _ => demo
  end.

Lemma demo2_wf : wf demo2.1 demo2.2.
Proof.
  assert (Hok : Forall (op_ok 1) [Insert 4 [Byte.x01]; Insert 5 [Byte.x02]])
    by (repeat constructor; (by vm_compute) || (cbn; lia)).
  destruct (run_ops_ok never _ demo.1 demo.2 demo_wf Hok) as (c & h & E & Hw).
  unfold demo2. by rewrite E.
Qed.

Lemma cache_resize_correct_witness :
  exists c' h', cache_resize never demo2.1 1 demo2.2 = Ok ((1, c'), h') /\ wf c' h' /\
    cached demo2.1 demo2.2 4 = Some [Byte.x01] /\
    cached c' h' 4 = None /\ cached c' h' 5 = Some [Byte.x02].
Proof.
  destruct (cache_resize_correct never demo2.1 demo2.2 1 demo2_wf ltac:(lia))
    as (r & c' & h' & E & Hw & _). vm_compute in E.
  injection E as <- <- <-. eexists _, _. split; [by vm_compute|]. split; [exact Hw|]. by vm_compute.
Defined.

Lemma cache_history_witness :
  exists c' h' h'', run_ops never [Insert 4 [Byte.x01]; Insert 5 [Byte.x02]; Resize 1; Insert 9 [Byte.x03];
                                   Resize 8] demo.1 demo.2 = Ok (c', h') /\
    cache_fini c' h' = Ok (with_items c' None, h'') /\ pages h'' = ∅.
Proof.
  destruct (cache_history never 3 1 [Insert 4 [Byte.x01]; Insert 5 [Byte.x02]; Resize 1; Insert 9 [Byte.x03];
              Resize 8] demo_heap demo.1 demo.2 ltac:(lia) ltac:(lia) eq_refl eq_refl)
    as (c' & h' & h'' & E & _ & Hf & He).
  { repeat constructor; (by vm_compute) || (cbn; lia) || lia. }
  by exists c', h', h''.
Defined.
