(* ===== verification/Fifo8.v ===== *)
(** * The byte queue of the device models (util/fifo8.c)

    A ring buffer with 32-bit indices, and the queue it implements. *)

From coqutil Require Import Byte.
From S2P Require Import Prelude GuestMem.

(** ** The ring *)

Record Fifo8 := {
  data : list byte;
  capacity : Z;
  head : Z;
  num : Z
}.

(** The bytes of a new ring are whatever [g_new] returns. *)
Definition fifo8_create (garbage : list byte) (capacity : Z) : Fifo8 :=
  {| data := take (Z.to_nat capacity) garbage; capacity := capacity; head := 0; num := 0 |}.

(** [memcpy(&data[start], bytes, ...)] *)
Definition copy_in (start : Z) (bytes : list byte) (data : list byte) : res (list byte) :=
  if (length data <? Z.to_nat start + length bytes)%nat then Err BufferOverflow
  else Ok (list_inserts (Z.to_nat start) bytes data).

(** [a % b] *)
Definition umod (a b : Z) : res Z := if b =? 0 then Err BadArith else Ok (a mod b).

Definition fifo8_push (fifo : Fifo8) (byte : byte) : res Fifo8 :=
  if num fifo =? capacity fifo then Err AssertFailed
  else
    pos ← umod (u32 (head fifo + num fifo)) (capacity fifo);
    data ← copy_in pos [byte] (data fifo);
    mret {| data := data; capacity := capacity fifo; head := head fifo; num := u32 (num fifo + 1) |}.

Definition fifo8_push_all (fifo : Fifo8) (bytes : list byte) : res Fifo8 :=
  let n := Z.of_nat (length bytes) in
  if capacity fifo <? u32 (num fifo + n) then Err AssertFailed
  else
    start ← umod (u32 (head fifo + num fifo)) (capacity fifo);
    data ←
      (if u32 (start + n) <=? capacity fifo then copy_in start bytes (data fifo)
       else
         let avail := Z.to_nat (u32 (capacity fifo - start)) in
         data ← copy_in start (take avail bytes) (data fifo);
         copy_in 0 (drop avail bytes) data);
    mret {| data := data; capacity := capacity fifo; head := head fifo; num := u32 (num fifo + n) |}.

Definition fifo8_pop (fifo : Fifo8) : res (byte * Fifo8) :=
  if num fifo =? 0 then Err AssertFailed
  else
    match data fifo !! Z.to_nat (head fifo) with
    | None => Err BufferOverflow
    | Some ret =>
        head ← umod (u32 (head fifo + 1)) (capacity fifo);
        mret (ret, {| data := data fifo; capacity := capacity fifo; head := head;
                      num := u32 (num fifo - 1) |})
    end.

(** The bytes at the returned pointer, [*num] of them. *)
Definition fifo8_pop_buf (fifo : Fifo8) (max : Z) : res (list byte * Fifo8) :=
  if (max =? 0) || (num fifo <? max) then Err AssertFailed
  else
    let n := Z.min (u32 (capacity fifo - head fifo)) max in
    let ret := take (Z.to_nat n) (drop (Z.to_nat (head fifo)) (data fifo)) in
    head ← umod (u32 (head fifo + n)) (capacity fifo);
    mret (ret, {| data := data fifo; capacity := capacity fifo; head := head;
                  num := u32 (num fifo - n) |}).

Definition fifo8_reset (fifo : Fifo8) : Fifo8 :=
  {| data := data fifo; capacity := capacity fifo; head := 0; num := 0 |}.

Definition fifo8_is_empty (fifo : Fifo8) : bool := num fifo =? 0.
Definition fifo8_is_full (fifo : Fifo8) : bool := num fifo =? capacity fifo.
Definition fifo8_num_free (fifo : Fifo8) : Z := u32 (capacity fifo - num fifo).
Definition fifo8_num_used (fifo : Fifo8) : Z := num fifo.

(** ** The queue *)

(** Rings of at most [2^31] bytes, so that the sum of two indices does not
    wrap around. *)
Record fifo_ok (f : Fifo8) : Prop := {
  ok_cap : 0 < capacity f <= 2 ^ 31;
  ok_data : length (data f) = Z.to_nat (capacity f);
  ok_head : 0 <= head f < capacity f;
  ok_num : 0 <= num f <= capacity f
}.

(** The byte [j] places behind the head. *)
Definition nth_byte (f : Fifo8) (j : Z) : byte :=
  default Byte.x00 (data f !! Z.to_nat ((head f + j) mod capacity f)).

Definition contents (f : Fifo8) : list byte := nth_byte f <$> seqZ 0 (num f).

Lemma contents_length f : 0 <= num f -> length (contents f) = Z.to_nat (num f).
Proof. intros. unfold contents. by rewrite length_fmap, length_seqZ. Qed.

Lemma u32_small' z : 0 <= z < 2 ^ 32 -> u32 z = z.
Proof. apply Z.mod_small. Qed.

Lemma umod_pos a b : 0 < b -> umod a b = Ok (a mod b).
Proof. intros. unfold umod. destruct (Z.eqb_spec b 0); [lia|done]. Qed.

Lemma copy_in_ok start bytes d : (Z.to_nat start + length bytes <= length d)%nat ->
  copy_in start bytes d = Ok (list_inserts (Z.to_nat start) bytes d).
Proof.
  intros. unfold copy_in. by destruct (Nat.ltb_spec (length d) (Z.to_nat start + length bytes)); [lia|].
Qed.

(** Places within one turn of the ring. *)
Lemma wrap_once cap x : 0 < cap -> 0 <= x < 2 * cap -> x mod cap = if x <? cap then x else x - cap.
Proof.
  intros Hc Hx. destruct (Z.ltb_spec x cap); [apply Z.mod_small; lia|].
  symmetry. apply (Z.mod_unique_pos _ _ 1); lia.
Qed.

(** ** Adding bytes *)

(** [d'] has [bytes] behind the [num f] bytes of the ring and the rest as
    before. *)
Definition filled (f : Fifo8) (bytes d' : list byte) : Prop :=
  length d' = length (data f) /\
  (forall j, 0 <= j < num f ->
     d' !! Z.to_nat ((head f + j) mod capacity f) = data f !! Z.to_nat ((head f + j) mod capacity f)) /\
  (forall j, 0 <= j < Z.of_nat (length bytes) ->
     d' !! Z.to_nat ((head f + (num f + j)) mod capacity f) = bytes !! Z.to_nat j).

Lemma filled_contents f bytes d' : fifo_ok f -> num f + Z.of_nat (length bytes) <= capacity f ->
  filled f bytes d' ->
  let f' := {| data := d'; capacity := capacity f; head := head f;
               num := u32 (num f + Z.of_nat (length bytes)) |} in
  fifo_ok f' /\ contents f' = contents f ++ bytes.
Proof.
  intros [Hc Hd Hh Hn] Hfit (Hl & Hold & Hnew) f'.
  assert (Hu : u32 (num f + Z.of_nat (length bytes)) = num f + Z.of_nat (length bytes))
    by (apply u32_small'; lia).
  split; [split; cbn; rewrite ?Hu; (done || lia || congruence)|].
  unfold contents. cbn [num f']. rewrite Hu, seqZ_app, fmap_app by lia. f_equal.
  - apply list_fmap_ext. intros i j [-> Hj]%lookup_seqZ. unfold nth_byte. cbn [f' data head capacity].
    rewrite Z.add_0_l. by rewrite Hold by lia.
  - rewrite Z.add_0_l. apply list_eq_same_length with (n := length bytes);
      [done|by rewrite length_fmap, length_seqZ, Nat2Z.id|].
    intros i x y Hi Hx Hy. rewrite list_lookup_fmap, lookup_seqZ_lt in Hx by lia. cbn in Hx. simplify_eq.
    unfold nth_byte. cbn [f' data head capacity]. rewrite Hnew by lia. by rewrite Nat2Z.id, Hy.
Qed.

Lemma inserts_lookup i (bs l : list byte) j : (i + length bs <= length l)%nat ->
  list_inserts i bs l !! j =
    if decide (i <= j < i + length bs)%nat then bs !! (j - i)%nat else l !! j.
Proof.
  intros Hl. case_decide as Hj; [apply list_lookup_inserts; lia|].
  destruct (decide (j < i)%nat); [by apply list_lookup_inserts_lt|apply list_lookup_inserts_ge; lia].
Qed.

Ltac wrap := rewrite !wrap_once by lia; repeat match goal with |- context [?a <? ?b] =>
  destruct (Z.ltb_spec a b) end.

(** The bytes fit behind the last one without wrapping around. *)
Lemma filled_straight f bytes : fifo_ok f -> num f + Z.of_nat (length bytes) <= capacity f ->
  let start := (head f + num f) mod capacity f in
  start + Z.of_nat (length bytes) <= capacity f ->
  filled f bytes (list_inserts (Z.to_nat start) bytes (data f)).
Proof.
  intros [Hc Hd Hh Hn] Hfit start Hs.
  assert (Hst : start = if head f + num f <? capacity f then head f + num f else head f + num f - capacity f)
    by (apply wrap_once; lia).
  assert (0 <= start) by (destruct (Z.ltb_spec (head f + num f) (capacity f)); lia).
  split; [by rewrite length_inserts|]. split; intros j Hj;
    rewrite inserts_lookup by lia; clearbody start; revert Hst; wrap; intros Hst; case_decide;
    try (exfalso; lia); try done; f_equal; lia.
Qed.

(** They are split at the end of the ring. *)
Lemma filled_split f bytes : fifo_ok f -> num f + Z.of_nat (length bytes) <= capacity f ->
  let start := (head f + num f) mod capacity f in
  capacity f < start + Z.of_nat (length bytes) ->
  let avail := Z.to_nat (capacity f - start) in
  filled f bytes (list_inserts 0 (drop avail bytes)
                    (list_inserts (Z.to_nat start) (take avail bytes) (data f))).
Proof.
  intros [Hc Hd Hh Hn] Hfit start Hs avail.
  assert (Hst : start = if head f + num f <? capacity f then head f + num f else head f + num f - capacity f)
    by (apply wrap_once; lia).
  assert (Hb : 0 <= start < capacity f) by (apply Z.mod_pos_bound; lia).
  assert (Ht : length (take avail bytes) = avail) by (rewrite length_take_le; lia).
  assert (Hdr : length (drop avail bytes) = (length bytes - avail)%nat) by apply length_drop.
  split; [by rewrite !length_inserts|]. split; intros j Hj;
    rewrite inserts_lookup by (rewrite length_inserts; lia);
    rewrite inserts_lookup by lia; rewrite Ht, Hdr; unfold avail in *; clearbody start;
    revert Hst; wrap; intros Hst; repeat case_decide; try (exfalso; lia); try done;
    rewrite ?lookup_drop, ?lookup_take_lt by lia; f_equal; lia.
Qed.

Lemma push_all_ok f bytes : fifo_ok f -> num f + Z.of_nat (length bytes) <= capacity f ->
  exists f', fifo8_push_all f bytes = Ok f' /\ fifo_ok f' /\ capacity f' = capacity f /\
             contents f' = contents f ++ bytes.
Proof.
  intros Hf Hfit. pose proof Hf as [Hc Hd Hh Hn]. unfold fifo8_push_all.
  rewrite u32_small' by lia. destruct (Z.ltb_spec (capacity f) (num f + Z.of_nat (length bytes))); [lia|].
  rewrite u32_small', umod_pos by lia. cbn [mbind res_bind].
  set (start := (head f + num f) mod capacity f).
  assert (Hb : 0 <= start < capacity f) by (apply Z.mod_pos_bound; lia).
  rewrite !u32_small' by lia. destruct (Z.leb_spec (start + Z.of_nat (length bytes)) (capacity f)) as [Hle|Hgt].
  - rewrite copy_in_ok by lia. cbn [mbind res_bind]. eexists. split; [done|].
    destruct (filled_contents f bytes _ Hf Hfit (filled_straight f bytes Hf Hfit Hle)) as [Hok Hcon].
    rewrite u32_small' in Hok, Hcon by lia. done.
  - rewrite copy_in_ok by (rewrite length_take; lia). cbn [mbind res_bind].
    rewrite copy_in_ok by (rewrite length_inserts, length_drop; lia). cbn [mbind res_bind].
    eexists. split; [done|].
    destruct (filled_contents f bytes _ Hf Hfit (filled_split f bytes Hf Hfit Hgt)) as [Hok Hcon].
    rewrite u32_small' in Hok, Hcon by lia. done.
Qed.

Lemma push_ok f b : fifo_ok f -> num f < capacity f ->
  exists f', fifo8_push f b = Ok f' /\ fifo_ok f' /\ capacity f' = capacity f /\
             contents f' = contents f ++ [b].
Proof.
  intros Hf Hlt. pose proof Hf as [Hc Hd Hh Hn]. unfold fifo8_push.
  destruct (Z.eqb_spec (num f) (capacity f)); [lia|]. rewrite !u32_small', umod_pos by lia. cbn [mbind res_bind].
  pose proof (Z.mod_pos_bound (head f + num f) (capacity f) ltac:(lia)).
  rewrite copy_in_ok by (cbn [length]; lia). cbn [mbind res_bind]. eexists. split; [done|].
  assert (Hfit : num f + Z.of_nat (length [b]) <= capacity f) by (cbn [length]; lia).
  destruct (filled_contents f [b] _ Hf Hfit (filled_straight f [b] Hf Hfit ltac:(cbn [length]; lia)))
    as [Hok Hcon]. rewrite u32_small' in Hok, Hcon by lia. done.
Qed.

(** ** Taking bytes *)

Lemma pop_contents f n : fifo_ok f -> 0 <= n <= num f -> head f + n <= capacity f ->
  let f' := {| data := data f; capacity := capacity f; head := (head f + n) mod capacity f;
               num := num f - n |} in
  fifo_ok f' /\
  contents f = take (Z.to_nat n) (drop (Z.to_nat (head f)) (data f)) ++ contents f'.
Proof.
  intros [Hc Hd Hh Hn] Hle Hend f'.
  pose proof (Z.mod_pos_bound (head f + n) (capacity f) ltac:(lia)).
  split; [split; cbn; (done || lia)|].
  unfold contents. cbn [num f']. replace (seqZ 0 (num f)) with (seqZ 0 n ++ ((fun j => n + j) <$> seqZ 0 (num f - n))).
  2:{ rewrite fmap_add_seqZ, Z.add_0_r. pose proof (seqZ_app 0 n (num f - n) ltac:(lia) ltac:(lia)) as E.
      rewrite Z.add_0_l in E. rewrite <- E. f_equal. lia. }
  rewrite fmap_app. f_equal.
  - apply list_eq_same_length with (n := Z.to_nat n).
    + rewrite length_take, length_drop. lia.
    + by rewrite length_fmap, length_seqZ.
    + intros i x y Hi Hx Hy. rewrite list_lookup_fmap, lookup_seqZ_lt in Hx by lia. cbn in Hx. simplify_eq.
      rewrite lookup_take_lt, lookup_drop in Hy by lia. unfold nth_byte.
      rewrite Z.add_0_l, Z.mod_small by lia. rewrite Z2Nat.inj_add, Nat2Z.id by lia. by rewrite Hy.
  - rewrite <- list_fmap_compose. apply list_fmap_ext. intros i j [-> Hj]%lookup_seqZ. cbn.
    unfold nth_byte. cbn [f' data head capacity]. rewrite Zplus_mod_idemp_l.
    by rewrite <- Z.add_assoc.
Qed.

Lemma pop_buf_ok f max : fifo_ok f -> 0 < max <= num f ->
  let n := Z.min (capacity f - head f) max in
  exists f', fifo8_pop_buf f max = Ok (take (Z.to_nat n) (contents f), f') /\ fifo_ok f' /\
    capacity f' = capacity f /\ contents f' = drop (Z.to_nat n) (contents f).
Proof.
  intros Hf Hmax n. pose proof Hf as [Hc Hd Hh Hn]. unfold fifo8_pop_buf.
  destruct (Z.eqb_spec max 0); [lia|]. destruct (Z.ltb_spec (num f) max); [lia|]. cbn [orb].
  rewrite (u32_small' (capacity f - head f)) by lia. fold n. rewrite !u32_small', umod_pos by lia.
  cbn [mbind res_bind]. destruct (pop_contents f n Hf ltac:(lia) ltac:(lia)) as [Hok E].
  assert (Hl : length (take (Z.to_nat n) (drop (Z.to_nat (head f)) (data f))) = Z.to_nat n)
    by (rewrite length_take, length_drop; lia).
  eexists. split; [|split; [exact Hok|]]. 
  - do 2 f_equal. by rewrite E, take_app_length'.
  - split; [done|]. by rewrite E, drop_app_length'.
Qed.

Lemma pop_ok f : fifo_ok f -> 0 < num f ->
  exists b q f', contents f = b :: q /\ fifo8_pop f = Ok (b, f') /\ fifo_ok f' /\
    capacity f' = capacity f /\ contents f' = q.
Proof.
  intros Hf Hpos. pose proof Hf as [Hc Hd Hh Hn]. unfold fifo8_pop.
  destruct (Z.eqb_spec (num f) 0); [lia|]. destruct (pop_contents f 1 Hf ltac:(lia) ltac:(lia)) as [Hok E].
  destruct (lookup_lt_is_Some_2 (data f) (Z.to_nat (head f)) ltac:(lia)) as [b Hb]. rewrite Hb.
  rewrite !u32_small', umod_pos by lia. cbn [mbind res_bind]. rewrite (drop_S _ _ _ Hb) in E.
  eexists b, _, _. split; [exact E|]. done.
Qed.

(** ** The queue as a specification *)

Inductive fifo_op :=
| Push (b : byte)
| PushAll (bytes : list byte)
| Pop
| PopBuf (max : Z)
| Reset.

(** What an operation returns, on the ring. *)
Definition ring_op (o : fifo_op) (f : Fifo8) : res (list byte * Fifo8) :=
  match o with
  | Push b => f ← fifo8_push f b; mret ([], f)
  | PushAll bytes => f ← fifo8_push_all f bytes; mret ([], f)
  | Pop => '(b, f) ← fifo8_pop f; mret ([b], f)
  | PopBuf max => fifo8_pop_buf f max
  | Reset => mret ([], fifo8_reset f)
  end.

(** What it may do to a queue of [cap] bytes at most; [None] says that it
    aborts.  [PopBuf] takes between one and [max] bytes. *)
Inductive queue_op (cap : Z) (q : list byte) : fifo_op -> option (list byte * list byte) -> Prop :=
| q_push b : Z.of_nat (length q) < cap -> queue_op cap q (Push b) (Some ([], q ++ [b]))
| q_push_full b : Z.of_nat (length q) = cap -> queue_op cap q (Push b) None
| q_push_all bytes : Z.of_nat (length q + length bytes) <= cap ->
    queue_op cap q (PushAll bytes) (Some ([], q ++ bytes))
| q_push_all_full bytes : cap < Z.of_nat (length q + length bytes) -> queue_op cap q (PushAll bytes) None
| q_pop b q' : q = b :: q' -> queue_op cap q Pop (Some ([b], q'))
| q_pop_empty : q = [] -> queue_op cap q Pop None
| q_pop_buf max out q' : q = out ++ q' -> 0 < Z.of_nat (length out) <= max -> max <= Z.of_nat (length q) ->
    queue_op cap q (PopBuf max) (Some (out, q'))
| q_pop_buf_bad max : max = 0 \/ Z.of_nat (length q) < max -> queue_op cap q (PopBuf max) None
| q_reset : queue_op cap q Reset (Some ([], [])).

(** Arguments of the C types, short enough that their sum with a length
    below the capacity fits in 32 bits. *)
Definition op_fits (o : fifo_op) : Prop :=
  match o with
  | PushAll bytes => Z.of_nat (length bytes) < 2 ^ 31
  | PopBuf max => 0 <= max
  | _ => True
  end.

Lemma contents_size f : fifo_ok f -> Z.of_nat (length (contents f)) = num f.
Proof. intros Hf. pose proof (ok_num _ Hf). rewrite contents_length; lia. Qed.

(** The ring [f'] follows the queue's step with output [out]. *)
Definition follows (o : fifo_op) (f : Fifo8) (r : res (list byte * Fifo8)) : Prop :=
  match r with
  | Ok (out, f') => fifo_ok f' /\ capacity f' = capacity f /\
                    queue_op (capacity f) (contents f) o (Some (out, contents f'))
  | Err e => e = AssertFailed /\ queue_op (capacity f) (contents f) o None
  end.

Lemma push_follows f b : fifo_ok f -> follows (Push b) f (ring_op (Push b) f).
Proof.
  intros Hf. pose proof (contents_size f Hf) as Hl. pose proof Hf as [_ _ _ Hn].
  destruct (decide (num f = capacity f)) as [E|E]; cbn [ring_op].
  - unfold fifo8_push. rewrite E, Z.eqb_refl. split; [done|]. apply q_push_full. lia.
  - destruct (push_ok f b Hf ltac:(lia)) as (f' & -> & Hok & Hc & Hq). split; [done|]. split; [done|].
    rewrite Hq. apply q_push. lia.
Qed.

Lemma push_all_follows f bytes : fifo_ok f -> Z.of_nat (length bytes) < 2 ^ 31 ->
  follows (PushAll bytes) f (ring_op (PushAll bytes) f).
Proof.
  intros Hf Hb. pose proof (contents_size f Hf) as Hl. pose proof Hf as [Hc _ _ Hn]. cbn [ring_op].
  destruct (decide (num f + Z.of_nat (length bytes) <= capacity f)) as [E|E].
  - destruct (push_all_ok f bytes Hf E) as (f' & -> & Hok & Hc' & Hq). split; [done|]. split; [done|].
    rewrite Hq. apply q_push_all. lia.
  - unfold fifo8_push_all. rewrite u32_small' by lia.
    destruct (Z.ltb_spec (capacity f) (num f + Z.of_nat (length bytes))); [|lia].
    split; [done|]. apply q_push_all_full. lia.
Qed.

Lemma pop_follows f : fifo_ok f -> follows Pop f (ring_op Pop f).
Proof.
  intros Hf. pose proof (contents_size f Hf) as Hl. pose proof Hf as [_ _ _ Hn]. cbn [ring_op].
  destruct (decide (num f = 0)) as [E|E].
  - unfold fifo8_pop. rewrite E. split; [done|]. apply q_pop_empty. apply length_zero_iff_nil. lia.
  - destruct (pop_ok f Hf ltac:(lia)) as (b & q & f' & Hq & -> & Hok & Hc & Hq').
    split; [done|]. split; [done|]. rewrite Hq'. by apply q_pop.
Qed.

Lemma pop_buf_follows f max : fifo_ok f -> 0 <= max -> follows (PopBuf max) f (ring_op (PopBuf max) f).
Proof.
  intros Hf Hm. pose proof (contents_size f Hf) as Hl. pose proof Hf as [_ _ Hh Hn]. cbn [ring_op].
  destruct (decide (0 < max <= num f)) as [E|E].
  - destruct (pop_buf_ok f max Hf E) as (f' & -> & Hok & Hc & Hq). split; [done|]. split; [done|].
    rewrite Hq. apply q_pop_buf; [by rewrite take_drop|rewrite length_take; lia|lia].
  - unfold fifo8_pop_buf. destruct (Z.eqb_spec max 0), (Z.ltb_spec (num f) max); cbn [orb]; try lia;
      (split; [done|]); apply q_pop_buf_bad; lia.
Qed.

(** C32: The ring implements the queue: on a well-formed ring of at most
    2^31 bytes every operation returns what a first-in first-out queue with
    the same contents may return, aborts exactly where the queue is full or
    has too few bytes, and never touches memory outside the ring; the ring
    stays well formed. *)
Theorem fifo8_refines_queue f o : fifo_ok f -> op_fits o ->
  match ring_op o f with
  | Ok (out, f') => fifo_ok f' /\ capacity f' = capacity f /\
                    queue_op (capacity f) (contents f) o (Some (out, contents f'))
  | Err e => e = AssertFailed /\ queue_op (capacity f) (contents f) o None
  end.
Proof.
  intros Hf Ho. change (follows o f (ring_op o f)). destruct o as [b|bytes| |max|]; cbn in Ho.
  - by apply push_follows.
  - by apply push_all_follows.
  - by apply pop_follows.
  - by apply pop_buf_follows.
  - destruct Hf. split; [split; cbn; (done || lia)|]. split; [done|]. apply q_reset.
Qed.

Definition demo_ring : Fifo8 := {| data := [Byte.x01; Byte.x02; Byte.x03]; capacity := 3; head := 2; num := 1 |}.

(** Two bytes pushed across the end of the ring. *)
Lemma fifo8_refines_queue_witness :
  contents demo_ring = [Byte.x03] /\
  exists f', ring_op (PushAll [Byte.x04; Byte.x05]) demo_ring = Ok ([], f') /\
    queue_op 3 (contents demo_ring) (PushAll [Byte.x04; Byte.x05]) (Some ([], contents f')) /\
    contents f' = [Byte.x03; Byte.x04; Byte.x05].
Proof.
  split; [by vm_compute|].
  assert (Hf : fifo_ok demo_ring) by (split; cbn; (done || lia)).
  pose proof (fifo8_refines_queue demo_ring (PushAll [Byte.x04; Byte.x05]) Hf ltac:(cbn; lia)) as H.
  destruct H as (_ & _ & H). eexists. split; [by vm_compute|]. split; [exact H|by vm_compute].
Defined.
