(* ===== verification/Lapic.v ===== *)
(** * The local interrupt controller (kvm-kmod x86/lapic.c, lapic.h)

    One virtual processor's APIC: the page of registers, the bit vectors of
    requested and serviced interrupts with the counters that cache them,
    priorities, acceptance of an interrupt, end of interrupt, and the timer.
    The host has no hardware APIC virtualisation ([vm_has_apicv] is false and
    [deliver_posted_interrupt] is NULL).  The static keys that let the code
    skip a test when no APIC is disabled do not change the test's result.  The
    [ASSERT]s of the file are empty in the build. *)

From S2P Require Import Prelude.

(** ** Registers *)

Definition APIC_ID := 0x20.
Definition APIC_LVR := 0x30.
Definition APIC_TASKPRI := 0x80.
Definition APIC_ARBPRI := 0x90.
Definition APIC_PROCPRI := 0xa0.
Definition APIC_EOI := 0xb0.
Definition APIC_LDR := 0xd0.
Definition APIC_DFR := 0xe0.
Definition APIC_SPIV := 0xf0.
Definition APIC_ISR := 0x100.
Definition APIC_TMR := 0x180.
Definition APIC_IRR := 0x200.
Definition APIC_ESR := 0x280.
Definition APIC_ICR := 0x300.
Definition APIC_ICR2 := 0x310.
Definition APIC_LVTT := 0x320.
Definition APIC_LVTTHMR := 0x330.
Definition APIC_LVTPC := 0x340.
Definition APIC_LVT0 := 0x350.
Definition APIC_LVT1 := 0x360.
Definition APIC_LVTERR := 0x370.
Definition APIC_TMICT := 0x380.
Definition APIC_TMCCT := 0x390.
Definition APIC_TDCR := 0x3e0.
Definition APIC_SELF_IPI := 0x3f0.

Definition APIC_SPIV_APIC_ENABLED := 0x100.
Definition APIC_SPIV_DIRECTED_EOI := 0x1000.
Definition APIC_LVR_DIRECTED_EOI := 0x1000000.
Definition APIC_LVT_MASKED := 0x10000.
Definition APIC_LVT_LEVEL_TRIGGER := 0x8000.
Definition APIC_VECTOR_MASK := 0xff.
Definition APIC_MODE_MASK := 0x700.
Definition APIC_MODE_EXTINT := 0x7.
Definition APIC_DM_FIXED := 0x000.
Definition APIC_DM_LOWEST := 0x100.
Definition APIC_DM_SMI := 0x200.
Definition APIC_DM_REMRD := 0x300.
Definition APIC_DM_NMI := 0x400.
Definition APIC_DM_INIT := 0x500.
Definition APIC_DM_STARTUP := 0x600.
Definition APIC_DM_EXTINT := 0x700.
Definition APIC_LVT_TIMER_ONESHOT := 0.
Definition APIC_LVT_TIMER_PERIODIC := 0x20000.
Definition APIC_LVT_TIMER_TSCDEADLINE := 0x40000.
Definition MSR_IA32_APICBASE_BSP := 0x100.
Definition X2APIC_ENABLE := 0x400.
Definition MSR_IA32_APICBASE_ENABLE := 0x800.

Definition APIC_LVT_NUM : nat := 6.
Definition APIC_VERSION : Z := Z.lor 0x14 (Z.shiftl (Z.of_nat APIC_LVT_NUM - 1) 16).
Definition LAPIC_MMIO_LENGTH : Z := 0x1000.
Definition MAX_APIC_VECTOR : Z := 256.
Definition VEC_POS (v : Z) : Z := Z.land v 31.
Definition REG_POS (v : Z) : Z := Z.shiftl (Z.shiftr v 5) 4.
Definition KVM_APIC_INIT : Z := 0.
Definition KVM_APIC_SIPI : Z := 1.

(** ** State *)

(** [expires] and [queued] are the hrtimer: the time it was last set to and
    whether it will fire. *)
Record kvm_timer := Timer {
  expires : Z; queued : bool; period : Z; timer_mode_mask : Z; tscdeadline : Z; pending : Z
}.

(** A register is a 32-bit word at its offset in a zeroed page. *)
Record kvm_lapic := Lapic {
  base_address : Z; lapic_timer : kvm_timer; divide_count : Z;
  irr_pending : bool; isr_count : Z; highest_isr_cache : Z;
  regs : gmap Z Z; pending_events : Z; sipi_vector : Z
}.

(** Where a processor starts: the state of its execution, the code segment's
    selector and base, and the instruction pointer. *)
Record kvm_start := Start { mp_state : Z; cs_selector : Z; cs_base : Z; rip : Z }.

(** The fields of a virtual processor that the APIC code uses. *)
Record kvm_vcpu := Vcpu {
  vcpu_id : Z; is_bsp : bool; apic : kvm_lapic; apic_base : Z; apic_arb_prio : Z;
  nmi_queued : Z; pv_unhalted : bool; req_event : bool; req_scan_ioapic : bool;
  start : kvm_start
}.

Definition with_timer (t : kvm_timer) (a : kvm_lapic) : kvm_lapic :=
  Lapic (base_address a) t (divide_count a) (irr_pending a) (isr_count a) (highest_isr_cache a)
    (regs a) (pending_events a) (sipi_vector a).
Definition with_divide_count (d : Z) (a : kvm_lapic) : kvm_lapic :=
  Lapic (base_address a) (lapic_timer a) d (irr_pending a) (isr_count a) (highest_isr_cache a)
    (regs a) (pending_events a) (sipi_vector a).
Definition with_irr_pending (b : bool) (a : kvm_lapic) : kvm_lapic :=
  Lapic (base_address a) (lapic_timer a) (divide_count a) b (isr_count a) (highest_isr_cache a)
    (regs a) (pending_events a) (sipi_vector a).
Definition with_isr (count cache : Z) (a : kvm_lapic) : kvm_lapic :=
  Lapic (base_address a) (lapic_timer a) (divide_count a) (irr_pending a) count cache
    (regs a) (pending_events a) (sipi_vector a).
Definition with_regs (r : gmap Z Z) (a : kvm_lapic) : kvm_lapic :=
  Lapic (base_address a) (lapic_timer a) (divide_count a) (irr_pending a) (isr_count a)
    (highest_isr_cache a) r (pending_events a) (sipi_vector a).
Definition with_events (ev sipi : Z) (a : kvm_lapic) : kvm_lapic :=
  Lapic (base_address a) (lapic_timer a) (divide_count a) (irr_pending a) (isr_count a)
    (highest_isr_cache a) (regs a) ev sipi.
Definition with_base_address (b : Z) (a : kvm_lapic) : kvm_lapic :=
  Lapic b (lapic_timer a) (divide_count a) (irr_pending a) (isr_count a) (highest_isr_cache a)
    (regs a) (pending_events a) (sipi_vector a).

Definition with_apic (a : kvm_lapic) (v : kvm_vcpu) : kvm_vcpu :=
  Vcpu (vcpu_id v) (is_bsp v) a (apic_base v) (apic_arb_prio v) (nmi_queued v) (pv_unhalted v)
    (req_event v) (req_scan_ioapic v) (start v).
Definition with_apic_base (b : Z) (v : kvm_vcpu) : kvm_vcpu :=
  Vcpu (vcpu_id v) (is_bsp v) (apic v) b (apic_arb_prio v) (nmi_queued v) (pv_unhalted v)
    (req_event v) (req_scan_ioapic v) (start v).
Definition with_arb_prio (p : Z) (v : kvm_vcpu) : kvm_vcpu :=
  Vcpu (vcpu_id v) (is_bsp v) (apic v) (apic_base v) p (nmi_queued v) (pv_unhalted v)
    (req_event v) (req_scan_ioapic v) (start v).
Definition with_nmi_queued (n : Z) (v : kvm_vcpu) : kvm_vcpu :=
  Vcpu (vcpu_id v) (is_bsp v) (apic v) (apic_base v) (apic_arb_prio v) n (pv_unhalted v)
    (req_event v) (req_scan_ioapic v) (start v).
Definition with_pv_unhalted (b : bool) (v : kvm_vcpu) : kvm_vcpu :=
  Vcpu (vcpu_id v) (is_bsp v) (apic v) (apic_base v) (apic_arb_prio v) (nmi_queued v) b
    (req_event v) (req_scan_ioapic v) (start v).

(** [kvm_make_request(KVM_REQ_EVENT, vcpu)] *)
Definition request_event (v : kvm_vcpu) : kvm_vcpu :=
  Vcpu (vcpu_id v) (is_bsp v) (apic v) (apic_base v) (apic_arb_prio v) (nmi_queued v) (pv_unhalted v) true
    (req_scan_ioapic v) (start v).

(** [KVM_REQ_SCAN_IOAPIC], made and served *)
Definition with_scan (b : bool) (v : kvm_vcpu) : kvm_vcpu :=
  Vcpu (vcpu_id v) (is_bsp v) (apic v) (apic_base v) (apic_arb_prio v) (nmi_queued v) (pv_unhalted v)
    (req_event v) b (start v).

Definition with_start (s : kvm_start) (v : kvm_vcpu) : kvm_vcpu :=
  Vcpu (vcpu_id v) (is_bsp v) (apic v) (apic_base v) (apic_arb_prio v) (nmi_queued v) (pv_unhalted v)
    (req_event v) (req_scan_ioapic v) s.

Definition on_apic (f : kvm_lapic -> kvm_lapic) (v : kvm_vcpu) : kvm_vcpu := with_apic (f (apic v)) v.

(** ** Register access *)

Definition kvm_apic_get_reg (a : kvm_lapic) (reg_off : Z) : Z := default 0 (regs a !! reg_off).

Definition apic_set_reg (a : kvm_lapic) (reg_off val : Z) : kvm_lapic :=
  with_regs (<[reg_off := val]> (regs a)) a.

(** A bit vector of 256 bits starts at register [bitmap]. *)
Definition apic_test_vector (a : kvm_lapic) (vec bitmap : Z) : bool :=
  Z.testbit (kvm_apic_get_reg a (bitmap + REG_POS vec)) (VEC_POS vec).

Definition apic_set_vector (a : kvm_lapic) (vec bitmap : Z) : kvm_lapic :=
  apic_set_reg a (bitmap + REG_POS vec)
    (Z.setbit (kvm_apic_get_reg a (bitmap + REG_POS vec)) (VEC_POS vec)).

Definition apic_clear_vector (a : kvm_lapic) (vec bitmap : Z) : kvm_lapic :=
  apic_set_reg a (bitmap + REG_POS vec)
    (Z.clearbit (kvm_apic_get_reg a (bitmap + REG_POS vec)) (VEC_POS vec)).

Definition kvm_apic_pending_eoi (a : kvm_lapic) (vector : Z) : bool :=
  apic_test_vector a vector APIC_ISR || apic_test_vector a vector APIC_IRR.

Definition kvm_apic_id (a : kvm_lapic) : Z := Z.land (Z.shiftr (kvm_apic_get_reg a APIC_ID) 24) 0xff.

Definition kvm_apic_sw_enabled (a : kvm_lapic) : bool :=
  any (kvm_apic_get_reg a APIC_SPIV) APIC_SPIV_APIC_ENABLED.
Definition kvm_apic_hw_enabled (v : kvm_vcpu) : bool := any (apic_base v) MSR_IA32_APICBASE_ENABLE.
Definition apic_enabled (v : kvm_vcpu) : bool := kvm_apic_sw_enabled (apic v) && kvm_apic_hw_enabled v.
Definition apic_x2apic_mode (v : kvm_vcpu) : bool := any (apic_base v) X2APIC_ENABLE.

(** Every virtual processor has a local APIC. *)
Definition kvm_apic_present (v : kvm_vcpu) : bool := kvm_apic_hw_enabled v.
Definition kvm_lapic_enabled (v : kvm_vcpu) : bool := kvm_apic_present v && kvm_apic_sw_enabled (apic v).

(** ** Vectors *)

(** [fls] and [hweight32] on a 32-bit word *)
Definition fls (x : Z) : Z := if x =? 0 then 0 else Z.log2 x + 1.
Fixpoint ones_in (x : Z) (n : nat) : Z :=
  match n with
  | O => 0
  | S n => Z.b2z (Z.testbit x (Z.of_nat n)) + ones_in x n
  end.
Definition hweight32 (x : Z) : Z := ones_in x 32.

(** The loop from the highest word down; [n] words are left. *)
Fixpoint find_from (a : kvm_lapic) (bitmap : Z) (n : nat) : Z :=
  match n with
  | O => - 1
  | S n =>
      let vec := 32 * Z.of_nat n in
      let reg := kvm_apic_get_reg a (bitmap + REG_POS vec) in
      if reg =? 0 then find_from a bitmap n else fls reg - 1 + vec
  end.
Definition find_highest_vector (a : kvm_lapic) (bitmap : Z) : Z := find_from a bitmap 8.

(** The sum of the words' weights, kept in a [u8]. *)
Fixpoint count_from (a : kvm_lapic) (bitmap : Z) (n : nat) : Z :=
  match n with
  | O => 0
  | S n => u8 (count_from a bitmap n + hweight32 (kvm_apic_get_reg a (bitmap + REG_POS (32 * Z.of_nat n))))
  end.
Definition count_vectors (a : kvm_lapic) (bitmap : Z) : Z := count_from a bitmap 8.

Definition apic_set_irr (vec : Z) (a : kvm_lapic) : kvm_lapic :=
  apic_set_vector (with_irr_pending true a) vec APIC_IRR.

Definition apic_search_irr (a : kvm_lapic) : Z := find_highest_vector a APIC_IRR.

Definition apic_find_highest_irr (a : kvm_lapic) : Z :=
  if negb (irr_pending a) then - 1 else apic_search_irr a.

Definition apic_clear_irr (vec : Z) (a : kvm_lapic) : kvm_lapic :=
  let a := apic_clear_vector (with_irr_pending false a) vec APIC_IRR in
  if apic_search_irr a =? - 1 then a else with_irr_pending true a.

(** [BUG_ON] is an error. *)
Definition apic_set_isr (vec : Z) (a : kvm_lapic) : res kvm_lapic :=
  let count := if apic_test_vector a vec APIC_ISR then isr_count a else isr_count a + 1 in
  if MAX_APIC_VECTOR <? count then Err AssertFailed
  else Ok (with_isr count vec (apic_set_vector a vec APIC_ISR)).

Definition apic_find_highest_isr (a : kvm_lapic) : Z :=
  if isr_count a =? 0 then - 1
  else if negb (highest_isr_cache a =? - 1) then highest_isr_cache a
  else find_highest_vector a APIC_ISR.

Definition apic_clear_isr (vec : Z) (a : kvm_lapic) : res kvm_lapic :=
  if negb (apic_test_vector a vec APIC_ISR) then Ok a
  else if isr_count a - 1 <? 0 then Err AssertFailed
  else Ok (with_isr (isr_count a - 1) (- 1) (apic_clear_vector a vec APIC_ISR)).

(** ** Priorities *)

Definition apic_update_ppr (v : kvm_vcpu) : kvm_vcpu :=
  let a := apic v in
  let old_ppr := kvm_apic_get_reg a APIC_PROCPRI in
  let tpr := kvm_apic_get_reg a APIC_TASKPRI in
  let isr := apic_find_highest_isr a in
  let isrv := if negb (isr =? - 1) then isr else 0 in
  let ppr := if Z.land isrv 0xf0 <=? Z.land tpr 0xf0 then Z.land tpr 0xff else Z.land isrv 0xf0 in
  if old_ppr =? ppr then v
  else
    let v := with_apic (apic_set_reg a APIC_PROCPRI ppr) v in
    if ppr <? old_ppr then request_event v else v.

Definition apic_set_tpr (v : kvm_vcpu) (tpr : Z) : kvm_vcpu :=
  apic_update_ppr (on_apic (fun a => apic_set_reg a APIC_TASKPRI tpr) v).

Definition kvm_lapic_set_tpr (v : kvm_vcpu) (cr8 : Z) : kvm_vcpu :=
  apic_set_tpr v (Z.lor (Z.shiftl (Z.land cr8 0x0f) 4)
                        (Z.land (kvm_apic_get_reg (apic v) APIC_TASKPRI) 4)).

Definition kvm_lapic_get_cr8 (v : kvm_vcpu) : Z :=
  Z.shiftr (Z.land (kvm_apic_get_reg (apic v) APIC_TASKPRI) 0xf0) 4.

(** ** Accepting an interrupt *)

(** The result and the processor; whether its bit in [dest_map] is set. *)
Definition __apic_accept_irq (v : kvm_vcpu) (delivery_mode vector level trig_mode : Z)
    : Z * bool * kvm_vcpu :=
  let v := if delivery_mode =? APIC_DM_LOWEST then with_arb_prio (s32 (apic_arb_prio v + 1)) v else v in
  if (delivery_mode =? APIC_DM_LOWEST) || (delivery_mode =? APIC_DM_FIXED) then
    if negb (apic_enabled v) then (0, false, v)
    else (1, true, request_event (on_apic (apic_set_irr vector) v))
  else if delivery_mode =? APIC_DM_REMRD then (1, false, request_event (with_pv_unhalted true v))
  else if delivery_mode =? APIC_DM_SMI then (0, false, v)
  else if delivery_mode =? APIC_DM_NMI then (1, false, with_nmi_queued (nmi_queued v + 1) v)
  else if delivery_mode =? APIC_DM_INIT then
    if (trig_mode =? 0) || negb (level =? 0) then
      (1, false, request_event (on_apic (fun a => with_events (Z.shiftl 1 KVM_APIC_INIT) (sipi_vector a) a) v))
    else (0, false, v)
  else if delivery_mode =? APIC_DM_STARTUP then
    (1, false, request_event (on_apic (fun a => with_events (Z.setbit (pending_events a) KVM_APIC_SIPI) vector a) v))
  else (0, false, v).

Definition kvm_apic_local_deliver (v : kvm_vcpu) (lvt_type : Z) : Z * kvm_vcpu :=
  let reg := kvm_apic_get_reg (apic v) lvt_type in
  if kvm_apic_hw_enabled v && negb (any reg APIC_LVT_MASKED) then
    let '(r, _, v) := __apic_accept_irq v (Z.land reg APIC_MODE_MASK) (Z.land reg APIC_VECTOR_MASK) 1
                        (Z.land reg APIC_LVT_LEVEL_TRIGGER) in
    (r, v)
  else (0, v).

(** ** Taking an interrupt and ending it *)

(** The priority register is updated on the way. *)
Definition kvm_apic_has_interrupt (v : kvm_vcpu) : Z * kvm_vcpu :=
  if negb (apic_enabled v) then (- 1, v)
  else
    let v := apic_update_ppr v in
    let highest_irr := apic_find_highest_irr (apic v) in
    if (highest_irr =? - 1) || (Z.land highest_irr 0xf0 <=? kvm_apic_get_reg (apic v) APIC_PROCPRI)
    then (- 1, v) else (highest_irr, v).

Definition kvm_get_apic_interrupt (v : kvm_vcpu) : res (Z * kvm_vcpu) :=
  let '(vector, v) := kvm_apic_has_interrupt v in
  if vector =? - 1 then Ok (- 1, v)
  else
    a ← apic_set_isr vector (apic v);
    let v := apic_update_ppr (with_apic a v) in
    Ok (vector, on_apic (apic_clear_irr vector) v).

(** [apic_set_eoi] up to the message to the I/O APIC. *)
Definition apic_retire (v : kvm_vcpu) : res (Z * kvm_vcpu) :=
  let vector := apic_find_highest_isr (apic v) in
  if vector =? - 1 then Ok (vector, v)
  else
    a ← apic_clear_isr vector (apic v);
    Ok (vector, apic_update_ppr (with_apic a v)).

Definition kvm_apic_accept_pic_intr (v : kvm_vcpu) : bool :=
  let lvt0 := kvm_apic_get_reg (apic v) APIC_LVT0 in
  negb (kvm_apic_hw_enabled v) ||
  (negb (any lvt0 APIC_LVT_MASKED) && (Z.land (Z.shiftr lvt0 8) 7 =? APIC_MODE_EXTINT)).

(** ** The timer *)

Definition apic_lvtt_mode (a : kvm_lapic) : Z :=
  Z.land (kvm_apic_get_reg a APIC_LVTT) (timer_mode_mask (lapic_timer a)).
Definition apic_lvtt_oneshot (a : kvm_lapic) : bool := apic_lvtt_mode a =? APIC_LVT_TIMER_ONESHOT.
Definition apic_lvtt_period (a : kvm_lapic) : bool := apic_lvtt_mode a =? APIC_LVT_TIMER_PERIODIC.
Definition apic_lvtt_tscdeadline (a : kvm_lapic) : bool := apic_lvtt_mode a =? APIC_LVT_TIMER_TSCDEADLINE.

Definition update_divide_count (a : kvm_lapic) : kvm_lapic :=
  let tdcr := kvm_apic_get_reg a APIC_TDCR in
  let tmp1 := Z.land tdcr 0xf in
  let tmp2 := Z.lor (Z.land tmp1 0x3) (Z.shiftr (Z.land tmp1 0x8) 1) + 1 in
  with_divide_count (Z.shiftl 1 (Z.land tmp2 0x7)) a.

Definition hrtimer_cancel (a : kvm_lapic) : kvm_lapic :=
  let t := lapic_timer a in
  with_timer (Timer (expires t) false (period t) (timer_mode_mask t) (tscdeadline t) (pending t)) a.

(** [hrtimer_start] in absolute mode. *)
Definition hrtimer_start (e : Z) (a : kvm_lapic) : kvm_lapic :=
  let t := lapic_timer a in
  with_timer (Timer e true (period t) (timer_mode_mask t) (tscdeadline t) (pending t)) a.

Definition set_period (p : Z) (a : kvm_lapic) : kvm_lapic :=
  let t := lapic_timer a in
  with_timer (Timer (expires t) (queued t) p (timer_mode_mask t) (tscdeadline t) (pending t)) a.
Definition set_tscdeadline (d : Z) (a : kvm_lapic) : kvm_lapic :=
  let t := lapic_timer a in
  with_timer (Timer (expires t) (queued t) (period t) (timer_mode_mask t) d (pending t)) a.
Definition set_pending (n : Z) (a : kvm_lapic) : kvm_lapic :=
  let t := lapic_timer a in
  with_timer (Timer (expires t) (queued t) (period t) (timer_mode_mask t) (tscdeadline t) n) a.

(** What the timer code reads of the host: the time, the guest's time stamp
    counter and its frequency, and the module parameter. *)
Record clock := Clock { now : Z; guest_tsc : Z; tsc_khz : Z; min_timer_period_us : Z }.

Definition start_apic_timer (c : clock) (a : kvm_lapic) : kvm_lapic :=
  let a := set_pending 0 a in
  if apic_lvtt_period a || apic_lvtt_oneshot a then
    let p := kvm_apic_get_reg a APIC_TMICT * divide_count a in
    let a := set_period p a in
    if p =? 0 then a
    else
      let min_period := min_timer_period_us c * 1000 in
      let a := if apic_lvtt_period a && (p <? min_period) then set_period min_period a else a in
      hrtimer_start (now c + period (lapic_timer a)) a
  else if apic_lvtt_tscdeadline a then
    let deadline := tscdeadline (lapic_timer a) in
    if (deadline =? 0) || (tsc_khz c =? 0) then a
    else
      let ns := if guest_tsc c <? deadline then u64 ((deadline - guest_tsc c) * 1000000) / tsc_khz c else 0 in
      hrtimer_start (now c + ns) a
  else a.

Definition apic_get_tmcct (c : clock) (a : kvm_lapic) : Z :=
  if (kvm_apic_get_reg a APIC_TMICT =? 0) || (period (lapic_timer a) =? 0) then 0
  else
    let remaining := expires (lapic_timer a) - now c in
    let remaining := if remaining <? 0 then 0 else remaining in
    u32 (remaining mod period (lapic_timer a) / divide_count a).

(** The hrtimer fired. *)
Definition apic_timer_fn (a : kvm_lapic) : kvm_lapic :=
  let a := if pending (lapic_timer a) =? 0 then set_pending 1 a else a in
  if apic_lvtt_period a then hrtimer_start (expires (lapic_timer a) + period (lapic_timer a)) a
  else hrtimer_cancel a.

Definition kvm_inject_apic_timer_irqs (v : kvm_vcpu) : kvm_vcpu :=
  if 0 <? pending (lapic_timer (apic v)) then
    on_apic (set_pending 0) (kvm_apic_local_deliver v APIC_LVTT).2
  else v.

Definition apic_has_pending_timer (v : kvm_vcpu) : Z :=
  if apic_enabled v && negb (any (kvm_apic_get_reg (apic v) APIC_LVTT) APIC_LVT_MASKED)
  then pending (lapic_timer (apic v)) else 0.

Definition kvm_get_lapic_tscdeadline_msr (v : kvm_vcpu) : Z :=
  if apic_lvtt_oneshot (apic v) || apic_lvtt_period (apic v) then 0 else tscdeadline (lapic_timer (apic v)).

Definition kvm_set_lapic_tscdeadline_msr (c : clock) (v : kvm_vcpu) (data : Z) : kvm_vcpu :=
  if apic_lvtt_oneshot (apic v) || apic_lvtt_period (apic v) then v
  else on_apic (fun a => start_apic_timer c (set_tscdeadline data (hrtimer_cancel a))) v.

(** ** Bit vectors in the register page *)

#[local] Arguments Z.land : simpl never.
#[local] Arguments Z.mul : simpl never.

Definition is_vector (v : Z) : Prop := 0 <= v < 256.

Lemma REG_POS_eq v : is_vector v -> REG_POS v = 16 * (v / 32).
Proof.
  intros Hv. unfold REG_POS. rewrite Z.shiftl_mul_pow2, Z.shiftr_div_pow2 by lia.
  change (2 ^ 5) with 32. change (2 ^ 4) with 16. lia.
Qed.

Lemma VEC_POS_eq v : VEC_POS v = v mod 32.
Proof. unfold VEC_POS. change 31 with (Z.ones 5). apply Z.land_ones. lia. Qed.

Lemma vec_div v : is_vector v -> 0 <= v / 32 < 8.
Proof. intros Hv. split; [apply Z.div_pos; unfold is_vector in *; lia|apply Z.div_lt_upper_bound; unfold is_vector in *; lia]. Qed.

Lemma vec_pos_inj v w : is_vector v -> is_vector w -> REG_POS v = REG_POS w -> VEC_POS v = VEC_POS w -> v = w.
Proof.
  intros Hv Hw. rewrite !REG_POS_eq, !VEC_POS_eq by done. intros H1 H2.
  rewrite (Z.div_mod v 32), (Z.div_mod w 32) by lia. lia.
Qed.

Lemma VEC_POS_range v : 0 <= VEC_POS v < 32.
Proof. rewrite VEC_POS_eq. apply Z.mod_pos_bound. lia. Qed.

Lemma get_set_reg a r x r' :
  kvm_apic_get_reg (apic_set_reg a r x) r' = if decide (r = r') then x else kvm_apic_get_reg a r'.
Proof. unfold kvm_apic_get_reg, apic_set_reg. cbn. rewrite lookup_insert. by case_decide. Qed.

(** The bit vectors the code keeps; they do not overlap each other. *)
Definition is_bitmap (b : Z) : Prop := b = APIC_ISR \/ b = APIC_TMR \/ b = APIC_IRR.

Lemma bitmap_apart b b' v w : is_bitmap b -> is_bitmap b' -> b <> b' -> is_vector v -> is_vector w ->
  b + REG_POS v <> b' + REG_POS w.
Proof.
  intros Hb Hb' Hne Hv Hw. rewrite !REG_POS_eq by done.
  pose proof (vec_div v Hv). pose proof (vec_div w Hw).
  unfold is_bitmap, APIC_ISR, APIC_TMR, APIC_IRR in *. lia.
Qed.

Lemma test_set_vector a v b w b' : is_bitmap b -> is_bitmap b' -> is_vector v -> is_vector w ->
  apic_test_vector (apic_set_vector a v b) w b' =
    if decide (b = b' /\ v = w) then true else apic_test_vector a w b'.
Proof.
  intros Hb Hb' Hv Hw. unfold apic_test_vector, apic_set_vector. rewrite get_set_reg.
  destruct (decide (b = b')) as [<-|Hne].
  2:{ rewrite decide_False by (by apply bitmap_apart). by rewrite decide_False by naive_solver. }
  destruct (decide (v = w)) as [<-|Hne].
  { rewrite !decide_True by done. apply Z.setbit_eq. apply VEC_POS_range. }
  rewrite (decide_False (P := _ /\ _)) by naive_solver. case_decide as Hr; [|done].
  rewrite Hr. apply Z.setbit_neq; [apply VEC_POS_range|]. intros E. apply Hne, vec_pos_inj; [done..|lia|done].
Qed.

Lemma test_clear_vector a v b w b' : is_bitmap b -> is_bitmap b' -> is_vector v -> is_vector w ->
  apic_test_vector (apic_clear_vector a v b) w b' =
    if decide (b = b' /\ v = w) then false else apic_test_vector a w b'.
Proof.
  intros Hb Hb' Hv Hw. unfold apic_test_vector, apic_clear_vector. rewrite get_set_reg.
  destruct (decide (b = b')) as [<-|Hne].
  2:{ rewrite decide_False by (by apply bitmap_apart). by rewrite decide_False by naive_solver. }
  destruct (decide (v = w)) as [<-|Hne].
  { rewrite !decide_True by done. apply Z.clearbit_eq. }
  rewrite (decide_False (P := _ /\ _)) by naive_solver. case_decide as Hr; [|done].
  rewrite Hr. apply Z.clearbit_neq. intros E. apply Hne, vec_pos_inj; [done..|lia|done].
Qed.

(** Registers that hold no bit vector. *)
Definition plain_reg (r : Z) : Prop := r < 0x100 \/ 0x280 <= r.

Lemma test_set_plain a r x w b : is_bitmap b -> is_vector w -> plain_reg r ->
  apic_test_vector (apic_set_reg a r x) w b = apic_test_vector a w b.
Proof.
  intros Hb Hw Hr. unfold apic_test_vector. rewrite get_set_reg, decide_False; [done|].
  rewrite REG_POS_eq by done. pose proof (vec_div w Hw).
  unfold is_bitmap, plain_reg, APIC_ISR, APIC_TMR, APIC_IRR in *. lia.
Qed.

(** *** The highest vector *)

Definition word_ok (x : Z) : Prop := 0 <= x < 2 ^ 32.
Definition regs_ok (a : kvm_lapic) : Prop := map_Forall (fun _ x => word_ok x) (regs a).

Lemma reg_word a r : regs_ok a -> word_ok (kvm_apic_get_reg a r).
Proof.
  intros Hr. unfold kvm_apic_get_reg. destruct (regs a !! r) as [x|] eqn:E; [by eapply Hr|].
  unfold word_ok. cbn. lia.
Qed.

(** [r] is the highest vector of a bit vector, -1 when it is empty. *)
Definition is_highest (a : kvm_lapic) (b r n : Z) : Prop :=
  (r = - 1 /\ forall v, 0 <= v < n -> apic_test_vector a v b = false) \/
  (0 <= r < n /\ apic_test_vector a r b = true /\
   forall v, r < v < n -> apic_test_vector a v b = false).

Lemma word_vector a b n i : 0 <= n < 8 -> 0 <= i < 32 ->
  apic_test_vector a (32 * n + i) b = Z.testbit (kvm_apic_get_reg a (b + REG_POS (32 * n))) i.
Proof.
  intros Hn Hi. unfold apic_test_vector.
  assert (E : (32 * n + i) / 32 = n) by (symmetry; apply (Z.div_unique_pos _ _ _ i); lia).
  rewrite VEC_POS_eq, !REG_POS_eq by (unfold is_vector; lia). rewrite E.
  replace (32 * n / 32) with n by (rewrite Z.mul_comm; by rewrite Z.div_mul).
  replace ((32 * n + i) mod 32) with i; [done|]. apply (Z.mod_unique_pos _ _ n); lia.
Qed.

Lemma split_word n v : 0 <= n -> 32 * n <= v < 32 * (n + 1) -> exists i, 0 <= i < 32 /\ v = 32 * n + i.
Proof. intros Hn Hv. exists (v - 32 * n). lia. Qed.

Lemma find_from_spec a b n : regs_ok a -> (n <= 8)%nat -> is_highest a b (find_from a b n) (32 * Z.of_nat n).
Proof.
  intros Hr. induction n as [|n IH]; intros Hn; [left; split; [done|lia]|].
  cbn [find_from]. set (w := kvm_apic_get_reg a (b + REG_POS (32 * Z.of_nat n))).
  pose proof (reg_word a (b + REG_POS (32 * Z.of_nat n)) Hr) as Hw. fold w in Hw.
  assert (Hbit : forall i, 0 <= i < 32 -> apic_test_vector a (32 * Z.of_nat n + i) b = Z.testbit w i)
    by (intros; apply word_vector; lia).
  specialize (IH ltac:(lia)). destruct (Z.eqb_spec w 0) as [E|E].
  - assert (Hz : forall v, 32 * Z.of_nat n <= v < 32 * Z.of_nat (S n) -> apic_test_vector a v b = false).
    { intros v Hv. destruct (split_word (Z.of_nat n) v ltac:(lia) ltac:(lia)) as (i & Hi & ->).
      rewrite Hbit by done. by rewrite E, Z.bits_0. }
    destruct IH as [[-> H]|(H1 & H2 & H3)].
    + left. split; [done|]. intros v Hv. destruct (Z.lt_ge_cases v (32 * Z.of_nat n)); [apply H|apply Hz]; lia.
    + right. split; [lia|]. split; [done|]. intros v Hv.
      destruct (Z.lt_ge_cases v (32 * Z.of_nat n)); [apply H3|apply Hz]; lia.
  - right. unfold fls. destruct (Z.eqb_spec w 0); [done|]. unfold word_ok in Hw.
    assert (Hlog : 0 <= Z.log2 w < 32) by (split; [apply Z.log2_nonneg|apply Z.log2_lt_pow2; lia]).
    replace (Z.log2 w + 1 - 1 + 32 * Z.of_nat n) with (32 * Z.of_nat n + Z.log2 w) by lia.
    split; [lia|]. split; [rewrite Hbit by done; apply Z.bit_log2; lia|].
    intros v Hv. destruct (split_word (Z.of_nat n) v ltac:(lia) ltac:(lia)) as (i & Hi & ->).
    rewrite Hbit by done. apply Z.bits_above_log2; lia.
Qed.

Lemma find_highest_spec a b : regs_ok a -> is_highest a b (find_highest_vector a b) 256.
Proof. intros Hr. apply (find_from_spec a b 8 Hr). lia. Qed.

Lemma is_highest_unique a b n r r' : is_highest a b r n -> is_highest a b r' n -> r = r'.
Proof.
  intros [[-> H]|(H1 & H2 & H3)] [[-> H']|(H1' & H2' & H3')]; try done.
  - rewrite H in H2' by lia. done.
  - rewrite H' in H2 by lia. done.
  - destruct (Z.lt_trichotomy r r') as [Hlt|[->|Hgt]]; [|done|].
    + rewrite H3 in H2' by lia. done.
    + rewrite H3' in H2 by lia. done.
Qed.

Lemma is_highest_ext a a' b r n : (forall v, 0 <= v < n -> apic_test_vector a v b = apic_test_vector a' v b) ->
  is_highest a b r n -> is_highest a' b r n.
Proof.
  intros E [[-> H]|(H1 & H2 & H3)]; [left|right].
  - split; [done|]. intros v Hv. rewrite <- E by lia. by apply H.
  - split; [done|]. rewrite <- E by lia. split; [done|]. intros v Hv. rewrite <- E by lia. by apply H3.
Qed.

(** *** The number of vectors *)

(** Vectors below [n] in a bit vector. *)
Fixpoint nvec (a : kvm_lapic) (b : Z) (n : nat) : Z :=
  match n with
  | O => 0
  | S n => Z.b2z (apic_test_vector a (Z.of_nat n) b) + nvec a b n
  end.

Lemma nvec_range a b n : 0 <= nvec a b n <= Z.of_nat n.
Proof. induction n as [|n IH]; cbn [nvec]; [lia|]. destruct (apic_test_vector _ _ _); cbn [Z.b2z]; lia. Qed.

Lemma nvec_zero a b n : nvec a b n = 0 <-> forall v, 0 <= v < Z.of_nat n -> apic_test_vector a v b = false.
Proof.
  induction n as [|n IH]; cbn [nvec]; [split; [lia|done]|]. pose proof (nvec_range a b n).
  destruct (apic_test_vector a (Z.of_nat n) b) eqn:E; cbn [Z.b2z].
  - split; [lia|]. intros H'. rewrite H' in E by lia. done.
  - rewrite Z.add_0_l, IH. split; intros H' v Hv.
    + destruct (Z.eq_dec v (Z.of_nat n)) as [->|]; [done|]. apply H'. lia.
    + apply H'. lia.
Qed.

Lemma nvec_ext a a' b n : (forall v, 0 <= v < Z.of_nat n -> apic_test_vector a v b = apic_test_vector a' v b) ->
  nvec a b n = nvec a' b n.
Proof.
  induction n as [|n IH]; intros E; [done|]. cbn [nvec]. rewrite E by lia. rewrite IH; [done|].
  intros v Hv. apply E. lia.
Qed.

(** One bit flipped. *)
Lemma nvec_flip a a' b n v : 0 <= v < Z.of_nat n ->
  (forall w, 0 <= w < Z.of_nat n -> w <> v -> apic_test_vector a' w b = apic_test_vector a w b) ->
  nvec a' b n = nvec a b n - Z.b2z (apic_test_vector a v b) + Z.b2z (apic_test_vector a' v b).
Proof.
  induction n as [|n IH]; intros Hv E; [lia|]. cbn [nvec]. destruct (Z.eq_dec v (Z.of_nat n)) as [->|Hne].
  - rewrite (nvec_ext a' a); [lia|]. intros w Hw. apply E; lia.
  - rewrite (E (Z.of_nat n)) by lia. rewrite IH; [lia|lia|]. intros w Hw Hne'. apply E; lia.
Qed.

Lemma ones_in_vectors a b k n : (k < 8)%nat -> (n <= 32)%nat ->
  ones_in (kvm_apic_get_reg a (b + REG_POS (32 * Z.of_nat k))) n =
  nvec a b (32 * k + n) - nvec a b (32 * k).
Proof.
  intros Hk. induction n as [|n IH]; intros Hn; [rewrite Nat.add_0_r; cbn; lia|].
  rewrite Nat.add_succ_r. cbn [ones_in nvec]. rewrite IH by lia.
  rewrite <- (word_vector a b (Z.of_nat k) (Z.of_nat n)) by lia.
  replace (Z.of_nat (32 * k + n)) with (32 * Z.of_nat k + Z.of_nat n) by lia. lia.
Qed.

Lemma count_from_spec a b k : (k <= 8)%nat -> count_from a b k = u8 (nvec a b (32 * k)).
Proof.
  induction k as [|k IH]; intros Hk; [done|]. cbn [count_from]. rewrite IH by lia.
  unfold hweight32. rewrite (ones_in_vectors a b k 32) by lia. unfold u8.
  rewrite Zplus_mod_idemp_l. f_equal. replace (32 * S k)%nat with (32 * k + 32)%nat by lia. lia.
Qed.

Lemma count_vectors_spec a b : count_vectors a b = u8 (nvec a b 256).
Proof. apply (count_from_spec a b 8). lia. Qed.

(** ** The invariant *)

(** [irr_pending] is set when an interrupt is requested, the counter and
    the cache agree with the vectors in service. *)
Record lapic_ok (a : kvm_lapic) : Prop := {
  ok_regs : regs_ok a;
  ok_irr : irr_pending a = false -> forall v, is_vector v -> apic_test_vector a v APIC_IRR = false;
  ok_isr : isr_count a = nvec a APIC_ISR 256;
  ok_cache : highest_isr_cache a = - 1 \/
             0 <= highest_isr_cache a /\ is_highest a APIC_ISR (highest_isr_cache a) 256
}.

Definition vcpu_ok (v : kvm_vcpu) : Prop := lapic_ok (apic v).

Lemma bitmap_isr : is_bitmap APIC_ISR. Proof. by left. Qed.
Lemma bitmap_irr : is_bitmap APIC_IRR. Proof. right. by right. Qed.
Lemma bitmap_tmr : is_bitmap APIC_TMR. Proof. right. by left. Qed.
Create HintDb apic.
#[export] Hint Resolve bitmap_isr bitmap_irr bitmap_tmr : apic.

Lemma highest_isr_spec a : lapic_ok a -> is_highest a APIC_ISR (apic_find_highest_isr a) 256.
Proof.
  intros [Hr _ Hc Hca]. unfold apic_find_highest_isr. destruct (Z.eqb_spec (isr_count a) 0) as [E|E].
  - left. split; [done|]. apply (nvec_zero a APIC_ISR 256). lia.
  - destruct (Z.eqb_spec (highest_isr_cache a) (- 1)) as [E'|E']; cbn [negb].
    + by apply find_highest_spec.
    + destruct Hca as [|[_ H]]; [done|exact H].
Qed.

Lemma highest_irr_spec a : lapic_ok a -> is_highest a APIC_IRR (apic_find_highest_irr a) 256.
Proof.
  intros [Hr Hi _ _]. unfold apic_find_highest_irr. destruct (irr_pending a); cbn [negb].
  - by apply find_highest_spec.
  - left. split; [done|]. by apply Hi.
Qed.

(** Changes that keep the registers' ranges and the bit vectors. *)
Lemma lapic_ok_frame a a' : lapic_ok a -> regs_ok a' ->
  (forall v, is_vector v -> apic_test_vector a' v APIC_IRR = apic_test_vector a v APIC_IRR) ->
  (forall v, is_vector v -> apic_test_vector a' v APIC_ISR = apic_test_vector a v APIC_ISR) ->
  irr_pending a' = irr_pending a -> isr_count a' = isr_count a ->
  highest_isr_cache a' = highest_isr_cache a -> lapic_ok a'.
Proof.
  intros [Hr Hi Hc Hca] Hr' E1 E2 E3 E4 E5. split.
  - done.
  - rewrite E3. intros Hp v Hv. rewrite E1 by done. by apply Hi.
  - rewrite E4, Hc. apply nvec_ext. intros v Hv. symmetry. apply E2. exact Hv.
  - rewrite E5. destruct Hca as [|[H1 H2]]; [by left|right]. split; [done|].
    eapply is_highest_ext; [|exact H2]. intros v Hv. symmetry. by apply E2.
Qed.

(** And those that only change the timer or the pending events. *)
Lemma lapic_ok_same_regs a a' : lapic_ok a -> regs a' = regs a -> irr_pending a' = irr_pending a ->
  isr_count a' = isr_count a -> highest_isr_cache a' = highest_isr_cache a -> lapic_ok a'.
Proof.
  intros Ha E. apply lapic_ok_frame; [done|unfold regs_ok; rewrite E; apply Ha|..];
    intros; unfold apic_test_vector, kvm_apic_get_reg; by rewrite E.
Qed.

Lemma regs_ok_set a r x : regs_ok a -> word_ok x -> regs_ok (apic_set_reg a r x).
Proof. intros Ha Hx. by apply map_Forall_insert_2. Qed.

Lemma lapic_ok_set_plain a r x : lapic_ok a -> plain_reg r -> word_ok x -> lapic_ok (apic_set_reg a r x).
Proof.
  intros Ha Hr Hx. apply (lapic_ok_frame a); [done|apply regs_ok_set; [apply Ha|done]|..]; try done;
    intros v Hv; apply test_set_plain; auto with apic.
Qed.

Lemma setbit_word x i : word_ok x -> 0 <= i < 32 -> word_ok (Z.setbit x i).
Proof.
  unfold word_ok. intros Hx Hi. assert (0 <= Z.setbit x i) by (unfold Z.setbit; apply Z.lor_nonneg; split; [lia|apply Z.shiftl_nonneg; lia]).
  split; [done|]. destruct (Z.eq_dec (Z.setbit x i) 0) as [->|Hne]; [lia|].
  apply Z.log2_lt_pow2; [lia|]. unfold Z.setbit. rewrite Z.log2_lor by (try lia; apply Z.shiftl_nonneg; lia).
  rewrite Z.shiftl_1_l, Z.log2_pow2 by lia.
  destruct (Z.eq_dec x 0) as [->|]; [cbn; lia|]. assert (Z.log2 x < 32) by (apply Z.log2_lt_pow2; lia). lia.
Qed.

Lemma clearbit_word x i : word_ok x -> word_ok (Z.clearbit x i).
Proof.
  unfold word_ok, Z.clearbit. intros Hx. assert (H := Z.ldiff_nonneg x (Z.shiftl 1 i)).
  split; [apply H; lia|]. apply Z.le_lt_trans with x; [apply ldiff_le; lia|lia].
Qed.

Lemma land_word x m : 0 <= m < 2 ^ 32 -> word_ok (Z.land x m).
Proof.
  intros Hm. unfold word_ok. split; [apply Z.land_nonneg; lia|].
  apply Z.le_lt_trans with m; [apply land_le_r; lia|lia].
Qed.

Lemma lapic_ok_set_irr a v : lapic_ok a -> is_vector v -> lapic_ok (apic_set_irr v a).
Proof.
  intros [Hr Hi Hc Hca] Hv. split.
  - apply regs_ok_set; [done|]. apply setbit_word; [by apply reg_word|apply VEC_POS_range].
  - done.
  - cbn [apic_set_irr apic_set_vector apic_set_reg with_regs with_irr_pending isr_count]. rewrite Hc.
    apply nvec_ext. intros w Hw. unfold apic_set_irr. rewrite test_set_vector by auto with apic.
    by rewrite decide_False by (intros [? _]; done).
  - change (highest_isr_cache (apic_set_irr v a)) with (highest_isr_cache a).
    destruct Hca as [|[H1 H2]]; [by left|right]. split; [done|]. eapply is_highest_ext; [|exact H2].
    intros w Hw. unfold apic_set_irr. rewrite test_set_vector by auto with apic.
    by rewrite decide_False by (intros [? _]; done).
Qed.

Lemma lapic_ok_clear_irr a v : lapic_ok a -> is_vector v -> lapic_ok (apic_clear_irr v a).
Proof.
  intros [Hr Hi Hc Hca] Hv. unfold apic_clear_irr.
  set (a1 := apic_clear_vector (with_irr_pending false a) v APIC_IRR).
  assert (Hr1 : regs_ok a1) by (apply regs_ok_set; [done|]; apply clearbit_word; by apply reg_word).
  assert (Hsr : forall w, is_vector w -> apic_test_vector a1 w APIC_ISR = apic_test_vector a w APIC_ISR).
  { intros w Hw. unfold a1. rewrite test_clear_vector by auto with apic.
    by rewrite decide_False by (intros [? _]; done). }
  assert (Hok : forall b, (b = false -> forall w, is_vector w -> apic_test_vector a1 w APIC_IRR = false) ->
            lapic_ok (with_irr_pending b a1)).
  { intros b Hb. split; [done|exact Hb| |].
    - change (isr_count a = nvec a1 APIC_ISR 256). rewrite Hc. apply nvec_ext. intros w Hw. symmetry. by apply Hsr.
    - change (highest_isr_cache (with_irr_pending b a1)) with (highest_isr_cache a).
      destruct Hca as [|[H1 H2]]; [by left|right]. split; [done|]. eapply is_highest_ext; [|exact H2].
      intros w Hw. symmetry. by apply Hsr. }
  destruct (Z.eqb_spec (apic_search_irr a1) (- 1)) as [E|E]; [|by apply Hok].
  change (lapic_ok (with_irr_pending false a1)). apply Hok. intros _.
  destruct (find_highest_spec a1 APIC_IRR Hr1) as [[_ H]|[H _]]; [exact H|].
  unfold apic_search_irr in E. lia.
Qed.

Lemma apic_set_isr_ok a v : lapic_ok a -> is_vector v ->
  (forall w, is_vector w -> apic_test_vector a w APIC_ISR = true -> w < v) ->
  exists a', apic_set_isr v a = Ok a' /\ lapic_ok a' /\ irr_pending a' = irr_pending a /\
    (forall r, plain_reg r -> kvm_apic_get_reg a' r = kvm_apic_get_reg a r) /\
    (forall w b, is_bitmap b -> is_vector w -> apic_test_vector a' w b =
       if decide (b = APIC_ISR /\ w = v) then true else apic_test_vector a w b).
Proof.
  intros [Hr Hi Hc Hca] Hv Hmax. unfold apic_set_isr.
  assert (Hnew : apic_test_vector a v APIC_ISR = false).
  { destruct (apic_test_vector a v APIC_ISR) eqn:E; [|done]. apply Hmax in E; [lia|done]. }
  rewrite Hnew. set (a1 := apic_set_vector a v APIC_ISR).
  assert (Htest : forall w b, is_bitmap b -> is_vector w -> apic_test_vector a1 w b =
            if decide (b = APIC_ISR /\ w = v) then true else apic_test_vector a w b).
  { intros w b Hb Hw. unfold a1. rewrite test_set_vector by auto with apic.
    apply decide_ext. split; intros [-> ->]; done. }
  assert (Hn : nvec a1 APIC_ISR 256 = nvec a APIC_ISR 256 + 1).
  { rewrite (nvec_flip a a1 APIC_ISR 256 v); [|exact Hv|].
    - rewrite Hnew, Htest by auto with apic. rewrite decide_True by done. cbn [Z.b2z]. lia.
    - intros w Hw Hne. rewrite Htest by auto with apic. by rewrite decide_False by naive_solver. }
  pose proof (nvec_range a1 APIC_ISR 256). unfold MAX_APIC_VECTOR.
  destruct (Z.ltb_spec 256 (isr_count a + 1)); [lia|]. eexists. split; [done|]. split; [split|].
  - apply regs_ok_set; [done|]. apply setbit_word; [by apply reg_word|apply VEC_POS_range].
  - change (irr_pending a = false -> forall w, is_vector w -> apic_test_vector a1 w APIC_IRR = false).
    intros Hp w Hw. rewrite Htest by auto with apic. rewrite decide_False by (intros [? _]; done). by apply Hi.
  - change (isr_count a + 1 = nvec a1 APIC_ISR 256). lia.
  - right. change (0 <= v /\ is_highest a1 APIC_ISR v 256). split; [apply Hv|right]. split; [exact Hv|].
    rewrite Htest by auto with apic. rewrite decide_True by done. split; [done|]. intros w Hw.
    assert (is_vector w) by (unfold is_vector in *; lia). rewrite Htest by auto with apic.
    rewrite decide_False by lia. destruct (apic_test_vector a w APIC_ISR) eqn:E; [|done].
    apply Hmax in E; [lia|done].
  - split; [done|]. split; [|exact Htest]. intros r Hpr. unfold a1, apic_set_vector.
    change (kvm_apic_get_reg (with_isr (isr_count a + 1) v ?x) r) with (kvm_apic_get_reg x r).
    unfold apic_set_vector. rewrite get_set_reg, decide_False; [done|].
    rewrite REG_POS_eq by done. pose proof (vec_div v Hv). unfold plain_reg, APIC_ISR in *. lia.
Qed.

Lemma apic_clear_isr_ok a v : lapic_ok a -> is_highest a APIC_ISR v 256 -> 0 <= v ->
  exists a', apic_clear_isr v a = Ok a' /\ lapic_ok a' /\ irr_pending a' = irr_pending a /\
    (forall r, plain_reg r -> kvm_apic_get_reg a' r = kvm_apic_get_reg a r) /\
    (forall w b, is_bitmap b -> is_vector w -> apic_test_vector a' w b =
       if decide (b = APIC_ISR /\ w = v) then false else apic_test_vector a w b).
Proof.
  intros [Hr Hi Hc Hca] [[-> _]|(Hv & Hset & _)] Hv0; [lia|]. unfold apic_clear_isr. rewrite Hset. cbn [negb].
  set (a1 := apic_clear_vector a v APIC_ISR).
  assert (Htest : forall w b, is_bitmap b -> is_vector w -> apic_test_vector a1 w b =
            if decide (b = APIC_ISR /\ w = v) then false else apic_test_vector a w b).
  { intros w b Hb Hw. unfold a1. rewrite test_clear_vector by auto with apic.
    apply decide_ext. split; intros [-> ->]; done. }
  assert (Hn : nvec a1 APIC_ISR 256 = nvec a APIC_ISR 256 - 1).
  { rewrite (nvec_flip a a1 APIC_ISR 256 v); [|exact Hv|].
    - rewrite Hset, Htest by auto with apic. rewrite decide_True by done. cbn [Z.b2z]. lia.
    - intros w Hw Hne. rewrite Htest by auto with apic. by rewrite decide_False by naive_solver. }
  pose proof (nvec_range a1 APIC_ISR 256).
  destruct (Z.ltb_spec (isr_count a - 1) 0); [lia|]. eexists. split; [done|]. split; [split|].
  - apply regs_ok_set; [done|]. apply clearbit_word. by apply reg_word.
  - change (irr_pending a = false -> forall w, is_vector w -> apic_test_vector a1 w APIC_IRR = false).
    intros Hp w Hw. rewrite Htest by auto with apic. rewrite decide_False by (intros [? _]; done). by apply Hi.
  - change (isr_count a - 1 = nvec a1 APIC_ISR 256). lia.
  - by left.
  - split; [done|]. split; [|exact Htest]. intros r Hpr.
    change (kvm_apic_get_reg a1 r = kvm_apic_get_reg a r). unfold a1, apic_clear_vector.
    rewrite get_set_reg, decide_False; [done|].
    rewrite REG_POS_eq by done. pose proof (vec_div v Hv). unfold plain_reg, APIC_ISR in *. lia.
Qed.

(** ** Priority classes *)

(** The class of a vector or of a task priority. *)
Definition cls (x : Z) : Z := (x / 16) mod 16.

Lemma land_f0 x : Z.land x 0xf0 = 16 * cls x.
Proof.
  assert (E : 16 * cls x = Z.shiftl (Z.land (Z.shiftr x 4) (Z.ones 4)) 4).
  { unfold cls. rewrite Z.shiftl_mul_pow2, Z.land_ones, Z.shiftr_div_pow2 by lia. apply Z.mul_comm. }
  rewrite E. change 0xf0 with (Z.shiftl (Z.ones 4) 4). apply Z.bits_inj'. intros i Hi.
  rewrite Z.land_spec, !Z.shiftl_spec by lia. destruct (Z.lt_ge_cases i 4).
  - rewrite !(Z.testbit_neg_r _ (i - 4)) by lia. apply andb_false_r.
  - rewrite Z.land_spec, Z.shiftr_spec by lia. by replace (i - 4 + 4) with i by lia.
Qed.

Lemma cls_range x : 0 <= cls x < 16.
Proof. apply Z.mod_pos_bound. lia. Qed.

Lemma cls_vector v : is_vector v -> cls v = v / 16.
Proof.
  intros Hv. unfold is_vector in Hv. apply Z.mod_small.
  split; [apply Z.div_pos; lia|apply Z.div_lt_upper_bound; lia].
Qed.

(** The processor priority from the task priority and the highest vector
    in service. *)
Definition ppr_of (tpr isrv : Z) : Z :=
  if Z.land isrv 0xf0 <=? Z.land tpr 0xf0 then Z.land tpr 0xff else Z.land isrv 0xf0.

Lemma ppr_word tpr isrv : word_ok (ppr_of tpr isrv).
Proof. unfold ppr_of. destruct (_ <=? _); apply land_word; lia. Qed.

(** A vector passes when its class is above both. *)
Lemma ppr_blocks tpr isrv irr :
  (Z.land irr 0xf0 <=? ppr_of tpr isrv) = (cls irr <=? Z.max (cls tpr) (cls isrv)).
Proof.
  unfold ppr_of. rewrite !land_f0. assert (E : Z.land tpr 0xff / 16 = cls tpr).
  { change 0xff with (Z.ones 8). rewrite Z.land_ones by lia. unfold cls. change (2 ^ 8) with (16 * 16).
    rewrite Z.rem_mul_r by lia. rewrite Z.mul_comm, Z.div_add by lia.
    rewrite (Z.div_small (tpr mod 16)) by (apply Z.mod_pos_bound; lia). lia. }
  pose proof (Z.div_mod (Z.land tpr 0xff) 16 ltac:(lia)).
  pose proof (Z.mod_pos_bound (Z.land tpr 0xff) 16 ltac:(lia)).
  destruct (Z.leb_spec (16 * cls isrv) (16 * cls tpr));
    [destruct (Z.leb_spec (16 * cls irr) (Z.land tpr 255))|destruct (Z.leb_spec (16 * cls irr) (16 * cls isrv))];
    destruct (Z.leb_spec (cls irr) (Z.max (cls tpr) (cls isrv))); (done || lia).
Qed.

Definition isrv_of (a : kvm_lapic) : Z :=
  if negb (apic_find_highest_isr a =? - 1) then apic_find_highest_isr a else 0.

Lemma apic_update_ppr_cases v :
  let ppr := ppr_of (kvm_apic_get_reg (apic v) APIC_TASKPRI) (isrv_of (apic v)) in
  (kvm_apic_get_reg (apic v) APIC_PROCPRI = ppr /\ apic_update_ppr v = v) \/
  (exists b, apic_update_ppr v = with_apic (apic_set_reg (apic v) APIC_PROCPRI ppr)
     (if b : bool then request_event v else v)).
Proof.
  intros ppr. unfold apic_update_ppr. fold (isrv_of (apic v)).
  fold (ppr_of (kvm_apic_get_reg (apic v) APIC_TASKPRI) (isrv_of (apic v))). fold ppr.
  destruct (Z.eqb_spec (kvm_apic_get_reg (apic v) APIC_PROCPRI) ppr); [by left|right].
  destruct (_ <? _); [by exists true|by exists false].
Qed.

(** What an update of the priority register keeps. *)
Record same_but_ppr (v v' : kvm_vcpu) : Prop := {
  sp_regs : forall r, r <> APIC_PROCPRI -> kvm_apic_get_reg (apic v') r = kvm_apic_get_reg (apic v) r;
  sp_irr : irr_pending (apic v') = irr_pending (apic v);
  sp_isr : isr_count (apic v') = isr_count (apic v);
  sp_cache : highest_isr_cache (apic v') = highest_isr_cache (apic v);
  sp_base : apic_base v' = apic_base v;
  sp_id : vcpu_id v' = vcpu_id v;
  sp_events : pending_events (apic v') = pending_events (apic v);
  sp_timer : lapic_timer (apic v') = lapic_timer (apic v)
}.

Lemma apic_update_ppr_same v : same_but_ppr v (apic_update_ppr v).
Proof.
  destruct (apic_update_ppr_cases v) as [[_ ->]|[b ->]]; [by split|].
  split; destruct b; cbn; try done; intros r Hr; (rewrite get_set_reg, decide_False by done); done.
Qed.

Lemma apic_update_ppr_reg v : kvm_apic_get_reg (apic (apic_update_ppr v)) APIC_PROCPRI =
  ppr_of (kvm_apic_get_reg (apic v) APIC_TASKPRI) (isrv_of (apic v)).
Proof.
  destruct (apic_update_ppr_cases v) as [[<- ->]|[b ->]]; [done|]. cbn. by rewrite get_set_reg, decide_True.
Qed.

Lemma same_test v v' w b : same_but_ppr v v' -> is_bitmap b -> is_vector w ->
  apic_test_vector (apic v') w b = apic_test_vector (apic v) w b.
Proof.
  intros Hs Hb Hw. unfold apic_test_vector. rewrite (sp_regs _ _ Hs); [done|].
  rewrite REG_POS_eq by done. pose proof (vec_div w Hw).
  unfold is_bitmap, APIC_ISR, APIC_TMR, APIC_IRR, APIC_PROCPRI in *. lia.
Qed.

Lemma plain_ppr : plain_reg APIC_PROCPRI. Proof. by left. Qed.
Lemma plain_tpr : plain_reg APIC_TASKPRI. Proof. by left. Qed.
#[export] Hint Resolve plain_ppr plain_tpr ppr_word : apic.

Lemma apic_update_ppr_ok v : vcpu_ok v -> vcpu_ok (apic_update_ppr v).
Proof.
  intros Hv. destruct (apic_update_ppr_cases v) as [[_ ->]|[b ->]]; [done|].
  unfold vcpu_ok. destruct b; cbn; apply lapic_ok_set_plain; auto with apic.
Qed.

Lemma cls_mono v w : is_vector v -> is_vector w -> v <= w -> cls v <= cls w.
Proof. intros Hv Hw Hle. rewrite !cls_vector by done. apply Z.div_le_mono; lia. Qed.

Lemma isrv_spec a : lapic_ok a ->
  is_vector (isrv_of a) /\
  (forall w, is_vector w -> apic_test_vector a w APIC_ISR = true -> w <= isrv_of a) /\
  (isrv_of a = 0 \/ apic_test_vector a (isrv_of a) APIC_ISR = true).
Proof.
  intros Ha. unfold isrv_of. destruct (highest_isr_spec a Ha) as [[-> Hn]|(Hr & Ht & Hm)].
  - cbn. split; [unfold is_vector; lia|]. split; [|by left]. intros w Hw E. by rewrite Hn in E.
  - destruct (Z.eqb_spec (apic_find_highest_isr a) (- 1)); [lia|]. cbn [negb]. split; [done|].
    split; [|by right]. intros w Hw E. destruct (Z.le_gt_cases w (apic_find_highest_isr a)); [done|].
    rewrite Hm in E by (unfold is_vector in *; lia). done.
Qed.

(** What it means that [r] is the interrupt to take. *)
Record takes (v : kvm_vcpu) (r : Z) : Prop := {
  tk_vector : is_vector r;
  tk_enabled : apic_enabled v = true;
  tk_irr : apic_test_vector (apic v) r APIC_IRR = true;
  tk_max : forall w, is_vector w -> apic_test_vector (apic v) w APIC_IRR = true -> w <= r;
  tk_tpr : cls (kvm_apic_get_reg (apic v) APIC_TASKPRI) < cls r;
  tk_isr : forall w, is_vector w -> apic_test_vector (apic v) w APIC_ISR = true -> cls w < cls r
}.

(** And that a requested vector has to wait. *)
Definition waits (v : kvm_vcpu) (w : Z) : Prop :=
  cls w <= cls (kvm_apic_get_reg (apic v) APIC_TASKPRI) \/
  cls w = 0 \/
  exists s, is_vector s /\ apic_test_vector (apic v) s APIC_ISR = true /\ cls w <= cls s.

Lemma has_interrupt_spec v r v' : vcpu_ok v -> kvm_apic_has_interrupt v = (r, v') ->
  vcpu_ok v' /\ same_but_ppr v v' /\
  (takes v r \/
   r = - 1 /\ (apic_enabled v = false \/
     forall w, is_vector w -> apic_test_vector (apic v) w APIC_IRR = true -> waits v w)).
Proof.
  intros Hv. unfold kvm_apic_has_interrupt. destruct (apic_enabled v) eqn:Een; cbn [negb].
  2:{ intros [= <- <-]. split; [done|]. split; [by split|]. right. split; [done|by left]. }
  pose proof (apic_update_ppr_ok v Hv) as Hok. pose proof (apic_update_ppr_same v) as Hs.
  rewrite apic_update_ppr_reg, ppr_blocks.
  assert (Hirr : is_highest (apic v) APIC_IRR (apic_find_highest_irr (apic (apic_update_ppr v))) 256).
  { eapply is_highest_ext; [|apply (highest_irr_spec _ Hok)]. intros w Hw. by apply same_test; auto with apic. }
  set (hi := apic_find_highest_irr (apic (apic_update_ppr v))) in *.
  destruct (isrv_spec (apic v) Hv) as (Hsv & Hsm & Hst). set (sv := isrv_of (apic v)) in *.
  intros E. assert (v' = apic_update_ppr v) as -> by (destruct (_ || _); by injection E). split; [done|]. split; [done|].
  destruct Hirr as [[Hh Hno]|(Hh & Hset & Hmax)].
  - rewrite Hh in E. cbn [Z.eqb orb] in E. injection E as <-. right. split; [done|right].
    intros w Hw Ht. by rewrite Hno in Ht.
  - destruct (Z.eqb_spec hi (- 1)); [lia|]. cbn [orb] in E.
    assert (Hle : forall w, is_vector w -> apic_test_vector (apic v) w APIC_IRR = true -> w <= hi).
    { intros w Hw Ht. destruct (Z.le_gt_cases w hi); [done|].
      rewrite Hmax in Ht by (unfold is_vector in *; lia). done. }
    destruct (Z.leb_spec (cls hi) (Z.max (cls (kvm_apic_get_reg (apic v) APIC_TASKPRI)) (cls sv))) as [Hb|Hb];
      injection E as <-.
    + right. split; [done|right]. intros w Hw Ht. pose proof (cls_mono w hi Hw Hh (Hle w Hw Ht)).
      destruct (Z.le_gt_cases (cls w) (cls (kvm_apic_get_reg (apic v) APIC_TASKPRI))); [by left|].
      right. destruct Hst as [E0|Hst]; [|right; exists sv; split; [done|split; [done|lia]]].
      left. pose proof (cls_range w). rewrite E0 in Hb. change (cls 0) with 0 in Hb. lia.
    + left. split; [done|done|done|done|lia|]. intros w Hw Ht. pose proof (cls_mono w sv Hw Hsv (Hsm w Hw Ht)). lia.
Qed.

(** Taking an interrupt. *)
Lemma get_interrupt_spec v : vcpu_ok v ->
  exists r v', kvm_get_apic_interrupt v = Ok (r, v') /\ vcpu_ok v' /\ apic_base v' = apic_base v /\
    vcpu_id v' = vcpu_id v /\
    ((r = - 1 /\ same_but_ppr v v' /\ (apic_enabled v = false \/
        forall w, is_vector w -> apic_test_vector (apic v) w APIC_IRR = true -> waits v w)) \/
     (takes v r /\
      (forall x, plain_reg x -> x <> APIC_PROCPRI ->
         kvm_apic_get_reg (apic v') x = kvm_apic_get_reg (apic v) x) /\
      (forall w b, is_bitmap b -> is_vector w -> apic_test_vector (apic v') w b =
         if decide (w = r /\ b = APIC_ISR) then true
         else if decide (w = r /\ b = APIC_IRR) then false
         else apic_test_vector (apic v) w b))).
Proof.
  intros Hv. unfold kvm_get_apic_interrupt. destruct (kvm_apic_has_interrupt v) as [r v1] eqn:E.
  destruct (has_interrupt_spec v r v1 Hv E) as (Hv1 & Hs1 & [Ht|[-> Hw]]).
  2:{ cbn [Z.eqb]. eexists _, _. split; [done|]. split; [done|]. split; [apply Hs1|]. split; [apply Hs1|]. by left. }
  pose proof (tk_vector _ _ Ht) as Hr. destruct (Z.eqb_spec r (- 1)); [unfold is_vector in Hr; lia|].
  destruct (apic_set_isr_ok (apic v1) r Hv1 Hr) as (a2 & -> & Ha2 & Hp2 & Hreg2 & Htest2).
  { intros w Hw Hin. rewrite (same_test v v1) in Hin by auto with apic.
    pose proof (tk_isr _ _ Ht w Hw Hin). destruct (Z.lt_ge_cases w r); [done|].
    pose proof (cls_mono r w Hr Hw ltac:(lia)). lia. }
  cbn [mbind res_bind]. set (v2 := with_apic a2 v1). set (v3 := apic_update_ppr v2).
  pose proof (apic_update_ppr_same v2) as Hs3. pose proof (apic_update_ppr_ok v2 Ha2) as Hv3. fold v3 in Hs3, Hv3.
  eexists _, _. split; [done|]. split; [by apply lapic_ok_clear_irr|].
  split; [cbn; rewrite (sp_base _ _ Hs3); apply Hs1|]. split; [cbn; rewrite (sp_id _ _ Hs3); apply Hs1|].
  right. split; [done|].
  assert (Hclr : forall x, kvm_apic_get_reg (apic_clear_irr r (apic v3)) x =
            kvm_apic_get_reg (apic_clear_vector (apic v3) r APIC_IRR) x).
  { intros x. unfold apic_clear_irr. by destruct (_ =? _). }
  split.
  - intros x Hx Hne. cbn. rewrite Hclr. unfold apic_clear_vector. rewrite get_set_reg, decide_False.
    + rewrite (sp_regs _ _ Hs3) by done. cbn. rewrite Hreg2 by done. by apply Hs1.
    + rewrite REG_POS_eq by done. pose proof (vec_div r Hr). unfold plain_reg, APIC_IRR in *. lia.
  - intros w b Hb Hw. cbn. unfold apic_test_vector at 1. rewrite Hclr.
    change (Z.testbit (kvm_apic_get_reg ?a (b + REG_POS w)) (VEC_POS w)) with (apic_test_vector a w b).
    rewrite test_clear_vector by auto with apic. rewrite (same_test v2 v3) by done. cbn. rewrite Htest2 by done.
    rewrite (same_test v v1) by done. destruct (decide (w = r)) as [->|Hne].
    + destruct (decide (b = APIC_IRR)) as [->|Hi].
      { rewrite decide_True by done. rewrite decide_False by (intros [_ H]; discriminate H). by rewrite decide_True. }
      rewrite (decide_False (P := APIC_IRR = b /\ r = r)), (decide_False (P := r = r /\ b = APIC_IRR)) by (intros []; congruence).
      apply decide_ext. split; intros []; done.
    + by rewrite !decide_False by (intros []; congruence).
Qed.

(** Ending an interrupt: the highest one in service. *)
Lemma retire_spec v : vcpu_ok v ->
  exists r v', apic_retire v = Ok (r, v') /\ vcpu_ok v' /\ apic_base v' = apic_base v /\
    vcpu_id v' = vcpu_id v /\ is_highest (apic v) APIC_ISR r 256 /\
    (forall x, plain_reg x -> x <> APIC_PROCPRI -> kvm_apic_get_reg (apic v') x = kvm_apic_get_reg (apic v) x) /\
    (forall w b, is_bitmap b -> is_vector w -> apic_test_vector (apic v') w b =
       if decide (b = APIC_ISR /\ w = r) then false else apic_test_vector (apic v) w b).
Proof.
  intros Hv. unfold apic_retire. pose proof (highest_isr_spec (apic v) Hv) as Hh.
  destruct (Z.eqb_spec (apic_find_highest_isr (apic v)) (- 1)) as [E|E].
  - eexists _, _. split; [done|]. rewrite E in *. repeat (split; [done|]). intros w b Hb Hw.
    rewrite decide_False; [done|]. unfold is_vector in Hw. lia.
  - assert (H0 : 0 <= apic_find_highest_isr (apic v)) by (destruct Hh as [[? _]|[? _]]; unfold is_vector in *; lia).
    destruct (apic_clear_isr_ok _ _ Hv Hh H0) as (a2 & -> & Ha2 & _ & Hreg2 & Htest2).
    cbn [mbind res_bind]. set (v2 := with_apic a2 v). pose proof (apic_update_ppr_same v2) as Hs.
    eexists _, _. split; [done|]. split; [by apply apic_update_ppr_ok|]. split; [apply Hs|]. split; [apply Hs|].
    split; [done|]. split.
    + intros x Hx Hne. rewrite (sp_regs _ _ Hs) by done. by apply Hreg2.
    + intros w b Hb Hw. rewrite (same_test v2) by done. by apply Htest2.
Qed.

Lemma set_tpr_ok v tpr : vcpu_ok v -> word_ok tpr -> vcpu_ok (apic_set_tpr v tpr).
Proof. intros Hv Ht. apply apic_update_ppr_ok, lapic_ok_set_plain; auto with apic. Qed.

Lemma accept_ok v m vec l t : vcpu_ok v -> is_vector vec -> vcpu_ok (__apic_accept_irq v m vec l t).2.
Proof.
  intros Hv Hvec. unfold __apic_accept_irq, vcpu_ok in *.
  set (v1 := if m =? APIC_DM_LOWEST then _ else v).
  assert (Hv1 : lapic_ok (apic v1)) by (unfold v1; by destruct (m =? APIC_DM_LOWEST)).
  clearbody v1. repeat case_match; cbn; (done || by apply lapic_ok_set_irr || by eapply lapic_ok_same_regs).
Qed.

Lemma local_deliver_ok v lvt : vcpu_ok v -> vcpu_ok (kvm_apic_local_deliver v lvt).2.
Proof.
  intros Hv. unfold kvm_apic_local_deliver. destruct (_ && _); [|done].
  match goal with |- context [__apic_accept_irq v ?m ?vec ?l ?t] =>
    pose proof (accept_ok v m vec l t Hv) as H; destruct (__apic_accept_irq v m vec l t) as [[r d] v1] end.
  apply H. unfold APIC_VECTOR_MASK. change 0xff with (Z.ones 8). rewrite Z.land_ones by lia.
  apply (Z.mod_pos_bound _ 256). lia.
Qed.

Lemma inject_timer_ok v : vcpu_ok v -> vcpu_ok (kvm_inject_apic_timer_irqs v).
Proof.
  intros Hv. unfold kvm_inject_apic_timer_irqs. destruct (_ <? _); [|done].
  pose proof (local_deliver_ok v APIC_LVTT Hv). by eapply lapic_ok_same_regs.
Qed.

(** A page of zeroes has no interrupts. *)
Definition zero_lapic : kvm_lapic := Lapic 0xfee00000 (Timer 0 false 0 0x20000 0 0) 2 false 0 (- 1) ∅ 0 0.

Lemma zero_lapic_ok : lapic_ok zero_lapic.
Proof.
  split; [apply map_Forall_empty| | |by left].
  - intros _ v _. apply Z.testbit_0_l.
  - vm_compute. reflexivity.
Qed.

(** A processor with an enabled APIC. *)
Definition enabled_vcpu (id : Z) : kvm_vcpu :=
  Vcpu id (id =? 0) (apic_set_reg (apic_set_reg zero_lapic APIC_ID (Z.shiftl id 24)) APIC_SPIV 0x1ff)
    0xfee00900 0 0 false false false (Start 0 0 0 0).

Lemma enabled_vcpu_ok id : 0 <= id < 256 -> vcpu_ok (enabled_vcpu id).
Proof.
  intros Hid. unfold vcpu_ok, enabled_vcpu. cbn.
  apply lapic_ok_set_plain; [apply lapic_ok_set_plain; [apply zero_lapic_ok|by left|]|by left|done].
  unfold word_ok. rewrite Z.shiftl_mul_pow2 by lia. change (2 ^ 24) with 16777216. change (2 ^ 32) with 4294967296. lia.
Qed.

(** C27: Asked for an interrupt, a local APIC in a consistent state never
    fails a [BUG_ON]: it returns the highest requested vector when its
    class is above the task priority's and above every class in service,
    and nothing only when it is disabled or every requested vector has to
    wait.  The vector it returned is the one the next end of interrupt
    retires, which leaves every bit vector as it was but for the request. *)
Theorem lapic_interrupt_correct v : vcpu_ok v ->
  exists r v1, kvm_get_apic_interrupt v = Ok (r, v1) /\ vcpu_ok v1 /\
    ((r = - 1 /\ (apic_enabled v = false \/
        forall w, is_vector w -> apic_test_vector (apic v) w APIC_IRR = true -> waits v w)) \/
     (takes v r /\ exists v2, apic_retire v1 = Ok (r, v2) /\ vcpu_ok v2 /\
        forall w b, is_bitmap b -> is_vector w -> apic_test_vector (apic v2) w b =
          if decide (w = r /\ b = APIC_IRR) then false else apic_test_vector (apic v) w b)).
Proof.
  intros Hv. destruct (get_interrupt_spec v Hv) as (r & v1 & E & Hv1 & _ & _ & [(-> & _ & Hw)|(Ht & _ & Hb)]);
    exists r || exists (- 1); exists v1; (split; [done|]); (split; [done|]); [by left|right].
  split; [done|]. pose proof (tk_vector _ _ Ht) as Hr.
  destruct (retire_spec v1 Hv1) as (r' & v2 & E2 & Hv2 & _ & _ & Hh & _ & Hb2).
  assert (Hh' : is_highest (apic v1) APIC_ISR r 256).
  { right. split; [done|]. rewrite Hb by auto with apic. rewrite decide_True by done. split; [done|].
    intros w Hw. assert (Hvw : is_vector w) by (unfold is_vector in *; lia). rewrite Hb by auto with apic.
    rewrite !decide_False by (intros [? H]; first [lia | discriminate H]).
    destruct (apic_test_vector (apic v) w APIC_ISR) eqn:Ew; [|done].
    pose proof (tk_isr _ _ Ht w Hvw Ew). pose proof (cls_mono r w Hr Hvw ltac:(lia)). lia. }
  rewrite (is_highest_unique _ _ _ _ _ Hh Hh') in *. exists v2. split; [done|]. split; [done|].
  intros w b Hbm Hw. rewrite Hb2, Hb by done. destruct (decide (b = APIC_ISR /\ w = r)) as [[-> ->]|Hn].
  - rewrite decide_False by (intros [_ H]; discriminate H).
    destruct (apic_test_vector (apic v) r APIC_ISR) eqn:Ew; [|done]. pose proof (tk_isr _ _ Ht r Hr Ew). lia.
  - rewrite decide_False; [done|]. intros []. by apply Hn.
Qed.

Lemma lapic_interrupt_correct_witness :
  exists r v1, kvm_get_apic_interrupt (__apic_accept_irq (enabled_vcpu 0) APIC_DM_FIXED 0x41 1 0).2 = Ok (r, v1) /\
    r = 0x41.
Proof.
  assert (Hv : vcpu_ok (__apic_accept_irq (enabled_vcpu 0) APIC_DM_FIXED 0x41 1 0).2)
    by (apply accept_ok; [apply enabled_vcpu_ok|]; unfold is_vector; lia).
  destruct (lapic_interrupt_correct _ Hv) as (r & v1 & E & _). exists r, v1. split; [exact E|].
  assert (E2 : match kvm_get_apic_interrupt (__apic_accept_irq (enabled_vcpu 0) APIC_DM_FIXED 0x41 1 0).2 with
               | Ok (r, _) => r | Err _ => 0 end = 0x41) by (vm_compute; reflexivity).
  rewrite E in E2. exact E2.
Defined.

(** ** The timer *)

Lemma divide_count_table a :
  divide_count (update_divide_count a) =
  nth (Z.to_nat (Z.land (kvm_apic_get_reg a APIC_TDCR) 0xf)) [2; 4; 8; 16; 2; 4; 8; 16; 32; 64; 128; 1; 32; 64; 128; 1] 0.
Proof.
  unfold update_divide_count. cbn [divide_count with_divide_count].
  assert (Hx : 0 <= Z.land (kvm_apic_get_reg a APIC_TDCR) 0xf < 16).
  { change 0xf with (Z.ones 4). rewrite Z.land_ones by lia. apply (Z.mod_pos_bound _ 16). lia. }
  generalize dependent (Z.land (kvm_apic_get_reg a APIC_TDCR) 0xf). intros x Hx.
  assert (Hall : Forall (fun x => Z.shiftl 1 (Z.land (Z.lor (Z.land x 0x3) (Z.shiftr (Z.land x 0x8) 1) + 1) 0x7) =
            nth (Z.to_nat x) [2; 4; 8; 16; 2; 4; 8; 16; 32; 64; 128; 1; 32; 64; 128; 1] 0) (seqZ 0 16))
    by (vm_compute; repeat constructor).
  rewrite Forall_forall in Hall. apply Hall, elem_of_seqZ. lia.
Qed.

Definition countdown (n div d : Z) : Z := Z.max 0 (n - (d + div - 1) / div).

Lemma countdown_eq n div d : 0 < n -> 0 < div -> 0 < d ->
  (if n * div - d <? 0 then 0 else n * div - d) mod (n * div) / div = countdown n div d.
Proof.
  intros Hn Hdiv Hd. unfold countdown. destruct (Z.ltb_spec (n * div - d) 0) as [Hlt|Hge].
  - rewrite Z.mod_0_l, Z.div_0_l by nia. assert (n <= (d + div - 1) / div) by (apply Z.div_le_lower_bound; nia). lia.
  - rewrite Z.mod_small by nia.
    replace (n * div - d) with (n * div + - d) by lia. rewrite Z.div_add_l by lia.
    assert (E : - d / div = - ((d + div - 1) / div)).
    { pose proof (Z.div_mod (d + div - 1) div ltac:(lia)) as E. pose proof (Z.mod_pos_bound (d + div - 1) div Hdiv).
      symmetry. apply Z.div_unique with (div - 1 - (d + div - 1) mod div); lia. }
    rewrite E. assert ((d + div - 1) / div < n + 1) by (apply Z.div_lt_upper_bound; nia). lia.
Qed.

Lemma start_timer_regs c a : regs (start_apic_timer c a) = regs a /\
  timer_mode_mask (lapic_timer (start_apic_timer c a)) = timer_mode_mask (lapic_timer a) /\
  divide_count (start_apic_timer c a) = divide_count a.
Proof. unfold start_apic_timer. repeat case_match; done. Qed.

(** The period the timer runs with. *)
Definition timer_period (c : clock) (a : kvm_lapic) : Z :=
  let p := kvm_apic_get_reg a APIC_TMICT * divide_count a in
  if apic_lvtt_period a then Z.max p (min_timer_period_us c * 1000) else p.

Lemma start_timer_eq c a : apic_lvtt_period a || apic_lvtt_oneshot a = true ->
  0 < kvm_apic_get_reg a APIC_TMICT -> 0 < divide_count a ->
  start_apic_timer c a = hrtimer_start (now c + timer_period c a) (set_period (timer_period c a) (set_pending 0 a)).
Proof.
  intros Hm Hn Hdiv. unfold start_apic_timer, timer_period.
  change (apic_lvtt_period (set_pending 0 a)) with (apic_lvtt_period a).
  change (apic_lvtt_oneshot (set_pending 0 a)) with (apic_lvtt_oneshot a). rewrite Hm.
  change (kvm_apic_get_reg (set_pending 0 a) APIC_TMICT) with (kvm_apic_get_reg a APIC_TMICT).
  change (divide_count (set_pending 0 a)) with (divide_count a).
  destruct (Z.eqb_spec (kvm_apic_get_reg a APIC_TMICT * divide_count a) 0); [nia|].
  match goal with |- context [apic_lvtt_period (set_period ?p ?x)] =>
    change (apic_lvtt_period (set_period p x)) with (apic_lvtt_period a) end.
  destruct (apic_lvtt_period a); cbn [andb]; [|done].
  destruct (Z.ltb_spec (kvm_apic_get_reg a APIC_TMICT * divide_count a) (min_timer_period_us c * 1000)).
  - by rewrite Z.max_r by lia.
  - by rewrite Z.max_l by lia.
Qed.

Lemma set_irr_test a vec w b : is_bitmap b -> is_vector vec -> is_vector w ->
  apic_test_vector (apic_set_irr vec a) w b =
  if decide (w = vec /\ b = APIC_IRR) then true else apic_test_vector a w b.
Proof.
  intros Hb Hvec Hw. unfold apic_set_irr. rewrite test_set_vector by auto with apic.
  apply decide_ext. split; intros [-> ->]; done.
Qed.

Lemma vector_mask_range x : is_vector (Z.land x APIC_VECTOR_MASK).
Proof.
  unfold APIC_VECTOR_MASK. change 0xff with (Z.ones 8). rewrite Z.land_ones by lia.
  apply (Z.mod_pos_bound _ 256). lia.
Qed.

(** The local vector table entry [lvt] delivers a fixed interrupt. *)
Definition lvt_fixed (v : kvm_vcpu) (lvt : Z) : Prop :=
  any (kvm_apic_get_reg (apic v) lvt) APIC_LVT_MASKED = false /\
  Z.land (kvm_apic_get_reg (apic v) lvt) APIC_MODE_MASK = APIC_DM_FIXED.

Lemma local_deliver_fixed v lvt : apic_enabled v = true -> lvt_fixed v lvt ->
  kvm_apic_local_deliver v lvt =
  (1, request_event (on_apic (apic_set_irr (Z.land (kvm_apic_get_reg (apic v) lvt) APIC_VECTOR_MASK)) v)).
Proof.
  intros He [Hm Hf]. unfold kvm_apic_local_deliver. rewrite Hm, Hf.
  assert (Hhw : kvm_apic_hw_enabled v = true) 
    by (unfold apic_enabled in He; by apply andb_true_iff in He as [_ ?]).
  rewrite Hhw. cbn [andb negb]. unfold __apic_accept_irq. cbn [Z.eqb orb]. change (apic_enabled _) with (apic_enabled v).
  by rewrite He.
Qed.

Lemma timer_fn_eq a : apic_timer_fn a =
  let t := lapic_timer a in
  with_timer (Timer (if apic_lvtt_period a then expires t + period t else expires t) (apic_lvtt_period a)
    (period t) (timer_mode_mask t) (tscdeadline t) (if pending t =? 0 then 1 else pending t)) a.
Proof.
  unfold apic_timer_fn. destruct (pending (lapic_timer a) =? 0); cbn;
    [change (apic_lvtt_period (set_pending 1 a)) with (apic_lvtt_period a)|]; by destruct (apic_lvtt_period a).
Qed.

(** Programmed at some time, the timer's count is the initial one less
    the ticks that have passed, and 0 from its end on; it expires one period
    later.  When it fires and the processor is entered, exactly the vector
    of its table entry becomes requested, and no event is left pending; a
    periodic timer is set for a period later, any other one is off. *)
Theorem lapic_timer_correct c c' v d : vcpu_ok v ->
  apic_lvtt_period (apic v) || apic_lvtt_oneshot (apic v) = true ->
  0 < kvm_apic_get_reg (apic v) APIC_TMICT -> 0 < divide_count (apic v) ->
  now c' = now c + d -> 0 < d -> apic_enabled v = true -> lvt_fixed v APIC_LVTT ->
  let n := kvm_apic_get_reg (apic v) APIC_TMICT in
  let p := timer_period c (apic v) in
  let a1 := start_apic_timer c (apic v) in
  let v2 := kvm_inject_apic_timer_irqs (with_apic (apic_timer_fn a1) v) in
  let vec := Z.land (kvm_apic_get_reg (apic v) APIC_LVTT) APIC_VECTOR_MASK in
  queued (lapic_timer a1) = true /\ expires (lapic_timer a1) = now c + p /\
  (p = n * divide_count (apic v) -> apic_get_tmcct c' a1 = countdown n (divide_count (apic v)) d) /\
  vcpu_ok v2 /\ pending (lapic_timer (apic v2)) = 0 /\
  (forall w b, is_bitmap b -> is_vector w -> apic_test_vector (apic v2) w b =
     if decide (w = vec /\ b = APIC_IRR) then true else apic_test_vector (apic v) w b) /\
  queued (lapic_timer (apic v2)) = apic_lvtt_period (apic v) /\
  (apic_lvtt_period (apic v) = true -> expires (lapic_timer (apic v2)) = now c + 2 * p).
Proof.
  intros Hv Hm Hn Hdiv Hc Hd He Hf n p a1 v2 vec. unfold v2, a1. rewrite start_timer_eq by done. fold p.
  set (a2 := apic_timer_fn _). split; [done|]. split; [done|]. split.
  { intros Hp. unfold apic_get_tmcct. set (a := hrtimer_start _ _). change (kvm_apic_get_reg a APIC_TMICT) with n.
    change (expires (lapic_timer a)) with (now c + p). change (period (lapic_timer a)) with p.
    change (divide_count a) with (divide_count (apic v)). rewrite Hp, Hc.
    destruct (Z.eqb_spec n 0); [lia|]. destruct (Z.eqb_spec (n * divide_count (apic v)) 0); [nia|]. cbn [orb].
    replace (now c + n * divide_count (apic v) - (now c + d)) with (n * divide_count (apic v) - d) by lia.
    rewrite countdown_eq by done. apply Z.mod_small. pose proof (reg_word _ APIC_TMICT (ok_regs _ Hv)) as Hw.
    fold n in Hw. unfold word_ok in Hw. unfold countdown.
    pose proof (Z.div_pos (d + divide_count (apic v) - 1) (divide_count (apic v)) ltac:(lia) Hdiv). lia. }
  unfold a2. rewrite timer_fn_eq. cbv zeta. set (a := hrtimer_start _ _).
  change (apic_lvtt_period a) with (apic_lvtt_period (apic v)).
  set (t3 := Timer _ _ _ _ _ _). set (a3 := with_timer t3 _).
  unfold kvm_inject_apic_timer_irqs. change (0 <? pending (lapic_timer (apic (with_apic a3 v)))) with true.
  assert (Hv3 : vcpu_ok (with_apic a3 v)) by (by apply (lapic_ok_same_regs (apic v))).
  pose proof (local_deliver_ok _ APIC_LVTT Hv3) as Hv4. rewrite local_deliver_fixed in * by done.
  cbn [snd] in *. split; [by eapply lapic_ok_same_regs|]. split; [done|]. split.
  - intros w b Hb Hw. exact (set_irr_test a3 vec w b Hb (vector_mask_range _) Hw).
  - split; [done|]. intros Hper. cbn. rewrite Hper. lia.
Qed.

Lemma lapic_timer_correct_witness :
  let v := on_apic (fun a => apic_set_reg (apic_set_reg a APIC_TMICT 1000) APIC_LVTT 0x200ef) (enabled_vcpu 0) in
  apic_get_tmcct (Clock 5101 0 0 200) (start_apic_timer (Clock 5000 0 0 1) (apic v)) = 949.
Proof.
  cbv zeta. set (v := on_apic _ _). assert (Hv : vcpu_ok v).
  { apply lapic_ok_set_plain; [apply lapic_ok_set_plain|..]; [by apply enabled_vcpu_ok|..]; first [by left | by right | done]. }
  rewrite (proj1 (proj2 (proj2 (lapic_timer_correct (Clock 5000 0 0 1) (Clock 5101 0 0 200) v 101 Hv eq_refl eq_refl
    eq_refl eq_refl eq_refl eq_refl (conj eq_refl eq_refl)))) eq_refl). vm_compute. reflexivity.
Defined.
