(* ===== verification/ApicBus.v ===== *)
(** * Messages between local APICs (kvm-kmod x86/lapic.c, x86/irq_comm.c)

    The local APICs of a virtual machine, the table that finds the targets of
    a message without a scan ([recalculate_apic_map]), how a processor is
    addressed, and the delivery of a message by the table and by a scan. *)

From S2P Require Import Prelude Lapic.

Definition APIC_DFR_FLAT := 0xffffffff.
Definition APIC_DFR_CLUSTER := 0x0fffffff.
Definition APIC_DEST_NOSHORT := 0x0.
Definition APIC_DEST_SELF := 0x40000.
Definition APIC_DEST_ALLINC := 0x80000.
Definition APIC_DEST_ALLBUT := 0xc0000.
Definition APIC_DEST_MASK := 0x800.
Definition APIC_SHORT_MASK := 0xc0000.
Definition APIC_INT_ASSERT := 0x4000.
Definition APIC_INT_LEVELTRIG := 0x8000.
Definition MSR_IA32_APICBASE_BASE : Z := Z.shiftl 0xfffff 12.

(** ** State *)

Record kvm_lapic_irq := LapicIrq {
  vector : Z; delivery_mode : Z; dest_mode : Z; level : Z; trig_mode : Z; shorthand : Z; dest_id : Z
}.

(** The pointers of the table are positions in the list of processors. *)
Record kvm_apic_map := ApicMap {
  ldr_bits : Z; cid_shift : Z; cid_mask : Z; lid_mask : Z;
  phys_map : gmap Z nat; logical_map : gmap (Z * Z) nat
}.

(** [allocs] says which of the next allocations succeed. *)
Record bus := Bus { vcpus : list kvm_vcpu; apic_map : option kvm_apic_map; allocs : list bool }.

Definition with_vcpus (vs : list kvm_vcpu) (b : bus) : bus := Bus vs (apic_map b) (allocs b).

(** An access to a processor through its pointer. *)
Definition vcpu_at (vs : list kvm_vcpu) (i : nat) : res kvm_vcpu :=
  match vs !! i with Some v => Ok v | None => Err BadPointer end.

Definition on_vcpu (i : nat) (f : kvm_vcpu -> kvm_vcpu) (b : bus) : res bus :=
  v ← vcpu_at (vcpus b) i; Ok (with_vcpus (<[i := f v]> (vcpus b)) b).

(** ** The table of targets *)

Fixpoint ffs_from (x i : Z) (n : nat) : Z :=
  match n with
  | O => 0
  | S n => if Z.testbit x i then i + 1 else ffs_from x (i + 1) n
  end.
Definition ffs (x : Z) : Z := ffs_from x 0 32.

Definition apic_cluster_id (m : kvm_apic_map) (ldr : Z) : res Z :=
  let ldr := Z.shiftr ldr (32 - ldr_bits m) in
  let cid := u16 (Z.land (Z.shiftr ldr (cid_shift m)) (cid_mask m)) in
  if 16 <=? cid then Err AssertFailed else Ok cid.

Definition apic_logical_id (m : kvm_apic_map) (ldr : Z) : Z :=
  u16 (Z.land (Z.shiftr ldr (32 - ldr_bits m)) (lid_mask m)).

(** The mode of addressing after one more processor. *)
Definition map_mode (v : kvm_vcpu) (m : kvm_apic_map) : kvm_apic_map :=
  if apic_x2apic_mode v then ApicMap 32 16 0 0xffff (phys_map m) (logical_map m)
  else if kvm_apic_sw_enabled (apic v) && (cid_mask m =? 0) &&
          (kvm_apic_get_reg (apic v) APIC_DFR =? APIC_DFR_CLUSTER)
  then ApicMap (ldr_bits m) 4 0xf 0xf (phys_map m) (logical_map m)
  else m.

Definition add_to_map (i : nat) (v : kvm_vcpu) (m : kvm_apic_map) : res kvm_apic_map :=
  if negb (kvm_apic_present v) then Ok m
  else
    let m := map_mode v m in
    let phys := <[kvm_apic_id (apic v) := i]> (phys_map m) in
    let ldr := kvm_apic_get_reg (apic v) APIC_LDR in
    cid ← apic_cluster_id m ldr;
    let lid := apic_logical_id m ldr in
    let logical := if lid =? 0 then logical_map m else <[(cid, ffs lid - 1) := i]> (logical_map m) in
    Ok (ApicMap (ldr_bits m) (cid_shift m) (cid_mask m) (lid_mask m) phys logical).

Fixpoint map_from (i : nat) (vs : list kvm_vcpu) (m : kvm_apic_map) : res kvm_apic_map :=
  match vs with
  | [] => Ok m
  | v :: vs => m ← add_to_map i v m; map_from (S i) vs m
  end.

Definition empty_map : kvm_apic_map := ApicMap 8 8 0 0xff ∅ ∅.

Definition kvm_vcpu_request_scan_ioapic (b : bus) : bus := with_vcpus (with_scan true <$> vcpus b) b.

Definition recalculate_apic_map (b : bus) : res bus :=
  let '(ok, rest) := match allocs b with [] => (true, []) | ok :: rest => (ok, rest) end in
  m ← (if ok : bool then m ← map_from 0 (vcpus b) empty_map; Ok (Some m) else Ok None);
  Ok (kvm_vcpu_request_scan_ioapic (Bus (vcpus b) m rest)).

Definition kvm_apic_set_id (i : nat) (id : Z) (b : bus) : res bus :=
  b ← on_vcpu i (on_apic (fun a => apic_set_reg a APIC_ID (Z.shiftl (u8 id) 24))) b;
  recalculate_apic_map b.

Definition kvm_apic_set_ldr (i : nat) (id : Z) (b : bus) : res bus :=
  b ← on_vcpu i (on_apic (fun a => apic_set_reg a APIC_LDR id)) b;
  recalculate_apic_map b.

(** ** Addressing *)

Definition kvm_apic_match_physical_addr (v : kvm_vcpu) (dest : Z) : bool :=
  let dest := u16 dest in (dest =? 0xff) || (kvm_apic_id (apic v) =? dest).

Definition kvm_apic_match_logical_addr (v : kvm_vcpu) (mda : Z) : bool :=
  let mda := u8 mda in
  let ldr := kvm_apic_get_reg (apic v) APIC_LDR in
  if apic_x2apic_mode v then any ldr mda
  else
    let logical_id := Z.land (Z.shiftr ldr 24) 0xff in
    let dfr := kvm_apic_get_reg (apic v) APIC_DFR in
    if dfr =? APIC_DFR_FLAT then any logical_id mda
    else if dfr =? APIC_DFR_CLUSTER then
      (Z.shiftr logical_id 4 =? Z.shiftr mda 4) && any (Z.land logical_id mda) 0xf
    else false.

Definition kvm_apic_match_dest (v : kvm_vcpu) (target : nat) (source : option nat)
    (short_hand dest mode : Z) : bool :=
  if short_hand =? APIC_DEST_NOSHORT then
    if mode =? 0 then kvm_apic_match_physical_addr v dest else kvm_apic_match_logical_addr v dest
  else if short_hand =? APIC_DEST_SELF then bool_decide (Some target = source)
  else if short_hand =? APIC_DEST_ALLINC then true
  else if short_hand =? APIC_DEST_ALLBUT then bool_decide (Some target <> source)
  else false.

(** ** Delivery *)

(** The processors that took a fixed interrupt are added to [dest_map]; a
    caller that passes NULL drops it. *)
Definition kvm_apic_set_irq (i : nat) (irq : kvm_lapic_irq) (vs : list kvm_vcpu) (dest_map : gset Z)
    : res (Z * list kvm_vcpu * gset Z) :=
  v ← vcpu_at vs i;
  let '(r, mark, v') := __apic_accept_irq v (delivery_mode irq) (vector irq) (level irq) (trig_mode irq) in
  Ok (r, <[i := v']> vs, if mark then {[ vcpu_id v ]} ∪ dest_map else dest_map).

Definition kvm_apic_compare_prio (v1 v2 : kvm_vcpu) : Z := s32 (apic_arb_prio v1 - apic_arb_prio v2).

(** [for_each_set_bit] over 16 bits *)
Definition set_bits (x : Z) : list Z := filter (fun i => Z.testbit x i = true) (seqZ 0 16).

(** The lowest priority among the slots [l] of a cluster. *)
Fixpoint lowest_slot (vs : list kvm_vcpu) (dst : Z -> option nat) (ix : list Z) (l : option (Z * nat))
    : res (option (Z * nat)) :=
  match ix with
  | [] => Ok l
  | i :: ix =>
      match dst i with
      | None => lowest_slot vs dst ix l
      | Some k =>
          match l with
          | None => lowest_slot vs dst ix (Some (i, k))
          | Some (_, kl) =>
              v ← vcpu_at vs k; vl ← vcpu_at vs kl;
              lowest_slot vs dst ix (if kvm_apic_compare_prio v vl <? 0 then Some (i, k) else l)
          end
      end
  end.

Fixpoint deliver_slots (irq : kvm_lapic_irq) (dst : Z -> option nat) (ix : list Z) (r : Z)
    (vs : list kvm_vcpu) (dest_map : gset Z) : res (Z * list kvm_vcpu * gset Z) :=
  match ix with
  | [] => Ok (r, vs, dest_map)
  | i :: ix =>
      match dst i with
      | None => deliver_slots irq dst ix r vs dest_map
      | Some k =>
          '(d, vs, dest_map) ← kvm_apic_set_irq k irq vs dest_map;
          deliver_slots irq dst ix ((if r <? 0 then 0 else r) + d) vs dest_map
      end
  end.

(** No result is the return value false, for which nothing was delivered. *)
Definition kvm_irq_delivery_to_apic_fast (b : bus) (src : option nat) (irq : kvm_lapic_irq)
    (dest_map : gset Z) : res (option Z * list kvm_vcpu * gset Z) :=
  if shorthand irq =? APIC_DEST_SELF then
    match src with
    | None => Err BadPointer
    | Some i => '(r, vs, dest_map) ← kvm_apic_set_irq i irq (vcpus b) dest_map; Ok (Some r, vs, dest_map)
    end
  else if negb (shorthand irq =? 0) then Ok (None, vcpus b, dest_map)
  else
    match apic_map b with
    | None => Ok (None, vcpus b, dest_map)
    | Some m =>
        if dest_mode irq =? 0 then
          if (delivery_mode irq =? APIC_DM_LOWEST) || (dest_id irq =? 0xff) then Ok (None, vcpus b, dest_map)
          else
            '(r, vs, dest_map) ←
               deliver_slots irq (fun i => phys_map m !! (Z.land (dest_id irq) 0xff + i)) (set_bits 1)
                 (- 1) (vcpus b) dest_map;
            Ok (Some r, vs, dest_map)
        else
          let mda := u32 (Z.shiftl (dest_id irq) (32 - ldr_bits m)) in
          cid ← apic_cluster_id m mda;
          let dst i := logical_map m !! (cid, i) in
          let bitmap := apic_logical_id m mda in
          bitmap ←
            (if delivery_mode irq =? APIC_DM_LOWEST then
               l ← lowest_slot (vcpus b) dst (set_bits bitmap) None;
               Ok (match l with Some (i, _) => Z.shiftl 1 i | None => 0 end)
             else Ok bitmap);
          '(r, vs, dest_map) ← deliver_slots irq dst (set_bits bitmap) (- 1) (vcpus b) dest_map;
          Ok (Some r, vs, dest_map)
    end.

(** The loop over all processors; [lowest] is the candidate so far. *)
Fixpoint scan_vcpus (src : option nat) (irq : kvm_lapic_irq) (ix : list nat) (r : Z) (lowest : option nat)
    (vs : list kvm_vcpu) (dest_map : gset Z) : res (Z * option nat * list kvm_vcpu * gset Z) :=
  match ix with
  | [] => Ok (r, lowest, vs, dest_map)
  | i :: ix =>
      v ← vcpu_at vs i;
      if negb (kvm_apic_present v) then scan_vcpus src irq ix r lowest vs dest_map
      else if negb (kvm_apic_match_dest v i src (shorthand irq) (dest_id irq) (dest_mode irq)) then
        scan_vcpus src irq ix r lowest vs dest_map
      else if negb (delivery_mode irq =? APIC_DM_LOWEST) then
        '(d, vs, dest_map) ← kvm_apic_set_irq i irq vs dest_map;
        scan_vcpus src irq ix ((if r <? 0 then 0 else r) + d) lowest vs dest_map
      else if kvm_lapic_enabled v then
        match lowest with
        | None => scan_vcpus src irq ix r (Some i) vs dest_map
        | Some l =>
            vl ← vcpu_at vs l;
            scan_vcpus src irq ix r (if kvm_apic_compare_prio v vl <? 0 then Some i else lowest) vs dest_map
        end
      else scan_vcpus src irq ix r lowest vs dest_map
  end.

(** The scan with the delivery that follows it. *)
Definition deliver_by_scan (b : bus) (src : option nat) (irq : kvm_lapic_irq) (dest_map : gset Z)
    : res (Z * list kvm_vcpu * gset Z) :=
  '(r, lowest, vs, dest_map) ← scan_vcpus src irq (seq 0 (length (vcpus b))) (- 1) None (vcpus b) dest_map;
  match lowest with
  | None => Ok (r, vs, dest_map)
  | Some l => kvm_apic_set_irq l irq vs dest_map
  end.

Definition kvm_irq_delivery_to_apic (b : bus) (src : option nat) (irq : kvm_lapic_irq) (dest_map : gset Z)
    : res (Z * bus * gset Z) :=
  let irq :=
    if (dest_mode irq =? 0) && (dest_id irq =? 0xff) && (delivery_mode irq =? APIC_DM_LOWEST)
    then LapicIrq (vector irq) APIC_DM_FIXED (dest_mode irq) (level irq) (trig_mode irq) (shorthand irq) (dest_id irq)
    else irq in
  '(fast, vs, dm) ← kvm_irq_delivery_to_apic_fast b src irq dest_map;
  match fast with
  | Some r => Ok (r, with_vcpus vs b, dm)
  | None => '(r, vs, dm) ← deliver_by_scan b src irq dest_map; Ok (r, with_vcpus vs b, dm)
  end.

Definition ipi_of (v : kvm_vcpu) : kvm_lapic_irq :=
  let icr_low := kvm_apic_get_reg (apic v) APIC_ICR in
  let icr_high := kvm_apic_get_reg (apic v) APIC_ICR2 in
  LapicIrq (Z.land icr_low APIC_VECTOR_MASK) (Z.land icr_low APIC_MODE_MASK) (Z.land icr_low APIC_DEST_MASK)
    (Z.land icr_low APIC_INT_ASSERT) (Z.land icr_low APIC_INT_LEVELTRIG) (Z.land icr_low APIC_SHORT_MASK)
    (if apic_x2apic_mode v then icr_high else Z.land (Z.shiftr icr_high 24) 0xff).

Definition apic_send_ipi (i : nat) (b : bus) : res bus :=
  v ← vcpu_at (vcpus b) i;
  '(_, b, _) ← kvm_irq_delivery_to_apic b (Some i) (ipi_of v) ∅;
  Ok b.

(** ** Base address and reset *)

Definition kvm_lapic_set_base (i : nat) (value : Z) (b : bus) : res bus :=
  v ← vcpu_at (vcpus b) i;
  let old_value := apic_base v in
  let value := if is_bsp v then value else Z.ldiff value MSR_IA32_APICBASE_BSP in
  b ← on_vcpu i (with_apic_base value) b;
  b ← (if any (Z.lxor old_value value) MSR_IA32_APICBASE_ENABLE then recalculate_apic_map b else Ok b);
  b ← (if any (Z.lxor old_value value) X2APIC_ENABLE && any value X2APIC_ENABLE then
         let id := kvm_apic_id (apic v) in
         kvm_apic_set_ldr i (Z.lor (Z.shiftl (Z.shiftr id 4) 16) (Z.shiftl 1 (Z.land id 0xf))) b
       else Ok b);
  on_vcpu i (on_apic (with_base_address (Z.land value MSR_IA32_APICBASE_BASE))) b.

(** A register written in each position of a list. *)
Definition set_regs (rs : list Z) (f : Z -> Z) (a : kvm_lapic) : kvm_lapic :=
  foldl (fun a r => apic_set_reg a r (f (kvm_apic_get_reg a r))) a rs.

Definition lvt_regs : list Z := (fun i => APIC_LVTT + 0x10 * i) <$> seqZ 0 (Z.of_nat APIC_LVT_NUM).
Definition vector_regs : list Z :=
  i ← seqZ 0 8; [APIC_IRR + 0x10 * i; APIC_ISR + 0x10 * i; APIC_TMR + 0x10 * i].

(** [x2apic] says whether the guest's CPUID has that feature. *)
Definition kvm_apic_set_version (x2apic : bool) (a : kvm_lapic) : kvm_lapic :=
  apic_set_reg a APIC_LVR (if x2apic then Z.lor APIC_VERSION APIC_LVR_DIRECTED_EOI else APIC_VERSION).

Definition apic_set_spiv (val : Z) (a : kvm_lapic) : kvm_lapic := apic_set_reg a APIC_SPIV val.

(** The parts of [kvm_lapic_reset] between the table's recalculations. *)
Definition reset_modes (x2apic : bool) (a : kvm_lapic) : kvm_lapic :=
  let a := kvm_apic_set_version x2apic a in
  let a := set_regs lvt_regs (fun _ => APIC_LVT_MASKED) a in
  let a := apic_set_reg a APIC_LVT0 (Z.shiftl APIC_MODE_EXTINT 8) in
  let a := apic_set_reg a APIC_DFR 0xffffffff in
  let a := apic_set_spiv 0xff a in
  apic_set_reg a APIC_TASKPRI 0.

Definition reset_vectors (a : kvm_lapic) : kvm_lapic :=
  let a := set_regs ([APIC_ESR; APIC_ICR; APIC_ICR2; APIC_TDCR; APIC_TMICT] ++ vector_regs) (fun _ => 0) a in
  let a := with_isr 0 (- 1) (with_irr_pending false a) in
  set_pending 0 (update_divide_count a).

Definition kvm_lapic_reset (x2apic : bool) (i : nat) (b : bus) : res bus :=
  v ← vcpu_at (vcpus b) i;
  b ← on_vcpu i (on_apic hrtimer_cancel) b;
  b ← kvm_apic_set_id i (vcpu_id v) b;
  b ← on_vcpu i (on_apic (reset_modes x2apic)) b;
  b ← kvm_apic_set_ldr i 0 b;
  b ← on_vcpu i (on_apic reset_vectors) b;
  b ← (if is_bsp v then kvm_lapic_set_base i (Z.lor (apic_base v) MSR_IA32_APICBASE_BSP) b else Ok b);
  on_vcpu i (fun v => with_arb_prio 0 (apic_update_ppr v)) b.

Definition KVM_MP_STATE_RUNNABLE := 0.
Definition KVM_MP_STATE_UNINITIALIZED := 1.
Definition KVM_MP_STATE_INIT_RECEIVED := 2.
Definition KVM_MP_STATE_HALTED := 3.

(** The fields of [kvm_vcpu_reset] that the processor's record has; the
    segments and the instruction pointer get their values from the
    hardware-specific reset, given by [code]. *)
Definition kvm_vcpu_reset (code : Z * Z * Z) (v : kvm_vcpu) : kvm_vcpu :=
  let '(sel, base, ip) := code in
  request_event (with_start (Start (mp_state (start v)) sel base ip) (with_nmi_queued 0 v)).

Definition kvm_vcpu_deliver_sipi_vector (vec : Z) (v : kvm_vcpu) : kvm_vcpu :=
  with_start (Start (mp_state (start v)) (u16 (Z.shiftl vec 8)) (u64 (u32 (Z.shiftl vec 12))) 0) v.

Definition set_mp_state (s : Z) (v : kvm_vcpu) : kvm_vcpu :=
  with_start (Start s (cs_selector (start v)) (cs_base (start v)) (rip (start v))) v.

Definition kvm_apic_accept_events (x2apic : bool) (code : Z * Z * Z) (i : nat) (b : bus) : res bus :=
  v ← vcpu_at (vcpus b) i;
  let pe := pending_events (apic v) in
  if pe =? 0 then Ok b
  else
    b ← on_vcpu i (on_apic (fun a => with_events 0 (sipi_vector a) a)) b;
    b ← (if Z.testbit pe KVM_APIC_INIT then
           b ← kvm_lapic_reset x2apic i b;
           on_vcpu i (fun v => set_mp_state (if is_bsp v then KVM_MP_STATE_RUNNABLE else KVM_MP_STATE_INIT_RECEIVED)
                                 (kvm_vcpu_reset code v)) b
         else Ok b);
    v ← vcpu_at (vcpus b) i;
    if Z.testbit pe KVM_APIC_SIPI && (mp_state (start v) =? KVM_MP_STATE_INIT_RECEIVED) then
      on_vcpu i (fun v => set_mp_state KVM_MP_STATE_RUNNABLE (kvm_vcpu_deliver_sipi_vector (sipi_vector (apic v)) v)) b
    else Ok b.

(** A processor is created before it is in the list that the table is built
    from, which is recalculated for its identifiers. *)
Definition kvm_create_lapic (x2apic : bool) (id : Z) (bsp : bool) (b : bus) : res bus :=
  let base := Z.lor 0xfee00000 MSR_IA32_APICBASE_ENABLE in
  let a := Lapic (Z.land base MSR_IA32_APICBASE_BASE) (Timer 0 false 0 0 0 0) 0 false 0 0 ∅ 0 0 in
  let base := if bsp then Z.lor base MSR_IA32_APICBASE_BSP else base in
  let a := reset_vectors (apic_set_reg (reset_modes x2apic (apic_set_reg a APIC_ID (Z.shiftl (u8 id) 24))) APIC_LDR 0) in
  let v := Vcpu id bsp a base 0 0 false false false
             (Start (if bsp then KVM_MP_STATE_RUNNABLE else KVM_MP_STATE_UNINITIALIZED) 0 0 0) in
  b ← recalculate_apic_map b;
  b ← recalculate_apic_map b;
  Ok (with_vcpus (vcpus b ++ [apic_update_ppr v]) b).

(** ** What a message changes *)

(** A processor before and after it took messages. *)
Record irq_step (v v' : kvm_vcpu) : Prop := {
  is_id : vcpu_id v' = vcpu_id v;
  is_bspu : is_bsp v' = is_bsp v;
  is_base : apic_base v' = apic_base v;
  is_start : start v' = start v;
  is_timer : lapic_timer (apic v') = lapic_timer (apic v);
  is_regs : forall r, plain_reg r -> kvm_apic_get_reg (apic v') r = kvm_apic_get_reg (apic v) r;
  is_bits : forall w b, is_bitmap b -> b <> APIC_IRR -> is_vector w ->
              apic_test_vector (apic v') w b = apic_test_vector (apic v) w b;
  is_irr : forall w, is_vector w -> apic_test_vector (apic v) w APIC_IRR = true ->
             apic_test_vector (apic v') w APIC_IRR = true;
  is_ok : vcpu_ok v -> vcpu_ok v'
}.

#[export] Instance irq_step_preorder : PreOrder irq_step.
Proof.
  split; [by split|]. intros v1 v2 v3 H12 H23.
  split; [by etransitivity; [apply H23|apply H12]..| | | |].
  - intros r Hr. rewrite (is_regs _ _ H23) by done. by apply H12.
  - intros w b Hb Hne Hw. rewrite (is_bits _ _ H23) by done. by apply H12.
  - intros w Hw Ht. apply H23, H12; done.
  - intros Hok. by apply H23, H12.
Qed.

Lemma set_irr_plain a vec r : is_vector vec -> plain_reg r ->
  kvm_apic_get_reg (apic_set_irr vec a) r = kvm_apic_get_reg a r.
Proof.
  intros Hv Hr. unfold apic_set_irr, apic_set_vector. rewrite get_set_reg, decide_False; [done|].
  rewrite REG_POS_eq by done. pose proof (vec_div vec Hv). unfold plain_reg, APIC_IRR in *. lia.
Qed.

Lemma set_irr_step v vec : is_vector vec -> irq_step v (request_event (on_apic (apic_set_irr vec) v)).
Proof.
  intros Hv. split; cbn; try done.
  - intros r Hr. by apply set_irr_plain.
  - intros w b Hb Hne Hw. rewrite set_irr_test, decide_False by (done || intros []; done). done.
  - intros w Hw Ht. rewrite set_irr_test by auto with apic. by case_decide.
  - intros Hok. by apply lapic_ok_set_irr.
Qed.

Lemma accept_step v m vec l t : is_vector vec -> irq_step v (__apic_accept_irq v m vec l t).2.
Proof.
  intros Hvec. unfold __apic_accept_irq. set (v1 := if m =? APIC_DM_LOWEST then _ else v).
  assert (H1 : irq_step v v1) by (unfold v1; destruct (m =? APIC_DM_LOWEST); by split).
  clearbody v1. etransitivity; [exact H1|]. repeat case_match; cbn [snd]; try done; try (by apply set_irr_step);
    split; try done; intros Hok; by eapply lapic_ok_same_regs.
Qed.

(** What the result and the marks of an accepted message are. *)
Lemma accept_result v m vec l t : let out := __apic_accept_irq v m vec l t in
  0 <= out.1.1 <= 1 /\ (out.1.2 = true -> out.1.1 = 1).
Proof.
  unfold __apic_accept_irq. set (v1 := if m =? APIC_DM_LOWEST then _ else v). clearbody v1.
  cbv zeta. repeat case_match; (split; [cbn; lia|done]).
Qed.

Definition bus_step (vs vs' : list kvm_vcpu) : Prop := Forall2 irq_step vs vs'.

#[export] Instance bus_step_preorder : PreOrder bus_step.
Proof.
  split; [intros vs; by apply Forall_Forall2_diag, Forall_true|]. intros x y z Hxy Hyz.
  eapply Forall2_trans; [|exact Hxy|exact Hyz]. intros ? ? ?. apply transitivity.
Qed.

Lemma bus_step_lookup vs vs' i v' : bus_step vs vs' -> vs' !! i = Some v' ->
  exists v, vs !! i = Some v /\ irq_step v v'.
Proof. intros H E. by destruct (Forall2_lookup_r _ _ _ _ _ H E) as (v & ? & ?); eauto. Qed.

Lemma bus_step_ids vs vs' : bus_step vs vs' -> vcpu_id <$> vs' = vcpu_id <$> vs.
Proof. induction 1 as [|v v' vs vs' Hv _ IH]; [done|]. cbn. by rewrite IH, (is_id _ _ Hv). Qed.

Lemma bus_step_ok vs vs' : bus_step vs vs' -> Forall vcpu_ok vs -> Forall vcpu_ok vs'.
Proof. induction 1 as [|v v' vs vs' Hv _ IH]; [done|]. rewrite !Forall_cons. intros []. split; [by apply Hv|auto]. Qed.

(** One processor of the list changed. *)
Lemma bus_step_insert vs i v v' : vs !! i = Some v -> irq_step v v' -> bus_step vs (<[i := v']> vs).
Proof.
  intros Hi Hs. apply Forall2_same_length_lookup. rewrite length_insert. split; [done|].
  intros j x y Hx Hy. destruct (decide (i = j)) as [<-|Hne].
  - rewrite list_lookup_insert_eq in Hy by (by eapply lookup_lt_Some). by simplify_eq.
  - rewrite list_lookup_insert_ne in Hy by done. by simplify_eq.
Qed.

(** ** Delivery never fails *)

(** The result [r] counts the processors that accepted and at least those
    marked in [dest_map]; a negative one means that there was no target. *)
Record delivered (vs : list kvm_vcpu) (dm : gset Z) (r0 : Z) (out : Z * list kvm_vcpu * gset Z) : Prop := {
  dl_step : bus_step vs out.1.2;
  dl_incl : dm ⊆ out.2;
  dl_size : Z.of_nat (size out.2) - Z.of_nat (size dm) <= Z.max 0 out.1.1 - Z.max 0 r0;
  dl_lo : - 1 <= out.1.1
}.

Lemma set_irq_delivered i irq vs dm : (i < length vs)%nat -> is_vector (vector irq) ->
  exists out, kvm_apic_set_irq i irq vs dm = Ok out /\ delivered vs dm 0 out /\ 0 <= out.1.1.
Proof.
  intros Hi Hv. unfold kvm_apic_set_irq, vcpu_at.
  destruct (lookup_lt_is_Some_2 vs i Hi) as [v E]. rewrite E. cbn [mbind res_bind].
  pose proof (accept_step v (delivery_mode irq) (vector irq) (level irq) (trig_mode irq) Hv) as Hs.
  pose proof (accept_result v (delivery_mode irq) (vector irq) (level irq) (trig_mode irq)) as Hr.
  destruct (__apic_accept_irq _ _ _ _ _) as [[r mark] v']. destruct Hr as [Hr Hm]. cbn in Hr, Hm.
  eexists. split; [done|]. split; [|cbn; lia]. split; cbn.
  - by eapply bus_step_insert.
  - destruct mark; set_solver.
  - destruct mark; [|lia]. rewrite Hm by done.
    rewrite (union_comm_L {[ vcpu_id v ]} dm).
    rewrite size_union_alt. assert (size ({[ vcpu_id v ]} ∖ dm) <= 1)%nat; [|lia].
    rewrite <- (size_singleton (C := gset Z) (vcpu_id v)). apply subseteq_size. set_solver.
  - lia.
Qed.

Lemma delivered_refl vs dm r : - 1 <= r -> delivered vs dm r (r, vs, dm).
Proof. intros Hr. split; cbn; [done|done|lia|done]. Qed.

Lemma delivered_trans vs dm r0 o1 r out : delivered vs dm 0 o1 -> 0 <= o1.1.1 -> - 1 <= r0 ->
  r = Z.max 0 r0 + o1.1.1 -> delivered o1.1.2 o1.2 r out -> delivered vs dm r0 out.
Proof.
  intros [S1 I1 Z1 L1] H0 Hr0 -> [S2 I2 Z2 L2]. split; [by etransitivity|set_solver|lia|done].
Qed.

(** Pointers of the table are good. *)
Record map_wf (m : kvm_apic_map) (n : nat) : Prop := {
  mw_cid : 0 <= cid_mask m < 16;
  mw_phys : forall x k, phys_map m !! x = Some k -> (k < n)%nat;
  mw_logical : forall x k, logical_map m !! x = Some k -> (k < n)%nat
}.

Lemma cluster_id_ok m ldr : 0 <= cid_mask m < 16 -> exists cid, apic_cluster_id m ldr = Ok cid /\
  cid = Z.land (Z.shiftr (Z.shiftr ldr (32 - ldr_bits m)) (cid_shift m)) (cid_mask m).
Proof.
  intros Hm. unfold apic_cluster_id. set (x := Z.shiftr (Z.shiftr ldr _) _).
  pose proof (land_le_r x (cid_mask m) ltac:(lia)). assert (0 <= Z.land x (cid_mask m)) by (apply Z.land_nonneg; lia).
  assert (E : u16 (Z.land x (cid_mask m)) = Z.land x (cid_mask m)) by (apply Z.mod_small; lia). rewrite E.
  destruct (Z.leb_spec 16 (Z.land x (cid_mask m))); [lia|]. eauto.
Qed.

Lemma deliver_slots_ok irq dst ix : is_vector (vector irq) -> forall r vs dm,
  (forall i k, dst i = Some k -> (k < length vs)%nat) -> - 1 <= r ->
  exists out, deliver_slots irq dst ix r vs dm = Ok out /\ delivered vs dm r out.
Proof.
  intros Hv. induction ix as [|i ix IH]; intros r vs dm Hd Hr; cbn [deliver_slots].
  { eexists. split; [done|]. by apply delivered_refl. }
  destruct (dst i) as [k|] eqn:E; [|by apply IH].
  destruct (set_irq_delivered k irq vs dm (Hd _ _ E) Hv) as ([[d vs1] dm1] & -> & H1 & H0). cbn [mbind res_bind].
  cbn in H0. assert (El : length vs1 = length vs) by (symmetry; apply (Forall2_length _ _ _ (dl_step _ _ _ _ H1))).
  destruct (IH ((if r <? 0 then 0 else r) + d) vs1 dm1) as (out & -> & H2).
  { rewrite El. exact Hd. } { destruct (r <? 0); lia. }
  eexists. split; [done|]. eapply delivered_trans; [exact H1|exact H0|done| |exact H2].
  cbn. destruct (Z.ltb_spec r 0); lia.
Qed.

Lemma lowest_slot_ok vs dst ix : (forall i k, dst i = Some k -> (k < length vs)%nat) -> forall l,
  (forall i k, l = Some (i, k) -> (k < length vs)%nat) ->
  exists l', lowest_slot vs dst ix l = Ok l'.
Proof.
  intros Hd. induction ix as [|i ix IH]; intros l Hl; cbn [lowest_slot]; [eauto|].
  destruct (dst i) as [k|] eqn:E; [|by apply IH].
  destruct l as [[il kl]|]; [|apply IH; intros ? ? [= <- <-]; by eapply Hd].
  unfold vcpu_at. destruct (lookup_lt_is_Some_2 vs k (Hd _ _ E)) as [v ->].
  destruct (lookup_lt_is_Some_2 vs kl (Hl _ _ eq_refl)) as [vl ->]. cbn [mbind res_bind].
  apply IH. destruct (_ <? 0); intros ? ? [= <- <-]; [by eapply Hd|by eapply Hl].
Qed.

Lemma delivery_fast_ok b src irq dm : is_vector (vector irq) ->
  (forall m, apic_map b = Some m -> map_wf m (length (vcpus b))) ->
  (shorthand irq = APIC_DEST_SELF -> exists i, src = Some i /\ (i < length (vcpus b))%nat) ->
  exists fast vs' dm', kvm_irq_delivery_to_apic_fast b src irq dm = Ok (fast, vs', dm') /\
    match fast with
    | Some r => delivered (vcpus b) dm (- 1) (r, vs', dm')
    | None => vs' = vcpus b /\ dm' = dm
    end.
Proof.
  intros Hv Hm Hsrc. unfold kvm_irq_delivery_to_apic_fast.
  destruct (Z.eqb_spec (shorthand irq) APIC_DEST_SELF) as [E|_].
  { destruct (Hsrc E) as (i & -> & Hi). destruct (set_irq_delivered i irq (vcpus b) dm Hi Hv) as ([[r vs] dm'] & -> & [] & H0).
    cbn in *. do 3 eexists. split; [done|]. split; cbn; (done || lia). }
  destruct (shorthand irq =? 0); cbn [negb]; [|by do 3 eexists].
  destruct (apic_map b) as [m|] eqn:Em; [|by do 3 eexists]. destruct (Hm m eq_refl) as [Hc Hp Hl].
  destruct (dest_mode irq =? 0).
  - destruct (_ || _); [by do 3 eexists|].
    destruct (deliver_slots_ok irq (fun i => phys_map m !! (Z.land (dest_id irq) 0xff + i)) (set_bits 1) Hv (- 1) (vcpus b) dm)
      as ([[r vs] dm'] & -> & H); [intros i k; apply Hp|lia|]. by do 3 eexists.
  - destruct (cluster_id_ok m (u32 (Z.shiftl (dest_id irq) (32 - ldr_bits m))) Hc) as (cid & -> & _). cbn [mbind res_bind].
    set (dst := fun i => logical_map m !! (cid, i)). assert (Hd : forall i k, dst i = Some k -> (k < length (vcpus b))%nat)
      by (intros i k; apply Hl).
    set (bm := apic_logical_id m _).
    assert (exists bm', (if delivery_mode irq =? APIC_DM_LOWEST then
               l ← lowest_slot (vcpus b) dst (set_bits bm) None;
               Ok (match l with Some (i, _) => Z.shiftl 1 i | None => 0 end) else Ok bm) = Ok bm') as [bm' ->].
    { destruct (_ =? _); [|eauto]. destruct (lowest_slot_ok (vcpus b) dst (set_bits bm) Hd None) as [l' ->]; [done|].
      cbn [mbind res_bind]. eauto. }
    cbn [mbind res_bind]. destruct (deliver_slots_ok irq dst (set_bits bm') Hv (- 1) (vcpus b) dm Hd) as ([[r vs] dm'] & -> & H); [lia|].
    by do 3 eexists.
Qed.

Lemma scan_vcpus_ok src irq ix : is_vector (vector irq) -> forall r low vs dm,
  Forall (fun i => (i < length vs)%nat) ix -> - 1 <= r -> (forall l, low = Some l -> (l < length vs)%nat) ->
  exists r' low' vs' dm', scan_vcpus src irq ix r low vs dm = Ok (r', low', vs', dm') /\
    delivered vs dm r (r', vs', dm') /\ (forall l, low' = Some l -> (l < length vs)%nat) /\
    (delivery_mode irq = APIC_DM_LOWEST -> r' = r /\ vs' = vs /\ dm' = dm) /\
    (delivery_mode irq <> APIC_DM_LOWEST -> low' = low).
Proof.
  intros Hv. induction ix as [|i ix IH]; intros r low vs dm Hix Hr Hlow; cbn [scan_vcpus].
  { do 4 eexists. split; [done|]. split; [by apply delivered_refl|]. done. }
  apply Forall_cons in Hix as [Hi Hix]. unfold vcpu_at.
  destruct (lookup_lt_is_Some_2 vs i Hi) as [v E]. rewrite E. cbn [mbind res_bind].
  destruct (kvm_apic_present v); cbn [negb]; [|by apply IH].
  destruct (kvm_apic_match_dest _ _ _ _ _ _); cbn [negb]; [|by apply IH].
  destruct (Z.eqb_spec (delivery_mode irq) APIC_DM_LOWEST) as [Em|Em]; cbn [negb].
  - assert (Hnext : forall low2, (forall l, low2 = Some l -> (l < length vs)%nat) ->
      exists r' low' vs' dm', scan_vcpus src irq ix r low2 vs dm = Ok (r', low', vs', dm') /\
        delivered vs dm r (r', vs', dm') /\ (forall l, low' = Some l -> (l < length vs)%nat) /\
        (delivery_mode irq = APIC_DM_LOWEST -> r' = r /\ vs' = vs /\ dm' = dm) /\
        (delivery_mode irq <> APIC_DM_LOWEST -> low' = low)).
    { intros low2 H2. destruct (IH r low2 vs dm Hix Hr H2) as (r' & l' & vs' & dm' & ? & ? & ? & ? & _). by do 4 eexists. }
    destruct (kvm_lapic_enabled v); [|by apply Hnext]. destruct low as [l|]; [|apply Hnext; by intros ? [= <-]].
    destruct (lookup_lt_is_Some_2 vs l (Hlow _ eq_refl)) as [vl ->]. cbn [mbind res_bind]. apply Hnext.
    destruct (_ <? 0); intros ? [= <-]; [done|by apply Hlow].
  - destruct (set_irq_delivered i irq vs dm Hi Hv) as ([[d vs1] dm1] & -> & H1 & H0). cbn [mbind res_bind].
    cbn in H0. assert (El : length vs1 = length vs) by (symmetry; apply (Forall2_length _ _ _ (dl_step _ _ _ _ H1))).
    destruct (IH ((if r <? 0 then 0 else r) + d) low vs1 dm1) as (r' & low' & vs' & dm' & -> & H2 & Hl2 & _ & H4).
    { by rewrite El. } { destruct (r <? 0); lia. } { by rewrite El. }
    do 4 eexists. split; [done|]. rewrite El in Hl2. split; [|done].
    eapply delivered_trans; [exact H1|exact H0|done| |exact H2]. cbn. destruct (Z.ltb_spec r 0); lia.
Qed.

Lemma deliver_by_scan_ok b src irq dm : is_vector (vector irq) ->
  exists out, deliver_by_scan b src irq dm = Ok out /\ delivered (vcpus b) dm (- 1) out.
Proof.
  intros Hv. unfold deliver_by_scan.
  destruct (scan_vcpus_ok src irq (seq 0 (length (vcpus b))) Hv (- 1) None (vcpus b) dm)
    as (r & low & vs & dm' & -> & H & Hlow & H1 & H2); [|lia|done|].
  { apply Forall_forall. intros i Hi. apply elem_of_seq in Hi. lia. }
  cbn [mbind res_bind]. destruct low as [l|]; [|eauto].
  destruct (Z.eq_dec (delivery_mode irq) APIC_DM_LOWEST) as [Em|Em]; [|by apply H2 in Em].
  destruct (H1 Em) as (-> & -> & ->).
  destruct (set_irq_delivered l irq (vcpus b) dm (Hlow _ eq_refl) Hv) as (out & -> & [] & H0).
  eexists. split; [done|]. split; (done || lia).
Qed.

(** The state of the bus: consistent APICs, distinct processors, a table of
    good pointers. *)
Record bus_ok (b : bus) : Prop := {
  bo_vcpus : Forall vcpu_ok (vcpus b);
  bo_ids : NoDup (vcpu_id <$> vcpus b);
  bo_map : forall m, apic_map b = Some m -> map_wf m (length (vcpus b))
}.

Lemma bus_ok_step b vs' : bus_ok b -> bus_step (vcpus b) vs' -> bus_ok (with_vcpus vs' b).
Proof.
  intros [Hv Hi Hm] Hs. split; cbn.
  - by eapply bus_step_ok.
  - by rewrite (bus_step_ids _ _ Hs).
  - by rewrite <- (Forall2_length _ _ _ Hs).
Qed.

(** A delivery always completes. *)
Lemma delivery_ok b src irq dm : bus_ok b -> is_vector (vector irq) ->
  (shorthand irq = APIC_DEST_SELF -> exists i, src = Some i /\ (i < length (vcpus b))%nat) ->
  exists r vs' dm', kvm_irq_delivery_to_apic b src irq dm = Ok (r, with_vcpus vs' b, dm') /\
    delivered (vcpus b) dm (- 1) (r, vs', dm').
Proof.
  intros [_ _ Hm] Hv Hsrc. unfold kvm_irq_delivery_to_apic.
  match goal with |- context [if ?c then LapicIrq ?x ?y ?z ?u ?v ?w ?q else irq] =>
    set (irq' := if c then LapicIrq x y z u v w q else irq) end.
  assert (Hv' : is_vector (vector irq')) by (unfold irq'; by destruct (_ && _)).
  assert (Hs' : shorthand irq' = shorthand irq) by (unfold irq'; by destruct (_ && _)). rewrite <- Hs' in Hsrc.
  destruct (delivery_fast_ok b src irq' dm Hv' Hm Hsrc) as (fast & vs' & dm' & -> & H). cbn [mbind res_bind].
  destruct fast as [r|]; [by do 3 eexists|].
  destruct (deliver_by_scan_ok b src irq' dm Hv') as ([[r vs] dm2] & -> & H2). by do 3 eexists.
Qed.

(** ** The table agrees with the scan *)

(** The three ways in which a guest addresses processors logically. *)
Inductive addr_mode := Flat | Cluster | X2apic.

Definition in_mode (md : addr_mode) (v : kvm_vcpu) : Prop :=
  let dfr := kvm_apic_get_reg (apic v) APIC_DFR in
  match md with
  | Flat => apic_x2apic_mode v = false /\ dfr = APIC_DFR_FLAT
  | Cluster => apic_x2apic_mode v = false /\ kvm_apic_sw_enabled (apic v) = true /\ dfr = APIC_DFR_CLUSTER
  | X2apic => apic_x2apic_mode v = true
  end.

(** The cluster and the set of members a logical identifier names. *)
Definition decode (md : addr_mode) (ldr : Z) : Z * Z :=
  match md with
  | Flat => (0, Z.land (Z.shiftr ldr 24) 0xff)
  | Cluster => (Z.land (Z.shiftr ldr 28) 0xf, Z.land (Z.shiftr ldr 24) 0xf)
  | X2apic => (0, Z.land ldr 0xffff)
  end.

Definition key (md : addr_mode) (v : kvm_vcpu) : option (Z * Z) :=
  let '(c, l) := decode md (kvm_apic_get_reg (apic v) APIC_LDR) in
  if l =? 0 then None else Some (c, ffs l - 1).

(** What the table's comment asks of the guest: one mode everywhere, and
    identifiers of one bit each that are all different. *)
Record well_addressed (md : addr_mode) (vs : list kvm_vcpu) : Prop := {
  wa_mode : forall k v, vs !! k = Some v -> kvm_apic_present v = true -> in_mode md v;
  wa_phys : forall j k v w, vs !! j = Some v -> vs !! k = Some w -> kvm_apic_present v = true ->
    kvm_apic_present w = true -> kvm_apic_id (apic v) = kvm_apic_id (apic w) -> j = k;
  wa_key : forall j k v w x, vs !! j = Some v -> vs !! k = Some w -> kvm_apic_present v = true ->
    kvm_apic_present w = true -> key md v = Some x -> key md w = Some x -> j = k;
  wa_single : forall k v, vs !! k = Some v -> kvm_apic_present v = true ->
    (decode md (kvm_apic_get_reg (apic v) APIC_LDR)).2 = 0 \/
    exists i, 0 <= i < 16 /\ (decode md (kvm_apic_get_reg (apic v) APIC_LDR)).2 = 2 ^ i
}.

Definition has_mode (md : addr_mode) (m : kvm_apic_map) : Prop :=
  match md with
  | Flat => (ldr_bits m, cid_shift m, cid_mask m, lid_mask m) = (8, 8, 0, 0xff)
  | Cluster => (ldr_bits m, cid_shift m, cid_mask m, lid_mask m) = (8, 4, 0xf, 0xf)
  | X2apic => (ldr_bits m, cid_shift m, cid_mask m, lid_mask m) = (32, 16, 0, 0xffff)
  end.

(** The table for the processors [vs]. *)
Record maps (md : addr_mode) (vs : list kvm_vcpu) (m : kvm_apic_map) : Prop := {
  mp_mode : has_mode md m \/ has_mode Flat m /\ forall k v, vs !! k = Some v -> kvm_apic_present v = false;
  mp_phys : forall x k, phys_map m !! x = Some k <->
    exists v, vs !! k = Some v /\ kvm_apic_present v = true /\ kvm_apic_id (apic v) = x;
  mp_logical : forall x k, logical_map m !! x = Some k <->
    exists v, vs !! k = Some v /\ kvm_apic_present v = true /\ key md v = Some x
}.

Lemma decode_map md m ldr : has_mode md m -> 0 <= ldr < 2 ^ 32 ->
  apic_cluster_id m ldr = Ok (decode md ldr).1 /\ apic_logical_id m ldr = (decode md ldr).2.
Proof.
  intros Hm Hl. assert (Hc : 0 <= cid_mask m < 16) by (destruct md; injection Hm as _ _ -> _; lia).
  destruct (cluster_id_ok m ldr Hc) as (cid & -> & ->). unfold apic_logical_id.
  assert (Hu : forall x y, 0 <= y < 2 ^ 16 -> u16 (Z.land x y) = Z.land x y).
  { intros x y Hy. apply Z.mod_small. split; [apply Z.land_nonneg; lia|].
    apply Z.le_lt_trans with y; [apply land_le_r; lia|lia]. }
  destruct md; injection Hm as -> -> -> ->; rewrite Hu by lia; cbn [decode fst snd]; split.
  all: by rewrite ?Z.land_0_r, ?Z.shiftr_shiftr by lia.
Qed.

Lemma mode_next md m v : in_mode md v -> has_mode md m \/ has_mode Flat m -> has_mode md (map_mode v m).
Proof.
  unfold map_mode. destruct md; cbn [in_mode]; intros Hv Hm.
  - destruct Hv as [-> ->]. rewrite andb_false_r. by destruct Hm.
  - destruct Hv as (-> & -> & ->). destruct Hm as [Hm|Hm]; injection Hm as H1 H2 H3 H4; cbn;
      rewrite H3; cbn; by rewrite H1, ?H2, ?H3, ?H4.
  - by rewrite Hv.
Qed.

Lemma map_mode_tables v m : phys_map (map_mode v m) = phys_map m /\ logical_map (map_mode v m) = logical_map m.
Proof. unfold map_mode. by repeat case_match. Qed.

Lemma map_from_snoc vs v : forall i m,
  map_from i (vs ++ [v]) m = (m ← map_from i vs m; add_to_map (i + length vs) v m).
Proof.
  induction vs as [|w vs IH]; intros i m; cbn [map_from app length].
  - rewrite Nat.add_0_r. cbn [mbind res_bind]. by destruct (add_to_map i v m).
  - destruct (add_to_map i w m); [|done]. cbn [mbind res_bind]. rewrite IH. by rewrite Nat.add_succ_r.
Qed.

Lemma well_addressed_prefix md vs v : well_addressed md (vs ++ [v]) -> well_addressed md vs.
Proof.
  intros [H1 H2 H3 H4]. assert (Hl : forall k w, vs !! k = Some w -> (vs ++ [v]) !! k = Some w)
    by (intros k w Hk; by apply lookup_app_l_Some).
  split; intros; [eapply H1|eapply H2|eapply H3|eapply H4]; eauto.
Qed.

(** A lookup in a table to which the last processor was added. *)
Lemma insert_last {K} `{Countable K} (t : gmap K nat) (vs : list kvm_vcpu) (v : kvm_vcpu) (f : kvm_vcpu -> option K) (y : K) :
  (forall x k, t !! x = Some k <-> exists w, vs !! k = Some w /\ kvm_apic_present w = true /\ f w = Some x) ->
  kvm_apic_present v = true -> f v = Some y ->
  (forall k w, vs !! k = Some w -> kvm_apic_present w = true -> f w <> Some y) ->
  forall x k, <[y := length vs]> t !! x = Some k <->
    exists w, (vs ++ [v]) !! k = Some w /\ kvm_apic_present w = true /\ f w = Some x.
Proof.
  intros Ht Hp Hf Hu x k. setoid_rewrite lookup_snoc_Some. rewrite lookup_insert_Some, Ht. split.
  - intros [[<- <-]|[Hne (w & Hw & ? & ?)]]; [by exists v; eauto|]. exists w. split; [|done].
    left. split; [by eapply lookup_lt_Some|done].
  - intros (w & [[_ Hw]|[-> ->]] & Hpw & Hfw); [|left; by simplify_eq]. right. split; [|by eauto].
    intros ->. by eapply Hu.
Qed.

Lemma skip_last {K} (P : K -> nat -> Prop) (vs : list kvm_vcpu) (v : kvm_vcpu) (f : kvm_vcpu -> option K) :
  (forall x k, P x k <-> exists w, vs !! k = Some w /\ kvm_apic_present w = true /\ f w = Some x) ->
  kvm_apic_present v = false \/ f v = None ->
  forall x k, P x k <-> exists w, (vs ++ [v]) !! k = Some w /\ kvm_apic_present w = true /\ f w = Some x.
Proof.
  intros Ht Hv x k. rewrite Ht. setoid_rewrite lookup_snoc_Some. split.
  - intros (w & Hw & ? & ?). exists w. split; [left|done]. split; [by eapply lookup_lt_Some|done].
  - intros (w & [[_ Hw]|[-> ->]] & Hpw & Hfw); [by eauto|]. destruct Hv; congruence.
Qed.

Lemma add_to_map_maps md vs v m : well_addressed md (vs ++ [v]) -> vcpu_ok v -> maps md vs m ->
  exists m', add_to_map (length vs) v m = Ok m' /\ maps md (vs ++ [v]) m'.
Proof.
  intros Hwa Hok [Hm Hph Hlo]. unfold add_to_map.
  assert (Hlast : (vs ++ [v]) !! length vs = Some v) by (apply lookup_snoc_Some; by right).
  assert (Hpre : forall k w, vs !! k = Some w -> (vs ++ [v]) !! k = Some w /\ k <> length vs).
  { intros k w Hk. apply lookup_lt_Some in Hk as Hlt. split; [by apply lookup_app_l_Some|lia]. }
  set (fid := fun w => Some (kvm_apic_id (apic w))).
  assert (Hph' : forall x k, phys_map m !! x = Some k <->
            exists w, vs !! k = Some w /\ kvm_apic_present w = true /\ fid w = Some x).
  { intros x k. rewrite Hph. unfold fid. naive_solver. }
  assert (Hback : forall x k, (exists w, (vs ++ [v]) !! k = Some w /\ kvm_apic_present w = true /\ fid w = Some x) <->
            exists w, (vs ++ [v]) !! k = Some w /\ kvm_apic_present w = true /\ kvm_apic_id (apic w) = x).
  { intros x k. unfold fid. naive_solver. }
  destruct (kvm_apic_present v) eqn:Hp; cbn [negb].
  2:{ eexists. split; [done|]. split.
      - destruct Hm as [|[? Hno]]; [by left|right]. split; [done|]. intros k w. rewrite lookup_snoc_Some.
        intros [[_ ?]|[_ <-]]; [by eapply Hno|done].
      - intros x k. rewrite <- Hback. by apply (skip_last (fun x k => phys_map m !! x = Some k) vs v fid); [|left].
      - apply skip_last; [done|by left]. }
  assert (Hm' : has_mode md (map_mode v m))
    by (apply mode_next; [by eapply wa_mode|destruct Hm as [|[? _]]; [by left|by right]]).
  destruct (map_mode_tables v m) as [-> ->].
  destruct (decode_map md (map_mode v m) (kvm_apic_get_reg (apic v) APIC_LDR) Hm') as [-> ->];
    [apply reg_word, (ok_regs _ Hok)|]. cbn [mbind res_bind]. eexists. split; [done|]. split; cbn.
  - left. destruct md; exact Hm'.
  - intros x k. rewrite <- Hback. apply insert_last; [done..|]. intros j w Hj Hpw [= E].
    destruct (Hpre j w Hj) as [Hj' Hne]. by apply Hne, (wa_phys _ _ Hwa j (length vs) w v).
  - pose proof (eq_refl (key md v)) as Ek. unfold key in Ek at 2.
    destruct (decode md (kvm_apic_get_reg (apic v) APIC_LDR)) as [c l]. cbn [fst snd].
    destruct (l =? 0); [apply skip_last; [done|by right]|]. apply insert_last; [done..|].
    intros j w Hj Hpw E. destruct (Hpre j w Hj) as [Hj' Hne].
    by apply Hne, (wa_key _ _ Hwa j (length vs) w v (c, ffs l - 1)).
Qed.

Lemma map_from_maps md vs : well_addressed md vs -> Forall vcpu_ok vs ->
  exists m, map_from 0 vs empty_map = Ok m /\ maps md vs m.
Proof.
  induction vs as [|v vs IH] using rev_ind; intros Hwa Hok.
  - exists empty_map. split; [done|]. split; [right; split; [done|]; intros k v; by rewrite lookup_nil|..];
      intros x k; cbn [empty_map phys_map logical_map]; rewrite lookup_empty;
      (split; [done|]); intros (w & Hw & _); by rewrite lookup_nil in Hw.
  - apply Forall_app in Hok as [Hok Hv]. apply Forall_cons in Hv as [Hv _].
    destruct (IH (well_addressed_prefix _ _ _ Hwa) Hok) as (m & E & Hm).
    rewrite map_from_snoc, E. cbn [mbind res_bind]. by apply add_to_map_maps.
Qed.

(** Both deliver to a list of processors. *)
Fixpoint deliver_to (irq : kvm_lapic_irq) (ks : list nat) (r : Z) (vs : list kvm_vcpu) (dm : gset Z)
    : res (Z * list kvm_vcpu * gset Z) :=
  match ks with
  | [] => Ok (r, vs, dm)
  | k :: ks =>
      '(d, vs, dm) ← kvm_apic_set_irq k irq vs dm;
      deliver_to irq ks ((if r <? 0 then 0 else r) + d) vs dm
  end.

Lemma deliver_slots_to irq dst ix : forall r vs dm,
  deliver_slots irq dst ix r vs dm = deliver_to irq (omap dst ix) r vs dm.
Proof.
  induction ix as [|i ix IH]; intros r vs dm; [done|]. cbn [deliver_slots omap list_omap].
  destruct (dst i) as [k|] eqn:E; cbn; [|by apply IH].
  cbn [deliver_to]. destruct (kvm_apic_set_irq k irq vs dm) as [[[d vs1] dm1]|]; [|done]. by apply IH.
Qed.

Definition targets (src : option nat) (irq : kvm_lapic_irq) (vs : list kvm_vcpu) (i : nat) : bool :=
  match vs !! i with
  | Some v => kvm_apic_present v && kvm_apic_match_dest v i src (shorthand irq) (dest_id irq) (dest_mode irq)
  | None => false
  end.

Lemma set_irq_other k irq vs dm d vs' dm' j : kvm_apic_set_irq k irq vs dm = Ok (d, vs', dm') -> j <> k ->
  vs' !! j = vs !! j.
Proof.
  unfold kvm_apic_set_irq. destruct (vcpu_at vs k); [|done]. cbn [mbind res_bind].
  destruct (__apic_accept_irq _ _ _ _ _) as [[r mark] v']. intros [= _ <- _] Hne. by apply list_lookup_insert_ne.
Qed.

Lemma scan_vcpus_to src irq vs0 : delivery_mode irq <> APIC_DM_LOWEST -> forall ix r vs dm,
  NoDup ix -> (forall i, i ∈ ix -> vs !! i = vs0 !! i /\ is_Some (vs !! i)) ->
  scan_vcpus src irq ix r None vs dm =
  ('(r, vs, dm) ← deliver_to irq (filter (fun i => targets src irq vs0 i = true) ix) r vs dm; Ok (r, None, vs, dm)).
Proof.
  intros Hm. induction ix as [|i ix IH]; intros r vs dm Hnd Hix; [done|]. cbn [scan_vcpus].
  apply NoDup_cons in Hnd as [Hni Hnd]. destruct (Hix i) as [Ei [v Hv]]; [by left|].
  assert (Hix' : forall j, j ∈ ix -> vs !! j = vs0 !! j /\ is_Some (vs !! j)) by (intros j Hj; apply Hix; by right).
  assert (Et : targets src irq vs0 i =
    kvm_apic_present v && kvm_apic_match_dest v i src (shorthand irq) (dest_id irq) (dest_mode irq))
    by (unfold targets; by rewrite <- Ei, Hv).
  unfold vcpu_at. rewrite Hv. cbn [mbind res_bind]. rewrite filter_cons, Et.
  destruct (kvm_apic_present v); cbn [negb andb]; [|rewrite decide_False by done; by apply IH].
  destruct (kvm_apic_match_dest _ _ _ _ _ _); cbn [negb]; [|rewrite decide_False by done; by apply IH].
  destruct (Z.eqb_spec (delivery_mode irq) APIC_DM_LOWEST); [done|]. cbn [negb]. rewrite decide_True by done.
  cbn [deliver_to]. destruct (kvm_apic_set_irq i irq vs dm) as [[[d vs1] dm1]|] eqn:E; [|done]. cbn [mbind res_bind].
  apply IH; [done|]. intros j Hj. rewrite (set_irq_other _ _ _ _ _ _ _ j E) by (intros ->; done). by apply Hix'.
Qed.

(** A message's effect on one processor. *)
Definition outcome (irq : kvm_lapic_irq) (v : kvm_vcpu) : Z * bool * kvm_vcpu :=
  __apic_accept_irq v (delivery_mode irq) (vector irq) (level irq) (trig_mode irq).

Definition marked (irq : kvm_lapic_irq) (v : kvm_vcpu) : gset Z :=
  if (outcome irq v).1.2 then {[ vcpu_id v ]} else ∅.

Lemma set_irq_eq k irq vs dm v : vs !! k = Some v ->
  kvm_apic_set_irq k irq vs dm = Ok ((outcome irq v).1.1, <[k := (outcome irq v).2]> vs, marked irq v ∪ dm).
Proof.
  intros E. unfold kvm_apic_set_irq, vcpu_at, marked, outcome. rewrite E. cbn [mbind res_bind].
  destruct (__apic_accept_irq _ _ _ _ _) as [[r [|]] v']; cbn; [done|]. by rewrite union_empty_l_L.
Qed.

Lemma set_irq_none k irq vs dm : vs !! k = None -> kvm_apic_set_irq k irq vs dm = Err BadPointer.
Proof. intros E. unfold kvm_apic_set_irq, vcpu_at. by rewrite E. Qed.

Lemma deliver_to_swap irq x y ks r vs dm : x <> y ->
  deliver_to irq (x :: y :: ks) r vs dm = deliver_to irq (y :: x :: ks) r vs dm.
Proof.
  intros Hne. cbn [deliver_to]. destruct (vs !! x) as [vx|] eqn:Ex, (vs !! y) as [vy|] eqn:Ey.
  - rewrite !(set_irq_eq x irq vs dm vx), !(set_irq_eq y irq vs dm vy) by done. cbn [mbind res_bind].
    rewrite (set_irq_eq y irq _ _ vy), (set_irq_eq x irq _ _ vx) by (by rewrite list_lookup_insert_ne).
    cbn [mbind res_bind]. rewrite (list_insert_insert_ne vs y x) by done.
    pose proof (accept_result vx (delivery_mode irq) (vector irq) (level irq) (trig_mode irq)) as [Hx _].
    pose proof (accept_result vy (delivery_mode irq) (vector irq) (level irq) (trig_mode irq)) as [Hy _].
    fold (outcome irq vx) in Hx. fold (outcome irq vy) in Hy. f_equal.
    + destruct (Z.ltb_spec r 0); repeat match goal with |- context [?a <? 0] => destruct (Z.ltb_spec a 0) end; lia.
    + set_solver.
  - rewrite (set_irq_none y irq vs) by done. rewrite (set_irq_eq x irq vs dm vx) by done. cbn [mbind res_bind].
    by rewrite set_irq_none by (by rewrite list_lookup_insert_ne).
  - rewrite (set_irq_none x irq vs) by done. rewrite (set_irq_eq y irq vs dm vy) by done. cbn [mbind res_bind].
    by rewrite set_irq_none by (by rewrite list_lookup_insert_ne).
  - by rewrite !set_irq_none.
Qed.

Lemma deliver_to_perm irq ks ks' : ks ≡ₚ ks' -> NoDup ks -> forall r vs dm,
  deliver_to irq ks r vs dm = deliver_to irq ks' r vs dm.
Proof.
  induction 1 as [|k ks ks' _ IH|x y ks|ks1 ks2 ks3 H12 IH1 _ IH2]; intros Hnd r vs dm.
  - done.
  - apply NoDup_cons in Hnd as [_ Hnd]. cbn [deliver_to].
    destruct (kvm_apic_set_irq k irq vs dm) as [[[d vs1] dm1]|]; [|done]. by apply IH.
  - apply NoDup_cons in Hnd as [Hni _]. apply deliver_to_swap. intros ->. apply Hni. by left.
  - rewrite IH1 by done. apply IH2. by rewrite <- H12.
Qed.

Lemma NoDup_omap_inj {A B} (f : A -> option B) (l : list A) :
  (forall x y z, f x = Some z -> f y = Some z -> x = y) -> NoDup l -> NoDup (omap f l).
Proof.
  intros Hf. induction 1 as [|x l Hx _ IH]; [constructor|]. cbn. destruct (f x) as [z|] eqn:E; [|done].
  constructor; [|done]. rewrite list_elem_of_omap. intros (y & Hy & Ey). by rewrite (Hf x y z) in Hx.
Qed.

Lemma ffs_pow2 i : 0 <= i < 16 -> ffs (2 ^ i) = i + 1.
Proof.
  intros Hi. assert (H : Forall (fun i => ffs (2 ^ i) = i + 1) (seqZ 0 16)) by (vm_compute; repeat constructor).
  rewrite Forall_forall in H. apply H, elem_of_seqZ. lia.
Qed.

Lemma elem_of_set_bits x i : i ∈ set_bits x <-> 0 <= i < 16 /\ Z.testbit x i = true.
Proof. unfold set_bits. rewrite list_elem_of_filter, elem_of_seqZ. intuition lia. Qed.

Lemma NoDup_set_bits x : NoDup (set_bits x).
Proof. apply NoDup_filter, NoDup_seqZ. Qed.

Lemma land_small x k : 0 <= x < 2 ^ k -> 0 <= k -> Z.land x (Z.ones k) = x.
Proof. intros Hx Hk. rewrite Z.land_ones by done. by apply Z.mod_small. Qed.

Lemma land_masked x y k : 0 <= k -> Z.land (Z.land x (Z.ones k)) (Z.land y (Z.ones k)) = Z.land (Z.land x y) (Z.ones k).
Proof.
  intros Hk. apply Z.bits_inj'. intros i Hi. rewrite !Z.land_spec. by destruct (Z.testbit x i), (Z.testbit y i), (Z.testbit (Z.ones k) i).
Qed.

(** The address a message carries, decoded as the table decodes it. *)
Definition mda_of (md : addr_mode) (dest : Z) : Z :=
  match md with X2apic => dest | _ => Z.shiftl dest 24 end.

Lemma match_logical_decode md v dest : in_mode md v -> 0 <= dest < 256 ->
  kvm_apic_match_logical_addr v dest =
  let '(c, l) := decode md (kvm_apic_get_reg (apic v) APIC_LDR) in
  let '(c', l') := decode md (mda_of md dest) in (c =? c') && any l l'.
Proof.
  intros Hv Hd. unfold kvm_apic_match_logical_addr.
  assert (Eu : u8 dest = dest) by (apply Z.mod_small; lia). rewrite Eu.
  set (ldr := kvm_apic_get_reg (apic v) APIC_LDR).
  assert (Es : Z.shiftr (Z.shiftl dest 24) 24 = dest) by (by rewrite Z.shiftr_shiftl_l, Z.shiftl_0_r by lia).
  destruct md; cbn [in_mode] in Hv; cbn [decode mda_of].
  - destruct Hv as [-> ->]. cbn [Z.eqb Pos.eqb APIC_DFR_FLAT andb]. rewrite Es.
    change 255 with (Z.ones 8). by rewrite (land_small dest 8) by lia.
  - destruct Hv as (-> & _ & ->). change (APIC_DFR_CLUSTER =? APIC_DFR_FLAT) with false.
    change (APIC_DFR_CLUSTER =? APIC_DFR_CLUSTER) with true. cbv iota. rewrite Es. f_equal; [f_equal|].
    + change 255 with (Z.ones 8). change 15 with (Z.ones 4). apply Z.bits_inj'. intros i Hi.
      rewrite Z.shiftr_spec, !Z.land_spec, !Z.shiftr_spec, !Z.testbit_ones_nonneg by lia.
      replace (i + 4 + 24) with (i + 28) by lia. f_equal. destruct (Z.ltb_spec (i + 4) 8), (Z.ltb_spec i 4); lia || done.
    + change 15 with (Z.ones 4). replace (Z.shiftr (Z.shiftl dest 24) 28) with (Z.shiftr dest 4).
      2:{ replace 28 with (24 + 4) by lia. by rewrite <- Z.shiftr_shiftr, Es by lia. }
      symmetry. apply land_small; [|lia]. rewrite Z.shiftr_div_pow2 by lia. change (2 ^ 4) with 16.
      split; [apply Z.div_pos; lia|apply Z.div_lt_upper_bound; lia].
    + unfold any. do 2 f_equal. change 15 with (Z.ones 4). change 255 with (Z.ones 8). rewrite land_masked by lia.
      apply Z.bits_inj'. intros i Hi. rewrite !Z.land_spec, !Z.testbit_ones_nonneg by lia.
      destruct (Z.ltb_spec i 4); [|by rewrite !andb_false_r]. destruct (Z.ltb_spec i 8); [|lia]. by rewrite !andb_true_r.
  - rewrite Hv. cbn [Z.eqb andb]. unfold any. do 2 f_equal. change 65535 with (Z.ones 16).
    rewrite (land_small dest 16) by lia. rewrite <- Z.land_assoc, (Z.land_comm (Z.ones 16)). by rewrite land_small by lia.
Qed.

Definition addressed (src : option nat) (irq : kvm_lapic_irq) (vs : list kvm_vcpu) : list nat :=
  filter (fun i => targets src irq vs i = true) (seq 0 (length vs)).

Lemma elem_of_addressed src irq vs k : k ∈ addressed src irq vs <-> targets src irq vs k = true.
Proof.
  unfold addressed. rewrite list_elem_of_filter, elem_of_seq. split; [by intros []|]. intros Ht. split; [done|].
  unfold targets in Ht. destruct (vs !! k) eqn:E; [|done]. apply lookup_lt_Some in E. lia.
Qed.

Lemma NoDup_addressed src irq vs : NoDup (addressed src irq vs).
Proof. apply NoDup_filter, NoDup_seq. Qed.

Lemma scan_is_deliver_to b src irq dm : delivery_mode irq <> APIC_DM_LOWEST ->
  deliver_by_scan b src irq dm = deliver_to irq (addressed src irq (vcpus b)) (- 1) (vcpus b) dm.
Proof.
  intros Hm. unfold deliver_by_scan. rewrite (scan_vcpus_to src irq (vcpus b)); [|done|apply NoDup_seq|].
  - fold (addressed src irq (vcpus b)). by destruct (deliver_to _ _ _ _ _) as [[[r vs] dm']|].
  - intros i Hi%elem_of_seq. split; [done|]. apply lookup_lt_is_Some_2. lia.
Qed.

Lemma slots_agree b src irq dst ix dm : delivery_mode irq <> APIC_DM_LOWEST -> NoDup (omap dst ix) ->
  (forall k, k ∈ omap dst ix <-> targets src irq (vcpus b) k = true) ->
  deliver_slots irq dst ix (- 1) (vcpus b) dm = deliver_by_scan b src irq dm.
Proof.
  intros Hm Hnd Hk. rewrite scan_is_deliver_to, deliver_slots_to by done. apply deliver_to_perm; [|done].
  apply NoDup_Permutation; [done|apply NoDup_addressed|]. intros k. by rewrite Hk, elem_of_addressed.
Qed.

Lemma targets_spec irq vs k : shorthand irq = 0 -> targets None irq vs k = true <->
  exists v, vs !! k = Some v /\ kvm_apic_present v = true /\
    (if dest_mode irq =? 0 then kvm_apic_match_physical_addr v (dest_id irq)
     else kvm_apic_match_logical_addr v (dest_id irq)) = true.
Proof.
  intros Hs. unfold targets, kvm_apic_match_dest. rewrite Hs. cbn [Z.eqb APIC_DEST_NOSHORT].
  destruct (vs !! k) as [v|]; [|naive_solver]. rewrite andb_true_iff. naive_solver.
Qed.

Lemma key_match md v dest : in_mode md v -> 0 <= dest < 256 ->
  let ldr := kvm_apic_get_reg (apic v) APIC_LDR in
  let d := decode md (mda_of md dest) in
  ((decode md ldr).2 = 0 \/ exists i, 0 <= i < 16 /\ (decode md ldr).2 = 2 ^ i) ->
  (exists i, i ∈ set_bits d.2 /\ key md v = Some (d.1, i)) <-> kvm_apic_match_logical_addr v dest = true.
Proof.
  intros Hv Hd ldr d Hone. rewrite (match_logical_decode md) by done. unfold key. fold ldr d.
  destruct d as [c' l'], (decode md ldr) as [c l]. cbn [fst snd]. cbn [snd] in Hone. destruct Hone as [->|(i & Hi & ->)].
  - cbn. rewrite andb_false_r. naive_solver.
  - assert (2 ^ i =? 0 = false) as -> by (apply Z.eqb_neq; lia). rewrite ffs_pow2, any_pow2 by lia.
    replace (i + 1 - 1) with i by lia. setoid_rewrite elem_of_set_bits. rewrite andb_true_iff, Z.eqb_eq. naive_solver.
Qed.

(** The table's slots for a physical and for a logical address. *)
Lemma phys_slots_agree md b irq m dm : maps md (vcpus b) m -> shorthand irq = 0 -> dest_mode irq = 0 ->
  delivery_mode irq <> APIC_DM_LOWEST -> 0 <= dest_id irq < 255 ->
  deliver_slots irq (fun i => phys_map m !! (Z.land (dest_id irq) 0xff + i)) (set_bits 1) (- 1) (vcpus b) dm =
  deliver_by_scan b None irq dm.
Proof.
  intros [_ Hph _] Hs Edm Hl Hd. apply slots_agree; [done|..]; change (set_bits 1) with [0].
  - cbn. destruct (phys_map m !! _); repeat constructor. set_solver.
  - intros k. rewrite targets_spec, Edm by done. cbn [Z.eqb].
    rewrite list_elem_of_omap. setoid_rewrite list_elem_of_singleton. unfold kvm_apic_match_physical_addr.
    assert (Eu : u16 (dest_id irq) = dest_id irq) by (apply Z.mod_small; lia). rewrite Eu.
    destruct (Z.eqb_spec (dest_id irq) 255); [lia|]. cbn [orb].
    change 255 with (Z.ones 8). rewrite land_small by lia. setoid_rewrite Z.eqb_eq. split.
    + intros (i & -> & E). rewrite Z.add_0_r in E. by apply Hph in E.
    + intros Hv. exists 0. split; [done|]. rewrite Z.add_0_r. by apply Hph.
Qed.

Lemma logical_slots_agree md b irq m dm : maps md (vcpus b) m -> well_addressed md (vcpus b) -> has_mode md m ->
  shorthand irq = 0 -> dest_mode irq <> 0 -> delivery_mode irq <> APIC_DM_LOWEST -> 0 <= dest_id irq < 255 ->
  let d := decode md (mda_of md (dest_id irq)) in
  deliver_slots irq (fun i => logical_map m !! (d.1, i)) (set_bits d.2) (- 1) (vcpus b) dm =
  deliver_by_scan b None irq dm.
Proof.
  intros [_ _ Hlo] Hwa Hmode Hs Edm Hl Hd d. apply slots_agree; [done|..].
  - apply NoDup_omap_inj; [|apply NoDup_set_bits]. intros i j k Hi Hj. apply Hlo in Hi as (v & Ev & _ & Ki).
    apply Hlo in Hj as (w & Ew & _ & Kj). congruence.
  - intros k. rewrite targets_spec, list_elem_of_omap by done.
    destruct (Z.eqb_spec (dest_mode irq) 0); [done|]. setoid_rewrite Hlo.
    assert (Hkm : forall v, vcpus b !! k = Some v -> kvm_apic_present v = true ->
      (exists i, i ∈ set_bits d.2 /\ key md v = Some (d.1, i)) <-> kvm_apic_match_logical_addr v (dest_id irq) = true).
    { intros v Ev Hp. apply key_match; [by eapply wa_mode|lia|by eapply wa_single]. }
    split.
    + intros (i & Hi & v & Ev & Hp & Hk). exists v. split; [done|]. split; [done|]. apply Hkm; eauto.
    + intros (v & Ev & Hp & Hk). apply Hkm in Hk as (i & Hi & E); eauto 10.
Qed.

Lemma empty_slots_agree b irq (dst : Z -> option nat) ix dm : shorthand irq = 0 -> (forall i, dst i = None) ->
  (forall k v, vcpus b !! k = Some v -> kvm_apic_present v = false) -> delivery_mode irq <> APIC_DM_LOWEST ->
  deliver_slots irq dst ix (- 1) (vcpus b) dm = deliver_by_scan b None irq dm.
Proof.
  intros Hs Hnone Hno Hl. assert (E : omap dst ix = []) by (induction ix; cbn; by rewrite ?Hnone).
  apply slots_agree; [done|rewrite E; constructor|]. intros k. rewrite targets_spec, E by done.
  split; [by intros ?%elem_of_nil|]. intros (v & Ev & Hp & _). by rewrite (Hno _ _ Ev) in Hp.
Qed.

Lemma fast_is_scan md b irq dm m : well_addressed md (vcpus b) -> Forall vcpu_ok (vcpus b) ->
  map_from 0 (vcpus b) empty_map = Ok m -> apic_map b = Some m ->
  shorthand irq = 0 -> delivery_mode irq <> APIC_DM_LOWEST -> 0 <= dest_id irq < 255 ->
  kvm_irq_delivery_to_apic_fast b None irq dm =
  ('(r, vs, dm') ← deliver_by_scan b None irq dm; Ok (Some r, vs, dm')).
Proof.
  intros Hwa Hok Hmf Hm Hs Hl Hd. destruct (map_from_maps md (vcpus b) Hwa Hok) as (m' & Em' & Hmaps).
  rewrite Hmf in Em'. injection Em' as <-. pose proof Hmaps as [Hmode Hph Hlo]. unfold kvm_irq_delivery_to_apic_fast. rewrite Hs, Hm. cbn [Z.eqb negb APIC_DEST_SELF].
  destruct (Z.eqb_spec (delivery_mode irq) APIC_DM_LOWEST); [done|]. destruct (Z.eqb_spec (dest_id irq) 255); [lia|].
  cbn [orb]. destruct (Z.eqb_spec (dest_mode irq) 0) as [Edm|Edm]; [by rewrite (phys_slots_agree md)|].
  destruct Hmode as [Hmode|[Hflat Hno]].
  - assert (Emda : u32 (Z.shiftl (dest_id irq) (32 - ldr_bits m)) = mda_of md (dest_id irq)).
    { destruct md; injection Hmode as -> _ _ _; cbn [mda_of Z.sub Z.opp Z.add Z.pos_sub]; rewrite ?Z.shiftl_0_r;
        apply Z.mod_small; rewrite ?Z.shiftl_mul_pow2 by lia; change (2 ^ 24) with 16777216;
        change (2 ^ 32) with 4294967296; lia. }
    rewrite Emda. destruct (decode_map md m (mda_of md (dest_id irq)) Hmode) as [-> ->].
    { rewrite <- Emda. apply Z.mod_pos_bound. lia. }
    cbn [mbind res_bind]. by rewrite (logical_slots_agree md).
  - destruct (cluster_id_ok m (u32 (Z.shiftl (dest_id irq) (32 - ldr_bits m)))) as (cid & -> & _);
      [injection Hflat as _ _ -> _; lia|]. cbn [mbind res_bind]. rewrite empty_slots_agree; [done|done| |done|done].
    intros i. destruct (logical_map m !! (cid, i)) eqn:E; [|done]. apply Hlo in E as (v & Ev & Hp & _).
    by rewrite (Hno _ _ Ev) in Hp.
Qed.

(** C39: When the guest keeps to one addressing mode with distinct one-bit
    logical identifiers and distinct physical ones, a message that is not
    lowest-priority, without shorthand and with a destination of at most 254
    has by the table exactly the effect it has by a scan of all processors:
    the same result, the same processors and the same set of marked ones.
    The table is the one the recalculation builds.  255 is the broadcast; with
    a larger destination the two differ ([x2apic_scan_misses]), as the scan
    compares only the low byte. *)
Theorem delivery_paths_agree md b irq dm m : well_addressed md (vcpus b) -> Forall vcpu_ok (vcpus b) ->
  map_from 0 (vcpus b) empty_map = Ok m -> apic_map b = Some m ->
  shorthand irq = 0 -> delivery_mode irq <> APIC_DM_LOWEST -> 0 <= dest_id irq < 255 ->
  kvm_irq_delivery_to_apic_fast b None irq dm =
  ('(r, vs, dm') ← deliver_by_scan b None irq dm; Ok (Some r, vs, dm')).
Proof. apply fast_is_scan. Qed.

(** What a list of processors gets, exactly. *)
Definition accepts (irq : kvm_lapic_irq) (vs : list kvm_vcpu) (k : nat) : bool :=
  match vs !! k with Some v => (outcome irq v).1.1 =? 1 | None => false end.

Lemma filter_ext_elem {A} (P Q : A -> Prop) `{!forall x, Decision (P x), !forall x, Decision (Q x)} (l : list A) :
  (forall x, x ∈ l -> P x <-> Q x) -> filter P l = filter Q l.
Proof.
  induction l as [|x l IH]; intros Hl; [done|]. rewrite !filter_cons, IH by (intros y Hy; apply Hl; by right).
  apply decide_ext, Hl. by left.
Qed.

Lemma outcome_result irq v : (outcome irq v).1.1 = Z.b2z ((outcome irq v).1.1 =? 1).
Proof.
  pose proof (accept_result v (delivery_mode irq) (vector irq) (level irq) (trig_mode irq)) as [H _].
  fold (outcome irq v) in H. destruct (Z.eqb_spec (outcome irq v).1.1 1); cbn; lia.
Qed.

Lemma deliver_to_exact irq ks : forall r vs dm, NoDup ks -> (forall k, k ∈ ks -> (k < length vs)%nat) -> - 1 <= r ->
  exists vs' dm', deliver_to irq ks r vs dm =
    Ok (match ks with [] => r | _ => Z.max 0 r + Z.of_nat (length (filter (fun k => accepts irq vs k = true) ks)) end, vs', dm') /\
    forall k, vs' !! k = if decide (k ∈ ks) then (fun v => (outcome irq v).2) <$> vs !! k else vs !! k.
Proof.
  induction ks as [|k ks IH]; intros r vs dm Hnd Hk Hr; cbn [deliver_to].
  { do 2 eexists. split; [done|]. intros k. by rewrite decide_False by apply not_elem_of_nil. }
  apply NoDup_cons in Hnd as [Hni Hnd].
  destruct (lookup_lt_is_Some_2 vs k) as [v Hv]; [apply Hk; by left|].
  rewrite (set_irq_eq _ _ _ _ v) by done. cbn [mbind res_bind]. rewrite outcome_result.
  set (vs1 := <[k := (outcome irq v).2]> vs).
  assert (Hacc : filter (fun j => accepts irq vs1 j = true) ks = filter (fun j => accepts irq vs j = true) ks).
  { apply filter_ext_elem. intros j Hj. unfold accepts, vs1. by rewrite list_lookup_insert_ne by (intros ->; done). }
  destruct (IH ((if r <? 0 then 0 else r) + Z.b2z ((outcome irq v).1.1 =? 1)) vs1 (marked irq v ∪ dm) Hnd)
    as (vs' & dm' & -> & Hvs').
  { intros j Hj. unfold vs1. rewrite length_insert. apply Hk. by right. }
  { destruct (_ =? 1), (Z.ltb_spec r 0); cbn; lia. }
  exists vs', dm'. split.
  - do 3 f_equal. rewrite Hacc, filter_cons.
    assert (Ha : accepts irq vs k = ((outcome irq v).1.1 =? 1)) by (unfold accepts; by rewrite Hv).
    destruct ((outcome irq v).1.1 =? 1); [rewrite decide_True by done|rewrite decide_False by (by rewrite Ha)];
      destruct ks, (Z.ltb_spec r 0); cbn [length Z.b2z filter list_filter]; lia.
  - intros j. rewrite Hvs'. unfold vs1. destruct (decide (j = k)) as [->|Hne].
    + rewrite decide_False by done. rewrite decide_True by (by left). rewrite Hv.
      by rewrite list_lookup_insert_eq by (by eapply lookup_lt_Some).
    + rewrite list_lookup_insert_ne by done. by rewrite (decide_ext (j ∈ ks) (j ∈ k :: ks)) by (rewrite elem_of_cons; naive_solver).
Qed.

(** Two processors with flat identifiers 1 and 2. *)
Definition flat_vcpu (id : Z) : kvm_vcpu :=
  on_apic (fun a => apic_set_reg (apic_set_reg a APIC_LDR (Z.shiftl 1 (24 + id))) APIC_DFR APIC_DFR_FLAT)
    (enabled_vcpu id).
Definition two_vcpus : list kvm_vcpu := [flat_vcpu 0; flat_vcpu 1].

Lemma flat_vcpu_ok id : 0 <= id < 8 -> vcpu_ok (flat_vcpu id).
Proof.
  intros Hid. apply lapic_ok_set_plain; [apply lapic_ok_set_plain|..]; [apply enabled_vcpu_ok; lia|..];
    try (by left || done). unfold word_ok. rewrite Z.shiftl_1_l. split; [lia|]. apply Z.pow_lt_mono_r; lia.
Qed.

Lemma two_vcpus_ok : Forall vcpu_ok two_vcpus.
Proof. apply Forall_cons; split; [|apply Forall_cons; split; [|constructor]]; apply flat_vcpu_ok; lia. Qed.

Lemma two_vcpus_addressed : well_addressed Flat two_vcpus.
Proof.
  split.
  - intros [|[|k]] v [= <-] _; vm_compute; done.
  - intros [|[|j]] [|[|k]] v w [= <-] [= <-] _ _; vm_compute; done.
  - intros [|[|j]] [|[|k]] v w x [= <-] [= <-] _ _; vm_compute; congruence.
  - intros [|[|k]] v [= <-] _; right; [exists 0|exists 1]; vm_compute; done.
Qed.

Lemma delivery_paths_agree_witness :
  exists m, map_from 0 two_vcpus empty_map = Ok m /\
  let b := Bus two_vcpus (Some m) [] in
  let irq := LapicIrq 0x41 APIC_DM_FIXED 0x800 1 0 0 3 in
  kvm_irq_delivery_to_apic_fast b None irq ∅ =
  ('(r, vs, dm') ← deliver_by_scan b None irq ∅; Ok (Some r, vs, dm')).
Proof.
  destruct (map_from_maps Flat two_vcpus two_vcpus_addressed two_vcpus_ok) as (m & E & _).
  exists m. split; [exact E|].
  apply (delivery_paths_agree Flat (Bus two_vcpus (Some m) []) (LapicIrq 0x41 APIC_DM_FIXED 0x800 1 0 0 3) ∅ m
           two_vcpus_addressed two_vcpus_ok E eq_refl eq_refl); cbn; [discriminate|lia].
Defined.

(** ** Changes of the identifiers *)

(** What the table is built from. *)
Record same_addr (v v' : kvm_vcpu) : Prop := {
  sa_base : apic_base v' = apic_base v;
  sa_regs : forall r, r ∈ [APIC_ID; APIC_LDR; APIC_DFR; APIC_SPIV] ->
    kvm_apic_get_reg (apic v') r = kvm_apic_get_reg (apic v) r
}.

Lemma add_to_map_same i v v' m : same_addr v v' -> add_to_map i v' m = add_to_map i v m.
Proof.
  intros [Hb Hr]. unfold add_to_map, map_mode, kvm_apic_present, kvm_apic_hw_enabled, apic_x2apic_mode,
    kvm_apic_sw_enabled, kvm_apic_id. by rewrite Hb, !Hr by set_solver.
Qed.

Lemma map_from_same vs vs' : Forall2 same_addr vs vs' -> forall i m, map_from i vs' m = map_from i vs m.
Proof.
  induction 1 as [|v v' vs vs' Hv _ IH]; intros i m; [done|]. cbn [map_from]. rewrite (add_to_map_same i v v') by done.
  destruct (add_to_map i v m); [|done]. apply IH.
Qed.

Lemma irq_step_addr v v' : irq_step v v' -> same_addr v v'.
Proof.
  intros H. split; [apply H|]. intros r Hr. apply H. unfold plain_reg.
  repeat (apply elem_of_cons in Hr as [->|Hr]; [vm_compute; by left|]). by apply elem_of_nil in Hr.
Qed.

Lemma map_wf_le m n n' : map_wf m n -> (n <= n')%nat -> map_wf m n'.
Proof. intros [H1 H2 H3] Hn. split; [done|..]; intros x k E; [apply H2 in E|apply H3 in E]; lia. Qed.

Lemma add_to_map_wf i v m n : map_wf m n -> (i < n)%nat -> exists m', add_to_map i v m = Ok m' /\ map_wf m' n.
Proof.
  intros Hm Hi. unfold add_to_map. destruct (negb _); [by eauto|].
  assert (Hm' : map_wf (map_mode v m) n).
  { destruct Hm as [H1 H2 H3]. unfold map_mode. repeat case_match; split; cbn; try done; lia. }
  destruct Hm' as [Hc Hp Hl].
  destruct (cluster_id_ok (map_mode v m) (kvm_apic_get_reg (apic v) APIC_LDR) Hc) as (cid & -> & _).
  cbn [mbind res_bind]. eexists. split; [done|]. split; cbn; [done|..].
  - intros x k. rewrite lookup_insert_Some. intros [[_ <-]|[_ E]]; [done|by eapply Hp].
  - intros x k. destruct (_ =? 0); [by apply Hl|]. rewrite lookup_insert_Some. intros [[_ <-]|[_ E]]; [done|by eapply Hl].
Qed.

Lemma map_from_wf vs n : forall i m, map_wf m n -> (i + length vs <= n)%nat ->
  exists m', map_from i vs m = Ok m' /\ map_wf m' n.
Proof.
  induction vs as [|v vs IH]; intros i m Hm Hn; cbn [map_from]; [by eauto|]. cbn [length] in Hn.
  destruct (add_to_map_wf i v m n Hm ltac:(lia)) as (m1 & -> & Hm1). cbn [mbind res_bind]. apply IH; [done|lia].
Qed.

Lemma empty_map_wf n : map_wf empty_map n.
Proof. split; cbn; [lia|..]; intros x k; by rewrite lookup_empty. Qed.

(** The table is the one the processors' present identifiers give. *)
Definition fresh_map (b : bus) : Prop :=
  forall m, apic_map b = Some m -> map_from 0 (vcpus b) empty_map = Ok m.

Lemma scan_same vs : Forall2 same_addr vs (with_scan true <$> vs).
Proof. induction vs; constructor; [by split|done]. Qed.

(** A list of processors with other flags only. *)
Lemma scan_ids (vs : list kvm_vcpu) : vcpu_id <$> (with_scan true <$> vs) = vcpu_id <$> vs.
Proof. rewrite <- list_fmap_compose. by apply list_fmap_ext. Qed.

Lemma scan_ok (vs : list kvm_vcpu) : Forall vcpu_ok vs -> Forall vcpu_ok (with_scan true <$> vs).
Proof. intros H. apply Forall_fmap. eapply Forall_impl; [exact H|]. done. Qed.

(** A recalculation succeeds, and but for a failed allocation the table is
    fresh after it. *)
Lemma recalculate_any b : exists b', recalculate_apic_map b = Ok b' /\ vcpus b' = with_scan true <$> vcpus b /\
  fresh_map b' /\ forall m, apic_map b' = Some m -> map_wf m (length (vcpus b)).
Proof.
  unfold recalculate_apic_map.
  set (p := match allocs b with [] => (true, []) | ok :: rest => (ok, rest) end). destruct p as [ok rest].
  destruct (map_from_wf (vcpus b) (length (vcpus b)) 0 empty_map (empty_map_wf _) ltac:(lia)) as (m & E & Hm).
  assert (Ho : exists om, (if ok then m ← map_from 0 (vcpus b) empty_map; Ok (Some m) else Ok None) = Ok om /\
             (om = None \/ om = Some m)).
  { destruct ok; [rewrite E; cbn [mbind res_bind]|]; eauto. }
  destruct Ho as (om & -> & Hom). cbn [mbind res_bind]. eexists. split; [done|]. split; [done|]. split.
  - intros m'. cbn. rewrite (map_from_same (vcpus b)) by apply scan_same. destruct Hom as [->| ->]; by intros [= <-].
  - destruct Hom as [->| ->]; by intros ? [= <-].
Qed.

Lemma recalculate_ok b : Forall vcpu_ok (vcpus b) -> NoDup (vcpu_id <$> vcpus b) ->
  exists b', recalculate_apic_map b = Ok b' /\ bus_ok b' /\ fresh_map b' /\ vcpus b' = with_scan true <$> vcpus b.
Proof.
  intros Hok Hid. destruct (recalculate_any b) as (b' & -> & Ev & Hf & Hm). exists b'. split; [done|].
  split; [|done]. split; rewrite ?Ev, ?length_fmap; [by apply scan_ok|by rewrite scan_ids|done].
Qed.

Lemma message_exact md b irq dm : bus_ok b -> well_addressed md (vcpus b) -> fresh_map b ->
  shorthand irq = 0 -> delivery_mode irq <> APIC_DM_LOWEST -> 0 <= dest_id irq < 255 ->
  let ks := addressed None irq (vcpus b) in
  exists vs' dm', kvm_irq_delivery_to_apic b None irq dm =
    Ok (match ks with [] => - 1 | _ => Z.of_nat (length (filter (fun k => accepts irq (vcpus b) k = true) ks)) end,
        with_vcpus vs' b, dm') /\
    forall k, vs' !! k = if targets None irq (vcpus b) k then (fun v => (outcome irq v).2) <$> vcpus b !! k
                         else vcpus b !! k.
Proof.
  intros Hb Hwa Hf Hs Hl Hd ks.
  destruct (deliver_to_exact irq ks (- 1) (vcpus b) dm (NoDup_addressed _ _ _)) as (vs' & dm' & E & Hvs); [|lia|].
  { intros k Hk%elem_of_addressed. unfold targets in Hk. destruct (vcpus b !! k) eqn:Ek; [|done]. by eapply lookup_lt_Some. }
  assert (Escan : deliver_by_scan b None irq dm = Ok (match ks with [] => - 1 | _ =>
            Z.of_nat (length (filter (fun k => accepts irq (vcpus b) k = true) ks)) end, vs', dm')).
  { rewrite scan_is_deliver_to by done. fold ks. rewrite E. by destruct ks. }
  exists vs', dm'. split.
  - unfold kvm_irq_delivery_to_apic. apply Z.eqb_neq in Hl as El. rewrite El, andb_false_r.
    assert (Hfast : kvm_irq_delivery_to_apic_fast b None irq dm =
        ('(r, vs, dm') ← deliver_by_scan b None irq dm; Ok (Some r, vs, dm')) \/
        kvm_irq_delivery_to_apic_fast b None irq dm = Ok (None, vcpus b, dm)).
    { destruct (apic_map b) as [m|] eqn:Em; [left|right].
      - by apply (fast_is_scan md b irq dm m); [done|apply Hb|apply Hf|..].
      - unfold kvm_irq_delivery_to_apic_fast. by rewrite Hs, Em. }
    destruct Hfast as [-> | ->]; by rewrite ?Escan.
  - intros k. rewrite Hvs. destruct (targets None irq (vcpus b) k) eqn:Et.
    + by rewrite decide_True by (by apply elem_of_addressed).
    + rewrite decide_False; [done|]. unfold ks. by rewrite elem_of_addressed, Et.
Qed.

(** C26: When the guest keeps to one addressing mode with distinct one-bit
    logical identifiers and distinct physical ones, and the table, if there
    is one, is the one these identifiers give, a message that is not
    lowest-priority, without shorthand and with a destination of at most 254
    reaches exactly the processors it addresses, by the table or without one:
    each of them changes as its APIC accepts the message, every other one
    stays as it is, and the result counts those that accepted, or is -1 when
    nothing was addressed. *)
Theorem delivery_exact md b irq dm : bus_ok b -> well_addressed md (vcpus b) -> fresh_map b ->
  shorthand irq = 0 -> delivery_mode irq <> APIC_DM_LOWEST -> 0 <= dest_id irq < 255 ->
  let ks := addressed None irq (vcpus b) in
  exists vs' dm', kvm_irq_delivery_to_apic b None irq dm =
    Ok (match ks with [] => - 1 | _ => Z.of_nat (length (filter (fun k => accepts irq (vcpus b) k = true) ks)) end,
        with_vcpus vs' b, dm') /\
    forall k, vs' !! k = if targets None irq (vcpus b) k then (fun v => (outcome irq v).2) <$> vcpus b !! k
                         else vcpus b !! k.
Proof. apply message_exact. Qed.

Definition two_vcpu_bus : bus := Bus two_vcpus None [].

Lemma two_vcpu_bus_ok : bus_ok two_vcpu_bus.
Proof. split; [apply two_vcpus_ok| |done]. vm_compute. apply (bool_decide_unpack (NoDup [0; 1])). vm_compute. exact I. Qed.

Lemma delivery_exact_witness :
  let irq := LapicIrq 0x41 APIC_DM_FIXED 0x800 1 0 0 3 in
  exists vs' dm', kvm_irq_delivery_to_apic two_vcpu_bus None irq ∅ = Ok (2, with_vcpus vs' two_vcpu_bus, dm').
Proof.
  intros irq. destruct (delivery_exact Flat two_vcpu_bus irq ∅ two_vcpu_bus_ok two_vcpus_addressed) as (vs' & dm' & E & _);
    [intros m; discriminate|reflexivity|discriminate|cbn; lia|].
  exists vs', dm'. rewrite E. f_equal.
Defined.

(** ** Operations on the bus keep it consistent *)

(** An operation that always completes on a consistent bus of [n]
    processors, keeps it consistent and keeps the processors. *)
Definition bus_op (n : nat) (f : bus -> res bus) : Prop :=
  forall b, bus_ok b -> length (vcpus b) = n ->
    exists b', f b = Ok b' /\ bus_ok b' /\ vcpu_id <$> vcpus b' = vcpu_id <$> vcpus b.

Lemma ids_length (b b' : bus) : vcpu_id <$> vcpus b' = vcpu_id <$> vcpus b -> length (vcpus b') = length (vcpus b).
Proof. intros E. by rewrite <- (length_fmap vcpu_id (vcpus b')), E, length_fmap. Qed.

Lemma bus_op_bind n f g : bus_op n f -> bus_op n g -> bus_op n (fun b => b ← f b; g b).
Proof.
  intros Hf Hg b Hb Hn. destruct (Hf b Hb Hn) as (b1 & -> & Hb1 & E1). cbn [mbind res_bind].
  destruct (Hg b1 Hb1) as (b2 & -> & Hb2 & E2); [by rewrite (ids_length b)|]. eexists. split; [done|].
  split; [done|]. by rewrite E2.
Qed.

Lemma bus_op_ret n : bus_op n (fun b => Ok b).
Proof. intros b Hb _. eauto. Qed.

Lemma bus_op_if n (c : bool) f g : bus_op n f -> bus_op n g -> bus_op n (fun b => if c then f b else g b).
Proof. intros Hf Hg. by destruct c. Qed.

Lemma bus_op_read n i (k : kvm_vcpu -> bus -> res bus) : (i < n)%nat ->
  (forall v, bus_op n (k v)) -> bus_op n (fun b => v ← vcpu_at (vcpus b) i; k v b).
Proof.
  intros Hi Hk b Hb Hn. unfold vcpu_at. destruct (lookup_lt_is_Some_2 (vcpus b) i) as [v ->]; [lia|].
  cbn [mbind res_bind]. by apply Hk.
Qed.

(** A change of one processor that keeps it consistent. *)
Definition vcpu_op (f : kvm_vcpu -> kvm_vcpu) : Prop :=
  forall v, vcpu_ok v -> vcpu_ok (f v) /\ vcpu_id (f v) = vcpu_id v.

Lemma insert_ids (vs : list kvm_vcpu) i v v' : vs !! i = Some v -> vcpu_id v' = vcpu_id v ->
  vcpu_id <$> <[i := v']> vs = vcpu_id <$> vs.
Proof. intros Hi E. rewrite list_fmap_insert, E. apply list_insert_id. by rewrite list_lookup_fmap, Hi. Qed.

Lemma bus_op_vcpu n i f : (i < n)%nat -> vcpu_op f -> bus_op n (on_vcpu i f).
Proof.
  intros Hi Hf b [Hv Hid Hm] Hn. unfold on_vcpu, vcpu_at.
  destruct (lookup_lt_is_Some_2 (vcpus b) i) as [v E]; [lia|]. rewrite E. cbn [mbind res_bind].
  destruct (Hf v) as [Hok Hvid]; [by eapply Forall_lookup_1|].
  assert (Ei : vcpu_id <$> <[i := f v]> (vcpus b) = vcpu_id <$> vcpus b) by (by eapply insert_ids).
  eexists. split; [done|]. split; [|done]. split; cbn.
  - by apply Forall_insert.
  - by rewrite Ei.
  - by rewrite length_insert.
Qed.

Lemma bus_op_recalculate n : bus_op n recalculate_apic_map.
Proof.
  intros b [Hv Hid _] _. destruct (recalculate_ok b Hv Hid) as (b' & -> & Hb' & _ & E). eexists. split; [done|].
  split; [done|]. by rewrite E, scan_ids.
Qed.

Lemma vcpu_op_apic f : (forall a, lapic_ok a -> lapic_ok (f a)) -> vcpu_op (on_apic f).
Proof. intros Hf v Hv. split; [by apply Hf|done]. Qed.

Lemma vcpu_op_comp f g : vcpu_op f -> vcpu_op g -> vcpu_op (fun v => g (f v)).
Proof. intros Hf Hg v Hv. destruct (Hf v Hv) as [Hv1 E1], (Hg _ Hv1) as [Hv2 E2]. split; [done|]. by rewrite E2. Qed.

(** Changes outside the APIC. *)
Lemma vcpu_op_other f : (forall v, apic (f v) = apic v) -> (forall v, vcpu_id (f v) = vcpu_id v) -> vcpu_op f.
Proof. intros Ha Hi v Hv. split; [|done]. unfold vcpu_ok. by rewrite Ha. Qed.

Lemma vcpu_op_ppr : vcpu_op apic_update_ppr.
Proof. intros v Hv. split; [by apply apic_update_ppr_ok|]. apply apic_update_ppr_same. Qed.

Lemma lapic_ok_timer a t : lapic_ok a -> lapic_ok (with_timer t a).
Proof. intros Ha. by apply (lapic_ok_same_regs a). Qed.

Create HintDb bus.
#[export] Hint Resolve bus_op_bind bus_op_ret bus_op_if bus_op_read bus_op_vcpu bus_op_recalculate
  vcpu_op_ppr lapic_ok_timer : bus.

Lemma shiftl24_word id : word_ok (Z.shiftl (u8 id) 24).
Proof.
  unfold word_ok, u8. pose proof (Z.mod_pos_bound id (2 ^ 8) ltac:(lia)) as H. rewrite Z.shiftl_mul_pow2 by lia.
  change (2 ^ 24) with 16777216. change (2 ^ 32) with 4294967296. change (2 ^ 8) with 256 in *. lia.
Qed.

Lemma bus_op_set_reg n i r x : (i < n)%nat -> plain_reg r -> word_ok x ->
  bus_op n (on_vcpu i (on_apic (fun a => apic_set_reg a r x))).
Proof. intros Hi Hr Hx. apply bus_op_vcpu; [done|]. apply vcpu_op_apic. intros a Ha. by apply lapic_ok_set_plain. Qed.

Lemma bus_op_set_id n i id : (i < n)%nat -> bus_op n (kvm_apic_set_id i id).
Proof. intros Hi. apply bus_op_bind; [apply bus_op_set_reg; [done|by left|apply shiftl24_word]|apply bus_op_recalculate]. Qed.

Lemma bus_op_set_ldr n i x : (i < n)%nat -> word_ok x -> bus_op n (kvm_apic_set_ldr i x).
Proof. intros Hi Hx. apply bus_op_bind; [apply bus_op_set_reg; [done|by left|done]|apply bus_op_recalculate]. Qed.

Lemma x2apic_ldr_word a : let id := kvm_apic_id a in
  word_ok (Z.lor (Z.shiftl (Z.shiftr id 4) 16) (Z.shiftl 1 (Z.land id 0xf))).
Proof.
  intros id. assert (Hid : 0 <= id < 256).
  { unfold id, kvm_apic_id. change 0xff with (Z.ones 8). rewrite Z.land_ones by lia. apply (Z.mod_pos_bound _ 256). lia. }
  clearbody id. assert (Hd : 0 <= Z.shiftr id 4 < 2 ^ 4).
  { rewrite Z.shiftr_div_pow2 by lia. change (2 ^ 4) with 16. split; [apply Z.div_pos; lia|apply Z.div_lt_upper_bound; lia]. }
  assert (Hl : 0 <= Z.land id 0xf < 16) by (change 0xf with (Z.ones 4); rewrite Z.land_ones by lia; apply (Z.mod_pos_bound _ 16); lia).
  change (Z.lor ?a (Z.shiftl 1 ?i)) with (Z.setbit a i). apply setbit_word; [|lia]. unfold word_ok.
  rewrite Z.shiftl_mul_pow2 by lia. change (2 ^ 16) with 65536. change (2 ^ 32) with 4294967296. change (2 ^ 4) with 16 in *. lia.
Qed.

Lemma bus_op_set_base n i value : (i < n)%nat -> bus_op n (kvm_lapic_set_base i value).
Proof.
  intros Hi. unfold kvm_lapic_set_base. apply bus_op_read; [done|]. intros v. cbv zeta.
  apply bus_op_bind; [by apply bus_op_vcpu, vcpu_op_other|].
  apply bus_op_bind; [by apply bus_op_if; [apply bus_op_recalculate|apply bus_op_ret]|].
  apply bus_op_bind; [apply bus_op_if; [|apply bus_op_ret]; apply bus_op_set_ldr; [done|apply x2apic_ldr_word]|].
  apply bus_op_vcpu; [done|]. apply vcpu_op_apic. intros a Ha. by apply (lapic_ok_same_regs a).
Qed.

(** *** Reset *)

Lemma set_regs_get rs c : forall a r, kvm_apic_get_reg (set_regs rs (fun _ => c) a) r =
  if decide (r ∈ rs) then c else kvm_apic_get_reg a r.
Proof.
  induction rs as [|x rs IH]; intros a r; [by rewrite decide_False by apply not_elem_of_nil|].
  change (set_regs (x :: rs) (fun _ => c) a) with (set_regs rs (fun _ => c) (apic_set_reg a x c)).
  rewrite IH, get_set_reg. destruct (decide (r ∈ rs)).
  - by rewrite decide_True by (by right).
  - destruct (decide (x = r)) as [->|]; [by rewrite decide_True by (by left)|].
    by rewrite decide_False by (by rewrite not_elem_of_cons).
Qed.

Lemma set_regs_plain rs f : Forall plain_reg rs -> (forall x, word_ok x -> word_ok (f x)) -> forall a,
  lapic_ok a -> lapic_ok (set_regs rs f a).
Proof.
  intros Hrs Hf. induction Hrs as [|r rs Hr _ IH]; intros a Ha; [done|].
  change (set_regs (r :: rs) f a) with (set_regs rs f (apic_set_reg a r (f (kvm_apic_get_reg a r)))).
  apply IH, lapic_ok_set_plain; [done|done|]. apply Hf, reg_word, Ha.
Qed.

Lemma set_regs_words rs c : word_ok c -> forall a, regs_ok a -> regs_ok (set_regs rs (fun _ => c) a).
Proof. intros Hc. induction rs as [|r rs IH]; intros a Ha; [done|]. by apply IH, regs_ok_set. Qed.

Lemma lvt_regs_plain : Forall plain_reg lvt_regs.
Proof. unfold plain_reg. repeat (apply Forall_cons; split; [right; vm_compute; discriminate|]). constructor. Qed.

Lemma version_word x2apic : word_ok (if x2apic : bool then Z.lor APIC_VERSION APIC_LVR_DIRECTED_EOI else APIC_VERSION).
Proof. unfold word_ok. destruct x2apic; vm_compute; split; congruence. Qed.

Lemma reset_modes_ok x2apic a : lapic_ok a -> lapic_ok (reset_modes x2apic a).
Proof.
  intros Ha. unfold reset_modes, kvm_apic_set_version, apic_set_spiv.
  do 4 (apply lapic_ok_set_plain; [|first [by left | by right]|done]).
  apply set_regs_plain; [apply lvt_regs_plain|by intros|].
  apply lapic_ok_set_plain; [done|by left|apply version_word].
Qed.

Lemma vector_regs_elem b w : is_bitmap b -> is_vector w -> b + REG_POS w ∈ vector_regs.
Proof.
  intros Hb Hw. unfold vector_regs. apply list_elem_of_bind. exists (w / 32). pose proof (vec_div w Hw).
  split; [|apply elem_of_seqZ; lia]. rewrite REG_POS_eq by done. change 0x10 with 16.
  destruct Hb as [->|[->| ->]]; set_solver.
Qed.

(** After a reset no vector is requested or in service. *)
Lemma reset_vectors_ok a : regs_ok a -> lapic_ok (reset_vectors a) /\
  forall w b, is_bitmap b -> is_vector w -> apic_test_vector (reset_vectors a) w b = false.
Proof.
  intros Ha. assert (Ht : forall w b, is_bitmap b -> is_vector w -> apic_test_vector (reset_vectors a) w b = false).
  { intros w b Hb Hw. unfold apic_test_vector.
    change (kvm_apic_get_reg (reset_vectors a) ?r) with (kvm_apic_get_reg
      (set_regs ([APIC_ESR; APIC_ICR; APIC_ICR2; APIC_TDCR; APIC_TMICT] ++ vector_regs) (fun _ => 0) a) r).
    rewrite set_regs_get, decide_True; [apply Z.testbit_0_l|]. apply elem_of_app. right. by apply vector_regs_elem. }
  split; [|done]. split.
  - by apply set_regs_words.
  - intros _ v Hv. apply Ht; auto with apic.
  - symmetry. change (isr_count (reset_vectors a)) with 0.
    apply Z.le_antisymm; [|apply nvec_range]. apply Z.eq_le_incl.
    apply (nvec_zero (reset_vectors a) APIC_ISR 256). intros v Hv. apply Ht; auto with apic.
  - by left.
Qed.

Lemma bus_op_reset n x2apic i : (i < n)%nat -> bus_op n (kvm_lapic_reset x2apic i).
Proof.
  intros Hi. unfold kvm_lapic_reset. apply bus_op_read; [done|]. intros v.
  apply bus_op_bind; [apply bus_op_vcpu, vcpu_op_apic; [done|]; intros a Ha; by apply lapic_ok_timer|].
  apply bus_op_bind; [by apply bus_op_set_id|].
  apply bus_op_bind; [apply bus_op_vcpu, vcpu_op_apic; [done|]; apply reset_modes_ok|].
  apply bus_op_bind; [by apply bus_op_set_ldr|].
  apply bus_op_bind; [apply bus_op_vcpu, vcpu_op_apic; [done|]; intros a Ha; apply reset_vectors_ok, Ha|].
  apply bus_op_bind; [apply bus_op_if; [by apply bus_op_set_base|apply bus_op_ret]|].
  apply bus_op_vcpu; [done|]. apply (vcpu_op_comp _ (with_arb_prio 0)); [apply vcpu_op_ppr|by apply vcpu_op_other].
Qed.

Lemma bus_op_accept_events n x2apic code i : (i < n)%nat -> bus_op n (kvm_apic_accept_events x2apic code i).
Proof.
  intros Hi. unfold kvm_apic_accept_events. apply bus_op_read; [done|]. intros v. cbv zeta.
  apply bus_op_if; [apply bus_op_ret|].
  apply bus_op_bind; [apply bus_op_vcpu, vcpu_op_apic; [done|]; intros a Ha; by apply (lapic_ok_same_regs a)|].
  apply bus_op_bind.
  - apply bus_op_if; [|apply bus_op_ret]. apply bus_op_bind; [by apply bus_op_reset|].
    apply bus_op_vcpu, vcpu_op_other; [done|..]; intros w; by destruct code as [[? ?] ?].
  - apply bus_op_read; [done|]. intros w. apply bus_op_if; [|apply bus_op_ret]. by apply bus_op_vcpu, vcpu_op_other.
Qed.

Lemma bus_op_send_ipi n i : (i < n)%nat -> bus_op n (apic_send_ipi i).
Proof.
  intros Hi b Hb Hn. unfold apic_send_ipi, vcpu_at. destruct (lookup_lt_is_Some_2 (vcpus b) i) as [v E]; [lia|].
  rewrite E. cbn [mbind res_bind].
  destruct (delivery_ok b (Some i) (ipi_of v) ∅ Hb) as (r & vs' & dm' & -> & H).
  { apply vector_mask_range. } { intros _. exists i. split; [done|lia]. }
  cbn [mbind res_bind]. eexists. split; [done|]. split; [by apply bus_ok_step, H|].
  apply bus_step_ids, H.
Qed.

Lemma create_lapic_ok x2apic id bsp b : bus_ok b -> id ∉ vcpu_id <$> vcpus b ->
  exists b', kvm_create_lapic x2apic id bsp b = Ok b' /\ bus_ok b' /\ vcpu_id <$> vcpus b' = (vcpu_id <$> vcpus b) ++ [id].
Proof.
  intros Hb Hid. unfold kvm_create_lapic.
  destruct (bus_op_recalculate _ b Hb eq_refl) as (b1 & -> & Hb1 & E1). cbn [mbind res_bind].
  destruct (bus_op_recalculate _ b1 Hb1 eq_refl) as (b2 & -> & [Hv2 Hi2 Hm2] & E2). cbn [mbind res_bind].
  match goal with |- context [apic_update_ppr ?x] => set (v := x) end.
  assert (Hv : vcpu_ok v).
  { apply reset_vectors_ok, regs_ok_set; [|done]. unfold reset_modes, kvm_apic_set_version, apic_set_spiv.
    do 4 (apply regs_ok_set; [|done]). apply set_regs_words; [done|]. apply regs_ok_set; [|apply version_word].
    apply regs_ok_set; [apply map_Forall_empty|apply shiftl24_word]. }
  destruct (vcpu_op_ppr v Hv) as [Hv' Hid']. eexists. split; [done|]. rewrite E1 in E2. split; [split; cbn|].
  - apply Forall_app. split; [done|]. by apply Forall_singleton.
  - rewrite fmap_app, E2. apply NoDup_app. split; [by rewrite <- E2|]. cbn. rewrite Hid'. cbn. split; [|apply NoDup_singleton].
    intros x Hx ->%list_elem_of_singleton. by apply Hid.
  - intros m Hm. rewrite length_app. eapply map_wf_le; [by apply Hm2|lia].
  - cbn. rewrite fmap_app, E2. cbn. by rewrite Hid'.
Qed.

(** *** Starting a processor *)

(** What an operation keeps of every processor. *)
Definition bus_keeps {X} (g : kvm_vcpu -> X) (f : bus -> res bus) : Prop :=
  forall b b', f b = Ok b' -> g <$> vcpus b' = g <$> vcpus b.

Section keeps.
  Context {X : Type} (g : kvm_vcpu -> X).

Lemma keeps_bind f1 f2 : bus_keeps g f1 -> bus_keeps g f2 -> bus_keeps g (fun b => b ← f1 b; f2 b).
Proof. intros H1 H2 b b'. destruct (f1 b) as [b1|] eqn:E1; [|done]. intros E2. by rewrite (H2 _ _ E2), (H1 _ _ E1). Qed.

Lemma keeps_ret : bus_keeps g (fun b => Ok b).
Proof. by intros b b' [= ->]. Qed.

Lemma keeps_if (c : bool) f1 f2 : bus_keeps g f1 -> bus_keeps g f2 -> bus_keeps g (fun b => if c then f1 b else f2 b).
Proof. by destruct c. Qed.

Lemma keeps_read i k : (forall v, bus_keeps g (k v)) -> bus_keeps g (fun b => v ← vcpu_at (vcpus b) i; k v b).
Proof. intros Hk b b'. unfold vcpu_at. destruct (vcpus b !! i) as [v|]; [|done]. apply Hk. Qed.

Lemma keeps_vcpu i f : (forall v, g (f v) = g v) -> bus_keeps g (on_vcpu i f).
Proof.
  intros Hf b b'. unfold on_vcpu, vcpu_at. destruct (vcpus b !! i) as [v|] eqn:E; [|done]. intros [= <-]. cbn.
  rewrite list_fmap_insert, Hf. apply list_insert_id. by rewrite list_lookup_fmap, E.
Qed.

Lemma keeps_recalculate : (forall v b, g (with_scan b v) = g v) -> bus_keeps g recalculate_apic_map.
Proof.
  intros Hg b b'. unfold recalculate_apic_map. destruct (match allocs b with [] => _ | _ :: _ => _ end) as [ok rest].
  destruct (if ok then _ else _) as [m|]; [|done]. cbn [mbind res_bind]. intros [= <-]. cbn.
  rewrite <- list_fmap_compose. apply list_fmap_ext. intros _ v _. apply Hg.
Qed.
End keeps.

#[export] Hint Resolve keeps_bind keeps_ret keeps_if keeps_read keeps_vcpu keeps_recalculate : bus.

(** How a processor starts. *)
Definition boot_of (v : kvm_vcpu) : Z * bool * kvm_start * Z * Z :=
  (vcpu_id v, is_bsp v, start v, pending_events (apic v), sipi_vector (apic v)).

Lemma set_regs_boot rs f : forall a, pending_events (set_regs rs f a) = pending_events a /\
  sipi_vector (set_regs rs f a) = sipi_vector a.
Proof. induction rs as [|r rs IH]; intros a; [done|]. apply (IH (apic_set_reg a r (f (kvm_apic_get_reg a r)))). Qed.

Lemma ppr_boot v : boot_of (apic_update_ppr v) = boot_of v.
Proof. unfold apic_update_ppr. by repeat case_match. Qed.

Lemma reset_modes_boot x2apic a : pending_events (reset_modes x2apic a) = pending_events a /\
  sipi_vector (reset_modes x2apic a) = sipi_vector a.
Proof. exact (set_regs_boot lvt_regs (fun _ => APIC_LVT_MASKED) (kvm_apic_set_version x2apic a)). Qed.

Lemma reset_vectors_boot a : pending_events (reset_vectors a) = pending_events a /\
  sipi_vector (reset_vectors a) = sipi_vector a.
Proof. exact (set_regs_boot ([APIC_ESR; APIC_ICR; APIC_ICR2; APIC_TDCR; APIC_TMICT] ++ vector_regs) (fun _ => 0) a). Qed.

Lemma boot_apic f v : pending_events (f (apic v)) = pending_events (apic v) /\
  sipi_vector (f (apic v)) = sipi_vector (apic v) -> boot_of (on_apic f v) = boot_of v.
Proof. unfold boot_of, on_apic. cbn [with_apic apic vcpu_id is_bsp start]. by intros [-> ->]. Qed.

Lemma reset_keeps_boot x2apic i : bus_keeps boot_of (kvm_lapic_reset x2apic i).
Proof.
  apply keeps_read. intros v. apply keeps_bind; [by apply keeps_vcpu|].
  apply keeps_bind; [by apply keeps_bind; [apply keeps_vcpu|apply keeps_recalculate]|].
  apply keeps_bind; [apply keeps_vcpu; intros w; apply boot_apic, reset_modes_boot|].
  apply keeps_bind; [by apply keeps_bind; [apply keeps_vcpu|apply keeps_recalculate]|].
  apply keeps_bind; [apply keeps_vcpu; intros w; apply boot_apic, reset_vectors_boot|].
  apply keeps_bind; [|apply keeps_vcpu; intros w; apply ppr_boot].
  apply keeps_if; [|apply keeps_ret]. apply keeps_read. intros w. cbv zeta.
  repeat first [by apply keeps_vcpu | by apply keeps_recalculate | apply keeps_ret | apply keeps_bind | apply keeps_if].
Qed.

(** How a processor starts after it has looked at its pending events. *)
Definition boot_after (code : Z * Z * Z) (v : kvm_vcpu) : kvm_start :=
  let pe := pending_events (apic v) in
  let '(sel, base, ip) := code in
  let s := if Z.testbit pe KVM_APIC_INIT
           then Start (if is_bsp v then KVM_MP_STATE_RUNNABLE else KVM_MP_STATE_INIT_RECEIVED) sel base ip
           else start v in
  if Z.testbit pe KVM_APIC_SIPI && (mp_state s =? KVM_MP_STATE_INIT_RECEIVED)
  then Start KVM_MP_STATE_RUNNABLE (u16 (Z.shiftl (sipi_vector (apic v)) 8))
         (u64 (u32 (Z.shiftl (sipi_vector (apic v)) 12))) 0
  else s.

Lemma vcpu_at_Some vs i v : vs !! i = Some v -> vcpu_at vs i = Ok v.
Proof. unfold vcpu_at. by intros ->. Qed.

Lemma on_vcpu_at i f b v : vcpus b !! i = Some v ->
  on_vcpu i f b = Ok (with_vcpus (<[i := f v]> (vcpus b)) b) /\
  vcpus (with_vcpus (<[i := f v]> (vcpus b)) b) !! i = Some (f v).
Proof.
  intros E. unfold on_vcpu, vcpu_at. rewrite E. split; [done|]. apply list_lookup_insert_eq. by eapply lookup_lt_Some.
Qed.

Lemma keeps_lookup {X} (g : kvm_vcpu -> X) f b b' i v : bus_keeps g f -> f b = Ok b' -> vcpus b !! i = Some v ->
  exists v', vcpus b' !! i = Some v' /\ g v' = g v.
Proof.
  intros Hk E Hi. pose proof (f_equal (.!! i) (Hk b b' E)) as H. cbn in H. rewrite !list_lookup_fmap, Hi in H.
  destruct (vcpus b' !! i) as [v'|]; [|done]. injection H as H. eauto.
Qed.

Lemma accept_events_spec x2apic code i b v : bus_ok b -> vcpus b !! i = Some v ->
  exists b' v', kvm_apic_accept_events x2apic code i b = Ok b' /\ bus_ok b' /\ vcpus b' !! i = Some v' /\
    boot_of v' = (vcpu_id v, is_bsp v, boot_after code v, 0, sipi_vector (apic v)).
Proof.
  intros Hb Hv. apply lookup_lt_Some in Hv as Hi.
  destruct (bus_op_accept_events _ x2apic code i Hi b Hb eq_refl) as (b' & E & Hb' & _). exists b'. rewrite E. revert E.
  unfold kvm_apic_accept_events. rewrite (vcpu_at_Some _ _ _ Hv). cbn [mbind res_bind]. destruct code as [[sel base] ip].
  unfold boot_after. destruct (Z.eqb_spec (pending_events (apic v)) 0) as [E0|_].
  { intros [= <-]. exists v. rewrite E0, !Z.testbit_0_l. unfold boot_of. by rewrite E0. }
  destruct (on_vcpu_at i (on_apic (fun a => with_events 0 (sipi_vector a) a)) b v Hv) as [-> Hv1]. cbn [mbind res_bind].
  set (b1 := with_vcpus _ b) in *. set (v1 := on_apic _ v) in *. set (s1 := if Z.testbit _ KVM_APIC_INIT then _ else start v).
  intros E. assert (exists b2 v2, (if Z.testbit (pending_events (apic v)) KVM_APIC_INIT
        then b ← kvm_lapic_reset x2apic i b1;
             on_vcpu i (λ w, set_mp_state (if is_bsp w then KVM_MP_STATE_RUNNABLE else KVM_MP_STATE_INIT_RECEIVED)
                (kvm_vcpu_reset (sel, base, ip) w)) b
        else Ok b1) = Ok b2 /\ vcpus b2 !! i = Some v2 /\
        boot_of v2 = (vcpu_id v, is_bsp v, s1, 0, sipi_vector (apic v))) as (b2 & v2 & E2 & Hv2 & Hs2).
  { unfold s1. destruct (Z.testbit (pending_events (apic v)) KVM_APIC_INIT); [|by exists b1, v1].
    destruct (kvm_lapic_reset x2apic i b1) as [b2|] eqn:Er; [|done].
    destruct (keeps_lookup _ _ _ _ _ _ (reset_keeps_boot x2apic i) Er Hv1) as (v2 & Hv2 & Hs2). cbn [mbind res_bind].
    match goal with |- context [on_vcpu i ?f b2] => destruct (on_vcpu_at i f b2 v2 Hv2) as [-> Hv3] end.
    do 2 eexists. split; [done|]. split; [exact Hv3|]. unfold boot_of in *. cbn in *. by injection Hs2 as -> -> _ -> ->. }
  rewrite E2 in E. cbn [mbind res_bind] in E. unfold vcpu_at in E. rewrite Hv2 in E. cbn [mbind res_bind] in E.
  unfold boot_of in Hs2. injection Hs2 as H1 H2 H3 H4 H5. rewrite H3 in E. destruct (_ && _); [|].
  - match goal with _ : context [on_vcpu i ?f b2] |- _ => destruct (on_vcpu_at i f b2 v2 Hv2) as [Eo Hv3]; rewrite Eo in E end.
    injection E as <-. eexists. split; [done|]. split; [done|]. split; [exact Hv3|]. unfold boot_of. cbn. by rewrite H1, H2, H4, H5.
  - injection E as <-. exists v2. split; [done|]. split; [done|]. split; [done|]. unfold boot_of. by rewrite H1, H2, H3, H4, H5.
Qed.

(** A message to one processor. *)
Definition send (i : nat) (irq : kvm_lapic_irq) (b : bus) : res bus :=
  '(_, vs, _) ← kvm_apic_set_irq i irq (vcpus b) ∅; Ok (with_vcpus vs b).

Lemma send_spec i irq b v : bus_ok b -> vcpus b !! i = Some v -> is_vector (vector irq) ->
  exists b', send i irq b = Ok b' /\ bus_ok b' /\ vcpus b' !! i = Some (outcome irq v).2.
Proof.
  intros Hb Hv Hvec. unfold send. rewrite (set_irq_eq i irq _ _ v) by done. cbn [mbind res_bind]. eexists. split; [done|].
  split.
  - apply bus_ok_step; [done|]. eapply bus_step_insert; [done|]. by apply accept_step.
  - apply list_lookup_insert_eq. by eapply lookup_lt_Some.
Qed.

Definition init_irq : kvm_lapic_irq := LapicIrq 0 APIC_DM_INIT 0 APIC_INT_ASSERT 0 0 0.
Definition startup_irq (vec : Z) : kvm_lapic_irq := LapicIrq vec APIC_DM_STARTUP 0 APIC_INT_ASSERT 0 0 0.

(** The startup protocol: a processor that is not the boot processor,
    sent INIT and then STARTUP with a vector, ends runnable at the start of
    the vector's page, whatever state it was in and also when the second
    message comes before it has looked at the first one.  A STARTUP message
    to a processor that is not waiting for one changes nothing of how it
    runs. *)
Theorem startup_sequence x2apic code i b v vec : bus_ok b -> vcpus b !! i = Some v -> is_bsp v = false -> is_vector vec ->
  let started := Start KVM_MP_STATE_RUNNABLE (vec * 256) (vec * 4096) 0 in
  (exists b' v', (b ← send i init_irq b; b ← kvm_apic_accept_events x2apic code i b;
                  b ← send i (startup_irq vec) b; kvm_apic_accept_events x2apic code i b) = Ok b' /\
     bus_ok b' /\ vcpus b' !! i = Some v' /\ start v' = started) /\
  (exists b' v', (b ← send i init_irq b; b ← send i (startup_irq vec) b;
                  kvm_apic_accept_events x2apic code i b) = Ok b' /\
     bus_ok b' /\ vcpus b' !! i = Some v' /\ start v' = started) /\
  (pending_events (apic v) = 0 -> mp_state (start v) <> KVM_MP_STATE_INIT_RECEIVED ->
   exists b' v', (b ← send i (startup_irq vec) b; kvm_apic_accept_events x2apic code i b) = Ok b' /\
     bus_ok b' /\ vcpus b' !! i = Some v' /\ start v' = start v).
Proof.
  intros Hb Hv Hbsp Hvec started. destruct code as [[sel base] ip].
  assert (H0 : is_vector 0) by (unfold is_vector; lia).
  assert (Est : Start KVM_MP_STATE_RUNNABLE (u16 (Z.shiftl vec 8)) (u64 (u32 (Z.shiftl vec 12))) 0 = started).
  { unfold started, is_vector in *. rewrite !Z.shiftl_mul_pow2 by lia. change (2 ^ 8) with 256. change (2 ^ 12) with 4096.
    f_equal; [apply Z.mod_small; lia|]. unfold u64, u32.
    rewrite (Z.mod_small (vec * 4096) (2 ^ 32)) by lia. apply Z.mod_small. lia. }
  destruct (send_spec i init_irq b v Hb Hv H0) as (b1 & E1 & Hb1 & Hv1).
  set (v1 := (outcome init_irq v).2) in *.
  split; [|split].
  - rewrite E1. cbn [mbind res_bind].
    destruct (accept_events_spec x2apic (sel, base, ip) i b1 v1 Hb1 Hv1) as (b2 & v2 & E2 & Hb2 & Hv2 & Hs2).
    rewrite E2. cbn [mbind res_bind].
    destruct (send_spec i (startup_irq vec) b2 v2 Hb2 Hv2 Hvec) as (b3 & E3 & Hb3 & Hv3). rewrite E3. cbn [mbind res_bind].
    destruct (accept_events_spec x2apic (sel, base, ip) i b3 _ Hb3 Hv3) as (b4 & v4 & E4 & Hb4 & Hv4 & Hs4).
    exists b4, v4. split; [done|]. split; [done|]. split; [done|]. unfold boot_of in Hs2, Hs4. injection Hs2 as _ _ Hs2 Hp2 _.
    injection Hs4 as _ _ -> _ _. cbn in Hs2. rewrite Hbsp in Hs2. cbn. rewrite Hp2, Hs2. cbn. exact Est.
  - rewrite E1. cbn [mbind res_bind].
    destruct (send_spec i (startup_irq vec) b1 v1 Hb1 Hv1 Hvec) as (b3 & E3 & Hb3 & Hv3). rewrite E3. cbn [mbind res_bind].
    destruct (accept_events_spec x2apic (sel, base, ip) i b3 _ Hb3 Hv3) as (b4 & v4 & E4 & Hb4 & Hv4 & Hs4).
    exists b4, v4. split; [done|]. split; [done|]. split; [done|]. unfold boot_of in Hs4.
    injection Hs4 as _ _ -> _ _. cbn. rewrite Hbsp. cbn. exact Est.
  - intros Hp Hm. destruct (send_spec i (startup_irq vec) b v Hb Hv Hvec) as (b3 & E3 & Hb3 & Hv3). rewrite E3. cbn [mbind res_bind].
    destruct (accept_events_spec x2apic (sel, base, ip) i b3 _ Hb3 Hv3) as (b4 & v4 & E4 & Hb4 & Hv4 & Hs4).
    exists b4, v4. split; [done|]. split; [done|]. split; [done|]. unfold boot_of in Hs4.
    injection Hs4 as _ _ -> _ _. cbn. rewrite Hp.
    change (Z.odd (Z.setbit 0 KVM_APIC_SIPI)) with false. cbv iota.
    apply Z.eqb_neq in Hm. by rewrite Hm.
Qed.

Lemma startup_sequence_witness :
  exists b' v', (b ← send 1 init_irq two_vcpu_bus; b ← send 1 (startup_irq 0x9a) b;
                 kvm_apic_accept_events false (0xf000, 0xffff0000, 0xfff0) 1 b) = Ok b' /\
    vcpus b' !! 1%nat = Some v' /\ start v' = Start KVM_MP_STATE_RUNNABLE 0x9a00 0x9a000 0.
Proof.
  assert (Hv : is_vector 0x9a) by (unfold is_vector; lia).
  destruct (startup_sequence false (0xf000, 0xffff0000, 0xfff0) 1 two_vcpu_bus (flat_vcpu 1) 0x9a two_vcpu_bus_ok
              eq_refl eq_refl Hv) as (_ & (b' & v' & E & _ & Hv' & Hs) & _).
  exists b', v'. split; [exact E|]. split; [exact Hv'|exact Hs].
Defined.

(** ** Where the two ways differ *)

(** The processors that requested [vec], by position. *)
Definition requested (vec : Z) (vs : list kvm_vcpu) : list bool :=
  (fun v => apic_test_vector (apic v) vec APIC_IRR) <$> vs.

Definition table_of (vs : list kvm_vcpu) : bus :=
  Bus vs (match map_from 0 vs empty_map with Ok m => Some m | Err _ => None end) [].

(** By the table a lowest-priority message may choose an APIC that is
    disabled by software, and is lost; the scan leaves those out. *)
Definition one_disabled : bus :=
  table_of [on_apic (fun a => apic_set_reg a APIC_SPIV 0xff) (flat_vcpu 0); flat_vcpu 1].
Definition lowest_irq : kvm_lapic_irq := LapicIrq 0x41 APIC_DM_LOWEST 0x800 1 0 0 3.

Lemma lowest_priority_lost :
  match kvm_irq_delivery_to_apic_fast one_disabled None lowest_irq ∅ with
  | Ok (r, vs, _) => r = Some 0 /\ requested 0x41 vs = [false; false]
  | Err _ => False
  end /\
  match deliver_by_scan one_disabled None lowest_irq ∅ with
  | Ok (r, vs, _) => r = 1 /\ requested 0x41 vs = [false; true]
  | Err _ => False
  end.
Proof. vm_compute. repeat split. Qed.

(** In x2APIC mode the cluster is ignored: processors 0 and 16 share a slot. *)
Definition x2apic_vcpu (id : Z) : kvm_vcpu :=
  with_apic_base 0xfee00d00
    (on_apic (fun a => apic_set_reg a APIC_LDR (Z.lor (Z.shiftl (Z.shiftr id 4) 16) (Z.shiftl 1 (Z.land id 0xf))))
       (enabled_vcpu id)).
Definition two_clusters : bus := table_of [x2apic_vcpu 0; x2apic_vcpu 16].

Lemma x2apic_cluster_collision :
  match kvm_irq_delivery_to_apic two_clusters None (LapicIrq 0x41 APIC_DM_FIXED 0x800 1 0 0 0x00001) ∅ with
  | Ok (r, b, _) => r = 1 /\ requested 0x41 (vcpus b) = [false; true]
  | Err _ => False
  end.
Proof. vm_compute. repeat split. Qed.

(** The scan compares the low byte of a logical destination: in x2APIC mode a
    message to processor 8 is delivered by the table and lost by the scan. *)
Definition x2apic_eighth : bus := table_of [x2apic_vcpu 8].
Definition to_eighth : kvm_lapic_irq := LapicIrq 0x41 APIC_DM_FIXED 0x800 1 0 0 0x100.

Lemma x2apic_scan_misses :
  match kvm_irq_delivery_to_apic_fast x2apic_eighth None to_eighth ∅ with
  | Ok (r, vs, _) => r = Some 1 /\ requested 0x41 vs = [true]
  | Err _ => False
  end /\
  match deliver_by_scan x2apic_eighth None to_eighth ∅ with
  | Ok (r, vs, _) => r = - 1 /\ requested 0x41 vs = [false]
  | Err _ => False
  end.
Proof. vm_compute. repeat split. Qed.

(** ** Messages that are taken *)

Lemma addr_present v v' : same_addr v v' -> kvm_apic_present v' = kvm_apic_present v.
Proof. intros H. unfold kvm_apic_present, kvm_apic_hw_enabled. by rewrite (sa_base _ _ H). Qed.

Lemma addr_key md v v' : same_addr v v' -> key md v' = key md v.
Proof. intros H. unfold key. by rewrite (sa_regs v v' H APIC_LDR) by set_solver. Qed.

Lemma addr_in_mode md v v' : same_addr v v' -> in_mode md v -> in_mode md v'.
Proof.
  intros H. unfold in_mode, apic_x2apic_mode, kvm_apic_sw_enabled.
  by rewrite (sa_base _ _ H), !(sa_regs v v' H) by set_solver.
Qed.

Lemma addr_enabled v v' : same_addr v v' -> apic_enabled v' = apic_enabled v.
Proof.
  intros H. unfold apic_enabled, kvm_apic_sw_enabled, kvm_apic_hw_enabled.
  by rewrite (sa_base _ _ H), (sa_regs v v' H) by set_solver.
Qed.

Lemma addr_match v v' i src sh dest mode : same_addr v v' ->
  kvm_apic_match_dest v' i src sh dest mode = kvm_apic_match_dest v i src sh dest mode.
Proof.
  intros H. unfold kvm_apic_match_dest, kvm_apic_match_physical_addr, kvm_apic_match_logical_addr, kvm_apic_id, apic_x2apic_mode.
  by rewrite (sa_base _ _ H), !(sa_regs v v' H) by set_solver.
Qed.

Lemma addressed_same md vs vs' : Forall2 same_addr vs vs' -> well_addressed md vs -> well_addressed md vs'.
Proof.
  intros Hs [H1 H2 H3 H4].
  assert (Hb : forall i v', vs' !! i = Some v' -> exists v, vs !! i = Some v /\ same_addr v v').
  { intros i v' E. by destruct (Forall2_lookup_r _ _ _ _ _ Hs E) as (v & ? & ?); eauto. }
  split.
  - intros k v' Ek Hp. destruct (Hb _ _ Ek) as (v & Ev & Hv). rewrite (addr_present _ _ Hv) in Hp.
    eapply addr_in_mode; eauto.
  - intros j k v' w' Ej Ek. destruct (Hb _ _ Ej) as (v & Ev & Hv), (Hb _ _ Ek) as (w & Ew & Hw).
    rewrite (addr_present _ _ Hv), (addr_present _ _ Hw). unfold kvm_apic_id.
    rewrite (sa_regs _ _ Hv), (sa_regs _ _ Hw) by set_solver. by apply H2.
  - intros j k v' w' x Ej Ek. destruct (Hb _ _ Ej) as (v & Ev & Hv), (Hb _ _ Ek) as (w & Ew & Hw).
    rewrite (addr_present _ _ Hv), (addr_present _ _ Hw), (addr_key _ _ _ Hv), (addr_key _ _ _ Hw). by apply H3.
  - intros k v' Ek. destruct (Hb _ _ Ek) as (v & Ev & Hv). rewrite (addr_present _ _ Hv), (sa_regs _ _ Hv) by set_solver.
    by apply (H4 k).
Qed.

Lemma fresh_same b vs' : Forall2 same_addr (vcpus b) vs' -> fresh_map b -> fresh_map (with_vcpus vs' b).
Proof. intros Hs Hf m Hm. cbn. rewrite (map_from_same (vcpus b)); [by apply Hf|done]. Qed.

Lemma targets_same src irq vs vs' k : Forall2 same_addr vs vs' -> targets src irq vs' k = targets src irq vs k.
Proof.
  intros Hs. unfold targets. pose proof (proj1 (Forall2_lookup same_addr vs vs') Hs k) as Hl.
  inversion Hl as [v v' Hv E1 E2|E1 E2]; [|done]. by rewrite (addr_present _ _ Hv), (addr_match _ _ _ _ _ _ _ Hv).
Qed.

(** A fixed message whose targets are all enabled is taken. *)
Record receptive (md : addr_mode) (irq : kvm_lapic_irq) (b : bus) : Prop := {
  rc_ok : bus_ok b;
  rc_addr : well_addressed md (vcpus b);
  rc_fresh : fresh_map b;
  rc_enabled : forall k v, vcpus b !! k = Some v -> targets None irq (vcpus b) k = true -> apic_enabled v = true
}.

Definition fixed_message (irq : kvm_lapic_irq) : Prop :=
  delivery_mode irq = APIC_DM_FIXED /\ shorthand irq = 0 /\ 0 <= dest_id irq < 255 /\ is_vector (vector irq).

Lemma outcome_fixed irq v : fixed_message irq -> apic_enabled v = true ->
  outcome irq v = (1, true, request_event (on_apic (apic_set_irr (vector irq)) v)).
Proof.
  intros (Hf & _) He. unfold outcome, __apic_accept_irq. rewrite Hf. cbn [Z.eqb orb APIC_DM_FIXED APIC_DM_LOWEST].
  by rewrite He.
Qed.

(** It stays so while the processors' addresses do. *)
Lemma receptive_same md irq b vs' : Forall2 same_addr (vcpus b) vs' -> bus_ok (with_vcpus vs' b) -> receptive md irq b ->
  receptive md irq (with_vcpus vs' b).
Proof.
  intros Hs Hok [H1 H2 H3 H4]. split; cbn; [done|by eapply addressed_same|by apply fresh_same|].
  intros k v' Ek. rewrite (targets_same _ _ _ _ _ Hs). destruct (Forall2_lookup_r _ _ _ _ _ Hs Ek) as (v & Ev & Hv).
  rewrite (addr_enabled _ _ Hv). by apply H4.
Qed.

Lemma bus_step_same vs vs' : bus_step vs vs' -> Forall2 same_addr vs vs'.
Proof. intros Hs. eapply Forall2_impl; [exact Hs|]. intros v v'. apply irq_step_addr. Qed.

Lemma receptive_step md irq b vs' : bus_step (vcpus b) vs' -> receptive md irq b -> receptive md irq (with_vcpus vs' b).
Proof. intros Hs Hr. apply receptive_same; [by apply bus_step_same|apply bus_ok_step; [apply Hr|done]|done]. Qed.

(** Such a message never has the result 0; every target requests the vector. *)
Lemma receptive_delivery md irq b dm : receptive md irq b -> fixed_message irq ->
  exists r vs' dm', kvm_irq_delivery_to_apic b None irq dm = Ok (r, with_vcpus vs' b, dm') /\ r <> 0 /\
    receptive md irq (with_vcpus vs' b) /\ bus_step (vcpus b) vs' /\
    forall k, vs' !! k = if targets None irq (vcpus b) k
                         then (fun v => request_event (on_apic (apic_set_irr (vector irq)) v)) <$> vcpus b !! k
                         else vcpus b !! k.
Proof.
  intros Hr Hf. pose proof Hf as (Hm & Hsh & Hd & Hv). pose proof Hr as [H1 H2 H3 H4].
  destruct (message_exact md b irq dm H1 H2 H3 Hsh) as (vs' & dm' & E & Hvs); [by rewrite Hm|done|].
  destruct (delivery_ok b None irq dm H1 Hv) as (r' & vs2 & dm2 & E2 & Hdel); [by rewrite Hsh|].
  rewrite E in E2. injection E2 as Er2 <- <-. pose proof (dl_step _ _ _ _ Hdel) as Hs. cbn in Hs.
  do 3 eexists. split; [done|]. split; [|split; [by apply receptive_step|split; [done|]]].
  - destruct (addressed None irq (vcpus b)) as [|k ks] eqn:Ek; [done|].
    assert (Hk : accepts irq (vcpus b) k = true).
    { assert (Ht : targets None irq (vcpus b) k = true) by (apply elem_of_addressed; rewrite Ek; by left).
      unfold accepts. destruct (vcpus b !! k) as [v|] eqn:Ev; [|unfold targets in Ht; by rewrite Ev in Ht].
      rewrite outcome_fixed by eauto. done. }
    rewrite filter_cons, decide_True by done. cbn [length]. lia.
  - intros k. rewrite Hvs. destruct (targets None irq (vcpus b) k) eqn:Et; [|done].
    destruct (vcpus b !! k) as [v|] eqn:Ev; [|done]. cbn. by rewrite outcome_fixed by eauto.
Qed.
