(* ===== verification/IoApic.v ===== *)
(** * The I/O APIC (kvm-kmod x86/ioapic.c, ioapic.h)

    The 24 interrupt lines and their redirection table: a line's change, the
    delivery of its message to the local APICs, the end of interrupt that
    comes back, the registers behind the memory-mapped window, and the
    tracking of the real-time clock's interrupt.  What runs when an interrupt
    has been acknowledged, with the lock dropped, is a parameter; so is what
    a change of a pin's mask does to the devices.  The [ASSERT]s of the file
    are empty in the build. *)

From S2P Require Import Prelude Lapic ApicBus.

Definition IOAPIC_NUM_PINS : Z := 24.
Definition IOAPIC_VERSION_ID : Z := 0x11.
Definition IOAPIC_EDGE_TRIG : Z := 0.
Definition IOAPIC_LEVEL_TRIG : Z := 1.
Definition IOAPIC_DEFAULT_BASE_ADDRESS : Z := 0xfec00000.
Definition IOAPIC_MEM_LENGTH : Z := 0x100.
Definition IOAPIC_REG_SELECT : Z := 0x00.
Definition IOAPIC_REG_WINDOW : Z := 0x10.
Definition IOAPIC_REG_APIC_ID : Z := 0x00.
Definition IOAPIC_REG_VERSION : Z := 0x01.
Definition IOAPIC_REG_ARB_ID : Z := 0x02.
Definition RTC_GSI : Z := 8.
Definition EOPNOTSUPP : Z := 95.

(** ** State *)

(** An entry of the redirection table is a 64-bit word of bit fields. *)
Definition e_vector (e : Z) : Z := Z.land e 0xff.
Definition e_delivery_mode (e : Z) : Z := Z.land (Z.shiftr e 8) 7.
Definition e_dest_mode (e : Z) : Z := Z.land (Z.shiftr e 11) 1.
Definition e_remote_irr (e : Z) : bool := Z.testbit e 14.
Definition e_trig_mode (e : Z) : Z := Z.land (Z.shiftr e 15) 1.
Definition e_mask (e : Z) : bool := Z.testbit e 16.
Definition e_dest_id (e : Z) : Z := Z.land (Z.shiftr e 56) 0xff.
Definition set_remote_irr (b : bool) (e : Z) : Z := if b then Z.setbit e 14 else Z.clearbit e 14.
Definition set_mask (e : Z) : Z := Z.setbit e 16.

(** [handled_vectors] is a bit map of 256 bits; [pending_eoi] and [dest_map]
    are the status of the real-time clock. *)
Record kvm_ioapic := Ioapic {
  io_base : Z; ioregsel : Z; io_id : Z; io_irr : Z; redirtbl : list Z; io_irq_states : list Z;
  handled_vectors : Z; pending_eoi : Z; dest_map : gset Z
}.

Definition with_ioregsel (x : Z) (io : kvm_ioapic) : kvm_ioapic :=
  Ioapic (io_base io) x (io_id io) (io_irr io) (redirtbl io) (io_irq_states io) (handled_vectors io)
    (pending_eoi io) (dest_map io).
Definition with_id (x : Z) (io : kvm_ioapic) : kvm_ioapic :=
  Ioapic (io_base io) (ioregsel io) x (io_irr io) (redirtbl io) (io_irq_states io) (handled_vectors io)
    (pending_eoi io) (dest_map io).
Definition with_irr (x : Z) (io : kvm_ioapic) : kvm_ioapic :=
  Ioapic (io_base io) (ioregsel io) (io_id io) x (redirtbl io) (io_irq_states io) (handled_vectors io)
    (pending_eoi io) (dest_map io).
Definition with_entries (t : list Z) (io : kvm_ioapic) : kvm_ioapic :=
  Ioapic (io_base io) (ioregsel io) (io_id io) (io_irr io) t (io_irq_states io) (handled_vectors io)
    (pending_eoi io) (dest_map io).
Definition with_states (t : list Z) (io : kvm_ioapic) : kvm_ioapic :=
  Ioapic (io_base io) (ioregsel io) (io_id io) (io_irr io) (redirtbl io) t (handled_vectors io)
    (pending_eoi io) (dest_map io).
Definition with_handled (x : Z) (io : kvm_ioapic) : kvm_ioapic :=
  Ioapic (io_base io) (ioregsel io) (io_id io) (io_irr io) (redirtbl io) (io_irq_states io) x
    (pending_eoi io) (dest_map io).
Definition with_rtc (n : Z) (m : gset Z) (io : kvm_ioapic) : kvm_ioapic :=
  Ioapic (io_base io) (ioregsel io) (io_id io) (io_irr io) (redirtbl io) (io_irq_states io)
    (handled_vectors io) n m.

(** The interrupt controllers of a machine, and the state [E] of the devices
    that are told of acknowledgements and masks. *)
Record irqs (E : Type) := Irqs { ibus : bus; ioapic : kvm_ioapic; dev : E }.
Arguments Irqs {E} _ _ _.
Arguments ibus {E} _.
Arguments ioapic {E} _.
Arguments dev {E} _.

Definition with_ioapic {E} (io : kvm_ioapic) (s : irqs E) : irqs E := Irqs (ibus s) io (dev s).
Definition with_bus {E} (b : bus) (s : irqs E) : irqs E := Irqs b (ioapic s) (dev s).
Definition on_ioapic {E} (f : kvm_ioapic -> kvm_ioapic) (s : irqs E) : irqs E := with_ioapic (f (ioapic s)) s.

(** Pins are list positions. *)
Definition entry_at (io : kvm_ioapic) (pin : Z) : res Z :=
  match redirtbl io !! Z.to_nat pin with Some e => Ok e | None => Err BadPointer end.
Definition set_entry (pin e : Z) (io : kvm_ioapic) : kvm_ioapic :=
  with_entries (<[Z.to_nat pin := e]> (redirtbl io)) io.

(** ** Delivery *)

Definition message_of (e : Z) : kvm_lapic_irq :=
  LapicIrq (e_vector e) (Z.shiftl (e_delivery_mode e) 8) (e_dest_mode e) 1 (e_trig_mode e) 0 (e_dest_id e).

Definition ioapic_service {E} (irq : Z) (line_status : bool) (s : irqs E) : res (Z * irqs E) :=
  entry ← entry_at (ioapic s) irq;
  if e_mask entry then Ok (- 1, s)
  else
    let irqe := message_of entry in
    let s := if trig_mode irqe =? IOAPIC_EDGE_TRIG
             then on_ioapic (fun io => with_irr (Z.clearbit (io_irr io) irq) io) s else s in
    '(ret, s) ←
      (if (irq =? RTC_GSI) && line_status then
         if negb (pending_eoi (ioapic s) =? 0) then Err AssertFailed
         else
           '(ret, b, dm) ← kvm_irq_delivery_to_apic (ibus s) None irqe (dest_map (ioapic s));
           Ok (ret, on_ioapic (with_rtc (if ret <? 0 then 0 else ret) dm) (with_bus b s))
       else
         '(ret, b, _) ← kvm_irq_delivery_to_apic (ibus s) None irqe ∅;
         Ok (ret, with_bus b s));
    Ok (ret, if negb (ret =? 0) && (trig_mode irqe =? IOAPIC_LEVEL_TRIG)
             then on_ioapic (set_entry irq (set_remote_irr true entry)) s else s).

Definition rtc_irq_check_coalesced (io : kvm_ioapic) : bool := 0 <? pending_eoi io.

Definition ioapic_set_irq {E} (irq : Z) (irq_level line_status : bool) (s : irqs E) : res (Z * irqs E) :=
  entry ← entry_at (ioapic s) irq;
  let edge := e_trig_mode entry =? IOAPIC_EDGE_TRIG in
  if negb irq_level then Ok (1, on_ioapic (fun io => with_irr (Z.clearbit (io_irr io) irq) io) s)
  else if (irq =? RTC_GSI) && line_status && rtc_irq_check_coalesced (ioapic s) then Ok (0, s)
  else
    let old_irr := io_irr (ioapic s) in
    let s := on_ioapic (fun io => with_irr (Z.setbit (io_irr io) irq) io) s in
    if (edge && (old_irr =? io_irr (ioapic s))) || (negb edge && e_remote_irr entry) then Ok (0, s)
    else ioapic_service irq line_status s.

(** [__kvm_irq_line_state]: the sources that assert a line, one bit of a word
    each. *)
Definition line_sources (states irq_source_id : Z) (level : bool) : Z :=
  if level then Z.setbit states irq_source_id else Z.clearbit states irq_source_id.

Definition kvm_ioapic_set_irq {E} (irq irq_source_id : Z) (level line_status : bool) (s : irqs E)
    : res (Z * irqs E) :=
  if (irq <? 0) || (IOAPIC_NUM_PINS <=? irq) then Err AssertFailed
  else if (irq_source_id <? 0) || (64 <=? irq_source_id) then Err BufferOverflow
  else
    match io_irq_states (ioapic s) !! Z.to_nat irq with
    | None => Err BadPointer
    | Some st =>
        let st := line_sources st irq_source_id level in
        ioapic_set_irq irq (negb (st =? 0)) line_status
          (on_ioapic (fun io => with_states (<[Z.to_nat irq := st]> (io_irq_states io)) io) s)
    end.

Definition kvm_ioapic_clear_all (irq_source_id : Z) (io : kvm_ioapic) : kvm_ioapic :=
  with_states ((fun st => Z.clearbit st irq_source_id) <$> io_irq_states io) io.

(** ** The real-time clock's interrupt *)

Definition rtc_irq_eoi_tracking_reset (io : kvm_ioapic) : kvm_ioapic := with_rtc 0 ∅ io.

Definition targeted (e : Z) (v : kvm_vcpu) (i : nat) : bool :=
  kvm_apic_match_dest v i None 0 (e_dest_id e) (e_dest_mode e).

Fixpoint restore_from (one : nat -> kvm_ioapic -> res kvm_ioapic) (js : list nat) (io : kvm_ioapic)
    : res kvm_ioapic :=
  match js with
  | [] => Ok io
  | j :: js => io ← one j io; restore_from one js io
  end.

(** [__rtc_irq_eoi_tracking_restore_one] and [..._restore_all] call each
    other; [fuel] bounds how deep. *)
Fixpoint restore_one (fuel : nat) (vs : list kvm_vcpu) (i : nat) (io : kvm_ioapic) : res kvm_ioapic :=
  match fuel with
  | O => Err OutOfFuel
  | S fuel =>
      v ← vcpu_at vs i;
      e ← entry_at io RTC_GSI;
      if negb (targeted e v i) then Ok io
      else
        let new_val := kvm_apic_pending_eoi (apic v) (e_vector e) in
        let old_val := bool_decide (vcpu_id v ∈ dest_map io) in
        if Bool.eqb new_val old_val then Ok io
        else if new_val then Ok (with_rtc (pending_eoi io + 1) ({[ vcpu_id v ]} ∪ dest_map io) io)
        else
          let io := with_rtc (pending_eoi io - 1) (dest_map io ∖ {[ vcpu_id v ]}) io in
          if pending_eoi io <? 0
          then restore_from (restore_one fuel vs) (seq 0 (length vs)) (rtc_irq_eoi_tracking_reset io)
          else Ok io
  end.

Definition kvm_rtc_eoi_tracking_restore_all (fuel : nat) (vs : list kvm_vcpu) (io : kvm_ioapic) : res kvm_ioapic :=
  restore_from (restore_one fuel vs) (seq 0 (length vs)) (rtc_irq_eoi_tracking_reset io).

Definition rtc_status_pending_eoi_check_valid (fuel : nat) (vs : list kvm_vcpu) (io : kvm_ioapic) : res kvm_ioapic :=
  if pending_eoi io <? 0 then kvm_rtc_eoi_tracking_restore_all fuel vs io else Ok io.

(** Two levels are enough. *)
Definition kvm_rtc_eoi_tracking_restore_one {E} (i : nat) (s : irqs E) : res (irqs E) :=
  io ← restore_one 2 (vcpus (ibus s)) i (ioapic s); Ok (with_ioapic io s).

Definition rtc_irq_eoi {E} (i : nat) (s : irqs E) : res (irqs E) :=
  v ← vcpu_at (vcpus (ibus s)) i;
  let io := ioapic s in
  if bool_decide (vcpu_id v ∈ dest_map io) then
    io ← rtc_status_pending_eoi_check_valid 1 (vcpus (ibus s))
           (with_rtc (pending_eoi io - 1) (dest_map io ∖ {[ vcpu_id v ]}) io);
    Ok (with_ioapic io s)
  else Ok s.

(** Interrupts found in a saved state. *)
Fixpoint inject_from {E} (pins : list Z) (s : irqs E) : res (irqs E) :=
  match pins with
  | [] => Ok s
  | pin :: pins => '(_, s) ← ioapic_set_irq pin true true s; inject_from pins s
  end.

Definition kvm_ioapic_inject_all {E} (irr : Z) (s : irqs E) : res (irqs E) :=
  let s := on_ioapic rtc_irq_eoi_tracking_reset s in
  s ← inject_from (filter (fun i => Z.testbit irr i = true) (seqZ 0 IOAPIC_NUM_PINS)) s;
  io ← kvm_rtc_eoi_tracking_restore_all 1 (vcpus (ibus s)) (ioapic s);
  Ok (with_ioapic io s).

(** ** Handled vectors *)

Definition update_handled_vectors (io : kvm_ioapic) : kvm_ioapic :=
  with_handled (foldl (fun m e => Z.setbit m (e_vector e)) 0 (redirtbl io)) io.

Definition kvm_ioapic_handles_vector (io : kvm_ioapic) (vec : Z) : bool := Z.testbit (handled_vectors io) vec.

(** One entry's part in the bit maps of a processor: the vectors whose end
    of interrupt it reports, and the level-triggered ones. *)
Definition scan_one (has_notifier : Z -> bool) (v : kvm_vcpu) (i : nat) (bits : Z * Z) (pe : Z * Z) : Z * Z :=
  let '(index, e) := pe in
  let level := e_trig_mode e =? IOAPIC_LEVEL_TRIG in
  if negb (e_mask e) && (level || has_notifier index || (index =? RTC_GSI)) && targeted e v i
  then (Z.setbit bits.1 (e_vector e), if level then Z.setbit bits.2 (e_vector e) else bits.2)
  else bits.

Definition kvm_ioapic_scan_entry (has_notifier : Z -> bool) (v : kvm_vcpu) (i : nat) (io : kvm_ioapic) : Z * Z :=
  foldl (scan_one has_notifier v i) (0, 0) (zip (seqZ 0 IOAPIC_NUM_PINS) (redirtbl io)).

(** [tmr] is the bit map of the eight words. *)
Definition set_tmr_word (tmr : Z) (a : kvm_lapic) (i : Z) : kvm_lapic :=
  apic_set_reg a (APIC_TMR + 0x10 * i) (Z.land (Z.shiftr tmr (32 * i)) 0xffffffff).

Definition kvm_apic_update_tmr (tmr : Z) (a : kvm_lapic) : kvm_lapic :=
  foldl (set_tmr_word tmr) a (seqZ 0 8).

(** The request to scan, served when the processor is entered. *)
Definition vcpu_scan_ioapic {E} (has_notifier : Z -> bool) (i : nat) (s : irqs E) : res (irqs E) :=
  v ← vcpu_at (vcpus (ibus s)) i;
  b ← on_vcpu i (with_scan false) (ibus s);
  if negb (kvm_apic_hw_enabled v) then Ok (with_bus b s)
  else
    let '(_, tmr) := kvm_ioapic_scan_entry has_notifier v i (ioapic s) in
    b ← on_vcpu i (on_apic (kvm_apic_update_tmr tmr)) b;
    Ok (with_bus b s).

(** ** The end of an interrupt, and the registers *)

Section ioapic.
  Context {E : Type}.
  (** [kvm_notify_acked_irq] on a pin, and [kvm_fire_mask_notifiers] *)
  Context (ack : Z -> irqs E -> res (irqs E)) (fire_mask : Z -> bool -> E -> E).

Definition eoi_pin (i : nat) (vec trigger_mode pin : Z) (s : irqs E) : res (irqs E) :=
  ent ← entry_at (ioapic s) pin;
  if negb (e_vector ent =? vec) then Ok s
  else
    s ← (if pin =? RTC_GSI then rtc_irq_eoi i s else Ok s);
    s ← ack pin s;
    if negb (trigger_mode =? IOAPIC_LEVEL_TRIG) then Ok s
    else
      ent ← entry_at (ioapic s) pin;
      let s := on_ioapic (set_entry pin (set_remote_irr false ent)) s in
      if Z.testbit (io_irr (ioapic s)) pin then '(_, s) ← ioapic_service pin false s; Ok s else Ok s.

Fixpoint eoi_from (i : nat) (vec trigger_mode : Z) (pins : list Z) (s : irqs E) : res (irqs E) :=
  match pins with
  | [] => Ok s
  | pin :: pins => s ← eoi_pin i vec trigger_mode pin s; eoi_from i vec trigger_mode pins s
  end.

Definition kvm_ioapic_update_eoi (i : nat) (vec trigger_mode : Z) (s : irqs E) : res (irqs E) :=
  eoi_from i vec trigger_mode (seqZ 0 IOAPIC_NUM_PINS) s.

Definition ioapic_read_indirect (io : kvm_ioapic) : Z :=
  if ioregsel io =? IOAPIC_REG_VERSION
  then Z.lor (Z.shiftl (Z.land (IOAPIC_NUM_PINS - 1) 0xff) 16) (Z.land IOAPIC_VERSION_ID 0xff)
  else if (ioregsel io =? IOAPIC_REG_APIC_ID) || (ioregsel io =? IOAPIC_REG_ARB_ID)
  then Z.shiftl (Z.land (io_id io) 0xf) 24
  else
    let redir_index := Z.shiftr (u32 (ioregsel io - 0x10)) 1 in
    let redir_content := match redirtbl io !! Z.to_nat redir_index with Some e => e | None => u64 (- 1) end in
    if Z.testbit (ioregsel io) 0 then Z.land (Z.shiftr redir_content 32) 0xffffffff
    else Z.land redir_content 0xffffffff.

(** An entry with one half written. *)
Definition write_half (high : bool) (val e : Z) : Z :=
  if high then Z.lor (Z.land e 0xffffffff) (Z.shiftl val 32)
  else set_remote_irr false (Z.lor (Z.ldiff e 0xffffffff) val).

Definition ioapic_write_indirect (val : Z) (s : irqs E) : res (irqs E) :=
  let io := ioapic s in
  if ioregsel io =? IOAPIC_REG_VERSION then Ok s
  else if ioregsel io =? IOAPIC_REG_APIC_ID then Ok (on_ioapic (with_id (Z.land (Z.shiftr val 24) 0xf)) s)
  else if ioregsel io =? IOAPIC_REG_ARB_ID then Ok s
  else
    let index := Z.shiftr (u32 (ioregsel io - 0x10)) 1 in
    if IOAPIC_NUM_PINS <=? index then Ok s
    else
      e ← entry_at io index;
      let e' := write_half (Z.testbit (ioregsel io) 0) val e in
      let s := on_ioapic (fun io => update_handled_vectors (set_entry index e' io)) s in
      let s := if Bool.eqb (e_mask e) (e_mask e') then s
               else Irqs (ibus s) (ioapic s) (fire_mask index (e_mask e') (dev s)) in
      s ← (if (e_trig_mode e' =? IOAPIC_LEVEL_TRIG) && Z.testbit (io_irr (ioapic s)) index
           then '(_, s) ← ioapic_service index false s; Ok s else Ok s);
      Ok (with_bus (kvm_vcpu_request_scan_ioapic (ibus s)) s).

Definition ioapic_in_range (io : kvm_ioapic) (addr : Z) : bool :=
  (io_base io <=? addr) && (addr <? io_base io + IOAPIC_MEM_LENGTH).

(** The value read, for a length that is read. *)
Definition ioapic_mmio_read (addr len : Z) (io : kvm_ioapic) : Z * option Z :=
  if negb (ioapic_in_range io addr) then (- EOPNOTSUPP, None)
  else
    let addr := Z.land addr 0xff in
    let result := if addr =? IOAPIC_REG_SELECT then ioregsel io
                  else if addr =? IOAPIC_REG_WINDOW then u32 (ioapic_read_indirect io) else 0 in
    (0, if (len =? 8) || (len =? 4) then Some result
        else if len =? 2 then Some (u16 result)
        else if len =? 1 then Some (u8 result) else None).

(** [val] is the value stored in the bytes written. *)
Definition ioapic_mmio_write (addr len val : Z) (s : irqs E) : res (Z * irqs E) :=
  if negb (ioapic_in_range (ioapic s) addr) then Ok (- EOPNOTSUPP, s)
  else
    let data := if (len =? 8) || (len =? 4) then Some (u32 val)
                else if len =? 2 then Some (u16 val)
                else if len =? 1 then Some (u8 val) else None in
    match data with
    | None => Ok (0, s)
    | Some data =>
        let addr := Z.land addr 0xff in
        if addr =? IOAPIC_REG_SELECT then Ok (0, on_ioapic (with_ioregsel (Z.land data 0xff)) s)
        else if addr =? IOAPIC_REG_WINDOW then s ← ioapic_write_indirect data s; Ok (0, s)
        else Ok (0, s)
    end.
End ioapic.

(** ** Reset and the saved state *)

Definition kvm_ioapic_reset (io : kvm_ioapic) : kvm_ioapic :=
  update_handled_vectors
    (rtc_irq_eoi_tracking_reset
       (Ioapic IOAPIC_DEFAULT_BASE_ADDRESS 0 0 0 (set_mask <$> redirtbl io) (io_irq_states io)
          (handled_vectors io) (pending_eoi io) (dest_map io))).

(** [kvm_ioapic_init]: a reset of zeroes. *)
Definition kvm_ioapic_init : kvm_ioapic :=
  kvm_ioapic_reset (Ioapic 0 0 0 0 (replicate 24 0) (replicate 24 0) 0 0 ∅).

Record kvm_ioapic_state := IoapicState {
  st_base_address : Z; st_ioregsel : Z; st_id : Z; st_irr : Z; st_redirtbl : list Z
}.

Definition kvm_get_ioapic (io : kvm_ioapic) : kvm_ioapic_state :=
  IoapicState (io_base io) (ioregsel io) (io_id io) (io_irr io) (redirtbl io).

Definition kvm_set_ioapic {E} (st : kvm_ioapic_state) (s : irqs E) : res (irqs E) :=
  let s := on_ioapic (fun io => update_handled_vectors
             (Ioapic (st_base_address st) (st_ioregsel st) (st_id st) 0 (st_redirtbl st) (io_irq_states io)
                (handled_vectors io) (pending_eoi io) (dest_map io))) s in
  let s := with_bus (kvm_vcpu_request_scan_ioapic (ibus s)) s in
  kvm_ioapic_inject_all (st_irr st) s.

(** ** Entries *)

Definition entry_ok (e : Z) : Prop := 0 <= e < 2 ^ 64.

Lemma e_vector_range e : is_vector (e_vector e).
Proof. apply vector_mask_range. Qed.

Lemma field_testbit x m i : 0 <= i -> Z.testbit m i = false -> Z.land (Z.setbit x i) m = Z.land x m.
Proof.
  intros Hi Hm. apply Z.bits_inj'. intros j Hj. rewrite !Z.land_spec. destruct (Z.eq_dec i j) as [<-|Hne].
  - by rewrite Hm, !andb_false_r.
  - by rewrite Z.setbit_neq.
Qed.

Lemma field_clearbit x m i : 0 <= i -> Z.testbit m i = false -> Z.land (Z.clearbit x i) m = Z.land x m.
Proof.
  intros Hi Hm. apply Z.bits_inj'. intros j Hj. rewrite !Z.land_spec. destruct (Z.eq_dec i j) as [<-|Hne].
  - by rewrite Hm, !andb_false_r.
  - by rewrite Z.clearbit_neq.
Qed.

(** The remote IRR bit is apart from the other fields. *)
Lemma land_shiftr x k m : 0 <= k -> Z.land (Z.shiftr x k) m = Z.shiftr (Z.land x (Z.shiftl m k)) k.
Proof. intros Hk. by rewrite Z.shiftr_land, Z.shiftr_shiftl_l, Z.sub_diag, Z.shiftl_0_r by lia. Qed.

Lemma remote_irr_fields b e :
  e_vector (set_remote_irr b e) = e_vector e /\ message_of (set_remote_irr b e) = message_of e /\
  e_mask (set_remote_irr b e) = e_mask e /\ e_remote_irr (set_remote_irr b e) = b /\
  e_trig_mode (set_remote_irr b e) = e_trig_mode e.
Proof.
  assert (Hl : forall m, Z.testbit m 14 = false -> Z.land (set_remote_irr b e) m = Z.land e m)
    by (intros m Hm; destruct b; [by apply field_testbit|by apply field_clearbit]).
  assert (Hs : forall k m, 0 <= k -> Z.testbit (Z.shiftl m k) 14 = false ->
            Z.land (Z.shiftr (set_remote_irr b e) k) m = Z.land (Z.shiftr e k) m)
    by (intros k m Hk Hm; rewrite !land_shiftr by done; by rewrite Hl).
  unfold message_of, e_vector, e_delivery_mode, e_dest_mode, e_trig_mode, e_dest_id.
  rewrite !Hl, !Hs by (done || lia). split; [done|]. split; [done|]. unfold e_mask, e_remote_irr.
  destruct b; cbn [set_remote_irr].
  - by rewrite Z.setbit_neq, Z.setbit_eq by lia.
  - by rewrite Z.clearbit_neq, Z.clearbit_eq by lia.
Qed.

Lemma bit_ok_set e i k : 0 <= e < 2 ^ k -> 0 <= i < k -> 0 <= Z.setbit e i < 2 ^ k.
Proof.
  intros He Hi. assert (H0 : 0 <= Z.setbit e i) by (unfold Z.setbit; apply Z.lor_nonneg; split; [lia|apply Z.shiftl_nonneg; lia]).
  split; [done|]. apply Z.bounded_iff_bits_nonneg; [lia|done|]. intros j Hj. rewrite Z.setbit_neq by lia.
  rewrite <- (Z.mod_small e (2 ^ k)) by done. by apply Z.mod_pow2_bits_high; lia.
Qed.

Lemma bit_ok_clear e i k : 0 <= e < 2 ^ k -> 0 <= Z.clearbit e i < 2 ^ k.
Proof.
  intros He. unfold Z.clearbit. assert (H := Z.ldiff_nonneg e (Z.shiftl 1 i)).
  split; [apply H; lia|]. apply Z.le_lt_trans with e; [apply ldiff_le; lia|lia].
Qed.

Lemma remote_irr_ok b e : entry_ok e -> entry_ok (set_remote_irr b e).
Proof. intros He. destruct b; [apply bit_ok_set; [done|lia]|by apply bit_ok_clear]. Qed.

(** ** The invariant *)

Definition handles (t : list Z) (vec : Z) : bool := existsb (fun e => e_vector e =? vec) t.
#[local] Arguments handles : simpl never.

Record ioapic_ok (io : kvm_ioapic) : Prop := {
  ok_pins : length (redirtbl io) = 24%nat;
  ok_entries : Forall entry_ok (redirtbl io);
  ok_states : length (io_irq_states io) = 24%nat;
  ok_sources : Forall (fun st => 0 <= st) (io_irq_states io);
  ok_lines : 0 <= io_irr io < 2 ^ 24;
  ok_handled : forall vec, is_vector vec -> kvm_ioapic_handles_vector io vec = handles (redirtbl io) vec;
  ok_rtc : Z.of_nat (size (dest_map io)) <= pending_eoi io
}.

Record irqs_ok {E} (s : irqs E) : Prop := { ok_bus : bus_ok (ibus s); ok_ioapic : ioapic_ok (ioapic s) }.

Lemma entry_at_ok io pin : ioapic_ok io -> 0 <= pin < 24 ->
  exists e, entry_at io pin = Ok e /\ entry_ok e /\ redirtbl io !! Z.to_nat pin = Some e.
Proof.
  intros Hio Hp. unfold entry_at. destruct (lookup_lt_is_Some_2 (redirtbl io) (Z.to_nat pin)) as [e E].
  { rewrite (ok_pins _ Hio). lia. }
  rewrite E. eexists. split; [done|]. split; [|done]. eapply Forall_lookup_1; [apply Hio|done].
Qed.

Lemma entry_at_Some io pin e : redirtbl io !! Z.to_nat pin = Some e -> entry_at io pin = Ok e.
Proof. unfold entry_at. by intros ->. Qed.

Lemma handles_insert t i e e' vec : t !! i = Some e -> e_vector e' = e_vector e ->
  handles (<[i := e']> t) vec = handles t vec.
Proof.
  unfold handles. revert i. induction t as [|x t IH]; intros [|i]; cbn; [done|done| |].
  - intros [= ->] ->. done.
  - intros Hi E. f_equal. by apply IH.
Qed.

Lemma set_entry_ok io pin e e' : ioapic_ok io -> redirtbl io !! Z.to_nat pin = Some e -> entry_ok e' ->
  e_vector e' = e_vector e -> ioapic_ok (set_entry pin e' io).
Proof.
  intros [H1 H2 H3 H4 H5 H6 H7] Hpin He Ev. split; cbn; try done.
  - by rewrite length_insert.
  - by apply Forall_insert.
  - intros vec Hvec. rewrite (handles_insert _ _ e) by done. by apply H6.
Qed.

Lemma with_irr_ok io x : ioapic_ok io -> 0 <= x < 2 ^ 24 -> ioapic_ok (with_irr x io).
Proof. intros [] Hx. by split. Qed.

Lemma with_rtc_ok io n m : ioapic_ok io -> Z.of_nat (size m) <= n -> ioapic_ok (with_rtc n m io).
Proof. intros [] Hx. by split. Qed.

Lemma with_states_ok io t : ioapic_ok io -> length t = 24%nat -> Forall (fun st => 0 <= st) t ->
  ioapic_ok (with_states t io).
Proof. intros [] ? ?. by split. Qed.

Lemma foldl_handled t : forall m vec, 0 <= vec ->
  Z.testbit (foldl (fun m e => Z.setbit m (e_vector e)) m t) vec = Z.testbit m vec || handles t vec.
Proof.
  induction t as [|e t IH]; intros m vec Hv; unfold handles; cbn [foldl existsb]; [by rewrite orb_false_r|].
  fold (handles t vec). rewrite IH by done. pose proof (e_vector_range e) as He. unfold is_vector in He.
  destruct (Z.eqb_spec (e_vector e) vec) as [<-|Hne].
  - rewrite Z.setbit_eq by lia. cbn. by rewrite orb_true_r.
  - by rewrite Z.setbit_neq by lia.
Qed.

Lemma update_handled_ok io : length (redirtbl io) = 24%nat -> Forall entry_ok (redirtbl io) ->
  length (io_irq_states io) = 24%nat -> Forall (fun st => 0 <= st) (io_irq_states io) ->
  0 <= io_irr io < 2 ^ 24 -> Z.of_nat (size (dest_map io)) <= pending_eoi io ->
  ioapic_ok (update_handled_vectors io).
Proof.
  intros H1 H2 H3 H4 H5 H6. split; cbn; try done. intros vec Hv. unfold kvm_ioapic_handles_vector. cbn.
  rewrite foldl_handled by (unfold is_vector in Hv; lia). by rewrite Z.testbit_0_l.
Qed.

(** ** Operations keep it *)

(** The state after an operation: consistent, with the same processors. *)
Record good {E} (s s' : irqs E) : Prop := {
  gd_ok : irqs_ok s';
  gd_ids : vcpu_id <$> vcpus (ibus s') = vcpu_id <$> vcpus (ibus s)
}.

Lemma good_refl {E} (s : irqs E) : irqs_ok s -> good s s.
Proof. by split. Qed.

Lemma good_trans {E} (s1 s2 s3 : irqs E) : good s1 s2 -> good s2 s3 -> good s1 s3.
Proof. intros [_ E1] [H2 E2]. split; [done|]. by rewrite E2. Qed.

Lemma good_length {E} (s s' : irqs E) : good s s' -> length (vcpus (ibus s')) = length (vcpus (ibus s)).
Proof. intros H. apply ids_length, H. Qed.

Lemma good_ioapic {E} (s : irqs E) io : irqs_ok s -> ioapic_ok io -> good s (with_ioapic io s).
Proof. intros [] ?. split; [by split|done]. Qed.

Lemma good_dev {E} (s : irqs E) d : irqs_ok s -> good s (Irqs (ibus s) (ioapic s) d).
Proof. intros []. split; [by split|done]. Qed.

Lemma good_bus {E} (s : irqs E) vs' : irqs_ok s -> bus_step (vcpus (ibus s)) vs' ->
  good s (with_bus (with_vcpus vs' (ibus s)) s).
Proof.
  intros [Hb Hio] Hs. split; [split; [by apply bus_ok_step|done]|]. cbn. by apply bus_step_ids.
Qed.

(** A line's bit. *)
Lemma lines_clear io pin : ioapic_ok io -> ioapic_ok (with_irr (Z.clearbit (io_irr io) pin) io).
Proof. intros Hio. apply with_irr_ok; [done|]. apply bit_ok_clear, Hio. Qed.

Lemma lines_set io pin : ioapic_ok io -> 0 <= pin < 24 -> ioapic_ok (with_irr (Z.setbit (io_irr io) pin) io).
Proof. intros Hio Hp. apply with_irr_ok; [done|]. apply bit_ok_set; [apply Hio|lia]. Qed.

Lemma message_vector e : is_vector (vector (message_of e)).
Proof. apply e_vector_range. Qed.

Lemma message_delivered {E} (s : irqs E) e dm : irqs_ok s ->
  exists r vs' dm', kvm_irq_delivery_to_apic (ibus s) None (message_of e) dm = Ok (r, with_vcpus vs' (ibus s), dm') /\
    delivered (vcpus (ibus s)) dm (- 1) (r, vs', dm').
Proof. intros [Hb _]. apply delivery_ok; [done|apply message_vector|done]. Qed.

Lemma service_ok {E} pin ls (s : irqs E) : irqs_ok s -> 0 <= pin < 24 ->
  (pin = RTC_GSI -> ls = true -> pending_eoi (ioapic s) = 0) ->
  exists r s', ioapic_service pin ls s = Ok (r, s') /\ good s s'.
Proof.
  intros Hs Hp Hrtc. unfold ioapic_service.
  destruct (entry_at_ok (ioapic s) pin (ok_ioapic _ Hs) Hp) as (e & -> & He & Hpin). cbn [mbind res_bind].
  destruct (e_mask e); [do 2 eexists; split; [done|by apply good_refl]|].
  set (s1 := if _ =? IOAPIC_EDGE_TRIG then _ else s).
  assert (Hg1 : good s s1).
  { unfold s1. destruct (_ =? _); [|by apply good_refl]. apply good_ioapic, lines_clear, Hs. done. }
  assert (Hpend : pending_eoi (ioapic s1) = pending_eoi (ioapic s)) by (unfold s1; by destruct (_ =? _)).
  assert (Hpin1 : redirtbl (ioapic s1) !! Z.to_nat pin = Some e) by (unfold s1; by destruct (_ =? _)).
  clearbody s1. pose proof (gd_ok _ _ Hg1) as Hs1.
  match goal with |- context [mbind _ ?f] => assert (exists r s2, f = Ok (r, s2) /\ good s1 s2 /\
    redirtbl (ioapic s2) !! Z.to_nat pin = Some e) as (r & s2 & -> & Hg2 & Hpin2) end.
  { destruct ((pin =? RTC_GSI) && ls) eqn:Er.
    - apply andb_true_iff in Er as [Er%Z.eqb_eq ->]. rewrite Hpend, Hrtc by done. cbn [Z.eqb negb].
      destruct (message_delivered s1 e (dest_map (ioapic s1)) Hs1) as (r & vs' & dm' & -> & [S I L Lo]). cbn in *.
      do 2 eexists. split; [done|]. split; [|done]. eapply good_trans; [by apply good_bus|].
      apply good_ioapic; [by apply good_bus|]. apply with_rtc_ok; [apply Hs1|].
      pose proof (ok_rtc _ (ok_ioapic _ Hs1)) as Hsz. rewrite Hpend, Hrtc in Hsz by done. destruct (Z.ltb_spec r 0); lia.
    - destruct (message_delivered s1 e ∅ Hs1) as (r & vs' & dm' & -> & [S I L Lo]). cbn in *.
      do 2 eexists. split; [done|]. split; [by apply good_bus|done]. }
  cbn [mbind res_bind]. do 2 eexists. split; [done|]. pose proof (good_trans _ _ _ Hg1 Hg2) as Hg.
  destruct (_ && _); [|done]. eapply good_trans; [exact Hg|]. pose proof (gd_ok _ _ Hg2) as Hs2.
  apply good_ioapic; [done|]. eapply set_entry_ok; [apply Hs2|done|by apply remote_irr_ok|apply remote_irr_fields].
Qed.

Lemma set_irq_ok {E} pin lv ls (s : irqs E) : irqs_ok s -> 0 <= pin < 24 ->
  exists r s', ioapic_set_irq pin lv ls s = Ok (r, s') /\ good s s'.
Proof.
  intros Hs Hp. unfold ioapic_set_irq.
  destruct (entry_at_ok (ioapic s) pin (ok_ioapic _ Hs) Hp) as (e & -> & He & Hpin). cbn [mbind res_bind].
  destruct lv; cbn [negb].
  2:{ do 2 eexists. split; [done|]. apply good_ioapic, lines_clear, Hs. done. }
  destruct (_ && _ && _) eqn:Er; [do 2 eexists; split; [done|by apply good_refl]|].
  set (s1 := on_ioapic _ s). assert (Hg1 : good s s1) by (by apply good_ioapic, lines_set, Hp; [|apply Hs]).
  destruct (_ || _); [by do 2 eexists|].
  destruct (service_ok pin ls s1 (gd_ok _ _ Hg1) Hp) as (r & s2 & E2 & Hg2).
  - intros -> ->. cbn. unfold rtc_irq_check_coalesced in Er. cbn in Er. apply Z.ltb_ge in Er.
    pose proof (ok_rtc _ (ok_ioapic _ Hs)). lia.
  - do 2 eexists. split; [exact E2|by eapply good_trans].
Qed.

Lemma line_sources_nonneg st src lv : 0 <= st -> 0 <= src -> 0 <= line_sources st src lv.
Proof.
  intros H Hs. destruct lv; cbn; [unfold Z.setbit; apply Z.lor_nonneg; split; [done|apply Z.shiftl_nonneg; lia]|].
  apply Z.ldiff_nonneg. by left.
Qed.

Lemma kvm_ioapic_set_irq_ok {E} pin src lv ls (s : irqs E) : irqs_ok s -> 0 <= pin < 24 -> 0 <= src < 64 ->
  exists r s', kvm_ioapic_set_irq pin src lv ls s = Ok (r, s') /\ good s s'.
Proof.
  intros Hs Hp Hsrc. unfold kvm_ioapic_set_irq, IOAPIC_NUM_PINS. rewrite !(proj2 (Z.ltb_ge _ _)), !(proj2 (Z.leb_gt _ _)) by lia.
  cbn [orb]. pose proof (ok_ioapic _ Hs) as Hio.
  destruct (lookup_lt_is_Some_2 (io_irq_states (ioapic s)) (Z.to_nat pin)) as [st Est]; [rewrite (ok_states _ Hio); lia|].
  rewrite Est. set (s1 := on_ioapic _ s). assert (Hg : good s s1).
  { apply good_ioapic; [done|]. apply with_states_ok; [done|by rewrite length_insert, (ok_states _ Hio)|].
    apply Forall_insert; [apply Hio|]. apply line_sources_nonneg; [|lia].
    by apply (Forall_lookup_1 _ _ _ _ (ok_sources _ Hio) Est). }
  destruct (set_irq_ok pin (negb (line_sources st src lv =? 0)) ls s1 (gd_ok _ _ Hg) Hp) as (r & s2 & E2 & Hg2).
  do 2 eexists. split; [exact E2|by eapply good_trans].
Qed.

(** *** The clock's tracking *)

(** Only the tracking may differ. *)
Definition same_but_rtc (io io' : kvm_ioapic) : Prop := exists n m, io' = with_rtc n m io.

Lemma same_but_rtc_refl io : same_but_rtc io io.
Proof. exists (pending_eoi io), (dest_map io). by destruct io. Qed.

Lemma same_but_rtc_trans a b c : same_but_rtc a b -> same_but_rtc b c -> same_but_rtc a c.
Proof. intros (n & m & ->) (n' & m' & ->). by exists n', m'. Qed.

Lemma size_add (x : Z) (m : gset Z) : (size ({[ x ]} ∪ m) <= S (size m))%nat.
Proof.
  rewrite (union_comm_L {[ x ]} m), size_union_alt. assert (size ({[ x ]} ∖ m) <= 1)%nat; [|lia].
  rewrite <- (size_singleton (C := gset Z) x). apply subseteq_size. set_solver.
Qed.

Lemma size_remove (x : Z) (m : gset Z) : x ∈ m -> size (m ∖ {[ x ]}) = (size m - 1)%nat /\ (1 <= size m)%nat.
Proof.
  intros Hx. rewrite size_difference by set_solver. rewrite size_singleton. split; [done|].
  rewrite <- (size_singleton (C := gset Z) x). apply subseteq_size. set_solver.
Qed.

(** A processor that is not marked is never unmarked. *)
Lemma restore_one_new f vs i v io : ioapic_ok io -> vs !! i = Some v -> vcpu_id v ∉ dest_map io ->
  exists io', restore_one (S f) vs i io = Ok io' /\ ioapic_ok io' /\ same_but_rtc io io' /\
    dest_map io' ⊆ {[ vcpu_id v ]} ∪ dest_map io.
Proof.
  intros Hio Hv Hn. cbn [restore_one]. rewrite (vcpu_at_Some _ _ _ Hv). cbn [mbind res_bind].
  destruct (entry_at_ok io RTC_GSI Hio ltac:(unfold RTC_GSI; lia)) as (e & -> & _). cbn [mbind res_bind].
  assert (Hsame : exists io', Ok io = Ok io' /\ ioapic_ok io' /\ same_but_rtc io io' /\ dest_map io' ⊆ {[ vcpu_id v ]} ∪ dest_map io).
  { exists io. split; [done|]. split; [done|]. split; [apply same_but_rtc_refl|set_solver]. }
  destruct (negb _); [done|]. rewrite bool_decide_eq_false_2 by done.
  destruct (kvm_apic_pending_eoi _ _); cbn [Bool.eqb]; [|done]. eexists. split; [done|].
  split; [|split; [by do 2 eexists|done]]. apply with_rtc_ok; [done|].
  pose proof (size_add (vcpu_id v) (dest_map io)). pose proof (ok_rtc _ Hio). lia.
Qed.

Lemma restore_from_ok f vs : NoDup (vcpu_id <$> vs) -> forall js io, ioapic_ok io -> NoDup js ->
  (forall j, j ∈ js -> exists v, vs !! j = Some v /\ vcpu_id v ∉ dest_map io) ->
  exists io', restore_from (restore_one (S f) vs) js io = Ok io' /\ ioapic_ok io' /\ same_but_rtc io io'.
Proof.
  intros Hids. induction js as [|j js IH]; intros io Hio Hnd Hjs; cbn [restore_from].
  { exists io. split; [done|]. split; [done|apply same_but_rtc_refl]. }
  apply NoDup_cons in Hnd as [Hj Hnd]. destruct (Hjs j) as (v & Hv & Hn); [by left|].
  destruct (restore_one_new f vs j v io Hio Hv Hn) as (io1 & -> & Hio1 & Hs1 & Hd1). cbn [mbind res_bind].
  destruct (IH io1 Hio1 Hnd) as (io2 & -> & Hio2 & Hs2).
  - intros k Hk. destruct (Hjs k) as (w & Hw & Hnw); [by right|]. exists w. split; [done|]. intros Hin.
    apply Hd1, elem_of_union in Hin as [Hin%elem_of_singleton|Hin]; [|done]. apply Hj.
    assert (j = k) as ->; [|done]. eapply (NoDup_lookup (vcpu_id <$> vs)); [done|..]; rewrite list_lookup_fmap.
    + by rewrite Hv.
    + rewrite Hw. cbn. by rewrite Hin.
  - eexists. split; [done|]. split; [done|by eapply same_but_rtc_trans].
Qed.

Lemma restore_all_ok f vs io : NoDup (vcpu_id <$> vs) -> ioapic_ok (rtc_irq_eoi_tracking_reset io) ->
  exists io', kvm_rtc_eoi_tracking_restore_all (S f) vs io = Ok io' /\ ioapic_ok io' /\ same_but_rtc io io'.
Proof.
  intros Hids Hio. unfold kvm_rtc_eoi_tracking_restore_all.
  destruct (restore_from_ok f vs Hids (seq 0 (length vs)) _ Hio (NoDup_seq _ _)) as (io' & -> & Hio' & Hs).
  - intros j Hj%elem_of_seq. destruct (lookup_lt_is_Some_2 vs j) as [v Hv]; [lia|]. exists v. split; [done|]. set_solver.
  - eexists. split; [done|]. split; [done|]. destruct Hs as (n & m & ->). by exists n, m.
Qed.

(** The counter never gets below 0, so it is never recounted. *)
Lemma restore_one_ok vs i io : ioapic_ok io -> (i < length vs)%nat ->
  exists io', restore_one 2 vs i io = Ok io' /\ ioapic_ok io' /\ same_but_rtc io io'.
Proof.
  intros Hio Hi. destruct (lookup_lt_is_Some_2 vs i Hi) as [v Hv].
  destruct (decide (vcpu_id v ∈ dest_map io)) as [Hin|Hn].
  2:{ destruct (restore_one_new 1 vs i v io Hio Hv Hn) as (io' & ? & ? & ? & _). by exists io'. }
  cbn [restore_one]. rewrite (vcpu_at_Some _ _ _ Hv). cbn [mbind res_bind].
  destruct (entry_at_ok io RTC_GSI Hio ltac:(unfold RTC_GSI; lia)) as (e & -> & _). cbn [mbind res_bind].
  assert (Hsame : exists io', Ok io = Ok io' /\ ioapic_ok io' /\ same_but_rtc io io').
  { exists io. split; [done|]. split; [done|]. apply same_but_rtc_refl. }
  destruct (negb _); [done|]. rewrite bool_decide_eq_true_2 by done.
  destruct (kvm_apic_pending_eoi _ _); cbn [Bool.eqb]; [done|]. destruct (size_remove _ _ Hin) as [E H1].
  pose proof (ok_rtc _ Hio). cbn [with_rtc pending_eoi]. destruct (Z.ltb_spec (pending_eoi io - 1) 0); [lia|].
  eexists. split; [done|]. split; [|by do 2 eexists]. apply with_rtc_ok; [done|]. rewrite E. lia.
Qed.

Lemma rtc_eoi_ok {E} i (s : irqs E) : irqs_ok s -> (i < length (vcpus (ibus s)))%nat ->
  exists s', rtc_irq_eoi i s = Ok s' /\ good s s' /\ same_but_rtc (ioapic s) (ioapic s') /\ ibus s' = ibus s.
Proof.
  intros Hs Hi. unfold rtc_irq_eoi. destruct (lookup_lt_is_Some_2 _ _ Hi) as [v Hv].
  rewrite (vcpu_at_Some _ _ _ Hv). cbn [mbind res_bind]. pose proof (ok_ioapic _ Hs) as Hio. case_bool_decide as Hin.
  2:{ eexists. split; [done|]. split; [by apply good_refl|]. split; [apply same_but_rtc_refl|done]. }
  destruct (size_remove _ _ Hin) as [E' H1]. pose proof (ok_rtc _ Hio).
  unfold rtc_status_pending_eoi_check_valid. cbn [with_rtc pending_eoi].
  destruct (Z.ltb_spec (pending_eoi (ioapic s) - 1) 0); [lia|]. cbn [mbind res_bind]. eexists. split; [done|].
  split; [|split; [by do 2 eexists|done]]. apply good_ioapic, with_rtc_ok; [done..|]. rewrite E'. lia.
Qed.

(** *** The end of interrupt and the registers *)

(** What the controllers rely on when they tell the devices of an
    acknowledgement: with the devices' own invariant [P], it completes and
    leaves them and the controllers consistent. *)
Class AckNotifier {E} (P : E -> Prop) (ack : Z -> irqs E -> res (irqs E)) : Prop :=
  ack_good : forall pin s, irqs_ok s -> P (dev s) -> 0 <= pin < 24 ->
    exists s', ack pin s = Ok s' /\ good s s' /\ P (dev s').

#[export] Instance no_ack {E} (P : E -> Prop) : AckNotifier P (fun _ s => Ok s).
Proof. intros pin s Hs HP _. eexists. split; [done|]. split; [by apply good_refl|done]. Qed.

(** The controllers' own steps leave the devices alone. *)
Lemma service_dev {E} pin ls (s : irqs E) r s' : ioapic_service pin ls s = Ok (r, s') -> dev s' = dev s.
Proof.
  unfold ioapic_service. destruct (entry_at _ _) as [e|]; [cbn [mbind res_bind]|done].
  destruct (e_mask e); [by intros [= _ <-]|]. set (s1 := if _ =? IOAPIC_EDGE_TRIG then _ else s).
  assert (E1 : dev s1 = dev s) by (unfold s1; by destruct (_ =? _)). clearbody s1. rewrite <- E1. intros E2.
  destruct (_ && ls) in E2; [destruct (negb _) in E2; [done|]|];
    destruct (kvm_irq_delivery_to_apic _ _ _ _) as [[[r1 b] dm]|] in E2; cbn in E2; [|done|..|done];
    injection E2 as _ <-; by destruct (_ && _).
Qed.

Lemma set_irq_dev {E} pin lv ls (s : irqs E) r s' : ioapic_set_irq pin lv ls s = Ok (r, s') -> dev s' = dev s.
Proof.
  unfold ioapic_set_irq. destruct (entry_at _ _) as [e|]; [cbn [mbind res_bind]|done].
  destruct (negb lv); [by intros [= _ <-]|]. destruct (_ && _ && _); [by intros [= _ <-]|].
  destruct (_ || _); [by intros [= _ <-]|]. intros Es. by rewrite (service_dev _ _ _ _ _ Es).
Qed.

Lemma kvm_ioapic_set_irq_dev {E} pin src lv ls (s : irqs E) r s' :
  kvm_ioapic_set_irq pin src lv ls s = Ok (r, s') -> dev s' = dev s.
Proof. unfold kvm_ioapic_set_irq. do 2 (destruct (_ || _); [done|]). destruct (_ !! _); [|done]. intros Es. by rewrite (set_irq_dev _ _ _ _ _ _ Es). Qed.

Lemma rtc_eoi_dev {E} i (s s' : irqs E) : rtc_irq_eoi i s = Ok s' -> dev s' = dev s.
Proof.
  unfold rtc_irq_eoi. destruct (vcpu_at _ _); [cbn [mbind res_bind]|done]. destruct (bool_decide _); [|by intros [= <-]].
  destruct (rtc_status_pending_eoi_check_valid _ _ _); [|done]. by intros [= <-].
Qed.

Lemma pins_range : Forall (fun p => 0 <= p < 24) (seqZ 0 IOAPIC_NUM_PINS).
Proof. apply Forall_forall. intros p Hp%elem_of_seqZ. unfold IOAPIC_NUM_PINS in Hp. lia. Qed.

Lemma write_half_ok high val e : 0 <= val < 2 ^ 32 -> entry_ok e -> entry_ok (write_half high val e).
Proof.
  intros Hv He. assert (Hor : forall a b, entry_ok a -> entry_ok b -> entry_ok (Z.lor a b)).
  { unfold entry_ok. intros a b Ha Hb. assert (0 <= Z.lor a b) by (apply Z.lor_nonneg; lia). split; [done|].
    apply Z.bounded_iff_bits_nonneg; [lia|done|]. intros j Hj. rewrite Z.lor_spec.
    rewrite <- (Z.mod_small a (2 ^ 64)), <- (Z.mod_small b (2 ^ 64)) by done. by rewrite !Z.mod_pow2_bits_high by lia. }
  unfold write_half. destruct high; [|apply remote_irr_ok]; apply Hor; unfold entry_ok in *.
  - split; [apply Z.land_nonneg; lia|]. apply Z.le_lt_trans with 0xffffffff; [apply land_le_r; lia|lia].
  - rewrite Z.shiftl_mul_pow2 by lia. change (2 ^ 64) with (2 ^ 32 * 2 ^ 32). nia.
  - split; [apply Z.ldiff_nonneg; lia|]. apply Z.le_lt_trans with e; [apply ldiff_le; lia|lia].
  - change (2 ^ 64) with (2 ^ 32 * 2 ^ 32). nia.
Qed.

Lemma request_scan_good {E} (s : irqs E) : irqs_ok s -> good s (with_bus (kvm_vcpu_request_scan_ioapic (ibus s)) s).
Proof.
  intros [[Hv Hid Hm] Hio]. split; [split; [split; cbn|done]|]; cbn.
  - by apply scan_ok.
  - by rewrite scan_ids.
  - by rewrite length_fmap.
  - apply scan_ids.
Qed.

Lemma write_entry_ok io index e e' : ioapic_ok io -> 0 <= index < 24 -> redirtbl io !! Z.to_nat index = Some e ->
  entry_ok e' -> ioapic_ok (update_handled_vectors (set_entry index e' io)).
Proof.
  intros Hio Hi He He'. apply update_handled_ok; cbn; try apply Hio.
  - rewrite length_insert. apply Hio.
  - apply Forall_insert; [apply Hio|done].
Qed.

Section laws.
  Context {E : Type} (P : E -> Prop) (ack : Z -> irqs E -> res (irqs E)) `{!AckNotifier P ack}.
  Context (fire_mask : Z -> bool -> E -> E).

Lemma eoi_pin_ok i vec tm pin s : irqs_ok s -> P (dev s) -> (i < length (vcpus (ibus s)))%nat -> 0 <= pin < 24 ->
  exists s', eoi_pin ack i vec tm pin s = Ok s' /\ good s s' /\ P (dev s').
Proof.
  intros Hs HP Hi Hp. unfold eoi_pin.
  destruct (entry_at_ok (ioapic s) pin (ok_ioapic _ Hs) Hp) as (e & -> & _). cbn [mbind res_bind].
  destruct (negb _); [eexists; split; [done|]; split; [by apply good_refl|done]|].
  assert (exists s1, (if pin =? RTC_GSI then rtc_irq_eoi i s else Ok s) = Ok s1 /\ good s s1 /\ P (dev s1))
    as (s1 & -> & Hg1 & HP1).
  { destruct (_ =? _); [|eexists; split; [done|]; split; [by apply good_refl|done]].
    destruct (rtc_eoi_ok i s Hs Hi) as (s1 & E1 & Hg1 & _). exists s1. split; [done|]. by rewrite (rtc_eoi_dev i s s1 E1). }
  cbn [mbind res_bind]. destruct (ack_good pin s1 (gd_ok _ _ Hg1) HP1 Hp) as (s2 & -> & Hg2 & HP2). cbn [mbind res_bind].
  pose proof (good_trans _ _ _ Hg1 Hg2) as Hg. destruct (negb _); [by eauto|].
  pose proof (gd_ok _ _ Hg2) as Hs2.
  destruct (entry_at_ok (ioapic s2) pin (ok_ioapic _ Hs2) Hp) as (e2 & -> & He2 & Hpin2). cbn [mbind res_bind].
  set (s3 := on_ioapic _ s2). assert (Hg3 : good s2 s3).
  { apply good_ioapic; [done|]. eapply set_entry_ok; [apply Hs2|done|by apply remote_irr_ok|apply remote_irr_fields]. }
  destruct (Z.testbit _ _); [|by eauto using good_trans].
  destruct (service_ok pin false s3 (gd_ok _ _ Hg3) Hp) as (r & s4 & E4 & Hg4); [done|]. rewrite E4.
  eexists. split; [done|]. split; [by eauto using good_trans|]. by rewrite (service_dev _ _ _ _ _ E4).
Qed.

Lemma eoi_from_ok i vec tm pins : forall s, irqs_ok s -> P (dev s) -> (i < length (vcpus (ibus s)))%nat ->
  Forall (fun p => 0 <= p < 24) pins -> exists s', eoi_from ack i vec tm pins s = Ok s' /\ good s s' /\ P (dev s').
Proof.
  induction pins as [|p pins IH]; intros s Hs HP Hi Hp; cbn [eoi_from].
  { eexists. split; [done|]. split; [by apply good_refl|done]. }
  apply Forall_cons in Hp as [Hp Hps].
  destruct (eoi_pin_ok i vec tm p s Hs HP Hi Hp) as (s1 & -> & Hg1 & HP1). cbn [mbind res_bind].
  destruct (IH s1 (gd_ok _ _ Hg1) HP1) as (s2 & -> & Hg2 & HP2); [by rewrite (good_length s)|done|]. eauto using good_trans.
Qed.

Lemma update_eoi_ok i vec tm s : irqs_ok s -> P (dev s) -> (i < length (vcpus (ibus s)))%nat ->
  exists s', kvm_ioapic_update_eoi ack i vec tm s = Ok s' /\ good s s' /\ P (dev s').
Proof. intros Hs HP Hi. apply eoi_from_ok; [done|done|done|apply pins_range]. Qed.

Lemma write_indirect_ok val s : irqs_ok s -> 0 <= val < 2 ^ 32 ->
  exists s', ioapic_write_indirect fire_mask val s = Ok s' /\ good s s'.
Proof.
  intros Hs Hv. unfold ioapic_write_indirect.
  destruct (_ =? IOAPIC_REG_VERSION); [eexists; split; [done|by apply good_refl]|].
  destruct (_ =? IOAPIC_REG_APIC_ID).
  { eexists. split; [done|]. apply good_ioapic; [done|]. destruct Hs as [_ []]. by split. }
  destruct (_ =? IOAPIC_REG_ARB_ID); [eexists; split; [done|by apply good_refl]|].
  set (index := Z.shiftr _ 1). assert (Hi0 : 0 <= index) by (apply Z.shiftr_nonneg, Z.mod_pos_bound; lia).
  destruct (Z.leb_spec IOAPIC_NUM_PINS index) as [|Hi]; [eexists; split; [done|by apply good_refl]|].
  unfold IOAPIC_NUM_PINS in Hi. assert (Hix : 0 <= index < 24) by lia. clearbody index.
  destruct (entry_at_ok (ioapic s) index (ok_ioapic _ Hs) Hix) as (e & -> & He & Hpin). cbn [mbind res_bind].
  set (e' := write_half _ val e). set (s1 := on_ioapic _ s).
  assert (Hg1 : good s s1) by (apply good_ioapic; [done|]; eapply write_entry_ok; [apply Hs|done|done|by apply write_half_ok]).
  set (s2 := if Bool.eqb _ _ then s1 else _). assert (Hg2 : good s s2).
  { unfold s2. destruct (Bool.eqb _ _); [done|]. eapply good_trans; [exact Hg1|]. apply good_dev, Hg1. }
  clearbody s2. match goal with |- context [mbind _ ?f] => assert (exists s3, f = Ok s3 /\ good s s3) as (s3 & -> & Hg3) end.
  { destruct (_ && _); [|by eauto]. destruct (service_ok index false s2 (gd_ok _ _ Hg2) Hix) as (r & s3 & -> & Hg3); [done|].
    eauto using good_trans. }
  cbn [mbind res_bind]. eexists. split; [done|]. eapply good_trans; [exact Hg3|]. apply request_scan_good, Hg3.
Qed.

(** A write changes the devices only through the mask notifiers. *)
Lemma write_indirect_dev val s s' : ioapic_write_indirect fire_mask val s = Ok s' ->
  dev s' = dev s \/ exists pin b, dev s' = fire_mask pin b (dev s).
Proof.
  unfold ioapic_write_indirect. destruct (_ =? IOAPIC_REG_VERSION); [intros [= <-]; by left|].
  destruct (_ =? IOAPIC_REG_APIC_ID); [intros [= <-]; by left|]. destruct (_ =? IOAPIC_REG_ARB_ID); [intros [= <-]; by left|].
  set (index := Z.shiftr _ 1). destruct (_ <=? index); [intros [= <-]; by left|].
  destruct (entry_at _ _) as [e|]; [cbn [mbind res_bind]|done]. set (e' := write_half _ val e).
  set (s2 := if Bool.eqb _ _ then _ else _). assert (E2 : dev s2 = dev s \/ exists pin b, dev s2 = fire_mask pin b (dev s)).
  { unfold s2. destruct (Bool.eqb _ _); [by left|right; by do 2 eexists]. }
  clearbody s2. destruct (_ && _); [destruct (ioapic_service _ _ _) as [[r s3]|] eqn:E3; [|done]|].
  - cbn. intros [= <-]. cbn. by rewrite (service_dev _ _ _ _ _ E3).
  - cbn. by intros [= <-].
Qed.

Lemma mmio_write_dev addr len val s r s' : ioapic_mmio_write fire_mask addr len val s = Ok (r, s') ->
  dev s' = dev s \/ exists pin b, dev s' = fire_mask pin b (dev s).
Proof.
  unfold ioapic_mmio_write. destruct (negb _); [intros [= _ <-]; by left|].
  set (data := if _ || _ then _ else _). clearbody data. destruct data as [d|]; [|intros [= _ <-]; by left].
  destruct (_ =? IOAPIC_REG_SELECT); [intros [= _ <-]; by left|].
  destruct (_ =? IOAPIC_REG_WINDOW); [|intros [= _ <-]; by left].
  destruct (ioapic_write_indirect _ _ _) as [s1|] eqn:E1; [|done]. intros [= _ <-]. by eapply write_indirect_dev.
Qed.

Lemma mmio_write_ok addr len val s : irqs_ok s ->
  exists r s', ioapic_mmio_write fire_mask addr len val s = Ok (r, s') /\ good s s'.
Proof.
  intros Hs. unfold ioapic_mmio_write. destruct (negb _); [do 2 eexists; split; [done|by apply good_refl]|].
  set (data := if _ || _ then Some (u32 val) else _).
  assert (Hd : forall d, data = Some d -> 0 <= d < 2 ^ 32).
  { intros d. unfold data. repeat case_match; intros [= <-]; unfold u32, u16, u8.
    - apply Z.mod_pos_bound; lia.
    - pose proof (Z.mod_pos_bound val (2 ^ 16)). lia.
    - pose proof (Z.mod_pos_bound val (2 ^ 8)). lia. }
  clearbody data. destruct data as [d|]; [|do 2 eexists; split; [done|by apply good_refl]].
  destruct (_ =? IOAPIC_REG_SELECT).
  { do 2 eexists. split; [done|]. apply good_ioapic; [done|]. destruct Hs as [_ []]. by split. }
  destruct (_ =? IOAPIC_REG_WINDOW); [|do 2 eexists; split; [done|by apply good_refl]].
  destruct (write_indirect_ok d s Hs (Hd d eq_refl)) as (s' & -> & Hg). by do 2 eexists.
Qed.
End laws.

(** *** Saved states *)

Lemma inject_from_ok {E} pins : forall s : irqs E, irqs_ok s -> Forall (fun p => 0 <= p < 24) pins ->
  exists s', inject_from pins s = Ok s' /\ good s s'.
Proof.
  induction pins as [|p pins IH]; intros s Hs Hp; cbn [inject_from].
  { eexists. split; [done|by apply good_refl]. }
  apply Forall_cons in Hp as [Hp Hps]. destruct (set_irq_ok p true true s Hs Hp) as (r & s1 & -> & Hg1). cbn [mbind res_bind].
  destruct (IH s1 (gd_ok _ _ Hg1) Hps) as (s2 & -> & Hg2). eauto using good_trans.
Qed.

Lemma inject_all_ok {E} irr (s : irqs E) : irqs_ok s -> exists s', kvm_ioapic_inject_all irr s = Ok s' /\ good s s'.
Proof.
  intros Hs. unfold kvm_ioapic_inject_all. set (s0 := on_ioapic _ s).
  assert (Hg0 : good s s0) by (apply good_ioapic, with_rtc_ok; [done|apply Hs|done]).
  destruct (inject_from_ok (filter (fun i => Z.testbit irr i = true) (seqZ 0 IOAPIC_NUM_PINS)) s0 (gd_ok _ _ Hg0))
    as (s1 & -> & Hg1).
  { apply Forall_forall. intros p Hp. apply list_elem_of_filter in Hp as [_ Hp]. revert p Hp. apply Forall_forall, pins_range. }
  cbn [mbind res_bind]. pose proof (gd_ok _ _ Hg1) as [Hb1 Hio1].
  destruct (restore_all_ok 0 (vcpus (ibus s1)) (ioapic s1) (bo_ids _ Hb1)) as (io & -> & Hio & _).
  { apply with_rtc_ok; [done|]. by rewrite size_empty. }
  cbn [mbind res_bind]. eexists. split; [done|]. eapply good_trans; [exact Hg0|]. eapply good_trans; [exact Hg1|].
  by apply good_ioapic.
Qed.

(** A saved state that the kernel wrote. *)
Record state_ok (st : kvm_ioapic_state) : Prop := {
  so_pins : length (st_redirtbl st) = 24%nat;
  so_entries : Forall entry_ok (st_redirtbl st)
}.

Lemma set_ioapic_ok {E} st (s : irqs E) : irqs_ok s -> state_ok st ->
  exists s', kvm_set_ioapic st s = Ok s' /\ good s s'.
Proof.
  intros Hs [Hl He]. unfold kvm_set_ioapic. set (s1 := on_ioapic _ s).
  assert (Hg1 : good s s1).
  { apply good_ioapic; [done|]. destruct Hs as [_ []]. by apply update_handled_ok. }
  pose proof (request_scan_good s1 (gd_ok _ _ Hg1)) as Hg2. set (s2 := with_bus _ s1) in *.
  destruct (inject_all_ok (st_irr st) s2 (gd_ok _ _ Hg2)) as (s3 & -> & Hg3). eauto using good_trans.
Qed.

(** *** The scan for level-triggered vectors *)

Lemma tmr_get tmr l : forall a r, kvm_apic_get_reg (foldl (set_tmr_word tmr) a l) r =
  if decide (r ∈ (fun i => APIC_TMR + 0x10 * i) <$> l)
  then Z.land (Z.shiftr tmr (32 * ((r - APIC_TMR) / 0x10))) 0xffffffff else kvm_apic_get_reg a r.
Proof.
  induction l as [|i l IH]; intros a r; cbn [foldl fmap list_fmap].
  { by rewrite decide_False by apply not_elem_of_nil. }
  rewrite IH. unfold set_tmr_word at 1. rewrite get_set_reg.
  destruct (decide (r ∈ (fun i => APIC_TMR + 0x10 * i) <$> l)) as [Hin|Hn].
  - by rewrite decide_True by (by right).
  - destruct (decide (APIC_TMR + 16 * i = r)) as [<-|Hne].
    + rewrite decide_True by (by left).
      replace (APIC_TMR + 16 * i - APIC_TMR) with (i * 16) by lia. by rewrite Z.div_mul.
    + rewrite decide_False; [done|]. rewrite elem_of_cons. intros [E|Hin]; [by apply Hne|done].
Qed.

Lemma update_tmr_test tmr a w b : 0 <= tmr -> is_bitmap b -> is_vector w ->
  apic_test_vector (kvm_apic_update_tmr tmr a) w b =
  if decide (b = APIC_TMR) then Z.testbit tmr w else apic_test_vector a w b.
Proof.
  intros Ht Hb Hw. unfold apic_test_vector, kvm_apic_update_tmr. rewrite tmr_get. pose proof (vec_div w Hw).
  rewrite REG_POS_eq by done. destruct (decide (b = APIC_TMR)) as [->|Hne].
  - rewrite decide_True by (apply list_elem_of_fmap; exists (w / 32); split; [done|apply elem_of_seqZ; lia]).
    replace (APIC_TMR + 16 * (w / 32) - APIC_TMR) with (w / 32 * 16) by lia. rewrite Z.div_mul by lia.
    rewrite VEC_POS_eq. pose proof (Z.mod_pos_bound w 32 ltac:(lia)). change 0xffffffff with (Z.ones 32).
    rewrite Z.land_spec, Z.shiftr_spec, Z.testbit_ones_nonneg by lia. destruct (Z.ltb_spec (w mod 32) 32); [|lia].
    rewrite andb_true_r. f_equal. rewrite (Z.div_mod w 32) at 3 by lia. lia.
  - rewrite decide_False; [done|]. intros (i & E & Hi%elem_of_seqZ)%list_elem_of_fmap. unfold is_bitmap, APIC_ISR, APIC_TMR, APIC_IRR in *. lia.
Qed.

Lemma update_tmr_plain tmr a r : plain_reg r -> kvm_apic_get_reg (kvm_apic_update_tmr tmr a) r = kvm_apic_get_reg a r.
Proof.
  intros Hr. unfold kvm_apic_update_tmr. rewrite tmr_get, decide_False; [done|].
  intros (i & E & Hi%elem_of_seqZ)%list_elem_of_fmap. unfold plain_reg, APIC_TMR in *. lia.
Qed.

Lemma tmr_words_same tmr l : forall a,
  irr_pending (foldl (set_tmr_word tmr) a l) = irr_pending a /\ isr_count (foldl (set_tmr_word tmr) a l) = isr_count a /\
  highest_isr_cache (foldl (set_tmr_word tmr) a l) = highest_isr_cache a /\
  (regs_ok a -> regs_ok (foldl (set_tmr_word tmr) a l)).
Proof.
  induction l as [|i l IH]; intros a; cbn [foldl]; [done|].
  destruct (IH (set_tmr_word tmr a i)) as (-> & -> & -> & Hr). repeat (split; [done|]).
  intros Ha. apply Hr, regs_ok_set; [done|]. apply land_word. lia.
Qed.

Lemma update_tmr_ok tmr a : 0 <= tmr -> lapic_ok a -> lapic_ok (kvm_apic_update_tmr tmr a).
Proof.
  intros Ht Ha. destruct (tmr_words_same tmr (seqZ 0 8) a) as (E1 & E2 & E3 & Hr).
  apply (lapic_ok_frame a); [done|apply Hr, Ha|..]; try done; intros v Hv;
    rewrite update_tmr_test by auto with apic; by rewrite decide_False.
Qed.

(** The level-triggered vectors of the entries that address a processor. *)
Definition level_vector (v : kvm_vcpu) (i : nat) (vec e : Z) : bool :=
  negb (e_mask e) && (e_trig_mode e =? IOAPIC_LEVEL_TRIG) && targeted e v i && (e_vector e =? vec).

Lemma scan_fold hn v i vec l : 0 <= vec -> forall bits, 0 <= bits.2 ->
  0 <= (foldl (scan_one hn v i) bits l).2 /\
  Z.testbit (foldl (scan_one hn v i) bits l).2 vec = Z.testbit bits.2 vec || existsb (fun pe => level_vector v i vec pe.2) l.
Proof.
  intros Hvec. induction l as [|[p e] l IH]; intros bits Hb; cbn [foldl existsb]; [by rewrite orb_false_r|].
  pose proof (e_vector_range e) as He. unfold is_vector in He.
  assert (Hone : 0 <= (scan_one hn v i bits (p, e)).2 /\
    Z.testbit (scan_one hn v i bits (p, e)).2 vec = Z.testbit bits.2 vec || level_vector v i vec e).
  { unfold scan_one, level_vector. destruct (e_mask e), (e_trig_mode e =? IOAPIC_LEVEL_TRIG), (targeted e v i); cbn;
      rewrite ?orb_false_r; try done; try (destruct (hn p || (p =? RTC_GSI)); cbn; done).
    split; [unfold Z.setbit; apply Z.lor_nonneg; split; [done|apply Z.shiftl_nonneg; lia]|].
    rewrite Z.setbit_eqb by lia. destruct (e_vector e =? vec); [by rewrite orb_true_r|by rewrite orb_false_r]. }
  destruct Hone as [Hn Ht]. destruct (IH _ Hn) as [Hn' ->]. split; [done|]. by rewrite Ht, orb_assoc.
Qed.

Lemma existsb_zip {A B} (f : B -> bool) (l : list B) : forall ps : list A, length ps = length l ->
  existsb (fun pe => f pe.2) (zip ps l) = existsb f l.
Proof. induction l as [|x l IH]; intros [|p ps] Hl; cbn in *; try done. by rewrite IH by lia. Qed.

Lemma scan_entry_spec hn v i io vec : ioapic_ok io -> is_vector vec ->
  0 <= (kvm_ioapic_scan_entry hn v i io).2 /\
  Z.testbit (kvm_ioapic_scan_entry hn v i io).2 vec = existsb (level_vector v i vec) (redirtbl io).
Proof.
  intros Hio Hv. unfold kvm_ioapic_scan_entry.
  destruct (scan_fold hn v i vec (zip (seqZ 0 IOAPIC_NUM_PINS) (redirtbl io)) ltac:(unfold is_vector in Hv; lia) (0, 0)) as [H1 ->]; [done|].
  split; [done|]. cbn [snd]. rewrite Z.testbit_0_l. cbn [orb]. apply existsb_zip. by rewrite (ok_pins _ Hio), length_seqZ.
Qed.

Lemma vcpu_scan_spec {E} hn i (s : irqs E) v : irqs_ok s -> vcpus (ibus s) !! i = Some v ->
  exists s' v', vcpu_scan_ioapic hn i s = Ok s' /\ good s s' /\ ioapic s' = ioapic s /\ dev s' = dev s /\
    ibus s' = with_vcpus (<[i := v']> (vcpus (ibus s))) (ibus s) /\
    req_scan_ioapic v' = false /\ apic_base v' = apic_base v /\
    (forall r, plain_reg r -> kvm_apic_get_reg (apic v') r = kvm_apic_get_reg (apic v) r) /\
    (forall w b, is_bitmap b -> is_vector w -> apic_test_vector (apic v') w b =
       if decide (b = APIC_TMR) then
         if kvm_apic_hw_enabled v then existsb (level_vector v i w) (redirtbl (ioapic s)) else apic_test_vector (apic v) w b
       else apic_test_vector (apic v) w b).
Proof.
  intros Hs Hv. unfold vcpu_scan_ioapic. rewrite (vcpu_at_Some _ _ _ Hv). cbn [mbind res_bind].
  apply lookup_lt_Some in Hv as Hi.
  destruct (on_vcpu_at i (with_scan false) (ibus s) v Hv) as [E1 Hv1].
  destruct (bus_op_vcpu _ i (with_scan false) Hi (vcpu_op_other (with_scan false) (fun _ => eq_refl) (fun _ => eq_refl)) _ (ok_bus _ Hs) eq_refl)
    as (b1 & Eb1 & Hb1 & Hid1). rewrite E1 in Eb1. injection Eb1 as <-. rewrite E1. cbn [mbind res_bind].
  destruct (kvm_apic_hw_enabled v) eqn:Ehw; cbn [negb].
  2:{ do 2 eexists. split; [done|]. split; [split; [split; [done|apply Hs]|done]|]. do 6 (split; [done|]).
      intros w b _ _. by case_decide. }
  destruct (kvm_ioapic_scan_entry hn v i (ioapic s)) as [ex tmr] eqn:Esc.
  assert (Hsc : forall vec, is_vector vec -> 0 <= tmr /\ Z.testbit tmr vec = existsb (level_vector v i vec) (redirtbl (ioapic s))).
  { intros vec Hvec. pose proof (scan_entry_spec hn v i (ioapic s) vec (ok_ioapic _ Hs) Hvec) as H. by rewrite Esc in H. }
  destruct (Hsc 0 ltac:(unfold is_vector; lia)) as [Ht _].
  set (b1 := with_vcpus _ (ibus s)) in *.
  destruct (on_vcpu_at i (on_apic (kvm_apic_update_tmr tmr)) b1 _ Hv1) as [E2 Hv2].
  destruct (bus_op_vcpu _ i (on_apic (kvm_apic_update_tmr tmr)) Hi (vcpu_op_apic _ (fun a => update_tmr_ok tmr a Ht)) b1 Hb1
    (ids_length _ _ Hid1)) as (b2 & Eb2 & Hb2 & Hid2). rewrite E2 in Eb2. injection Eb2 as <-. rewrite E2. cbn [mbind res_bind].
  do 2 eexists. split; [done|]. split; [split; [split; [exact Hb2|apply Hs]|by rewrite <- Hid1]|].
  do 2 (split; [done|]). split; [cbn; unfold with_vcpus; f_equal; cbn; by rewrite list_insert_insert_eq|].
  do 2 (split; [done|]). split; [intros r Hr; by apply update_tmr_plain|].
  intros w b Hb Hw. cbn [apic on_apic with_apic with_scan]. rewrite update_tmr_test by done. case_decide; [|done]. apply Hsc, Hw.
Qed.

(** ** What a service does *)

(** The I/O APIC after a message of pin [pin] with result [r]. *)
Definition served (pin e r : Z) (io : kvm_ioapic) : kvm_ioapic :=
  let io := if e_trig_mode e =? IOAPIC_EDGE_TRIG then with_irr (Z.clearbit (io_irr io) pin) io else io in
  if negb (r =? 0) && (e_trig_mode e =? IOAPIC_LEVEL_TRIG) then set_entry pin (set_remote_irr true e) io else io.

Lemma service_spec {E} pin (s : irqs E) e : irqs_ok s -> entry_at (ioapic s) pin = Ok e -> e_mask e = false ->
  exists r vs' dm', kvm_irq_delivery_to_apic (ibus s) None (message_of e) ∅ = Ok (r, with_vcpus vs' (ibus s), dm') /\
    ioapic_service pin false s = Ok (r, Irqs (with_vcpus vs' (ibus s)) (served pin e r (ioapic s)) (dev s)).
Proof.
  intros Hs He Hm. destruct (message_delivered s e ∅ Hs) as (r & vs' & dm' & E' & _). exists r, vs', dm'. split; [done|].
  unfold ioapic_service. rewrite He. cbn [mbind res_bind]. rewrite Hm, andb_false_r. unfold served.
  change (trig_mode (message_of e)) with (e_trig_mode e).
  destruct (e_trig_mode e =? IOAPIC_EDGE_TRIG); cbn [ibus on_ioapic with_ioapic]; rewrite E'; cbn [mbind res_bind];
    by destruct (negb _ && _).
Qed.

(** ** A level-triggered line *)

(** What a level-triggered pin promises: a set of sources asserts the line;
    a message is in flight from the time it is sent until the end of
    interrupt, and one is sent whenever the line is asserted with none in
    flight. *)
Record line_spec := LineSpec { sources : Z; in_flight : bool; spec_bus : bus }.

Inductive line_change :=
| Source (src : Z) (lv : bool)       (** a source changes its level *)
| Wake (k : nat).                    (** processor [k] is to look for interrupts *)

Inductive line_op :=
| Change (c : line_change)
| Eoi (i : nat)                      (** processor [i] ended the interrupt *)
| Elsewhere (b : bus).               (** the processors did something else *)

Definition wake (k : nat) (b : bus) : bus := with_vcpus (alter request_event k (vcpus b)) b.

(** A message was sent: the processors it addresses have the vector requested
    and look for interrupts, the others are as before. *)
Definition sent (irq : kvm_lapic_irq) (b : bus) : bus :=
  with_vcpus (imap (fun k v => if targets None irq (vcpus b) k then request_event (on_apic (apic_set_irr (vector irq)) v) else v) (vcpus b)) b.

Definition spec_change (irq : kvm_lapic_irq) (c : line_change) (l : line_spec) : line_spec :=
  match c with
  | Source src lv =>
      let srcs := line_sources (sources l) src lv in
      if (srcs =? 0) || in_flight l then LineSpec srcs (in_flight l) (spec_bus l)
      else LineSpec srcs true (sent irq (spec_bus l))
  | Wake k => LineSpec (sources l) (in_flight l) (wake k (spec_bus l))
  end.
Definition spec_changes (irq : kvm_lapic_irq) (cs : list line_change) (l : line_spec) : line_spec :=
  foldl (fun l c => spec_change irq c l) l cs.
Definition spec_end (irq : kvm_lapic_irq) (l : line_spec) : line_spec :=
  if sources l =? 0 then LineSpec 0 false (spec_bus l) else LineSpec (sources l) true (sent irq (spec_bus l)).

(** When an interrupt ends, the devices that are told of it change the line
    first, in one of the ways [may] allows. *)
Inductive spec_step (may : list line_change -> Prop) (irq : kvm_lapic_irq) : line_op -> line_spec -> line_spec -> Prop :=
| spec_step_change c l : spec_step may irq (Change c) l (spec_change irq c l)
| spec_step_eoi i cs l : may cs -> spec_step may irq (Eoi i) l (spec_end irq (spec_changes irq cs l))
| spec_step_elsewhere b l : spec_step may irq (Elsewhere b) l (LineSpec (sources l) (in_flight l) b).

Inductive spec_run (may : list line_change -> Prop) (irq : kvm_lapic_irq) : list line_op -> line_spec -> line_spec -> Prop :=
| spec_run_nil l : spec_run may irq [] l l
| spec_run_cons o os l l1 l2 : spec_step may irq o l l1 -> spec_run may irq os l1 l2 -> spec_run may irq (o :: os) l l2.

(** The same operations on the I/O APIC. *)
Definition change_step {E} (pin : Z) (c : line_change) (s : irqs E) : res (irqs E) :=
  match c with
  | Source src lv => '(_, s) ← kvm_ioapic_set_irq pin src lv false s; Ok s
  | Wake k => Ok (with_bus (wake k (ibus s)) s)
  end.
Fixpoint change_all {E} (pin : Z) (cs : list line_change) (s : irqs E) : res (irqs E) :=
  match cs with [] => Ok s | c :: cs => s ← change_step pin c s; change_all pin cs s end.

Definition pin_step {E} (ack : Z -> irqs E -> res (irqs E)) (pin vec : Z) (o : line_op) (s : irqs E) : res (irqs E) :=
  match o with
  | Change c => change_step pin c s
  | Eoi i => kvm_ioapic_update_eoi ack i vec IOAPIC_LEVEL_TRIG s
  | Elsewhere b => Ok (with_bus b s)
  end.

Fixpoint pin_run {E} (ack : Z -> irqs E -> res (irqs E)) (pin vec : Z) (os : list line_op) (s : irqs E) : res (irqs E) :=
  match os with
  | [] => Ok s
  | o :: os => s ← pin_step ack pin vec o s; pin_run ack pin vec os s
  end.

Definition change_ok (c : line_change) : Prop := match c with Source src _ => 0 <= src < 64 | Wake _ => True end.

(** The notifiers of an acknowledgement change the line, in a way [may] allows,
    and the state of the devices, which stay [fine]. *)
Definition reacts {E} (fine : E -> Prop) (may : list line_change -> Prop) (pin : Z) (ack : irqs E -> res (irqs E)) (s : irqs E) : Prop :=
  exists cs d, may cs /\ Forall change_ok cs /\ fine d /\ ack s = (s1 ← change_all pin cs s; Ok (Irqs (ibus s1) (ioapic s1) d)).

Lemma request_event_step v : irq_step v (request_event v).
Proof. by split. Qed.

Lemma wake_step k b : bus_step (vcpus b) (vcpus (wake k b)).
Proof.
  unfold wake. cbn. apply Forall2_same_length_lookup. rewrite length_alter. split; [done|]. intros j x y Hx. rewrite list_lookup_alter.
  case_decide; subst; rewrite Hx; cbn; intros [= <-]; [apply request_event_step|reflexivity].
Qed.

(** Delivery sends the message. *)
Lemma delivery_sent md irq b dm : receptive md irq b -> fixed_message irq ->
  exists r dm', kvm_irq_delivery_to_apic b None irq dm = Ok (r, sent irq b, dm') /\ r <> 0 /\ receptive md irq (sent irq b) /\ bus_step (vcpus b) (vcpus (sent irq b)).
Proof.
  intros Hr Hf. destruct (receptive_delivery md irq b dm Hr Hf) as (r & vs' & dm' & E & Hne & Hrec & Hs & Hvs). exists r, dm'.
  replace (sent irq b) with (with_vcpus vs' b); [done|]. unfold sent. f_equal. apply list_eq. intros k. rewrite Hvs, list_lookup_imap.
  destruct (vcpus b !! k) as [v|]; cbn; by destruct (targets None irq (vcpus b) k).
Qed.

Lemma set_remote_twice b b' e : set_remote_irr b (set_remote_irr b' e) = set_remote_irr b e.
Proof.
  apply Z.bits_inj'. intros i Hi. destruct (Z.eq_dec i 14) as [->|Hne].
  - destruct b; cbn [set_remote_irr]; by rewrite ?Z.setbit_eq, ?Z.clearbit_eq by lia.
  - destruct b, b'; cbn [set_remote_irr]; repeat first [rewrite Z.setbit_neq by lia | rewrite Z.clearbit_neq by lia]; done.
Qed.

#[local] Arguments set_remote_irr : simpl never.
#[local] Arguments e_trig_mode : simpl never.

Section pin.
  Context {E : Type} (ack : Z -> irqs E -> res (irqs E)) (fine : E -> Prop) (may : list line_change -> Prop).
  Context (md : addr_mode) (pin : Z) (Hpin : 0 <= pin < 24) (e0 : Z).
  Context (Hok : entry_ok e0) (Hmask : e_mask e0 = false) (Hlevel : e_trig_mode e0 = IOAPIC_LEVEL_TRIG).
  Context (Hfix : fixed_message (message_of e0)).

Record pin_rel (l : line_spec) (s : irqs E) : Prop := {
  pr_ok : irqs_ok s;
  pr_entry : redirtbl (ioapic s) !! Z.to_nat pin = Some (set_remote_irr (in_flight l) e0);
  pr_sources : io_irq_states (ioapic s) !! Z.to_nat pin = Some (sources l);
  pr_line : Z.testbit (io_irr (ioapic s)) pin = negb (sources l =? 0);
  pr_bus : ibus s = spec_bus l;
  pr_recv : receptive md (message_of e0) (spec_bus l);
  pr_own : forall p e, 0 <= p < 24 -> p <> pin -> redirtbl (ioapic s) !! Z.to_nat p = Some e -> e_vector e <> e_vector e0
}.

(** The service of the pin with none in flight. *)
Lemma pin_service l s : pin_rel (LineSpec (sources l) false (spec_bus l)) s -> sources l <> 0 ->
  exists r s', ioapic_service pin false s = Ok (r, s') /\
    pin_rel (LineSpec (sources l) true (sent (message_of e0) (spec_bus l))) s'.
Proof using Hpin Hok Hmask Hlevel Hfix.
  intros [H1 H2 H3 H4 H5 H6 H7] Hsrc. cbn in *.
  destruct (remote_irr_fields false e0) as (Ev & Em & Emk & _ & Etr).
  assert (He : entry_at (ioapic s) pin = Ok (set_remote_irr false e0)) by (unfold entry_at; by rewrite H2).
  destruct (service_ok pin false s H1 Hpin) as (r' & s' & Es & Hg); [done|].
  destruct (service_spec pin s _ H1 He ltac:(by rewrite Emk)) as (r & vs' & dm' & Ed & Es2).
  rewrite Em, H5 in Ed. destruct (delivery_sent md _ _ ∅ H6 Hfix) as (r2 & dm2 & Ed2 & Hr & Hrec & _).
  rewrite Ed in Ed2. assert (Evs : with_vcpus vs' (spec_bus l) = sent (message_of e0) (spec_bus l)) by congruence.
  assert (r2 = r) as -> by congruence. clear Ed2. exists r, s'. rewrite Es2 in Es. injection Es as <- <-. split; [done|].
  rewrite <- Evs in Hrec. rewrite <- Evs. unfold served in *. rewrite Etr, Hlevel in *. apply Z.eqb_neq in Hr. rewrite Hr in *. cbn in *.
  split; cbn; [by apply Hg| |done|done|by rewrite H5|done|].
  - rewrite set_remote_twice. apply list_lookup_insert_eq. by eapply lookup_lt_Some.
  - intros p e Hp Hne. rewrite list_lookup_insert_ne by lia. by apply H7.
Qed.

(** A change of the pin's entry or line. *)
Lemma pin_entry l s f : pin_rel l s ->
  pin_rel (LineSpec (sources l) f (spec_bus l)) (on_ioapic (set_entry pin (set_remote_irr f e0)) s).
Proof.
  intros [H1 H2 H3 H4 H5 H6 H7]. split; cbn; try done.
  - split; [apply H1|]. eapply set_entry_ok; [apply H1|done|by apply remote_irr_ok|].
    by rewrite !(proj1 (remote_irr_fields _ e0)).
  - apply list_lookup_insert_eq. by eapply lookup_lt_Some.
  - intros p e Hp Hne. rewrite list_lookup_insert_ne by lia. by apply H7.
Qed.

Lemma pin_source l s src lv : pin_rel l s -> 0 <= src < 64 ->
  exists s', change_step pin (Source src lv) s = Ok s' /\ pin_rel (spec_change (message_of e0) (Source src lv) l) s'.
Proof using Hpin Hok Hmask Hlevel Hfix.
  intros Hrel Hsrc. pose proof Hrel as [H1 H2 H3 H4 H5 H6 H7].
  cbn [change_step spec_change]. unfold kvm_ioapic_set_irq, IOAPIC_NUM_PINS.
  rewrite !(proj2 (Z.ltb_ge _ _)), !(proj2 (Z.leb_gt _ _)) by lia. cbn [orb]. rewrite H3.
  set (srcs := line_sources (sources l) src lv). set (s1 := on_ioapic _ s).
  assert (Hst : 0 <= sources l) by (eapply (Forall_lookup_1 _ _ _ _ (ok_sources _ (ok_ioapic _ H1))); exact H3).
  assert (Hok1 : irqs_ok s1).
  { split; [apply H1|]. pose proof (ok_ioapic _ H1) as Hio. apply with_states_ok; [done|by rewrite length_insert, (ok_states _ Hio)|].
    apply Forall_insert; [apply Hio|]. apply line_sources_nonneg; [done|lia]. }
  assert (Hl1 : io_irq_states (ioapic s1) !! Z.to_nat pin = Some srcs) by (apply list_lookup_insert_eq; by eapply lookup_lt_Some).
  assert (Hirr : 0 <= io_irr (ioapic s) < 2 ^ 24) by apply H1.
  destruct (remote_irr_fields (in_flight l) e0) as (_ & _ & _ & Erm & Etr).
  unfold ioapic_set_irq, entry_at. change (redirtbl (ioapic s1)) with (redirtbl (ioapic s)). rewrite H2. cbn [mbind res_bind].
  rewrite negb_involutive, andb_false_r. destruct (srcs =? 0) eqn:Es0; cbn [orb].
  - cbn [mbind res_bind]. eexists. split; [done|]. split; cbn; try done.
    + split; [apply H1|]. apply (lines_clear (ioapic s1) pin), Hok1.
    + by rewrite Z.clearbit_eq, Es0.
  - cbn [andb]. rewrite Etr, Hlevel, Erm. cbn [Z.eqb IOAPIC_LEVEL_TRIG IOAPIC_EDGE_TRIG andb orb negb].
    set (s2 := on_ioapic _ s1). assert (Hr2 : pin_rel (LineSpec srcs (in_flight l) (spec_bus l)) s2).
    { split; cbn; try done.
      - split; [apply H1|]. apply (lines_set (ioapic s1) pin); [apply Hok1|done].
      - by rewrite Z.setbit_eq, Es0 by lia. }
    destruct (in_flight l); [by eexists|].
    destruct (pin_service (LineSpec srcs false (spec_bus l)) s2 Hr2) as (r & s3 & -> & Hr3); [by apply Z.eqb_neq|]. by eexists.
Qed.

Lemma pin_change l s c : pin_rel l s -> change_ok c ->
  exists s', change_step pin c s = Ok s' /\ pin_rel (spec_change (message_of e0) c l) s' /\ dev s' = dev s /\
    bus_step (vcpus (spec_bus l)) (vcpus (spec_bus (spec_change (message_of e0) c l))).
Proof using Hpin Hok Hmask Hlevel Hfix.
  intros Hrel Hc. pose proof (pr_recv _ _ Hrel) as Hrec. destruct c as [src lv|k].
  - destruct (pin_source l s src lv Hrel Hc) as (s' & E1 & Hr). exists s'. split; [done|]. split; [done|]. split.
    + revert E1. cbn [change_step]. destruct (kvm_ioapic_set_irq _ _ _ _ s) as [[x s1]|] eqn:E2; [|done]. intros [= <-]. by apply kvm_ioapic_set_irq_dev in E2.
    + cbn [spec_change]. destruct (_ || _); [reflexivity|]. by destruct (delivery_sent md _ _ ∅ Hrec Hfix) as (? & ? & _ & _ & _ & ?).
  - eexists. split; [done|]. split; [|split; [done|apply wake_step]]. pose proof (wake_step k (spec_bus l)) as Hw.
    destruct Hrel as [[H1 H1'] H2 H3 H4 H5 H6 H7]. split; cbn; try done; [|by rewrite H5|by apply receptive_step]. split; [|done]. cbn. rewrite H5. apply bus_ok_step; [by rewrite <- H5|done].
Qed.

Lemma pin_changes cs : forall l s, pin_rel l s -> Forall change_ok cs ->
  exists s', change_all pin cs s = Ok s' /\ pin_rel (spec_changes (message_of e0) cs l) s' /\ dev s' = dev s /\
    bus_step (vcpus (spec_bus l)) (vcpus (spec_bus (spec_changes (message_of e0) cs l))).
Proof using Hpin Hok Hmask Hlevel Hfix.
  induction cs as [|c cs IH]; intros l s Hrel Hcs; [by eexists|]. apply Forall_cons in Hcs as [Hc Hcs]. cbn [change_all spec_changes foldl].
  destruct (pin_change l s c Hrel Hc) as (s1 & -> & Hr1 & Ed1 & Hb1). cbn [mbind res_bind]. destruct (IH _ s1 Hr1 Hcs) as (s2 & E2 & Hr2 & Ed2 & Hb2).
  exists s2. split; [done|]. split; [done|]. split; [congruence|]. by etransitivity.
Qed.

Lemma eoi_from_skip i l s pins : pin_rel l s -> Forall (fun p => 0 <= p < 24 /\ p <> pin) pins ->
  eoi_from ack i (e_vector e0) IOAPIC_LEVEL_TRIG pins s = Ok s.
Proof.
  intros Hrel. induction 1 as [|p pins [Hp Hne] _ IH]; [done|]. cbn [eoi_from]. unfold eoi_pin.
  destruct (entry_at_ok (ioapic s) p (ok_ioapic _ (pr_ok _ _ Hrel)) Hp) as (e & -> & _ & He). cbn [mbind res_bind].
  pose proof (pr_own _ _ Hrel p e Hp Hne He) as Hv. apply Z.eqb_neq in Hv. rewrite Hv. cbn [negb mbind res_bind]. exact IH.
Qed.

Lemma eoi_from_app i vec tm p1 p2 : forall s : irqs E,
  eoi_from ack i vec tm (p1 ++ p2) s = (s ← eoi_from ack i vec tm p1 s; eoi_from ack i vec tm p2 s).
Proof.
  induction p1 as [|p p1 IH]; intros s; [done|]. cbn [eoi_from app]. destruct (eoi_pin ack i vec tm p s); [|done]. apply IH.
Qed.

(** The pin's own end of interrupt. *)
Lemma pin_eoi_own i l s : pin_rel l s -> (i < length (vcpus (spec_bus l)))%nat ->
  (forall s1, irqs_ok s1 -> dev s1 = dev s -> reacts fine may pin (ack pin) s1) ->
  exists s' cs, eoi_pin ack i (e_vector e0) IOAPIC_LEVEL_TRIG pin s = Ok s' /\ may cs /\ fine (dev s') /\
    pin_rel (spec_end (message_of e0) (spec_changes (message_of e0) cs l)) s' /\
    receptive md (message_of e0) (spec_bus (spec_changes (message_of e0) cs l)) /\
    bus_step (vcpus (spec_bus l)) (vcpus (spec_bus (spec_changes (message_of e0) cs l))).
Proof using Hpin Hok Hmask Hlevel Hfix.
  intros Hrel Hi Hre. unfold eoi_pin. rewrite (entry_at_Some _ _ _ (pr_entry _ _ Hrel)). cbn [mbind res_bind].
  rewrite (proj1 (remote_irr_fields _ e0)), Z.eqb_refl. cbn [negb].
  assert (exists s1, (if pin =? RTC_GSI then rtc_irq_eoi i s else Ok s) = Ok s1 /\ pin_rel l s1 /\ dev s1 = dev s) as (s1 & -> & Hr1 & Ed1).
  { destruct (pin =? RTC_GSI); [|by eauto]. pose proof Hrel as [H1 H2 H3 H4 H5 H6 H7].
    destruct (rtc_eoi_ok i s H1) as (s1 & E1 & Hg & (n & m & Eio) & Eb); [by rewrite H5|]. exists s1. split; [done|].
    split; [|by eapply rtc_eoi_dev]. split; rewrite ?Eio, ?Eb; try done. apply Hg. }
  cbn [mbind res_bind]. destruct (Hre s1 (pr_ok _ _ Hr1) Ed1) as (cs & d & Hmay & Hcs & Hd & ->).
  destruct (pin_changes cs l s1 Hr1 Hcs) as (s2 & -> & Hr2 & _ & Hb). cbn [mbind res_bind]. set (l2 := spec_changes _ cs l) in *. pose proof (pr_recv _ _ Hr2) as Hrec2.
  assert (Hr3 : pin_rel l2 (Irqs (ibus s2) (ioapic s2) d)) by (destruct Hr2 as [[? ?] ? ? ? ? ? ?]; by split).
  set (s3 := Irqs _ _ d) in *. rewrite (entry_at_Some _ _ _ (pr_entry _ _ Hr3)). cbn [mbind res_bind negb Z.eqb IOAPIC_LEVEL_TRIG Pos.eqb].
  rewrite set_remote_twice. pose proof (pin_entry l2 s3 false Hr3) as Hr4. set (s4 := on_ioapic _ s3) in *.
  rewrite (pr_line _ _ Hr4). cbn [sources]. unfold spec_end. destruct (Z.eqb_spec (sources l2) 0) as [E0|Hne]; cbn [negb].
  - eexists _, cs. split; [done|]. split; [done|]. split; [done|]. split; [|done]. fold l2. by rewrite E0 in *.
  - destruct (pin_service l2 s4 Hr4 Hne) as (r & s5 & E5 & Hr5). rewrite E5. eexists _, cs. split; [done|]. split; [done|].
    split; [by rewrite (service_dev _ _ _ _ _ E5)|]. fold l2. by apply Z.eqb_neq in Hne as ->.
Qed.

Lemma pin_eoi i l s : pin_rel l s -> (i < length (vcpus (spec_bus l)))%nat ->
  (forall s1, irqs_ok s1 -> dev s1 = dev s -> reacts fine may pin (ack pin) s1) ->
  exists s' cs, kvm_ioapic_update_eoi ack i (e_vector e0) IOAPIC_LEVEL_TRIG s = Ok s' /\ may cs /\ fine (dev s') /\
    pin_rel (spec_end (message_of e0) (spec_changes (message_of e0) cs l)) s' /\
    receptive md (message_of e0) (spec_bus (spec_changes (message_of e0) cs l)) /\
    bus_step (vcpus (spec_bus l)) (vcpus (spec_bus (spec_changes (message_of e0) cs l))).
Proof using Hpin Hok Hmask Hlevel Hfix.
  intros Hrel Hi Hre. unfold kvm_ioapic_update_eoi, IOAPIC_NUM_PINS.
  replace (seqZ 0 24) with (seqZ 0 pin ++ pin :: seqZ (pin + 1) (23 - pin)).
  2:{ replace 24 with (pin + (1 + (23 - pin))) by lia. rewrite seqZ_app, (seqZ_cons (0 + pin)) by lia. do 2 f_equal; f_equal; lia. }
  rewrite eoi_from_app, (eoi_from_skip i l s) by (done || apply Forall_forall; intros p Hp%elem_of_seqZ; lia).
  cbn [mbind res_bind eoi_from]. destruct (pin_eoi_own i l s Hrel Hi Hre) as (s1 & cs & -> & H1 & H2 & Hr1 & Hrec & Hb). cbn [mbind res_bind].
  rewrite (eoi_from_skip i _ s1 _ Hr1) by (apply Forall_forall; intros p Hp%elem_of_seqZ; lia). by exists s1, cs.
Qed.

Definition line_op_ok (n : nat) (o : line_op) : Prop :=
  match o with
  | Change c => change_ok c
  | Eoi i => (i < n)%nat
  | Elsewhere b => receptive md (message_of e0) b /\ length (vcpus b) = n
  end.

Context (Hack : forall s, irqs_ok s -> fine (dev s) -> reacts fine may pin (ack pin) s).

Lemma pin_simulation n o l s : pin_rel l s -> fine (dev s) -> length (vcpus (spec_bus l)) = n -> line_op_ok n o ->
  exists s' l', pin_step ack pin (e_vector e0) o s = Ok s' /\ spec_step may (message_of e0) o l l' /\
    pin_rel l' s' /\ fine (dev s') /\ length (vcpus (spec_bus l')) = n.
Proof.
  intros Hrel Hf Hn Ho. destruct o as [c|i|b]; cbn [pin_step].
  - destruct (pin_change l s c Hrel Ho) as (s' & E1 & Hr & Ed & Hb). eexists s', _. split; [done|]. split; [constructor|]. split; [done|].
    split; [by rewrite Ed|]. by rewrite <- (Forall2_length _ _ _ Hb).
  - cbn in Ho. destruct (pin_eoi i l s Hrel) as (s' & cs & E1 & Hm & Hf' & Hr & _ & Hb); [lia|intros s1 H1 Ed; apply Hack; [done|by rewrite Ed]|].
    eexists s', _. split; [done|]. split; [by constructor|]. split; [done|]. split; [done|]. unfold spec_end. destruct (_ =? _); cbn; by rewrite ?length_imap, <- (Forall2_length _ _ _ Hb).
  - destruct Ho as [Hb Hl]. eexists _, _. split; [done|]. split; [constructor|]. split; [|done].
    destruct Hrel as [[H1 H1'] H2 H3 H4 H5 H6 H7]. split; cbn; try done. split; [apply Hb|done].
Qed.

Lemma pin_run_simulation n os : forall l s, pin_rel l s -> fine (dev s) -> length (vcpus (spec_bus l)) = n -> Forall (line_op_ok n) os ->
  exists s' l', pin_run ack pin (e_vector e0) os s = Ok s' /\ spec_run may (message_of e0) os l l' /\ pin_rel l' s'.
Proof.
  induction os as [|o os IH]; intros l s Hrel Hf Hn Hos; cbn [pin_run]; [exists s, l; split; [done|]; split; [constructor|done]|].
  apply Forall_cons in Hos as [Ho Hos]. destruct (pin_simulation n o l s Hrel Hf Hn Ho) as (s1 & l1 & -> & Hs1 & Hr1 & Hf1 & Hn1). cbn [mbind res_bind].
  destruct (IH l1 s1 Hr1 Hf1 Hn1 Hos) as (s2 & l2 & E2 & Hs2 & Hr2). exists s2, l2. split; [done|]. split; [by econstructor|done].
Qed.
End pin.

(** While the line is asserted a message is in flight. *)
Lemma change_in_flight irq c l : (sources l <> 0 -> in_flight l = true) -> sources (spec_change irq c l) <> 0 -> in_flight (spec_change irq c l) = true.
Proof.
  intros Hl. destruct c as [src lv|k]; cbn [spec_change]; [|exact Hl]. destruct (Z.eqb_spec (line_sources (sources l) src lv) 0); cbn [orb]; [done|].
  by destruct (in_flight l) eqn:Ef.
Qed.

Lemma spec_in_flight may irq os l l' : spec_run may irq os l l' -> (sources l <> 0 -> in_flight l = true) -> sources l' <> 0 -> in_flight l' = true.
Proof.
  induction 1 as [l|o os l l1 l2 Hs _ IH]; intros Hl; [done|]. apply IH. destruct Hs as [c l|i cs l _|b l]; [by apply change_in_flight| |exact Hl].
  unfold spec_end. by destruct (Z.eqb_spec (sources (spec_changes irq cs l)) 0).
Qed.

(** C18: A level-triggered pin of the I/O APIC implements its contract under
    every history of its sources' changes, ends of interrupt and other
    activity of the processors: the line's sources, the message in flight and
    the state of the processors are those of the abstract line, which sends a
    message when the line is asserted with none in flight or still asserted
    after an end of interrupt, and while it is asserted a message is in
    flight.  The notifiers told of an end of interrupt may change the sources
    of the line themselves, as those of a resampled or assigned interrupt do.
    The entry stays as it is: unmasked, fixed delivery, one destination
    below 255, a vector no other pin has; the APICs of the processors it
    addresses stay enabled, and the logical identifiers distinct and in the
    lookup table. *)
Theorem level_line_refines {E} (ack : Z -> irqs E -> res (irqs E)) fine may md pin e0 os l s :
  (forall s, irqs_ok s -> fine (dev s) -> reacts fine may pin (ack pin) s) -> fine (dev s) -> 0 <= pin < 24 -> entry_ok e0 ->
  e_mask e0 = false -> e_trig_mode e0 = IOAPIC_LEVEL_TRIG -> fixed_message (message_of e0) ->
  pin_rel md pin e0 l s -> Forall (line_op_ok md e0 (length (vcpus (ibus s)))) os ->
  exists s' l', pin_run ack pin (e_vector e0) os s = Ok s' /\ spec_run may (message_of e0) os l l' /\ pin_rel md pin e0 l' s' /\
    ((sources l <> 0 -> in_flight l = true) -> sources l' <> 0 -> in_flight l' = true).
Proof.
  intros Hack Hfine Hp He Hm Hl Hf Hrel Hos. rewrite (pr_bus _ _ _ _ _ Hrel) in Hos.
  destruct (pin_run_simulation ack fine may md pin Hp e0 He Hm Hl Hf Hack _ os l s Hrel Hfine eq_refl Hos) as (s' & l' & E' & Hr & Hr').
  exists s', l'. split; [done|]. split; [done|]. split; [done|]. by eapply spec_in_flight.
Qed.

(** A message that is taken is requested at every processor it addresses. *)
Lemma sent_requests md irq b k v : receptive md irq b -> fixed_message irq ->
  vcpus (sent irq b) !! k = Some v -> targets None irq (vcpus (sent irq b)) k = true ->
  apic_test_vector (apic v) (vector irq) APIC_IRR = true.
Proof.
  intros Hrec Hf. destruct (delivery_sent md _ _ ∅ Hrec Hf) as (r & dm' & _ & _ & _ & Hs). rewrite (targets_same _ _ _ _ _ (bus_step_same _ _ Hs)).
  intros Hk Ht. cbn in Hk. rewrite list_lookup_imap, Ht in Hk. destruct (vcpus b !! k) as [w|]; [|done]. injection Hk as <-. destruct Hf as (_ & _ & _ & Hv). cbn.
  rewrite set_irr_test; [by rewrite decide_True|apply bitmap_irr|done|done].
Qed.

(** A line in level mode to processor 0, on a machine of two processors. *)
Definition demo_entry : Z := 0x8041.
Definition demo_ioapic : kvm_ioapic := update_handled_vectors (set_entry 5 demo_entry kvm_ioapic_init).
Definition demo_irqs : irqs unit := Irqs two_vcpu_bus demo_ioapic tt.
Definition demo_line : line_spec := LineSpec 0 false two_vcpu_bus.

Lemma ioapic_init_ok : ioapic_ok kvm_ioapic_init.
Proof.
  apply update_handled_ok; try done.
  - repeat (apply Forall_cons; split; [vm_compute; split; congruence|]). constructor.
  - repeat (apply Forall_cons; split; [vm_compute; congruence|]). constructor.
Qed.

Lemma demo_irqs_ok : irqs_ok demo_irqs.
Proof. split; [apply two_vcpu_bus_ok|]. eapply write_entry_ok; [apply ioapic_init_ok|lia|done|vm_compute; split; congruence]. Qed.

Lemma demo_receptive : receptive Flat (message_of demo_entry) two_vcpu_bus.
Proof.
  split; [apply two_vcpu_bus_ok|apply two_vcpus_addressed|intros m; discriminate|].
  intros [|[|k]] v [= <-] _; vm_compute; reflexivity.
Qed.

Lemma demo_pin_rel : pin_rel Flat 5 demo_entry demo_line demo_irqs.
Proof.
  split; [apply demo_irqs_ok|vm_compute; reflexivity..|apply demo_receptive|].
  intros p e Hp Hne. assert (H : Forall (fun q => q <> 5%nat -> forall e, redirtbl demo_ioapic !! q = Some e -> e_vector e <> e_vector demo_entry) (seq 0 24)).
  { repeat (apply Forall_cons; split; [intros Hq x E; vm_compute in E; injection E as <-; (done || vm_compute; congruence)|]). constructor. }
  rewrite Forall_forall in H. apply H; [apply elem_of_seq; lia|lia].
Qed.

Lemma demo_fixed : fixed_message (message_of demo_entry).
Proof. repeat split; vm_compute; congruence. Qed.

(** The notifier of a resampled interrupt, of source 2: it lowers the line. *)
Definition resample (pin : Z) (s : irqs unit) : res (irqs unit) := '(_, s) ← kvm_ioapic_set_irq pin 2 false false s; Ok s.

Lemma resample_reacts s : irqs_ok s -> True -> reacts (fun _ => True) (fun cs => cs = [Source 2 false]) 5 (resample 5) s.
Proof.
  intros Hs _. exists [Source 2 false], tt. split; [done|]. split; [by apply Forall_singleton|]. split; [done|]. unfold resample. cbn [change_all change_step].
  destruct (kvm_ioapic_set_irq 5 2 false false s) as [[x [b io []]]|]; reflexivity.
Qed.

(** Source 2 asserts the line and is lowered by its notifier; source 1 asserts
    it over an end of interrupt. *)
Lemma level_line_refines_witness :
  exists s', pin_run resample 5 0x41 [Change (Source 2 true); Change (Source 1 true); Eoi 0; Change (Source 1 false); Change (Wake 1); Eoi 0] demo_irqs = Ok s' /\
    e_remote_irr (default 0 (redirtbl (ioapic s') !! 5%nat)) = false.
Proof.
  destruct (level_line_refines resample (fun _ => True) (fun cs => cs = [Source 2 false]) Flat 5 demo_entry
    [Change (Source 2 true); Change (Source 1 true); Eoi 0; Change (Source 1 false); Change (Wake 1); Eoi 0] demo_line demo_irqs) as (s' & l' & E & Hsp & Hr & _).
  - exact resample_reacts.
  - exact I.
  - lia.
  - vm_compute. split; congruence.
  - reflexivity.
  - reflexivity.
  - apply demo_fixed.
  - apply demo_pin_rel.
  - repeat (apply Forall_cons; split; [vm_compute; first [exact I | split; congruence | repeat constructor]|]). constructor.
  - exists s'. split; [exact E|]. pose proof (pr_entry _ _ _ _ _ Hr) as He. change (Z.to_nat 5) with 5%nat in He. rewrite He.
    assert (Hf : in_flight l' = false); [|rewrite Hf; vm_compute; reflexivity].
    repeat match goal with H : spec_run _ _ (_ :: _) _ _ |- _ => inversion H; clear H; subst end.
    match goal with H : spec_run _ _ [] _ _ |- _ => inversion H; clear H; subst end.
    repeat match goal with H : spec_step _ _ _ _ _ |- _ => inversion H; clear H; subst end. vm_compute. reflexivity.
Defined.

(** ** The register window *)

(** The halves of an entry after one was written. *)
Lemma write_half_halves high val e : 0 <= val < 2 ^ 32 -> entry_ok e ->
  let lo x := Z.land x 0xffffffff in
  let hi x := Z.land (Z.shiftr x 32) 0xffffffff in
  if high : bool then hi (write_half high val e) = val /\ lo (write_half high val e) = lo e
  else lo (write_half high val e) = Z.clearbit val 14 /\ hi (write_half high val e) = hi e.
Proof.
  intros Hv He lo hi. unfold lo, hi, write_half. change 0xffffffff with (Z.ones 32).
  destruct high; (split; apply Z.bits_inj'; intros i Hi).
  - rewrite Z.land_spec, Z.shiftr_spec, Z.lor_spec, Z.land_spec, Z.shiftl_spec, !Z.testbit_ones_nonneg by lia.
    replace (i + 32 - 32) with i by lia. destruct (Z.ltb_spec i 32), (Z.ltb_spec (i + 32) 32); try lia.
    + by rewrite andb_false_r, andb_true_r.
    + by rewrite andb_false_r, (testbit_above val 32).
  - rewrite !Z.land_spec, Z.lor_spec, Z.land_spec, Z.shiftl_spec, !Z.testbit_ones_nonneg by lia.
    destruct (Z.ltb_spec i 32); [|by rewrite !andb_false_r]. rewrite (Z.testbit_neg_r val) by lia.
    by rewrite !andb_true_r, orb_false_r.
  - rewrite Z.land_spec, Z.testbit_ones_nonneg by lia. unfold set_remote_irr. destruct (Z.eq_dec i 14) as [->|Hne].
    + by rewrite !Z.clearbit_eq.
    + rewrite !Z.clearbit_neq, Z.lor_spec, Z.ldiff_spec, Z.testbit_ones_nonneg by lia.
      destruct (Z.ltb_spec i 32); [by rewrite andb_false_r, andb_true_r|by rewrite andb_false_r, (testbit_above val 32)].
  - rewrite !Z.land_spec, !Z.shiftr_spec, Z.testbit_ones_nonneg by lia. unfold set_remote_irr.
    rewrite Z.clearbit_neq, Z.lor_spec, Z.ldiff_spec, Z.testbit_ones_nonneg by lia.
    destruct (Z.ltb_spec i 32); [|by rewrite !andb_false_r]. destruct (Z.ltb_spec (i + 32) 32); [lia|].
    rewrite (testbit_above val 32) by lia. by rewrite andb_true_r, orb_false_r.
Qed.

Lemma select_index index (high : bool) : 0 <= index < 24 ->
  Z.shiftr (u32 (0x10 + 2 * index + Z.b2z high - 0x10)) 1 = index.
Proof.
  intros Hi. unfold u32. rewrite Z.mod_small by (destruct high; cbn; lia). rewrite Z.shiftr_div_pow2 by lia. change (2 ^ 1) with 2.
  symmetry. apply Z.div_unique with (Z.b2z high); destruct high; cbn; lia.
Qed.

Lemma select_half index (high : bool) : Z.testbit (0x10 + 2 * index + Z.b2z high) 0 = high.
Proof. replace (0x10 + 2 * index + Z.b2z high) with (2 * (8 + index) + Z.b2z high) by lia. apply Z.testbit_0_r. Qed.

(** The register the window shows. *)
Definition window (io : kvm_ioapic) : Z := u32 (ioapic_read_indirect io).

Lemma window_entry io reg index high e : ioregsel io = reg -> reg = 0x10 + 2 * index + Z.b2z high -> 0 <= index < 24 ->
  redirtbl io !! Z.to_nat index = Some e ->
  window io = Z.land (if high then Z.shiftr e 32 else e) 0xffffffff.
Proof.
  intros Hr -> Hi He. unfold window, ioapic_read_indirect. rewrite Hr.
  unfold IOAPIC_REG_VERSION, IOAPIC_REG_APIC_ID, IOAPIC_REG_ARB_ID.
  destruct (Z.eqb_spec (16 + 2 * index + Z.b2z high) 1), (Z.eqb_spec (16 + 2 * index + Z.b2z high) 0),
    (Z.eqb_spec (16 + 2 * index + Z.b2z high) 2); try (destruct high; cbn in *; lia). cbn [orb].
  rewrite select_index, select_half, He by done. assert (Hs : forall x, u32 (Z.land x 0xffffffff) = Z.land x 0xffffffff).
  { intros x. apply Z.mod_small. apply land_word. lia. }
  by destruct high; rewrite Hs.
Qed.

(** The effect of a write to half an entry on the table. *)
Lemma set_remote_same e : set_remote_irr (e_remote_irr e) e = e.
Proof.
  apply Z.bits_inj'. intros i Hi. unfold e_remote_irr, set_remote_irr. destruct (Z.testbit e 14) eqn:E14, (Z.eq_dec i 14) as [->|Hne].
  - by rewrite Z.setbit_eq.
  - by rewrite Z.setbit_neq by lia.
  - by rewrite Z.clearbit_eq.
  - by rewrite Z.clearbit_neq by lia.
Qed.

(** The mask bit of an entry whose low half was written. *)
Lemma mask_of_low val e : Z.testbit val 16 = true -> e_mask (write_half false val e) = true.
Proof. intros H. unfold e_mask, write_half, set_remote_irr. by rewrite Z.clearbit_neq, Z.lor_spec, H, orb_true_r by lia. Qed.

(** The halves read back, with the remote IRR bit as the delivery left it. *)
Lemma window_halves high val e r : 0 <= val < 2 ^ 32 -> entry_ok e ->
  (high = false -> Z.testbit val 16 = true -> r = false) ->
  let half (h : bool) x := Z.land (if h then Z.shiftr x 32 else x) 0xffffffff in
  let e' := set_remote_irr r (write_half high val e) in
  Z.clearbit (half high e') 14 = Z.clearbit val 14 /\
  (high = true \/ Z.testbit val 16 = true -> half high e' = if high then val else Z.clearbit val 14) /\
  Z.clearbit (half (negb high) e') 14 = Z.clearbit (half (negb high) e) 14.
Proof.
  intros Hv He Hr half e'. pose proof (write_half_halves high val e Hv He) as Hh. cbv zeta in Hh.
  assert (Hhi : forall x, half true (set_remote_irr r x) = half true x).
  { intros x. unfold half. rewrite !land_shiftr by lia. f_equal. destruct r; unfold set_remote_irr;
      [apply field_testbit|apply field_clearbit]; done || lia. }
  assert (Hlo : forall x, half false (set_remote_irr r x) = set_remote_irr r (half false x)).
  { intros x. unfold half. change 0xffffffff with (Z.ones 32). apply Z.bits_inj'. intros i Hi. rewrite Z.land_spec.
    unfold set_remote_irr. destruct (Z.eq_dec i 14) as [->|Hne].
    - destruct r; by rewrite ?Z.setbit_eq, ?Z.clearbit_eq by lia.
    - destruct r; rewrite ?Z.setbit_neq, ?Z.clearbit_neq by lia; by rewrite Z.land_spec. }
  assert (Hcl : forall x, Z.clearbit (set_remote_irr r x) 14 = Z.clearbit x 14)
    by (intros x; exact (set_remote_twice false r x)).
  assert (Hcc : forall x, Z.clearbit (Z.clearbit x 14) 14 = Z.clearbit x 14)
    by (intros x; exact (set_remote_twice false false x)).
  unfold e'. destruct high; cbn [negb].
  - rewrite Hhi, Hlo, Hcl. destruct Hh as [H1 H2]. unfold half. by rewrite H1, H2.
  - rewrite Hhi, Hlo, Hcl. destruct Hh as [H1 H2]. unfold half. rewrite H1, H2. split; [apply Hcc|]. split; [|done].
    intros [|Hm]; [done|]. rewrite (Hr eq_refl Hm). apply Hcc.
Qed.

Lemma write_indirect_table {E} (fire_mask : Z -> bool -> E -> E) s index high val e :
  irqs_ok s -> ioregsel (ioapic s) = 0x10 + 2 * index + Z.b2z high -> 0 <= index < 24 -> 0 <= val < 2 ^ 32 ->
  redirtbl (ioapic s) !! Z.to_nat index = Some e ->
  exists s' r, ioapic_write_indirect fire_mask val s = Ok s' /\ ioregsel (ioapic s') = ioregsel (ioapic s) /\
    io_base (ioapic s') = io_base (ioapic s) /\
    redirtbl (ioapic s') = <[Z.to_nat index := set_remote_irr r (write_half high val e)]> (redirtbl (ioapic s)) /\
    (high = false -> e_mask (write_half high val e) = true -> r = false).
Proof.
  intros Hs Hr Hi Hv He. unfold ioapic_write_indirect. rewrite Hr.
  unfold IOAPIC_REG_VERSION, IOAPIC_REG_APIC_ID, IOAPIC_REG_ARB_ID, IOAPIC_NUM_PINS.
  destruct (Z.eqb_spec (16 + 2 * index + Z.b2z high) 1), (Z.eqb_spec (16 + 2 * index + Z.b2z high) 0),
    (Z.eqb_spec (16 + 2 * index + Z.b2z high) 2); try (destruct high; cbn in *; lia).
  rewrite select_index, select_half by done. destruct (Z.leb_spec 24 index); [lia|].
  rewrite (entry_at_Some _ _ _ He). cbn [mbind res_bind].
  set (e' := write_half high val e). set (s1 := on_ioapic _ s).
  assert (Hg1 : good s s1) by (apply good_ioapic; [done|]; eapply write_entry_ok; [apply Hs|done|done|];
    apply write_half_ok; [done|]; eapply Forall_lookup_1; [apply Hs|done]).
  set (s2 := if Bool.eqb _ _ then s1 else _).
  assert (irqs_ok s2 /\ ioapic s2 = ioapic s1) as [Hok2 Eio2].
  { unfold s2. destruct (Bool.eqb _ _); [split; [apply Hg1|done]|]. split; [apply good_dev, Hg1|done]. }
  clearbody s2. assert (Ht1 : redirtbl (ioapic s2) = <[Z.to_nat index := e']> (redirtbl (ioapic s))) by (by rewrite Eio2).
  assert (He2 : entry_at (ioapic s2) index = Ok e').
  { apply entry_at_Some. rewrite Ht1. apply list_lookup_insert_eq. by eapply lookup_lt_Some. }
  assert (Hmid : exists s3 r, (if (e_trig_mode e' =? IOAPIC_LEVEL_TRIG) && Z.testbit (io_irr (ioapic s2)) index
            then '(_, s) ← ioapic_service index false s2; Ok s else Ok s2) = Ok s3 /\
            ioregsel (ioapic s3) = ioregsel (ioapic s2) /\ io_base (ioapic s3) = io_base (ioapic s2) /\
            redirtbl (ioapic s3) = <[Z.to_nat index := set_remote_irr r e']> (redirtbl (ioapic s)) /\
            (high = false -> e_mask e' = true -> r = false)).
  { assert (Hno : exists s3 r, Ok s2 = Ok s3 /\ ioregsel (ioapic s3) = ioregsel (ioapic s2) /\
              io_base (ioapic s3) = io_base (ioapic s2) /\
              redirtbl (ioapic s3) = <[Z.to_nat index := set_remote_irr r e']> (redirtbl (ioapic s)) /\
              (high = false -> e_mask e' = true -> r = false)).
    { exists s2, (e_remote_irr e'). rewrite set_remote_same. do 4 (split; [done|]). intros Eh _. unfold e', write_half. rewrite Eh.
      apply remote_irr_fields. }
    destruct (_ && _) eqn:Esv; [|done]. apply andb_true_iff in Esv as [Etr _]. destruct (e_mask e') eqn:Em.
    - unfold ioapic_service. rewrite He2. cbn [mbind res_bind]. rewrite Em. done.
    - destruct (service_spec index s2 e' Hok2 He2 Em) as (r & vs' & dm' & _ & ->). cbn [mbind res_bind].
      unfold served. apply Z.eqb_eq in Etr. rewrite Etr. cbn [Z.eqb IOAPIC_EDGE_TRIG IOAPIC_LEVEL_TRIG Pos.eqb]. rewrite andb_true_r.
      destruct (r =? 0); cbn [negb].
      + exists (Irqs (with_vcpus vs' (ibus s2)) (ioapic s2) (dev s2)), (e_remote_irr e'). rewrite set_remote_same. done.
      + eexists _, true. split; [done|]. do 2 (split; [done|]). split; [|done]. cbn. rewrite Ht1. apply list_insert_insert_eq. }
  destruct Hmid as (s3 & r & -> & E1 & E2 & E3 & E4). cbn [mbind res_bind]. exists (with_bus (kvm_vcpu_request_scan_ioapic (ibus s3)) s3), r.
  split; [done|]. cbn. rewrite E1, E2, E3, Eio2. done.
Qed.

(** What the guest writes into a redirection entry through the register
    window is what it reads back, but for the remote IRR bit, which a write
    of the low half clears and a delivery sets; the other half of the entry
    and the other entries stay as they are. *)
Theorem ioapic_window_roundtrip {E} (fire_mask : Z -> bool -> E -> E) s index high val e :
  irqs_ok s -> io_base (ioapic s) = IOAPIC_DEFAULT_BASE_ADDRESS -> 0 <= index < 24 -> 0 <= val < 2 ^ 32 ->
  redirtbl (ioapic s) !! Z.to_nat index = Some e ->
  let half (h : bool) x := Z.land (if h then Z.shiftr x 32 else x) 0xffffffff in
  exists s1 s2 x e', ioapic_mmio_write fire_mask 0xfec00000 4 (0x10 + 2 * index + Z.b2z high) s = Ok (0, s1) /\
    ioapic_mmio_write fire_mask 0xfec00010 4 val s1 = Ok (0, s2) /\ irqs_ok s2 /\
    ioapic_mmio_read 0xfec00010 4 (ioapic s2) = (0, Some x) /\
    redirtbl (ioapic s2) = <[Z.to_nat index := e']> (redirtbl (ioapic s)) /\
    x = half high e' /\ Z.clearbit x 14 = Z.clearbit val 14 /\
    (high = true \/ Z.testbit val 16 = true -> x = if high then val else Z.clearbit val 14) /\
    Z.clearbit (half (negb high) e') 14 = Z.clearbit (half (negb high) e) 14.
Proof.
  intros Hs Hbase Hi Hv He half.
  assert (Hreg : u32 (16 + 2 * index + Z.b2z high) = 16 + 2 * index + Z.b2z high /\
    Z.land (16 + 2 * index + Z.b2z high) 255 = 16 + 2 * index + Z.b2z high).
  { split; [apply Z.mod_small; destruct high; cbn; lia|]. change 255 with (Z.ones 8). apply land_small; destruct high; cbn; lia. }
  destruct Hreg as [Hr1 Hr2].
  set (s1 := on_ioapic (with_ioregsel (16 + 2 * index + Z.b2z high)) s).
  assert (Hs1 : irqs_ok s1) by (destruct Hs as [? []]; split; [done|by split]).
  destruct (write_indirect_table fire_mask s1 index high val e Hs1 eq_refl Hi Hv He) as (s2 & r & Ew & Esel & Eb & Et & Erm).
  destruct (write_indirect_ok fire_mask val s1 Hs1 Hv) as (s2' & Ew' & Hg). rewrite Ew in Ew'. injection Ew' as <-.
  set (e' := set_remote_irr r (write_half high val e)) in *.
  assert (He' : redirtbl (ioapic s2) !! Z.to_nat index = Some e').
  { rewrite Et. apply list_lookup_insert_eq. by eapply lookup_lt_Some. }
  assert (Hx : window (ioapic s2) = half high e') by (by apply (window_entry _ _ index high e' Esel)).
  exists s1, s2, (half high e'), e'. split; [|split; [|split; [apply Hg|split; [|split; [done|split; [done|]]]]]].
  - unfold ioapic_mmio_write, ioapic_in_range. rewrite Hbase. cbn [Z.leb Z.ltb Z.compare]. cbn. by rewrite Hr1, Hr2.
  - unfold ioapic_mmio_write, ioapic_in_range. change (io_base (ioapic s1)) with (io_base (ioapic s)). rewrite Hbase.
    assert (Hvu : u32 val = val) by (by apply Z.mod_small). cbn. rewrite Hvu, Ew. done.
  - unfold ioapic_mmio_read, ioapic_in_range. rewrite Eb. change (io_base (ioapic s1)) with (io_base (ioapic s)). rewrite Hbase.
    cbn. fold (window (ioapic s2)). by rewrite Hx.
  - apply window_halves; [done|..].
    + eapply Forall_lookup_1; [apply Hs|done].
    + destruct high; [done|]. intros _ Hmk. apply Erm; [done|]. exact (mask_of_low val e Hmk).
Qed.

Lemma ioapic_window_roundtrip_witness :
  exists s1 s2, ioapic_mmio_write (fun _ _ d => d) 0xfec00000 4 0x24 demo_irqs = Ok (0, s1) /\
    ioapic_mmio_write (fun _ _ d => d) 0xfec00010 4 0x1c0b1 s1 = Ok (0, s2) /\
    ioapic_mmio_read 0xfec00010 4 (ioapic s2) = (0, Some 0x180b1).
Proof.
  destruct (ioapic_window_roundtrip (fun _ _ d => d) demo_irqs 10 false 0x1c0b1 0x10000) as
    (s1 & s2 & x & e' & E1 & E2 & _ & Ex & _ & _ & _ & Hx & _).
  - apply demo_irqs_ok.
  - reflexivity.
  - lia.
  - lia.
  - vm_compute. reflexivity.
  - exists s1, s2. split; [exact E1|]. split; [exact E2|]. rewrite Ex, Hx; [vm_compute; reflexivity|right; reflexivity].
Defined.

(** ** Interrupts that get stuck *)

(** A level-triggered message that nobody is addressed by has the result -1,
    which counts as delivered: the pin waits for an end of interrupt that
    cannot come, and further assertions are dropped. *)
Definition nobody_entry : Z := Z.lor 0x8041 (Z.shiftl 7 56).
Definition nobody_irqs : irqs unit :=
  Irqs two_vcpu_bus (update_handled_vectors (set_entry 5 nobody_entry kvm_ioapic_init)) tt.

Lemma no_target_blocks_pin :
  match kvm_ioapic_set_irq 5 0 true false nobody_irqs with
  | Ok (r, s) => r = - 1 /\ e_remote_irr (default 0 (redirtbl (ioapic s) !! 5%nat)) = true /\
      match kvm_ioapic_set_irq 5 0 true false s with Ok (r', _) => r' = 0 | Err _ => False end
  | Err _ => False
  end.
Proof. vm_compute. repeat split. Qed.

(** The clock's interrupt counts as pending until its vector is ended: when
    the guest changes the entry's vector before that, every later tick is
    reported as coalesced and dropped. *)
Definition rtc_irqs : irqs unit :=
  Irqs two_vcpu_bus (update_handled_vectors (set_entry 8 0x0071 kvm_ioapic_init)) tt.

Lemma rtc_vector_change_blocks :
  match ('(r, s) ← kvm_ioapic_set_irq 8 0 true true rtc_irqs;
         '(_, s) ← kvm_ioapic_set_irq 8 0 false true s;
         let s := on_ioapic (with_ioregsel 0x20) s in
         s ← ioapic_write_indirect (fun _ _ d => d) 0x0072 s;
         s ← kvm_ioapic_update_eoi (fun _ s => Ok s) 0 0x71 IOAPIC_EDGE_TRIG s;
         '(r', s) ← kvm_ioapic_set_irq 8 0 true true s;
         Ok (r, r', pending_eoi (ioapic s), requested 0x72 (vcpus (ibus s)))) with
  | Ok out => out = (1, 0, 1, [false; false])
  | Err _ => False
  end.
Proof. vm_compute. reflexivity. Qed.
