(* ===== verification/IrqRouting.v ===== *)
(** * Interrupt routing (kvm-kmod x86/irqchip.c, x86/irq_comm.c)

    The table that connects a global interrupt number to pins of the 8259
    controllers and the I/O APIC or to a message, the ioctl that replaces it,
    and the injection of an interrupt through it.  The [ASSERT]s of
    [irq_comm.c] are empty in the build. *)

From S2P Require Import Prelude I8259 Lapic ApicBus IoApic.

Definition KVM_IRQCHIP_PIC_MASTER : Z := 0.
Definition KVM_IRQCHIP_PIC_SLAVE : Z := 1.
Definition KVM_IRQCHIP_IOAPIC : Z := 2.
Definition KVM_NR_IRQCHIPS : nat := 3.
Definition KVM_IOAPIC_NUM_PINS : Z := 24.
Definition KVM_MAX_IRQ_ROUTES : Z := 1024.
Definition KVM_USERSPACE_IRQ_SOURCE_ID : Z := 0.
Definition BITS_PER_LONG : Z := 64.
Definition EINVAL : Z := 22.
Definition ENOMEM : Z := 12.
Definition EFAULT : Z := 14.
Definition EWOULDBLOCK : Z := 11.

(** ** The table *)

(** An entry of the table, by its type. *)
Inductive route :=
| RIrqchip (irqchip pin : Z)
| RMsi (address_lo address_hi data : Z).

(** An entry as the ioctl's argument has it. *)
Inductive user_route :=
| UIrqchip (irqchip pin : Z)
| UMsi (address_lo address_hi data : Z)
| UOther.
Record user_entry := UserEntry { ue_gsi : Z; ue_flags : Z; ue_route : user_route }.

(** A pin without an entry in [chip_gsi] has -1; [rt_map] has the list of
    each interrupt's entries, newest first. *)
Record kvm_irq_routing_table := RoutingTable {
  chip_gsi : gmap (Z * Z) Z; nr_rt_entries : Z; rt_map : gmap Z (list route)
}.

Definition entries (rt : kvm_irq_routing_table) (gsi : Z) : list route := default [] (rt_map rt !! gsi).

(** The kernel's entry, and the table with the pin's number; none is -EINVAL. *)
Definition kvm_set_routing_entry (ue : user_entry) (rt : kvm_irq_routing_table)
    : option (route * kvm_irq_routing_table) :=
  match ue_route ue with
  | UIrqchip irqchip pin =>
      let by_pin (max_pin delta : Z) :=
        let pin := u32 (pin + delta) in
        if max_pin <=? pin then None
        else Some (RIrqchip irqchip pin,
                   RoutingTable (<[(irqchip, pin) := ue_gsi ue]> (chip_gsi rt)) (nr_rt_entries rt) (rt_map rt)) in
      if irqchip =? KVM_IRQCHIP_PIC_MASTER then by_pin PIC_NUM_PINS 0
      else if irqchip =? KVM_IRQCHIP_PIC_SLAVE then by_pin PIC_NUM_PINS 8
      else if irqchip =? KVM_IRQCHIP_IOAPIC then by_pin KVM_IOAPIC_NUM_PINS 0
      else None
  | UMsi lo hi data => Some (RMsi lo hi data, rt)
  | UOther => None
  end.

Definition conflicts (ue : user_route) (ei : route) : bool :=
  match ei, ue with
  | RMsi _ _ _, _ => true
  | _, UMsi _ _ _ => true
  | RIrqchip c _, UIrqchip c' _ => c' =? c
  | RIrqchip _ _, UOther => false
  end.

Definition setup_routing_entry (ue : user_entry) (rt : kvm_irq_routing_table) : option kvm_irq_routing_table :=
  if existsb (conflicts (ue_route ue)) (entries rt (ue_gsi ue)) then None
  else
    '(e, rt) ← kvm_set_routing_entry ue rt;
    Some (RoutingTable (chip_gsi rt) (nr_rt_entries rt) (<[ue_gsi ue := e :: entries rt (ue_gsi ue)]> (rt_map rt))).

Fixpoint setup_entries (ues : list user_entry) (rt : kvm_irq_routing_table) : option kvm_irq_routing_table :=
  match ues with
  | [] => Some rt
  | ue :: ues => if negb (ue_flags ue =? 0) then None else rt ← setup_routing_entry ue rt; setup_entries ues rt
  end.

(** [alloc]: the new table can be allocated. *)
Definition kvm_set_irq_routing (alloc : bool) (ues : list user_entry) (rt : kvm_irq_routing_table)
    : Z * kvm_irq_routing_table :=
  if existsb (fun ue => KVM_MAX_IRQ_ROUTES <=? ue_gsi ue) ues then (- EINVAL, rt)
  else
    let nr := foldr (fun ue n => Z.max (ue_gsi ue) n) 0 ues + 1 in
    if negb alloc then (- ENOMEM, rt)
    else
      match setup_entries ues (RoutingTable ∅ nr ∅) with
      | None => (- EINVAL, rt)
      | Some new => (0, new)
      end.

(** The table of [kvm_setup_default_irq_routing]. *)
Definition default_routing : list user_entry :=
  i ← seqZ 0 24;
  UserEntry i 0 (UIrqchip KVM_IRQCHIP_IOAPIC i) ::
  (if i <? 16 then [UserEntry i 0 (UIrqchip (if i <? 8 then KVM_IRQCHIP_PIC_MASTER else KVM_IRQCHIP_PIC_SLAVE) (i mod 8))]
   else []).

(** ** The machine's interrupt hardware *)

(** The devices' own state is [D]. *)
Record devs (D : Type) := Devs {
  pic : kvm_pic; routing : kvm_irq_routing_table; irq_sources_bitmap : Z; ack_gsis : list Z;
  vapics_in_nmi_mode : Z; device : D
}.
Arguments Devs {D} _ _ _ _ _ _.
Arguments pic {D} _.
Arguments routing {D} _.
Arguments irq_sources_bitmap {D} _.
Arguments ack_gsis {D} _.
Arguments vapics_in_nmi_mode {D} _.
Arguments device {D} _.

Definition vm (D : Type) : Type := irqs (devs D).

Definition on_dev {D} (f : devs D -> devs D) (s : vm D) : vm D := Irqs (ibus s) (ioapic s) (f (dev s)).
Definition with_pic {D} (p : kvm_pic) (d : devs D) : devs D :=
  Devs p (routing d) (irq_sources_bitmap d) (ack_gsis d) (vapics_in_nmi_mode d) (device d).
Definition with_routing {D} (rt : kvm_irq_routing_table) (d : devs D) : devs D :=
  Devs (pic d) rt (irq_sources_bitmap d) (ack_gsis d) (vapics_in_nmi_mode d) (device d).
Definition with_sources {D} (b : Z) (d : devs D) : devs D :=
  Devs (pic d) (routing d) b (ack_gsis d) (vapics_in_nmi_mode d) (device d).
Definition with_ack_gsis {D} (l : list Z) (d : devs D) : devs D :=
  Devs (pic d) (routing d) (irq_sources_bitmap d) l (vapics_in_nmi_mode d) (device d).
Definition with_nmi_mode {D} (n : Z) (d : devs D) : devs D :=
  Devs (pic d) (routing d) (irq_sources_bitmap d) (ack_gsis d) n (device d).
Definition with_device {D} (x : D) (d : devs D) : devs D :=
  Devs (pic d) (routing d) (irq_sources_bitmap d) (ack_gsis d) (vapics_in_nmi_mode d) x.

(** The number a pin is connected to; -1 for none. *)
Definition gsi_of {D} (irqchip pin : Z) (d : devs D) : Z := default (- 1) (chip_gsi (routing d) !! (irqchip, pin)).

(** What the devices' notifiers do to their state: those registered for an
    interrupt's mask, and those for its acknowledgement. *)
Record notifiers (D : Type) := Notifiers { masked_fun : Z -> bool -> D -> D; acked_fun : Z -> D -> D }.
Arguments Notifiers {D} _ _.
Arguments masked_fun {D} _ _ _ _.
Arguments acked_fun {D} _ _ _.
Definition no_notifiers {D} : notifiers D := Notifiers (fun _ _ d => d) (fun _ d => d).

Definition kvm_fire_mask_notifiers {D} (nt : notifiers D) (irqchip pin : Z) (mask : bool) (d : devs D) : devs D :=
  let gsi := gsi_of irqchip pin d in
  if gsi =? - 1 then d else with_device (masked_fun nt gsi mask (device d)) d.

(** ** The 8259's signals *)

(** The first processor that takes interrupts of the 8259. *)
Definition pic_vcpu (vs : list kvm_vcpu) : option nat :=
  fst <$> list_find (fun v => kvm_apic_accept_pic_intr v = true) vs.

Definition SELECT_PIC (irq : Z) : Z := if irq <? 8 then KVM_IRQCHIP_PIC_MASTER else KVM_IRQCHIP_PIC_SLAVE.

(** The devices told of an acknowledgement by the 8259. *)
Definition fire_acked {D} (nt : notifiers D) (irqchip pin : Z) (d : devs D) : devs D :=
  let gsi := gsi_of irqchip pin d in
  if negb (gsi =? - 1) && existsb (Z.eqb gsi) (ack_gsis d) then with_device (acked_fun nt gsi (device d)) d else d.

(** What the controllers' signals do to the rest of the machine: a wakeup
    makes the processor look for interrupts, a mask and an acknowledgement
    are notified. *)
Definition pic_signal {D} (nt : notifiers D) (n : note) (s : vm D) : vm D :=
  match n with
  | Kick =>
      match pic_vcpu (vcpus (ibus s)) with
      | Some i => with_bus (with_vcpus (alter request_event i (vcpus (ibus s))) (ibus s)) s
      | None => s
      end
  | MaskNotify irq masked => on_dev (kvm_fire_mask_notifiers nt (SELECT_PIC irq) irq masked) s
  | Acked irq => on_dev (fire_acked nt (SELECT_PIC irq) irq) s
  end.

(** The controllers in a new state, with their signals, oldest first. *)
Definition set_pic {D} (nt : notifiers D) (p : kvm_pic) (s : vm D) : vm D :=
  foldr (pic_signal nt)
    (on_dev (with_pic (Pic (master p) (slave p) (output p) (wakeup_needed p) (irq_states p) [])) s) (notes p).

(** ** Injection *)

Definition kvm_set_pic_irq {D} (nt : notifiers D) (pin src : Z) (level : bool) (s : vm D) : res (Z * vm D) :=
  '(p, r) ← kvm_pic_set_irq (pic (dev s)) pin src level;
  Ok (r, set_pic nt p s).

Definition kvm_set_msi_irq (lo data : Z) : kvm_lapic_irq :=
  LapicIrq (Z.land data 0xff) (Z.land data 0x700) (Z.land lo 4) 1 (Z.land data 0x8000) 0
    (Z.shiftr (Z.land lo 0xffff0) 12).

Definition kvm_set_msi {D} (lo data : Z) (level : bool) (s : vm D) : res (Z * vm D) :=
  if negb level then Ok (- 1, s)
  else
    '(r, b, _) ← kvm_irq_delivery_to_apic (ibus s) None (kvm_set_msi_irq lo data) ∅;
    Ok (r, with_bus b s).

Definition kvm_send_userspace_msi {D} (flags lo hi data : Z) (s : vm D) : res (Z * vm D) :=
  if negb (flags =? 0) then Ok (- EINVAL, s) else kvm_set_msi lo data true s.

(** The function an entry's [set] points to. *)
Definition route_set {D} (nt : notifiers D) (e : route) (src : Z) (level line_status : bool) (s : vm D) : res (Z * vm D) :=
  match e with
  | RIrqchip c pin =>
      if c =? KVM_IRQCHIP_IOAPIC then kvm_ioapic_set_irq pin src level line_status s
      else kvm_set_pic_irq nt pin src level s
  | RMsi lo _ data => kvm_set_msi lo data level s
  end.

Fixpoint set_all {D} (nt : notifiers D) (es : list route) (src : Z) (level line_status : bool) (ret : Z)
    (s : vm D) : res (Z * vm D) :=
  match es with
  | [] => Ok (ret, s)
  | e :: es =>
      '(r, s) ← route_set nt e src level line_status s;
      set_all nt es src level line_status (if r <? 0 then ret else r + (if ret <? 0 then 0 else ret)) s
  end.

(** The entries of an interrupt, if the table has it. *)
Definition routed (rt : kvm_irq_routing_table) (irq : Z) : list route :=
  if irq <? nr_rt_entries rt then entries rt irq else [].

(** The entries are first copied to an array of [KVM_NR_IRQCHIPS], and set
    from its end. *)
Definition kvm_set_irq {D} (nt : notifiers D) (src irq : Z) (level line_status : bool) (s : vm D)
    : res (Z * vm D) :=
  let irq_set := routed (routing (dev s)) irq in
  if (KVM_NR_IRQCHIPS <? length irq_set)%nat then Err BufferOverflow
  else set_all nt (reverse irq_set) src level line_status (- 1) s.

Definition kvm_set_irq_inatomic {D} (irq : Z) (s : vm D) : res (Z * vm D) :=
  match routed (routing (dev s)) irq with
  | [] => Ok (- EINVAL, s)
  | RMsi lo _ data :: _ =>
      '(fast, vs, _) ← kvm_irq_delivery_to_apic_fast (ibus s) None (kvm_set_msi_irq lo data) ∅;
      Ok (match fast with Some r => r | None => - EWOULDBLOCK end, with_bus (with_vcpus vs (ibus s)) s)
  | RIrqchip _ _ :: _ => Ok (- EWOULDBLOCK, s)
  end.

(** ** Sources and notifiers *)

Fixpoint first_zero (x i : Z) (n : nat) : Z :=
  match n with
  | O => i
  | S n => if Z.testbit x i then first_zero x (i + 1) n else i
  end.

Definition kvm_request_irq_source_id {D} (s : vm D) : Z * vm D :=
  let b := irq_sources_bitmap (dev s) in
  let id := first_zero b 0 64 in
  if BITS_PER_LONG <=? id then (- EFAULT, s) else (id, on_dev (with_sources (Z.setbit b id)) s).

Definition kvm_free_irq_source_id {D} (nt : notifiers D) (id : Z) (s : vm D) : vm D :=
  if (id <? 0) || (BITS_PER_LONG <=? id) then s
  else
    let s := on_dev (fun d => with_sources (Z.clearbit (irq_sources_bitmap d) id) d) s in
    let s := on_ioapic (kvm_ioapic_clear_all id) s in
    set_pic nt (kvm_pic_clear_all (pic (dev s)) id) s.

Definition kvm_irq_has_notifier {D} (irqchip pin : Z) (s : vm D) : bool :=
  let gsi := gsi_of irqchip pin (dev s) in negb (gsi =? - 1) && existsb (Z.eqb gsi) (ack_gsis (dev s)).

Definition kvm_register_irq_ack_notifier {D} (gsi : Z) (s : vm D) : vm D :=
  let s := on_dev (fun d => with_ack_gsis (gsi :: ack_gsis d) d) s in
  with_bus (kvm_vcpu_request_scan_ioapic (ibus s)) s.

(** [irq_acked] is what the notifiers registered for an interrupt do. *)
Definition kvm_notify_acked_irq {D} (irq_acked : Z -> vm D -> res (vm D)) (irqchip pin : Z) (s : vm D) : res (vm D) :=
  let gsi := gsi_of irqchip pin (dev s) in
  if gsi =? - 1 then Ok s else if existsb (Z.eqb gsi) (ack_gsis (dev s)) then irq_acked gsi s else Ok s.

(** ** Well-formed tables *)

Definition route_ok (e : route) : Prop :=
  match e with
  | RIrqchip c pin =>
      (c = KVM_IRQCHIP_IOAPIC /\ 0 <= pin < 24) \/
      ((c = KVM_IRQCHIP_PIC_MASTER \/ c = KVM_IRQCHIP_PIC_SLAVE) /\ 0 <= pin < 16)
  | RMsi _ _ _ => True
  end.

Definition chip_of (e : route) : option Z := match e with RIrqchip c _ => Some c | RMsi _ _ _ => None end.

(** An interrupt is one message, or at most one pin of each controller. *)
Record routes_ok (es : list route) : Prop := {
  re_each : Forall route_ok es;
  re_msi : None ∈ (chip_of <$> es) -> length es = 1%nat;
  re_chips : NoDup (chip_of <$> es)
}.

Definition routing_ok (rt : kvm_irq_routing_table) : Prop := forall gsi, routes_ok (entries rt gsi).

Lemma routes_ok_nil : routes_ok [].
Proof. split; [constructor|by intros ?%elem_of_nil|constructor]. Qed.

Lemma chip_in_range e : route_ok e -> chip_of e ∈ [None; Some 0; Some 1; Some 2].
Proof.
  destruct e as [c pin|lo hi data]; cbn; [|intros _; by left].
  intros [[-> _]|[[->| ->] _]]; unfold KVM_IRQCHIP_IOAPIC, KVM_IRQCHIP_PIC_MASTER, KVM_IRQCHIP_PIC_SLAVE; set_solver.
Qed.

(** So there are never more than the injection has room for. *)
Lemma routes_ok_length es : routes_ok es -> (length es <= 3)%nat.
Proof.
  intros [Hall Hm Hnd]. rewrite <- (length_fmap chip_of es). destruct (decide (None ∈ (chip_of <$> es))) as [Hin|Hn].
  - rewrite length_fmap, Hm by done. lia.
  - apply (NoDup_incl_length (l := chip_of <$> es) (l' := [Some 0; Some 1; Some 2])).
    + by apply NoDup_ListNoDup.
    + intros x Hx. apply list_elem_of_In in Hx. apply list_elem_of_In. apply list_elem_of_fmap in Hx as Hx'.
      destruct Hx' as (e & -> & He). rewrite Forall_forall in Hall. specialize (chip_in_range e (Hall e He)).
      intros [E|?]%elem_of_cons; [|done]. rewrite E in Hx. done.
Qed.

Lemma set_routing_entry_ok ue rt e rt' : kvm_set_routing_entry ue rt = Some (e, rt') ->
  route_ok e /\ rt_map rt' = rt_map rt /\
  (chip_of e = match ue_route ue with UIrqchip c _ => Some c | _ => None end).
Proof.
  unfold kvm_set_routing_entry. destruct (ue_route ue) as [c pin|lo hi data|]; [|by intros [= <- <-]|done].
  assert (Hp : forall x, 0 <= u32 x) by (intros x; apply Z.mod_pos_bound; lia).
  unfold PIC_NUM_PINS, KVM_IOAPIC_NUM_PINS.
  destruct (Z.eqb_spec c KVM_IRQCHIP_PIC_MASTER) as [->|]; [|destruct (Z.eqb_spec c KVM_IRQCHIP_PIC_SLAVE) as [->|];
    [|destruct (Z.eqb_spec c KVM_IRQCHIP_IOAPIC) as [->|]; [|done]]].
  all: match goal with |- context [?m <=? u32 ?x] => specialize (Hp x); destruct (Z.leb_spec m (u32 x)) as [|Hlt] end; [done|];
    intros [= <- <-]; (split; [|done]); cbn; auto.
Qed.

Lemma entries_insert rt c n gsi es g :
  entries (RoutingTable c n (<[gsi := es]> (rt_map rt))) g = if decide (gsi = g) then es else entries rt g.
Proof. unfold entries. cbn. rewrite lookup_insert. by case_decide. Qed.

Lemma setup_routing_entry_ok ue rt rt' : routing_ok rt -> setup_routing_entry ue rt = Some rt' -> routing_ok rt'.
Proof.
  intros Hrt. unfold setup_routing_entry. destruct (existsb _ _) eqn:Ec; [done|].
  destruct (kvm_set_routing_entry ue rt) as [[e rt1]|] eqn:Es; [|done]. cbn. intros [= <-].
  destruct (set_routing_entry_ok _ _ _ _ Es) as (He & Em & Ech).
  intros g. rewrite Em. rewrite entries_insert. case_decide as Hg; [|by apply Hrt]. subst g.
  assert (Een : entries rt1 (ue_gsi ue) = entries rt (ue_gsi ue)) by (unfold entries; by rewrite Em). rewrite Een.
  destruct (Hrt (ue_gsi ue)) as [Hall Hmsi Hnd]. set (es := entries rt (ue_gsi ue)) in *.
  assert (Hnc : forall ei, ei ∈ es -> conflicts (ue_route ue) ei = false).
  { intros ei Hei. destruct (conflicts (ue_route ue) ei) eqn:E; [|done]. rewrite <- Ec. symmetry. apply existsb_exists.
    exists ei. split; [by apply list_elem_of_In|done]. }
  assert (Hchip : forall ei, ei ∈ es -> exists c c', chip_of ei = Some c /\ chip_of e = Some c' /\ c <> c').
  { intros ei Hei. pose proof (Hnc ei Hei) as Hc. rewrite Ech. destruct ei as [c p|]; [|done]. cbn in Hc.
    destruct (ue_route ue) as [c' p'|lo hi d|] eqn:Eu; cbn in Hc; [|done|].
    - apply Z.eqb_neq in Hc. by exists c, c'.
    - unfold kvm_set_routing_entry in Es. by rewrite Eu in Es. }
  split.
  - by constructor.
  - cbn. intros [E|Hin]%elem_of_cons.
    + destruct es as [|ei es']; [done|]. destruct (Hchip ei) as (c & c' & _ & E' & _); [by left|]. congruence.
    + apply list_elem_of_fmap in Hin as (ei & E & Hei). destruct (Hchip ei Hei) as (c & c' & E' & _). congruence.
  - cbn. constructor; [|done]. intros (ei & E & Hei)%list_elem_of_fmap.
    destruct (Hchip ei Hei) as (c & c' & E1 & E2 & Hne). congruence.
Qed.

Lemma setup_entries_ok ues : forall rt rt', routing_ok rt -> setup_entries ues rt = Some rt' -> routing_ok rt'.
Proof.
  induction ues as [|ue ues IH]; intros rt rt' Hrt; cbn [setup_entries]; [by intros [= <-]|].
  destruct (negb _); [done|]. destruct (setup_routing_entry ue rt) as [rt1|] eqn:E; [|done]. cbn.
  apply IH. by eapply setup_routing_entry_ok.
Qed.

Lemma empty_routing_ok n : routing_ok (RoutingTable ∅ n ∅).
Proof. intros g. unfold entries. cbn. rewrite lookup_empty. apply routes_ok_nil. Qed.

Lemma set_irq_routing_ok alloc ues rt : routing_ok rt -> routing_ok (kvm_set_irq_routing alloc ues rt).2.
Proof.
  intros Hrt. unfold kvm_set_irq_routing. destruct (existsb _ _); [done|]. destruct (negb alloc); [done|].
  destruct (setup_entries _ _) as [rt'|] eqn:E; [|done]. eapply setup_entries_ok; [apply empty_routing_ok|done].
Qed.

(** The entry a request becomes. *)
Definition kernel_route (ue : user_entry) : route :=
  match ue_route ue with
  | UIrqchip c pin => RIrqchip c (u32 (pin + if c =? KVM_IRQCHIP_PIC_SLAVE then 8 else 0))
  | UMsi lo hi data => RMsi lo hi data
  | UOther => RMsi 0 0 0
  end.

Definition requested_routes (ues : list user_entry) (gsi : Z) : list route :=
  kernel_route <$> filter (fun ue => ue_gsi ue = gsi) ues.

Lemma kernel_route_eq ue rt e rt' : kvm_set_routing_entry ue rt = Some (e, rt') -> e = kernel_route ue.
Proof.
  unfold kvm_set_routing_entry, kernel_route. destruct (ue_route ue) as [c pin|lo hi data|]; [|by intros [= <- _]|done].
  destruct (Z.eqb_spec c KVM_IRQCHIP_PIC_MASTER) as [->|]; [|destruct (Z.eqb_spec c KVM_IRQCHIP_PIC_SLAVE) as [->|];
    [|destruct (Z.eqb_spec c KVM_IRQCHIP_IOAPIC) as [->|]; [|done]]].
  all: destruct (_ <=? _); [done|]; by intros [= <- _].
Qed.

Lemma setup_entries_exact ues : forall rt rt' g, setup_entries ues rt = Some rt' ->
  entries rt' g = reverse (requested_routes ues g) ++ entries rt g.
Proof.
  induction ues as [|ue ues IH]; intros rt rt' g; cbn [setup_entries]; [by intros [= <-]|].
  destruct (negb _); [done|]. destruct (setup_routing_entry ue rt) as [rt1|] eqn:E; [|done]. cbn [mbind option_bind].
  intros E2. rewrite (IH _ _ g E2). unfold setup_routing_entry in E. destruct (existsb _ _); [done|].
  destruct (kvm_set_routing_entry ue rt) as [[e rt2]|] eqn:Es; [|done]. cbn in E. injection E as <-.
  destruct (set_routing_entry_ok _ _ _ _ Es) as (_ & Em & _). rewrite (kernel_route_eq _ _ _ _ Es), Em, entries_insert.
  unfold requested_routes. rewrite filter_cons. destruct (decide (ue_gsi ue = g)) as [<-|Hne].
  - cbn [fmap list_fmap]. rewrite reverse_cons, <- app_assoc. unfold entries. by rewrite Em.
  - done.
Qed.

(** C37: The ioctl that replaces the routing table either installs exactly the
    requested entries, in the order of the request for each interrupt, or
    fails and leaves the table as it was.  Every table it installs is well
    formed: pins exist, an interrupt is one message or at most one pin of
    each controller, and so has no more entries than the injection's array. *)
Theorem set_irq_routing_typed alloc ues rt r rt' : routing_ok rt -> kvm_set_irq_routing alloc ues rt = (r, rt') ->
  routing_ok rt' /\ (forall gsi, (length (entries rt' gsi) <= KVM_NR_IRQCHIPS)%nat) /\
  ((r = 0 /\ forall gsi, entries rt' gsi = reverse (requested_routes ues gsi)) \/
   ((r = - EINVAL \/ r = - ENOMEM) /\ rt' = rt)).
Proof.
  intros Hrt E. pose proof (set_irq_routing_ok alloc ues rt Hrt) as Hok. rewrite E in Hok. cbn in Hok.
  split; [done|]. split; [intros gsi; apply routes_ok_length, Hok|]. unfold kvm_set_irq_routing in E.
  destruct (existsb _ _); [injection E as <- <-; right; split; [by left|done]|].
  destruct (negb alloc); [injection E as <- <-; right; split; [by right|done]|].
  destruct (setup_entries _ _) as [new|] eqn:Es; injection E as <- <-; [left|right; split; [by left|done]].
  split; [done|]. intros gsi. rewrite (setup_entries_exact _ _ _ gsi Es). unfold entries. cbn. by rewrite lookup_empty, app_nil_r.
Qed.

Lemma set_irq_routing_typed_witness :
  exists rt', kvm_set_irq_routing true default_routing (RoutingTable ∅ 0 ∅) = (0, rt') /\
    (length (entries rt' 9) <= 3)%nat.
Proof.
  exists (kvm_set_irq_routing true default_routing (RoutingTable ∅ 0 ∅)).2.
  assert (E : kvm_set_irq_routing true default_routing (RoutingTable ∅ 0 ∅) =
              (0, (kvm_set_irq_routing true default_routing (RoutingTable ∅ 0 ∅)).2)) by (vm_compute; reflexivity).
  split; [exact E|]. apply (set_irq_routing_typed true default_routing (RoutingTable ∅ 0 ∅) _ _ (empty_routing_ok 0) E).
Defined.

(** ** Injection never fails *)

(** What the devices keep true of their own state. *)
Class DeviceInv (D : Type) := dev_inv : D -> Prop.

#[export] Instance unit_inv : DeviceInv unit := fun _ => True.

(** The notifiers keep it. *)
Class NotifiersOk `{Hinv : DeviceInv D} (nt : notifiers D) : Prop := {
  masked_inv : forall gsi mask d, dev_inv d -> dev_inv (masked_fun nt gsi mask d);
  acked_inv : forall gsi d, dev_inv d -> dev_inv (acked_fun nt gsi d)
}.

#[export] Instance no_notifiers_ok `{Hinv : DeviceInv D} : NotifiersOk (no_notifiers (D := D)).
Proof. by split. Qed.

Record dev_ok `{Hinv : DeviceInv D} (d : devs D) : Prop := {
  do_pic : pic_ok (pic d);
  do_routing : routing_ok (routing d);
  do_device : dev_inv (device d)
}.

Record vm_ok `{Hinv : DeviceInv D} (s : vm D) : Prop := { vo_irqs : irqs_ok s; vo_dev : dev_ok (dev s) }.

(** An operation of the machine: it keeps the machine's invariant and its
    processors. *)
Record vm_good `{Hinv : DeviceInv D} (s s' : vm D) : Prop := {
  vg_ok : vm_ok s';
  vg_ids : vcpu_id <$> vcpus (ibus s') = vcpu_id <$> vcpus (ibus s)
}.

Lemma vm_good_refl `{Hinv : DeviceInv D} (s : vm D) : vm_ok s -> vm_good s s.
Proof. by split. Qed.

Lemma vm_good_trans `{Hinv : DeviceInv D} (s1 s2 s3 : vm D) : vm_good s1 s2 -> vm_good s2 s3 -> vm_good s1 s3.
Proof. intros [_ E1] [H2 E2]. split; [done|]. by rewrite E2. Qed.

Lemma vm_good_length `{Hinv : DeviceInv D} (s s' : vm D) : vm_good s s' -> length (vcpus (ibus s')) = length (vcpus (ibus s)).
Proof. intros H. apply ids_length, H. Qed.

(** From an operation of the I/O APIC and the processors. *)
Lemma good_vm `{Hinv : DeviceInv D} (s s' : vm D) : good s s' -> dev_ok (dev s') -> vm_good s s'.
Proof. intros [G1 G2] Hd. by split. Qed.

Lemma vm_good_dev `{Hinv : DeviceInv D} (s : vm D) f : vm_ok s -> dev_ok (f (dev s)) -> vm_good s (on_dev f s).
Proof. intros [[H1 H1'] H2] Hd. split; [|done]. by split. Qed.

Lemma vm_good_bus `{Hinv : DeviceInv D} (s : vm D) vs' : vm_ok s -> bus_step (vcpus (ibus s)) vs' ->
  vm_good s (with_bus (with_vcpus vs' (ibus s)) s).
Proof. intros Hs Hb. apply good_vm; [apply good_bus; [apply Hs|done]|apply Hs]. Qed.

(** *** Its steps *)

Lemma fire_mask_ok `{Hinv : DeviceInv D} (nt : notifiers D) `{!NotifiersOk nt} irqchip pin mask d : dev_ok d ->
  dev_ok (kvm_fire_mask_notifiers nt irqchip pin mask d).
Proof.
  intros []. unfold kvm_fire_mask_notifiers. destruct (_ =? - 1); [done|]. split; [done..|]. by apply masked_inv.
Qed.

Lemma pic_signal_ok `{Hinv : DeviceInv D} (nt : notifiers D) `{!NotifiersOk nt} n (s : vm D) : vm_ok s -> vm_good s (pic_signal nt n s).
Proof.
  intros Hs. destruct n as [|irq masked|irq]; cbn [pic_signal].
  - destruct (pic_vcpu _) as [i|]; [|by apply vm_good_refl]. apply vm_good_bus; [done|].
    apply Forall2_same_length_lookup. split; [by rewrite length_alter|]. intros j v v' Hv.
    destruct (decide (i = j)) as [<-|Hj]; [rewrite list_lookup_alter_eq|rewrite list_lookup_alter_ne by done];
      rewrite Hv; intros [= <-]; [apply request_event_step|done].
  - apply vm_good_dev; [done|]. apply fire_mask_ok; [done|apply Hs].
  - apply vm_good_dev; [done|]. destruct (vo_dev _ Hs). unfold fire_acked. destruct (_ && _); [|done].
    split; [done..|]. by apply acked_inv.
Qed.

(** What the controllers' signals leave as it is. *)
Lemma pic_signal_same {D} (nt : notifiers D) n (s : vm D) :
  pic (dev (pic_signal nt n s)) = pic (dev s) /\ routing (dev (pic_signal nt n s)) = routing (dev s) /\
  ioapic (pic_signal nt n s) = ioapic s.
Proof.
  destruct n as [|irq masked|irq]; cbn [pic_signal]; [by destruct (pic_vcpu _)|..]; unfold on_dev, kvm_fire_mask_notifiers, fire_acked;
    cbn; [by destruct (_ =? - 1)|by destruct (_ && _)].
Qed.

Lemma set_pic_ok `{Hinv : DeviceInv D} (nt : notifiers D) `{!NotifiersOk nt} p (s : vm D) : vm_ok s -> pic_ok p ->
  vm_good s (set_pic nt p s) /\ routing (dev (set_pic nt p s)) = routing (dev s) /\
  ioapic (set_pic nt p s) = ioapic s /\ irq_states (pic (dev (set_pic nt p s))) = irq_states p.
Proof.
  intros Hs Hp. unfold set_pic. set (s0 := on_dev _ s).
  assert (H0 : vm_good s s0) by (apply vm_good_dev; [done|]; destruct Hp, (vo_dev _ Hs); by split).
  assert (Hst : irq_states (pic (dev s0)) = irq_states p) by done.
  assert (Hr : routing (dev s0) = routing (dev s)) by done. assert (Hio : ioapic s0 = ioapic s) by done. clearbody s0.
  induction (notes p) as [|n ns (IH & IHr & IHio & IHs)]; [done|]. cbn [foldr]. set (s1 := foldr _ s0 ns) in *.
  destruct (pic_signal_same nt n s1) as (-> & -> & ->).
  split; [|done]. eapply vm_good_trans; [exact IH|]. apply pic_signal_ok; [done|apply IH].
Qed.

Lemma kvm_pic_set_irq_states p pin src lv p' r : kvm_pic_set_irq p pin src lv = Ok (p', r) ->
  irq_states p' = alter (fun st => line_state st src lv) (Z.to_nat pin) (irq_states p).
Proof.
  unfold kvm_pic_set_irq. destruct (_ || _); [done|]. destruct (_ || _); [done|]. destruct (irq_states p !! Z.to_nat pin) as [st|] eqn:E; [|done].
  set (s1 := Pic _ _ _ _ _ _). set (b := negb (Z.shiftr pin 3 =? 0)). intros [= <- _].
  transitivity (irq_states s1).
  - unfold pic_update_irq. cbn. set (s2 := on_chip b _ s1). assert (E2 : irq_states s2 = irq_states s1) by (unfold s2; by destruct b).
    clearbody s2. cbn. by destruct (0 <=? _).
  - cbn. rewrite list_insert_alter. apply list_alter_ext; [|done]. intros x Hx. congruence.
Qed.

Lemma service_states {E} pin ls (s : irqs E) r s' : ioapic_service pin ls s = Ok (r, s') ->
  io_irq_states (ioapic s') = io_irq_states (ioapic s).
Proof.
  unfold ioapic_service. destruct (entry_at _ _) as [e|]; [cbn [mbind res_bind]|done].
  destruct (e_mask e); [by intros [= _ <-]|]. set (s1 := if _ =? IOAPIC_EDGE_TRIG then _ else s).
  assert (E1 : io_irq_states (ioapic s1) = io_irq_states (ioapic s)) by (unfold s1; by destruct (_ =? _)).
  clearbody s1. rewrite <- E1. intros E2.
  destruct (_ && ls) in E2; [destruct (negb _) in E2; [done|]|];
    destruct (kvm_irq_delivery_to_apic _ _ _ _) as [[[r1 b] dm]|] in E2; cbn in E2; [|done|..|done];
    injection E2 as _ <-; by destruct (_ && _).
Qed.

Lemma kvm_ioapic_set_irq_states {E} pin src lv ls (s : irqs E) r s' : kvm_ioapic_set_irq pin src lv ls s = Ok (r, s') ->
  io_irq_states (ioapic s') = alter (fun st => line_sources st src lv) (Z.to_nat pin) (io_irq_states (ioapic s)).
Proof.
  unfold kvm_ioapic_set_irq. destruct (_ || _); [done|]. destruct (_ || _); [done|].
  destruct (io_irq_states (ioapic s) !! Z.to_nat pin) as [st|] eqn:E0; [|done].
  set (s1 := on_ioapic _ s). intros E1. transitivity (io_irq_states (ioapic s1)).
  2:{ cbn. rewrite list_insert_alter. apply list_alter_ext; [|done]. intros x Hx. congruence. }
  unfold ioapic_set_irq in E1. destruct (entry_at _ _) as [e|]; [cbn [mbind res_bind] in E1|done]. clearbody s1.
  destruct (negb (negb _)); [by injection E1 as _ <-|]. destruct (_ && _ && _); [by injection E1 as _ <-|].
  destruct (_ || _); [by injection E1 as _ <-|]. by rewrite (service_states _ _ _ _ _ E1).
Qed.

(** The pins of a controller an interrupt is connected to. *)
Definition io_pins (es : list route) : list nat :=
  omap (fun e => match e with RIrqchip c p => if c =? KVM_IRQCHIP_IOAPIC then Some (Z.to_nat p) else None | _ => None end) es.
Definition pic_pins (es : list route) : list nat :=
  omap (fun e => match e with RIrqchip c p => if c =? KVM_IRQCHIP_IOAPIC then None else Some (Z.to_nat p) | _ => None end) es.

(** A source's bit changed on some lines, and on no other. *)
Definition lines_changed (f : Z -> Z) (pins : list nat) (l l' : list Z) : Prop :=
  forall p, l' !! p = if decide (p ∈ pins) then f <$> l !! p else l !! p.

Lemma lines_changed_nil f l : lines_changed f [] l l.
Proof. intros p. by rewrite decide_False by apply not_elem_of_nil. Qed.

Lemma lines_changed_app f ps ps' l1 l2 l3 : (forall x, f (f x) = f x) ->
  lines_changed f ps l1 l2 -> lines_changed f ps' l2 l3 -> lines_changed f (ps ++ ps') l1 l3.
Proof.
  intros Hf H1 H2 p. rewrite (H2 p), (H1 p). destruct (l1 !! p) as [x|]; repeat case_decide; cbn; rewrite ?Hf; try done; set_solver.
Qed.

Lemma lines_changed_one f p l : lines_changed f [p] l (alter f p l).
Proof.
  intros q. rewrite list_lookup_alter. repeat case_decide; subst; try done; set_solver.
Qed.

Lemma line_state_twice st src lv : line_state (line_state st src lv) src lv = line_state st src lv.
Proof.
  apply Z.bits_inj'. intros i Hi. unfold line_state. destruct lv; rewrite ?Z.lor_spec, ?Z.ldiff_spec;
  by destruct (Z.testbit st i), (Z.testbit (bit src) i).
Qed.

Lemma line_sources_twice st src lv : line_sources (line_sources st src lv) src lv = line_sources st src lv.
Proof.
  unfold line_sources, Z.setbit, Z.clearbit. apply Z.bits_inj'. intros i Hi.
  destruct lv; rewrite ?Z.lor_spec, ?Z.ldiff_spec; by destruct (Z.testbit st i), (Z.testbit (Z.shiftl 1 src) i).
Qed.

(** The machine after an interrupt's line changed: the source's bit of every
    pin the interrupt is connected to. *)
Record line_set `{Hinv : DeviceInv D} (es : list route) (src : Z) (lv : bool) (s s' : vm D) : Prop := {
  ls_good : vm_good s s';
  ls_routing : routing (dev s') = routing (dev s);
  ls_io : lines_changed (fun st => line_sources st src lv) (io_pins es) (io_irq_states (ioapic s)) (io_irq_states (ioapic s'));
  ls_pic : lines_changed (fun st => line_state st src lv) (pic_pins es) (irq_states (pic (dev s))) (irq_states (pic (dev s')))
}.

Lemma line_set_nil `{Hinv : DeviceInv D} src lv (s : vm D) : vm_ok s -> line_set [] src lv s s.
Proof. intros Hs. split; [by apply vm_good_refl|done|apply lines_changed_nil|apply lines_changed_nil]. Qed.

Lemma line_set_cons `{Hinv : DeviceInv D} e es src lv (s1 s2 s3 : vm D) :
  line_set [e] src lv s1 s2 -> line_set es src lv s2 s3 -> line_set (e :: es) src lv s1 s3.
Proof.
  intros [G1 R1 I1 P1] [G2 R2 I2 P2]. split; [by eapply vm_good_trans|congruence|..].
  - change (e :: es) with ([e] ++ es). unfold io_pins. rewrite omap_app.
    eapply lines_changed_app; [intros x; apply line_sources_twice|exact I1|exact I2].
  - change (e :: es) with ([e] ++ es). unfold pic_pins. rewrite omap_app.
    eapply lines_changed_app; [intros x; apply line_state_twice|exact P1|exact P2].
Qed.

Lemma msi_vector data : is_vector (Z.land data 0xff).
Proof. unfold is_vector. change 0xff with (Z.ones 8). rewrite Z.land_ones by lia. apply Z.mod_pos_bound. lia. Qed.

Lemma kvm_set_msi_ok `{Hinv : DeviceInv D} lo data lv (s : vm D) : vm_ok s ->
  exists r s', kvm_set_msi lo data lv s = Ok (r, s') /\ vm_good s s' /\ ioapic s' = ioapic s /\ dev s' = dev s /\ - 1 <= r.
Proof.
  intros Hs. unfold kvm_set_msi. destruct (negb lv); [do 2 eexists; split; [done|]; split; [by apply vm_good_refl|done]|].
  destruct (delivery_ok (ibus s) None (kvm_set_msi_irq lo data) ∅ (ok_bus _ (vo_irqs _ Hs))) as (r & vs' & dm & -> & [S _ _ L]).
  { apply msi_vector. }
  { done. }
  cbn [mbind res_bind]. do 2 eexists. split; [done|]. split; [by apply vm_good_bus|]. done.
Qed.

Section injection.
  Context `{Hinv : DeviceInv D} (nt : notifiers D) `{!NotifiersOk nt}.

Lemma kvm_set_pic_irq_ok pin src lv (s : vm D) : vm_ok s -> 0 <= pin < 16 -> 0 <= src < 64 ->
  exists r s', kvm_set_pic_irq nt pin src lv s = Ok (r, s') /\ vm_good s s' /\ routing (dev s') = routing (dev s) /\
    ioapic s' = ioapic s /\
    irq_states (pic (dev s')) = alter (fun st => line_state st src lv) (Z.to_nat pin) (irq_states (pic (dev s))).
Proof.
  intros Hs Hp Hsrc. unfold kvm_set_pic_irq.
  destruct (kvm_pic_set_irq_ok (pic (dev s)) pin src lv Hp Hsrc (do_pic _ (vo_dev _ Hs))) as (p' & r & E & Hok).
  rewrite E. cbn [mbind res_bind]. do 2 eexists. split; [done|].
  destruct (set_pic_ok nt p' s Hs Hok) as (Hg & Hr & Hio & ->). by rewrite (kvm_pic_set_irq_states _ _ _ _ _ _ E).
Qed.

Lemma route_set_ok e src lv ls (s : vm D) : vm_ok s -> route_ok e -> 0 <= src < 64 ->
  exists r s', route_set nt e src lv ls s = Ok (r, s') /\ line_set [e] src lv s s'.
Proof.
  intros Hs He Hsrc. destruct e as [c pin|lo hi data]; cbn [route_set].
  - destruct (Z.eqb_spec c KVM_IRQCHIP_IOAPIC) as [->|Hc].
    + destruct He as [[_ Hp]|[[?|?] _]]; [|done..].
      destruct (kvm_ioapic_set_irq_ok pin src lv ls s (vo_irqs _ Hs) Hp Hsrc) as (r & s' & E & Hg). do 2 eexists. split; [exact E|].
      pose proof (kvm_ioapic_set_irq_dev _ _ _ _ _ _ _ E) as Ed.
      split; [apply good_vm; [done|]; rewrite Ed; apply Hs|by rewrite Ed| |rewrite Ed; apply lines_changed_nil].
      rewrite (kvm_ioapic_set_irq_states _ _ _ _ _ _ _ E). apply lines_changed_one.
    + destruct He as [[? _]|[_ Hp]]; [done|].
      destruct (kvm_set_pic_irq_ok pin src lv s Hs Hp Hsrc) as (r & s' & E & Hg & Hr & Hio & Est). do 2 eexists. split; [exact E|].
      apply Z.eqb_neq in Hc. split; [done|done|rewrite Hio; unfold io_pins; cbn; rewrite Hc; apply lines_changed_nil|].
      rewrite Est. unfold pic_pins. cbn. rewrite Hc. apply lines_changed_one.
  - destruct (kvm_set_msi_ok lo data lv s Hs) as (r & s' & E & Hg & Hio & Ed & _). do 2 eexists. split; [exact E|].
    split; [done|by rewrite Ed|rewrite Hio; apply lines_changed_nil|rewrite Ed; apply lines_changed_nil].
Qed.

Lemma set_all_ok es src lv ls : 0 <= src < 64 -> Forall route_ok es -> forall ret (s : vm D), vm_ok s ->
  exists r s', set_all nt es src lv ls ret s = Ok (r, s') /\ line_set es src lv s s'.
Proof.
  intros Hsrc. induction 1 as [|e es He _ IH]; intros ret s Hs; cbn [set_all].
  { do 2 eexists. split; [done|by apply line_set_nil]. }
  destruct (route_set_ok e src lv ls s Hs He Hsrc) as (r & s1 & -> & H1). cbn [mbind res_bind].
  destruct (IH (if r <? 0 then ret else r + (if ret <? 0 then 0 else ret)) s1 (vg_ok _ _ (ls_good _ _ _ _ _ H1)))
    as (r' & s2 & -> & H2).
  do 2 eexists. split; [done|]. by eapply line_set_cons.
Qed.
End injection.

(** What an interrupt line does to the devices is what the 8259 does. *)
Lemma kvm_set_irq_dev {D} (nt : notifiers D) (R : devs D -> devs D -> Prop) `{!PreOrder R} src irq lv ls (s : vm D) r s' :
  (forall pin s r s', kvm_set_pic_irq nt pin src lv s = Ok (r, s') -> R (dev s) (dev s')) ->
  kvm_set_irq nt src irq lv ls s = Ok (r, s') -> R (dev s) (dev s').
Proof.
  intros HR. unfold kvm_set_irq. destruct (_ <? _)%nat; [done|]. generalize (- 1) (reverse (routed (routing (dev s)) irq)).
  intros ret es. revert s ret. induction es as [|e es IH]; intros s ret; cbn [set_all]; [by intros [= <- <-]|].
  destruct (route_set nt e src lv ls s) as [[r1 s1]|] eqn:E1; [|done]. cbn [mbind res_bind]. intros E2.
  transitivity (dev s1); [|by eapply IH]. destruct e as [c pin|lo hi data]; cbn [route_set] in E1.
  - destruct (_ =? _); [by rewrite (kvm_ioapic_set_irq_dev _ _ _ _ _ _ _ E1)|by eapply HR].
  - unfold kvm_set_msi in E1. destruct (negb lv); [by injection E1 as _ <-|].
    destruct (kvm_irq_delivery_to_apic _ _ _ _) as [[[? ?] ?]|]; [|done]. by injection E1 as _ <-.
Qed.

(** Some of the devices' data only the devices' own operations change. *)
Definition same_sources {D} (d d' : devs D) : Prop :=
  irq_sources_bitmap d' = irq_sources_bitmap d /\ ack_gsis d' = ack_gsis d /\ vapics_in_nmi_mode d' = vapics_in_nmi_mode d.

#[export] Instance same_sources_preorder {D} : PreOrder (same_sources (D := D)).
Proof. split; [done|]. intros d1 d2 d3 (? & ? & ?) (? & ? & ?). unfold same_sources. by repeat split; etransitivity. Qed.

Lemma pic_signal_sources {D} (nt : notifiers D) n (s : vm D) : same_sources (dev s) (dev (pic_signal nt n s)).
Proof.
  destruct n as [|irq masked|irq]; cbn [pic_signal]; [by destruct (pic_vcpu _)|..]; unfold kvm_fire_mask_notifiers, fire_acked;
    cbn; [by destruct (_ =? - 1)|by destruct (_ && _)].
Qed.

Lemma set_pic_sources {D} (nt : notifiers D) p (s : vm D) : same_sources (dev s) (dev (set_pic nt p s)).
Proof.
  unfold set_pic. induction (notes p) as [|n ns IH]; [done|]. cbn [foldr]. etransitivity; [exact IH|]. apply pic_signal_sources.
Qed.

Lemma kvm_set_irq_sources {D} (nt : notifiers D) src irq lv ls (s : vm D) r s' :
  kvm_set_irq nt src irq lv ls s = Ok (r, s') -> same_sources (dev s) (dev s').
Proof.
  apply kvm_set_irq_dev; [apply _|]. intros pin s0 r0 s0'. unfold kvm_set_pic_irq.
  destruct (kvm_pic_set_irq _ _ _ _) as [[p' x]|]; [|done]. intros [= _ <-]. apply set_pic_sources.
Qed.

(** An interrupt line tells the devices nothing. *)
Definition same_device {D} (d d' : devs D) : Prop :=
  notes (pic d) = [] -> notes (pic d') = [] /\ device d' = device d.

#[export] Instance same_device_preorder {D} : PreOrder (same_device (D := D)).
Proof. split; [done|]. intros d1 d2 d3 H12 H23 H1. destruct (H12 H1) as [H2 E2], (H23 H2) as [H3 E3]. by rewrite E3. Qed.

Lemma kvm_pic_set_irq_notes p pin src lv p' r : kvm_pic_set_irq p pin src lv = Ok (p', r) -> notes p = [] ->
  notes p' = [] \/ notes p' = [Kick].
Proof.
  unfold kvm_pic_set_irq. destruct (_ || _); [done|]. destruct (_ || _); [done|]. destruct (_ !! _) as [st|]; [|done]. intros [= <- _] Hn.
  set (s1 := on_chip _ _ _). assert (H1 : notes (pic_update_irq s1) = []).
  { unfold pic_update_irq. cbn. assert (notes s1 = []) by (unfold s1; by destruct (negb _)). by destruct (0 <=? _). }
  unfold pic_unlock. cbn [notes]. rewrite H1. destruct (wakeup_needed (pic_update_irq s1)); auto.
Qed.

Lemma kvm_set_irq_device {D} (nt : notifiers D) src irq lv ls (s : vm D) r s' :
  kvm_set_irq nt src irq lv ls s = Ok (r, s') -> same_device (dev s) (dev s').
Proof.
  apply kvm_set_irq_dev; [apply _|]. intros pin s0 r0 s0'. unfold kvm_set_pic_irq.
  destruct (kvm_pic_set_irq _ _ _ _) as [[p' x]|] eqn:E; [|done]. intros [= _ <-] Hn. unfold set_pic.
  destruct (kvm_pic_set_irq_notes _ _ _ _ _ _ E Hn) as [->| ->]; cbn; [done|]. by destruct (pic_vcpu _).
Qed.

Lemma routed_ok rt irq : routing_ok rt -> routes_ok (routed rt irq).
Proof. intros Hrt. unfold routed. destruct (_ <? _); [apply Hrt|apply routes_ok_nil]. Qed.

Lemma lines_changed_ext f ps ps' l l' : (forall p, p ∈ ps <-> p ∈ ps') -> lines_changed f ps l l' -> lines_changed f ps' l l'.
Proof. intros Hp H p. rewrite (H p). repeat case_decide; set_solver. Qed.

Lemma line_set_reverse `{Hinv : DeviceInv D} es src lv (s s' : vm D) : line_set (reverse es) src lv s s' -> line_set es src lv s s'.
Proof.
  intros [G R I P]. split; [done|done|..].
  - eapply lines_changed_ext; [|exact I]. intros p. unfold io_pins. rewrite !list_elem_of_omap. set_solver.
  - eapply lines_changed_ext; [|exact P]. intros p. unfold pic_pins. rewrite !list_elem_of_omap. set_solver.
Qed.

Lemma kvm_set_irq_good `{Hinv : DeviceInv D} (nt : notifiers D) `{!NotifiersOk nt} src irq lv ls (s : vm D) : vm_ok s -> 0 <= src < 64 ->
  exists r s', kvm_set_irq nt src irq lv ls s = Ok (r, s') /\
    line_set (routed (routing (dev s)) irq) src lv s s'.
Proof.
  intros Hs Hsrc. unfold kvm_set_irq. pose proof (routed_ok _ irq (do_routing _ (vo_dev _ Hs))) as Hrt.
  rewrite (proj2 (Nat.ltb_ge _ _)) by (apply routes_ok_length, Hrt).
  destruct (set_all_ok nt (reverse (routed (routing (dev s)) irq)) src lv ls Hsrc) with (ret := - 1) (s := s)
    as (r & s' & -> & H); [apply Forall_reverse, Hrt|done|]. do 2 eexists. split; [done|]. by apply line_set_reverse.
Qed.

(** C38: Raising or lowering an interrupt, for a source with a bit in the word
    of a line, always completes: the array of entries is never overrun and no
    controller is given a pin it does not have.  It changes the source's bit
    on exactly the pins the table connects the interrupt to, and keeps the
    machine's invariant.  The machine satisfies that invariant, and so do the
    notifiers of masks and acknowledgements. *)
Theorem kvm_set_irq_correct `{Hinv : DeviceInv D} (nt : notifiers D) `{!NotifiersOk nt} src irq lv ls (s : vm D) : vm_ok s -> 0 <= src < 64 ->
  exists r s', kvm_set_irq nt src irq lv ls s = Ok (r, s') /\
    line_set (routed (routing (dev s)) irq) src lv s s'.
Proof. intros Hs Hsrc. by apply kvm_set_irq_good. Qed.

(** A machine with two processors and the default table. *)
Definition demo_vm : vm unit :=
  Irqs two_vcpu_bus kvm_ioapic_init
    (Devs kvm_create_pic (kvm_set_irq_routing true default_routing (RoutingTable ∅ 0 ∅)).2 1 [] 0 tt).

Lemma demo_vm_ok : vm_ok demo_vm.
Proof.
  split; [split; [apply two_vcpu_bus_ok|apply ioapic_init_ok]|].
  split; [apply create_pic_ok|apply set_irq_routing_ok, empty_routing_ok|exact I].
Qed.

Lemma kvm_set_irq_correct_witness :
  exists r s', kvm_set_irq no_notifiers 0 9 true false demo_vm = Ok (r, s') /\
    io_irq_states (ioapic s') !! 9%nat = Some 1 /\ irq_states (pic (dev s')) !! 9%nat = Some 1 /\
    irq_states (pic (dev s')) !! 10%nat = Some 0.
Proof.
  destruct (kvm_set_irq_correct no_notifiers 0 9 true false demo_vm demo_vm_ok ltac:(lia)) as (r & s' & E & [_ _ Hio Hpic]).
  exists r, s'. split; [exact E|]. split; [rewrite (Hio 9%nat)|split; [rewrite (Hpic 9%nat)|rewrite (Hpic 10%nat)]];
    vm_compute; reflexivity.
Defined.
