(* ===== verification/IrqVm.v ===== *)
(** * The interrupt controllers of a machine together (kvm-kmod x86/lapic.c, x86/irq.c)

    The local APIC's registers as the guest reads and writes them, the end of
    an interrupt on its way to the I/O APIC, the restoration of a saved APIC,
    and the interrupt a processor takes next from the 8259 or its own APIC. *)

From S2P Require Import Prelude I8259 Lapic ApicBus IoApic IrqRouting.

Definition APIC_SEND_PENDING : Z := 0x1000.
Definition APIC_INPUT_POLARITY : Z := 0x2000.
Definition APIC_LVT_REMOTE_IRR : Z := 0x4000.
Definition APIC_BASE_MSR : Z := 0x800.
Definition LVT_MASK : Z := Z.lor (Z.lor APIC_LVT_MASKED APIC_SEND_PENDING) APIC_VECTOR_MASK.
Definition LINT_MASK : Z :=
  Z.lor (Z.lor (Z.lor (Z.lor LVT_MASK APIC_MODE_MASK) APIC_INPUT_POLARITY) APIC_LVT_REMOTE_IRR) APIC_LVT_LEVEL_TRIGGER.

Definition apic_lvt_mask : list Z :=
  [LVT_MASK; Z.lor LVT_MASK APIC_MODE_MASK; Z.lor LVT_MASK APIC_MODE_MASK; LINT_MASK; LINT_MASK; LVT_MASK].

(** ** Reading registers *)

Definition __apic_read (c : clock) (offset : Z) (v : kvm_vcpu) : Z * kvm_vcpu :=
  if LAPIC_MMIO_LENGTH <=? offset then (0, v)
  else if offset =? APIC_ID then
    (if apic_x2apic_mode v then kvm_apic_id (apic v) else Z.shiftl (kvm_apic_id (apic v)) 24, v)
  else if offset =? APIC_ARBPRI then (0, v)
  else if offset =? APIC_TMCCT then (if apic_lvtt_tscdeadline (apic v) then 0 else apic_get_tmcct c (apic v), v)
  else if offset =? APIC_PROCPRI then
    let v := apic_update_ppr v in (kvm_apic_get_reg (apic v) offset, v)
  else (kvm_apic_get_reg (apic v) offset, v).

Definition rmask : Z := 0x43ff01ffffffe70c.

(** Nothing for a read that is refused; the bytes of a read of another length
    than 1, 2 or 4 are none. *)
Definition apic_reg_read (c : clock) (offset len : Z) (v : kvm_vcpu) : option (option Z) * kvm_vcpu :=
  let alignment := Z.land offset 0xf in
  if 4 <? alignment + len then (None, v)
  else if (0x3f0 <? offset) || negb (Z.testbit rmask (Z.shiftr offset 4)) then (None, v)
  else
    let '(result, v) := __apic_read c (Z.ldiff offset 0xf) v in
    (Some (if bool_decide (len ∈ [1; 2; 4]) then Some (Z.land (Z.shiftr result (8 * alignment)) (Z.ones (8 * len))) else None), v).

Definition apic_mmio_in_range (v : kvm_vcpu) (addr : Z) : bool :=
  kvm_apic_hw_enabled v && (base_address (apic v) <=? addr) && (addr <? base_address (apic v) + LAPIC_MMIO_LENGTH).

(** The result, and the bytes read if there are any. *)
Definition apic_mmio_read (c : clock) (address len : Z) (v : kvm_vcpu) : Z * option Z * kvm_vcpu :=
  if negb (apic_mmio_in_range v address) then (- EOPNOTSUPP, None, v)
  else
    let '(data, v) := apic_reg_read c (u32 (address - base_address (apic v))) len v in
    (0, mjoin data, v).

Definition x2apic_reg (msr : Z) : Z := u32 (Z.shiftl (u32 (msr - APIC_BASE_MSR)) 4).

(** Nothing when the access faults. *)
Definition kvm_x2apic_msr_read (c : clock) (msr : Z) (v : kvm_vcpu) : option Z * kvm_vcpu :=
  if negb (apic_x2apic_mode v) then (None, v)
  else
    match apic_reg_read c (x2apic_reg msr) 4 v with
    | (Some low, v) =>
        if msr =? 0x830 then
          let '(high, v) := apic_reg_read c APIC_ICR2 4 v in
          (Some (Z.lor (Z.shiftl (default 0 (mjoin high)) 32) (default 0 low)), v)
        else (Some (default 0 low), v)
    | (None, v) => (None, v)
    end.

(** ** The machine *)

(** A step of the processors. *)
Definition on_ibus {D} (f : bus -> res bus) (s : vm D) : res (vm D) := b ← f (ibus s); Ok (with_bus b s).

Section machine.
  Context {D : Type}.
  (** The notifiers: of an acknowledged interrupt, of a mask, and what the
      former do to the 8259 when it is the one acknowledged. *)
  Context (irq_acked : Z -> vm D -> res (vm D)) (nt : notifiers D) (notify : Z -> kvm_pic -> kvm_pic).

Definition ioapic_ack (pin : Z) (s : vm D) : res (vm D) := kvm_notify_acked_irq irq_acked KVM_IRQCHIP_IOAPIC pin s.
Definition ioapic_mask (pin : Z) (mask : bool) (d : devs D) : devs D :=
  kvm_fire_mask_notifiers nt KVM_IRQCHIP_IOAPIC pin mask d.

(** ** The end of an interrupt *)

Definition kvm_ioapic_send_eoi (i : nat) (vector : Z) (s : vm D) : res (vm D) :=
  v ← vcpu_at (vcpus (ibus s)) i;
  if negb (any (kvm_apic_get_reg (apic v) APIC_SPIV) APIC_SPIV_DIRECTED_EOI) && kvm_ioapic_handles_vector (ioapic s) vector
  then
    let trigger_mode := if apic_test_vector (apic v) vector APIC_TMR then IOAPIC_LEVEL_TRIG else IOAPIC_EDGE_TRIG in
    kvm_ioapic_update_eoi ioapic_ack i vector trigger_mode s
  else Ok s.

Definition apic_set_eoi (i : nat) (s : vm D) : res (Z * vm D) :=
  v ← vcpu_at (vcpus (ibus s)) i;
  '(vector, v) ← apic_retire v;
  if vector =? - 1 then Ok (vector, s)
  else
    s ← on_ibus (on_vcpu i (fun _ => v)) s;
    s ← kvm_ioapic_send_eoi i vector s;
    s ← on_ibus (on_vcpu i request_event) s;
    Ok (vector, s).

(** ** Writing registers *)

Definition apic_lvt_nmi_mode (lvt_val : Z) : bool := Z.land lvt_val (Z.lor APIC_MODE_MASK APIC_LVT_MASKED) =? APIC_DM_NMI.

Definition apic_manage_nmi_watchdog (a : kvm_lapic) (lvt0_val : Z) (s : vm D) : vm D :=
  let nmi_wd_enabled := apic_lvt_nmi_mode (kvm_apic_get_reg a APIC_LVT0) in
  if apic_lvt_nmi_mode lvt0_val then
    if negb nmi_wd_enabled then on_dev (fun d => with_nmi_mode (s32 (vapics_in_nmi_mode d + 1)) d) s else s
  else if nmi_wd_enabled then on_dev (fun d => with_nmi_mode (s32 (vapics_in_nmi_mode d - 1)) d) s else s.

Definition set_reg (i : nat) (reg val : Z) (s : vm D) : res (vm D) :=
  on_ibus (on_vcpu i (on_apic (fun a => apic_set_reg a reg val))) s.

(** [apic_reg_write] of the register of inter-processor interrupts. *)
Definition write_icr (i : nat) (val : Z) (s : vm D) : res (vm D) :=
  s ← set_reg i APIC_ICR (Z.ldiff val 0x1000) s;
  on_ibus (apic_send_ipi i) s.

(** ... of the spurious interrupt's: a disabled APIC's local interrupts are
    masked. *)
Definition write_spiv (val : Z) (a : kvm_lapic) : kvm_lapic :=
  let mask := if any (kvm_apic_get_reg a APIC_LVR) APIC_LVR_DIRECTED_EOI then Z.lor 0x3ff APIC_SPIV_DIRECTED_EOI else 0x3ff in
  let a := apic_set_spiv (Z.land val mask) a in
  if any val APIC_SPIV_APIC_ENABLED then a
  else set_pending 0 (set_regs lvt_regs (fun lvt_val => Z.lor lvt_val APIC_LVT_MASKED) a).

(** ... of a local interrupt but the timer's. *)
Definition write_lvt (reg val : Z) (a : kvm_lapic) : kvm_lapic :=
  let val := if kvm_apic_sw_enabled a then val else Z.lor val APIC_LVT_MASKED in
  apic_set_reg a reg (Z.land val (nth (Z.to_nat (Z.shiftr (reg - APIC_LVTT) 4)) apic_lvt_mask 0)).

(** ... of the timer's. *)
Definition write_lvtt (val : Z) (a : kvm_lapic) : kvm_lapic :=
  let mode := timer_mode_mask (lapic_timer a) in
  let a := if Z.land (kvm_apic_get_reg a APIC_LVTT) mode =? Z.land val mode then a else hrtimer_cancel a in
  let val := if kvm_apic_sw_enabled a then val else Z.lor val APIC_LVT_MASKED in
  apic_set_reg a APIC_LVTT (Z.land val (Z.lor LVT_MASK mode)).

Definition write_tmict (c : clock) (val : Z) (a : kvm_lapic) : kvm_lapic :=
  if apic_lvtt_tscdeadline a then a
  else start_apic_timer c (apic_set_reg (hrtimer_cancel a) APIC_TMICT val).

(** The result is 1 for a register that cannot be written. *)
Definition apic_reg_write (c : clock) (i : nat) (reg val : Z) (s : vm D) : res (Z * vm D) :=
  v ← vcpu_at (vcpus (ibus s)) i;
  let x2 := apic_x2apic_mode v in
  let done (m : res (vm D)) : res (Z * vm D) := s ← m; Ok (0, s) in
  let own (f : kvm_lapic -> kvm_lapic) : res (Z * vm D) := done (on_ibus (on_vcpu i (on_apic f)) s) in
  if reg =? APIC_ID then
    if negb x2 then done (on_ibus (kvm_apic_set_id i (Z.shiftr val 24)) s) else Ok (1, s)
  else if reg =? APIC_TASKPRI then done (on_ibus (on_vcpu i (fun v => apic_set_tpr v (Z.land val 0xff))) s)
  else if reg =? APIC_EOI then '(_, s) ← apic_set_eoi i s; Ok (0, s)
  else if reg =? APIC_LDR then
    if negb x2 then done (on_ibus (kvm_apic_set_ldr i (Z.land val 0xff000000)) s) else Ok (1, s)
  else if reg =? APIC_DFR then
    if negb x2 then
      done (s ← set_reg i APIC_DFR (Z.lor val 0x0fffffff) s; on_ibus recalculate_apic_map s)
    else Ok (1, s)
  else if reg =? APIC_SPIV then own (write_spiv val)
  else if reg =? APIC_ICR then done (write_icr i val s)
  else if reg =? APIC_ICR2 then done (set_reg i APIC_ICR2 (if x2 then val else Z.land val 0xff000000) s)
  else if reg =? APIC_LVT0 then
    done (on_ibus (on_vcpu i (on_apic (write_lvt reg val))) (apic_manage_nmi_watchdog (apic v) val s))
  else if bool_decide (reg ∈ [APIC_LVTTHMR; APIC_LVTPC; APIC_LVT1; APIC_LVTERR]) then own (write_lvt reg val)
  else if reg =? APIC_LVTT then own (write_lvtt val)
  else if reg =? APIC_TMICT then own (write_tmict c val)
  else if reg =? APIC_TDCR then own (fun a => update_divide_count (apic_set_reg a APIC_TDCR val))
  else if reg =? APIC_ESR then Ok (if x2 && negb (val =? 0) then 1 else 0, s)
  else if reg =? APIC_SELF_IPI then
    if x2 then done (write_icr i (Z.lor 0x40000 (Z.land val 0xff)) s) else Ok (1, s)
  else Ok (1, s).

Definition apic_mmio_write (c : clock) (i : nat) (address len val : Z) (s : vm D) : res (Z * vm D) :=
  v ← vcpu_at (vcpus (ibus s)) i;
  let offset := u32 (address - base_address (apic v)) in
  if negb (apic_mmio_in_range v address) then Ok (- EOPNOTSUPP, s)
  else if negb (len =? 4) || negb (Z.land offset 0xf =? 0) then Ok (0, s)
  else '(_, s) ← apic_reg_write c i (Z.land offset 0xff0) val s; Ok (0, s).

Definition kvm_x2apic_msr_write (c : clock) (i : nat) (msr data : Z) (s : vm D) : res (Z * vm D) :=
  v ← vcpu_at (vcpus (ibus s)) i;
  if negb (apic_x2apic_mode v) then Ok (1, s)
  else
    s ← (if msr =? 0x830 then '(_, s) ← apic_reg_write c i APIC_ICR2 (u32 (Z.shiftr data 32)) s; Ok s else Ok s);
    apic_reg_write c i (x2apic_reg msr) (u32 data) s.

(** ** Restoring a saved APIC *)

(** The part after the identifier is set; [x2apic] is the guest's CPUID bit. *)
Definition restored (c : clock) (x2apic : bool) (v : kvm_vcpu) : kvm_vcpu :=
  let v := apic_update_ppr (on_apic (kvm_apic_set_version x2apic) v) in
  let v := on_apic (fun a => start_apic_timer c (update_divide_count (hrtimer_cancel a))) v in
  request_event (on_apic (fun a => with_isr (count_vectors a APIC_ISR) (- 1) (with_irr_pending true a)) v).

(** [rs] are the saved registers. *)
Definition kvm_apic_post_state_restore (c : clock) (x2apic : bool) (i : nat) (rs : gmap Z Z) (s : vm D) : res (vm D) :=
  v ← vcpu_at (vcpus (ibus s)) i;
  s ← on_ibus (kvm_lapic_set_base i (apic_base v)) s;
  s ← on_ibus (on_vcpu i (on_apic (fun a => with_regs rs (apic_set_spiv (default 0 (rs !! APIC_SPIV)) a)))) s;
  v ← vcpu_at (vcpus (ibus s)) i;
  s ← on_ibus (kvm_apic_set_id i (kvm_apic_id (apic v))) s;
  s ← on_ibus (on_vcpu i (restored c x2apic)) s;
  kvm_rtc_eoi_tracking_restore_one i s.

(** ** The processor's next interrupt *)

Definition kvm_cpu_has_extint (v : kvm_vcpu) (s : vm D) : bool :=
  kvm_apic_accept_pic_intr v && negb (output (pic (dev s)) =? 0).

Definition kvm_cpu_has_interrupt (i : nat) (s : vm D) : res (bool * vm D) :=
  v ← vcpu_at (vcpus (ibus s)) i;
  if kvm_cpu_has_extint v s then Ok (true, s)
  else
    let '(r, v) := kvm_apic_has_interrupt v in
    s ← on_ibus (on_vcpu i (fun _ => v)) s;
    Ok (negb (r =? - 1), s).

Definition kvm_cpu_get_extint (v : kvm_vcpu) (s : vm D) : Z * vm D :=
  if kvm_cpu_has_extint v s then
    let '(p, intno) := kvm_pic_read_irq notify (pic (dev s)) in (intno, set_pic nt p s)
  else (- 1, s).

Definition kvm_cpu_get_interrupt (i : nat) (s : vm D) : res (Z * vm D) :=
  v ← vcpu_at (vcpus (ibus s)) i;
  let '(vector, s) := kvm_cpu_get_extint v s in
  if negb (vector =? - 1) then Ok (vector, s)
  else
    v ← vcpu_at (vcpus (ibus s)) i;
    '(r, v) ← kvm_get_apic_interrupt v;
    s ← on_ibus (on_vcpu i (fun _ => v)) s;
    Ok (r, s).

(** ** The 8259's ports *)

Definition pic_port_write (addr len data : Z) (s : vm D) : Z * vm D :=
  let found := match pic_vcpu (vcpus (ibus s)) with Some _ => true | None => false end in
  let '(p, r) := picdev_write notify found addr len data (pic (dev s)) in (r, set_pic nt p s).

Definition pic_port_read (addr len : Z) (s : vm D) : Z * option Z * vm D :=
  let '(p, data, r) := picdev_read notify addr len (pic (dev s)) in (r, data, set_pic nt p s).
End machine.

(** ** Every operation completes *)

(** What the controllers rely on when the devices are told of an
    acknowledgement. *)
Class DeviceNotifier `{Hinv : DeviceInv D} (irq_acked : Z -> vm D -> res (vm D)) : Prop :=
  acked_good : forall gsi s, vm_ok s -> exists s', irq_acked gsi s = Ok s' /\ vm_good s s'.

(** An operation of a machine of [n] processors: it completes, with the
    invariant and the processors kept. *)
Definition vm_op `{Hinv : DeviceInv D} (n : nat) (f : vm D -> res (vm D)) : Prop :=
  forall s, vm_ok s -> length (vcpus (ibus s)) = n -> exists s', f s = Ok s' /\ vm_good s s'.

Lemma vm_op_bind `{Hinv : DeviceInv D} n (f g : vm D -> res (vm D)) : vm_op n f -> vm_op n g -> vm_op n (fun s => s ← f s; g s).
Proof.
  intros Hf Hg s Hs Hn. destruct (Hf s Hs Hn) as (s1 & -> & H1). cbn [mbind res_bind].
  destruct (Hg s1 (vg_ok _ _ H1)) as (s2 & -> & H2); [by rewrite (vm_good_length s)|]. eauto using vm_good_trans.
Qed.

Lemma vm_op_ret `{Hinv : DeviceInv D} n : vm_op (D := D) n (fun s => Ok s).
Proof. intros s Hs _. eexists. split; [done|by apply vm_good_refl]. Qed.

Lemma vm_op_if `{Hinv : DeviceInv D} n (c : bool) (f g : vm D -> res (vm D)) : vm_op n f -> vm_op n g -> vm_op n (fun s => if c then f s else g s).
Proof. by destruct c. Qed.

(** A processor that exists is read. *)
Lemma vm_op_read `{Hinv : DeviceInv D} n i (k : kvm_vcpu -> vm D -> res (vm D)) : (i < n)%nat -> (forall v, vm_op n (k v)) ->
  vm_op n (fun s => v ← vcpu_at (vcpus (ibus s)) i; k v s).
Proof.
  intros Hi Hk s Hs Hn. unfold vcpu_at. destruct (lookup_lt_is_Some_2 (vcpus (ibus s)) i) as [v ->]; [lia|].
  cbn [mbind res_bind]. by apply Hk.
Qed.

Lemma vm_op_bus `{Hinv : DeviceInv D} n f : bus_op n f -> vm_op (D := D) n (on_ibus f).
Proof.
  intros Hf s [[Hb Hio] Hd] Hn. unfold on_ibus. destruct (Hf (ibus s) Hb Hn) as (b' & -> & Hb' & Hids).
  cbn [mbind res_bind]. eexists. split; [done|]. split; [split; [by split|done]|done].
Qed.

Lemma vm_op_apic `{Hinv : DeviceInv D} n i f : (i < n)%nat -> (forall a, lapic_ok a -> lapic_ok (f a)) ->
  vm_op (D := D) n (on_ibus (on_vcpu i (on_apic f))).
Proof. intros Hi Hf. by apply vm_op_bus, bus_op_vcpu, vcpu_op_apic. Qed.

(** One processor is replaced by a consistent one. *)
Lemma set_vcpu_ok `{Hinv : DeviceInv D} i v' (s : vm D) v : vm_ok s -> vcpus (ibus s) !! i = Some v -> vcpu_ok v' -> vcpu_id v' = vcpu_id v ->
  let s' := with_bus (with_vcpus (<[i := v']> (vcpus (ibus s))) (ibus s)) s in
  on_ibus (on_vcpu i (fun _ => v')) s = Ok s' /\ vm_good s s'.
Proof.
  intros [[[Hv Hid Hm] Hio] Hd] E Hok Eid s'. split; [unfold on_ibus, on_vcpu; by rewrite (vcpu_at_Some _ _ _ E)|].
  pose proof (insert_ids _ i v v' E Eid) as Hids. split; [|done]. split; [|done]. split; [|done]. split; cbn.
  - by apply Forall_insert.
  - by rewrite Hids.
  - by rewrite length_insert.
Qed.

Lemma lor_word x y : word_ok x -> word_ok y -> word_ok (Z.lor x y).
Proof.
  intros Hx Hy. unfold word_ok in *. split; [apply Z.lor_nonneg; lia|].
  destruct (Z.eq_dec (Z.lor x y) 0) as [->|Hne]; [done|].
  assert (0 < Z.lor x y) by (pose proof (proj2 (Z.lor_nonneg x y)); lia).
  apply Z.log2_lt_pow2; [done|]. rewrite Z.log2_lor by lia.
  assert (forall z, 0 <= z < 2 ^ 32 -> Z.log2 z < 32) as Hl.
  { intros z Hz. destruct (Z.eq_dec z 0) as [->|]; [done|]. apply Z.log2_lt_pow2; lia. }
  pose proof (Hl x Hx). pose proof (Hl y Hy). lia.
Qed.

Lemma land_word_l x m : word_ok x -> word_ok (Z.land x m).
Proof.
  intros Hx. unfold word_ok in *. split; [apply Z.land_nonneg; lia|].
  apply Z.le_lt_trans with x; [|lia]. apply land_le_l. lia.
Qed.

Lemma ldiff_word x m : word_ok x -> word_ok (Z.ldiff x m).
Proof.
  intros Hx. unfold word_ok in *. split; [apply Z.ldiff_nonneg; lia|].
  apply Z.le_lt_trans with x; [apply ldiff_le; lia|lia].
Qed.

Lemma masked_word : word_ok APIC_LVT_MASKED. Proof. done. Qed.
#[export] Hint Resolve lor_word land_word_l ldiff_word masked_word : apic.

Lemma plain_high r : 0x280 <= r -> plain_reg r. Proof. by right. Qed.
Lemma plain_low r : r < 0x100 -> plain_reg r. Proof. by left. Qed.

Lemma write_spiv_ok val a : word_ok val -> lapic_ok a -> lapic_ok (write_spiv val a).
Proof.
  intros Hv Ha. unfold write_spiv.
  assert (H1 : lapic_ok (apic_set_spiv (Z.land val (if any (kvm_apic_get_reg a APIC_LVR) APIC_LVR_DIRECTED_EOI
    then Z.lor 0x3ff APIC_SPIV_DIRECTED_EOI else 0x3ff)) a)) by (apply lapic_ok_set_plain; [done|by left|auto with apic]).
  destruct (any val _); [done|]. apply lapic_ok_timer, set_regs_plain; [apply lvt_regs_plain|auto with apic|done].
Qed.

Lemma write_lvt_ok reg val a : 0x280 <= reg -> word_ok val -> lapic_ok a -> lapic_ok (write_lvt reg val a).
Proof.
  intros Hr Hv Ha. apply lapic_ok_set_plain; [done|by right|]. apply land_word_l. destruct (kvm_apic_sw_enabled a); auto with apic.
Qed.

Lemma write_lvtt_ok val a : word_ok val -> lapic_ok a -> lapic_ok (write_lvtt val a).
Proof.
  intros Hv Ha. unfold write_lvtt. apply lapic_ok_set_plain; [|by right|].
  - destruct (_ =? _); [done|]. by apply lapic_ok_timer.
  - apply land_word_l. destruct (kvm_apic_sw_enabled _); auto with apic.
Qed.

Lemma start_timer_ok c a : lapic_ok a -> lapic_ok (start_apic_timer c a).
Proof.
  intros Ha. apply (lapic_ok_same_regs a); [done|..]; unfold start_apic_timer; repeat case_match; done.
Qed.

Lemma write_tmict_ok c val a : word_ok val -> lapic_ok a -> lapic_ok (write_tmict c val a).
Proof.
  intros Hv Ha. unfold write_tmict. destruct (apic_lvtt_tscdeadline a); [done|].
  apply start_timer_ok, lapic_ok_set_plain; [by apply lapic_ok_timer|by right|done].
Qed.

Lemma write_tdcr_ok val a : word_ok val -> lapic_ok a -> lapic_ok (update_divide_count (apic_set_reg a APIC_TDCR val)).
Proof.
  intros Hv Ha. assert (H1 : lapic_ok (apic_set_reg a APIC_TDCR val)) by (apply lapic_ok_set_plain; [done|by right|done]).
  by apply (lapic_ok_same_regs _ _ H1).
Qed.
#[export] Hint Resolve write_spiv_ok write_lvt_ok write_lvtt_ok write_tmict_ok write_tdcr_ok : apic.

(** An operation with a result. *)
Definition vm_fun `{Hinv : DeviceInv D} {A} (n : nat) (f : vm D -> res (A * vm D)) : Prop :=
  forall s, vm_ok s -> length (vcpus (ibus s)) = n -> exists r s', f s = Ok (r, s') /\ vm_good s s'.

Lemma vm_fun_of_op `{Hinv : DeviceInv D} {A} n (r : A) (f : vm D -> res (vm D)) : vm_op n f -> vm_fun n (fun s => s ← f s; Ok (r, s)).
Proof. intros Hf s Hs Hn. destruct (Hf s Hs Hn) as (s' & -> & Hg). by do 2 eexists. Qed.

Lemma vm_op_of_fun `{Hinv : DeviceInv D} {A} n (f : vm D -> res (A * vm D)) : vm_fun n f -> vm_op n (fun s => '(_, s) ← f s; Ok s).
Proof. intros Hf s Hs Hn. destruct (Hf s Hs Hn) as (r & s' & -> & Hg). by eexists. Qed.

Lemma vm_fun_map `{Hinv : DeviceInv D} {A B} n (r : B) (f : vm D -> res (A * vm D)) : vm_fun n f -> vm_fun n (fun s => '(_, s) ← f s; Ok (r, s)).
Proof. intros Hf s Hs Hn. destruct (Hf s Hs Hn) as (r' & s' & -> & Hg). by do 2 eexists. Qed.

Lemma vm_fun_ret `{Hinv : DeviceInv D} {A} n (r : A) : vm_fun (D := D) n (fun s => Ok (r, s)).
Proof. intros s Hs _. do 2 eexists. split; [done|by apply vm_good_refl]. Qed.

Lemma vm_fun_if `{Hinv : DeviceInv D} {A} n (c : bool) (f g : vm D -> res (A * vm D)) : vm_fun n f -> vm_fun n g ->
  vm_fun n (fun s => if c then f s else g s).
Proof. by destruct c. Qed.

Lemma vm_fun_read `{Hinv : DeviceInv D} {A} n i (k : kvm_vcpu -> vm D -> res (A * vm D)) : (i < n)%nat -> (forall v, vm_fun n (k v)) ->
  vm_fun n (fun s => v ← vcpu_at (vcpus (ibus s)) i; k v s).
Proof.
  intros Hi Hk s Hs Hn. unfold vcpu_at. destruct (lookup_lt_is_Some_2 (vcpus (ibus s)) i) as [v ->]; [lia|].
  cbn [mbind res_bind]. by apply Hk.
Qed.

Lemma vm_fun_bind `{Hinv : DeviceInv D} {A} n (f : vm D -> res (vm D)) (g : vm D -> res (A * vm D)) : vm_op n f -> vm_fun n g ->
  vm_fun n (fun s => s ← f s; g s).
Proof.
  intros Hf Hg s Hs Hn. destruct (Hf s Hs Hn) as (s1 & -> & H1). cbn [mbind res_bind].
  destruct (Hg s1 (vg_ok _ _ H1)) as (r & s2 & -> & H2); [by rewrite (vm_good_length s)|]. eauto using vm_good_trans.
Qed.

Lemma vcpu_lookup {D} (s : vm D) i : (i < length (vcpus (ibus s)))%nat -> exists v, vcpus (ibus s) !! i = Some v.
Proof. intros Hi. by destruct (lookup_lt_is_Some_2 (vcpus (ibus s)) i) as [v ?]; eauto. Qed.

Lemma vcpu_ok_at `{Hinv : DeviceInv D} (s : vm D) i v : vm_ok s -> vcpus (ibus s) !! i = Some v -> vcpu_ok v.
Proof. intros Hs E. eapply Forall_lookup_1; [apply Hs|done]. Qed.

Section laws.
  Context `{Hinv : DeviceInv D} (irq_acked : Z -> vm D -> res (vm D)) `{!DeviceNotifier irq_acked}.
  Context (nt : notifiers D) `{!NotifiersOk nt}.

#[export] Instance ioapic_ack_notifier : AckNotifier dev_ok (ioapic_ack irq_acked).
Proof.
  intros pin s Hs Hd _. unfold ioapic_ack, kvm_notify_acked_irq.
  assert (Hv : vm_ok s) by done.
  assert (Hid : exists s', Ok s = Ok s' /\ good s s' /\ dev_ok (dev s')) by (eexists; split; [done|]; split; [by apply good_refl|done]).
  destruct (_ =? - 1); [done|]. destruct (existsb _ _); [|done].
  destruct (acked_good (gsi_of KVM_IRQCHIP_IOAPIC pin (dev s)) s Hv) as (s' & -> & [[Hi' Hd'] Hids]).
  eexists. split; [done|]. split; [by split|done].
Qed.

Lemma send_eoi_op n i vec : (i < n)%nat -> vm_op n (kvm_ioapic_send_eoi irq_acked i vec).
Proof.
  intros Hi. unfold kvm_ioapic_send_eoi. apply vm_op_read; [done|]. intros v s Hs Hn.
  destruct (_ && _); [|by apply (vm_op_ret n)].
  match goal with |- context [kvm_ioapic_update_eoi _ i vec ?tm s] =>
    destruct (update_eoi_ok dev_ok (ioapic_ack irq_acked) i vec tm s) as (s' & E & Hg & Hd) end; [apply Hs|apply Hs|lia|].
  exists s'. split; [exact E|]. by apply good_vm.
Qed.

Lemma set_eoi_fun n i : (i < n)%nat -> vm_fun n (apic_set_eoi irq_acked i).
Proof.
  intros Hi s Hs Hn. unfold apic_set_eoi. destruct (vcpu_lookup s i) as [v Hv]; [lia|].
  rewrite (vcpu_at_Some _ _ _ Hv). cbn [mbind res_bind].
  destruct (retire_spec v (vcpu_ok_at s i v Hs Hv)) as (vec & v' & -> & Hok & _ & Eid & _). cbn [mbind res_bind].
  destruct (_ =? - 1); [by apply (vm_fun_ret n)|].
  destruct (set_vcpu_ok i v' s v Hs Hv Hok Eid) as [-> Hg]. cbn [mbind res_bind]. set (s1 := with_bus _ s) in *.
  destruct (vm_fun_bind n (kvm_ioapic_send_eoi irq_acked i vec) (fun s => s ← on_ibus (on_vcpu i request_event) s; Ok (vec, s)))
    with (s := s1) as (r & s2 & E2 & H2).
  - by apply send_eoi_op.
  - apply vm_fun_of_op, vm_op_bus, bus_op_vcpu; [done|]. by apply vcpu_op_other.
  - apply Hg.
  - by rewrite (vm_good_length s).
  - do 2 eexists. split; [exact E2|]. by eapply vm_good_trans.
Qed.

Lemma nmi_watchdog_ok a val (s : vm D) : vm_ok s -> vm_good s (apic_manage_nmi_watchdog a val s).
Proof.
  intros Hs. unfold apic_manage_nmi_watchdog. pose proof (vo_dev _ Hs) as [].
  repeat case_match; first [by apply vm_good_refl | by apply vm_good_dev].
Qed.

(** A pure step before an operation. *)
Lemma vm_op_after n (g : vm D -> vm D) (f : vm D -> res (vm D)) : (forall s, vm_ok s -> vm_good s (g s)) -> vm_op n f ->
  vm_op n (fun s => f (g s)).
Proof. intros Hg Hf. apply (vm_op_bind n (fun s => Ok (g s)) f); [intros s Hs _; eauto|done]. Qed.

Lemma set_reg_op n i reg val : (i < n)%nat -> plain_reg reg -> word_ok val -> vm_op (D := D) n (set_reg i reg val).
Proof. intros Hi Hr Hv. by apply vm_op_bus, bus_op_set_reg. Qed.

Lemma write_icr_op n i val : (i < n)%nat -> word_ok val -> vm_op (D := D) n (write_icr i val).
Proof.
  intros Hi Hv. apply vm_op_bind; [apply set_reg_op; [done|by right|auto with apic]|]. by apply vm_op_bus, bus_op_send_ipi.
Qed.

Lemma apic_reg_write_fun n c i reg val : (i < n)%nat -> word_ok val -> vm_fun n (apic_reg_write irq_acked c i reg val).
Proof.
  intros Hi Hv. unfold apic_reg_write. apply vm_fun_read; [done|]. intros v. cbv zeta.
  assert (Hown : forall f, (forall a, lapic_ok a -> lapic_ok (f a)) ->
    vm_fun (D := D) n (fun s => s ← on_ibus (on_vcpu i (on_apic f)) s; Ok (0, s))) by (intros f Hf; by apply vm_fun_of_op, vm_op_apic).
  assert (H1 : forall r, vm_fun (D := D) (A := Z) n (fun s => Ok (r, s))) by (intros r; apply vm_fun_ret).
  apply vm_fun_if; [apply vm_fun_if; [|done]; by apply vm_fun_of_op, vm_op_bus, bus_op_set_id|].
  apply vm_fun_if; [apply vm_fun_of_op, vm_op_bus, bus_op_vcpu; [done|]|].
  { intros w Hw. split; [apply set_tpr_ok; [done|]; auto with apic|]. apply (apic_update_ppr_same (on_apic _ w)). }
  apply vm_fun_if; [by apply vm_fun_map, set_eoi_fun|].
  apply vm_fun_if; [apply vm_fun_if; [|done]; apply vm_fun_of_op, vm_op_bus, bus_op_set_ldr; [done|auto with apic]|].
  apply vm_fun_if; [apply vm_fun_if; [|done]; apply vm_fun_of_op, vm_op_bind|].
  { apply set_reg_op; [done|by left|]. apply lor_word; done. } { apply vm_op_bus, bus_op_recalculate. }
  apply vm_fun_if; [apply Hown; auto with apic|].
  apply vm_fun_if; [by apply vm_fun_of_op, write_icr_op|].
  apply vm_fun_if; [apply vm_fun_of_op, set_reg_op; [done|by right|destruct (apic_x2apic_mode v); auto with apic]|].
  destruct (Z.eqb_spec reg APIC_LVT0) as [->|_].
  { apply vm_fun_of_op. apply (vm_op_after n (apic_manage_nmi_watchdog (apic v) val)
      (on_ibus (on_vcpu i (on_apic (write_lvt APIC_LVT0 val))))); [intros s; apply nmi_watchdog_ok|].
    apply vm_op_apic; [done|]. intros a. by apply write_lvt_ok. }
  destruct (bool_decide_reflect (reg ∈ [APIC_LVTTHMR; APIC_LVTPC; APIC_LVT1; APIC_LVTERR])) as [Hr|_].
  { apply Hown. intros a. apply write_lvt_ok; [|done].
    repeat (apply elem_of_cons in Hr as [->|Hr]; [done|]). by apply elem_of_nil in Hr. }
  apply vm_fun_if; [apply Hown; auto with apic|].
  apply vm_fun_if; [apply Hown; auto with apic|].
  apply vm_fun_if; [apply Hown; auto with apic|].
  apply vm_fun_if; [done|].
  apply vm_fun_if; [|done]. apply vm_fun_if; [|done]. apply vm_fun_of_op, write_icr_op; [done|].
  apply lor_word; [done|auto with apic].
Qed.

Lemma apic_mmio_write_fun n c i address len val : (i < n)%nat -> word_ok val ->
  vm_fun n (apic_mmio_write irq_acked c i address len val).
Proof.
  intros Hi Hv. unfold apic_mmio_write. apply vm_fun_read; [done|]. intros v. cbv zeta.
  apply vm_fun_if; [apply vm_fun_ret|]. apply vm_fun_if; [apply vm_fun_ret|]. by apply vm_fun_map, apic_reg_write_fun.
Qed.

Lemma u32_word x : word_ok (u32 x).
Proof. unfold word_ok, u32. apply Z.mod_pos_bound. lia. Qed.

Lemma x2apic_write_fun n c i msr data : (i < n)%nat -> vm_fun n (kvm_x2apic_msr_write irq_acked c i msr data).
Proof.
  intros Hi. unfold kvm_x2apic_msr_write. apply vm_fun_read; [done|]. intros v. apply vm_fun_if; [apply vm_fun_ret|].
  apply vm_fun_bind; [apply vm_op_if; [|apply vm_op_ret]|].
  - by apply vm_op_of_fun, apic_reg_write_fun, u32_word.
  - by apply apic_reg_write_fun, u32_word.
Qed.

(** *** Restoring *)

(** Saved registers: words, with some vector not in service. *)
Record saved_ok (rs : gmap Z Z) : Prop := {
  sv_words : map_Forall (fun _ x => word_ok x) rs;
  sv_isr : nvec (with_regs rs zero_lapic) APIC_ISR 256 < 256
}.

(** The bit vectors of two register pages agree. *)
Definition same_isr (a a' : kvm_lapic) : Prop := nvec a' APIC_ISR 256 = nvec a APIC_ISR 256.

Lemma same_isr_plain a r x : plain_reg r -> same_isr a (apic_set_reg a r x).
Proof. intros Hr. apply nvec_ext. intros v Hv. apply test_set_plain; auto with apic. Qed.

Lemma same_isr_regs a a' : regs a' = regs a -> same_isr a a'.
Proof. intros E. apply nvec_ext. intros v Hv. unfold apic_test_vector, kvm_apic_get_reg. by rewrite E. Qed.

Lemma recounted_ok a : regs_ok a -> nvec a APIC_ISR 256 < 256 ->
  lapic_ok (with_isr (count_vectors a APIC_ISR) (- 1) (with_irr_pending true a)).
Proof.
  intros Hr Hn. set (a' := with_isr _ _ _). split; [exact Hr|intros [=]| |by left].
  rewrite (same_isr_regs a a' eq_refl). change (isr_count a') with (count_vectors a APIC_ISR).
  rewrite count_vectors_spec. unfold u8. apply Z.mod_small. pose proof (nvec_range a APIC_ISR 256). lia.
Qed.

Lemma restored_ok c x2apic v : regs_ok (apic v) -> nvec (apic v) APIC_ISR 256 < 256 ->
  vcpu_ok (restored c x2apic v) /\ vcpu_id (restored c x2apic v) = vcpu_id v.
Proof.
  intros Hr Hn. unfold restored. set (v1 := on_apic (kvm_apic_set_version x2apic) v).
  assert (H1 : regs_ok (apic v1) /\ same_isr (apic v) (apic v1) /\ vcpu_id v1 = vcpu_id v).
  { split; [apply regs_ok_set; [done|apply version_word]|]. split; [by apply same_isr_plain, plain_low|done]. }
  clearbody v1. destruct H1 as (Hr1 & Hi1 & Ei1). set (v2 := apic_update_ppr v1).
  assert (H2 : regs_ok (apic v2) /\ same_isr (apic v1) (apic v2) /\ vcpu_id v2 = vcpu_id v1).
  { unfold v2. destruct (apic_update_ppr_cases v1) as [[_ ->]|[b ->]]; [done|].
    destruct b; (split; [apply regs_ok_set; [done|apply ppr_word]|]); (split; [by apply same_isr_plain, plain_low|done]). }
  clearbody v2. destruct H2 as (Hr2 & Hi2 & Ei2). set (a3 := start_apic_timer c (update_divide_count (hrtimer_cancel (apic v2)))).
  assert (E3 : regs a3 = regs (apic v2)) by (unfold a3; by rewrite (proj1 (start_timer_regs c _))).
  pose proof (same_isr_regs (apic v2) a3 E3) as Hi3. unfold same_isr in Hi1, Hi2, Hi3.
  split; [|change (vcpu_id v2 = vcpu_id v); congruence]. apply (recounted_ok a3); [unfold regs_ok; by rewrite E3|lia].
Qed.

Lemma on_ibus_vcpu i f (s : vm D) v : vcpus (ibus s) !! i = Some v ->
  let s' := with_bus (with_vcpus (<[i := f v]> (vcpus (ibus s))) (ibus s)) s in
  on_ibus (on_vcpu i f) s = Ok s' /\ vcpus (ibus s') !! i = Some (f v).
Proof. intros Hv s'. unfold on_ibus. destruct (on_vcpu_at i f (ibus s) v Hv) as [-> ?]. done. Qed.

(** The identifier is set also while the registers are not consistent. *)
Lemma set_id_any i id (s : vm D) v : vcpus (ibus s) !! i = Some v ->
  let w := on_apic (fun a => apic_set_reg a APIC_ID (Z.shiftl (u8 id) 24)) v in
  exists b', on_ibus (kvm_apic_set_id i id) s = Ok (with_bus b' s) /\
    vcpus b' = with_scan true <$> <[i := w]> (vcpus (ibus s)) /\
    forall m, apic_map b' = Some m -> map_wf m (length (vcpus (ibus s))).
Proof.
  intros Hv w. unfold on_ibus, kvm_apic_set_id.
  destruct (on_vcpu_at i (on_apic (fun a => apic_set_reg a APIC_ID (Z.shiftl (u8 id) 24))) (ibus s) v Hv) as [-> _].
  cbn [mbind res_bind].
  match goal with |- context [recalculate_apic_map ?b] => destruct (recalculate_any b) as (b' & -> & Ev & _ & Hm) end.
  exists b'. split; [done|]. split; [done|]. intros m Em. specialize (Hm m Em). cbn in Hm. by rewrite length_insert in Hm.
Qed.

Lemma restore_op n c x2apic i rs : (i < n)%nat -> saved_ok rs ->
  vm_op (D := D) n (kvm_apic_post_state_restore c x2apic i rs).
Proof.
  intros Hi [Hw Hisr]. unfold kvm_apic_post_state_restore. apply vm_op_read; [done|]. intros v0.
  apply vm_op_bind; [by apply vm_op_bus, bus_op_set_base|]. intros s Hs Hn.
  destruct (vcpu_lookup s i) as [v Hv]; [lia|].
  set (f1 := on_apic (fun a => with_regs rs (apic_set_spiv (default 0 (rs !! APIC_SPIV)) a))).
  destruct (on_ibus_vcpu i f1 s v Hv) as [-> Hv1]. cbn [mbind res_bind]. set (s1 := with_bus _ s) in *.
  rewrite (vcpu_at_Some _ _ _ Hv1). cbn [mbind res_bind].
  destruct (set_id_any i (kvm_apic_id (apic (f1 v))) s1 _ Hv1) as (b2 & -> & Ev2 & Hm2). cbn [mbind res_bind].
  set (w := on_apic _ (f1 v)) in *.
  assert (Hv2 : vcpus b2 !! i = Some (with_scan true w)).
  { rewrite Ev2, list_lookup_fmap, list_lookup_insert_eq; [done|]. apply lookup_lt_Some in Hv1. done. }
  destruct (on_ibus_vcpu i (restored c x2apic) (with_bus b2 s1) _ Hv2) as [-> Hv3]. cbn [mbind res_bind].
  set (v3 := restored c x2apic (with_scan true w)) in *. set (s3 := with_bus _ (with_bus b2 s1)) in *.
  assert (Hg3 : vm_good s s3).
  { destruct (restored_ok c x2apic (with_scan true w)) as [Hok3 Eid3]; [by apply regs_ok_set; [|apply shiftl24_word]| |].
    - apply Z.le_lt_trans with (nvec (with_regs rs zero_lapic) APIC_ISR 256); [|exact Hisr]. apply Z.eq_le_incl.
      etransitivity; [apply (same_isr_plain (apic (f1 v))), plain_low; done|]. by apply same_isr_regs.
    - assert (Evs : vcpus (ibus s3) = <[i := v3]> (with_scan true <$> vcpus (ibus s))).
      { unfold s3. cbn. rewrite Ev2. cbn. by rewrite !list_fmap_insert, !list_insert_insert_eq. }
      assert (Hvs : (with_scan true <$> vcpus (ibus s)) !! i = Some (with_scan true v)) by (by rewrite list_lookup_fmap, Hv).
      assert (Hids : vcpu_id <$> vcpus (ibus s3) = vcpu_id <$> vcpus (ibus s)).
      { rewrite Evs, (insert_ids _ i _ _ Hvs), scan_ids; [done|exact Eid3]. }
      destruct Hs as [[[Hvo Hnd Hm] Hio] Hd]. split; [|done]. split; [|done]. split; [|done]. split.
      + rewrite Evs. apply Forall_insert; [by apply scan_ok|done].
      + by rewrite Hids.
      + intros m Em. rewrite Evs, length_insert, length_fmap. specialize (Hm2 m Em). cbn in Hm2. by rewrite length_insert in Hm2. }
  clearbody s3. destruct Hg3 as [Hs3 Hids]. unfold kvm_rtc_eoi_tracking_restore_one.
  destruct (restore_one_ok (vcpus (ibus s3)) i (ioapic s3)) as (io' & -> & Hio' & _);
    [apply Hs3|rewrite (ids_length _ _ Hids); lia|]. cbn [mbind res_bind]. eexists. split; [done|].
  split; [|done]. destruct Hs3 as [[]]. by split.
Qed.

(** *** The next interrupt and the 8259 *)

Context (notify : Z -> kvm_pic -> kvm_pic) (notify_ok : forall irq p, pic_ok p -> pic_ok (notify irq p)).

Lemma get_extint_ok v (s : vm D) : vm_ok s -> vm_good s (kvm_cpu_get_extint nt notify v s).2.
Proof.
  intros Hs. unfold kvm_cpu_get_extint. destruct (kvm_cpu_has_extint v s); [|by apply vm_good_refl].
  pose proof (kvm_pic_read_irq_ok notify notify_ok (pic (dev s)) (do_pic _ (vo_dev _ Hs))) as Hp.
  destruct (kvm_pic_read_irq _ _) as [p intno]. by apply set_pic_ok.
Qed.

Lemma get_interrupt_fun n i : (i < n)%nat -> vm_fun n (kvm_cpu_get_interrupt nt notify i).
Proof.
  intros Hi. unfold kvm_cpu_get_interrupt. apply vm_fun_read; [done|]. intros v s Hs Hn.
  pose proof (get_extint_ok v s Hs) as Hg. destruct (kvm_cpu_get_extint nt notify v s) as [vec s1]. cbn [snd] in Hg.
  destruct (negb _); [by do 2 eexists|]. destruct (vcpu_lookup s1 i) as [w Hw]; [rewrite (vm_good_length s); [lia|done]|].
  rewrite (vcpu_at_Some _ _ _ Hw). cbn [mbind res_bind]. pose proof (vg_ok _ _ Hg) as Hs1.
  destruct (get_interrupt_spec w (vcpu_ok_at s1 i w Hs1 Hw)) as (r & w' & -> & Hok & _ & Eid & _). cbn [mbind res_bind].
  destruct (set_vcpu_ok i w' s1 w Hs1 Hw Hok Eid) as [-> Hg2]. cbn [mbind res_bind]. eauto using vm_good_trans.
Qed.

Lemma has_interrupt_fun n i : (i < n)%nat -> vm_fun (D := D) n (kvm_cpu_has_interrupt i).
Proof.
  intros Hi. unfold kvm_cpu_has_interrupt. intros s Hs Hn. destruct (vcpu_lookup s i) as [w Hw]; [lia|].
  rewrite (vcpu_at_Some _ _ _ Hw). cbn [mbind res_bind]. destruct (kvm_cpu_has_extint w s); [by apply (vm_fun_ret n)|].
  destruct (kvm_apic_has_interrupt w) as [r w'] eqn:E.
  destruct (has_interrupt_spec w r w' (vcpu_ok_at s i w Hs Hw) E) as (Hok & Hsame & _).
  destruct (set_vcpu_ok i w' s w Hs Hw Hok (sp_id _ _ Hsame)) as [-> Hg2]. by do 2 eexists.
Qed.

Lemma pic_port_write_ok addr len data (s : vm D) : byte_ok data -> vm_ok s ->
  vm_good s (pic_port_write nt notify addr len data s).2.
Proof.
  intros Hd Hs. unfold pic_port_write. set (found := match pic_vcpu _ with Some _ => true | None => false end).
  destruct (exec_pic_ok notify (PortWrite found addr len data) (pic (dev s)) notify_ok Hd (do_pic _ (vo_dev _ Hs))) as (p & E & Hp).
  cbn [exec_pic] in E. destruct (picdev_write _ _ _ _ _ _) as [p' r]. injection E as <-. by apply set_pic_ok.
Qed.

Lemma pic_port_read_ok addr len (s : vm D) : vm_ok s -> vm_good s (pic_port_read nt notify addr len s).2.
Proof.
  intros Hs. unfold pic_port_read.
  destruct (exec_pic_ok notify (PortRead addr len) (pic (dev s)) notify_ok I (do_pic _ (vo_dev _ Hs))) as (p & E & Hp).
  cbn [exec_pic] in E. destruct (picdev_read _ _ _ _) as [[p' data] r]. injection E as <-. by apply set_pic_ok.
Qed.

(** *** The rest of the operations *)

Lemma ioapic_write_fun n addr len val : vm_fun (D := D) n (ioapic_mmio_write (ioapic_mask nt) addr len val).
Proof.
  intros s Hs Hn. destruct (mmio_write_ok (ioapic_mask nt) addr len val s (vo_irqs _ Hs)) as (r & s' & E & Hg).
  do 2 eexists. split; [exact E|]. apply good_vm; [done|].
  destruct (mmio_write_dev _ _ _ _ _ _ _ E) as [->|(pin & b & ->)]; [apply Hs|].
  apply fire_mask_ok; [done|apply Hs].
Qed.

Lemma scan_op n hn i : (i < n)%nat -> vm_op (D := D) n (vcpu_scan_ioapic hn i).
Proof.
  intros Hi s Hs Hn. destruct (vcpu_lookup s i) as [v Hv]; [lia|].
  destruct (vcpu_scan_spec hn i s v (vo_irqs _ Hs) Hv) as (s' & v' & E & Hg & _ & Ed & _). exists s'. split; [exact E|].
  apply good_vm; [done|]. rewrite Ed. apply Hs.
Qed.

Lemma inject_from_dev {E} pins : forall s s' : irqs E, inject_from pins s = Ok s' -> dev s' = dev s.
Proof.
  induction pins as [|p pins IH]; intros s s'; cbn [inject_from]; [by intros [= <-]|].
  destruct (ioapic_set_irq p true true s) as [[r s1]|] eqn:E1; [|done]. cbn [mbind res_bind]. intros E2.
  by rewrite (IH s1 s' E2), (set_irq_dev _ _ _ _ _ _ E1).
Qed.

Lemma set_ioapic_op n st : state_ok st -> vm_op (D := D) n (kvm_set_ioapic st).
Proof.
  intros Hst s Hs Hn. destruct (set_ioapic_ok st s (vo_irqs _ Hs) Hst) as (s' & E & Hg). exists s'. split; [exact E|].
  apply good_vm; [done|]. unfold kvm_set_ioapic, kvm_ioapic_inject_all in E.
  match type of E with mbind _ ?m = _ => destruct m as [s1|] eqn:E1; [|done] end. cbn [mbind res_bind] in E.
  destruct (kvm_rtc_eoi_tracking_restore_all _ _ _) as [io|]; [|done]. injection E as <-. cbn.
  rewrite (inject_from_dev _ _ _ E1). apply Hs.
Qed.

Lemma set_irq_fun n src irq lv ls : 0 <= src < 64 -> vm_fun (D := D) n (kvm_set_irq nt src irq lv ls).
Proof.
  intros Hsrc s Hs Hn. destruct (kvm_set_irq_good nt src irq lv ls s Hs Hsrc) as (r & s' & E & H). eauto using ls_good.
Qed.

Lemma inatomic_fun n irq : vm_fun (D := D) n (kvm_set_irq_inatomic irq).
Proof.
  intros s Hs Hn. unfold kvm_set_irq_inatomic. destruct (routed _ _) as [|[c p|lo hi data] es]; [by apply (vm_fun_ret n)..|].
  destruct (delivery_fast_ok (ibus s) None (kvm_set_msi_irq lo data) ∅) as (fast & vs' & dm & -> & H);
    [apply msi_vector|apply Hs|done|]. cbn [mbind res_bind]. do 2 eexists. split; [done|].
  apply vm_good_bus; [done|]. destruct fast; [apply H|by destruct H as [-> _]].
Qed.

Lemma free_source_ok id (s : vm D) : vm_ok s -> vm_good s (kvm_free_irq_source_id nt id s).
Proof.
  intros Hs. unfold kvm_free_irq_source_id. destruct (_ || _); [by apply vm_good_refl|].
  set (s1 := on_dev _ s). assert (H1 : vm_good s s1) by (apply vm_good_dev; [done|]; by destruct (vo_dev _ Hs)).
  set (s2 := on_ioapic _ s1). assert (H2 : vm_good s1 s2).
  { apply good_vm; [|apply H1]. apply good_ioapic; [apply H1|]. pose proof (ok_ioapic _ (vo_irqs _ (vg_ok _ _ H1))) as Hio.
    apply with_states_ok; [done|by rewrite length_fmap, (ok_states _ Hio)|]. apply Forall_fmap.
    eapply Forall_impl; [apply Hio|]. intros x Hx. apply Z.ldiff_nonneg. by left. }
  eapply vm_good_trans; [exact H1|]. eapply vm_good_trans; [exact H2|].
  destruct (exec_pic_ok notify (ClearAll id) (pic (dev s2)) notify_ok I (do_pic _ (vo_dev _ (vg_ok _ _ H2)))) as (p & E & Hp).
  injection E as <-. apply set_pic_ok; [done|apply H2|done].
Qed.

Lemma register_ack_ok gsi (s : vm D) : vm_ok s -> vm_good s (kvm_register_irq_ack_notifier gsi s).
Proof.
  intros Hs. unfold kvm_register_irq_ack_notifier. set (s1 := on_dev _ s).
  assert (H1 : vm_good s s1) by (apply vm_good_dev; [done|]; by destruct (vo_dev _ Hs)).
  eapply vm_good_trans; [exact H1|]. apply good_vm; [|apply H1]. apply request_scan_good, H1.
Qed.
End laws.

(** ** Histories *)

(** What the guest, the devices and the host's user space do to the
    interrupt controllers. *)
Inductive vm_event :=
| SetLine (src irq : Z) (lv line_status : bool)
| SetLineAtomic (irq : Z)
| UserMsi (flags lo hi data : Z)
| ApicWrite (c : clock) (i : nat) (address len val : Z)
| X2apicWrite (c : clock) (i : nat) (msr data : Z)
| IoapicWrite (addr len val : Z)
| PicWrite (addr len data : Z)
| PicRead (addr len : Z)
| HasInterrupt (i : nat)
| GetInterrupt (i : nat)
| ScanIoapic (i : nat)
| AcceptEvents (x2apic : bool) (code : Z * Z * Z) (i : nat)
| SetBase (i : nat) (value : Z)
| SetCr8 (i : nat) (cr8 : Z)
| SetDeadline (c : clock) (i : nat) (data : Z)
| TimerFires (i : nat)
| InjectTimer (i : nat)
| SetRouting (alloc : bool) (ues : list user_entry)
| RestoreApic (c : clock) (x2apic : bool) (i : nat) (rs : gmap Z Z)
| RestoreIoapic (st : kvm_ioapic_state)
| RequestSource
| FreeSource (id : Z)
| RegisterAck (gsi : Z).

Section history.
  Context {D : Type} (irq_acked : Z -> vm D -> res (vm D)) (nt : notifiers D) (notify : Z -> kvm_pic -> kvm_pic).

Definition vm_exec (e : vm_event) (s : vm D) : res (vm D) :=
  match e with
  | SetLine src irq lv ls => '(_, s) ← kvm_set_irq nt src irq lv ls s; Ok s
  | SetLineAtomic irq => '(_, s) ← kvm_set_irq_inatomic irq s; Ok s
  | UserMsi flags lo hi data => '(_, s) ← kvm_send_userspace_msi flags lo hi data s; Ok s
  | ApicWrite c i address len val => '(_, s) ← apic_mmio_write irq_acked c i address len val s; Ok s
  | X2apicWrite c i msr data => '(_, s) ← kvm_x2apic_msr_write irq_acked c i msr data s; Ok s
  | IoapicWrite addr len val => '(_, s) ← ioapic_mmio_write (ioapic_mask nt) addr len val s; Ok s
  | PicWrite addr len data => Ok (pic_port_write nt notify addr len data s).2
  | PicRead addr len => Ok (pic_port_read nt notify addr len s).2
  | HasInterrupt i => '(_, s) ← kvm_cpu_has_interrupt i s; Ok s
  | GetInterrupt i => '(_, s) ← kvm_cpu_get_interrupt nt notify i s; Ok s
  | ScanIoapic i => vcpu_scan_ioapic (fun pin => kvm_irq_has_notifier KVM_IRQCHIP_IOAPIC pin s) i s
  | AcceptEvents x2apic code i => on_ibus (kvm_apic_accept_events x2apic code i) s
  | SetBase i value => on_ibus (kvm_lapic_set_base i value) s
  | SetCr8 i cr8 => on_ibus (on_vcpu i (fun v => kvm_lapic_set_tpr v cr8)) s
  | SetDeadline c i data => on_ibus (on_vcpu i (fun v => kvm_set_lapic_tscdeadline_msr c v data)) s
  | TimerFires i => on_ibus (on_vcpu i (on_apic apic_timer_fn)) s
  | InjectTimer i => on_ibus (on_vcpu i kvm_inject_apic_timer_irqs) s
  | SetRouting alloc ues => Ok (on_dev (fun d => with_routing (kvm_set_irq_routing alloc ues (routing d)).2 d) s)
  | RestoreApic c x2apic i rs => kvm_apic_post_state_restore c x2apic i rs s
  | RestoreIoapic st => kvm_set_ioapic st s
  | RequestSource => Ok (kvm_request_irq_source_id s).2
  | FreeSource id => Ok (kvm_free_irq_source_id nt id s)
  | RegisterAck gsi => Ok (kvm_register_irq_ack_notifier gsi s)
  end.

Fixpoint vm_run (es : list vm_event) (s : vm D) : res (vm D) :=
  match es with
  | [] => Ok s
  | e :: es => s ← vm_exec e s; vm_run es s
  end.
End history.

(** The processors exist, a source has its bit in the word of a line, a byte or
    a word written is one, and a saved state is one the kernel could have
    written. *)
Definition event_ok (n : nat) (e : vm_event) : Prop :=
  match e with
  | SetLine src _ _ _ => 0 <= src < 64
  | ApicWrite _ i _ _ val => (i < n)%nat /\ word_ok val
  | PicWrite _ _ data => byte_ok data
  | X2apicWrite _ i _ _ | HasInterrupt i | GetInterrupt i | ScanIoapic i | AcceptEvents _ _ i | SetBase i _ | SetCr8 i _
  | SetDeadline _ i _ | TimerFires i | InjectTimer i => (i < n)%nat
  | RestoreApic _ _ i rs => (i < n)%nat /\ saved_ok rs
  | RestoreIoapic st => state_ok st
  | _ => True
  end.

(** Steps of one processor. *)
Lemma set_cr8_op cr8 : vcpu_op (fun v => kvm_lapic_set_tpr v cr8).
Proof.
  intros v Hv. unfold kvm_lapic_set_tpr. split; [apply set_tpr_ok; [done|]|apply (apic_update_ppr_same (on_apic _ v))].
  apply lor_word; [|apply land_word; lia]. unfold word_ok. rewrite Z.shiftl_mul_pow2 by lia.
  change 0x0f with (Z.ones 4). rewrite Z.land_ones by lia. pose proof (Z.mod_pos_bound cr8 (2 ^ 4)).
  change (2 ^ 4) with 16 in *. lia.
Qed.

Lemma set_deadline_op c data : vcpu_op (fun v => kvm_set_lapic_tscdeadline_msr c v data).
Proof.
  intros v Hv. unfold kvm_set_lapic_tscdeadline_msr. destruct (_ || _); [done|]. split; [|done].
  apply start_timer_ok. apply (lapic_ok_same_regs (apic v)); done.
Qed.

Lemma timer_fires_op : vcpu_op (on_apic apic_timer_fn).
Proof. apply vcpu_op_apic. intros a Ha. rewrite timer_fn_eq. by apply lapic_ok_timer. Qed.

Lemma local_deliver_id v lvt : vcpu_id (kvm_apic_local_deliver v lvt).2 = vcpu_id v.
Proof.
  unfold kvm_apic_local_deliver. destruct (_ && _); [|done].
  match goal with |- context [__apic_accept_irq v ?m ?vec ?l ?t] =>
    pose proof (is_id _ _ (accept_step v m vec l t (vector_mask_range _))) as H; destruct (__apic_accept_irq v m vec l t) as [[? ?] ?] end.
  exact H.
Qed.

Lemma inject_timer_op : vcpu_op kvm_inject_apic_timer_irqs.
Proof.
  intros v Hv. split; [by apply inject_timer_ok|]. unfold kvm_inject_apic_timer_irqs. destruct (_ <? _); [|done].
  apply local_deliver_id.
Qed.

Section history_laws.
  Context `{Hinv : DeviceInv D} (irq_acked : Z -> vm D -> res (vm D)) `{!DeviceNotifier irq_acked}.
  Context (nt : notifiers D) `{!NotifiersOk nt}.
  Context (notify : Z -> kvm_pic -> kvm_pic) (notify_ok : forall irq p, pic_ok p -> pic_ok (notify irq p)).

Lemma vm_exec_ok n e : event_ok n e -> vm_op n (vm_exec irq_acked nt notify e).
Proof.
  assert (Hpure : forall g : vm D -> vm D, (forall s, vm_ok s -> vm_good s (g s)) -> vm_op n (fun s => Ok (g s)))
    by (intros g Hg s Hs _; eauto).
  destruct e; cbn [event_ok vm_exec]; intros He.
  - by apply vm_op_of_fun, set_irq_fun.
  - by apply vm_op_of_fun, inatomic_fun.
  - apply vm_op_of_fun. unfold kvm_send_userspace_msi. apply vm_fun_if; [apply vm_fun_ret|]. intros s Hs Hn.
    destruct (kvm_set_msi_ok lo data true s Hs) as (r & s' & -> & Hg & _). eauto.
  - destruct He. by apply vm_op_of_fun, apic_mmio_write_fun.
  - by apply vm_op_of_fun, x2apic_write_fun.
  - by apply vm_op_of_fun, ioapic_write_fun.
  - apply Hpure. intros s Hs. by apply pic_port_write_ok.
  - apply Hpure. intros s Hs. by apply pic_port_read_ok.
  - by apply vm_op_of_fun, has_interrupt_fun.
  - by apply vm_op_of_fun, get_interrupt_fun.
  - intros s Hs Hn. by apply (scan_op n).
  - by apply vm_op_bus, bus_op_accept_events.
  - by apply vm_op_bus, bus_op_set_base.
  - by apply vm_op_bus, bus_op_vcpu, set_cr8_op.
  - by apply vm_op_bus, bus_op_vcpu, set_deadline_op.
  - by apply vm_op_bus, bus_op_vcpu, timer_fires_op.
  - by apply vm_op_bus, bus_op_vcpu, inject_timer_op.
  - apply Hpure. intros s Hs. apply vm_good_dev; [done|]. destruct (vo_dev _ Hs). split; [done|by apply set_irq_routing_ok|done].
  - destruct He. by apply restore_op.
  - by apply set_ioapic_op.
  - apply Hpure. intros s Hs. unfold kvm_request_irq_source_id. destruct (_ <=? _); [by apply vm_good_refl|].
    apply vm_good_dev; [done|]. by destruct (vo_dev _ Hs).
  - apply Hpure. intros s Hs. by apply (free_source_ok nt notify).
  - apply Hpure. intros s Hs. by apply register_ack_ok.
Qed.
End history_laws.

(** C7: Whatever the guest, its devices and the host's user space do, the
    interrupt controllers stay consistent: every history of register writes,
    interrupt lines and messages, interrupts taken and ended, timers, resets,
    restored states and new routing tables completes - no [BUG_ON] fails,
    no table or bit map is indexed out of range - and keeps the invariant of
    the local APICs, the I/O APIC, the 8259 and the routing table.  The
    processors named exist, a source of a line is below 64, restored states
    are ones the kernel saved, and the notifiers keep the invariant.  The
    [ASSERT]s of these files are empty unless DEBUG is defined, and are not
    part of this. *)
Theorem vm_history_ok `{Hinv : DeviceInv D} (irq_acked : Z -> vm D -> res (vm D)) nt notify es s : DeviceNotifier irq_acked -> NotifiersOk nt ->
  (forall irq p, pic_ok p -> pic_ok (notify irq p)) -> vm_ok s -> Forall (event_ok (length (vcpus (ibus s)))) es ->
  exists s', vm_run irq_acked nt notify es s = Ok s' /\ vm_good s s'.
Proof.
  intros Hack Hnt Hnotify. revert s. induction es as [|e es IH]; intros s Hs Hes; cbn [vm_run].
  { eexists. split; [done|by apply vm_good_refl]. }
  apply Forall_cons in Hes as [He Hes].
  destruct (vm_exec_ok irq_acked nt notify Hnotify _ e He s Hs eq_refl) as (s1 & -> & Hg1). cbn [mbind res_bind].
  destruct (IH s1 (vg_ok _ _ Hg1)) as (s2 & -> & Hg2); [by rewrite (vm_good_length s)|]. eauto using vm_good_trans.
Qed.

Lemma vm_history_ok_witness :
  exists s', vm_run (fun _ s => Ok s) no_notifiers (fun _ p => p)
    [SetRouting true default_routing; IoapicWrite 0xfec00000 4 0x22; IoapicWrite 0xfec00010 4 0x8031;
     SetLine 0 9 true false; ScanIoapic 0; GetInterrupt 0; ApicWrite (Clock 0 0 0 0) 0 (base_address (apic (flat_vcpu 0)) + 0xb0) 4 0]
    demo_vm = Ok s' /\ vm_good demo_vm s'.
Proof.
  apply (vm_history_ok (fun _ s => Ok s) no_notifiers (fun _ p => p)).
  - intros gsi s Hs. eexists. split; [reflexivity|by apply vm_good_refl].
  - apply no_notifiers_ok.
  - done.
  - apply demo_vm_ok.
  - repeat (apply Forall_cons; split; [first [exact I | split; [exact (Z.le_refl 0)|reflexivity] | vm_compute; lia | split; vm_compute; [lia|split; congruence]]|]). constructor.
Defined.

(** ** A level-triggered interrupt from the pin to its end *)

Lemma plain_same_addr v v' : apic_base v' = apic_base v ->
  (forall x, plain_reg x -> x <> APIC_PROCPRI -> kvm_apic_get_reg (apic v') x = kvm_apic_get_reg (apic v) x) -> same_addr v v'.
Proof.
  intros Hb Hr. split; [done|]. intros r Hin.
  repeat (apply elem_of_cons in Hin as [->|Hin]; [by apply Hr; [left|]|]). by apply elem_of_nil in Hin.
Qed.

Lemma receptive_vcpu md irq b i v v' : receptive md irq b -> vcpus b !! i = Some v -> vcpu_ok v' ->
  vcpu_id v' = vcpu_id v -> same_addr v v' -> receptive md irq (with_vcpus (<[i := v']> (vcpus b)) b).
Proof.
  intros Hrec Hv Hok Hid Hsame. apply receptive_same; [| |done].
  - apply Forall2_same_length_lookup. rewrite length_insert. split; [done|]. intros j x y Hx Hy.
    destruct (decide (i = j)) as [<-|Hne].
    + rewrite list_lookup_insert_eq in Hy by (by eapply lookup_lt_Some). congruence.
    + rewrite list_lookup_insert_ne in Hy by done. assert (x = y) as <- by congruence. by split.
  - destruct (rc_ok _ _ _ Hrec) as [H1 H2 H3]. split; cbn; [by apply Forall_insert|by rewrite (insert_ids _ i v v')|].
    by rewrite length_insert.
Qed.

Lemma pin_rel_bus {E} md pin e0 l (s : irqs E) b : pin_rel md pin e0 l s -> receptive md (message_of e0) b ->
  pin_rel md pin e0 (LineSpec (sources l) (in_flight l) b) (with_bus b s).
Proof. intros [[H1 H1'] H2 H3 H4 H5 H6 H7] Hr. split; cbn; try done. split; [apply Hr|done]. Qed.

(** One processor changed what is not its address. *)
Lemma pin_rel_vcpu {E} md pin e0 l (s : irqs E) i v v' : pin_rel md pin e0 l s -> vcpus (ibus s) !! i = Some v -> vcpu_ok v' ->
  vcpu_id v' = vcpu_id v -> same_addr v v' ->
  let b' := with_vcpus (<[i := v']> (vcpus (ibus s))) (ibus s) in
  pin_rel md pin e0 (LineSpec (sources l) (in_flight l) b') (with_bus b' s).
Proof.
  intros Hrel Hv Hok Hid Hsame b'. apply pin_rel_bus; [done|]. eapply receptive_vcpu; try done.
  rewrite (pr_bus _ _ _ _ _ Hrel). apply Hrel.
Qed.

Lemma pin_handled {E} md pin e0 l (s : irqs E) : pin_rel md pin e0 l s ->
  kvm_ioapic_handles_vector (ioapic s) (e_vector e0) = true.
Proof.
  intros Hrel. rewrite (ok_handled _ (ok_ioapic _ (pr_ok _ _ _ _ _ Hrel))) by apply e_vector_range.
  apply existsb_exists. exists (set_remote_irr (in_flight l) e0). split.
  - apply list_elem_of_In. eapply list_elem_of_lookup_2, Hrel.
  - rewrite (proj1 (remote_irr_fields _ _)). apply Z.eqb_refl.
Qed.

Lemma takes_not_waits v r : takes v r -> ~ waits v r.
Proof.
  intros Ht [H|[H|(s & Hs & Hi & H)]].
  - pose proof (tk_tpr _ _ Ht). lia.
  - pose proof (tk_tpr _ _ Ht). pose proof (cls_range (kvm_apic_get_reg (apic v) APIC_TASKPRI)). lia.
  - pose proof (tk_isr _ _ Ht s Hs Hi). lia.
Qed.

Lemma takes_unique v r r' : takes v r -> takes v r' -> r = r'.
Proof.
  intros H H'. pose proof (tk_max _ _ H r' (tk_vector _ _ H') (tk_irr _ _ H')).
  pose proof (tk_max _ _ H' r (tk_vector _ _ H) (tk_irr _ _ H)). lia.
Qed.

(** The processor takes the vector from its own APIC: it goes from requested
    to in service, above all others there. *)
Record taken (v v1 : kvm_vcpu) (r : Z) : Prop := {
  tn_ok : vcpu_ok v1;
  tn_id : vcpu_id v1 = vcpu_id v;
  tn_addr : same_addr v v1;
  tn_bits : forall w b, is_bitmap b -> is_vector w -> apic_test_vector (apic v1) w b =
    if decide (w = r /\ b = APIC_ISR) then true
    else if decide (w = r /\ b = APIC_IRR) then false else apic_test_vector (apic v) w b
}.

Lemma take_interrupt {D} (nt : notifiers D) notify i (s : vm D) v r : vcpu_ok v -> vcpus (ibus s) !! i = Some v ->
  kvm_apic_accept_pic_intr v = false -> takes v r ->
  exists v1, kvm_cpu_get_interrupt nt notify i s = Ok (r, with_bus (with_vcpus (<[i := v1]> (vcpus (ibus s))) (ibus s)) s) /\
    taken v v1 r.
Proof.
  intros Hok Hv Hpic Ht. unfold kvm_cpu_get_interrupt. rewrite (vcpu_at_Some _ _ _ Hv). cbn [mbind res_bind].
  unfold kvm_cpu_get_extint, kvm_cpu_has_extint. rewrite Hpic. cbn [andb negb Z.eqb Pos.eqb Z.opp].
  rewrite (vcpu_at_Some _ _ _ Hv). cbn [mbind res_bind].
  destruct (get_interrupt_spec v Hok) as (r' & v1 & -> & Hok1 & Hb & Hid & [(-> & _ & [Hd|Hw])|(Ht' & Hreg & Hbits)]); cbn [mbind res_bind].
  - by rewrite (tk_enabled _ _ Ht) in Hd.
  - exfalso. eapply takes_not_waits; [done|]. apply Hw; apply Ht.
  - rewrite (takes_unique _ _ _ Ht' Ht) in *. destruct (on_ibus_vcpu i (fun _ => v1) s v Hv) as [-> _]. cbn [mbind res_bind].
    exists v1. split; [done|]. split; [done|done|by apply plain_same_addr|done].
Qed.

Lemma taken_highest v v1 r : takes v r -> taken v v1 r -> forall x, is_highest (apic v1) APIC_ISR x 256 -> x = r.
Proof.
  intros Ht Hn x Hx. pose proof (tk_vector _ _ Ht) as Hr.
  assert (Hin : apic_test_vector (apic v1) r APIC_ISR = true).
  { rewrite (tn_bits _ _ _ Hn) by auto with apic. by rewrite decide_True. }
  destruct Hx as [[-> Hx]|(Hx & Hxt & Hmax)]; [by rewrite Hx in Hin|]. unfold is_vector in Hr.
  destruct (Z.lt_trichotomy x r) as [Hlt|[->|Hgt]]; [rewrite (Hmax r) in Hin; [done|lia]|done|].
  rewrite (tn_bits _ _ _ Hn) in Hxt by (done || auto with apic). rewrite !decide_False in Hxt by (intros [? ?]; lia || done).
  pose proof (tk_isr _ _ Ht x Hx Hxt). pose proof (cls_mono r x Hr Hx). lia.
Qed.

(** The sources of a line after some changes. *)
Definition sources_after (cs : list line_change) (srcs : Z) : Z :=
  foldl (fun z c => match c with Source src lv => line_sources z src lv | Wake _ => z end) srcs cs.

Lemma changes_sources irq cs : forall l, sources (spec_changes irq cs l) = sources_after cs (sources l).
Proof.
  induction cs as [|c cs IH]; intros l; [done|]. change (spec_changes irq (c :: cs) l) with (spec_changes irq cs (spec_change irq c l)). rewrite IH.
  unfold sources_after. cbn [foldl]. f_equal. destruct c as [src lv|k]; cbn [spec_change]; [|done]. by destruct (_ || _).
Qed.

(** The line after the interrupt's end, with the sources [srcs]: another message
    if it is asserted. *)
Record line_ended {D} (md : addr_mode) (pin e0 srcs : Z) (i : nat) (s : vm D) : Prop := {
  le_rel : exists b, pin_rel md pin e0 (LineSpec srcs (negb (srcs =? 0)) b) s;
  le_isr : exists v, vcpus (ibus s) !! i = Some v /\ apic_test_vector (apic v) (e_vector e0) APIC_ISR = false;
  le_again : srcs <> 0 -> forall k v, vcpus (ibus s) !! k = Some v -> targets None (message_of e0) (vcpus (ibus s)) k = true ->
    apic_test_vector (apic v) (e_vector e0) APIC_IRR = true
}.

Section loop.
  Context {D : Type} (irq_acked : Z -> vm D -> res (vm D)) (nt : notifiers D) (notify : Z -> kvm_pic -> kvm_pic).
  Context (may : list line_change -> Prop).
  Context (md : addr_mode) (pin : Z) (Hpin : 0 <= pin < 24) (e0 : Z).
  Context (Hok : entry_ok e0) (Hmask : e_mask e0 = false) (Hlevel : e_trig_mode e0 = IOAPIC_LEVEL_TRIG).
  Context (Hfix : fixed_message (message_of e0)).

(** The notifiers of the pin's interrupt, as it is routed and they are
    registered, change the line and the devices. *)
Definition acks_pin (s : vm D) : Prop :=
  forall s1, irqs_ok s1 -> dev s1 = dev s -> reacts (fun _ => True) may pin (ioapic_ack irq_acked pin) s1.

(** The processors told to look for interrupts. *)
Lemma line_ended_request srcs i (s s1 : vm D) : line_ended md pin e0 srcs i s ->
  on_ibus (on_vcpu i request_event) s = Ok s1 -> line_ended md pin e0 srcs i s1.
Proof.
  intros [[b Hrel] (v & Hv & Hisr) Hagain] E. destruct (on_ibus_vcpu i request_event s v Hv) as [E1 Hv1].
  rewrite E1 in E. injection E as <-.
  assert (Hvo : vcpu_ok v) by (eapply Forall_lookup_1; [apply (pr_ok _ _ _ _ _ Hrel)|done]).
  assert (Hs : Forall2 same_addr (vcpus (ibus s)) (<[i := request_event v]> (vcpus (ibus s)))).
  { apply bus_step_same, (bus_step_insert _ _ _ _ Hv), request_event_step. }
  split.
  - eexists. exact (pin_rel_vcpu md pin e0 _ s i v (request_event v) Hrel Hv Hvo eq_refl (irq_step_addr _ _ (request_event_step v))).
  - by exists (request_event v).
  - intros Hsrc k w Hk. cbn [ibus with_bus vcpus with_vcpus] in *. rewrite (targets_same _ _ _ _ _ Hs). intros Ht.
    destruct (decide (i = k)) as [<-|Hne].
    + rewrite Hv1 in Hk. injection Hk as <-. by apply (Hagain Hsrc i v).
    + rewrite list_lookup_insert_ne in Hk by done. by apply (Hagain Hsrc k w).
Qed.

Lemma end_interrupt l i (s : vm D) v : acks_pin s -> pin_rel md pin e0 l s -> vcpus (ibus s) !! i = Some v ->
  apic_test_vector (apic v) (e_vector e0) APIC_ISR = false ->
  exists s' cs, kvm_ioapic_update_eoi (ioapic_ack irq_acked) i (e_vector e0) IOAPIC_LEVEL_TRIG s = Ok s' /\ may cs /\
    line_ended md pin e0 (sources_after cs (sources l)) i s'.
Proof.
  intros Ha Hrel Hv Hisr. pose proof (pr_bus _ _ _ _ _ Hrel) as Eb.
  destruct (pin_eoi (ioapic_ack irq_acked) (fun _ => True) may md pin Hpin e0 Hok Hmask Hlevel Hfix i l s Hrel) as (s' & cs & E & Hm & _ & Hrel' & Hrec & Hb).
  { rewrite <- Eb. by eapply lookup_lt_Some. }
  { exact Ha. }
  exists s', cs. split; [exact E|]. split; [done|]. rewrite <- (changes_sources (message_of e0)). set (l2 := spec_changes _ cs l) in *.
  pose proof (pr_bus _ _ _ _ _ Hrel') as Eb'.
  assert (Hbs : bus_step (vcpus (ibus s)) (vcpus (ibus s'))).
  { rewrite Eb, Eb'. etransitivity; [exact Hb|]. unfold spec_end. destruct (_ =? _); [reflexivity|]. by destruct (delivery_sent md _ _ ∅ Hrec Hfix) as (? & ? & _ & _ & _ & ?). }
  split.
  - exists (spec_bus (spec_end (message_of e0) l2)). revert Hrel'. unfold spec_end. by destruct (Z.eqb_spec (sources l2) 0) as [->|].
  - destruct (lookup_lt_is_Some_2 (vcpus (ibus s')) i) as [v' Hv']; [rewrite <- (Forall2_length _ _ _ Hbs); by eapply lookup_lt_Some|].
    exists v'. split; [done|]. destruct (bus_step_lookup _ _ _ _ Hbs Hv') as (v0 & Hv0 & Hst). rewrite Hv in Hv0. injection Hv0 as <-.
    rewrite <- Hisr. apply (is_bits _ _ Hst); [by left|done|apply e_vector_range].
  - intros Hne k w. rewrite Eb'. unfold spec_end. apply Z.eqb_neq in Hne as ->. by apply (sent_requests md).
Qed.

(** The write to the register, of a processor with the vector the highest in
    service. *)
Lemma eoi_write c l i (s : vm D) v val : acks_pin s -> pin_rel md pin e0 l s -> vcpus (ibus s) !! i = Some v ->
  (forall x, is_highest (apic v) APIC_ISR x 256 -> x = e_vector e0) ->
  apic_test_vector (apic v) (e_vector e0) APIC_TMR = true ->
  any (kvm_apic_get_reg (apic v) APIC_SPIV) APIC_SPIV_DIRECTED_EOI = false ->
  exists s' cs, apic_reg_write irq_acked c i APIC_EOI val s = Ok (0, s') /\ may cs /\ line_ended md pin e0 (sources_after cs (sources l)) i s'.
Proof.
  intros Ha Hrel Hv Hhigh Htmr Hdir. assert (Hvo : vcpu_ok v) by (eapply Forall_lookup_1; [apply (pr_ok _ _ _ _ _ Hrel)|done]).
  unfold apic_reg_write. rewrite (vcpu_at_Some _ _ _ Hv). cbn [mbind res_bind].
  change (APIC_EOI =? APIC_ID) with false. change (APIC_EOI =? APIC_TASKPRI) with false. change (APIC_EOI =? APIC_EOI) with true.
  cbv iota. unfold apic_set_eoi. rewrite (vcpu_at_Some _ _ _ Hv). cbn [mbind res_bind].
  destruct (retire_spec v Hvo) as (r & v' & -> & Hvo' & Hb & Hid & Hr & Hreg & Hbits). apply Hhigh in Hr. subst r.
  pose proof (e_vector_range e0) as Hvec. cbn [mbind res_bind].
  rewrite (proj2 (Z.eqb_neq _ _)) by (unfold is_vector in Hvec; lia).
  destruct (on_ibus_vcpu i (fun _ => v') s v Hv) as [-> Hv']. cbn [mbind res_bind].
  pose proof (pin_rel_vcpu md pin e0 l s i v v' Hrel Hv Hvo' Hid (plain_same_addr v v' Hb Hreg)) as Hrel'.
  cbv zeta in Hrel'.
  set (s1 := with_bus _ s) in *. unfold kvm_ioapic_send_eoi. rewrite (vcpu_at_Some _ _ _ Hv'). cbn [mbind res_bind].
  rewrite Hreg, Hdir, (pin_handled _ _ _ _ _ Hrel') by (done || by left).
  rewrite Hbits, decide_False, Htmr by (done || auto with apic || by intros []). cbn [negb andb].
  destruct (end_interrupt _ i s1 v' Ha Hrel' Hv') as (s2 & cs & -> & Hm & Hend).
  { rewrite Hbits by auto with apic. by rewrite decide_True. }
  cbn [mbind res_bind]. destruct (le_isr _ _ _ _ _ _ Hend) as (v2 & Hv2 & _).
  destruct (on_ibus_vcpu i request_event s2 v2 Hv2) as [E3 _]. rewrite E3. cbn [mbind res_bind].
  eexists _, cs. split; [done|]. split; [done|]. eapply (line_ended_request _ i s2); [|exact E3]. exact Hend.
Qed.
End loop.

(** C8: A level-triggered interrupt end to end: a processor whose APIC has
    the pin's vector as the next interrupt takes it, and when the guest
    writes the end-of-interrupt register the vector leaves service and the
    pin is freed; if the line is still asserted once the notifiers of the
    acknowledgement have changed it, the interrupt is requested again at every
    processor the pin addresses.  The notifiers change sources of this line
    and state of the devices, and may wake processors.  The pin is unmasked,
    level-triggered, of fixed delivery to a destination that is not the
    broadcast, with a vector no other pin has and whose bit in the trigger
    mode register is set; all processors it addresses have their APIC
    enabled; the processor takes no interrupts of the 8259 and has directed
    end-of-interrupt off. *)
Theorem level_interrupt_loop {D} (irq_acked : Z -> vm D -> res (vm D)) nt notify c may md pin e0 l i s v val :
  acks_pin irq_acked may pin s -> 0 <= pin < 24 -> entry_ok e0 ->
  e_mask e0 = false -> e_trig_mode e0 = IOAPIC_LEVEL_TRIG -> fixed_message (message_of e0) ->
  pin_rel md pin e0 l s -> vcpus (ibus s) !! i = Some v -> kvm_apic_accept_pic_intr v = false ->
  takes v (e_vector e0) -> apic_test_vector (apic v) (e_vector e0) APIC_TMR = true ->
  any (kvm_apic_get_reg (apic v) APIC_SPIV) APIC_SPIV_DIRECTED_EOI = false ->
  exists s1 s2 cs, kvm_cpu_get_interrupt nt notify i s = Ok (e_vector e0, s1) /\
    apic_reg_write irq_acked c i APIC_EOI val s1 = Ok (0, s2) /\ may cs /\ line_ended md pin e0 (sources_after cs (sources l)) i s2.
Proof.
  intros Hq Hp He Hm Hl Hf Hrel Hv Hpic Ht Htmr Hdir.
  assert (Hvo : vcpu_ok v) by (eapply Forall_lookup_1; [apply (pr_ok _ _ _ _ _ Hrel)|done]).
  destruct (take_interrupt nt notify i s v _ Hvo Hv Hpic Ht) as (v1 & E1 & Htn).
  pose proof (pin_rel_vcpu md pin e0 l s i v v1 Hrel Hv (tn_ok _ _ _ Htn) (tn_id _ _ _ Htn) (tn_addr _ _ _ Htn)) as Hrel1.
  cbv zeta in Hrel1. set (s1 := with_bus _ s) in *. exists s1.
  assert (Hv1 : vcpus (ibus s1) !! i = Some v1) by (apply list_lookup_insert_eq; by eapply lookup_lt_Some).
  destruct (eoi_write irq_acked may md pin Hp e0 He Hm Hl Hf c _ i s1 v1 val Hq Hrel1 Hv1) as (s2 & cs & E2 & Hcs & Hend).
  - by apply taken_highest with v.
  - rewrite (tn_bits _ _ _ Htn) by (apply e_vector_range || auto with apic). by rewrite !decide_False by (by intros []).
  - by rewrite (sa_regs _ _ (tn_addr _ _ _ Htn)) by set_solver.
  - by exists s2, cs.
Qed.

(** A processor with the pin's vector requested and level-triggered. *)
Definition demo_taker : kvm_vcpu :=
  on_apic (fun a => kvm_apic_update_tmr (Z.setbit 0 0x41) (apic_set_irr 0x41 (apic_set_reg a APIC_LVT0 APIC_LVT_MASKED)))
    (flat_vcpu 0).
Definition demo_bus : bus := with_vcpus (<[0%nat := demo_taker]> (vcpus two_vcpu_bus)) two_vcpu_bus.

Lemma demo_taker_ok : vcpu_ok demo_taker.
Proof.
  apply update_tmr_ok; [done|]. apply lapic_ok_set_irr; [|done]. apply lapic_ok_set_plain; [|by right|done].
  by apply flat_vcpu_ok.
Qed.

Lemma demo_taker_takes : takes demo_taker 0x41.
Proof.
  assert (H : forall b, forallb (fun w => implb (apic_test_vector (apic demo_taker) w b) (w <=? 0x41)) (seqZ 0 256) = true ->
    forall w, is_vector w -> apic_test_vector (apic demo_taker) w b = true -> w <= 0x41).
  { intros b Hb w Hw Ht. rewrite forallb_forall in Hb. specialize (Hb w).
    rewrite Ht in Hb. apply Z.leb_le, Hb, list_elem_of_In, elem_of_seqZ. unfold is_vector in Hw. lia. }
  split; [by split|by vm_compute|by vm_compute|apply H; by vm_compute|by vm_compute|].
  intros w Hw Ht. exfalso. assert (Hn : forallb (fun w => negb (apic_test_vector (apic demo_taker) w APIC_ISR)) (seqZ 0 256) = true)
    by (by vm_compute). rewrite forallb_forall in Hn. specialize (Hn w). rewrite Ht in Hn.
  assert (Hw' : In w (seqZ 0 256)) by (apply list_elem_of_In, elem_of_seqZ; unfold is_vector in Hw; lia). by apply Hn in Hw'.
Qed.

Lemma demo_bus_receptive : receptive Flat (message_of demo_entry) demo_bus.
Proof.
  eapply receptive_vcpu; [apply demo_receptive|reflexivity|apply demo_taker_ok|reflexivity|].
  split; [reflexivity|]. intros r Hr. repeat (apply elem_of_cons in Hr as [->|Hr]; [reflexivity|]). by apply elem_of_nil in Hr.
Qed.

(** The line of pin 5 is asserted by source 0 and by source 2. *)
Lemma demo_vm_rel (d : devs unit) : exists s : vm unit, pin_rel Flat 5 demo_entry (LineSpec 5 true demo_bus) s /\ ibus s = demo_bus /\ dev s = d.
Proof.
  assert (H0 : pin_rel Flat 5 demo_entry demo_line (Irqs two_vcpu_bus demo_ioapic d)).
  { destruct demo_pin_rel as [[] ? ? ? ? ? ?]. by split. }
  destruct (pin_changes Flat 5 ltac:(lia) demo_entry ltac:(vm_compute; split; congruence) eq_refl eq_refl demo_fixed [Source 0 true; Source 2 true] _ _ H0)
    as (s1 & _ & H1 & Ed & _); [repeat (apply Forall_cons; split; [cbn; lia|]); constructor|].
  exists (with_bus demo_bus s1). split; [|split; [done|exact Ed]]. exact (pin_rel_bus _ _ _ _ _ _ H1 demo_bus_receptive).
Qed.

(** The interrupt of source 2 is an eventfd's that is resampled, with number 5
    of the default table. *)
Definition lower_resampled (gsi : Z) (s : vm unit) : res (vm unit) := '(_, s) ← kvm_set_irq no_notifiers 2 gsi false false s; Ok s.
Definition resampled : devs unit := with_ack_gsis [5] (dev demo_vm).

Lemma resampler_reacts (s1 : vm unit) : irqs_ok s1 -> dev s1 = resampled ->
  reacts (fun _ => True) (fun cs => sources_after cs 5 = 1) 5 (ioapic_ack lower_resampled 5) s1.
Proof.
  intros Hs Ed. destruct (kvm_ioapic_set_irq_ok 5 2 false false s1 Hs ltac:(lia) ltac:(lia)) as (x & s2 & E2 & _).
  assert (Ed2 : dev s2 = resampled) by (rewrite <- Ed; by eapply kvm_ioapic_set_irq_dev).
  set (p := match kvm_pic_set_irq (pic resampled) 5 2 false with Ok (p, _) => p | Err _ => pic resampled end).
  assert (E : ioapic_ack lower_resampled 5 s1 = Ok (set_pic no_notifiers p s2)).
  { unfold ioapic_ack, kvm_notify_acked_irq, lower_resampled, kvm_set_irq. rewrite Ed. change (gsi_of KVM_IRQCHIP_IOAPIC 5 resampled) with 5.
    change (existsb (Z.eqb 5) (ack_gsis resampled)) with true. change (5 =? - 1) with false. cbv iota.
    replace (routed (routing resampled) 5) with [RIrqchip 0 5; RIrqchip 2 5] by (vm_compute; reflexivity).
    change (reverse [RIrqchip 0 5; RIrqchip 2 5]) with [RIrqchip 2 5; RIrqchip 0 5]. cbn [length Nat.ltb Nat.leb KVM_NR_IRQCHIPS set_all route_set].
    change (2 =? KVM_IRQCHIP_IOAPIC) with true. change (0 =? KVM_IRQCHIP_IOAPIC) with false. cbv iota. rewrite E2. cbn [mbind res_bind].
    unfold kvm_set_pic_irq. rewrite Ed2. replace (kvm_pic_set_irq (pic resampled) 5 2 false) with (Ok (p, 1)) by (vm_compute; reflexivity). reflexivity. }
  assert (Hw : exists cs, (cs = [Source 2 false] \/ exists k, cs = [Source 2 false; Wake k]) /\
    exists d, Ok (set_pic no_notifiers p s2) = (s ← change_all 5 cs s1; Ok (Irqs (ibus s) (ioapic s) d))).
  { unfold set_pic. replace (notes p) with [Kick] by (vm_compute; reflexivity). cbn [foldr pic_signal ibus on_dev]. destruct (pic_vcpu (vcpus (ibus s2))) as [k|].
    - exists [Source 2 false; Wake k]. split; [right; by exists k|]. cbn [change_all change_step]. rewrite E2. cbn [mbind res_bind]. eexists. reflexivity.
    - exists [Source 2 false]. split; [by left|]. cbn [change_all change_step]. rewrite E2. cbn [mbind res_bind]. eexists. reflexivity. }
  destruct Hw as (cs & Hcs & d & Hd). exists cs, d. rewrite E. split; [by destruct Hcs as [->|[k ->]]|]. split; [|done].
  destruct Hcs as [->|[k ->]]; repeat (apply Forall_cons; split; [cbn; lia || done|]); constructor.
Qed.

(** Its notifier lowers source 2; source 0 interrupts again. *)
Lemma level_interrupt_loop_witness :
  exists s s1 s2 : vm unit, kvm_cpu_get_interrupt no_notifiers (fun _ p => p) 0 s = Ok (0x41, s1) /\
    apic_reg_write lower_resampled (Clock 0 0 0 0) 0 APIC_EOI 0 s1 = Ok (0, s2) /\
    line_ended Flat 5 demo_entry 1 0 s2.
Proof.
  destruct (demo_vm_rel resampled) as (s & Hrel & Eb & Ed). exists s.
  destruct (level_interrupt_loop lower_resampled no_notifiers (fun _ p => p) (Clock 0 0 0 0) (fun cs => sources_after cs 5 = 1) Flat 5 demo_entry
    (LineSpec 5 true demo_bus) 0 s demo_taker 0) as (s1 & s2 & cs & E1 & E2 & Hcs & Hend).
  - intros s1 Hs1 Ed1. apply resampler_reacts; [exact Hs1|by rewrite Ed1].
  - lia.
  - vm_compute. split; congruence.
  - reflexivity.
  - reflexivity.
  - apply demo_fixed.
  - exact Hrel.
  - rewrite Eb. reflexivity.
  - reflexivity.
  - apply demo_taker_takes.
  - reflexivity.
  - reflexivity.
  - exists s1, s2. split; [exact E1|]. split; [exact E2|]. cbn [sources] in Hend. rewrite Hcs in Hend. exact Hend.
Defined.

(** ** Refused accesses *)

(** The registers that can be read, and those that can be written. *)
Definition readable : list Z :=
  [APIC_ID; APIC_LVR; APIC_TASKPRI; APIC_ARBPRI; APIC_PROCPRI; APIC_LDR; APIC_DFR; APIC_SPIV] ++
  (i ← seqZ 0 8; [APIC_ISR + 0x10 * i; APIC_TMR + 0x10 * i; APIC_IRR + 0x10 * i]) ++
  [APIC_ESR; APIC_ICR; APIC_ICR2; APIC_LVTT; APIC_LVTTHMR; APIC_LVTPC; APIC_LVT0; APIC_LVT1; APIC_LVTERR;
   APIC_TMICT; APIC_TMCCT; APIC_TDCR].

Definition writable (x2 : bool) : list Z :=
  [APIC_TASKPRI; APIC_EOI; APIC_SPIV; APIC_ICR; APIC_ICR2; APIC_LVT0; APIC_LVTTHMR; APIC_LVTPC; APIC_LVT1; APIC_LVTERR;
   APIC_LVTT; APIC_TMICT; APIC_TDCR; APIC_ESR] ++
  (if x2 then [APIC_SELF_IPI] else [APIC_ID; APIC_LDR; APIC_DFR]).

Definition write_refused (x2 : bool) (reg val : Z) : bool :=
  negb (bool_decide (reg ∈ writable x2)) || (x2 && (reg =? APIC_ESR) && negb (val =? 0)).

Lemma rmask_readable k : 0 <= k < 64 -> Z.testbit rmask k = bool_decide (16 * k ∈ readable).
Proof.
  assert (H : Forall (fun k => Z.testbit rmask k = bool_decide (16 * k ∈ readable)) (seqZ 0 64)).
  { apply (bool_decide_unpack _). vm_compute. exact I. }
  intros Hk. rewrite Forall_forall in H. apply H, elem_of_seqZ. lia.
Qed.

Lemma readable_range r : r ∈ readable -> 0 <= r <= 0x3f0.
Proof.
  assert (H : Forall (fun r => 0 <= r <= 0x3f0) readable) by (apply (bool_decide_unpack _); vm_compute; exact I).
  rewrite Forall_forall in H. apply H.
Qed.

Lemma apic_read_refused c offset len v : 0 <= offset ->
  ((apic_reg_read c offset len v).1 = None <-> 4 < offset mod 16 + len \/ 16 * (offset / 16) ∉ readable) /\
  ((apic_reg_read c offset len v).1 = None -> (apic_reg_read c offset len v).2 = v).
Proof.
  intros Ho. unfold apic_reg_read. change 0xf with (Z.ones 4). rewrite Z.land_ones by lia. change (2 ^ 4) with 16.
  destruct (Z.ltb_spec 4 (offset mod 16 + len)) as [Hl|Hl]; [cbn; tauto|].
  rewrite Z.shiftr_div_pow2 by lia. change (2 ^ 4) with 16. pose proof (Z.div_mod offset 16 ltac:(lia)) as Hdm.
  pose proof (Z.mod_pos_bound offset 16 ltac:(lia)) as Hmb.
  destruct (Z.ltb_spec 0x3f0 offset) as [Hh|Hh]; cbn [orb].
  { cbn [fst snd]. split; [|done]. split; [|done]. intros _. destruct (decide (16 * (offset / 16) = 0x3f0)) as [->|Hne].
    - right. intros Hr. assert (Hb : bool_decide (0x3f0 ∈ readable) = false) by (by vm_compute).
      by apply bool_decide_eq_false in Hb.
    - right. intros Hr%readable_range. lia. }
  rewrite rmask_readable by lia. destruct (bool_decide_reflect (16 * (offset / 16) ∈ readable)) as [Hr|Hr]; cbn [negb fst snd].
  - destruct (__apic_read _ _ _). cbn. split; [|done]. split; [done|]. intros [|]; [lia|done].
  - split; [|done]. split; [|done]. intros _. by right.
Qed.

(** A write that is carried out has the result 0. *)
Lemma write_done {D} (m : res (vm D)) r s' : (s ← m; Ok (0, s)) = Ok (r, s') -> r = 0.
Proof. destruct m; [|done]. by intros [= <- _]. Qed.

Lemma write_refused_iff {D} (irq_acked : Z -> vm D -> res (vm D)) c i reg val s v r s' : vcpus (ibus s) !! i = Some v ->
  apic_reg_write irq_acked c i reg val s = Ok (r, s') ->
  r = Z.b2z (write_refused (apic_x2apic_mode v) reg val) /\ (r = 1 -> s' = s).
Proof.
  intros Hv. unfold apic_reg_write. rewrite (vcpu_at_Some _ _ _ Hv). cbn [mbind res_bind]. unfold write_refused.
  set (x2 := apic_x2apic_mode v). clearbody x2.
  assert (Hdone : forall m : res (vm D), (s ← m; Ok (0, s)) = Ok (r, s') -> r = 0 /\ (r = 1 -> s' = s)).
  { intros m E. pose proof (write_done m r s' E) as ->. done. }
  assert (Href : Ok (1, s) = Ok (r, s') -> r = 1 /\ (r = 1 -> s' = s)) by (intros [= <- <-]; done).
  destruct (Z.eqb_spec reg APIC_ID) as [->|H1]; [destruct x2; [apply Href|apply Hdone]|].
  destruct (Z.eqb_spec reg APIC_TASKPRI) as [->|H2]; [destruct x2; apply Hdone|].
  destruct (Z.eqb_spec reg APIC_EOI) as [->|H3].
  { destruct (apic_set_eoi _ _ _) as [[x s1]|]; [|done]. intros [= <- <-]. by destruct x2. }
  destruct (Z.eqb_spec reg APIC_LDR) as [->|H4]; [destruct x2; [apply Href|apply Hdone]|].
  destruct (Z.eqb_spec reg APIC_DFR) as [->|H5]; [destruct x2; [apply Href|apply Hdone]|].
  destruct (Z.eqb_spec reg APIC_SPIV) as [->|H6]; [destruct x2; apply Hdone|].
  destruct (Z.eqb_spec reg APIC_ICR) as [->|H7]; [destruct x2; apply Hdone|].
  destruct (Z.eqb_spec reg APIC_ICR2) as [->|H8]; [destruct x2; apply Hdone|].
  destruct (Z.eqb_spec reg APIC_LVT0) as [->|H9]; [destruct x2; apply Hdone|].
  destruct (bool_decide_reflect (reg ∈ [APIC_LVTTHMR; APIC_LVTPC; APIC_LVT1; APIC_LVTERR])) as [Hr|Hr].
  { repeat (apply elem_of_cons in Hr as [->|Hr]; [destruct x2; apply Hdone|]). by apply elem_of_nil in Hr. }
  destruct (Z.eqb_spec reg APIC_LVTT) as [->|H10]; [destruct x2; apply Hdone|].
  destruct (Z.eqb_spec reg APIC_TMICT) as [->|H11]; [destruct x2; apply Hdone|].
  destruct (Z.eqb_spec reg APIC_TDCR) as [->|H12]; [destruct x2; apply Hdone|].
  destruct (Z.eqb_spec reg APIC_ESR) as [->|H13].
  { intros [= <- <-]. split; [|done]. by destruct x2, (val =? 0). }
  destruct (Z.eqb_spec reg APIC_SELF_IPI) as [->|H14]; [destruct x2; [apply Hdone|apply Href]|].
  rewrite bool_decide_false; [apply Href|]. destruct x2; set_solver.
Qed.

(** The register an accepted write goes to, and what it holds afterwards: the
    bits that can be written; nothing new for the initial count in deadline
    mode.  The end-of-interrupt and the error register hold nothing. *)
Definition stored (v : kvm_vcpu) (reg val : Z) : option (Z * Z) :=
  let a := apic v in
  let lvt m := Z.land (if kvm_apic_sw_enabled a then val else Z.lor val APIC_LVT_MASKED) m in
  if (reg =? APIC_ID) || (reg =? APIC_LDR) then Some (reg, Z.land val 0xff000000)
  else if reg =? APIC_TASKPRI then Some (reg, Z.land val 0xff)
  else if reg =? APIC_DFR then Some (reg, Z.lor val 0x0fffffff)
  else if reg =? APIC_SPIV then Some (reg, Z.land val (if any (kvm_apic_get_reg a APIC_LVR) APIC_LVR_DIRECTED_EOI then 0x13ff else 0x3ff))
  else if reg =? APIC_ICR then Some (reg, Z.ldiff val 0x1000)
  else if reg =? APIC_ICR2 then Some (reg, if apic_x2apic_mode v then val else Z.land val 0xff000000)
  else if reg =? APIC_LVTT then Some (reg, lvt (Z.lor 0x110ff (timer_mode_mask (lapic_timer a))))
  else if (reg =? APIC_LVTTHMR) || (reg =? APIC_LVTPC) then Some (reg, lvt 0x117ff)
  else if (reg =? APIC_LVT0) || (reg =? APIC_LVT1) then Some (reg, lvt 0x1f7ff)
  else if reg =? APIC_LVTERR then Some (reg, lvt 0x110ff)
  else if reg =? APIC_TMICT then Some (reg, if apic_lvtt_tscdeadline a then kvm_apic_get_reg a reg else val)
  else if reg =? APIC_TDCR then Some (reg, val)
  else if reg =? APIC_SELF_IPI then Some (APIC_ICR, Z.lor 0x40000 (Z.land val 0xff))
  else None.

(** Processor [i] has the value [x] in register [r]. *)
Definition holds {D} (i : nat) (r x : Z) (s : vm D) : Prop :=
  exists v, vcpus (ibus s) !! i = Some v /\ kvm_apic_get_reg (apic v) r = x.

Lemma vcpu_holds {D} i f (s : vm D) v r x z s' : vcpus (ibus s) !! i = Some v -> kvm_apic_get_reg (apic (f v)) r = x ->
  (s ← on_ibus (on_vcpu i f) s; Ok (0, s)) = Ok (z, s') -> holds i r x s'.
Proof.
  intros Hv Hx. destruct (on_ibus_vcpu i f s v Hv) as [-> Hv']. cbn [mbind res_bind]. intros E. injection E as <- <-. by exists (f v).
Qed.

(** The same when the table of processors is built anew. *)
Lemma remap_holds {D} i f (s : vm D) v r x z s' : vcpus (ibus s) !! i = Some v -> kvm_apic_get_reg (apic (f v)) r = x ->
  (s ← on_ibus (fun b => b ← on_vcpu i f b; recalculate_apic_map b) s; Ok (0, s)) = Ok (z, s') -> holds i r x s'.
Proof.
  intros Hv Hx. unfold on_ibus. destruct (on_vcpu_at i f (ibus s) v Hv) as [-> Hv']. cbn [mbind res_bind].
  match goal with |- context [recalculate_apic_map ?b] => destruct (recalculate_any b) as (b' & -> & Ev & _) end. cbn [mbind res_bind]. intros E. injection E as <- <-.
  exists (with_scan true (f v)). cbn [ibus with_bus]. by rewrite Ev, list_lookup_fmap, Hv'.
Qed.

(** A processor that sends a message keeps its registers. *)
Lemma icr_holds `{Hinv : DeviceInv D} i val (s : vm D) v z s' : vm_ok s -> word_ok val -> vcpus (ibus s) !! i = Some v ->
  (s ← write_icr i val s; Ok (0, s)) = Ok (z, s') -> holds i APIC_ICR (Z.ldiff val 0x1000) s'.
Proof.
  intros Hs Hw Hv. unfold write_icr, set_reg. set (f := on_apic _).
  destruct (set_reg_op (length (vcpus (ibus s))) i APIC_ICR (Z.ldiff val 0x1000) (lookup_lt_Some _ _ _ Hv)) with (s := s) as (s1 & E1 & Hg);
    [by right|by apply ldiff_word|done|done|]. unfold set_reg in E1. fold f in E1. destruct (on_ibus_vcpu i f s v Hv) as [E2 Hv2]. rewrite E1 in E2. injection E2 as ->. rewrite E1. cbn [mbind res_bind].
  set (s1 := with_bus _ s) in *. unfold on_ibus, apic_send_ipi. rewrite (vcpu_at_Some _ _ _ Hv2). cbn [mbind res_bind].
  destruct (delivery_ok (ibus s1) (Some i) (ipi_of (f v)) ∅ (ok_bus _ (vo_irqs _ (vg_ok _ _ Hg)))) as (r & vs' & dm' & -> & Hd).
  { apply vector_mask_range. } { intros _. exists i. split; [done|by eapply lookup_lt_Some]. }
  cbn [mbind res_bind]. intros E. injection E as <- <-. pose proof (dl_step _ _ _ _ Hd) as Hst. cbn in Hst.
  destruct (Forall2_lookup_l _ _ _ _ _ Hst Hv2) as (v' & Hv' & Hi). exists v'. split; [done|].
  rewrite (is_regs _ _ Hi) by (by right). cbn. by rewrite get_set_reg, decide_True.
Qed.

Lemma start_timer_get c a r : kvm_apic_get_reg (start_apic_timer c a) r = kvm_apic_get_reg a r.
Proof. unfold start_apic_timer. repeat case_match; done. Qed.

Lemma write_tmict_get c val a : kvm_apic_get_reg (write_tmict c val a) APIC_TMICT = if apic_lvtt_tscdeadline a then kvm_apic_get_reg a APIC_TMICT else val.
Proof. unfold write_tmict. destruct (apic_lvtt_tscdeadline a); [done|]. by rewrite start_timer_get, get_set_reg, decide_True. Qed.

Lemma write_spiv_get val a : kvm_apic_get_reg (write_spiv val a) APIC_SPIV =
  Z.land val (if any (kvm_apic_get_reg a APIC_LVR) APIC_LVR_DIRECTED_EOI then 0x13ff else 0x3ff).
Proof.
  unfold write_spiv. set (mask := if any _ _ then Z.lor _ _ else _).
  replace (if any (kvm_apic_get_reg a APIC_LVR) APIC_LVR_DIRECTED_EOI then 0x13ff else 0x3ff) with mask by (unfold mask; by destruct (any _ _)). clearbody mask.
  set (b := apic_set_spiv _ a). assert (Hb : kvm_apic_get_reg b APIC_SPIV = Z.land val mask) by (unfold b, apic_set_spiv; by rewrite get_set_reg, decide_True).
  destruct (any val _); [done|]. change (kvm_apic_get_reg (set_pending 0 ?x) ?y) with (kvm_apic_get_reg x y). rewrite <- Hb. clearbody b.
  assert (Hn : Forall (fun x => x <> APIC_SPIV) lvt_regs) by (apply (bool_decide_unpack _); vm_compute; exact I). revert b Hb.
  induction lvt_regs as [|x l IH]; intros b Hb; [done|]. apply Forall_cons in Hn as [Hx Hl]. unfold set_regs in *. cbn [foldl].
  assert (E : kvm_apic_get_reg (apic_set_reg b x (Z.lor (kvm_apic_get_reg b x) APIC_LVT_MASKED)) APIC_SPIV = kvm_apic_get_reg b APIC_SPIV) by (by rewrite get_set_reg, decide_False).
  rewrite IH by (done || by rewrite E). exact E.
Qed.

Lemma write_lvt_get reg val a m : nth (Z.to_nat (Z.shiftr (reg - APIC_LVTT) 4)) apic_lvt_mask 0 = m ->
  kvm_apic_get_reg (write_lvt reg val a) reg = Z.land (if kvm_apic_sw_enabled a then val else Z.lor val APIC_LVT_MASKED) m.
Proof. intros <-. unfold write_lvt. by rewrite get_set_reg, decide_True. Qed.

Lemma write_lvtt_get val a : kvm_apic_get_reg (write_lvtt val a) APIC_LVTT =
  Z.land (if kvm_apic_sw_enabled a then val else Z.lor val APIC_LVT_MASKED) (Z.lor 0x110ff (timer_mode_mask (lapic_timer a))).
Proof. unfold write_lvtt. rewrite get_set_reg, decide_True by done. by destruct (_ =? _). Qed.

Lemma write_tdcr_get val a : kvm_apic_get_reg (update_divide_count (apic_set_reg a APIC_TDCR val)) APIC_TDCR = val.
Proof. transitivity (kvm_apic_get_reg (apic_set_reg a APIC_TDCR val) APIC_TDCR); [done|]. by rewrite get_set_reg, decide_True. Qed.

Lemma id_bits val : word_ok val -> Z.shiftl (u8 (Z.shiftr val 24)) 24 = Z.land val 0xff000000.
Proof.
  intros Hw. unfold word_ok in Hw. apply Z.bits_inj'. intros k Hk. change 0xff000000 with (Z.shiftl (Z.ones 8) 24).
  rewrite Z.land_spec, !Z.shiftl_spec by lia. destruct (Z.lt_ge_cases k 24) as [H|H]; [by rewrite !(Z.testbit_neg_r _ (k - 24)), andb_false_r by lia|].
  unfold u8. change 256 with (2 ^ 8). rewrite Z.testbit_ones_nonneg by lia. destruct (Z.ltb_spec (k - 24) 8).
  - rewrite Z.mod_pow2_bits_low, Z.shiftr_spec, andb_true_r by lia. f_equal. lia.
  - by rewrite Z.mod_pow2_bits_high, andb_false_r by lia.
Qed.

Lemma self_bits val : Z.ldiff (Z.lor 0x40000 (Z.land val 0xff)) 0x1000 = Z.lor 0x40000 (Z.land val 0xff).
Proof.
  apply Z.bits_inj'. intros k Hk. rewrite Z.ldiff_spec. change 0x1000 with (2 ^ 12). rewrite Z.pow2_bits_eqb by lia.
  destruct (Z.eqb_spec 12 k) as [<-|]; [|cbn [negb]; by rewrite andb_true_r]. rewrite Z.lor_spec, Z.land_spec. change (Z.testbit 0xff 12) with false. by rewrite !andb_false_r.
Qed.

Lemma write_stores `{Hinv : DeviceInv D} (irq_acked : Z -> vm D -> res (vm D)) c i reg val s v s' r x : vm_ok s -> word_ok val ->
  vcpus (ibus s) !! i = Some v -> apic_reg_write irq_acked c i reg val s = Ok (0, s') -> stored v reg val = Some (r, x) -> holds i r x s'.
Proof.
  intros Hs Hw Hv. unfold apic_reg_write, stored. rewrite (vcpu_at_Some _ _ _ Hv). cbn [mbind res_bind].
  destruct (Z.eqb_spec reg APIC_ID) as [->|H1].
  { intros E [= <- <-]. destruct (apic_x2apic_mode v); [done|]. refine (remap_holds i _ s v _ _ 0 s' Hv _ E). cbn. by rewrite get_set_reg, decide_True, id_bits. }
  destruct (Z.eqb_spec reg APIC_TASKPRI) as [->|H2].
  { intros E [= <- <-]. refine (vcpu_holds i _ s v _ _ 0 s' Hv _ E). unfold apic_set_tpr. rewrite (sp_regs _ _ (apic_update_ppr_same _)) by done. cbn. by rewrite get_set_reg, decide_True. }
  destruct (Z.eqb_spec reg APIC_EOI) as [->|H3]; [done|].
  destruct (Z.eqb_spec reg APIC_LDR) as [->|H4].
  { intros E [= <- <-]. destruct (apic_x2apic_mode v); [done|]. refine (remap_holds i _ s v _ _ 0 s' Hv _ E). cbn. by rewrite get_set_reg, decide_True. }
  destruct (Z.eqb_spec reg APIC_DFR) as [->|H5].
  { intros E [= <- <-]. destruct (apic_x2apic_mode v); [done|]. refine (remap_holds i (on_apic (fun a => apic_set_reg a APIC_DFR (Z.lor val 0x0fffffff))) s v _ _ 0 s' Hv _ _).
    - cbn. by rewrite get_set_reg, decide_True.
    - rewrite <- E. unfold set_reg, on_ibus. by destruct (on_vcpu _ _ _). }
  destruct (Z.eqb_spec reg APIC_SPIV) as [->|H6]; [intros E [= <- <-]; refine (vcpu_holds i _ s v _ _ 0 s' Hv _ E); apply write_spiv_get|].
  destruct (Z.eqb_spec reg APIC_ICR) as [->|H7]; [intros E [= <- <-]; by apply (icr_holds i val s v 0)|].
  destruct (Z.eqb_spec reg APIC_ICR2) as [->|H8].
  { intros E [= <- <-]. refine (vcpu_holds i _ s v _ _ 0 s' Hv _ E). cbn. by rewrite get_set_reg, decide_True. }
  destruct (Z.eqb_spec reg APIC_LVT0) as [->|H9].
  { intros E [= <- <-]. refine (vcpu_holds i _ (apic_manage_nmi_watchdog (apic v) val s) v _ _ 0 s' _ _ E); [|by apply write_lvt_get].
    unfold apic_manage_nmi_watchdog. by repeat case_match. }
  destruct (bool_decide_reflect (reg ∈ [APIC_LVTTHMR; APIC_LVTPC; APIC_LVT1; APIC_LVTERR])) as [Hr|Hr].
  { repeat (apply elem_of_cons in Hr as [->|Hr]; [intros E [= <- <-]; refine (vcpu_holds i _ s v _ _ 0 s' Hv _ E); by apply write_lvt_get|]). by apply elem_of_nil in Hr. }
  rewrite !not_elem_of_cons in Hr. destruct Hr as (R1 & R2 & R3 & R4 & _). rewrite (proj2 (Z.eqb_neq reg APIC_LVTTHMR)), (proj2 (Z.eqb_neq reg APIC_LVTPC)),
    (proj2 (Z.eqb_neq reg APIC_LVT1)), (proj2 (Z.eqb_neq reg APIC_LVTERR)) by done. cbn [orb].
  destruct (Z.eqb_spec reg APIC_LVTT) as [->|H10]; [intros E [= <- <-]; refine (vcpu_holds i _ s v _ _ 0 s' Hv _ E); apply write_lvtt_get|].
  destruct (Z.eqb_spec reg APIC_TMICT) as [->|H11]; [intros E [= <- <-]; refine (vcpu_holds i _ s v _ _ 0 s' Hv _ E); apply write_tmict_get|].
  destruct (Z.eqb_spec reg APIC_TDCR) as [->|H12]; [intros E [= <- <-]; refine (vcpu_holds i _ s v _ _ 0 s' Hv _ E); apply write_tdcr_get|].
  destruct (Z.eqb_spec reg APIC_ESR) as [->|H13]; [done|]. destruct (Z.eqb_spec reg APIC_SELF_IPI) as [->|H14]; [|done].
  intros E [= <- <-]. destruct (apic_x2apic_mode v); [|done]. rewrite <- self_bits. apply (icr_holds i _ s v 0); [done| |done|done].
  apply lor_word; [done|]. apply land_word_l, Hw.
Qed.

Lemma write_esr {D} (irq_acked : Z -> vm D -> res (vm D)) c i val s v r s' : vcpus (ibus s) !! i = Some v ->
  apic_reg_write irq_acked c i APIC_ESR val s = Ok (r, s') -> s' = s.
Proof.
  intros Hv. unfold apic_reg_write. rewrite (vcpu_at_Some _ _ _ Hv). cbn [mbind res_bind]. rewrite bool_decide_false by (by apply (bool_decide_unpack _); vm_compute).
  cbn. by intros [= _ <-].
Qed.

Lemma stored_some v reg val : write_refused (apic_x2apic_mode v) reg val = false -> reg <> APIC_ESR -> reg <> APIC_EOI -> exists r x, stored v reg val = Some (r, x).
Proof.
  unfold write_refused. intros [Hw%negb_false_iff%bool_decide_eq_true _]%orb_false_iff H1 H2. unfold writable in Hw.
  destruct (apic_x2apic_mode v) eqn:Ex; repeat (apply elem_of_cons in Hw as [->|Hw]; [first [done | unfold stored; rewrite ?Ex; do 2 eexists; reflexivity]|]); by apply elem_of_nil in Hw.
Qed.

(** The end of an interrupt: the highest vector in service leaves it, the I/O
    APIC is told, and the processor looks for interrupts. *)
Definition interrupt_ended {D} (irq_acked : Z -> vm D -> res (vm D)) (i : nat) (v : kvm_vcpu) (s s' : vm D) : Prop :=
  exists vec v1, is_highest (apic v) APIC_ISR vec 256 /\
    (forall w b, is_bitmap b -> is_vector w -> apic_test_vector (apic v1) w b = if decide (b = APIC_ISR /\ w = vec) then false else apic_test_vector (apic v) w b) /\
    ((vec = - 1 /\ s' = s) \/ exists s1, kvm_ioapic_send_eoi irq_acked i vec (with_bus (with_vcpus (<[i := v1]> (vcpus (ibus s))) (ibus s)) s) = Ok s1 /\
       on_ibus (on_vcpu i request_event) s1 = Ok s').

Lemma write_ends `{Hinv : DeviceInv D} (irq_acked : Z -> vm D -> res (vm D)) c i val s v s' : vm_ok s -> vcpus (ibus s) !! i = Some v ->
  apic_reg_write irq_acked c i APIC_EOI val s = Ok (0, s') -> interrupt_ended irq_acked i v s s'.
Proof.
  intros Hs Hv. unfold apic_reg_write. rewrite (vcpu_at_Some _ _ _ Hv). cbn [mbind res_bind].
  change (APIC_EOI =? APIC_ID) with false. change (APIC_EOI =? APIC_TASKPRI) with false. change (APIC_EOI =? APIC_EOI) with true. cbv iota.
  unfold apic_set_eoi. rewrite (vcpu_at_Some _ _ _ Hv). cbn [mbind res_bind].
  destruct (retire_spec v (vcpu_ok_at s i v Hs Hv)) as (vec & v1 & -> & _ & _ & _ & Hh & _ & Hb). cbn [mbind res_bind]. intros E. exists vec, v1.
  split; [done|]. split; [done|]. destruct (Z.eqb_spec vec (- 1)) as [->|_]; [left; by injection E as <-|right].
  destruct (on_ibus_vcpu i (fun _ => v1) s v Hv) as [E1 _]. rewrite E1 in E. cbn [mbind res_bind] in E.
  destruct (kvm_ioapic_send_eoi irq_acked i vec _) as [s1|]; [|done]. cbn [mbind res_bind] in E. exists s1. split; [done|].
  destruct (on_ibus (on_vcpu i request_event) s1) as [s2|]; [|done]. by injection E as <-.
Qed.

(** C36: Accesses to the registers of the local APIC that it refuses have no
    effect, and these are exactly: a read that crosses a register's four bytes
    or names a register that is not readable, and a write of a register that
    is not writable in the APIC's mode or, in x2APIC mode, of another value
    than 0 to the error register.  Every other write of a word succeeds.  The
    register then holds the bits of it that can be written, except that the
    initial count keeps its value in deadline mode; a write of the error
    register changes nothing; a write of the end-of-interrupt register ends
    the highest interrupt in service.  The messages and timers that writes
    start are not part of this. *)
Theorem apic_access_refused `{Hinv : DeviceInv D} (irq_acked : Z -> vm D -> res (vm D)) c i s v : DeviceNotifier irq_acked ->
  vm_ok s -> vcpus (ibus s) !! i = Some v ->
  (forall offset len, 0 <= offset ->
     ((apic_reg_read c offset len v).1 = None <-> 4 < offset mod 16 + len \/ 16 * (offset / 16) ∉ readable) /\
     ((apic_reg_read c offset len v).1 = None -> (apic_reg_read c offset len v).2 = v)) /\
  (forall reg val, word_ok val -> exists r s', apic_reg_write irq_acked c i reg val s = Ok (r, s') /\ vm_good s s' /\
     r = Z.b2z (write_refused (apic_x2apic_mode v) reg val) /\
     if write_refused (apic_x2apic_mode v) reg val || (reg =? APIC_ESR) then s' = s
     else if reg =? APIC_EOI then interrupt_ended irq_acked i v s s'
     else exists r0 x, stored v reg val = Some (r0, x) /\ holds i r0 x s').
Proof.
  intros Hack Hs Hv. split; [intros offset len; apply apic_read_refused|]. intros reg val Hval.
  destruct (apic_reg_write_fun irq_acked _ c i reg val (lookup_lt_Some _ _ _ Hv) Hval s Hs eq_refl) as (r & s' & E & Hg).
  exists r, s'. split; [done|]. split; [done|]. destruct (write_refused_iff irq_acked c i reg val s v r s' Hv E) as [Hr H1]. split; [done|].
  destruct (write_refused _ _ _) eqn:Ew; cbn [orb]; [by apply H1|]. subst r. destruct (Z.eqb_spec reg APIC_ESR) as [->|Hne].
  - exact (write_esr irq_acked c i val s v _ s' Hv E).
  - destruct (Z.eqb_spec reg APIC_EOI) as [->|He]; [by apply (write_ends irq_acked c i val)|].
    destruct (stored_some v reg val Ew Hne He) as (r0 & x & Est). exists r0, x. split; [done|]. by apply (write_stores irq_acked c i reg val s v).
Qed.

(** The version cannot be written; the task priority keeps its low byte. *)
Lemma apic_access_refused_witness :
  (apic_reg_read (Clock 0 0 0 0) APIC_EOI 4 (flat_vcpu 0)).1 = None /\
  (exists s', apic_reg_write (fun _ s => Ok s) (Clock 0 0 0 0) 0 APIC_LVR 5 demo_vm = Ok (1, s') /\ s' = demo_vm) /\
  exists s', apic_reg_write (fun _ s => Ok s) (Clock 0 0 0 0) 0 APIC_TASKPRI 0x120 demo_vm = Ok (0, s') /\ holds 0 APIC_TASKPRI 0x20 s'.
Proof.
  destruct (apic_access_refused (fun _ s => Ok s) (Clock 0 0 0 0) 0 demo_vm (flat_vcpu 0)) as [Hr Hw].
  - intros gsi s Hs. eexists. split; [reflexivity|by apply vm_good_refl].
  - apply demo_vm_ok.
  - reflexivity.
  - split; [apply Hr; [done|]; right; apply (bool_decide_unpack _); vm_compute; exact I|]. split.
    + destruct (Hw APIC_LVR 5) as (r & s' & E & _ & Er & Hs'); [by vm_compute|]. exists s'.
      assert (r = 1) as -> by (rewrite Er; by vm_compute). split; [exact E|exact Hs'].
    + destruct (Hw APIC_TASKPRI 0x120) as (r & s' & E & _ & Er & Hs'); [by vm_compute|]. exists s'.
      assert (r = 0) as -> by (rewrite Er; by vm_compute). split; [exact E|].
      replace (write_refused _ _ _ || _) with false in Hs' by (vm_compute; reflexivity). destruct Hs' as (r0 & x & Est & Hh).
      assert (Es : stored (flat_vcpu 0) APIC_TASKPRI 0x120 = Some (APIC_TASKPRI, 0x20)) by (vm_compute; reflexivity). rewrite Es in Est. injection Est as <- <-. exact Hh.
Defined.
