(* ===== verification/I8254.v ===== *)
(** * The interval timer (kvm-kmod x86/i8254.c, x86/x86.c)

    Three counters programmed through ports, the timer and the worker thread
    that turn the first one into interrupts, and the speaker port; a device
    of the interrupt machine, whose acknowledgements it counts. *)

From S2P Require Import Prelude I8259 Lapic ApicBus IoApic IrqRouting IrqVm.

Definition RW_STATE_LSB : Z := 1.
Definition RW_STATE_MSB : Z := 2.
Definition RW_STATE_WORD0 : Z := 3.
Definition RW_STATE_WORD1 : Z := 4.
Definition KVM_PIT_BASE_ADDRESS : Z := 0x40.
Definition KVM_SPEAKER_BASE_ADDRESS : Z := 0x61.
Definition KVM_PIT_MEM_LENGTH : Z := 4.
Definition KVM_PIT_FREQ : Z := 1193181.
Definition KVM_PIT_CHANNEL_MASK : Z := 3.
Definition KVM_PIT_FLAGS_HPET_LEGACY : Z := 1.
Definition KVM_PIT_SPEAKER_DUMMY : Z := 1.
Definition NSEC_PER_SEC : Z := 1000000000.

Definition s64 (z : Z) : Z := (z + 2 ^ 63) mod 2 ^ 64 - 2 ^ 63.

(** Division of 64-bit numbers; by 0 it is an error. *)
Definition div64_u64 (x y : Z) : res Z := if y =? 0 then Err BadArith else Ok (x / y).
Definition mod_64 (x y : Z) : res Z := if y =? 0 then Err BadArith else Ok (Z.rem x y).

Definition muldiv64 (a b c : Z) : res Z :=
  let low := u32 a in
  let high := u32 (Z.shiftr a 32) in
  let rl := u64 (low * b) in
  let rh := u64 (high * b) in
  let rh := u64 (rh + Z.shiftr rl 32) in
  res_high ← div64_u64 rh c;
  m ← mod_64 rh c;
  res_low ← div64_u64 (u64 (u64 (Z.shiftl m 32) + Z.land rl 0xffffffff)) c;
  Ok (u32 res_low + Z.shiftl (u32 res_high) 32).

(** ** State *)

Record kvm_kpit_channel_state := Channel {
  count : Z; latched_count : Z; count_latched : Z; status_latched : Z; status : Z; read_state : Z;
  write_state : Z; write_latch : Z; rw_mode : Z; mode : Z; bcd : Z; gate : Z; count_load_time : Z
}.

(** [timer_expires] and [timer_queued] are the hrtimer, [work_queued] says
    whether the worker thread has the expired work to do. *)
Record kvm_pit := Pit {
  channels : list kvm_kpit_channel_state; pit_flags : Z; is_periodic : bool; pit_period : Z;
  timer_expires : Z; timer_queued : bool; pit_pending : Z; reinject : bool; speaker_data_on : Z;
  irq_ack : bool; work_queued : bool; irq_source_id : Z
}.

Definition with_channels (cs : list kvm_kpit_channel_state) (p : kvm_pit) : kvm_pit :=
  Pit cs (pit_flags p) (is_periodic p) (pit_period p) (timer_expires p) (timer_queued p) (pit_pending p) (reinject p)
    (speaker_data_on p) (irq_ack p) (work_queued p) (irq_source_id p).
Definition with_flags (f : Z) (p : kvm_pit) : kvm_pit :=
  Pit (channels p) f (is_periodic p) (pit_period p) (timer_expires p) (timer_queued p) (pit_pending p) (reinject p)
    (speaker_data_on p) (irq_ack p) (work_queued p) (irq_source_id p).
Definition with_mode (periodic : bool) (period : Z) (p : kvm_pit) : kvm_pit :=
  Pit (channels p) (pit_flags p) periodic period (timer_expires p) (timer_queued p) (pit_pending p) (reinject p)
    (speaker_data_on p) (irq_ack p) (work_queued p) (irq_source_id p).
Definition with_hrtimer (expires : Z) (queued : bool) (p : kvm_pit) : kvm_pit :=
  Pit (channels p) (pit_flags p) (is_periodic p) (pit_period p) expires queued (pit_pending p) (reinject p)
    (speaker_data_on p) (irq_ack p) (work_queued p) (irq_source_id p).
Definition with_pending (n : Z) (ack work : bool) (p : kvm_pit) : kvm_pit :=
  Pit (channels p) (pit_flags p) (is_periodic p) (pit_period p) (timer_expires p) (timer_queued p) n (reinject p)
    (speaker_data_on p) ack work (irq_source_id p).
Definition with_reinject (b : bool) (p : kvm_pit) : kvm_pit :=
  Pit (channels p) (pit_flags p) (is_periodic p) (pit_period p) (timer_expires p) (timer_queued p) (pit_pending p) b
    (speaker_data_on p) (irq_ack p) (work_queued p) (irq_source_id p).
Definition with_speaker (v : Z) (p : kvm_pit) : kvm_pit :=
  Pit (channels p) (pit_flags p) (is_periodic p) (pit_period p) (timer_expires p) (timer_queued p) (pit_pending p) (reinject p)
    v (irq_ack p) (work_queued p) (irq_source_id p).

Definition channel (i : Z) (p : kvm_pit) : res kvm_kpit_channel_state :=
  match channels p !! Z.to_nat i with Some c => Ok c | None => Err BufferOverflow end.
Definition set_channel (i : Z) (c : kvm_kpit_channel_state) (p : kvm_pit) : kvm_pit :=
  with_channels (<[Z.to_nat i := c]> (channels p)) p.

(** ** Counters *)

Definition pit_set_gate (now val : Z) (c : kvm_kpit_channel_state) : kvm_kpit_channel_state :=
  let restart := bool_decide (mode c ∈ [1; 2; 3; 5]) && (gate c <? val) in
  Channel (count c) (latched_count c) (count_latched c) (status_latched c) (status c) (read_state c) (write_state c)
    (write_latch c) (rw_mode c) (mode c) (bcd c) (u8 val) (if restart then now else count_load_time c).

Definition __kpit_elapsed (now : Z) (p : kvm_pit) : Z :=
  if pit_period p =? 0 then 0 else pit_period p - (timer_expires p - now).

Definition kpit_elapsed (now channel : Z) (c : kvm_kpit_channel_state) (p : kvm_pit) : Z :=
  if channel =? 0 then __kpit_elapsed now p else now - count_load_time c.

(** The counter's ticks. *)
Definition ticks (now channel : Z) (c : kvm_kpit_channel_state) (p : kvm_pit) : res Z :=
  d ← muldiv64 (u64 (kpit_elapsed now channel c p)) KVM_PIT_FREQ NSEC_PER_SEC;
  Ok (s64 d).

Definition pit_get_count (now i : Z) (p : kvm_pit) : res Z :=
  c ← channel i p;
  d ← ticks now i c p;
  if bool_decide (mode c ∈ [0; 1; 4; 5]) then Ok (Z.land (s64 (count c - d)) 0xffff)
  else if mode c =? 3 then m ← mod_64 (s64 (2 * d)) (count c); Ok (s32 (count c - m))
  else m ← mod_64 d (count c); Ok (s32 (count c - m)).

Definition pit_get_out (now i : Z) (p : kvm_pit) : res Z :=
  c ← channel i p;
  d ← ticks now i c p;
  if mode c =? 1 then Ok (Z.b2z (d <? count c))
  else if mode c =? 2 then m ← mod_64 d (count c); Ok (Z.b2z ((m =? 0) && negb (d =? 0)))
  else if mode c =? 3 then m ← mod_64 d (count c); Ok (Z.b2z (m <? Z.shiftr (u32 (count c + 1)) 1))
  else if (mode c =? 4) || (mode c =? 5) then Ok (Z.b2z (d =? count c))
  else Ok (Z.b2z (count c <=? d)).

Definition pit_latch_count (now i : Z) (p : kvm_pit) : res kvm_pit :=
  c ← channel i p;
  if negb (count_latched c =? 0) then Ok p
  else
    n ← pit_get_count now i p;
    Ok (set_channel i (Channel (count c) (u16 n) (rw_mode c) (status_latched c) (status c) (read_state c) (write_state c)
                         (write_latch c) (rw_mode c) (mode c) (bcd c) (gate c) (count_load_time c)) p).

Definition pit_latch_status (now i : Z) (p : kvm_pit) : res kvm_pit :=
  c ← channel i p;
  if negb (status_latched c =? 0) then Ok p
  else
    out ← pit_get_out now i p;
    let st := u8 (Z.lor (Z.lor (Z.lor (Z.shiftl out 7) (Z.shiftl (rw_mode c) 4)) (Z.shiftl (mode c) 1)) (bcd c)) in
    Ok (set_channel i (Channel (count c) (latched_count c) (count_latched c) 1 st (read_state c) (write_state c)
                         (write_latch c) (rw_mode c) (mode c) (bcd c) (gate c) (count_load_time c)) p).

(** ** Interrupts *)

Definition kvm_pit_ack_irq (p : kvm_pit) : kvm_pit :=
  let value := s32 (pit_pending p - 1) in
  if value <? 0 then with_pending (pit_pending p) true (work_queued p) p
  else with_pending value true (if 0 <? value then true else work_queued p) p.

Definition pit_mask_notifer (mask : bool) (p : kvm_pit) : kvm_pit :=
  if mask then p else with_pending 0 true (work_queued p) p.

(** The timer's notifiers are registered for interrupt 0. *)
Definition pit_notifiers : notifiers kvm_pit :=
  Notifiers (fun gsi mask p => if gsi =? 0 then pit_mask_notifer mask p else p)
    (fun gsi p => if gsi =? 0 then kvm_pit_ack_irq p else p).

Definition pit (s : vm kvm_pit) : kvm_pit := device (dev s).
Definition on_pit (f : kvm_pit -> kvm_pit) (s : vm kvm_pit) : vm kvm_pit := on_dev (fun d => with_device (f (device d)) d) s.

Definition pit_irq_acked (gsi : Z) (s : vm kvm_pit) : res (vm kvm_pit) := Ok (on_pit (acked_fun pit_notifiers gsi) s).

Definition kvm_apic_nmi_wd_deliver (v : kvm_vcpu) : kvm_vcpu := (kvm_apic_local_deliver v APIC_LVT0).2.

(** The interrupt is raised and lowered, and given to the processors whose
    local interrupt 0 is a non-maskable one. *)
Definition pit_inject (s : vm kvm_pit) : res (vm kvm_pit) :=
  '(_, s) ← kvm_set_irq pit_notifiers (irq_source_id (pit s)) 0 true false s;
  '(_, s) ← kvm_set_irq pit_notifiers (irq_source_id (pit s)) 0 false false s;
  Ok (if 0 <? vapics_in_nmi_mode (dev s)
      then with_bus (with_vcpus (kvm_apic_nmi_wd_deliver <$> vcpus (ibus s)) (ibus s)) s else s).

Definition pit_do_work (s : vm kvm_pit) : res (vm kvm_pit) :=
  if irq_ack (pit s)
  then pit_inject (on_pit (fun p => with_pending (pit_pending p) false (work_queued p) p) s)
  else Ok s.

(** The worker thread takes the work it was given, if any. *)
Definition run_work (s : vm kvm_pit) : res (vm kvm_pit) :=
  if work_queued (pit s)
  then pit_do_work (on_pit (fun p => with_pending (pit_pending p) (irq_ack p) false p) s)
  else Ok s.

(** [flush_kthread_work]: wait until the work is done. *)
Definition flush_kthread_work (s : vm kvm_pit) : res (vm kvm_pit) := run_work s.

(** The timer expired. *)
Definition pit_timer_fn (p : kvm_pit) : kvm_pit :=
  let p := if reinject p || (pit_pending p =? 0) then with_pending (s32 (pit_pending p + 1)) (irq_ack p) true p else p in
  if is_periodic p then with_hrtimer (timer_expires p + pit_period p) true p
  else with_hrtimer (timer_expires p) false p.

(** ** Programming *)

(** What the host gives: the time and the module parameter. *)
Record host := Host { host_now : Z; host_min_period_us : Z }.

Definition create_pit_timer (h : host) (val : Z) (is_period : bool) (s : vm kvm_pit) : res (vm kvm_pit) :=
  if negb (Z.land (pit_flags (pit s)) KVM_PIT_FLAGS_HPET_LEGACY =? 0) then Ok s
  else
    interval ← muldiv64 val NSEC_PER_SEC KVM_PIT_FREQ;
    let interval := s64 interval in
    s ← flush_kthread_work (on_pit (fun p => with_hrtimer (timer_expires p) false p) s);
    let min_period := host_min_period_us h * 1000 in
    let period := if is_period && (interval <? min_period) then min_period else interval in
    Ok (on_pit (fun p => with_hrtimer (host_now h + interval) true
                 (with_pending 0 true (work_queued p) (with_mode is_period period p))) s).

Definition destroy_pit_timer (s : vm kvm_pit) : res (vm kvm_pit) :=
  flush_kthread_work (on_pit (fun p => with_hrtimer (timer_expires p) false p) s).

Definition set_count (n : Z) (c : kvm_kpit_channel_state) : kvm_kpit_channel_state :=
  Channel n (latched_count c) (count_latched c) (status_latched c) (status c) (read_state c) (write_state c)
    (write_latch c) (rw_mode c) (mode c) (bcd c) (gate c) (count_load_time c).
Definition set_load_time (t : Z) (c : kvm_kpit_channel_state) : kvm_kpit_channel_state :=
  Channel (count c) (latched_count c) (count_latched c) (status_latched c) (status c) (read_state c) (write_state c)
    (write_latch c) (rw_mode c) (mode c) (bcd c) (gate c) t.

Definition pit_load_count (h : host) (i val : Z) (s : vm kvm_pit) : res (vm kvm_pit) :=
  let val := if val =? 0 then 0x10000 else val in
  c ← channel i (pit s);
  let c := set_count val c in
  if negb (i =? 0) then Ok (on_pit (set_channel i (set_load_time (host_now h) c)) s)
  else
    let s := on_pit (set_channel i c) s in
    if bool_decide (mode c ∈ [0; 1; 4]) then create_pit_timer h val false s
    else if bool_decide (mode c ∈ [2; 3]) then create_pit_timer h val true s
    else destroy_pit_timer s.

Definition set_mode (m : Z) (c : kvm_kpit_channel_state) : kvm_kpit_channel_state :=
  Channel (count c) (latched_count c) (count_latched c) (status_latched c) (status c) (read_state c) (write_state c)
    (write_latch c) (rw_mode c) m (bcd c) (gate c) (count_load_time c).

(** With [hpet_legacy_start] the first counter is loaded in a mode that has
    no timer. *)
Definition kvm_pit_load_count (h : host) (i val : Z) (hpet_legacy_start : bool) (s : vm kvm_pit) : res (vm kvm_pit) :=
  if hpet_legacy_start then
    c ← channel 0 (pit s);
    s ← pit_load_count h i val (on_pit (set_channel 0 (set_mode 0xff c)) s);
    c' ← channel 0 (pit s);
    Ok (on_pit (set_channel 0 (set_mode (mode c) c')) s)
  else pit_load_count h i val s.

(** ** Ports *)

Definition pit_in_range (addr : Z) : bool :=
  (KVM_PIT_BASE_ADDRESS <=? addr) && (addr <? KVM_PIT_BASE_ADDRESS + KVM_PIT_MEM_LENGTH).

(** The read-back command for one counter. *)
Definition read_back (now val i : Z) (p : kvm_pit) : res kvm_pit :=
  if negb (Z.land val (Z.shiftl 2 i) =? 0) then
    p ← (if Z.land val 0x20 =? 0 then pit_latch_count now i p else Ok p);
    if Z.land val 0x10 =? 0 then pit_latch_status now i p else Ok p
  else Ok p.

(** The control word that selects a counter's mode. *)
Definition select_mode (val : Z) (c : kvm_kpit_channel_state) : kvm_kpit_channel_state :=
  let access := Z.land (Z.shiftr val 4) KVM_PIT_CHANNEL_MASK in
  let m := Z.land (Z.shiftr val 1) 7 in
  Channel (count c) (latched_count c) (count_latched c) (status_latched c) (status c) access access
    (write_latch c) access (if 5 <? m then m - 4 else m) (Z.land val 1) (gate c) (count_load_time c).

Definition write_control (now val : Z) (p : kvm_pit) : res kvm_pit :=
  let i := Z.shiftr val 6 in
  if i =? 3 then
    p ← read_back now val 0 p;
    p ← read_back now val 1 p;
    read_back now val 2 p
  else if Z.land (Z.shiftr val 4) KVM_PIT_CHANNEL_MASK =? 0 then pit_latch_count now i p
  else c ← channel i p; Ok (set_channel i (select_mode val c) p).

Definition set_write (latch state : Z) (c : kvm_kpit_channel_state) : kvm_kpit_channel_state :=
  Channel (count c) (latched_count c) (count_latched c) (status_latched c) (status c) (read_state c) state
    latch (rw_mode c) (mode c) (bcd c) (gate c) (count_load_time c).

Definition write_count (h : host) (i val : Z) (s : vm kvm_pit) : res (vm kvm_pit) :=
  c ← channel i (pit s);
  if write_state c =? RW_STATE_MSB then pit_load_count h i (Z.shiftl val 8) s
  else if write_state c =? RW_STATE_WORD0 then Ok (on_pit (set_channel i (set_write val RW_STATE_WORD1 c)) s)
  else if write_state c =? RW_STATE_WORD1 then
    s ← pit_load_count h i (Z.lor (write_latch c) (Z.shiftl val 8)) s;
    c ← channel i (pit s);
    Ok (on_pit (set_channel i (set_write (write_latch c) RW_STATE_WORD0 c)) s)
  else pit_load_count h i val s.

(** [data] is the 32-bit word the value is taken from. *)
Definition pit_ioport_write (h : host) (addr data : Z) (s : vm kvm_pit) : res (Z * vm kvm_pit) :=
  if negb (pit_in_range addr) then Ok (- EOPNOTSUPP, s)
  else
    let val := Z.land data 0xff in
    let addr := Z.land addr KVM_PIT_CHANNEL_MASK in
    s ← (if addr =? 3 then p ← write_control (host_now h) val (pit s); Ok (on_pit (fun _ => p) s)
         else write_count h addr val s);
    Ok (0, s).

Definition set_latches (cl sl rs : Z) (c : kvm_kpit_channel_state) : kvm_kpit_channel_state :=
  Channel (count c) (latched_count c) cl sl (status c) rs (write_state c)
    (write_latch c) (rw_mode c) (mode c) (bcd c) (gate c) (count_load_time c).

(** The value of a counter's port, and the counter after the read. *)
Definition read_channel (now i : Z) (p : kvm_pit) : res (Z * kvm_kpit_channel_state) :=
  c ← channel i p;
  if negb (status_latched c =? 0) then Ok (status c, set_latches (count_latched c) 0 (read_state c) c)
  else if negb (count_latched c =? 0) then
    if count_latched c =? RW_STATE_MSB then Ok (Z.shiftr (latched_count c) 8, set_latches 0 0 (read_state c) c)
    else if count_latched c =? RW_STATE_WORD0
    then Ok (Z.land (latched_count c) 0xff, set_latches RW_STATE_MSB 0 (read_state c) c)
    else Ok (Z.land (latched_count c) 0xff, set_latches 0 0 (read_state c) c)
  else
    n ← pit_get_count now i p;
    if read_state c =? RW_STATE_MSB then Ok (Z.land (Z.shiftr n 8) 0xff, c)
    else if read_state c =? RW_STATE_WORD0 then Ok (Z.land n 0xff, set_latches 0 0 RW_STATE_WORD1 c)
    else if read_state c =? RW_STATE_WORD1 then Ok (Z.land (Z.shiftr n 8) 0xff, set_latches 0 0 RW_STATE_WORD0 c)
    else Ok (Z.land n 0xff, c).

(** The bytes of a C int copied to a buffer of some length. *)
Definition int_bytes (len ret : Z) : Z := Z.land ret (Z.ones (8 * Z.min len 4)).

(** Nothing is copied for the control port. *)
Definition pit_ioport_read (now addr len : Z) (p : kvm_pit) : res (Z * option Z * kvm_pit) :=
  if negb (pit_in_range addr) then Ok (- EOPNOTSUPP, None, p)
  else
    let addr := Z.land addr KVM_PIT_CHANNEL_MASK in
    if addr =? 3 then Ok (0, None, p)
    else
      '(ret, c) ← read_channel now addr p;
      Ok (0, Some (int_bytes len ret), set_channel addr c p).

Definition speaker_ioport_write (now addr val : Z) (p : kvm_pit) : res (Z * kvm_pit) :=
  if negb (addr =? KVM_SPEAKER_BASE_ADDRESS) then Ok (- EOPNOTSUPP, p)
  else
    let p := with_speaker (Z.land (Z.shiftr val 1) 1) p in
    c ← channel 2 p;
    Ok (0, set_channel 2 (pit_set_gate now (Z.land val 1) c) p).

Definition speaker_ioport_read (now addr len : Z) (p : kvm_pit) : res (Z * option Z) :=
  if negb (addr =? KVM_SPEAKER_BASE_ADDRESS) then Ok (- EOPNOTSUPP, None)
  else
    let refresh_clock := Z.land (Z.shiftr (u32 now) 14) 1 in
    c ← channel 2 p;
    out ← pit_get_out now 2 p;
    Ok (0, Some (int_bytes len (Z.lor (Z.lor (Z.lor (Z.shiftl (speaker_data_on p) 1) (gate c)) (Z.shiftl out 5))
                                  (Z.shiftl refresh_clock 4)))).

(** ** Reset, creation and the saved state *)

Definition set_gate (g : Z) (c : kvm_kpit_channel_state) : kvm_kpit_channel_state :=
  Channel (count c) (latched_count c) (count_latched c) (status_latched c) (status c) (read_state c) (write_state c)
    (write_latch c) (rw_mode c) (mode c) (bcd c) g (count_load_time c).

Definition reset_channel (h : host) (i : Z) (s : vm kvm_pit) : res (vm kvm_pit) :=
  c ← channel i (pit s);
  pit_load_count h i 0 (on_pit (set_channel i (set_gate (Z.b2z (negb (i =? 2))) (set_mode 0xff c))) s).

Definition kvm_pit_reset (h : host) (s : vm kvm_pit) : res (vm kvm_pit) :=
  let s := on_pit (with_flags 0) s in
  s ← reset_channel h 0 s;
  s ← reset_channel h 1 s;
  s ← reset_channel h 2 s;
  Ok (on_pit (fun p => with_pending 0 true (work_queued p) p) s).

Fixpoint remove_first (gsi : Z) (l : list Z) : list Z :=
  match l with
  | [] => []
  | g :: l => if g =? gsi then l else g :: remove_first gsi l
  end.

(** A notifier is known by the interrupt it was registered for. *)
Definition kvm_unregister_irq_ack_notifier {D} (gsi : Z) (s : vm D) : vm D :=
  let s := on_dev (fun d => with_ack_gsis (remove_first gsi (ack_gsis d)) d) s in
  with_bus (kvm_vcpu_request_scan_ioapic (ibus s)) s.

Definition no_channel : kvm_kpit_channel_state := Channel 0 0 0 0 0 0 0 0 0 0 0 0 0.
Definition new_pit (id : Z) : kvm_pit := Pit (replicate 3 no_channel) 0 false 0 0 false 0 true 0 false false id.

(** What the host answers when a timer is created: there is memory, the
    worker thread runs, the ports are registered. *)
Record host_ok := HostOk { pit_alloc_ok : bool; worker_ok : bool; dev_bus_ok : bool; speaker_bus_ok : bool }.

(** The result says whether there is a timer now; [pit] of the result
    means nothing when there is none. *)
Definition kvm_create_pit (o : host_ok) (h : host) (flags : Z) (s : vm kvm_pit) : res (bool * vm kvm_pit) :=
  if negb (pit_alloc_ok o) then Ok (false, s) else
  let '(id, s) := kvm_request_irq_source_id s in
  if id <? 0 then Ok (false, s)
  else if negb (worker_ok o) then Ok (false, kvm_free_irq_source_id pit_notifiers id s)
  else
    let s := on_pit (fun _ => new_pit id) s in
    s ← kvm_pit_reset h (kvm_register_irq_ack_notifier 0 s);
    if negb (dev_bus_ok o) || (negb (Z.land flags KVM_PIT_SPEAKER_DUMMY =? 0) && negb (speaker_bus_ok o))
    then Ok (false, kvm_free_irq_source_id pit_notifiers id (kvm_unregister_irq_ack_notifier 0 s))
    else Ok (true, s).

Definition kvm_free_pit (s : vm kvm_pit) : res (vm kvm_pit) :=
  let s := kvm_unregister_irq_ack_notifier 0 s in
  s ← flush_kthread_work (on_pit (fun p => with_hrtimer (timer_expires p) false p) s);
  Ok (kvm_free_irq_source_id pit_notifiers (irq_source_id (pit s)) s).

Definition kvm_vm_ioctl_get_pit (s : vm kvm_pit) : list kvm_kpit_channel_state := channels (pit s).

(** [ps] holds the three counters. *)
Definition kvm_vm_ioctl_set_pit (h : host) (ps : list kvm_kpit_channel_state) (s : vm kvm_pit) : res (vm kvm_pit) :=
  let s := on_pit (with_channels ps) s in
  c ← channel 0 (pit s);
  kvm_pit_load_count h 0 (count c) false s.

Definition kvm_vm_ioctl_get_pit2 (s : vm kvm_pit) : list kvm_kpit_channel_state * Z :=
  (channels (pit s), pit_flags (pit s)).

Definition kvm_vm_ioctl_set_pit2 (h : host) (ps : list kvm_kpit_channel_state * Z) (s : vm kvm_pit) : res (vm kvm_pit) :=
  let prev_legacy := Z.land (pit_flags (pit s)) KVM_PIT_FLAGS_HPET_LEGACY in
  let cur_legacy := Z.land ps.2 KVM_PIT_FLAGS_HPET_LEGACY in
  let start := (prev_legacy =? 0) && negb (cur_legacy =? 0) in
  let s := on_pit (fun p => with_flags ps.2 (with_channels ps.1 p)) s in
  c ← channel 0 (pit s);
  kvm_pit_load_count h 0 (count c) start s.

Definition kvm_vm_ioctl_reinject (b : bool) (s : vm kvm_pit) : vm kvm_pit := on_pit (with_reinject b) s.

(** ** The timer stays consistent *)

(** A counter has a count, and its latches hold what they are wide enough
    for. *)
Record chan_ok (c : kvm_kpit_channel_state) : Prop := {
  co_count : 0 < count c < 2 ^ 32;
  co_latched : 0 <= latched_count c < 2 ^ 16;
  co_status : 0 <= status c < 2 ^ 8;
  co_write : 0 <= write_latch c < 2 ^ 8
}.

(** [po_work]: an interrupt that waits while none is in flight is given to
    the worker thread; none is forgotten. *)
Record pit_ok (p : kvm_pit) : Prop := {
  po_length : length (channels p) = 3%nat;
  po_channels : Forall chan_ok (channels p);
  po_source : 0 <= irq_source_id p < 64;
  po_period : is_periodic p = true -> 0 < pit_period p;
  po_pending : - 2 ^ 31 <= pit_pending p < 2 ^ 31;
  po_work : irq_ack p = true -> 0 < pit_pending p -> work_queued p = true
}.

#[export] Instance pit_inv : DeviceInv kvm_pit := pit_ok.

Lemma s32_range x : - 2 ^ 31 <= s32 x < 2 ^ 31.
Proof. unfold s32. pose proof (Z.mod_pos_bound (x + 2 ^ 31) (2 ^ 32)). lia. Qed.

Lemma s32_id x : - 2 ^ 31 <= x < 2 ^ 31 -> s32 x = x.
Proof. intros Hx. unfold s32. rewrite Z.mod_small; lia. Qed.

(** What does not change the counters, nor lose an interrupt. *)
Lemma pit_ok_pending n ack work p : pit_ok p -> - 2 ^ 31 <= n < 2 ^ 31 -> (ack = true -> 0 < n -> work = true) ->
  pit_ok (with_pending n ack work p).
Proof. intros [] Hn H. by split. Qed.

Lemma pit_ok_none work p : pit_ok p -> pit_ok (with_pending 0 true work p).
Proof. intros Hp. apply pit_ok_pending; [done|lia|]. intros _ H. lia. Qed.

Lemma pit_ok_hrtimer t q p : pit_ok p -> pit_ok (with_hrtimer t q p).
Proof. intros []. by split. Qed.

Lemma pit_ok_channels cs p : pit_ok p -> length cs = 3%nat -> Forall chan_ok cs -> pit_ok (with_channels cs p).
Proof. intros [] Hl Hc. by split. Qed.

Lemma pit_ok_set_channel i c p : pit_ok p -> chan_ok c -> pit_ok (set_channel i c p).
Proof.
  intros Hp Hc. apply pit_ok_channels; [done|rewrite length_insert; apply Hp|]. apply Forall_insert; [apply Hp|done].
Qed.
Create HintDb pit.
#[export] Hint Resolve pit_ok_none pit_ok_hrtimer pit_ok_set_channel : pit.

Lemma ack_irq_ok p : pit_ok p -> pit_ok (kvm_pit_ack_irq p).
Proof.
  intros Hp. pose proof (po_pending _ Hp) as Hr. unfold kvm_pit_ack_irq. pose proof (s32_range (pit_pending p - 1)) as Hv.
  destruct (Z.ltb_spec (s32 (pit_pending p - 1)) 0) as [Hneg|Hpos]; apply pit_ok_pending; try done.
  - intros _ Hp0. rewrite s32_id in Hneg by lia. lia.
  - intros _ Hp0. by rewrite (proj2 (Z.ltb_lt _ _) Hp0).
Qed.

Lemma mask_notifer_ok mask p : pit_ok p -> pit_ok (pit_mask_notifer mask p).
Proof. intros Hp. unfold pit_mask_notifer. destruct mask; auto with pit. Qed.

Lemma timer_fn_ok p : pit_ok p -> pit_ok (pit_timer_fn p).
Proof.
  intros Hp. unfold pit_timer_fn. set (p1 := if reinject p || _ then _ else p). assert (H1 : pit_ok p1).
  { unfold p1. destruct (_ || _); [|done]. apply pit_ok_pending; [done|apply s32_range|done]. }
  destruct (is_periodic p1); auto with pit.
Qed.

#[export] Instance pit_notifiers_ok : NotifiersOk pit_notifiers.
Proof.
  split; cbn; [intros gsi mask p Hp|intros gsi p Hp]; destruct (gsi =? 0); try done.
  - by apply mask_notifer_ok.
  - by apply ack_irq_ok.
Qed.

Lemma pit_good f (s : vm kvm_pit) : vm_ok s -> pit_ok (f (pit s)) -> vm_good s (on_pit f s).
Proof. intros Hs Hf. apply vm_good_dev; [done|]. destruct (vo_dev _ Hs). by split. Qed.

#[export] Instance pit_irq_acked_good : DeviceNotifier pit_irq_acked.
Proof.
  intros gsi s Hs. eexists. split; [reflexivity|]. apply pit_good; [done|]. apply (acked_inv (nt := pit_notifiers) gsi), (do_device _ (vo_dev _ Hs)).
Qed.

(** *** Arithmetic *)

(** The product and the quotient are those of the integers, in 64 bits. *)
Lemma muldiv64_exact a b c : 0 <= a < 2 ^ 64 -> 0 <= b < 2 ^ 32 -> 0 < c < 2 ^ 32 ->
  muldiv64 a b c = Ok ((a * b / c) mod 2 ^ 64).
Proof.
  intros Ha Hb Hc. set (ah := a / 2 ^ 32). set (al := a mod 2 ^ 32).
  assert (Ea : a = ah * 2 ^ 32 + al) by (pose proof (Z.div_mod a (2 ^ 32)); lia).
  assert (Hal : 0 <= al < 2 ^ 32) by (apply Z.mod_pos_bound; lia).
  assert (Hah : 0 <= ah < 2 ^ 32) by (split; [apply Z.div_pos; lia|apply Z.div_lt_upper_bound; lia]).
  set (rl := al * b). assert (Hrl : 0 <= rl <= (2 ^ 32 - 1) * (2 ^ 32 - 1)) by (unfold rl; nia).
  set (r1 := rl / 2 ^ 32). set (r0 := rl mod 2 ^ 32).
  assert (Er : rl = r1 * 2 ^ 32 + r0) by (pose proof (Z.div_mod rl (2 ^ 32)); lia).
  assert (Hr0 : 0 <= r0 < 2 ^ 32) by (apply Z.mod_pos_bound; lia).
  assert (Hr1 : 0 <= r1 < 2 ^ 32 - 1) by (split; [apply Z.div_pos; lia|apply Z.div_lt_upper_bound; lia]).
  set (rh := ah * b + r1). assert (Hahb : 0 <= ah * b <= (2 ^ 32 - 1) * (2 ^ 32 - 1)) by nia.
  assert (Hrh : 0 <= rh < 2 ^ 64) by (unfold rh; lia).
  set (q := rh / c). set (m := rh mod c). assert (Eq : rh = c * q + m) by (apply Z.div_mod; lia).
  assert (Hm : 0 <= m < c) by (apply Z.mod_pos_bound; lia). set (n := m * 2 ^ 32 + r0).
  assert (Hn : 0 <= n < c * 2 ^ 32) by (unfold n; nia).
  assert (El : 0 <= n / c < 2 ^ 32) by (split; [apply Z.div_pos; lia|apply Z.div_lt_upper_bound; lia]).
  assert (Eq' : a * b / c = q * 2 ^ 32 + n / c).
  { rewrite <- Z.div_add_l by lia. f_equal. unfold n. unfold rh, rl in *. nia. }
  unfold muldiv64, u32, u64. rewrite !Z.shiftr_div_pow2 by lia. fold ah al.
  rewrite (Z.mod_small ah (2 ^ 32)) by done. fold rl. rewrite (Z.mod_small rl), (Z.mod_small (ah * b)) by lia.
  fold r1 rh. rewrite (Z.mod_small rh) by done. unfold div64_u64, mod_64.
  rewrite (proj2 (Z.eqb_neq c 0)) by lia. cbn [mbind res_bind]. fold q. rewrite Z.rem_mod_nonneg by lia. fold m.
  rewrite Z.shiftl_mul_pow2 by lia. rewrite (Z.mod_small (m * 2 ^ 32)) by lia.
  change 0xffffffff with (Z.ones 32). rewrite Z.land_ones by lia. fold r0 n. rewrite (Z.mod_small n) by lia.
  cbn [mbind res_bind]. rewrite (Z.mod_small (n / c)) by done. f_equal.
  rewrite Eq'. change (2 ^ 64) with (2 ^ 32 * 2 ^ 32). rewrite Z.shiftl_mul_pow2 by lia.
  pose proof (Z.div_mod q (2 ^ 32)). apply (Z.mod_unique_pos _ _ (q / 2 ^ 32)); [|lia].
  pose proof (Z.mod_pos_bound q (2 ^ 32)). nia.
Qed.

Lemma ticks_exact now i c p :
  ticks now i c p = Ok (s64 ((u64 (kpit_elapsed now i c p) * KVM_PIT_FREQ / NSEC_PER_SEC) mod 2 ^ 64)).
Proof. unfold ticks. rewrite muldiv64_exact; [done|apply u64_range|done|done]. Qed.

Lemma ticks_some now i c p : exists d, ticks now i c p = Ok d.
Proof. eexists. apply ticks_exact. Qed.

Lemma mod_64_ok x c : chan_ok c -> mod_64 x (count c) = Ok (Z.rem x (count c)).
Proof. intros []. unfold mod_64. by rewrite (proj2 (Z.eqb_neq _ _)) by lia. Qed.

(** *** Counters *)

Lemma channel_at i p : pit_ok p -> 0 <= i < 3 -> exists c, channel i p = Ok c /\ channels p !! Z.to_nat i = Some c /\ chan_ok c.
Proof.
  intros Hp Hi. destruct (lookup_lt_is_Some_2 (channels p) (Z.to_nat i)) as [c Hc]; [rewrite (po_length _ Hp); lia|].
  exists c. unfold channel. rewrite Hc. split; [done|]. split; [done|]. eapply Forall_lookup_1; [apply Hp|done].
Qed.

Lemma get_count_ok now i p : pit_ok p -> 0 <= i < 3 -> exists n, pit_get_count now i p = Ok n.
Proof.
  intros Hp Hi. unfold pit_get_count. destruct (channel_at i p Hp Hi) as (c & -> & _ & Hc). rewrite bind_Ok.
  destruct (ticks_some now i c p) as [d ->]. rewrite bind_Ok. rewrite !mod_64_ok, !bind_Ok by done. destruct (bool_decide _), (mode c =? 3); by eexists.
Qed.

Lemma get_out_ok now i p : pit_ok p -> 0 <= i < 3 -> exists n, pit_get_out now i p = Ok n /\ 0 <= n <= 1.
Proof.
  intros Hp Hi. unfold pit_get_out. destruct (channel_at i p Hp Hi) as (c & -> & _ & Hc). rewrite bind_Ok.
  destruct (ticks_some now i c p) as [d ->]. rewrite bind_Ok. rewrite !mod_64_ok, !bind_Ok by done.
  assert (Hb : forall b, exists n, Ok (Z.b2z b) = Ok n /\ 0 <= n <= 1) by (intros []; by eexists).
  repeat (destruct (_ =? _); [by apply Hb|]). destruct (_ || _); apply Hb.
Qed.

Lemma u16_range x : 0 <= u16 x < 2 ^ 16.
Proof. apply Z.mod_pos_bound. lia. Qed.
Lemma u8_range x : 0 <= u8 x < 2 ^ 8.
Proof. apply Z.mod_pos_bound. lia. Qed.

Lemma latch_count_ok now i p : pit_ok p -> 0 <= i < 3 -> exists p', pit_latch_count now i p = Ok p' /\ pit_ok p'.
Proof.
  intros Hp Hi. unfold pit_latch_count. destruct (channel_at i p Hp Hi) as (c & -> & _ & Hc). cbn [mbind res_bind].
  destruct (negb _); [by eexists|]. destruct (get_count_ok now i p Hp Hi) as [n ->]. cbn [mbind res_bind].
  eexists. split; [done|]. apply pit_ok_set_channel; [done|]. destruct Hc. split; [done|apply u16_range|done|done].
Qed.

Lemma latch_status_ok now i p : pit_ok p -> 0 <= i < 3 -> exists p', pit_latch_status now i p = Ok p' /\ pit_ok p'.
Proof.
  intros Hp Hi. unfold pit_latch_status. destruct (channel_at i p Hp Hi) as (c & -> & _ & Hc). cbn [mbind res_bind].
  destruct (negb _); [by eexists|]. destruct (get_out_ok now i p Hp Hi) as (n & -> & _). cbn [mbind res_bind].
  eexists. split; [done|]. apply pit_ok_set_channel; [done|]. destruct Hc. split; [done|done|apply u8_range|done].
Qed.

Lemma read_back_ok now val i p : pit_ok p -> 0 <= i < 3 -> exists p', read_back now val i p = Ok p' /\ pit_ok p'.
Proof.
  intros Hp Hi. unfold read_back. destruct (negb _); [|by eexists].
  assert (exists p1, (if Z.land val 0x20 =? 0 then pit_latch_count now i p else Ok p) = Ok p1 /\ pit_ok p1) as (p1 & -> & H1)
    by (destruct (_ =? 0); [by apply latch_count_ok|by eexists]).
  cbn [mbind res_bind]. destruct (_ =? 0); [by apply latch_status_ok|by eexists].
Qed.

Lemma write_control_ok now val p : pit_ok p -> 0 <= val < 2 ^ 8 -> exists p', write_control now val p = Ok p' /\ pit_ok p'.
Proof.
  intros Hp Hv. unfold write_control. destruct (Z.eqb_spec (Z.shiftr val 6) 3) as [_|Hne].
  - destruct (read_back_ok now val 0 p Hp) as (p1 & -> & H1); [lia|]. cbn [mbind res_bind].
    destruct (read_back_ok now val 1 p1 H1) as (p2 & -> & H2); [lia|]. cbn [mbind res_bind]. apply read_back_ok; [done|lia].
  - assert (Hi : 0 <= Z.shiftr val 6 < 3).
    { rewrite Z.shiftr_div_pow2 in * by lia. assert (val / 2 ^ 6 < 4) by (apply Z.div_lt_upper_bound; lia).
      pose proof (Z.div_pos val (2 ^ 6)). lia. }
    destruct (_ =? 0); [by apply latch_count_ok|]. destruct (channel_at _ p Hp Hi) as (c & -> & _ & []).
    cbn [mbind res_bind]. eexists. split; [done|]. by apply pit_ok_set_channel.
Qed.

Lemma read_channel_ok now i p : pit_ok p -> 0 <= i < 3 ->
  exists r c, read_channel now i p = Ok (r, c) /\ 0 <= r < 2 ^ 8 /\ pit_ok (set_channel i c p).
Proof.
  intros Hp Hi. unfold read_channel. destruct (channel_at i p Hp Hi) as (c & -> & _ & Hc). rewrite bind_Ok.
  assert (Hret : forall r a b d, 0 <= r < 2 ^ 8 -> exists r' c', Ok (r, set_latches a b d c) = Ok (r', c') /\
    0 <= r' < 2 ^ 8 /\ pit_ok (set_channel i c' p)).
  { intros r a b d Hr. do 2 eexists. split; [done|]. split; [done|]. apply pit_ok_set_channel; [done|]. by destruct Hc. }
  assert (Hb : forall x, 0 <= Z.land x 0xff < 2 ^ 8)
    by (intros x; change 0xff with (Z.ones 8); rewrite Z.land_ones by lia; apply Z.mod_pos_bound; lia).
  destruct (negb _); [apply Hret, Hc|]. destruct (negb _).
  { destruct (_ =? _); [|destruct (_ =? _); apply Hret, Hb]. apply Hret. rewrite Z.shiftr_div_pow2 by lia.
    pose proof (co_latched _ Hc). split; [apply Z.div_pos; lia|apply Z.div_lt_upper_bound; lia]. }
  destruct (get_count_ok now i p Hp Hi) as [n ->]. rewrite bind_Ok.
  repeat destruct (_ =? _); try apply Hret, Hb;
    (do 2 eexists; split; [done|]; split; [apply Hb|by apply pit_ok_set_channel]).
Qed.

(** *** Operations of the machine *)

Lemma vm_op_pit n f : (forall p, pit_ok p -> pit_ok (f p)) -> vm_op n (fun s => Ok (on_pit f s)).
Proof. intros Hf s Hs _. eexists. split; [done|]. apply pit_good; [done|]. apply Hf, Hs. Qed.

Lemma vm_op_channel n i k : 0 <= i < 3 -> (forall c, chan_ok c -> vm_op n (k c)) ->
  vm_op n (fun s => c ← channel i (pit s); k c s).
Proof.
  intros Hi Hk s Hs Hn. destruct (channel_at i (pit s) (do_device _ (vo_dev _ Hs)) Hi) as (c & E & _ & Hc).
  destruct (Hk c Hc s Hs Hn) as (s' & E' & Hg). exists s'. split; [|done]. by rewrite E.
Qed.

Lemma pit_op_after n f g : (forall p, pit_ok p -> pit_ok (f p)) -> vm_op n g -> vm_op n (fun s => g (on_pit f s)).
Proof. intros Hf Hg. apply (vm_op_bind n (fun s => Ok (on_pit f s)) g); [by apply vm_op_pit|done]. Qed.

Lemma nmi_deliver_step v : irq_step v (kvm_apic_nmi_wd_deliver v).
Proof.
  unfold kvm_apic_nmi_wd_deliver, kvm_apic_local_deliver. destruct (_ && _); [|by split].
  match goal with |- context [__apic_accept_irq v ?m ?vec ?l ?t] =>
    pose proof (accept_step v m vec l t (vector_mask_range _)) as H; destruct (__apic_accept_irq v m vec l t) as [[? ?] ?] end.
  exact H.
Qed.

Lemma inject_op n : vm_op n pit_inject.
Proof.
  intros s Hs Hn. unfold pit_inject.
  destruct (set_irq_fun pit_notifiers n (irq_source_id (pit s)) 0 true false) with (s := s) as (r1 & s1 & -> & H1);
    [apply (do_device _ (vo_dev _ Hs))|done|done|]. cbn [mbind res_bind].
  destruct (set_irq_fun pit_notifiers n (irq_source_id (pit s1)) 0 false false) with (s := s1) as (r2 & s2 & -> & H2);
    [apply (do_device _ (vo_dev _ (vg_ok _ _ H1)))|apply H1|by rewrite (vm_good_length s)|]. cbn [mbind res_bind].
  assert (H12 : vm_good s s2) by (by eapply vm_good_trans). eexists. split; [done|]. destruct (_ <? _); [|done].
  eapply vm_good_trans; [exact H12|]. apply vm_good_bus; [apply H12|].
  apply Forall2_fmap_r, Forall_Forall2_diag, Forall_true, nmi_deliver_step.
Qed.

(** The worker takes the work and marks the interrupt as in flight before
    it injects. *)
Lemma run_work_eq s : run_work s =
  if work_queued (pit s) then
    let s1 := on_pit (fun p => with_pending (pit_pending p) false false p) s in
    if irq_ack (pit s) then pit_inject s1 else Ok s1
  else Ok s.
Proof.
  unfold run_work, pit_do_work. destruct (work_queued (pit s)); [|done].
  change (irq_ack (pit (on_pit (fun p => with_pending (pit_pending p) (irq_ack p) false p) s))) with (irq_ack (pit s)).
  destruct (irq_ack (pit s)) eqn:E; [done|]. unfold on_pit, on_dev. unfold pit in E. cbn. by rewrite E.
Qed.

Lemma run_work_op n : vm_op n run_work.
Proof.
  intros s Hs Hn. rewrite run_work_eq. destruct (work_queued (pit s)); [|by apply (vm_op_ret n)].
  apply (pit_op_after n (fun p => with_pending (pit_pending p) false false p)
    (fun s' => if irq_ack (pit s) then pit_inject s' else Ok s')); [|apply vm_op_if; [apply inject_op|apply vm_op_ret]|done|done].
  intros p Hp. apply pit_ok_pending; [done|apply Hp|done].
Qed.

(** The interval of a count fits, and is not 0. *)
Lemma interval_exact val : 0 < val < 2 ^ 32 ->
  muldiv64 val NSEC_PER_SEC KVM_PIT_FREQ = Ok (val * NSEC_PER_SEC / KVM_PIT_FREQ) /\
  0 < val * NSEC_PER_SEC / KVM_PIT_FREQ < 2 ^ 62.
Proof.
  intros Hv. unfold NSEC_PER_SEC, KVM_PIT_FREQ.
  assert (Hr : 0 < val * 1000000000 / 1193181 < 2 ^ 62) by (split; [apply Z.div_str_pos; lia|apply Z.div_lt_upper_bound; lia]).
  split; [|done]. rewrite muldiv64_exact by lia. by rewrite Z.mod_small by lia.
Qed.

Lemma s64_id x : - 2 ^ 63 <= x < 2 ^ 63 -> s64 x = x.
Proof. intros Hx. unfold s64. rewrite Z.mod_small; lia. Qed.

(** The period a count is given. *)
Definition timer_period (h : host) (val : Z) (is_period : bool) : Z :=
  let interval := val * NSEC_PER_SEC / KVM_PIT_FREQ in
  if is_period then Z.max interval (host_min_period_us h * 1000) else interval.

Lemma create_timer_eq h val is_period s : 0 < val < 2 ^ 32 -> create_pit_timer h val is_period s =
  if negb (Z.land (pit_flags (pit s)) KVM_PIT_FLAGS_HPET_LEGACY =? 0) then Ok s
  else
    s ← run_work (on_pit (fun p => with_hrtimer (timer_expires p) false p) s);
    Ok (on_pit (fun p => with_hrtimer (host_now h + val * NSEC_PER_SEC / KVM_PIT_FREQ) true
                 (with_pending 0 true (work_queued p) (with_mode is_period (timer_period h val is_period) p))) s).
Proof.
  intros Hv. unfold create_pit_timer. destruct (negb _); [done|]. destruct (interval_exact val Hv) as [-> Hr]. rewrite bind_Ok.
  rewrite s64_id by lia. unfold timer_period. set (n := val * NSEC_PER_SEC / KVM_PIT_FREQ) in *. set (m := host_min_period_us h * 1000).
  replace (if is_period && (n <? m) then m else n) with (if is_period then Z.max n m else n); [done|].
  destruct is_period; [|done]. cbn [andb]. destruct (Z.ltb_spec n m); lia.
Qed.

Lemma destroy_timer_op n : vm_op n destroy_pit_timer.
Proof. apply (pit_op_after n (fun p => with_hrtimer (timer_expires p) false p)); [auto with pit|apply run_work_op]. Qed.

Lemma create_timer_op n h val is_period : 0 < val < 2 ^ 32 -> vm_op n (create_pit_timer h val is_period).
Proof.
  intros Hv s Hs Hn. rewrite create_timer_eq by done. destruct (negb _); [by apply (vm_op_ret n)|].
  revert s Hs Hn. apply (vm_op_bind n destroy_pit_timer); [apply destroy_timer_op|]. apply vm_op_pit. intros p Hp. apply pit_ok_hrtimer, pit_ok_none.
  destruct Hp. split; try done. intros _. unfold timer_period. pose proof (proj2 (interval_exact val Hv)). cbn.
  destruct is_period; lia.
Qed.

(** A count of 0 is the largest. *)
Definition loaded (val : Z) : Z := if val =? 0 then 0x10000 else val.

Lemma loaded_range val : 0 <= val < 2 ^ 32 -> 0 < loaded val < 2 ^ 32.
Proof. intros Hv. unfold loaded. destruct (Z.eqb_spec val 0); lia. Qed.

Lemma load_count_op n h i val : 0 <= i < 3 -> 0 <= val < 2 ^ 32 -> vm_op n (pit_load_count h i val).
Proof.
  intros Hi Hv. apply loaded_range in Hv. unfold pit_load_count. fold (loaded val). apply vm_op_channel; [done|]. intros c Hc.
  assert (H1 : chan_ok (set_count (loaded val) c)) by (by destruct Hc).
  assert (H2 : chan_ok (set_load_time (host_now h) (set_count (loaded val) c))) by (by destruct Hc).
  apply vm_op_if; [apply vm_op_pit; auto with pit|].
  repeat apply vm_op_if; (apply (pit_op_after n (set_channel i (set_count (loaded val) c))); [auto with pit|]).
  - by apply create_timer_op.
  - by apply create_timer_op.
  - apply destroy_timer_op.
Qed.

Lemma kvm_load_count_op n h i val hpet : 0 <= i < 3 -> 0 <= val < 2 ^ 32 -> vm_op n (kvm_pit_load_count h i val hpet).
Proof.
  intros Hi Hv. unfold kvm_pit_load_count. apply vm_op_if; [|by apply load_count_op].
  apply vm_op_channel; [lia|]. intros c Hc. apply vm_op_bind.
  - apply (pit_op_after n (set_channel 0 (set_mode 0xff c))); [|by apply load_count_op].
    intros p Hp. apply pit_ok_set_channel; [done|]. by destruct Hc.
  - apply vm_op_channel; [lia|]. intros c' Hc'. apply vm_op_pit. intros p Hp. apply pit_ok_set_channel; [done|]. by destruct Hc'.
Qed.

Lemma lor_word16 x y : 0 <= x < 2 ^ 8 -> 0 <= y < 2 ^ 8 -> Z.lor x (Z.shiftl y 8) = x + 2 ^ 8 * y.
Proof.
  intros Hx Hy. rewrite Z.shiftl_mul_pow2 by lia. rewrite <- Z.add_lor_land, (Z.mul_comm y).
  enough (Z.land x (2 ^ 8 * y) = 0) by lia. apply Z.bits_inj'. intros k Hk. rewrite Z.land_spec, Z.bits_0.
  destruct (Z.ltb_spec k 8).
  - rewrite Z.mul_comm, Z.mul_pow2_bits_low by lia. apply andb_false_r.
  - by rewrite (testbit_above x 8 k).
Qed.

Lemma write_count_op n h i val : 0 <= i < 3 -> 0 <= val < 2 ^ 8 -> vm_op n (write_count h i val).
Proof.
  intros Hi Hv. unfold write_count. apply vm_op_channel; [done|]. intros c Hc. pose proof (co_write _ Hc).
  assert (Hset : forall b l st, 0 <= l < 2 ^ 8 -> chan_ok b -> forall p, pit_ok p -> pit_ok (set_channel i (set_write l st b) p))
    by (intros b l st Hl [] p Hp; by apply pit_ok_set_channel).
  apply vm_op_if; [apply load_count_op; [done|]; rewrite Z.shiftl_mul_pow2 by lia; lia|].
  apply vm_op_if; [apply vm_op_pit; by apply Hset|].
  apply vm_op_if; [apply vm_op_bind|apply load_count_op; lia].
  - apply load_count_op; [done|]. rewrite lor_word16 by done. lia.
  - apply vm_op_channel; [done|]. intros c' Hc'. apply vm_op_pit. apply Hset; [apply Hc'|done].
Qed.

Lemma land_byte x : 0 <= Z.land x 0xff < 2 ^ 8.
Proof. change 0xff with (Z.ones 8). rewrite Z.land_ones by lia. apply Z.mod_pos_bound. lia. Qed.

(** The part of a port's address that selects a counter. *)
Lemma port_index addr : 0 <= Z.land addr KVM_PIT_CHANNEL_MASK < 4.
Proof. unfold KVM_PIT_CHANNEL_MASK. change 3 with (Z.ones 2). rewrite Z.land_ones by lia. by apply Z.mod_pos_bound. Qed.

Lemma ioport_write_fun n h addr data : vm_fun n (pit_ioport_write h addr data).
Proof.
  unfold pit_ioport_write. apply vm_fun_if; [apply vm_fun_ret|]. cbv zeta. pose proof (port_index addr). pose proof (land_byte data).
  apply vm_fun_of_op. destruct (Z.eqb_spec (Z.land addr KVM_PIT_CHANNEL_MASK) 3); [|apply write_count_op; lia].
  intros s Hs Hn. destruct (write_control_ok (host_now h) (Z.land data 0xff) (pit s)) as (p & -> & Hp);
    [apply (do_device _ (vo_dev _ Hs))|done|]. eexists. split; [done|]. by apply pit_good.
Qed.

Lemma ioport_read_ok now addr len p : pit_ok p -> exists r data p', pit_ioport_read now addr len p = Ok (r, data, p') /\ pit_ok p'.
Proof.
  intros Hp. unfold pit_ioport_read. destruct (negb _); [by do 3 eexists|]. cbv zeta. pose proof (port_index addr).
  destruct (Z.eqb_spec (Z.land addr KVM_PIT_CHANNEL_MASK) 3); [by do 3 eexists|].
  destruct (read_channel_ok now (Z.land addr KVM_PIT_CHANNEL_MASK) p Hp) as (r & c & -> & _ & Hp'); [lia|].
  rewrite bind_Ok. by do 3 eexists.
Qed.

Lemma speaker_write_ok now addr val p : pit_ok p -> exists r p', speaker_ioport_write now addr val p = Ok (r, p') /\ pit_ok p'.
Proof.
  intros Hp. unfold speaker_ioport_write. destruct (negb _); [by do 2 eexists|]. set (p1 := with_speaker _ p).
  assert (H1 : pit_ok p1) by (by destruct Hp). destruct (channel_at 2 p1 H1) as (c & -> & _ & []); [lia|]. cbn [mbind res_bind].
  do 2 eexists. split; [done|]. by apply pit_ok_set_channel.
Qed.

Lemma speaker_read_ok now addr len p : pit_ok p -> exists r, speaker_ioport_read now addr len p = Ok r.
Proof.
  intros Hp. unfold speaker_ioport_read. destruct (negb _); [by eexists|]. cbv zeta.
  destruct (channel_at 2 p Hp) as (c & -> & _ & _); [lia|]. rewrite bind_Ok.
  destruct (get_out_ok now 2 p Hp) as (out & -> & _); [lia|]. rewrite bind_Ok. by eexists.
Qed.

(** *** Reset, creation and restored states *)

Lemma reset_channel_op n h i : 0 <= i < 3 -> vm_op n (reset_channel h i).
Proof.
  intros Hi. unfold reset_channel. apply vm_op_channel; [done|]. intros c [].
  apply (pit_op_after n (set_channel i (set_gate (Z.b2z (negb (i =? 2))) (set_mode 0xff c)))).
  - intros p Hp. by apply pit_ok_set_channel.
  - apply load_count_op; lia.
Qed.

Lemma reset_op n h : vm_op n (kvm_pit_reset h).
Proof.
  unfold kvm_pit_reset. cbv zeta. apply vm_op_bind; [apply (pit_op_after n (with_flags 0)); [by intros p []|]|].
  { apply reset_channel_op. lia. }
  apply vm_op_bind; [apply reset_channel_op; lia|]. apply vm_op_bind; [apply reset_channel_op; lia|].
  apply vm_op_pit. auto with pit.
Qed.

(** The timer as a new one is after its reset. *)
Definition reset_pit (now id : Z) : kvm_pit :=
  let chan g t := Channel 0x10000 0 0 0 0 0 0 0 0 0xff 0 g t in
  Pit [chan 1 0; chan 1 now; chan 0 now] 0 false 0 0 false 0 true 0 true false id.

Lemma reset_new h id s : kvm_pit_reset h (on_pit (fun _ => new_pit id) s) = Ok (on_pit (fun _ => reset_pit (host_now h) id) s).
Proof. reflexivity. Qed.

Lemma reset_pit_ok now id : 0 <= id < 64 -> pit_ok (reset_pit now id).
Proof.
  intros Hid. split; cbn; try done. assert (forall g t, chan_ok (Channel 0x10000 0 0 0 0 0 0 0 0 0xff 0 g t)) by done.
  by repeat constructor.
Qed.

Lemma first_zero_spec b k : forall i, 0 <= i -> i <= first_zero b i k <= i + Z.of_nat k /\
  (first_zero b i k < i + Z.of_nat k -> Z.testbit b (first_zero b i k) = false).
Proof.
  induction k as [|k IH]; intros i Hi; cbn [first_zero]; [lia|]. destruct (Z.testbit b i) eqn:E; [|split; [lia|done]].
  destruct (IH (i + 1)) as [H1 H2]; [lia|]. split; [lia|]. intros H. apply H2. lia.
Qed.

Lemma request_source_spec {D} `{Hinv : DeviceInv D} (s : vm D) id s1 : vm_ok s -> kvm_request_irq_source_id s = (id, s1) ->
  (id < 0 /\ s1 = s) \/
  (0 <= id < 64 /\ Z.testbit (irq_sources_bitmap (dev s)) id = false /\ vm_good s s1 /\
   s1 = on_dev (with_sources (Z.setbit (irq_sources_bitmap (dev s)) id)) s).
Proof.
  intros Hs. unfold kvm_request_irq_source_id, BITS_PER_LONG. set (b := irq_sources_bitmap (dev s)).
  destruct (first_zero_spec b 64 0) as [H1 H2]; [lia|]. set (z := first_zero b 0 64) in *. clearbody z.
  destruct (Z.leb_spec 64 z) as [Hle|Hlt].
  - intros [= <- <-]. by left.
  - intros [= <- <-]. right. split; [lia|]. split; [apply H2; lia|]. split; [|done]. apply vm_good_dev; [done|].
    by destruct (vo_dev _ Hs).
Qed.

Lemma free_source_sources {D} (nt : notifiers D) id (s : vm D) : 0 <= id < 64 ->
  irq_sources_bitmap (dev (kvm_free_irq_source_id nt id s)) = Z.clearbit (irq_sources_bitmap (dev s)) id /\
  ack_gsis (dev (kvm_free_irq_source_id nt id s)) = ack_gsis (dev s).
Proof.
  intros Hid. unfold kvm_free_irq_source_id, BITS_PER_LONG. rewrite (proj2 (Z.ltb_ge id 0)), (proj2 (Z.leb_gt 64 id)) by lia.
  cbn [orb]. cbv zeta. match goal with |- context [set_pic nt ?p ?s1] => destruct (set_pic_sources nt p s1) as (-> & -> & _) end.
  done.
Qed.

Lemma clear_set_bit b i : 0 <= i -> Z.testbit b i = false -> Z.clearbit (Z.setbit b i) i = b.
Proof.
  intros Hi Hb. apply Z.bits_inj'. intros k Hk. destruct (Z.eq_dec i k) as [->|Hne].
  - by rewrite Z.clearbit_eq.
  - by rewrite Z.clearbit_neq, Z.setbit_neq by lia.
Qed.

Lemma unregister_ack_ok gsi (s : vm kvm_pit) : vm_ok s -> vm_good s (kvm_unregister_irq_ack_notifier gsi s).
Proof.
  intros Hs. unfold kvm_unregister_irq_ack_notifier. set (s1 := on_dev _ s).
  assert (H1 : vm_good s s1) by (apply vm_good_dev; [done|]; by destruct (vo_dev _ Hs)).
  eapply vm_good_trans; [exact H1|]. apply good_vm; [|apply H1]. apply request_scan_good, H1.
Qed.

Lemma pit_free_source_ok id s : vm_ok s -> vm_good s (kvm_free_irq_source_id pit_notifiers id s).
Proof. intros Hs. by apply (free_source_ok pit_notifiers (fun _ p => p)). Qed.

(** Creating the timer completes and keeps the machine's invariant.  When
    it succeeds the timer has an interrupt source nobody else has, is told
    of interrupt 0's acknowledgements, and is reset; it succeeds when there
    is memory, a source is free, the worker thread runs and the ports are registered.
    When it fails the sources and the notifiers are those of before. *)
Theorem kvm_create_pit_correct o h flags s : vm_ok s ->
  exists r s', kvm_create_pit o h flags s = Ok (r, s') /\ vm_good s s' /\
    let d := dev s in let d' := dev s' in
    if r then
      exists id, Z.testbit (irq_sources_bitmap d) id = false /\ 0 <= id < 64 /\
        irq_sources_bitmap d' = Z.setbit (irq_sources_bitmap d) id /\ ack_gsis d' = 0 :: ack_gsis d /\
        pit s' = reset_pit (host_now h) id
    else
      irq_sources_bitmap d' = irq_sources_bitmap d /\ ack_gsis d' = ack_gsis d /\
      (pit_alloc_ok o = false \/ (kvm_request_irq_source_id s).1 < 0 \/ worker_ok o = false \/ dev_bus_ok o = false \/
       Z.land flags KVM_PIT_SPEAKER_DUMMY <> 0 /\ speaker_bus_ok o = false).
Proof.
  intros Hs. unfold kvm_create_pit. destruct (pit_alloc_ok o); cbn [negb].
  2: { do 2 eexists. split; [done|]. split; [by apply vm_good_refl|]. cbn. auto 10. }
  destruct (kvm_request_irq_source_id s) as [id s1] eqn:E.
  destruct (request_source_spec s id s1 Hs E) as [[Hid ->]|(Hid & Hb & Hg & ->)].
  { rewrite (proj2 (Z.ltb_lt _ _) Hid). do 2 eexists. split; [done|]. split; [by apply vm_good_refl|]. cbn. auto 10. }
  rewrite (proj2 (Z.ltb_ge id 0)) by lia. set (s1 := on_dev _ s) in *.
  destruct (worker_ok o) eqn:Ew; cbn [negb].
  2: { do 2 eexists. split; [done|]. split; [eapply vm_good_trans; [exact Hg|apply pit_free_source_ok, Hg]|].
       destruct (free_source_sources pit_notifiers id s1 Hid) as [-> ->]. cbn. rewrite clear_set_bit by lia || done. auto 10. }
  change (kvm_register_irq_ack_notifier 0 (on_pit (fun _ => new_pit id) s1))
    with (on_pit (fun _ => new_pit id) (kvm_register_irq_ack_notifier 0 s1)).
  rewrite reset_new. cbn [mbind res_bind]. set (s2 := on_pit _ (kvm_register_irq_ack_notifier 0 s1)).
  assert (H2 : vm_good s s2).
  { eapply vm_good_trans; [exact Hg|]. eapply vm_good_trans; [apply register_ack_ok, Hg|].
    apply pit_good; [apply (register_ack_ok 0 s1), Hg|]. apply reset_pit_ok. lia. }
  destruct (negb (dev_bus_ok o) || _) eqn:Ef.
  - do 2 eexists. split; [done|]. split.
    { eapply vm_good_trans; [exact H2|]. eapply vm_good_trans; [apply unregister_ack_ok, H2|].
      apply pit_free_source_ok, (unregister_ack_ok 0), H2. }
    cbv zeta. destruct (free_source_sources pit_notifiers id (kvm_unregister_irq_ack_notifier 0 s2) Hid) as [-> ->]. cbn.
    rewrite clear_set_bit by lia || done. split; [done|]. split; [done|]. right. right. right.
    destruct (dev_bus_ok o); [right|by left]. cbn [negb orb] in Ef. apply andb_true_iff in Ef as [Ef1 Ef2].
    apply negb_true_iff in Ef1, Ef2. apply Z.eqb_neq in Ef1. done.
  - do 2 eexists. split; [done|]. split; [done|]. exists id. done.
Qed.

(** Loading the first counter makes its count good whatever it was. *)
Lemma load_first_op n h val f : 0 <= val < 2 ^ 32 ->
  (forall p, pit_ok p -> exists c, channel 0 (f p) = Ok c /\ pit_ok (set_channel 0 (set_count (loaded val) c) (f p))) ->
  vm_op n (fun s => pit_load_count h 0 val (on_pit f s)).
Proof.
  intros Hv Hf s Hs Hn. apply loaded_range in Hv. unfold pit_load_count. fold (loaded val).
  destruct (Hf (pit s) (do_device _ (vo_dev _ Hs))) as (c & E & Hok). change (pit (on_pit f s)) with (f (pit s)).
  rewrite E. cbn [mbind res_bind]. set (c1 := set_count (loaded val) c) in *. cbv zeta. rewrite Z.eqb_refl. cbn [negb].
  change (on_pit (set_channel 0 c1) (on_pit f s)) with (on_pit (fun p => set_channel 0 c1 (f p)) s).
  pose proof (pit_good (fun p => set_channel 0 c1 (f p)) s Hs Hok) as Hg. set (s1 := on_pit _ s) in *. clearbody s1.
  assert (Hrest : vm_op n (fun s => if bool_decide (mode c1 ∈ [0; 1; 4]) then create_pit_timer h (loaded val) false s
    else if bool_decide (mode c1 ∈ [2; 3]) then create_pit_timer h (loaded val) true s else destroy_pit_timer s)).
  { apply vm_op_if; [by apply create_timer_op|]. apply vm_op_if; [by apply create_timer_op|apply destroy_timer_op]. }
  destruct (Hrest s1 (vg_ok _ _ Hg)) as (s2 & E2 & H2); [by rewrite (vm_good_length s)|].
  exists s2. split; [exact E2|by eapply vm_good_trans].
Qed.

(** The fields of a saved counter are as wide as they are in memory; a
    counter but the first, whose count is loaded anew, must have a count. *)
Record saved_channel_ok (i : nat) (c : kvm_kpit_channel_state) : Prop := {
  sc_count : 0 <= count c < 2 ^ 32;
  sc_counts : i = O \/ 0 < count c;
  sc_latched : 0 <= latched_count c < 2 ^ 16;
  sc_status : 0 <= status c < 2 ^ 8;
  sc_write : 0 <= write_latch c < 2 ^ 8
}.

Definition saved_pit_ok (ps : list kvm_kpit_channel_state) : Prop :=
  length ps = 3%nat /\ forall i c, ps !! i = Some c -> saved_channel_ok i c.

(** The counters of a saved state once the first is loaded. *)
Lemma saved_loaded ps c m : saved_pit_ok ps -> ps !! O = Some c ->
  Forall chan_ok (<[O := set_count (loaded (count c)) (set_mode m c)]> ps).
Proof.
  intros [Hl Hps] Hc. apply Forall_lookup_2. intros i x. rewrite list_lookup_insert_Some. intros [(<- & <- & _)|[Hi Hx]].
  - destruct (Hps O c Hc). split; try done. by apply loaded_range.
  - destruct (Hps i x Hx) as [? [->|?]]; [done|]. split; [lia|done..].
Qed.

Lemma set_pit_op n h ps : saved_pit_ok ps -> vm_op n (kvm_vm_ioctl_set_pit h ps).
Proof.
  intros Hps. destruct (lookup_lt_is_Some_2 ps O) as [c Hc]; [destruct Hps; lia|].
  assert (H1 : vm_op n (fun s => pit_load_count h 0 (count c) (on_pit (with_channels ps) s))).
  { apply load_first_op; [apply (proj2 Hps O c Hc)|]. intros p Hp. exists c. unfold channel.
    change (channels (with_channels ps p) !! Z.to_nat 0) with (ps !! O). rewrite Hc. split; [done|].
    apply (pit_ok_channels _ p Hp); [rewrite length_insert; apply Hps|].
    replace c with (set_mode (mode c) c) at 2 by (by destruct c). by apply saved_loaded. }
  intros s Hs Hn. destruct (H1 s Hs Hn) as (s' & E & Hg). exists s'. split; [|done].
  unfold kvm_vm_ioctl_set_pit, channel. cbv zeta.
  change (channels (pit (on_pit (with_channels ps) s)) !! Z.to_nat 0) with (ps !! O). rewrite Hc. exact E.
Qed.

Lemma set_pit2_op n h ps : saved_pit_ok ps.1 -> vm_op n (kvm_vm_ioctl_set_pit2 h ps).
Proof.
  destruct ps as [ps fl]. cbn. intros Hps. destruct (lookup_lt_is_Some_2 ps O) as [c Hc]; [destruct Hps; lia|].
  assert (Hcount : 0 <= count c < 2 ^ 32) by apply (proj2 Hps O c Hc).
  assert (H1 : forall m, vm_op n (fun s => pit_load_count h 0 (count c)
    (on_pit (fun p => set_channel 0 (set_mode m c) (with_flags fl (with_channels ps p))) s))).
  { intros m. apply load_first_op; [done|]. intros p Hp. exists (set_mode m c). unfold channel.
    change (channels (set_channel 0 (set_mode m c) (with_flags fl (with_channels ps p))) !! Z.to_nat 0)
      with (<[O := set_mode m c]> ps !! O). rewrite list_lookup_insert_eq by (destruct Hps; lia). split; [done|].
    apply (pit_ok_channels _ (with_flags fl p)); [by destruct Hp|cbn; rewrite !length_insert; apply Hps|].
    cbn. rewrite list_insert_insert_eq. by apply saved_loaded. }
  intros s Hs Hn. unfold kvm_vm_ioctl_set_pit2, channel. cbv zeta. set (s1 := on_pit _ s).
  change (channels (pit s1) !! Z.to_nat 0) with (ps !! O). rewrite Hc. cbn [mbind res_bind snd].
  unfold kvm_pit_load_count, channel. change (channels (pit s1) !! Z.to_nat 0) with (ps !! O). rewrite Hc. cbn [mbind res_bind].
  destruct (_ && _).
  - destruct (H1 0xff s Hs Hn) as (s2 & E & H2).
    change (on_pit (set_channel 0 (set_mode 255 c)) s1)
      with (on_pit (fun p => set_channel 0 (set_mode 255 c) (with_flags fl (with_channels ps p))) s). rewrite E. cbn [mbind res_bind].
    destruct (vm_op_channel n 0 (fun c' s => Ok (on_pit (set_channel 0 (set_mode (mode c) c')) s))) with (s := s2) as (s3 & E3 & H3);
      [lia| |apply H2|by rewrite (vm_good_length s)|].
    { intros c' []. apply vm_op_pit. intros p Hp. by apply pit_ok_set_channel. }
    exists s3. split; [exact E3|by eapply vm_good_trans].
  - destruct (H1 (mode c) s Hs Hn) as (s2 & E & H2). exists s2. split; [|done]. rewrite <- E. f_equal.
    unfold s1, on_pit, on_dev. do 3 f_equal. unfold set_channel.
    rewrite (list_insert_id (channels (with_flags fl (with_channels ps (device (dev s))))) (Z.to_nat 0)); [done|].
    change (ps !! O = Some (set_mode (mode c) c)). rewrite Hc. by destruct c.
Qed.

(** ** Histories *)

(** What the guest, the host's timer and worker thread, and the host's user
    space do to the timer and to the machine it is part of. *)
Inductive pit_event :=
| PortWrite (h : host) (addr data : Z)
| PortRead (now addr len : Z)
| SpeakerWrite (now addr val : Z)
| SpeakerRead (now addr len : Z)
| TimerExpires
| WorkerRuns
| PitReset (h : host)
| SetPit (h : host) (ps : list kvm_kpit_channel_state)
| SetPit2 (h : host) (ps : list kvm_kpit_channel_state * Z)
| Reinject (b : bool)
| Machine (e : vm_event).

Definition pit_exec (e : pit_event) (s : vm kvm_pit) : res (vm kvm_pit) :=
  match e with
  | PortWrite h addr data => '(_, s) ← pit_ioport_write h addr data s; Ok s
  | PortRead now addr len => '(_, _, p) ← pit_ioport_read now addr len (pit s); Ok (on_pit (fun _ => p) s)
  | SpeakerWrite now addr val => '(_, p) ← speaker_ioport_write now addr val (pit s); Ok (on_pit (fun _ => p) s)
  | SpeakerRead now addr len => _ ← speaker_ioport_read now addr len (pit s); Ok s
  | TimerExpires => Ok (on_pit pit_timer_fn s)
  | WorkerRuns => run_work s
  | PitReset h => kvm_pit_reset h s
  | SetPit h ps => kvm_vm_ioctl_set_pit h ps s
  | SetPit2 h ps => kvm_vm_ioctl_set_pit2 h ps s
  | Reinject b => Ok (kvm_vm_ioctl_reinject b s)
  | Machine e => vm_exec pit_irq_acked pit_notifiers (fun _ p => p) e s
  end.

Fixpoint pit_run (es : list pit_event) (s : vm kvm_pit) : res (vm kvm_pit) :=
  match es with
  | [] => Ok s
  | e :: es => s ← pit_exec e s; pit_run es s
  end.

Definition pit_event_ok (n : nat) (e : pit_event) : Prop :=
  match e with
  | SetPit _ ps => saved_pit_ok ps
  | SetPit2 _ ps => saved_pit_ok ps.1
  | Machine e => event_ok n e
  | _ => True
  end.

(** An operation of the timer alone. *)
Lemma vm_op_device {A} n (f : kvm_pit -> res (A * kvm_pit)) : (forall p, pit_ok p -> exists r p', f p = Ok (r, p') /\ pit_ok p') ->
  vm_op n (fun s => '(_, p) ← f (pit s); Ok (on_pit (fun _ => p) s)).
Proof.
  intros Hf s Hs _. destruct (Hf (pit s) (do_device _ (vo_dev _ Hs))) as (r & p' & -> & Hp). eexists. split; [done|].
  by apply pit_good.
Qed.

Lemma pit_exec_op n e : pit_event_ok n e -> vm_op n (pit_exec e).
Proof.
  destruct e as [h addr data|now addr len|now addr val|now addr len| | |h|h ps|h ps|b|e]; cbn [pit_event_ok]; intros He.
  - apply vm_op_of_fun, ioport_write_fun.
  - intros s Hs _. cbn [pit_exec]. destruct (ioport_read_ok now addr len (pit s) (do_device _ (vo_dev _ Hs))) as (r & data & p' & -> & Hp).
    eexists. split; [done|]. by apply pit_good.
  - apply vm_op_device. intros p Hp. by apply speaker_write_ok.
  - intros s Hs Hn. cbn [pit_exec]. destruct (speaker_read_ok now addr len (pit s) (do_device _ (vo_dev _ Hs))) as [r ->]. by apply (vm_op_ret n).
  - apply vm_op_pit, timer_fn_ok.
  - apply run_work_op.
  - apply reset_op.
  - by apply set_pit_op.
  - by apply set_pit2_op.
  - apply vm_op_pit. by intros p [].
  - apply vm_exec_ok; [apply _|apply _|done|done].
Qed.

(** C13: Whatever the guest writes to the timer's ports and to the interrupt
    controllers, whenever the host's timer fires and its worker thread runs,
    and whatever state is restored in which the second and the third counter
    have a count that is not 0 ([restored_count_zero]), every step completes:
    the counters never divide by zero, no counter outside the three is used,
    the period of a periodic timer is positive, and an interrupt that waits
    while none is in flight is always in the worker thread's hands, so none
    is forgotten.  What is done to the interrupt controllers is as in
    [event_ok]. *)
Theorem pit_history_ok es s : vm_ok s -> Forall (pit_event_ok (length (vcpus (ibus s)))) es ->
  exists s', pit_run es s = Ok s' /\ vm_good s s' /\ pit_ok (pit s').
Proof.
  intros Hs Hes. enough (exists s', pit_run es s = Ok s' /\ vm_good s s') as (s' & E & Hg).
  { exists s'. split; [done|]. split; [done|]. apply Hg. }
  revert s Hs Hes. induction es as [|e es IH]; intros s Hs Hes; cbn [pit_run].
  { eexists. split; [done|by apply vm_good_refl]. }
  apply Forall_cons in Hes as [He Hes]. destruct (pit_exec_op _ e He s Hs eq_refl) as (s1 & -> & Hg1). cbn [mbind res_bind].
  destruct (IH s1 (vg_ok _ _ Hg1)) as (s2 & -> & Hg2); [by rewrite (vm_good_length s)|]. eauto using vm_good_trans.
Qed.

(** A machine with two processors, the default routing and a new timer. *)
Definition demo_pit_vm : vm kvm_pit :=
  Irqs two_vcpu_bus kvm_ioapic_init
    (Devs kvm_create_pic (kvm_set_irq_routing true default_routing (RoutingTable ∅ 0 ∅)).2 5 [0] 0 (reset_pit 0 2)).

Lemma demo_pit_vm_ok : vm_ok demo_pit_vm.
Proof.
  split; [split; [apply two_vcpu_bus_ok|apply ioapic_init_ok]|].
  split; [apply create_pic_ok|apply set_irq_routing_ok, empty_routing_ok|by apply reset_pit_ok].
Qed.

Definition demo_host (now : Z) : host := Host now 500.

Lemma pit_history_ok_witness :
  exists s', pit_run
    [PortWrite (demo_host 10) 0x43 0x34; PortWrite (demo_host 11) 0x40 0x9c; PortWrite (demo_host 12) 0x40 0x2e;
     Machine (IoapicWrite 0xfec00000 4 0x14); Machine (IoapicWrite 0xfec00010 4 0x31); TimerExpires; WorkerRuns;
     PortWrite (demo_host 20) 0x43 0x00; PortRead 21 0x40 1; PortRead 21 0x40 1; SpeakerWrite 30 0x61 3; PitReset (demo_host 40)]
    demo_pit_vm = Ok s' /\ vm_good demo_pit_vm s' /\ pit_ok (pit s').
Proof.
  apply (pit_history_ok _ demo_pit_vm demo_pit_vm_ok). repeat (apply Forall_cons; split; [exact I|]). constructor.
Defined.

(** A state restored with a counter that has no count makes the next read
    of the counter divide by zero. *)
Lemma restored_count_zero h :
  exists ps, length ps = 3%nat /\
    (s ← kvm_vm_ioctl_set_pit h ps demo_pit_vm; pit_ioport_read 0 0x42 1 (pit s)) = Err BadArith.
Proof.
  exists [no_channel; no_channel; set_mode 2 no_channel]. split; [done|]. vm_compute. reflexivity.
Qed.

(** ** No tick is lost *)

(** The machine's 8259 has no signal left to give. *)
Definition settled (s : vm kvm_pit) : Prop := notes (pic (dev s)) = [].

Lemma inject_pit s s' : settled s -> pit_inject s = Ok s' -> pit s' = pit s /\ settled s'.
Proof.
  intros Hs. unfold pit_inject. destruct (kvm_set_irq _ _ _ true _ _) as [[r1 s1]|] eqn:E1; [|done]. cbn [mbind res_bind].
  destruct (kvm_set_irq _ _ _ false _ _) as [[r2 s2]|] eqn:E2; [|done]. cbn [mbind res_bind]. intros [= <-].
  destruct (kvm_set_irq_device _ _ _ _ _ _ _ _ E1 Hs) as [H1 D1], (kvm_set_irq_device _ _ _ _ _ _ _ _ E2 H1) as [H2 D2].
  unfold pit, settled. destruct (_ <? _); cbn; split; congruence.
Qed.

(** What the worker thread does to the timer. *)
Lemma run_work_pit s s' : settled s -> run_work s = Ok s' ->
  settled s' /\ pit s' = if work_queued (pit s) then with_pending (pit_pending (pit s)) false false (pit s) else pit s.
Proof.
  intros Hs. rewrite run_work_eq. destruct (work_queued (pit s)); [|by intros [= <-]]. cbv zeta.
  destruct (irq_ack (pit s)); [|by intros [= <-]]. intros E. set (s1 := on_pit _ s) in E.
  assert (H1 : settled s1) by done. by destruct (inject_pit s1 s' H1 E) as [-> H].
Qed.

(** The timer at work since [s0], with the ticks of the host's timer, the
    interrupts injected and those acknowledged; only an interrupt in flight is
    acknowledged. *)
Inductive service (s0 : vm kvm_pit) : vm kvm_pit -> Z -> Z -> Z -> Prop :=
| sv_start : service s0 s0 0 0 0
| sv_tick s f i a : service s0 s f i a -> service s0 (on_pit pit_timer_fn s) (f + 1) i a
| sv_work s s' f i a : service s0 s f i a -> run_work s = Ok s' ->
    service s0 s' f (i + Z.b2z (work_queued (pit s) && irq_ack (pit s))) a
| sv_ack s f i a : service s0 s f i a -> irq_ack (pit s) = false -> service s0 (on_pit kvm_pit_ack_irq s) f i (a + 1).

(** A timer with nothing to do. *)
Record pit_idle (p : kvm_pit) : Prop := {
  pi_pending : pit_pending p = 0;
  pi_ack : irq_ack p = true;
  pi_work : work_queued p = false
}.

(** The books of the timer: every tick is acknowledged or waits, and every
    interrupt was acknowledged but the one in flight. *)
Record books (s : vm kvm_pit) (f i a : Z) : Prop := {
  bk_settled : settled s;
  bk_reinject : reinject (pit s) = true;
  bk_ticks : f = a + pit_pending (pit s);
  bk_injected : i = a + Z.b2z (negb (irq_ack (pit s)));
  bk_counts : 0 <= a;
  bk_waits : Z.b2z (negb (irq_ack (pit s))) + Z.b2z (work_queued (pit s)) <= pit_pending (pit s);
  bk_work : irq_ack (pit s) = true -> 0 < pit_pending (pit s) -> work_queued (pit s) = true
}.

Lemma books_pending s f i a : books s f i a -> Z.b2z (negb (irq_ack (pit s))) <= pit_pending (pit s) /\ 0 <= pit_pending (pit s).
Proof. intros [_ _ _ _ _ H _]. destruct (irq_ack (pit s)), (work_queued (pit s)); cbn in *; lia. Qed.

Lemma timer_fn_fields p : reinject p = true -> let p' := pit_timer_fn p in
  pit_pending p' = s32 (pit_pending p + 1) /\ irq_ack p' = irq_ack p /\ work_queued p' = true /\ reinject p' = true.
Proof. intros Hr. unfold pit_timer_fn. rewrite Hr. cbn. by destruct (is_periodic p). Qed.

Lemma service_books s0 s f i a : settled s0 -> reinject (pit s0) = true -> pit_idle (pit s0) -> service s0 s f i a ->
  f < 2 ^ 31 -> books s f i a.
Proof.
  intros Hn Hr [Hp Ha Hw]. induction 1 as [|s f i a Hsv IH|s s' f i a Hsv IH E|s f i a Hsv IH Hack]; intros Hf.
  - split; rewrite ?Hp, ?Ha, ?Hw; try done.
  - pose proof (IH ltac:(lia)) as B. pose proof (books_pending _ _ _ _ B). destruct B as [B1 B2 B3 B4 B5 B6 B7]. destruct (timer_fn_fields (pit s) B2) as (E1 & E2 & E3 & E4).
    rewrite s32_id in E1 by lia. split; change (pit (on_pit pit_timer_fn s)) with (pit_timer_fn (pit s));
      rewrite ?E1, ?E2, ?E3, ?E4; try done; destruct (irq_ack (pit s)), (work_queued (pit s)); cbn in *; lia.
  - destruct (IH Hf) as [B1 B2 B3 B4 B5 B6 B7]. destruct (run_work_pit s s' B1 E) as [S' Ep].
    destruct (work_queued (pit s)) eqn:Ew; cbn [andb].
    + split; rewrite ?Ep; try done; cbn; destruct (irq_ack (pit s)); cbn in *; lia.
    + split; rewrite ?Ep, ?Ew; try done; cbn in *; lia.
  - pose proof (books_pending _ _ _ _ (IH Hf)) as Bp. destruct (IH Hf) as [B1 B2 B3 B4 B5 B6 B7]. rewrite Hack in *. cbn in B4, B6, Bp.
    assert (Ev : s32 (pit_pending (pit s) - 1) = pit_pending (pit s) - 1) by (apply s32_id; lia).
    assert (Ep : pit (on_pit kvm_pit_ack_irq s) = with_pending (pit_pending (pit s) - 1) true
      (if 0 <? pit_pending (pit s) - 1 then true else work_queued (pit s)) (pit s)).
    { change (pit (on_pit kvm_pit_ack_irq s)) with (kvm_pit_ack_irq (pit s)). unfold kvm_pit_ack_irq. rewrite Ev.
      by rewrite (proj2 (Z.ltb_ge _ 0)) by lia. }
    split; rewrite ?Ep; try done; cbn; destruct (Z.ltb_spec 0 (pit_pending (pit s) - 1)), (work_queued (pit s)); cbn in *; try lia; done.
Qed.

Lemma service_vm_ok s0 s f i a : vm_ok s0 -> service s0 s f i a -> vm_ok s.
Proof.
  intros H0. induction 1 as [|s f i a _ IH|s s' f i a _ IH E|s f i a _ IH _]; [done|..].
  - apply (pit_good pit_timer_fn s IH), timer_fn_ok, (do_device _ (vo_dev _ IH)).
  - destruct (run_work_op _ s IH eq_refl) as (s1 & E1 & Hg). rewrite E in E1. injection E1 as <-. apply Hg.
  - apply (pit_good kvm_pit_ack_irq s IH), ack_irq_ok, (do_device _ (vo_dev _ IH)).
Qed.

(** C14: With reinjection no tick of the host's timer is lost, however the
    ticks, the worker thread and the guest's acknowledgements interleave:
    every tick was acknowledged or still waits, every injected interrupt was
    acknowledged but the one in flight, and never are two in flight.  While a
    tick waits, the worker thread has work or an interrupt is in flight; the
    worker's next step completes; and when nothing is left to do, ticks,
    injections and acknowledgements are equal in number. *)
Theorem pit_ticks_conserved s0 s f i a : vm_ok s0 -> settled s0 -> reinject (pit s0) = true -> pit_idle (pit s0) ->
  service s0 s f i a -> f < 2 ^ 31 ->
  f = a + pit_pending (pit s) /\ i = a + Z.b2z (negb (irq_ack (pit s))) /\
  (i < f -> irq_ack (pit s) = true -> work_queued (pit s) = true) /\
  (exists s', run_work s = Ok s') /\
  (work_queued (pit s) = false -> irq_ack (pit s) = true -> f = i /\ i = a).
Proof.
  intros H0 Hn Hr Hi Hsv Hf. destruct (service_books s0 s f i a Hn Hr Hi Hsv Hf) as [B1 B2 B3 B4 B5 B6 B7].
  destruct (run_work_op _ s (service_vm_ok _ _ _ _ _ H0 Hsv) eq_refl) as (s' & E & _).
  split; [done|]. split; [done|]. split; [intros Hlt Ha; apply B7; [done|]; rewrite Ha in B4; cbn in B4; lia|].
  split; [by eexists|]. intros Hw Ha. rewrite Ha, Hw in *. cbn in *. destruct (Z.lt_ge_cases 0 (pit_pending (pit s))); [|lia].
  by specialize (B7 eq_refl H).
Qed.

(** The machine after two ticks. *)
Definition two_ticks : vm kvm_pit := on_pit pit_timer_fn (on_pit pit_timer_fn demo_pit_vm).

Lemma two_ticks_service : service demo_pit_vm two_ticks 2 0 0.
Proof. apply (sv_tick _ _ 1 0 0), (sv_tick _ _ 0 0 0), sv_start. Qed.

Lemma pit_ticks_conserved_witness :
  exists s i, service demo_pit_vm s 2 i 0 /\ 2 = 0 + pit_pending (pit s) /\ i = 0 + Z.b2z (negb (irq_ack (pit s))).
Proof.
  destruct (run_work_op _ two_ticks (service_vm_ok _ _ _ _ _ demo_pit_vm_ok two_ticks_service) eq_refl) as (s & E & _).
  pose proof (sv_work _ _ _ _ _ _ two_ticks_service E) as Hv. do 2 eexists. split; [exact Hv|].
  destruct (pit_ticks_conserved _ _ _ _ _ demo_pit_vm_ok eq_refl eq_refl (Build_pit_idle (pit demo_pit_vm) eq_refl eq_refl eq_refl) Hv eq_refl)
    as (H1 & H2 & _). split; [exact H1|exact H2].
Defined.

(** The guest acknowledges what the worker thread injects, so many times. *)
Fixpoint serve_ticks (n : nat) (s : vm kvm_pit) : res (vm kvm_pit) :=
  match n with
  | O => Ok s
  | S n => s ← run_work s; serve_ticks n (on_pit kvm_pit_ack_irq s)
  end.

Lemma service_trans s0 s1 s2 f i a f' i' a' : service s0 s1 f i a -> service s1 s2 f' i' a' ->
  service s0 s2 (f + f') (i + i') (a + a').
Proof.
  intros H1. induction 1 as [|s f' i' a' _ IH|s s' f' i' a' _ IH E|s f' i' a' _ IH E].
  - by rewrite !Z.add_0_r.
  - rewrite Z.add_assoc. by apply sv_tick.
  - rewrite Z.add_assoc. by apply sv_work.
  - rewrite Z.add_assoc. by apply sv_ack.
Qed.

(** One round: the worker injects, the guest acknowledges. *)
Lemma serve_round s : vm_ok s -> settled s -> irq_ack (pit s) = true -> 0 < pit_pending (pit s) ->
  exists s1, run_work s = Ok s1 /\ let s2 := on_pit kvm_pit_ack_irq s1 in
    vm_ok s2 /\ settled s2 /\ irq_ack (pit s2) = true /\ pit_pending (pit s2) = pit_pending (pit s) - 1 /\
    work_queued (pit s2) = (0 <? pit_pending (pit s) - 1) /\ service s s2 0 1 1.
Proof.
  intros Hs Hn Ha Hp. assert (Hpit : pit_ok (pit s)) by apply Hs.
  pose proof (po_work _ Hpit Ha Hp) as Hw. destruct (run_work_op _ s Hs eq_refl) as (s1 & E & Hg).
  destruct (run_work_pit s s1 Hn E) as [S1 Ep]. rewrite Hw in Ep. exists s1. split; [done|].
  pose proof (sv_work s s s1 0 0 0 (sv_start s) E) as Hv. rewrite Hw, Ha in Hv. cbn in Hv.
  pose proof (sv_ack s s1 0 1 0 Hv) as Hv2. rewrite Ep in Hv2. specialize (Hv2 eq_refl). intros s2.
  pose proof (po_pending _ Hpit) as Hr.
  assert (E2 : pit s2 = with_pending (pit_pending (pit s) - 1) true (if 0 <? pit_pending (pit s) - 1 then true else false) (pit s)).
  { change (pit s2) with (kvm_pit_ack_irq (pit s1)). rewrite Ep. unfold kvm_pit_ack_irq. cbn [pit_pending with_pending work_queued].
    rewrite s32_id by lia. by rewrite (proj2 (Z.ltb_ge _ 0)) by lia. }
  split; [by apply (service_vm_ok s _ _ _ _ Hs Hv2)|]. rewrite E2. cbn [pit_pending with_pending work_queued irq_ack].
  split; [done|]. split; [done|]. split; [done|]. split; [by destruct (0 <? _)|done].
Qed.

(** C16: The guest catches up: when [n] ticks wait and none is in flight, [n]
    rounds in which the worker thread runs and the guest acknowledges inject
    exactly [n] interrupts and leave the timer with nothing to do. *)
Theorem pit_catches_up n s : vm_ok s -> settled s -> irq_ack (pit s) = true -> pit_pending (pit s) = Z.of_nat (S n) ->
  exists s', serve_ticks (S n) s = Ok s' /\ pit_idle (pit s') /\ service s s' 0 (Z.of_nat (S n)) (Z.of_nat (S n)).
Proof.
  revert s. induction n as [|n IH]; intros s Hs Hn Ha Hp; destruct (serve_round s Hs Hn Ha) as (s1 & E & H2 & Hn2 & Ha2 & Hp2 & Hw2 & Hv);
    try lia; cbn [serve_ticks]; rewrite E; cbn [mbind res_bind].
  - eexists. split; [done|]. split; [|done]. rewrite Hp in *. by split.
  - destruct (IH _ H2 Hn2 Ha2) as (s' & E' & Hi & Hv'); [lia|]. exists s'. split; [exact E'|]. split; [done|].
    pose proof (service_trans _ _ _ _ _ _ _ _ _ Hv Hv') as Ht.
    by replace (0 + 0) with 0 in Ht by lia; replace (1 + Z.of_nat (S n)) with (Z.of_nat (S (S n))) in Ht by lia.
Qed.

Lemma pit_catches_up_witness :
  exists s', serve_ticks 2 two_ticks = Ok s' /\ pit_idle (pit s') /\ service two_ticks s' 0 2 2.
Proof.
  apply (pit_catches_up 1 two_ticks); [|reflexivity|reflexivity|reflexivity].
  exact (service_vm_ok _ _ _ _ _ demo_pit_vm_ok two_ticks_service).
Defined.

(** ** The counters *)

(** One tick of the chip's clock, for a binary counter that was loaded with
    [n]: the modes that are not periodic count down and go round, the rate
    generator counts down to 1 and is loaded again, and the square wave, with
    an even count, goes down by two and is loaded again after 2. *)
Definition clock_tick (m n v : Z) : Z :=
  if bool_decide (m ∈ [0; 1; 4; 5]) then (v - 1) mod 2 ^ 16
  else let step := if m =? 3 then 2 else 1 in if v <=? step then n else v - step.

(** The counter so many nanoseconds after it was loaded. *)
Definition ticks_in (ns : Z) : Z := ns * KVM_PIT_FREQ / NSEC_PER_SEC.
Definition counter_at (m n ns : Z) : Z := Nat.iter (Z.to_nat (ticks_in ns)) (clock_tick m n) n.

(** The same without a loop, as the code computes it. *)
Definition count_after (m n ns : Z) : Z :=
  if bool_decide (m ∈ [0; 1; 4; 5]) then (n - ticks_in ns) mod 2 ^ 16
  else if m =? 3 then n - (2 * ticks_in ns) mod n else n - ticks_in ns mod n.

Lemma ticks_in_range ns : 0 <= ns < 2 ^ 63 -> 0 <= ticks_in ns < 2 ^ 62.
Proof.
  intros Hns. unfold ticks_in, KVM_PIT_FREQ, NSEC_PER_SEC. split; [apply Z.div_pos; lia|]. apply Z.div_lt_upper_bound; lia.
Qed.

Lemma ticks_elapsed now i c p : 0 <= kpit_elapsed now i c p < 2 ^ 63 -> ticks now i c p = Ok (ticks_in (kpit_elapsed now i c p)).
Proof.
  intros He. rewrite ticks_exact. set (e := kpit_elapsed now i c p) in *. clearbody e. pose proof (ticks_in_range e He) as Hr.
  unfold u64. rewrite (Z.mod_small e) by lia. unfold ticks_in in *. rewrite Z.mod_small by lia. rewrite s64_id by lia. done.
Qed.

Lemma oneshot_ticks m n k : bool_decide (m ∈ [0; 1; 4; 5]) = true -> Nat.iter k (clock_tick m n) n mod 2 ^ 16 = (n - Z.of_nat k) mod 2 ^ 16.
Proof.
  intros Hm. induction k as [|k IH]; [by rewrite Z.sub_0_r|]. rewrite Nat.iter_succ. unfold clock_tick at 1. rewrite Hm, Z.mod_mod, Zminus_mod, IH, <- Zminus_mod by lia. f_equal. lia.
Qed.

(** A counter that goes down in steps of [d] and starts over. *)
Lemma periodic_ticks d h k : 0 < d -> 0 < h ->
  Nat.iter k (fun v => if v <=? d then d * h else v - d) (d * h) = d * h - d * (Z.of_nat k mod h).
Proof.
  intros Hd Hh. induction k as [|k IH]; [rewrite Z.mod_0_l by lia; cbn; lia|]. rewrite Nat.iter_succ, IH. set (x := Z.of_nat k mod h).
  pose proof (Z.mod_pos_bound (Z.of_nat k) h Hh) as Hx. fold x in Hx. assert (Ek : Z.of_nat (S k) mod h = (x + 1) mod h) by (unfold x; rewrite Zplus_mod_idemp_l; f_equal; lia).
  rewrite Ek. destruct (Z.leb_spec (d * h - d * x) d) as [H|H].
  - assert (x = h - 1) as -> by nia. replace (h - 1 + 1) with h by lia. rewrite Z.mod_same by lia. lia.
  - rewrite Z.mod_small by nia. lia.
Qed.

Lemma counter_formula m n ns : 0 <= m < 6 -> 0 < n -> (m = 3 -> Z.even n = true) -> 0 <= ticks_in ns -> counter_at m n ns mod 2 ^ 16 = count_after m n ns mod 2 ^ 16.
Proof.
  intros Hm Hn He Ht. unfold counter_at, count_after. set (t := ticks_in ns) in *. clearbody t. destruct (bool_decide (m ∈ [0; 1; 4; 5])) eqn:Eb.
  - rewrite oneshot_ticks, Z2Nat.id by done. symmetry. by apply Z.mod_mod.
  - unfold clock_tick. rewrite Eb. cbv zeta. f_equal. destruct (Z.eqb_spec m 3) as [E|E].
    + apply He, Z.even_spec in E as [h ->]. rewrite periodic_ticks, Z2Nat.id by lia. by rewrite Zmult_mod_distr_l.
    + pose proof (periodic_ticks 1 n (Z.to_nat t)) as H. rewrite !Z.mul_1_l in H. by rewrite H, Z2Nat.id by lia.
Qed.

Lemma get_count_exact now i p c : channel i p = Ok c -> 0 < count c <= 2 ^ 16 -> 0 <= kpit_elapsed now i c p < 2 ^ 63 ->
  pit_get_count now i p = Ok (count_after (mode c) (count c) (kpit_elapsed now i c p)).
Proof.
  intros Ec Hc He. unfold pit_get_count. rewrite Ec, bind_Ok, ticks_elapsed, bind_Ok by done.
  pose proof (ticks_in_range _ He) as Hd. unfold count_after. set (d := ticks_in _) in *. clearbody d. unfold mod_64.
  destruct (bool_decide _).
  { rewrite s64_id by lia. change 0xffff with (Z.ones 16). by rewrite Z.land_ones by lia. }
  rewrite (proj2 (Z.eqb_neq (count c) 0)) by lia.
  destruct (mode c =? 3); rewrite bind_Ok; rewrite ?(s64_id (2 * d)) by lia; rewrite Z.rem_mod_nonneg by lia; f_equal; apply s32_id.
  - pose proof (Z.mod_pos_bound (2 * d) (count c)). lia.
  - pose proof (Z.mod_pos_bound d (count c)). lia.
Qed.

(** What a guest does to program a counter, low byte first, and to read it:
    the count is latched and then read in two halves. *)
Definition control_word (i m : Z) : Z := Z.lor (Z.lor (Z.shiftl i 6) 0x30) (Z.shiftl m 1).

Definition program_counter (h : host) (i m n : Z) (s : vm kvm_pit) : res (vm kvm_pit) :=
  '(_, s) ← pit_ioport_write h 0x43 (control_word i m) s;
  '(_, s) ← pit_ioport_write h (0x40 + i) (Z.land n 0xff) s;
  '(_, s) ← pit_ioport_write h (0x40 + i) (Z.shiftr n 8) s;
  Ok s.

Definition read_counter (h : host) (i : Z) (s : vm kvm_pit) : res (option Z * option Z) :=
  '(_, s) ← pit_ioport_write h 0x43 (Z.shiftl i 6) s;
  '(_, lo, p) ← pit_ioport_read (host_now h) (0x40 + i) 1 (pit s);
  '(_, hi, _) ← pit_ioport_read (host_now h) (0x40 + i) 1 p;
  Ok (lo, hi).

(** The ports of one counter. *)
Lemma counter_port i : 0 <= i < 3 -> pit_in_range (0x40 + i) = true /\ Z.land (0x40 + i) KVM_PIT_CHANNEL_MASK = i.
Proof. intros Hi. assert (i = 0 \/ i = 1 \/ i = 2) as [->|[->| ->]] by lia; done. Qed.

Lemma control_fields i m c : 0 <= i < 3 -> 0 <= m < 6 ->
  Z.land (control_word i m) 0xff = control_word i m /\ Z.shiftr (control_word i m) 6 = i /\
  Z.land (Z.shiftr (control_word i m) 4) KVM_PIT_CHANNEL_MASK = 3 /\
  select_mode (control_word i m) c =
    Channel (count c) (latched_count c) (count_latched c) (status_latched c) (status c) 3 3 (write_latch c) 3 m 0 (gate c)
      (count_load_time c).
Proof.
  intros Hi Hm. assert (i = 0 \/ i = 1 \/ i = 2) as [->|[->| ->]] by lia;
    (assert (m = 0 \/ m = 1 \/ m = 2 \/ m = 3 \/ m = 4 \/ m = 5) as [->|[->|[->|[->|[->| ->]]]]] by lia; done).
Qed.

Lemma write_mode h i m s c : 0 <= i < 3 -> 0 <= m < 6 -> channel i (pit s) = Ok c ->
  pit_ioport_write h 0x43 (control_word i m) s = Ok (0, on_pit (set_channel i (select_mode (control_word i m) c)) s).
Proof.
  intros Hi Hm Hc. destruct (control_fields i m c Hi Hm) as (E1 & E2 & E3 & _). unfold pit_ioport_write.
  change (pit_in_range 0x43) with true. cbn [negb]. rewrite E1. cbv zeta. change (Z.land 0x43 KVM_PIT_CHANNEL_MASK =? 3) with true.
  cbv iota. unfold write_control. rewrite E2, E3, (proj2 (Z.eqb_neq i 3)) by lia. cbv zeta. change (3 =? 0) with false. cbv iota.
  by rewrite Hc.
Qed.

Lemma channel_set i c p : length (channels p) = 3%nat -> 0 <= i < 3 -> channel i (set_channel i c p) = Ok c.
Proof. intros Hl Hi. unfold channel. cbn. rewrite list_lookup_insert_eq; [done|lia]. Qed.

Lemma set_channel_twice i c c' p : set_channel i c (set_channel i c' p) = set_channel i c p.
Proof. unfold set_channel, with_channels. cbn. by rewrite list_insert_insert_eq. Qed.

(** A write to a counter's port reaches the counter. *)
Lemma counter_write h i val s s' : 0 <= i < 3 -> write_count h i (Z.land val 0xff) s = Ok s' ->
  pit_ioport_write h (0x40 + i) val s = Ok (0, s').
Proof.
  intros Hi E. destruct (counter_port i Hi) as [E1 E2]. unfold pit_ioport_write. rewrite E1, E2. cbn [negb]. cbv zeta.
  rewrite (proj2 (Z.eqb_neq i 3)) by lia. by rewrite E.
Qed.

(** The counter after it was programmed. *)
Definition programmed (now m n : Z) (c : kvm_kpit_channel_state) : kvm_kpit_channel_state :=
  Channel (loaded n) (latched_count c) (count_latched c) (status_latched c) (status c) 3 3 (Z.land n 0xff) 3 m 0 (gate c) now.

Lemma program_counter_eq h i m n s c : 1 <= i < 3 -> 0 <= m < 6 -> 0 <= n < 2 ^ 16 -> length (channels (pit s)) = 3%nat ->
  channel i (pit s) = Ok c ->
  program_counter h i m n s = Ok (on_pit (set_channel i (programmed (host_now h) m n c)) s).
Proof.
  intros Hi Hm Hn Hl Hc. unfold program_counter. rewrite (write_mode h i m s c) by (done || lia). cbn [mbind res_bind].
  destruct (control_fields i m c) as (_ & _ & _ & ->); [lia|done|].
  assert (Hlo : Z.land (Z.land n 0xff) 0xff = Z.land n 0xff) by (by rewrite <- Z.land_assoc).
  assert (Hhi : Z.land (Z.shiftr n 8) 0xff = Z.shiftr n 8).
  { change 0xff with (Z.ones 8). rewrite Z.land_ones, Z.shiftr_div_pow2 by lia. apply Z.mod_small.
    split; [apply Z.div_pos; lia|apply Z.div_lt_upper_bound; lia]. }
  set (c1 := Channel _ _ _ _ _ _ _ _ _ _ _ _ _). set (s1 := on_pit (set_channel i c1) s).
  assert (Hc1 : channel i (pit s1) = Ok c1) by (apply channel_set; [done|lia]).
  set (c2 := set_write (Z.land n 0xff) RW_STATE_WORD1 c1). set (s2 := on_pit (set_channel i c2) s1).
  rewrite (counter_write h i (Z.land n 0xff) s1 s2); [|lia|unfold write_count; by rewrite Hlo, Hc1]. cbn [mbind res_bind].
  assert (Hl1 : length (channels (pit s1)) = 3%nat) by (unfold s1; cbn; by rewrite length_insert).
  assert (Hl2 : length (channels (pit s2)) = 3%nat) by (unfold s2; cbn; by rewrite !length_insert).
  assert (Hc2 : channel i (pit s2) = Ok c2) by (apply channel_set; [done|lia]).
  set (c3 := set_load_time (host_now h) (set_count (loaded n) c2)). set (s3 := on_pit (set_channel i c3) s2).
  assert (Hc3 : channel i (pit s3) = Ok c3) by (apply channel_set; [done|lia]).
  set (c4 := set_write (Z.land n 0xff) RW_STATE_WORD0 c3). set (s4 := on_pit (set_channel i c4) s3).
  rewrite (counter_write h i (Z.shiftr n 8) s2 s4); [|lia|].
  - cbn [mbind res_bind]. unfold s4, s3, s2, s1. unfold on_pit, on_dev. cbn. by rewrite !set_channel_twice.
  - unfold write_count. rewrite Hhi, Hc2. cbn [mbind res_bind]. change (write_state c2 =? RW_STATE_MSB) with false.
    change (write_state c2 =? RW_STATE_WORD0) with false. change (write_state c2 =? RW_STATE_WORD1) with true. cbv iota.
    change (write_latch c2) with (Z.land n 0xff). replace (Z.lor (Z.land n 0xff) (Z.shiftl (Z.shiftr n 8) 8)) with n.
    { unfold pit_load_count. fold (loaded n). rewrite Hc2. cbn [mbind res_bind]. cbv zeta.
      rewrite (proj2 (Z.eqb_neq i 0)) by lia. cbn [negb]. fold c3 s3. cbn [mbind res_bind]. by rewrite Hc3. }
    rewrite lor_word16; [|apply land_byte|].
    + change 0xff with (Z.ones 8). rewrite Z.land_ones, Z.shiftr_div_pow2 by lia. pose proof (Z.div_mod n (2 ^ 8)). lia.
    + rewrite <- Hhi. apply land_byte.
Qed.

(** The counter with its count latched. *)
Definition latched (v : Z) (c : kvm_kpit_channel_state) : kvm_kpit_channel_state :=
  Channel (count c) v 3 (status_latched c) (status c) (read_state c) (write_state c) (write_latch c) 3 (mode c) (bcd c) (gate c)
    (count_load_time c).

Lemma latch_write h i s c v : 0 <= i < 3 -> channel i (pit s) = Ok c -> count_latched c = 0 -> rw_mode c = 3 ->
  pit_get_count (host_now h) i (pit s) = Ok v ->
  pit_ioport_write h 0x43 (Z.shiftl i 6) s = Ok (0, on_pit (set_channel i (latched (u16 v) c)) s).
Proof.
  intros Hi Hc Hl Hrw Hv. unfold pit_ioport_write. change (pit_in_range 0x43) with true. cbn [negb]. cbv zeta.
  change (Z.land 0x43 KVM_PIT_CHANNEL_MASK =? 3) with true. cbv iota. unfold write_control. cbv zeta.
  assert (Ew : Z.land (Z.shiftl i 6) 0xff = Z.shiftl i 6 /\ Z.shiftr (Z.shiftl i 6) 6 = i /\
    Z.land (Z.shiftr (Z.shiftl i 6) 4) KVM_PIT_CHANNEL_MASK = 0)
    by (assert (i = 0 \/ i = 1 \/ i = 2) as [->|[->| ->]] by lia; done).
  destruct Ew as (E1 & E2 & E3). rewrite E1, E2, E3, (proj2 (Z.eqb_neq i 3)) by lia. change (0 =? 0) with true. cbv iota.
  unfold pit_latch_count. rewrite Hc, bind_Ok, Hl. cbn [Z.eqb negb]. rewrite Hv, bind_Ok, bind_Ok, bind_Ok, Hrw. done.
Qed.

Lemma counter_read now i p r c : 0 <= i < 3 -> read_channel now i p = Ok (r, c) -> 0 <= r < 2 ^ 8 ->
  pit_ioport_read now (0x40 + i) 1 p = Ok (0, Some r, set_channel i c p).
Proof.
  intros Hi E Hr. destruct (counter_port i Hi) as [E1 E2]. unfold pit_ioport_read. rewrite E1, E2. cbn [negb]. cbv zeta.
  rewrite (proj2 (Z.eqb_neq i 3)) by lia. rewrite E, bind_Ok. unfold int_bytes. change (Z.ones (8 * Z.min 1 4)) with (Z.ones 8).
  rewrite Z.land_ones, Z.mod_small by lia. done.
Qed.

(** Two reads give the latched count. *)
Lemma read_latched now i p c v : 0 <= i < 3 -> length (channels p) = 3%nat -> 0 <= v < 2 ^ 16 -> status_latched c = 0 ->
  exists p' p'', pit_ioport_read now (0x40 + i) 1 (set_channel i (latched v c) p) = Ok (0, Some (v mod 2 ^ 8), p') /\
    pit_ioport_read now (0x40 + i) 1 p' = Ok (0, Some (v / 2 ^ 8), p'').
Proof.
  intros Hi Hl Hv Hs. set (c1 := latched v c). set (c2 := set_latches RW_STATE_MSB 0 (read_state c1) c1).
  set (p1 := set_channel i c1 p). set (p2 := set_channel i c2 p1).
  assert (Hl1 : length (channels p1) = 3%nat) by (unfold p1; cbn; by rewrite length_insert).
  assert (Hr1 : read_channel now i p1 = Ok (v mod 2 ^ 8, c2)).
  { unfold read_channel, p1. rewrite channel_set, bind_Ok by done. change (status_latched c1) with (status_latched c). rewrite Hs.
    change (count_latched c1) with 3. cbn [Z.eqb negb]. change (3 =? RW_STATE_MSB) with false. change (3 =? RW_STATE_WORD0) with true.
    cbv iota. change (latched_count c1) with v. change 0xff with (Z.ones 8). by rewrite Z.land_ones by lia. }
  assert (Hr2 : read_channel now i p2 = Ok (v / 2 ^ 8, set_latches 0 0 (read_state c2) c2)).
  { unfold read_channel, p2. rewrite channel_set, bind_Ok by done. change (status_latched c2) with 0.
    change (count_latched c2) with 2. cbn [Z.eqb negb]. change (2 =? RW_STATE_MSB) with true. cbv iota.
    change (latched_count c2) with v. by rewrite Z.shiftr_div_pow2 by lia. }
  do 2 eexists. split.
  - apply counter_read; [done|exact Hr1|apply Z.mod_pos_bound; lia].
  - apply counter_read; [done|exact Hr2|split; [apply Z.div_pos; lia|apply Z.div_lt_upper_bound; lia]].
Qed.

(** C15: The second and the third counter can be read back: after a guest
    programs one of them in a mode, binary, with a count, even for the square
    wave, and with nothing latched, latching it [t] nanoseconds later and
    reading its port twice gives the low and the high byte of the value the
    counter has after as many ticks of its clock - for a counter with its gate
    open, started when the count was written - with no overflow for any [t]
    that fits the host's clock. *)
Theorem counter_roundtrip h h' i m n s c : vm_ok s -> 1 <= i < 3 -> 0 <= m < 6 -> 0 <= n < 2 ^ 16 -> (m = 3 -> Z.even n = true) -> channel i (pit s) = Ok c ->
  count_latched c = 0 -> status_latched c = 0 -> 0 <= host_now h' - host_now h < 2 ^ 63 ->
  let v := counter_at m (loaded n) (host_now h' - host_now h) mod 2 ^ 16 in
  (s ← program_counter h i m n s; read_counter h' i s) = Ok (Some (v mod 2 ^ 8), Some (v / 2 ^ 8)).
Proof.
  intros Hs Hi Hm Hn Hev Hc Hcl Hsl Ht v. assert (Hl : length (channels (pit s)) = 3%nat) by apply (do_device _ (vo_dev _ Hs)).
  rewrite (program_counter_eq h i m n s c), bind_Ok by done. set (c1 := programmed (host_now h) m n c).
  set (s1 := on_pit (set_channel i c1) s). unfold read_counter.
  assert (Hc1 : channel i (pit s1) = Ok c1) by (apply channel_set; [done|lia]).
  assert (He : kpit_elapsed (host_now h') i c1 (pit s1) = host_now h' - host_now h)
    by (unfold kpit_elapsed; by rewrite (proj2 (Z.eqb_neq i 0)) by lia).
  assert (Hcount : 0 < count c1 <= 2 ^ 16) by (cbn; unfold loaded; destruct (Z.eqb_spec n 0); lia).
  assert (Ev : v = u16 (count_after m (loaded n) (host_now h' - host_now h))).
  { apply counter_formula; [done|apply Hcount| |by apply ticks_in_range]. intros E. unfold loaded. destruct (n =? 0); [done|by apply Hev]. }
  clearbody v. subst v. set (v := u16 _).
  rewrite (latch_write h' i s1 c1 (count_after m (loaded n) (host_now h' - host_now h))); try done; [|lia|].
  2: { rewrite (get_count_exact _ _ _ c1), He by (done || by rewrite He). done. }
  rewrite bind_Ok. destruct (read_latched (host_now h') i (pit s1) c1 v) as (p' & p'' & E1 & E2); try done.
  { lia. } { unfold s1. cbn. by rewrite length_insert. } { apply Z.mod_pos_bound. lia. }
  change (pit (on_pit (set_channel i (latched (u16 (count_after m (loaded n) (host_now h' - host_now h))) c1)) s1))
    with (set_channel i (latched v c1) (pit s1)). rewrite E1, bind_Ok, E2, bind_Ok. done.
Qed.

(** A square wave in its 200th period. *)
Lemma counter_roundtrip_witness :
  (s ← program_counter (demo_host 1000) 2 3 12 demo_pit_vm; read_counter (demo_host 1003000) 2 s) = Ok (Some 10, Some 0).
Proof.
  replace (Some 10) with (Some ((counter_at 3 (loaded 12) 1002000 mod 2 ^ 16) mod 2 ^ 8)) by (vm_compute; reflexivity).
  replace (Some 0) with (Some ((counter_at 3 (loaded 12) 1002000 mod 2 ^ 16) / 2 ^ 8)) by (vm_compute; reflexivity).
  exact (counter_roundtrip (demo_host 1000) (demo_host 1003000) 2 3 12 demo_pit_vm _ demo_pit_vm_ok ltac:(lia) ltac:(lia) ltac:(lia)
    (fun _ => eq_refl) eq_refl eq_refl eq_refl ltac:(cbn; lia)).
Defined.

(** With an odd count the square wave reads values the chip does not have: it
    counts from the count less one, and never shows an odd value. *)
Lemma odd_square_wave :
  (s ← program_counter (demo_host 0) 2 3 5 demo_pit_vm; read_counter (demo_host 1000) 2 s) = Ok (Some 3, Some 0).
Proof. vm_compute. reflexivity. Qed.

Lemma kvm_create_pit_correct_witness :
  exists s', kvm_create_pit (HostOk true true true true) (demo_host 7) 1 demo_pit_vm = Ok (true, s') /\
    irq_sources_bitmap (dev s') = 7 /\ ack_gsis (dev s') = [0; 0] /\ pit s' = reset_pit 7 1.
Proof.
  destruct (kvm_create_pit_correct (HostOk true true true true) (demo_host 7) 1 demo_pit_vm demo_pit_vm_ok) as (r & s' & E & _ & H).
  destruct r.
  - exists s'. split; [exact E|]. destruct H as (id & Hb & Hid & Eb & Ea & Ep).
    assert (E' : (id_of ← kvm_create_pit (HostOk true true true true) (demo_host 7) 1 demo_pit_vm; Ok (irq_source_id (pit id_of.2))) = Ok 1)
      by (vm_compute; reflexivity).
    rewrite E in E'. cbn in E'. rewrite Ep in E'. cbn in E'. injection E' as ->. split; [exact Eb|]. split; [exact Ea|exact Ep].
  - exfalso. destruct H as (_ & _ & [H|[H|[H|[H|[_ H]]]]]); [|vm_compute in H|..]; discriminate H.
Defined.

(** The period of a timer with a small count is limited, but it first
    fires after the count itself, and the counter starts in the middle of
    its period. *)
Lemma first_interval_not_limited :
  (s ← create_pit_timer (demo_host 0) 1 true demo_pit_vm; Ok (pit_period (pit s), timer_expires (pit s), __kpit_elapsed 0 (pit s)))
  = Ok (500000, 838, 499162).
Proof. vm_compute. reflexivity. Qed.
