(* ===== verification/Hypercall.v ===== *)
(** * Hypercalls and the guest's encryption driver
      (kvm-kmod x86/x86.c, programs/kvm_crypto_mod)

    The dispatch of a guest's hypercall, and the driver in the guest that
    uses it: a character device that copies a user's buffer into guest
    memory, asks the host to encrypt or decrypt it, and copies the result
    back. *)

From coqutil Require Import Byte Word.LittleEndianList.
From S2P Require Import Prelude MemSlots GuestCopy Lapic ApicBus KvmCrypto.

(** ** The dispatch *)

Definition KVM_HC_VAPIC_POLL_IRQ : Z := 1.
Definition KVM_HC_KICK_CPU : Z := 5.
Definition KVM_HC_CRYPTO : Z := 15.
Definition KVM_ENOSYS : Z := 1000.
Definition KVM_EPERM : Z := 1.
Definition HV_X64_MSR_HYPERCALL_ENABLE : Z := 1.
Definition HV_X64_HV_NOTIFY_LONG_SPIN_WAIT : Z := 8.
Definition HV_STATUS_SUCCESS : Z := 0.
Definition HV_STATUS_INVALID_HYPERCALL_CODE : Z := 2.

(** The registers a hypercall uses. *)
Record vregs := Vregs { rax : Z; rbx : Z; rcx : Z; rdx : Z; rsi : Z }.
Definition with_rax (x : Z) (r : vregs) : vregs := Vregs x (rbx r) (rcx r) (rdx r) (rsi r).
Definition with_rdx (x : Z) (r : vregs) : vregs := Vregs (rax r) (rbx r) (rcx r) x (rsi r).

(** The state of the processor that decides who may call what. *)
Record cpu_mode := CpuMode { cpl : Z; protmode : bool; long_mode : bool; cs_l : bool; hv_hypercall : Z }.

(** Guest memory, the pool of the encryption service, and the processors. *)
Record machine := Machine { slots : kvm_memslots; mem : umem; service_pool : pool; cpus : bus }.

Definition kvm_hv_hypercall_enabled (m : cpu_mode) : bool :=
  negb (Z.land (hv_hypercall m) HV_X64_MSR_HYPERCALL_ENABLE =? 0).

(** The result is 0 when an exception was queued instead.  A long spin wait
    only gives up the host's processor. *)
Definition kvm_hv_hypercall (m : cpu_mode) (r : vregs) : Z * vregs :=
  if negb (cpl m =? 0) || negb (protmode m) then (0, r)
  else
    let longmode := long_mode m && cs_l m in
    let param := if negb longmode then Z.lor (u64 (Z.shiftl (rdx r) 32)) (Z.land (rax r) 0xffffffff) else rcx r in
    let code := Z.land param 0xffff in
    let res := if code =? HV_X64_HV_NOTIFY_LONG_SPIN_WAIT then HV_STATUS_SUCCESS else HV_STATUS_INVALID_HYPERCALL_CODE in
    let ret := res in
    (1, if longmode then with_rax ret r else with_rax (Z.land ret 0xffffffff) (with_rdx (Z.shiftr ret 32) r)).

(** [junk] are the fields of the message that are not initialised. *)
Definition kvm_pv_kick_cpu_op (junk : Z * Z * Z) (apicid : Z) (b : bus) : res bus :=
  let '(vec, lv, trig) := junk in
  '(_, b, _) ← kvm_irq_delivery_to_apic b None (LapicIrq vec APIC_DM_REMRD 0 lv trig 0 (u32 apicid)) ∅;
  Ok b.

Section hypercall.
  Context (encrypt_one decrypt_one : list byte -> list byte) (kmalloc_ok : Z -> bool) (junk : Z * Z * Z).

(** What a hypercall does by its number. *)
Definition dispatch (nr a0 a1 : Z) (w : machine) : res (Z * machine) :=
  if nr =? KVM_HC_VAPIC_POLL_IRQ then Ok (0, w)
  else if nr =? KVM_HC_KICK_CPU then
    b ← kvm_pv_kick_cpu_op junk (s32 a1) (cpus w);
    Ok (0, Machine (slots w) (mem w) (service_pool w) b)
  else if nr =? KVM_HC_CRYPTO then
    '(k, um, ret, p) ← crypto_produce_job encrypt_one decrypt_one kmalloc_ok (slots w) (mem w) a0 (s32 a1) (service_pool w);
    Ok (ret, Machine k um p (cpus w))
  else Ok (- KVM_ENOSYS, w).

Definition kvm_emulate_hypercall (m : cpu_mode) (r : vregs) (w : machine) : res (Z * vregs * machine) :=
  if kvm_hv_hypercall_enabled m then Ok (kvm_hv_hypercall m r, w)
  else
    let arg x := if negb (long_mode m) then Z.land x 0xFFFFFFFF else x in
    '(ret, w) ← (if negb (cpl m =? 0) then Ok (- KVM_EPERM, w) else dispatch (arg (rax r)) (arg (rbx r)) (arg (rcx r)) w);
    Ok (1, with_rax (u64 ret) r, w).
End hypercall.

(** ** The driver in the guest *)

(** A block of memory the guest's allocator gave, by its physical address. *)
Record gbuf := Gbuf { gbase : Z; gsize : Z }.

(** The guest's memory and that of the user's process. *)
Record guest := Guest { host_machine : machine; user : umem }.
Definition with_mem (um : umem) (g : guest) : guest :=
  let w := host_machine g in Guest (Machine (slots w) um (service_pool w) (cpus w)) (user g).

(** [kmalloc] of a size; the size is unsigned there, so a negative one is
    too large. *)
Definition kmalloc (a : option Z) (n : Z) : option gbuf := if n <? 0 then None else (fun p => Gbuf p n) <$> a.

(** A store of the guest kernel through a pointer. *)
Definition poke (b : option gbuf) (bs : list byte) (g : guest) : res guest :=
  match b with
  | None => match bs with [] => Ok g | _ => Err BadPointer end
  | Some b =>
      if gsize b <? Z.of_nat (length bs) then Err BufferOverflow
      else match flat_write (slots (host_machine g)) (mem (host_machine g)) (gbase b) bs with
           | Some um => Ok (with_mem um g)
           | None => Err BadPointer
           end
  end.

(** A load. *)
Definition peek (b : option gbuf) (n : Z) (g : guest) : res (list byte) :=
  match b with
  | None => if n =? 0 then Ok [] else Err BadPointer
  | Some b =>
      if (n <? 0) || (gsize b <? n) then Err BufferOverflow
      else match flat_read (slots (host_machine g)) (mem (host_machine g)) (gbase b) (Z.to_nat n) with
           | Some bs => Ok bs
           | None => Err BadPointer
           end
  end.

Definition memset_zero (b : option gbuf) (n : Z) (g : guest) : res guest :=
  if n <? 0 then Err BufferOverflow else poke b (replicate (Z.to_nat n) Byte.x00) g.

(** The guest's [copy_from_user]: from the first byte that is not mapped on
    the copy is zero. *)
Fixpoint user_bytes (um : umem) (a : Z) (n : nat) : list byte :=
  match n with
  | O => []
  | S n => match um !! a with
           | Some b => b :: user_bytes um (a + 1) n
           | None => replicate (S n) Byte.x00
           end
  end.

Definition physical (b : option gbuf) : Z := match b with Some b => gbase b | None => 0 end.

Definition vm_job_bytes (j : vm_job) : list byte :=
  le_split 8 (input_gpa j) ++ le_split 8 (output_gpa j) ++ le_split 4 (vlen j) ++ le_split 4 (voperation j).

(** What the allocator answers to the three requests, and what the compiler
    has put above the 32-bit result on the stack, where the 64-bit move of the
    register to it ends: [a_spare] for nothing that is in use. *)
Record answers := Answers { a_vjob : option Z; a_input : option Z; a_output : option Z; a_spare : bool }.

(** A user's request; [js_len] gives the length each time the driver reads
    it from the user's memory.  [js_hi] is what lies above the 32-bit length of
    the job on the stack, which the 64-bit move into the register reads. *)
Record job_struct := JobStruct { js_input : Z; js_output : Z; js_len : nat -> Z; js_hi : Z }.

Section driver.
  Context (encrypt_one decrypt_one : list byte -> list byte) (kmalloc_ok : Z -> bool) (junk : Z * Z * Z).

(** The guest kernel runs in ring 0 of long mode, without the interface of
    another hypervisor. *)
Definition guest_kernel : cpu_mode := CpuMode 0 true true true 0.

Definition submit_job (al : answers) (js : job_struct) (operation : Z) (g : guest) : res guest :=
  let vjob := kmalloc (a_vjob al) (Z.of_nat sizeof_vm_job) in
  let input := kmalloc (a_input al) (js_len js 0) in
  let output := kmalloc (a_output al) (js_len js 1) in
  g ← memset_zero input (js_len js 2) g;
  g ← memset_zero output (js_len js 3) g;
  g ← (if js_len js 4 <? 0 then Err BufferOverflow
       else poke input (user_bytes (user g) (js_input js) (Z.to_nat (js_len js 4))) g);
  g ← poke vjob (vm_job_bytes (VmJob (physical input) (physical output) (js_len js 5) operation)) g;
  let r := Vregs KVM_HC_CRYPTO (physical vjob) (Z.of_nat sizeof_vm_job + 2 ^ 32 * js_hi js) 0 0 in
  '(_, _, w) ← kvm_emulate_hypercall encrypt_one decrypt_one kmalloc_ok junk guest_kernel r (host_machine g);
  let g := Guest w (user g) in
  if negb (a_spare al) then Err BufferOverflow else
  bs ← peek output (js_len js 6) g;
  Ok (Guest w (copy_to_user (user g) (js_output js) bs).1).

(** [_IOWR(KC_IO_MAGIC, nr, struct job_struct)] *)
Definition KC_IOENC : Z := Z.lor (Z.lor (Z.shiftl 3 30) (Z.shiftl 24 16)) (Z.lor (Z.shiftl 0xAF 8) 0xE1).
Definition KC_IODEC : Z := Z.lor (Z.lor (Z.shiftl 3 30) (Z.shiftl 24 16)) (Z.lor (Z.shiftl 0xAF 8) 0xE2).

Definition ioctl_dev_ioctl (al : answers) (cmd : Z) (js : job_struct) (g : guest) : res (Z * guest) :=
  g ← (if cmd =? KC_IOENC then submit_job al js KVM_ENCRYPTION g
       else if cmd =? KC_IODEC then submit_job al js KVM_DECRYPTION g
       else Ok g);
  Ok (0, g).

(** The sample program: a buffer is encrypted, and the result decrypted. *)
Definition user_main (al al' : answers) (input output output2 len hi hi' : Z) (g : guest) : res guest :=
  '(_, g) ← ioctl_dev_ioctl al KC_IOENC (JobStruct input output (fun _ => len) hi) g;
  '(_, g) ← ioctl_dev_ioctl al' KC_IODEC (JobStruct output output2 (fun _ => len) hi') g;
  Ok g.
End driver.

(** ** The guest's memory as the guest sees it *)

Definition view (k : kvm_memslots) (um : umem) (g : Z) : option byte := a ← guest_hva k true g; um !! a.

(** No two guest addresses share a byte of the host. *)
Definition hva_inj (k : kvm_memslots) : Prop :=
  forall g g' a, guest_hva k true g = Some a -> guest_hva k true g' = Some a -> g = g'.

Definition backed (k : kvm_memslots) (um : umem) (g : Z) (n : Z) : Prop :=
  forall i, 0 <= i < n -> is_Some (view k um (g + i)).

Lemma backed_tail k um g n : backed k um g (1 + n) -> backed k um (g + 1) n.
Proof. intros H i Hi. rewrite <- Z.add_assoc. apply H. lia. Qed.

(** A store changes the bytes it names. *)
Lemma flat_write_view k : hva_inj k -> forall bs um g, backed k um g (Z.of_nat (length bs)) ->
  exists um', flat_write k um g bs = Some um' /\
    forall x, view k um' x = if decide (g <= x < g + Z.of_nat (length bs)) then bs !! Z.to_nat (x - g) else view k um x.
Proof.
  intros Hinj. induction bs as [|b bs IH]; intros um g Hb; cbn [flat_write].
  { exists um. split; [done|]. intros x. rewrite decide_False; [done|]. cbn. lia. }
  assert (Hg : is_Some (view k um (g + 0))) by (apply Hb; cbn; lia). rewrite Z.add_0_r in Hg.
  unfold view in Hg. destruct (guest_hva k true g) as [a|] eqn:Ea; [|by destruct Hg]. cbn in Hg. destruct Hg as [c Hc].
  cbn. rewrite Hc. cbn.
  assert (Hv : forall x, view k (<[a := b]> um) x = if decide (x = g) then Some b else view k um x).
  { intros x. unfold view. destruct (decide (x = g)) as [->|Hne]; [rewrite Ea; cbn; by rewrite lookup_insert_eq|].
    destruct (guest_hva k true x) as [a'|] eqn:Ea'; [|done]. cbn. rewrite lookup_insert_ne; [done|].
    intros ->. apply Hne. by eapply Hinj. }
  destruct (IH (<[a := b]> um) (g + 1)) as (um' & -> & H).
  { intros i Hi. rewrite Hv. case_decide; [by eexists|]. rewrite <- Z.add_assoc. apply Hb. cbn. lia. }
  exists um'. split; [done|]. intros x. rewrite H, Hv. cbn [length]. destruct (decide (x = g)) as [->|Hne].
  - rewrite decide_False by lia. rewrite decide_True by lia. by rewrite Z.sub_diag.
  - destruct (decide (g + 1 <= x < g + 1 + Z.of_nat (length bs))).
    + rewrite decide_True by lia. replace (Z.to_nat (x - g)) with (S (Z.to_nat (x - (g + 1)))) by lia. done.
    + by rewrite decide_False by lia.
Qed.

Lemma flat_read_view k um bs : forall g, (forall i b, bs !! i = Some b -> view k um (g + Z.of_nat i) = Some b) ->
  flat_read k um g (length bs) = Some bs.
Proof.
  induction bs as [|b bs IH]; intros g H; [done|]. cbn [length flat_read].
  pose proof (H O b eq_refl) as Hb. rewrite Z.add_0_r in Hb. unfold view in Hb.
  destruct (guest_hva k true g) as [a|] eqn:Ea; [|done]. cbn in Hb. rewrite (guest_hva_write_read _ _ _ Ea). cbn. rewrite Hb. cbn.
  rewrite (IH (g + 1)); [done|]. intros i b' Hi. replace (g + 1 + Z.of_nat i) with (g + Z.of_nat (S i)) by lia. by apply H.
Qed.

Lemma view_same_hva k k' um : (forall w g, guest_hva k' w g = guest_hva k w g) -> forall g, view k' um g = view k um g.
Proof. intros H g. unfold view. by rewrite H. Qed.

(** ** A request of the driver *)

(** The blocks a request is given: they are there, apart from each other,
    and their addresses fit. *)
Record request_ready (al : answers) (v i o n : Z) (w : machine) : Prop := {
  rr_answers : al = Answers (Some v) (Some i) (Some o) true;
  rr_low : 0 <= v /\ 0 <= i /\ 0 <= o;
  rr_high : v < 2 ^ 64 /\ i < 2 ^ 64 /\ o < 2 ^ 64;
  rr_inj : hva_inj (slots w);
  rr_backed : backed (slots w) (mem w) v 24 /\ backed (slots w) (mem w) i n /\ backed (slots w) (mem w) o n;
  rr_apart : (v + 24 <= i \/ i + n <= v) /\ (v + 24 <= o \/ o + n <= v) /\ (i + n <= o \/ o + n <= i)
}.

(** The memory has the same addresses and still has them all. *)
Record same_memory (w w' : machine) : Prop := {
  sm_hva : forall wr g, guest_hva (slots w') wr g = guest_hva (slots w) wr g;
  sm_mapped : forall g, is_Some (view (slots w) (mem w) g) -> is_Some (view (slots w') (mem w') g);
  sm_cpus : cpus w' = cpus w
}.

Lemma same_memory_refl w : same_memory w w.
Proof. by split. Qed.

Lemma same_memory_trans w1 w2 w3 : same_memory w1 w2 -> same_memory w2 w3 -> same_memory w1 w3.
Proof. intros [A1 A2 A3] [B1 B2 B3]. split; [by intros; rewrite B1|auto|congruence]. Qed.

Lemma ready_same al v i o n w w' : request_ready al v i o n w -> same_memory w w' -> request_ready al v i o n w'.
Proof.
  intros [H1 H2 H3 H4 (H5 & H6 & H7) H8] [E1 E2 _]. split; try done.
  - intros g g' a. rewrite !E1. apply H4.
  - repeat split; intros j Hj; apply E2; auto.
Qed.

Definition bytes_in (a : Z) (bs : list byte) (f : Z -> option byte) (x : Z) : option byte :=
  if decide (a <= x < a + Z.of_nat (length bs)) then bs !! Z.to_nat (x - a) else f x.

(** A store into a block that is large enough. *)
Lemma poke_ok p n bs g : hva_inj (slots (host_machine g)) -> backed (slots (host_machine g)) (mem (host_machine g)) p n ->
  Z.of_nat (length bs) <= n ->
  exists um, poke (Some (Gbuf p n)) bs g = Ok (with_mem um g) /\ same_memory (host_machine g) (host_machine (with_mem um g)) /\
    forall x, view (slots (host_machine g)) um x = bytes_in p bs (view (slots (host_machine g)) (mem (host_machine g))) x.
Proof.
  intros Hinj Hb Hn. cbn [poke gsize gbase]. rewrite (proj2 (Z.ltb_ge _ _)) by lia.
  destruct (flat_write_view _ Hinj bs (mem (host_machine g)) p) as (um & -> & Hv); [intros i Hi; apply Hb; lia|].
  exists um. split; [done|]. split; [|done]. split; [done| |done]. cbn. intros x Hx. rewrite Hv. case_decide; [|done].
  apply lookup_lt_is_Some_2. lia.
Qed.

Lemma bytes_in_at a bs f i : (i < length bs)%nat -> bytes_in a bs f (a + Z.of_nat i) = bs !! i.
Proof. intros Hi. unfold bytes_in. rewrite decide_True by lia. f_equal. lia. Qed.

Lemma bytes_out a bs f x : x < a \/ a + Z.of_nat (length bs) <= x -> bytes_in a bs f x = f x.
Proof. intros Hx. unfold bytes_in. by rewrite decide_False by lia. Qed.

Lemma length_vm_job j : length (vm_job_bytes j) = 24%nat.
Proof. unfold vm_job_bytes. by rewrite !length_app, !length_le_split. Qed.

Lemma vm_job_decode j : 0 <= input_gpa j < 2 ^ 64 -> 0 <= output_gpa j < 2 ^ 64 -> 0 <= vlen j < 2 ^ 31 ->
  voperation j = 0 \/ voperation j = 1 -> vm_job_of (vm_job_bytes j) = j.
Proof.
  intros Hi Ho Hl Hop. unfold vm_job_of, vm_job_bytes. destruct j as [a b c d]. cbn [input_gpa output_gpa vlen voperation] in *.
  set (x := le_split 8 a). set (y := le_split 8 b). set (z := le_split 4 c). set (t := le_split 4 d).
  assert (Lx : length x = 8%nat) by apply length_le_split. assert (Ly : length y = 8%nat) by apply length_le_split.
  assert (Lz : length z = 4%nat) by apply length_le_split. assert (Lt : length t = 4%nat) by apply length_le_split.
  assert (E1 : take 8 (x ++ y ++ z ++ t) = x) by (by rewrite take_app_length' by done).
  assert (E2 : drop 8 (x ++ y ++ z ++ t) = y ++ z ++ t) by (by rewrite drop_app_length' by done).
  assert (E3 : drop 16 (x ++ y ++ z ++ t) = z ++ t) by (rewrite app_assoc, drop_app_length' by (rewrite length_app; lia); done).
  assert (E4 : drop 20 (x ++ y ++ z ++ t) = t) by (rewrite !app_assoc, drop_app_length' by (rewrite !length_app; lia); done).
  rewrite E1, E2, E3, E4, !take_app_length' by done. rewrite (take_ge t) by lia. unfold x, y, z, t. rewrite !le_combine_split.
  rewrite !Z.mod_small by (cbn; lia). unfold s32. f_equal; rewrite Z.mod_small; lia.
Qed.

(** The host reads the request the driver wrote. *)
Lemma fetch_ok kmalloc_ok k um v i o op data : kmalloc_ok 24 = true -> kmalloc_ok (Z.of_nat (length data)) = true ->
  Z.of_nat (length data) < 2 ^ 31 -> 0 <= v -> 0 <= i < 2 ^ 64 -> 0 <= o < 2 ^ 64 -> op = 0 \/ op = 1 ->
  let j := VmJob i o (Z.of_nat (length data)) op in
  flat_read k um v 24 = Some (vm_job_bytes j) -> flat_read k um i (length data) = Some data ->
  fetch_job kmalloc_ok k um v 24 = Ok (Some (j, data)).
Proof.
  intros K1 K2 Hl Hv Hi Ho Hop j Hj Hd. unfold fetch_job. change (Z.of_nat sizeof_vm_job) with 24. rewrite K1. cbn [negb].
  change (u64 24) with 24. pose proof (kvm_read_guest_spec k um v 24 Hv ltac:(lia)) as R1. change (Z.to_nat 24) with 24%nat in R1.
  rewrite Hj in R1. rewrite R1. cbn [mbind res_bind fst snd]. rewrite decide_False by (rewrite length_vm_job; unfold sizeof_vm_job; lia).
  cbn [Z.eqb negb]. rewrite decide_False by (rewrite length_vm_job; unfold sizeof_vm_job; lia).
  rewrite vm_job_decode by (cbn; lia || done). cbv zeta. change (vlen j) with (Z.of_nat (length data)). change (input_gpa j) with i.
  rewrite K2, (proj2 (Z.ltb_ge _ 0)) by lia. cbn [negb orb].
  pose proof (kvm_read_guest_spec k um i (Z.of_nat (length data)) ltac:(lia) ltac:(lia)) as R2. rewrite Nat2Z.id, Hd in R2.
  by rewrite R2.
Qed.

(** *** The user's memory *)

Lemma user_bytes_mapped um n : forall a bs, copy_from_user um a n = Some bs -> user_bytes um a n = bs.
Proof.
  induction n as [|n IH]; intros a bs H; cbn in *; [by injection H|].
  destruct (um !! a) as [b|]; [|done]. cbn in H. destruct (copy_from_user um (a + 1) n) as [l|] eqn:E; [|done].
  injection H as <-. by rewrite (IH _ _ E).
Qed.

Definition user_mapped (um : umem) (a n : Z) : Prop := forall i, 0 <= i < n -> is_Some (um !! (a + i)).

Lemma copy_to_user_spec bs : forall um a, user_mapped um a (Z.of_nat (length bs)) ->
  forall x, (copy_to_user um a bs).1 !! x = bytes_in a bs (fun x => um !! x) x.
Proof.
  induction bs as [|b bs IH]; intros um a Hm; cbn [copy_to_user].
  { cbn. intros x. by rewrite bytes_out by (cbn; lia). }
  assert (H0 : is_Some (um !! (a + 0))) by (apply Hm; cbn; lia). rewrite Z.add_0_r in H0. destruct H0 as [c ->].
  intros x. rewrite IH.
  2: { intros i Hi. destruct (decide (a + 1 + i = a)) as [->|]; [rewrite lookup_insert_eq; by eexists|].
       rewrite lookup_insert_ne by done. rewrite <- Z.add_assoc. apply Hm. cbn. lia. }
  unfold bytes_in. cbn [length]. destruct (decide (x = a)) as [->|Hne].
  - rewrite decide_False by lia. rewrite decide_True by lia. rewrite Z.sub_diag. by rewrite lookup_insert_eq.
  - rewrite lookup_insert_ne by done. destruct (decide (a + 1 <= x < a + 1 + Z.of_nat (length bs))).
    + rewrite decide_True by lia. by replace (Z.to_nat (x - a)) with (S (Z.to_nat (x - (a + 1)))) by lia.
    + by rewrite decide_False by lia.
Qed.

Lemma user_read um bs : forall a, (forall i b, bs !! i = Some b -> um !! (a + Z.of_nat i) = Some b) ->
  copy_from_user um a (length bs) = Some bs.
Proof.
  induction bs as [|b bs IH]; intros a H; [done|]. cbn [length copy_from_user].
  pose proof (H O b eq_refl) as Hb. rewrite Z.add_0_r in Hb. rewrite Hb. cbn. rewrite (IH (a + 1)); [done|].
  intros i b' Hi. replace (a + 1 + Z.of_nat i) with (a + Z.of_nat (S i)) by lia. by apply H.
Qed.

(** *** The request end to end *)

Lemma backed_same w w' p n : same_memory w w' -> backed (slots w) (mem w) p n -> backed (slots w') (mem w') p n.
Proof. intros [_ H _] Hb i Hi. by apply H, Hb. Qed.

Lemma inj_same w w' : same_memory w w' -> hva_inj (slots w) -> hva_inj (slots w').
Proof. intros [H _ _] Hi g g' a. rewrite !H. apply Hi. Qed.

(** The driver's writes before the hypercall: the request and its input are
    in guest memory. *)
Lemma prepare_ok al v i o n data op g : request_ready al v i o n (host_machine g) -> n = Z.of_nat (length data) ->
  exists g1 g2 g3 g', memset_zero (Some (Gbuf i n)) n g = Ok g1 /\ memset_zero (Some (Gbuf o n)) n g1 = Ok g2 /\
    user g2 = user g /\ poke (Some (Gbuf i n)) data g2 = Ok g3 /\
    poke (Some (Gbuf v 24)) (vm_job_bytes (VmJob i o n op)) g3 = Ok g' /\ user g' = user g /\ service_pool (host_machine g') = service_pool (host_machine g) /\
    slots (host_machine g') = slots (host_machine g) /\ same_memory (host_machine g) (host_machine g') /\
    (forall j b, vm_job_bytes (VmJob i o n op) !! j = Some b ->
       view (slots (host_machine g')) (mem (host_machine g')) (v + Z.of_nat j) = Some b) /\
    (forall j b, data !! j = Some b -> view (slots (host_machine g')) (mem (host_machine g')) (i + Z.of_nat j) = Some b).
Proof.
  intros [_ _ _ Hinj (Bv & Bi & Bo) (Avi & Avo & Aio)] ->. set (n := Z.of_nat (length data)) in *.
  unfold memset_zero. rewrite (proj2 (Z.ltb_ge n 0)) by lia.
  destruct (poke_ok i n (replicate (Z.to_nat n) Byte.x00) g Hinj Bi) as (u1 & E1 & S1 & V1); [rewrite length_replicate; lia|].
  set (g1 := with_mem u1 g) in *.
  destruct (poke_ok o n (replicate (Z.to_nat n) Byte.x00) g1) as (u2 & E2 & S2 & V2);
    [by apply (inj_same _ _ S1)|by apply (backed_same _ _ _ _ S1)|rewrite length_replicate; lia|].
  set (g2 := with_mem u2 g1) in *. pose proof (same_memory_trans _ _ _ S1 S2) as S12.
  destruct (poke_ok i n data g2) as (u3 & E3 & S3 & V3);
    [by apply (inj_same _ _ S12)|by apply (backed_same _ _ _ _ S12)|lia|].
  set (g3 := with_mem u3 g2) in *. pose proof (same_memory_trans _ _ _ S12 S3) as S13.
  destruct (poke_ok v 24 (vm_job_bytes (VmJob i o n op)) g3) as (u4 & E4 & S4 & V4);
    [by apply (inj_same _ _ S13)|by apply (backed_same _ _ _ _ S13)|rewrite length_vm_job; lia|].
  exists g1, g2, g3, (with_mem u4 g3). do 8 (split; [done|]). split; [by eapply same_memory_trans|].
  split; intros j b Hj; pose proof (lookup_lt_Some _ _ _ Hj) as Hlt; cbn; etransitivity; [apply V4| |apply V4|].
  - by rewrite bytes_in_at.
  - rewrite bytes_out by (rewrite length_vm_job; lia). cbn. etransitivity; [apply V3|]. by rewrite bytes_in_at.
Qed.

Section driver_laws.
  Context (enc dec : list byte -> list byte) (kmalloc_ok : Z -> bool) (junk : Z * Z * Z).
  Context (enc_block : keeps_block enc) (dec_block : keeps_block dec).

Lemma submit_job_spec al v i o op js data m g : request_ready al v i o (Z.of_nat (length data)) (host_machine g) ->
  (forall t, js_len js t = Z.of_nat (length data)) -> length data = (AES_BLOCK_SIZE * m)%nat -> Z.of_nat (length data) < 2 ^ 31 ->
  kmalloc_ok 24 = true -> kmalloc_ok (Z.of_nat (length data)) = true -> op = KVM_ENCRYPTION \/ op = KVM_DECRYPTION ->
  copy_from_user (user g) (js_input js) (length data) = Some data ->
  qrepr (service_pool (host_machine g)) [] -> 0 < brk (service_pool (host_machine g)) ->
  exists g', submit_job enc dec kmalloc_ok junk al js op g = Ok g' /\
    user g' = (copy_to_user (user g) (js_output js) (blocks (cipher_of enc dec op) m data)).1 /\
    same_memory (host_machine g) (host_machine g') /\
    qrepr (service_pool (host_machine g')) [] /\ 0 < brk (service_pool (host_machine g')).
Proof.
  intros Hr Hlen Hm Hl K1 K2 Hop Hsrc Hq Hb. unfold submit_job. cbv zeta. rewrite !Hlen. set (n := Z.of_nat (length data)) in *.
  pose proof Hr as [-> (Lv & Li & Lo) (Uv & Ui & Uo) Hinj (Bv & Bi & Bo) (Avi & Avo & Aio)]. cbn [a_vjob a_input a_output a_spare].
  unfold kmalloc. change (Z.of_nat sizeof_vm_job) with 24. change (24 <? 0) with false. rewrite (proj2 (Z.ltb_ge n 0)) by lia.
  cbn [fmap option_fmap option_map]. cbv iota. cbn [physical gbase].
  destruct (prepare_ok _ v i o n data op g Hr eq_refl) as (g1 & g2 & g3 & g4 & E1 & E2 & U2 & E3 & E4 & U4 & P4 & K4 & S4 & Vj & Vd).
  rewrite E1, bind_Ok, E2, bind_Ok, U2. replace (Z.to_nat n) with (length data) by lia.
  rewrite (user_bytes_mapped _ _ _ _ Hsrc), E3, bind_Ok, E4, bind_Ok.
  set (out := blocks (cipher_of enc dec op) m data). assert (Lout : length out = length data).
  { unfold out. rewrite Hm. apply blocks_length; [|done]. unfold cipher_of. by destruct (op =? _). }
  destruct (flat_write_view (slots (host_machine g4))) with (bs := out) (um := mem (host_machine g4)) (g := o) as (um' & Hw & Vw);
    [by apply (inj_same _ _ S4)|rewrite Lout; by apply (backed_same _ _ _ _ S4)|].
  assert (Hf : fetch_job kmalloc_ok (slots (host_machine g4)) (mem (host_machine g4)) v 24 = Ok (Some (VmJob i o n op, data))).
  { apply fetch_ok; try done.
    - rewrite <- (length_vm_job (VmJob i o n op)). by apply flat_read_view.
    - by apply flat_read_view. }
  rewrite <- P4 in Hq, Hb.
  destruct (produce_job_spec enc dec kmalloc_ok _ _ v 24 (VmJob i o n op) data m um' _ enc_block dec_block Hf Hop Hm Lo Hw Hq Hb)
    as (k' & p' & Eh & Hq' & Hb' & Hk).
  unfold kvm_emulate_hypercall. change (kvm_hv_hypercall_enabled guest_kernel) with false. cbv iota. cbv zeta.
  change (negb (cpl guest_kernel =? 0)) with false. change (negb (long_mode guest_kernel)) with false. cbv iota.
  unfold dispatch. change (rax _) with KVM_HC_CRYPTO. cbn [rbx rcx].
  change (KVM_HC_CRYPTO =? KVM_HC_VAPIC_POLL_IRQ) with false. change (KVM_HC_CRYPTO =? KVM_HC_KICK_CPU) with false.
  rewrite Z.eqb_refl. cbv iota.
  replace (s32 (24 + 2 ^ 32 * js_hi js)) with 24
    by (unfold s32; replace (24 + 2 ^ 32 * js_hi js + 2 ^ 31) with (24 + 2 ^ 31 + js_hi js * 2 ^ 32) by lia; by rewrite Z.mod_add).
  rewrite Eh, !bind_Ok. set (w' := Machine k' um' p' (cpus (host_machine g4))).
  assert (Hpeek : peek (Some (Gbuf o n)) n (Guest w' (user g4)) = Ok out).
  { cbn [peek gsize gbase host_machine]. rewrite (proj2 (Z.ltb_ge n 0)), Z.ltb_irrefl by lia. cbn [orb]. unfold w'.
    cbn [slots mem]. replace (Z.to_nat n) with (length out) by lia. rewrite flat_read_view with (bs := out); [done|].
    intros j b Hj. rewrite (view_same_hva _ _ _ Hk), Vw. rewrite decide_True by (apply lookup_lt_Some in Hj; lia).
    by replace (Z.to_nat (o + Z.of_nat j - o)) with j by lia. }
  rewrite Hpeek, bind_Ok. eexists. split; [done|]. cbn [user host_machine]. split; [by rewrite U4|]. split; [|done].
  eapply same_memory_trans; [exact S4|]. split; [done| |done]. intros x Hx. cbn. rewrite (view_same_hva _ _ _ Hk), Vw.
  case_decide; [|done]. apply lookup_lt_is_Some_2. lia.
Qed.
End driver_laws.


(** ** Who may call what *)

(** The processors with an identifier, woken. *)
Definition kicked (apicid : Z) (v : kvm_vcpu) : kvm_vcpu :=
  if kvm_apic_present v && (kvm_apic_id (apic v) =? apicid) then request_event (with_pv_unhalted true v) else v.

Lemma kick_exact md junk apicid b : bus_ok b -> well_addressed md (vcpus b) -> fresh_map b -> 0 <= u32 apicid < 255 ->
  exists vs, kvm_pv_kick_cpu_op junk apicid b = Ok (with_vcpus vs b) /\
    forall k, vs !! k = kicked (u32 apicid) <$> vcpus b !! k.
Proof.
  intros Hb Hw Hf Hid. destruct junk as [[vec lv] trig]. unfold kvm_pv_kick_cpu_op.
  set (irq := LapicIrq vec APIC_DM_REMRD 0 lv trig 0 (u32 apicid)).
  destruct (message_exact md b irq ∅ Hb Hw Hf eq_refl ltac:(discriminate) Hid) as (vs & dm & -> & Hvs).
  cbn [mbind res_bind]. exists vs. split; [done|]. intros k. rewrite Hvs. unfold targets, kicked.
  destruct (vcpus b !! k) as [v|]; [|done]. cbn [fmap option_fmap option_map shorthand dest_id dest_mode irq].
  change (kvm_apic_match_dest v k None 0 (u32 apicid) 0) with (kvm_apic_match_physical_addr v (u32 apicid)).
  unfold kvm_apic_match_physical_addr, u16. cbv zeta. rewrite (Z.mod_small (u32 apicid)) by lia.
  rewrite (proj2 (Z.eqb_neq (u32 apicid) 0xff)) by lia. cbn [orb].
  destruct (kvm_apic_present v && (kvm_apic_id (apic v) =? u32 apicid)); [|done]. reflexivity.
Qed.

(** A hypercall never fails and does what its number says: from user mode
    it is refused, an unknown number is answered with an error, and neither
    changes anything but the result register; a kick wakes exactly the
    processors with the given APIC identifier, whatever the uninitialised
    fields of the message hold, and touches neither memory nor the
    encryption service. *)
Theorem hypercall_exact enc dec kmalloc_ok junk md m r w : bus_ok (cpus w) -> well_addressed md (vcpus (cpus w)) ->
  fresh_map (cpus w) -> kvm_hv_hypercall_enabled m = false -> long_mode m = true ->
  let call := kvm_emulate_hypercall enc dec kmalloc_ok junk m r w in
  (cpl m <> 0 -> call = Ok (1, with_rax (2 ^ 64 - KVM_EPERM) r, w)) /\
  (cpl m = 0 -> rax r = KVM_HC_KICK_CPU -> 0 <= u32 (rcx r) < 255 ->
     exists vs, call = Ok (1, with_rax 0 r, Machine (slots w) (mem w) (service_pool w) (with_vcpus vs (cpus w))) /\
       forall k, vs !! k = kicked (u32 (rcx r)) <$> vcpus (cpus w) !! k) /\
  (cpl m = 0 -> rax r ∉ [KVM_HC_VAPIC_POLL_IRQ; KVM_HC_KICK_CPU; KVM_HC_CRYPTO] ->
     call = Ok (1, with_rax (2 ^ 64 - KVM_ENOSYS) r, w)).
Proof.
  intros Hb Hw Hf Hhv Hlm call. unfold call, kvm_emulate_hypercall. rewrite Hhv, Hlm. cbn [negb]. cbv zeta.
  split; [|split].
  - intros Hc. rewrite (proj2 (Z.eqb_neq _ _) Hc). done.
  - intros Hc Hn Hid. rewrite Hc, Hn. cbn [Z.eqb negb]. unfold dispatch. change (KVM_HC_KICK_CPU =? KVM_HC_VAPIC_POLL_IRQ) with false.
    rewrite Z.eqb_refl. cbv iota. assert (E : u32 (s32 (rcx r)) = u32 (rcx r)).
    { unfold u32, s32. rewrite Zminus_mod_idemp_l. f_equal. lia. }
    destruct (kick_exact md junk (s32 (rcx r)) (cpus w) Hb Hw Hf) as (vs & -> & Hvs); [by rewrite E|].
    rewrite !bind_Ok. exists vs. rewrite E in Hvs. done.
  - intros Hc Hn. rewrite Hc. cbn [Z.eqb negb]. unfold dispatch. apply not_elem_of_cons in Hn as [H1 Hn].
    apply not_elem_of_cons in Hn as [H2 Hn]. apply not_elem_of_cons in Hn as [H3 _].
    by rewrite (proj2 (Z.eqb_neq _ _) H1), (proj2 (Z.eqb_neq _ _) H2), (proj2 (Z.eqb_neq _ _) H3).
Qed.

(** ** Examples *)

Lemma demo_hva g a : guest_hva demo_slots true g = Some a -> a = 0x7f0000000000 + g.
Proof.
  unfold guest_hva, search_memslots.
  assert (E : live (memslots demo_slots) = [Slot 0 32768 (Some ∅) 0x7f0000000000 1 0]) by (vm_compute; reflexivity).
  rewrite E. cbn [find]. unfold covers. cbn [base_gfn npages].
  destruct (Z.leb_spec 0 (g / PAGE_SIZE)) as [H1|]; [|done]. destruct (Z.ltb_spec (g / PAGE_SIZE) (0 + 32768)) as [H2|]; [|done].
  cbn [andb]. unfold __gfn_to_hva_many, memslot_is_readonly, kvm_is_error_hva, __gfn_to_hva_memslot.
  cbn [flags userspace_addr base_gfn]. cbn [Z.land negb Z.eqb Pos.land andb].
  destruct (HOST_PAGE_OFFSET <=? _); [done|]. cbn. intros [= <-]. unfold u64, PAGE_SIZE in *.
  rewrite Z.mod_small by lia. pose proof (Z.div_mod g 4096). lia.
Qed.

Lemma demo_hva_inj : hva_inj demo_slots.
Proof. intros g g' a H H'. apply demo_hva in H, H'. lia. Qed.

(** The blocks of the driver at 0x1000, 0x2000 and 0x3000; a user with data
    at 0x100 and room at 0x200 and 0x300. *)
Definition demo_ram : umem :=
  list_to_map (place 0x1000 (replicate 24 Byte.x00) ++ place 0x2000 (replicate 32 Byte.x00) ++ place 0x3000 (replicate 32 Byte.x00)).
Definition demo_text : list byte := String.list_byte_of_string "12345678123456781234567812345678".
Definition demo_user : umem :=
  list_to_map (imap (fun i b => (0x100 + Z.of_nat i, b)) demo_text ++ imap (fun i b => (0x200 + Z.of_nat i, b)) demo_text ++
               imap (fun i b => (0x300 + Z.of_nat i, b)) (replicate 32 Byte.x00)).
Definition demo_machine : machine := Machine demo_slots demo_ram crypto_pool_initialization two_vcpu_bus.
Definition demo_answers : answers := Answers (Some 0x1000) (Some 0x2000) (Some 0x3000) true.

Lemma all_below n (P : Z -> Prop) `{!forall x, Decision (P x)} : bool_decide (Forall P (seqZ 0 n)) = true -> forall i, 0 <= i < n -> P i.
Proof. intros HP i Hi. apply bool_decide_eq_true in HP. rewrite Forall_forall in HP. apply HP, elem_of_seqZ. lia. Qed.

Lemma demo_ready : request_ready demo_answers 0x1000 0x2000 0x3000 32 demo_machine.
Proof.
  split; [done|lia|lia|exact demo_hva_inj| |lia].
  repeat split; refine (all_below _ (fun i => is_Some (view demo_slots demo_ram (_ + i))) _); vm_compute; reflexivity.
Qed.


Lemma hypercall_exact_witness :
  kvm_emulate_hypercall demo_cipher demo_cipher (fun _ => true) (1, 2, 3) (CpuMode 3 true true true 0) (Vregs 15 0 0 0 0) demo_machine
    = Ok (1, Vregs (2 ^ 64 - 1) 0 0 0 0, demo_machine) /\
  exists vs, kvm_emulate_hypercall demo_cipher demo_cipher (fun _ => true) (1, 2, 3) guest_kernel (Vregs 5 0 1 0 0) demo_machine
    = Ok (1, Vregs 0 0 1 0 0, Machine demo_slots demo_ram crypto_pool_initialization (with_vcpus vs two_vcpu_bus)).
Proof.
  pose proof (fun m r => hypercall_exact demo_cipher demo_cipher (fun _ => true) (1, 2, 3) Flat m r demo_machine two_vcpu_bus_ok
    two_vcpus_addressed ltac:(intros m'; discriminate)) as H. split.
  - apply (H (CpuMode 3 true true true 0) (Vregs 15 0 0 0 0) eq_refl eq_refl). discriminate.
  - destruct (H guest_kernel (Vregs 5 0 1 0 0) eq_refl eq_refl) as (_ & Hk & _).
    destruct (Hk eq_refl eq_refl) as (vs & E & _); [split; [exact (Z.le_refl 0)|reflexivity] || vm_compute; split; congruence|].
    exists vs. exact E.
Defined.

(** ** What the driver does not check *)

(** When the host cannot serve the request the user gets zeros, and the
    ioctl succeeds all the same. *)
Lemma failed_request_is_silent :
  ('(r, g) ← ioctl_dev_ioctl demo_cipher demo_cipher (fun n => negb (n =? 24)) (0, 0, 0) demo_answers KC_IOENC
      (JobStruct 0x100 0x200 (fun _ => 32) 0) (Guest demo_machine demo_user);
   Ok (r, copy_from_user (user g) 0x200 32)) = Ok (0, Some (replicate 32 Byte.x00)).
Proof. vm_compute. reflexivity. Qed.

(** The length is read from the user's memory each time it is used: a user
    who enlarges it after the allocation makes the driver write past its
    block. *)
Lemma length_fetched_twice :
  ioctl_dev_ioctl demo_cipher demo_cipher (fun _ => true) (0, 0, 0) demo_answers KC_IOENC
    (JobStruct 0x100 0x200 (fun t => if (t <? 2)%nat then 16 else 32) 0) (Guest demo_machine demo_user) = Err BufferOverflow.
Proof. vm_compute. reflexivity. Qed.

(** The 64-bit result goes over whatever is above its 32-bit variable. *)
Lemma result_overflows_stack :
  ioctl_dev_ioctl demo_cipher demo_cipher (fun _ => true) (0, 0, 0) (Answers (Some 0x1000) (Some 0x2000) (Some 0x3000) false) KC_IOENC
    (JobStruct 0x100 0x200 (fun _ => 32) 0) (Guest demo_machine demo_user) = Err BufferOverflow.
Proof. vm_compute. reflexivity. Qed.
