(* ===== verification/Spte.v ===== *)
(** * Shadow page table entries (kvm-kmod x86/mmu.c, mmu.h)

    A shadow entry is a 64-bit word: the frame and permissions the processor
    reads, two bits of software that say whether the entry may be made
    writable again, and, for addresses without memory, an encoding of the
    guest frame that makes the processor fault.  The entries of the last
    level are changed under the lock of the memory management unit, but the
    processor sets their accessed and dirty bits and the fast page fault
    path their writable bit at any time. *)

From S2P Require Import Prelude MemSlots.

(** ** Bits *)

Definition PT_PRESENT_MASK : Z := Z.shiftl 1 0.
Definition PT_WRITABLE_MASK : Z := Z.shiftl 1 1.
Definition PT_USER_MASK : Z := Z.shiftl 1 2.
Definition PT_ACCESSED_MASK : Z := Z.shiftl 1 5.
Definition PT_DIRTY_MASK : Z := Z.shiftl 1 6.
Definition PT_PAGE_SIZE_MASK : Z := Z.shiftl 1 7.
Definition PT64_NX_MASK : Z := Z.shiftl 1 63.
Definition PT_PAGE_TABLE_LEVEL : Z := 1.
Definition PT_DIRECTORY_LEVEL : Z := 2.
Definition PT64_BASE_ADDR_MASK : Z := Z.ldiff (Z.shiftl 1 52 - 1) (PAGE_SIZE - 1).
Definition ACC_EXEC_MASK : Z := 1.
Definition ACC_WRITE_MASK : Z := PT_WRITABLE_MASK.
Definition ACC_USER_MASK : Z := PT_USER_MASK.
Definition SPTE_HOST_WRITEABLE : Z := Z.shiftl 1 10.
Definition SPTE_MMU_WRITEABLE : Z := Z.shiftl 1 11.
Definition KVM_PFN_NOSLOT : Z := Z.shiftl 1 63.

(** The masks that depend on the paging mode of the host. *)
Record shadow_masks := Masks {
  shadow_nx_mask : Z; shadow_x_mask : Z; shadow_user_mask : Z;
  shadow_accessed_mask : Z; shadow_dirty_mask : Z; shadow_mmio_mask : Z
}.

Definition kvm_mmu_set_mmio_spte_mask (mmio_mask : Z) (m : shadow_masks) : shadow_masks :=
  Masks (shadow_nx_mask m) (shadow_x_mask m) (shadow_user_mask m) (shadow_accessed_mask m)
    (shadow_dirty_mask m) mmio_mask.

Definition kvm_mmu_set_mask_ptes (user_mask accessed_mask dirty_mask nx_mask x_mask : Z)
    (m : shadow_masks) : shadow_masks :=
  Masks nx_mask x_mask user_mask accessed_mask dirty_mask (shadow_mmio_mask m).

Definition kvm_set_mmio_spte_mask (maxphyaddr : Z) (m : shadow_masks) : shadow_masks :=
  let mask := u64 (Z.shiftl (Z.shiftl 1 (51 - maxphyaddr + 1) - 1) maxphyaddr) in
  let mask := Z.lor mask (Z.shiftl 3 62) in
  let mask := Z.lor mask 1 in
  let mask := if maxphyaddr =? 52 then Z.ldiff mask 1 else mask in
  kvm_mmu_set_mmio_spte_mask mask m.

Definition ept_set_mmio_spte_mask (m : shadow_masks) : shadow_masks :=
  kvm_mmu_set_mmio_spte_mask (Z.lor (Z.shiftl 3 62) 6) m.

(** What [kvm_arch_init] leaves, for every processor. *)
Definition init_masks (maxphyaddr : Z) : shadow_masks :=
  kvm_mmu_set_mask_ptes PT_USER_MASK PT_ACCESSED_MASK PT_DIRTY_MASK PT64_NX_MASK 0
    (kvm_set_mmio_spte_mask maxphyaddr (Masks 0 0 0 0 0 0)).

Definition VMX_EPT_ACCESS_BIT : Z := Z.shiftl 1 8.
Definition VMX_EPT_DIRTY_BIT : Z := Z.shiftl 1 9.
Definition VMX_EPT_EXECUTABLE_MASK : Z := 4.

(** What [hardware_setup] makes of them with extended page tables. *)
Definition ept_masks (enable_ept_ad_bits : bool) (m : shadow_masks) : shadow_masks :=
  ept_set_mmio_spte_mask
    (kvm_mmu_set_mask_ptes 0 (if enable_ept_ad_bits then VMX_EPT_ACCESS_BIT else 0)
       (if enable_ept_ad_bits then VMX_EPT_DIRTY_BIT else 0) 0 VMX_EPT_EXECUTABLE_MASK m).

(** ** Entries for addresses without memory *)

Definition MMIO_SPTE_GEN_LOW_SHIFT : Z := 3.
Definition MMIO_SPTE_GEN_HIGH_SHIFT : Z := 52.
Definition MMIO_GEN_SHIFT : Z := 19.
Definition MMIO_GEN_LOW_SHIFT : Z := 9.
Definition MMIO_GEN_LOW_MASK : Z := Z.shiftl 1 MMIO_GEN_LOW_SHIFT - 1.
Definition MMIO_GEN_MASK : Z := Z.shiftl 1 MMIO_GEN_SHIFT - 1.
Definition MMIO_MAX_GEN : Z := Z.shiftl 1 MMIO_GEN_SHIFT - 1.

Definition generation_mmio_spte_mask (gen : Z) : Z :=
  let mask := u32 (Z.shiftl (Z.land gen MMIO_GEN_LOW_MASK) MMIO_SPTE_GEN_LOW_SHIFT) in
  Z.lor mask (u64 (Z.shiftl (Z.shiftr gen MMIO_GEN_LOW_SHIFT) MMIO_SPTE_GEN_HIGH_SHIFT)).

Definition kvm_current_mmio_generation (k : kvm_memslots) : Z :=
  Z.land (u64 (generation k + MMIO_MAX_GEN - 150)) MMIO_GEN_MASK.

Section entries.
  Context (m : shadow_masks).

Definition get_mmio_spte_generation (spte : Z) : Z :=
  let spte := Z.ldiff spte (shadow_mmio_mask m) in
  let gen := u32 (Z.land (Z.shiftr spte MMIO_SPTE_GEN_LOW_SHIFT) MMIO_GEN_LOW_MASK) in
  u32 (Z.lor gen (u64 (Z.shiftl (Z.shiftr spte MMIO_SPTE_GEN_HIGH_SHIFT) MMIO_GEN_LOW_SHIFT))).

(** The entry [mark_mmio_spte] stores. *)
Definition mark_mmio_spte (k : kvm_memslots) (gfn access : Z) : Z :=
  let gen := kvm_current_mmio_generation k in
  let mask := generation_mmio_spte_mask gen in
  let access := Z.land access (Z.lor ACC_WRITE_MASK ACC_USER_MASK) in
  Z.lor mask (Z.lor (Z.lor (shadow_mmio_mask m) access) (u64 (Z.shiftl gfn PAGE_SHIFT))).

Definition is_mmio_spte (spte : Z) : bool :=
  Z.land spte (shadow_mmio_mask m) =? shadow_mmio_mask m.

Definition get_mmio_spte_gfn (spte : Z) : Z :=
  let mask := Z.lor (generation_mmio_spte_mask MMIO_MAX_GEN) (shadow_mmio_mask m) in
  Z.shiftr (Z.ldiff spte mask) PAGE_SHIFT.

Definition get_mmio_spte_access (spte : Z) : Z :=
  let mask := Z.lor (generation_mmio_spte_mask MMIO_MAX_GEN) (shadow_mmio_mask m) in
  u32 (Z.land (Z.ldiff spte mask) (PAGE_SIZE - 1)).

Definition is_noslot_pfn (pfn : Z) : bool := pfn =? KVM_PFN_NOSLOT.

(** The entry to store when the frame has no memory. *)
Definition set_mmio_spte (k : kvm_memslots) (gfn pfn access : Z) : option Z :=
  if is_noslot_pfn pfn then Some (mark_mmio_spte k gfn access) else None.

Definition check_mmio_spte (k : kvm_memslots) (spte : Z) : bool :=
  kvm_current_mmio_generation k =? get_mmio_spte_generation spte.

(** ** Entries for memory *)

Definition is_shadow_present_pte (pte : Z) : bool :=
  any pte PT_PRESENT_MASK && negb (is_mmio_spte pte).

Definition is_large_pte (pte : Z) : bool := any pte PT_PAGE_SIZE_MASK.

Definition is_rmap_spte (pte : Z) : bool := is_shadow_present_pte pte.

Definition is_last_spte (pte level : Z) : bool :=
  if level =? PT_PAGE_TABLE_LEVEL then true else is_large_pte pte.

Definition is_writable_pte (pte : Z) : bool := any pte PT_WRITABLE_MASK.

Definition spte_to_pfn (pte : Z) : Z := Z.shiftr (Z.land pte PT64_BASE_ADDR_MASK) PAGE_SHIFT.

Definition spte_is_locklessly_modifiable (spte : Z) : bool :=
  Z.land spte (Z.lor SPTE_HOST_WRITEABLE SPTE_MMU_WRITEABLE)
    =? Z.lor SPTE_HOST_WRITEABLE SPTE_MMU_WRITEABLE.

Definition spte_has_volatile_bits (spte : Z) : bool :=
  if spte_is_locklessly_modifiable spte then true
  else if shadow_accessed_mask m =? 0 then false
  else if negb (is_shadow_present_pte spte) then false
  else if any spte (shadow_accessed_mask m) &&
          (negb (is_writable_pte spte) || any spte (shadow_dirty_mask m)) then false
  else true.

Definition spte_is_bit_cleared (old_spte new_spte bit_mask : Z) : bool :=
  any old_spte bit_mask && negb (any new_spte bit_mask).

(** What the host kernel is told about a frame. *)
Inductive pfn_event := SetAccessed (pfn : Z) | SetDirty (pfn : Z) | Released (pfn : Z) | Taken (pfn : Z).

(** The update stores [new_spte].  [first] is the entry as it was read
    first and [now] the entry the store replaces; they differ when the
    processor or a fast page fault came in between.  The plain store does
    not see [now], the exchange returns it.  The result says whether the
    translation buffers have to be flushed, and what the host is told. *)
Definition mmu_spte_update (first now new_spte : Z) : bool * list pfn_event :=
  if negb (is_shadow_present_pte first) then (false, [])
  else
    let old_spte := if spte_has_volatile_bits first then now else first in
    let ret := spte_is_locklessly_modifiable old_spte && negb (is_writable_pte new_spte) in
    if shadow_accessed_mask m =? 0 then (ret, [])
    else
      (ret,
       (if spte_is_bit_cleared old_spte new_spte (shadow_accessed_mask m)
        then [SetAccessed (spte_to_pfn old_spte)] else []) ++
       (if spte_is_bit_cleared old_spte new_spte (shadow_dirty_mask m)
        then [SetDirty (spte_to_pfn old_spte)] else [])).

(** The same for the removal of an entry, which stores 0. *)
Definition mmu_spte_clear_track_bits (first now : Z) : bool * list pfn_event :=
  let old_spte := if spte_has_volatile_bits first then now else first in
  if negb (is_rmap_spte old_spte) then (false, [])
  else
    let pfn := spte_to_pfn old_spte in
    (true,
     (if (shadow_accessed_mask m =? 0) || any old_spte (shadow_accessed_mask m)
      then [SetAccessed pfn] else []) ++
     (if (shadow_dirty_mask m =? 0) || any old_spte (shadow_dirty_mask m)
      then [SetDirty pfn] else [])).

End entries.

(** ** The masks of both paging modes *)

(** A bit the processor may use for accessed or dirty. *)
Definition hw_bit (i : Z) : Prop := 3 <= i < 10 /\ i <> 7.

Record masks_ok (m : shadow_masks) : Prop := {
  mo_ad : shadow_accessed_mask m = 0 /\ shadow_dirty_mask m = 0 \/
    exists a d, shadow_accessed_mask m = 2 ^ a /\ shadow_dirty_mask m = 2 ^ d /\
      a <> d /\ hw_bit a /\ hw_bit d;
  mo_range : 0 <= shadow_mmio_mask m < 2 ^ 64;
  mo_marked : Z.testbit (shadow_mmio_mask m) 62 = true;
  mo_gen : Z.land (shadow_mmio_mask m) (generation_mmio_spte_mask MMIO_MAX_GEN) = 0
}.

Lemma init_masks_ok p : 32 <= p <= 52 -> masks_ok (init_masks p).
Proof.
  intros Hp. set (f p := let x := shadow_mmio_mask (init_masks p) in
    (0 <=? x) && (x <? 2 ^ 64) && Z.testbit x 62 && (Z.land x (generation_mmio_spte_mask MMIO_MAX_GEN) =? 0)).
  assert (H : forallb f (seqZ 32 21) = true) by (vm_compute; reflexivity).
  rewrite forallb_forall in H. specialize (H p). unfold f in H. rewrite !andb_true_iff in H.
  destruct H as [[[H1 H2] H3] H4]; [apply list_elem_of_In, elem_of_seqZ; lia|].
  split; [|lia|done|by apply Z.eqb_eq]. right. exists 5, 6. split; [done|]. split; [done|]. unfold hw_bit. lia.
Qed.

Lemma ept_masks_ok ad m : masks_ok (ept_masks ad m).
Proof.
  split; [|split; [by vm_compute|by vm_compute]|done|done]. destruct ad; [right|by left]. exists 8, 9. split; [done|]. split; [done|]. unfold hw_bit. lia.
Qed.

(** ** Single bits *)

Lemma any_bit x i : 0 <= i -> any x (Z.shiftl 1 i) = Z.testbit x i.
Proof. intros Hi. unfold any. rewrite Z.land_comm, Z.shiftl_1_l. by apply any_pow2. Qed.

Lemma writable_bit s : is_writable_pte s = Z.testbit s 1.
Proof. by apply any_bit. Qed.

Lemma lockless_bits s : spte_is_locklessly_modifiable s = Z.testbit s 10 && Z.testbit s 11.
Proof.
  unfold spte_is_locklessly_modifiable. apply eq_true_iff_eq. rewrite Z.eqb_eq, andb_true_iff.
  set (w := Z.lor _ _). split.
  - intros E. split; [assert (H : Z.testbit (Z.land s w) 10 = true) by (by rewrite E)
      |assert (H : Z.testbit (Z.land s w) 11 = true) by (by rewrite E)];
      rewrite Z.land_spec, andb_true_iff in H; tauto.
  - intros [H1 H2]. apply Z.bits_inj'. intros i Hi. rewrite Z.land_spec. unfold w.
    unfold SPTE_HOST_WRITEABLE, SPTE_MMU_WRITEABLE. rewrite !Z.lor_spec, !Z.shiftl_1_l, !Z.pow2_bits_eqb by lia.
    destruct (Z.eqb_spec 10 i) as [<-|]; [by rewrite H1|].
    destruct (Z.eqb_spec 11 i) as [<-|]; [by rewrite H2|by rewrite andb_false_r].
Qed.

(** An entry of the last level: bit 62 marks entries without memory only,
    and an entry that is writable may be made writable. *)
Record leaf_ok (s : Z) : Prop := {
  lf_range : 0 <= s < 2 ^ 64;
  lf_unmarked : Z.testbit s 62 = false;
  lf_writable : is_writable_pte s = true -> spte_is_locklessly_modifiable s = true
}.

Section masks.
  Context (m : shadow_masks) (Hm : masks_ok m).

Lemma unmarked_not_mmio s : Z.testbit s 62 = false -> is_mmio_spte m s = false.
Proof.
  intros H. unfold is_mmio_spte. apply Z.eqb_neq. intros E.
  assert (T : Z.testbit (Z.land s (shadow_mmio_mask m)) 62 = true) by (rewrite E; apply (mo_marked _ Hm)).
  by rewrite Z.land_spec, H in T.
Qed.

Lemma present_bit s : Z.testbit s 62 = false -> is_shadow_present_pte m s = Z.testbit s 0.
Proof.
  intros H. unfold is_shadow_present_pte. rewrite unmarked_not_mmio by done. cbn. rewrite andb_true_r.
  by apply (any_bit s 0).
Qed.

(** ** What happens outside the lock *)

(** The processor that walks the tables sets the accessed bit, and the
    dirty bit when it writes through a writable entry; a fast page fault
    makes an entry that allows it writable. *)
Inductive outside : Z -> Z -> Prop :=
| hw_accessed s : is_shadow_present_pte m s = true -> outside s (Z.lor s (shadow_accessed_mask m))
| hw_dirty s : is_shadow_present_pte m s = true -> is_writable_pte s = true ->
    outside s (Z.lor s (Z.lor (shadow_accessed_mask m) (shadow_dirty_mask m)))
| fast_fix s : is_shadow_present_pte m s = true -> spte_is_locklessly_modifiable s = true ->
    outside s (Z.lor s PT_WRITABLE_MASK).

(** The updates as if the store always exchanged. *)
Definition exchange_update (old new : Z) : bool * list pfn_event :=
  if negb (is_shadow_present_pte m old) then (false, [])
  else
    (spte_is_locklessly_modifiable old && negb (is_writable_pte new),
     (if spte_is_bit_cleared old new (shadow_accessed_mask m) then [SetAccessed (spte_to_pfn old)] else []) ++
     (if spte_is_bit_cleared old new (shadow_dirty_mask m) then [SetDirty (spte_to_pfn old)] else [])).

Definition exchange_clear (old : Z) : bool * list pfn_event :=
  if negb (is_shadow_present_pte m old) then (false, [])
  else
    (true,
     (if (shadow_accessed_mask m =? 0) || any old (shadow_accessed_mask m)
      then [SetAccessed (spte_to_pfn old)] else []) ++
     (if (shadow_dirty_mask m =? 0) || any old (shadow_dirty_mask m)
      then [SetDirty (spte_to_pfn old)] else [])).

(** The bits the processor sets are none of those the software reads. *)
Lemma hw_masks_bits i : 0 <= i -> ~ hw_bit i ->
  Z.testbit (shadow_accessed_mask m) i = false /\ Z.testbit (shadow_dirty_mask m) i = false.
Proof.
  intros Hi Hn. destruct (mo_ad _ Hm) as [[-> ->]|(a & d & -> & -> & _ & Ha & Hd)]; [by rewrite !Z.testbit_0_l|].
  unfold hw_bit in *. rewrite !Z.pow2_bits_false by naive_solver. done.
Qed.

Lemma hw_masks_range : 0 <= shadow_accessed_mask m < 2 ^ 64 /\ 0 <= shadow_dirty_mask m < 2 ^ 64.
Proof.
  destruct (mo_ad _ Hm) as [[-> ->]|(a & d & -> & -> & _ & [Ha _] & [Hd _])]; [lia|].
  pose proof (Z.pow_lt_mono_r 2 a 64). pose proof (Z.pow_lt_mono_r 2 d 64).
  pose proof (Z.pow_pos_nonneg 2 a). pose proof (Z.pow_pos_nonneg 2 d). lia.
Qed.

Lemma lor_range x y : 0 <= x < 2 ^ 64 -> 0 <= y < 2 ^ 64 -> 0 <= Z.lor x y < 2 ^ 64.
Proof.
  intros Hx Hy. rewrite <- (Z.mod_small x (2 ^ 64)), <- (Z.mod_small y (2 ^ 64)) by done.
  rewrite <- !Z.land_ones, <- Z.land_lor_distr_l, Z.land_ones by lia. by apply Z.mod_pos_bound.
Qed.

(** A step outside the lock sets bits the software does not read, and the
    writable bit only where it is allowed. *)
Lemma outside_lor s s' : outside s s' -> exists x, s' = Z.lor s x /\ 0 <= x < 2 ^ 64 /\
  is_shadow_present_pte m s = true /\
  (forall i, 0 <= i -> Z.testbit x i = true -> hw_bit i \/ i = 1 /\ spte_is_locklessly_modifiable s = true).
Proof.
  destruct hw_masks_range as [Ra Rd].
  assert (H : forall i, 0 <= i -> Z.testbit (shadow_accessed_mask m) i = true \/ Z.testbit (shadow_dirty_mask m) i = true ->
    hw_bit i).
  { intros i Hi Hb. destruct (decide (3 <= i < 10 /\ i <> 7)) as [|Hn]; [done|].
    destruct (hw_masks_bits i Hi Hn). naive_solver congruence. }
  destruct 1 as [s Hp|s Hp Hw|s Hp Hl]; eexists; (split; [reflexivity|]); (split; [|split; [done|intros i Hi Hb]]).
  - done.
  - left. apply H; auto.
  - by apply lor_range.
  - left. apply H; [done|]. rewrite Z.lor_spec, orb_true_iff in Hb. done.
  - done.
  - right. split; [|done]. unfold PT_WRITABLE_MASK in Hb. rewrite Z.shiftl_1_l, Z.pow2_bits_eqb in Hb by lia.
    apply Z.eqb_eq in Hb. done.
Qed.

Lemma outside_bit s s' i : outside s s' -> 0 <= i -> i <> 1 -> ~ hw_bit i -> Z.testbit s' i = Z.testbit s i.
Proof.
  intros H Hi H1 Hn. apply outside_lor in H as (x & -> & _ & _ & Hx). rewrite Z.lor_spec.
  destruct (Z.testbit x i) eqn:E; [|by rewrite orb_false_r]. destruct (Hx i Hi E) as [|[]]; done.
Qed.

Lemma outside_leaf s s' : leaf_ok s -> outside s s' -> leaf_ok s' /\ is_shadow_present_pte m s' = true.
Proof.
  intros [R U W] H.
  assert (B : forall i, 0 <= i -> i <> 1 -> ~ hw_bit i -> Z.testbit s' i = Z.testbit s i) by (intros; by apply outside_bit).
  unfold hw_bit in B. assert (U' : Z.testbit s' 62 = false) by (by rewrite B by lia).
  apply outside_lor in H as (x & -> & Rx & Hp & Hx). split; [split|].
  - by apply lor_range.
  - done.
  - rewrite writable_bit, lockless_bits, (B 10), (B 11) by lia. rewrite writable_bit, lockless_bits in W. rewrite Z.lor_spec, orb_true_iff.
    intros [Hw|Hw]; [by apply W|]. destruct (Hx 1 ltac:(lia) Hw) as [[Hb _]|[_ Hl]]; [lia|]. by rewrite <- lockless_bits.
  - rewrite present_bit in * by done. by rewrite B by lia.
Qed.

(** An entry without volatile bits does not change. *)
Lemma outside_stable s s' : leaf_ok s -> spte_has_volatile_bits m s = false -> outside s s' -> s' = s.
Proof.
  intros [_ _ W] V. unfold spte_has_volatile_bits in V.
  destruct (spte_is_locklessly_modifiable s) eqn:L; [done|].
  destruct (is_writable_pte s) eqn:Ew; [by discriminate (W eq_refl)|].
  destruct 1 as [s Hp|s Hp Hw|s Hp Hl]; [|congruence|congruence].
  rewrite Hp in V. destruct (Z.eqb_spec (shadow_accessed_mask m) 0) as [->|Hne]; [by rewrite Z.lor_0_r|].
  destruct (any s (shadow_accessed_mask m)) eqn:Ea; [|done].
  destruct (mo_ad _ Hm) as [[E _]|(a & d & E & _ & _ & [Ha _] & _)]; [done|]. rewrite E in *.
  unfold any in Ea. rewrite Z.land_comm in Ea. fold (any (2 ^ a) s) in Ea. rewrite any_pow2 in Ea by lia.
  apply Z.bits_inj'. intros i Hi. rewrite Z.lor_spec, Z.pow2_bits_eqb by lia.
  destruct (Z.eqb_spec a i) as [<-|]; [by rewrite Ea|by rewrite orb_false_r].
Qed.

Lemma outside_history s s' : leaf_ok s -> rtc outside s s' ->
  leaf_ok s' /\ is_shadow_present_pte m s' = is_shadow_present_pte m s /\
  (spte_has_volatile_bits m s = false -> s' = s).
Proof.
  intros Hs H. induction H as [s|s s1 s' H1 H IH]; [done|].
  destruct (outside_leaf s s1 Hs H1) as [Hl Hp]. destruct (IH Hl) as (I1 & I2 & I3).
  split; [done|]. split.
  - rewrite I2, Hp. by apply outside_lor in H1 as (x & _ & _ & -> & _).
  - intros V. assert (s1 = s) as -> by (by apply outside_stable). auto.
Qed.

End masks.

(** C11: Whatever the processor and fast page faults do to an entry while the
    lock is held, the update and the removal of the entry behave as if they
    exchanged it atomically, although they store without an exchange where
    nothing is volatile: no accessed or dirty bit is lost, and a flush is
    asked for whenever the entry replaced could be written through and the
    new one cannot. *)
Theorem spte_updates_atomic (m : shadow_masks) (s s' new : Z) (Hm : masks_ok m) (Hs : leaf_ok s)
    (Hout : rtc (outside m) s s') :
  mmu_spte_update m s s' new = exchange_update m s' new /\
  mmu_spte_clear_track_bits m s s' = exchange_clear m s' /\
  (is_shadow_present_pte m s' = true -> is_writable_pte s' = true -> is_writable_pte new = false ->
   (mmu_spte_update m s s' new).1 = true).
Proof.
  destruct (outside_history m Hm s s' Hs Hout) as (Hl & Hp & Hv).
  assert (E : (if spte_has_volatile_bits m s then s' else s) = s')
    by (destruct (spte_has_volatile_bits m s); [done|by rewrite Hv]).
  assert (E1 : mmu_spte_update m s s' new = exchange_update m s' new).
  { unfold mmu_spte_update, exchange_update. rewrite E, Hp. destruct (is_shadow_present_pte m s); [|done]. cbn [negb].
    destruct (Z.eqb_spec (shadow_accessed_mask m) 0) as [E0|]; [|done].
    destruct (mo_ad _ Hm) as [[_ E1]|(a & d & E1 & _ & _ & [Ha _] & _)].
    - rewrite E0, E1. unfold spte_is_bit_cleared, any. by rewrite Z.land_0_r.
    - pose proof (Z.pow_pos_nonneg 2 a). lia. }
  split; [done|]. split.
  - unfold mmu_spte_clear_track_bits, exchange_clear, is_rmap_spte. by rewrite E.
  - intros Hp' Hw Hn. rewrite E1. unfold exchange_update. rewrite Hp', Hn. cbn. by rewrite (lf_writable _ Hl Hw).
Qed.

Lemma spte_updates_atomic_witness :
  let s := 0xc41 in let s' := 0xc63 in
  mmu_spte_update (init_masks 36) s s' 0xc21 = (true, [SetDirty 0]) /\
  mmu_spte_clear_track_bits (init_masks 36) s s' = (true, [SetAccessed 0; SetDirty 0]).
Proof.
  intros s s'. destruct (spte_updates_atomic (init_masks 36) s s' 0xc21) as (E1 & E2 & _).
  - apply init_masks_ok. lia.
  - by split.
  - apply (rtc_l _ _ 0xc43); [by apply (fast_fix (init_masks 36) 0xc41)|].
    apply (rtc_l _ _ 0xc63); [by apply (hw_dirty (init_masks 36) 0xc43)|constructor].
  - rewrite E1, E2. split; vm_compute; reflexivity.
Defined.

(** ** The encoding of entries without memory *)

Lemma gen_range k : 0 <= kvm_current_mmio_generation k < 2 ^ 19.
Proof.
  unfold kvm_current_mmio_generation. change MMIO_GEN_MASK with (Z.ones 19). rewrite Z.land_ones by lia.
  by apply Z.mod_pos_bound.
Qed.

Lemma gen_mask_bits gen i : 0 <= gen < 2 ^ 19 -> 0 <= i ->
  Z.testbit (generation_mmio_spte_mask gen) i
  = ((3 <=? i) && (i <? 12) && Z.testbit gen (i - 3)) || ((52 <=? i) && Z.testbit gen (i - 43)).
Proof.
  intros Hg Hi. unfold generation_mmio_spte_mask, u32, u64, MMIO_SPTE_GEN_LOW_SHIFT, MMIO_SPTE_GEN_HIGH_SHIFT, MMIO_GEN_LOW_SHIFT.
  change MMIO_GEN_LOW_MASK with (Z.ones 9).
  rewrite Z.lor_spec, <- !Z.land_ones, !Z.land_spec, !Z.shiftl_spec, Z.land_spec by lia.
  destruct (Z.leb_spec 3 i), (Z.ltb_spec i 12), (Z.leb_spec 52 i); try lia; cbn [andb orb];
    rewrite ?(Z.shiftr_spec gen), ?(Z.testbit_neg_r gen (i - 3)), ?(Z.testbit_neg_r (Z.shiftr gen 9) (i - 52)),
      ?Z.testbit_ones_nonneg by lia; replace (i - 52 + 9) with (i - 43) by lia; zsimp;
    rewrite ?andb_true_r, ?andb_false_r, ?orb_false_r; cbn [andb orb]; try done.
  destruct (Z.ltb_spec i 64); [by rewrite andb_true_r|]. by rewrite (testbit_above gen 19), andb_false_r by lia.
Qed.

Lemma max_gen_bits i : 0 <= i ->
  Z.testbit (generation_mmio_spte_mask MMIO_MAX_GEN) i = ((3 <=? i) && (i <? 12)) || ((52 <=? i) && (i <? 62)).
Proof.
  intros Hi. rewrite gen_mask_bits by (done || lia). change MMIO_MAX_GEN with (Z.ones 19).
  destruct (Z.leb_spec 3 i), (Z.ltb_spec i 12), (Z.leb_spec 52 i); try lia; cbn [andb orb]; try done;
    rewrite Z.testbit_ones_nonneg by lia; zsimp; cbn; try done.
  destruct (Z.ltb_spec i 62); zsimp; done.
Qed.

Section encoding.
  Context (m : shadow_masks) (Hm : masks_ok m) (k : kvm_memslots) (gfn access : Z).
  Context (Hgfn : 0 <= gfn < 2 ^ 40) (Hapart : Z.land (Z.shiftl gfn PAGE_SHIFT) (shadow_mmio_mask m) = 0).

Lemma mmio_mask_bits i : 0 <= i -> Z.testbit (shadow_mmio_mask m) i = true ->
  ~ (3 <= i < 12) /\ ~ (52 <= i < 62) /\ i < 64 /\ Z.testbit (Z.shiftl gfn PAGE_SHIFT) i = false.
Proof.
  intros Hi Hb.
  assert (T : Z.testbit (Z.land (shadow_mmio_mask m) (generation_mmio_spte_mask MMIO_MAX_GEN)) i = false)
    by (by rewrite (mo_gen _ Hm), Z.testbit_0_l).
  assert (T' : Z.testbit (Z.land (Z.shiftl gfn PAGE_SHIFT) (shadow_mmio_mask m)) i = false)
    by (by rewrite Hapart, Z.testbit_0_l).
  rewrite Z.land_spec, Hb in T, T'. cbn in T. rewrite andb_true_r in T'. rewrite max_gen_bits in T by done.
  assert (i < 64).
  { destruct (Z.lt_ge_cases i 64); [done|]. rewrite (testbit_above _ 64) in Hb by (apply mo_range || lia; done). done. }
  destruct (Z.leb_spec 3 i), (Z.ltb_spec i 12), (Z.leb_spec 52 i), (Z.ltb_spec i 62); cbn in T; (done || (repeat split; done || lia)).
Qed.

(** The fields of the entry, bit by bit. *)
Lemma mark_bits i : 0 <= i ->
  Z.testbit (mark_mmio_spte m k gfn access) i
  = Z.testbit (generation_mmio_spte_mask (kvm_current_mmio_generation k)) i || Z.testbit (shadow_mmio_mask m) i
    || (Z.testbit access i && ((i =? 1) || (i =? 2))) || ((12 <=? i) && Z.testbit gfn (i - 12)).
Proof.
  intros Hi. unfold mark_mmio_spte. rewrite !Z.lor_spec, Z.land_spec, Z.lor_spec. unfold ACC_WRITE_MASK, ACC_USER_MASK, PT_WRITABLE_MASK, PT_USER_MASK.
  rewrite !Z.shiftl_1_l, !Z.pow2_bits_eqb, (Z.eqb_sym 1), (Z.eqb_sym 2) by lia.
  unfold u64, PAGE_SHIFT. rewrite <- Z.land_ones, Z.land_spec, Z.shiftl_spec, Z.testbit_ones_nonneg by lia.
  rewrite !orb_assoc. f_equal. destruct (Z.leb_spec 12 i); cbn [andb]; [|by rewrite Z.testbit_neg_r by lia].
  destruct (Z.ltb_spec i 64); [by rewrite andb_true_r|]. by rewrite (testbit_above gfn 40) by lia.
Qed.

Lemma mark_gfn : get_mmio_spte_gfn m (mark_mmio_spte m k gfn access) = gfn.
Proof.
  unfold get_mmio_spte_gfn. apply Z.bits_inj'. intros i Hi. unfold PAGE_SHIFT.
  rewrite Z.shiftr_spec, Z.ldiff_spec, Z.lor_spec, mark_bits, max_gen_bits, gen_mask_bits by (lia || apply gen_range).
  destruct (Z.testbit (shadow_mmio_mask m) (i + 12)) eqn:Em.
  - apply mmio_mask_bits in Em as (_ & _ & _ & Hb); [|lia]. unfold PAGE_SHIFT in Hb. rewrite Z.shiftl_spec in Hb by lia.
    rewrite !orb_true_r, andb_false_r. by replace (i + 12 - 12) with i in Hb by lia.
  - replace (i + 12 - 12) with i by lia. rewrite (proj2 (Z.leb_le 12 (i + 12))), (proj2 (Z.ltb_ge (i + 12) 12)) by lia.
    rewrite !andb_false_r, (proj2 (Z.eqb_neq _ 1)), (proj2 (Z.eqb_neq _ 2)), andb_false_r by lia. cbn.
    destruct (Z.leb_spec 52 (i + 12)); cbn; [|by rewrite andb_true_r].
    rewrite (testbit_above gfn 40) by lia. destruct (Z.ltb_spec (i + 12) 62); cbn; [by rewrite andb_false_r|].
    by rewrite (testbit_above _ 19) by (apply gen_range || lia).
Qed.

Lemma mark_generation : get_mmio_spte_generation m (mark_mmio_spte m k gfn access) = kvm_current_mmio_generation k.
Proof.
  pose proof (gen_range k) as Hg.
  unfold get_mmio_spte_generation. apply Z.bits_inj'. intros i Hi. unfold u32, u64, MMIO_SPTE_GEN_LOW_SHIFT, MMIO_SPTE_GEN_HIGH_SHIFT, MMIO_GEN_LOW_SHIFT.
  change MMIO_GEN_LOW_MASK with (Z.ones 9).
  rewrite <- !Z.land_ones, Z.land_spec, Z.lor_spec, !Z.land_spec, Z.shiftr_spec, Z.shiftl_spec, !Z.testbit_ones_nonneg by lia.
  destruct (Z.lt_ge_cases i 9) as [Hl|Hl]; zsimp; cbn [andb orb].
  - rewrite (Z.testbit_neg_r _ (i - 9)) by lia. rewrite !andb_true_r, orb_false_r. rewrite Z.ldiff_spec, mark_bits, gen_mask_bits by lia.
    replace (i + 3 - 3) with i by lia. zsimp. cbn [andb orb]. rewrite andb_false_r, !orb_false_r.
    destruct (Z.testbit (shadow_mmio_mask m) (i + 3)) eqn:Em; [apply mmio_mask_bits in Em; lia|].
    by rewrite orb_false_r, andb_true_r.
  - rewrite !andb_false_r. cbn [orb]. rewrite Z.shiftr_spec, Z.ldiff_spec, mark_bits, gen_mask_bits by lia.
    replace (i - 9 + 52 - 43) with i by lia. zsimp. cbn [andb orb]. rewrite (testbit_above gfn 40) by lia.
    rewrite andb_false_r, !orb_false_r. destruct (Z.testbit (shadow_mmio_mask m) (i - 9 + 52)) eqn:Em.
    + apply mmio_mask_bits in Em; [|lia]. rewrite orb_true_r, (testbit_above _ 19) by lia. done.
    + rewrite orb_false_r, andb_true_r. destruct (Z.lt_ge_cases i 19); [|by rewrite (testbit_above _ 19) by lia].
      zsimp. by rewrite !andb_true_r.
Qed.

Lemma mark_access : get_mmio_spte_access m (mark_mmio_spte m k gfn access)
  = Z.ldiff (Z.land access (Z.lor ACC_WRITE_MASK ACC_USER_MASK)) (shadow_mmio_mask m).
Proof.
  unfold get_mmio_spte_access. apply Z.bits_inj'. intros i Hi. unfold u32.
  change (PAGE_SIZE - 1) with (Z.ones 12).
  rewrite <- Z.land_ones, !Z.ldiff_spec, !Z.land_spec, !Z.ldiff_spec, !Z.lor_spec, mark_bits, max_gen_bits, gen_mask_bits, !Z.testbit_ones_nonneg
    by (lia || apply gen_range).
  unfold ACC_WRITE_MASK, ACC_USER_MASK, PT_WRITABLE_MASK, PT_USER_MASK.
  rewrite !Z.shiftl_1_l, !Z.pow2_bits_eqb, (Z.eqb_sym 1), (Z.eqb_sym 2) by lia.
  destruct (Z.lt_ge_cases i 12) as [Hl|Hl]; [|zsimp; cbn [andb orb]; by rewrite !andb_false_r].
  destruct (Z.lt_ge_cases i 3) as [Hl3|Hl3]; zsimp; cbn [andb orb negb]; rewrite ?andb_false_r, ?andb_true_r, ?orb_false_r; [|done].
  destruct (Z.testbit (shadow_mmio_mask m) i); cbn; by rewrite ?andb_false_r, ?andb_true_r.
Qed.

Lemma mark_is_mmio : is_mmio_spte m (mark_mmio_spte m k gfn access) = true.
Proof.
  unfold is_mmio_spte. apply Z.eqb_eq, Z.bits_inj'. intros i Hi. rewrite Z.land_spec, mark_bits by done.
  destruct (Z.testbit (shadow_mmio_mask m) i); [by rewrite orb_true_r|by rewrite andb_false_r].
Qed.

End encoding.

Lemma gen_agree k k' : 0 <= generation k < 2 ^ 64 -> 0 <= generation k' < 2 ^ 64 ->
  kvm_current_mmio_generation k' = kvm_current_mmio_generation k <->
  generation k' mod 2 ^ 19 = generation k mod 2 ^ 19.
Proof.
  intros Hk Hk'. unfold kvm_current_mmio_generation. change MMIO_GEN_MASK with (Z.ones 19). change (MMIO_MAX_GEN) with (2 ^ 19 - 1).
  rewrite !Z.land_ones by lia. unfold u64.
  assert (E : forall x, (x mod 2 ^ 64) mod 2 ^ 19 = x mod 2 ^ 19).
  { intros x. rewrite (Z.mod_eq x (2 ^ 64)) by lia. replace (2 ^ 64) with (2 ^ 45 * 2 ^ 19) by lia.
    rewrite Zminus_mod, <- Z.mul_assoc, (Z.mul_comm (2 ^ 19) (x / _)), Z.mul_assoc, Z.mod_mul, Z.sub_0_r, Zmod_mod by lia. done. }
  rewrite !E. set (c := 2 ^ 19 - 1 - 150). replace (generation k + (2 ^ 19 - 1) - 150) with (generation k + c) by (unfold c; lia).
  replace (generation k' + (2 ^ 19 - 1) - 150) with (generation k' + c) by (unfold c; lia). split; intros H.
  - replace (generation k') with (generation k' + c - c) by lia. replace (generation k) with (generation k + c - c) by lia.
    by rewrite <- (Zminus_mod_idemp_l (generation k' + c)), <- (Zminus_mod_idemp_l (generation k + c)), H.
  - by rewrite <- (Zplus_mod_idemp_l (generation k')), <- (Zplus_mod_idemp_l (generation k)), H.
Qed.

(** C25: An entry made for an address without memory gives back its frame, its
    generation and the access bits the marker leaves free, is recognised,
    never counts as present, and is accepted later exactly while the
    generation of the slot table agrees in its low 19 bits. *)
Theorem mmio_spte_roundtrip (m : shadow_masks) (k k' : kvm_memslots) (gfn access : Z) (Hm : masks_ok m)
    (Hgfn : 0 <= gfn < 2 ^ 40) (Hapart : Z.land (Z.shiftl gfn PAGE_SHIFT) (shadow_mmio_mask m) = 0)
    (Hk : 0 <= generation k < 2 ^ 64) (Hk' : 0 <= generation k' < 2 ^ 64) :
  let spte := mark_mmio_spte m k gfn access in
  is_mmio_spte m spte = true /\ is_shadow_present_pte m spte = false /\ get_mmio_spte_gfn m spte = gfn /\
  get_mmio_spte_access m spte = Z.ldiff (Z.land access (Z.lor ACC_WRITE_MASK ACC_USER_MASK)) (shadow_mmio_mask m) /\
  (check_mmio_spte m k' spte = true <-> generation k' mod 2 ^ 19 = generation k mod 2 ^ 19).
Proof.
  intros spte. unfold spte. split; [by apply mark_is_mmio|]. split.
  { unfold is_shadow_present_pte. rewrite mark_is_mmio by done. by rewrite andb_false_r. }
  split; [by apply mark_gfn|]. split; [by apply mark_access|].
  unfold check_mmio_spte. rewrite mark_generation by done. rewrite Z.eqb_eq. by apply gen_agree.
Qed.

Lemma mmio_spte_roundtrip_witness :
  let k := kvm_init_memslots_id in
  let spte := mark_mmio_spte (init_masks 36) k 0xfee00 7 in
  get_mmio_spte_gfn (init_masks 36) spte = 0xfee00 /\ get_mmio_spte_access (init_masks 36) spte = 6 /\
  check_mmio_spte (init_masks 36) (set_generation k (2 ^ 19 - 1)) spte = true.
Proof.
  intros k spte.
  destruct (mmio_spte_roundtrip (init_masks 36) k (set_generation k (2 ^ 19 - 1)) 0xfee00 7) as (_ & _ & H1 & H2 & H3).
  - apply init_masks_ok. lia.
  - lia.
  - reflexivity.
  - split; [by vm_compute|by vm_compute].
  - split; [by vm_compute|by vm_compute].
  - split; [exact H1|]. split; [unfold spte; rewrite H2; vm_compute; reflexivity|]. apply H3. reflexivity.
Defined.
