(* ===== verification/PteList.v ===== *)
(** * Lists of entries (kvm-kmod x86/mmu.c)

    A word names the shadow entries that map a page: none, the one it points
    to, or, when its lowest bit is set, those in a chain of descriptors of
    three entries each.  The words of the reverse map and of the parents of a
    shadow page have this form.  Descriptors come from a cache that is filled
    before the lock is taken, so that no allocation can fail under it.

    The list a word stands for is stated on the part of the heap its chain
    occupies; every operation is proved on that part, whatever the rest of
    the heap holds. *)

From S2P Require Import Prelude MemSlots.

(** ** Descriptors and their cache *)

Definition PTE_LIST_EXT : nat := 3.

Record pte_list_desc := Desc { sptes : list Z; more : Z }.

(** A descriptor as [kmem_cache_zalloc] returns it. *)
Definition zeroed : pte_list_desc := Desc [0; 0; 0] 0.

(** The heap of descriptors and the objects of the processor's cache, the
    last one first. *)
Record pool := Pool { descs : gmap Z pte_list_desc; objects : list Z }.

(** [ARRAY_SIZE(cache->objects)] *)
Definition KVM_NR_MEM_OBJS : nat := 40.

(** The loop of [mmu_topup_memory_cache]; [obj] is the answer of each
    allocation, 0 for none. *)
Fixpoint topup_loop (obj : list Z) (p : pool) : pool * Z :=
  if (length (objects p) <? KVM_NR_MEM_OBJS)%nat then
    match obj with
    | [] => (p, - ENOMEM)
    | o :: obj =>
        if o =? 0 then (p, - ENOMEM)
        else topup_loop obj (Pool (<[o := zeroed]> (descs p)) (o :: objects p))
    end
  else (p, 0).

Definition mmu_topup_memory_cache (obj : list Z) (min : nat) (p : pool) : pool * Z :=
  if (min <=? length (objects p))%nat then (p, 0) else topup_loop obj p.

Definition mmu_memory_cache_free_objects (p : pool) : nat := length (objects p).

(** [BUG_ON(!mc->nobjs)] *)
Definition mmu_alloc_pte_list_desc (p : pool) : res (Z * pool) :=
  match objects p with
  | [] => Err AssertFailed
  | o :: os => Ok (o, Pool (descs p) os)
  end.

Definition mmu_free_pte_list_desc (d : Z) (p : pool) : pool := Pool (delete d (descs p)) (objects p).

(** [mmu_free_memory_cache] *)
Definition mmu_free_memory_cache (p : pool) : pool :=
  Pool (foldl (fun h o => delete o h) (descs p) (objects p)) [].

Definition load (d : Z) (p : pool) : res pte_list_desc :=
  match descs p !! d with None => Err BadPointer | Some x => Ok x end.

Definition store (d : Z) (x : pte_list_desc) (p : pool) : pool := Pool (<[d := x]> (descs p)) (objects p).

(** [desc->sptes[i]] *)
Definition spte_at (x : pte_list_desc) (i : nat) : res Z :=
  match sptes x !! i with None => Err BufferOverflow | Some s => Ok s end.

Definition set_spte_at (x : pte_list_desc) (i : nat) (s : Z) : pte_list_desc :=
  Desc (<[i := s]> (sptes x)) (more x).

(** ** Adding an entry *)

Definition is_chain (w : Z) : bool := Z.testbit w 0.

(** [desc = (struct pte_list_desc * )( *pte_list & ~1ul)] *)
Definition chain_head (w : Z) : Z := Z.clearbit w 0.

(** [while (desc->sptes[PTE_LIST_EXT-1] && desc->more)] *)
Fixpoint find_room (fuel : nat) (d : Z) (count : nat) (p : pool) : res (Z * nat) :=
  match fuel with
  | O => Err OutOfFuel
  | S fuel =>
      x ← load d p;
      last ← spte_at x (PTE_LIST_EXT - 1);
      if negb (last =? 0) && negb (more x =? 0) then find_room fuel (more x) (count + PTE_LIST_EXT) p
      else Ok (d, count)
  end.

(** [for (i = 0; desc->sptes[i]; ++i)] *)
Fixpoint free_place (l : list Z) (i : nat) : res nat :=
  match l with
  | [] => Err BufferOverflow
  | s :: l => if s =? 0 then Ok i else free_place l (S i)
  end.

(** A chain visits each descriptor of the heap at most once. *)
Definition chain_fuel (p : pool) : nat := S (size (descs p)).

(** The count the function returns and the word it leaves. *)
Definition pte_list_add (spte : Z) (pte_list : Z) (p : pool) : res (nat * Z * pool) :=
  if pte_list =? 0 then Ok (O, spte, p)
  else if negb (is_chain pte_list) then
    '(d, p) ← mmu_alloc_pte_list_desc p;
    x ← load d p;
    let p := store d (set_spte_at (set_spte_at x 0 pte_list) 1 spte) p in
    Ok (1%nat, Z.setbit d 0, p)
  else
    '(d, count) ← find_room (chain_fuel p) (chain_head pte_list) O p;
    x ← load d p;
    last ← spte_at x (PTE_LIST_EXT - 1);
    '(d, p) ← (if negb (last =? 0) then
                 '(d', p) ← mmu_alloc_pte_list_desc p;
                 Ok (d', store d (Desc (sptes x) d') p)
               else Ok (d, p));
    x ← load d p;
    i ← free_place (sptes x) 0;
    Ok ((count + i)%nat, pte_list, store d (set_spte_at x i spte) p).

(** ** Removing an entry *)

(** [for (j = PTE_LIST_EXT - 1; !desc->sptes[j] && j > i; --j)] *)
Fixpoint last_used (x : pte_list_desc) (i j : nat) : res nat :=
  s ← spte_at x j;
  match j with
  | O => Ok O
  | S j' => if (s =? 0) && (i <? j)%nat then last_used x i j' else Ok j
  end.

Definition pte_list_desc_remove_entry (pte_list d : Z) (i : nat) (prev_desc : Z) (p : pool) : res (Z * pool) :=
  x ← load d p;
  j ← last_used x i (PTE_LIST_EXT - 1);
  last ← spte_at x j;
  let x := set_spte_at (set_spte_at x i last) j 0 in
  let p := store d x p in
  if negb (j =? 0)%nat then Ok (pte_list, p)
  else
    '(w, p) ← (if (prev_desc =? 0) && (more x =? 0) then
                 s ← spte_at x 0; Ok (s, p)
               else if negb (prev_desc =? 0) then
                 y ← load prev_desc p; Ok (pte_list, store prev_desc (Desc (sptes y) (more x)) p)
               else Ok (Z.setbit (more x) 0, p));
    Ok (w, mmu_free_pte_list_desc d p).

(** [for (i = 0; i < PTE_LIST_EXT && desc->sptes[i]; ++i)
     if (desc->sptes[i] == spte)]: the place found. *)
Fixpoint find_entry (spte : Z) (l : list Z) (i : nat) : option nat :=
  match l with
  | [] => None
  | s :: l => if s =? 0 then None else if s =? spte then Some i else find_entry spte l (S i)
  end.

(** [while (desc)]; past the end of the chain is a [BUG]. *)
Fixpoint remove_loop (fuel : nat) (spte pte_list d prev_desc : Z) (p : pool) : res (Z * pool) :=
  match fuel with
  | O => Err OutOfFuel
  | S fuel =>
      if d =? 0 then Err AssertFailed
      else
        x ← load d p;
        match find_entry spte (sptes x) 0 with
        | Some i => pte_list_desc_remove_entry pte_list d i prev_desc p
        | None => remove_loop fuel spte pte_list (more x) d p
        end
  end.

Definition pte_list_remove (spte pte_list : Z) (p : pool) : res (Z * pool) :=
  if pte_list =? 0 then Err AssertFailed
  else if negb (is_chain pte_list) then
    if negb (pte_list =? spte) then Err AssertFailed else Ok (0, p)
  else remove_loop (S (chain_fuel p)) spte pte_list (chain_head pte_list) 0 p.

(** ** Going through a list *)

(** [for (i = 0; i < PTE_LIST_EXT && desc->sptes[i]; ++i)] *)
Fixpoint used (l : list Z) : list Z :=
  match l with
  | [] => []
  | s :: l => if s =? 0 then [] else s :: used l
  end.

Section walk.
  Context {T : Type} (fn : Z -> st T unit).

Fixpoint walk_desc (l : list Z) : st T unit :=
  match l with
  | [] => mret tt
  | s :: l => if s =? 0 then mret tt else fn s ;; walk_desc l
  end.

Fixpoint walk_loop (fuel : nat) (d : Z) (p : pool) : st T unit :=
  match fuel with
  | O => lift_res (Err OutOfFuel)
  | S fuel =>
      if d =? 0 then mret tt
      else
        x ← lift_res (load d p);
        walk_desc (sptes x) ;; walk_loop fuel (more x) p
  end.

(** [fn] does not change the list. *)
Definition pte_list_walk (pte_list : Z) (p : pool) : st T unit :=
  if pte_list =? 0 then mret tt
  else if negb (is_chain pte_list) then fn pte_list
  else walk_loop (S (chain_fuel p)) (chain_head pte_list) p.

End walk.

Record rmap_iterator := Iter { idesc : Z; pos : nat }.

(** The entry, 0 for none, and the iterator. *)
Definition rmap_get_first (rmap : Z) (p : pool) (iter : rmap_iterator) : res (Z * rmap_iterator) :=
  if rmap =? 0 then Ok (0, iter)
  else if negb (is_chain rmap) then Ok (rmap, Iter 0 (pos iter))
  else
    x ← load (chain_head rmap) p;
    s ← spte_at x 0;
    Ok (s, Iter (chain_head rmap) 0).

(** From [iter->desc = iter->desc->more] on. *)
Definition next_desc (x : pte_list_desc) (i : nat) (p : pool) : res (Z * rmap_iterator) :=
  if more x =? 0 then Ok (0, Iter 0 i)
  else
    y ← load (more x) p;
    s ← spte_at y 0;
    Ok (s, Iter (more x) 0).

Definition rmap_get_next (iter : rmap_iterator) (p : pool) : res (Z * rmap_iterator) :=
  if idesc iter =? 0 then Ok (0, iter)
  else
    x ← load (idesc iter) p;
    if (pos iter <? PTE_LIST_EXT - 1)%nat then
      s ← spte_at x (S (pos iter));
      if negb (s =? 0) then Ok (s, Iter (idesc iter) (S (pos iter)))
      else next_desc x (S (pos iter)) p
    else next_desc x (pos iter) p.

(** ** What a word stands for *)

(** A chunk: a descriptor and the entries it holds. *)
Abbreviation chunk := (Z * list Z)%type.

Definition good (a : Z) : Prop := a <> 0 /\ Z.testbit a 0 = false.

Definition filled (l : list Z) : list Z := l ++ replicate (PTE_LIST_EXT - length l) 0.

Definition chunk_ok (c : chunk) : Prop :=
  good c.1 /\ (1 <= length c.2 <= PTE_LIST_EXT)%nat /\ Forall (fun s => s <> 0) c.2.

Definition head_of (cs : list chunk) : Z := match cs with [] => 0 | c :: _ => c.1 end.

Fixpoint linked (h : gmap Z pte_list_desc) (cs : list chunk) : Prop :=
  match cs with
  | [] => True
  | (a, l) :: cs => h !! a = Some (Desc (filled l) (head_of cs)) /\ linked h cs
  end.

(** The word [w] stands for the entries [l], kept in the chunks [cs]. *)
Inductive holds (h : gmap Z pte_list_desc) : Z -> list chunk -> list Z -> Prop :=
| holds_none : holds h 0 [] []
| holds_one s : good s -> holds h s [] [s]
| holds_many cs : cs <> [] -> Forall chunk_ok cs -> NoDup cs.*1 -> linked h cs ->
    holds h (Z.setbit (head_of cs) 0) cs (concat cs.*2).

(** The cached objects are zeroed descriptors that nothing else uses. *)
Record cache_ok (p : pool) : Prop := {
  ca_nodup : NoDup (objects p);
  ca_zeroed o : o ∈ objects p -> good o /\ descs p !! o = Some zeroed
}.

(** *** Words *)

Lemma tagged_word a : good a -> Z.setbit a 0 <> 0 /\ is_chain (Z.setbit a 0) = true /\ chain_head (Z.setbit a 0) = a.
Proof.
  intros [H0 Hb]. assert (Hc : is_chain (Z.setbit a 0) = true) by (unfold is_chain; by rewrite Z.setbit_eq).
  split; [|split; [done|]].
  - intros E. by rewrite E in Hc.
  - unfold chain_head. apply Z.bits_inj'. intros i Hi. rewrite Z.clearbit_eqb, Z.setbit_eqb by lia.
    destruct (Z.eqb_spec 0 i) as [<-|]; cbn [negb andb orb]; [by rewrite Hb|by rewrite andb_true_r].
Qed.

Lemma chain_word cs : cs <> [] -> Forall chunk_ok cs ->
  (Z.setbit (head_of cs) 0 =? 0) = false /\ is_chain (Z.setbit (head_of cs) 0) = true /\
  chain_head (Z.setbit (head_of cs) 0) = head_of cs.
Proof.
  intros Hcs Hf. assert (Hg : good (head_of cs)) by (destruct cs; [done|]; apply Forall_cons in Hf as [[? _] _]; done).
  destruct (tagged_word _ Hg) as (H1 & H2 & H3). split; [lia|done].
Qed.

(** *** Chains *)

Ltac addrs := rewrite ?fmap_app, ?fmap_cons, ?fmap_nil in *; cbn [fst snd] in *.

Lemma linked_frame h h' cs : (forall a, a ∈ cs.*1 -> h' !! a = h !! a) -> linked h cs -> linked h' cs.
Proof.
  induction cs as [|[a l] cs IH]; intros Hf; [done|]. cbn [linked]. intros [E H].
  split; [rewrite Hf; [done|set_solver]|]. apply IH; [|done]. intros b Hb. apply Hf. set_solver.
Qed.

Lemma linked_app_r h cs1 cs2 : linked h (cs1 ++ cs2) -> linked h cs2.
Proof. induction cs1 as [|[a l] cs1 IH]; [done|]. cbn. intros [_ H]. auto. Qed.

Lemma linked_mid h cs1 a l cs2 : linked h (cs1 ++ (a, l) :: cs2) -> h !! a = Some (Desc (filled l) (head_of cs2)).
Proof. intros H%linked_app_r. apply H. Qed.

Lemma chain_in_heap h cs a : linked h cs -> a ∈ cs.*1 -> a ∈ dom h.
Proof.
  induction cs as [|[b l] cs IH]; [set_solver|]. cbn. intros [E H] [->|Ha]%elem_of_cons; [|auto].
  apply elem_of_dom. eauto.
Qed.

Lemma linked_length h cs : linked h cs -> NoDup cs.*1 -> (length cs <= size h)%nat.
Proof.
  intros H Hn. rewrite <- (length_fmap fst), <- (size_list_to_set (C := gset Z)), <- size_dom by done.
  apply subseteq_size. intros a Ha. apply elem_of_list_to_set in Ha. eapply chain_in_heap; eauto.
Qed.

Lemma head_of_app cs1 a l l' cs2 cs2' : head_of (cs1 ++ (a, l) :: cs2) = head_of (cs1 ++ (a, l') :: cs2').
Proof. by destruct cs1. Qed.

(** Rewriting one chunk. *)
Lemma linked_update h cs1 a l l' cs2 : linked h (cs1 ++ (a, l) :: cs2) -> NoDup (cs1 ++ (a, l) :: cs2).*1 ->
  linked (<[a := Desc (filled l') (head_of cs2)]> h) (cs1 ++ (a, l') :: cs2).
Proof.
  induction cs1 as [|[b x] cs1 IH]; cbn [app linked]; rewrite fmap_cons; intros [E H] [Hb Hn]%NoDup_cons; cbn [fst] in Hb.
  - split; [by rewrite lookup_insert_eq|]. eapply linked_frame; [|done]. intros c Hc. rewrite lookup_insert_ne; [done|set_solver].
  - split; [|by apply IH]. addrs. rewrite lookup_insert_ne by set_solver. by rewrite E, (head_of_app _ _ l l' cs2 cs2).
Qed.

(** Appending a chunk. *)
Lemma linked_append h cs a l o l' : linked h (cs ++ [(a, l)]) -> NoDup (cs ++ [(a, l)]).*1 -> o ∉ (cs ++ [(a, l)]).*1 ->
  linked (<[o := Desc (filled l') 0]> (<[a := Desc (filled l) o]> h)) (cs ++ [(a, l); (o, l')]).
Proof.
  induction cs as [|[b x] cs IH]; cbn [app linked]; rewrite fmap_cons; intros [E H] [Hb Hn]%NoDup_cons Ho; cbn [fst] in *.
  - cbn. addrs. rewrite lookup_insert_ne, lookup_insert_eq, lookup_insert_eq by set_solver. done.
  - apply not_elem_of_cons in Ho as [Hob Ho]. split; [|by apply IH]. addrs. rewrite !lookup_insert_ne by set_solver. by rewrite E, (head_of_app _ _ l l [] [(o, l')]).
Qed.

(** Taking a chunk out behind another. *)
Lemma linked_unlink h cs1 b x a l cs2 :
  linked h (cs1 ++ (b, x) :: (a, l) :: cs2) -> NoDup (cs1 ++ (b, x) :: (a, l) :: cs2).*1 ->
  linked (delete a (<[b := Desc (filled x) (head_of cs2)]> h)) (cs1 ++ (b, x) :: cs2).
Proof.
  induction cs1 as [|[c y] cs1 IH]; cbn [app linked]; rewrite fmap_cons.
  - intros [E [E' H]] [Hb Hn]%NoDup_cons. rewrite fmap_cons, NoDup_cons in Hn. destruct Hn as [Ha Hn]. addrs. split.
    + rewrite lookup_delete_ne, lookup_insert_eq by set_solver. done.
    + eapply linked_frame; [|done]. intros d Hd. rewrite lookup_delete_ne, lookup_insert_ne by set_solver. done.
  - intros [E H] [Hb Hn]%NoDup_cons. split; [|by apply IH]. addrs.
    rewrite lookup_delete_ne, lookup_insert_ne by set_solver. by rewrite E, (head_of_app _ _ x x ((a, l) :: cs2) cs2).
Qed.

(** ** Adding *)

(** The shapes of a chunk. *)
Lemma chunk_shapes a l : chunk_ok (a, l) ->
  (exists x, l = [x] /\ x <> 0) \/ (exists x y, l = [x; y] /\ x <> 0 /\ y <> 0) \/
  (exists x y z, l = [x; y; z] /\ x <> 0 /\ y <> 0 /\ z <> 0).
Proof.
  intros (_ & Hl & Hf). cbn in Hl, Hf. unfold PTE_LIST_EXT in Hl.
  destruct l as [|x [|y [|z [|w l]]]]; cbn in Hl; try lia; rewrite ?Forall_cons in Hf; naive_solver.
Qed.

Lemma filled_last a l d : chunk_ok (a, l) ->
  exists v, spte_at (Desc (filled l) d) (PTE_LIST_EXT - 1) = Ok v /\ (v =? 0) = (length l <? PTE_LIST_EXT)%nat.
Proof.
  intros [(x & -> & H)|[(x & y & -> & H & H')|(x & y & z & -> & H & H' & H3)]]%chunk_shapes; cbn; eexists; (split; [done|]); [done|done|lia].
Qed.

Lemma load_linked p a l cs : linked (descs p) ((a, l) :: cs) -> load a p = Ok (Desc (filled l) (head_of cs)).
Proof. intros [E _]. unfold load. by rewrite E. Qed.

Lemma load_mid p cs1 a l cs2 : linked (descs p) (cs1 ++ (a, l) :: cs2) -> load a p = Ok (Desc (filled l) (head_of cs2)).
Proof. intros H%linked_app_r. by apply load_linked in H. Qed.

Lemma head_of_zero cs : Forall chunk_ok cs -> (head_of cs =? 0) = bool_decide (cs = []).
Proof.
  destruct cs as [|[a l] cs]; [done|]. intros [[[H _] _] _]%Forall_cons. rewrite bool_decide_false by done. cbn in *. lia.
Qed.

Lemma find_room_spec p cs : forall fuel n, linked (descs p) cs -> Forall chunk_ok cs -> cs <> [] -> (length cs <= fuel)%nat ->
  exists cs1 a l cs2, cs = cs1 ++ (a, l) :: cs2 /\
    find_room fuel (head_of cs) n p = Ok (a, (n + length (concat cs1.*2))%nat) /\
    ((length l < PTE_LIST_EXT)%nat \/ length l = PTE_LIST_EXT /\ cs2 = []).
Proof.
  induction cs as [|[a l] cs IH]; intros fuel n Hl Hf Hne Hfu; [done|].
  apply Forall_cons in Hf as [Hc Hf]. destruct fuel as [|fuel]; [cbn in Hfu; lia|]. cbn [find_room head_of fst].
  rewrite (load_linked _ _ _ _ Hl), bind_Ok. destruct (filled_last a l (head_of cs) Hc) as (v & -> & Ev). rewrite bind_Ok, Ev. cbn [more].
  rewrite head_of_zero by done. pose proof (proj1 (proj2 Hc)) as Hlen. cbn in Hlen.
  destruct (Nat.ltb_spec (length l) PTE_LIST_EXT) as [Hlt|Hge]; cbn [negb andb].
  { exists [], a, l, cs. split; [done|]. split; [|by left]. cbn. by rewrite Nat.add_0_r. }
  destruct cs as [|c cs]; [cbn; exists [], a, l, []; split; [done|]; split; [cbn; by rewrite Nat.add_0_r|right; split; [lia|done]]|].
  rewrite bool_decide_false by done. cbn [negb].
  destruct (IH fuel (n + PTE_LIST_EXT)%nat) as (cs1 & b & l' & cs2 & E & H1 & H2); [apply Hl|done|done|cbn in *; lia|].
  exists ((a, l) :: cs1), b, l', cs2. split; [by rewrite E|]. split; [|done].
  rewrite H1, fmap_cons. cbn [concat snd]. rewrite length_app. f_equal. f_equal. lia.
Qed.

Lemma free_place_filled l : Forall (fun s => s <> 0) l -> (length l < PTE_LIST_EXT)%nat ->
  forall n, free_place (filled l) n = Ok (n + length l)%nat.
Proof.
  intros Hf Hl. unfold filled. assert (0 < PTE_LIST_EXT - length l)%nat as Hr by lia.
  set (r := (PTE_LIST_EXT - length l)%nat) in *. clearbody r. clear Hl. induction Hf as [|x l Hx _ IH]; intros n.
  - destruct r; [lia|]. cbn. f_equal. lia.
  - cbn [app free_place]. zsimp. rewrite IH. f_equal. cbn. lia.
Qed.

Lemma filled_snoc l s : (length l < PTE_LIST_EXT)%nat -> <[length l := s]> (filled l) = filled (l ++ [s]).
Proof.
  intros Hl. unfold filled. rewrite insert_app_r_alt, Nat.sub_diag, length_app by lia. cbn [length].
  destruct (PTE_LIST_EXT - length l)%nat as [|r] eqn:E; [lia|]. replace (PTE_LIST_EXT - (length l + 1))%nat with r by lia.
  cbn. by rewrite <- app_assoc.
Qed.

(** The effect on the heap: the chain keeps its chunks or takes one object of
    the cache; nothing else changes and nothing is freed. *)
Record grown (p p' : pool) (cs cs' : list chunk) : Prop := {
  gr_objects : objects p' = objects p /\ cs'.*1 = cs.*1 \/
    exists o, objects p = o :: objects p' /\ cs'.*1 = cs.*1 ++ [o];
  gr_frame a : a ∉ cs'.*1 -> descs p' !! a = descs p !! a;
  gr_dom : dom (descs p') = dom (descs p)
}.

Lemma grown_cache p p' cs cs' : grown p p' cs cs' -> cache_ok p -> (forall o, o ∈ objects p -> o ∉ cs.*1) -> cache_ok p'.
Proof.
  intros [Ho Hf _] [Hn Hz] Hd. destruct Ho as [[E1 E2]|(o & E1 & E2)].
  - split; rewrite E1; [done|]. intros o Ho. rewrite Hf by (rewrite E2; auto). auto.
  - rewrite E1 in *. apply NoDup_cons in Hn as [Hno Hn]. split; [done|]. intros o' Ho'.
    rewrite Hf; [apply Hz; set_solver|]. rewrite E2, not_elem_of_app, list_elem_of_singleton. split; [apply Hd; set_solver|].
    intros ->. done.
Qed.

Lemma dom_insert_known {A} (h : gmap Z A) a x y : h !! a = Some y -> dom (<[a := x]> h) = dom h.
Proof. intros E. rewrite dom_insert_L. assert (a ∈ dom h) by (apply elem_of_dom; eauto). set_solver. Qed.

Lemma concat_mid (cs1 cs2 : list chunk) a l : concat (cs1 ++ (a, l) :: cs2).*2 = concat cs1.*2 ++ l ++ concat cs2.*2.
Proof. by rewrite fmap_app, fmap_cons, concat_app. Qed.

(** The list takes the entry where the first chunk has room. *)
Lemma add_in_chunk p cs1 a l cs2 s : let cs := cs1 ++ (a, l) :: cs2 in
  Forall chunk_ok cs -> NoDup cs.*1 -> linked (descs p) cs -> (length l < PTE_LIST_EXT)%nat -> s <> 0 ->
  let cs' := cs1 ++ (a, l ++ [s]) :: cs2 in
  let p' := store a (Desc (filled (l ++ [s])) (head_of cs2)) p in
  Forall chunk_ok cs' /\ NoDup cs'.*1 /\ linked (descs p') cs' /\ grown p p' cs cs'.
Proof.
  intros cs Hf Hn Hl Hlen Hs cs' p'. assert (E : cs'.*1 = cs.*1) by (unfold cs', cs; by rewrite !fmap_app, !fmap_cons).
  rewrite E. split.
  { unfold cs, cs' in *. rewrite Forall_app, Forall_cons in *. destruct Hf as (H1 & (Hg & Hlo & Hnz) & H2).
    split; [done|]. split; [|done]. split; [done|]. cbn in *. rewrite length_app, Forall_app, Forall_singleton. cbn. split; [lia|done]. }
  split; [done|]. split; [by apply (linked_update _ _ _ l)|]. pose proof (linked_mid _ _ _ _ _ Hl) as Ea.
  split; [by left| |exact (dom_insert_known _ _ _ _ Ea)].
  intros b Hb. cbn. rewrite lookup_insert_ne; [done|]. intros ->. apply Hb. unfold cs'. rewrite fmap_app, fmap_cons. set_solver.
Qed.

Lemma add_new_chunk p cs1 a l s o os : let cs := cs1 ++ [(a, l)] in
  Forall chunk_ok cs -> NoDup cs.*1 -> linked (descs p) cs -> objects p = o :: os -> good o ->
  descs p !! o = Some zeroed -> o ∉ cs.*1 -> s <> 0 ->
  let cs' := cs1 ++ [(a, l); (o, [s])] in
  let p' := store o (Desc [s; 0; 0] 0) (store a (Desc (filled l) o) (Pool (descs p) os)) in
  Forall chunk_ok cs' /\ NoDup cs'.*1 /\ linked (descs p') cs' /\ grown p p' cs cs'.
Proof.
  intros cs Hf Hn Hl Ho Hg Hz Hno Hs cs' p'. assert (E : cs' = cs ++ [(o, [s])]) by (unfold cs', cs; by rewrite <- app_assoc).
  rewrite E at 1 2. split.
  { apply Forall_app. split; [done|]. apply Forall_singleton. split; [done|]. cbn. unfold PTE_LIST_EXT. split; [lia|]. by apply Forall_singleton. }
  split; [rewrite fmap_app; apply NoDup_app; cbn; split; [done|]; split; [intros x Hx; rewrite list_elem_of_singleton; by intros ->|apply NoDup_singleton]|].
  split; [by apply (linked_append _ cs1 a l o [s])|]. pose proof (linked_mid _ _ _ _ _ Hl) as Ea.
  assert (Hao : a <> o). { intros ->. apply Hno. unfold cs. rewrite fmap_app. set_solver. }
  split.
  - right. exists o. split; [done|]. by rewrite E, fmap_app.
  - rewrite E, fmap_app. intros b Hb. cbn. rewrite !lookup_insert_ne; [done|..]; intros ->; apply Hb; unfold cs; rewrite ?fmap_app; set_solver.
  - cbn. rewrite (dom_insert_known _ o _ zeroed) by (by rewrite lookup_insert_ne). exact (dom_insert_known _ _ _ _ Ea).
Qed.

(** The specification of an addition.  The entry goes behind [l1], and the
    count returned is the length of [l1], or three less when a descriptor was
    added to a chain. *)
Definition add_spec (p : pool) (w : Z) (cs : list chunk) (l : list Z) (s : Z) : Prop :=
  exists n w' p' cs' l1 l2, pte_list_add s w p = Ok (n, w', p') /\ l = l1 ++ l2 /\
    (n = length l1 \/ (n + PTE_LIST_EXT)%nat = length l1 /\ l2 = []) /\
    holds (descs p') w' cs' (l1 ++ s :: l2) /\ grown p p' cs cs' /\ cache_ok p'.

Section add.
  Context (p : pool) (s o : Z) (os : list Z).
  Context (Hc : cache_ok p) (Eo : objects p = o :: os) (Hs : good s).

Lemma cached_object : good o /\ descs p !! o = Some zeroed.
Proof using Hc Eo. clear Hs. apply (ca_zeroed _ Hc). rewrite Eo. left. Qed.

Lemma add_to_one x : good x -> add_spec p x [] [x] s.
Proof using Hc Eo Hs.
  intros [Hx0 Hx1]. destruct cached_object as [Hg Hz]. unfold add_spec, pte_list_add.
  zsimp. unfold is_chain. rewrite Hx1. cbn [negb]. unfold mmu_alloc_pte_list_desc. rewrite Eo, bind_Ok.
  unfold load. cbn [descs]. rewrite Hz, bind_Ok.
  assert (Hgr : grown p (store o (Desc [x; s; 0] 0) (Pool (descs p) os)) [] [(o, [x; s])]).
  { split; [right; exists o; by rewrite Eo| |exact (dom_insert_known _ _ _ _ Hz)].
    intros a Ha. cbn. rewrite lookup_insert_ne; [done|set_solver]. }
  exists 1%nat, (Z.setbit o 0), (store o (Desc [x; s; 0] 0) (Pool (descs p) os)), [(o, [x; s])], [x], [].
  split; [done|]. split; [done|]. split; [by left|]. split; [|split; [done|]].
  - change [x; s] with (concat [(o, [x; s])].*2). change o with (head_of [(o, [x; s])]) at 2. apply holds_many; [done|..].
    + apply Forall_singleton. split; [done|]. cbn. unfold PTE_LIST_EXT. split; [lia|]. rewrite !Forall_cons. destruct Hs. done.
    + apply NoDup_singleton.
    + cbn. by rewrite lookup_insert_eq.
  - eapply grown_cache; [done|done|set_solver].
Qed.

Lemma add_to_chain cs : cs <> [] -> Forall chunk_ok cs -> NoDup cs.*1 -> linked (descs p) cs ->
  (forall o, o ∈ objects p -> o ∉ cs.*1) -> add_spec p (Z.setbit (head_of cs) 0) cs (concat cs.*2) s.
Proof using Hc Eo Hs.
  intros Hcs Hf Hn Hl Hd. destruct cached_object as [Hg Hz]. unfold add_spec, pte_list_add.
  destruct (chain_word cs Hcs Hf) as (-> & -> & ->). cbn [negb].
  destruct (find_room_spec p cs (chain_fuel p) 0 Hl Hf Hcs) as (cs1 & a & l & cs2 & -> & E1 & Hroom).
  { unfold chain_fuel. pose proof (linked_length _ _ Hl Hn). lia. }
  rewrite E1, bind_Ok. clear E1. cbn [Nat.add]. rewrite (load_mid _ _ _ _ _ Hl), bind_Ok.
  assert (Hca : chunk_ok (a, l)) by (rewrite Forall_app, Forall_cons in Hf; tauto).
  destruct (filled_last a l (head_of cs2) Hca) as (v & -> & Ev). rewrite bind_Ok, Ev. destruct Hroom as [Hlt|[Hfull ->]].
  - rewrite (proj2 (Nat.ltb_lt _ _) Hlt). cbn [negb]. rewrite bind_Ok, (load_mid _ _ _ _ _ Hl), bind_Ok. cbn [sptes].
    rewrite free_place_filled, bind_Ok by (done || apply Hca). cbn [Nat.add]. unfold set_spte_at. cbn [sptes more]. rewrite filled_snoc by done.
    destruct (add_in_chunk p cs1 a l cs2 s Hf Hn Hl Hlt (proj1 Hs)) as (F' & N' & L' & G').
    eexists _, _, _, _, (concat cs1.*2 ++ l), (concat cs2.*2). split; [reflexivity|].
    split; [by rewrite concat_mid, app_assoc|]. split; [left; by rewrite length_app|]. split; [|split; [exact G'|by eapply grown_cache; [exact G'|..]]].
    replace ((concat cs1.*2 ++ l) ++ s :: concat cs2.*2) with (concat (cs1 ++ (a, l ++ [s]) :: cs2).*2)
      by (rewrite concat_mid, <- !app_assoc; done).
    rewrite (head_of_app cs1 a l (l ++ [s]) cs2 cs2). apply holds_many; try done. by destruct cs1.
  - rewrite (proj2 (Nat.ltb_ge _ _)) by lia. cbn [negb]. unfold mmu_alloc_pte_list_desc. rewrite Eo, !bind_Ok.
    assert (Hno : o ∉ (cs1 ++ [(a, l)]).*1) by (apply Hd; rewrite Eo; set_solver).
    destruct (add_new_chunk p cs1 a l s o os Hf Hn Hl Eo Hg Hz Hno (proj1 Hs)) as (F' & N' & L' & G').
    assert (Hao : a <> o). { intros ->. apply Hno. rewrite fmap_app, fmap_cons. set_solver. }
    cbn [sptes].
    assert (El : load o (store a (Desc (filled l) o) (Pool (descs p) os)) = Ok zeroed)
      by (unfold load; cbn; by rewrite lookup_insert_ne, Hz).
    rewrite El, bind_Ok. cbn [sptes zeroed free_place Z.eqb]. rewrite bind_Ok. cbn [Nat.add]. rewrite Nat.add_0_r.
    eexists _, _, _, _, (concat cs1.*2 ++ l), []. split; [reflexivity|].
    rewrite concat_mid. split; [cbn; by rewrite !app_nil_r|]. split; [right; rewrite length_app; split; [lia|done]|]. split; [|split; [exact G'|by eapply grown_cache; [exact G'|..]]].
    replace ((concat cs1.*2 ++ l) ++ [s]) with (concat (cs1 ++ [(a, l); (o, [s])]).*2)
      by (rewrite concat_mid, <- !app_assoc; done).
    rewrite (head_of_app cs1 a l l [] [(o, [s])]). apply holds_many; try done. by destruct cs1.
Qed.

End add.

Lemma pte_list_add_spec p w cs l s :
  holds (descs p) w cs l -> cache_ok p -> objects p <> [] -> (forall o, o ∈ objects p -> o ∉ cs.*1) -> good s ->
  add_spec p w cs l s.
Proof.
  intros Hh Hc Hne Hd Hs. destruct (objects p) as [|o os] eqn:Eo; [done|]. rewrite <- Eo in Hd.
  destruct Hh as [|x Hx|cs Hcs Hf Hn Hl].
  - exists O, s, p, [], [], []. split; [done|]. split; [done|]. split; [by left|]. split; [by constructor|]. split; [split; [by left|done..]|done].
  - by eapply add_to_one.
  - by eapply add_to_chain.
Qed.

(** ** Removing *)

Lemma find_entry_in l s : Forall (fun s => s <> 0) l -> s ∈ l ->
  forall n, exists i, find_entry s (filled l) n = Some (n + i)%nat /\ l !! i = Some s.
Proof.
  unfold filled. set (r := replicate _ 0). clearbody r. induction 1 as [|x l Hx _ IH]; intros Hs n; [set_solver|].
  cbn [app find_entry]. zsimp. destruct (Z.eqb_spec x s) as [->|Hne].
  - exists O. by rewrite Nat.add_0_r.
  - apply elem_of_cons in Hs as [->|Hs]; [done|]. destruct (IH Hs (S n)) as (i & -> & Hi). exists (S i). split; [f_equal; lia|done].
Qed.

Lemma find_entry_out l s : Forall (fun s => s <> 0) l -> s ∉ l -> forall n, find_entry s (filled l) n = None.
Proof.
  intros Hf Hs. unfold filled. set (k := (PTE_LIST_EXT - length l)%nat). clearbody k. induction Hf as [|x l Hx _ IH]; intros n.
  - by destruct k.
  - apply not_elem_of_cons in Hs as [Hne Hs]. cbn [app find_entry]. zsimp. by apply IH.
Qed.

(** Within a descriptor of several entries the last one takes the place. *)
Lemma remove_in_desc a l i s d : chunk_ok (a, l) -> l !! i = Some s -> (2 <= length l)%nat ->
  exists j last l', last_used (Desc (filled l) d) i (PTE_LIST_EXT - 1) = Ok (S j) /\
    spte_at (Desc (filled l) d) (S j) = Ok last /\ <[S j := 0]> (<[i := last]> (filled l)) = filled l' /\
    l ≡ₚ s :: l' /\ chunk_ok (a, l').
Proof.
  intros Hc Hi Hlen. pose proof (proj1 Hc) as Hg.
  assert (Hok : forall l', (1 <= length l' <= 2)%nat -> Forall (fun s => s <> 0) l' -> chunk_ok (a, l'))
    by (intros; split; [done|]; split; [cbn; unfold PTE_LIST_EXT; lia|done]).
  apply chunk_shapes in Hc as [(x & -> & H)|[(x & y & -> & H & H')|(x & y & z & -> & H & H' & H3)]]; [cbn in Hlen; lia|..].
  - exists O, y. destruct i as [|[|i]]; cbn in Hi; simplify_eq; cbn; zsimp; cbn;
      [exists [y]|exists [x]]; repeat split; try done; try (by constructor); apply Hok; cbn; try lia; by rewrite Forall_singleton.
  - exists 1%nat, z. destruct i as [|[|[|i]]]; cbn in Hi; simplify_eq; cbn; zsimp; cbn;
      [exists [z; y]|exists [x; z]|exists [x; y]]; repeat split; try done; try solve [apply Hok; cbn; [lia|by rewrite !Forall_cons]].
    + constructor. apply perm_swap.
    + apply perm_swap.
    + symmetry. apply (Permutation_cons_append [x; y] s).
Qed.

Definition last_addr (prev : Z) (cs : list chunk) : Z := match last cs with None => prev | Some c => c.1 end.

(** The effect of a removal: the chain keeps its chunks or frees one. *)
Record shrunk (p p' : pool) (cs cs' : list chunk) : Prop := {
  sh_objects : objects p' = objects p;
  sh_chunks : cs'.*1 = cs.*1 /\ dom (descs p') = dom (descs p) \/
    exists d, cs.*1 ≡ₚ d :: cs'.*1 /\ dom (descs p') = dom (descs p) ∖ {[d]};
  sh_frame a : a ∉ cs.*1 -> descs p' !! a = descs p !! a
}.

Definition remove_spec (r : res (Z * pool)) (p : pool) (cs : list chunk) (l : list Z) (s : Z) : Prop :=
  exists w' p' cs' l', r = Ok (w', p') /\ l ≡ₚ s :: l' /\ holds (descs p') w' cs' l' /\ shrunk p p' cs cs'.

Lemma freed_shrunk p p' cs cs' a : cs.*1 ≡ₚ a :: cs'.*1 -> objects p' = objects p ->
  dom (descs p') = dom (descs p) ∖ {[a]} -> (forall b, b ∉ cs.*1 -> descs p' !! b = descs p !! b) -> shrunk p p' cs cs'.
Proof. intros H1 H2 H3 H4. split; [done|right; by exists a|done]. Qed.

Section remove.
  Context (p : pool) (cs1 : list chunk) (a : Z) (l : list Z) (cs2 : list chunk) (s : Z).

Abbreviation cs := (cs1 ++ (a, l) :: cs2).

  Context (Hf : Forall chunk_ok cs) (Hn : NoDup cs.*1) (Hl : linked (descs p) cs).

Lemma remove_chunk_ok : chunk_ok (a, l) /\ Forall chunk_ok cs1 /\ Forall chunk_ok cs2.
Proof using Hf. rewrite Forall_app, Forall_cons in Hf. tauto. Qed.

Lemma remove_load : load a p = Ok (Desc (filled l) (head_of cs2)) /\ descs p !! a = Some (Desc (filled l) (head_of cs2)).
Proof using Hl. split; [by eapply load_mid|by eapply linked_mid]. Qed.

Lemma remove_shared i prev : l !! i = Some s -> (2 <= length l)%nat ->
  remove_spec (pte_list_desc_remove_entry (Z.setbit (head_of cs) 0) a i prev p) p cs (concat cs.*2) s.
Proof using Hf Hn Hl.
  intros Hi Hlen. destruct remove_chunk_ok as (Hc & Hf1 & Hf2). destruct remove_load as [El Ea].
  destruct (remove_in_desc a l i s (head_of cs2) Hc Hi Hlen) as (j & last & l' & E1 & E2 & E3 & E4 & E5).
  unfold pte_list_desc_remove_entry, remove_spec. rewrite El, bind_Ok, E1, bind_Ok, E2, bind_Ok.
  unfold set_spte_at. cbn [sptes more Nat.eqb negb]. rewrite E3.
  assert (Ea' : (cs1 ++ (a, l') :: cs2).*1 = cs.*1) by (by rewrite !fmap_app, !fmap_cons).
  eexists _, _, (cs1 ++ (a, l') :: cs2), (concat (cs1 ++ (a, l') :: cs2).*2). split; [reflexivity|]. split.
  { rewrite !concat_mid, E4. symmetry. apply Permutation_middle. }
  split.
  - rewrite (head_of_app cs1 a l l' cs2 cs2). apply holds_many; [by destruct cs1|..].
    + rewrite Forall_app, Forall_cons. done.
    + by rewrite Ea'.
    + by apply (linked_update _ _ _ l).
  - split; [done|left; split; [done|exact (dom_insert_known _ _ _ _ Ea)]|].
    intros b Hb. cbn. rewrite lookup_insert_ne; [done|]. intros ->. apply Hb. rewrite fmap_app, fmap_cons. set_solver.
Qed.

(** The last entry of a descriptor: [x] is what the descriptor becomes. *)
Lemma remove_only_start : l = [s] ->
  forall prev w, pte_list_desc_remove_entry w a 0 prev p
  = ('(w, p) ← (if (prev =? 0) && (head_of cs2 =? 0) then Ok (0, store a (Desc [0; 0; 0] (head_of cs2)) p)
                else if negb (prev =? 0) then
                  y ← load prev (store a (Desc [0; 0; 0] (head_of cs2)) p);
                  Ok (w, store prev (Desc (sptes y) (head_of cs2)) (store a (Desc [0; 0; 0] (head_of cs2)) p))
                else Ok (Z.setbit (head_of cs2) 0, store a (Desc [0; 0; 0] (head_of cs2)) p));
     Ok (w, mmu_free_pte_list_desc a p)).
Proof using Hl.
  intros El prev w. destruct remove_load as [E _]. rewrite El in E. unfold pte_list_desc_remove_entry. rewrite E, bind_Ok. reflexivity.
Qed.

Lemma remove_first : cs1 = [] -> l = [s] ->
  remove_spec (pte_list_desc_remove_entry (Z.setbit (head_of cs) 0) a 0 0 p) p cs (concat cs.*2) s.
Proof using Hf Hn Hl.
  intros E1 E2. destruct remove_chunk_ok as (Hc & _ & Hf2). destruct remove_load as [_ Ea]. rewrite remove_only_start by done.
  unfold remove_spec. rewrite head_of_zero by done. subst cs1 l. cbn [app] in *. cbn [Z.eqb andb negb].
  set (p1 := mmu_free_pte_list_desc a (store a (Desc [0; 0; 0] (head_of cs2)) p)).
  assert (Hd : descs p1 = delete a (descs p)) by (unfold p1; cbn; by rewrite delete_insert_eq).
  rewrite fmap_cons in Hn. apply NoDup_cons in Hn as [Hna Hn2].
  assert (Hs : shrunk p p1 ((a, [s]) :: cs2) cs2).
  { apply (freed_shrunk _ _ _ _ a); [done|done|by rewrite Hd, dom_delete_L|]. intros b Hb. rewrite Hd, lookup_delete_ne; [done|].
    intros ->. apply Hb. rewrite fmap_cons. set_solver. }
  destruct (decide (cs2 = [])) as [->|Hne].
  - exists 0, p1, [], []. split; [done|]. split; [done|]. split; [constructor|done].
  - rewrite bool_decide_false by done. exists (Z.setbit (head_of cs2) 0), p1, cs2, (concat cs2.*2).
    split; [done|]. split; [done|]. split; [|done]. apply holds_many; try done. rewrite Hd. destruct Hl as [_ Hl2].
    eapply linked_frame; [|done]. intros b Hb. rewrite lookup_delete_ne; [done|]. intros ->. done.
Qed.

Lemma remove_behind cs0 b x : cs1 = cs0 ++ [(b, x)] -> l = [s] ->
  remove_spec (pte_list_desc_remove_entry (Z.setbit (head_of cs) 0) a 0 b p) p cs (concat cs.*2) s.
Proof using Hf Hn Hl.
  intros E1 E2. destruct remove_chunk_ok as (Hc & Hf1 & Hf2). destruct remove_load as [_ Ea]. rewrite remove_only_start by done.
  unfold remove_spec. subst cs1 l. apply Forall_app in Hf1 as [Hf0 [[[Hb0 Hb1] Hbx] _]%Forall_cons]. cbn [fst] in Hb0. zsimp. cbn [negb andb].
  rewrite <- app_assoc in *. cbn [app] in *.
  assert (Hab : a <> b). { intros ->. rewrite fmap_app, !fmap_cons in Hn. apply NoDup_app in Hn as (_ & _ & [Hb _]%NoDup_cons). set_solver. }
  assert (Eb : load b (store a (Desc [0; 0; 0] (head_of cs2)) p) = Ok (Desc (filled x) a)).
  { unfold load. cbn. rewrite lookup_insert_ne by done. by rewrite (linked_mid _ _ _ _ _ Hl). }
  rewrite Eb, !bind_Ok. cbn [sptes].
  set (p1 := mmu_free_pte_list_desc a _).
  assert (Hd : descs p1 = delete a (<[b := Desc (filled x) (head_of cs2)]> (descs p))).
  { unfold p1. cbn. rewrite insert_insert_ne by done. by rewrite delete_insert_eq. }
  eexists _, p1, (cs0 ++ (b, x) :: cs2), (concat (cs0 ++ (b, x) :: cs2).*2). split; [reflexivity|].
  assert (Hp : (cs0 ++ (b, x) :: (a, [s]) :: cs2).*1 ≡ₚ a :: (cs0 ++ (b, x) :: cs2).*1).
  { rewrite !fmap_app, !fmap_cons. cbn [fst]. rewrite (cons_middle b), app_assoc, <- Permutation_middle, <- app_assoc. done. }
  split; [rewrite !concat_mid, fmap_cons; cbn; rewrite !app_assoc; symmetry; apply Permutation_middle|]. split.
  - rewrite (head_of_app cs0 b x x _ cs2). apply holds_many; [by destruct cs0|..].
    + rewrite Forall_app, Forall_cons in *. tauto.
    + rewrite Hp in Hn. by apply NoDup_cons in Hn as [_ Hn'].
    + rewrite Hd. by eapply linked_unlink.
  - apply (freed_shrunk _ _ _ _ a); [done|done|..].
    + rewrite Hd, dom_delete_L, (dom_insert_known _ _ _ _ (linked_mid _ _ _ _ _ Hl)). done.
    + intros c Hcc. rewrite Hp in Hcc. rewrite !fmap_app, !fmap_cons in Hcc. rewrite Hd, lookup_delete_ne, lookup_insert_ne; [done|..]; set_solver.
Qed.

End remove.

Lemma last_addr_cons prev c cs : last_addr prev (c :: cs) = last_addr c.1 cs.
Proof. unfold last_addr. rewrite last_cons. by destruct (last cs). Qed.

Lemma remove_loop_spec p s w cs : forall prev fuel, linked (descs p) cs -> Forall chunk_ok cs -> (length cs < fuel)%nat ->
  if bool_decide (s ∈ concat cs.*2) then
    exists ca a l cb i, cs = ca ++ (a, l) :: cb /\ l !! i = Some s /\
      remove_loop fuel s w (head_of cs) prev p = pte_list_desc_remove_entry w a i (last_addr prev ca) p
  else remove_loop fuel s w (head_of cs) prev p = Err AssertFailed.
Proof.
  induction cs as [|[a l] cs IH]; intros prev fuel Hl Hf Hfu; (destruct fuel as [|fuel]; [lia|]).
  { by rewrite bool_decide_false by set_solver. }
  apply Forall_cons in Hf as [Hc Hf]. pose proof (proj1 Hc) as [Ha _]. cbn [fst] in Ha. cbn [remove_loop head_of fst]. zsimp.
  rewrite (load_linked _ _ _ _ Hl), bind_Ok. cbn [sptes more]. rewrite fmap_cons. cbn [snd concat].
  destruct (decide (s ∈ l)) as [Hs|Hs].
  - destruct (find_entry_in l s (proj2 (proj2 Hc)) Hs 0) as (i & -> & Hi). rewrite bool_decide_true by set_solver.
    exists [], a, l, cs, i. done.
  - rewrite (find_entry_out l s (proj2 (proj2 Hc)) Hs). specialize (IH a fuel (proj2 Hl) Hf ltac:(cbn in *; lia)).
    rewrite (bool_decide_ext (s ∈ l ++ concat cs.*2) (s ∈ concat cs.*2)) by (rewrite elem_of_app; tauto).
    case_bool_decide; [|done]. destruct IH as (ca & b & l' & cb & i & -> & Hi & E).
    exists ((a, l) :: ca), b, l', cb, i. by rewrite last_addr_cons.
Qed.

Lemma pte_list_remove_spec p w cs l s : holds (descs p) w cs l -> good s ->
  if bool_decide (s ∈ l) then remove_spec (pte_list_remove s w p) p cs l s
  else pte_list_remove s w p = Err AssertFailed.
Proof.
  intros Hh Hs. unfold pte_list_remove. destruct Hh as [|x [Hx0 Hx1]|cs Hcs Hf Hn Hl].
  - by rewrite bool_decide_false by set_solver.
  - zsimp. unfold is_chain. rewrite Hx1. cbn [negb]. rewrite (bool_decide_ext _ _ (list_elem_of_singleton s x)). case_bool_decide as E.
    + subst x. rewrite Z.eqb_refl. cbn. exists 0, p, [], []. split; [done|]. split; [done|]. split; [constructor|]. split; [done|by left|done].
    + zsimp. done.
  - destruct (chain_word cs Hcs Hf) as (-> & -> & ->). cbn [negb].
    pose proof (linked_length _ _ Hl Hn) as Hlen.
    pose proof (remove_loop_spec p s (Z.setbit (head_of cs) 0) cs 0 (S (chain_fuel p)) Hl Hf ltac:(unfold chain_fuel; lia)) as H.
    case_bool_decide; [|done]. destruct H as (ca & a & l & cb & i & -> & Hi & ->).
    destruct (decide (2 <= length l)%nat) as [H2|H2]; [by eapply remove_shared|].
    assert (l = [s] /\ i = O) as [El Ei].
    { destruct l as [|x [|y l]]; [done| |cbn in H2; lia]. destruct i as [|i]; [|by destruct i]. cbn in Hi. by simplify_eq. }
    rewrite Ei. destruct ca as [|[b x] ca _] using rev_ind.
    + by eapply remove_first.
    + unfold last_addr. rewrite last_snoc. by eapply remove_behind.
Qed.

(** ** Visiting *)

(** What is done with each entry of a list. *)
Fixpoint each {T} (fn : Z -> st T unit) (l : list Z) : st T unit :=
  match l with
  | [] => mret tt
  | s :: l => fn s ;; each fn l
  end.

Lemma each_app {T} (fn : Z -> st T unit) l1 l2 (t : T) : each fn (l1 ++ l2) t = (each fn l1 ;; each fn l2) t.
Proof.
  revert t. induction l1 as [|s l1 IH]; intros t; [done|]. cbn [app each]. unfold mbind, st_bind in *.
  destruct (fn s t) as [[u t']|e]; [|done]. apply IH.
Qed.

Lemma walk_desc_filled {T} (fn : Z -> st T unit) l (t : T) : Forall (fun s => s <> 0) l -> walk_desc fn (filled l) t = each fn l t.
Proof.
  intros Hf. unfold filled. set (k := (PTE_LIST_EXT - length l)%nat). clearbody k. revert t. induction Hf as [|s l Hs _ IH]; intros t.
  - by destruct k.
  - cbn [app walk_desc each]. zsimp. unfold mbind, st_bind. destruct (fn s t) as [[u t']|e]; [|done]. apply IH.
Qed.

(** The walk calls [fn] on every entry of the list, in order. *)
Lemma pte_list_walk_spec {T} (fn : Z -> st T unit) p w cs l (t : T) : holds (descs p) w cs l ->
  pte_list_walk fn w p t = each fn l t.
Proof.
  intros Hh. unfold pte_list_walk. destruct Hh as [|x [Hx0 Hx1]|cs Hcs Hf Hn Hl].
  - done.
  - zsimp. unfold is_chain. rewrite Hx1. cbn. unfold mbind, st_bind. by destruct (fn x t) as [[[] t']|e].
  - destruct (chain_word cs Hcs Hf) as (-> & -> & ->). cbn [negb].
    pose proof (linked_length _ _ Hl Hn) as Hlen. assert (Hfu : (length cs < S (chain_fuel p))%nat) by (unfold chain_fuel; lia).
    clear Hn Hlen Hcs. revert t Hfu. generalize (S (chain_fuel p)) as fuel.
    induction cs as [|[a l] cs IH]; intros fuel t Hfu; (destruct fuel as [|fuel]; [cbn in Hfu; lia|]); [done|].
    apply Forall_cons in Hf as [Hc Hf]. pose proof (proj1 Hc) as [Ha _]. cbn [fst] in Ha. cbn [walk_loop head_of fst]. zsimp.
    rewrite fmap_cons. cbn [concat snd]. rewrite each_app.
    rewrite (st_bind_Ok _ _ _ _ _ (lift_res_Ok _ _ _ (load_linked _ _ _ _ Hl))). cbn [sptes more]. unfold mbind, st_bind.
    rewrite walk_desc_filled by apply Hc. destruct (each fn l t) as [[u t']|e]; [|done].
    apply IH; [done|apply Hl|cbn in Hfu; lia].
Qed.

(** An iterator that has returned an entry and has the entries [l] ahead. *)
Inductive standing (p : pool) : rmap_iterator -> list Z -> Prop :=
| standing_end n : standing p (Iter 0 n) []
| standing_at a n l cs : linked (descs p) ((a, l) :: cs) -> Forall chunk_ok ((a, l) :: cs) -> (n < length l)%nat ->
    standing p (Iter a n) (drop (S n) l ++ concat cs.*2).

Lemma rmap_get_first_spec p w cs l it : holds (descs p) w cs l ->
  exists it', rmap_get_first w p it = Ok (default 0 (head l), it') /\ (l <> [] -> standing p it' (tail l)).
Proof.
  intros Hh. unfold rmap_get_first. destruct Hh as [|x [Hx0 Hx1]|cs Hcs Hf Hn Hl].
  - exists it. by split.
  - zsimp. unfold is_chain. rewrite Hx1. cbn. eexists. split; [done|]. intros _. constructor.
  - destruct (chain_word cs Hcs Hf) as (-> & -> & ->). cbn [negb]. destruct cs as [|[a l] cs]; [done|].
    cbn [head_of fst]. rewrite (load_linked _ _ _ _ Hl), bind_Ok. pose proof (proj1 (Forall_cons _ _ _) Hf) as [Hc _].
    destruct l as [|x l]; [destruct Hc as (_ & Hlen & _); cbn in Hlen; lia|]. change (spte_at _ 0) with (Ok x). rewrite bind_Ok.
    exists (Iter a 0). split; [done|]. intros _. rewrite fmap_cons. cbn [snd concat app tail].
    apply (standing_at p a 0 (x :: l) cs); [done|done|cbn; lia].
Qed.

Lemma next_desc_spec p l cs i : linked (descs p) cs -> Forall chunk_ok cs ->
  exists it', next_desc (Desc (filled l) (head_of cs)) i p = Ok (default 0 (head (concat cs.*2)), it') /\
    standing p it' (tail (concat cs.*2)).
Proof.
  intros Hl Hf. unfold next_desc. cbn [more]. rewrite head_of_zero by done. destruct cs as [|[a x] cs].
  { eexists. split; [done|constructor]. }
  rewrite bool_decide_false by done. cbn [head_of fst]. rewrite (load_linked _ _ _ _ Hl), bind_Ok.
  pose proof (proj1 (Forall_cons _ _ _) Hf) as [Hc _]. destruct x as [|x xs]; [destruct Hc as (_ & Hlen & _); cbn in Hlen; lia|].
  change (spte_at _ 0) with (Ok x). rewrite bind_Ok. eexists. split; [done|].
  apply (standing_at p a 0 (x :: xs) cs); [done|done|cbn; lia].
Qed.

Lemma filled_lookup a l d n : chunk_ok (a, l) -> (n < PTE_LIST_EXT)%nat ->
  spte_at (Desc (filled l) d) n = Ok (default 0 (l !! n)).
Proof.
  intros (_ & Hlen & _) Hn. cbn in Hlen. unfold spte_at, filled. cbn [sptes].
  destruct (l !! n) as [x|] eqn:E.
  - by rewrite (lookup_app_l_Some _ _ _ _ E).
  - apply lookup_ge_None in E. rewrite lookup_app_r by done. rewrite lookup_replicate_2 by lia. done.
Qed.

Lemma rmap_get_next_spec p it l : standing p it l ->
  exists it', rmap_get_next it p = Ok (default 0 (head l), it') /\ standing p it' (tail l).
Proof.
  destruct 1 as [n|a n l cs Hl Hf Hn]; unfold rmap_get_next.
  { exists (Iter 0 n). split; [done|constructor]. }
  cbn [idesc pos]. pose proof (proj1 (Forall_cons _ _ _) Hf) as [Hc Hf']. pose proof (proj1 Hc) as [Ha _]. cbn [fst] in Ha. zsimp.
  rewrite (load_linked _ _ _ _ Hl), bind_Ok. destruct (Nat.ltb_spec n (PTE_LIST_EXT - 1)) as [Hlt|Hge].
  - rewrite (filled_lookup a), bind_Ok by (done || lia). destruct (l !! S n) as [x|] eqn:E; cbn [default].
    + assert (Hx : x <> 0) by (by apply (proj1 (Forall_lookup _ _) (proj2 (proj2 Hc)) (S n))). cbn [Datatypes.id]. zsimp. cbn [negb].
      exists (Iter a (S n)). rewrite (drop_S l x (S n) E). split; [done|]. cbn [app tail].
      apply (standing_at p a (S n) l cs); [done|done|by eapply lookup_lt_Some].
    + cbn [Datatypes.id Z.eqb negb]. apply lookup_ge_None in E. rewrite drop_ge by done. cbn [app]. by apply next_desc_spec; [apply Hl|].
  - rewrite drop_ge; [apply next_desc_spec; [apply Hl|done]|]. destruct Hc as (_ & Hlen & _). cbn in Hlen. lia.
Qed.

(** ** All words together *)

Section words.
  Context {K : Type} `{Countable K}.

(** The words [ws] stand for the lists [ls]; their chunks share nothing with
    each other and with the cache, and every descriptor is in use or
    cached. *)
Record lists_ok (p : pool) (ws : gmap K Z) (ls : gmap K (list Z)) (chunks : gmap K (list chunk)) : Prop := {
  lo_dom : dom ws = dom ls /\ dom chunks = dom ls;
  lo_holds k w cs l : ws !! k = Some w -> chunks !! k = Some cs -> ls !! k = Some l -> holds (descs p) w cs l;
  lo_apart k k' cs cs' a : chunks !! k = Some cs -> chunks !! k' = Some cs' -> a ∈ cs.*1 -> a ∈ cs'.*1 -> k = k';
  lo_cache : cache_ok p;
  lo_cached k cs a : chunks !! k = Some cs -> a ∈ cs.*1 -> a ∉ objects p;
  lo_used a : a ∈ dom (descs p) -> a ∈ objects p \/ exists k cs, chunks !! k = Some cs /\ a ∈ cs.*1
}.

Lemma lists_chunks p ws ls chunks k w : lists_ok p ws ls chunks -> ws !! k = Some w ->
  exists cs l, chunks !! k = Some cs /\ ls !! k = Some l /\ holds (descs p) w cs l.
Proof.
  intros Hok Hw. destruct (lo_dom _ _ _ _ Hok) as [D1 D2]. assert (Hk : k ∈ dom ls) by (rewrite <- D1; apply elem_of_dom; eauto).
  pose proof Hk as Hk'. rewrite <- D2 in Hk'. apply elem_of_dom in Hk as [l El], Hk' as [cs Ec]. exists cs, l. eauto using lo_holds.
Qed.

Lemma holds_frame h h' w cs l : (forall a, a ∈ cs.*1 -> h' !! a = h !! a) -> holds h w cs l -> holds h' w cs l.
Proof. intros Hf. destruct 1 as [|x Hx|cs Hcs Ho Hn Hl]; [constructor|by constructor|]. constructor; [done..|]. by eapply linked_frame. Qed.

(** One word changes together with its chunks, and the rest of the heap
    keeps its contents. *)
Lemma lists_update p p' ws ls chunks k w cs cs' w' l' : lists_ok p ws ls chunks -> chunks !! k = Some cs -> ws !! k = Some w ->
  holds (descs p') w' cs' l' -> cache_ok p' -> (forall a, a ∈ cs'.*1 -> a ∈ cs.*1 \/ a ∈ objects p /\ a ∉ objects p') ->
  (forall a, a ∈ objects p' -> a ∈ objects p) -> (forall a, a ∉ cs.*1 -> a ∉ cs'.*1 -> descs p' !! a = descs p !! a) ->
  (forall a, a ∈ dom (descs p') -> a ∈ dom (descs p) /\ (a ∈ cs.*1 \/ a ∈ objects p -> a ∈ cs'.*1 \/ a ∈ objects p')) ->
  lists_ok p' (<[k := w']> ws) (<[k := l']> ls) (<[k := cs']> chunks).
Proof.
  intros Hok Hc Hw Hh Hca Hnew Hobj Hfr Hdom. destruct (lo_dom _ _ _ _ Hok) as [D1 D2].
  assert (Hapart : forall k' c' a, k' <> k -> chunks !! k' = Some c' -> a ∈ c'.*1 -> a ∉ cs.*1 /\ a ∉ cs'.*1).
  { intros k' c' a Hne Hc' Ha. assert (Ha' : a ∉ cs.*1) by (intros Hin; apply Hne; by eapply (lo_apart _ _ _ _ Hok)). split; [done|].
    intros [Hin|[Hin _]]%Hnew; [done|]. by eapply (lo_cached _ _ _ _ Hok). }
  split.
  - rewrite !dom_insert_L, D1, D2. done.
  - intros j v c l. rewrite !lookup_insert. case_decide as Ek; [intros; simplify_eq; done|]. intros Ev Ec El.
    eapply holds_frame; [|by eapply (lo_holds _ _ _ _ Hok)]. intros a Ha. destruct (Hapart j c a) as [H1 H2]; auto.
  - intros j j' c c' a. rewrite !lookup_insert. repeat case_decide; intros; simplify_eq; try done.
    + destruct (Hapart j' c' a); done.
    + destruct (Hapart j c a); done.
    + by eapply (lo_apart _ _ _ _ Hok).
  - done.
  - intros j c a. rewrite lookup_insert. case_decide; intros; simplify_eq.
    + intros Ha. destruct (Hnew a) as [Hin|[_ Hin]]; [done| |done]. eapply (lo_cached _ _ _ _ Hok); [done|done|by apply Hobj].
    + intros Ha. eapply (lo_cached _ _ _ _ Hok); [done|done|by apply Hobj].
  - intros a [Ha Hmove]%Hdom. apply (lo_used _ _ _ _ Hok) in Ha as [Ha|(j & c & Ec & Ha)].
    + destruct Hmove as [Hm|Hm]; [by right|right; exists k, cs'; by rewrite lookup_insert_eq|by left].
    + destruct (decide (j = k)) as [->|Hne]; [|right; exists j, c; by rewrite lookup_insert_ne].
      simplify_eq. destruct Hmove as [Hm|Hm]; [by left|right; exists k, cs'; by rewrite lookup_insert_eq|by left].
Qed.

Lemma lists_add p ws ls chunks k w l s : lists_ok p ws ls chunks -> ws !! k = Some w -> ls !! k = Some l ->
  objects p <> [] -> good s ->
  exists n w' p' l' chunks', pte_list_add s w p = Ok (n, w', p') /\ l' ≡ₚ s :: l /\ (n <= length l)%nat /\
    lists_ok p' (<[k := w']> ws) (<[k := l']> ls) chunks' /\ (length (objects p) <= S (length (objects p')))%nat.
Proof.
  intros Hok Hw Hl Hne Hs. destruct (lists_chunks _ _ _ _ _ _ Hok Hw) as (cs & l0 & Ec & El & Hh). rewrite Hl in El. simplify_eq.
  destruct (pte_list_add_spec p w cs l0 s Hh (lo_cache _ _ _ _ Hok) Hne) as (n & w' & p' & cs' & l1 & l2 & E & -> & Hn & Hh' & [Go Gf Gd] & Hc');
    [intros o Ho Hin; by eapply (lo_cached _ _ _ _ Hok)|done|].
  exists n, w', p', (l1 ++ s :: l2), (<[k := cs']> chunks). split; [done|]. split; [symmetry; apply Permutation_middle|].
  split; [rewrite length_app; lia|]. destruct Go as [[E1 E2]|(o & E1 & E2)].
  - rewrite E2 in Gf. split; [|rewrite E1; lia]. eapply lists_update; try done; rewrite ?E2, ?E1; auto. intros a. rewrite Gd. tauto.
  - split; [|rewrite E1; cbn; lia]. pose proof (ca_nodup _ (lo_cache _ _ _ _ Hok)) as Hnd. rewrite E1 in Hnd. apply NoDup_cons in Hnd as [Hno _].
    eapply lists_update; try done; rewrite ?E2, ?E1.
    + intros a [Ha|Ha]%elem_of_app; [by left|]. apply list_elem_of_singleton in Ha as ->. right. split; [left|done].
    + intros a Ha. by right.
    + intros a Ha Ha'. apply Gf. by rewrite E2.
    + intros a. rewrite Gd, elem_of_cons, elem_of_app, list_elem_of_singleton. tauto.
Qed.

Lemma lists_remove p ws ls chunks k w l s : lists_ok p ws ls chunks -> ws !! k = Some w -> ls !! k = Some l ->
  s ∈ l -> good s ->
  exists w' p' l' chunks', pte_list_remove s w p = Ok (w', p') /\ l ≡ₚ s :: l' /\
    lists_ok p' (<[k := w']> ws) (<[k := l']> ls) chunks' /\ objects p' = objects p.
Proof.
  intros Hok Hw Hl Hin Hs. destruct (lists_chunks _ _ _ _ _ _ Hok Hw) as (cs & l0 & Ec & El & Hh). rewrite Hl in El. simplify_eq.
  pose proof (pte_list_remove_spec p w cs l0 s Hh Hs) as Hr. rewrite bool_decide_true in Hr by done.
  destruct Hr as (w' & p' & cs' & l' & E & Hp & Hh' & [So Sc Sf]).
  exists w', p', l', (<[k := cs']> chunks). split; [done|]. split; [done|]. split; [|done].
  pose proof (lo_cache _ _ _ _ Hok) as [Cn Cz]. assert (Hca : cache_ok p').
  { split; rewrite So; [done|]. intros o Ho. rewrite Sf; [auto|]. intros Ho'. by eapply (lo_cached _ _ _ _ Hok). }
  destruct Sc as [[E1 E2]|(d & E1 & E2)]; eapply lists_update; try done; rewrite ?So; auto.
  - rewrite E1. auto.
  - intros a. rewrite E1, E2. tauto.
  - intros a Ha. left. rewrite E1. by right.
  - intros a. rewrite E1, E2, elem_of_cons. set_solver.
Qed.

Lemma holds_nil h w cs : holds h w cs [] -> cs = [].
Proof.
  inversion 1 as [| |c Hc Hf Hn Hl E]; [done|]. destruct cs as [|[a l] cs]; [done|]. apply Forall_cons in Hf as [(_ & Hlen & _) _].
  subst. cbn in *. destruct l; [cbn in Hlen; lia|done].
Qed.

(** A new word for a list without descriptors, and the end of one. *)
Lemma lists_new p ws ls chunks k w l : lists_ok p ws ls chunks -> ws !! k = None -> holds (descs p) w [] l ->
  lists_ok p (<[k := w]> ws) (<[k := l]> ls) (<[k := []]> chunks).
Proof.
  intros Hok Hk Hh. destruct (lo_dom _ _ _ _ Hok) as [D1 D2].
  assert (Hck : chunks !! k = None) by (apply not_elem_of_dom; rewrite D2, <- D1; by apply not_elem_of_dom). split.
  - rewrite !dom_insert_L. split; congruence.
  - intros j w' cs l'. rewrite !lookup_insert. case_decide; [intros; simplify_eq; done|by apply Hok].
  - intros j j' cs cs' a. rewrite !lookup_insert. repeat case_decide; intros ? ? Ha Ha'; simplify_eq; [done|by apply not_elem_of_nil in Ha..|by apply not_elem_of_nil in Ha'|by eapply (lo_apart _ _ _ _ Hok)].
  - apply Hok.
  - intros j cs a. rewrite lookup_insert. case_decide; intros; simplify_eq; [set_solver|by eapply (lo_cached _ _ _ _ Hok)].
  - intros a [?|(j & cs & Ec & Ha)]%(lo_used _ _ _ _ Hok); [by left|right]. exists j, cs. rewrite lookup_insert_ne; [done|congruence].
Qed.

Lemma lists_delete p ws ls chunks k : lists_ok p ws ls chunks -> ls !! k = Some [] ->
  lists_ok p (delete k ws) (delete k ls) (delete k chunks).
Proof.
  intros Hok Hk. destruct (lo_dom _ _ _ _ Hok) as [D1 D2].
  assert (Hck : chunks !! k = Some []).
  { assert (Hin : k ∈ dom ls) by (apply elem_of_dom; eauto). pose proof Hin as Hin'. rewrite <- D2 in Hin. rewrite <- D1 in Hin'.
    apply elem_of_dom in Hin as [cs Ec], Hin' as [w Ew]. rewrite Ec. f_equal. eapply holds_nil, (lo_holds _ _ _ _ Hok); done. }
  split.
  - rewrite !dom_delete_L. split; congruence.
  - intros j w cs l (? & ?)%lookup_delete_Some (? & ?)%lookup_delete_Some (? & ?)%lookup_delete_Some. by eapply (lo_holds _ _ _ _ Hok).
  - intros j j' cs cs' a (? & ?)%lookup_delete_Some (? & ?)%lookup_delete_Some. by eapply (lo_apart _ _ _ _ Hok).
  - apply Hok.
  - intros j cs a (? & ?)%lookup_delete_Some. by eapply (lo_cached _ _ _ _ Hok).
  - intros a [?|(j & cs & Ec & Ha)]%(lo_used _ _ _ _ Hok); [by left|right]. exists j, cs. split; [|done]. rewrite lookup_delete_ne; [done|].
    intros <-. rewrite Hck in Ec. simplify_eq. set_solver.
Qed.

End words.

(** ** The cache *)

(** From [p] the cache grew by [got], which was not in use. *)
Record topped (p p' : pool) (got : list Z) : Prop := {
  to_objects : objects p' = got ++ objects p;
  to_fresh o : o ∈ got -> good o /\ descs p !! o = None /\ descs p' !! o = Some zeroed;
  to_nodup : NoDup got;
  to_frame a : a ∉ got -> descs p' !! a = descs p !! a
}.

Lemma topup_loop_spec obj : forall p, NoDup obj -> Forall (fun o => o <> 0 -> good o /\ descs p !! o = None) obj ->
  exists p' r got, topup_loop obj p = (p', r) /\ topped p p' got /\ got ⊆ obj /\
    (r = 0 /\ (KVM_NR_MEM_OBJS <= length (objects p'))%nat \/ r = - ENOMEM).
Proof.
  assert (Hnil : forall p, topped p p []) by (split; [done|set_solver|constructor|done]).
  induction obj as [|o obj IH]; intros p Hn Hf; cbn [topup_loop];
    (destruct (Nat.ltb_spec (length (objects p)) KVM_NR_MEM_OBJS) as [Hlt|Hge];
      [|exists p, 0, []; split; [done|]; split; [done|]; split; [set_solver|by left]]).
  { exists p, (- ENOMEM), []. split; [done|]. split; [done|]. split; [set_solver|by right]. }
  apply NoDup_cons in Hn as [Hno Hn]. apply Forall_cons in Hf as [Ho Hf]. destruct (Z.eqb_spec o 0) as [->|Hnz].
  { exists p, (- ENOMEM), []. split; [done|]. split; [done|]. split; [set_solver|by right]. }
  destruct (Ho Hnz) as [Hg Hz]. set (p1 := Pool _ _).
  destruct (IH p1 Hn) as (p' & r & got & E & [T1 T2 T3 T4] & Hsub & Hr).
  { apply Forall_forall. intros x Hx Hx0. rewrite Forall_forall in Hf. destruct (Hf x Hx Hx0) as [H1 H2]. split; [done|].
    cbn. rewrite lookup_insert_ne; [done|]. intros ->. done. }
  assert (Hog : o ∉ got) by set_solver.
  exists p', r, (got ++ [o]). split; [done|]. split; [|split; [set_solver|done]]. split.
  - rewrite T1. cbn. by rewrite <- app_assoc.
  - intros x [Hx|Hx]%elem_of_app.
    + destruct (T2 x Hx) as (G & N & Z). split; [done|]. split; [|done]. cbn in N. by rewrite lookup_insert_ne in N by (intros ->; done).
    + apply list_elem_of_singleton in Hx as ->. split; [done|]. split; [done|]. rewrite T4 by done. cbn. apply lookup_insert_eq.
  - apply NoDup_app. split; [done|]. split; [set_solver|apply NoDup_singleton].
  - intros a Ha. rewrite not_elem_of_app, list_elem_of_singleton in Ha. destruct Ha as [H1 H2]. rewrite T4 by done. cbn. by rewrite lookup_insert_ne.
Qed.

Lemma topped_lists {K} `{Countable K} p p' got (ws : gmap K Z) ls chunks : topped p p' got -> lists_ok p ws ls chunks -> lists_ok p' ws ls chunks.
Proof.
  intros [T1 T2 T3 T4] Hok. pose proof (lo_cache _ _ _ _ Hok) as [Cn Cz].
  assert (Hin : forall k cs a, chunks !! k = Some cs -> a ∈ cs.*1 -> a ∉ got).
  { intros k cs a Hc Ha Hg. destruct (T2 a Hg) as (_ & Hz & _). destruct (lo_dom _ _ _ _ Hok) as [D1 D2].
    assert (Hk : k ∈ dom ws) by (rewrite D1, <- D2; apply elem_of_dom; eauto). apply elem_of_dom in Hk as [w Hw].
    destruct (lists_chunks _ _ _ _ _ _ Hok Hw) as (cs0 & l & E1 & _ & Hh). rewrite Hc in E1. simplify_eq.
    destruct Hh as [| |cs0 _ _ _ Hl]; [set_solver..|]. apply (chain_in_heap _ _ _ Hl), elem_of_dom in Ha as [? ?]. congruence. }
  split.
  - apply Hok.
  - intros k w cs l Hw Hc Hl. eapply holds_frame; [|by eapply (lo_holds _ _ _ _ Hok)]. intros a Ha. apply T4. eauto.
  - apply Hok.
  - split; rewrite T1.
    + apply NoDup_app. split; [done|]. split; [|done]. intros o Ho Ho'. destruct (T2 o Ho) as (_ & E & _), (Cz o Ho') as [_ E']. congruence.
    + intros o [Ho|Ho]%elem_of_app; [destruct (T2 o Ho) as (? & _ & ?); done|]. destruct (Cz o Ho) as [Hg E]. split; [done|].
      rewrite T4; [done|]. intros Hog. destruct (T2 o Hog) as (_ & E' & _). congruence.
  - intros k cs a Hc Ha. rewrite T1, not_elem_of_app. split; [eauto|by eapply (lo_cached _ _ _ _ Hok)].
  - intros a Ha. rewrite T1. destruct (decide (a ∈ got)) as [Hg|Hg]; [left; apply elem_of_app; by left|].
    rewrite elem_of_dom, T4 in Ha by done. apply elem_of_dom, (lo_used _ _ _ _ Hok) in Ha as [Ha|Ha]; [left; apply elem_of_app; by right|by right].
Qed.

(** Filling the cache leaves all lists as they are, and enough objects in it
    unless an allocation failed. *)
Lemma topup_lists {K} `{Countable K} obj min p (ws : gmap K Z) ls chunks : lists_ok p ws ls chunks -> NoDup obj ->
  Forall (fun o => o <> 0 -> good o /\ descs p !! o = None) obj -> (min <= KVM_NR_MEM_OBJS)%nat ->
  exists p' r, mmu_topup_memory_cache obj min p = (p', r) /\ lists_ok p' ws ls chunks /\
    (r = 0 /\ (min <= length (objects p'))%nat \/ r = - ENOMEM).
Proof.
  intros Hok Hn Hf Hmin. unfold mmu_topup_memory_cache. destruct (Nat.leb_spec min (length (objects p))) as [Hle|Hgt].
  - exists p, 0. auto.
  - destruct (topup_loop_spec obj p Hn Hf) as (p' & r & got & E & Ht & _ & Hr). exists p', r. split; [done|].
    split; [by eapply topped_lists|]. destruct Hr as [[? ?]|?]; [left; split; [done|lia]|by right].
Qed.

(** Emptying the cache frees its objects. *)
Lemma free_cache_lists {K} `{Countable K} p (ws : gmap K Z) ls chunks : lists_ok p ws ls chunks ->
  lists_ok (mmu_free_memory_cache p) ws ls chunks.
Proof.
  intros Hok. unfold mmu_free_memory_cache. set (f := fun h o => delete o h).
  assert (Hd : forall os (h : gmap Z pte_list_desc) a, foldl f h os !! a = if bool_decide (a ∈ os) then None else h !! a).
  { induction os as [|o os IH]; intros h a; [done|]. cbn [foldl]. rewrite IH. unfold f. rewrite lookup_delete.
    repeat case_bool_decide; repeat case_decide; set_solver. }
  split.
  - apply Hok.
  - intros k w cs l Hw Hc Hl. eapply holds_frame; [|by eapply (lo_holds _ _ _ _ Hok)]. intros a Ha. cbn [descs]. rewrite Hd.
    rewrite bool_decide_false; [done|]. by eapply (lo_cached _ _ _ _ Hok).
  - apply Hok.
  - split; [constructor|set_solver].
  - set_solver.
  - intros a Ha. right. cbn [descs] in Ha. apply elem_of_dom in Ha. rewrite Hd in Ha. case_bool_decide; [by destruct Ha|].
    apply elem_of_dom, (lo_used _ _ _ _ Hok) in Ha. tauto.
Qed.

(** Adding an entry behind a full descriptor returns a count that leaves the
    entries of that descriptor out: 0 here, with three entries in the list. *)
Lemma count_forgets_descriptor :
  let p := Pool (<[0x100 := Desc [8; 16; 24] 0]> (<[0x200 := zeroed]> ∅)) [0x200] in
  holds (descs p) 0x101 [(0x100, [8; 16; 24])] [8; 16; 24] /\
  match pte_list_add 32 0x101 p with Ok (n, w, _) => n = O /\ w = 0x101 | Err _ => False end.
Proof.
  intros p. split; [|vm_compute; done]. apply (holds_many _ [(0x100, [8; 16; 24])]); [done|..].
  - apply Forall_singleton. split; [done|]. cbn. unfold PTE_LIST_EXT. split; [lia|]. by rewrite !Forall_cons.
  - apply NoDup_singleton.
  - by vm_compute.
Qed.

(** In a list with a gap the entries behind the gap are not counted either. *)
Lemma count_stops_at_gap :
  let p := Pool (<[0x100 := Desc [8; 16; 0] 0x200]> (<[0x200 := Desc [24; 32; 40] 0]> ∅)) [] in
  match pte_list_add 48 0x101 p with Ok (n, _, _) => n = 2%nat | Err _ => False end.
Proof. vm_compute. done. Qed.
