(* ===== verification/Rmap.v ===== *)
(** * The reverse map of shadow entries (kvm-kmod x86/mmu.c)

    For every guest frame and page size the reverse map lists the shadow
    entries that map it.  Write protection, the removal of host pages and the
    aging of pages go through it.  The state is the memory of the shadow
    pages, their headers, and the words of the lists of [PteList]; the
    theorems relate the lists to the entries in memory, in both
    directions. *)

From S2P Require Import Prelude MemSlots Spte PteList.

(** ** State *)

Record kvm_mmu_page_role := Role {
  level : Z; cr4_pae : bool; quadrant : Z; direct : bool; access : Z;
  invalid : bool; nxe : bool; cr0_wp : bool; smep_andnot_wp : bool
}.

#[global] Instance kvm_mmu_page_role_eq_dec : EqDecision kvm_mmu_page_role.
Proof. solve_decision. Defined.

(** [sp->spt] is the address under which the page is kept, [sp->parent_ptes]
    a word of its own below. *)
Record kvm_mmu_page := Page {
  sp_gfn : Z; role : kvm_mmu_page_role; sp_gfns : list Z;
  unsync : bool; root_count : Z; unsync_children : Z; mmu_valid_gen : Z;
  unsync_child_bitmap : gset Z; write_flooding_count : Z
}.

Definition with_gfns (f : list Z -> list Z) (sp : kvm_mmu_page) : kvm_mmu_page :=
  Page (sp_gfn sp) (role sp) (f (sp_gfns sp)) (unsync sp) (root_count sp) (unsync_children sp) (mmu_valid_gen sp)
    (unsync_child_bitmap sp) (write_flooding_count sp).

Definition sp_level (sp : kvm_mmu_page) : Z := level (role sp).
Definition sp_direct (sp : kvm_mmu_page) : bool := direct (role sp).

(** Where a list starts: in the array [rmap] of a slot, by page size and
    index, or in the header of a shadow page. *)
Inductive list_head := Rmap (slot_id level idx : Z) | Parents (spt : Z).

#[global] Instance list_head_eq_dec : EqDecision list_head.
Proof. solve_decision. Defined.

#[global] Instance list_head_countable : Countable list_head.
Proof.
  apply (inj_countable'
    (fun h => match h with Rmap s l i => inl (s, l, i) | Parents p => inr p end)
    (fun x => match x with inl (s, l, i) => Rmap s l i | inr p => Parents p end)).
  by intros [].
Defined.

(** [told] is what the host kernel was told of its frames and [flushes] how
    often the translation buffers of all processors were flushed; [tlbs_dirty]
    counts the changes of entries that wait for a flush. *)
Record kvm := Kvm {
  slots : kvm_memslots;
  heads : gmap list_head Z;
  lists : pool;
  spt_mem : gmap Z Z;
  pages : gmap Z kvm_mmu_page;
  told : list pfn_event;
  flushes : nat;
  lpages : Z;
  tlbs_dirty : Z
}.

Abbreviation M := (st kvm).

Definition set_heads (f : gmap list_head Z -> gmap list_head Z) (p : pool) (s : kvm) : kvm :=
  Kvm (slots s) (f (heads s)) p (spt_mem s) (pages s) (told s) (flushes s) (lpages s) (tlbs_dirty s).
Definition set_mem (a v : Z) (ev : list pfn_event) (s : kvm) : kvm :=
  Kvm (slots s) (heads s) (lists s) (<[a := v]> (spt_mem s)) (pages s) (told s ++ ev) (flushes s) (lpages s) (tlbs_dirty s).
Definition set_pages (f : gmap Z kvm_mmu_page -> gmap Z kvm_mmu_page) (s : kvm) : kvm :=
  Kvm (slots s) (heads s) (lists s) (spt_mem s) (f (pages s)) (told s) (flushes s) (lpages s) (tlbs_dirty s).
Definition set_lpages (n : Z) (s : kvm) : kvm :=
  Kvm (slots s) (heads s) (lists s) (spt_mem s) (pages s) (told s) (flushes s) n (tlbs_dirty s).

Definition get : M kvm := fun s => Ok (s, s).
Definition modify (f : kvm -> kvm) : M unit := fun s => Ok (tt, f s).
Definition BUG_ON (b : bool) : M unit := if b then lift_res (Err AssertFailed) else mret tt.

Definition kvm_flush_remote_tlbs : M unit :=
  modify (fun s => Kvm (slots s) (heads s) (lists s) (spt_mem s) (pages s) (told s) (S (flushes s)) (lpages s) 0).

(** A pointer that names nothing is an error. *)
Definition known {A} (o : option A) : M A :=
  lift_res (match o with None => Err BadPointer | Some a => Ok a end).

Definition read_spte (sptep : Z) : M Z := s ← get; known (spt_mem s !! sptep).

(** [sp = page_header(__pa(spte))] with [sp->spt], and [spte - sp->spt]. *)
Definition spt_of (sptep : Z) : Z := Z.ldiff sptep (PAGE_SIZE - 1).
Definition spt_index (sptep : Z) : Z := Z.shiftr (sptep - spt_of sptep) 3.
Definition page_header (sptep : Z) : M kvm_mmu_page := s ← get; known (pages s !! spt_of sptep).

(** ** Frames and indices *)

Definition PT64_LEVEL_BITS : Z := 9.
Definition KVM_NR_PAGE_SIZES : Z := 3.
Definition KVM_HPAGE_GFN_SHIFT (level : Z) : Z := (level - 1) * 9.

Definition gfn_to_index (gfn base_gfn level : Z) : Z :=
  u64 (Z.shiftr gfn (KVM_HPAGE_GFN_SHIFT level) - Z.shiftr base_gfn (KVM_HPAGE_GFN_SHIFT level)).

Definition kvm_mmu_page_get_gfn (sp : kvm_mmu_page) (index : Z) : res Z :=
  if negb (sp_direct sp) then
    match sp_gfns sp !! Z.to_nat index with None => Err BufferOverflow | Some g => Ok g end
  else Ok (u64 (sp_gfn sp + s32 (Z.shiftl index ((sp_level sp - 1) * PT64_LEVEL_BITS)))).

Definition kvm_mmu_page_set_gfn (spt : Z) (sp : kvm_mmu_page) (index gfn : Z) : M unit :=
  if sp_direct sp then
    g ← lift_res (kvm_mmu_page_get_gfn sp index);
    BUG_ON (negb (gfn =? g))
  else
    modify (set_pages (<[spt := with_gfns (<[Z.to_nat index := gfn]>) sp]>)).

Definition __gfn_to_rmap (gfn level : Z) (slot : kvm_memory_slot) : list_head :=
  Rmap (id slot) level (gfn_to_index gfn (base_gfn slot) level).

Definition gfn_to_rmap (gfn level : Z) : M list_head :=
  s ← get;
  slot ← known (search_memslots (slots s) gfn);
  mret (__gfn_to_rmap gfn level slot).

(** ** Adding and removing *)

(** [pte_list_add] and [pte_list_remove] on the word at [h]. *)
Definition list_add (spte : Z) (h : list_head) : M nat :=
  s ← get;
  w ← known (heads s !! h);
  '(n, w', p) ← lift_res (pte_list_add spte w (lists s));
  modify (set_heads (<[h := w']>) p) ;; mret n.

Definition list_remove (spte : Z) (h : list_head) : M unit :=
  s ← get;
  w ← known (heads s !! h);
  '(w', p) ← lift_res (pte_list_remove spte w (lists s));
  modify (set_heads (<[h := w']>) p).

Definition rmap_can_add : M bool := s ← get; mret (negb (mmu_memory_cache_free_objects (lists s) =? 0)%nat).

Definition rmap_add (spte gfn : Z) : M nat :=
  sp ← page_header spte;
  kvm_mmu_page_set_gfn (spt_of spte) sp (spt_index spte) gfn ;;
  rmapp ← gfn_to_rmap gfn (sp_level sp);
  list_add spte rmapp.

Definition rmap_remove (spte : Z) : M unit :=
  sp ← page_header spte;
  gfn ← lift_res (kvm_mmu_page_get_gfn sp (spt_index spte));
  rmapp ← gfn_to_rmap gfn (sp_level sp);
  list_remove spte rmapp.

(** ** Changing an entry under the lock *)

Section masks.
  Context (m : shadow_masks).

Definition mmu_spte_set (sptep new_spte : Z) : M unit :=
  read_spte sptep ;; modify (set_mem sptep new_spte []).

(** [mmu_spte_update] and [mmu_spte_clear_track_bits] of [Spte] on memory,
    when nothing comes in between. *)
Definition spte_update (sptep new_spte : Z) : M bool :=
  old ← read_spte sptep;
  let '(ret, ev) := mmu_spte_update m old old new_spte in
  modify (set_mem sptep new_spte ev) ;; mret ret.

Definition spte_clear (sptep : Z) : M bool :=
  old ← read_spte sptep;
  let '(ret, ev) := mmu_spte_clear_track_bits m old old in
  modify (set_mem sptep 0 ev) ;; mret ret.

Definition mmu_spte_clear_no_track (sptep : Z) : M unit :=
  read_spte sptep ;; modify (set_mem sptep 0 []).

Definition drop_spte (sptep : Z) : M unit :=
  c ← spte_clear sptep;
  if c : bool then rmap_remove sptep else mret tt.

Definition __drop_large_spte (sptep : Z) : M bool :=
  v ← read_spte sptep;
  if is_large_pte v then
    page_header sptep ;;
    drop_spte sptep ;;
    s ← get;
    modify (set_lpages (lpages s - 1)) ;; mret true
  else mret false.

Definition drop_large_spte (sptep : Z) : M unit :=
  b ← __drop_large_spte sptep;
  if b : bool then kvm_flush_remote_tlbs else mret tt.

Definition spte_write_protect (sptep : Z) (pt_protect : bool) : M bool :=
  spte ← read_spte sptep;
  if negb (is_writable_pte spte) && negb (pt_protect && spte_is_locklessly_modifiable spte) then mret false
  else
    let spte := if pt_protect then Z.ldiff spte SPTE_MMU_WRITEABLE else spte in
    let spte := Z.ldiff spte PT_WRITABLE_MASK in
    spte_update sptep spte.

(** ** Loops over a list *)

(** A list has at most three entries for each descriptor of the heap. *)
Definition list_fuel (p : pool) : nat := S (S (PTE_LIST_EXT * size (descs p))).

(** [for (sptep = rmap_get_first( *rmapp, &iter); sptep;
          sptep = rmap_get_next(&iter))]; the body says whether to go on. *)
Fixpoint rmap_for {A} (fuel : nat) (body : Z -> A -> M (A * bool)) (sptep : Z) (iter : rmap_iterator) (acc : A) : M A :=
  match fuel with
  | O => lift_res (Err OutOfFuel)
  | S fuel =>
      if sptep =? 0 then mret acc
      else
        '(acc, go) ← body sptep acc;
        if go : bool then
          s ← get;
          '(sptep, iter) ← lift_res (rmap_get_next iter (lists s));
          rmap_for fuel body sptep iter acc
        else mret acc
  end.

Definition for_each_rmap {A} (rmapp : list_head) (body : Z -> A -> M (A * bool)) (acc : A) : M A :=
  s ← get;
  w ← known (heads s !! rmapp);
  '(sptep, iter) ← lift_res (rmap_get_first w (lists s) (Iter 0 0));
  rmap_for (list_fuel (lists s)) body sptep iter acc.

(** *** Write protection *)

Definition __rmap_write_protect (rmapp : list_head) (pt_protect : bool) : M bool :=
  for_each_rmap rmapp (fun sptep flush =>
    v ← read_spte sptep;
    BUG_ON (negb (any v PT_PRESENT_MASK)) ;;
    f ← spte_write_protect sptep pt_protect;
    mret (flush || f, true)) false.

(** The position of the lowest bit set. *)
Fixpoint first_bit (fuel : nat) (i mask : Z) : Z :=
  match fuel with
  | O => i
  | S fuel => if Z.testbit mask i then i else first_bit fuel (i + 1) mask
  end.
Definition __ffs (mask : Z) : Z := first_bit 64 0 mask.

Fixpoint write_protect_masked (fuel : nat) (slot : kvm_memory_slot) (gfn_offset mask : Z) : M unit :=
  if mask =? 0 then mret tt
  else
    match fuel with
    | O => lift_res (Err OutOfFuel)
    | S fuel =>
        let rmapp := __gfn_to_rmap (u64 (base_gfn slot + gfn_offset + __ffs mask)) PT_PAGE_TABLE_LEVEL slot in
        __rmap_write_protect rmapp false ;;
        write_protect_masked fuel slot gfn_offset (Z.land mask (u64 (mask - 1)))
    end.

(** A word has 64 bits to clear. *)
Definition kvm_mmu_write_protect_pt_masked (slot : kvm_memory_slot) (gfn_offset mask : Z) : M unit :=
  write_protect_masked 64 slot gfn_offset mask.

(** The page sizes, [PT_PAGE_TABLE_LEVEL] and up. *)
Definition levels : list Z := [1; 2; 3].

Fixpoint write_protect_levels (ls : list Z) (slot : kvm_memory_slot) (gfn : Z) (write_protected : bool) : M bool :=
  match ls with
  | [] => mret write_protected
  | i :: ls =>
      b ← __rmap_write_protect (__gfn_to_rmap gfn i slot) true;
      write_protect_levels ls slot gfn (write_protected || b)
  end.

Definition rmap_write_protect (gfn : Z) : M bool :=
  s ← get;
  slot ← known (search_memslots (slots s) gfn);
  write_protect_levels levels slot gfn false.

(** *** Removing all mappings *)

(** [while ((sptep = rmap_get_first( *rmapp, &iter)))] with the drop of the
    entry, as [kvm_unmap_rmapp] and [kvm_set_pte_rmapp] write it: [bug] is
    the condition of their [BUG_ON] and [dropped_one] the value of their
    variable once an entry was dropped. *)
Fixpoint drop_all {A} (bug : Z -> bool) (dropped_one : A) (fuel : nat) (rmapp : list_head) (need_flush : A) : M A :=
  match fuel with
  | O => lift_res (Err OutOfFuel)
  | S fuel =>
      s ← get;
      w ← known (heads s !! rmapp);
      '(sptep, _) ← lift_res (rmap_get_first w (lists s) (Iter 0 0));
      if sptep =? 0 then mret need_flush
      else
        v ← read_spte sptep;
        BUG_ON (bug v) ;;
        drop_spte sptep ;;
        drop_all bug dropped_one fuel rmapp dropped_one
  end.

Definition kvm_unmap_rmapp (rmapp : list_head) : M Z :=
  s ← get; drop_all (fun v => negb (any v PT_PRESENT_MASK)) 1 (list_fuel (lists s)) rmapp 0.

(** *** A host page replaced *)

(** The entry for the new frame, read-only. *)
Definition moved_spte (spte new_pfn : Z) : Z :=
  let new_spte := Z.ldiff spte PT64_BASE_ADDR_MASK in
  let new_spte := Z.lor new_spte (u64 (Z.shiftl new_pfn PAGE_SHIFT)) in
  let new_spte := Z.ldiff new_spte PT_WRITABLE_MASK in
  let new_spte := Z.ldiff new_spte SPTE_HOST_WRITEABLE in
  Z.ldiff new_spte (shadow_accessed_mask m).

(** The loop when the new page is not writable: each entry is replaced.  When
    it is, the entries are dropped and the iteration starts again. *)
Definition move_loop (rmapp : list_head) (new_pfn : Z) : M bool :=
  for_each_rmap rmapp (fun sptep _ =>
    v ← read_spte sptep;
    BUG_ON (negb (is_shadow_present_pte m v)) ;;
    spte_clear sptep ;;
    mmu_spte_set sptep (moved_spte v new_pfn) ;;
    mret (true, true)) false.

(** [writable] and [new_pfn] are [pte_write] and [pte_pfn] of the new host
    entry. *)
Definition kvm_set_pte_rmapp (writable : bool) (new_pfn : Z) (rmapp : list_head) : M Z :=
  s ← get;
  need_flush ← (if writable
                then drop_all (fun v => negb (is_shadow_present_pte m v)) true (list_fuel (lists s)) rmapp false
                else move_loop rmapp new_pfn);
  (if need_flush : bool then kvm_flush_remote_tlbs else mret tt) ;;
  mret 0.

(** *** Aging *)

Definition kvm_age_rmapp (rmapp : list_head) : M Z :=
  if shadow_accessed_mask m =? 0 then kvm_unmap_rmapp rmapp
  else
    for_each_rmap rmapp (fun sptep young =>
      v ← read_spte sptep;
      BUG_ON (negb (is_shadow_present_pte m v)) ;;
      if any v (shadow_accessed_mask m) then
        modify (set_mem sptep (Z.clearbit v (__ffs (shadow_accessed_mask m))) []) ;;
        mret (1, true)
      else mret (young, true)) 0.

Definition kvm_test_age_rmapp (rmapp : list_head) : M Z :=
  if shadow_accessed_mask m =? 0 then mret 0
  else
    for_each_rmap rmapp (fun sptep young =>
      v ← read_spte sptep;
      BUG_ON (negb (is_shadow_present_pte m v)) ;;
      if any v (shadow_accessed_mask m) then mret (1, false) else mret (young, true)) 0.

Definition RMAP_RECYCLE_THRESHOLD : nat := 1000.

Definition rmap_recycle (spte gfn : Z) : M unit :=
  sp ← page_header spte;
  rmapp ← gfn_to_rmap gfn (sp_level sp);
  kvm_unmap_rmapp rmapp ;;
  kvm_flush_remote_tlbs.

(** ** Ranges of host addresses *)

Definition hva_to_gfn_memslot (hva : Z) (slot : kvm_memory_slot) : Z :=
  u64 (base_gfn slot + Z.shiftr (u64 (hva - userspace_addr slot)) PAGE_SHIFT).

(** [for (; idx <= idx_end; ++idx) ret |= handler(kvm, rmapp++, ...)] from
    index [idx] on, [n] times. *)
Fixpoint handle_indices (n : nat) (handler : list_head -> M Z) (slot_id level idx ret : Z) : M Z :=
  match n with
  | O => mret ret
  | S n =>
      r ← handler (Rmap slot_id level idx);
      handle_indices n handler slot_id level (idx + 1) (Z.lor ret r)
  end.

Fixpoint handle_levels (ls : list Z) (handler : list_head -> M Z) (memslot : kvm_memory_slot)
    (gfn_start gfn_end ret : Z) : M Z :=
  match ls with
  | [] => mret ret
  | j :: ls =>
      let idx := gfn_to_index gfn_start (base_gfn memslot) j in
      let idx_end := gfn_to_index (u64 (gfn_end - 1)) (base_gfn memslot) j in
      ret ← handle_indices (Z.to_nat (idx_end + 1 - idx)) handler (id memslot) j idx ret;
      handle_levels ls handler memslot gfn_start gfn_end ret
  end.

Fixpoint handle_slots (l : list kvm_memory_slot) (handler : list_head -> M Z) (start end_ ret : Z) : M Z :=
  match l with
  | [] => mret ret
  | memslot :: l =>
      let hva_start := Z.max start (userspace_addr memslot) in
      let hva_end := Z.min end_ (u64 (userspace_addr memslot + Z.shiftl (npages memslot) PAGE_SHIFT)) in
      if hva_end <=? hva_start then handle_slots l handler start end_ ret
      else
        let gfn_start := hva_to_gfn_memslot hva_start memslot in
        let gfn_end := hva_to_gfn_memslot (u64 (hva_end + PAGE_SIZE - 1)) memslot in
        ret ← handle_levels levels handler memslot gfn_start gfn_end ret;
        handle_slots l handler start end_ ret
  end.

Definition kvm_handle_hva_range (start end_ : Z) (handler : list_head -> M Z) : M Z :=
  s ← get; handle_slots (live (memslots (slots s))) handler start end_ 0.

Definition kvm_handle_hva (hva : Z) (handler : list_head -> M Z) : M Z :=
  kvm_handle_hva_range hva (u64 (hva + 1)) handler.

Definition kvm_unmap_hva (hva : Z) : M Z := kvm_handle_hva hva kvm_unmap_rmapp.
Definition kvm_unmap_hva_range (start end_ : Z) : M Z := kvm_handle_hva_range start end_ kvm_unmap_rmapp.
Definition kvm_set_spte_hva (hva : Z) (writable : bool) (new_pfn : Z) : M unit :=
  kvm_handle_hva hva (kvm_set_pte_rmapp writable new_pfn) ;; mret tt.
Definition kvm_age_hva (hva : Z) : M Z := kvm_handle_hva hva kvm_age_rmapp.
Definition kvm_test_age_hva (hva : Z) : M Z := kvm_handle_hva hva kvm_test_age_rmapp.

(** ** Write protection of a slot *)

Fixpoint protect_indices (n : nat) (slot_id level idx : Z) : M unit :=
  match n with
  | O => mret tt
  | S n =>
      s ← get;
      w ← known (heads s !! Rmap slot_id level idx);
      (if negb (w =? 0) then __rmap_write_protect (Rmap slot_id level idx) false ;; mret tt else mret tt) ;;
      protect_indices n slot_id level (idx + 1)
  end.

Fixpoint protect_levels (ls : list Z) (memslot : kvm_memory_slot) (last_gfn : Z) : M unit :=
  match ls with
  | [] => mret tt
  | i :: ls =>
      protect_indices (Z.to_nat (gfn_to_index last_gfn (base_gfn memslot) i + 1)) (id memslot) i 0 ;;
      protect_levels ls memslot last_gfn
  end.

Definition kvm_mmu_slot_remove_write_access (slot : Z) : M unit :=
  s ← get;
  memslot ← lift_res (id_to_memslot (slots s) slot);
  protect_levels levels memslot.2 (u64 (base_gfn memslot.2 + npages memslot.2 - 1)) ;;
  kvm_flush_remote_tlbs.

End masks.

(** ** Lists and memory agree *)

(** The frame and the page size an entry maps, by the header of its page. *)
Definition spte_gfn (s : kvm) (sptep : Z) : option (Z * Z) :=
  sp ← pages s !! spt_of sptep;
  match kvm_mmu_page_get_gfn sp (spt_index sptep) with Ok g => Some (g, sp_level sp) | Err _ => None end.

(** The list an entry belongs to. *)
Definition rmap_of (s : kvm) (sptep : Z) : option list_head :=
  '(g, level) ← spte_gfn s sptep;
  slot ← search_memslots (slots s) g;
  Some (__gfn_to_rmap g level slot).

(** An entry of the last level that maps memory. *)
Definition leaf (m : shadow_masks) (s : kvm) (sptep v : Z) : Prop :=
  spt_mem s !! sptep = Some v /\ is_shadow_present_pte m v = true /\
  exists sp, pages s !! spt_of sptep = Some sp /\ is_last_spte v (sp_level sp) = true.

Record mmu_ok (m : shadow_masks) (s : kvm) (ls : gmap list_head (list Z)) : Prop := {
  mk_slots : slots_ok (slots s);
  mk_lists : exists chunks, lists_ok (lists s) (heads s) ls chunks;
  mk_addr a v : spt_mem s !! a = Some v -> good a;
  mk_align a v : spt_mem s !! a = Some v -> a mod 8 = 0;
  mk_leaf a v : leaf m s a v -> leaf_ok v /\ exists h, rmap_of s a = Some h /\ is_Some (heads s !! h);
  mk_rmap sl lv i l : ls !! Rmap sl lv i = Some l ->
    NoDup l /\ forall a, a ∈ l <-> rmap_of s a = Some (Rmap sl lv i) /\ exists v, leaf m s a v
}.

Lemma rmap_of_rmap s a h : rmap_of s a = Some h -> exists sl lv i, h = Rmap sl lv i.
Proof.
  unfold rmap_of. destruct (spte_gfn s a) as [[g lv]|]; [|done]. cbn. destruct (search_memslots _ _) as [sl|]; [|done]. cbn.
  intros [= <-]. eauto.
Qed.

Lemma mmu_list m s ls h : mmu_ok m s ls -> is_Some (heads s !! h) -> is_Some (ls !! h).
Proof. intros [_ [ch Hl] _ _ _ _] H. destruct (lo_dom _ _ _ _ Hl) as [D _]. apply elem_of_dom. rewrite <- D. by apply elem_of_dom. Qed.

Lemma mmu_head m s ls h l : mmu_ok m s ls -> ls !! h = Some l -> exists w, heads s !! h = Some w.
Proof. intros [_ [ch Hl] _ _ _ _] H. destruct (lo_dom _ _ _ _ Hl) as [D _]. apply elem_of_dom. rewrite D. apply elem_of_dom. eauto. Qed.

(** ** Loops *)

Lemma holds_length h w cs l : holds h w cs l -> (length l <= S (PTE_LIST_EXT * length cs))%nat.
Proof.
  destruct 1 as [|x Hx|cs Hcs Hf Hn Hl]; [cbn; lia..|]. clear Hn Hl Hcs.
  induction Hf as [|[a l] cs (_ & Hc & _) _ IH]; [cbn; lia|]. rewrite fmap_cons. cbn [concat snd]. rewrite length_app. unfold PTE_LIST_EXT in *. cbn in Hc |- *. lia.
Qed.

Lemma list_fuel_enough m s ls h l : mmu_ok m s ls -> ls !! h = Some l -> (length l < list_fuel (lists s))%nat.
Proof.
  intros Hok El. destruct (mmu_head _ _ _ _ _ Hok El) as [w Hw]. destruct Hok as [_ [ch Hl] _ _ _ _].
  destruct (lists_chunks _ _ _ _ _ _ Hl Hw) as (cs & l' & _ & El' & Hh). rewrite El in El'. simplify_eq.
  pose proof (holds_length _ _ _ _ Hh) as H1. unfold list_fuel.
  assert (length cs <= size (descs (lists s)))%nat; [|unfold PTE_LIST_EXT in *; lia].
  destruct Hh as [|x Hx|cs _ _ Hn Hlk]; [cbn; lia..|by apply linked_length].
Qed.

Section loops.
  Context {A : Type} (body : Z -> A -> M (A * bool)) (l : list Z).
  (** what holds after the entries [done], and after leaving the loop *)
  Context (I : list Z -> A -> kvm -> Prop) (Q : A -> kvm -> Prop).
  Context (Hbody : forall done x todo a s, l = done ++ x :: todo -> I done a s ->
    exists a' go s', body x a s = Ok ((a', go), s') /\ lists s' = lists s /\ if go : bool then I (done ++ [x]) a' s' else Q a' s').

Lemma rmap_for_spec todo : forall fuel done a s it, l = done ++ todo -> I done a s -> Forall (fun x => x <> 0) todo ->
  (todo <> [] -> standing (lists s) it (tail todo)) -> (length todo < fuel)%nat ->
  exists a' s', rmap_for fuel body (default 0 (head todo)) it a s = Ok (a', s') /\ lists s' = lists s /\ (I l a' s' \/ Q a' s').
Proof using Hbody.
  induction todo as [|x todo IH]; intros fuel done a s it El HI Hnz Hst Hfu; (destruct fuel as [|fuel]; [lia|]).
  { cbn. exists a, s. split; [done|]. split; [done|]. left. by rewrite El, app_nil_r. }
  apply Forall_cons in Hnz as [Hx Hnz]. cbn [rmap_for head default Datatypes.id].
  replace (x =? 0) with false by lia. destruct (Hbody done x todo a s El HI) as (a' & go & s' & Eb & El' & Hgo).
  rewrite (st_bind_Ok _ _ _ _ _ Eb). destruct go; [|exists a', s'; auto].
  unfold get at 1. rewrite (st_bind_Ok _ _ s' s' s') by done.
  destruct (rmap_get_next_spec (lists s') it todo) as (it' & En & Hst'). { rewrite El'. by apply Hst. }
  rewrite (st_bind_Ok _ _ _ _ _ (lift_res_Ok _ _ _ En)).
  destruct (IH fuel (done ++ [x]) a' s' it') as (a2 & s2 & E2 & L2 & H2); [by rewrite <- app_assoc|done|done|done|cbn in Hfu; lia|].
  exists a2, s2. split; [exact E2|]. split; [congruence|done].
Qed.

Lemma for_each_spec m s ls h acc : mmu_ok m s ls -> ls !! h = Some l -> I [] acc s -> Forall (fun x => x <> 0) l ->
  exists a' s', for_each_rmap h body acc s = Ok (a', s') /\ lists s' = lists s /\ (I l a' s' \/ Q a' s').
Proof using Hbody.
  intros Hok El HI Hnz. unfold for_each_rmap, get at 1. rewrite (st_bind_Ok _ _ s s s) by done.
  destruct (mmu_head _ _ _ _ _ Hok El) as [w Hw]. pose proof (list_fuel_enough _ _ _ _ _ Hok El) as Hfu.
  destruct Hok as [_ [ch Hl] _ _ _ _]. destruct (lists_chunks _ _ _ _ _ _ Hl Hw) as (cs & l' & _ & El' & Hh). assert (l' = l) as -> by congruence.
  rewrite (st_bind_Ok _ _ s w s) by (unfold known; by rewrite Hw).
  destruct (rmap_get_first_spec (lists s) w cs l (Iter 0 0) Hh) as (it & E & Hst).
  rewrite (st_bind_Ok _ _ _ _ _ (lift_res_Ok _ _ _ E)).
  by apply (rmap_for_spec l _ []).
Qed.

End loops.

(** ** Changing the bits of mapped entries *)

(** Everything but the entries and what the host was told. *)
Record same_frame (s s' : kvm) : Prop := {
  sf_slots : slots s' = slots s; sf_heads : heads s' = heads s; sf_lists : lists s' = lists s;
  sf_pages : pages s' = pages s; sf_flushes : flushes s' = flushes s; sf_lpages : lpages s' = lpages s
}.

#[global] Instance same_frame_preorder : PreOrder same_frame.
Proof. split; [by intros s|]. intros s1 s2 s3 [? ? ? ? ? ?] [? ? ? ? ? ?]. split; congruence. Qed.

Lemma set_mem_frame a v ev s : same_frame s (set_mem a v ev s).
Proof. done. Qed.

Lemma same_frame_rmap_of s s' a : same_frame s s' -> rmap_of s' a = rmap_of s a.
Proof. intros [E1 _ _ E2 _ _]. unfold rmap_of, spte_gfn. by rewrite E1, E2. Qed.

(** The bits [f] changes in an entry of the last level leave it one. *)
Definition keeps_leaf (m : shadow_masks) (f : Z -> Z) : Prop :=
  forall v, leaf_ok v -> is_shadow_present_pte m v = true ->
    leaf_ok (f v) /\ is_shadow_present_pte m (f v) = true /\ is_large_pte (f v) = is_large_pte v.

Section change.
  Context (m : shadow_masks) (s s' : kvm) (ls : gmap list_head (list Z)) (l : list Z) (f : Z -> Z).
  Context (Hok : mmu_ok m s ls) (Hf : keeps_leaf m f) (Hfr : same_frame s s').
  Context (Hl : forall a, a ∈ l -> exists v, leaf m s a v).
  Context (Hmem : forall a, spt_mem s' !! a = if bool_decide (a ∈ l) then f <$> spt_mem s !! a else spt_mem s !! a).

Lemma change_leaf a : (exists v, leaf m s' a v) <-> exists v, leaf m s a v.
Proof using Hok Hf Hfr Hl Hmem.
  destruct (decide (a ∈ l)) as [Hin|Hin].
  - destruct (Hl a Hin) as (v & Ev & Hp & sp & Esp & Hla). split; intros _; [by exists v; split; [|split; [|exists sp]]|].
    destruct (mk_leaf _ _ _ Hok a v) as [Hlv _]; [by split; [|split; [|exists sp]]|]. destruct (Hf v Hlv Hp) as (_ & Hp' & Hlg).
    exists (f v). split; [by rewrite Hmem, bool_decide_true, Ev|]. split; [done|]. exists sp. rewrite (sf_pages _ _ Hfr). split; [done|].
    revert Hla. unfold is_last_spte. by rewrite Hlg.
  - unfold leaf. rewrite Hmem, bool_decide_false, (sf_pages _ _ Hfr) by done. done.
Qed.

Lemma change_ok : mmu_ok m s' ls.
Proof using Hok Hf Hfr Hl Hmem.
  pose proof change_leaf as Hcl. destruct Hok as [H1 H2 H3 Hal H4 H5]. split.
  - by rewrite (sf_slots _ _ Hfr).
  - by rewrite (sf_lists _ _ Hfr), (sf_heads _ _ Hfr).
  - intros a v. rewrite Hmem. case_bool_decide; [|apply H3]. intros (v0 & Ev & _)%fmap_Some. by eapply H3.
  - intros a v. rewrite Hmem. case_bool_decide; [|apply Hal]. intros (v0 & Ev & _)%fmap_Some. by eapply Hal.
  - intros a v Hlv. rewrite (same_frame_rmap_of _ _ _ Hfr), (sf_heads _ _ Hfr).
    destruct (proj1 (Hcl a)) as (v0 & Hl0); [by exists v|]. destruct (H4 a v0 Hl0) as [Hlo Hh]. split; [|done].
    destruct Hlv as (Ev & _). destruct Hl0 as (E0 & Hp & _). rewrite Hmem, E0 in Ev. case_bool_decide; simplify_eq/=; [by apply Hf|done].
  - intros sl lv i l' El. destruct (H5 sl lv i l' El) as [Hn Hi]. split; [done|]. intros a.
    by rewrite Hi, (same_frame_rmap_of _ _ _ Hfr), Hcl.
Qed.

End change.

(** ** Write protection *)

(** Whether an entry has to be changed, and to what. *)
Definition protects (pt_protect : bool) (v : Z) : bool :=
  is_writable_pte v || (pt_protect && spte_is_locklessly_modifiable v).
Definition protect (pt_protect : bool) (v : Z) : Z :=
  if protects pt_protect v
  then Z.ldiff (if pt_protect then Z.ldiff v SPTE_MMU_WRITEABLE else v) PT_WRITABLE_MASK else v.

Lemma any_clear v mask k : 0 <= k -> Z.testbit mask k = false -> any (Z.ldiff v (Z.shiftl 1 k)) mask = any v mask.
Proof.
  intros Hk Hb. unfold any. do 2 f_equal. apply Z.bits_inj'. intros i Hi. rewrite !Z.land_spec, Z.ldiff_spec, Z.shiftl_1_l, Z.pow2_bits_eqb by lia.
  destruct (Z.eqb_spec k i) as [<-|]; cbn; [by rewrite Hb, !andb_false_r|by rewrite andb_true_r].
Qed.

Lemma protect_bit pt v i : 0 <= i ->
  Z.testbit (protect pt v) i = Z.testbit v i && negb (protects pt v && ((i =? 1) || (pt && (i =? 11)))).
Proof.
  intros Hi. unfold protect. destruct (protects pt v); [|by rewrite andb_true_r]. cbn [andb].
  destruct pt; unfold SPTE_MMU_WRITEABLE, PT_WRITABLE_MASK; rewrite !Z.ldiff_spec, !Z.shiftl_1_l, !Z.pow2_bits_eqb by lia;
    rewrite (Z.eqb_sym i 1), ?(Z.eqb_sym i 11); destruct (1 =? i), (11 =? i), (Z.testbit v i); done.
Qed.

Section protect.
  Context (m : shadow_masks) (Hm : masks_ok m) (pt : bool).

Lemma protect_range v : 0 <= v < 2 ^ 64 -> 0 <= protect pt v < 2 ^ 64.
Proof.
  intros Hv. assert (R : forall x y, 0 <= x < 2 ^ 64 -> 0 <= Z.ldiff x y < 2 ^ 64).
  { intros x y Hx. split; [apply Z.ldiff_nonneg; lia|]. pose proof (ldiff_le x y). lia. }
  unfold protect. destruct (protects pt v), pt; auto.
Qed.

Lemma protect_keeps : keeps_leaf m (protect pt).
Proof using Hm.
  intros v [R U W] Hp. assert (U' : Z.testbit (protect pt v) 62 = false) by (rewrite protect_bit, U by lia; done).
  assert (Eb : forall i, 0 <= i -> i <> 1 -> i <> 11 -> Z.testbit (protect pt v) i = Z.testbit v i).
  { intros i Hi H1 H11. rewrite protect_bit by done. replace (i =? 1) with false by lia. replace (i =? 11) with false by lia.
    by rewrite !andb_false_r, andb_true_r. }
  split; [split; [by apply protect_range|done|]|].
  - rewrite writable_bit, protect_bit by lia. unfold protects. rewrite <- writable_bit. destruct (is_writable_pte v) eqn:Ew; [|done]. done.
  - rewrite present_bit, Eb by done. rewrite present_bit in Hp by done. split; [done|].
    unfold is_large_pte, PT_PAGE_SIZE_MASK. rewrite !any_bit by lia. by apply Eb.
Qed.

(** Write protection clears no bit the host is told about. *)
Lemma protect_update v : leaf_ok v -> is_shadow_present_pte m v = true -> protects pt v = true ->
  mmu_spte_update m v v (protect pt v) = (true, []).
Proof using Hm.
  intros Hv Hp Hpr. pose proof Hv as [R U W].
  assert (Hl : spte_is_locklessly_modifiable v = true).
  { unfold protects in Hpr. destruct (is_writable_pte v); [by apply W|]. by destruct pt. }
  assert (Hw : is_writable_pte (protect pt v) = false).
  { rewrite writable_bit, protect_bit, Hpr by lia. by rewrite andb_false_r. }
  assert (Hany : forall mask, Z.testbit mask 1 = false -> Z.testbit mask 11 = false -> any (protect pt v) mask = any v mask).
  { intros mask M1 M11. unfold protect. rewrite Hpr. unfold PT_WRITABLE_MASK, SPTE_MMU_WRITEABLE. rewrite any_clear by done.
    destruct pt; [by rewrite any_clear|done]. }
  destruct (hw_masks_bits m Hm 1 ltac:(lia)) as [A1 D1]; [unfold hw_bit; lia|].
  destruct (hw_masks_bits m Hm 11 ltac:(lia)) as [A11 D11]; [unfold hw_bit; lia|].
  unfold mmu_spte_update. rewrite Hp. cbn [negb]. replace (if spte_has_volatile_bits m v then v else v) with v by (by destruct (spte_has_volatile_bits m v)).
  rewrite Hl, Hw. cbn [andb negb]. destruct (shadow_accessed_mask m =? 0); [done|].
  unfold spte_is_bit_cleared. rewrite !Hany by done. by destruct (any v _), (any v _).
Qed.

End protect.

Definition mem_after (f : Z -> Z) (l : list Z) (s s' : kvm) : Prop :=
  forall a, spt_mem s' !! a = if bool_decide (a ∈ l) then f <$> spt_mem s !! a else spt_mem s !! a.

Lemma mem_after_step f done x v ev s s1 : mem_after f done s s1 -> x ∉ done -> spt_mem s !! x = Some v ->
  mem_after f (done ++ [x]) s (set_mem x (f v) ev s1).
Proof.
  intros H Hx Hv a. cbn. rewrite lookup_insert. case_decide as Ex.
  - subst x. rewrite bool_decide_true, Hv by set_solver. done.
  - rewrite H. apply (f_equal (fun b : bool => if b then f <$> spt_mem s !! a else spt_mem s !! a)).
    apply bool_decide_ext. rewrite elem_of_app, list_elem_of_singleton. naive_solver.
Qed.

Lemma mem_after_unseen f done x s s1 : mem_after f done s s1 -> x ∉ done -> spt_mem s1 !! x = spt_mem s !! x.
Proof. intros H Hx. rewrite H. by rewrite bool_decide_false. Qed.

Lemma read_spte_Ok a v s : spt_mem s !! a = Some v -> read_spte a s = Ok (v, s).
Proof. intros E. unfold read_spte, get, mbind, st_bind, known, lift_res. by rewrite E. Qed.

(** The entries of a list of the reverse map. *)
Lemma rmap_entries m s ls sl lv i l : mmu_ok m s ls -> ls !! Rmap sl lv i = Some l ->
  NoDup l /\ Forall (fun x => x <> 0) l /\ forall a, a ∈ l -> exists v, leaf m s a v /\ leaf_ok v.
Proof.
  intros Hok El. destruct (mk_rmap _ _ _ Hok _ _ _ _ El) as [Hn Hi]. split; [done|].
  assert (H : forall a, a ∈ l -> exists v, leaf m s a v /\ leaf_ok v).
  { intros a Ha. apply Hi in Ha as [_ [v Hv]]. exists v. split; [done|]. by apply (mk_leaf _ _ _ Hok) in Hv as [? _]. }
  split; [|done]. apply Forall_forall. intros a Ha. destruct (H a Ha) as (v & (Ev & _) & _). by apply (mk_addr _ _ _ Hok) in Ev as [? _].
Qed.

Lemma present_any m v : is_shadow_present_pte m v = true -> any v PT_PRESENT_MASK = true.
Proof. unfold is_shadow_present_pte. intros [H _]%andb_true_iff. done. Qed.

(** The values of the entries of a list. *)
Definition values (s : kvm) (l : list Z) : list Z := (fun a => default 0 (spt_mem s !! a)) <$> l.

Lemma concat_nils {A B} (l : list A) : concat ((fun _ => []) <$> l) = @nil B.
Proof. by induction l. Qed.

(** A loop whose body changes the entry it visits by [f]. *)
Lemma for_each_change {A} m (body : Z -> A -> M (A * bool)) (f : Z -> Z) (ev : Z -> list pfn_event) (step : A -> Z -> A) s ls sl lv i l acc :
  (forall x v a s1, spt_mem s1 !! x = Some v -> leaf_ok v -> is_shadow_present_pte m v = true ->
     exists s2, body x a s1 = Ok ((step a v, true), s2) /\ same_frame s1 s2 /\ told s2 = told s1 ++ ev v /\ spt_mem s2 = <[x := f v]> (spt_mem s1)) ->
  keeps_leaf m f -> mmu_ok m s ls -> ls !! Rmap sl lv i = Some l ->
  exists s', for_each_rmap (Rmap sl lv i) body acc s = Ok (foldl step acc (values s l), s') /\ mmu_ok m s' ls /\ same_frame s s' /\
    told s' = told s ++ concat (ev <$> values s l) /\ mem_after f l s s'.
Proof.
  intros Hbody Hf Hok El. destruct (rmap_entries _ _ _ _ _ _ _ Hok El) as (Hn & Hnz & Hlf).
  set (J done (a : A) s1 := same_frame s s1 /\ told s1 = told s ++ concat (ev <$> values s done) /\ mem_after f done s s1 /\
    a = foldl step acc (values s done)).
  destruct (for_each_spec body l J (fun _ _ => False)) with (m := m) (s := s) (ls := ls) (h := Rmap sl lv i) (acc := acc)
    as (a & s' & E & Hls & [(Hfr & Ht & Hma & ->)|[]]); try done.
  - intros done x todo a s1 -> (Hfr & Ht & Hma & ->). destruct (Hlf x ltac:(set_solver)) as (v & (Ev & Hp & sp & Hsp) & Hlo).
    assert (Hx : x ∉ done) by (apply NoDup_app in Hn as (_ & Hd & _); intros Hin; apply (Hd x Hin); set_solver).
    pose proof Ev as Ev1. rewrite <- (mem_after_unseen _ _ _ _ _ Hma Hx) in Ev1.
    destruct (Hbody x v (foldl step acc (values s done)) s1 Ev1 Hlo Hp) as (s2 & E2 & F2 & T2 & M2).
    eexists _, true, s2. split; [exact E2|]. split; [by destruct F2|].
    assert (Ed : values s (done ++ [x]) = values s done ++ [v]) by (unfold values; rewrite fmap_app; cbn; by rewrite Ev).
    split; [by etrans|]. rewrite Ed. split; [by rewrite T2, Ht, fmap_app, concat_app, <- app_assoc; cbn; rewrite app_nil_r|].
    split; [|by rewrite foldl_app]. intros b. rewrite M2. exact (mem_after_step f done x v [] s s1 Hma Hx Ev b).
  - split; [done|]. split; [cbn; by rewrite app_nil_r|]. split; [intros a; by rewrite bool_decide_false by set_solver|done].
  - exists s'. split; [exact E|]. split; [|done]. apply (change_ok m s s' ls l f); try done.
    intros a Ha. destruct (Hlf a Ha) as (v & Hv & _). by exists v.
Qed.

Section write_protect.
  Context (m : shadow_masks) (Hm : masks_ok m) (pt : bool).

Lemma spte_write_protect_run a v s : spt_mem s !! a = Some v -> leaf_ok v -> is_shadow_present_pte m v = true ->
  spte_write_protect m a pt s
  = Ok (protects pt v, if protects pt v then set_mem a (protect pt v) [] s else s).
Proof using Hm.
  intros Ev Hl Hp. unfold spte_write_protect. rewrite (st_bind_Ok _ _ _ _ _ (read_spte_Ok _ _ _ Ev)).
  replace (negb (is_writable_pte v) && negb (pt && spte_is_locklessly_modifiable v)) with (negb (protects pt v))
    by (unfold protects; by rewrite negb_orb).
  destruct (protects pt v) eqn:E; [|done]. cbn [negb]. unfold spte_update. rewrite (st_bind_Ok _ _ _ _ _ (read_spte_Ok _ _ _ Ev)).
  pose proof (protect_update m Hm pt v Hl Hp E) as Hu. unfold protect in *. rewrite E in *. rewrite Hu. done.
Qed.

Lemma rmap_write_protect_list s ls sl lv i l : mmu_ok m s ls -> ls !! Rmap sl lv i = Some l ->
  exists fl s', __rmap_write_protect m (Rmap sl lv i) pt s = Ok (fl, s') /\ mmu_ok m s' ls /\ same_frame s s' /\
    told s' = told s /\ mem_after (protect pt) l s s' /\
    (fl = true <-> exists a v, a ∈ l /\ spt_mem s !! a = Some v /\ protects pt v = true).
Proof using Hm.
  intros Hok El. unfold __rmap_write_protect.
  destruct (for_each_change m (fun sptep flush => v ← read_spte sptep; BUG_ON (negb (any v PT_PRESENT_MASK)) ;;
      f ← spte_write_protect m sptep pt; mret (flush || f, true)) (protect pt) (fun _ => []) (fun fl v => fl || protects pt v) s ls sl lv i l false)
    as (s' & E & Hok' & Hfr & Ht & Hma); [|by apply protect_keeps|done|done|].
  - intros x v fl s1 Ev Hlo Hp. rewrite (st_bind_Ok _ _ _ _ _ (read_spte_Ok _ _ _ Ev)), (present_any m v Hp). cbn [negb BUG_ON].
    rewrite (st_bind_Ok _ _ s1 tt s1) by done. rewrite (st_bind_Ok _ _ _ _ _ (spte_write_protect_run x v s1 Ev Hlo Hp)).
    eexists. split; [reflexivity|]. destruct (protects pt v) eqn:Epr; [done|]. split; [done|]. split; [by rewrite app_nil_r|].
    unfold protect. rewrite Epr. symmetry. by apply insert_id.
  - eexists _, s'. split; [exact E|]. split; [done|]. split; [done|]. split; [rewrite Ht|split; [done|]].
    { by rewrite concat_nils, app_nil_r. }
    destruct (rmap_entries _ _ _ _ _ _ _ Hok El) as (_ & _ & Hlf). clear -Hlf. assert (H : forall b, foldl (fun fl v => fl || protects pt v) b (values s l) = true <->
      b = true \/ exists a v, a ∈ l /\ spt_mem s !! a = Some v /\ protects pt v = true); [|rewrite H; naive_solver].
    induction l as [|x l IH]; intros b; [cbn; split; [by left|intros [?|(? & ? & ? & _)]; [done|set_solver]]|].
    destruct (Hlf x ltac:(set_solver)) as (v & (Ev & _) & _). unfold values in *. rewrite fmap_cons. cbn [foldl]. rewrite Ev. cbn [default Datatypes.id].
    rewrite IH, orb_true_iff by (intros; apply Hlf; set_solver). split.
    + intros [[?|?]|(a & w & ? & ?)]; [by left|right; exists x, v; split; [left|done]|right; exists a, w; split; [by right|done]].
    + intros [?|(a & w & [->|?]%elem_of_cons & E & ?)]; [auto|rewrite Ev in E; simplify_eq; auto|right; eauto].
Qed.

End write_protect.

(** ** Dropping entries *)

(** What dropping entries leaves alone. *)
Record same_tables (s s' : kvm) : Prop := {
  st_slots : slots s' = slots s; st_pages : pages s' = pages s; st_flushes : flushes s' = flushes s;
  st_lpages : lpages s' = lpages s; st_objects : objects (lists s') = objects (lists s);
  st_heads : dom (heads s') = dom (heads s)
}.

#[global] Instance same_tables_preorder : PreOrder same_tables.
Proof. split; [by intros s|]. intros s1 s2 s3 [? ? ? ? ? ?] [? ? ? ? ? ?]. split; congruence. Qed.

Lemma same_tables_rmap_of s s' a : same_tables s s' -> rmap_of s' a = rmap_of s a.
Proof. intros [E1 E2 _ _ _ _]. unfold rmap_of, spte_gfn. by rewrite E1, E2. Qed.

Lemma rmap_of_inv s a h : rmap_of s a = Some h -> exists sp g sl, pages s !! spt_of a = Some sp /\
  kvm_mmu_page_get_gfn sp (spt_index a) = Ok g /\ search_memslots (slots s) g = Some sl /\ h = __gfn_to_rmap g (sp_level sp) sl.
Proof.
  unfold rmap_of, spte_gfn. destruct (pages s !! spt_of a) as [sp|]; [|done]. cbn.
  destruct (kvm_mmu_page_get_gfn sp _) as [g|] eqn:Eg; [|done]. cbn. destruct (search_memslots _ g) as [sl|] eqn:Es; [|done]. cbn.
  intros [= <-]. by exists sp, g, sl.
Qed.

Lemma gfn_to_rmap_Ok s g lv sl : search_memslots (slots s) g = Some sl -> gfn_to_rmap g lv s = Ok (__gfn_to_rmap g lv sl, s).
Proof. intros E. unfold gfn_to_rmap, get, mbind, st_bind, known, lift_res. by rewrite E. Qed.

Lemma page_header_Ok s a sp : pages s !! spt_of a = Some sp -> page_header a s = Ok (sp, s).
Proof. intros E. unfold page_header, get, mbind, st_bind, known, lift_res. by rewrite E. Qed.

Lemma zero_not_present m : is_shadow_present_pte m 0 = false.
Proof. reflexivity. Qed.

(** What the host is told of a page that loses its mapping. *)
Definition dropped (m : shadow_masks) (v : Z) : list pfn_event := (mmu_spte_clear_track_bits m v v).2.

Section drop.
  Context (m : shadow_masks) (s : kvm) (ls : gmap list_head (list Z)) (Hok : mmu_ok m s ls).

Lemma drop_ok s' a v h l l' p' chunks' w' : leaf m s a v -> rmap_of s a = Some h -> ls !! h = Some l -> l ≡ₚ a :: l' ->
  lists_ok p' (<[h := w']> (heads s)) (<[h := l']> ls) chunks' -> is_Some (heads s !! h) ->
  slots s' = slots s -> pages s' = pages s -> heads s' = <[h := w']> (heads s) -> lists s' = p' ->
  spt_mem s' = <[a := 0]> (spt_mem s) -> mmu_ok m s' (<[h := l']> ls).
Proof using Hok.
  intros Hlv Hr El Hp Hlo Hh E1 E2 E3 E4 E5.
  assert (Hr' : forall b, rmap_of s' b = rmap_of s b) by (intros b; unfold rmap_of, spte_gfn; by rewrite E1, E2).
  assert (Hlf : forall b w, leaf m s' b w <-> b <> a /\ leaf m s b w).
  { intros b w. unfold leaf. rewrite E5, E2, lookup_insert. case_decide as Eb; [|naive_solver]. subst b. split; [|by intros [? _]].
    intros ([= <-] & Hpr & _). by rewrite zero_not_present in Hpr. }
  split.
  - rewrite E1. apply Hok.
  - exists chunks'. by rewrite E3, E4.
  - intros b w. rewrite E5, lookup_insert. case_decide; [intros _; subst b; destruct Hlv as [Ev _]; by apply (mk_addr _ _ _ Hok) in Ev|apply Hok].
  - intros b w. rewrite E5, lookup_insert. case_decide; [intros _; subst b; destruct Hlv as [Ev _]; by apply (mk_align _ _ _ Hok) in Ev|apply Hok].
  - intros b w [Hne Hb]%Hlf. rewrite Hr'. destruct (mk_leaf _ _ _ Hok b w Hb) as [? (k & Ek & Hk)]. split; [done|]. exists k. split; [done|].
    rewrite E3, lookup_insert. by case_decide.
  - intros sl lv i l0. rewrite lookup_insert. case_decide as Ek.
    + intros [= <-]. subst h. destruct (mk_rmap _ _ _ Hok _ _ _ _ El) as [Hn Hi]. rewrite Hp in Hn. apply NoDup_cons in Hn as [Hna Hn].
      split; [done|]. intros b. rewrite Hr'. setoid_rewrite Hlf. transitivity (b <> a /\ b ∈ l).
      * rewrite Hp, elem_of_cons. split; [intros Hb; split; [intros ->; done|by right]|intros [? [?|?]]; done].
      * rewrite Hi. naive_solver.
    + intros El0. destruct (mk_rmap _ _ _ Hok _ _ _ _ El0) as [Hn Hi]. split; [done|]. intros b. rewrite Hr', Hi. setoid_rewrite Hlf.
      split; [|naive_solver]. intros [Hb (w & Hw)]. split; [done|]. exists w. split; [|done]. intros ->. congruence.
Qed.

Lemma drop_spte_run a v h l : leaf m s a v -> rmap_of s a = Some h -> ls !! h = Some l ->
  exists s' l', drop_spte m a s = Ok (tt, s') /\ l ≡ₚ a :: l' /\ mmu_ok m s' (<[h := l']> ls) /\ same_tables s s' /\
    spt_mem s' = <[a := 0]> (spt_mem s) /\ told s' = told s ++ dropped m v.
Proof using Hok.
  intros Hlv Hr El. pose proof Hlv as (Ev & Hp & _). destruct (rmap_of_inv _ _ _ Hr) as (sp & g & sl & Esp & Eg & Es & Eh).
  destruct (mmu_head _ _ _ _ _ Hok El) as [w Hw]. destruct (rmap_of_rmap _ _ _ Hr) as (sl0 & lv & i & Ek).
  assert (Hin : a ∈ l) by (rewrite Ek in *; apply (mk_rmap _ _ _ Hok _ _ _ _ El); eauto).
  destruct (mk_lists _ _ _ Hok) as [ch Hl].
  destruct (lists_remove _ _ _ _ _ _ _ _ Hl Hw El Hin (mk_addr _ _ _ Hok _ _ Ev)) as (w' & p' & l' & ch' & Er & Hpm & Hl' & Ho).
  unfold drop_spte, spte_clear. rewrite st_bind_assoc, (st_bind_Ok _ _ _ _ _ (read_spte_Ok _ _ _ Ev)).
  assert (Ec : mmu_spte_clear_track_bits m v v = (true, dropped m v)).
  { unfold dropped, mmu_spte_clear_track_bits. destruct (spte_has_volatile_bits m v); unfold is_rmap_spte; by rewrite Hp. }
  rewrite Ec, st_bind_assoc. set (s1 := set_mem a 0 (dropped m v) s). rewrite (st_bind_Ok _ _ s tt s1) by done.
  rewrite (st_bind_Ok _ _ s1 true s1) by done. unfold rmap_remove. rewrite (st_bind_Ok _ _ _ _ _ (page_header_Ok s1 a sp Esp)).
  rewrite (st_bind_Ok _ _ _ _ _ (lift_res_Ok _ _ _ Eg)), (st_bind_Ok _ _ _ _ _ (gfn_to_rmap_Ok s1 g (sp_level sp) sl Es)), <- Eh.
  unfold list_remove, get at 1. rewrite (st_bind_Ok _ _ s1 s1 s1) by done. rewrite (st_bind_Ok _ _ s1 w s1) by (unfold known; cbn; by rewrite Hw).
  rewrite (st_bind_Ok _ _ _ _ _ (lift_res_Ok _ s1 _ Er)). eexists _, l'. split; [reflexivity|]. split; [done|]. split; [by eapply drop_ok|].
  split; [split; try done; cbn; rewrite dom_insert_L; assert (h ∈ dom (heads s)) by (apply elem_of_dom; eauto); set_solver|done].
Qed.

End drop.

(** *** Unmapping a list *)

(** The entries of [l] are gone and the host knows what they held. *)
Record unmapped (m : shadow_masks) (l : list Z) (s s' : kvm) : Prop := {
  um_tables : same_tables s s';
  um_mem : mem_after (fun _ => 0) l s s';
  um_told : told s' ≡ₚ told s ++ concat ((fun a => dropped m (default 0 (spt_mem s !! a))) <$> l)
}.

Lemma unmapped_nil m s : unmapped m [] s s.
Proof. split; [done|intros a; by rewrite bool_decide_false by set_solver|by rewrite app_nil_r]. Qed.

Lemma unmapped_cons m a v l' s s1 s2 : spt_mem s !! a = Some v -> a ∉ l' -> same_tables s s1 -> spt_mem s1 = <[a := 0]> (spt_mem s) ->
  told s1 = told s ++ dropped m v -> unmapped m l' s1 s2 -> unmapped m (a :: l') s s2.
Proof.
  intros Ev Ha T1 M1 D1 [T2 M2 D2]. split; [by etrans|..].
  - intros b. rewrite M2, M1, lookup_insert. repeat case_bool_decide; repeat case_decide; subst; try set_solver. by rewrite Ev.
  - rewrite D2, D1, fmap_cons, Ev. cbn [concat default Datatypes.id]. rewrite <- app_assoc. do 2 apply Permutation_app_head.
    apply Permutation_refl', f_equal, list_fmap_ext. intros i b Hb. rewrite M1, lookup_insert_ne; [done|].
    intros ->. apply Ha, list_elem_of_lookup. eauto.
Qed.

Lemma unmapped_perm m l l' s s' : l ≡ₚ l' -> unmapped m l s s' -> unmapped m l' s s'.
Proof.
  intros Hp [T M D]. split; [done|..].
  - intros a. rewrite M. by rewrite (bool_decide_ext (a ∈ l) (a ∈ l')) by (by rewrite Hp).
  - by rewrite D, Hp.
Qed.

Section unmap.
  Context (m : shadow_masks).

Lemma first_of_list s ls h l : mmu_ok m s ls -> ls !! h = Some l ->
  exists w it, heads s !! h = Some w /\ rmap_get_first w (lists s) (Iter 0 0) = Ok (default 0 (head l), it).
Proof.
  intros Hok El. destruct (mmu_head _ _ _ _ _ Hok El) as [w Hw]. destruct (mk_lists _ _ _ Hok) as [ch Hl].
  destruct (lists_chunks _ _ _ _ _ _ Hl Hw) as (cs & l' & _ & El' & Hh). rewrite El in El'. simplify_eq.
  destruct (rmap_get_first_spec (lists s) w cs l' (Iter 0 0) Hh) as (it & E & _). by exists w, it.
Qed.

Lemma drop_all_spec {A} (bug : Z -> bool) (one : A) sl lv i fuel : (forall v, is_shadow_present_pte m v = true -> bug v = false) ->
  forall s ls l fl, mmu_ok m s ls -> ls !! Rmap sl lv i = Some l -> (length l < fuel)%nat ->
  exists s', drop_all m bug one fuel (Rmap sl lv i) fl s = Ok (if bool_decide (l = []) then fl else one, s') /\
    mmu_ok m s' (<[Rmap sl lv i := []]> ls) /\ unmapped m l s s'.
Proof.
  intros Hbug. induction fuel as [|fuel IH]; intros s ls l fl Hok El Hfu; [lia|]. cbn [drop_all].
  destruct (first_of_list s ls _ l Hok El) as (w & it & Hw & Ef). unfold get at 1. rewrite (st_bind_Ok _ _ s s s) by done.
  rewrite (st_bind_Ok _ _ s w s) by (unfold known; by rewrite Hw). rewrite (st_bind_Ok _ _ _ _ _ (lift_res_Ok _ s _ Ef)).
  destruct (rmap_entries _ _ _ _ _ _ _ Hok El) as (Hn & Hnz & Hlf). destruct l as [|a l]; cbn [head default Datatypes.id].
  { exists s. split; [done|]. rewrite insert_id by done. split; [done|apply unmapped_nil]. }
  apply Forall_cons in Hnz as [Ha _]. replace (a =? 0) with false by lia.
  destruct (Hlf a ltac:(set_solver)) as (v & Hlv & _). pose proof Hlv as (Ev & Hp & _).
  rewrite (st_bind_Ok _ _ _ _ _ (read_spte_Ok _ _ _ Ev)), (Hbug v Hp). cbn [BUG_ON].
  rewrite (st_bind_Ok _ _ s tt s) by done.
  assert (Hr : rmap_of s a = Some (Rmap sl lv i)) by (apply (mk_rmap _ _ _ Hok _ _ _ _ El); set_solver).
  destruct (drop_spte_run m s ls Hok a v _ _ Hlv Hr El) as (s1 & l1 & Ed & Hpm & Hok1 & Ht1 & Hm1 & Htold).
  rewrite (st_bind_Ok _ _ _ _ _ Ed).
  destruct (IH s1 (<[Rmap sl lv i := l1]> ls) l1 one Hok1) as (s2 & E2 & Hok2 & Hu2).
  - apply lookup_insert_eq.
  - apply Permutation_length in Hpm. cbn in *. lia.
  - exists s2. split; [|split].
    + rewrite E2. by destruct (bool_decide (l1 = [])).
    + by rewrite insert_insert_eq in Hok2.
    + apply (unmapped_perm m (a :: l1)); [done|]. rewrite Hpm in Hn. apply NoDup_cons in Hn as [Hna _]. by eapply unmapped_cons.
Qed.

Lemma kvm_unmap_rmapp_spec s ls sl lv i l : mmu_ok m s ls -> ls !! Rmap sl lv i = Some l ->
  exists s', kvm_unmap_rmapp m (Rmap sl lv i) s = Ok (if bool_decide (l = []) then 0 else 1, s') /\
    mmu_ok m s' (<[Rmap sl lv i := []]> ls) /\ unmapped m l s s'.
Proof.
  intros Hok El. unfold kvm_unmap_rmapp, get at 1. rewrite (st_bind_Ok _ _ s s s) by done.
  apply (drop_all_spec _ 1 _ _ _ _) with (fl := 0); try done; [|by eapply list_fuel_enough]. intros v Hv. by rewrite (present_any m).
Qed.

End unmap.

(** ** Ranges of host addresses *)

(** A handler called on each of some lists, with the results or-ed. *)
Fixpoint handle_all (handler : list_head -> M Z) (hs : list list_head) (ret : Z) : M Z :=
  match hs with
  | [] => mret ret
  | h :: hs => r ← handler h; handle_all handler hs (Z.lor ret r)
  end.

Definition index_heads (slot_id level idx : Z) (n : nat) : list list_head :=
  (fun i => Rmap slot_id level i) <$> seqZ idx (Z.of_nat n).

(** The lists that belong to a range of addresses. *)
Definition slot_heads (start end_ : Z) (slot : kvm_memory_slot) : list list_head :=
  let hva_start := Z.max start (userspace_addr slot) in
  let hva_end := Z.min end_ (u64 (userspace_addr slot + Z.shiftl (npages slot) PAGE_SHIFT)) in
  if hva_end <=? hva_start then []
  else
    let gfn_start := hva_to_gfn_memslot hva_start slot in
    let gfn_end := hva_to_gfn_memslot (u64 (hva_end + PAGE_SIZE - 1)) slot in
    concat ((fun j => let idx := gfn_to_index gfn_start (base_gfn slot) j in
                      let idx_end := gfn_to_index (u64 (gfn_end - 1)) (base_gfn slot) j in
                      index_heads (id slot) j idx (Z.to_nat (idx_end + 1 - idx))) <$> levels).

Definition range_heads (start end_ : Z) (k : kvm_memslots) : list list_head :=
  concat (slot_heads start end_ <$> live (memslots k)).

Lemma handle_all_app f hs1 hs2 ret s : handle_all f (hs1 ++ hs2) ret s = (r ← handle_all f hs1 ret; handle_all f hs2 r) s.
Proof.
  revert ret s. induction hs1 as [|h hs1 IH]; intros ret s; [done|]. cbn [app handle_all]. unfold mbind, st_bind in *.
  destruct (f h s) as [[r s']|e]; [|done]. apply IH.
Qed.

Lemma st_bind_ext {S A B} (m : st S A) (f g : A -> st S B) s : (forall a s', f a s' = g a s') -> (m ≫= f) s = (m ≫= g) s.
Proof. intros H. unfold mbind, st_bind. destruct (m s) as [[a s']|e]; [apply H|done]. Qed.

Lemma handle_indices_all f sid lv n : forall idx ret s,
  handle_indices n f sid lv idx ret s = handle_all f (index_heads sid lv idx n) ret s.
Proof.
  induction n as [|n IH]; intros idx ret s; [done|]. cbn [handle_indices]. unfold index_heads.
  rewrite Nat2Z.inj_succ, seqZ_cons, fmap_cons by lia. cbn [handle_all]. rewrite Z.pred_succ. apply st_bind_ext. intros r s'. apply IH.
Qed.

Lemma handle_levels_all f slot g1 g2 lvs : forall ret s,
  handle_levels lvs f slot g1 g2 ret s
  = handle_all f (concat ((fun j => let idx := gfn_to_index g1 (base_gfn slot) j in
                                    let idx_end := gfn_to_index (u64 (g2 - 1)) (base_gfn slot) j in
                                    index_heads (id slot) j idx (Z.to_nat (idx_end + 1 - idx))) <$> lvs)) ret s.
Proof.
  induction lvs as [|j lvs IH]; intros ret s; [done|]. cbn [handle_levels]. rewrite fmap_cons. cbn [concat]. rewrite handle_all_app.
  unfold mbind, st_bind. rewrite handle_indices_all. destruct (handle_all f _ ret s) as [[r s']|e]; [|done]. apply IH.
Qed.

Lemma handle_slots_all f start end_ l : forall ret s,
  handle_slots l f start end_ ret s = handle_all f (concat (slot_heads start end_ <$> l)) ret s.
Proof.
  induction l as [|sl l IH]; intros ret s; [done|]. rewrite fmap_cons. cbn [concat handle_slots]. rewrite handle_all_app.
  assert (E : forall hs, hs = slot_heads start end_ sl ->
    (r ← handle_all f hs ret; handle_all f (concat (slot_heads start end_ <$> l)) r) s
    = (if (Z.min end_ (u64 (userspace_addr sl + Z.shiftl (npages sl) PAGE_SHIFT)) <=? Z.max start (userspace_addr sl))
       then handle_slots l f start end_ ret
       else r ← handle_all f hs ret; handle_slots l f start end_ r) s).
  { intros hs Ehs. unfold slot_heads in Ehs. destruct (_ <=? _).
    - subst hs. cbn [handle_all]. rewrite (st_bind_Ok _ _ s ret s) by done. by rewrite IH.
    - apply st_bind_ext. intros r s'. by rewrite IH. }
  rewrite (E _ eq_refl). unfold slot_heads. destruct (_ <=? _); [done|]. unfold mbind, st_bind. by rewrite handle_levels_all.
Qed.

Lemma kvm_handle_hva_range_all start end_ f s :
  kvm_handle_hva_range start end_ f s = handle_all f (range_heads start end_ (slots s)) 0 s.
Proof. unfold kvm_handle_hva_range, get at 1. rewrite (st_bind_Ok _ _ s s s) by done. apply handle_slots_all. Qed.

(** The entry maps a page of one of the lists [hs]. *)
Definition mapped_in (m : shadow_masks) (hs : list list_head) (s : kvm) (a : Z) : Prop :=
  exists v h, leaf m s a v /\ rmap_of s a = Some h /\ h ∈ hs.

Record cleared (m : shadow_masks) (hs : list list_head) (s s' : kvm) : Prop := {
  cl_tables : same_tables s s';
  cl_gone a : mapped_in m hs s a -> spt_mem s' !! a = Some 0;
  cl_kept a : ~ mapped_in m hs s a -> spt_mem s' !! a = spt_mem s !! a
}.

Lemma unmapped_cleared m s s' ls h l : mmu_ok m s ls -> ls !! h = Some l -> (exists sl lv i, h = Rmap sl lv i) ->
  unmapped m l s s' -> cleared m [h] s s' /\ (l <> [] <-> exists a, mapped_in m [h] s a).
Proof.
  intros Hok El (sl & lv & i & ->) [T M _]. destruct (mk_rmap _ _ _ Hok _ _ _ _ El) as [_ Hi].
  assert (Hin : forall a, a ∈ l <-> mapped_in m [Rmap sl lv i] s a).
  { intros a. rewrite Hi. unfold mapped_in. setoid_rewrite list_elem_of_singleton. naive_solver. }
  split; [split; [done|..]|].
  - intros a Ha. pose proof Ha as (v & _ & (Ev & _) & _). rewrite M, bool_decide_true by (by apply Hin). by rewrite Ev.
  - intros a Ha. rewrite M, bool_decide_false by (by rewrite Hin). done.
  - split.
    + intros Hne. destruct l as [|a l]; [done|]. exists a. apply Hin. left.
    + intros [a Ha]. apply Hin in Ha. by destruct l; [set_solver|].
Qed.

Lemma mapped_in_cons m h hs s a : mapped_in m (h :: hs) s a <-> mapped_in m [h] s a \/ mapped_in m hs s a.
Proof.
  unfold mapped_in. split.
  - intros (v & k & Hl & Hr & [->|Hk]%elem_of_cons); [left|right]; exists v; eexists; (split; [done|]); (split; [done|set_solver]).
  - intros [(v & k & Hl & Hr & Hk)|(v & k & Hl & Hr & Hk)]; exists v, k; (split; [done|]); (split; [done|set_solver]).
Qed.

(** What is mapped after some lists were unmapped. *)
Lemma cleared_mapped m hs hs' s s' a : cleared m hs s s' -> mapped_in m hs' s' a <-> mapped_in m hs' s a /\ ~ mapped_in m hs s a.
Proof.
  intros [T G K]. unfold mapped_in at 1. rewrite (same_tables_rmap_of _ _ _ T). split.
  - intros (v & h & (Ev & Hp & sp & Esp & Hla) & Hr & Hh). assert (Hn : ~ mapped_in m hs s a).
    { intros Ha. rewrite (G a Ha) in Ev. injection Ev as <-. by rewrite zero_not_present in Hp. }
    split; [|done]. rewrite (K a Hn) in Ev. rewrite (st_pages _ _ T) in Esp. exists v, h. split; [by split; [|split; [|exists sp]]|done].
  - intros [(v & h & (Ev & Hp & sp & Esp & Hla) & Hr & Hh) Hn]. exists v, h. split; [|done].
    split; [by rewrite (K a Hn)|]. split; [done|]. exists sp. by rewrite (st_pages _ _ T).
Qed.

Lemma cleared_cons m h hs s s1 s2 : cleared m [h] s s1 -> cleared m hs s1 s2 -> cleared m (h :: hs) s s2.
Proof.
  intros C1 C2. pose proof C1 as [T1 G1 K1]. pose proof C2 as [T2 G2 K2]. split; [by etrans|..]; intros a; rewrite mapped_in_cons.
  - intros Ha. destruct (decide (spt_mem s1 !! a = Some 0)) as [E|E].
    + assert (Hn : ~ mapped_in m hs s1 a). { intros (v & _ & (Ev & Hp & _) & _). rewrite E in Ev. injection Ev as <-. by rewrite zero_not_present in Hp. }
      by rewrite (K2 a Hn).
    + apply G2. apply (cleared_mapped _ _ _ _ _ _ C1). assert (Hn : ~ mapped_in m [h] s a) by (intros Hm; by rewrite (G1 a Hm) in E). tauto.
  - intros Ha. rewrite K2, K1 by (rewrite ?(cleared_mapped _ _ _ _ _ _ C1); tauto). done.
Qed.

Lemma handle_unmap m hs : forall ret s ls, mmu_ok m s ls ->
  Forall (fun h => (exists sl lv i, h = Rmap sl lv i) /\ is_Some (ls !! h)) hs ->
  exists (b : bool) s' ls', handle_all (kvm_unmap_rmapp m) hs ret s = Ok (Z.lor ret (Z.b2z b), s') /\ mmu_ok m s' ls' /\ dom ls' = dom ls /\
    (forall spt, ls' !! Parents spt = ls !! Parents spt) /\ cleared m hs s s' /\ (b = true <-> exists a, mapped_in m hs s a).
Proof.
  induction hs as [|h hs IH]; intros ret s ls Hok Hf.
  { exists false, s, ls. rewrite Z.lor_0_r. split; [done|]. split; [done|]. split; [done|]. split; [done|].
    assert (Hno : forall a, ~ mapped_in m [] s a) by (intros a (v & h & _ & _ & Hh); set_solver).
    split; [split; [done|intros a Ha; by apply Hno in Ha|done]|]. split; [done|intros [a Ha]; by apply Hno in Ha]. }
  apply Forall_cons in Hf as [[(sl & lv & i & ->) [l El]] Hf]. cbn [handle_all].
  destruct (kvm_unmap_rmapp_spec m s ls sl lv i l Hok El) as (s1 & E1 & Hok1 & Hu). rewrite (st_bind_Ok _ _ _ _ _ E1).
  destruct (unmapped_cleared m s s1 ls _ l Hok El ltac:(eauto) Hu) as [C1 Hl].
  assert (D1 : dom (<[Rmap sl lv i := []]> ls) = dom ls).
  { rewrite dom_insert_L. assert (Rmap sl lv i ∈ dom ls) by (apply elem_of_dom; eauto). set_solver. }
  destruct (IH (Z.lor ret (if bool_decide (l = []) then 0 else 1)) s1 _ Hok1) as (b & s2 & ls2 & E2 & Hok2 & D2 & P2 & C2 & Hb).
  { eapply Forall_impl; [done|]. intros h [Hh Hs]. split; [done|]. apply elem_of_dom. rewrite D1. by apply elem_of_dom. }
  setoid_rewrite (cleared_mapped _ _ _ _ _ _ C1) in Hb.
  exists (negb (bool_decide (l = [])) || b), s2, ls2. split; [|split; [done|]; split; [by rewrite D2|]; split; [intros spt; by rewrite P2, lookup_insert_ne|]; split; [by eapply cleared_cons|]].
  { rewrite E2, <- Z.lor_assoc. by case_bool_decide; destruct b. }
  setoid_rewrite mapped_in_cons. case_bool_decide as El0; cbn [negb orb].
  - assert (Hno : forall a, ~ mapped_in m [Rmap sl lv i] s a) by (intros a Ha; apply (proj2 Hl); eauto).
    rewrite Hb. split; [intros (a & Ha & _); eauto|]. intros (a & [Ha|Ha]); [by apply Hno in Ha|eauto].
  - apply Hl in El0 as [a Ha]. split; [eauto|done].
Qed.

(** A slot as user space registers it: page-aligned and below the end of
    the address space. *)
Record slot_addr_ok (sl : kvm_memory_slot) : Prop := {
  sa_range : 0 <= userspace_addr sl /\ userspace_addr sl + npages sl * PAGE_SIZE + PAGE_SIZE <= 2 ^ 64;
  sa_aligned : userspace_addr sl mod PAGE_SIZE = 0
}.

Definition frame_hva (sl : kvm_memory_slot) (f : Z) : Z := userspace_addr sl + (f - base_gfn sl) * PAGE_SIZE.

(** Frame [f] of the slot meets the range. *)
Definition in_range (start end_ : Z) (sl : kvm_memory_slot) (f : Z) : Prop :=
  base_gfn sl <= f < base_gfn sl + npages sl /\ start < end_ /\
  start < frame_hva sl f + PAGE_SIZE /\ frame_hva sl f < end_.

Lemma interval_div D a b i : 0 < D -> a <= b -> (a / D <= i <= b / D <-> exists f, a <= f <= b /\ f / D = i).
Proof.
  intros HD Hab. split.
  - intros Hi. exists (Z.max a (i * D)).
    pose proof (Z.div_mod b D ltac:(lia)). pose proof (Z.mod_pos_bound b D HD). pose proof (Z.div_mod a D ltac:(lia)). pose proof (Z.mod_pos_bound a D HD).
    split; [nia|]. destruct (Z.max_spec a (i * D)) as [[Hlt ->]|[Hle ->]]; [by apply Z.div_mul; lia|].
    apply Z.le_antisymm; [lia|]. apply Z.div_le_lower_bound; lia.
  - intros (f & Hf & <-). split; apply Z.div_le_mono; lia.
Qed.

Lemma gfn_to_index_div g b lv : 0 <= b <= g -> g < 2 ^ 52 -> lv ∈ levels ->
  gfn_to_index g b lv = g / 2 ^ KVM_HPAGE_GFN_SHIFT lv - b / 2 ^ KVM_HPAGE_GFN_SHIFT lv.
Proof.
  intros Hb Hg Hlv. assert (0 <= KVM_HPAGE_GFN_SHIFT lv) as Hs.
  { unfold levels in Hlv. unfold KVM_HPAGE_GFN_SHIFT. set_unfold. destruct Hlv as [->|[->|[->|[]]]]; lia. }
  unfold gfn_to_index. rewrite !Z.shiftr_div_pow2 by done. apply u64_small.
  assert (HD : 0 < 2 ^ KVM_HPAGE_GFN_SHIFT lv) by (by apply Z.pow_pos_nonneg).
  pose proof (Z.div_le_mono b g _ HD ltac:(lia)). pose proof (Z.div_pos b _ ltac:(lia) HD).
  pose proof (Z.div_le_upper_bound g _ g HD ltac:(nia)). lia.
Qed.

Lemma elem_of_index_heads h sid lv a b : h ∈ index_heads sid lv a (Z.to_nat (b + 1 - a)) <-> exists i, a <= i <= b /\ h = Rmap sid lv i.
Proof.
  unfold index_heads. rewrite list_elem_of_fmap. setoid_rewrite elem_of_seqZ. split.
  - intros (i & -> & Hi). exists i. split; [lia|done].
  - intros (i & Hi & ->). exists i. split; [done|lia].
Qed.

Lemma in_range_frames start end_ sl f : slot_addr_ok sl -> 0 <= npages sl ->
  let hs := Z.max start (userspace_addr sl) in
  let he := Z.min end_ (userspace_addr sl + npages sl * PAGE_SIZE) in
  hs < he ->
  (base_gfn sl + (hs - userspace_addr sl) / PAGE_SIZE <= f <= base_gfn sl + (he + PAGE_SIZE - 1 - userspace_addr sl) / PAGE_SIZE - 1
   <-> in_range start end_ sl f).
Proof.
  intros [Hr Ha] Hn hs he Hlt. unfold in_range, frame_hva. unfold PAGE_SIZE in *.
  set (u := userspace_addr sl) in *. set (b := base_gfn sl) in *. set (n := npages sl) in *.
  pose proof (Z.div_mod (hs - u) 4096 ltac:(lia)). pose proof (Z.mod_pos_bound (hs - u) 4096 ltac:(lia)).
  pose proof (Z.div_mod (he + 4096 - 1 - u) 4096 ltac:(lia)). pose proof (Z.mod_pos_bound (he + 4096 - 1 - u) 4096 ltac:(lia)).
  subst hs he. lia.
Qed.

Lemma elem_of_concat_fmap {A B} (f : A -> list B) (l : list A) x : x ∈ concat (f <$> l) <-> exists y, y ∈ l /\ x ∈ f y.
Proof.
  induction l as [|y l IH]; [split; [set_solver|intros (y & Hy & _); set_solver]|].
  rewrite fmap_cons. cbn [concat]. rewrite elem_of_app, IH. split.
  - intros [H|(z & Hz & H)]; [exists y; split; [left|done]|exists z; split; [by right|done]].
  - intros (z & [->|Hz]%elem_of_cons & H); [by left|right; eauto].
Qed.

Lemma hva_to_gfn_div sl x : slot_ok sl -> 0 <= userspace_addr sl <= x -> x < 2 ^ 64 -> (x - userspace_addr sl) / PAGE_SIZE <= npages sl ->
  hva_to_gfn_memslot x sl = base_gfn sl + (x - userspace_addr sl) / PAGE_SIZE.
Proof.
  intros [Hn Hb _] Hx Hx' Hle. unfold hva_to_gfn_memslot. rewrite (u64_small (x - _)) by lia.
  rewrite Z.shiftr_div_pow2 by (unfold PAGE_SHIFT; lia). change (2 ^ PAGE_SHIFT) with PAGE_SIZE. apply u64_small.
  pose proof (Z.div_pos (x - userspace_addr sl) PAGE_SIZE ltac:(lia) ltac:(done)). lia.
Qed.

(** Between two frames of a slot, every index is the index of a frame. *)
Lemma level_heads_elem sl lv g1 g2 h : slot_ok sl -> base_gfn sl <= g1 <= g2 -> g2 < base_gfn sl + npages sl -> lv ∈ levels ->
  h ∈ (let idx := gfn_to_index g1 (base_gfn sl) lv in
       let idx_end := gfn_to_index g2 (base_gfn sl) lv in index_heads (id sl) lv idx (Z.to_nat (idx_end + 1 - idx)))
  <-> exists f, g1 <= f <= g2 /\ h = __gfn_to_rmap f lv sl.
Proof.
  intros [Hn Hb _] H1 H2 Hlv. cbv zeta. rewrite elem_of_index_heads.
  assert (HD : 0 < 2 ^ KVM_HPAGE_GFN_SHIFT lv).
  { apply Z.pow_pos_nonneg; [lia|]. unfold levels in Hlv. unfold KVM_HPAGE_GFN_SHIFT. set_unfold. destruct Hlv as [->|[->|[->|[]]]]; lia. }
  assert (E : forall g, g1 <= g <= g2 -> gfn_to_index g (base_gfn sl) lv
    = g / 2 ^ KVM_HPAGE_GFN_SHIFT lv - base_gfn sl / 2 ^ KVM_HPAGE_GFN_SHIFT lv) by (intros; apply gfn_to_index_div; done || lia).
  rewrite !E by lia. set (D := 2 ^ KVM_HPAGE_GFN_SHIFT lv) in *. set (b := base_gfn sl / D) in *. split.
  - intros (i & Hi & ->). destruct (proj1 (interval_div D g1 g2 (i + b) HD ltac:(lia)) ltac:(lia)) as (f & Hf & Ef).
    exists f. split; [done|]. unfold __gfn_to_rmap. rewrite E by done. f_equal. lia.
  - intros (f & Hf & ->). exists (f / D - b). unfold __gfn_to_rmap. rewrite E by done. split; [|done].
    pose proof (proj2 (interval_div D g1 g2 (f / D) HD ltac:(lia)) ltac:(eauto)). lia.
Qed.

Lemma slot_heads_elem start end_ sl h : slot_ok sl -> slot_addr_ok sl -> 0 <= start -> 0 <= end_ ->
  h ∈ slot_heads start end_ sl <-> exists lv f, lv ∈ levels /\ in_range start end_ sl f /\ h = __gfn_to_rmap f lv sl.
Proof.
  intros Hok Ha Hs He. pose proof Hok as [Hn Hb _]. pose proof Ha as [Hr _]. unfold slot_heads.
  assert (Eend : u64 (userspace_addr sl + Z.shiftl (npages sl) PAGE_SHIFT) = userspace_addr sl + npages sl * PAGE_SIZE).
  { rewrite Z.shiftl_mul_pow2 by (unfold PAGE_SHIFT; lia). change (2 ^ PAGE_SHIFT) with PAGE_SIZE. apply u64_small. unfold PAGE_SIZE in *. lia. }
  rewrite Eend. pose proof (in_range_frames start end_ sl) as Hin. cbv zeta in Hin.
  set (hs := Z.max start (userspace_addr sl)) in *. set (he := Z.min end_ (userspace_addr sl + npages sl * PAGE_SIZE)) in *.
  destruct (Z.leb_spec he hs) as [Hle|Hlt].
  { split; [set_solver|]. intros (lv & f & _ & (Hf & H1 & H2 & H3) & _). exfalso. unfold frame_hva, PAGE_SIZE in *. lia. }
  assert (Ege : (he + PAGE_SIZE - 1 - userspace_addr sl) / PAGE_SIZE = (he - 1 - userspace_addr sl) / PAGE_SIZE + 1).
  { replace (he + PAGE_SIZE - 1 - userspace_addr sl) with (he - 1 - userspace_addr sl + 1 * PAGE_SIZE) by lia. by rewrite Z.div_add. }
  pose proof (Z.div_lt_upper_bound (he - 1 - userspace_addr sl) PAGE_SIZE (npages sl) ltac:(done) ltac:(unfold PAGE_SIZE in *; lia)) as Hup.
  pose proof (Z.div_le_mono (hs - userspace_addr sl) (he - 1 - userspace_addr sl) PAGE_SIZE ltac:(done) ltac:(lia)) as Hmono.
  pose proof (Z.div_pos (hs - userspace_addr sl) PAGE_SIZE ltac:(lia) ltac:(done)) as Hpos.
  rewrite (u64_small (he + PAGE_SIZE - 1)) by (unfold PAGE_SIZE in *; lia).
  rewrite (hva_to_gfn_div sl hs), (hva_to_gfn_div sl (he + PAGE_SIZE - 1)) by (done || (unfold PAGE_SIZE in *; lia)).
  rewrite (u64_small (base_gfn sl + _ - 1)) by lia. rewrite elem_of_concat_fmap. split.
  - intros (lv & Hlv & H). apply level_heads_elem in H as (f & Hf & ->); try done; try lia. exists lv, f. split; [done|]. split; [|done]. by apply Hin; try lia.
  - intros (lv & f & Hlv & Hf & ->). exists lv. split; [done|]. apply level_heads_elem; try done; try lia. exists f. split; [|done]. by apply Hin; try lia.
Qed.

(** ** Host pages taken away *)

(** Every frame of a slot has its place in the arrays of the slot, and the
    entries that map memory are in pages of the levels that can. *)
Record arrays_ok (m : shadow_masks) (s : kvm) : Prop := {
  ar_heads sl lv f : sl ∈ live (memslots (slots s)) -> lv ∈ levels -> base_gfn sl <= f < base_gfn sl + npages sl ->
    is_Some (heads s !! __gfn_to_rmap f lv sl);
  ar_addr sl : sl ∈ live (memslots (slots s)) -> slot_addr_ok sl;
  ar_level a v sp : leaf m s a v -> pages s !! spt_of a = Some sp -> sp_level sp ∈ levels
}.

(** The entry maps a page, small or large, that holds a frame of the range. *)
Definition touches (m : shadow_masks) (start end_ : Z) (s : kvm) (a : Z) : Prop :=
  exists v g lv sl f, leaf m s a v /\ spte_gfn s a = Some (g, lv) /\ search_memslots (slots s) g = Some sl /\
    in_range start end_ sl f /\ gfn_to_index f (base_gfn sl) lv = gfn_to_index g (base_gfn sl) lv.

Section ranges.
  Context (m : shadow_masks) (s : kvm) (ls : gmap list_head (list Z)) (start end_ : Z).
  Context (Hok : mmu_ok m s ls) (Har : arrays_ok m s) (Hs : 0 <= start) (He : 0 <= end_).

Lemma range_heads_elem h : h ∈ range_heads start end_ (slots s) <->
  exists sl lv f, sl ∈ live (memslots (slots s)) /\ lv ∈ levels /\ in_range start end_ sl f /\ h = __gfn_to_rmap f lv sl.
Proof using Hok Har Hs He.
  unfold range_heads. rewrite elem_of_concat_fmap. pose proof (mk_slots _ _ _ Hok) as Hsl.
  assert (H : forall sl, sl ∈ live (memslots (slots s)) -> slot_ok sl).
  { intros sl Hl. apply live_elem in Hl as [Hl _]; [|apply Hsl..]. by apply (proj1 (Forall_forall _ _) (ok_slots _ Hsl)). }
  split.
  - intros (sl & Hl & Hh). apply slot_heads_elem in Hh as (lv & f & H1 & H2 & H3); eauto using ar_addr. by exists sl, lv, f.
  - intros (sl & lv & f & Hl & H1 & H2 & H3). exists sl. split; [done|]. apply slot_heads_elem; eauto using ar_addr.
Qed.

Lemma range_heads_rmap : Forall (fun h => (exists sl lv i, h = Rmap sl lv i) /\ is_Some (ls !! h)) (range_heads start end_ (slots s)).
Proof using Hok Har Hs He.
  apply Forall_forall. intros h (sl & lv & f & Hl & Hlv & (Hf & _) & ->)%range_heads_elem. split; [unfold __gfn_to_rmap; eauto|].
  eapply mmu_list; [done|]. by eapply ar_heads.
Qed.

Lemma search_live g sl : search_memslots (slots s) g = Some sl -> sl ∈ live (memslots (slots s)) /\ sl ∈ memslots (slots s) /\ covers sl g = true.
Proof using Hok.
  intros H. pose proof (search_Some _ _ _ (mk_slots _ _ _ Hok) H) as [? ?]. split; [|done]. apply find_some in H as [H _]. by apply list_elem_of_In.
Qed.

Lemma mapped_in_range a : mapped_in m (range_heads start end_ (slots s)) s a <-> touches m start end_ s a.
Proof using Hok Har Hs He.
  split.
  - intros (v & h & Hlv & Hr & (sl & lv & f & Hl & Hlv' & Hf & Eh)%range_heads_elem).
    destruct (rmap_of_inv _ _ _ Hr) as (sp & g & sl' & Esp & Eg & Es & Eh'). rewrite Eh in Eh'. unfold __gfn_to_rmap in Eh'. injection Eh' as E1 E2 E3.
    destruct (search_live g sl' Es) as (_ & Hin & _). apply live_elem in Hl as [Hl _]; [|apply (mk_slots _ _ _ Hok)..].
    assert (sl = sl') as -> by (eapply id_inj; eauto using mk_slots). exists v, g, lv, sl', f. split; [done|].
    split; [unfold spte_gfn; rewrite Esp; cbn; by rewrite Eg, E2|]. split; [done|]. split; [done|]. by rewrite E2 in E3 |- *.
  - intros (v & g & lv & sl & f & Hlv & Eg & Es & Hf & Ei). exists v, (__gfn_to_rmap f lv sl). split; [done|].
    split; [unfold rmap_of; rewrite Eg; cbn; rewrite Es; cbn; unfold __gfn_to_rmap; by rewrite Ei|].
    apply range_heads_elem. exists sl, lv, f. split; [by eapply search_live|]. split; [|done].
    unfold spte_gfn in Eg. destruct (pages s !! spt_of a) as [sp|] eqn:Esp; [|done]. cbn in Eg.
    destruct (kvm_mmu_page_get_gfn sp _); [|done]. injection Eg as _ <-. by eapply ar_level.
Qed.

End ranges.

(** C9: When the host takes away a range of addresses, exactly the entries that
    map a page with a frame of the range, of any size, are removed; the
    lists stay exact, the return value says whether there was one, and no
    assertion fails. *)
Theorem unmap_hva_range_exact (m : shadow_masks) (s : kvm) (ls : gmap list_head (list Z)) (start end_ : Z)
    (Hok : mmu_ok m s ls) (Har : arrays_ok m s) (Hs : 0 <= start) (He : 0 <= end_) :
  exists (b : bool) s' ls', kvm_unmap_hva_range m start end_ s = Ok (Z.b2z b, s') /\ mmu_ok m s' ls' /\ same_tables s s' /\
    (b = true <-> exists a, touches m start end_ s a) /\
    (forall a, touches m start end_ s a -> spt_mem s' !! a = Some 0) /\
    (forall a, ~ touches m start end_ s a -> spt_mem s' !! a = spt_mem s !! a).
Proof.
  unfold kvm_unmap_hva_range. rewrite kvm_handle_hva_range_all.
  destruct (handle_unmap m (range_heads start end_ (slots s)) 0 s ls Hok) as (b & s' & ls' & E & Hok' & _ & _ & [T G K] & Hb).
  { by eapply range_heads_rmap. }
  exists b, s', ls'. rewrite Z.lor_0_l in E. split; [done|]. split; [done|]. split; [done|].
  setoid_rewrite (mapped_in_range m s ls start end_ Hok Har Hs He) in Hb.
  split; [done|]. split; intros a Ha; [apply G|apply K]; by rewrite (mapped_in_range m s ls start end_ Hok Har Hs He).
Qed.

(** ** Adding a mapping *)

(** Addresses of entries are determined by page and index. *)
Lemma spt_index_inj a b : a mod 8 = 0 -> b mod 8 = 0 -> spt_of a = spt_of b -> spt_index a = spt_index b -> a = b.
Proof.
  unfold spt_index. intros Ha Hb E. rewrite E, !Z.shiftr_div_pow2 by lia. change (2 ^ 3) with 8. intros Ei.
  assert (Hs : spt_of b mod 8 = 0).
  { unfold spt_of. change (PAGE_SIZE - 1) with (Z.ones 12). rewrite Z.ldiff_ones_r, Z.shiftl_mul_pow2 by lia.
    replace (2 ^ 12) with (512 * 8) by lia. rewrite Z.mul_assoc. by apply Z.mod_mul. }
  pose proof (Z.div_mod (a - spt_of b) 8 ltac:(lia)) as Da. pose proof (Z.div_mod (b - spt_of b) 8 ltac:(lia)) as Db.
  rewrite (Zminus_mod a), Ha, Hs in Da. rewrite (Zminus_mod b), Hb, Hs in Db. change ((0 - 0) mod 8) with 0 in *. lia.
Qed.

(** The header after [kvm_mmu_page_set_gfn]. *)
Definition page_with_gfn (sp : kvm_mmu_page) (index gfn : Z) : kvm_mmu_page :=
  if sp_direct sp then sp else with_gfns (<[Z.to_nat index := gfn]>) sp.

Lemma page_with_gfn_get sp index gfn : (sp_direct sp = true -> kvm_mmu_page_get_gfn sp index = Ok gfn) ->
  (sp_direct sp = false -> (Z.to_nat index < length (sp_gfns sp))%nat) ->
  kvm_mmu_page_get_gfn (page_with_gfn sp index gfn) index = Ok gfn.
Proof.
  unfold page_with_gfn. destruct (sp_direct sp) eqn:Ed; [auto|]. intros _ Hlen. unfold kvm_mmu_page_get_gfn.
  change (sp_direct (with_gfns _ sp)) with (sp_direct sp). rewrite Ed. cbn. by rewrite list_lookup_insert_eq by auto.
Qed.

Lemma page_with_gfn_other sp index gfn j : 0 <= index -> 0 <= j -> j <> index ->
  kvm_mmu_page_get_gfn (page_with_gfn sp index gfn) j = kvm_mmu_page_get_gfn sp j.
Proof.
  intros Hi Hj Hne. unfold page_with_gfn. destruct (sp_direct sp) eqn:Ed; [done|]. unfold kvm_mmu_page_get_gfn.
  change (sp_direct (with_gfns _ sp)) with (sp_direct sp). rewrite Ed. cbn. by rewrite list_lookup_insert_ne by lia.
Qed.

Section add.
  Context (m : shadow_masks) (s : kvm) (ls : gmap list_head (list Z)) (Hok : mmu_ok m s ls).
  Context (a v v0 g : Z) (ev : list pfn_event) (sp : kvm_mmu_page) (sl : kvm_memory_slot).
  Context (Ev0 : spt_mem s !! a = Some v0) (Hv0 : is_shadow_present_pte m v0 = false).
  Context (Hv : leaf_ok v) (Hp : is_shadow_present_pte m v = true).
  Context (Esp : pages s !! spt_of a = Some sp) (Hla : is_last_spte v (sp_level sp) = true).
  Context (Es : search_memslots (slots s) g = Some sl).
  Context (Hdir : sp_direct sp = true -> kvm_mmu_page_get_gfn sp (spt_index a) = Ok g).
  Context (Hind : sp_direct sp = false -> (Z.to_nat (spt_index a) < length (sp_gfns sp))%nat).

Abbreviation h := (__gfn_to_rmap g (sp_level sp) sl).
Abbreviation sp' := (page_with_gfn sp (spt_index a) g).

Lemma spt_index_nonneg b : 0 <= spt_index b.
Proof.
  unfold spt_index. apply Z.shiftr_nonneg. unfold spt_of. change (PAGE_SIZE - 1) with (Z.ones 12). rewrite Z.ldiff_ones_r by lia.
  rewrite Z.shiftl_mul_pow2, Z.shiftr_div_pow2 by lia. pose proof (Z.div_mod b (2 ^ 12) ltac:(lia)). pose proof (Z.mod_pos_bound b (2 ^ 12) ltac:(lia)). lia.
Qed.

(** The state once the entry is stored and listed. *)
Lemma added_ok s2 l l' w' p' chunks' : ls !! h = Some l -> l' ≡ₚ a :: l -> is_Some (heads s !! h) ->
  lists_ok p' (<[h := w']> (heads s)) (<[h := l']> ls) chunks' ->
  slots s2 = slots s -> pages s2 = <[spt_of a := sp']> (pages s) -> heads s2 = <[h := w']> (heads s) -> lists s2 = p' ->
  spt_mem s2 = <[a := v]> (spt_mem s) -> mmu_ok m s2 (<[h := l']> ls) /\ rmap_of s2 a = Some h.
Proof using Hok Ev0 Hv0 Hv Hp Esp Hla Es Hdir Hind.
  intros El Hpm Hh Hlo E1 E2 E3 E4 E5.
  assert (Elv : sp_level sp' = sp_level sp) by (unfold page_with_gfn; by destruct (sp_direct sp)).
  assert (Hra : rmap_of s2 a = Some h).
  { unfold rmap_of, spte_gfn. rewrite E1, E2, lookup_insert_eq. cbn. rewrite page_with_gfn_get, Elv by done. cbn. by rewrite Es. }
  assert (Hrb : forall b w, b <> a -> spt_mem s !! b = Some w -> rmap_of s2 b = rmap_of s b).
  { intros b w Hne Eb. unfold rmap_of, spte_gfn. rewrite E1, E2, lookup_insert. case_decide as Eab; [|done]. rewrite <- Eab, Esp. cbn. rewrite Elv.
    rewrite page_with_gfn_other; [done|apply spt_index_nonneg..|]. intros Ei. apply Hne. apply spt_index_inj; [by eapply (mk_align _ _ _ Hok)..|done|done]. }
  assert (Hlf : forall b w, leaf m s2 b w <-> b = a /\ w = v \/ b <> a /\ leaf m s b w).
  { intros b w. unfold leaf. rewrite E5, lookup_insert.
    assert (Hpg : forall w, (exists x, pages s2 !! spt_of b = Some x /\ is_last_spte w (sp_level x) = true) <->
                            exists x, pages s !! spt_of b = Some x /\ is_last_spte w (sp_level x) = true).
    { intros w0. rewrite E2, lookup_insert. case_decide as Eab; [|done]. rewrite <- Eab, Esp. split; intros (x & [= <-] & Hx); [exists sp|exists sp'];
        (split; [done|]); by rewrite ?Elv in *. }
    rewrite Hpg. case_decide as Eb; [subst b|naive_solver]. split; [intros ([= <-] & _); by left|]. intros [[_ ->]|[? _]]; [|done].
    split; [done|]. split; [done|]. by exists sp. }
  assert (Hna : forall w, ~ leaf m s a w) by (intros w (Ew & Hw & _); congruence).
  split; [|done]. split.
  - rewrite E1. apply Hok.
  - exists chunks'. by rewrite E3, E4.
  - intros b w. rewrite E5, lookup_insert. case_decide; [intros _; subst b; by apply (mk_addr _ _ _ Hok) in Ev0|apply Hok].
  - intros b w. rewrite E5, lookup_insert. case_decide; [intros _; subst b; by apply (mk_align _ _ _ Hok) in Ev0|apply Hok].
  - intros b w [[-> ->]|[Hne Hb]]%Hlf.
    + split; [done|]. exists h. split; [done|]. rewrite E3, lookup_insert_eq. done.
    + destruct (mk_leaf _ _ _ Hok b w Hb) as [? (k & Ek & Hk)]. split; [done|]. exists k. rewrite (Hrb b w Hne) by apply Hb. split; [done|].
      rewrite E3, lookup_insert. by case_decide.
  - intros s0 lv i l0. rewrite lookup_insert. assert (Hra' : forall k, rmap_of s2 a = Some k -> k = h) by (intros k; rewrite Hra; by intros [= <-]).
    case_decide as Ek.
    + intros [= <-]. rewrite Ek in El. destruct (mk_rmap _ _ _ Hok _ _ _ _ El) as [Hn Hi].
      split; [rewrite Hpm; apply NoDup_cons; split; [|done]; rewrite Hi; intros [_ [w Hw]]; by eapply Hna|].
      intros b. rewrite Hpm, elem_of_cons, Hi. setoid_rewrite Hlf. rewrite <- Ek. split.
      * intros [->|[Hb [w Hw]]]; [split; [done|exists v; by left]|]. assert (Hne : b <> a) by (intros ->; by eapply Hna).
        rewrite (Hrb b w Hne) by apply Hw. split; [done|]. exists w. by right.
      * intros [Hb (w & [[-> _]|[Hne Hw]])]; [by left|]. right. rewrite <- (Hrb b w Hne) by apply Hw. eauto.
    + intros El0. destruct (mk_rmap _ _ _ Hok _ _ _ _ El0) as [Hn Hi]. split; [done|]. intros b. rewrite Hi. setoid_rewrite Hlf. split.
      * intros [Hb [w Hw]]. assert (Hne : b <> a) by (intros ->; by eapply Hna). rewrite (Hrb b w Hne) by apply Hw. split; [done|]. exists w. by right.
      * intros [Hb (w & [[-> _]|[Hne Hw]])]; [exfalso; apply Ek; symmetry; by apply Hra'|]. rewrite <- (Hrb b w Hne) by apply Hw. eauto.
Qed.

Lemma set_gfn_Ok s1 : kvm_mmu_page_set_gfn (spt_of a) sp (spt_index a) g s1
  = Ok (tt, if sp_direct sp then s1 else set_pages (<[spt_of a := sp']>) s1).
Proof using Hdir.
  clear Hind. unfold kvm_mmu_page_set_gfn, page_with_gfn. destruct (sp_direct sp) eqn:Ed; [|done].
  rewrite (st_bind_Ok _ _ _ _ _ (lift_res_Ok _ s1 _ (Hdir eq_refl))), Z.eqb_refl. done.
Qed.

(** Storing an entry and listing it keeps lists and memory in agreement. *)
Lemma rmap_add_run : is_Some (heads s !! h) -> objects (lists s) <> [] ->
  exists n s2 l l', ls !! h = Some l /\ rmap_add a g (set_mem a v ev s) = Ok (n, s2) /\ l' ≡ₚ a :: l /\ (n <= length l)%nat /\
    mmu_ok m s2 (<[h := l']> ls) /\ rmap_of s2 a = Some h /\ spt_mem s2 = <[a := v]> (spt_mem s) /\
    slots s2 = slots s /\ pages s2 = <[spt_of a := sp']> (pages s) /\ flushes s2 = flushes s /\ lpages s2 = lpages s /\
    told s2 = told s ++ ev /\ dom (heads s2) = dom (heads s) /\ (length (objects (lists s)) <= S (length (objects (lists s2))))%nat.
Proof using Hok Ev0 Hv0 Hv Hp Esp Hla Es Hdir Hind.
  intros Hh Ho. destruct (mmu_list _ _ _ _ Hok Hh) as [l El]. destruct Hh as [w Hw]. destruct (mk_lists _ _ _ Hok) as [ch Hl].
  destruct (lists_add _ _ _ _ _ _ _ a Hl Hw El Ho (mk_addr _ _ _ Hok _ _ Ev0)) as (n & w' & p' & l' & ch' & Ea & Hpm & Hn & Hl' & Hlen).
  set (s1 := set_mem a v ev s). unfold rmap_add. rewrite (st_bind_Ok _ _ _ _ _ (page_header_Ok s1 a sp Esp)).
  rewrite (st_bind_Ok _ _ _ _ _ (set_gfn_Ok s1)). set (s1' := if sp_direct sp then s1 else _).
  assert (Epg : pages s1' = <[spt_of a := sp']> (pages s)).
  { unfold s1', page_with_gfn. destruct (sp_direct sp); [|done]. cbn. symmetry. by apply insert_id. }
  assert (Eall : slots s1' = slots s /\ heads s1' = heads s /\ lists s1' = lists s /\ spt_mem s1' = <[a := v]> (spt_mem s) /\
    flushes s1' = flushes s /\ lpages s1' = lpages s /\ told s1' = told s ++ ev) by (unfold s1'; by destruct (sp_direct sp)).
  destruct Eall as (A1 & A2 & A3 & A4 & A5 & A6 & A7). clearbody s1'.
  rewrite (st_bind_Ok _ _ _ _ _ (gfn_to_rmap_Ok s1' g (sp_level sp) sl ltac:(by rewrite A1))).
  unfold list_add, get at 1. rewrite (st_bind_Ok _ _ s1' s1' s1') by done.
  rewrite (st_bind_Ok _ _ s1' w s1') by (unfold known; by rewrite A2, Hw). rewrite A3.
  rewrite (st_bind_Ok _ _ _ _ _ (lift_res_Ok _ s1' _ Ea)). rewrite (st_bind_Ok _ _ s1' tt (set_heads (<[h := w']>) p' s1')) by done.
  eexists n, _, l, l'. split; [done|]. split; [reflexivity|]. split; [done|]. split; [done|].
  destruct (added_ok (set_heads (<[h := w']>) p' s1') l l' w' p' ch') as [Hok2 Hr2]; try done; try (by exists w); try (cbn; by rewrite A2).
  split; [done|]. split; [done|]. cbn. rewrite A2, dom_insert_L. assert (h ∈ dom (heads s)) by (apply elem_of_dom; eauto).
  split_and!; try done. set_solver.
Qed.

End add.

(** ** Example: a slot of two pages, its first mapped twice *)

Definition small_region : kvm_userspace_memory_region := Region 0 1 0 0x2000 0x7f0000000000.

Definition small_slots : kvm_memslots := Eval vm_compute in
  match __kvm_set_memory_region demo_sort demo_outcomes kvm_init_memslots_id small_region with
  | Ok (k, _) => k
  | Err _ => kvm_init_memslots_id
  end.

Lemma small_slots_ok : slots_ok small_slots.
Proof.
  destruct (set_memory_region_step demo_sort demo_sort_perm demo_sort_desc demo_outcomes
    kvm_init_memslots_id small_region init_slots_ok) as (k' & r & E & Hok & _); [unfold region_typed; cbn; lia|].
  assert (E' : __kvm_set_memory_region demo_sort demo_outcomes kvm_init_memslots_id small_region = Ok (small_slots, 0))
    by (vm_compute; reflexivity).
  rewrite E' in E. injection E as <- _. exact Hok.
Qed.

(** A page of the direct map. *)
Definition direct_page (gfn level : Z) : kvm_mmu_page :=
  Page gfn (Role level false 0 true 7 false false false false) [] false 0 0 0 ∅ 0.

Definition small_spte : Z := 0x5c03.

Definition small_kvm : kvm :=
  Kvm small_slots
    (<[Rmap 0 1 0 := 0x101]> (<[Rmap 0 1 1 := 0]> (<[Rmap 0 2 0 := 0]> (<[Rmap 0 3 0 := 0]> ∅))))
    (Pool (<[0x100 := Desc [0x10000; 0x20000; 0] 0]> (<[0x200 := zeroed]> ∅)) [0x200])
    (<[0x10000 := small_spte]> (<[0x20000 := small_spte]> (<[0x10008 := 0]> ∅)))
    (<[0x10000 := direct_page 0 1]> (<[0x20000 := direct_page 0 1]> ∅))
    [] 0 0 0.

Definition small_lists : gmap list_head (list Z) :=
  <[Rmap 0 1 0 := [0x10000; 0x20000]]> (<[Rmap 0 1 1 := []]> (<[Rmap 0 2 0 := []]> (<[Rmap 0 3 0 := []]> ∅))).

Definition small_chunks : gmap list_head (list chunk) :=
  <[Rmap 0 1 0 := [(0x100, [0x10000; 0x20000])]]> (<[Rmap 0 1 1 := []]> (<[Rmap 0 2 0 := []]> (<[Rmap 0 3 0 := []]> ∅))).

(** Case analysis on a lookup in a map written out. *)
Ltac lookup_cases H :=
  repeat (apply lookup_insert_Some in H as [[<- <-]|[? H]]); try by rewrite lookup_empty in H.

Lemma small_lists_ok : lists_ok (lists small_kvm) (heads small_kvm) small_lists small_chunks.
Proof.
  split.
  - unfold small_kvm, small_lists, small_chunks. cbn [heads]. by rewrite !dom_insert_L.
  - intros k w cs l Hw Hc Hl. unfold small_kvm in Hw. cbn [heads] in Hw. lookup_cases Hw; vm_compute in Hc, Hl; simplify_eq; try constructor.
    apply (holds_many _ [(0x100, [0x10000; 0x20000])]); [done|..].
    + apply Forall_singleton. split; [done|]. cbn. unfold PTE_LIST_EXT. split; [lia|]. by rewrite !Forall_cons.
    + apply NoDup_singleton.
    + by vm_compute.
  - intros k k' cs cs' a H1 H2 Ha Ha'. unfold small_chunks in H1, H2. lookup_cases H1; lookup_cases H2; try done; set_solver.
  - split; [apply NoDup_singleton|]. intros o Ho. cbn in Ho. apply list_elem_of_singleton in Ho as ->. split; [done|]. by vm_compute.
  - intros k cs a Hc Ha. unfold small_chunks in Hc. lookup_cases Hc; [|set_solver..]. cbn in Ha. apply list_elem_of_singleton in Ha as ->.
    cbn. by rewrite list_elem_of_singleton.
  - intros a Ha. cbn in Ha. apply elem_of_dom in Ha as [x Hx]. lookup_cases Hx.
    + right. exists (Rmap 0 1 0), [(0x100, [0x10000; 0x20000])]. split; [by vm_compute|]. cbn. left.
    + left. cbn. left.
Qed.

Lemma small_leaf a v : leaf (ept_masks true (init_masks 36)) small_kvm a v <-> (a = 0x10000 \/ a = 0x20000) /\ v = small_spte.
Proof.
  split.
  - intros (Ev & Hp & _). unfold small_kvm in Ev. cbn [spt_mem] in Ev. lookup_cases Ev; [tauto..|]. by vm_compute in Hp.
  - intros [[->| ->] ->]; (split; [by vm_compute|]; split; [by vm_compute|]; exists (direct_page 0 1); split; by vm_compute).
Qed.

Lemma small_mmu_ok : mmu_ok (ept_masks true (init_masks 36)) small_kvm small_lists.
Proof.
  split.
  - exact small_slots_ok.
  - exists small_chunks. exact small_lists_ok.
  - intros a v Ev. unfold small_kvm in Ev. cbn [spt_mem] in Ev. by lookup_cases Ev.
  - intros a v Ev. unfold small_kvm in Ev. cbn [spt_mem] in Ev. by lookup_cases Ev.
  - intros a v [Ha ->]%small_leaf. split; [split; [split; by vm_compute|by vm_compute|by vm_compute]|].
    exists (Rmap 0 1 0). destruct Ha as [->| ->]; (split; [vm_compute; reflexivity|eexists; vm_compute; reflexivity]).
  - intros sl lv i l Hl. unfold small_lists in Hl. setoid_rewrite small_leaf.
    assert (Hr : forall a, a = 0x10000 \/ a = 0x20000 -> rmap_of small_kvm a = Some (Rmap 0 1 0)) by (intros a [->| ->]; vm_compute; reflexivity).
    apply lookup_insert_Some in Hl as [[[= <- <- <-] <-]|[Hne Hl]].
    + split; [repeat constructor; set_solver|]. intros a. split.
      * intros Ha. assert (Ha' : a = 0x10000 \/ a = 0x20000) by set_solver. split; [by apply Hr|eauto].
      * intros [_ (v & [->| ->] & _)]; set_solver.
    + assert (l = []) as -> by (do 3 (apply lookup_insert_Some in Hl as [[_ <-]|[_ Hl]]; [done|]); by rewrite lookup_empty in Hl). split; [constructor|]. intros a. split; [set_solver|].
      intros [Ha (v & Ha' & _)]. rewrite (Hr a Ha') in Ha. congruence.
Qed.

Lemma small_arrays_ok : arrays_ok (ept_masks true (init_masks 36)) small_kvm.
Proof.
  assert (El : live (memslots (slots small_kvm)) = [Slot 0 2 (Some ∅) 0x7f0000000000 1 0]) by (vm_compute; reflexivity).
  split.
  - rewrite El. intros sl lv f Hsl Hlv Hf. apply list_elem_of_singleton in Hsl as ->. cbn in Hf.
    assert (f = 0 \/ f = 1) as [->| ->] by lia; unfold levels in Hlv; set_unfold; destruct Hlv as [->|[->|[->|[]]]]; eexists; vm_compute; reflexivity.
  - rewrite El. intros sl Hsl. apply list_elem_of_singleton in Hsl as ->. split; [cbn; unfold PAGE_SIZE; lia|reflexivity].
  - intros a v sp [Ha _]%small_leaf Hsp. destruct Ha as [->| ->]; vm_compute in Hsp; injection Hsp as <-; vm_compute; left.
Qed.

Lemma unmap_hva_range_exact_witness :
  exists s' ls', kvm_unmap_hva_range (ept_masks true (init_masks 36)) 0x7f0000000fff 0x7f0000001000 small_kvm = Ok (1, s') /\
    mmu_ok (ept_masks true (init_masks 36)) s' ls' /\ spt_mem s' !! 0x10000 = Some 0 /\ spt_mem s' !! 0x20000 = Some 0.
Proof.
  destruct (unmap_hva_range_exact (ept_masks true (init_masks 36)) small_kvm small_lists 0x7f0000000fff 0x7f0000001000
    small_mmu_ok small_arrays_ok ltac:(lia) ltac:(lia)) as (b & s' & ls' & E & Hok & _ & Hb & Hg & _).
  assert (Ht : forall a, a = 0x10000 \/ a = 0x20000 -> touches (ept_masks true (init_masks 36)) 0x7f0000000fff 0x7f0000001000 small_kvm a).
  { intros a Ha. exists small_spte, 0, 1, (Slot 0 2 (Some ∅) 0x7f0000000000 1 0), 0. split; [by apply small_leaf|].
    split; [destruct Ha as [->| ->]; vm_compute; reflexivity|]. split; [vm_compute; reflexivity|]. split; [|reflexivity].
    unfold in_range, frame_hva, PAGE_SIZE. cbn. lia. }
  assert (b = true) as -> by (apply Hb; exists 0x10000; apply Ht; by left).
  exists s', ls'. split; [exact E|]. split; [exact Hok|]. split; apply Hg, Ht; auto.
Defined.
