(* ===== verification/RmapSpec.v ===== *)
(** * Write protection, aging and replaced pages (kvm-kmod x86/mmu.c)

    What the operations of [Rmap] that go through several lists do to the
    entries: write protection of the frames of a mask, of a frame in all page
    sizes and of a whole slot, the clearing of accessed bits, and the
    replacement of a host page. *)

From S2P Require Import Prelude MemSlots Spte PteList Rmap.

(** ** Write protection of several lists *)

(** The entries mapped in [hs] were changed by [f], the others were not. *)
Record changed_in (m : shadow_masks) (f : Z -> Z) (hs : list list_head) (s s' : kvm) : Prop := {
  ci_frame : same_frame s s';
  ci_told : told s' = told s;
  ci_in a : mapped_in m hs s a -> spt_mem s' !! a = f <$> spt_mem s !! a;
  ci_out a : ~ mapped_in m hs s a -> spt_mem s' !! a = spt_mem s !! a;
  ci_leaf hs' a : mapped_in m hs' s' a <-> mapped_in m hs' s a
}.

Lemma changed_nil m f s : changed_in m f [] s s.
Proof. split; [done..|intros a (v & h & _ & _ & Hh); set_solver|done|done]. Qed.

Lemma mapped_in_dec m h ls s a : mmu_ok m s ls -> (exists sl lv i, h = Rmap sl lv i) -> is_Some (ls !! h) -> Decision (mapped_in m [h] s a).
Proof.
  intros Hok Hh Hl. destruct (ls !! h) as [l|] eqn:El; [|by exfalso; destruct Hl].
  destruct (decide (a ∈ l)) as [Hin|Hin]; [left|right]; destruct Hh as (sl & lv & i & ->); destruct (mk_rmap _ _ _ Hok _ _ _ _ El) as [_ Hi].
  - apply Hi in Hin as [Hr [v Hv]]. exists v, (Rmap sl lv i). split; [done|]. split; [done|set_solver].
  - intros (v & h & Hlf & Hr & Hh). apply list_elem_of_singleton in Hh as ->. apply Hin, Hi. eauto.
Qed.

Lemma changed_app m f hs1 hs2 s s1 s2 : (forall v, f (f v) = f v) -> (forall a, mapped_in m hs1 s a \/ ~ mapped_in m hs1 s a) ->
  (forall a, mapped_in m hs2 s a \/ ~ mapped_in m hs2 s a) ->
  changed_in m f hs1 s s1 -> changed_in m f hs2 s1 s2 -> changed_in m f (hs1 ++ hs2) s s2.
Proof.
  intros Hf D1 D2 [F1 T1 I1 O1 L1] [F2 T2 I2 O2 L2].
  assert (Ha : forall a, mapped_in m (hs1 ++ hs2) s a <-> mapped_in m hs1 s a \/ mapped_in m hs2 s a).
  { intros a. unfold mapped_in. setoid_rewrite elem_of_app. naive_solver. }
  split.
  - by etrans.
  - congruence.
  - intros a H. rewrite Ha in H. destruct (D1 a) as [H1|H1], (D2 a) as [H2|H2]; try tauto.
    + rewrite I2, I1 by (rewrite ?L1; done). destruct (spt_mem s !! a); cbn; [by rewrite Hf|done].
    + rewrite O2, I1 by (rewrite ?L1; done). done.
    + rewrite I2, O1 by (rewrite ?L1; done). done.
  - intros a H. rewrite Ha in H. rewrite O2, O1 by (rewrite ?L1; tauto). done.
  - intros hs' a. by rewrite L2, L1.
Qed.

Lemma changed_cons m f h hs s s1 s2 : (forall v, f (f v) = f v) -> (forall a, mapped_in m [h] s a \/ ~ mapped_in m [h] s a) ->
  (forall a, mapped_in m hs s a \/ ~ mapped_in m hs s a) ->
  changed_in m f [h] s s1 -> changed_in m f hs s1 s2 -> changed_in m f (h :: hs) s s2.
Proof. apply (changed_app m f [h] hs). Qed.

Lemma protect_idem pt v : protect pt (protect pt v) = protect pt v.
Proof.
  apply Z.bits_inj'. intros i Hi. rewrite (protect_bit pt (protect pt v)) by done. destruct (protects pt (protect pt v)) eqn:E; [|by rewrite andb_true_r].
  exfalso. unfold protects in E. rewrite writable_bit, lockless_bits, !protect_bit in E by lia. unfold protects in E.
  rewrite <- writable_bit, lockless_bits in E.
  destruct (is_writable_pte v), pt, (Z.testbit v 10), (Z.testbit v 11); cbn in E; done.
Qed.

Lemma rmap_write_protect_one m pt s ls h : masks_ok m -> mmu_ok m s ls -> (exists sl lv i, h = Rmap sl lv i) -> is_Some (ls !! h) ->
  exists fl s', __rmap_write_protect m h pt s = Ok (fl, s') /\ mmu_ok m s' ls /\ changed_in m (protect pt) [h] s s' /\
    (fl = true <-> exists a v, mapped_in m [h] s a /\ spt_mem s !! a = Some v /\ protects pt v = true).
Proof.
  intros Hm Hok (sl & lv & i & ->) [l El]. destruct (rmap_write_protect_list m Hm pt s ls sl lv i l Hok El) as (fl & s' & E & Hok' & Hfr & Ht & Hma & Hfl).
  destruct (mk_rmap _ _ _ Hok _ _ _ _ El) as [_ Hi].
  assert (Hin : forall a, a ∈ l <-> mapped_in m [Rmap sl lv i] s a).
  { intros a. rewrite Hi. unfold mapped_in. setoid_rewrite list_elem_of_singleton. naive_solver. }
  exists fl, s'. split; [done|]. split; [done|]. split; [split; [done|done|..]|].
  - intros a Ha. rewrite Hma, bool_decide_true by (by apply Hin). done.
  - intros a Ha. rewrite Hma, bool_decide_false by (by rewrite Hin). done.
  - intros hs a. unfold mapped_in. rewrite (same_frame_rmap_of _ _ _ Hfr). split; intros (v & h & Hlf & Hr & Hh).
    + destruct (proj1 (change_leaf m s s' ls l (protect pt) Hok (protect_keeps m Hm pt) Hfr ltac:(intros b Hb; by apply Hi) Hma a)) as [w Hw]; eauto.
    + destruct (proj2 (change_leaf m s s' ls l (protect pt) Hok (protect_keeps m Hm pt) Hfr ltac:(intros b Hb; by apply Hi) Hma a)) as [w Hw]; eauto.
  - rewrite Hfl. by setoid_rewrite Hin.
Qed.

(** The lists [hs] one after the other. *)
Fixpoint protect_all (m : shadow_masks) (pt : bool) (hs : list list_head) (fl : bool) : M bool :=
  match hs with
  | [] => mret fl
  | h :: hs => b ← __rmap_write_protect m h pt; protect_all m pt hs (fl || b)
  end.

Definition listed (ls : gmap list_head (list Z)) (h : list_head) : Prop :=
  (exists sl lv i, h = Rmap sl lv i) /\ is_Some (ls !! h).

Lemma mapped_dec m s ls hs a : mmu_ok m s ls -> Forall (listed ls) hs -> mapped_in m hs s a \/ ~ mapped_in m hs s a.
Proof.
  intros Hok. induction 1 as [|h hs [Hh Hl] _ IH]; [right; intros (v & h & _ & _ & Hh); set_solver|]. rewrite mapped_in_cons.
  destruct (mapped_in_dec m h ls s a Hok Hh Hl) as [H1|H1]; [by left; left|]. destruct IH as [H2|H2]; [left; by right|right]. by intros [?|?].
Qed.

Lemma protect_all_spec m pt hs : masks_ok m -> forall s ls fl, mmu_ok m s ls -> Forall (listed ls) hs ->
  exists b s', protect_all m pt hs fl s = Ok (fl || b, s') /\ mmu_ok m s' ls /\ changed_in m (protect pt) hs s s' /\
    (b = true <-> exists a v, mapped_in m hs s a /\ spt_mem s !! a = Some v /\ protects pt v = true).
Proof.
  intros Hm. induction hs as [|h hs IH]; intros s ls fl Hok Hf; cbn [protect_all].
  { exists false, s. rewrite orb_false_r. split; [done|]. split; [done|]. split; [apply changed_nil|]. split; [done|].
    intros (a & v & (? & ? & _ & _ & Hh) & _). set_solver. }
  pose proof Hf as Hf0. apply Forall_cons in Hf as [[Hh Hl] Hf].
  destruct (rmap_write_protect_one m pt s ls h Hm Hok Hh Hl) as (b1 & s1 & E1 & Hok1 & C1 & Hb1). rewrite (st_bind_Ok _ _ _ _ _ E1).
  destruct (IH s1 ls (fl || b1) Hok1 Hf) as (b2 & s2 & E2 & Hok2 & C2 & Hb2).
  exists (b1 || b2), s2. rewrite orb_assoc. split; [done|]. split; [done|].
  assert (D1 : forall a, mapped_in m [h] s a \/ ~ mapped_in m [h] s a) by (intros a; eapply mapped_dec; [done|]; by repeat constructor).
  assert (D2 : forall a, mapped_in m hs s a \/ ~ mapped_in m hs s a) by (intros a; by eapply mapped_dec).
  split; [by eapply changed_cons; [apply protect_idem|..]|].
  setoid_rewrite (mapped_in_cons m h hs s). setoid_rewrite (ci_leaf _ _ _ _ _ C1) in Hb2. rewrite orb_true_iff, Hb1, Hb2. split.
  - intros [(a & v & Ha & Hv)|(a & v & Ha & Ev & Hv)]; [exists a, v; tauto|]. destruct (D1 a) as [H1|H1].
    + rewrite (ci_in _ _ _ _ _ C1 a H1) in Ev. apply fmap_Some in Ev as (v0 & Ev0 & ->). exists a, v0. split; [tauto|]. split; [done|].
      pose proof (protect_idem pt v0) as Ei. unfold protect in Ei at 1. rewrite Hv in Ei.
      destruct (protects pt v0) eqn:Ep0; [done|]. unfold protect in Hv. by rewrite Ep0, Ep0 in Hv.
    + rewrite (ci_out _ _ _ _ _ C1 a H1) in Ev. exists a, v. tauto.
  - intros (a & v & [Ha|Ha] & Ev & Hv); [left; eauto|]. destruct (D1 a) as [H1|H1]; [left; eauto|right]. exists a, v.
    rewrite (ci_out _ _ _ _ _ C1 a H1). done.
Qed.

(** *** The bits of a mask *)

Definition mask_bits (mask : Z) : list Z := filter (fun i => Z.testbit mask i = true) (seqZ 0 64).

Lemma first_bit_spec mask n : forall i, 0 <= i -> (exists j, i <= j < i + Z.of_nat n /\ Z.testbit mask j = true) ->
  let k := first_bit n i mask in i <= k < i + Z.of_nat n /\ Z.testbit mask k = true /\ forall j, i <= j < k -> Z.testbit mask j = false.
Proof.
  induction n as [|n IH]; intros i Hi (j & Hj & Hb); [lia|]. cbn [first_bit]. destruct (Z.testbit mask i) eqn:E.
  - cbn. split; [lia|]. split; [done|]. intros. lia.
  - assert (j <> i) by congruence. destruct (IH (i + 1) ltac:(lia)) as (H1 & H2 & H3); [exists j; split; [lia|done]|].
    cbn. split; [lia|]. split; [done|]. intros j' Hj'. destruct (Z.eq_dec j' i) as [->|]; [done|]. apply H3. lia.
Qed.

Lemma word_bit mask : 0 < mask < 2 ^ 64 -> exists j, 0 <= j < 64 /\ Z.testbit mask j = true.
Proof.
  intros Hm. exists (Z.log2 mask). split; [|apply Z.bit_log2; lia]. split; [apply Z.log2_nonneg|]. apply Z.log2_lt_pow2; lia.
Qed.

Lemma testbit_split n a b i : 0 <= n -> 0 <= b < 2 ^ n -> 0 <= i ->
  Z.testbit (a * 2 ^ n + b) i = if i <? n then Z.testbit b i else Z.testbit a (i - n).
Proof.
  intros Hn Hb Hi. assert (0 < 2 ^ n) by (by apply Z.pow_pos_nonneg). destruct (Z.ltb_spec i n) as [Hlt|Hge].
  - rewrite <- (Z.mod_pow2_bits_low (a * 2 ^ n + b) n i) by lia. rewrite Z.add_comm, Z.mod_add, Z.mod_small by lia. done.
  - replace i with (i - n + n) at 1 by lia. rewrite <- Z.div_pow2_bits by lia. rewrite Z.div_add_l, (Z.div_small b), Z.add_0_r by lia. done.
Qed.

(** [mask & (mask - 1)] clears the lowest bit. *)
Lemma clear_lowest mask : 0 < mask < 2 ^ 64 -> let k := __ffs mask in
  0 <= k < 64 /\ Z.testbit mask k = true /\ forall i, 0 <= i -> Z.testbit (Z.land mask (mask - 1)) i = Z.testbit mask i && negb (i =? k).
Proof.
  intros Hm. destruct (first_bit_spec mask 64 0 ltac:(lia)) as (H1 & H2 & H3); [destruct (word_bit mask Hm) as (j & ? & ?); exists j; split; [lia|done]|].
  unfold __ffs. set (k := first_bit 64 0 mask) in *. cbv zeta. split; [lia|]. split; [done|]. intros i Hi.
  assert (Hlow : mask mod 2 ^ k = 0).
  { apply Z.bits_inj'. intros j Hj. rewrite Z.bits_0. destruct (Z.lt_ge_cases j k); [|by apply Z.mod_pow2_bits_high; lia].
    rewrite Z.mod_pow2_bits_low by lia. apply H3. lia. }
  assert (HP : 0 < 2 ^ k) by (apply Z.pow_pos_nonneg; lia).
  set (q := mask / 2 ^ k). assert (Eq : mask = q * 2 ^ k) by (pose proof (Z.div_mod mask (2 ^ k) ltac:(lia)); unfold q; lia).
  assert (Hodd : Z.testbit q 0 = true) by (unfold q; rewrite Z.div_pow2_bits by lia; done).
  assert (Em1 : mask - 1 = (q - 1) * 2 ^ k + (2 ^ k - 1)) by lia.
  rewrite Z.land_spec, Em1, testbit_split by lia. destruct (Z.ltb_spec i k) as [Hlt|Hge].
  { rewrite H3 by lia. done. }
  assert (Eb : Z.testbit mask i = Z.testbit q (i - k)) by (unfold q; rewrite Z.div_pow2_bits by lia; f_equal; lia).
  rewrite Eb. rewrite Z.testbit_odd, Z.shiftr_0_r in Hodd.
  destruct (Z.eqb_spec i k) as [->|Hne]; cbn [negb].
  - rewrite Z.sub_diag. rewrite Z.testbit_odd, Z.shiftr_0_r, (Z.testbit_odd (q - 1)), Z.shiftr_0_r, Z.odd_sub, Hodd. done.
  - assert (Eq2 : q = (q / 2) * 2 ^ 1 + 1 /\ q - 1 = (q / 2) * 2 ^ 1 + 0).
    { pose proof (Z.div_mod q 2 ltac:(lia)). rewrite Zmod_odd, Hodd in *. lia. }
    destruct Eq2 as [E2 E3]. pose proof (testbit_split 1 (q / 2) 1 (i - k)) as S1. pose proof (testbit_split 1 (q / 2) 0 (i - k)) as S0.
    rewrite <- E2 in S1. rewrite <- E3 in S0. rewrite S1, S0 by lia. replace (i - k <? 1) with false by lia.
    by rewrite andb_diag, andb_true_r.
Qed.

Lemma elem_of_mask_bits mask i : i ∈ mask_bits mask <-> 0 <= i < 64 /\ Z.testbit mask i = true.
Proof. unfold mask_bits. rewrite list_elem_of_filter, elem_of_seqZ. intuition lia. Qed.

Lemma NoDup_mask_bits mask : NoDup (mask_bits mask).
Proof. apply NoDup_filter, NoDup_seqZ. Qed.

Lemma mask_bits_lowest mask : 0 < mask < 2 ^ 64 -> mask_bits mask ≡ₚ __ffs mask :: mask_bits (Z.land mask (mask - 1)).
Proof.
  intros Hm. destruct (clear_lowest mask Hm) as (Hk & Hb & Hc). apply NoDup_Permutation; [apply NoDup_mask_bits| |].
  - apply NoDup_cons. split; [|apply NoDup_mask_bits]. rewrite elem_of_mask_bits, Hc, Z.eqb_refl, andb_false_r by lia. by intros [_ ?].
  - intros i. rewrite elem_of_cons, !elem_of_mask_bits. destruct (Z.eq_dec i (__ffs mask)) as [->|Hne]; [tauto|].
    split; [intros [Hi Hbi]; right; split; [done|]; rewrite Hc, Hbi by lia; lia|].
    intros [?|[Hi Hbi]]; [done|]. split; [done|]. rewrite Hc, andb_true_iff in Hbi by lia. tauto.
Qed.

(** The lists of the frames a mask selects. *)
Definition masked_heads (slot : kvm_memory_slot) (gfn_offset mask : Z) : list list_head :=
  (fun i => __gfn_to_rmap (u64 (base_gfn slot + gfn_offset + i)) PT_PAGE_TABLE_LEVEL slot) <$> mask_bits mask.

Lemma mapped_in_perm m hs hs' s a : hs ≡ₚ hs' -> mapped_in m hs s a <-> mapped_in m hs' s a.
Proof. intros Hp. unfold mapped_in. by setoid_rewrite Hp. Qed.

Lemma changed_perm m f hs hs' s s' : hs ≡ₚ hs' -> changed_in m f hs s s' -> changed_in m f hs' s s'.
Proof. intros Hp [F T I O L]. split; [done..| | |done]; intros a Ha; [apply I|apply O]; by rewrite (mapped_in_perm _ _ _ _ _ Hp). Qed.

Lemma write_protect_masked_spec m slot off : masks_ok m -> forall fuel mask s ls, 0 <= mask < 2 ^ 64 -> (length (mask_bits mask) <= fuel)%nat ->
  mmu_ok m s ls -> Forall (listed ls) (masked_heads slot off mask) ->
  exists s', write_protect_masked m fuel slot off mask s = Ok (tt, s') /\ mmu_ok m s' ls /\
    changed_in m (protect false) (masked_heads slot off mask) s s'.
Proof.
  intros Hm. induction fuel as [|fuel IH]; intros mask s ls Hr Hfu Hok Hf; cbn [write_protect_masked].
  - destruct (Z.eqb_spec mask 0) as [->|Hnz]; [exists s; split; [done|]; split; [done|apply changed_nil]|].
    pose proof (mask_bits_lowest mask ltac:(lia)) as Hp. apply Permutation_length in Hp. cbn in Hp. lia.
  - destruct (Z.eqb_spec mask 0) as [->|Hnz]; [exists s; split; [done|]; split; [done|apply changed_nil]|].
    pose proof (mask_bits_lowest mask ltac:(lia)) as Hp. rewrite u64_small by lia. set (mask' := Z.land mask (mask - 1)) in *.
    set (h := __gfn_to_rmap _ _ slot).
    assert (Hp' : masked_heads slot off mask ≡ₚ h :: masked_heads slot off mask') by (unfold masked_heads; by rewrite Hp).
    pose proof Hf as Hf0. rewrite Hp' in Hf. apply Forall_cons in Hf as [[Hh Hl] Hf].
    destruct (rmap_write_protect_one m false s ls h Hm Hok Hh Hl) as (b & s1 & E1 & Hok1 & C1 & _). rewrite (st_bind_Ok _ _ _ _ _ E1).
    destruct (IH mask' s1 ls) as (s2 & E2 & Hok2 & C2); [|apply Permutation_length in Hp; cbn in Hp; lia|done|done|].
    { unfold mask'. split; [apply Z.land_nonneg; lia|]. pose proof (land_le_l mask (mask - 1)). lia. }
    exists s2. split; [done|]. split; [done|]. eapply changed_perm; [symmetry; exact Hp'|]. eapply changed_cons; [apply protect_idem|..|done|done].
    + intros a. eapply mapped_dec; [done|]. by repeat constructor.
    + intros a. by eapply mapped_dec.
Qed.

Lemma mask_bits_length mask : (length (mask_bits mask) <= 64)%nat.
Proof. unfold mask_bits. etrans; [apply length_filter|]. rewrite length_seqZ. lia. Qed.

Lemma kvm_mmu_write_protect_pt_masked_spec m slot off mask s ls : masks_ok m -> 0 <= mask < 2 ^ 64 ->
  mmu_ok m s ls -> Forall (listed ls) (masked_heads slot off mask) ->
  exists s', kvm_mmu_write_protect_pt_masked m slot off mask s = Ok (tt, s') /\ mmu_ok m s' ls /\
    changed_in m (protect false) (masked_heads slot off mask) s s'.
Proof. intros Hm Hr Hok Hf. apply write_protect_masked_spec; try done. apply mask_bits_length. Qed.

(** *** One frame, all page sizes *)

Lemma write_protect_levels_all m slot g lvs : forall b s,
  write_protect_levels m lvs slot g b s = protect_all m true ((fun i => __gfn_to_rmap g i slot) <$> lvs) b s.
Proof.
  induction lvs as [|i lvs IH]; intros b s; [done|]. cbn [write_protect_levels]. rewrite fmap_cons. cbn [protect_all].
  apply st_bind_ext. intros r s'. apply IH.
Qed.

Lemma rmap_write_protect_spec m s ls g sl : masks_ok m -> mmu_ok m s ls -> arrays_ok m s -> search_memslots (slots s) g = Some sl ->
  exists b s', rmap_write_protect m g s = Ok (b, s') /\ mmu_ok m s' ls /\
    changed_in m (protect true) ((fun i => __gfn_to_rmap g i sl) <$> levels) s s' /\
    (b = true <-> exists a v, mapped_in m ((fun i => __gfn_to_rmap g i sl) <$> levels) s a /\ spt_mem s !! a = Some v /\ protects true v = true).
Proof.
  intros Hm Hok Har Es. unfold rmap_write_protect, get at 1. rewrite (st_bind_Ok _ _ s s s) by done.
  rewrite (st_bind_Ok _ _ s sl s) by (unfold known; by rewrite Es). rewrite write_protect_levels_all.
  destruct (search_live m s ls Hok g sl Es) as (Hl & _ & Hc). unfold covers in Hc. apply andb_true_iff in Hc as [Hc1 Hc2].
  destruct (protect_all_spec m true ((fun i => __gfn_to_rmap g i sl) <$> levels) Hm s ls false Hok) as (b & s' & E & H).
  { apply Forall_fmap, Forall_forall. intros lv Hlv. split; [unfold __gfn_to_rmap; eauto|]. eapply mmu_list; [done|].
    eapply (ar_heads _ _ Har); [done|done|lia]. }
  exists b, s'. by rewrite E.
Qed.

(** *** A whole slot *)

Lemma holds_zero h cs l : holds h 0 cs l -> l = [].
Proof.
  inversion 1 as [|x Hx|cs0 Hcs Hf Hn Hl E]; subst; [done|by destruct Hx|]. exfalso.
  destruct (chain_word cs Hcs Hf) as (E0 & _). rewrite E in E0. done.
Qed.

Lemma protect_indices_spec m sid lv n : masks_ok m -> forall idx s ls, mmu_ok m s ls -> Forall (listed ls) (index_heads sid lv idx n) ->
  exists s', protect_indices m n sid lv idx s = Ok (tt, s') /\ mmu_ok m s' ls /\ changed_in m (protect false) (index_heads sid lv idx n) s s'.
Proof.
  intros Hm. induction n as [|n IH]; intros idx s ls Hok Hf; cbn [protect_indices].
  { exists s. split; [done|]. split; [done|apply changed_nil]. }
  assert (Ei : index_heads sid lv idx (S n) = Rmap sid lv idx :: index_heads sid lv (idx + 1) n).
  { unfold index_heads. rewrite Nat2Z.inj_succ, seqZ_cons, fmap_cons, Z.pred_succ by lia. done. }
  rewrite Ei in *. pose proof Hf as Hf0. apply Forall_cons in Hf as [[Hh Hl] Hf]. destruct Hl as [l El].
  destruct (mmu_head _ _ _ _ _ Hok El) as [w Hw]. unfold get at 1. rewrite (st_bind_Ok _ _ s s s) by done.
  rewrite (st_bind_Ok _ _ s w s) by (unfold known; by rewrite Hw).
  assert (Hone : exists s1, (if negb (w =? 0) then __rmap_write_protect m (Rmap sid lv idx) false ;; mret tt else mret tt) s = Ok (tt, s1) /\
    mmu_ok m s1 ls /\ changed_in m (protect false) [Rmap sid lv idx] s s1).
  { destruct (Z.eqb_spec w 0) as [->|Hnz]; cbn [negb].
    - exists s. split; [done|]. split; [done|]. destruct (mk_lists _ _ _ Hok) as [ch Hls]. destruct (lists_chunks _ _ _ _ _ _ Hls Hw) as (cs & l' & _ & El' & Hho).
      assert (l = []) as -> by (apply holds_zero in Hho; congruence). destruct (mk_rmap _ _ _ Hok _ _ _ _ El) as [_ Hi].
      split; [done|done| |done|done]. intros a (v & h & Hlf & Hr & Hin). apply list_elem_of_singleton in Hin as ->.
      assert (a ∈ []) by (apply Hi; eauto). set_solver.
    - destruct (rmap_write_protect_one m false s ls (Rmap sid lv idx) Hm Hok Hh ltac:(eauto)) as (b & s1 & E1 & Hok1 & C1 & _).
      exists s1. rewrite (st_bind_Ok _ _ _ _ _ E1). done. }
  destruct Hone as (s1 & E1 & Hok1 & C1). rewrite (st_bind_Ok _ _ _ _ _ E1).
  destruct (IH (idx + 1) s1 ls Hok1 Hf) as (s2 & E2 & Hok2 & C2). exists s2. split; [done|]. split; [done|].
  eapply changed_cons; [apply protect_idem|..|done|done].
  - intros a. eapply mapped_dec; [done|]. constructor; [split; eauto|constructor].
  - intros a. by eapply mapped_dec.
Qed.

(** The lists of a slot. *)
Definition all_heads (slot : kvm_memory_slot) (lvs : list Z) : list list_head :=
  concat ((fun i => index_heads (id slot) i 0
                      (Z.to_nat (gfn_to_index (u64 (base_gfn slot + npages slot - 1)) (base_gfn slot) i + 1))) <$> lvs).

Lemma all_heads_elem sl lvs h : slot_ok sl -> npages sl <> 0 -> lvs ⊆ levels ->
  h ∈ all_heads sl lvs <-> exists lv f, lv ∈ lvs /\ base_gfn sl <= f < base_gfn sl + npages sl /\ h = __gfn_to_rmap f lv sl.
Proof.
  intros Hok Hn0 Hsub. pose proof Hok as [Hn Hb _]. unfold all_heads. rewrite elem_of_concat_fmap.
  rewrite u64_small by lia. set (g2 := base_gfn sl + npages sl - 1).
  assert (H : forall lv, lv ∈ lvs -> h ∈ index_heads (id sl) lv 0 (Z.to_nat (gfn_to_index g2 (base_gfn sl) lv + 1)) <->
    exists f, base_gfn sl <= f <= g2 /\ h = __gfn_to_rmap f lv sl).
  { intros lv Hlv. rewrite <- (level_heads_elem sl lv (base_gfn sl) g2) by (done || lia || by apply Hsub). cbv zeta.
    rewrite (gfn_to_index_div (base_gfn sl) (base_gfn sl)), Z.sub_diag, Z.sub_0_r by (lia || by apply Hsub). done. }
  split.
  - intros (lv & Hlv & (f & Hf & ->)%H); [|done]. exists lv, f. split; [done|]. split; [lia|done].
  - intros (lv & f & Hlv & Hf & ->). exists lv. split; [done|]. apply H; [done|]. exists f. split; [lia|done].
Qed.

Lemma protect_levels_spec m sl lvs : masks_ok m -> forall s ls, mmu_ok m s ls -> Forall (listed ls) (all_heads sl lvs) ->
  exists s', protect_levels m lvs sl (u64 (base_gfn sl + npages sl - 1)) s = Ok (tt, s') /\ mmu_ok m s' ls /\
    changed_in m (protect false) (all_heads sl lvs) s s'.
Proof.
  intros Hm. induction lvs as [|i lvs IH]; intros s ls Hok Hf; cbn [protect_levels].
  { exists s. split; [done|]. split; [done|apply changed_nil]. }
  unfold all_heads in *. rewrite fmap_cons in *. cbn [concat] in *. pose proof Hf as [Hf1 Hf2]%Forall_app.
  destruct (protect_indices_spec m _ _ _ Hm _ s ls Hok Hf1) as (s1 & E1 & Hok1 & C1). rewrite (st_bind_Ok _ _ _ _ _ E1).
  destruct (IH s1 ls Hok1 Hf2) as (s2 & E2 & Hok2 & C2). exists s2. split; [done|]. split; [done|].
  eapply changed_app; [apply protect_idem|..|done|done]; intros a; by eapply mapped_dec.
Qed.

(** The entry maps a page of the slot with identifier [i]. *)
Definition maps_slot (m : shadow_masks) (s : kvm) (i a : Z) : Prop :=
  exists v g lv sl, leaf m s a v /\ spte_gfn s a = Some (g, lv) /\ search_memslots (slots s) g = Some sl /\ id sl = i.

Lemma mapped_in_slot m s ls sl a : mmu_ok m s ls -> arrays_ok m s -> sl ∈ live (memslots (slots s)) ->
  mapped_in m (all_heads sl levels) s a <-> maps_slot m s (id sl) a.
Proof.
  intros Hok Har Hl. pose proof (mk_slots _ _ _ Hok) as Hsl. apply live_elem in Hl as [Hl Hn0]; [|apply Hsl..].
  assert (Hso : slot_ok sl) by (by apply (proj1 (Forall_forall _ _) (ok_slots _ Hsl))). split.
  - intros (v & h & Hlf & Hr & Hh). apply all_heads_elem in Hh as (lv & f & Hlv & Hf & Eh); [|done..].
    destruct (rmap_of_inv _ _ _ Hr) as (sp & g & sl' & Esp & Eg & Es & Eh'). rewrite Eh in Eh'. unfold __gfn_to_rmap in Eh'. injection Eh' as E1 E2 E3.
    exists v, g, (sp_level sp), sl'. split; [done|]. split; [unfold spte_gfn; rewrite Esp; cbn; by rewrite Eg|]. done.
  - intros (v & g & lv & sl' & Hlf & Eg & Es & Ei). destruct (search_live m s ls Hok g sl' Es) as (_ & Hin & Hc).
    assert (sl' = sl) as -> by (eapply id_inj; eauto). exists v, (__gfn_to_rmap g lv sl). split; [done|].
    split; [unfold rmap_of; rewrite Eg; cbn; by rewrite Es|]. apply all_heads_elem; [done..|]. exists lv, g.
    unfold covers in Hc. apply andb_true_iff in Hc as [Hc1 Hc2]. split; [|split; [lia|done]].
    unfold spte_gfn in Eg. destruct (pages s !! spt_of a) as [sp|] eqn:Esp; [|done]. cbn in Eg.
    destruct (kvm_mmu_page_get_gfn sp _); [|done]. injection Eg as _ <-. by eapply ar_level.
Qed.

Lemma slot_write_access_spec m s ls i sl j : masks_ok m -> mmu_ok m s ls -> arrays_ok m s ->
  id_to_memslot (slots s) i = Ok (j, sl) -> id sl = i -> sl ∈ live (memslots (slots s)) ->
  exists s', kvm_mmu_slot_remove_write_access m i s = Ok (tt, s') /\ mmu_ok m s' ls /\ flushes s' = S (flushes s) /\
    slots s' = slots s /\ pages s' = pages s /\ heads s' = heads s /\
    (forall a, maps_slot m s i a -> spt_mem s' !! a = protect false <$> spt_mem s !! a) /\
    (forall a, ~ maps_slot m s i a -> spt_mem s' !! a = spt_mem s !! a).
Proof.
  intros Hm Hok Har Ei Hid Hl. unfold kvm_mmu_slot_remove_write_access, get at 1. rewrite (st_bind_Ok _ _ s s s) by done.
  rewrite (st_bind_Ok _ _ _ _ _ (lift_res_Ok _ s _ Ei)). cbn [snd].
  pose proof (mk_slots _ _ _ Hok) as Hsl. pose proof Hl as Hl0. apply live_elem in Hl0 as [Hin Hn0]; [|apply Hsl..].
  assert (Hso : slot_ok sl) by (by apply (proj1 (Forall_forall _ _) (ok_slots _ Hsl))).
  destruct (protect_levels_spec m sl levels Hm s ls Hok) as (s1 & E1 & Hok1 & [F T I O L]).
  { apply Forall_forall. intros h (lv & f & Hlv & Hf & ->)%all_heads_elem; [|done..]. split; [unfold __gfn_to_rmap; eauto|].
    eapply mmu_list; [done|]. by eapply ar_heads. }
  rewrite (st_bind_Ok _ _ _ _ _ E1). eexists. split; [reflexivity|]. destruct F as [F1 F2 F3 F4 F5 F6].
  split; [by destruct Hok1; split|]. split; [cbn; by rewrite F5|]. split; [done|]. split; [done|]. split; [done|].
  rewrite <- Hid. split; intros a Ha; [apply I|apply O]; by rewrite (mapped_in_slot m s ls sl a).
Qed.

(** ** A host page replaced *)

Section replaced.
  Context (m : shadow_masks) (Hm : masks_ok m) (pfn : Z) (Hpfn : 0 <= pfn < 2 ^ 40).

Lemma moved_bit v i : 0 <= i ->
  Z.testbit (moved_spte m v pfn) i
  = ((Z.testbit v i && negb ((12 <=? i) && (i <? 52))) || ((12 <=? i) && Z.testbit pfn (i - 12)))
    && negb (i =? 1) && negb (i =? 10) && negb (Z.testbit (shadow_accessed_mask m) i).
Proof.
  intros Hi. unfold moved_spte. unfold PT_WRITABLE_MASK, SPTE_HOST_WRITEABLE. rewrite !Z.ldiff_spec, Z.lor_spec, Z.ldiff_spec, !Z.shiftl_1_l, !Z.pow2_bits_eqb by lia.
  rewrite (Z.eqb_sym 1), (Z.eqb_sym 10). do 3 f_equal. f_equal.
  - do 2 f_equal. unfold PT64_BASE_ADDR_MASK. rewrite Z.ldiff_spec. change (Z.shiftl 1 52 - 1) with (Z.ones 52). change (PAGE_SIZE - 1) with (Z.ones 12).
    rewrite !Z.testbit_ones_nonneg by lia. destruct (Z.leb_spec 12 i), (Z.ltb_spec i 52), (Z.ltb_spec i 12); done || lia.
  - unfold u64, PAGE_SHIFT. rewrite <- Z.land_ones, Z.land_spec, Z.shiftl_spec, Z.testbit_ones_nonneg by lia.
    destruct (Z.leb_spec 12 i); cbn [andb]; [|by rewrite Z.testbit_neg_r by lia].
    destruct (Z.ltb_spec i 64); [by rewrite andb_true_r|]. by rewrite (testbit_above pfn 40) by lia.
Qed.

Lemma moved_keeps : keeps_leaf m (fun v => moved_spte m v pfn).
Proof using Hm Hpfn.
  intros v [R U W] Hp. rewrite present_bit in Hp by done.
  assert (Hlow : forall i, 0 <= i < 12 -> i <> 1 -> i <> 10 -> ~ hw_bit i -> Z.testbit (moved_spte m v pfn) i = Z.testbit v i).
  { intros i Hi H1 H10 Hh. rewrite moved_bit by lia. destruct (hw_masks_bits m Hm i ltac:(lia) Hh) as [-> _].
    replace (i =? 1) with false by lia. replace (i =? 10) with false by lia. replace (12 <=? i) with false by lia. cbn [andb negb].
    by rewrite !andb_true_r, orb_false_r. }
  assert (U' : Z.testbit (moved_spte m v pfn) 62 = false).
  { rewrite moved_bit, U by lia. cbn [andb]. rewrite (testbit_above pfn 40) by lia. done. }
  split; [split|].
  - split.
    + unfold moved_spte. do 3 (apply Z.ldiff_nonneg; left).
      apply Z.lor_nonneg. split; [apply Z.ldiff_nonneg; left; lia|apply u64_range].
    + destruct (Z.lt_ge_cases (moved_spte m v pfn) (2 ^ 64)) as [|Hge]; [done|]. exfalso.
      assert (Hl : 64 <= Z.log2 (moved_spte m v pfn)) by (rewrite <- (Z.log2_pow2 64) by lia; by apply Z.log2_le_mono).
      assert (Hb : Z.testbit (moved_spte m v pfn) (Z.log2 (moved_spte m v pfn)) = true) by (apply Z.bit_log2; lia).
      rewrite moved_bit in Hb by lia. rewrite (testbit_above v 64), (testbit_above pfn 40) in Hb by lia. cbn [andb orb] in Hb. by rewrite andb_false_r in Hb.
  - done.
  - rewrite writable_bit, moved_bit by lia. cbn [Z.eqb Pos.eqb negb]. rewrite !andb_false_r. done.
  - rewrite present_bit by done. rewrite Hlow; [|lia..|unfold hw_bit; lia]. split; [done|].
    unfold is_large_pte, PT_PAGE_SIZE_MASK. rewrite !any_bit by lia. apply Hlow; unfold hw_bit; lia.
Qed.

(** Both ways to replace the page of a list. *)
Lemma kvm_set_pte_rmapp_spec (writable : bool) s ls sl lv i l : mmu_ok m s ls -> ls !! Rmap sl lv i = Some l ->
  exists s', kvm_set_pte_rmapp m writable pfn (Rmap sl lv i) s = Ok (0, s') /\
    mmu_ok m s' (if writable then <[Rmap sl lv i := []]> ls else ls) /\ slots s' = slots s /\ pages s' = pages s /\
    flushes s' = (flushes s + if bool_decide (l = []) then 0 else 1)%nat /\
    mem_after (fun v => if writable then 0 else moved_spte m v pfn) l s s' /\
    told s' ≡ₚ told s ++ concat ((dropped m) <$> values s l).
Proof using Hm Hpfn.
  intros Hok El. unfold kvm_set_pte_rmapp, get at 1. rewrite (st_bind_Ok _ _ s s s) by done. destruct writable.
  - destruct (drop_all_spec m (fun v => negb (is_shadow_present_pte m v)) true sl lv i (list_fuel (lists s))) with (s := s) (ls := ls) (l := l) (fl := false)
      as (s1 & E1 & Hok1 & [T1 M1 D1]); [by intros v ->|done|done|by eapply list_fuel_enough|].
    rewrite (st_bind_Ok _ _ _ _ _ E1). destruct T1 as [T11 T12 T13 T14 T15 T16]. destruct (bool_decide (l = [])) eqn:Eb.
    + exists s1. split; [done|]. split; [done|]. split; [done|]. split; [done|]. split; [rewrite T13; lia|]. split; [done|].
      rewrite D1. unfold values. by rewrite <- list_fmap_compose.
    + eexists. split; [reflexivity|]. split; [by destruct Hok1; split|]. split; [done|]. split; [done|]. split; [cbn; rewrite T13; lia|]. split; [done|].
      cbn. rewrite D1. unfold values. by rewrite <- list_fmap_compose.
  - destruct (for_each_change m (fun sptep (_ : bool) => v ← read_spte sptep; BUG_ON (negb (is_shadow_present_pte m v)) ;;
        spte_clear m sptep ;; mmu_spte_set sptep (moved_spte m v pfn) ;; mret (true, true))
        (fun v => moved_spte m v pfn) (dropped m) (fun _ _ => true) s ls sl lv i l false)
      as (s1 & E1 & Hok1 & Hfr & Ht & Hma); [|apply moved_keeps|done|done|].
    + intros x v fl s1 Ev Hlo Hp. rewrite (st_bind_Ok _ _ _ _ _ (read_spte_Ok _ _ _ Ev)), Hp. cbn [negb BUG_ON].
      rewrite (st_bind_Ok _ _ s1 tt s1) by done.
      assert (Ec : spte_clear m x s1 = Ok (true, set_mem x 0 (dropped m v) s1)).
      { unfold spte_clear. rewrite (st_bind_Ok _ _ _ _ _ (read_spte_Ok _ _ _ Ev)).
        assert (E : mmu_spte_clear_track_bits m v v = (true, dropped m v))
          by (unfold dropped, mmu_spte_clear_track_bits; destruct (spte_has_volatile_bits m v); unfold is_rmap_spte; by rewrite Hp).
        by rewrite E. }
      rewrite (st_bind_Ok _ _ _ _ _ Ec). unfold mmu_spte_set. rewrite st_bind_assoc.
      rewrite (st_bind_Ok _ _ _ _ _ (read_spte_Ok x 0 _ (lookup_insert_eq _ _ _))). rewrite (st_bind_Ok _ _ _ tt (set_mem x (moved_spte m v pfn) [] (set_mem x 0 (dropped m v) s1))) by done.
      eexists. split; [reflexivity|]. split; [done|]. split; [cbn; by rewrite app_nil_r|]. cbn. apply insert_insert_eq.
    + rewrite (st_bind_Ok _ _ _ _ _ E1).
      assert (Efold : foldl (fun (_ : bool) (_ : Z) => true) false (values s l) = negb (bool_decide (l = []))).
      { destruct l as [|x l0]; [done|]. rewrite bool_decide_false by done. unfold values. rewrite fmap_cons. cbn [foldl negb].
        generalize ((fun a => default 0 (spt_mem s !! a)) <$> l0) as vs. intros vs. by induction vs. }
      rewrite Efold. destruct Hfr as [F1 F2 F3 F4 F5 F6]. destruct (bool_decide (l = [])); cbn [negb].
      * exists s1. split; [done|]. split; [done|]. split; [done|]. split; [done|]. split; [rewrite F5; lia|]. split; [done|]. by rewrite Ht.
      * eexists. split; [reflexivity|]. split; [by destruct Hok1; split|]. split; [done|]. split; [done|]. split; [cbn; rewrite F5; lia|]. split; [done|]. cbn. by rewrite Ht.
Qed.

End replaced.

(** ** Aging *)

Section aging.
  Context (m : shadow_masks) (Hm : masks_ok m) (a : Z) (Ha : shadow_accessed_mask m = 2 ^ a) (Hb : hw_bit a).

Lemma accessed_any v : any v (shadow_accessed_mask m) = Z.testbit v a.
Proof using Ha Hb. rewrite Ha, <- Z.shiftl_1_l. apply any_bit. destruct Hb; lia. Qed.

Lemma accessed_ffs : __ffs (shadow_accessed_mask m) = a.
Proof using Ha Hb.
  rewrite Ha. destruct Hb as [Hr _]. assert (Hp : 0 < 2 ^ a < 2 ^ 64).
  { split; [apply Z.pow_pos_nonneg; lia|]. apply Z.pow_lt_mono_r; lia. }
  destruct (clear_lowest (2 ^ a) Hp) as (Hk & Hbit & _). rewrite Z.pow2_bits_eqb in Hbit by lia. lia.
Qed.

Lemma accessed_nonzero : (shadow_accessed_mask m =? 0) = false.
Proof using Ha Hb. rewrite Ha. destruct Hb. pose proof (Z.pow_pos_nonneg 2 a). lia. Qed.

Lemma clear_accessed_keeps : keeps_leaf m (fun v => Z.clearbit v a).
Proof using Hm Hb.
  intros v [R U W] Hp. destruct Hb as [Hr H7]. rewrite present_bit in Hp by done.
  assert (Eb : forall i, 0 <= i -> i <> a -> Z.testbit (Z.clearbit v a) i = Z.testbit v i) by (intros; by rewrite Z.clearbit_neq by lia).
  split; [split|].
  - split; [apply Z.ldiff_nonneg; lia|]. pose proof (ldiff_le v (Z.shiftl 1 a)). unfold Z.clearbit. rewrite Z.shiftl_1_l in *. lia.
  - rewrite Eb by lia. done.
  - rewrite writable_bit, lockless_bits, !Eb by lia. rewrite writable_bit, lockless_bits in W. done.
  - rewrite present_bit, Eb by (rewrite ?Eb by lia; done || lia). split; [done|].
    unfold is_large_pte, PT_PAGE_SIZE_MASK. rewrite !any_bit by lia. apply Eb; lia.
Qed.

Lemma kvm_age_rmapp_spec s ls sl lv i l : mmu_ok m s ls -> ls !! Rmap sl lv i = Some l ->
  exists (young : bool) s', kvm_age_rmapp m (Rmap sl lv i) s = Ok (Z.b2z young, s') /\ mmu_ok m s' ls /\ same_frame s s' /\ told s' = told s /\
    mem_after (fun v => Z.clearbit v a) l s s' /\ young = existsb (fun v => Z.testbit v a) (values s l).
Proof using Hm Ha Hb.
  intros Hok El. unfold kvm_age_rmapp. rewrite accessed_nonzero.
  destruct (for_each_change m (fun sptep young => v ← read_spte sptep; BUG_ON (negb (is_shadow_present_pte m v)) ;;
      if any v (shadow_accessed_mask m) then
        modify (set_mem sptep (Z.clearbit v (__ffs (shadow_accessed_mask m))) []) ;; mret (1, true)
      else mret (young, true)) (fun v => Z.clearbit v a) (fun _ => []) (fun y v => if Z.testbit v a then 1 else y) s ls sl lv i l 0)
    as (s' & E & Hok' & Hfr & Ht & Hma); [|apply clear_accessed_keeps|done|done|].
  - intros x v y s1 Ev Hlo Hp. rewrite (st_bind_Ok _ _ _ _ _ (read_spte_Ok _ _ _ Ev)), Hp. cbn [negb BUG_ON].
    rewrite (st_bind_Ok _ _ s1 tt s1) by done. rewrite accessed_any, accessed_ffs. destruct (Z.testbit v a) eqn:Eb.
    + eexists. split; [reflexivity|]. split; [done|]. split; [done|]. done.
    + eexists. split; [reflexivity|]. split; [done|]. split; [by rewrite app_nil_r|].
      assert (Z.clearbit v a = v) as ->; [|symmetry; by apply insert_id]. destruct Hb as [Hr _].
      apply Z.bits_inj'. intros j Hj. rewrite Z.clearbit_eqb by lia. destruct (Z.eqb_spec a j) as [<-|]; [by rewrite Eb|by rewrite andb_true_r].
  - exists (existsb (fun v => Z.testbit v a) (values s l)), s'.
    assert (Ef : forall y, foldl (fun y v => if Z.testbit v a then 1 else y) y (values s l) = if existsb (fun v => Z.testbit v a) (values s l) then 1 else y).
    { generalize (values s l) as vs. intros vs. induction vs as [|v vs IH]; intros y; [done|]. cbn [foldl existsb]. rewrite IH.
      destruct (Z.testbit v a); cbn [orb]; [by destruct (existsb _ vs)|done]. }
    rewrite E, Ef, Ht, concat_nils, app_nil_r. by destruct (existsb _ _).
Qed.

Lemma kvm_test_age_rmapp_spec s ls sl lv i l : mmu_ok m s ls -> ls !! Rmap sl lv i = Some l ->
  kvm_test_age_rmapp m (Rmap sl lv i) s = Ok (Z.b2z (existsb (fun v => Z.testbit v a) (values s l)), s).
Proof using Hm Ha Hb.
  intros Hok El. unfold kvm_test_age_rmapp. rewrite accessed_nonzero. destruct (rmap_entries _ _ _ _ _ _ _ Hok El) as (Hn & Hnz & Hlf).
  set (J done (y : Z) s1 := s1 = s /\ y = 0 /\ existsb (fun v => Z.testbit v a) (values s done) = false).
  set (Q (y : Z) s1 := s1 = s /\ y = 1 /\ existsb (fun v => Z.testbit v a) (values s l) = true).
  destruct (for_each_spec (fun sptep young => v ← read_spte sptep; BUG_ON (negb (is_shadow_present_pte m v)) ;;
      if any v (shadow_accessed_mask m) then mret (1, false) else mret (young, true)) l J Q) with (m := m) (s := s) (ls := ls) (h := Rmap sl lv i) (acc := 0)
    as (y & s' & E & _ & [(-> & -> & Ey)|(-> & -> & Ey)]); try done.
  - intros done x todo y s1 El' (-> & -> & Ed). destruct (Hlf x) as (v & (Ev & Hp & _) & _); [rewrite El'; set_solver|].
    rewrite (st_bind_Ok _ _ _ _ _ (read_spte_Ok _ _ _ Ev)), Hp. cbn [negb BUG_ON]. rewrite (st_bind_Ok _ _ s tt s) by done. rewrite accessed_any.
    assert (Evs : values s [x] = [v]) by (unfold values; cbn; by rewrite Ev).
    destruct (Z.testbit v a) eqn:Eb; eexists _, _, s; (split; [reflexivity|]); (split; [done|]).
    + split; [done|]. split; [done|]. unfold values in *. rewrite El', fmap_app, existsb_app, fmap_cons. cbn [existsb]. rewrite Ev. cbn [default Datatypes.id].
      by rewrite Eb, orb_true_r.
    + split; [done|]. split; [done|]. unfold values in *. rewrite fmap_app, existsb_app, Evs, Ed. cbn. by rewrite Eb.
  - by rewrite E, Ey.
  - by rewrite E, Ey.
Qed.

End aging.
