(* ===== verification/ShadowPages.v ===== *)
(** * Shadow pages (kvm-kmod x86/mmu.c)

    A shadow page holds 512 entries of one level.  Pages are found by guest
    frame and role in a hash table, kept on the list of active pages in the
    order of their creation, and know the entries of other pages that point
    to them.  A page is zapped in two steps: its entries and those that
    point to it are removed under the lock, and its memory is freed after the
    translation buffers are flushed.  The state of [Rmap] holds the memory
    and the headers; this file adds the tables of the virtual machine around
    it, and the counts that follow the guest page tables a page may be out
    of step with.  The [ASSERT]s of [mmu.c] are empty in the build. *)

From S2P Require Import Prelude MemSlots Spte PteList Rmap.

(** ** State *)

Inductive request := TLB_FLUSH | MMU_SYNC | MMU_RELOAD_ALL | TRIPLE_FAULT | SIGBUS (address : Z).

(** Pages are named by the address of their entries.  A list starts at its
    head, a chain of the hash table too.  [write_count] is [lpage_info] of
    the slots, by slot, level and index.  The caches, the requests and
    [mmio_info], the address, access and frame of the last access without
    memory, are those of the processor at work. *)
Record mmu := Mmu {
  core : kvm;
  mmu_page_hash : gmap Z (list Z);
  active_mmu_pages : list Z;
  zapped_obsolete_pages : list Z;
  n_used_mmu_pages : Z;
  n_max_mmu_pages : Z;
  indirect_shadow_pages : Z;
  valid_gen : Z;
  write_count : gmap (Z * Z * Z) Z;
  mmu_page_cache : list Z;
  mmu_page_header_cache : nat;
  requests : list request;
  mmio_info : Z * Z * Z
}.

Abbreviation VM := (st mmu).

Definition set_core (k : kvm) (x : mmu) : mmu :=
  Mmu k (mmu_page_hash x) (active_mmu_pages x) (zapped_obsolete_pages x) (n_used_mmu_pages x) (n_max_mmu_pages x)
    (indirect_shadow_pages x) (valid_gen x) (write_count x) (mmu_page_cache x) (mmu_page_header_cache x) (requests x) (mmio_info x).
Definition set_hash (f : gmap Z (list Z) -> gmap Z (list Z)) (x : mmu) : mmu :=
  Mmu (core x) (f (mmu_page_hash x)) (active_mmu_pages x) (zapped_obsolete_pages x) (n_used_mmu_pages x) (n_max_mmu_pages x)
    (indirect_shadow_pages x) (valid_gen x) (write_count x) (mmu_page_cache x) (mmu_page_header_cache x) (requests x) (mmio_info x).
Definition set_active (l : list Z) (used : Z) (x : mmu) : mmu :=
  Mmu (core x) (mmu_page_hash x) l (zapped_obsolete_pages x) used (n_max_mmu_pages x)
    (indirect_shadow_pages x) (valid_gen x) (write_count x) (mmu_page_cache x) (mmu_page_header_cache x) (requests x) (mmio_info x).
Definition set_zapped (l : list Z) (x : mmu) : mmu :=
  Mmu (core x) (mmu_page_hash x) (active_mmu_pages x) l (n_used_mmu_pages x) (n_max_mmu_pages x)
    (indirect_shadow_pages x) (valid_gen x) (write_count x) (mmu_page_cache x) (mmu_page_header_cache x) (requests x) (mmio_info x).
Definition set_max (n : Z) (x : mmu) : mmu :=
  Mmu (core x) (mmu_page_hash x) (active_mmu_pages x) (zapped_obsolete_pages x) (n_used_mmu_pages x) n
    (indirect_shadow_pages x) (valid_gen x) (write_count x) (mmu_page_cache x) (mmu_page_header_cache x) (requests x) (mmio_info x).
Definition set_counts (wc : gmap (Z * Z * Z) Z) (indirect : Z) (x : mmu) : mmu :=
  Mmu (core x) (mmu_page_hash x) (active_mmu_pages x) (zapped_obsolete_pages x) (n_used_mmu_pages x) (n_max_mmu_pages x)
    indirect (valid_gen x) wc (mmu_page_cache x) (mmu_page_header_cache x) (requests x) (mmio_info x).
Definition set_gen (g : Z) (x : mmu) : mmu :=
  Mmu (core x) (mmu_page_hash x) (active_mmu_pages x) (zapped_obsolete_pages x) (n_used_mmu_pages x) (n_max_mmu_pages x)
    (indirect_shadow_pages x) g (write_count x) (mmu_page_cache x) (mmu_page_header_cache x) (requests x) (mmio_info x).
Definition set_caches (pages : list Z) (headers : nat) (x : mmu) : mmu :=
  Mmu (core x) (mmu_page_hash x) (active_mmu_pages x) (zapped_obsolete_pages x) (n_used_mmu_pages x) (n_max_mmu_pages x)
    (indirect_shadow_pages x) (valid_gen x) (write_count x) pages headers (requests x) (mmio_info x).
Definition add_request (r : request) (x : mmu) : mmu :=
  Mmu (core x) (mmu_page_hash x) (active_mmu_pages x) (zapped_obsolete_pages x) (n_used_mmu_pages x) (n_max_mmu_pages x)
    (indirect_shadow_pages x) (valid_gen x) (write_count x) (mmu_page_cache x) (mmu_page_header_cache x) (requests x ++ [r]) (mmio_info x).

Definition state : VM mmu := fun x => Ok (x, x).
Definition change (f : mmu -> mmu) : VM unit := fun x => Ok (tt, f x).

(** An operation on memory, headers and lists. *)
Definition on_core {A} (c : M A) : VM A :=
  fun x => match c (core x) with Ok (a, k) => Ok (a, set_core k x) | Err e => Err e end.

Definition entry (sptep : Z) : VM Z := on_core (read_spte sptep).

(** The header of the page at [spt], as [page_header] of a pointer to it. *)
Definition header (spt : Z) : VM kvm_mmu_page := on_core (page_header spt).
Definition update (spt : Z) (f : kvm_mmu_page -> kvm_mmu_page) : VM unit :=
  sp ← header spt; on_core (modify (set_pages (<[spt := f sp]>))).

Definition with_role (r : kvm_mmu_page_role) (sp : kvm_mmu_page) : kvm_mmu_page :=
  Page (sp_gfn sp) r (sp_gfns sp) (unsync sp) (root_count sp) (unsync_children sp) (mmu_valid_gen sp)
    (unsync_child_bitmap sp) (write_flooding_count sp).
Definition with_unsync (b : bool) (sp : kvm_mmu_page) : kvm_mmu_page :=
  Page (sp_gfn sp) (role sp) (sp_gfns sp) b (root_count sp) (unsync_children sp) (mmu_valid_gen sp)
    (unsync_child_bitmap sp) (write_flooding_count sp).
Definition with_roots (n : Z) (sp : kvm_mmu_page) : kvm_mmu_page :=
  Page (sp_gfn sp) (role sp) (sp_gfns sp) (unsync sp) n (unsync_children sp) (mmu_valid_gen sp)
    (unsync_child_bitmap sp) (write_flooding_count sp).
Definition with_children (n : Z) (b : gset Z) (sp : kvm_mmu_page) : kvm_mmu_page :=
  Page (sp_gfn sp) (role sp) (sp_gfns sp) (unsync sp) (root_count sp) n (mmu_valid_gen sp) b (write_flooding_count sp).
Definition with_gen (g : Z) (sp : kvm_mmu_page) : kvm_mmu_page :=
  Page (sp_gfn sp) (role sp) (sp_gfns sp) (unsync sp) (root_count sp) (unsync_children sp) g
    (unsync_child_bitmap sp) (write_flooding_count sp).
Definition with_flooding (n : Z) (sp : kvm_mmu_page) : kvm_mmu_page :=
  Page (sp_gfn sp) (role sp) (sp_gfns sp) (unsync sp) (root_count sp) (unsync_children sp) (mmu_valid_gen sp)
    (unsync_child_bitmap sp) n.

Definition set_invalid (sp : kvm_mmu_page) : kvm_mmu_page :=
  let r := role sp in
  with_role (Role (level r) (cr4_pae r) (quadrant r) (direct r) (access r) true (nxe r) (cr0_wp r) (smep_andnot_wp r)) sp.

(** ** Large pages that may not be used *)

Definition lpage_info_slot (gfn : Z) (slot : kvm_memory_slot) (level : Z) : Z * Z * Z :=
  (id slot, level, gfn_to_index gfn (base_gfn slot) level).

Definition gfn_to_memslot (gfn : Z) : VM (option kvm_memory_slot) :=
  x ← state; mret (search_memslots (slots (core x)) gfn).

(** The levels of large pages, [PT_DIRECTORY_LEVEL] and up. *)
Definition large_levels : list Z := [2; 3].

Fixpoint account_loop (ls : list Z) (gfn : Z) (slot : kvm_memory_slot) (by_ : Z) : VM unit :=
  match ls with
  | [] => mret tt
  | i :: ls =>
      x ← state;
      let linfo := lpage_info_slot gfn slot i in
      n ← on_core (known (write_count x !! linfo));
      change (set_counts (<[linfo := s32 (n + by_)]> (write_count x)) (indirect_shadow_pages x)) ;;
      account_loop ls gfn slot by_
  end.

Definition account_shadowed (gfn : Z) : VM unit :=
  o ← gfn_to_memslot gfn;
  slot ← on_core (known o);
  account_loop large_levels gfn slot 1 ;;
  x ← state;
  change (set_counts (write_count x) (u32 (indirect_shadow_pages x + 1))).

Definition unaccount_shadowed (gfn : Z) : VM unit :=
  o ← gfn_to_memslot gfn;
  slot ← on_core (known o);
  account_loop large_levels gfn slot (- 1) ;;
  x ← state;
  change (set_counts (write_count x) (u32 (indirect_shadow_pages x - 1))).

Definition has_wrprotected_page (gfn level : Z) : VM Z :=
  o ← gfn_to_memslot gfn;
  match o with
  | Some slot => x ← state; on_core (known (write_count x !! lpage_info_slot gfn slot level))
  | None => mret 1
  end.

(** ** Parents *)

(** A null pointer is 0. *)
Definition mmu_page_add_parent_pte (spt parent_pte : Z) : VM unit :=
  if parent_pte =? 0 then mret tt
  else on_core (list_add parent_pte (Parents spt)) ;; mret tt.

Definition mmu_page_remove_parent_pte (spt parent_pte : Z) : VM unit :=
  on_core (list_remove parent_pte (Parents spt)).

Definition drop_parent_pte (spt parent_pte : Z) : VM unit :=
  mmu_page_remove_parent_pte spt parent_pte ;;
  on_core (mmu_spte_clear_no_track parent_pte).

(** [pte_list_walk(&sp->parent_ptes, mark_unsync)], where [mark_unsync]
    goes on to the parents of the page of the entry when that had no child
    out of step before: a page is visited once. *)
Fixpoint mark_parents_unsync (fuel : nat) (spt : Z) : VM unit :=
  match fuel with
  | O => lift_res (Err OutOfFuel)
  | S fuel =>
      x ← state;
      w ← on_core (known (heads (core x) !! Parents spt));
      pte_list_walk (fun spte =>
        sp ← header spte;
        let index := spt_index spte in
        if bool_decide (index ∈ unsync_child_bitmap sp) then mret tt
        else
          update (spt_of spte) (with_children (u32 (unsync_children sp + 1)) ({[index]} ∪ unsync_child_bitmap sp)) ;;
          if negb (unsync_children sp =? 0) then mret tt else mark_parents_unsync fuel (spt_of spte))
        w (lists (core x))
  end.

Definition kvm_mmu_mark_parents_unsync (spt : Z) : VM unit :=
  x ← state; mark_parents_unsync (S (size (pages (core x)))) spt.

(** ** Allocation *)

Definition kvm_mod_used_mmu_pages (nr : Z) : VM unit :=
  x ← state; change (set_active (active_mmu_pages x) (u32 (n_used_mmu_pages x + nr))).

Definition KVM_MMU_HASH_SHIFT : Z := 10.
Definition kvm_page_table_hashfn (gfn : Z) : Z := Z.land gfn (Z.shiftl 1 KVM_MMU_HASH_SHIFT - 1).

Definition chain_of (gfn : Z) (x : mmu) : list Z := default [] (mmu_page_hash x !! kvm_page_table_hashfn gfn).

(** [mmu_memory_cache_alloc] from the caches of headers and of pages *)
Definition alloc_header : VM unit :=
  x ← state;
  match mmu_page_header_cache x with
  | O => lift_res (Err AssertFailed)
  | S n => change (set_caches (mmu_page_cache x) n)
  end.

Definition alloc_page : VM Z :=
  x ← state;
  match mmu_page_cache x with
  | [] => lift_res (Err AssertFailed)
  | p :: ps => change (set_caches ps (mmu_page_header_cache x)) ;; mret p
  end.

(** A header as [kmem_cache_zalloc] returns it. *)
Definition zero_role : kvm_mmu_page_role := Role 0 false 0 false 0 false false false false.
Definition zero_page : kvm_mmu_page := Page 0 zero_role [] false 0 0 0 ∅ 0.

Definition PT64_ENT_PER_PAGE : nat := 512.

(** The frames of a page that is not direct have a page of their own, whose
    entries are written before they are read. *)
Definition kvm_mmu_alloc_page (parent_pte : Z) (direct : bool) : VM Z :=
  alloc_header ;;
  spt ← alloc_page;
  gfns ← (if negb direct then alloc_page ;; mret (replicate PT64_ENT_PER_PAGE 0) else mret []);
  on_core (modify (fun k => set_heads (<[Parents spt := 0]>) (lists k)
                              (set_pages (<[spt := with_gfns (fun _ => gfns) zero_page]>) k))) ;;
  x ← state;
  change (set_active (spt :: active_mmu_pages x) (n_used_mmu_pages x)) ;;
  mmu_page_add_parent_pte spt parent_pte ;;
  kvm_mod_used_mmu_pages 1 ;;
  mret spt.

(** The addresses of the entries of a page. *)
Definition entries (spt : Z) : list Z := (fun i => spt + 8 * i) <$> seqZ 0 (Z.of_nat PT64_ENT_PER_PAGE).

Definition init_shadow_page_table (spt : Z) : VM unit :=
  on_core (modify (fun k => Kvm (slots k) (heads k) (lists k)
    (foldl (fun h a => <[a := 0]> h) (spt_mem k) (entries spt)) (pages k) (told k) (flushes k) (lpages k) (tlbs_dirty k))).

Definition remove (a : Z) (l : list Z) : list Z := filter (fun b => b <> a) l.

Definition kvm_mmu_free_page (spt : Z) : VM unit :=
  sp ← header spt;
  let b := kvm_page_table_hashfn (sp_gfn sp) in
  change (fun x => set_hash (<[b := remove spt (default [] (mmu_page_hash x !! b))]>) x) ;;
  on_core (modify (fun k => Kvm (slots k) (delete (Parents spt) (heads k)) (lists k)
    (foldl (fun h a => delete a h) (spt_mem k) (entries spt)) (delete spt (pages k)) (told k) (flushes k) (lpages k) (tlbs_dirty k))).

(** ** Pages out of step with the guest's tables *)

Definition ENOSPC : Z := 28.
Definition KVM_PAGE_ARRAY_NR : nat := 16.

(** [struct kvm_mmu_pages]: pages and their indices. *)
Abbreviation kvm_mmu_pages := (list (Z * Z)).

Definition mmu_pages_add (pvec : kvm_mmu_pages) (spt idx : Z) : VM (kvm_mmu_pages * bool) :=
  sp ← header spt;
  if unsync sp && existsb (fun p => p.1 =? spt) pvec then mret (pvec, false)
  else
    let pvec := pvec ++ [(spt, idx)] in
    mret (pvec, (length pvec =? KVM_PAGE_ARRAY_NR)%nat).

Section masks.
  Context (m : shadow_masks).

(** The bit and the count of a child go. *)
Definition clear_child_bitmap (spt i : Z) : VM unit :=
  sp ← header spt;
  update spt (with_children (u32 (unsync_children sp - 1)) (unsync_child_bitmap sp ∖ {[i]})).

(** What becomes of the bit of a child: cleared, counted or the end of the
    walk. *)
Inductive child := Clear | Found (n : Z) | Stop (ret : Z).

Definition walk_child (walk : Z -> kvm_mmu_pages -> VM (Z * kvm_mmu_pages)) (ent i : Z) (pvec : kvm_mmu_pages) :
    VM (child * kvm_mmu_pages) :=
  if negb (is_shadow_present_pte m ent) || is_large_pte ent then mret (Clear, pvec)
  else
    let c := Z.land ent PT64_BASE_ADDR_MASK in
    sp ← header c;
    if negb (unsync_children sp =? 0) then
      '(pvec, full) ← mmu_pages_add pvec c i;
      if full : bool then mret (Stop (- ENOSPC), pvec)
      else
        '(ret, pvec) ← walk c pvec;
        mret (if ret =? 0 then Clear else if 0 <? ret then Found ret else Stop ret, pvec)
    else if unsync sp then
      '(pvec, full) ← mmu_pages_add pvec c i;
      mret (if full : bool then Stop (- ENOSPC) else Found 1, pvec)
    else mret (Clear, pvec).

(** [for_each_set_bit(i, sp->unsync_child_bitmap, 512)] *)
Fixpoint walk_bits (walk : Z -> kvm_mmu_pages -> VM (Z * kvm_mmu_pages)) (spt : Z) (bits : list Z) (nr_unsync_leaf : Z)
    (pvec : kvm_mmu_pages) : VM (Z * kvm_mmu_pages) :=
  match bits with
  | [] => mret (nr_unsync_leaf, pvec)
  | i :: bits =>
      sp ← header spt;
      if bool_decide (i ∈ unsync_child_bitmap sp) then
        ent ← entry (spt + 8 * i);
        '(c, pvec) ← walk_child walk ent i pvec;
        match c with
        | Clear => clear_child_bitmap spt i ;; walk_bits walk spt bits nr_unsync_leaf pvec
        | Found n => walk_bits walk spt bits (nr_unsync_leaf + n) pvec
        | Stop ret => mret (ret, pvec)
        end
      else walk_bits walk spt bits nr_unsync_leaf pvec
  end.

Fixpoint __mmu_unsync_walk (fuel : nat) (spt : Z) (pvec : kvm_mmu_pages) : VM (Z * kvm_mmu_pages) :=
  match fuel with
  | O => lift_res (Err OutOfFuel)
  | S fuel => walk_bits (__mmu_unsync_walk fuel) spt (seqZ 0 512) 0 pvec
  end.

Definition PT64_ROOT_LEVEL : Z := 4.

(** The levels of the tables bound the recursion. *)
Definition mmu_unsync_walk (spt : Z) (pvec : kvm_mmu_pages) : VM (Z * kvm_mmu_pages) :=
  sp ← header spt;
  if unsync_children sp =? 0 then mret (0, pvec)
  else
    '(pvec, _) ← mmu_pages_add pvec spt 0;
    __mmu_unsync_walk (Z.to_nat PT64_ROOT_LEVEL) spt pvec.

Definition kvm_unlink_unsync_page (spt : Z) : VM unit := update spt (with_unsync false).

(** [struct mmu_page_path] on the stack.  [None] is a cell never written.
    The struct ends in four bytes of padding, the fourth cell of [idx] here:
    the code uses the arrays one past their three elements, and [parent[3]]
    is where [idx[0]] and [idx[1]] are. *)
Record mmu_page_path := Path { parent : list (option Z); idx : list (option Z) }.

Definition new_path : mmu_page_path := Path (replicate 3 None) (replicate 4 None).

Definition set_parent (i v : Z) (p : mmu_page_path) : res mmu_page_path :=
  if (0 <=? i) && (i <? 3) then Ok (Path (<[Z.to_nat i := Some v]> (parent p)) (idx p))
  else if i =? 3 then Ok (Path (parent p) (<[0%nat := Some (u32 v)]> (<[1%nat := Some (Z.shiftr v 32)]> (idx p))))
  else Err BufferOverflow.

Definition set_idx (i v : Z) (p : mmu_page_path) : res mmu_page_path :=
  if (0 <=? i) && (i <? 4) then Ok (Path (parent p) (<[Z.to_nat i := Some v]> (idx p))) else Err BufferOverflow.

Definition cell (l : list (option Z)) (i : nat) : res Z :=
  match l !! i with None => Err BufferOverflow | Some None => Err Uninitialized | Some (Some v) => Ok v end.

(** The position, [pvec->nr] for the end, and the path.  [n] is the position
    of the head of [rest] in the array. *)
Fixpoint mmu_pages_next (rest : kvm_mmu_pages) (n : nat) (parents : mmu_page_path) : VM (nat * mmu_page_path) :=
  match rest with
  | [] => mret (n, parents)
  | (spt, i) :: rest =>
      sp ← header spt;
      if sp_level sp =? PT_PAGE_TABLE_LEVEL then
        parents ← lift_res (set_idx 0 i parents);
        mret (n, parents)
      else
        parents ← lift_res (set_parent (sp_level sp - 2) spt parents);
        parents ← lift_res (set_idx (sp_level sp - 1) i parents);
        mmu_pages_next rest (S n) parents
  end.

(** The loop ends at [level < PT64_ROOT_LEVEL-1]; it has three rounds at
    most. *)
Fixpoint clear_parents (rounds level : nat) (parents : mmu_page_path) : VM unit :=
  match rounds with
  | O => mret tt
  | S rounds =>
      spt ← lift_res (cell (parent parents) level);
      if spt =? 0 then mret tt
      else
        i ← lift_res (cell (idx parents) level);
        clear_child_bitmap spt i ;;
        sp ← header spt;
        if unsync_children sp =? 0 then clear_parents rounds (S level) parents else mret tt
  end.

Definition mmu_pages_clear_parents (parents : mmu_page_path) : VM unit := clear_parents 3 0 parents.

Definition kvm_mmu_pages_init (spt : Z) (parents : mmu_page_path) : VM (mmu_page_path * kvm_mmu_pages) :=
  sp ← header spt;
  parents ← lift_res (set_parent (sp_level sp - 1) 0 parents);
  mret (parents, []).

(** ** Zapping *)

(** Whether the entry was present. *)
Definition mmu_page_zap_pte (sp : kvm_mmu_page) (spte : Z) : VM bool :=
  pte ← entry spte;
  if is_shadow_present_pte m pte then
    (if is_last_spte pte (sp_level sp) then
       on_core (drop_spte m spte) ;;
       if is_large_pte pte then x ← state; on_core (modify (set_lpages (lpages (core x) - 1))) else mret tt
     else drop_parent_pte (Z.land pte PT64_BASE_ADDR_MASK) spte) ;;
    mret true
  else
    (if is_mmio_spte m pte then on_core (mmu_spte_clear_no_track spte) else mret tt) ;;
    mret false.

Fixpoint zap_ptes (spt : Z) (es : list Z) : VM unit :=
  match es with
  | [] => mret tt
  | e :: es => sp ← header spt; mmu_page_zap_pte sp e ;; zap_ptes spt es
  end.

Definition kvm_mmu_page_unlink_children (spt : Z) : VM unit := zap_ptes spt (entries spt).

(** [while ((sptep = rmap_get_first(sp->parent_ptes, &iter)))] *)
Fixpoint unlink_parents (fuel : nat) (spt : Z) : VM unit :=
  match fuel with
  | O => lift_res (Err OutOfFuel)
  | S fuel =>
      x ← state;
      w ← on_core (known (heads (core x) !! Parents spt));
      '(sptep, _) ← lift_res (rmap_get_first w (lists (core x)) (Iter 0 0));
      if sptep =? 0 then mret tt
      else drop_parent_pte spt sptep ;; unlink_parents fuel spt
  end.

Definition kvm_mmu_unlink_parents (spt : Z) : VM unit :=
  x ← state; unlink_parents (list_fuel (lists (core x))) spt.

(** [for_each_sp] with the zap of the page and the clearing of its parents
    as the body. *)
Fixpoint zap_each (fuel : nat) (zap : Z -> list Z -> VM (Z * list Z)) (pvec : kvm_mmu_pages) (i : nat)
    (parents : mmu_page_path) (invalid_list : list Z) (zapped : Z) : VM (mmu_page_path * list Z * Z) :=
  match fuel with
  | O => lift_res (Err OutOfFuel)
  | S fuel =>
      match pvec !! i with
      | None => mret (parents, invalid_list, zapped)
      | Some (spt, _) =>
          '(_, invalid_list) ← zap spt invalid_list;
          mmu_pages_clear_parents parents ;;
          '(i, parents) ← mmu_pages_next (drop (S i) pvec) (S i) parents;
          zap_each fuel zap pvec i parents invalid_list (zapped + 1)
      end
  end.

(** [while (mmu_unsync_walk(parent, &pages))] *)
Fixpoint zap_unsync_loop (fuel : nat) (zap : Z -> list Z -> VM (Z * list Z)) (spt : Z) (parents : mmu_page_path)
    (pvec : kvm_mmu_pages) (invalid_list : list Z) (zapped : Z) : VM (Z * list Z) :=
  match fuel with
  | O => lift_res (Err OutOfFuel)
  | S fuel =>
      '(r, pvec) ← mmu_unsync_walk spt pvec;
      if r =? 0 then mret (zapped, invalid_list)
      else
        '(i, parents) ← mmu_pages_next pvec 0 parents;
        '(parents, invalid_list, zapped) ← zap_each (S KVM_PAGE_ARRAY_NR) zap pvec i parents invalid_list zapped;
        '(parents, pvec) ← kvm_mmu_pages_init spt parents;
        zap_unsync_loop fuel zap spt parents pvec invalid_list zapped
  end.

(** Every round zaps a page. *)
Definition mmu_zap_unsync_children (zap : Z -> list Z -> VM (Z * list Z)) (spt : Z) (invalid_list : list Z) : VM (Z * list Z) :=
  sp ← header spt;
  if sp_level sp =? PT_PAGE_TABLE_LEVEL then mret (0, invalid_list)
  else
    '(parents, pvec) ← kvm_mmu_pages_init spt new_path;
    x ← state;
    zap_unsync_loop (S (size (pages (core x)))) zap spt parents pvec invalid_list 0.

Definition is_obsolete_sp (x : mmu) (sp : kvm_mmu_page) : bool := negb (mmu_valid_gen sp =? valid_gen x).

Definition kvm_reload_remote_mmus : VM unit := change (add_request MMU_RELOAD_ALL).

(** [list_move] takes the page out of the list it is in. *)
Definition prepare_zap (zap : Z -> list Z -> VM (Z * list Z)) (spt : Z) (invalid_list : list Z) : VM (Z * list Z) :=
  '(ret, invalid_list) ← mmu_zap_unsync_children zap spt invalid_list;
  kvm_mmu_page_unlink_children spt ;;
  kvm_mmu_unlink_parents spt ;;
  sp ← header spt;
  (if negb (invalid (role sp)) && negb (sp_direct sp) then unaccount_shadowed (sp_gfn sp) else mret tt) ;;
  (if unsync sp then kvm_unlink_unsync_page spt else mret tt) ;;
  x ← state;
  '(ret, invalid_list) ←
    (if root_count sp =? 0 then
       change (set_active (remove spt (active_mmu_pages x)) (n_used_mmu_pages x)) ;;
       kvm_mod_used_mmu_pages (- 1) ;;
       mret (ret + 1, spt :: remove spt invalid_list)
     else
       change (set_active (spt :: remove spt (active_mmu_pages x)) (n_used_mmu_pages x)) ;;
       (if negb (invalid (role sp)) && negb (is_obsolete_sp x sp) then kvm_reload_remote_mmus else mret tt) ;;
       mret (ret, remove spt invalid_list));
  update spt set_invalid ;;
  mret (ret, invalid_list).

(** The pages zapped on the way are of the lowest level and have no children,
    so that the recursion ends there. *)
Fixpoint prepare_zap_page (fuel : nat) (spt : Z) (invalid_list : list Z) : VM (Z * list Z) :=
  match fuel with
  | O => lift_res (Err OutOfFuel)
  | S fuel => prepare_zap (prepare_zap_page fuel) spt invalid_list
  end.

Definition kvm_mmu_prepare_zap_page : Z -> list Z -> VM (Z * list Z) := prepare_zap_page 2.

Fixpoint free_pages (l : list Z) : VM unit :=
  match l with [] => mret tt | spt :: l => kvm_mmu_free_page spt ;; free_pages l end.

Definition kvm_mmu_commit_zap_page (invalid_list : list Z) : VM unit :=
  match invalid_list with
  | [] => mret tt
  | _ => on_core kvm_flush_remote_tlbs ;; free_pages invalid_list
  end.

Definition prepare_zap_oldest_mmu_page (invalid_list : list Z) : VM (bool * list Z) :=
  x ← state;
  match last (active_mmu_pages x) with
  | None => mret (false, invalid_list)
  | Some spt => '(_, invalid_list) ← kvm_mmu_prepare_zap_page spt invalid_list; mret (true, invalid_list)
  end.

(** [while (...) if (!prepare_zap_oldest_mmu_page(kvm, &invalid_list)) break]:
    a page that is in use as a root moves to the head of the list and stays,
    so that the loop does not end while there is nothing else. *)
Fixpoint zap_while (fuel : nat) (cond : mmu -> bool) (invalid_list : list Z) : VM (list Z) :=
  match fuel with
  | O => lift_res (Err OutOfFuel)
  | S fuel =>
      x ← state;
      if cond x then
        '(b, invalid_list) ← prepare_zap_oldest_mmu_page invalid_list;
        if b : bool then zap_while fuel cond invalid_list else mret invalid_list
      else mret invalid_list
  end.

Definition kvm_mmu_change_mmu_pages (fuel : nat) (goal_nr_mmu_pages : Z) : VM unit :=
  x ← state;
  goal ← (if goal_nr_mmu_pages <? n_used_mmu_pages x then
            l ← zap_while fuel (fun x => goal_nr_mmu_pages <? n_used_mmu_pages x) [];
            kvm_mmu_commit_zap_page l ;;
            x ← state; mret (n_used_mmu_pages x)
          else mret goal_nr_mmu_pages);
  change (set_max goal).

Definition KVM_MIN_FREE_MMU_PAGES : Z := 5.
Definition KVM_REFILL_PAGES : Z := 25.

Definition kvm_mmu_available_pages (x : mmu) : Z :=
  if n_used_mmu_pages x <? n_max_mmu_pages x then n_max_mmu_pages x - n_used_mmu_pages x else 0.

Definition make_mmu_pages_available (fuel : nat) : VM unit :=
  x ← state;
  if KVM_MIN_FREE_MMU_PAGES <=? kvm_mmu_available_pages x then mret tt
  else
    l ← zap_while fuel (fun x => kvm_mmu_available_pages x <? KVM_REFILL_PAGES) [];
    kvm_mmu_commit_zap_page l.

(** Every restart follows a page that left the list, or a yield; [yields]
    are the answers of [cond_resched_lock], [false] at the end. *)
Definition BATCH_ZAP_PAGES : Z := 10.

Fixpoint zap_obsolete_loop (fuel : nat) (yields : list bool) (rest : list Z) (batch : Z) : VM unit :=
  match fuel with
  | O => lift_res (Err OutOfFuel)
  | S fuel =>
      x ← state;
      match rest with
      | [] => mret tt
      | spt :: rest =>
          sp ← header spt;
          if negb (is_obsolete_sp x sp) then mret tt
          else if invalid (role sp) then zap_obsolete_loop fuel yields rest batch
          else if (BATCH_ZAP_PAGES <=? batch) && default false (head yields) then
            zap_obsolete_loop fuel (tail yields) (reverse (active_mmu_pages x)) 0
          else
            let yields := if BATCH_ZAP_PAGES <=? batch then tail yields else yields in
            '(ret, l) ← kvm_mmu_prepare_zap_page spt (zapped_obsolete_pages x);
            change (set_zapped l) ;;
            y ← state;
            if negb (ret =? 0) then zap_obsolete_loop fuel yields (reverse (active_mmu_pages y)) (batch + ret)
            else zap_obsolete_loop fuel yields rest batch
      end
  end.

Definition kvm_zap_obsolete_pages (yields : list bool) : VM unit :=
  x ← state;
  let n := S (length (active_mmu_pages x)) in
  zap_obsolete_loop (n * (n + length yields)) yields (reverse (active_mmu_pages x)) 0 ;;
  y ← state;
  kvm_mmu_commit_zap_page (zapped_obsolete_pages y) ;;
  change (set_zapped []).

Definition kvm_mmu_invalidate_zap_all_pages (yields : list bool) : VM unit :=
  x ← state;
  change (set_gen (u64 (valid_gen x + 1))) ;;
  kvm_reload_remote_mmus ;;
  kvm_zap_obsolete_pages yields.

Definition kvm_mmu_invalidate_mmio_sptes (yields : list bool) : VM unit :=
  x ← state;
  if MMIO_MAX_GEN <=? kvm_current_mmio_generation (slots (core x)) then kvm_mmu_invalidate_zap_all_pages yields
  else mret tt.

(** [for_each_gfn_indirect_valid_sp] over the chain of the frame *)
Definition is_indirect_valid (gfn : Z) (sp : kvm_mmu_page) : bool :=
  (sp_gfn sp =? gfn) && negb (sp_direct sp || invalid (role sp)).

Fixpoint unprotect_loop (chain : list Z) (gfn r : Z) (invalid_list : list Z) : VM (Z * list Z) :=
  match chain with
  | [] => mret (r, invalid_list)
  | spt :: chain =>
      sp ← header spt;
      if is_indirect_valid gfn sp then
        '(_, invalid_list) ← kvm_mmu_prepare_zap_page spt invalid_list;
        unprotect_loop chain gfn 1 invalid_list
      else unprotect_loop chain gfn r invalid_list
  end.

Definition kvm_mmu_unprotect_page (gfn : Z) : VM Z :=
  x ← state;
  '(r, invalid_list) ← unprotect_loop (chain_of gfn x) gfn 0 [];
  kvm_mmu_commit_zap_page invalid_list ;;
  mret r.

(** ** Finding or making a page *)

Definition PT32_ROOT_LEVEL : Z := 2.
Definition PT32E_ROOT_LEVEL : Z := 3.
Definition PT64_PT_BITS : Z := 9.
Definition PT32_PT_BITS : Z := 10.

(** The paging mode of a virtual processor: [pae_root] are the four entries
    at the physical address [pae_root_pa]. *)
Record kvm_mmu := Mode {
  root_hpa : Z; root_level : Z; shadow_root_level : Z; base_role : kvm_mmu_page_role; direct_map : bool;
  pae_root : list Z; pae_root_pa : Z
}.

Section mode.
  (** [sync_page] is a method of the paging mode. *)
  Context (v : kvm_mmu) (is_pae : bool) (sync_page : Z -> VM Z).

Definition kvm_mmu_flush_tlb : VM unit := change (add_request TLB_FLUSH).

Definition __kvm_sync_page (spt : Z) (invalid_list : list Z) (clear_unsync : bool) : VM (Z * list Z) :=
  sp ← header spt;
  if negb (Bool.eqb (cr4_pae (role sp)) is_pae) then
    '(_, invalid_list) ← kvm_mmu_prepare_zap_page spt invalid_list; mret (1, invalid_list)
  else
    (if clear_unsync then kvm_unlink_unsync_page spt else mret tt) ;;
    r ← sync_page spt;
    if negb (r =? 0) then
      '(_, invalid_list) ← kvm_mmu_prepare_zap_page spt invalid_list; mret (1, invalid_list)
    else kvm_mmu_flush_tlb ;; mret (0, invalid_list).

Definition kvm_sync_page_transient (spt : Z) : VM Z :=
  '(ret, invalid_list) ← __kvm_sync_page spt [] false;
  (if negb (ret =? 0) then kvm_mmu_commit_zap_page invalid_list else mret tt) ;;
  mret ret.

Fixpoint sync_loop (chain : list Z) (gfn : Z) (invalid_list : list Z) (flush : bool) : VM (list Z * bool) :=
  match chain with
  | [] => mret (invalid_list, flush)
  | spt :: chain =>
      s ← header spt;
      if is_indirect_valid gfn s && unsync s then
        kvm_unlink_unsync_page spt ;;
        bad ← (if negb (Bool.eqb (cr4_pae (role s)) is_pae) then mret true
               else r ← sync_page spt; mret (negb (r =? 0)));
        if bad : bool then
          '(_, invalid_list) ← kvm_mmu_prepare_zap_page spt invalid_list;
          sync_loop chain gfn invalid_list flush
        else sync_loop chain gfn invalid_list true
      else sync_loop chain gfn invalid_list flush
  end.

Definition kvm_sync_pages (gfn : Z) : VM unit :=
  x ← state;
  '(invalid_list, flush) ← sync_loop (chain_of gfn x) gfn [] false;
  kvm_mmu_commit_zap_page invalid_list ;;
  if flush : bool then kvm_mmu_flush_tlb else mret tt.

(** The page found, if any, and whether one of the frame is out of step. *)
Fixpoint find_page (chain : list Z) (gfn : Z) (r : kvm_mmu_page_role) (parent_pte : Z) (need_sync : bool) : VM (option Z * bool) :=
  match chain with
  | [] => mret (None, need_sync)
  | spt :: chain =>
      x ← state;
      sp ← header spt;
      if negb (sp_gfn sp =? gfn) || is_obsolete_sp x sp then find_page chain gfn r parent_pte need_sync
      else
        let need_sync := need_sync || unsync sp in
        if negb (bool_decide (role sp = r)) then find_page chain gfn r parent_pte need_sync
        else
          bad ← (if unsync sp then kvm_sync_page_transient spt else mret 0);
          if negb (bad =? 0) then mret (None, need_sync)
          else
            mmu_page_add_parent_pte spt parent_pte ;;
            sp ← header spt;
            (if negb (unsync_children sp =? 0) then change (add_request MMU_SYNC) ;; kvm_mmu_mark_parents_unsync spt
             else if unsync sp then kvm_mmu_mark_parents_unsync spt
             else mret tt) ;;
            update spt (with_flooding 0) ;;
            mret (Some spt, need_sync)
  end.

Definition page_role (gaddr level : Z) (direct : bool) (access : Z) : kvm_mmu_page_role :=
  let r := base_role v in
  let q := if negb (direct_map v) && (root_level v <=? PT32_ROOT_LEVEL) then
             Z.land (Z.shiftr gaddr (PAGE_SHIFT + PT64_PT_BITS * level))
               (Z.shiftl 1 ((PT32_PT_BITS - PT64_PT_BITS) * level) - 1)
           else quadrant r in
  Role level (if direct then false else cr4_pae r) q direct access (invalid r) (nxe r) (cr0_wp r) (smep_andnot_wp r).

Definition kvm_mmu_get_page (gfn gaddr level : Z) (direct : bool) (access parent_pte : Z) : VM Z :=
  let r := page_role gaddr level direct access in
  x ← state;
  '(found, need_sync) ← find_page (chain_of gfn x) gfn r parent_pte false;
  match found with
  | Some spt => mret spt
  | None =>
      spt ← kvm_mmu_alloc_page parent_pte direct;
      update spt (fun sp => with_role r (Page gfn (role sp) (sp_gfns sp) (unsync sp) (root_count sp) (unsync_children sp)
                                           (mmu_valid_gen sp) (unsync_child_bitmap sp) (write_flooding_count sp))) ;;
      change (fun x => set_hash (<[kvm_page_table_hashfn gfn := spt :: chain_of gfn x]>) x) ;;
      (if negb direct then
         b ← on_core (rmap_write_protect m gfn);
         (if b : bool then on_core kvm_flush_remote_tlbs else mret tt) ;;
         (if (PT_PAGE_TABLE_LEVEL <? level) && need_sync then kvm_sync_pages gfn else mret tt) ;;
         account_shadowed gfn
       else mret tt) ;;
      x ← state;
      update spt (with_gen (valid_gen x)) ;;
      init_shadow_page_table spt ;;
      mret spt
  end.

End mode.

End masks.

(** The method of the direct map. *)
Definition nonpaging_sync_page (spt : Z) : VM Z := mret 1.
