(* ===== verification/ShadowSpec.v ===== *)
(** * Shadow pages of the direct map stay a tree (kvm-kmod x86/mmu.c)

    With nested paging of the processor every shadow page is direct: it maps
    a range of guest frames by arithmetic, not by a guest table.  The
    invariant says that the entries of the pages form a tree over the frames,
    that each page knows the entries that point to it, and that the tables of
    the virtual machine know every page; the operations of [ShadowPages] keep
    it. *)

From S2P Require Import Prelude MemSlots Spte PteList Rmap ShadowPages.

(** ** Addresses *)

Lemma spt_of_div a : spt_of a = PAGE_SIZE * (a / PAGE_SIZE).
Proof.
  unfold spt_of. change (PAGE_SIZE - 1) with (Z.ones 12). rewrite Z.ldiff_ones_r, Z.shiftl_mul_pow2, Z.shiftr_div_pow2 by lia.
  change (2 ^ 12) with PAGE_SIZE. lia.
Qed.

Lemma spt_index_div a : spt_index a = a mod PAGE_SIZE / 8.
Proof.
  unfold spt_index. rewrite spt_of_div, Z.shiftr_div_pow2 by lia. change (2 ^ 3) with 8. f_equal.
  pose proof (Z.div_mod a PAGE_SIZE ltac:(done)). lia.
Qed.

(** A page of entries starts at a multiple of its size. *)
Definition aligned (spt : Z) : Prop := 0 < spt < 2 ^ 52 /\ spt mod PAGE_SIZE = 0.

Lemma entry_of spt i : spt mod PAGE_SIZE = 0 -> 0 <= i < 512 -> spt_of (spt + 8 * i) = spt /\ spt_index (spt + 8 * i) = i.
Proof.
  intros Hs Hi. pose proof (Z.div_mod spt PAGE_SIZE ltac:(done)) as D. rewrite Hs in D. rewrite spt_of_div, spt_index_div.
  replace (spt + 8 * i) with (8 * i + spt / PAGE_SIZE * PAGE_SIZE) by lia.
  rewrite Z.div_add, Z.mod_add by done. rewrite Z.div_small, Z.mod_small by (unfold PAGE_SIZE; lia). split; [lia|].
  rewrite Z.mul_comm, Z.div_mul by done. done.
Qed.

Lemma spt_of_aligned spt : spt mod PAGE_SIZE = 0 -> spt_of spt = spt.
Proof. intros Hs. pose proof (entry_of spt 0 Hs ltac:(lia)) as [E _]. by rewrite Z.add_0_r in E. Qed.

Lemma entry_at a : a mod 8 = 0 -> a = spt_of a + 8 * spt_index a /\ 0 <= spt_index a < 512 /\ spt_of a mod PAGE_SIZE = 0.
Proof.
  intros Ha. rewrite spt_of_div, spt_index_div. pose proof (Z.div_mod a PAGE_SIZE ltac:(done)) as D.
  pose proof (Z.mod_pos_bound a PAGE_SIZE ltac:(done)) as B.
  assert (H8 : (a mod PAGE_SIZE) mod 8 = 0).
  { rewrite D in Ha. rewrite <- Ha. change PAGE_SIZE with (8 * 512). rewrite <- (Zmod_mod a) at 1.
    replace (8 * 512 * (a / (8 * 512)) + a mod (8 * 512)) with (a mod (8 * 512) + (512 * (a / (8 * 512))) * 8) by lia.
    rewrite Z.mod_add by lia. by rewrite Zmod_mod. }
  pose proof (Z.div_mod (a mod PAGE_SIZE) 8 ltac:(lia)) as D8. rewrite H8 in D8.
  split; [lia|]. split; [unfold PAGE_SIZE in *; lia|]. rewrite Z.mul_comm. by apply Z.mod_mul.
Qed.

Lemma elem_of_entries a spt : spt mod PAGE_SIZE = 0 -> (a ∈ entries spt <-> a mod 8 = 0 /\ spt_of a = spt).
Proof.
  intros Hs. unfold entries. rewrite list_elem_of_fmap. setoid_rewrite elem_of_seqZ. split.
  - intros (i & -> & Hi). split; [|apply entry_of; [done|unfold PT64_ENT_PER_PAGE in Hi; lia]].
    pose proof (Z.div_mod spt PAGE_SIZE ltac:(done)) as D. rewrite Hs in D. rewrite D. unfold PAGE_SIZE.
    replace (4096 * (spt / 4096) + 0 + 8 * i) with ((512 * (spt / 4096) + i) * 8) by lia. by apply Z.mod_mul.
  - intros [Ha <-]. destruct (entry_at a Ha) as (E & Hi & _). exists (spt_index a). split; [done|]. unfold PT64_ENT_PER_PAGE. lia.
Qed.

(** ** The invariant *)

Definition child_of (v : Z) : Z := Z.land v PT64_BASE_ADDR_MASK.

(** The entry points to a page of the next level. *)
Definition nonleaf (m : shadow_masks) (k : kvm) (a v : Z) : Prop :=
  spt_mem k !! a = Some v /\ is_shadow_present_pte m v = true /\
  exists sp, pages k !! spt_of a = Some sp /\ is_last_spte v (sp_level sp) = false.

(** How many frames an entry of a level maps. *)
Definition frames (level : Z) : Z := 2 ^ (9 * (level - 1)).

Record page_ok (spt : Z) (sp : kvm_mmu_page) : Prop := {
  pg_addr : aligned spt;
  pg_direct : sp_direct sp = true;
  pg_synced : unsync sp = false /\ unsync_children sp = 0;
  pg_level : 1 <= sp_level sp <= 4;
  pg_gfn : 0 <= sp_gfn sp /\ sp_gfn sp + frames (sp_level sp + 1) <= 2 ^ 36
}.

(** [pend] is an entry that is listed as a parent already but still to be
    written. *)
Record tree (m : shadow_masks) (k : kvm) (ls : gmap list_head (list Z)) (pend : option (Z * Z)) : Prop := {
  tr_mmu : mmu_ok m k ls;
  tr_pages spt sp : pages k !! spt = Some sp -> page_ok spt sp;
  tr_mem a : is_Some (spt_mem k !! a) <-> a mod 8 = 0 /\ is_Some (pages k !! spt_of a);
  tr_level a v sp : leaf m k a v -> pages k !! spt_of a = Some sp -> sp_level sp <= 3;
  tr_child a v sp : nonleaf m k a v -> pages k !! spt_of a = Some sp ->
    exists c, pages k !! child_of v = Some c /\ sp_level c = sp_level sp - 1 /\
      sp_gfn c = sp_gfn sp + spt_index a * frames (sp_level sp);
  tr_heads spt : is_Some (heads k !! Parents spt) <-> is_Some (pages k !! spt);
  tr_parents spt l : ls !! Parents spt = Some l ->
    NoDup l /\ forall a, a ∈ l <-> (exists v, nonleaf m k a v /\ child_of v = spt) \/ pend = Some (spt, a)
}.

(** The tables around the tree: every page is in the chain of its frame, the
    pages on the list exist, and those of the cache are none of them. *)
Record tables (x : mmu) : Prop := {
  tb_hash spt sp : pages (core x) !! spt = Some sp -> spt ∈ chain_of (sp_gfn sp) x;
  tb_chain b l spt : mmu_page_hash x !! b = Some l -> spt ∈ l ->
    exists sp, pages (core x) !! spt = Some sp /\ kvm_page_table_hashfn (sp_gfn sp) = b;
  tb_nodup b l : mmu_page_hash x !! b = Some l -> NoDup l;
  tb_active spt : spt ∈ active_mmu_pages x -> is_Some (pages (core x) !! spt);
  tb_active_nodup : NoDup (active_mmu_pages x);
  tb_cache : NoDup (mmu_page_cache x) /\
    forall p, p ∈ mmu_page_cache x -> aligned p /\ pages (core x) !! p = None
}.

(** ** Leaves as before *)

Lemma mmu_ok_leaves m s s' ls ls' : mmu_ok m s ls -> slots s' = slots s ->
  (exists chunks, lists_ok (lists s') (heads s') ls' chunks) ->
  (forall a v, spt_mem s' !! a = Some v -> good a /\ a mod 8 = 0) ->
  (forall a v, leaf m s' a v <-> leaf m s a v) ->
  (forall a v, leaf m s a v -> rmap_of s' a = rmap_of s a) ->
  (forall sl lv i, ls' !! Rmap sl lv i = ls !! Rmap sl lv i) ->
  (forall sl lv i, is_Some (heads s !! Rmap sl lv i) -> is_Some (heads s' !! Rmap sl lv i)) -> mmu_ok m s' ls'.
Proof.
  intros Hok E1 Hl Ha Hlf Hr Hls Hh. split.
  - rewrite E1. apply Hok.
  - done.
  - intros a v Ev. by apply (Ha a v).
  - intros a v Ev. by apply (Ha a v).
  - intros a v Hv%Hlf. destruct (mk_leaf _ _ _ Hok a v Hv) as [? (h & Eh & Hs)]. split; [done|]. exists h. rewrite (Hr a v Hv).
    split; [done|]. destruct (rmap_of_rmap _ _ _ Eh) as (sl & lv & i & ->). by apply Hh.
  - intros sl lv i l. rewrite Hls. intros El. destruct (mk_rmap _ _ _ Hok _ _ _ _ El) as [Hn Hi]. split; [done|]. intros a. rewrite Hi.
    split; intros [Er [v Hv]]; (split; [|exists v; by apply Hlf]); [by rewrite (Hr a v Hv)|]. apply Hlf in Hv. by rewrite <- (Hr a v Hv).
Qed.

Section tree.
  Context (m : shadow_masks).

Lemma tree_page k ls pend spt sp : tree m k ls pend -> pages k !! spt = Some sp ->
  spt_of spt = spt /\ exists w l, heads k !! Parents spt = Some w /\ ls !! Parents spt = Some l.
Proof.
  intros Ht Hp. split; [apply spt_of_aligned, (tr_pages _ _ _ _ Ht _ _ Hp)|]. assert (Hh : is_Some (heads k !! Parents spt)) by (apply (tr_heads _ _ _ _ Ht); eauto).
  destruct (mmu_list _ _ _ _ (tr_mmu _ _ _ _ Ht) Hh) as [l El]. destruct Hh as [w Hw]. eauto.
Qed.

Lemma nonleaf_not_leaf k a v w : nonleaf m k a v -> ~ leaf m k a w.
Proof. intros (E1 & _ & sp & Ep & Hl) (E2 & _ & sp' & Ep' & Hl'). congruence. Qed.

(** An entry whose page is known is present and one or the other. *)
Lemma present_cases k ls pend a v : tree m k ls pend -> spt_mem k !! a = Some v -> is_shadow_present_pte m v = true ->
  exists sp, pages k !! spt_of a = Some sp /\ if is_last_spte v (sp_level sp) then leaf m k a v else nonleaf m k a v.
Proof.
  intros Ht Ev Hp. assert (Hs : is_Some (spt_mem k !! a)) by eauto. apply (tr_mem _ _ _ _ Ht) in Hs as [_ [sp Esp]].
  exists sp. split; [done|]. destruct (is_last_spte v (sp_level sp)) eqn:El; (split; [done|]; split; [done|]; by exists sp).
Qed.

(** An entry becomes absent and leaves the list it was in. *)
Lemma tree_clear k k' ls ls' pend a w0 : tree m k ls pend -> is_Some (spt_mem k !! a) -> mmu_ok m k' ls' ->
  pages k' = pages k -> dom (heads k') = dom (heads k) -> spt_mem k' = <[a := w0]> (spt_mem k) -> is_shadow_present_pte m w0 = false ->
  (forall spt, pend <> Some (spt, a)) ->
  (forall spt l', ls' !! Parents spt = Some l' -> exists l, ls !! Parents spt = Some l /\ NoDup l' /\
     forall b, b ∈ l' <-> b ∈ l /\ (b = a -> forall v, nonleaf m k a v -> child_of v = spt -> False)) ->
  tree m k' ls' pend.
Proof.
  intros Ht Ha Hok Ep Eh Em Hw0 Hpe Hls.
  assert (Hnl : forall b v, nonleaf m k' b v <-> b <> a /\ nonleaf m k b v).
  { intros b v. unfold nonleaf. rewrite Em, Ep, lookup_insert. case_decide as Eb; [|naive_solver]. subst b. split; [|by intros [? _]].
    intros ([= <-] & Hp & _). congruence. }
  assert (Hlf : forall b v, leaf m k' b v -> leaf m k b v).
  { intros b v. unfold leaf. rewrite Em, Ep, lookup_insert. case_decide as Eb; [|done]. intros ([= <-] & Hp & _). congruence. }
  split.
  - done.
  - rewrite Ep. apply Ht.
  - intros b. rewrite Em, Ep, <- (tr_mem _ _ _ _ Ht), lookup_insert. case_decide; [subst b|done]. split; eauto.
  - intros b v sp Hb. rewrite Ep. eapply (tr_level _ _ _ _ Ht); eauto.
  - intros b v sp [_ Hb]%Hnl. rewrite Ep. by apply (tr_child _ _ _ _ Ht).
  - intros spt. rewrite Ep, <- (tr_heads _ _ _ _ Ht), <- !elem_of_dom. by rewrite Eh.
  - intros spt l' El'. destruct (Hls spt l' El') as (l & El & Hn & Hl). split; [done|]. intros b. rewrite Hl.
    destruct (tr_parents _ _ _ _ Ht _ _ El) as [_ Hi]. rewrite Hi. setoid_rewrite Hnl. split.
    + intros [[(v & Hv & Hc)|Hb] Hne]; [|by right]. left. exists v. split; [split; [|done]|done]. intros ->. by eapply Hne.
    + intros [(v & [Hne Hv] & Hc)|Hb].
      * split; [left; eauto|]. by intros ->.
      * split; [by right|]. intros ->. by destruct (Hpe spt).
Qed.

(** ** Running *)

Lemma set_core_core x : set_core (core x) x = x.
Proof. by destruct x. Qed.

Lemma set_core_twice k k' x : set_core k (set_core k' x) = set_core k x.
Proof. done. Qed.

Lemma on_core_Ok {A} (c : M A) x a k : c (core x) = Ok (a, k) -> on_core c x = Ok (a, set_core k x).
Proof. intros E. unfold on_core. by rewrite E. Qed.

Lemma entry_Ok x a v : spt_mem (core x) !! a = Some v -> entry a x = Ok (v, x).
Proof. intros E. unfold entry. rewrite (on_core_Ok _ _ _ _ (read_spte_Ok _ _ _ E)). by rewrite set_core_core. Qed.

Lemma header_Ok x a sp : pages (core x) !! spt_of a = Some sp -> header a x = Ok (sp, x).
Proof. intros E. unfold header. rewrite (on_core_Ok _ _ _ _ (page_header_Ok _ _ _ E)). by rewrite set_core_core. Qed.

(** What zapping leaves alone. *)
Record kept (k k' : kvm) : Prop := {
  ke_slots : slots k' = slots k; ke_pages : pages k' = pages k;
  ke_objects : objects (lists k') = objects (lists k); ke_heads : dom (heads k') = dom (heads k)
}.

#[global] Instance kept_preorder : PreOrder kept.
Proof. split; [by intros s|]. intros s1 s2 s3 [? ? ? ?] [? ? ? ?]. split; congruence. Qed.

(** Making absent an entry that is not a leaf. *)
Lemma mmu_ok_cleared k k' ls ls' a v w0 : mmu_ok m k ls -> spt_mem k !! a = Some v -> (forall w, ~ leaf m k a w) ->
  slots k' = slots k -> pages k' = pages k -> dom (heads k') = dom (heads k) -> spt_mem k' = <[a := w0]> (spt_mem k) ->
  is_shadow_present_pte m w0 = false ->
  (exists chunks, lists_ok (lists k') (heads k') ls' chunks) ->
  (forall sl lv i, ls' !! Rmap sl lv i = ls !! Rmap sl lv i) -> mmu_ok m k' ls'.
Proof.
  intros Hok Ev Hnl E1 E2 E3 E4 Hw0 Hlo Hls. apply (mmu_ok_leaves m k k' ls ls'); try done.
  - intros b w. rewrite E4, lookup_insert. case_decide; intros Eb; [subst b; rename v into w'; rename Ev into Eb'|rename Eb into Eb'];
      split; [by apply (mk_addr _ _ _ Hok) in Eb'|by apply (mk_align _ _ _ Hok) in Eb'|by apply (mk_addr _ _ _ Hok) in Eb'|by apply (mk_align _ _ _ Hok) in Eb'].
  - intros b w. unfold leaf at 1. rewrite E4, E2, lookup_insert. case_decide as Eb; [subst b|done]. split.
    + intros ([= <-] & Hp & _). congruence.
    + intros Hl. by apply Hnl in Hl.
  - intros b w _. unfold rmap_of, spte_gfn. by rewrite E1, E2.
  - intros sl lv i. rewrite <- !elem_of_dom. by rewrite E3.
Qed.

Lemma store_absent k ls pend a v w0 ev : tree m k ls pend -> spt_mem k !! a = Some v -> is_shadow_present_pte m v = false ->
  is_shadow_present_pte m w0 = false -> (forall spt, pend <> Some (spt, a)) -> tree m (set_mem a w0 ev k) ls pend.
Proof.
  intros Ht Ev Hp Hw0 Hpe. apply (tree_clear k _ ls ls _ a w0 Ht); eauto.
  - eapply (mmu_ok_cleared k); try done; try apply Ht. intros w (E & Hw & _). congruence.
  - intros spt l El. exists l. split; [done|]. split; [by apply (tr_parents _ _ _ _ Ht) in El as [? _]|].
    intros b. split; [|tauto]. intros Hb. split; [done|]. intros -> w (Ew & Hw & _). congruence.
Qed.

(** Dropping a pointer to a page. *)
Lemma drop_parent_run x ls pend a v spt : tree m (core x) ls pend -> nonleaf m (core x) a v -> child_of v = spt ->
  (forall c, pend <> Some (c, a)) ->
  exists k' ls', drop_parent_pte spt a x = Ok (tt, set_core k' x) /\ tree m k' ls' pend /\ kept (core x) k' /\
    spt_mem k' = <[a := 0]> (spt_mem (core x)) /\ (forall l, ls !! Parents spt = Some l -> exists l', l ≡ₚ a :: l' /\ ls' !! Parents spt = Some l').
Proof.
  intros Ht Hnl <- Hpe. pose proof Hnl as (Ev & Hp & sp & Esp & Hlast). destruct (tr_child _ _ _ _ Ht _ _ _ Hnl Esp) as (c & Ec & _).
  destruct (tree_page _ _ _ _ _ Ht Ec) as [_ (w & l & Hw & El)]. destruct (tr_parents _ _ _ _ Ht _ _ El) as [Hn Hi].
  destruct (mk_lists _ _ _ (tr_mmu _ _ _ _ Ht)) as [ch Hl]. pose proof (mk_addr _ _ _ (tr_mmu _ _ _ _ Ht) _ _ Ev) as Hg.
  assert (Hin : a ∈ l) by (apply Hi; eauto).
  destruct (lists_remove _ _ _ _ _ _ _ _ Hl Hw El Hin Hg) as (w' & p' & l' & ch' & Er & Hpm & Hl' & Ho).
  unfold drop_parent_pte, mmu_page_remove_parent_pte. set (k1 := set_heads (<[Parents (child_of v) := w']>) p' (core x)).
  assert (E1 : list_remove a (Parents (child_of v)) (core x) = Ok (tt, k1)).
  { unfold list_remove, get at 1. rewrite (st_bind_Ok _ _ (core x) (core x) (core x)) by done.
    rewrite (st_bind_Ok _ _ (core x) w (core x)) by (unfold known; by rewrite Hw).
    by rewrite (st_bind_Ok _ _ _ _ _ (lift_res_Ok _ _ _ Er)). }
  rewrite (st_bind_Ok _ _ _ _ _ (on_core_Ok _ _ _ _ E1)).
  assert (E2 : mmu_spte_clear_no_track a k1 = Ok (tt, set_mem a 0 [] k1)).
  { unfold mmu_spte_clear_no_track. by rewrite (st_bind_Ok _ _ _ _ _ (read_spte_Ok a v k1 Ev)). }
  rewrite (on_core_Ok _ (set_core k1 x) _ _ E2), set_core_twice. eexists _, _. split; [reflexivity|].
  assert (Hdom : dom (<[Parents (child_of v) := w']> (heads (core x))) = dom (heads (core x))).
  { rewrite dom_insert_L. assert (Parents (child_of v) ∈ dom (heads (core x))) by (apply elem_of_dom; eauto). set_solver. }
  split; [|split; [by split|split; [done|]]].
  - apply (tree_clear (core x) _ ls (<[Parents (child_of v) := l']> ls) _ a 0 Ht); eauto.
    + eapply (mmu_ok_cleared (core x) _ ls _ a v 0); try done; [apply Ht|intros u; by eapply nonleaf_not_leaf|by exists ch'|].
      intros sl lv i. by rewrite lookup_insert_ne.
    + intros spt l0. rewrite lookup_insert. rewrite Hpm in Hn. apply NoDup_cons in Hn as [Hna Hn]. case_decide as Es.
      * intros [= <-]. injection Es as <-. exists l. split; [done|]. split; [done|]. intros b. rewrite Hpm, elem_of_cons. split.
        { intros Hb. split; [by right|]. intros ->. done. }
        intros [[->|Hb] Hne]; [|done]. exfalso. by eapply Hne.
      * intros El0. exists l0. split; [done|]. split; [by apply (tr_parents _ _ _ _ Ht) in El0 as [? _]|]. intros b. split; [|tauto].
        intros Hb. split; [done|]. intros -> u (Eu & _) Hc. rewrite Ev in Eu. injection Eu as <-. by rewrite Hc in Es.
  - intros l0 El0. assert (l0 = l) as -> by congruence. exists l'. by rewrite lookup_insert_eq.
Qed.

(** What is told to the host, the counts and the flushes do not matter. *)
Lemma tree_ext k k' ls pend : tree m k ls pend -> slots k' = slots k -> heads k' = heads k -> lists k' = lists k ->
  spt_mem k' = spt_mem k -> pages k' = pages k -> tree m k' ls pend.
Proof.
  destruct k, k'. cbn. intros [[? ? ? ? ? ?] ? ? ? ? ? ?] -> -> -> -> ->. split; [split|..]; assumption.
Qed.

(** Dropping an entry of the last level. *)
Lemma drop_leaf_run x ls pend a v : tree m (core x) ls pend -> leaf m (core x) a v -> (forall c, pend <> Some (c, a)) ->
  exists k' ls', on_core (drop_spte m a) x = Ok (tt, set_core k' x) /\ tree m k' ls' pend /\ kept (core x) k' /\
    spt_mem k' = <[a := 0]> (spt_mem (core x)) /\ lpages k' = lpages (core x) /\ (forall spt, ls' !! Parents spt = ls !! Parents spt).
Proof.
  intros Ht Hlf Hpe. pose proof (tr_mmu _ _ _ _ Ht) as Hok. destruct (mk_leaf _ _ _ Hok _ _ Hlf) as [_ (h & Hr & Hh)].
  destruct (mmu_list _ _ _ _ Hok Hh) as [l El]. destruct (drop_spte_run m (core x) ls Hok a v h l Hlf Hr El) as (k' & l' & E & Hpm & Hok' & [T1 T2 T3 T4 T5 T6] & Em & _).
  destruct (rmap_of_rmap _ _ _ Hr) as (sl & lv & i & ->).
  assert (Hls : forall spt, <[Rmap sl lv i := l']> ls !! Parents spt = ls !! Parents spt) by (intros spt; by rewrite lookup_insert_ne).
  exists k', (<[Rmap sl lv i := l']> ls). split; [by apply on_core_Ok|]. split; [|by split_and!].
  apply (tree_clear (core x) _ ls _ _ a 0 Ht); try done; [eexists; apply Hlf|]. intros spt l0. rewrite Hls. intros El0. exists l0. split; [done|].
  split; [by apply (tr_parents _ _ _ _ Ht) in El0 as [? _]|]. intros b. split; [|tauto]. intros Hb. split; [done|]. intros -> w Hw _.
  by eapply nonleaf_not_leaf.
Qed.

Lemma zap_pte_run x ls pend a v sp : tree m (core x) ls pend -> spt_mem (core x) !! a = Some v -> pages (core x) !! spt_of a = Some sp ->
  (forall c, pend <> Some (c, a)) ->
  exists k' ls', mmu_page_zap_pte m sp a x = Ok (is_shadow_present_pte m v, set_core k' x) /\ tree m k' ls' pend /\ kept (core x) k' /\
    spt_mem k' = <[a := if is_shadow_present_pte m v || is_mmio_spte m v then 0 else v]> (spt_mem (core x)).
Proof.
  intros Ht Ev Esp Hpe. unfold mmu_page_zap_pte. rewrite (st_bind_Ok _ _ _ _ _ (entry_Ok _ _ _ Ev)).
  destruct (is_shadow_present_pte m v) eqn:Hp; cbn [orb].
  - destruct (present_cases _ _ _ _ _ Ht Ev Hp) as (sp' & Esp' & Hc). assert (sp' = sp) as -> by congruence.
    destruct (is_last_spte v (sp_level sp)) eqn:Hl.
    + destruct (drop_leaf_run x ls pend a v Ht Hc Hpe) as (k' & ls' & E & Ht' & Hk & Em & _). rewrite st_bind_assoc, (st_bind_Ok _ _ _ _ _ E).
      destruct (is_large_pte v); [|by exists k', ls'].
      exists (set_lpages (lpages k' - 1) k'), ls'. split; [done|]. split; [by eapply tree_ext|]. split; [|done]. etrans; [exact Hk|done].
    + destruct (drop_parent_run x ls pend a v _ Ht Hc eq_refl Hpe) as (k' & ls' & E & Ht' & Hk & Em & _).
      unfold child_of in E. rewrite (st_bind_Ok _ _ _ _ _ E). by exists k', ls'.
  - destruct (is_mmio_spte m v).
    + exists (set_mem a 0 [] (core x)), ls. split; [|split; [by eapply store_absent|done]].
      assert (E2 : mmu_spte_clear_no_track a (core x) = Ok (tt, set_mem a 0 [] (core x))).
      { unfold mmu_spte_clear_no_track. by rewrite (st_bind_Ok _ _ _ _ _ (read_spte_Ok _ _ _ Ev)). }
      by rewrite (st_bind_Ok _ _ _ _ _ (on_core_Ok _ _ _ _ E2)).
    + exists (core x), ls. rewrite set_core_core, insert_id by done. done.
Qed.

(** All the entries of a page. *)
Lemma zap_ptes_run spt es : forall x ls pend sp, tree m (core x) ls pend -> pages (core x) !! spt = Some sp ->
  (forall a, a ∈ es -> is_Some (spt_mem (core x) !! a) /\ spt_of a = spt /\ forall c, pend <> Some (c, a)) ->
  exists k' ls', zap_ptes m spt es x = Ok (tt, set_core k' x) /\ tree m k' ls' pend /\ kept (core x) k' /\
    (forall a v, a ∈ es -> spt_mem k' !! a = Some v -> is_shadow_present_pte m v = false) /\
    (forall a, a ∉ es -> spt_mem k' !! a = spt_mem (core x) !! a).
Proof.
  induction es as [|a es IH]; intros x ls pend sp Ht Esp Hes; cbn [zap_ptes].
  { exists (core x), ls. rewrite set_core_core. split; [done|]. split; [done|]. split; [done|]. split; [set_solver|done]. }
  destruct (Hes a ltac:(left)) as ([v Ev] & Ea & Hpe). pose proof Esp as Esp'. rewrite <- Ea in Esp'.
  destruct (tree_page _ _ _ _ _ Ht Esp) as [Eh _]. pose proof Esp as Esp2. rewrite <- Eh in Esp2.
  rewrite (st_bind_Ok _ _ _ _ _ (header_Ok _ _ _ Esp2)).
  destruct (zap_pte_run x ls pend a v sp Ht Ev Esp' Hpe) as (k1 & ls1 & E1 & Ht1 & [K1 K2 K3 K4] & Em1).
  rewrite (st_bind_Ok _ _ _ _ _ E1). destruct (IH (set_core k1 x) ls1 pend sp) as (k' & ls' & E & Ht' & Hk & Hd & Hs); try done.
  - cbn. by rewrite K2.
  - intros b Hb. destruct (Hes b ltac:(by right)) as (Hs & Hb' & Hpb). split; [|done]. cbn. rewrite Em1, lookup_insert. by case_decide.
  - cbn [core set_core] in *. exists k', ls'. split; [done|]. split; [done|]. split; [etrans; [|done]; by split|]. split.
    + intros b w Hb Ew. destruct (decide (b ∈ es)) as [Hin|Hni]; [by eapply Hd|]. rewrite Hs in Ew by done.
      assert (b = a) as -> by set_solver. rewrite Em1, lookup_insert_eq in Ew. injection Ew as <-.
      destruct (is_shadow_present_pte m v) eqn:Hpr; [apply zero_not_present|]. cbn. destruct (is_mmio_spte m v); [apply zero_not_present|done].
    + intros b Hb. rewrite Hs, Em1, lookup_insert_ne by set_solver. done.
Qed.

(** ** Unlinking from the parents *)

Lemma unlink_parents_run spt : forall fuel x ls l sp, tree m (core x) ls None -> pages (core x) !! spt = Some sp ->
  ls !! Parents spt = Some l -> (length l < fuel)%nat ->
  exists k' ls', unlink_parents fuel spt x = Ok (tt, set_core k' x) /\ tree m k' ls' None /\ kept (core x) k' /\
    ls' !! Parents spt = Some [] /\ forall a, spt_mem k' !! a = if bool_decide (a ∈ l) then Some 0 else spt_mem (core x) !! a.
Proof.
  induction fuel as [|fuel IH]; intros x ls l sp Ht Esp El Hf; [lia|]. cbn [unlink_parents].
  destruct (first_of_list m (core x) ls _ l (tr_mmu _ _ _ _ Ht) El) as (w & it & Hw & Ef).
  unfold state at 1. rewrite (st_bind_Ok _ _ x x x) by done.
  rewrite (st_bind_Ok _ _ x w x) by (unfold on_core, known; rewrite Hw; cbn; by rewrite set_core_core).
  rewrite (st_bind_Ok _ _ _ _ _ (lift_res_Ok _ x _ Ef)). destruct (tr_parents _ _ _ _ Ht _ _ El) as [Hn Hi].
  destruct l as [|a l]; cbn [head default Datatypes.id].
  { exists (core x), ls. rewrite set_core_core. split; [done|]. split; [done|]. split; [done|]. split; [done|].
    intros a. by rewrite bool_decide_false by set_solver. }
  destruct (proj1 (Hi a)) as [(v & Hv & Hc)|]; [left| |done]. pose proof Hv as (Ev & _).
  pose proof (mk_addr _ _ _ (tr_mmu _ _ _ _ Ht) _ _ Ev) as [Ha _]. replace (a =? 0) with false by lia.
  destruct (drop_parent_run x ls None a v spt Ht Hv Hc ltac:(done)) as (k1 & ls1 & E1 & Ht1 & [K1 K2 K3 K4] & Em1 & Hl1).
  rewrite (st_bind_Ok _ _ _ _ _ E1). destruct (Hl1 _ El) as (l' & Hpm & El'). apply Permutation_cons_inv in Hpm.
  destruct (IH (set_core k1 x) ls1 l' sp) as (k' & ls' & E & Ht' & Hk & Hl' & Hm); try done.
  - cbn. by rewrite K2.
  - rewrite <- Hpm. cbn in Hf. lia.
  - cbn [core set_core] in *. exists k', ls'. split; [done|]. split; [done|]. split; [etrans; [|done]; by split|]. split; [done|].
    intros b. rewrite Hm, Em1, lookup_insert. rewrite <- (bool_decide_ext (b ∈ l) (b ∈ l')) by (by rewrite Hpm).
    repeat case_bool_decide; repeat case_decide; set_solver.
Qed.

Lemma update_Ok x spt sp f : pages (core x) !! spt = Some sp -> spt_of spt = spt ->
  update spt f x = Ok (tt, set_core (set_pages (<[spt := f sp]>) (core x)) x).
Proof.
  intros Esp Es. pose proof Esp as Esp'. rewrite <- Es in Esp'. unfold update. by rewrite (st_bind_Ok _ _ _ _ _ (header_Ok _ _ _ Esp')).
Qed.

(** Fields of a header that say nothing about its entries. *)
Record same_page (sp sp' : kvm_mmu_page) : Prop := {
  sm_gfn : sp_gfn sp' = sp_gfn sp; sm_level : sp_level sp' = sp_level sp; sm_direct : sp_direct sp' = sp_direct sp;
  sm_gfns : sp_gfns sp' = sp_gfns sp; sm_unsync : unsync sp' = unsync sp; sm_children : unsync_children sp' = unsync_children sp
}.

Lemma tree_update k ls pend spt sp sp' : tree m k ls pend -> pages k !! spt = Some sp -> same_page sp sp' ->
  tree m (set_pages (<[spt := sp']>) k) ls pend.
Proof.
  intros Ht Esp [S1 S2 S3 S4 S5 S6].
  assert (Hex : forall (P : kvm_mmu_page -> Prop) b, (P sp <-> P sp') ->
    (exists q, <[spt := sp']> (pages k) !! b = Some q /\ P q) <-> exists q, pages k !! b = Some q /\ P q).
  { intros P b HP. rewrite lookup_insert. case_decide as Eb; [|done]. subst b. rewrite Esp. naive_solver. }
  assert (Hlf : forall b v, leaf m (set_pages (<[spt := sp']>) k) b v <-> leaf m k b v).
  { intros b v. unfold leaf. cbn [set_pages spt_mem pages]. by rewrite (Hex (fun q => is_last_spte v (sp_level q) = true)) by (by rewrite S2). }
  assert (Hnl : forall b v, nonleaf m (set_pages (<[spt := sp']>) k) b v <-> nonleaf m k b v).
  { intros b v. unfold nonleaf. cbn [set_pages spt_mem pages]. by rewrite (Hex (fun q => is_last_spte v (sp_level q) = false)) by (by rewrite S2). }
  assert (His : forall b, is_Some (<[spt := sp']> (pages k) !! b) <-> is_Some (pages k !! b)).
  { intros b. rewrite lookup_insert. case_decide as Eb; [|done]. subst b. rewrite Esp. split; eauto. }
  assert (Hpg : forall b q, <[spt := sp']> (pages k) !! b = Some q -> exists q0, pages k !! b = Some q0 /\ same_page q0 q).
  { intros b q. rewrite lookup_insert. case_decide as Eb; [|exists q; split; [done|by split]]. intros [= <-]. subst b. exists sp. split; [done|by split]. }
  split.
  - apply (mmu_ok_leaves m k _ ls ls); try done; try apply Ht.
    + intros b v Ev. split; [by eapply (mk_addr _ _ _ (tr_mmu _ _ _ _ Ht))|by eapply (mk_align _ _ _ (tr_mmu _ _ _ _ Ht))].
    + intros b v _. unfold rmap_of, spte_gfn. cbn [set_pages pages slots]. rewrite lookup_insert. case_decide as Eb; [|done]. rewrite <- Eb, Esp.
      unfold kvm_mmu_page_get_gfn. cbn. by rewrite S1, S2, S3, S4.
  - intros b q Eq. destruct (Hpg b q Eq) as (q0 & Eq0 & [R1 R2 R3 R4 R5 R6]). destruct (tr_pages _ _ _ _ Ht _ _ Eq0) as [? ? ? ? ?].
    split; [done|congruence|by rewrite R5, R6|by rewrite R2|by rewrite R1, R2].
  - intros b. cbn [set_pages spt_mem pages]. by rewrite His, <- (tr_mem _ _ _ _ Ht).
  - intros b v q Hb%Hlf Eq. destruct (Hpg _ q Eq) as (q0 & Eq0 & [_ R2 _ _ _ _]). rewrite R2. by eapply (tr_level _ _ _ _ Ht).
  - intros b v q Hb%Hnl Eq. destruct (Hpg _ q Eq) as (q0 & Eq0 & [R1 R2 _ _ _ _]). destruct (tr_child _ _ _ _ Ht _ _ _ Hb Eq0) as (c & Ec & Hl & Hg).
    assert (Hc : exists c', <[spt := sp']> (pages k) !! child_of v = Some c' /\ sp_level c' = sp_level q - 1 /\
      sp_gfn c' = sp_gfn q + spt_index b * frames (sp_level q)); [|done].
    apply (Hex (fun c' => sp_level c' = sp_level q - 1 /\ sp_gfn c' = sp_gfn q + spt_index b * frames (sp_level q))); [by rewrite S1, S2|].
    exists c. by rewrite R1, R2.
  - intros b. cbn [set_pages heads pages]. by rewrite His, (tr_heads _ _ _ _ Ht).
  - intros b l El. destruct (tr_parents _ _ _ _ Ht _ _ El) as [Hn Hi]. split; [done|]. intros a. rewrite Hi. by setoid_rewrite Hnl.
Qed.

(** ** Zapping a page *)

(** A page without children out of step. *)
Lemma no_unsync_children zap x spt sp inv : pages (core x) !! spt = Some sp -> page_ok spt sp ->
  mmu_zap_unsync_children m zap spt inv x = Ok ((0, inv), x).
Proof.
  intros Esp [Ha _ [_ Hc] Hl _]. assert (Es : spt_of spt = spt) by apply spt_of_aligned, Ha. pose proof Esp as Esp'. rewrite <- Es in Esp'.
  unfold mmu_zap_unsync_children. rewrite (st_bind_Ok _ _ _ _ _ (header_Ok _ _ _ Esp')).
  destruct (sp_level sp =? PT_PAGE_TABLE_LEVEL) eqn:E1; [done|]. apply Z.eqb_neq in E1. unfold PT_PAGE_TABLE_LEVEL in E1.
  assert (Hi : exists p, kvm_mmu_pages_init spt new_path x = Ok ((p, []), x)).
  { unfold kvm_mmu_pages_init. rewrite (st_bind_Ok _ _ _ _ _ (header_Ok _ _ _ Esp')).
    assert (exists p, set_parent (sp_level sp - 1) 0 new_path = Ok p) as [p Ep].
    { unfold set_parent. destruct ((0 <=? sp_level sp - 1) && (sp_level sp - 1 <? 3)) eqn:E; [eauto|]. apply andb_false_iff in E.
      replace (sp_level sp - 1 =? 3) with true by lia. eauto. }
    exists p. by rewrite (st_bind_Ok _ _ _ _ _ (lift_res_Ok _ x _ Ep)). }
  destruct Hi as [p Ep]. rewrite (st_bind_Ok _ _ _ _ _ Ep). unfold state at 1. rewrite (st_bind_Ok _ _ x x x) by done. cbn [zap_unsync_loop].
  assert (Ew : mmu_unsync_walk m spt [] x = Ok ((0, []), x)).
  { unfold mmu_unsync_walk. rewrite (st_bind_Ok _ _ _ _ _ (header_Ok _ _ _ Esp')). by rewrite Hc. }
  by rewrite (st_bind_Ok _ _ _ _ _ Ew).
Qed.

(** The state after a page was zapped, with memory and headers [k]. *)
Definition zap_state (spt : Z) (sp : kvm_mmu_page) (k : kvm) (x : mmu) : mmu :=
  if root_count sp =? 0 then set_core k (set_active (remove spt (active_mmu_pages x)) (u32 (n_used_mmu_pages x + -1)) x)
  else
    let y := set_core k (set_active (spt :: remove spt (active_mmu_pages x)) (n_used_mmu_pages x) x) in
    if negb (invalid (role sp)) && negb (is_obsolete_sp x sp) then add_request MMU_RELOAD_ALL y else y.

(** No entry of the page maps or points to anything. *)
Definition empty_page (k : kvm) (spt : Z) : Prop :=
  forall a v, spt_of a = spt -> spt_mem k !! a = Some v -> is_shadow_present_pte m v = false.

Record zapped (spt : Z) (sp : kvm_mmu_page) (k k' : kvm) : Prop := {
  za_slots : slots k' = slots k; za_pages : pages k' = <[spt := set_invalid sp]> (pages k);
  za_objects : objects (lists k') = objects (lists k); za_heads : dom (heads k') = dom (heads k);
  za_empty : empty_page k' spt;
  za_parents a v : nonleaf m k a v -> child_of v = spt -> exists w, spt_mem k' !! a = Some w /\ is_shadow_present_pte m w = false;
  za_mem a : spt_of a <> spt -> (forall v, nonleaf m k a v -> child_of v <> spt) -> spt_mem k' !! a = spt_mem k !! a
}.

Lemma prepare_zap_run zap x ls spt sp inv : tree m (core x) ls None -> pages (core x) !! spt = Some sp ->
  exists k' ls', prepare_zap m zap spt inv x =
      Ok (if root_count sp =? 0 then (1, spt :: remove spt inv) else (0, remove spt inv), zap_state spt sp k' x) /\
    tree m k' ls' None /\ ls' !! Parents spt = Some [] /\ zapped spt sp (core x) k'.
Proof.
  intros Ht Esp. pose proof (tr_pages _ _ _ _ Ht _ _ Esp) as Hpg. destruct (tree_page _ _ _ _ _ Ht Esp) as [Es _].
  unfold prepare_zap. rewrite (st_bind_Ok _ _ _ _ _ (no_unsync_children zap x spt sp inv Esp Hpg)).
  assert (Hal : spt mod PAGE_SIZE = 0) by apply Hpg.
  destruct (zap_ptes_run spt (entries spt) x ls None sp Ht Esp) as (k1 & ls1 & E1 & Ht1 & [K1 K2 K3 K4] & He1 & Hs1).
  { intros a Ha%elem_of_entries; [|done]. split; [|split; [tauto|done]]. apply (tr_mem _ _ _ _ Ht). destruct Ha as [? ->]. eauto. }
  unfold kvm_mmu_page_unlink_children. rewrite (st_bind_Ok _ _ _ _ _ E1). set (x1 := set_core k1 x).
  assert (Esp1 : pages (core x1) !! spt = Some sp) by (cbn; by rewrite K2).
  destruct (tree_page _ _ _ _ _ Ht1 Esp1) as [_ (w & l & Hw & El)].
  destruct (unlink_parents_run spt (list_fuel (lists (core x1))) x1 ls1 l sp Ht1 Esp1 El) as (k2 & ls2 & E2 & Ht2 & [J1 J2 J3 J4] & Hl2 & Hm2).
  { apply (list_fuel_enough m (core x1) ls1 (Parents spt) l); [apply Ht1|done]. }
  unfold kvm_mmu_unlink_parents. rewrite st_bind_assoc. unfold state at 1. rewrite (st_bind_Ok _ _ x1 x1 x1) by done.
  rewrite (st_bind_Ok _ _ _ _ _ E2). change (set_core k2 x1) with (set_core k2 x). set (x2 := set_core k2 x).
  assert (Esp2 : pages (core x2) !! spt = Some sp) by (cbn; by rewrite J2). pose proof Esp2 as Esp2'. rewrite <- Es in Esp2'.
  rewrite (st_bind_Ok _ _ _ _ _ (header_Ok x2 spt sp Esp2')). destruct Hpg as [_ Hd [Hu _] _ _]. rewrite Hd, andb_false_r, Hu.
  rewrite (st_bind_Ok _ _ x2 tt x2) by done. rewrite (st_bind_Ok _ _ x2 tt x2) by done. rewrite (st_bind_Ok _ _ x2 x2 x2) by done.
  set (k3 := set_pages (<[spt := set_invalid sp]>) k2).
  exists k3, ls2. split.
  - unfold zap_state. destruct (root_count sp =? 0).
    + rewrite (st_bind_Ok _ _ x2 (1, spt :: remove spt inv) (set_active (remove spt (active_mmu_pages x2)) (u32 (n_used_mmu_pages x2 + -1)) x2)) by done.
      rewrite (st_bind_Ok _ _ _ _ _ (update_Ok (set_active (remove spt (active_mmu_pages x2)) (u32 (n_used_mmu_pages x2 + -1)) x2) spt sp set_invalid Esp2 Es)). done.
    + set (y := set_active (spt :: remove spt (active_mmu_pages x2)) (n_used_mmu_pages x2) x2).
      change (is_obsolete_sp x2 sp) with (is_obsolete_sp x sp). destruct (negb (invalid (role sp)) && negb (is_obsolete_sp x sp)).
      * rewrite (st_bind_Ok _ _ x2 (0, remove spt inv) (add_request MMU_RELOAD_ALL y)) by done.
        by rewrite (st_bind_Ok _ _ _ _ _ (update_Ok (add_request MMU_RELOAD_ALL y) spt sp set_invalid Esp2 Es)).
      * rewrite (st_bind_Ok _ _ x2 (0, remove spt inv) y) by done.
        by rewrite (st_bind_Ok _ _ _ _ _ (update_Ok y spt sp set_invalid Esp2 Es)).
  - split; [by apply (tree_update _ _ _ _ sp)|]. split; [done|]. cbn [core set_core x1 x2] in *.
    assert (Hmem : forall a, spt_mem k3 !! a = if bool_decide (a ∈ l) then Some 0 else spt_mem k1 !! a) by (intros a; apply Hm2).
    destruct (tr_parents _ _ _ _ Ht1 _ _ El) as [_ Hi]. split; cbn [k3 set_pages slots pages lists heads]; try congruence.
    + intros a v Ha. rewrite Hmem. case_bool_decide; [intros [= <-]; apply zero_not_present|]. intros Ev. apply (He1 a); [|done].
      apply elem_of_entries; [done|]. split; [|done]. assert (Hsm : is_Some (spt_mem k1 !! a)) by eauto. apply (tr_mem _ _ _ _ Ht1) in Hsm. tauto.
    + intros a v Hv Hc. destruct (spt_mem k1 !! a) as [u|] eqn:Eu.
      * exists (if bool_decide (a ∈ l) then 0 else u). split; [rewrite Hmem; case_bool_decide; congruence|]. case_bool_decide as Hal'; [apply zero_not_present|].
        destruct (is_shadow_present_pte m u) eqn:Hpu; [|done]. exfalso. apply Hal', Hi. left. exists v. split; [|done].
        destruct (decide (a ∈ entries spt)) as [Hin|Hni]; [by rewrite (He1 a u Hin Eu) in Hpu|]. rewrite Hs1 in Eu by done.
        destruct Hv as (Ev & Hpv & q & Eq & Hq). split; [by rewrite Hs1|]. split; [done|]. exists q. by rewrite K2.
      * exfalso. assert (Hsm : is_Some (spt_mem (core x) !! a)) by (destruct Hv as (-> & _); eauto). apply (tr_mem _ _ _ _ Ht) in Hsm.
        rewrite <- K2 in Hsm. apply (tr_mem _ _ _ _ Ht1) in Hsm. rewrite Eu in Hsm. by destruct Hsm.
    + intros a Ha Hne. assert (Hni : a ∉ entries spt) by (rewrite elem_of_entries by done; tauto). rewrite Hmem, bool_decide_false; [by apply Hs1|].
      intros [(v & (Ev & Hpv & q & Eq & Hq) & Hc)|]%Hi; [|done]. apply (Hne v); [|done]. rewrite Hs1 in Ev by done. split; [done|]. split; [done|].
      exists q. by rewrite <- K2.
Qed.

Lemma elem_of_remove a b l : a ∈ remove b l <-> a <> b /\ a ∈ l.
Proof. unfold remove. by rewrite list_elem_of_filter. Qed.

Lemma NoDup_remove b l : NoDup l -> NoDup (remove b l).
Proof. apply NoDup_filter. Qed.

Lemma tables_zap x spt sp k : tables x -> pages (core x) !! spt = Some sp -> pages k = <[spt := set_invalid sp]> (pages (core x)) ->
  tables (zap_state spt sp k x).
Proof.
  intros Hb Esp Ep.
  assert (H : forall y, core y = k -> mmu_page_hash y = mmu_page_hash x -> mmu_page_cache y = mmu_page_cache x ->
    NoDup (active_mmu_pages y) -> (forall a, a ∈ active_mmu_pages y -> a = spt \/ a ∈ active_mmu_pages x) -> tables y).
  { intros y Ec Eh Eca Hn Ha.
    assert (Hpg : forall b q, pages k !! b = Some q -> exists q0, pages (core x) !! b = Some q0 /\ sp_gfn q = sp_gfn q0).
    { intros b q. rewrite Ep, lookup_insert. case_decide; [intros [= <-]; subst b; by exists sp|eauto]. }
    assert (His : forall b, is_Some (pages k !! b) <-> is_Some (pages (core x) !! b)).
    { intros b. rewrite Ep, lookup_insert. case_decide; [subst b; rewrite Esp; split; eauto|done]. }
    split; rewrite ?Ec.
    - intros b q (q0 & Eq0 & Eg)%Hpg. unfold chain_of. rewrite Eh, Eg. by apply (tb_hash _ Hb).
    - intros b l a. rewrite Eh. intros El Hl. destruct (tb_chain _ Hb b l a El Hl) as (q & Eq & Hq).
      destruct (proj2 (His a)) as [q' Eq']; [by eexists|]. destruct (Hpg a q' Eq') as (q0 & Eq0 & Eg). exists q'. split; [done|]. congruence.
    - intros b l. rewrite Eh. by apply (tb_nodup _ Hb).
    - intros a [->|Hin]%Ha; apply His; [by eexists|by apply (tb_active _ Hb)].
    - done.
    - rewrite Eca. destruct (tb_cache _ Hb) as [Hc1 Hc2]. split; [done|]. intros p Hp. destruct (Hc2 p Hp) as [Hal Hno]. split; [done|].
      apply eq_None_not_Some. rewrite His, Hno. by intros [? ?]. }
  unfold zap_state. pose proof (tb_active_nodup _ Hb) as Hn. destruct (root_count sp =? 0); [apply H; try done; cbn|].
  - by apply NoDup_remove.
  - intros a [_ ?]%elem_of_remove. by right.
  - assert (Hn' : NoDup (spt :: remove spt (active_mmu_pages x))).
    { apply NoDup_cons. rewrite elem_of_remove. split; [by intros [? _]|by apply NoDup_remove]. }
    assert (Ha' : forall a, a ∈ spt :: remove spt (active_mmu_pages x) -> a = spt \/ a ∈ active_mmu_pages x).
    { intros a [->|[_ ?]%elem_of_remove]%elem_of_cons; auto. }
    destruct (_ && _); by apply H.
Qed.

(** ** Freeing a page *)

Lemma foldl_delete_lookup (l : list Z) : forall (h : gmap Z Z) a, foldl (fun h a => delete a h) h l !! a = if bool_decide (a ∈ l) then None else h !! a.
Proof.
  induction l as [|b l IH]; intros h a; [done|]. cbn [foldl]. rewrite IH, lookup_delete, (bool_decide_ext (a ∈ b :: l) (a = b \/ a ∈ l)) by apply elem_of_cons.
  case_bool_decide as H1; [by rewrite bool_decide_true by auto|]. case_decide as H2; [by rewrite bool_decide_true by auto|].
  rewrite bool_decide_false; [done|]. intros [->|?]; done.
Qed.

Definition freed (spt : Z) (k : kvm) : kvm :=
  Kvm (slots k) (delete (Parents spt) (heads k)) (lists k) (foldl (fun h a => delete a h) (spt_mem k) (entries spt))
    (delete spt (pages k)) (told k) (flushes k) (lpages k) (tlbs_dirty k).

Lemma freed_mem spt k a : spt mod PAGE_SIZE = 0 -> (is_Some (spt_mem k !! a) -> a mod 8 = 0) ->
  spt_mem (freed spt k) !! a = if decide (spt_of a = spt) then None else spt_mem k !! a.
Proof.
  intros Hs Ha. cbn [freed spt_mem]. rewrite foldl_delete_lookup. case_decide as Es.
  - case_bool_decide as Hin; [done|]. rewrite elem_of_entries in Hin by done. destruct (spt_mem k !! a) eqn:E; [|done].
    destruct Hin. split; [apply Ha; by eexists|done].
  - rewrite bool_decide_false; [done|]. rewrite elem_of_entries by done. tauto.
Qed.

Lemma freed_tree k ls spt sp : tree m k ls None -> pages k !! spt = Some sp -> empty_page k spt -> ls !! Parents spt = Some [] ->
  tree m (freed spt k) (delete (Parents spt) ls) None.
Proof.
  intros Ht Esp He El. pose proof (tr_mmu _ _ _ _ Ht) as Hok. pose proof (tr_pages _ _ _ _ Ht _ _ Esp) as [[_ Hal] _ _ _ _].
  assert (Hmem : forall a, spt_mem (freed spt k) !! a = if decide (spt_of a = spt) then None else spt_mem k !! a).
  { intros a. apply freed_mem; [done|]. intros [v Ev]. by apply (mk_align _ _ _ Hok) in Ev. }
  assert (Hpg : forall a, pages (freed spt k) !! a = if decide (a = spt) then None else pages k !! a).
  { intros a. cbn [freed pages]. rewrite lookup_delete. repeat case_decide; congruence. }
  assert (Hlf : forall a v, leaf m (freed spt k) a v <-> leaf m k a v).
  { intros a v. unfold leaf. rewrite Hmem, Hpg. case_decide as Es; [|done]. split; [by intros [? _]|]. intros (Ev & Hp & _).
    by rewrite (He a v Es Ev) in Hp. }
  assert (Hnl : forall a v, nonleaf m (freed spt k) a v <-> nonleaf m k a v).
  { intros a v. unfold nonleaf. rewrite Hmem, Hpg. case_decide as Es; [|done]. split; [by intros [? _]|]. intros (Ev & Hp & _).
    by rewrite (He a v Es Ev) in Hp. }
  destruct (tr_parents _ _ _ _ Ht _ _ El) as [_ Hpa].
  assert (Hch : forall a v, nonleaf m k a v -> child_of v <> spt) by (intros a v Hv Hc; apply (not_elem_of_nil a), Hpa; left; by exists v).
  split.
  - apply (mmu_ok_leaves m k _ ls _); try done.
    + destruct (mk_lists _ _ _ Hok) as [ch Hl]. exists (delete (Parents spt) ch). by apply lists_delete.
    + intros a v. rewrite Hmem. case_decide; [done|]. intros Ev. split; [by eapply (mk_addr _ _ _ Hok)|by eapply (mk_align _ _ _ Hok)].
    + intros a v Hv%Hlf. unfold rmap_of, spte_gfn. rewrite Hpg. case_decide as Es; [|done]. apply Hlf in Hv as (Ev & Hp & _). by rewrite (He a v Es Ev) in Hp.
    + intros sl lv i. by rewrite lookup_delete_ne.
    + intros sl lv i. cbn [freed heads]. by rewrite lookup_delete_ne.
  - intros a q. rewrite Hpg. case_decide; [done|]. apply (tr_pages _ _ _ _ Ht).
  - intros a. rewrite Hmem, Hpg. case_decide; [|apply (tr_mem _ _ _ _ Ht)]. split; [by intros [? ?]|by intros [_ [? ?]]].
  - intros a v q Hv%Hlf. rewrite Hpg. case_decide; [done|]. by eapply (tr_level _ _ _ _ Ht).
  - intros a v q Hv%Hnl. rewrite Hpg. case_decide; [done|]. intros Eq. destruct (tr_child _ _ _ _ Ht _ _ _ Hv Eq) as (c & Ec & Hc). exists c.
    rewrite Hpg, decide_False by (by apply (Hch a)). done.
  - intros a. rewrite Hpg. cbn [freed heads]. rewrite lookup_delete. repeat case_decide; try congruence; [|apply (tr_heads _ _ _ _ Ht)].
    split; by intros [? ?].
  - intros a l (Hne & El')%lookup_delete_Some. destruct (tr_parents _ _ _ _ Ht _ _ El') as [Hn Hi]. split; [done|]. intros b. rewrite Hi.
    by setoid_rewrite Hnl.
Qed.

Lemma free_page_run x ls spt sp : tree m (core x) ls None -> tables x -> pages (core x) !! spt = Some sp ->
  empty_page (core x) spt -> ls !! Parents spt = Some [] -> spt ∉ active_mmu_pages x ->
  exists h, kvm_mmu_free_page spt x = Ok (tt, set_core (freed spt (core x)) (set_hash h x)) /\
    tree m (freed spt (core x)) (delete (Parents spt) ls) None /\ tables (set_core (freed spt (core x)) (set_hash h x)).
Proof.
  intros Ht Hb Esp He El Hact. destruct (tree_page _ _ _ _ _ Ht Esp) as [Es _]. pose proof Esp as Esp'. rewrite <- Es in Esp'.
  unfold kvm_mmu_free_page. rewrite (st_bind_Ok _ _ _ _ _ (header_Ok _ _ _ Esp')).
  set (b := kvm_page_table_hashfn (sp_gfn sp)). set (l := default [] (mmu_page_hash x !! b)). exists (<[b := remove spt l]>).
  split; [done|]. split; [by apply freed_tree with sp|].
  assert (Hl : forall a, a ∈ l -> exists q, pages (core x) !! a = Some q /\ kvm_page_table_hashfn (sp_gfn q) = b).
  { intros a Ha. unfold l in Ha. destruct (mmu_page_hash x !! b) as [l0|] eqn:E; [|by apply not_elem_of_nil in Ha]. by eapply (tb_chain _ Hb). }
  split; cbn [core set_core set_hash mmu_page_hash active_mmu_pages mmu_page_cache freed pages].
  - intros a q (Hne & Eq)%lookup_delete_Some. pose proof (tb_hash _ Hb _ _ Eq) as Hin. unfold chain_of in *. cbn [mmu_page_hash set_core set_hash].
    rewrite lookup_insert. case_decide as E; [|done]. cbn. apply elem_of_remove. split; [done|]. unfold l. by rewrite E.
  - intros b' l' a. rewrite lookup_insert. case_decide as E.
    + intros [= <-] [Hne Ha]%elem_of_remove. destruct (Hl a Ha) as (q & Eq & Hq). exists q. by rewrite lookup_delete_ne, Eq, Hq.
    + intros El' Ha. destruct (tb_chain _ Hb b' l' a El' Ha) as (q & Eq & Hq). exists q. rewrite lookup_delete_ne; [done|].
      intros <-. assert (q = sp) as -> by congruence. done.
  - intros b' l'. rewrite lookup_insert. case_decide; [intros [= <-]; apply NoDup_remove|apply (tb_nodup _ Hb)].
    unfold l. destruct (mmu_page_hash x !! b) eqn:E; [by apply (tb_nodup _ Hb) in E|constructor].
  - intros a Ha. rewrite lookup_delete_ne by (intros <-; done). by apply (tb_active _ Hb).
  - apply Hb.
  - destruct (tb_cache _ Hb) as [Hc1 Hc2]. split; [done|]. intros p Hp. destruct (Hc2 p Hp) as [? Hno]. split; [done|].
    rewrite lookup_delete. by case_decide.
Qed.

(** ** Pages that wait to be freed *)

(** Nothing points to the page, and it holds nothing. *)
Record unlinked (k : kvm) (spt : Z) : Prop := {
  un_page : is_Some (pages k !! spt);
  un_empty : empty_page k spt;
  un_parents a v : nonleaf m k a v -> child_of v <> spt
}.

Definition doomed (x : mmu) (l : list Z) : Prop :=
  NoDup l /\ forall spt, spt ∈ l -> unlinked (core x) spt /\ spt ∉ active_mmu_pages x.

Lemma unlinked_list k ls spt : tree m k ls None -> unlinked k spt -> ls !! Parents spt = Some [].
Proof.
  intros Ht [[sp Esp] _ Hp]. destruct (tree_page _ _ _ _ _ Ht Esp) as [_ (w & l & _ & El)]. destruct (tr_parents _ _ _ _ Ht _ _ El) as [_ Hi].
  destruct l as [|a l]; [done|]. destruct (proj1 (Hi a)) as [(v & Hv & Hc)|]; [left| |done]. by apply Hp in Hv.
Qed.

(** The entries of [k'] were in [k], and its pages had the same levels. *)
Record fewer (k k' : kvm) : Prop := {
  fe_mem a v : spt_mem k' !! a = Some v -> is_shadow_present_pte m v = true -> spt_mem k !! a = Some v;
  fe_pages spt sp : pages k' !! spt = Some sp -> exists sp0, pages k !! spt = Some sp0 /\ same_page sp0 sp /\ root_count sp = root_count sp0
}.

#[global] Instance fewer_preorder : PreOrder fewer.
Proof.
  split; [intros k; split; [done|intros spt sp E; exists sp; by repeat split]|]. intros k1 k2 k3 [M1 P1] [M2 P2]. split.
  - intros a v E Hp. apply M1; [by apply M2|done].
  - intros spt sp (sp2 & E2 & [S1 S2 S3 S4 S5 S6] & R)%P2. destruct (P1 _ _ E2) as (sp1 & E1 & [T1 T2 T3 T4 T5 T6] & R').
    exists sp1. split; [done|]. split; [split; congruence|congruence].
Qed.

Lemma fewer_nonleaf k k' a v : fewer k k' -> nonleaf m k' a v -> nonleaf m k a v.
Proof.
  intros [Hm Hp] (Ev & Hv & sp & Esp & Hl). destruct (Hp _ _ Esp) as (sp0 & E0 & [_ S2 _ _ _ _] & _).
  split; [by apply Hm|]. split; [done|]. exists sp0. by rewrite <- S2.
Qed.

Lemma fewer_leaf k k' a v : fewer k k' -> leaf m k' a v -> leaf m k a v.
Proof.
  intros [Hm Hp] (Ev & Hv & sp & Esp & Hl). destruct (Hp _ _ Esp) as (sp0 & E0 & [_ S2 _ _ _ _] & _).
  split; [by apply Hm|]. split; [done|]. exists sp0. by rewrite <- S2.
Qed.

Lemma unlinked_fewer k k' spt : fewer k k' -> is_Some (pages k' !! spt) -> unlinked k spt -> unlinked k' spt.
Proof.
  intros Hf Hp [_ He Hn]. split; [done|..].
  - intros a v Ha Ev. destruct (is_shadow_present_pte m v) eqn:E; [|done]. rewrite <- E. by apply (He a), (fe_mem _ _ Hf).
  - intros a v Hv. by apply (Hn a), (fewer_nonleaf k k').
Qed.

Lemma zapped_fewer spt sp k k' : pages k !! spt = Some sp -> zapped spt sp k k' -> fewer k k' /\ unlinked k' spt.
Proof.
  intros Esp [Z1 Z2 Z3 Z4 Z5 Z6 Z7].
  assert (Hmem : forall a v, spt_mem k' !! a = Some v -> is_shadow_present_pte m v = true -> spt_mem k !! a = Some v /\ forall w, nonleaf m k a w -> child_of w <> spt).
  { intros a v Ev Hp. assert (Ha : spt_of a <> spt) by (intros Ha; by rewrite (Z5 a v Ha Ev) in Hp).
    assert (Hn : forall w, nonleaf m k a w -> child_of w <> spt).
    { intros w Hw Hc. destruct (Z6 a w Hw Hc) as (u & Eu & Hu). congruence. }
    split; [|done]. by rewrite <- (Z7 a Ha Hn). }
  assert (Hf : fewer k k').
  { split; [intros a v Ev Hp; by apply (Hmem a v)|]. intros b q. rewrite Z2, lookup_insert. case_decide; [intros [= <-]; subst b; exists sp|exists q];
      (split; [done|]; split; [by split|done]). }
  split; [done|]. split; [rewrite Z2, lookup_insert_eq; by eexists|done|]. intros a v Hv. pose proof Hv as (Ev & Hp & _). by apply (Hmem a v Ev Hp), (fewer_nonleaf k k').
Qed.

(** ** Freeing the pages of a list *)

Lemma freed_fewer spt k : spt mod PAGE_SIZE = 0 -> (forall a, is_Some (spt_mem k !! a) -> a mod 8 = 0) -> fewer k (freed spt k).
Proof.
  intros Hs Ha. split.
  - intros a v. rewrite freed_mem by auto. by case_decide.
  - intros b q. cbn [freed pages]. intros (Hne & E)%lookup_delete_Some. exists q. by repeat split.
Qed.

(** [n_used_mmu_pages] counts the active pages. *)
Definition counted (x : mmu) : Prop := n_used_mmu_pages x = u32 (Z.of_nat (length (active_mmu_pages x))).

(** No page is of a generation to come, or has less than no users, and the
    frames of a page are aligned. *)
Record regular (gen : Z) (sp : kvm_mmu_page) : Prop := {
  rg_gen : mmu_valid_gen sp <= gen;
  rg_users : 0 <= root_count sp;
  rg_aligned : sp_gfn sp mod frames (sp_level sp + 1) = 0
}.

Definition orderly (x : mmu) : Prop := forall spt sp, pages (core x) !! spt = Some sp -> regular (valid_gen x) sp.

(** What only the page tables and their lists change. *)
Record aside (x x' : mmu) : Prop := {
  as_slots : slots (core x') = slots (core x);
  as_objects : objects (lists (core x')) = objects (lists (core x));
  as_caches : mmu_page_cache x' = mmu_page_cache x /\ mmu_page_header_cache x' = mmu_page_header_cache x;
  as_gen : valid_gen x' = valid_gen x;
  as_counts : write_count x' = write_count x;
  as_max : n_max_mmu_pages x' = n_max_mmu_pages x;
  as_rmaps sl lv i : is_Some (heads (core x') !! Rmap sl lv i) <-> is_Some (heads (core x) !! Rmap sl lv i);
  as_requests r : r ∈ requests x -> r ∈ requests x';
  as_used : counted x -> counted x';
  as_active : (length (active_mmu_pages x') <= length (active_mmu_pages x))%nat;
  as_orderly : orderly x -> orderly x'
}.

#[global] Instance aside_preorder : PreOrder aside.
Proof.
  split; [intros x; by split|]. intros x y z [A1 A2 [A3 A4] A5 A6 A7 A8 A9 A10 A11 A12] [B1 B2 [B3 B4] B5 B6 B7 B8 B9 B10 B11 B12].
  split; try congruence; [split; congruence|intros; by rewrite B8|auto|auto|lia|auto].
Qed.

Lemma free_pages_run l : forall x ls, tree m (core x) ls None -> tables x -> doomed x l ->
  exists x' ls', free_pages l x = Ok (tt, x') /\ tree m (core x') ls' None /\ tables x' /\ fewer (core x) (core x') /\ aside x x' /\
    active_mmu_pages x' = active_mmu_pages x /\ zapped_obsolete_pages x' = zapped_obsolete_pages x /\
    (forall a, pages (core x') !! a = if bool_decide (a ∈ l) then None else pages (core x) !! a) /\
    (forall a, (forall spt, spt ∈ l -> spt_of a <> spt) -> spt_mem (core x') !! a = spt_mem (core x) !! a).
Proof.
  induction l as [|spt l IH]; intros x ls Ht Hb [Hn Hd]; cbn [free_pages].
  { exists x, ls. do 3 (split; [done|]). split; [reflexivity|]. split; [reflexivity|]. done. }
  apply NoDup_cons in Hn as [Hni Hn]. destruct (Hd spt ltac:(left)) as [Hun Hact]. pose proof Hun as [[sp Esp] He Hpa].
  destruct (free_page_run x ls spt sp Ht Hb Esp He (unlinked_list _ _ _ Ht Hun) Hact) as (h & E & Ht1 & Hb1). rewrite (st_bind_Ok _ _ _ _ _ E).
  assert (Hal : spt mod PAGE_SIZE = 0) by apply (tr_pages _ _ _ _ Ht _ _ Esp).
  assert (Ha8 : forall a, is_Some (spt_mem (core x) !! a) -> a mod 8 = 0) by (intros a [v Ev]; by apply (mk_align _ _ _ (tr_mmu _ _ _ _ Ht)) in Ev).
  set (x1 := set_core (freed spt (core x)) (set_hash h x)) in *.
  assert (Hf1 : fewer (core x) (core x1)) by (by apply freed_fewer).
  destruct (IH x1 (delete (Parents spt) ls) Ht1 Hb1) as (x' & ls' & E' & Ht' & Hb' & Hf' & Ha' & Hact' & Hz' & Hp' & Hm').
  - split; [done|]. intros q Hq. destruct (Hd q ltac:(by right)) as [Hu Hqa]. split; [|done]. apply (unlinked_fewer (core x)); [done| |done].
    cbn. rewrite lookup_delete_ne by (intros <-; done). apply Hu.
  - exists x', ls'. split; [done|]. split; [done|]. split; [done|]. split; [by etrans|]. split.
    { etrans; [|done]. split; try done; [intros; cbn; by rewrite lookup_delete_ne by done|]. intros Hy b q. cbn. intros [_ Eq]%lookup_delete_Some. by apply (Hy b). }
    split; [done|]. split; [done|]. split.
    + intros a. rewrite Hp'. cbn [x1 core set_core freed pages]. rewrite lookup_delete, (bool_decide_ext (a ∈ spt :: l) (a = spt \/ a ∈ l)) by apply elem_of_cons.
      case_bool_decide as H1; [by rewrite bool_decide_true by auto|]. case_decide as H2; [by rewrite bool_decide_true by auto|].
      rewrite bool_decide_false; [done|]. intros [->|?]; done.
    + intros a Hna. rewrite Hm' by (intros q Hq; apply Hna; by right). cbn [x1 core set_core]. rewrite freed_mem by auto.
      rewrite decide_False; [done|]. apply Hna. left.
Qed.

Lemma zap_state_core spt sp k x : core (zap_state spt sp k x) = k.
Proof. unfold zap_state. by repeat case_match. Qed.

Lemma zap_state_active spt sp k x : active_mmu_pages (zap_state spt sp k x) =
  if root_count sp =? 0 then remove spt (active_mmu_pages x) else spt :: remove spt (active_mmu_pages x).
Proof. unfold zap_state. by repeat case_match. Qed.

Lemma zap_state_zapped spt sp k x : zapped_obsolete_pages (zap_state spt sp k x) = zapped_obsolete_pages x.
Proof. unfold zap_state. by repeat case_match. Qed.

Lemma length_remove a l : NoDup l -> a ∈ l -> length l = S (length (remove a l)).
Proof.
  intros Hn Ha. apply list_elem_of_split in Ha as (l1 & l2 & ->). apply NoDup_app in Hn as (_ & Hd & Hn). apply NoDup_cons in Hn as [H2 _].
  assert (Hf : forall l, a ∉ l -> remove a l = l).
  { intros l Hl. unfold remove. induction l as [|b l IH]; [done|]. apply not_elem_of_cons in Hl as [Hne Hl]. rewrite filter_cons_True by congruence. by rewrite IH. }
  assert (H1 : a ∉ l1) by (intros Hin; apply (Hd a Hin); left).
  unfold remove in *. rewrite filter_app, filter_cons_False by tauto. rewrite !Hf by done. rewrite !length_app. cbn. lia.
Qed.

Lemma zap_state_aside spt sp k x : tables x -> spt ∈ active_mmu_pages x -> pages (core x) !! spt = Some sp -> zapped spt sp (core x) k ->
  aside x (zap_state spt sp k x).
Proof.
  intros Hb Hin Esp [Z1 Z2 Z3 Z4 _ _ _].
  assert (Hy : orderly x -> forall b q, pages k !! b = Some q -> regular (valid_gen x) q).
  { intros Hy b q. rewrite Z2, lookup_insert. case_decide; [intros [= <-]; destruct (Hy spt sp Esp); by split|apply Hy]. } pose proof (length_remove spt _ (tb_active_nodup _ Hb) Hin) as Hlen.
  assert (Hh : forall sl lv i, is_Some (heads k !! Rmap sl lv i) <-> is_Some (heads (core x) !! Rmap sl lv i)).
  { intros sl lv i. rewrite <- !elem_of_dom. by rewrite Z4. }
  unfold zap_state. destruct (root_count sp =? 0); [|destruct (_ && _)]; split; try done; cbn [active_mmu_pages set_core set_active add_request requests].
  - unfold counted. cbn [active_mmu_pages n_used_mmu_pages set_core set_active]. rewrite Hlen. intros ->. unfold u32. rewrite Zplus_mod_idemp_l. f_equal. lia.
  - lia.
  - intros r Hr. set_solver.
  - unfold counted. cbn [active_mmu_pages n_used_mmu_pages set_core set_active add_request length]. by rewrite Hlen.
  - cbn [length]. lia.
  - unfold counted. cbn [active_mmu_pages n_used_mmu_pages set_core set_active length]. by rewrite Hlen.
  - cbn [length]. lia.
Qed.

(** ** Zapping pages one after the other *)

(** The state while the pages of [l] wait to be freed: every other page is on
    the list of active pages.  An invalid page but [ex] serves as a root. *)
Record zapping_but (ex : option Z) (x : mmu) (ls : gmap list_head (list Z)) (l : list Z) : Prop := {
  zg_tree : tree m (core x) ls None;
  zg_tables : tables x;
  zg_root spt sp : pages (core x) !! spt = Some sp -> root_count sp <> 0 -> sp_level sp = 4;
  zg_doomed : doomed x l;
  zg_where spt : is_Some (pages (core x) !! spt) -> spt ∈ active_mmu_pages x \/ spt ∈ l;
  zg_gone spt sp : spt ∈ l -> pages (core x) !! spt = Some sp -> root_count sp = 0;
  zg_invalid spt sp : ex <> Some spt -> spt ∈ active_mmu_pages x -> pages (core x) !! spt = Some sp -> invalid (role sp) = true -> root_count sp <> 0
}.

Definition zapping : mmu -> gmap list_head (list Z) -> list Z -> Prop := zapping_but None.

(** The pages after one was zapped. *)
Definition marked (spt : Z) (x x' : mmu) : Prop :=
  (forall b, is_Some (pages (core x') !! b) <-> is_Some (pages (core x) !! b)) /\
  forall b q, pages (core x') !! b = Some q -> exists q0, pages (core x) !! b = Some q0 /\ sp_level q = sp_level q0 /\ root_count q = root_count q0 /\
    mmu_valid_gen q = mmu_valid_gen q0 /\ (b <> spt -> q = q0) /\ (b = spt -> invalid (role q) = true).

Lemma zapped_marked spt sp x x' : pages (core x) !! spt = Some sp -> zapped spt sp (core x) (core x') -> marked spt x x'.
Proof.
  intros Esp Hz. split; intros b; [|intros q]; rewrite (za_pages _ _ _ _ Hz), lookup_insert; case_decide as Eb; try subst b.
  - rewrite Esp. split; eauto.
  - done.
  - intros [= <-]. exists sp. repeat split; try done; congruence.
  - exists q. repeat split; try done; congruence.
Qed.

Lemma zap_step x ls l spt sp : zapping_but (Some spt) x ls l -> spt ∈ active_mmu_pages x -> pages (core x) !! spt = Some sp ->
  let l' := if root_count sp =? 0 then spt :: remove spt l else remove spt l in
  exists x' ls', kvm_mmu_prepare_zap_page m spt l x = Ok (if root_count sp =? 0 then (1, l') else (0, l'), x') /\ zapping x' ls' l' /\
    fewer (core x) (core x') /\ aside x x' /\ marked spt x x' /\ zapped_obsolete_pages x' = zapped_obsolete_pages x /\
    active_mmu_pages x' = (if root_count sp =? 0 then remove spt (active_mmu_pages x) else spt :: remove spt (active_mmu_pages x)).
Proof.
  intros [Ht Hb Hroot [Hdn Hd] Hwh Hgo Hinv] Hspt Esp l'.
  destruct (prepare_zap_run (prepare_zap_page m 1) x ls spt sp l Ht Esp) as (k' & ls' & E & Ht' & Hl' & Hz).
  destruct (zapped_fewer _ _ _ _ Esp Hz) as [Hf Hu]. pose proof (tables_zap x spt sp k' Hb Esp (za_pages _ _ _ _ Hz)) as Hb'.
  pose proof (zap_state_aside _ _ _ _ Hb Hspt Esp Hz) as Has. pose proof (zap_state_active spt sp k' x) as Eact. pose proof (zap_state_zapped spt sp k' x) as Ezap.
  assert (Ec : core (zap_state spt sp k' x) = k') by apply zap_state_core. set (x' := zap_state spt sp k' x) in *.
  assert (Hmk : marked spt x x') by (apply (zapped_marked spt sp); [done|by rewrite Ec]). pose proof Hmk as [His Hpg].
  exists x', ls'. split; [unfold l'; by destruct (root_count sp =? 0)|]. rewrite Ec. split; [|by split].
  assert (Hnz : spt ∉ l) by (intros Hin; by apply Hd in Hin as [_ ?]).
  assert (Hrm : forall b, b ∈ remove spt l <-> b ∈ l) by (intros b; rewrite elem_of_remove; split; [tauto|]; intros Hin; split; [intros ->; done|done]).
  split; rewrite ?Ec in *.
  - done.
  - done.
  - intros b q (q0 & Eq0 & El & Er & _)%Hpg. rewrite El, Er. by eapply Hroot.
  - assert (Hd' : forall b, b ∈ l -> unlinked k' b /\ b ∉ active_mmu_pages x').
    { intros b Hin. destruct (Hd b Hin) as [Hub Hba]. split; [apply (unlinked_fewer (core x)); [done|by apply His, Hub|done]|].
      rewrite Eact. assert (b <> spt) by (intros ->; done). destruct (root_count sp =? 0); [|rewrite elem_of_cons]; rewrite elem_of_remove; tauto. }
    unfold doomed, l'. rewrite Ec. destruct (root_count sp =? 0) eqn:Er.
    + split; [apply NoDup_cons; rewrite Hrm; split; [done|by apply NoDup_remove]|]. intros b [->|Hin%Hrm]%elem_of_cons; [|by apply Hd'].
      split; [done|]. rewrite Eact, elem_of_remove. by intros [? _].
    + split; [by apply NoDup_remove|]. intros b Hin%Hrm. by apply Hd'.
  - intros b Hb0%His. unfold l'. destruct (Hwh b Hb0) as [Hin|Hin]; [|right; destruct (root_count sp =? 0); [right|]; by apply Hrm].
    destruct (decide (b = spt)) as [->|Hne].
    + rewrite Eact. destruct (root_count sp =? 0); [right; left|left; left].
    + left. rewrite Eact. destruct (root_count sp =? 0); [|right]; by apply elem_of_remove.
  - intros b q Hin (q0 & Eq0 & _ & -> & _)%Hpg. unfold l' in Hin. destruct (Z.eqb_spec (root_count sp) 0) as [E0|_]; [apply elem_of_cons in Hin as [->|Hin]; [congruence|]|];
      by apply (Hgo b), Eq0; apply Hrm in Hin.
  - intros b q _ Hin (q0 & Eq0 & El & Er & _ & Hq & _)%Hpg Hi. rewrite Er. destruct (decide (b = spt)) as [->|Hne].
    + assert (q0 = sp) as -> by congruence. intros E0. rewrite Eact, E0 in Hin. cbn in Hin. by apply elem_of_remove in Hin as [? _].
    + rewrite (Hq Hne) in Hi. apply (Hinv b q0); [congruence| |done|done]. rewrite Eact in Hin. destruct (root_count sp =? 0); [|apply elem_of_cons in Hin as [->|Hin]; [done|]];
        by apply elem_of_remove in Hin as [_ ?].
Qed.

Lemma zapping_any ex x ls l : zapping x ls l -> zapping_but ex x ls l.
Proof. intros [? ? ? ? ? ? Hi]. split; try done. intros spt sp _. by apply Hi. Qed.

(** ** Zapping everything *)

(** The state of the sweep over the list of active pages, of which [rest] is
    still to be visited. *)
Record sweeping (x : mmu) (ls : gmap list_head (list Z)) (rest : list Z) : Prop := {
  sw_zapping : zapping x ls (zapped_obsolete_pages x);
  sw_old spt sp : pages (core x) !! spt = Some sp -> is_obsolete_sp x sp = true;
  sw_done spt sp : spt ∈ active_mmu_pages x -> spt ∉ rest -> pages (core x) !! spt = Some sp -> invalid (role sp) = true;
  sw_rest : rest ⊆ active_mmu_pages x
}.

Lemma sweep_step x ls spt rest sp : sweeping x ls (spt :: rest) -> pages (core x) !! spt = Some sp -> invalid (role sp) = false ->
  exists x' ls', kvm_mmu_prepare_zap_page m spt (zapped_obsolete_pages x) x =
      Ok (if root_count sp =? 0 then (1, spt :: remove spt (zapped_obsolete_pages x)) else (0, remove spt (zapped_obsolete_pages x)), x') /\
    sweeping (set_zapped (if root_count sp =? 0 then spt :: remove spt (zapped_obsolete_pages x) else remove spt (zapped_obsolete_pages x)) x') ls'
      (if root_count sp =? 0 then reverse (active_mmu_pages x') else rest) /\
    fewer (core x) (core x') /\ aside x x' /\ (forall b, is_Some (pages (core x') !! b) <-> is_Some (pages (core x) !! b)) /\
    active_mmu_pages x' = (if root_count sp =? 0 then remove spt (active_mmu_pages x) else spt :: remove spt (active_mmu_pages x)).
Proof.
  intros [Hzg Hold Hdone Hrest] Esp Hv. assert (Hspt : spt ∈ active_mmu_pages x) by (apply Hrest; left).
  destruct (zap_step x ls _ spt sp (zapping_any _ _ _ _ Hzg) Hspt Esp) as (x' & ls' & E & Hzg' & Hf & Has & [His Hpg] & _ & Eact).
  exists x', ls'. split; [rewrite E; by destruct (root_count sp =? 0)|]. split; [|by split]. split; cbn [core set_zapped active_mmu_pages zapped_obsolete_pages].
  - destruct Hzg' as [? [] ? ? ? ? ?]. by split; [|split|..].
  - intros b q (q0 & Eq0 & _ & _ & Hg & _)%Hpg. specialize (Hold b q0 Eq0). unfold is_obsolete_sp in *. cbn. by rewrite Hg, (as_gen _ _ Has).
  - intros b q Hin Hni (q0 & Eq0 & _ & _ & _ & Hq & Hi)%Hpg. destruct (decide (b = spt)) as [->|Hne]; [by apply Hi|]. rewrite (Hq Hne).
    destruct (root_count sp =? 0) eqn:Er; [by rewrite elem_of_reverse in Hni|]. apply (Hdone b q0); [|set_solver|done].
    rewrite Eact in Hin. apply elem_of_cons in Hin as [->|Hin]; [done|]. by apply elem_of_remove in Hin as [_ ?].
  - destruct (root_count sp =? 0) eqn:Er; [intros b; by rewrite elem_of_reverse|]. rewrite Eact. intros b Hin.
    destruct (decide (b = spt)) as [->|Hne]; [left|right]. apply elem_of_remove. split; [done|]. apply Hrest. by right.
Qed.

Lemma sweep_loop fuel : forall x ls rest batch, sweeping x ls rest ->
  (length rest + length (active_mmu_pages x) * S (length (active_mmu_pages x)) < fuel)%nat ->
  exists x' ls', zap_obsolete_loop m fuel [] rest batch x = Ok (tt, x') /\ sweeping x' ls' [] /\ fewer (core x) (core x') /\ aside x x' /\
    forall b, is_Some (pages (core x') !! b) <-> is_Some (pages (core x) !! b).
Proof.
  induction fuel as [|fuel IH]; intros x ls rest batch Hsw Hfu; [lia|]. cbn [zap_obsolete_loop]. rewrite (st_bind_Ok _ _ x x x) by done.
  destruct rest as [|spt rest]; [exists x, ls; split; [done|]; split; [done|]; split; [reflexivity|]; split; reflexivity|].
  assert (Hin : spt ∈ active_mmu_pages x) by (apply (sw_rest _ _ _ Hsw); left).
  pose proof (zg_tables _ _ _ _ (sw_zapping _ _ _ Hsw)) as Htb. destruct (tb_active _ Htb _ Hin) as [sp Esp].
  destruct (tree_page _ _ _ _ _ (zg_tree _ _ _ _ (sw_zapping _ _ _ Hsw)) Esp) as [Es _].
  pose proof Esp as Esp'. rewrite <- Es in Esp'. rewrite (st_bind_Ok _ _ _ _ _ (header_Ok _ _ _ Esp')).
  rewrite (sw_old _ _ _ Hsw _ _ Esp). cbn [negb]. destruct (invalid (role sp)) eqn:Hv.
  - apply (IH x ls rest batch); [|cbn in Hfu; lia]. destruct Hsw as [? ? Hdone Hrest]. split; try done; [|set_solver].
    intros b q Hb Hni Eq. destruct (decide (b = spt)) as [->|Hne]; [congruence|]. apply (Hdone b q); set_solver.
  - cbn [head tail default]. rewrite andb_false_r. destruct (sweep_step x ls spt rest sp Hsw Esp Hv) as (x1 & ls1 & E & Hsw1 & Hf1 & Ha1 & Hi1 & Eact).
    replace (if BATCH_ZAP_PAGES <=? batch then @nil bool else []) with (@nil bool) by (by destruct (BATCH_ZAP_PAGES <=? batch)).
    rewrite (st_bind_Ok _ _ _ _ _ E). pose proof (length_remove spt _ (tb_active_nodup _ Htb) Hin) as Hlen.
    set (inv := zapped_obsolete_pages x) in *. set (z := if root_count sp =? 0 then spt :: remove spt inv else remove spt inv) in *.
    assert (Hgo : forall rest' batch', sweeping (set_zapped z x1) ls1 rest' ->
      (length rest' + length (active_mmu_pages x1) * S (length (active_mmu_pages x1)) < fuel)%nat ->
      exists x' ls', zap_obsolete_loop m fuel [] rest' batch' (set_zapped z x1) = Ok (tt, x') /\ sweeping x' ls' [] /\ fewer (core x) (core x') /\ aside x x' /\
        forall b, is_Some (pages (core x') !! b) <-> is_Some (pages (core x) !! b)).
    { intros rest' batch' Hs Hl. destruct (IH (set_zapped z x1) ls1 rest' batch' Hs Hl) as (x' & ls' & E' & Hs' & Hf' & Ha' & Hi'). exists x', ls'.
      split; [done|]. split; [done|]. split; [etrans; [exact Hf1|done]|]. split; [|intros b; rewrite Hi'; apply Hi1]. etrans; [exact Ha1|]. etrans; [|exact Ha']. by split. }
    destruct (root_count sp =? 0) eqn:Er.
    + rewrite (st_bind_Ok _ _ x1 tt (set_zapped z x1)) by done. rewrite (st_bind_Ok _ _ (set_zapped z x1) (set_zapped z x1) (set_zapped z x1)) by done.
      cbn [negb]. apply Hgo; [done|]. cbn [active_mmu_pages set_zapped]. rewrite length_reverse, Eact. cbn in Hfu. nia.
    + rewrite (st_bind_Ok _ _ x1 tt (set_zapped z x1)) by done. rewrite (st_bind_Ok _ _ (set_zapped z x1) (set_zapped z x1) (set_zapped z x1)) by done.
      cbn [negb]. apply Hgo; [done|]. rewrite Eact. cbn [length] in *. rewrite <- Hlen. lia.
Qed.

(** At the end of the sweep no entry is present. *)
Lemma swept_empty x ls a v : sweeping x ls [] -> spt_mem (core x) !! a = Some v -> is_shadow_present_pte m v = false.
Proof.
  intros [[Ht Hb Hroot [_ Hd] Hwh _ Hinv] _ Hdone _] Ev.
  assert (Htop : forall b q, b ∈ active_mmu_pages x -> pages (core x) !! b = Some q -> sp_level q = 4).
  { intros b q Hin Eq. apply (Hroot b q Eq), (Hinv b q ltac:(done) Hin Eq), (Hdone b q); [done|apply not_elem_of_nil|done]. }
  destruct (is_shadow_present_pte m v) eqn:Hp; [|done].
  destruct (present_cases _ _ _ _ _ Ht Ev Hp) as (sp & Esp & Hc). destruct (Hwh (spt_of a)) as [Hin|Hin]; [by eexists|..].
  - pose proof (Htop _ _ Hin Esp) as Hl.
    destruct (is_last_spte v (sp_level sp)) eqn:El; [pose proof (tr_level _ _ _ _ Ht _ _ _ Hc Esp); lia|].
    destruct (tr_child _ _ _ _ Ht _ _ _ Hc Esp) as (c & Ec & Hlc & _). destruct (Hwh (child_of v)) as [Hin'|Hin']; [by eexists|..].
    + pose proof (Htop _ _ Hin' Ec). lia.
    + apply Hd in Hin' as [[_ _ Hun] _]. by apply Hun in Hc.
  - apply Hd in Hin as [[_ He _] _]. by rewrite (He a v eq_refl Ev) in Hp.
Qed.

(** A machine between two operations: the tree and its tables are in order,
    every page is on the list of active pages, a page that was zapped and is
    still there serves as a root, and roots are of the top level. *)
Record settled (x : mmu) (ls : gmap list_head (list Z)) (pend : option (Z * Z)) : Prop := {
  se_tree : tree m (core x) ls pend;
  se_tables : tables x;
  se_active spt : is_Some (pages (core x) !! spt) -> spt ∈ active_mmu_pages x;
  se_zapped : zapped_obsolete_pages x = [];
  se_root spt sp : pages (core x) !! spt = Some sp -> root_count sp <> 0 -> sp_level sp = 4;
  se_invalid spt sp : pages (core x) !! spt = Some sp -> invalid (role sp) = true -> root_count sp <> 0
}.

(** [kvm_mmu_commit_zap_page]: the pages of the list are gone. *)
Lemma commit_run l x ls : tree m (core x) ls None -> tables x -> doomed x l ->
  exists x' ls', kvm_mmu_commit_zap_page l x = Ok (tt, x') /\ tree m (core x') ls' None /\ tables x' /\ fewer (core x) (core x') /\ aside x x' /\
    active_mmu_pages x' = active_mmu_pages x /\ zapped_obsolete_pages x' = zapped_obsolete_pages x /\
    (forall a, pages (core x') !! a = if bool_decide (a ∈ l) then None else pages (core x) !! a) /\
    (forall a, (forall spt, spt ∈ l -> spt_of a <> spt) -> spt_mem (core x') !! a = spt_mem (core x) !! a).
Proof.
  intros Ht Hb Hd. destruct l as [|spt l].
  - exists x, ls. do 3 (split; [done|]). split; [reflexivity|]. split; [reflexivity|]. done.
  - set (k1 := Kvm (slots (core x)) (heads (core x)) (lists (core x)) (spt_mem (core x)) (pages (core x)) (told (core x)) (S (flushes (core x))) (lpages (core x)) 0).
    assert (Hb1 : tables (set_core k1 x)) by (destruct Hb; split; done).
    assert (Hd1 : doomed (set_core k1 x) (spt :: l)).
    { destruct Hd as [Hn Hd]. split; [done|]. intros b Hin. destruct (Hd b Hin) as [[U1 U2 U3] Hna]. split; [by split|done]. }
    destruct (free_pages_run (spt :: l) (set_core k1 x) ls) as (x' & ls' & E & Ht' & Hb' & Hf & Ha & R); try done; [by eapply tree_ext|].
    exists x', ls'. split; [exact E|]. split; [done|]. split; [done|]. split; [etrans; [|exact Hf]|].
    { split; [done|]. intros b q Eq. exists q. by repeat split. }
    split; [|exact R]. etrans; [|exact Ha]. by split.
Qed.

Lemma settled_zapping x ls : settled x ls None -> zapping x ls [].
Proof.
  intros [Ht Hb Hact Hz Hroot Hinv]. split; try done.
  - split; [constructor|]. intros spt Hin. by apply not_elem_of_nil in Hin.
  - intros spt Hs. left. by apply Hact.
  - intros spt sp Hin. by apply not_elem_of_nil in Hin.
  - intros spt sp _ _. apply Hinv.
Qed.

(** When the pages that wait are freed, the machine is between operations
    again. *)
Lemma zapping_commit x ls l : zapping x ls l ->
  exists x' ls', kvm_mmu_commit_zap_page l x = Ok (tt, x') /\ settled (set_zapped [] x') ls' None /\ fewer (core x) (core x') /\ aside x x' /\
    (forall spt sp, pages (core x') !! spt = Some sp -> spt ∈ active_mmu_pages x /\ pages (core x) !! spt = Some sp) /\
    (forall spt sp, pages (core x) !! spt = Some sp -> root_count sp <> 0 -> pages (core x') !! spt = Some sp).
Proof.
  intros [Ht Hb Hroot Hd Hwh Hgo Hinv]. destruct (commit_run _ x ls Ht Hb Hd) as (x' & ls' & E & Ht' & Hb' & Hf & Ha & Eact & _ & Hpg & _).
  assert (Hlast : forall spt sp, pages (core x') !! spt = Some sp -> spt ∈ active_mmu_pages x /\ pages (core x) !! spt = Some sp).
  { intros spt sp. rewrite Hpg. case_bool_decide as Hin; [done|]. intros Esp. split; [|done]. destruct (Hwh spt) as [|]; [by eexists|done|done]. }
  exists x', ls'. split; [done|]. split; [|do 3 (split; [done|]); intros spt sp Esp Hrc; rewrite Hpg; case_bool_decide as Hin; [by rewrite (Hgo spt sp) in Hrc|done]].
  split; cbn [core set_zapped active_mmu_pages zapped_obsolete_pages]; [done|by destruct Hb'; split|..].
  - intros spt [sp Esp]. rewrite Eact. by apply (Hlast spt sp).
  - done.
  - intros spt sp [_ Esp]%Hlast. by apply (Hroot spt).
  - intros spt sp [Hin Esp]%Hlast. by apply (Hinv spt).
Qed.

Lemma zap_all_run x ls : settled x ls None ->
  (forall spt sp, pages (core x) !! spt = Some sp -> mmu_valid_gen sp <> u64 (valid_gen x + 1)) ->
  exists x' ls', kvm_mmu_invalidate_zap_all_pages m [] x = Ok (tt, x') /\ settled x' ls' None /\ fewer (core x) (core x') /\
    aside (add_request MMU_RELOAD_ALL (set_gen (u64 (valid_gen x + 1)) x)) x' /\
    (forall a v, spt_mem (core x') !! a = Some v -> is_shadow_present_pte m v = false) /\
    (forall spt sp, pages (core x') !! spt = Some sp -> invalid (role sp) = true) /\
    (forall spt sp, pages (core x) !! spt = Some sp -> root_count sp <> 0 -> exists sp', pages (core x') !! spt = Some sp' /\ same_page sp sp' /\ root_count sp' = root_count sp).
Proof.
  intros Hse Hgen. pose proof Hse as [Ht Hb Hact Hz Hroot Hinv]. unfold kvm_mmu_invalidate_zap_all_pages. rewrite (st_bind_Ok _ _ x x x) by done.
  set (x1 := add_request MMU_RELOAD_ALL (set_gen (u64 (valid_gen x + 1)) x)).
  rewrite (st_bind_Ok _ _ x tt (set_gen (u64 (valid_gen x + 1)) x)) by done. rewrite (st_bind_Ok _ _ _ tt x1) by done.
  unfold kvm_zap_obsolete_pages. rewrite (st_bind_Ok _ _ x1 x1 x1) by done.
  assert (Hsw : sweeping x1 ls (reverse (active_mmu_pages x1))).
  { split.
    - cbn. rewrite Hz. pose proof (settled_zapping x ls Hse) as [? [] ? ? ? ? ?]. by split; [|split|..].
    - intros spt sp Esp. unfold is_obsolete_sp. apply negb_true_iff, Z.eqb_neq. by eapply Hgen.
    - intros spt sp Hin Hni. by rewrite elem_of_reverse in Hni.
    - intros b. by rewrite elem_of_reverse. }
  destruct (sweep_loop (S (length (active_mmu_pages x1)) * (S (length (active_mmu_pages x1)) + length (@nil bool))) x1 ls _ 0 Hsw)
    as (x2 & ls2 & E2 & Hsw2 & Hf2 & Ha2 & Hi2); [rewrite length_reverse; cbn [length]; lia|].
  rewrite (st_bind_Ok _ _ _ _ _ E2). rewrite (st_bind_Ok _ _ x2 x2 x2) by done. destruct (zapping_commit _ _ _ (sw_zapping _ _ _ Hsw2)) as (x3 & ls3 & E3 & Hse3 & Hf3 & Ha3 & Hlast & Hkept).
  rewrite (st_bind_Ok _ _ _ _ _ E3). exists (set_zapped [] x3), ls3. split; [done|]. split; [done|]. split; [etrans; [exact Hf2|exact Hf3]|]. split; [|split; [|split]].
  - etrans; [exact Ha2|]. etrans; [exact Ha3|]. by split.
  - intros a v Ev. destruct (is_shadow_present_pte m v) eqn:Hp; [|done]. rewrite <- Hp. by apply (swept_empty x2 ls2 a), (fe_mem _ _ Hf3).
  - intros spt sp [Hin Esp]%Hlast. apply (sw_done _ _ _ Hsw2 spt); [done|apply not_elem_of_nil|done].
  - intros spt sp Esp Hrc. destruct (proj2 (Hi2 spt)) as [q Eq]; [by eexists|]. destruct (fe_pages _ _ Hf2 spt q Eq) as (q0 & E0 & Hs & Hr).
    assert (q0 = sp) as -> by (cbn in E0; congruence). exists q. split; [|done]. apply Hkept; congruence.
Qed.

End tree.
