(* ===== verification/RoomSpec.v ===== *)
(** * Making room for shadow pages (kvm-kmod x86/mmu.c)

    [prepare_zap_oldest_mmu_page] in a loop: pages in use as a root move to the
    head of the list and stay.  The loop ends as soon as there is room beside
    the roots, and only then. *)

From S2P Require Import Prelude MemSlots Spte PteList Rmap ShadowPages ShadowSpec.

(** How many elements at the start of a list satisfy [p]. *)
Fixpoint leading (p : Z -> bool) (l : list Z) : nat :=
  match l with [] => O | a :: l => if p a then S (leading p l) else O end.

Lemma leading_app p l1 l2 : (exists a, a ∈ l1 /\ p a = false) -> leading p (l1 ++ l2) = leading p l1.
Proof.
  induction l1 as [|b l1 IH]; intros (a & Ha & Hp); [by apply not_elem_of_nil in Ha|]. cbn. destruct (p b) eqn:Eb; [|done]. f_equal. apply IH.
  apply elem_of_cons in Ha as [->|Ha]; [congruence|eauto].
Qed.

Lemma leading_le p l : (leading p l <= length l)%nat.
Proof. induction l as [|a l IH]; cbn; [done|]. destruct (p a); lia. Qed.

Lemma leading_ext p q l : (forall a, p a = q a) -> leading p l = leading q l.
Proof. intros H. induction l as [|a l IH]; cbn; [done|]. by rewrite H, IH. Qed.

(** How many satisfy it at all. *)
Definition count (p : Z -> bool) (l : list Z) : nat := length (filter (fun a => p a = true) l).

Lemma count_app p l1 l2 : count p (l1 ++ l2) = (count p l1 + count p l2)%nat.
Proof. unfold count. by rewrite filter_app, length_app. Qed.

Lemma count_one p a : count p [a] = if p a then 1%nat else 0%nat.
Proof. unfold count. rewrite filter_cons. by destruct (p a). Qed.

Lemma count_ext p q l : (forall a, p a = q a) -> count p l = count q l.
Proof. intros H. unfold count. f_equal. apply list_filter_iff. intros a. by rewrite H. Qed.

Lemma count_split p l : (count p l + count (fun a => negb (p a)) l = length l)%nat.
Proof.
  induction l as [|a l IH]; [done|]. change (a :: l) with ([a] ++ l). rewrite !count_app, !count_one. cbn. destruct (p a); cbn; lia.
Qed.

Lemma count_exists p l : count p l <> O -> exists a, a ∈ l /\ p a = true.
Proof.
  unfold count. destruct (filter _ l) as [|a l'] eqn:E; [done|]. intros _. exists a. assert (Ha : a ∈ a :: l') by left. rewrite <- E in Ha. apply list_elem_of_filter in Ha. tauto.
Qed.

(** The page serves as a root. *)
Definition is_root (x : mmu) (spt : Z) : bool :=
  match pages (core x) !! spt with Some sp => negb (root_count sp =? 0) | None => false end.

Definition roots (x : mmu) : nat := count (is_root x) (active_mmu_pages x).

Section room.
  Context (m : shadow_masks).

Lemma marked_root spt x x' b : marked spt x x' -> is_root x' b = is_root x b.
Proof.
  intros [His Hpg]. unfold is_root. destruct (pages (core x') !! b) as [q|] eqn:Eq.
  - destruct (Hpg b q Eq) as (q0 & -> & _ & -> & _). done.
  - destruct (pages (core x) !! b) as [q0|] eqn:Eq0; [|done]. destruct (proj2 (His b)) as [q Eq']; [by eexists|]. congruence.
Qed.

Lemma remove_last l a : NoDup (l ++ [a]) -> remove a (l ++ [a]) = l.
Proof.
  intros (_ & Hd & _)%NoDup_app. assert (Hni : a ∉ l) by (intros Hin; apply (Hd a Hin); left). unfold remove. rewrite filter_app, filter_cons_False by tauto.
  rewrite filter_nil, app_nil_r. clear Hd. induction l as [|b l IH]; [done|]. apply not_elem_of_cons in Hni as [Hne Hni]. rewrite filter_cons_True by congruence. by rewrite IH.
Qed.

(** [cond] only holds above [N] pages. *)
Definition stops_at (cond : mmu -> bool) (mx : Z) (N : nat) : Prop :=
  forall z, counted z -> n_max_mmu_pages z = mx -> (length (active_mmu_pages z) <= N)%nat -> cond z = false.

(** [cond] does not hold when only the roots are left. *)
Lemma zap_while_run cond R mx : (forall y, counted y -> n_max_mmu_pages y = mx -> length (active_mmu_pages y) = R -> cond y = false) ->
  forall fuel x ls l, zapping m x ls l -> counted x -> n_max_mmu_pages x = mx -> roots x = R ->
  (count (fun a => negb (is_root x a)) (active_mmu_pages x) * S (length (active_mmu_pages x)) + leading (is_root x) (reverse (active_mmu_pages x)) < fuel)%nat ->
  exists x' ls' l', zap_while m fuel cond l x = Ok (l', x') /\ zapping m x' ls' l' /\ fewer m (core x) (core x') /\ aside x x' /\
    zapped_obsolete_pages x' = zapped_obsolete_pages x /\ cond x' = false /\ (forall b, is_Some (pages (core x') !! b) <-> is_Some (pages (core x) !! b)) /\
    forall N, stops_at cond mx N -> (N <= length (active_mmu_pages x))%nat -> (N <= length (active_mmu_pages x'))%nat.
Proof.
  intros Hc. induction fuel as [|fuel IH]; intros x ls l Hz Hu Hmx Hr Hf; [lia|]. cbn [zap_while]. rewrite (st_bind_Ok _ _ x x x) by done.
  destruct (cond x) eqn:Ec; [|exists x, ls, l; split; [done|]; split; [done|]; split; [reflexivity|]; split; [reflexivity|done]].
  pose proof (count_split (is_root x) (active_mmu_pages x)) as Hsp. fold (roots x) in Hsp.
  assert (HN : count (fun a => negb (is_root x a)) (active_mmu_pages x) <> O) by (intros E0; rewrite (Hc x Hu Hmx) in Ec; [done|lia]).
  destruct (last (active_mmu_pages x)) as [spt|] eqn:El; [|apply last_None in El; by rewrite El in HN].
  apply last_Some in El as [pre Epre]. assert (Hin : spt ∈ active_mmu_pages x) by (rewrite Epre; set_solver).
  pose proof (zg_tables _ _ _ _ _ Hz) as Htb. destruct (tb_active _ Htb _ Hin) as [sp Esp].
  destruct (zap_step m x ls l spt sp (zapping_any m _ _ _ _ Hz) Hin Esp) as (x' & ls' & E & Hz' & Hf' & Ha' & Hmk & Ez & Eact).
  unfold prepare_zap_oldest_mmu_page. rewrite st_bind_assoc, (st_bind_Ok _ _ x x x) by done. rewrite Epre, last_snoc. set (l' := if root_count sp =? 0 then spt :: remove spt l else remove spt l) in *.
  assert (E' : kvm_mmu_prepare_zap_page m spt l x = Ok ((if root_count sp =? 0 then 1 else 0, l'), x')) by (rewrite E; by destruct (root_count sp =? 0)).
  rewrite st_bind_assoc, (st_bind_Ok _ _ _ _ _ E'). cbn [fst snd]. rewrite (st_bind_Ok _ _ x' (true, l') x') by done.
  pose proof (tb_active_nodup _ Htb) as Hnd. rewrite Epre in Hnd, Eact. rewrite remove_last in Eact by done.
  assert (Hext : forall a, is_root x' a = is_root x a) by (intros a; by apply (marked_root spt)).
  assert (Hrs : is_root x spt = negb (root_count sp =? 0)) by (unfold is_root; by rewrite Esp).
  destruct (IH x' ls' l' Hz' (as_used _ _ Ha' Hu) ltac:(by rewrite (as_max _ _ Ha'))) as (x2 & ls2 & l2 & E2 & Hz2 & Hf2 & Ha2 & Ez2 & Hc2 & His2 & HN2).
  - unfold roots in *. rewrite (count_ext _ _ _ Hext), <- Hr, Epre, count_app, count_one, Hrs, Eact. destruct (root_count sp =? 0); cbn [negb]; [lia|].
    change (spt :: pre) with ([spt] ++ pre). rewrite count_app, count_one, Hrs. destruct (root_count sp =? 0) eqn:E0; cbn; lia.
  - rewrite (count_ext _ (fun a => negb (is_root x a)) _ (fun a => f_equal negb (Hext a))), (leading_ext _ _ _ Hext), Eact. rewrite Epre in Hf, HN.
    rewrite count_app, count_one, Hrs in Hf, HN. rewrite length_app, reverse_snoc in Hf. cbn [length leading] in Hf. rewrite Hrs in Hf.
    destruct (root_count sp =? 0) eqn:E0; cbn [negb] in *.
    + pose proof (leading_le (is_root x) (reverse pre)) as Hle. rewrite length_reverse in Hle. nia.
    + change (spt :: pre) with ([spt] ++ pre). rewrite count_app, count_one, Hrs. cbn [negb]. rewrite reverse_app. change (reverse [spt]) with [spt].
      rewrite leading_app; [rewrite length_app; cbn [length]; nia|]. destruct (count_exists (fun a => negb (is_root x a)) pre ltac:(lia)) as (a & Ha & Hna).
      exists a. split; [by apply elem_of_reverse|by apply negb_true_iff].
  - exists x2, ls2, l2. split; [done|]. split; [done|]. split; [by etrans|]. split; [by etrans|]. split; [congruence|]. split; [done|].
    split; [intros b; by rewrite His2, (proj1 Hmk)|]. intros N Hst HNx. apply HN2; [done|]. destruct (Nat.le_gt_cases (length (active_mmu_pages x)) N) as [Hle|Hgt]; [by rewrite (Hst x Hu Hmx Hle) in Ec|].
    rewrite Eact. rewrite Epre, length_app in Hgt. cbn in Hgt. destruct (root_count sp =? 0); cbn; lia.
Qed.

(** What making room leaves. *)
Record roomier (x x' : mmu) : Prop := {
  rm_fewer : fewer m (core x) (core x');
  rm_aside : aside x x';
  rm_roots spt sp : pages (core x) !! spt = Some sp -> root_count sp <> 0 -> exists sp', pages (core x') !! spt = Some sp' /\ same_page sp sp' /\ root_count sp' = root_count sp
}.

Lemma roomier_refl x : roomier x x.
Proof. split; [reflexivity|reflexivity|]. intros spt sp Esp _. exists sp. by repeat split. Qed.

Lemma set_zapped_nil x : zapped_obsolete_pages x = [] -> set_zapped [] x = x.
Proof. destruct x; cbn. by intros ->. Qed.

(** Pages are freed until [cond] does not hold; the roots stay. *)
Lemma zap_and_commit cond mx fuel x ls : (forall y, counted y -> n_max_mmu_pages y = mx -> length (active_mmu_pages y) = roots x -> cond y = false) ->
  settled m x ls None -> counted x -> n_max_mmu_pages x = mx -> (S (length (active_mmu_pages x)) * S (length (active_mmu_pages x)) <= fuel)%nat ->
  exists x' ls', (l ← zap_while m fuel cond []; kvm_mmu_commit_zap_page l) x = Ok (tt, x') /\ settled m x' ls' None /\ roomier x x' /\
    (exists y, cond y = false /\ counted y /\ n_max_mmu_pages y = mx /\ length (active_mmu_pages x') = length (active_mmu_pages y) /\ (length (active_mmu_pages y) <= length (active_mmu_pages x))%nat) /\
    forall N, stops_at cond mx N -> (N <= length (active_mmu_pages x))%nat -> (N <= length (active_mmu_pages x'))%nat.
Proof.
  intros Hc Hse Hu Hmx Hf. pose proof (count_split (is_root x) (active_mmu_pages x)) as Hsp. pose proof (leading_le (is_root x) (reverse (active_mmu_pages x))) as Hle.
  rewrite length_reverse in Hle.
  destruct (zap_while_run cond (roots x) mx Hc fuel x ls [] (settled_zapping _ _ _ Hse) Hu Hmx eq_refl ltac:(nia)) as (y & lsy & l & E & Hz & Hfy & Ha & Ez & Ecy & His & HN).
  destruct (zapping_commit m y lsy l Hz) as (x' & ls' & E' & Hse' & Hf' & Ha' & Hlast & Hrt). rewrite (st_bind_Ok _ _ _ _ _ E), E'.
  assert (Ez' : zapped_obsolete_pages x' = [] /\ active_mmu_pages x' = active_mmu_pages y).
  { destruct (commit_run m l y lsy (zg_tree _ _ _ _ _ Hz) (zg_tables _ _ _ _ _ Hz) (zg_doomed _ _ _ _ _ Hz)) as (x2 & ls2 & E2 & _ & _ & _ & _ & Eact2 & Ez2 & _).
    assert (x2 = x') as -> by congruence. rewrite Ez2, Ez. split; [apply Hse|done]. }
  destruct Ez' as [Ez' Eact].
  rewrite set_zapped_nil in Hse' by done. exists x', ls'. split; [done|]. split; [done|]. split; [split|split].
  - by etrans.
  - by etrans.
  - intros spt sp Esp Hrc. destruct (proj2 (His spt)) as [q Eq]; [by eexists|]. destruct (fe_pages _ _ _ Hfy spt q Eq) as (q0 & E0 & Hs & Hr).
    assert (q0 = sp) as -> by congruence. exists q. split; [apply Hrt; congruence|done].
  - exists y. split; [done|]. split; [by apply Ha|]. split; [by rewrite (as_max _ _ Ha)|]. split; [by rewrite Eact|apply Ha].
  - rewrite Eact. exact HN.
Qed.

Lemma counted_small x : counted x -> Z.of_nat (length (active_mmu_pages x)) < 2 ^ 32 -> n_used_mmu_pages x = Z.of_nat (length (active_mmu_pages x)).
Proof. intros -> Hl. apply Z.mod_small. lia. Qed.

Lemma make_available_run fuel x ls : settled m x ls None -> counted x -> Z.of_nat (length (active_mmu_pages x)) <= n_max_mmu_pages x < 2 ^ 32 ->
  Z.of_nat (roots x) + KVM_REFILL_PAGES <= n_max_mmu_pages x -> (S (length (active_mmu_pages x)) * S (length (active_mmu_pages x)) <= fuel)%nat ->
  exists x' ls', make_mmu_pages_available m fuel x = Ok (tt, x') /\ settled m x' ls' None /\ roomier x x' /\
    Z.of_nat (length (active_mmu_pages x')) + KVM_MIN_FREE_MMU_PAGES <= n_max_mmu_pages x.
Proof.
  intros Hse Hu Hmx Hr Hf. unfold make_mmu_pages_available. rewrite (st_bind_Ok _ _ x x x) by done. unfold KVM_REFILL_PAGES in Hr.
  assert (Hav : forall y, counted y -> n_max_mmu_pages y = n_max_mmu_pages x -> Z.of_nat (length (active_mmu_pages y)) <= n_max_mmu_pages x ->
    kvm_mmu_available_pages y = n_max_mmu_pages x - Z.of_nat (length (active_mmu_pages y))).
  { intros y Hy Ey Hly. unfold kvm_mmu_available_pages. rewrite Ey, (counted_small y Hy) by lia. destruct (Z.ltb_spec (Z.of_nat (length (active_mmu_pages y))) (n_max_mmu_pages x)); lia. }
  rewrite (Hav x Hu eq_refl) by lia. destruct (Z.leb_spec KVM_MIN_FREE_MMU_PAGES (n_max_mmu_pages x - Z.of_nat (length (active_mmu_pages x)))) as [Hle|_].
  { exists x, ls. split; [done|]. split; [done|]. split; [apply roomier_refl|lia]. }
  destruct (zap_and_commit (fun y => kvm_mmu_available_pages y <? KVM_REFILL_PAGES) (n_max_mmu_pages x) fuel x ls) as (x' & ls' & E & Hse' & Hrm & (y & Hc & Hy & Ey & Hl1 & Hl2) & _); try done.
  { intros y Hy Ey El. rewrite (Hav y Hy Ey) by lia. unfold KVM_REFILL_PAGES. lia. }
  exists x', ls'. split; [done|]. split; [done|]. split; [done|]. rewrite (Hav y Hy Ey) in Hc by lia. unfold KVM_REFILL_PAGES, KVM_MIN_FREE_MMU_PAGES in *. lia.
Qed.

(** [kvm_mmu_change_mmu_pages] ends unless the goal is below the number of
    roots. *)
Lemma change_pages_run fuel goal x ls : settled m x ls None -> counted x -> Z.of_nat (length (active_mmu_pages x)) < 2 ^ 32 -> Z.of_nat (roots x) <= goal ->
  (S (length (active_mmu_pages x)) * S (length (active_mmu_pages x)) <= fuel)%nat ->
  exists x' ls', kvm_mmu_change_mmu_pages m fuel goal x = Ok (tt, set_max goal x') /\ settled m x' ls' None /\ roomier x x' /\
    Z.of_nat (length (active_mmu_pages x')) <= goal.
Proof.
  intros Hse Hu Hl Hr Hf. unfold kvm_mmu_change_mmu_pages. rewrite (st_bind_Ok _ _ x x x) by done. rewrite (counted_small x Hu Hl).
  destruct (Z.ltb_spec goal (Z.of_nat (length (active_mmu_pages x)))) as [Hlt|Hge].
  - destruct (zap_and_commit (fun y => goal <? n_used_mmu_pages y) (n_max_mmu_pages x) fuel x ls) as (x' & ls' & E & Hse' & Hrm & (y & Hc & Hy & Ey & Hl1 & Hl2) & HN); try done.
    { intros y Hy _ El. rewrite (counted_small y Hy), El by lia. lia. }
    rewrite (counted_small y Hy) in Hc by lia. assert (Hu' : counted x') by by apply Hrm.
    assert (Hge : (Z.to_nat goal <= length (active_mmu_pages x'))%nat).
    { apply HN; [|lia]. intros z Hz _ Hlz. rewrite (counted_small z Hz) by lia. lia. }
    assert (Eg : n_used_mmu_pages x' = goal) by (rewrite (counted_small x' Hu'); lia).
    exists x', ls'. split; [|split; [done|]; split; [done|]; lia].
    pose proof E as E1. unfold mbind, st_bind in E1. destruct (zap_while m fuel _ [] x) as [[l z]|] eqn:Ez; [|done].
    rewrite !st_bind_assoc, (st_bind_Ok _ _ _ _ _ Ez), st_bind_assoc, (st_bind_Ok _ _ _ _ _ E1). by rewrite <- Eg.
  - exists x, ls. split; [done|]. split; [done|]. split; [apply roomier_refl|lia].
Qed.

End room.
