(* ===== verification/DirectMap.v ===== *)
(** * Page faults of the direct map (kvm-kmod x86/mmu.c)

    With nested paging a fault names a guest-physical address.  The fault
    path picks a page size, asks the host for the frame, and under the lock
    walks the shadow pages from the root, makes those that are missing and
    writes the entry.  What the host kernel does, and the methods of the
    processor driver, are the fields of [env]. *)

From S2P Require Import Prelude MemSlots GuestCopy Spte PteList Rmap ShadowPages.

(** ** What is outside *)

Record env := Env {
  (** [kvm_vma_kernel_pagesize] of the area at an address, 0 for none *)
  vma_pagesize : Z -> Z;
  (** [kvm_x86_ops->get_lpage_level] and [kvm_x86_ops->get_mt_mask] *)
  lpage_level : Z;
  mt_mask : Z -> bool -> Z;
  tdp_enabled : bool;
  (** [kvm_is_mmio_pfn] and [PageTransCompound] *)
  is_mmio_pfn : Z -> bool;
  trans_compound : Z -> bool;
  (** the frames [get_user_pages_fast] finds from an address on *)
  user_pages_fast : Z -> Z -> list Z;
  (** [try_async_pf]: [None] when the fault is left to another thread, or the
      frame and whether it may be written *)
  try_async_pf : Z -> bool -> option (Z * bool)
}.

(** The methods of both processor drivers. *)
Definition MTRR_TYPE_UNCACHABLE : Z := 0.
Definition MTRR_TYPE_WRBACK : Z := 6.
Definition VMX_EPT_MT_EPTE_SHIFT : Z := 3.
Definition VMX_EPT_IPAT_BIT : Z := Z.shiftl 1 6.

Definition vmx_get_mt_mask (has_noncoherent_dma : bool) (guest_memory_type : Z -> Z) (gfn : Z) (is_mmio : bool) : Z :=
  if is_mmio then Z.shiftl MTRR_TYPE_UNCACHABLE VMX_EPT_MT_EPTE_SHIFT
  else if has_noncoherent_dma then Z.shiftl (guest_memory_type gfn) VMX_EPT_MT_EPTE_SHIFT
  else Z.lor (Z.shiftl MTRR_TYPE_WRBACK VMX_EPT_MT_EPTE_SHIFT) VMX_EPT_IPAT_BIT.

Definition svm_get_mt_mask (gfn : Z) (is_mmio : bool) : Z := 0.

Definition KVM_PFN_ERR_MASK : Z := Z.shiftl 0x7ff 52.
Definition KVM_PFN_ERR_NOSLOT_MASK : Z := Z.shiftl 0xfff 52.
Definition KVM_PFN_ERR_FAULT : Z := KVM_PFN_ERR_MASK.
Definition KVM_PFN_ERR_HWPOISON : Z := KVM_PFN_ERR_MASK + 1.
Definition KVM_PFN_ERR_RO_FAULT : Z := KVM_PFN_ERR_MASK + 2.

Definition is_error_pfn (pfn : Z) : bool := any pfn KVM_PFN_ERR_MASK.
Definition is_error_noslot_pfn (pfn : Z) : bool := any pfn KVM_PFN_ERR_NOSLOT_MASK.

Definition PFERR_PRESENT_MASK : Z := 1.
Definition PFERR_WRITE_MASK : Z := 2.
Definition PFERR_RSVD_MASK : Z := 8.
Definition ACC_ALL : Z := Z.lor (Z.lor ACC_EXEC_MASK ACC_WRITE_MASK) ACC_USER_MASK.
Definition INVALID_PAGE : Z := 2 ^ 64 - 1.
Definition VALID_PAGE (p : Z) : bool := negb (p =? INVALID_PAGE).
Definition KVM_HPAGE_SIZE (level : Z) : Z := Z.shiftl 1 (PAGE_SHIFT + KVM_HPAGE_GFN_SHIFT level).
Definition KVM_PAGES_PER_HPAGE (level : Z) : Z := KVM_HPAGE_SIZE level / PAGE_SIZE.

(** ** Page sizes *)

Section faults.
  Context (m : shadow_masks) (e : env) (v : kvm_mmu).

Definition kvm_host_page_size (k : kvm_memslots) (gfn : Z) : Z :=
  match gfn_to_hva k gfn with
  | None => PAGE_SIZE
  | Some addr => let size := vma_pagesize e addr in if size =? 0 then PAGE_SIZE else size
  end.

Fixpoint host_level (ls : list Z) (page_size ret : Z) : Z :=
  match ls with
  | [] => ret
  | i :: ls => if KVM_HPAGE_SIZE i <=? page_size then host_level ls page_size i else ret
  end.

Definition host_mapping_level (k : kvm_memslots) (gfn : Z) : Z := host_level levels (kvm_host_page_size k gfn) 0.

Definition gfn_to_memslot_dirty_bitmap (gfn : Z) (no_dirty_log : bool) : VM (option kvm_memory_slot) :=
  o ← gfn_to_memslot gfn;
  mret match o with
       | Some slot =>
           if any (flags slot) KVM_MEMSLOT_INVALID || (no_dirty_log && bool_decide (is_Some (dirty_bitmap slot))) then None
           else Some slot
       | None => None
       end.

Definition mapping_level_dirty_bitmap (large_gfn : Z) : VM bool :=
  o ← gfn_to_memslot_dirty_bitmap large_gfn true; mret (bool_decide (o = None)).

(** [for (level = PT_DIRECTORY_LEVEL; level <= max_level; ++level)] over the
    levels of large pages *)
Fixpoint level_loop (ls : list Z) (max_level large_gfn level : Z) : VM Z :=
  match ls with
  | [] => mret level
  | l :: ls =>
      if max_level <? l then mret level
      else
        n ← has_wrprotected_page large_gfn l;
        if negb (n =? 0) then mret level else level_loop ls max_level large_gfn (l + 1)
  end.

Definition mapping_level (large_gfn : Z) : VM Z :=
  x ← state;
  let host_level := host_mapping_level (slots (core x)) large_gfn in
  if host_level =? PT_PAGE_TABLE_LEVEL then mret host_level
  else
    let max_level := Z.min (lpage_level e) host_level in
    level ← level_loop large_levels max_level large_gfn PT_DIRECTORY_LEVEL;
    mret (level - 1).

(** ** Walking the tables *)

Record kvm_shadow_walk_iterator := Walk { addr : Z; shadow_addr : Z; sptep : Z; w_level : Z; index : Z }.

Definition SHADOW_PT_INDEX (addr level : Z) : Z :=
  Z.land (Z.shiftr addr (PAGE_SHIFT + (level - 1) * PT64_LEVEL_BITS)) (Z.shiftl 1 PT64_LEVEL_BITS - 1).

Definition shadow_walk_init (addr : Z) : res kvm_shadow_walk_iterator :=
  let level := shadow_root_level v in
  let level := if (level =? PT64_ROOT_LEVEL) && (root_level v <? PT64_ROOT_LEVEL) && negb (direct_map v) then level - 1
               else level in
  if level =? PT32E_ROOT_LEVEL then
    match pae_root v !! Z.to_nat (Z.land (Z.shiftr addr 30) 3) with
    | None => Err BufferOverflow
    | Some r =>
        let shadow_addr := Z.land r PT64_BASE_ADDR_MASK in
        Ok (Walk addr shadow_addr 0 (if shadow_addr =? 0 then 0 else level - 1) 0)
    end
  else Ok (Walk addr (root_hpa v) 0 level 0).

(** Whether there is an entry, and the iterator with its address. *)
Definition shadow_walk_okay (it : kvm_shadow_walk_iterator) : bool * kvm_shadow_walk_iterator :=
  if w_level it <? PT_PAGE_TABLE_LEVEL then (false, it)
  else
    let i := SHADOW_PT_INDEX (addr it) (w_level it) in
    (true, Walk (addr it) (shadow_addr it) (shadow_addr it + 8 * i) (w_level it) i).

Definition __shadow_walk_next (it : kvm_shadow_walk_iterator) (spte : Z) : kvm_shadow_walk_iterator :=
  if is_last_spte spte (w_level it) then Walk (addr it) (shadow_addr it) (sptep it) 0 (index it)
  else Walk (addr it) (Z.land spte PT64_BASE_ADDR_MASK) (sptep it) (w_level it - 1) (index it).

Definition shadow_walk_next (it : kvm_shadow_walk_iterator) : VM kvm_shadow_walk_iterator :=
  spte ← entry (sptep it); mret (__shadow_walk_next it spte).

(** The entry [link_shadow_page] stores. *)
Definition link_spte (spt : Z) (accessed : bool) : Z :=
  let spte := Z.lor (Z.lor (Z.lor (Z.lor spt PT_PRESENT_MASK) PT_WRITABLE_MASK) (shadow_user_mask m)) (shadow_x_mask m) in
  if accessed then Z.lor spte (shadow_accessed_mask m) else spte.

Definition link_shadow_page (sptep spt : Z) (accessed : bool) : VM unit :=
  on_core (mmu_spte_set sptep (link_spte spt accessed)).

(** ** Write protection of guest page tables *)

Definition __kvm_unsync_page (spt : Z) : VM unit :=
  update spt (with_unsync true) ;; kvm_mmu_mark_parents_unsync spt.

Fixpoint unsync_loop (chain : list Z) (gfn : Z) : VM unit :=
  match chain with
  | [] => mret tt
  | spt :: chain =>
      s ← header spt;
      (if is_indirect_valid gfn s && negb (unsync s) then __kvm_unsync_page spt else mret tt) ;;
      unsync_loop chain gfn
  end.

Definition kvm_unsync_pages (gfn : Z) : VM unit := x ← state; unsync_loop (chain_of gfn x) gfn.

(** [Some need_unsync] when no page forbids the write *)
Fixpoint need_loop (chain : list Z) (gfn : Z) (can_unsync need_unsync : bool) : VM (option bool) :=
  match chain with
  | [] => mret (Some need_unsync)
  | spt :: chain =>
      s ← header spt;
      if is_indirect_valid gfn s then
        if negb can_unsync || negb (sp_level s =? PT_PAGE_TABLE_LEVEL) then mret None
        else need_loop chain gfn can_unsync (need_unsync || negb (unsync s))
      else need_loop chain gfn can_unsync need_unsync
  end.

Definition mmu_need_write_protect (gfn : Z) (can_unsync : bool) : VM bool :=
  x ← state;
  r ← need_loop (chain_of gfn x) gfn can_unsync false;
  match r with
  | None => mret true
  | Some need_unsync => (if need_unsync : bool then kvm_unsync_pages gfn else mret tt) ;; mret false
  end.

(** ** Writing an entry *)

Definition mark_dirty (gfn : Z) : VM unit :=
  on_core (modify (fun k => Kvm (mark_page_dirty (slots k) gfn) (heads k) (lists k) (spt_mem k) (pages k) (told k)
                              (flushes k) (lpages k) (tlbs_dirty k))).

(** The entry before the question of writing. *)
Definition base_spte (pte_access level gfn pfn : Z) (speculative host_writable : bool) : Z :=
  let spte := PT_PRESENT_MASK in
  let spte := if negb speculative then Z.lor spte (shadow_accessed_mask m) else spte in
  let spte := if any pte_access ACC_EXEC_MASK then Z.lor spte (shadow_x_mask m) else Z.lor spte (shadow_nx_mask m) in
  let spte := if any pte_access ACC_USER_MASK then Z.lor spte (shadow_user_mask m) else spte in
  let spte := if PT_PAGE_TABLE_LEVEL <? level then Z.lor spte PT_PAGE_SIZE_MASK else spte in
  let spte := if tdp_enabled e then Z.lor spte (mt_mask e gfn (is_mmio_pfn e pfn)) else spte in
  let spte := if host_writable then Z.lor spte SPTE_HOST_WRITEABLE else spte in
  Z.lor spte (u64 (Z.shiftl pfn PAGE_SHIFT)).

Definition set_pte (sptep spte ret : Z) : VM Z :=
  f ← on_core (spte_update m sptep spte);
  (if f : bool then on_core kvm_flush_remote_tlbs else mret tt) ;;
  mret ret.

Definition set_spte (sptep pte_access level gfn pfn : Z) (speculative can_unsync host_writable : bool) : VM Z :=
  x ← state;
  match set_mmio_spte m (slots (core x)) gfn pfn pte_access with
  | Some spte => on_core (mmu_spte_set sptep spte) ;; mret 0
  | None =>
      let spte := base_spte pte_access level gfn pfn speculative host_writable in
      let pte_access := if host_writable then pte_access else Z.ldiff pte_access ACC_WRITE_MASK in
      if negb (any pte_access ACC_WRITE_MASK) then set_pte sptep spte 0
      else
        n ← (if PT_PAGE_TABLE_LEVEL <? level then has_wrprotected_page gfn level else mret 0);
        if negb (n =? 0) then mret 0
        else
          let spte := Z.lor spte (Z.lor PT_WRITABLE_MASK SPTE_MMU_WRITEABLE) in
          old ← entry sptep;
          if negb can_unsync && is_writable_pte old then set_pte sptep spte 0
          else
            protect ← mmu_need_write_protect gfn can_unsync;
            if protect : bool then set_pte sptep (Z.ldiff spte (Z.lor PT_WRITABLE_MASK SPTE_MMU_WRITEABLE)) 1
            else mark_dirty gfn ;; set_pte sptep spte 0
  end.

Definition tell (ev : list pfn_event) : VM unit :=
  on_core (modify (fun k => Kvm (slots k) (heads k) (lists k) (spt_mem k) (pages k) (told k ++ ev) (flushes k) (lpages k) (tlbs_dirty k))).

Definition kvm_release_pfn_clean (pfn : Z) : VM unit :=
  if negb (is_error_noslot_pfn pfn) && negb (is_mmio_pfn e pfn) then tell [Released pfn] else mret tt.

Definition kvm_get_pfn (pfn : Z) : VM unit :=
  if negb (is_mmio_pfn e pfn) then tell [Taken pfn] else mret tt.

(** An entry that is in the way is removed.  The result says whether the
    entry maps the same frame already. *)
Definition clear_way (sptep level pfn : Z) : VM bool :=
  pte ← entry sptep;
  if is_rmap_spte m pte then
    if (PT_PAGE_TABLE_LEVEL <? level) && negb (is_large_pte pte) then
      drop_parent_pte (Z.land pte PT64_BASE_ADDR_MASK) sptep ;; on_core kvm_flush_remote_tlbs ;; mret false
    else if negb (pfn =? spte_to_pfn pte) then
      on_core (drop_spte m sptep) ;; on_core kvm_flush_remote_tlbs ;; mret false
    else mret true
  else mret false.

(** Whether the instruction has to be emulated. *)
Definition mmu_set_spte (sptep pte_access : Z) (write_fault : bool) (level gfn pfn : Z) (speculative host_writable : bool) : VM bool :=
  was_rmapped ← clear_way sptep level pfn;
  r ← set_spte sptep pte_access level gfn pfn speculative true host_writable;
  (if negb (r =? 0) then kvm_mmu_flush_tlb else mret tt) ;;
  pte ← entry sptep;
  (if negb was_rmapped && is_large_pte pte then
     x ← state; on_core (modify (set_lpages (lpages (core x) + 1)))
   else mret tt) ;;
  (if is_shadow_present_pte m pte && negb was_rmapped then
     rmap_count ← on_core (rmap_add sptep gfn);
     if (RMAP_RECYCLE_THRESHOLD <? rmap_count)%nat then on_core (rmap_recycle m sptep gfn) else mret tt
   else mret tt) ;;
  kvm_release_pfn_clean pfn ;;
  mret (negb (r =? 0) && write_fault || is_mmio_spte m pte).

(** ** Neighbouring entries *)

Definition PTE_PREFETCH_NUM : Z := 8.

(** The frames, each with a reference, or an error. *)
Definition gfn_to_page_many_atomic (gfn nr_pages : Z) : VM (option (list Z)) :=
  x ← state;
  let slot := search_memslots (slots (core x)) gfn in
  match __gfn_to_hva_many slot gfn true, slot with
  | Some addr, Some slot =>
      if u64 (npages slot - (gfn - base_gfn slot)) <? nr_pages then mret (Some [])
      else
        let found := user_pages_fast e addr nr_pages in
        tell (Taken <$> found) ;; mret (Some found)
  | _, _ => mret None
  end.

Fixpoint prefetch_loop (pfns : list Z) (level access gfn start : Z) : VM unit :=
  match pfns with
  | [] => mret tt
  | pfn :: pfns =>
      mmu_set_spte start access false level gfn pfn true true ;;
      prefetch_loop pfns level access (u64 (gfn + 1)) (start + 8)
  end.

(** [false] for -1 *)
Definition direct_pte_prefetch_many (spt start end_ : Z) : VM bool :=
  sp ← header spt;
  let acc := access (role sp) in
  gfn ← lift_res (kvm_mmu_page_get_gfn sp (spt_index start));
  slot ← gfn_to_memslot_dirty_bitmap gfn (any acc ACC_WRITE_MASK);
  match slot with
  | None => mret false
  | Some _ =>
      pages ← gfn_to_page_many_atomic gfn ((end_ - start) / 8);
      match pages with
      | None | Some [] => mret false
      | Some pfns => prefetch_loop pfns (sp_level sp) acc gfn start ;; mret true
      end
  end.

(** [start] is 0 when no entry is waiting. *)
Fixpoint prefetch_entries (n : nat) (spt sptep spte start : Z) : VM unit :=
  match n with
  | O => mret tt
  | S n =>
      pte ← entry spte;
      if is_shadow_present_pte m pte || (spte =? sptep) then
        if start =? 0 then prefetch_entries n spt sptep (spte + 8) 0
        else
          ok ← direct_pte_prefetch_many spt start spte;
          if ok : bool then prefetch_entries n spt sptep (spte + 8) 0 else mret tt
      else prefetch_entries n spt sptep (spte + 8) (if start =? 0 then spte else start)
  end.

Definition __direct_pte_prefetch (spt sptep : Z) : VM unit :=
  let i := Z.ldiff (spt_index sptep) (PTE_PREFETCH_NUM - 1) in
  prefetch_entries (Z.to_nat PTE_PREFETCH_NUM) spt sptep (spt + 8 * i) 0.

Definition direct_pte_prefetch (sptep : Z) : VM unit :=
  if shadow_accessed_mask m =? 0 then mret tt
  else
    sp ← header sptep;
    if PT_PAGE_TABLE_LEVEL <? sp_level sp then mret tt
    else __direct_pte_prefetch (spt_of sptep) sptep.

(** ** Mapping a frame *)

Section map.
  Context (is_pae : bool) (sync_page : Z -> VM Z).

Definition PT64_LVL_ADDR_MASK (level : Z) : Z :=
  Z.ldiff PT64_BASE_ADDR_MASK (Z.shiftl 1 (PAGE_SHIFT + (level - 1) * PT64_LEVEL_BITS) - 1).

(** The levels bound the walk. *)
Fixpoint direct_map_loop (fuel : nat) (it : kvm_shadow_walk_iterator) (write map_writable : bool) (level gfn pfn : Z) (prefault : bool) : VM bool :=
  match fuel with
  | O => lift_res (Err OutOfFuel)
  | S fuel =>
      let '(okay, it) := shadow_walk_okay it in
      if negb okay then mret false
      else if w_level it =? level then
        emulate ← mmu_set_spte (sptep it) ACC_ALL write level gfn pfn prefault map_writable;
        direct_pte_prefetch (sptep it) ;;
        mret emulate
      else
        on_core (drop_large_spte m (sptep it)) ;;
        pte ← entry (sptep it);
        (if negb (is_shadow_present_pte m pte) then
           let base_addr := Z.land (addr it) (PT64_LVL_ADDR_MASK (w_level it)) in
           let pseudo_gfn := Z.shiftr base_addr PAGE_SHIFT in
           spt ← kvm_mmu_get_page m v is_pae sync_page pseudo_gfn (addr it) (w_level it - 1) true ACC_ALL (sptep it);
           link_shadow_page (sptep it) spt true
         else mret tt) ;;
        it ← shadow_walk_next it;
        direct_map_loop fuel it write map_writable level gfn pfn prefault
  end.

Definition __direct_map (write map_writable : bool) (level gfn pfn : Z) (prefault : bool) : VM bool :=
  if negb (VALID_PAGE (root_hpa v)) then mret false
  else
    it ← lift_res (shadow_walk_init (u64 (Z.shiftl gfn PAGE_SHIFT)));
    direct_map_loop 5 it write map_writable level gfn pfn prefault.

(** ** Faults *)

(** [kvm_send_hwpoison_signal] at the address of the frame *)
Definition kvm_handle_bad_page (gfn pfn : Z) : VM Z :=
  if pfn =? KVM_PFN_ERR_RO_FAULT then mret 1
  else if pfn =? KVM_PFN_ERR_HWPOISON then
    x ← state;
    change (add_request (SIGBUS (default 0 (gfn_to_hva (slots (core x)) gfn)))) ;; mret 0
  else mret (- EFAULT).

Definition vcpu_cache_mmio_info (gva gfn access : Z) : VM unit :=
  change (fun x => Mmu (core x) (mmu_page_hash x) (active_mmu_pages x) (zapped_obsolete_pages x) (n_used_mmu_pages x)
    (n_max_mmu_pages x) (indirect_shadow_pages x) (valid_gen x) (write_count x) (mmu_page_cache x)
    (mmu_page_header_cache x) (requests x) (Z.ldiff gva (PAGE_SIZE - 1), access, gfn)).

(** The value to return when the frame is an error. *)
Definition handle_abnormal_pfn (gva gfn pfn access : Z) : VM (option Z) :=
  if is_error_pfn pfn then r ← kvm_handle_bad_page gfn pfn; mret (Some r)
  else
    (if is_noslot_pfn pfn then vcpu_cache_mmio_info gva gfn access else mret tt) ;;
    mret None.

(** Frame, host frame and level; the reference of the host frame moves with
    it. *)
Definition transparent_hugepage_adjust (gfn pfn level : Z) : VM (Z * Z * Z) :=
  if negb (is_error_noslot_pfn pfn) && negb (is_mmio_pfn e pfn) && (level =? PT_PAGE_TABLE_LEVEL) && trans_compound e pfn then
    n ← has_wrprotected_page gfn PT_DIRECTORY_LEVEL;
    if negb (n =? 0) then mret (gfn, pfn, level)
    else
      let level := PT_DIRECTORY_LEVEL in
      let mask := KVM_PAGES_PER_HPAGE level - 1 in
      lift_res (if Z.land gfn mask =? Z.land pfn mask then Ok tt else Err AssertFailed) ;;
      if any pfn mask then
        kvm_release_pfn_clean pfn ;;
        kvm_get_pfn (Z.ldiff pfn mask) ;;
        mret (Z.ldiff gfn mask, Z.ldiff pfn mask, level)
      else mret (gfn, pfn, level)
  else mret (gfn, pfn, level).

(** The part of a fault under the lock.  [retry] is the answer of
    [mmu_notifier_retry]. *)
Definition map_locked (zap_fuel : nat) (retry force_pt_level : bool) (write map_writable : bool) (level gfn pfn : Z) (prefault : bool) : VM Z :=
  if retry then kvm_release_pfn_clean pfn ;; mret 0
  else
    make_mmu_pages_available m zap_fuel ;;
    '(gfn, pfn, level) ← (if negb force_pt_level then transparent_hugepage_adjust gfn pfn level else mret (gfn, pfn, level));
    b ← __direct_map write map_writable level gfn pfn prefault;
    mret (Z.b2z b).

Definition page_fault_can_be_fast (error_code : Z) : bool :=
  if any error_code PFERR_RSVD_MASK then false
  else if negb (any error_code PFERR_PRESENT_MASK) || negb (any error_code PFERR_WRITE_MASK) then false
  else true.

(** [for_each_shadow_entry_lockless] until [stop]: the entry read last and
    its place *)
Fixpoint walk_lockless (fuel : nat) (stop : Z -> Z -> bool) (it : kvm_shadow_walk_iterator) (spte : Z) : VM (Z * kvm_shadow_walk_iterator) :=
  match fuel with
  | O => lift_res (Err OutOfFuel)
  | S fuel =>
      let '(okay, it) := shadow_walk_okay it in
      if negb okay then mret (spte, it)
      else
        spte ← entry (sptep it);
        if stop spte (w_level it) then mret (spte, it) else walk_lockless fuel stop (__shadow_walk_next it spte) spte
  end.

(** [cmpxchg64] when nothing comes in between. *)
Definition fast_pf_fix_direct_spte (sp : kvm_mmu_page) (sptep spte : Z) : VM bool :=
  gfn ← lift_res (kvm_mmu_page_get_gfn sp (spt_index sptep));
  old ← entry sptep;
  (if old =? spte then
     on_core (modify (set_mem sptep (Z.lor spte PT_WRITABLE_MASK) [])) ;; mark_dirty gfn
   else mret tt) ;;
  mret true.

Definition fast_page_fault (gva level error_code : Z) : VM bool :=
  if negb (VALID_PAGE (root_hpa v)) then mret false
  else if negb (page_fault_can_be_fast error_code) then mret false
  else
    it ← lift_res (shadow_walk_init gva);
    '(spte, it) ← walk_lockless 5 (fun spte l => negb (is_shadow_present_pte m spte) || (l <? level)) it 0;
    if negb (is_rmap_spte m spte) then mret true
    else
      sp ← header (sptep it);
      if negb (is_last_spte spte (sp_level sp)) then mret false
      else if is_writable_pte spte then mret true
      else if negb (spte_is_locklessly_modifiable spte) then mret false
      else if PT_PAGE_TABLE_LEVEL <? sp_level sp then mret false
      else fast_pf_fix_direct_spte sp (sptep it) spte.

Definition RET_MMIO_PF_EMULATE : Z := 1.
Definition RET_MMIO_PF_INVALID : Z := 2.
Definition RET_MMIO_PF_RETRY : Z := 0.
Definition RET_MMIO_PF_BUG : Z := - 1.

Definition vcpu_match_mmio_gpa (x : mmu) (gpa : Z) : bool :=
  let gfn := (mmio_info x).2 in negb (gfn =? 0) && (gfn =? Z.shiftr gpa PAGE_SHIFT).

Definition check_direct_spte_mmio_pf (spte : Z) : bool := spte =? 0.

Definition walk_shadow_page_get_mmio_spte (addr : Z) : VM Z :=
  if negb (VALID_PAGE (root_hpa v)) then mret 0
  else
    it ← lift_res (shadow_walk_init addr);
    '(spte, _) ← walk_lockless 5 (fun spte _ => negb (is_shadow_present_pte m spte)) it 0;
    mret spte.

(** With [direct] set, as all callers here have it. *)
Definition handle_mmio_page_fault_common (addr : Z) : VM Z :=
  x ← state;
  if vcpu_match_mmio_gpa x addr then mret RET_MMIO_PF_EMULATE
  else
    spte ← walk_shadow_page_get_mmio_spte addr;
    if is_mmio_spte m spte then
      if negb (check_mmio_spte m (slots (core x)) spte) then mret RET_MMIO_PF_INVALID
      else
        vcpu_cache_mmio_info 0 (get_mmio_spte_gfn m spte) (get_mmio_spte_access m spte) ;;
        mret RET_MMIO_PF_EMULATE
    else if negb (check_direct_spte_mmio_pf spte) then mret RET_MMIO_PF_BUG
    else mret RET_MMIO_PF_RETRY.

(** ** Caches *)

(** [__get_free_page] answers from the list, 0 for none. *)
Fixpoint topup_pages (page : list Z) (cache : list Z) : list Z * Z :=
  if (length cache <? KVM_NR_MEM_OBJS)%nat then
    match page with
    | [] => (cache, - ENOMEM)
    | p :: page => if p =? 0 then (cache, - ENOMEM) else topup_pages page (p :: cache)
    end
  else (cache, 0).

Definition mmu_topup_memory_cache_page (page : list Z) (min : nat) (cache : list Z) : list Z * Z :=
  if (min <=? length cache)%nat then (cache, 0) else topup_pages page cache.

(** [headers] allocations of headers succeed. *)
Definition topup_headers (headers min n : nat) : nat * Z :=
  if (min <=? n)%nat then (n, 0)
  else if (KVM_NR_MEM_OBJS <=? n + headers)%nat then (Nat.max n KVM_NR_MEM_OBJS, 0) else ((n + headers)%nat, - ENOMEM).

Definition mmu_topup_memory_caches (obj page : list Z) (headers : nat) : VM Z :=
  x ← state;
  let '(p, r) := mmu_topup_memory_cache obj (8 + Z.to_nat PTE_PREFETCH_NUM) (lists (core x)) in
  on_core (modify (set_heads Datatypes.id p)) ;;
  if negb (r =? 0) then mret r
  else
    let '(c, r) := mmu_topup_memory_cache_page page 8 (mmu_page_cache x) in
    change (set_caches c (mmu_page_header_cache x)) ;;
    if negb (r =? 0) then mret r
    else
      let '(h, r) := topup_headers headers 4 (mmu_page_header_cache x) in
      change (set_caches c h) ;;
      mret r.

(** ** The fault *)

(** Up to the lookup of the frame: a value to return, or the size and the
    frame to go on with.  [topup] are the answers of the allocator. *)
Definition tdp_prepare (topup : list Z * list Z * nat) (gpa error_code : Z) : VM (Z + bool * Z * Z) :=
  let gfn := Z.shiftr gpa PAGE_SHIFT in
  r ← (if any error_code PFERR_RSVD_MASK then handle_mmio_page_fault_common gpa else mret RET_MMIO_PF_INVALID);
  if negb (r =? RET_MMIO_PF_INVALID) then mret (inl r)
  else
    r ← mmu_topup_memory_caches topup.1.1 topup.1.2 topup.2;
    if negb (r =? 0) then mret (inl r)
    else
      force_pt_level ← mapping_level_dirty_bitmap gfn;
      '(level, gfn) ← (if negb force_pt_level then
                         level ← mapping_level gfn;
                         mret (level, Z.ldiff gfn (KVM_PAGES_PER_HPAGE level - 1))
                       else mret (PT_PAGE_TABLE_LEVEL, gfn));
      fast ← fast_page_fault gpa level error_code;
      if fast : bool then mret (inl 0) else mret (inr (force_pt_level, level, gfn)).

(** With the frame.  [retry] is the answer of [mmu_notifier_retry]. *)
Definition tdp_map (zap_fuel : nat) (retry force_pt_level write : bool) (level gfn pfn : Z) (map_writable prefault : bool) : VM Z :=
  bad ← handle_abnormal_pfn 0 gfn pfn ACC_ALL;
  match bad with
  | Some r => mret r
  | None => map_locked zap_fuel retry force_pt_level write map_writable level gfn pfn prefault
  end.

Definition tdp_page_fault (topup : list Z * list Z * nat) (zap_fuel : nat) (retry : bool) (gpa error_code : Z) (prefault : bool) : VM Z :=
  let write := any error_code PFERR_WRITE_MASK in
  o ← tdp_prepare topup gpa error_code;
  match o with
  | inl r => mret r
  | inr (force_pt_level, level, gfn) =>
      match try_async_pf e gfn write with
      | None => mret 0
      | Some (pfn, map_writable) => tdp_map zap_fuel retry force_pt_level write level gfn pfn map_writable prefault
      end
  end.

(** ** Roots *)

Definition with_root (root : Z) (pae : list Z) : kvm_mmu :=
  Mode root (root_level v) (shadow_root_level v) (base_role v) (direct_map v) pae (pae_root_pa v).

Definition get_root (zap_fuel : nat) (gfn gaddr level : Z) (direct : bool) : VM Z :=
  make_mmu_pages_available m zap_fuel ;;
  spt ← kvm_mmu_get_page m v is_pae sync_page gfn gaddr level direct ACC_ALL 0;
  sp ← header spt;
  update spt (with_roots (root_count sp + 1)) ;;
  mret spt.

Fixpoint get_pae_roots (zap_fuel : nat) (l : list Z) : VM (list Z) :=
  match l with
  | [] => mret []
  | i :: l =>
      root ← get_root zap_fuel (Z.shiftl i (30 - PAGE_SHIFT)) (u32 (Z.shiftl i 30)) PT32_ROOT_LEVEL true;
      roots ← get_pae_roots zap_fuel l;
      mret (Z.lor root PT_PRESENT_MASK :: roots)
  end.

(** The mode with its roots. *)
Definition mmu_alloc_direct_roots (zap_fuel : nat) : VM kvm_mmu :=
  if shadow_root_level v =? PT64_ROOT_LEVEL then
    spt ← get_root zap_fuel 0 0 PT64_ROOT_LEVEL true;
    mret (with_root spt (pae_root v))
  else if shadow_root_level v =? PT32E_ROOT_LEVEL then
    roots ← get_pae_roots zap_fuel [0; 1; 2; 3];
    mret (with_root (pae_root_pa v) roots)
  else lift_res (Err AssertFailed).

(** A root less; the pages to free. *)
Definition put_root (root : Z) (invalid_list : list Z) : VM (list Z) :=
  sp ← header root;
  update (spt_of root) (with_roots (root_count sp - 1)) ;;
  if (root_count sp - 1 =? 0) && invalid (role sp) then
    '(_, invalid_list) ← kvm_mmu_prepare_zap_page m (spt_of root) invalid_list; mret invalid_list
  else mret invalid_list.

Fixpoint put_pae_roots (l : list Z) (invalid_list : list Z) : VM (list Z) :=
  match l with
  | [] => mret invalid_list
  | root :: l =>
      invalid_list ← (if negb (root =? 0) then put_root (Z.land root PT64_BASE_ADDR_MASK) invalid_list else mret invalid_list);
      put_pae_roots l invalid_list
  end.

Definition mmu_free_roots : VM kvm_mmu :=
  if negb (VALID_PAGE (root_hpa v)) then mret v
  else if (shadow_root_level v =? PT64_ROOT_LEVEL) && ((root_level v =? PT64_ROOT_LEVEL) || direct_map v) then
    l ← put_root (root_hpa v) [];
    kvm_mmu_commit_zap_page l ;;
    mret (with_root INVALID_PAGE (pae_root v))
  else
    l ← put_pae_roots (pae_root v) [];
    kvm_mmu_commit_zap_page l ;;
    mret (with_root INVALID_PAGE (replicate 4 INVALID_PAGE)).

End map.

End faults.
