(* ===== verification/PageRefs.v ===== *)
(** * References of host frames (kvm-kmod x86/mmu.c)

    A frame that is looked up comes with a reference, which is dropped once
    the frame is mapped: an entry holds none.  No operation on the tables
    takes or drops one, but the one that writes an entry, which drops the
    reference of the frame it is given. *)

From S2P Require Import Prelude MemSlots Spte PteList Rmap ShadowPages DirectMap.

(** ** Operations that leave a part of the state alone *)

Definition keeps {S T A} (f : S -> T) (c : st S A) : Prop := forall s a s', c s = Ok (a, s') -> f s' = f s.

Create HintDb keeps.

Section keeps.
  Context {S T : Type} (f : S -> T).

Lemma keeps_mret {A} (a : A) : keeps f (mret a : st S A).
Proof. by intros s b s' [= _ <-]. Qed.

Lemma keeps_mbind {A B} (c : st S A) (k : A -> st S B) : keeps f c -> (forall a, keeps f (k a)) -> keeps f (c ≫= k).
Proof.
  intros Hc Hk s b s'. unfold mbind, st_bind. destruct (c s) as [[a s1]|] eqn:E; [|done]. intros E'. rewrite (Hk _ _ _ _ E'). by apply (Hc _ a).
Qed.

Lemma keeps_lift {A} (r : res A) : keeps f (lift_res r).
Proof. intros s a s' H. by apply lift_res_inv in H as [_ ->]. Qed.

End keeps.

#[export] Hint Resolve keeps_mret keeps_lift : keeps.

(** The operation is taken apart; what the database knows is not unfolded. *)
Ltac keep :=
  repeat match goal with
  | |- keeps _ (_ ≫= _) => apply keeps_mbind
  | |- forall _, _ => intros ?
  | |- keeps _ (match ?x with _ => _ end) => destruct x
  | |- keeps _ _ => solve [auto 2 with keeps]
  end.

Section walk.
  Context {S T : Type} (f : S -> T) (fn : Z -> st S unit) (Hfn : forall a, keeps f (fn a)).

Lemma keeps_walk w p : keeps f (pte_list_walk fn w p).
Proof using Hfn.
  unfold pte_list_walk. destruct (w =? 0); [keep|]. destruct (negb (is_chain w)); [done|]. generalize (chain_head w).
  induction (Datatypes.S (chain_fuel p)) as [|n IH]; intros d; cbn [walk_loop]; keep. clear IH. induction (sptes _); cbn [walk_desc]; keep.
Qed.

End walk.

(** ** What the host is told of its references *)

Definition is_move (ev : pfn_event) : bool := match ev with Taken _ | Released _ => true | _ => false end.
Definition moves (k : kvm) : list pfn_event := filter (fun ev => is_move ev = true) (told k).
Definition vm_moves (x : mmu) : list pfn_event := moves (core x).

(** The references of frame [p] that were taken and not dropped. *)
Fixpoint held (p : Z) (l : list pfn_event) : Z :=
  match l with
  | [] => 0
  | Taken q :: l => if q =? p then held p l + 1 else held p l
  | Released q :: l => if q =? p then held p l - 1 else held p l
  | _ :: l => held p l
  end.

Lemma held_app p l l' : held p (l ++ l') = held p l + held p l'.
Proof. induction l as [|[q|q|q|q] l IH]; cbn; rewrite ?IH; first [destruct (q =? p)|idtac]; lia. Qed.

Lemma held_moves p l : held p (filter (fun ev => is_move ev = true) l) = held p l.
Proof. induction l as [|[q|q|q|q] l IH]; [done|..]; first [rewrite filter_cons_True by done|rewrite filter_cons_False by done]; cbn [held]; by rewrite IH. Qed.

Lemma keeps_get : keeps moves get.
Proof. by intros s a s' [= _ <-]. Qed.

Lemma keeps_modify g : (forall k, moves (g k) = moves k) -> keeps moves (modify g).
Proof. intros H s a s' [= _ <-]. apply H. Qed.

Lemma keeps_state : keeps vm_moves state.
Proof. by intros s a s' [= _ <-]. Qed.

Lemma keeps_change g : (forall x, vm_moves (g x) = vm_moves x) -> keeps vm_moves (change g).
Proof. intros H s a s' [= _ <-]. apply H. Qed.

Lemma keeps_core {A} (c : M A) : keeps moves c -> keeps vm_moves (on_core c).
Proof. intros H x a x'. unfold on_core. destruct (c (core x)) as [[b k]|] eqn:E; [|done]. intros [= _ <-]. by apply (H _ b). Qed.

Lemma moves_mem a v ev k : Forall (fun e => is_move e = false) ev -> moves (set_mem a v ev k) = moves k.
Proof.
  intros H. unfold moves. cbn. rewrite filter_app. replace (filter _ ev) with (@nil pfn_event); [by rewrite app_nil_r|].
  induction H as [|e ev He _ IH]; [done|]. rewrite filter_cons_False by (by rewrite He). done.
Qed.

#[export] Hint Resolve keeps_get keeps_state keeps_core : keeps.
#[export] Hint Extern 2 (keeps _ (change _)) => apply keeps_change; done : keeps.
#[export] Hint Extern 2 (keeps _ (modify _)) => apply keeps_modify; done : keeps.

(** ** The tables *)

Section tables.
  Context (m : shadow_masks).

Lemma update_moves a b c : Forall (fun e => is_move e = false) (mmu_spte_update m a b c).2.
Proof. unfold mmu_spte_update. repeat case_match; cbn; repeat constructor. Qed.

Lemma clear_moves a b : Forall (fun e => is_move e = false) (mmu_spte_clear_track_bits m a b).2.
Proof. unfold mmu_spte_clear_track_bits. repeat case_match; cbn; repeat constructor. Qed.

Lemma keeps_mem a v ev : Forall (fun e => is_move e = false) ev -> keeps moves (modify (set_mem a v ev)).
Proof. intros H. apply keeps_modify. intros k. by apply moves_mem. Qed.

Lemma keeps_mem_nil a v : keeps moves (modify (set_mem a v [])).
Proof. by apply keeps_mem. Qed.
#[local] Hint Resolve keeps_mem_nil : keeps.

Lemma keeps_spte_update a v : keeps moves (spte_update m a v).
Proof. unfold spte_update, read_spte, known. apply keeps_mbind; [keep|]. intros w. pose proof (update_moves w w v) as H. destruct (mmu_spte_update m w w v). keep. apply keeps_mem, H. Qed.

Lemma keeps_spte_clear a : keeps moves (spte_clear m a).
Proof. unfold spte_clear, read_spte, known. apply keeps_mbind; [keep|]. intros w. pose proof (clear_moves w w) as H. destruct (mmu_spte_clear_track_bits m w w). keep. apply keeps_mem, H. Qed.
#[local] Hint Resolve keeps_spte_update keeps_spte_clear : keeps.

Lemma keeps_flush : keeps moves kvm_flush_remote_tlbs.
Proof. unfold kvm_flush_remote_tlbs. keep. Qed.

Lemma keeps_page_header a : keeps moves (page_header a).
Proof. unfold page_header, known. keep. Qed.

Lemma keeps_list_add a h : keeps moves (list_add a h).
Proof. unfold list_add, known. keep. Qed.

Lemma keeps_list_remove a h : keeps moves (list_remove a h).
Proof. unfold list_remove, known. keep. Qed.
#[local] Hint Resolve keeps_flush keeps_page_header keeps_list_add keeps_list_remove : keeps.

Lemma keeps_rmap_add a g : keeps moves (rmap_add a g).
Proof. unfold rmap_add, kvm_mmu_page_set_gfn, gfn_to_rmap, known, BUG_ON. keep. Qed.

Lemma keeps_drop_spte a : keeps moves (drop_spte m a).
Proof. unfold drop_spte, rmap_remove, gfn_to_rmap, known. keep. Qed.
#[local] Hint Resolve keeps_rmap_add keeps_drop_spte : keeps.

Lemma keeps_drop_large a : keeps moves (drop_large_spte m a).
Proof. unfold drop_large_spte, __drop_large_spte, read_spte, known. keep. Qed.

Lemma keeps_mmu_spte_set a v : keeps moves (mmu_spte_set a v).
Proof. unfold mmu_spte_set, read_spte, known. keep. Qed.

Lemma keeps_clear_no_track a : keeps moves (mmu_spte_clear_no_track a).
Proof. unfold mmu_spte_clear_no_track, read_spte, known. keep. Qed.

Lemma keeps_drop_all {A} bug (b : A) fuel h acc : keeps moves (drop_all m bug b fuel h acc).
Proof. revert acc. induction fuel as [|fuel IH]; intros acc; cbn [drop_all]; unfold read_spte, known, BUG_ON; keep. Qed.
#[local] Hint Resolve keeps_drop_large keeps_mmu_spte_set keeps_clear_no_track keeps_drop_all : keeps.

Lemma keeps_recycle a g : keeps moves (rmap_recycle m a g).
Proof. unfold rmap_recycle, kvm_unmap_rmapp, gfn_to_rmap, known. keep. Qed.

Lemma keeps_for {A} fuel (body : Z -> A -> M (A * bool)) a it acc : (forall a acc, keeps moves (body a acc)) -> keeps moves (rmap_for fuel body a it acc).
Proof. intros H. revert a it acc. induction fuel as [|fuel IH]; intros a it acc; cbn [rmap_for]; keep. Qed.

Lemma keeps_write_protect h b : keeps moves (__rmap_write_protect m h b).
Proof. unfold __rmap_write_protect, for_each_rmap, known. keep. apply keeps_for. unfold spte_write_protect, read_spte, known, BUG_ON. keep. Qed.
#[local] Hint Resolve keeps_recycle keeps_write_protect : keeps.

Lemma keeps_rmap_write_protect g : keeps moves (rmap_write_protect m g).
Proof. unfold rmap_write_protect, known. keep. cbn [write_protect_levels levels]. keep. Qed.
#[local] Hint Resolve keeps_rmap_write_protect : keeps.

(** *** Pages *)

Lemma keeps_entry a : keeps vm_moves (entry a).
Proof. unfold entry, read_spte, known. apply keeps_core. keep. Qed.

Lemma keeps_known {A} (o : option A) : keeps moves (known o).
Proof. unfold known. keep. Qed.

Lemma keeps_header a : keeps vm_moves (header a).
Proof. unfold header. keep. Qed.
#[local] Hint Resolve keeps_entry keeps_header keeps_known : keeps.

Lemma keeps_update a g : keeps vm_moves (update a g).
Proof. unfold update. keep. Qed.
#[local] Hint Resolve keeps_update : keeps.

Lemma keeps_account ls g sl d : keeps vm_moves (account_loop ls g sl d).
Proof. induction ls as [|l ls IH]; cbn [account_loop]; keep. Qed.
#[local] Hint Resolve keeps_account : keeps.

Lemma keeps_add_parent a b : keeps vm_moves (mmu_page_add_parent_pte a b).
Proof. unfold mmu_page_add_parent_pte. keep. Qed.

Lemma keeps_drop_parent a b : keeps vm_moves (drop_parent_pte a b).
Proof. unfold drop_parent_pte, mmu_page_remove_parent_pte. keep. Qed.
#[local] Hint Resolve keeps_add_parent keeps_drop_parent : keeps.

Lemma keeps_mark_unsync spt : keeps vm_moves (kvm_mmu_mark_parents_unsync spt).
Proof.
  unfold kvm_mmu_mark_parents_unsync. keep. generalize (S (size (pages (core a)))). clear a. intros n. revert spt.
  induction n as [|n IH]; intros spt; cbn [mark_parents_unsync]; keep. apply keeps_walk. keep.
Qed.
#[local] Hint Resolve keeps_mark_unsync : keeps.

(** *** Zapping *)

Lemma keeps_pages_add pvec a i : keeps vm_moves (mmu_pages_add pvec a i).
Proof. unfold mmu_pages_add. keep. Qed.

Lemma keeps_clear_child a i : keeps vm_moves (clear_child_bitmap a i).
Proof. unfold clear_child_bitmap. keep. Qed.
#[local] Hint Resolve keeps_pages_add keeps_clear_child : keeps.

Lemma keeps_walk_bits walk spt bits r pvec : (forall a l, keeps vm_moves (walk a l)) -> keeps vm_moves (walk_bits m walk spt bits r pvec).
Proof. intros H. revert r pvec. induction bits as [|i bits IH]; intros r pvec; cbn [walk_bits]; unfold walk_child; keep. Qed.

Lemma keeps_unsync_walk spt pvec : keeps vm_moves (mmu_unsync_walk m spt pvec).
Proof.
  unfold mmu_unsync_walk. keep. generalize (Z.to_nat PT64_ROOT_LEVEL) as n. intros n. revert spt l. induction n as [|n IH]; intros spt l; cbn [__mmu_unsync_walk]; [keep|].
  by apply keeps_walk_bits.
Qed.

Lemma keeps_pages_next rest n ps : keeps vm_moves (mmu_pages_next rest n ps).
Proof. revert n ps. induction rest as [|[a i] rest IH]; intros n ps; cbn [mmu_pages_next]; keep. Qed.

Lemma keeps_clear_parents n i ps : keeps vm_moves (clear_parents n i ps).
Proof. revert i. induction n as [|n IH]; intros i; cbn [clear_parents]; keep. Qed.

Lemma keeps_pages_init spt ps : keeps vm_moves (kvm_mmu_pages_init spt ps).
Proof. unfold kvm_mmu_pages_init. keep. Qed.

Lemma keeps_zap_pte sp a : keeps vm_moves (mmu_page_zap_pte m sp a).
Proof. unfold mmu_page_zap_pte. keep. Qed.
#[local] Hint Resolve keeps_unsync_walk keeps_pages_next keeps_clear_parents keeps_pages_init keeps_zap_pte : keeps.

Lemma keeps_zap_ptes spt es : keeps vm_moves (zap_ptes m spt es).
Proof. induction es as [|a es IH]; cbn [zap_ptes]; keep. Qed.

Lemma keeps_unlink_parents n spt : keeps vm_moves (unlink_parents n spt).
Proof. induction n as [|n IH]; cbn [unlink_parents]; keep. Qed.

Lemma keeps_zap_each n zap pvec i ps l z : (forall a l, keeps vm_moves (zap a l)) -> keeps vm_moves (zap_each n zap pvec i ps l z).
Proof. intros H. revert i ps l z. induction n as [|n IH]; intros i ps l z; cbn [zap_each]; unfold mmu_pages_clear_parents; keep. Qed.
#[local] Hint Resolve keeps_zap_ptes keeps_unlink_parents keeps_zap_each : keeps.

Lemma keeps_zap_unsync n zap spt ps pvec l z : (forall a l, keeps vm_moves (zap a l)) -> keeps vm_moves (zap_unsync_loop m n zap spt ps pvec l z).
Proof. intros H. revert ps pvec l z. induction n as [|n IH]; intros ps pvec l z; cbn [zap_unsync_loop]; keep. Qed.
#[local] Hint Resolve keeps_zap_unsync : keeps.

Lemma keeps_prepare_zap n spt l : keeps vm_moves (prepare_zap_page m n spt l).
Proof.
  revert spt l. induction n as [|n IH]; intros spt l; cbn [prepare_zap_page]; [keep|].
  unfold prepare_zap, mmu_zap_unsync_children, kvm_mmu_page_unlink_children, kvm_mmu_unlink_parents, unaccount_shadowed, gfn_to_memslot, kvm_unlink_unsync_page,
    kvm_mod_used_mmu_pages, kvm_reload_remote_mmus. keep.
Qed.
#[local] Hint Resolve keeps_prepare_zap : keeps.

Lemma keeps_commit l : keeps vm_moves (kvm_mmu_commit_zap_page l).
Proof.
  assert (H : forall l, keeps vm_moves (free_pages l)) by (intros l'; induction l' as [|a l' IH]; cbn [free_pages]; unfold kvm_mmu_free_page; keep).
  unfold kvm_mmu_commit_zap_page. keep.
Qed.
#[local] Hint Resolve keeps_commit : keeps.

Lemma keeps_zap_while n cond l : keeps vm_moves (zap_while m n cond l).
Proof. revert l. induction n as [|n IH]; intros l; cbn [zap_while]; unfold prepare_zap_oldest_mmu_page, kvm_mmu_prepare_zap_page; keep. Qed.
#[local] Hint Resolve keeps_zap_while : keeps.

Lemma keeps_available n : keeps vm_moves (make_mmu_pages_available m n).
Proof. unfold make_mmu_pages_available. keep. Qed.

(** *** Finding or making a page *)

Section mode.
  (** The synchronisation of a shadow page takes no reference. *)
  Context (v : kvm_mmu) (is_pae : bool) (sync_page : Z -> VM Z) (Hsync : forall a, keeps vm_moves (sync_page a)).

Lemma keeps_sync_transient a : keeps vm_moves (kvm_sync_page_transient m is_pae sync_page a).
Proof using Hsync. unfold kvm_sync_page_transient, __kvm_sync_page, kvm_mmu_prepare_zap_page, kvm_unlink_unsync_page, kvm_mmu_flush_tlb. keep. Qed.

Lemma keeps_sync_pages g : keeps vm_moves (kvm_sync_pages m is_pae sync_page g).
Proof using Hsync.
  unfold kvm_sync_pages, kvm_mmu_flush_tlb. keep. generalize (@nil Z) as l. generalize false as b. induction (chain_of g a) as [|s ch IH]; intros b l; cbn [sync_loop];
    unfold kvm_mmu_prepare_zap_page, kvm_unlink_unsync_page; keep.
Qed.
#[local] Hint Resolve keeps_sync_transient keeps_sync_pages : keeps.

Lemma keeps_get_page g ga lv d acc pp : keeps vm_moves (kvm_mmu_get_page m v is_pae sync_page g ga lv d acc pp).
Proof using Hsync.
  unfold kvm_mmu_get_page, kvm_mmu_alloc_page, alloc_header, alloc_page, kvm_mod_used_mmu_pages, account_shadowed, gfn_to_memslot, init_shadow_page_table. keep.
  generalize false as b. induction (chain_of g a) as [|s ch IH]; intros b; cbn [find_page]; keep.
Qed.
#[local] Hint Resolve keeps_get_page : keeps.

(** ** Faults *)

Context (e : env).

Lemma keeps_wrprotected g lv : keeps vm_moves (has_wrprotected_page g lv).
Proof. unfold has_wrprotected_page, gfn_to_memslot. keep. Qed.
#[local] Hint Resolve keeps_wrprotected : keeps.

Lemma keeps_need_protect g b : keeps vm_moves (mmu_need_write_protect g b).
Proof.
  unfold mmu_need_write_protect, kvm_unsync_pages. keep.
  - generalize false as n. induction (chain_of g a) as [|s ch IH]; intros n; cbn [need_loop]; keep.
  - induction (chain_of g a0) as [|s ch IH]; cbn [unsync_loop]; unfold __kvm_unsync_page; keep.
Qed.
#[local] Hint Resolve keeps_need_protect : keeps.

Lemma keeps_set_spte a acc lv g pfn b1 b2 b3 : keeps vm_moves (set_spte m e a acc lv g pfn b1 b2 b3).
Proof. unfold set_spte, set_pte, mark_dirty. keep. Qed.

Lemma keeps_clear_way a lv pfn : keeps vm_moves (clear_way m a lv pfn).
Proof. unfold clear_way. keep. Qed.
#[local] Hint Resolve keeps_set_spte keeps_clear_way : keeps.

(** Whether the host counts the references of a frame. *)
Definition counted_pfn (pfn : Z) : bool := negb (is_error_noslot_pfn pfn) && negb (is_mmio_pfn e pfn).

(** Frame [p] loses what was held for [pfn]. *)
Definition bal (p : Z) (x : mmu) : Z := held p (vm_moves x).
Definition part (p pfn : Z) : Z := if counted_pfn pfn && (pfn =? p) then 1 else 0.

(** The operation drops the reference of [pfn] and nothing else. *)
Definition drops {A} (pfn : Z) (c : VM A) : Prop := forall p x a x', c x = Ok (a, x') -> bal p x' = bal p x - part p pfn.

Lemma keeps_bal {A} p (c : VM A) : keeps vm_moves c -> keeps (bal p) c.
Proof. intros H x a x' E. unfold bal. by rewrite (H _ _ _ E). Qed.
#[local] Hint Resolve keeps_bal : keeps.

Lemma drops_after {A B} pfn (c : VM A) (k : A -> VM B) : keeps vm_moves c -> (forall a, drops pfn (k a)) -> drops pfn (c ≫= k).
Proof.
  intros Hc Hk p x b x'. unfold mbind, st_bind. destruct (c x) as [[a x1]|] eqn:E; [|done]. intros E'. rewrite (Hk _ _ _ _ _ E'). unfold bal. by rewrite (Hc _ _ _ E).
Qed.

Lemma drops_before {A B} pfn (c : VM A) (k : A -> VM B) : drops pfn c -> (forall p a, keeps (bal p) (k a)) -> drops pfn (c ≫= k).
Proof.
  intros Hc Hk p x b x'. unfold mbind, st_bind. destruct (c x) as [[a x1]|] eqn:E; [|done]. intros E'. rewrite (Hk _ _ _ _ _ E'). by apply (Hc p _ a).
Qed.

Lemma tell_bal ev p x u x' : tell ev x = Ok (u, x') -> bal p x' = bal p x + held p ev.
Proof. intros [= _ <-]. unfold bal, vm_moves, moves. cbn. by rewrite !held_moves, held_app. Qed.

Lemma release_drops pfn : drops pfn (kvm_release_pfn_clean e pfn).
Proof.
  intros p x a x'. unfold kvm_release_pfn_clean, part, counted_pfn. destruct (_ && negb (is_mmio_pfn e pfn)); cbn [andb].
  - intros E%(tell_bal _ p). rewrite E. cbn. destruct (pfn =? p); lia.
  - intros [= _ <-]. lia.
Qed.

Lemma set_drops a acc b lv g pfn b1 b2 : drops pfn (mmu_set_spte m e a acc b lv g pfn b1 b2).
Proof.
  unfold mmu_set_spte, kvm_mmu_flush_tlb. repeat (apply drops_after; [solve [keep]|intros ?]). apply drops_before; [apply release_drops|keep].
Qed.

(** *** Neighbouring entries *)

(** [get_user_pages_fast] finds frames with counts. *)
Definition pages_counted : Prop := forall hva n p, p ∈ user_pages_fast e hva n -> counted_pfn p = true.

Lemma prefetch_bal pfns p : (forall q, q ∈ pfns -> counted_pfn q = true) -> forall lv acc g a x u x',
  prefetch_loop m e pfns lv acc g a x = Ok (u, x') -> bal p x' = bal p x - held p (Taken <$> pfns).
Proof.
  induction pfns as [|q pfns IH]; intros Hc lv acc g a x u x'; cbn [prefetch_loop].
  - intros [= _ <-]. cbn. lia.
  - unfold mbind, st_bind at 1. destruct (mmu_set_spte _ _ _ _ _ _ _ _ _ _ _) as [[b y]|] eqn:E; [|done]. intros E'.
    rewrite (IH (fun r Hr => Hc r (list_elem_of_further _ _ _ Hr)) _ _ _ _ _ _ _ E'), (set_drops _ _ _ _ _ _ _ _ p _ _ _ E). unfold part. rewrite (Hc q) by apply list_elem_of_here.
    rewrite fmap_cons. cbn [held andb]. destruct (q =? p); lia.
Qed.

Lemma prefetch_many_bal p spt a b : pages_counted -> keeps (bal p) (direct_pte_prefetch_many m e spt a b).
Proof.
  intros Hc. unfold direct_pte_prefetch_many, gfn_to_memslot_dirty_bitmap, gfn_to_memslot. repeat (apply keeps_mbind; [keep|intros ?]). destruct a2; [|keep].
  intros x r x'. unfold gfn_to_page_many_atomic. rewrite st_bind_assoc, (st_bind_Ok _ _ x x x) by done.
  destruct (__gfn_to_hva_many _ _ _) as [hva|]; [|by intros [= _ <-]]. destruct (search_memslots _ _) as [sl|]; [|by intros [= _ <-]]. destruct (_ <? _); [by intros [= _ <-]|]. cbv zeta.
  set (found := user_pages_fast e hva _). assert (Hf : forall q, q ∈ found -> counted_pfn q = true) by (intros q Hq; by apply (Hc _ _ _ Hq)). clearbody found.
  rewrite st_bind_assoc. intros (u & y & E & H)%st_bind_inv. apply (tell_bal _ p) in E. rewrite (st_bind_Ok _ _ y (Some found) y) in H by done. destruct found as [|q pfns].
  - injection H as _ <-. rewrite E. cbn. lia.
  - apply st_bind_inv in H as (u' & z & E' & [= _ <-]). rewrite (prefetch_bal _ p Hf _ _ _ _ _ _ _ E'), E. lia.
Qed.

Lemma prefetch_keeps p a : pages_counted -> keeps (bal p) (direct_pte_prefetch m e a).
Proof.
  intros Hc. unfold direct_pte_prefetch. keep. unfold __direct_pte_prefetch. generalize (Z.to_nat PTE_PREFETCH_NUM) as n. intros n.
  generalize (spt_of a + 8 * Z.ldiff (spt_index a) (PTE_PREFETCH_NUM - 1)) as s. generalize 0 as t. pose proof (fun s b => prefetch_many_bal p (spt_of a) s b Hc) as Hp.
  induction n as [|n IH]; intros t s; cbn [prefetch_entries]; keep.
Qed.

Lemma reach_drops a acc b lv g pfn b1 b2 : pages_counted -> drops pfn (em ← mmu_set_spte m e a acc b lv g pfn b1 b2; direct_pte_prefetch m e a ;; mret em).
Proof. intros Hc. apply drops_before; [apply set_drops|]. intros p em. apply keeps_mbind; [by apply prefetch_keeps|keep]. Qed.

(** *** Mapping *)

Lemma descend_keeps a pg ga lv acc it : keeps vm_moves (on_core (drop_large_spte m a) ;; pte ← entry a;
  (if negb (is_shadow_present_pte m pte) then spt ← kvm_mmu_get_page m v is_pae sync_page pg ga lv true acc a; link_shadow_page m a spt true else mret tt) ;; it ← shadow_walk_next it; mret it).
Proof using Hsync. unfold link_shadow_page, shadow_walk_next. keep. Qed.

Lemma ldiff_counted pfn k : is_error_noslot_pfn pfn = false -> is_error_noslot_pfn (Z.ldiff pfn k) = false.
Proof.
  unfold is_error_noslot_pfn, any. rewrite !negb_false_iff, !Z.eqb_eq. intros H. apply Z.bits_inj'. intros i Hi. assert (Hb : Z.testbit (Z.land pfn KVM_PFN_ERR_NOSLOT_MASK) i = false) by by rewrite H, Z.bits_0.
  rewrite Z.land_spec in Hb. rewrite Z.land_spec, Z.ldiff_spec, Z.bits_0. by destruct (Z.testbit pfn i), (Z.testbit k i), (Z.testbit _ i).
Qed.

(** The reference moves from one frame to the other. *)
Lemma adjust_bal p g pfn lv x g' pfn' lv' x' : transparent_hugepage_adjust e g pfn lv x = Ok ((g', pfn', lv'), x') -> bal p x' - part p pfn' = bal p x - part p pfn.
Proof.
  unfold transparent_hugepage_adjust. destruct (_ && trans_compound e pfn) eqn:Ec; [|by intros [= _ <- _ <-]].
  apply andb_true_iff in Ec as [[[Hne%negb_true_iff _]%andb_true_iff _]%andb_true_iff _]. intros (n & y & E & H)%st_bind_inv. apply (keeps_bal p) in E; [|keep].
  destruct (negb (n =? 0)); [injection H as _ <- _ <-; lia|]. cbv zeta in H.
  apply st_bind_inv in H as (u0 & y0 & E0 & H). destruct (Z.land g _ =? Z.land pfn _); [injection E0 as _ <-|done]. destruct (any pfn _); [|injection H as _ <- _ <-; lia].
  apply st_bind_inv in H as (u & z & E1%(release_drops pfn p) & H). apply st_bind_inv in H as (u' & z' & E2 & [= _ <- _ <-]).
  assert (E3 : bal p z' = bal p z + part p (Z.ldiff pfn (KVM_PAGES_PER_HPAGE PT_DIRECTORY_LEVEL - 1))); [|lia].
  revert E2. unfold kvm_get_pfn, part, counted_pfn. rewrite (ldiff_counted pfn) by done. destruct (negb (is_mmio_pfn e _)); cbn [andb negb]; [|intros [= _ <-]; lia].
  intros E2%(tell_bal _ p). rewrite E2. cbn. destruct (_ =? p); lia.
Qed.

Lemma prepare_keeps topup gpa ec : keeps vm_moves (tdp_prepare m e v topup gpa ec).
Proof.
  assert (Hw : forall n stop it s, keeps vm_moves (walk_lockless n stop it s)) by (intros n; induction n as [|n IH]; intros stop it s; cbn [walk_lockless]; keep).
  assert (Hl : forall ls a b c, keeps vm_moves (level_loop ls a b c)) by (intros ls; induction ls as [|l ls IH]; intros a b c; cbn [level_loop]; keep).
  unfold tdp_prepare, handle_mmio_page_fault_common, walk_shadow_page_get_mmio_spte, vcpu_cache_mmio_info, mmu_topup_memory_caches, mapping_level_dirty_bitmap, gfn_to_memslot_dirty_bitmap,
    gfn_to_memslot, mapping_level, fast_page_fault, fast_pf_fix_direct_spte, mark_dirty. keep.
Qed.

Lemma abnormal_keeps gva g pfn acc : keeps vm_moves (handle_abnormal_pfn gva g pfn acc).
Proof. unfold handle_abnormal_pfn, kvm_handle_bad_page, vcpu_cache_mmio_info. keep. Qed.

End mode.

End tables.
