(* ===== verification/DirectSpec.v ===== *)
(** * A fault of the direct map maps the frame (kvm-kmod x86/mmu.c)

    Finding or making a page, linking it and writing an entry keep the tree
    of [ShadowSpec]; the walk ends at the entry of the frame asked for, the
    caches filled before the lock are enough, and nothing else is mapped that
    was not mapped before. *)

From S2P Require Import Prelude MemSlots GuestCopy Spte PteList Rmap ShadowPages ShadowSpec RoomSpec DirectMap.

Section get_page.
  Context (m : shadow_masks).

(** ** Parents *)

Lemma add_parent_run x ls spt sp a v : tree m (core x) ls None -> pages (core x) !! spt = Some sp ->
  spt_mem (core x) !! a = Some v -> is_shadow_present_pte m v = false -> objects (lists (core x)) <> [] ->
  exists k' ls', mmu_page_add_parent_pte spt a x = Ok (tt, set_core k' x) /\ tree m k' ls' (Some (spt, a)) /\
    slots k' = slots (core x) /\ pages k' = pages (core x) /\ spt_mem k' = spt_mem (core x) /\ dom (heads k') = dom (heads (core x)) /\
    (length (objects (lists (core x))) <= S (length (objects (lists k'))))%nat.
Proof.
  intros Ht Esp Ev Hv Ho. pose proof (tr_mmu _ _ _ _ Ht) as Hok. destruct (mk_addr _ _ _ Hok _ _ Ev) as [Ha0 Ha1].
  destruct (tree_page _ _ _ _ _ _ Ht Esp) as [_ (w & l & Hw & El)]. destruct (tr_parents _ _ _ _ Ht _ _ El) as [Hn Hi].
  destruct (mk_lists _ _ _ Hok) as [ch Hl].
  destruct (lists_add _ _ _ _ _ _ _ a Hl Hw El Ho (conj Ha0 Ha1)) as (n & w' & p' & l' & ch' & Ea & Hpm & _ & Hl' & Hlen).
  unfold mmu_page_add_parent_pte. replace (a =? 0) with false by lia. set (k' := set_heads (<[Parents spt := w']>) p' (core x)).
  assert (E : list_add a (Parents spt) (core x) = Ok (n, k')).
  { unfold list_add, get. rewrite (st_bind_Ok _ _ (core x) (core x) (core x)) by done.
    rewrite (st_bind_Ok _ _ (core x) w (core x)) by (unfold known; by rewrite Hw). by rewrite (st_bind_Ok _ _ _ _ _ (lift_res_Ok _ _ _ Ea)). }
  rewrite (st_bind_Ok _ _ _ _ _ (on_core_Ok _ _ _ _ E)). exists k', (<[Parents spt := l']> ls).
  assert (Hdom : dom (heads k') = dom (heads (core x))).
  { cbn. rewrite dom_insert_L. assert (Parents spt ∈ dom (heads (core x))) by (apply elem_of_dom; eauto). set_solver. }
  split; [done|]. split; [|by split_and!].
  assert (Hna : a ∉ l) by (intros [(u & (Eu & Hu & _) & _)|]%Hi; [congruence|done]). destruct Ht as [_ T2 T3 T4 T5 T6 T7].
  split; try done.
  - apply (mmu_ok_leaves m (core x) _ ls); try done; [by exists ch'|..].
    + intros b u Eu. split; [by eapply (mk_addr _ _ _ Hok)|by eapply (mk_align _ _ _ Hok)].
    + intros sl lv i. by rewrite lookup_insert_ne.
    + intros sl lv i. cbn. by rewrite lookup_insert_ne.
  - intros b. rewrite <- elem_of_dom, Hdom, elem_of_dom. apply T6.
  - intros b l0. rewrite lookup_insert. case_decide as Eb.
    + injection Eb as <-. intros [= <-]. rewrite Hpm. split; [by apply NoDup_cons|]. intros c. rewrite Hpm, elem_of_cons, Hi. naive_solver.
    + intros El0. destruct (T7 b l0 El0) as [Hn0 Hi0]. split; [done|]. intros c. rewrite Hi0. split; [intros [?|?]; [by left|done]|].
      intros [?|[= <- <-]]; [by left|done].
Qed.

(** A new page with the word [w] of its parents. *)
Definition with_new (spt : Z) (sp : kvm_mmu_page) (w : Z) (k : kvm) : kvm :=
  Kvm (slots k) (<[Parents spt := w]> (heads k)) (lists k) (foldl (fun h a => <[a := 0]> h) (spt_mem k) (entries spt))
    (<[spt := sp]> (pages k)) (told k) (flushes k) (lpages k) (tlbs_dirty k).

Lemma foldl_insert_lookup (l : list Z) : forall (h : gmap Z Z) a,
  foldl (fun h a => <[a := 0]> h) h l !! a = if bool_decide (a ∈ l) then Some 0 else h !! a.
Proof.
  induction l as [|b l IH]; intros h a; [done|]. cbn [foldl]. rewrite IH, lookup_insert, (bool_decide_ext (a ∈ b :: l) (a = b \/ a ∈ l)) by apply elem_of_cons.
  case_bool_decide as H1; [by rewrite bool_decide_true by auto|]. case_decide as H2; [by rewrite bool_decide_true by auto|].
  rewrite bool_decide_false; [done|]. intros [->|?]; done.
Qed.

Lemma new_page_tree k ls spt sp w l pend : tree m k ls None -> pages k !! spt = None -> page_ok spt sp ->
  holds (descs (lists k)) w [] l -> NoDup l -> (forall a, a ∈ l <-> pend = Some (spt, a)) -> (forall b a, pend = Some (b, a) -> b = spt) ->
  tree m (with_new spt sp w k) (<[Parents spt := l]> ls) pend.
Proof.
  intros Ht Hno Hpg Hh Hn Hpe Hb. pose proof (tr_mmu _ _ _ _ Ht) as Hok. destruct Hpg as [[Hpos Hal] P2 P3 P4 P5].
  assert (Hmem : forall a, spt_mem (with_new spt sp w k) !! a = if bool_decide (a mod 8 = 0 /\ spt_of a = spt) then Some 0 else spt_mem k !! a).
  { intros a. cbn [with_new spt_mem]. rewrite foldl_insert_lookup. by rewrite (bool_decide_ext _ _ (elem_of_entries a spt Hal)). }
  assert (Hsame : forall a v, spt_mem (with_new spt sp w k) !! a = Some v -> is_shadow_present_pte m v = true -> spt_mem k !! a = Some v).
  { intros a v. rewrite Hmem. case_bool_decide; [|done]. intros [= <-] Hp. by rewrite zero_not_present in Hp. }
  assert (Hkeep : forall a v, spt_mem k !! a = Some v -> spt_of a <> spt /\ spt_mem (with_new spt sp w k) !! a = Some v).
  { intros a v Ev. assert (Hs : is_Some (spt_mem k !! a)) by eauto. apply (tr_mem _ _ _ _ Ht) in Hs as [_ [q Eq]].
    assert (spt_of a <> spt) by congruence. split; [done|]. rewrite Hmem, bool_decide_false; [done|tauto]. }
  assert (Hpgs : forall b q, b <> spt -> pages (with_new spt sp w k) !! b = Some q <-> pages k !! b = Some q).
  { intros b q Hne. cbn [with_new pages]. by rewrite lookup_insert_ne. }
  assert (Hlf : forall a v, leaf m (with_new spt sp w k) a v <-> leaf m k a v).
  { intros a v. split.
    - intros (Ev & Hp & q & Eq & Hl). apply Hsame in Ev; [|done]. destruct (Hkeep _ _ Ev) as [Hne _]. apply Hpgs in Eq; [|done]. by repeat (split || exists q).
    - intros (Ev & Hp & q & Eq & Hl). destruct (Hkeep _ _ Ev) as [Hne Ev']. split; [done|]. split; [done|]. exists q. by rewrite Hpgs. }
  assert (Hnl : forall a v, nonleaf m (with_new spt sp w k) a v <-> nonleaf m k a v).
  { intros a v. split.
    - intros (Ev & Hp & q & Eq & Hl). apply Hsame in Ev; [|done]. destruct (Hkeep _ _ Ev) as [Hne _]. apply Hpgs in Eq; [|done]. by repeat (split || exists q).
    - intros (Ev & Hp & q & Eq & Hl). destruct (Hkeep _ _ Ev) as [Hne Ev']. split; [done|]. split; [done|]. exists q. by rewrite Hpgs. }
  assert (Hnh : heads k !! Parents spt = None).
  { apply eq_None_not_Some. rewrite (tr_heads _ _ _ _ Ht), Hno. by intros [? ?]. }
  split.
  - apply (mmu_ok_leaves m k _ ls); try done.
    + destruct (mk_lists _ _ _ Hok) as [ch Hlo]. exists (<[Parents spt := []]> ch). by apply lists_new.
    + intros a v. rewrite Hmem. case_bool_decide as Ha; intros Ev.
      * destruct Ha as [Ha8 Ha]. split; [|done]. destruct (entry_at a Ha8) as (Ea & Hi & _). rewrite Ha in Ea. split; [lia|].
        pose proof (Z.div_mod a 8 ltac:(lia)) as D. rewrite Ha8 in D. replace a with (2 * (4 * (a / 8))) by lia. apply Z.testbit_even_0.
      * split; [by eapply (mk_addr _ _ _ Hok)|by eapply (mk_align _ _ _ Hok)].
    + intros a v (Ev & _). unfold rmap_of, spte_gfn. cbn [with_new pages slots]. destruct (Hkeep _ _ Ev) as [Hne _]. by rewrite lookup_insert_ne.
    + intros sl lv i. by rewrite lookup_insert_ne.
    + intros sl lv i. cbn. by rewrite lookup_insert_ne.
  - intros b q. cbn [with_new pages]. rewrite lookup_insert. case_decide; [intros [= <-]; subst b; by split|apply (tr_pages _ _ _ _ Ht)].
  - intros a. rewrite Hmem. cbn [with_new pages]. rewrite lookup_insert. case_bool_decide as Ha.
    + destruct Ha as [Ha ->]. rewrite decide_True by done. split; eauto.
    + rewrite (tr_mem _ _ _ _ Ht). case_decide as Es; [|done]. rewrite <- Es, Hno. split; [intros [_ [? ?]]; done|]. intros [H8 _]. by destruct Ha.
  - intros a v q Hv%Hlf Eq. destruct (Hkeep a v) as [Hne _]; [apply Hv|]. apply Hpgs in Eq; [|done]. by eapply (tr_level _ _ _ _ Ht).
  - intros a v q Hv%Hnl Eq. destruct (Hkeep a v) as [Hne _]; [apply Hv|]. apply Hpgs in Eq; [|done].
    destruct (tr_child _ _ _ _ Ht _ _ _ Hv Eq) as (c & Ec & Hc). exists c. rewrite Hpgs; [done|]. congruence.
  - intros b. cbn [with_new heads pages]. rewrite !lookup_insert. repeat case_decide; try congruence; [split; eauto|apply (tr_heads _ _ _ _ Ht)].
  - intros b l0. rewrite lookup_insert. case_decide as Eb.
    + injection Eb as <-. intros [= <-]. split; [done|]. intros a. rewrite Hpe. split; [by right|]. intros [(v & Hv%Hnl & Hc)|?]; [|done].
      destruct Hv as (Ev & Hp & q & Eq & Hl). destruct (tr_child _ _ _ _ Ht a v q) as (c & Ec & _); [by repeat (split || exists q)|done|congruence].
    + intros El0. destruct (tr_parents _ _ _ _ Ht _ _ El0) as [Hn0 Hi0]. split; [done|]. intros a. rewrite Hi0. setoid_rewrite Hnl.
      split; [intros [?|?]; [by left|done]|]. intros [?|E]; [by left|]. by apply Hb in E as ->.
Qed.

(** ** Bits of the entries *)

(** The masks for execution and for user mode are bit 2 or bit 63. *)
Record direct_masks : Prop := {
  dm_ok : masks_ok m;
  dm_soft i : Z.testbit (shadow_x_mask m) i = true \/ Z.testbit (shadow_nx_mask m) i = true \/ Z.testbit (shadow_user_mask m) i = true -> i = 2 \/ i = 63
}.

Lemma base_mask_bit i : 0 <= i -> Z.testbit PT64_BASE_ADDR_MASK i = (12 <=? i) && (i <? 52).
Proof.
  intros Hi. unfold PT64_BASE_ADDR_MASK. change (Z.shiftl 1 52 - 1) with (Z.ones 52). change (PAGE_SIZE - 1) with (Z.ones 12).
  rewrite Z.ldiff_spec, !Z.testbit_ones_nonneg by lia. destruct (Z.leb_spec 12 i), (Z.ltb_spec i 52), (Z.ltb_spec i 12); cbn; lia.
Qed.

Lemma aligned_bit spt i : aligned spt -> 0 <= i -> Z.testbit spt i = true -> 12 <= i < 52.
Proof.
  intros [Hr Ha] Hi Ht. split.
  - destruct (Z.le_gt_cases 12 i) as [|Hlt]; [done|]. rewrite <- (Z.mod_pow2_bits_low spt 12) in Ht by lia. change (2 ^ 12) with PAGE_SIZE in Ht.
    by rewrite Ha, Z.bits_0 in Ht.
  - destruct (Z.lt_ge_cases i 52) as [|Hge]; [done|]. rewrite (testbit_above spt 52) in Ht by lia. done.
Qed.

Section bits.
  Context (Hm : direct_masks).

Lemma accessed_bit i : 0 <= i -> Z.testbit (shadow_accessed_mask m) i = true -> 3 <= i < 10 /\ i <> 7.
Proof using Hm.
  intros Hi. destruct (mo_ad _ (dm_ok Hm)) as [[-> _]|(a & d & -> & _ & _ & Ha & _)]; [by rewrite Z.bits_0|].
  rewrite Z.pow2_bits_eqb by (unfold hw_bit in Ha; lia). intros E%Z.eqb_eq. subst i. done.
Qed.

Lemma soft_bit i : i <> 2 -> i <> 63 -> Z.testbit (shadow_x_mask m) i = false /\ Z.testbit (shadow_nx_mask m) i = false /\ Z.testbit (shadow_user_mask m) i = false.
Proof using Hm.
  intros H2 H63. split_and!; apply not_true_iff_false; intros H; destruct (dm_soft Hm i); auto.
Qed.

Lemma link_bit spt i : aligned spt -> 0 <= i -> i <> 2 -> i <> 63 ->
  Z.testbit (link_spte m spt true) i = Z.testbit spt i || (i =? 0) || (i =? 1) || Z.testbit (shadow_accessed_mask m) i.
Proof using Hm.
  intros Hs Hi H2 H63. unfold link_spte. rewrite !Z.lor_spec. destruct (soft_bit i H2 H63) as (-> & _ & ->).
  change PT_PRESENT_MASK with (2 ^ 0). change PT_WRITABLE_MASK with (2 ^ 1). rewrite !Z.pow2_bits_eqb by lia. rewrite (Z.eqb_sym 0), (Z.eqb_sym 1).
  by rewrite !orb_false_r.
Qed.

Lemma link_facts spt level : aligned spt -> 1 < level -> is_shadow_present_pte m (link_spte m spt true) = true /\
  child_of (link_spte m spt true) = spt /\ is_last_spte (link_spte m spt true) level = false.
Proof using Hm.
  intros Hs Hl. pose proof Hm as [Hok _].
  assert (Hsb : forall i, 0 <= i -> 52 <= i \/ i < 12 -> Z.testbit spt i = false).
  { intros i Hi Ho. apply not_true_iff_false. intros H. pose proof (aligned_bit spt i Hs Hi H). lia. }
  assert (Hab : forall i, 0 <= i -> 10 <= i \/ i < 3 \/ i = 7 -> Z.testbit (shadow_accessed_mask m) i = false).
  { intros i Hi Ho. apply not_true_iff_false. intros H. pose proof (accessed_bit i Hi H). lia. }
  split_and!.
  - rewrite (present_bit m Hok); rewrite link_bit by (done || lia); [by rewrite Hsb by lia|]. rewrite Hsb, Hab by lia. done.
  - unfold child_of. apply Z.bits_inj'. intros i Hi. rewrite Z.land_spec, base_mask_bit by done.
    destruct (Z.leb_spec 12 i), (Z.ltb_spec i 52); cbn [andb]; rewrite ?andb_false_r, ?andb_true_r; [|by rewrite Hsb by lia..].
    rewrite link_bit by (done || lia). rewrite Hab by lia. replace (i =? 0) with false by lia. replace (i =? 1) with false by lia. by rewrite !orb_false_r.
  - unfold is_last_spte, PT_PAGE_TABLE_LEVEL. replace (level =? 1) with false by lia. unfold is_large_pte, PT_PAGE_SIZE_MASK. rewrite any_bit by lia.
    rewrite link_bit by (done || lia). rewrite Hsb, Hab by lia. done.
Qed.

(** ** Linking *)

Lemma link_run x ls spt sp c a v : tree m (core x) ls (Some (spt, a)) -> spt_mem (core x) !! a = Some v -> is_shadow_present_pte m v = false ->
  pages (core x) !! spt_of a = Some sp -> pages (core x) !! spt = Some c -> sp_level c = sp_level sp - 1 -> 1 < sp_level sp ->
  sp_gfn c = sp_gfn sp + spt_index a * frames (sp_level sp) ->
  link_shadow_page m a spt true x = Ok (tt, set_core (set_mem a (link_spte m spt true) [] (core x)) x) /\
  tree m (set_mem a (link_spte m spt true) [] (core x)) ls None.
Proof using Hm.
  intros Ht Ev Hv Esp Ec Hlc Hl Hg. pose proof (tr_mmu _ _ _ _ Ht) as Hok. destruct (tr_pages _ _ _ _ Ht _ _ Ec) as [Hal _ _ _ _].
  destruct (link_facts spt (sp_level sp) Hal Hl) as (Hp & Hch & Hlast).
  unfold link_shadow_page. remember (link_spte m spt true) as lv eqn:Elv. clear Elv. set (k' := set_mem a lv [] (core x)).
  split.
  { assert (E : mmu_spte_set a lv (core x) = Ok (tt, k')); [|by rewrite (on_core_Ok _ _ _ _ E)].
    unfold mmu_spte_set. by rewrite (st_bind_Ok _ _ _ _ _ (read_spte_Ok _ _ _ Ev)). }
  assert (Hlf : forall b u, leaf m k' b u <-> leaf m (core x) b u).
  { intros b u. unfold leaf. cbn [k' set_mem spt_mem pages]. rewrite lookup_insert. case_decide as Eb; [subst b|done].
    split; [intros ([= <-] & _ & q & Eq & Hq)|intros (Eu & Hu & _)]; congruence. }
  assert (Hnl : forall b u, nonleaf m k' b u <-> b = a /\ u = lv \/ b <> a /\ nonleaf m (core x) b u).
  { intros b u. unfold nonleaf. cbn [k' set_mem spt_mem pages]. rewrite lookup_insert. case_decide as Eb; [subst b|naive_solver].
    split; [intros ([= <-] & _); by left|]. intros [[_ ->]|[? _]]; [|done]. split; [done|]. split; [done|]. by exists sp. }
  split.
  - apply (mmu_ok_leaves m (core x) _ ls); try done; try apply Ht. intros b u. cbn [k' set_mem spt_mem]. rewrite lookup_insert.
    case_decide as Eb; intros Eu; [subst b; split; [by eapply (mk_addr _ _ _ Hok)|by eapply (mk_align _ _ _ Hok)]|].
    split; [by eapply (mk_addr _ _ _ Hok)|by eapply (mk_align _ _ _ Hok)].
  - apply Ht.
  - intros b. cbn [k' set_mem spt_mem pages]. rewrite <- (tr_mem _ _ _ _ Ht), lookup_insert. case_decide; [subst b|done]. split; eauto.
  - intros b u q Hb%Hlf. by apply (tr_level _ _ _ _ Ht b u).
  - intros b u q [[-> ->]|[_ Hb]]%Hnl Eq; [|by apply (tr_child _ _ _ _ Ht)]. cbn in Eq. assert (q = sp) as -> by congruence. exists c. by rewrite Hch.
  - apply Ht.
  - intros b l El. destruct (tr_parents _ _ _ _ Ht _ _ El) as [Hn Hi]. split; [done|]. intros d. rewrite Hi. setoid_rewrite Hnl. split.
    + intros [(u & Hu & Hc)|[= <- <-]]; [|left; exists lv; split; [by left|done]]. left. exists u. split; [|done]. right. split; [|done].
      intros ->. destruct Hu as (Eu & Hpu & _). congruence.
    + intros [(u & [[-> ->]|[_ Hu]] & Hc)|?]; [right; congruence|left; eauto|done].
Qed.

(** ** Finding or making a page *)

(** The parent to be written; 0 is none. *)
Definition pend_of (spt a : Z) : option (Z * Z) := if a =? 0 then None else Some (spt, a).

(** [a] is no entry, or one that is absent and may be added to a list. *)
Definition parent_ok (x : mmu) (a : Z) : Prop :=
  a = 0 \/ a <> 0 /\ (exists v, spt_mem (core x) !! a = Some v /\ is_shadow_present_pte m v = false) /\ objects (lists (core x)) <> [].

(** What is as before, or more. *)
Record grew (x x' : mmu) : Prop := {
  gr_slots : slots (core x') = slots (core x);
  gr_counts : write_count x' = write_count x;
  gr_gen : valid_gen x' = valid_gen x;
  gr_rmaps sl lv i : is_Some (heads (core x') !! Rmap sl lv i) <-> is_Some (heads (core x) !! Rmap sl lv i);
  gr_mem b u : spt_mem (core x') !! b = Some u -> is_shadow_present_pte m u = true -> spt_mem (core x) !! b = Some u;
  gr_keep b u : spt_mem (core x) !! b = Some u -> spt_mem (core x') !! b = Some u;
  gr_pages b q : pages (core x) !! b = Some q -> exists q', pages (core x') !! b = Some q' /\ same_page q q' /\ access (role q') = access (role q);
  gr_active : active_mmu_pages x' = active_mmu_pages x /\ n_used_mmu_pages x' = n_used_mmu_pages x \/
    exists spt, active_mmu_pages x' = spt :: active_mmu_pages x /\ n_used_mmu_pages x' = u32 (n_used_mmu_pages x + 1) /\ is_root x spt = false;
  gr_root b : is_root x' b = is_root x b;
  gr_max : n_max_mmu_pages x' = n_max_mmu_pages x;
  gr_orderly : orderly x -> orderly x';
  gr_caches : (length (mmu_page_cache x) <= S (length (mmu_page_cache x')) /\ mmu_page_header_cache x <= S (mmu_page_header_cache x') /\
    length (objects (lists (core x))) <= S (length (objects (lists (core x')))))%nat
}.

Lemma parent_run x ls spt sp a : tree m (core x) ls None -> pages (core x) !! spt = Some sp -> parent_ok x a ->
  exists k' ls', mmu_page_add_parent_pte spt a x = Ok (tt, set_core k' x) /\ tree m k' ls' (pend_of spt a) /\
    slots k' = slots (core x) /\ pages k' = pages (core x) /\ spt_mem k' = spt_mem (core x) /\ dom (heads k') = dom (heads (core x)) /\
    (length (objects (lists (core x))) <= S (length (objects (lists k'))))%nat.
Proof.
  intros Ht Esp [->|(Ha & (v & Ev & Hv) & Ho)].
  - exists (core x), ls. rewrite set_core_core. split; [done|]. split; [done|]. do 4 (split; [done|]). lia.
  - unfold pend_of. replace (a =? 0) with false by lia. by apply (add_parent_run x ls spt sp a v).
Qed.

(** What the search leaves: nothing, or a page of the frame and role with a
    parent more. *)
Definition found (x : mmu) (gfn : Z) (r : kvm_mmu_page_role) (a : Z) (o : option Z) (x' : mmu) : Prop :=
  match o with
  | None => x' = x
  | Some spt => exists sp k' ls', pages (core x) !! spt = Some sp /\ sp_gfn sp = gfn /\ role sp = r /\ x' = set_core k' x /\
      tree m k' ls' (pend_of spt a) /\ slots k' = slots (core x) /\ pages k' = <[spt := with_flooding 0 sp]> (pages (core x)) /\
      spt_mem k' = spt_mem (core x) /\ dom (heads k') = dom (heads (core x)) /\
      (length (objects (lists (core x))) <= S (length (objects (lists k'))))%nat
  end.

Lemma find_page_run is_pae sync chain gfn r a x ls : tree m (core x) ls None -> (forall spt, spt ∈ chain -> is_Some (pages (core x) !! spt)) -> parent_ok x a ->
  exists o x', find_page m is_pae sync chain gfn r a false x = Ok ((o, false), x') /\ found x gfn r a o x'.
Proof.
  intros Ht Hch Hpa. induction chain as [|spt chain IH]; [by exists None, x|]. cbn [find_page].
  specialize (IH (fun b Hb => Hch b (list_elem_of_further b spt chain Hb))).
  destruct (Hch spt ltac:(left)) as [sp Esp]. destruct (tree_page _ _ _ _ _ _ Ht Esp) as [Es _]. pose proof Esp as Esp'. rewrite <- Es in Esp'.
  rewrite (st_bind_Ok _ _ x x x) by done. rewrite (st_bind_Ok _ _ _ _ _ (header_Ok _ _ _ Esp')).
  destruct (tr_pages _ _ _ _ Ht _ _ Esp) as [_ _ [Hu Hc] _ _].
  destruct (negb (sp_gfn sp =? gfn) || is_obsolete_sp x sp) eqn:E1; [done|].
  apply orb_false_iff in E1 as [E1%negb_false_iff%Z.eqb_eq E2]. rewrite Hu. cbn [orb]. case_bool_decide as Er; cbn [negb]; [|done].
  rewrite (st_bind_Ok _ _ x 0 x) by done. cbn [negb Z.eqb].
  destruct (parent_run x ls spt sp a Ht Esp Hpa) as (k1 & ls1 & Ea & Ht1 & S1 & P1 & M1 & D1 & L1). rewrite (st_bind_Ok _ _ _ _ _ Ea).
  assert (Esp1 : pages (core (set_core k1 x)) !! spt = Some sp) by (cbn; by rewrite P1). pose proof Esp1 as Esp1'. rewrite <- Es in Esp1'.
  rewrite (st_bind_Ok _ _ _ _ _ (header_Ok _ _ _ Esp1')), Hc, Hu. cbn [negb Z.eqb]. rewrite (st_bind_Ok _ _ (set_core k1 x) tt (set_core k1 x)) by done.
  rewrite (st_bind_Ok _ _ _ _ _ (update_Ok _ spt sp (with_flooding 0) Esp1 Es)). eexists (Some spt), _. split; [reflexivity|].
  exists sp, (set_pages (<[spt := with_flooding 0 sp]>) k1), ls1. do 4 (split; [done|]).
  split; [by apply (tree_update _ _ _ _ _ sp)|]. cbn. by rewrite P1.
Qed.

(** A page made for the frame. *)
Definition made (gfn gen : Z) (r : kvm_mmu_page_role) : kvm_mmu_page := Page gfn r [] false 0 0 gen ∅ 0.

(** A page taken from the caches, with header, memory and hash table as
    given. *)
Definition midway (spt a : Z) (sp : kvm_mmu_page) (mem : gmap Z Z) (hash : gmap Z (list Z)) (x : mmu) : mmu :=
  let k := core x in
  Mmu (Kvm (slots k) (<[Parents spt := a]> (heads k)) (lists k) mem (<[spt := sp]> (pages k)) (told k) (flushes k)
         (lpages k) (tlbs_dirty k)) hash (spt :: active_mmu_pages x) (zapped_obsolete_pages x) (u32 (n_used_mmu_pages x + 1))
    (n_max_mmu_pages x) (indirect_shadow_pages x) (valid_gen x) (write_count x) (tail (mmu_page_cache x)) (pred (mmu_page_header_cache x))
    (requests x) (mmio_info x).

Definition made_state (spt gfn : Z) (r : kvm_mmu_page_role) (a : Z) (x : mmu) : mmu :=
  midway spt a (made gfn (valid_gen x) r) (foldl (fun h a => <[a := 0]> h) (spt_mem (core x)) (entries spt))
    (<[kvm_page_table_hashfn gfn := spt :: chain_of gfn x]> (mmu_page_hash x)) x.

Lemma midway_update spt a sp mem hash x f : spt_of spt = spt ->
  update spt f (midway spt a sp mem hash x) = Ok (tt, midway spt a (f sp) mem hash x).
Proof.
  intros Es. rewrite (update_Ok _ spt sp f) by (done || apply lookup_insert_eq). unfold midway, set_core, set_pages.
  cbn [core slots heads lists spt_mem pages told flushes lpages tlbs_dirty mmu_page_hash active_mmu_pages zapped_obsolete_pages n_used_mmu_pages n_max_mmu_pages
    indirect_shadow_pages valid_gen write_count mmu_page_cache mmu_page_header_cache requests mmio_info]. by rewrite insert_insert_eq.
Qed.

(** The word of the parents of a new page is the one parent. *)
Lemma add_first_parent spt a k : good a -> heads k !! Parents spt = Some 0 ->
  list_add a (Parents spt) k = Ok (O, set_heads (<[Parents spt := a]>) (lists k) k).
Proof.
  intros Ha Hw. unfold list_add, get. rewrite (st_bind_Ok _ _ k k k) by done. rewrite (st_bind_Ok _ _ k 0 k) by (unfold known; by rewrite Hw). done.
Qed.

Lemma alloc_run x a spt cache n : mmu_page_cache x = spt :: cache -> mmu_page_header_cache x = S n -> (a <> 0 -> good a) ->
  kvm_mmu_alloc_page a true x = Ok (spt, midway spt a zero_page (spt_mem (core x)) (mmu_page_hash x) x).
Proof.
  intros Ec En Ha. unfold kvm_mmu_alloc_page. destruct x as [k h ac za us mx ind gen wc pc hc rq mi]. cbn in Ec, En. subst pc hc.
  set (x1 := Mmu k h ac za us mx ind gen wc (spt :: cache) n rq mi). rewrite (st_bind_Ok _ _ _ tt x1) by done.
  set (x2 := Mmu k h ac za us mx ind gen wc cache n rq mi). rewrite (st_bind_Ok _ _ x1 spt x2) by done.
  rewrite (st_bind_Ok _ _ x2 [] x2) by done.
  set (k3 := set_heads (<[Parents spt := 0]>) (lists k) (set_pages (<[spt := with_gfns (fun _ => []) zero_page]>) k)).
  rewrite (st_bind_Ok _ _ x2 tt (set_core k3 x2)) by done. set (x3 := set_core k3 x2). rewrite (st_bind_Ok _ _ x3 x3 x3) by done.
  rewrite (st_bind_Ok _ _ x3 tt (set_active (spt :: ac) us x3)) by done. set (x4 := set_active (spt :: ac) us x3).
  assert (Ep : mmu_page_add_parent_pte spt a x4 = Ok (tt, set_core (set_heads (fun _ => <[Parents spt := a]> (heads k)) (lists k) k3) x4)).
  { unfold mmu_page_add_parent_pte. destruct (Z.eqb_spec a 0) as [->|Hne]; [done|].
    assert (E : list_add a (Parents spt) (core x4) = Ok (O, set_heads (<[Parents spt := a]>) (lists (core x4)) (core x4))).
    { apply add_first_parent; [auto|]. cbn. by rewrite lookup_insert_eq. }
    rewrite (st_bind_Ok _ _ _ _ _ (on_core_Ok _ _ _ _ E)). unfold k3, set_heads. cbn. by rewrite insert_insert_eq. }
  by rewrite (st_bind_Ok _ _ _ _ _ Ep).
Qed.

(** The new page in the direct map. *)
Lemma make_run v is_pae sync x ls a spt cache n gfn gaddr level : settled m x ls None -> mmu_page_cache x = spt :: cache -> mmu_page_header_cache x = S n ->
  (a <> 0 -> good a) -> find_page m is_pae sync (chain_of gfn x) gfn (page_role v gaddr level true ACC_ALL) a false x = Ok ((None, false), x) ->
  kvm_mmu_get_page m v is_pae sync gfn gaddr level true ACC_ALL a x = Ok (spt, made_state spt gfn (page_role v gaddr level true ACC_ALL) a x).
Proof.
  intros [Ht Hb _ _ _ _] Ec En Ha Ef. unfold kvm_mmu_get_page. set (r := page_role v gaddr level true ACC_ALL) in *.
  assert (Es : spt_of spt = spt) by (apply spt_of_aligned, (tb_cache _ Hb); rewrite Ec; left).
  rewrite (st_bind_Ok _ _ x x x) by done. rewrite (st_bind_Ok _ _ _ _ _ Ef). rewrite (st_bind_Ok _ _ _ _ _ (alloc_run x a spt cache n Ec En Ha)).
  rewrite (st_bind_Ok _ _ _ _ _ (midway_update spt a _ _ _ x _ Es)).
  change (with_role r (Page gfn _ _ _ _ _ _ _ _)) with (Page gfn r [] false 0 0 0 ∅ 0).
  set (h := <[kvm_page_table_hashfn gfn := spt :: chain_of gfn x]> (mmu_page_hash x)).
  rewrite (st_bind_Ok _ _ _ tt (midway spt a (Page gfn r [] false 0 0 0 ∅ 0) (spt_mem (core x)) h x)) by done. cbn [negb].
  rewrite (st_bind_Ok (mret tt) _ _ tt (midway spt a (Page gfn r [] false 0 0 0 ∅ 0) (spt_mem (core x)) h x)) by done.
  rewrite (st_bind_Ok state _ _ (midway spt a (Page gfn r [] false 0 0 0 ∅ 0) (spt_mem (core x)) h x) (midway spt a (Page gfn r [] false 0 0 0 ∅ 0) (spt_mem (core x)) h x)) by done.
  rewrite (st_bind_Ok _ _ _ _ _ (midway_update spt a _ _ _ x _ Es)).
  by rewrite (st_bind_Ok _ _ _ tt (made_state spt gfn r a x)).
Qed.

Lemma made_ok x ls a spt cache gfn r : settled m x ls None -> mmu_page_cache x = spt :: cache -> (a <> 0 -> good a) ->
  page_ok spt (made gfn (valid_gen x) r) -> invalid r = false ->
  exists ls', settled m (made_state spt gfn r a x) ls' (pend_of spt a).
Proof.
  intros [Ht Hb Hact Hz Hroot Hinv] Ec Ha Hpg Hi. destruct (tb_cache _ Hb) as [Hcn Hc]. rewrite Ec in Hcn, Hc.
  destruct (Hc spt ltac:(left)) as [Hal Hno]. apply NoDup_cons in Hcn as [Hsc Hcn].
  exists (<[Parents spt := if a =? 0 then [] else [a]]> ls).
  assert (Ht' : tree m (core (made_state spt gfn r a x)) (<[Parents spt := if a =? 0 then [] else [a]]> ls) (pend_of spt a)).
  { apply new_page_tree; try done; unfold pend_of; destruct (Z.eqb_spec a 0) as [->|Hne].
    - constructor.
    - constructor. auto.
    - constructor.
    - apply NoDup_singleton.
    - intros b. split; [by intros ?%not_elem_of_nil|done].
    - intros b. rewrite list_elem_of_singleton. naive_solver.
    - done.
    - naive_solver. }
  assert (Hpgs : forall b q, pages (core (made_state spt gfn r a x)) !! b = Some q -> b = spt /\ q = made gfn (valid_gen x) r \/ b <> spt /\ pages (core x) !! b = Some q).
  { intros b q. cbn. rewrite lookup_insert. case_decide; [intros [= <-]; auto|auto]. }
  split; [done|split|..]; cbn [made_state midway mmu_page_hash active_mmu_pages mmu_page_cache zapped_obsolete_pages].
  - intros b q [[-> ->]|[Hne Eq]]%Hpgs; unfold chain_of; cbn [made_state midway mmu_page_hash made sp_gfn]; rewrite lookup_insert.
    + rewrite decide_True by done. left.
    + pose proof (tb_hash _ Hb _ _ Eq) as Hin. unfold chain_of in *. case_decide as E; [|done]. right. by rewrite E.
  - intros b l c. rewrite lookup_insert. case_decide as E.
    + intros [= <-] [->|Hin]%elem_of_cons; [exists (made gfn (valid_gen x) r); cbn; by rewrite lookup_insert_eq|].
      unfold chain_of in Hin. destruct (mmu_page_hash x !! kvm_page_table_hashfn gfn) as [l0|] eqn:El; [|by apply not_elem_of_nil in Hin].
      destruct (tb_chain _ Hb _ _ _ El Hin) as (q & Eq & Hq). exists q. cbn. rewrite lookup_insert_ne by congruence. by rewrite <- E.
    + intros El Hin. destruct (tb_chain _ Hb _ _ _ El Hin) as (q & Eq & Hq). exists q. cbn. by rewrite lookup_insert_ne by congruence.
  - intros b l. rewrite lookup_insert. case_decide; [|apply (tb_nodup _ Hb)]. intros [= <-]. unfold chain_of.
    destruct (mmu_page_hash x !! kvm_page_table_hashfn gfn) as [l0|] eqn:El; [|apply NoDup_singleton]. apply NoDup_cons. split; [|by apply (tb_nodup _ Hb) in El].
    cbn. intros Hin. destruct (tb_chain _ Hb _ _ _ El Hin) as (q & Eq & _). congruence.
  - intros b [->|Hin]%elem_of_cons; cbn; rewrite lookup_insert; [by rewrite decide_True|]. case_decide; [done|]. by apply (tb_active _ Hb).
  - apply NoDup_cons. split; [|apply Hb]. intros Hin%(tb_active _ Hb). rewrite Hno in Hin. by destruct Hin.
  - rewrite Ec. split; [done|]. cbn. intros p Hp. destruct (Hc p ltac:(by right)) as [? ?]. split; [done|]. rewrite lookup_insert_ne by (intros ->; done). done.
  - intros b [q [[-> _]|[_ Eq]]%Hpgs]; [left|right]. by apply Hact.
  - done.
  - intros b q [[-> ->]|[_ Eq]]%Hpgs; [done|by apply (Hroot b)].
  - intros b q [[-> ->]|[_ Eq]]%Hpgs; [cbn; congruence|by apply (Hinv b)].
Qed.

(** The tables do not see a change of memory, lists or other fields of the
    headers. *)
Lemma tables_core x k : tables x -> (forall b q, pages k !! b = Some q -> exists q0, pages (core x) !! b = Some q0 /\ sp_gfn q = sp_gfn q0) ->
  (forall b, is_Some (pages k !! b) <-> is_Some (pages (core x) !! b)) -> tables (set_core k x).
Proof.
  intros Hb Hpg His. split; cbn [core set_core active_mmu_pages mmu_page_hash mmu_page_cache].
  - intros b q (q0 & E0 & ->)%Hpg. by apply (tb_hash _ Hb).
  - intros b l c El Hin. destruct (tb_chain _ Hb _ _ _ El Hin) as (q0 & E0 & Hq). destruct (proj2 (His c)) as [q Eq]; [by eexists|]. exists q. split; [done|].
    destruct (Hpg _ _ Eq) as (q1 & E1 & ->). congruence.
  - apply (tb_nodup _ Hb).
  - intros b Hin. by apply His, (tb_active _ Hb).
  - apply Hb.
  - destruct (tb_cache _ Hb) as [Hc1 Hc2]. split; [done|]. intros p Hp. destruct (Hc2 p Hp) as [? Hno]. split; [done|]. apply eq_None_not_Some. rewrite His, Hno. by intros [? ?].
Qed.

Lemma settled_core x ls k ls' pend pend' : settled m x ls pend -> tree m k ls' pend' ->
  (forall b q, pages k !! b = Some q -> exists q0, pages (core x) !! b = Some q0 /\ sp_gfn q = sp_gfn q0 /\ role q = role q0 /\ root_count q = root_count q0) ->
  (forall b, is_Some (pages k !! b) <-> is_Some (pages (core x) !! b)) -> settled m (set_core k x) ls' pend'.
Proof.
  intros [_ Hb Hact Hz Hroot Hinv] Ht Hpg His. split; [done|apply tables_core; [done| |done]|..]; cbn [core set_core active_mmu_pages zapped_obsolete_pages].
  - intros b q (q0 & E0 & Eg & _)%Hpg. by exists q0.
  - intros b Hs%His. by apply Hact.
  - done.
  - intros b q (q0 & E0 & _ & Er & Ec)%Hpg. unfold sp_level. rewrite Er, Ec. by apply (Hroot b).
  - intros b q (q0 & E0 & _ & Er & Ec)%Hpg. rewrite Er, Ec. by apply (Hinv b).
Qed.

Lemma get_page_run v is_pae sync x ls a gfn gaddr level : settled m x ls None -> parent_ok x a -> mmu_page_cache x <> [] -> mmu_page_header_cache x <> O ->
  1 <= level <= 4 -> 0 <= gfn -> gfn + frames (level + 1) <= 2 ^ 36 -> gfn mod frames (level + 1) = 0 -> invalid (base_role v) = false ->
  exists spt c x' ls', kvm_mmu_get_page m v is_pae sync gfn gaddr level true ACC_ALL a x = Ok (spt, x') /\ settled m x' ls' (pend_of spt a) /\
    pages (core x') !! spt = Some c /\ sp_gfn c = gfn /\ sp_level c = level /\ access (role c) = ACC_ALL /\ invalid (role c) = false /\ grew x x'.
Proof.
  intros Hse Hpa Hpc Hhc Hl Hg0 Hg Hga Hiv. pose proof Hse as [Ht Hb _ _ _ _]. set (r := page_role v gaddr level true ACC_ALL).
  assert (Hch : forall spt, spt ∈ chain_of gfn x -> is_Some (pages (core x) !! spt)).
  { intros spt Hin. unfold chain_of in Hin. destruct (mmu_page_hash x !! kvm_page_table_hashfn gfn) eqn:El; [|by apply not_elem_of_nil in Hin].
    destruct (tb_chain _ Hb _ _ _ El Hin) as (q & Eq & _). by eexists. }
  destruct (find_page_run is_pae sync (chain_of gfn x) gfn r a x ls Ht Hch Hpa) as (o & x' & Ef & Ho). destruct o as [spt|].
  - destruct Ho as (sp & k' & ls' & Esp & Eg & Er & -> & Ht' & S1 & P1 & M1 & D1 & L1).
    exists spt, (with_flooding 0 sp), (set_core k' x), ls'. split.
    { unfold kvm_mmu_get_page. rewrite (st_bind_Ok _ _ x x x) by done. by rewrite (st_bind_Ok _ _ _ _ _ Ef). }
    assert (Hpg : forall b q, pages k' !! b = Some q -> exists q0, pages (core x) !! b = Some q0 /\ same_page q0 q /\ role q = role q0 /\ root_count q = root_count q0).
    { intros b q. rewrite P1, lookup_insert. case_decide; [intros [= <-]; subst b; exists sp|exists q]; by repeat split. }
    assert (His : forall b, is_Some (pages k' !! b) <-> is_Some (pages (core x) !! b)).
    { intros b. rewrite P1, lookup_insert. case_decide; [subst b; rewrite Esp; split; eauto|done]. }
    split.
    { eapply settled_core; [done|done| |done]. intros b q (q0 & ? & [? _ _ _ _ _] & ? & ?)%Hpg. by exists q0. }
    split; [cbn; by rewrite P1, lookup_insert_eq|]. split; [done|]. split; [unfold sp_level; cbn; by rewrite Er|]. split; [cbn; by rewrite Er|]. split; [cbn; by rewrite Er|].
    split; cbn [core set_core mmu_page_cache mmu_page_header_cache write_count valid_gen]; rewrite ?M1; try done; [|intros b q Eq|by left|intros b|intros Hy b q|lia].
    + intros sl lv i. rewrite <- !elem_of_dom. by rewrite D1.
    + destruct (proj2 (His b)) as [q' Eq']; [by eexists|]. exists q'. split; [done|]. destruct (Hpg _ _ Eq') as (q0 & E0 & Hs & Hr & _).
      assert (q0 = q) as -> by congruence. split; [done|]. by rewrite Hr.
    + unfold is_root. cbn [core set_core]. rewrite P1, lookup_insert. case_decide; [subst b; by rewrite Esp|done].
    + cbn. rewrite P1, lookup_insert. case_decide; [intros [= <-]; destruct (Hy _ _ Esp); by split|apply Hy].
  - cbn in Ho. subst x'. destruct (mmu_page_cache x) as [|spt cache] eqn:Ec; [done|]. destruct (mmu_page_header_cache x) as [|n] eqn:En; [done|].
    assert (Ha : a <> 0 -> good a).
    { intros Hne. destruct Hpa as [?|(_ & (u & Eu & _) & _)]; [done|]. by eapply (mk_addr _ _ _ (tr_mmu _ _ _ _ Ht)). }
    destruct (tb_cache _ Hb) as [_ Hc]. rewrite Ec in Hc. destruct (Hc spt ltac:(left)) as [Hal Hno].
    destruct (made_ok x ls a spt cache gfn r Hse Ec Ha) as [ls' Hse']; [by split|done|].
    exists spt, (made gfn (valid_gen x) r), (made_state spt gfn r a x), ls'. split; [by eapply make_run|]. split; [done|].
    split; [cbn; by rewrite lookup_insert_eq|]. do 4 (split; [done|]).
    assert (Hmem : forall b, spt_mem (core (made_state spt gfn r a x)) !! b = if bool_decide (b ∈ entries spt) then Some 0 else spt_mem (core x) !! b).
    { intros b. cbn [made_state midway core spt_mem]. apply foldl_insert_lookup. }
    split; cbn [made_state midway core slots write_count valid_gen heads pages mmu_page_cache mmu_page_header_cache lists]; try done.
    + intros sl lv i. by rewrite lookup_insert_ne.
    + intros b u Eu Hp. assert (Eu' := eq_trans (eq_sym (Hmem b)) Eu). case_bool_decide; [|done]. injection Eu' as <-. by rewrite zero_not_present in Hp.
    + intros b u Eu. etrans; [apply Hmem|]. rewrite bool_decide_false; [done|]. rewrite elem_of_entries by apply Hal. intros [_ Hb'].
      assert (Hs : is_Some (spt_mem (core x) !! b)) by eauto. apply (tr_mem _ _ _ _ Ht) in Hs as [_ Hs]. rewrite Hb', Hno in Hs. by destruct Hs.
    + intros b q Eq. exists q. rewrite lookup_insert_ne by congruence. by repeat split.
    + right. exists spt. unfold is_root. by rewrite Hno.
    + intros b. unfold is_root. cbn [made_state midway core pages]. rewrite lookup_insert. case_decide; [subst b; by rewrite Hno|done].
    + intros Hy b q. cbn [made_state midway core pages valid_gen]. rewrite lookup_insert. case_decide; [intros [= <-]; split; [reflexivity|reflexivity|done]|apply Hy].
    + rewrite Ec, En. cbn. lia.
Qed.

End bits.

End get_page.
