(* ===== verification/DirectSet.v ===== *)
(** * Writing an entry of the direct map (kvm-kmod x86/mmu.c)

    [mmu_set_spte] clears what is in the way, writes the entry and lists it
    in the reverse map; on the direct map it keeps the tree of shadow pages
    and maps the frame asked for, or nothing. *)

From S2P Require Import Prelude MemSlots GuestCopy Spte PteList Rmap ShadowPages ShadowSpec RoomSpec DirectMap DirectSpec.

(** ** Bits of an entry *)

Lemma bits_range v n : 0 <= n -> (forall i, n <= i -> Z.testbit v i = false) -> 0 <= v < 2 ^ n.
Proof.
  intros Hn H. assert (E : v = v mod 2 ^ n).
  { apply Z.bits_inj'. intros i Hi. destruct (Z.lt_ge_cases i n); [by rewrite Z.mod_pow2_bits_low|]. rewrite Z.mod_pow2_bits_high by lia. by apply H. }
  rewrite E. apply Z.mod_pos_bound. lia.
Qed.

(** What the host may ask for: memory types in bits 3 to 6. *)
Definition mt_ok (e : env) : Prop := forall gfn b i, Z.testbit (mt_mask e gfn b) i = true -> 3 <= i <= 6.

Lemma svm_mt_ok i gfn b : Z.testbit (svm_get_mt_mask gfn b) i = true -> 3 <= i <= 6.
Proof. by rewrite Z.bits_0. Qed.

Lemma vmx_mt_ok dma ty gfn b i : (forall g, 0 <= ty g < 8) -> 0 <= i -> Z.testbit (vmx_get_mt_mask dma ty gfn b) i = true -> 3 <= i <= 6.
Proof.
  intros Hty Hi. unfold vmx_get_mt_mask, VMX_EPT_MT_EPTE_SHIFT, VMX_EPT_IPAT_BIT. destruct b; [by rewrite Z.bits_0|]. destruct dma.
  - intros H. rewrite Z.shiftl_spec in H by lia. destruct (Z.lt_ge_cases i 3); [by rewrite Z.testbit_neg_r in H by lia|].
    destruct (Z.lt_ge_cases (i - 3) 3); [lia|]. by rewrite (testbit_above _ 3) in H by (specialize (Hty gfn); lia).
  - change (Z.lor (Z.shiftl MTRR_TYPE_WRBACK 3) (Z.shiftl 1 6)) with 112. intros H. destruct (Z.lt_ge_cases i 7); [|by rewrite (testbit_above _ 7) in H by lia].
    assert (i = 0 \/ i = 1 \/ i = 2 \/ 3 <= i <= 6) as [->|[->|[->|]]] by lia; done.
Qed.

Section entry.
  Context (m : shadow_masks) (e : env) (Hm : direct_masks m) (He : mt_ok e).
  Context (pte_access level gfn pfn : Z) (speculative host_writable : bool).
  Context (Hlv : 1 <= level) (Hpfn : 0 <= pfn < 2 ^ 40).

Abbreviation base := (base_spte m e pte_access level gfn pfn speculative host_writable).

(** The entry as it is stored. *)
Definition new_spte : Z :=
  if host_writable && any pte_access ACC_WRITE_MASK then Z.lor base (Z.lor PT_WRITABLE_MASK SPTE_MMU_WRITEABLE) else base.

Lemma base_bit i : 0 <= i -> Z.testbit base i =
  (i =? 0) || (negb speculative && Z.testbit (shadow_accessed_mask m) i) ||
  (if any pte_access ACC_EXEC_MASK then Z.testbit (shadow_x_mask m) i else Z.testbit (shadow_nx_mask m) i) ||
  (any pte_access ACC_USER_MASK && Z.testbit (shadow_user_mask m) i) || ((1 <? level) && (i =? 7)) ||
  (tdp_enabled e && Z.testbit (mt_mask e gfn (is_mmio_pfn e pfn)) i) || (host_writable && (i =? 10)) || ((12 <=? i) && Z.testbit pfn (i - 12)).
Proof using Hpfn.
  intros Hi. unfold base_spte. rewrite Z.lor_spec.
  assert (Hp : Z.testbit (u64 (Z.shiftl pfn PAGE_SHIFT)) i = (12 <=? i) && Z.testbit pfn (i - 12)).
  { change PAGE_SHIFT with 12. rewrite u64_small by (rewrite Z.shiftl_mul_pow2 by lia; lia). rewrite Z.shiftl_spec by lia.
    destruct (Z.leb_spec 12 i); [done|]. by rewrite Z.testbit_neg_r by lia. }
  rewrite Hp. f_equal.
  assert (Hb : forall k, 0 <= k -> Z.testbit (Z.shiftl 1 k) i = (i =? k)) by (intros k Hk; rewrite Z.shiftl_1_l, Z.pow2_bits_eqb by lia; apply Z.eqb_sym).
  unfold PT_PRESENT_MASK, PT_PAGE_SIZE_MASK, SPTE_HOST_WRITEABLE, PT_PAGE_TABLE_LEVEL.
  destruct host_writable, (tdp_enabled e), (1 <? level), (any pte_access ACC_USER_MASK), (any pte_access ACC_EXEC_MASK), speculative;
    cbn [negb andb]; rewrite ?Z.lor_spec, !Hb, ?orb_false_r by lia; done.
Qed.

(** The bits that matter. *)
Lemma base_bits i : 0 <= i -> i <> 2 -> i <> 63 -> ~ (3 <= i <= 9) \/ i = 7 -> Z.testbit base i =
  (i =? 0) || ((1 <? level) && (i =? 7)) || (host_writable && (i =? 10)) || ((12 <=? i) && Z.testbit pfn (i - 12)).
Proof using Hm He Hpfn.
  intros Hi H2 H63 Hr. rewrite base_bit by done. destruct (soft_bit m Hm i H2 H63) as (-> & -> & ->).
  assert (Z.testbit (shadow_accessed_mask m) i = false) as -> by (apply not_true_iff_false; intros H; apply (accessed_bit m Hm i Hi) in H; lia).
  assert (Z.testbit (mt_mask e gfn (is_mmio_pfn e pfn)) i = false) as -> by (apply not_true_iff_false; intros H; apply He in H; lia).
  rewrite !andb_false_r. by destruct (any pte_access ACC_EXEC_MASK); rewrite !orb_false_r.
Qed.

Lemma write_mask_bit i : 0 <= i -> Z.testbit (Z.lor PT_WRITABLE_MASK SPTE_MMU_WRITEABLE) i = (i =? 1) || (i =? 11).
Proof.
  intros Hi. unfold PT_WRITABLE_MASK, SPTE_MMU_WRITEABLE. rewrite Z.lor_spec, !Z.shiftl_1_l, !Z.pow2_bits_eqb by lia.
  by rewrite (Z.eqb_sym 1), (Z.eqb_sym 11).
Qed.

Lemma new_bits i : 0 <= i -> i <> 2 -> i <> 63 -> ~ (3 <= i <= 9) \/ i = 7 -> Z.testbit new_spte i =
  (i =? 0) || ((1 <? level) && (i =? 7)) || (host_writable && (i =? 10)) || ((12 <=? i) && Z.testbit pfn (i - 12)) ||
  (host_writable && any pte_access ACC_WRITE_MASK && ((i =? 1) || (i =? 11))).
Proof using Hm He Hpfn.
  intros Hi H2 H63 Hr. unfold new_spte. destruct (host_writable && any pte_access ACC_WRITE_MASK) eqn:Ew; cbn [andb].
  - rewrite Z.lor_spec, write_mask_bit, base_bits by done. done.
  - rewrite base_bits by done. by rewrite orb_false_r.
Qed.

Lemma new_spte_facts : is_shadow_present_pte m new_spte = true /\ is_last_spte new_spte level = true /\ is_large_pte new_spte = (1 <? level) /\
  spte_to_pfn new_spte = pfn /\ leaf_ok new_spte /\ is_writable_pte new_spte = host_writable && any pte_access ACC_WRITE_MASK.
Proof using Hm He Hpfn Hlv.
  assert (Hhi : forall i, 40 <= i -> Z.testbit pfn i = false) by (intros i Hi; apply (testbit_above pfn 40); lia).
  assert (H62 : Z.testbit new_spte 62 = false) by (rewrite new_bits by lia; rewrite Hhi by lia; cbn; by rewrite !andb_false_r).
  assert (H7 : is_large_pte new_spte = (1 <? level)).
  { unfold is_large_pte, PT_PAGE_SIZE_MASK. rewrite any_bit, new_bits by lia. cbn. rewrite !andb_false_r, !orb_false_r. by destruct (1 <? level). }
  assert (Hw : is_writable_pte new_spte = host_writable && any pte_access ACC_WRITE_MASK).
  { rewrite writable_bit, new_bits by lia. cbn. rewrite !andb_false_r, andb_true_r. done. }
  split_and!.
  - rewrite (present_bit m (dm_ok m Hm)) by done. by rewrite new_bits by lia.
  - unfold is_last_spte, PT_PAGE_TABLE_LEVEL. rewrite H7. destruct (Z.eqb_spec level 1); [done|]. apply Z.ltb_lt. lia.
  - done.
  - unfold spte_to_pfn. apply Z.bits_inj'. intros i Hi. change PAGE_SHIFT with 12. rewrite Z.shiftr_spec, Z.land_spec, base_mask_bit by lia.
    destruct (Z.lt_ge_cases i 40).
    + rewrite new_bits by lia. replace (i + 12 =? 0) with false by lia. replace (i + 12 =? 7) with false by lia. replace (i + 12 =? 10) with false by lia.
      replace (i + 12 =? 1) with false by lia. replace (i + 12 =? 11) with false by lia. replace (12 <=? i + 12) with true by lia. replace (i + 12 <? 52) with true by lia.
      cbn. rewrite !andb_false_r, !orb_false_r, andb_true_r. cbn. f_equal. lia.
    + rewrite Hhi by lia. replace (i + 12 <? 52) with false by lia. by rewrite !andb_false_r.
  - split; [|done|].
    + apply bits_range; [lia|]. intros i Hi. rewrite new_bits by lia. rewrite Hhi by lia. replace (i =? 0) with false by lia. replace (i =? 7) with false by lia.
      replace (i =? 10) with false by lia. replace (i =? 1) with false by lia. replace (i =? 11) with false by lia. by rewrite !andb_false_r.
    + rewrite Hw, lockless_bits, !new_bits by lia. intros [-> ->]%andb_true_iff. cbn. by rewrite !orb_true_r.
  - done.
Qed.

End entry.

(** ** Slots *)

(** The same slots but for what is marked dirty. *)
Definition same_slot (s s' : kvm_memory_slot) : Prop :=
  id s' = id s /\ base_gfn s' = base_gfn s /\ npages s' = npages s /\ userspace_addr s' = userspace_addr s /\ flags s' = flags s /\
  (is_Some (dirty_bitmap s') <-> is_Some (dirty_bitmap s)).

Record slots_like (k k' : kvm_memslots) : Prop := {
  sk_ok : slots_ok k -> slots_ok k';
  sk_gen : generation k' = generation k;
  sk_search g : match search_memslots k g, search_memslots k' g with
                | Some s, Some s' => same_slot s s' | None, None => True | _, _ => False end;
  sk_live s' : s' ∈ live (memslots k') -> exists s, s ∈ live (memslots k) /\ same_slot s s'
}.

#[global] Instance slots_like_preorder : PreOrder slots_like.
Proof.
  split.
  - intros k. split; [done|done| |intros s Hs; exists s; by repeat split]. intros g. destruct (search_memslots k g); [|done]. by repeat split.
  - intros k1 k2 k3 [A1 A2 A3 A4] [B1 B2 B3 B4]. split; [auto|congruence| |intros s (s2 & (s1 & H1 & S1)%A4 & S2)%B4; exists s1; unfold same_slot in *; intuition congruence]. intros g. specialize (A3 g). specialize (B3 g).
    destruct (search_memslots k1 g), (search_memslots k2 g), (search_memslots k3 g); try done. unfold same_slot in *. intuition (try congruence).
Qed.

Lemma live_mark l gfn s' : s' ∈ live (mark_first l gfn) -> exists s, s ∈ live l /\ same_slot s s'.
Proof.
  induction l as [|s l IH]; cbn [mark_first live]; [by intros ?%not_elem_of_nil|]. assert (Hss : forall s, same_slot s s) by (by repeat split).
  destruct (npages s =? 0) eqn:E; [cbn [live]; rewrite E; by intros ?%not_elem_of_nil|]. destruct (covers s gfn); cbn [live].
  - change (npages (set_dirty gfn s)) with (npages s). rewrite E. intros [->|Hin]%elem_of_cons; [|exists s'; split; [by right|done]].
    exists s. split; [left|]. unfold same_slot. cbn. rewrite fmap_is_Some. by repeat split.
  - rewrite E. intros [->|(s0 & H0 & S0)%IH]%elem_of_cons; [exists s; split; [left|done]|exists s0; split; [by right|done]].
Qed.

Lemma mark_like k gfn : slots_like k (mark_page_dirty k gfn).
Proof.
  split; [apply mark_page_dirty_ok|done| |apply live_mark]. intros g. pose proof (search_mark k gfn g) as H. destruct (search_memslots k g) as [s|]; [|by rewrite H].
  destruct H as [[-> _]| ->]; [by repeat split|]. unfold same_slot. cbn. rewrite fmap_is_Some. by repeat split.
Qed.

Lemma like_rmap k k' a : slots_like (slots k) (slots k') -> pages k' = pages k -> rmap_of k' a = rmap_of k a.
Proof.
  intros [_ _ Hs _] Ep. unfold rmap_of, spte_gfn. rewrite Ep. destruct (pages k !! spt_of a) as [sp|]; [|done]. cbn.
  destruct (kvm_mmu_page_get_gfn sp (spt_index a)) as [g|]; [|done]. cbn. specialize (Hs g).
  destruct (search_memslots (slots k) g), (search_memslots (slots k') g); try done. cbn. unfold __gfn_to_rmap. by destruct Hs as (-> & -> & _).
Qed.

(** ** Changes of leaves *)

Section leaves.
  Context (m : shadow_masks).

Lemma tree_leaves k k' ls ls' pend : tree m k ls pend -> mmu_ok m k' ls' -> pages k' = pages k -> dom (heads k') = dom (heads k) ->
  dom (spt_mem k') = dom (spt_mem k) -> (forall b v, nonleaf m k' b v <-> nonleaf m k b v) ->
  (forall b v sp, leaf m k' b v -> pages k !! spt_of b = Some sp -> sp_level sp <= 3) ->
  (forall spt, ls' !! Parents spt = ls !! Parents spt) -> tree m k' ls' pend.
Proof.
  intros Ht Hok Ep Eh Em Hnl Hlv Hls. split.
  - done.
  - rewrite Ep. apply Ht.
  - intros a. rewrite <- elem_of_dom, Em, elem_of_dom, Ep. apply Ht.
  - intros b v sp. rewrite Ep. apply Hlv.
  - intros b v sp Hb%Hnl. rewrite Ep. by apply (tr_child _ _ _ _ Ht).
  - intros spt. rewrite <- elem_of_dom, Eh, elem_of_dom, Ep. apply Ht.
  - intros spt l. rewrite Hls. intros El. destruct (tr_parents _ _ _ _ Ht _ _ El) as [Hn Hi]. split; [done|]. intros a. rewrite Hi. by setoid_rewrite Hnl.
Qed.

Definition with_slots (s : kvm_memslots) (k : kvm) : kvm :=
  Kvm s (heads k) (lists k) (spt_mem k) (pages k) (told k) (flushes k) (lpages k) (tlbs_dirty k).

Lemma tree_slots k ls pend s : tree m k ls pend -> slots_like (slots k) s -> tree m (with_slots s k) ls pend.
Proof.
  intros Ht Hs. apply (tree_leaves k _ ls ls); try done; [|intros b v sp; apply (tr_level _ _ _ _ Ht)].
  assert (Hr : forall a, rmap_of (with_slots s k) a = rmap_of k a) by (intros a; by apply like_rmap).
  destruct (tr_mmu _ _ _ _ Ht) as [H1 H2 H3 H4 H5 H6]. split; [by apply Hs|done..| |].
  - intros a v Hl. rewrite Hr. by apply (H5 a v).
  - intros sl lv i l El. destruct (H6 sl lv i l El) as [Hn Hi]. split; [done|]. intros a. rewrite Hr. apply Hi.
Qed.

(** A leaf with another value. *)
Lemma tree_revalued k ls pend a v w sp ev : tree m k ls pend -> leaf m k a v -> pages k !! spt_of a = Some sp ->
  leaf_ok w -> is_shadow_present_pte m w = true -> is_last_spte w (sp_level sp) = true -> tree m (set_mem a w ev k) ls pend.
Proof.
  intros Ht Hv Esp Hw Hp Hl. pose proof (tr_mmu _ _ _ _ Ht) as Hok.
  assert (Hlf : forall b u, leaf m (set_mem a w ev k) b u <-> b = a /\ u = w \/ b <> a /\ leaf m k b u).
  { intros b u. unfold leaf. cbn [set_mem spt_mem pages]. rewrite lookup_insert. case_decide as Eb; [subst b|naive_solver].
    split; [intros ([= <-] & _); by left|]. intros [[_ ->]|[? _]]; [|done]. split; [done|]. split; [done|]. by exists sp. }
  assert (Hex : forall b, (exists u, leaf m (set_mem a w ev k) b u) <-> exists u, leaf m k b u).
  { intros b. setoid_rewrite Hlf. destruct (decide (b = a)) as [->|Hne]; [|naive_solver]. split; [by exists v|]. intros _. exists w. by left. }
  apply (tree_leaves k _ ls ls); try done.
  - destruct Hok as [H1 H2 H3 H4 H5 H6]. split; [done|done|..].
    + intros b u. cbn. rewrite lookup_insert. case_decide; [subst b; intros _; by apply (H3 a v), Hv|apply H3].
    + intros b u. cbn. rewrite lookup_insert. case_decide; [subst b; intros _; by apply (H4 a v), Hv|apply H4].
    + intros b u [[-> ->]|[_ Hb]]%Hlf; [|by apply H5]. split; [done|]. by apply (H5 a v).
    + intros sl lv i l El. destruct (H6 sl lv i l El) as [Hn Hi]. split; [done|]. intros b. by rewrite Hex, Hi.
  - cbn. rewrite dom_insert_L. assert (a ∈ dom (spt_mem k)) by (apply elem_of_dom; eexists; apply Hv). set_solver.
  - intros b u. unfold nonleaf. cbn [set_mem spt_mem pages]. rewrite lookup_insert. case_decide as Eb; [subst b|done].
    destruct Hv as (Ev & Hpv & q & Eq & Hq). split; intros (Eu & Hu & q' & Eq' & Hl'); simplify_eq; congruence.
  - intros b u q [[-> ->]|[_ Hb]]%Hlf Eq; [by apply (tr_level _ _ _ _ Ht a v)|by apply (tr_level _ _ _ _ Ht b u)].
Qed.

(** All the entries of a list are gone. *)
Lemma tree_unmapped k k' ls sl lv i l : tree m k ls None -> ls !! Rmap sl lv i = Some l -> mmu_ok m k' (<[Rmap sl lv i := []]> ls) ->
  unmapped m l k k' -> tree m k' (<[Rmap sl lv i := []]> ls) None.
Proof.
  intros Ht El Hok [[T1 T2 T3 T4 T5 T6] Hm _].
  assert (Hlv : forall a, a ∈ l -> exists v, leaf m k a v) by (intros a Ha; by apply (mk_rmap _ _ _ (tr_mmu _ _ _ _ Ht) _ _ _ _ El) in Ha as [_ ?]).
  apply (tree_leaves k _ ls); try done.
  - apply set_eq. intros a. rewrite !elem_of_dom, (Hm a). case_bool_decide; [by rewrite fmap_is_Some|done].
  - intros b v. unfold nonleaf. rewrite (Hm b), T2. case_bool_decide as Hb; [|done]. destruct (Hlv b Hb) as (u & Hu). split.
    + intros (E & Hp & _). apply fmap_Some in E as (? & _ & ->). by rewrite zero_not_present in Hp.
    + intros Hn. by apply (nonleaf_not_leaf m k b v u) in Hu.
  - intros b v sp (E & Hp & q & Eq & Hq). rewrite (Hm b) in E. case_bool_decide; [apply fmap_Some in E as (? & _ & ->); by rewrite zero_not_present in Hp|].
    apply (tr_level _ _ _ _ Ht b v). split; [done|]. split; [done|]. exists q. by rewrite <- T2.
  - intros spt. by rewrite lookup_insert_ne.
Qed.

End leaves.

(** ** [set_spte] *)

Section set.
  Context (m : shadow_masks) (e : env) (Hm : direct_masks m) (He : mt_ok e).

(** What an entry written changes besides memory: [n] descriptors at most. *)
Record near (n : nat) (k k' : kvm) : Prop := {
  nr_slots : slots_like (slots k) (slots k');
  nr_pages : pages k' = pages k;
  nr_heads : dom (heads k') = dom (heads k);
  nr_objects : (length (objects (lists k)) <= n + length (objects (lists k')))%nat
}.

Lemma near_trans n n' k1 k2 k3 : near n k1 k2 -> near n' k2 k3 -> near (n + n') k1 k3.
Proof. intros [A1 A2 A3 A4] [B1 B2 B3 B4]. split; [by etrans|congruence|congruence|lia]. Qed.

Lemma near_same k k' : slots k' = slots k -> pages k' = pages k -> heads k' = heads k -> lists k' = lists k -> near 0 k k'.
Proof. intros E1 E2 E3 E4. by split; rewrite ?E1, ?E2, ?E3, ?E4. Qed.

Lemma kept_near k k' : kept k k' -> near 0 k k'.
Proof. intros [E1 E2 E3 E4]. by split; rewrite ?E1, ?E2, ?E3, ?E4. Qed.

Lemma settled_near n x ls k' ls' : settled m x ls None -> tree m k' ls' None -> near n (core x) k' -> settled m (set_core k' x) ls' None.
Proof.
  intros Hse Ht [_ Ep _ _]. apply (settled_core m x ls k' ls' None None Hse Ht); rewrite Ep; [|done]. intros b q Eq. by exists q.
Qed.

Lemma write_access (acc : Z) (hw : bool) : any (if hw then acc else Z.ldiff acc ACC_WRITE_MASK) ACC_WRITE_MASK = hw && any acc ACC_WRITE_MASK.
Proof.
  destruct hw; [done|]. unfold ACC_WRITE_MASK, PT_WRITABLE_MASK. rewrite any_bit, Z.ldiff_spec by lia. cbn. by rewrite andb_false_r.
Qed.

(** No page of the direct map holds a guest table. *)
Lemma need_loop_direct k x gfn chain : (forall spt, spt ∈ chain -> exists sp, pages (core x) !! spt = Some sp /\ spt_of spt = spt /\ sp_direct sp = true) ->
  need_loop chain gfn k false x = Ok (Some false, x).
Proof.
  induction chain as [|spt chain IH]; intros Hch; [done|]. cbn [need_loop]. destruct (Hch spt ltac:(left)) as (sp & Esp & Es & Hd). rewrite <- Es in Esp.
  rewrite (st_bind_Ok _ _ _ _ _ (header_Ok _ _ _ Esp)). unfold is_indirect_valid. rewrite Hd. cbn [orb negb]. rewrite andb_false_r. apply IH.
  intros b Hb. apply Hch. by right.
Qed.

Lemma need_direct x ls k gfn : settled m x ls None -> mmu_need_write_protect gfn k x = Ok (false, x).
Proof.
  intros [Ht Hb _ _ _ _]. unfold mmu_need_write_protect. rewrite (st_bind_Ok _ _ x x x) by done.
  rewrite (st_bind_Ok _ _ x (Some false) x); [done|]. apply need_loop_direct. intros spt Hin. unfold chain_of in Hin.
  destruct (mmu_page_hash x !! kvm_page_table_hashfn gfn) eqn:El; [|by apply not_elem_of_nil in Hin].
  destruct (tb_chain _ Hb _ _ _ El Hin) as (sp & Esp & _). exists sp. split; [done|]. destruct (tree_page _ _ _ _ _ _ Ht Esp) as [? _]. split; [done|].
  by destruct (tr_pages _ _ _ _ Ht _ _ Esp).
Qed.

(** The memory once [w] is stored over [v0]. *)
Definition flushed (k : kvm) : kvm :=
  Kvm (slots k) (heads k) (lists k) (spt_mem k) (pages k) (told k) (S (flushes k)) (lpages k) 0.

Definition stored (a v0 w : Z) (k : kvm) : kvm :=
  let '(f, ev) := mmu_spte_update m v0 v0 w in if f : bool then flushed (set_mem a w ev k) else set_mem a w ev k.

Lemma set_pte_run x a v0 w ret : spt_mem (core x) !! a = Some v0 -> set_pte m a w ret x = Ok (ret, set_core (stored a v0 w (core x)) x).
Proof.
  intros Ev. unfold set_pte, stored. destruct (mmu_spte_update m v0 v0 w) as [f ev] eqn:Eu.
  assert (E : spte_update m a w (core x) = Ok (f, set_mem a w ev (core x))).
  { unfold spte_update. rewrite (st_bind_Ok _ _ _ _ _ (read_spte_Ok _ _ _ Ev)), Eu. done. }
  rewrite (st_bind_Ok _ _ _ _ _ (on_core_Ok _ _ _ _ E)). by destruct f.
Qed.

(** A large page that contains a write-protected frame is not made writable. *)
Definition blocked (x : mmu) (acc level gfn : Z) (hw : bool) (sl : kvm_memory_slot) : bool :=
  hw && any acc ACC_WRITE_MASK && (1 <? level) && negb (default 0 (write_count x !! lpage_info_slot gfn sl level) =? 0).

Definition dirtied (acc gfn : Z) (hw : bool) (k : kvm) : kvm :=
  if hw && any acc ACC_WRITE_MASK then with_slots (mark_page_dirty (slots k) gfn) k else k.

Lemma set_spte_run x ls a v0 sl acc level gfn pfn spec hw : settled m x ls None -> spt_mem (core x) !! a = Some v0 -> 0 <= pfn < 2 ^ 40 ->
  search_memslots (slots (core x)) gfn = Some sl -> (1 < level -> is_Some (write_count x !! lpage_info_slot gfn sl level)) ->
  set_spte m e a acc level gfn pfn spec true hw x =
    Ok (0, if blocked x acc level gfn hw sl then x
           else set_core (stored a v0 (new_spte m e acc level gfn pfn spec hw) (dirtied acc gfn hw (core x))) x).
Proof.
  intros Hse Ev Hpfn Hs Hwc. unfold set_spte. rewrite (st_bind_Ok _ _ x x x) by done. unfold set_mmio_spte, is_noslot_pfn.
  replace (pfn =? KVM_PFN_NOSLOT) with false by (symmetry; apply Z.eqb_neq; unfold KVM_PFN_NOSLOT; rewrite Z.shiftl_1_l; lia).
  rewrite write_access. unfold blocked, new_spte, dirtied. destruct (hw && any acc ACC_WRITE_MASK) eqn:Ew; cbn [negb andb].
  2: { by rewrite (set_pte_run x a v0). }
  assert (Hn : exists n, (if PT_PAGE_TABLE_LEVEL <? level then has_wrprotected_page gfn level else mret 0) x = Ok (n, x) /\
    negb (n =? 0) = (1 <? level) && negb (default 0 (write_count x !! lpage_info_slot gfn sl level) =? 0)).
  { unfold PT_PAGE_TABLE_LEVEL. destruct (Z.ltb_spec 1 level) as [Hl|]; [|by exists 0]. destruct (Hwc Hl) as [n En]. exists n. rewrite En. split; [|done].
    unfold has_wrprotected_page, gfn_to_memslot. rewrite (st_bind_Ok _ _ x (Some sl) x) by (cbn; by rewrite <- Hs). rewrite (st_bind_Ok _ _ x x x) by done.
    unfold on_core, known. rewrite En. cbn. by rewrite set_core_core. }
  destruct Hn as (n & En & Hn). rewrite (st_bind_Ok _ _ _ _ _ En), Hn. destruct ((1 <? level) && _); [done|].
  rewrite (st_bind_Ok _ _ _ _ _ (entry_Ok _ _ _ Ev)). cbn [andb negb]. rewrite (st_bind_Ok _ _ _ _ _ (need_direct x ls true gfn Hse)).
  rewrite (st_bind_Ok _ _ x tt (set_core (with_slots (mark_page_dirty (slots (core x)) gfn) (core x)) x)) by done.
  by rewrite (set_pte_run _ a v0).
Qed.

Lemma set_spte_mmio x a v0 acc level gfn spec hw : spt_mem (core x) !! a = Some v0 ->
  set_spte m e a acc level gfn KVM_PFN_NOSLOT spec true hw x = Ok (0, set_core (set_mem a (mark_mmio_spte m (slots (core x)) gfn acc) [] (core x)) x).
Proof.
  intros Ev. unfold set_spte. rewrite (st_bind_Ok _ _ x x x) by done. unfold set_mmio_spte, is_noslot_pfn. rewrite Z.eqb_refl.
  set (w := mark_mmio_spte m (slots (core x)) gfn acc).
  assert (E : mmu_spte_set a w (core x) = Ok (tt, set_mem a w [] (core x))).
  { unfold mmu_spte_set. by rewrite (st_bind_Ok _ _ _ _ _ (read_spte_Ok _ _ _ Ev)). }
  by rewrite (st_bind_Ok _ _ _ _ _ (on_core_Ok _ _ _ _ E)).
Qed.

Lemma any_mark_is_mmio k gfn acc : is_mmio_spte m (mark_mmio_spte m k gfn acc) = true.
Proof.
  unfold is_mmio_spte, mark_mmio_spte. apply Z.eqb_eq, Z.bits_inj'. intros i Hi. rewrite Z.land_spec, !Z.lor_spec.
  destruct (Z.testbit (shadow_mmio_mask m) i); [by rewrite !orb_true_r|by rewrite andb_false_r].
Qed.

(** No entry holds the frame that stands for a missing slot. *)
Lemma entry_has_slot w : spte_to_pfn w <> KVM_PFN_NOSLOT.
Proof.
  intros E. assert (Hhi : Z.testbit (spte_to_pfn w) 63 = true) by (rewrite E; by vm_compute). unfold spte_to_pfn in Hhi. change PAGE_SHIFT with 12 in Hhi.
  rewrite Z.shiftr_spec, Z.land_spec, base_mask_bit in Hhi by lia. cbn in Hhi. by rewrite andb_false_r in Hhi.
Qed.

(** ** [mmu_set_spte] *)

Lemma clear_way_run x ls a v0 sp pfn : settled m x ls None -> spt_mem (core x) !! a = Some v0 -> pages (core x) !! spt_of a = Some sp ->
  clear_way m a (sp_level sp) pfn x = Ok (true, x) /\ leaf m (core x) a v0 /\ spte_to_pfn v0 = pfn \/
  exists k' ls' w, clear_way m a (sp_level sp) pfn x = Ok (false, set_core k' x) /\ tree m k' ls' None /\ near 0 (core x) k' /\
    spt_mem k' = <[a := w]> (spt_mem (core x)) /\ is_shadow_present_pte m w = false.
Proof.
  intros Hse Ev Esp. pose proof (se_tree _ _ _ _ Hse) as Ht. unfold clear_way. rewrite (st_bind_Ok _ _ _ _ _ (entry_Ok _ _ _ Ev)). unfold is_rmap_spte.
  destruct (is_shadow_present_pte m v0) eqn:Hp.
  2: { right. exists (core x), ls, v0. rewrite set_core_core. split_and!; [done|done|by apply near_same|by rewrite insert_id|done]. }
  destruct (present_cases _ _ _ _ _ _ Ht Ev Hp) as (sp' & Esp' & Hc). assert (sp' = sp) as -> by congruence.
  assert (El : is_last_spte v0 (sp_level sp) = negb ((PT_PAGE_TABLE_LEVEL <? sp_level sp) && negb (is_large_pte v0))).
  { unfold is_last_spte, PT_PAGE_TABLE_LEVEL. pose proof (pg_level _ _ (tr_pages _ _ _ _ Ht _ _ Esp)) as Hl.
    destruct (Z.eqb_spec (sp_level sp) 1) as [->|]; [done|]. replace (1 <? sp_level sp) with true by (symmetry; apply Z.ltb_lt; lia). cbn. by rewrite negb_involutive. }
  rewrite El in Hc. destruct ((PT_PAGE_TABLE_LEVEL <? sp_level sp) && _).
  - right. destruct (drop_parent_run m x ls None a v0 _ Ht Hc eq_refl ltac:(done)) as (k' & ls' & E & Ht' & Hk & Em & _).
    exists (flushed k'), ls', 0. change (Z.land v0 PT64_BASE_ADDR_MASK) with (child_of v0). rewrite (st_bind_Ok _ _ _ _ _ E).
    split_and!; [done|by apply (tree_ext m k')|apply (near_trans 0 0 _ k'); [by apply kept_near|by apply near_same]|done|apply zero_not_present].
  - destruct (Z.eqb_spec pfn (spte_to_pfn v0)) as [->|]; cbn [negb]; [by left|]. right.
    destruct (drop_leaf_run m x ls None a v0 Ht Hc ltac:(done)) as (k' & ls' & E & Ht' & Hk & Em & _).
    exists (flushed k'), ls', 0. rewrite (st_bind_Ok _ _ _ _ _ E).
    split_and!; [done|by apply (tree_ext m k')|apply (near_trans 0 0 _ k'); [by apply kept_near|by apply near_same]|done|apply zero_not_present].
Qed.

(** Leaves that share the reverse map of [a]. *)
Definition crowd (k : kvm) (a : Z) (l : list Z) : Prop :=
  NoDup l /\ forall b, b ∈ l -> (exists u, leaf m k b u) /\ rmap_of k b = rmap_of k a.

(** A long list is recycled. *)
Definition recycled (k k' : kvm) (a : Z) : Prop :=
  exists l, crowd k a l /\ (1000 < length l)%nat /\ a ∉ l /\
    forall b, spt_mem k' !! b = if bool_decide (b ∈ a :: l) then Some 0 else spt_mem k !! b.

(** A new leaf is listed, and a list grown long is recycled. *)
Lemma list_run k ls a w0 v ev g sp sl : tree m k ls None -> spt_mem k !! a = Some w0 -> is_shadow_present_pte m w0 = false ->
  leaf_ok v -> is_shadow_present_pte m v = true -> pages k !! spt_of a = Some sp -> is_last_spte v (sp_level sp) = true -> sp_level sp <= 3 ->
  kvm_mmu_page_get_gfn sp (spt_index a) = Ok g -> search_memslots (slots k) g = Some sl ->
  is_Some (heads k !! __gfn_to_rmap g (sp_level sp) sl) -> objects (lists k) <> [] ->
  exists n k1 ls1 k2 ls2, rmap_add a g (set_mem a v ev k) = Ok (n, k1) /\ tree m k1 ls1 None /\ near 1 k k1 /\ spt_mem k1 = <[a := v]> (spt_mem k) /\
    rmap_recycle m a g k1 = Ok (tt, k2) /\ tree m k2 ls2 None /\ near 0 k1 k2 /\ (RMAP_RECYCLE_THRESHOLD < n -> recycled k k2 a)%nat.
Proof.
  intros Ht Ev0 Hv0 Hv Hp Esp Hla H3 Hg Es Hh Ho. pose proof (tr_mmu _ _ _ _ Ht) as Hok. pose proof (tr_pages _ _ _ _ Ht _ _ Esp) as Hpo.
  destruct (rmap_add_run m k ls Hok a v w0 g ev sp sl Ev0 Hv0 Hv Hp Esp Hla Es ltac:(done) ltac:(rewrite (pg_direct _ _ Hpo); done) Hh Ho)
    as (n & k1 & l & l' & El & E1 & Hpm & Hn & Hok1 & Hr1 & Em1 & Es1 & Ep1 & _ & _ & _ & Ed1 & Hlen).
  unfold page_with_gfn in Ep1. rewrite (pg_direct _ _ Hpo), insert_id in Ep1 by done.
  set (h := __gfn_to_rmap g (sp_level sp) sl) in *. set (ls1 := <[h := l']> ls) in *.
  assert (Hra : rmap_of k a = Some h) by (unfold rmap_of, spte_gfn; rewrite Esp; cbn; rewrite Hg; cbn; by rewrite Es).
  assert (Hna : a ∉ l) by (intros [_ [u (Eu & Hu & _)]]%(mk_rmap _ _ _ Hok _ _ _ _ El); congruence).
  assert (Ht1 : tree m k1 ls1 None).
  { apply (tree_leaves m k k1 ls ls1 None Ht Hok1 Ep1 Ed1).
    - rewrite Em1, dom_insert_lookup_L by (by eexists). done.
    - intros b u. unfold nonleaf. rewrite Em1, Ep1, lookup_insert. case_decide as Eb; [subst b|done]. rewrite Ev0.
      split; [intros ([= <-] & _ & q & Eq & Hq); congruence|intros ([= <-] & Hw & _); congruence].
    - intros b u q (Eu & Hu & q' & Eq & Hq) Eb. rewrite Ep1 in Eq. assert (q' = q) as -> by congruence. rewrite Em1, lookup_insert in Eu.
      case_decide as Ea; [subst b; congruence|]. apply (tr_level _ _ _ _ Ht b u); [|done]. split; [done|]. split; [done|]. by exists q.
    - intros spt. unfold ls1. by rewrite lookup_insert_ne. }
  destruct (kvm_unmap_rmapp_spec m k1 ls1 (id sl) (sp_level sp) (gfn_to_index g (base_gfn sl) (sp_level sp)) l' Hok1 ltac:(apply lookup_insert_eq))
    as (k2 & E2 & Hok2 & Hum). pose proof (tree_unmapped m _ _ _ _ _ _ _ Ht1 ltac:(apply lookup_insert_eq) Hok2 Hum) as Ht2.
  destruct Hum as [[T1 T2 T3 T4 T5 T6] Hma _].
  exists n, k1, ls1, (flushed k2), (<[h := []]> ls1). split; [done|]. split; [done|]. split; [split; [by rewrite Es1|done|done|cbn; lia]|]. split; [done|].
  split.
  { unfold rmap_recycle. rewrite (st_bind_Ok _ _ _ _ _ (page_header_Ok k1 a sp ltac:(by rewrite Ep1))).
    assert (Egr : gfn_to_rmap g (sp_level sp) k1 = Ok (h, k1)) by (unfold gfn_to_rmap; rewrite (st_bind_Ok _ _ k1 k1 k1) by done; by rewrite Es1, Es).
    rewrite (st_bind_Ok _ _ _ _ _ Egr). by rewrite (st_bind_Ok _ _ _ _ _ E2). }
  split; [by apply (tree_ext m k2)|]. split; [by split; cbn; rewrite ?T1, ?T2, ?T5, ?T6|]. intros Hc. exists l.
  destruct (mk_rmap _ _ _ Hok _ _ _ _ El) as [Hnd Hi]. unfold RMAP_RECYCLE_THRESHOLD in Hc. split; [split; [done|]|split; [lia|split; [done|]]].
  - intros b [Hb Hlf]%Hi. split; [done|]. by rewrite Hb, Hra.
  - intros b. cbn [flushed spt_mem]. rewrite (Hma b). rewrite (bool_decide_ext (b ∈ l') (b ∈ a :: l)) by (by rewrite Hpm).
    rewrite Em1, lookup_insert. destruct (decide (a = b)) as [<-|Hne]; [by rewrite bool_decide_true by left|].
    destruct (decide (b ∈ a :: l)) as [Hb|Hb]; [rewrite !bool_decide_true by done|by rewrite !bool_decide_false by done]. apply elem_of_cons in Hb as [?|Hb]; [by subst|]. by apply Hi in Hb as [_ [u (-> & _)]].
Qed.

(** A slot has its arrays: a reverse map per frame and level, and a count of
    write-protected frames per large page. *)
Record arrays (x : mmu) : Prop := {
  ar_heads g lv sl : search_memslots (slots (core x)) g = Some sl -> 1 <= lv <= 3 -> is_Some (heads (core x) !! __gfn_to_rmap g lv sl);
  ar_counts g lv sl : search_memslots (slots (core x)) g = Some sl -> 2 <= lv <= 3 -> is_Some (write_count x !! lpage_info_slot g sl lv)
}.

Lemma near_search n k k' g sl : near n k k' -> search_memslots (slots k') g = Some sl -> exists sl0, search_memslots (slots k) g = Some sl0 /\ same_slot sl0 sl.
Proof. intros [[_ _ Hs _] _ _ _] E. specialize (Hs g). rewrite E in Hs. destruct (search_memslots (slots k) g) as [s|]; [eauto|done]. Qed.

Lemma near_search' n k k' g sl : near n k k' -> search_memslots (slots k) g = Some sl -> exists sl', search_memslots (slots k') g = Some sl' /\ same_slot sl sl'.
Proof. intros [[_ _ Hs _] _ _ _] E. specialize (Hs g). rewrite E in Hs. destruct (search_memslots (slots k') g) as [s|]; [eauto|done]. Qed.

Lemma same_slot_rmap sl sl' g lv : same_slot sl sl' -> __gfn_to_rmap g lv sl' = __gfn_to_rmap g lv sl.
Proof. intros (E1 & E2 & _). unfold __gfn_to_rmap. by rewrite E1, E2. Qed.

Lemma same_slot_lpage sl sl' g lv : same_slot sl sl' -> lpage_info_slot g sl' lv = lpage_info_slot g sl lv.
Proof. intros (E1 & E2 & _). unfold lpage_info_slot. by rewrite E1, E2. Qed.

Lemma arrays_near n x k' : arrays x -> near n (core x) k' -> arrays (set_core k' x).
Proof.
  intros [H1 H2] Hn. split; cbn [core set_core write_count]; intros g lv sl (sl0 & E0 & Hss)%(near_search _ _ _ _ _ Hn) Hl.
  - rewrite (same_slot_rmap _ _ _ _ Hss), <- elem_of_dom, (nr_heads _ _ _ Hn), elem_of_dom. by apply H1.
  - rewrite (same_slot_lpage _ _ _ _ Hss). by apply H2.
Qed.

Lemma recycled_near n k k0 k' a w : near n k k0 -> spt_mem k0 = <[a := w]> (spt_mem k) -> recycled k0 k' a -> recycled k k' a.
Proof.
  intros Hn Em (l & [Hnd Hl] & Hc & Hna & Hm'). exists l. split; [split; [done|]|split; [done|split; [done|]]].
  - intros b Hb. destruct (Hl b Hb) as [(u & Eu & Hu & q & Eq & Hq) Hr]. rewrite !(like_rmap k k0) in Hr by apply Hn. split; [|done].
    exists u. rewrite Em, lookup_insert_ne in Eu by (by intros ->). split; [done|]. split; [done|]. exists q. by rewrite <- (nr_pages _ _ _ Hn).
  - intros b. rewrite (Hm' b). case_bool_decide as Hb; [done|]. rewrite Em, lookup_insert_ne; [done|]. intros ->. apply Hb. left.
Qed.

Definition released (pfn : Z) (k : kvm) : kvm :=
  if negb (is_error_noslot_pfn pfn) && negb (is_mmio_pfn e pfn)
  then Kvm (slots k) (heads k) (lists k) (spt_mem k) (pages k) (told k ++ [Released pfn]) (flushes k) (lpages k) (tlbs_dirty k) else k.

Lemma release_run x pfn : kvm_release_pfn_clean e pfn x = Ok (tt, set_core (released pfn (core x)) x).
Proof. unfold kvm_release_pfn_clean, released. destruct (negb _ && _); [done|by rewrite set_core_core]. Qed.

Lemma released_same pfn k : slots (released pfn k) = slots k /\ pages (released pfn k) = pages k /\ heads (released pfn k) = heads k /\
  lists (released pfn k) = lists k /\ spt_mem (released pfn k) = spt_mem k.
Proof. unfold released. by destruct (negb _ && _). Qed.

Lemma released_tree pfn k ls : tree m k ls None -> tree m (released pfn k) ls None.
Proof. destruct (released_same pfn k) as (? & ? & ? & ? & ?). intros Ht. by apply (tree_ext m k). Qed.

Lemma released_near n pfn k k' : near n k k' -> near n k (released pfn k').
Proof. destruct (released_same pfn k') as (? & ? & ? & ? & ?). intros Hn. replace n with (n + 0)%nat by lia. apply (near_trans _ _ _ _ _ Hn). by apply near_same. Qed.

(** [mmu_set_spte] after the entry is stored. *)
Definition finish (sptep : Z) (was_rmapped write_fault : bool) (gfn pfn r : Z) : VM bool :=
  (if negb (r =? 0) then kvm_mmu_flush_tlb else mret tt) ;;
  pte ← entry sptep;
  (if negb was_rmapped && is_large_pte pte then
     x ← state; on_core (modify (set_lpages (lpages (core x) + 1)))
   else mret tt) ;;
  (if is_shadow_present_pte m pte && negb was_rmapped then
     rmap_count ← on_core (rmap_add sptep gfn);
     if (RMAP_RECYCLE_THRESHOLD <? rmap_count)%nat then on_core (rmap_recycle m sptep gfn) else mret tt
   else mret tt) ;;
  kvm_release_pfn_clean e pfn ;;
  mret (negb (r =? 0) && write_fault || is_mmio_spte m pte).

(** Nothing is listed: the entry was a leaf, or is absent. *)
Lemma finish_quiet x ls a w was wf gfn pfn : tree m (core x) ls None -> spt_mem (core x) !! a = Some w -> is_shadow_present_pte m w && negb was = false ->
  exists k', finish a was wf gfn pfn 0 x = Ok (is_mmio_spte m w, set_core k' x) /\ tree m k' ls None /\ near 0 (core x) k' /\ spt_mem k' = spt_mem (core x).
Proof.
  intros Ht Ev Hq. unfold finish. rewrite (st_bind_Ok _ _ x tt x) by done. rewrite (st_bind_Ok _ _ _ _ _ (entry_Ok _ _ _ Ev)).
  set (k1 := if negb was && is_large_pte w then set_lpages (lpages (core x) + 1) (core x) else core x).
  rewrite (st_bind_Ok _ _ x tt (set_core k1 x)) by (unfold k1; destruct (negb was && is_large_pte w); [done|by rewrite set_core_core]).
  rewrite Hq. rewrite (st_bind_Ok _ _ (set_core k1 x) tt (set_core k1 x)) by done. rewrite (st_bind_Ok _ _ _ _ _ (release_run _ _)).
  exists (released pfn k1). destruct (released_same pfn k1) as (_ & _ & _ & _ & E5). split; [done|].
  assert (E : slots k1 = slots (core x) /\ pages k1 = pages (core x) /\ heads k1 = heads (core x) /\ lists k1 = lists (core x) /\ spt_mem k1 = spt_mem (core x))
    by (unfold k1; by destruct (negb was && _)). destruct E as (A1 & A2 & A3 & A4 & A5). split; [apply released_tree; by apply (tree_ext m (core x))|].
  split; [apply released_near; by apply near_same|congruence].
Qed.

(** The new leaf is listed. *)
Lemma finish_new x k ls a w0 v wf gfn pfn sp sl : core x = set_mem a v [] k -> tree m k ls None -> spt_mem k !! a = Some w0 -> is_shadow_present_pte m w0 = false ->
  leaf_ok v -> is_shadow_present_pte m v = true -> pages k !! spt_of a = Some sp -> is_last_spte v (sp_level sp) = true -> sp_level sp <= 3 ->
  kvm_mmu_page_get_gfn sp (spt_index a) = Ok gfn -> search_memslots (slots k) gfn = Some sl ->
  is_Some (heads k !! __gfn_to_rmap gfn (sp_level sp) sl) -> objects (lists k) <> [] ->
  exists k' ls', finish a false wf gfn pfn 0 x = Ok (is_mmio_spte m v, set_core k' x) /\ tree m k' ls' None /\ near 1 k k' /\
    (spt_mem k' = <[a := v]> (spt_mem k) \/ recycled k k' a).
Proof.
  intros Ec Ht Ev Hw0 Hv Hp Esp Hla H3 Hg Es Hh Ho. unfold finish. rewrite (st_bind_Ok _ _ x tt x) by done.
  rewrite (st_bind_Ok _ _ _ _ _ (entry_Ok _ a v ltac:(rewrite Ec; apply lookup_insert_eq))). cbn [negb andb].
  set (kl := if is_large_pte v then set_lpages (lpages k + 1) k else k).
  assert (E : slots kl = slots k /\ pages kl = pages k /\ heads kl = heads k /\ lists kl = lists k /\ spt_mem kl = spt_mem k)
    by (unfold kl; by destruct (is_large_pte v)). destruct E as (A1 & A2 & A3 & A4 & A5).
  rewrite (st_bind_Ok _ _ x tt (set_core (set_mem a v [] kl) x)).
  2: { unfold kl. destruct (is_large_pte v); [|rewrite <- Ec; by rewrite set_core_core]. rewrite (st_bind_Ok _ _ x x x) by done. unfold on_core. by rewrite Ec. }
  assert (Htl : tree m kl ls None) by (by apply (tree_ext m k)). rewrite <- A1, <- A2, <- A3, <- A4, <- A5 in *.
  destruct (list_run kl ls a w0 v [] gfn sp sl Htl Ev Hw0 Hv Hp Esp Hla H3 Hg Es Hh Ho) as (n & k1 & ls1 & k2 & ls2 & E1 & Ht1 & Hn1 & Em1 & E2 & Ht2 & Hn2 & Hrec).
  assert (Hnk : near 0 k kl) by (by apply near_same). clearbody kl. rewrite Hp. cbn [andb].
  destruct (Nat.ltb_spec RMAP_RECYCLE_THRESHOLD n) as [Hlt|Hge].
  - exists (released pfn k2), ls2. rewrite (st_bind_Ok _ _ (set_core (set_mem a v [] kl) x) tt (set_core k2 x)).
    2: { rewrite (st_bind_Ok _ _ _ _ _ (on_core_Ok _ (set_core (set_mem a v [] kl) x) _ _ E1)). rewrite (proj2 (Nat.ltb_lt _ _) Hlt). apply (on_core_Ok _ (set_core k1 x) _ _ E2). }
    rewrite (st_bind_Ok _ _ _ _ _ (release_run _ _)). split; [done|]. split; [by apply released_tree|].
    split; [apply released_near, (near_trans 0 1 _ kl); [done|]; by apply (near_trans 1 0 _ k1)|]. right.
    destruct (Hrec Hlt) as (l & [Hnd Hl] & Hc & Hna & Hb). exists l. destruct (released_same pfn k2) as (_ & _ & _ & _ & E5).
    split; [split; [done|]|split; [done|split; [done|]]].
    + intros b Hin. destruct (Hl b Hin) as [[u Hu] Hr]. rewrite !(like_rmap k kl) in Hr by apply Hnk. split; [|done]. exists u. unfold leaf in *. by rewrite <- A2, <- A5.
    + intros b. rewrite E5, <- A5. apply Hb.
  - exists (released pfn k1), ls1. rewrite (st_bind_Ok _ _ (set_core (set_mem a v [] kl) x) tt (set_core k1 x)).
    2: { rewrite (st_bind_Ok _ _ _ _ _ (on_core_Ok _ (set_core (set_mem a v [] kl) x) _ _ E1)). by rewrite (proj2 (Nat.ltb_ge _ _) Hge). }
    rewrite (st_bind_Ok _ _ _ _ _ (release_run _ _)). split; [done|]. split; [by apply released_tree|].
    split; [apply released_near; by apply (near_trans 0 1 _ kl)|]. left. destruct (released_same pfn k1) as (_ & _ & _ & _ & ->). by rewrite Em1, A5.
Qed.

Lemma dirtied_same acc gfn hw k : slots_like (slots k) (slots (dirtied acc gfn hw k)) /\ pages (dirtied acc gfn hw k) = pages k /\
  heads (dirtied acc gfn hw k) = heads k /\ lists (dirtied acc gfn hw k) = lists k /\ spt_mem (dirtied acc gfn hw k) = spt_mem k.
Proof. unfold dirtied. destruct (hw && _); split_and!; first [done|apply mark_like]. Qed.

Lemma dirtied_tree acc gfn hw k ls : tree m k ls None -> tree m (dirtied acc gfn hw k) ls None.
Proof. intros Ht. unfold dirtied. destruct (hw && _); [|done]. apply tree_slots; [done|apply mark_like]. Qed.

Lemma dirtied_near acc gfn hw k : near 0 k (dirtied acc gfn hw k).
Proof. destruct (dirtied_same acc gfn hw k) as (H1 & H2 & H3 & H4 & _). split; [done|done|by rewrite H3|by rewrite H4]. Qed.

(** What the entry at [a] becomes. *)
Definition outcome (x : mmu) (a acc level gfn pfn : Z) (spec hw : bool) (k' : kvm) : Prop :=
  (exists w, spt_mem k' = <[a := w]> (spt_mem (core x)) /\
     (is_shadow_present_pte m w = true -> is_last_spte w level = true /\ spte_to_pfn w = pfn) /\
     (forall sl, search_memslots (slots (core x)) gfn = Some sl -> pfn <> KVM_PFN_NOSLOT -> blocked x acc level gfn hw sl = false ->
        w = new_spte m e acc level gfn pfn spec hw)) \/
  recycled (core x) k' a.

Section run.
  Context (x : mmu) (ls : gmap list_head (list Z)) (a v0 : Z) (sp : kvm_mmu_page) (acc gfn pfn : Z) (wf spec hw : bool).
  Context (Hse : settled m x ls None) (Har : arrays x) (Ev : spt_mem (core x) !! a = Some v0) (Esp : pages (core x) !! spt_of a = Some sp).
  Context (H3 : sp_level sp <= 3) (Hg : kvm_mmu_page_get_gfn sp (spt_index a) = Ok gfn) (Ho : objects (lists (core x)) <> []).

(** The entry maps the frame already: it gets the value of now. *)
Lemma set_run_again sl : leaf m (core x) a v0 -> spte_to_pfn v0 = pfn -> 0 <= pfn < 2 ^ 40 -> search_memslots (slots (core x)) gfn = Some sl ->
  exists r k' ls', (r ← set_spte m e a acc (sp_level sp) gfn pfn spec true hw; finish a true wf gfn pfn r) x = Ok (r, set_core k' x) /\
    tree m k' ls' None /\ near 1 (core x) k' /\ outcome x a acc (sp_level sp) gfn pfn spec hw k'.
Proof using All.
  intros Hlf Hpf Hr Es. pose proof (se_tree _ _ _ _ Hse) as Ht. pose proof (pg_level _ _ (tr_pages _ _ _ _ Ht _ _ Esp)) as Hl1.
  destruct (new_spte_facts m e Hm He acc (sp_level sp) gfn pfn spec hw ltac:(lia) Hr) as (F1 & F2 & _ & F4 & F5 & _).
  rewrite (st_bind_Ok _ _ _ _ _ (set_spte_run x ls a v0 sl acc (sp_level sp) gfn pfn spec hw Hse Ev Hr Es ltac:(intros Hl; apply (ar_counts _ Har); [done|lia]))).
  set (w := new_spte m e acc (sp_level sp) gfn pfn spec hw) in *. destruct (blocked x acc (sp_level sp) gfn hw sl) eqn:Eb.
  - destruct (finish_quiet x ls a v0 true wf gfn pfn Ht Ev ltac:(apply andb_false_r)) as (k' & E & Ht' & Hn & Em). exists (is_mmio_spte m v0), k', ls.
    split; [done|]. split; [done|]. split; [destruct Hn; split; [done..|lia]|]. left. exists v0. split; [by rewrite insert_id|].
    split; [|intros sl' Es' _ Hb; congruence]. intros _. split; [|done]. destruct Hlf as (_ & _ & q & Eq & Hq). congruence.
  - set (k1 := dirtied acc gfn hw (core x)). destruct (dirtied_same acc gfn hw (core x)) as (A1 & A2 & A3 & A4 & A5). fold k1 in A1, A2, A3, A4, A5.
    assert (Hlf1 : leaf m k1 a v0) by (unfold leaf; by rewrite A2, A5).
    assert (Hst : tree m (stored a v0 w k1) ls None /\ near 0 (core x) (stored a v0 w k1) /\ spt_mem (stored a v0 w k1) = <[a := w]> (spt_mem k1)).
    { unfold stored. destruct (mmu_spte_update m v0 v0 w) as [f ev].
      assert (Ht1 : tree m (set_mem a w ev k1) ls None) by (apply (tree_revalued m k1 ls None a v0 w sp); [by apply dirtied_tree|done|by rewrite A2|done..]).
      assert (Hn1 : near 0 (core x) (set_mem a w ev k1)) by (apply (near_trans 0 0 _ k1); [apply dirtied_near|by apply near_same]).
      destruct f; [|done]. split; [by apply (tree_ext m (set_mem a w ev k1))|]. split; [|done]. apply (near_trans 0 0 _ (set_mem a w ev k1)); [done|by apply near_same]. }
    destruct Hst as (Ht1 & Hn1 & Em1).
    destruct (finish_quiet (set_core (stored a v0 w k1) x) ls a w true wf gfn pfn Ht1 ltac:(cbn; rewrite Em1; apply lookup_insert_eq) ltac:(apply andb_false_r)) as (k' & E & Ht' & Hn & Em).
    exists (is_mmio_spte m w), k', ls. split; [done|]. split; [done|]. split.
    { pose proof (near_trans 0 0 _ _ _ Hn1 Hn) as [? ? ? ?]. split; [done..|lia]. }
    left. exists w. cbn in Em. split; [by rewrite Em, Em1, A5|]. done.
Qed.

(** The way is clear: the entry is stored, and listed if it maps a frame. *)
Lemma set_run_fresh k0 ls0 w0 : tree m k0 ls0 None -> near 0 (core x) k0 -> spt_mem k0 = <[a := w0]> (spt_mem (core x)) -> is_shadow_present_pte m w0 = false ->
  pfn = KVM_PFN_NOSLOT \/ 0 <= pfn < 2 ^ 40 /\ is_Some (search_memslots (slots (core x)) gfn) ->
  exists r k' ls', (r ← set_spte m e a acc (sp_level sp) gfn pfn spec true hw; finish a false wf gfn pfn r) (set_core k0 x) = Ok (r, set_core k' x) /\
    tree m k' ls' None /\ near 1 (core x) k' /\ outcome x a acc (sp_level sp) gfn pfn spec hw k'.
Proof using All.
  intros Ht0 Hn0 Em0 Hw0 Hpfn. set (y := set_core k0 x). pose proof (settled_near 0 x ls k0 ls0 Hse Ht0 Hn0) as Hsy. fold y in Hsy.
  pose proof (arrays_near 0 x k0 Har Hn0) as Hay. fold y in Hay. assert (Ev' : spt_mem k0 !! a = Some w0) by (rewrite Em0; apply lookup_insert_eq).
  assert (Esp' : pages k0 !! spt_of a = Some sp) by (by rewrite (nr_pages _ _ _ Hn0)).
  pose proof (pg_level _ _ (tr_pages _ _ _ _ (se_tree _ _ _ _ Hse) _ _ Esp)) as Hl1. destruct Hpfn as [->|[Hr [sl Es]]].
  - rewrite (st_bind_Ok _ _ _ _ _ (set_spte_mmio y a w0 acc (sp_level sp) gfn spec hw Ev')). set (w := mark_mmio_spte m (slots (core y)) gfn acc).
    assert (Hwp : is_shadow_present_pte m w = false) by (unfold is_shadow_present_pte; unfold w; rewrite any_mark_is_mmio; by rewrite andb_false_r).
    destruct (finish_quiet (set_core (set_mem a w [] (core y)) y) ls0 a w false wf gfn KVM_PFN_NOSLOT) as (k' & E & Ht' & Hn & Em).
    + by apply (store_absent m k0 ls0 None a w0 w []).
    + apply lookup_insert_eq.
    + by rewrite Hwp.
    + exists (is_mmio_spte m w), k', ls0. split; [done|]. split; [done|]. split.
      { pose proof (near_trans 0 0 _ _ _ (near_trans 0 0 _ _ (set_mem a w [] k0) Hn0 ltac:(by apply near_same)) Hn) as [? ? ? ?]. split; [done..|lia]. }
      left. exists w. split; [rewrite Em; cbn; by rewrite Em0, insert_insert_eq|]. split; [congruence|done].
  - destruct (near_search' 0 _ _ _ _ Hn0 Es) as (sl' & Es' & Hss).
    rewrite (st_bind_Ok _ _ _ _ _ (set_spte_run y ls0 a w0 sl' acc (sp_level sp) gfn pfn spec hw Hsy Ev' Hr Es' ltac:(intros Hl; apply (ar_counts _ Hay); [done|lia]))).
    assert (Ebl : blocked y acc (sp_level sp) gfn hw sl' = blocked x acc (sp_level sp) gfn hw sl).
    { unfold blocked. cbn [write_count set_core y]. by rewrite (same_slot_lpage _ _ _ _ Hss). }
    rewrite Ebl. destruct (blocked x acc (sp_level sp) gfn hw sl) eqn:Eb.
    + destruct (finish_quiet y ls0 a w0 false wf gfn pfn Ht0 Ev' ltac:(by rewrite Hw0)) as (k' & E & Ht' & Hn & Em). exists (is_mmio_spte m w0), k', ls0.
      split; [done|]. split; [done|]. split; [pose proof (near_trans 0 0 _ _ _ Hn0 Hn) as [? ? ? ?]; split; [done..|lia]|].
      left. exists w0. split; [by rewrite Em|]. split; [congruence|]. intros sl0 ? _ Hb. congruence.
    + destruct (new_spte_facts m e Hm He acc (sp_level sp) gfn pfn spec hw ltac:(lia) Hr) as (F1 & F2 & _ & F4 & F5 & _).
      set (w := new_spte m e acc (sp_level sp) gfn pfn spec hw) in *. set (k1 := dirtied acc gfn hw k0).
      destruct (dirtied_same acc gfn hw k0) as (A1 & A2 & A3 & A4 & A5). fold k1 in A1, A2, A3, A4, A5.
      assert (Hst : stored a w0 w k1 = set_mem a w [] k1) by (unfold stored, mmu_spte_update; by rewrite Hw0).
      pose proof (dirtied_near acc gfn hw k0) as Hd. fold k1 in Hd. pose proof (near_trans 0 0 _ _ _ Hn0 Hd) as Hn1.
      destruct (near_search' 0 _ _ _ _ Hn1 Es) as (sl1 & Es1 & Hss1).
      destruct (finish_new (set_core (stored a w0 w k1) y) k1 ls0 a w0 w wf gfn pfn sp sl1) as (k' & ls' & E & Ht' & Hn & Ho'); try done.
      * by apply dirtied_tree.
      * by rewrite A5.
      * by rewrite A2.
      * rewrite A3, (same_slot_rmap _ _ _ _ Hss1), <- elem_of_dom, (nr_heads _ _ _ Hn0), elem_of_dom. apply (ar_heads _ Har); [done|lia].
      * rewrite A4. pose proof (nr_objects _ _ _ Hn0) as Hlo. intros Eo. rewrite Eo in Hlo. apply Ho, length_zero_iff_nil. cbn in Hlo. lia.
      * exists (is_mmio_spte m w), k', ls'. split; [done|]. split; [done|]. split; [by apply (near_trans 0 1 _ k1)|].
        destruct Ho' as [Em|Hrec]; [left; exists w; split; [by rewrite Em, A5, Em0, insert_insert_eq|done]|]. right.
        apply (recycled_near 0 (core x) k1 k' a w0); [done|by rewrite A5|done].
Qed.

Lemma set_run : pfn = KVM_PFN_NOSLOT \/ 0 <= pfn < 2 ^ 40 /\ is_Some (search_memslots (slots (core x)) gfn) ->
  exists r k' ls', mmu_set_spte m e a acc wf (sp_level sp) gfn pfn spec hw x = Ok (r, set_core k' x) /\
    tree m k' ls' None /\ near 1 (core x) k' /\ outcome x a acc (sp_level sp) gfn pfn spec hw k'.
Proof using All.
  intros Hpfn. change (mmu_set_spte m e a acc wf (sp_level sp) gfn pfn spec hw) with
    (was ← clear_way m a (sp_level sp) pfn; r ← set_spte m e a acc (sp_level sp) gfn pfn spec true hw; finish a was wf gfn pfn r).
  destruct (clear_way_run x ls a v0 sp pfn Hse Ev Esp) as [(E & Hlf & Hpf)|(k0 & ls0 & w0 & E & Ht0 & Hn0 & Em0 & Hw0)]; rewrite (st_bind_Ok _ _ _ _ _ E).
  - destruct Hpfn as [->|[Hr [sl Es]]]; [|by apply (set_run_again sl)]. by destruct (entry_has_slot v0).
  - by apply (set_run_fresh k0 ls0 w0).
Qed.

End run.

End set.
