(* ===== verification/DirectFault.v ===== *)
(** * Faults on the direct map (kvm-kmod x86/mmu.c)

    [__direct_map] walks down from the root, makes the tables that are missing
    and writes the entry; the neighbours are prefetched.  Every leaf there is
    afterwards was there before or maps the frame of the fault, or a frame the
    host gave for a neighbour, and the walk of the hardware ends at it. *)

From S2P Require Import Prelude MemSlots GuestCopy Spte PteList Rmap ShadowPages ShadowSpec RoomSpec DirectMap PageRefs DirectSpec DirectSet.

(** ** Steps of a fault *)

(** What a fault leaves: [np] pages and [no] descriptors are used at most. *)
Record progress (np no : nat) (x x' : mmu) : Prop := {
  pr_slots : slots_like (slots (core x)) (slots (core x'));
  pr_counts : write_count x' = write_count x;
  pr_rmaps sl lv i : is_Some (heads (core x') !! Rmap sl lv i) <-> is_Some (heads (core x) !! Rmap sl lv i);
  pr_pages b q : pages (core x) !! b = Some q -> exists q', pages (core x') !! b = Some q' /\ same_page q q' /\ access (role q') = access (role q);
  pr_used : counted x -> counted x';
  pr_root b : is_root x' b = is_root x b;
  pr_roots : roots x' = roots x;
  pr_orderly : orderly x -> orderly x';
  pr_active : (length (active_mmu_pages x') <= np + length (active_mmu_pages x))%nat /\ n_max_mmu_pages x' = n_max_mmu_pages x;
  pr_caches : (length (mmu_page_cache x) <= np + length (mmu_page_cache x') /\ mmu_page_header_cache x <= np + mmu_page_header_cache x' /\
    length (objects (lists (core x))) <= no + length (objects (lists (core x'))))%nat
}.

Lemma not_nil {A} (l : list A) : (1 <= length l)%nat -> l <> [].
Proof. by destruct l; cbn; [lia|]. Qed.

Lemma same_page_trans q1 q2 q3 : same_page q1 q2 -> same_page q2 q3 -> same_page q1 q3.
Proof. intros [A1 A2 A3 A4 A5 A6] [B1 B2 B3 B4 B5 B6]. split; congruence. Qed.

Lemma progress_trans np no np' no' x y z : progress np no x y -> progress np' no' y z -> progress (np + np') (no + no') x z.
Proof.
  intros [A1 A2 A3 A4 A5 Ar Ar' Ay [A6 A7] A8] [B1 B2 B3 B4 B5 Br Br' By [B6 B7] B8].
  split; [by etrans|congruence|intros sl lv i; by rewrite B3|intros b q Eq|auto|intros b; by rewrite Br|congruence|auto|split; [lia|congruence]|lia].
  destruct (A4 b q Eq) as (q' & E' & Hs & Ha). destruct (B4 b q' E') as (q'' & E'' & Hs' & Ha'). exists q''. split; [done|].
  split; [by apply (same_page_trans q q')|congruence].
Qed.

Lemma progress_refl x : progress 0 0 x x.
Proof. split; [reflexivity|done|done| |done|done|done|done|done|lia]. intros b q Eq. by exists q. Qed.

Lemma progress_le np no np' no' x x' : progress np no x x' -> (np <= np')%nat -> (no <= no')%nat -> progress np' no' x x'.
Proof. intros [? ? ? ? ? ? ? ? [? ?] ?] ? ?. split; [done..|split; [lia|done]|lia]. Qed.

Lemma near_progress n x k' : near n (core x) k' -> progress 0 n x (set_core k' x).
Proof.
  intros [H1 H2 H3 H4]. split; cbn [core set_core write_count mmu_page_cache mmu_page_header_cache]; [done|done| | |done| | | |split; [cbn; lia|done]|lia].
  - intros sl lv i. by rewrite <- !elem_of_dom, H3.
  - intros b q. rewrite H2. intros Eq. by exists q.
  - intros b. unfold is_root. cbn [core set_core]. by rewrite H2.
  - unfold roots. apply count_ext. intros b. unfold is_root. cbn [core set_core]. by rewrite H2.
  - intros Hy b q. cbn [core set_core]. rewrite H2. apply Hy.
Qed.

Lemma grew_progress m x x' : grew m x x' -> progress 1 1 x x'.
Proof.
  intros [H1 H2 _ H4 _ _ H7 H8 Hr H9 Hy H10]. split; [by rewrite H1|done|done|done| |done| |done| |lia].
  - unfold counted. destruct H8 as [[-> ->]|(spt & -> & -> & _)]; [done|]. intros ->. cbn [length]. unfold u32. rewrite Zplus_mod_idemp_l. f_equal. lia.
  - unfold roots. rewrite (count_ext _ _ _ Hr). destruct H8 as [[-> _]|(spt & -> & _ & Hs)]; [done|]. change (spt :: ?l) with ([spt] ++ l). by rewrite count_app, count_one, Hs.
  - split; [|done]. destruct H8 as [[-> _]|(spt & -> & _)]; cbn [length]; lia.
Qed.

Lemma arrays_progress np no x x' : arrays x -> progress np no x x' -> arrays x'.
Proof.
  intros [H1 H2] [[_ _ Hs _] Ec Hr _ _ _ _ _ _ _].
  assert (Hse : forall g sl, search_memslots (slots (core x')) g = Some sl -> exists sl0, search_memslots (slots (core x)) g = Some sl0 /\ same_slot sl0 sl).
  { intros g sl E. specialize (Hs g). rewrite E in Hs. destruct (search_memslots (slots (core x)) g) as [s|]; [eauto|done]. }
  split; intros g lv sl (sl0 & E0 & Hss)%Hse Hl.
  - rewrite (same_slot_rmap _ _ _ _ Hss). unfold __gfn_to_rmap. apply Hr. by apply H1.
  - rewrite (same_slot_lpage _ _ _ _ Hss), Ec. by apply H2.
Qed.

(** The frame an entry is for, and its level, stay. *)
Lemma progress_gfn np no x x' b g : progress np no x x' -> spte_gfn (core x) b = Some g -> spte_gfn (core x') b = Some g.
Proof.
  intros Hp. unfold spte_gfn. destruct (pages (core x) !! spt_of b) as [q|] eqn:Eq; [|done].
  destruct (pr_pages _ _ _ _ Hp _ _ Eq) as (q' & -> & [S1 S2 S3 S4 _ _] & _). cbn. unfold kvm_mmu_page_get_gfn. by rewrite S1, S2, S3, S4.
Qed.

Section steps.
  Context (m : shadow_masks) (e : env) (Hm : direct_masks m) (He : mt_ok e).

(** Leaves are old or in [N]; the pointers to pages in [C] stay. *)
Record wrote (N : Z -> Z -> Prop) (C : Z -> Prop) (x x' : mmu) : Prop := {
  wr_leaf b w : leaf m (core x') b w -> leaf m (core x) b w \/ N b w;
  wr_nonleaf b w : nonleaf m (core x) b w -> C b -> nonleaf m (core x') b w
}.

Lemma wrote_refl N C x : wrote N C x x.
Proof. split; auto. Qed.

Lemma wrote_trans N C x y z : wrote N C x y -> wrote N C y z -> wrote N C x z.
Proof. intros [A1 A2] [B1 B2]. split; [|auto]. intros b w [H|H]%B1; auto. Qed.

Lemma wrote_mono (N N' : Z -> Z -> Prop) (C C' : Z -> Prop) x x' : wrote N C x x' -> (forall b w, N b w -> N' b w) -> (forall b, C' b -> C b) -> wrote N' C' x x'.
Proof. intros [A1 A2] HN HC. split; [|auto]. intros b w [H|H]%A1; auto. Qed.

(** No reverse map has more than [n] leaves. *)
Definition uncrowded (n : nat) (k : kvm) : Prop :=
  forall h l, NoDup l -> (forall b, b ∈ l -> (exists u, leaf m k b u) /\ rmap_of k b = h) -> (length l <= n)%nat.

Lemma uncrowded_le n n' k : uncrowded n k -> (n <= n')%nat -> uncrowded n' k.
Proof. intros Hu Hn h l Hl Hb. specialize (Hu h l Hl Hb). lia. Qed.

Lemma uncrowded_more n k k' a : uncrowded n k -> slots_like (slots k) (slots k') ->
  (forall b u, leaf m k' b u -> b = a \/ (exists u', leaf m k b u') /\ spte_gfn k' b = spte_gfn k b) -> uncrowded (S n) k'.
Proof.
  intros Hu Hs Hlf h l Hnd Hl. assert (Hle : (length (filter (fun b => b <> a) l) <= n)%nat).
  { apply (Hu h); [by apply NoDup_filter|]. intros b [Hne Hb]%list_elem_of_filter. destruct (Hl b Hb) as [[u Hlu] Hr].
    destruct (Hlf b u Hlu) as [?|[Hk Hg]]; [done|]. split; [done|]. rewrite <- Hr. unfold rmap_of. rewrite Hg.
    destruct (spte_gfn k b) as [[g lv]|]; [|done]. cbn. pose proof (sk_search _ _ Hs g) as Hsk.
    destruct (search_memslots (slots k) g), (search_memslots (slots k') g); try done. cbn. by rewrite (same_slot_rmap _ _ _ _ Hsk). }
  assert (Hsub : l ⊆+ a :: filter (fun b => b <> a) l).
  { apply NoDup_submseteq; [done|]. intros b Hb. destruct (decide (b = a)) as [->|]; [left|]. right. by apply list_elem_of_filter. }
  apply submseteq_length in Hsub. cbn in Hsub. lia.
Qed.

(** ** Writing an entry *)

Lemma outcome_wrote n x k' a acc level gfn pfn spec hw sp : near n (core x) k' -> pages (core x) !! spt_of a = Some sp -> level = sp_level sp ->
  outcome m e x a acc level gfn pfn spec hw k' -> wrote (fun b w => b = a /\ spte_to_pfn w = pfn) (fun b => b <> a) x (set_core k' x).
Proof.
  intros Hn Esp -> [(w & Em & Hw & _)|(l & [_ Hl] & _ & Hna & Hmem)]; split; cbn [core set_core].
  - intros b u (Eu & Hu & q & Eq & Hq). rewrite (nr_pages _ _ _ Hn) in Eq. rewrite Em, lookup_insert in Eu.
    case_decide as Eb; [injection Eu as ->; right; split; [done|by apply Hw]|]. left. split; [done|]. split; [done|]. by exists q.
  - intros b u (Eu & Hu & q & Eq & Hq) Hne. split; [by rewrite Em, lookup_insert_ne|]. split; [done|]. exists q. by rewrite (nr_pages _ _ _ Hn).
  - intros b u (Eu & Hu & q & Eq & Hq). rewrite (nr_pages _ _ _ Hn) in Eq. left. rewrite Hmem in Eu.
    case_bool_decide; [injection Eu as <-; by rewrite zero_not_present in Hu|]. split; [done|]. split; [done|]. by exists q.
  - intros b u Hnl Hne. pose proof Hnl as (Eu & Hu & q & Eq & Hq). split; [|split; [done|]; exists q; by rewrite (nr_pages _ _ _ Hn)].
    rewrite Hmem, bool_decide_false; [done|]. intros [?|Hb]%elem_of_cons; [done|]. destruct (Hl b Hb) as [[u' Hlf] _].
    by apply (nonleaf_not_leaf m _ _ _ _ Hnl Hlf).
Qed.

Lemma set_step x ls a v0 sp acc gfn pfn wf spec hw : settled m x ls None -> arrays x -> spt_mem (core x) !! a = Some v0 -> pages (core x) !! spt_of a = Some sp ->
  sp_level sp <= 3 -> kvm_mmu_page_get_gfn sp (spt_index a) = Ok gfn -> objects (lists (core x)) <> [] ->
  pfn = KVM_PFN_NOSLOT \/ 0 <= pfn < 2 ^ 40 /\ is_Some (search_memslots (slots (core x)) gfn) ->
  exists r x' ls', mmu_set_spte m e a acc wf (sp_level sp) gfn pfn spec hw x = Ok (r, x') /\ settled m x' ls' None /\ progress 0 1 x x' /\
    wrote (fun b w => b = a /\ spte_to_pfn w = pfn) (fun b => b <> a) x x' /\
    forall u, uncrowded u (core x) -> (u <= 1000)%nat -> uncrowded (S u) (core x') /\
      exists w, spt_mem (core x') = <[a := w]> (spt_mem (core x)) /\
        forall sl, search_memslots (slots (core x)) gfn = Some sl -> pfn <> KVM_PFN_NOSLOT -> blocked x acc (sp_level sp) gfn hw sl = false ->
          w = new_spte m e acc (sp_level sp) gfn pfn spec hw.
Proof using Hm He.
  intros Hse Har Ev Esp H3 Hg Ho Hpfn.
  destruct (set_run m e Hm He x ls a v0 sp acc gfn pfn wf spec hw Hse Har Ev Esp H3 Hg Ho Hpfn) as (r & k' & ls' & E & Ht & Hn & Hout).
  pose proof (outcome_wrote 1 x k' a _ _ _ _ _ _ sp Hn Esp eq_refl Hout) as Hwr.
  exists r, (set_core k' x), ls'. split; [done|]. split; [by apply (settled_near m 1 x ls)|]. split; [by apply near_progress|]. split; [done|].
  intros u Hu Hle. split.
  - apply (uncrowded_more u (core x) k' a Hu); [apply Hn|]. intros b w [Hb|[-> _]]%(wr_leaf _ _ _ _ Hwr); [right|by left].
    split; [by exists w|]. unfold spte_gfn. by rewrite (nr_pages _ _ _ Hn).
  - destruct Hout as [(w & Em & _ & Hw)|(l & [Hnd Hl] & Hc & _)]; [by exists w|]. specialize (Hu _ l Hnd Hl). lia.
Qed.

End steps.

(** ** Frames of the host *)

(** Slots do not overlap, private ones included. *)
Definition one_slot (k : kvm_memslots) : Prop :=
  forall sl g, sl ∈ live (memslots k) -> covers sl g = true -> exists s, search_memslots k g = Some s /\ same_slot sl s.

Lemma one_slot_at k g0 g sl : one_slot k -> search_memslots k g0 = Some sl -> covers sl g = true -> exists s, search_memslots k g = Some s /\ same_slot sl s.
Proof. intros H1 Es. apply H1. apply find_some in Es as [Hin _]. by apply list_elem_of_In. Qed.

Lemma one_slot_like k k' : slots_like k k' -> one_slot k -> one_slot k'.
Proof.
  intros [_ _ Hs Hlv] H1 sl' g Hin Hc. destruct (Hlv _ Hin) as (sl & Hin0 & H0).
  assert (Hc' : covers sl g = true) by (destruct H0 as (_ & A2 & A3 & _); unfold covers in *; by rewrite <- A2, <- A3).
  destruct (H1 sl g Hin0 Hc') as (s & Es & Hss). specialize (Hs g). rewrite Es in Hs. destruct (search_memslots k' g) as [s'|]; [|done].
  exists s'. split; [done|]. unfold same_slot in *. intuition congruence.
Qed.

Section host.
  Context (e : env) (host : Z -> Z -> Prop).

(** The host has the frames from [pfn] on for the frames an entry maps. *)
Record backed (k : kvm_memslots) (g level pfn : Z) : Prop := {
  bk_aligned : pfn mod frames level = 0;
  bk_host j : 0 <= j < frames level -> exists s, search_memslots k (g + j) = Some s /\ host (__gfn_to_hva_memslot s (g + j)) (pfn + j);
  bk_slot s j : search_memslots k g = Some s -> 0 <= j < frames level -> covers s (g + j) = true
}.

(** [get_user_pages_fast] finds frames of the host, no more than asked for. *)
Record fast_ok : Prop := {
  fo_length hva n : (length (user_pages_fast e hva n) <= Z.to_nat n)%nat;
  fo_frame hva n i p : user_pages_fast e hva n !! i = Some p -> 0 <= p < 2 ^ 40 /\ host (u64 (hva + Z.of_nat i * PAGE_SIZE)) p
}.

Lemma backed_like k k' g level pfn : slots_like k k' -> backed k g level pfn -> backed k' g level pfn.
Proof.
  intros [_ _ Hs _] [Ha Hb Hc]. split; [done| |].
  2: { intros s j Es Hj. specialize (Hs g). rewrite Es in Hs. destruct (search_memslots k g) as [s0|] eqn:E0; [|done]. destruct Hs as (_ & A2 & A3 & _).
       pose proof (Hc s0 j eq_refl Hj) as Hcov. unfold covers in *. by rewrite A2, A3. }
  intros j Hj. destruct (Hb j Hj) as (s & Es & Hh). specialize (Hs (g + j)). rewrite Es in Hs.
  destruct (search_memslots k' (g + j)) as [s'|]; [|done]. exists s'. split; [done|]. destruct Hs as (_ & E2 & _ & E4 & _).
  unfold __gfn_to_hva_memslot in *. by rewrite E2, E4.
Qed.

Lemma small_backed k g sl pfn : slots_ok k -> search_memslots k g = Some sl -> host (__gfn_to_hva_memslot sl g) pfn -> backed k g 1 pfn.
Proof.
  intros Hok Es Hh. change (frames 1) with 1. split; [apply Z.mod_1_r|..]; change (frames 1) with 1.
  - intros j Hj. assert (j = 0) as -> by lia. rewrite !Z.add_0_r. eauto.
  - intros s j Es' Hj. replace (g + j) with g by lia. by apply (search_Some k).
Qed.

(** A leaf the fault may have written. *)
Definition fresh (x : mmu) (b w : Z) : Prop :=
  exists g level, spte_gfn (core x) b = Some (g, level) /\ backed (slots (core x)) g level (spte_to_pfn w).

Lemma fresh_mono np no x x' b w : progress np no x x' -> fresh x b w -> fresh x' b w.
Proof.
  intros Hp (g & lv & Eg & Hb). exists g, lv. split; [by apply (progress_gfn _ _ _ _ _ _ Hp)|]. apply (backed_like (slots (core x))); [apply Hp|done].
Qed.

(** The frames found for neighbours. *)
Lemma many_backed k g0 sl hva n i p : fast_ok -> slots_ok k -> one_slot k -> search_memslots k g0 = Some sl -> __gfn_to_hva_many (Some sl) g0 true = Some hva ->
  n <= u64 (npages sl - (g0 - base_gfn sl)) -> user_pages_fast e hva n !! i = Some p -> 0 <= p < 2 ^ 40 /\ backed k (g0 + Z.of_nat i) 1 p.
Proof.
  intros Hf Hok H1 Es Eh Hn Ei. destruct (fo_frame Hf _ _ _ _ Ei) as [Hp Hh]. split; [done|]. destruct (search_Some _ _ _ Hok Es) as [Hin Hc]. pose proof (ok_slots _ Hok) as Hsl.
  rewrite Forall_forall in Hsl. destruct (Hsl sl Hin) as [Hnp [Hb0 Hb1] _]. unfold covers in Hc.
  rewrite u64_small in Hn by lia. apply lookup_lt_Some in Ei. pose proof (fo_length Hf hva n) as Hl.
  destruct (one_slot_at _ g0 (g0 + Z.of_nat i) sl H1 Es ltac:(unfold covers; lia)) as (s & Es' & Hss). apply (small_backed k _ s); [done|done|].
  unfold __gfn_to_hva_many in Eh. destruct (negb _); [done|]. destruct (memslot_is_readonly sl && true); [done|].
  destruct (kvm_is_error_hva _); [done|]. injection Eh as <-. destruct Hss as (_ & A2 & _ & A4 & _). unfold __gfn_to_hva_memslot, u64 in *.
  rewrite A2, A4. rewrite Zplus_mod_idemp_l in Hh. rewrite <- Z.add_assoc, <- Z.mul_add_distr_r, <- Z.add_sub_swap in Hh. exact Hh.
Qed.

End host.

(** ** Neighbours *)

Lemma entry_gfn spt sp i : page_ok spt sp -> sp_level sp <= 3 -> 0 <= i < 512 -> kvm_mmu_page_get_gfn sp i = Ok (sp_gfn sp + i * frames (sp_level sp)).
Proof.
  intros [_ Hd _ Hl [Hg0 Hg]] H3 Hi. unfold kvm_mmu_page_get_gfn. rewrite Hd. cbn [negb]. unfold PT64_LEVEL_BITS.
  rewrite Z.shiftl_mul_pow2 by lia. replace ((sp_level sp - 1) * 9) with (9 * (sp_level sp - 1)) by lia. fold (frames (sp_level sp)).
  assert (Hf : 1 <= frames (sp_level sp) <= 2 ^ 18 /\ frames (sp_level sp + 1) = 512 * frames (sp_level sp)).
  { assert (sp_level sp = 1 \/ sp_level sp = 2 \/ sp_level sp = 3) as [->|[->| ->]] by lia; by vm_compute. }
  assert (H9 : i * frames (sp_level sp) < 2 ^ 27) by nia. unfold s32. rewrite (Z.mod_small (_ + 2 ^ 31)) by nia.
  f_equal. rewrite u64_small by nia. lia.
Qed.

Lemma entry_is m k ls pend spt sp i : tree m k ls pend -> pages k !! spt = Some sp -> 0 <= i < 512 ->
  spt_of (spt + 8 * i) = spt /\ spt_index (spt + 8 * i) = i /\ is_Some (spt_mem k !! (spt + 8 * i)).
Proof.
  intros Ht Esp Hi. destruct (tr_pages _ _ _ _ Ht _ _ Esp) as [[_ Hal] _ _ _ _]. destruct (entry_of spt i Hal Hi) as [E1 E2]. split; [done|]. split; [done|].
  apply (tr_mem _ _ _ _ Ht). rewrite E1. split; [|by eexists].
  apply (elem_of_entries _ spt); [done|]. unfold entries. rewrite list_elem_of_fmap. exists i. split; [done|]. apply elem_of_seqZ. unfold PT64_ENT_PER_PAGE. lia.
Qed.

Section prefetch.
  Context (m : shadow_masks) (e : env) (host : Z -> Z -> Prop) (Hm : direct_masks m) (He : mt_ok e) (Hf : fast_ok e host).

(** The state while frames are mapped. *)
Record ready (x : mmu) (ls : gmap list_head (list Z)) : Prop := {
  rd_settled : settled m x ls None;
  rd_arrays : arrays x;
  rd_used : counted x;
  rd_slots : one_slot (slots (core x))
}.

Lemma ready_progress np no x x' ls ls' : ready x ls -> progress np no x x' -> settled m x' ls' None -> ready x' ls'.
Proof. intros [_ Ha Hu H1] Hp Hs. split; [done|by apply (arrays_progress np no x)|by apply Hp|apply (one_slot_like (slots (core x))); [apply Hp|done]]. Qed.

(** Entries outside [A] stay as long as no list is recycled. *)
Definition calm (n : nat) (A : Z -> Prop) (x x' : mmu) : Prop :=
  forall u, uncrowded m u (core x) -> (u + n <= 1001)%nat ->
    uncrowded m (u + n) (core x') /\ forall b, ~ A b -> spt_mem (core x') !! b = spt_mem (core x) !! b.

Lemma calm_trans n n' A x y z : calm n A x y -> calm n' A y z -> calm (n + n') A x z.
Proof.
  intros H1 H2 u Hu Hn. destruct (H1 u Hu ltac:(lia)) as [Hu1 Hb1]. destruct (H2 _ Hu1 ltac:(lia)) as [Hu2 Hb2].
  split; [by replace (u + (n + n'))%nat with (u + n + n')%nat by lia|]. intros b Hb. by rewrite Hb2, Hb1.
Qed.

Lemma calm_mono n n' (A A' : Z -> Prop) x x' : calm n A x x' -> (n <= n')%nat -> (forall b, A b -> A' b) -> calm n' A' x x'.
Proof.
  intros Hc Hn HA u Hu Hle. destruct (Hc u Hu ltac:(lia)) as [H1 H2]. split; [apply (uncrowded_le _ _ _ _ H1); lia|]. intros b Hb. apply H2. eauto.
Qed.

Lemma calm_refl A x : calm 0 A x x.
Proof. intros u Hu _. split; [by rewrite Nat.add_0_r|done]. Qed.

(** An entry of the last level is no pointer to a page. *)
Lemma wrote_low a sp N x x' : pages (core x) !! spt_of a = Some sp -> sp_level sp = 1 -> wrote m N (fun b => b <> a) x x' -> wrote m N (fun _ => True) x x'.
Proof.
  intros Esp Hl [H1 H2]. split; [done|]. intros b w Hnl _. apply H2; [done|]. intros ->. destruct Hnl as (_ & _ & q & Eq & Hq).
  assert (q = sp) as -> by congruence. unfold is_last_spte in Hq. by rewrite Hl in Hq.
Qed.

Lemma prefetch_loop_run pfns : forall x ls spt sp i acc, ready x ls -> pages (core x) !! spt = Some sp -> sp_level sp = 1 -> 0 <= i ->
  i + Z.of_nat (length pfns) <= 512 -> (length pfns <= length (objects (lists (core x))))%nat ->
  (forall j p, pfns !! j = Some p -> 0 <= p < 2 ^ 40 /\ backed host (slots (core x)) (sp_gfn sp + i + Z.of_nat j) 1 p) ->
  exists x' ls', prefetch_loop m e pfns 1 acc (sp_gfn sp + i) (spt + 8 * i) x = Ok (tt, x') /\ ready x' ls' /\ progress 0 (length pfns) x x' /\
    wrote m (fresh host x') (fun _ => True) x x' /\ calm (length pfns) (fun b => exists j, i <= j < i + Z.of_nat (length pfns) /\ b = spt + 8 * j) x x'.
Proof using Hm He.
  induction pfns as [|p pfns IH]; intros x ls spt sp i acc Hr Esp Hl Hi Hn Ho Hb; cbn [prefetch_loop length] in *.
  { exists x, ls. split; [done|]. split; [done|]. split; [apply progress_refl|]. split; [apply wrote_refl|apply calm_refl]. }
  pose proof (se_tree _ _ _ _ (rd_settled _ _ Hr)) as Ht. pose proof (tr_pages _ _ _ _ Ht _ _ Esp) as Hpo.
  destruct (entry_is _ _ _ _ _ _ i Ht Esp ltac:(lia)) as (E1 & E2 & [v0 Ev]). destruct (Hb 0%nat p eq_refl) as [Hp Hbp]. rewrite Z.add_0_r in Hbp.
  assert (Eg : kvm_mmu_page_get_gfn sp (spt_index (spt + 8 * i)) = Ok (sp_gfn sp + i)).
  { rewrite E2, (entry_gfn spt sp i Hpo ltac:(lia) ltac:(lia)). rewrite Hl. unfold frames. cbn. f_equal. lia. }
  assert (Hs : is_Some (search_memslots (slots (core x)) (sp_gfn sp + i))).
  { destruct (bk_host _ _ _ _ _ Hbp 0 ltac:(unfold frames; cbn; lia)) as (s & Es & _). rewrite Z.add_0_r in Es. by eexists. }
  destruct (set_step m e Hm He x ls (spt + 8 * i) v0 sp acc (sp_gfn sp + i) p false true true (rd_settled _ _ Hr) (rd_arrays _ _ Hr) Ev
    ltac:(by rewrite E1) ltac:(lia) Eg ltac:(apply not_nil; lia) ltac:(by right)) as (r & y & ly & E & Hsy & Hpy & Hwy & Hcy).
  rewrite Hl in E. rewrite (st_bind_Ok _ _ _ _ _ E). pose proof (ready_progress _ _ _ _ _ _ Hr Hpy Hsy) as Hry.
  destruct (pr_pages _ _ _ _ Hpy _ _ Esp) as (sp' & Esp' & [G1 G2 _ _ _ _] & _). destruct (pg_gfn _ _ Hpo) as [Hg0 Hg1]. rewrite Hl in Hg1. unfold frames in Hg1. cbn in Hg1.
  rewrite u64_small by lia. replace (sp_gfn sp + i + 1) with (sp_gfn sp' + (i + 1)) by lia. replace (spt + 8 * i + 8) with (spt + 8 * (i + 1)) by lia.
  destruct (IH y ly spt sp' (i + 1) acc Hry Esp' ltac:(lia) ltac:(lia) ltac:(lia)) as (x' & ls' & E' & Hr' & Hp' & Hw' & Hc').
  - pose proof (pr_caches _ _ _ _ Hpy) as (_ & _ & ?). lia.
  - intros j q Ej. destruct (Hb (S j) q Ej) as [? Hbq]. split; [done|]. apply (backed_like _ (slots (core x))); [apply Hpy|].
    replace (sp_gfn sp' + (i + 1) + Z.of_nat j) with (sp_gfn sp + i + Z.of_nat (S j)) by lia. done.
  - exists x', ls'. split; [done|]. split; [done|]. split; [by apply (progress_trans 0 1 0 (length pfns) x y)|]. split.
    + apply (wrote_trans m _ _ x y); [|done]. apply (wrote_low (spt + 8 * i) sp _ x y ltac:(by rewrite E1) Hl) in Hwy.
      apply (wrote_mono m _ _ _ _ _ _ Hwy); [|done]. intros b w [-> Ew]. apply (fresh_mono host _ _ _ _ _ _ Hp'). exists (sp_gfn sp + i), 1. split.
      * apply (progress_gfn _ _ _ _ _ _ Hpy). unfold spte_gfn. rewrite E1, Esp. cbn. by rewrite Eg, Hl.
      * rewrite Ew. apply (backed_like _ (slots (core x))); [apply Hpy|done].
    + apply (calm_trans 1 (length pfns) _ x y).
      * intros u Hu Hle. destruct (Hcy u Hu ltac:(lia)) as [Hu1 (w & Em & _)]. split; [by rewrite Nat.add_1_r|]. intros b Hb'.
        rewrite Em, lookup_insert_ne; [done|]. intros <-. apply Hb'. exists i. lia.
      * apply (calm_mono _ _ _ _ _ _ Hc'); [done|]. intros b (j & Hj & ->). exists j. lia.
Qed.

(** What prefetching from entry [i] on may do, at most [n] entries. *)
Definition prefetched (spt : Z) (i j : Z) (n : nat) (x x' : mmu) : Prop :=
  progress 0 n x x' /\ wrote m (fresh host x') (fun _ => True) x x' /\ calm n (fun b => exists t, i <= t < j /\ b = spt + 8 * t) x x'.

(** Only what the host was told is different. *)
Definition told_only (k k' : kvm) : Prop :=
  slots k' = slots k /\ pages k' = pages k /\ heads k' = heads k /\ lists k' = lists k /\ spt_mem k' = spt_mem k.

Lemma told_ok x ls k : ready x ls -> told_only (core x) k -> ready (set_core k x) ls /\ progress 0 0 x (set_core k x) /\ wrote m (fun _ _ => False) (fun _ => True) x (set_core k x) /\ calm 0 (fun _ => False) x (set_core k x).
Proof using.
  intros Hr (E1 & E2 & E3 & E4 & E5). assert (Hn : near 0 (core x) k) by by apply near_same. pose proof (near_progress 0 x k Hn) as Hp.
  assert (Hlf : forall b w, leaf m k b w <-> leaf m (core x) b w) by (intros b w; unfold leaf; by rewrite E2, E5).
  split; [|split; [done|split; [split; cbn [core set_core]; [intros b w ?%Hlf; by left|]|]]].
  - apply (ready_progress 0 0 x _ ls ls Hr Hp), (settled_near m 0 x ls); [apply Hr| |done]. apply (tree_ext m (core x)); try done. apply Hr.
  - intros b w (Ew & Hw & q & Eq & Hq) _. split; [by rewrite E5|]. split; [done|]. exists q. by rewrite E2.
  - intros u Hu _. rewrite Nat.add_0_r. split; [|intros b _; cbn; by rewrite E5]. intros h l Hnd Hl. apply (Hu h l Hnd). intros b Hb. destruct (Hl b Hb) as [[w ?%Hlf] Hrm]. split; [by exists w|].
    rewrite <- Hrm. unfold rmap_of, spte_gfn. cbn [core set_core]. by rewrite E1, E2.
Qed.

Lemma prefetched_refl spt i j n x : prefetched spt i j n x x.
Proof.
  split; [apply (progress_le 0 0); [apply progress_refl|lia..]|]. split; [apply wrote_refl|]. apply (calm_mono 0 _ (fun _ => False)); [apply calm_refl|lia|done].
Qed.

Lemma prefetch_many_run x ls spt sp i j : ready x ls -> pages (core x) !! spt = Some sp -> sp_level sp = 1 -> 0 <= i -> i <= j <= 512 ->
  (Z.to_nat (j - i) <= length (objects (lists (core x))))%nat -> i < 512 ->
  exists ok x' ls', direct_pte_prefetch_many m e spt (spt + 8 * i) (spt + 8 * j) x = Ok (ok, x') /\ ready x' ls' /\ prefetched spt i j (Z.to_nat (j - i)) x x'.
Proof using Hm He Hf.
  intros Hr Esp Hl Hi Hj Ho Hi5. pose proof (se_tree _ _ _ _ (rd_settled _ _ Hr)) as Ht. pose proof (tr_pages _ _ _ _ Ht _ _ Esp) as Hpo.
  destruct (entry_is _ _ _ _ _ _ i Ht Esp ltac:(lia)) as (_ & E2 & _). pose proof (tree_page _ _ _ _ _ _ Ht Esp) as [Es _].
  assert (Eg : kvm_mmu_page_get_gfn sp (spt_index (spt + 8 * i)) = Ok (sp_gfn sp + i)).
  { rewrite E2, (entry_gfn spt sp i Hpo ltac:(lia) ltac:(lia)). rewrite Hl. unfold frames. cbn. f_equal. lia. }
  assert (Hno : exists ok x' ls', (mret false : VM bool) x = Ok (ok, x') /\ ready x' ls' /\ prefetched spt i j (Z.to_nat (j - i)) x x')
    by (exists false, x, ls; split; [done|]; split; [done|apply prefetched_refl]).
  unfold direct_pte_prefetch_many. rewrite (st_bind_Ok _ _ _ _ _ (header_Ok _ _ _ ltac:(by rewrite Es))).
  rewrite (st_bind_Ok _ _ _ _ _ (lift_res_Ok _ x _ Eg)). unfold gfn_to_memslot_dirty_bitmap, gfn_to_memslot.
  rewrite st_bind_assoc, (st_bind_Ok _ _ x (search_memslots (slots (core x)) (sp_gfn sp + i)) x) by done.
  set (o := match search_memslots (slots (core x)) (sp_gfn sp + i) with Some _ => _ | None => _ end). rewrite (st_bind_Ok _ _ x o x) by done.
  destruct o; [|done]. unfold gfn_to_page_many_atomic. rewrite st_bind_assoc, (st_bind_Ok _ _ x x x) by done.
  destruct (search_memslots (slots (core x)) (sp_gfn sp + i)) as [sl|] eqn:Esl; [|done].
  destruct (__gfn_to_hva_many (Some sl) (sp_gfn sp + i) true) as [hva|] eqn:Eh; [|done].
  destruct (Z.ltb_spec (u64 (npages sl - (sp_gfn sp + i - base_gfn sl))) ((spt + 8 * j - (spt + 8 * i)) / 8)) as [|Hn]; [done|].
  replace ((spt + 8 * j - (spt + 8 * i)) / 8) with (j - i) in * by (rewrite <- (Z.div_mul (j - i) 8) by lia; f_equal; lia).
  cbv zeta. pose proof (fo_length _ _ Hf hva (j - i)) as Hlen. remember (user_pages_fast e hva (j - i)) as pfns eqn:Ep.
  set (k1 := Kvm (slots (core x)) (heads (core x)) (lists (core x)) (spt_mem (core x)) (pages (core x)) (told (core x) ++ (Taken <$> pfns)) (flushes (core x)) (lpages (core x)) (tlbs_dirty (core x))).
  rewrite (st_bind_Ok _ _ x (Some pfns) (set_core k1 x)) by done. destruct (told_ok x ls k1 Hr ltac:(done)) as (Hr1 & Hp1 & Hw1 & Hc1).
  destruct pfns as [|p pfns].
  { exists false, (set_core k1 x), ls. split; [done|]. split; [done|]. split; [apply (progress_le 0 0); [done|lia..]|]. split; [by apply (wrote_mono m _ _ _ _ _ _ Hw1)|by apply (calm_mono _ _ _ _ _ _ Hc1); [lia|]]. }
  rewrite Hl. pose proof (mk_slots _ _ _ (tr_mmu _ _ _ _ Ht)) as Hok.
  destruct (prefetch_loop_run (p :: pfns) (set_core k1 x) ls spt sp i (access (role sp)) Hr1 Esp Hl Hi ltac:(lia) (Nat.le_trans _ _ _ Hlen Ho)) as (x' & ls' & E & Hr' & Hp & Hw & Hc).
  { intros t q Et. rewrite Ep in Et. by apply (many_backed e host _ _ sl hva (j - i)); try apply Hr. }
  rewrite (st_bind_Ok _ _ _ _ _ E). exists true, x', ls'. split; [done|]. split; [done|]. split; [by apply (progress_le _ _ _ _ _ _ (progress_trans _ _ _ _ _ _ _ Hp1 Hp))|]. split.
  { apply (wrote_trans m _ _ x (set_core k1 x)); [by apply (wrote_mono m _ _ _ _ _ _ Hw1)|done]. }
  apply (calm_trans 0 _ _ _ (set_core k1 x)); [by apply (calm_mono _ _ _ _ _ _ Hc1)|]. apply (calm_mono _ _ _ _ _ _ Hc); [done|]. intros b (t & Ht' & ->). exists t. split; [lia|done].
Qed.

(** Everything but the entry of the fault may change. *)
Definition around (sptep : Z) (n : nat) (x x' : mmu) : Prop :=
  progress 0 n x x' /\ wrote m (fresh host x') (fun _ => True) x x' /\ calm n (fun b => b <> sptep) x x'.

Lemma around_trans sptep n n' x y z : around sptep n x y -> around sptep n' y z -> around sptep (n + n') x z.
Proof.
  intros (A1 & A2 & A3) (B1 & B2 & B3). split; [by apply (progress_trans 0 n 0 n' x y)|]. split; [|by apply (calm_trans n n' _ x y)].
  apply (wrote_trans m _ _ x y); [|done]. apply (wrote_mono m _ _ _ _ _ _ A2); [|done]. intros b w. by apply (fresh_mono host _ _ _ _ _ _ B1).
Qed.

Lemma around_le sptep n n' x x' : around sptep n x x' -> (n <= n')%nat -> around sptep n' x x'.
Proof. intros (A1 & A2 & A3) Hn. split; [by apply (progress_le 0 n)|]. split; [done|by apply (calm_mono n _ _ _ _ _ A3)]. Qed.

Lemma around_refl sptep n x : around sptep n x x.
Proof. apply (around_le _ 0); [|lia]. split; [apply progress_refl|]. split; [apply wrote_refl|apply calm_refl]. Qed.

(** Entries [s] to [i] wait. *)
Lemma prefetch_entries_run n : forall x ls spt sp sptep s i, ready x ls -> pages (core x) !! spt = Some sp -> sp_level sp = 1 ->
  0 <= s <= i -> i + Z.of_nat n <= 512 -> (n + Z.to_nat (i - s) <= length (objects (lists (core x))))%nat ->
  (forall t, s <= t < i -> sptep <> spt + 8 * t) ->
  exists x' ls', prefetch_entries m e n spt sptep (spt + 8 * i) (if s =? i then 0 else spt + 8 * s) x = Ok (tt, x') /\ ready x' ls' /\
    around sptep (n + Z.to_nat (i - s)) x x'.
Proof using Hm He Hf.
  induction n as [|n IH]; intros x ls spt sp sptep s i Hr Esp Hl Hs Hi Ho Hne.
  { exists x, ls. split; [done|]. split; [done|apply around_refl]. }
  pose proof (se_tree _ _ _ _ (rd_settled _ _ Hr)) as Ht. destruct (tr_pages _ _ _ _ Ht _ _ Esp) as [[Hpos _] _ _ _ _].
  destruct (entry_is _ _ _ _ _ _ i Ht Esp ltac:(lia)) as (_ & _ & [v Ev]). cbn [prefetch_entries]. rewrite (st_bind_Ok _ _ _ _ _ (entry_Ok _ _ _ Ev)).
  replace ((if s =? i then 0 else spt + 8 * s) =? 0) with (s =? i) by (destruct (Z.eqb_spec s i); [done|]; symmetry; apply Z.eqb_neq; lia).
  replace (spt + 8 * i + 8) with (spt + 8 * (i + 1)) by lia.
  destruct (is_shadow_present_pte m v || (spt + 8 * i =? sptep)) eqn:Ep.
  - destruct (Z.eqb_spec s i) as [->|Hsi].
    + destruct (IH x ls spt sp sptep (i + 1) (i + 1) Hr Esp Hl ltac:(lia) ltac:(lia) ltac:(lia) ltac:(lia)) as (x' & ls' & E & Hr' & Ha).
      rewrite Z.eqb_refl in E. exists x', ls'. split; [done|]. split; [done|]. apply (around_le _ _ _ _ _ Ha). lia.
    + destruct (prefetch_many_run x ls spt sp s i Hr Esp Hl ltac:(lia) ltac:(lia) ltac:(lia) ltac:(lia)) as (ok & y & ly & E & Hry & Hpy & Hwy & Hcy).
      assert (Hay : around sptep (Z.to_nat (i - s)) x y).
      { split; [done|]. split; [done|]. apply (calm_mono _ _ _ _ _ _ Hcy); [done|]. intros b (t & Htt & ->). intros <-. by apply (Hne t). }
      rewrite (st_bind_Ok _ _ _ _ _ E). destruct ok; [|exists y, ly; split; [done|]; split; [done|]; apply (around_le _ _ _ _ _ Hay); lia].
      destruct (pr_pages _ _ _ _ Hpy _ _ Esp) as (sp' & Esp' & [_ G2 _ _ _ _] & _). pose proof (pr_caches _ _ _ _ Hpy) as (_ & _ & Hob).
      destruct (IH y ly spt sp' sptep (i + 1) (i + 1) Hry Esp' ltac:(lia) ltac:(lia) ltac:(lia) ltac:(lia) ltac:(lia)) as (x' & ls' & E' & Hr' & Ha).
      rewrite Z.eqb_refl in E'. exists x', ls'. split; [done|]. split; [done|]. apply (around_le _ _ _ _ _ (around_trans _ _ _ _ _ _ Hay Ha)). lia.
  - apply orb_false_iff in Ep as [_ Ep]. apply Z.eqb_neq in Ep.
    destruct (IH x ls spt sp sptep s (i + 1) Hr Esp Hl ltac:(lia) ltac:(lia) ltac:(lia)) as (x' & ls' & E & Hr' & Ha).
    { intros t Htt. destruct (decide (t = i)) as [->|]; [done|]. apply Hne. lia. }
    replace (s =? i + 1) with false in E by (symmetry; apply Z.eqb_neq; lia). exists x', ls'. split; [|split; [done|apply (around_le _ _ _ _ _ Ha); lia]].
    destruct (Z.eqb_spec s i) as [->|]; exact E.
Qed.

(** [direct_pte_prefetch] *)
Lemma prefetch_run x ls a sp : ready x ls -> pages (core x) !! spt_of a = Some sp -> (8 <= length (objects (lists (core x))))%nat -> a mod 8 = 0 ->
  exists x' ls', direct_pte_prefetch m e a x = Ok (tt, x') /\ ready x' ls' /\ around a 8 x x'.
Proof using Hm He Hf.
  intros Hr Esp Ho Ha8. unfold direct_pte_prefetch. destruct (shadow_accessed_mask m =? 0); [exists x, ls; split; [done|]; split; [done|apply around_refl]|].
  rewrite (st_bind_Ok _ _ _ _ _ (header_Ok _ _ _ Esp)). unfold PT_PAGE_TABLE_LEVEL.
  destruct (Z.ltb_spec 1 (sp_level sp)) as [|Hl]; [exists x, ls; split; [done|]; split; [done|apply around_refl]|].
  pose proof (se_tree _ _ _ _ (rd_settled _ _ Hr)) as Ht. destruct (tr_pages _ _ _ _ Ht _ _ Esp) as [_ _ _ Hl1 _]. destruct (entry_at a Ha8) as (_ & Hi & _).
  unfold __direct_pte_prefetch, PTE_PREFETCH_NUM. change (8 - 1) with (Z.ones 3). rewrite Z.ldiff_ones_r, Z.shiftl_mul_pow2, Z.shiftr_div_pow2 by lia.
  change (2 ^ 3) with 8. set (i := spt_index a / 8 * 8). pose proof (Z.div_mod (spt_index a) 8 ltac:(lia)). pose proof (Z.mod_pos_bound (spt_index a) 8 ltac:(lia)).
  assert (Hq : spt_index a / 8 < 64) by (apply Z.div_lt_upper_bound; lia). pose proof (Z.div_pos (spt_index a) 8 ltac:(lia) ltac:(lia)).
  destruct (prefetch_entries_run 8 x ls (spt_of a) sp a i i Hr Esp ltac:(lia) ltac:(lia) ltac:(lia) ltac:(lia) ltac:(lia)) as (x' & ls' & E & Hr' & Ha).
  rewrite Z.eqb_refl in E. exists x', ls'. split; [done|]. split; [done|]. apply (around_le _ _ _ _ _ Ha). lia.
Qed.

End prefetch.

(** ** Frames and tables *)

Lemma frames_pos lv : 1 <= lv -> 0 < frames lv.
Proof. intros. unfold frames. lia. Qed.

Lemma frames_succ lv : 1 <= lv -> frames (lv + 1) = frames lv * 512.
Proof. intros. unfold frames. change 512 with (2 ^ 9). rewrite <- Z.pow_add_r by lia. f_equal. lia. Qed.

(** The frame a page of level [lv] on the way to [g] starts with. *)
Definition start_of (g lv : Z) : Z := g - g mod frames (lv + 1).
Definition slot_of (g lv : Z) : Z := (g / frames lv) mod 512.

Lemma slot_range g lv : 0 <= slot_of g lv < 512.
Proof. unfold slot_of. apply Z.mod_pos_bound. lia. Qed.

Lemma start_step g lv : 1 <= lv -> start_of g lv + slot_of g lv * frames lv = start_of g (lv - 1).
Proof.
  intros Hl. unfold start_of, slot_of. rewrite frames_succ by done. replace (lv - 1 + 1) with lv by lia. pose proof (frames_pos lv Hl).
  rewrite Z.rem_mul_r by lia. lia.
Qed.

Lemma shadow_index g lv : 0 <= g < 2 ^ 36 -> 1 <= lv -> SHADOW_PT_INDEX (u64 (Z.shiftl g PAGE_SHIFT)) lv = slot_of g lv.
Proof.
  intros Hg Hl. unfold SHADOW_PT_INDEX, slot_of, frames, PT64_LEVEL_BITS. change PAGE_SHIFT with 12. change (Z.shiftl 1 9 - 1) with (Z.ones 9).
  rewrite u64_small by (rewrite Z.shiftl_mul_pow2 by lia; lia). rewrite Z.land_ones by lia. change (2 ^ 9) with 512. f_equal.
  rewrite <- Z.shiftr_shiftr by lia. replace (Z.shiftr (Z.shiftl g 12) 12) with g by (rewrite Z.shiftr_shiftl_l by lia; by rewrite Z.sub_diag, Z.shiftl_0_r).
  rewrite Z.shiftr_div_pow2 by lia. do 2 f_equal. lia.
Qed.

Lemma pseudo_gfn g lv : 0 <= g < 2 ^ 36 -> 2 <= lv ->
  Z.shiftr (Z.land (u64 (Z.shiftl g PAGE_SHIFT)) (PT64_LVL_ADDR_MASK lv)) PAGE_SHIFT = start_of g (lv - 1).
Proof.
  intros Hg Hl. unfold start_of. replace (lv - 1 + 1) with lv by lia. unfold frames. set (n := 9 * (lv - 1)).
  assert (E : g - g mod 2 ^ n = Z.ldiff g (Z.ones n)).
  { rewrite Z.ldiff_ones_r, Z.shiftl_mul_pow2, Z.shiftr_div_pow2 by lia. pose proof (Z.div_mod g (2 ^ n) ltac:(lia)). lia. }
  rewrite E. apply Z.bits_inj'. intros i Hi. change PAGE_SHIFT with 12. rewrite u64_small by (rewrite Z.shiftl_mul_pow2 by lia; lia).
  unfold PT64_LVL_ADDR_MASK, PT64_LEVEL_BITS. change PAGE_SHIFT with 12. rewrite Z.shiftl_1_l.
  replace (2 ^ (12 + (lv - 1) * 9) - 1) with (Z.ones (12 + n)) by (rewrite Z.ones_equiv, Z.sub_1_r; do 2 f_equal; lia).
  rewrite Z.shiftr_spec, Z.land_spec, !Z.ldiff_spec, Z.shiftl_spec, base_mask_bit by lia. replace (i + 12 - 12) with i by lia.
  destruct (Z.lt_ge_cases i n); [rewrite !Z.ones_spec_low by lia; by rewrite !andb_false_r|]. rewrite !Z.ones_spec_high by lia. cbn [negb]. rewrite !andb_true_r.
  destruct (Z.lt_ge_cases i 36); [|by rewrite (testbit_above g 36) by lia]. replace (12 <=? i + 12) with true by (symmetry; apply Z.leb_le; lia).
  replace (i + 12 <? 52) with true by (symmetry; apply Z.ltb_lt; lia). by rewrite andb_true_r.
Qed.

(** Frames of one block are on the same way. *)
Lemma block_slot g j level lv : 1 <= level <= lv -> g mod frames level = 0 -> 0 <= j < frames level -> slot_of (g + j) lv = slot_of g lv.
Proof.
  intros Hl Hg Hj. unfold slot_of. f_equal. assert (E : frames lv = frames level * 2 ^ (9 * (lv - level))) by (unfold frames; rewrite <- Z.pow_add_r by lia; f_equal; lia).
  pose proof (frames_pos level ltac:(lia)). rewrite E, <- !Z.div_div by lia. f_equal. pose proof (Z.div_mod g (frames level) ltac:(lia)) as D. rewrite Hg in D.
  symmetry. apply (Z.div_unique _ _ _ j); lia.
Qed.

(** The host frame of frame [g] by an entry of a level: the low bits are those
    of the guest. *)
Definition frame_of (v level g : Z) : Z := spte_to_pfn v - spte_to_pfn v mod frames level + g mod frames level.

(** The walk of the hardware from a table of a level on. *)
Fixpoint translate (m : shadow_masks) (fuel : nat) (k : kvm) (spt level g : Z) : option Z :=
  match fuel with
  | O => None
  | S fuel =>
      v ← spt_mem k !! (spt + 8 * slot_of g level);
      if negb (is_shadow_present_pte m v) then None
      else if is_last_spte v level then Some (frame_of v level g)
      else translate m fuel k (child_of v) (level - 1) g
  end.

(** ** The walk *)

Section walk.
  Context (m : shadow_masks) (e : env) (host : Z -> Z -> Prop) (Hm : direct_masks m) (He : mt_ok e) (Hf : fast_ok e host).

(** [drop_large_spte] above the last level *)
Lemma drop_large_run x ls a v sp : tree m (core x) ls None -> spt_mem (core x) !! a = Some v -> pages (core x) !! spt_of a = Some sp -> 1 < sp_level sp ->
  exists k' ls' w, on_core (drop_large_spte m a) x = Ok (tt, set_core k' x) /\ tree m k' ls' None /\ near 0 (core x) k' /\
    spt_mem k' = <[a := w]> (spt_mem (core x)) /\ (is_shadow_present_pte m w = false \/ nonleaf m (core x) a w) /\ (forall u, nonleaf m (core x) a u -> w = u).
Proof.
  intros Ht Ev Esp Hl. unfold drop_large_spte, __drop_large_spte.
  assert (Hdrop : forall k1 ls1, drop_spte m a (core x) = Ok (tt, k1) -> tree m k1 ls1 None -> near 0 (core x) k1 -> spt_mem k1 = <[a := 0]> (spt_mem (core x)) ->
    is_large_pte v = true -> exists k' ls' w, on_core (b ← (v ← read_spte a; if is_large_pte v then page_header a ;; drop_spte m a ;; s ← get; modify (set_lpages (lpages s - 1)) ;; mret true else mret false);
      if b : bool then kvm_flush_remote_tlbs else mret tt) x = Ok (tt, set_core k' x) /\ tree m k' ls' None /\ near 0 (core x) k' /\
    spt_mem k' = <[a := w]> (spt_mem (core x)) /\ (is_shadow_present_pte m w = false \/ nonleaf m (core x) a w) /\ (forall u, nonleaf m (core x) a u -> w = u)).
  { intros k1 ls1 E Ht1 Hn Em Hla. exists (flushed (set_lpages (lpages k1 - 1) k1)), ls1, 0. split.
    - apply on_core_Ok. rewrite st_bind_assoc. rewrite (st_bind_Ok _ _ _ _ _ (read_spte_Ok _ _ _ Ev)), Hla.
      rewrite st_bind_assoc, (st_bind_Ok _ _ _ _ _ (page_header_Ok _ _ _ Esp)). rewrite st_bind_assoc, (st_bind_Ok _ _ _ _ _ E). done.
    - split; [by apply (tree_ext m k1)|]. split; [apply (near_trans 0 0 _ k1); [done|by apply near_same]|]. split; [done|]. split; [left; apply zero_not_present|]. intros u (Eu & _ & q & Eq & Hq). assert (u = v) as -> by congruence. unfold is_last_spte in Hq. rewrite Hla in Hq. by destruct (_ =? _). }
  destruct (is_large_pte v) eqn:Hla.
  2: { exists (core x), ls, v. split; [apply on_core_Ok; rewrite st_bind_assoc, (st_bind_Ok _ _ _ _ _ (read_spte_Ok _ _ _ Ev)), Hla; done|].
    split; [done|]. split; [by apply near_same|]. split; [by rewrite insert_id|]. split; [|intros u (Eu & _); congruence]. destruct (is_shadow_present_pte m v) eqn:Hp; [right|by left].
    destruct (present_cases _ _ _ _ _ _ Ht Ev Hp) as (sp' & Esp' & Hc). assert (sp' = sp) as -> by congruence. unfold is_last_spte in Hc.
    replace (sp_level sp =? PT_PAGE_TABLE_LEVEL) with false in Hc by (symmetry; apply Z.eqb_neq; unfold PT_PAGE_TABLE_LEVEL; lia). by rewrite Hla in Hc. }
  destruct (is_shadow_present_pte m v) eqn:Hp.
  - destruct (present_cases _ _ _ _ _ _ Ht Ev Hp) as (sp' & Esp' & Hc). assert (sp' = sp) as -> by congruence. unfold is_last_spte in Hc. rewrite Hla in Hc.
    replace (if _ =? _ then true else true) with true in Hc by (by destruct (_ =? _)).
    destruct (drop_leaf_run m x ls None a v Ht Hc ltac:(done)) as (k1 & ls1 & E & Ht1 & Hk & Em & _). apply (Hdrop k1 ls1); try done; [|by apply kept_near].
    unfold on_core in E. destruct (drop_spte m a (core x)) as [[[] k2]|]; [|done]. injection E as E. by rewrite E.
  - apply (Hdrop (set_mem a 0 [] (core x)) ls); try done; [|by apply (store_absent m _ _ _ a v); try apply zero_not_present].
    assert (E : spte_clear m a (core x) = Ok (false, set_mem a 0 [] (core x))).
    { unfold spte_clear. rewrite (st_bind_Ok _ _ _ _ _ (read_spte_Ok _ _ _ Ev)). unfold mmu_spte_clear_track_bits, is_rmap_spte.
      replace (if spte_has_volatile_bits m v then v else v) with v by (by destruct (spte_has_volatile_bits m v)). by rewrite Hp. }
    unfold drop_spte. by rewrite (st_bind_Ok _ _ _ _ _ E).
Qed.

(** No leaf is new. *)
Abbreviation nothing := (fun _ _ : Z => False).

Lemma leaf_gfn k ls b u : tree m k ls None -> leaf m k b u -> exists g, spte_gfn k b = Some g.
Proof.
  intros Ht Hlf. destruct (mk_leaf _ _ _ (tr_mmu _ _ _ _ Ht) _ _ Hlf) as [_ (h & Hr & _)]. unfold rmap_of in Hr. destruct (spte_gfn k b) as [g|]; [by exists g|done].
Qed.

Lemma uncrowded_kept np no x x' ls u : tree m (core x) ls None -> progress np no x x' -> (forall b w, leaf m (core x') b w -> exists w', leaf m (core x) b w') ->
  uncrowded m u (core x) -> uncrowded m u (core x').
Proof.
  intros Ht Hp Hl Hu h l Hnd Hb. apply (Hu h l Hnd). intros b Hin. destruct (Hb b Hin) as [[w Hw] Hr]. destruct (Hl b w Hw) as [w' Hx]. split; [by exists w'|].
  rewrite <- Hr. destruct (leaf_gfn _ _ _ _ Ht Hx) as [[g lv] Hg]. unfold rmap_of. rewrite Hg, (progress_gfn _ _ _ _ _ _ Hp Hg). cbn.
  pose proof (sk_search _ _ (pr_slots _ _ _ _ Hp) g) as Hs. destruct (search_memslots (slots (core x)) g), (search_memslots (slots (core x')) g); try done.
  cbn. by rewrite (same_slot_rmap _ _ _ _ Hs).
Qed.

Lemma uncrowded_less np no x x' ls C u : tree m (core x) ls None -> progress np no x x' -> wrote m nothing C x x' -> uncrowded m u (core x) -> uncrowded m u (core x').
Proof. intros Ht Hp [Hl _]. apply (uncrowded_kept np no x x' ls u Ht Hp). intros b w [Hx|[]]%Hl. by exists w. Qed.

(** Memory changes only at [a], which is no leaf afterwards. *)
Lemma wrote_at n x k' a w : near n (core x) k' -> spt_mem k' = <[a := w]> (spt_mem (core x)) ->
  (is_shadow_present_pte m w = false \/ nonleaf m (core x) a w) -> (forall u, nonleaf m (core x) a u -> w = u) ->
  wrote m nothing (fun _ => True) x (set_core k' x).
Proof.
  intros Hn Em Hw Hkeep. split; cbn [core set_core].
  - intros b u (Eu & Hu & q & Eq & Hq). rewrite (nr_pages _ _ _ Hn) in Eq. rewrite Em, lookup_insert in Eu. left. case_decide as Eb.
    + injection Eu as <-. subst b. destruct Hw as [?|(_ & _ & q' & Eq' & Hq')]; congruence.
    + split; [done|]. split; [done|]. by exists q.
  - intros b u Hnl _. pose proof Hnl as (Eu & Hu & q & Eq & Hq). split; [rewrite Em, lookup_insert; case_decide; [subst b; f_equal; by apply Hkeep|done]|].
    split; [done|]. exists q. by rewrite (nr_pages _ _ _ Hn).
Qed.

(** What a step down leaves: the table below, and the entry that points to
    it. *)
Record below (x z : mmu) (lz : gmap list_head (list Z)) (a w : Z) (sp c : kvm_mmu_page) : Prop := {
  bw_ready : ready m z lz;
  bw_progress : progress 1 1 x z;
  bw_wrote : wrote m nothing (fun _ => True) x z;
  bw_link : nonleaf m (core z) a w;
  bw_child : pages (core z) !! child_of w = Some c;
  bw_level : sp_level c = sp_level sp - 1;
  bw_gfn : sp_gfn c = sp_gfn sp + spt_index a * frames (sp_level sp)
}.

Lemma below_link x z lz a w sp : ready m z lz -> progress 1 1 x z -> wrote m nothing (fun _ => True) x z -> nonleaf m (core z) a w ->
  pages (core x) !! spt_of a = Some sp -> exists c, below x z lz a w sp c.
Proof.
  intros Hr Hp Hw Hnl Esp. destruct (pr_pages _ _ _ _ Hp _ _ Esp) as (sp' & Esp' & [G1 G2 _ _ _ _] & _).
  destruct (tr_child _ _ _ _ (se_tree _ _ _ _ (rd_settled _ _ _ Hr)) _ _ _ Hnl Esp') as (c & Ec & Hl & Hg). exists c. split; try done; congruence.
Qed.

Section descend.
  Context (v : kvm_mmu) (is_pae : bool) (sync : Z -> VM Z) (Hiv : invalid (base_role v) = false).

(** The table below [a] is made. *)
Lemma make_below y ly spt sp gfn : ready m y ly -> pages (core y) !! spt = Some sp -> 2 <= sp_level sp -> 0 <= gfn < 2 ^ 36 -> sp_gfn sp = start_of gfn (sp_level sp) ->
  (exists w, spt_mem (core y) !! (spt + 8 * slot_of gfn (sp_level sp)) = Some w /\ is_shadow_present_pte m w = false) ->
  mmu_page_cache y <> [] -> mmu_page_header_cache y <> O -> objects (lists (core y)) <> [] ->
  exists z lz w, (spt' ← kvm_mmu_get_page m v is_pae sync (start_of gfn (sp_level sp - 1)) (u64 (Z.shiftl gfn PAGE_SHIFT)) (sp_level sp - 1) true ACC_ALL
      (spt + 8 * slot_of gfn (sp_level sp)); link_shadow_page m (spt + 8 * slot_of gfn (sp_level sp)) spt' true) y = Ok (tt, z) /\
    ready m z lz /\ progress 1 1 y z /\ wrote m nothing (fun _ => True) y z /\ nonleaf m (core z) (spt + 8 * slot_of gfn (sp_level sp)) w.
Proof using Hm Hiv.
  intros Hr Esp Hl Hg Hsg (w0 & Ew0 & Hw0) Hc1 Hc2 Ho. pose proof (rd_settled _ _ _ Hr) as Hse. pose proof (se_tree _ _ _ _ Hse) as Ht.
  pose proof (slot_range gfn (sp_level sp)) as Hsl. destruct (entry_is _ _ _ _ _ _ _ Ht Esp Hsl) as (E1 & E2 & _).
  pose proof (tr_pages _ _ _ _ Ht _ _ Esp) as [[Hpos Hal] _ _ Hlv [Hg0 Hg1]]. set (a := spt + 8 * slot_of gfn (sp_level sp)) in *.
  pose proof (start_step gfn (sp_level sp) ltac:(lia)) as Hst. rewrite <- Hsg in Hst. pose proof (frames_pos (sp_level sp) ltac:(lia)) as Hfp.
  rewrite frames_succ in Hg1 by lia. assert (Ha0 : a <> 0) by (unfold a; lia).
  destruct (get_page_run m v is_pae sync y ly a (start_of gfn (sp_level sp - 1)) (u64 (Z.shiftl gfn PAGE_SHIFT)) (sp_level sp - 1) Hse) as
    (c & cp & z & lz & E & Hsz & Ec & Ecg & Ecl & _ & _ & Hgr); try done; try lia.
  { right. split; [done|]. split; [by exists w0|done]. }
  { rewrite Z.sub_simpl_r. nia. }
  { unfold start_of. rewrite Z.sub_simpl_r, Zminus_mod, Z.mod_mod, Z.sub_diag by lia. by apply Zmod_0_l. }
  unfold pend_of in Hsz. rewrite (proj2 (Z.eqb_neq a 0) Ha0) in Hsz. pose proof Hgr as [_ _ _ _ Hmem Hkeep Hpg _].
  destruct (Hpg _ _ Esp) as (sp' & Esp' & [G1 G2 _ _ _ _] & _).
  destruct (link_run m Hm z lz c sp' cp a w0 (se_tree _ _ _ _ Hsz) (Hkeep _ _ Ew0) Hw0 ltac:(by rewrite E1) Ec ltac:(lia) ltac:(lia)) as [El Htl].
  { rewrite Ecg, G1, G2, E2. lia. }
  pose proof (tr_pages _ _ _ _ (se_tree _ _ _ _ Hsz) _ _ Ec) as [Halc _ _ _ _]. destruct (link_facts m Hm c (sp_level sp) Halc ltac:(lia)) as (Lp & Lc & Ll).
  remember (link_spte m c true) as lv eqn:Elv. clear Elv. set (k' := set_mem a lv [] (core z)) in *.
  assert (Hn : near 0 (core z) k') by (by apply near_same).
  assert (Hp : progress 1 1 y (set_core k' z)) by (apply (progress_trans 1 1 0 0 y z); [by apply (grew_progress m)|by apply near_progress]).
  assert (Hs' : settled m (set_core k' z) lz None) by (apply (settled_core m z lz k' lz _ None Hsz Htl); [intros b q Eq; by exists q|done]).
  exists (set_core k' z), lz, lv. split; [by rewrite (st_bind_Ok _ _ _ _ _ E)|]. split; [by apply (ready_progress m 1 1 y _ ly)|]. split; [done|]. split.
  - split; cbn [core set_core k' set_mem].
    + intros b u (Eu & Hu & q & Eq & Hq). cbn in Eu, Eq. rewrite lookup_insert in Eu. left. case_decide as Eb.
      * injection Eu as <-. subst b. rewrite E1 in Eq. assert (q = sp') as -> by congruence. congruence.
      * pose proof (Hmem b u Eu Hu) as Eu0. split; [done|]. split; [done|]. destruct (present_cases _ _ _ _ _ _ Ht Eu0 Hu) as (q0 & Eq0 & _).
        exists q0. split; [done|]. destruct (Hpg _ _ Eq0) as (q' & Eq' & [_ F2 _ _ _ _] & _). assert (q' = q) as -> by congruence. by rewrite <- F2.
    + intros b u (Eu & Hu & q & Eq & Hq) _. destruct (Hpg _ _ Eq) as (q' & Eq' & [_ F2 _ _ _ _] & _).
      split; [|split; [done|]; exists q'; by rewrite F2]. cbn. rewrite lookup_insert_ne; [by apply Hkeep|]. intros <-. congruence.
  - split; [apply lookup_insert_eq|]. split; [done|]. exists sp'. split; [cbn; by rewrite E1|]. by rewrite G2.
Qed.

(** One level down. *)
Lemma descend_run x ls spt sp gfn i0 sp0 : ready m x ls -> pages (core x) !! spt = Some sp -> 2 <= sp_level sp -> 0 <= gfn < 2 ^ 36 -> sp_gfn sp = start_of gfn (sp_level sp) ->
  mmu_page_cache x <> [] -> mmu_page_header_cache x <> O -> objects (lists (core x)) <> [] ->
  let a := spt + 8 * slot_of gfn (sp_level sp) in
  let addr := u64 (Z.shiftl gfn PAGE_SHIFT) in
  exists z lz w c, below x z lz a w sp c /\
    forall A (K : kvm_shadow_walk_iterator -> VM A),
      (on_core (drop_large_spte m a) ;;
       pte ← entry a;
       (if negb (is_shadow_present_pte m pte) then
          let base_addr := Z.land addr (PT64_LVL_ADDR_MASK (sp_level sp)) in
          let pseudo_gfn := Z.shiftr base_addr PAGE_SHIFT in
          spt ← kvm_mmu_get_page m v is_pae sync pseudo_gfn addr (sp_level sp - 1) true ACC_ALL a;
          link_shadow_page m a spt true
        else mret tt) ;;
       it ← shadow_walk_next (Walk addr i0 a (sp_level sp) sp0);
       K it) x = K (Walk addr (child_of w) a (sp_level sp - 1) sp0) z.
Proof using Hm Hiv.
  intros Hr Esp Hl Hg Hsg Hc1 Hc2 Ho a addr. pose proof (rd_settled _ _ _ Hr) as Hse. pose proof (se_tree _ _ _ _ Hse) as Ht.
  destruct (entry_is _ _ _ _ _ _ _ Ht Esp (slot_range gfn (sp_level sp))) as (E1 & _ & [v0 Ev]). fold a in E1, Ev.
  destruct (drop_large_run x ls a v0 sp Ht Ev ltac:(by rewrite E1) ltac:(lia)) as (k1 & l1 & w & Ed & Ht1 & Hn1 & Em1 & Hw & Hkeep).
  set (y := set_core k1 x). assert (Hpy : progress 0 0 x y) by (by apply near_progress).
  assert (Hry : ready m y l1) by (apply (ready_progress m 0 0 x y ls); [done|done|by apply (settled_near m 0 x ls)]).
  pose proof (wrote_at 0 x k1 a w Hn1 Em1 Hw Hkeep) as Hwy. fold y in Hwy. assert (Ew : spt_mem (core y) !! a = Some w) by (cbn; rewrite Em1; apply lookup_insert_eq).
  assert (Esp1 : pages (core y) !! spt = Some sp) by (cbn; by rewrite (nr_pages _ _ _ Hn1)).
  assert (Hz : exists z lz w', (if negb (is_shadow_present_pte m w) then
      spt ← kvm_mmu_get_page m v is_pae sync (start_of gfn (sp_level sp - 1)) addr (sp_level sp - 1) true ACC_ALL a; link_shadow_page m a spt true else mret tt) y = Ok (tt, z) /\
      ready m z lz /\ progress 1 1 x z /\ wrote m nothing (fun _ => True) x z /\ nonleaf m (core z) a w').
  { destruct Hw as [Hw|Hw].
    - rewrite Hw. cbn [negb]. pose proof (nr_objects _ _ _ Hn1) as Hob.
      destruct (make_below y l1 spt sp gfn Hry Esp1 Hl Hg Hsg ltac:(by exists w) Hc1 Hc2) as (z & lz & w' & E & Hrz & Hpz & Hwz & Hnz).
      { intros Eo. cbn in Eo. rewrite Eo in Hob. apply Ho, length_zero_iff_nil. cbn in Hob. lia. }
      exists z, lz, w'. split; [done|]. split; [done|]. split; [by apply (progress_trans 0 0 1 1 x y)|]. split; [by apply (wrote_trans m _ _ x y)|done].
    - exists y, l1, w. pose proof Hw as (_ & Hp & _). rewrite Hp. split; [done|]. split; [done|]. split; [apply (progress_le 0 0); [done|lia..]|]. split; [done|].
      by apply (wr_nonleaf _ _ _ _ _ Hwy). }
  destruct Hz as (z & lz & w' & Ez & Hrz & Hpz & Hwz & Hnz). destruct (below_link x z lz a w' sp Hrz Hpz Hwz Hnz ltac:(by rewrite E1)) as (c & Hbw).
  exists z, lz, w', c. split; [done|]. intros A K. rewrite (st_bind_Ok _ _ _ _ _ Ed). fold y. rewrite (st_bind_Ok _ _ _ _ _ (entry_Ok _ _ _ Ew)).
  cbv zeta. pose proof (pseudo_gfn gfn (sp_level sp) Hg Hl) as Hps. fold addr in Hps. rewrite Hps. rewrite (st_bind_Ok _ _ _ _ _ Ez).
  destruct Hnz as (Ew' & Hp' & q & Eq & Hq). unfold shadow_walk_next. cbn [sptep]. rewrite st_bind_assoc, (st_bind_Ok _ _ _ _ _ (entry_Ok _ _ _ Ew')).
  destruct (pr_pages _ _ _ _ Hpz _ _ Esp) as (sp' & Esp' & [_ G2 _ _ _ _] & _). rewrite E1 in Eq. assert (q = sp') as -> by congruence. rewrite G2 in Hq.
  unfold __shadow_walk_next. cbn [w_level index addr sptep]. by rewrite Hq.
Qed.

(** ** [__direct_map] *)

Section fault.
  Context (gfn level pfn : Z) (write map_writable prefault : bool).
  Context (Hg : 0 <= gfn < 2 ^ 36) (Hlev : 1 <= level <= 3) (Hal : gfn mod frames level = 0).

(** There is nothing behind the frame, or the host has the frames for it. *)
Definition target_ok (k : kvm_memslots) : Prop := pfn = KVM_PFN_NOSLOT \/ 0 <= pfn < 2 ^ 40 /\ backed host k gfn level pfn.

Lemma target_like k k' : slots_like k k' -> target_ok k -> target_ok k'.
Proof. intros Hs [?|[? Hb]]; [by left|]. right. split; [done|]. by apply (backed_like _ k). Qed.

Abbreviation entry_new := (new_spte m e ACC_ALL level gfn pfn prefault map_writable).

(** The frame is mapped, if the lists are short and a large page may be
    written. *)
Definition allowed (x : mmu) : Prop :=
  pfn <> KVM_PFN_NOSLOT /\ (exists u, uncrowded m u (core x) /\ (u <= 992)%nat) /\
  exists sl, search_memslots (slots (core x)) gfn = Some sl /\ blocked x ACC_ALL level gfn map_writable sl = false.

Lemma allowed_less np no x x' ls C : tree m (core x) ls None -> progress np no x x' -> wrote m nothing C x x' -> allowed x -> allowed x'.
Proof.
  intros Ht Hp Hw (H1 & (u & Hu & Hle) & sl & Es & Hb). split; [done|]. split; [exists u; split; [by apply (uncrowded_less np no x x' ls C)|done]|].
  pose proof (sk_search _ _ (pr_slots _ _ _ _ Hp) gfn) as Hs. rewrite Es in Hs. destruct (search_memslots (slots (core x')) gfn) as [sl'|]; [|done].
  exists sl'. split; [done|]. unfold blocked in *. by rewrite (pr_counts _ _ _ _ Hp), (same_slot_lpage _ _ _ _ Hs).
Qed.

Lemma reach_run x ls spt sp : ready m x ls -> pages (core x) !! spt = Some sp -> sp_level sp = level -> sp_gfn sp = start_of gfn level ->
  (9 <= length (objects (lists (core x))))%nat -> target_ok (slots (core x)) ->
  let a := spt + 8 * slot_of gfn level in
  exists r x' ls', (emulate ← mmu_set_spte m e a ACC_ALL write level gfn pfn prefault map_writable; direct_pte_prefetch m e a ;; mret emulate) x = Ok (r, x') /\
    ready m x' ls' /\ progress 0 9 x x' /\ wrote m (fresh host x') (fun b => b <> a) x x' /\ (allowed x -> spt_mem (core x') !! a = Some entry_new).
Proof using Hm He Hf Hg Hlev Hal.
  intros Hr Esp Hl Hsg Ho Htg a. pose proof (rd_settled _ _ _ Hr) as Hse. pose proof (se_tree _ _ _ _ Hse) as Ht. pose proof (tr_pages _ _ _ _ Ht _ _ Esp) as Hpo.
  destruct (entry_is _ _ _ _ _ _ _ Ht Esp (slot_range gfn level)) as (E1 & E2 & [v0 Ev]). fold a in E1, E2, Ev.
  assert (Hga : start_of gfn (level - 1) = gfn) by (unfold start_of; rewrite Z.sub_simpl_r, Hal; lia).
  assert (Eg : kvm_mmu_page_get_gfn sp (spt_index a) = Ok gfn).
  { rewrite E2, (entry_gfn spt sp _ Hpo ltac:(lia) (slot_range _ _)), Hl, Hsg. by rewrite start_step, Hga by lia. }
  assert (Ho0 : objects (lists (core x)) <> []) by (apply not_nil; lia).
  assert (Hpf : pfn = KVM_PFN_NOSLOT \/ 0 <= pfn < 2 ^ 40 /\ is_Some (search_memslots (slots (core x)) gfn)).
  { destruct Htg as [?|[? Hb]]; [by left|right]. split; [done|]. destruct (bk_host _ _ _ _ _ Hb 0 ltac:(pose proof (frames_pos level); lia)) as (s & Es & _). rewrite Z.add_0_r in Es. by eexists. }
  assert (Esp1 : pages (core x) !! spt_of a = Some sp) by (by rewrite E1).
  destruct (set_step m e Hm He x ls a v0 sp ACC_ALL gfn pfn write prefault map_writable Hse (rd_arrays _ _ _ Hr) Ev Esp1 ltac:(lia) Eg Ho0 Hpf)
    as (r & y & ly & E & Hsy & Hpy & Hwy & Hcy). rewrite Hl in E, Hcy. pose proof (ready_progress m _ _ _ _ _ _ Hr Hpy Hsy) as Hry.
  destruct (pr_pages _ _ _ _ Hpy _ _ Esp1) as (sp' & Esp' & [_ G2 _ _ _ _] & _). pose proof (pr_caches _ _ _ _ Hpy) as (_ & _ & Hob).
  assert (Ha8 : a mod 8 = 0) by (by apply (tr_mem _ _ _ _ Ht a); eexists).
  destruct (prefetch_run m e host Hm He Hf y ly a sp' Hry Esp' ltac:(lia) Ha8) as (x' & ls' & E' & Hr' & Hp' & Hw' & Hc').
  exists r, x', ls'. split; [by rewrite (st_bind_Ok _ _ _ _ _ E), (st_bind_Ok _ _ _ _ _ E')|]. split; [done|]. split; [by apply (progress_trans 0 1 0 8 x y)|]. split.
  - apply (wrote_trans m _ _ x y); [|by apply (wrote_mono m _ _ _ _ _ _ Hw')]. destruct Htg as [Hno|[Hp Hb]].
    + split; [|apply Hwy]. intros b w [Hb|[-> Hw]]%(wr_leaf _ _ _ _ _ Hwy); [by left|]. by destruct (entry_has_slot w); rewrite Hw.
    + apply (wrote_mono m _ _ _ _ _ _ Hwy); [|done]. intros b w [-> Hw]. apply (fresh_mono host _ _ _ _ _ _ (progress_trans _ _ _ _ _ _ _ Hpy Hp')).
      exists gfn, level. split; [|by rewrite Hw]. unfold spte_gfn. rewrite Esp1. cbn. by rewrite Eg, Hl.
  - intros (Hns & (u & Hu & Hle) & sl & Es & Hbl). destruct (Hcy u Hu ltac:(lia)) as [Hu1 (w & Em & Hw)]. destruct (Hc' _ Hu1 ltac:(lia)) as [_ Hk].
    rewrite Hk by (intros Hne; by apply Hne). rewrite Em, lookup_insert_eq. by rewrite (Hw sl).
Qed.

(** Pointers above the level of the fault. *)
Definition above (x : mmu) (b : Z) : Prop := exists q, pages (core x) !! spt_of b = Some q /\ level < sp_level q.

Lemma above_progress np no x x' b : progress np no x x' -> above x b -> above x' b.
Proof. intros Hp (q & Eq & Hq). destruct (pr_pages _ _ _ _ Hp _ _ Eq) as (q' & Eq' & [_ G _ _ _ _] & _). exists q'. by rewrite G. Qed.

Abbreviation addr_of := (u64 (Z.shiftl gfn PAGE_SHIFT)).
Abbreviation loop := (direct_map_loop m e v is_pae sync).

(** What becomes of the reference of the frame. *)
Definition dropped_ref (x x' : mmu) : Prop :=
  (forall a, keeps vm_moves (sync a)) -> pages_counted e -> forall p, bal p x' = bal p x - part e p pfn.

Lemma loop_run n : forall fuel x ls spt sp a0 i0, ready m x ls -> pages (core x) !! spt = Some sp -> sp_level sp = level + Z.of_nat n -> sp_gfn sp = start_of gfn (sp_level sp) ->
  (n < fuel)%nat -> (n <= length (mmu_page_cache x))%nat -> (n <= mmu_page_header_cache x)%nat -> (n + 9 <= length (objects (lists (core x))))%nat ->
  target_ok (slots (core x)) ->
  exists r x' ls', loop fuel (Walk addr_of spt a0 (sp_level sp) i0) write map_writable level gfn pfn prefault x = Ok (r, x') /\
    ready m x' ls' /\ progress n (n + 9) x x' /\ wrote m (fresh host x') (above x) x x' /\ dropped_ref x x' /\
    (allowed x -> forall j, 0 <= j < frames level -> translate m fuel (core x') spt (sp_level sp) (gfn + j) = Some (frame_of entry_new level (gfn + j))).
Proof using Hm He Hf Hg Hlev Hal Hiv.
  induction n as [|n IH]; intros [|fuel] x ls spt sp a0 i0 Hr Esp Hl Hsg Hfu Hc1 Hc2 Ho Htg; try lia; cbn [direct_map_loop];
    unfold shadow_walk_okay, PT_PAGE_TABLE_LEVEL; cbn [w_level addr shadow_addr];
    (replace (sp_level sp <? 1) with false by (symmetry; apply Z.ltb_ge; lia)); cbn [negb w_level sptep];
    rewrite shadow_index by lia.
  - replace (sp_level sp =? level) with true by (symmetry; apply Z.eqb_eq; lia). assert (Hl' : sp_level sp = level) by lia. rewrite Hl' in *.
    destruct (reach_run x ls spt sp Hr Esp Hl' Hsg Ho Htg) as (r & x' & ls' & E & Hr' & Hp & Hw & Hdone). exists r, x', ls'. split; [done|]. split; [done|]. split; [done|].
    pose proof (se_tree _ _ _ _ (rd_settled _ _ _ Hr)) as Ht. destruct (entry_is _ _ _ _ _ _ _ Ht Esp (slot_range gfn level)) as (E1 & _ & _). split.
    + apply (wrote_mono m _ _ _ _ _ _ Hw); [done|]. intros b (q & Eq & Hq) ->. rewrite E1 in Eq. assert (q = sp) as -> by congruence. lia.
    + split; [intros _ Hpc p; by apply (reach_drops _ _ _ _ _ _ _ _ _ _ Hpc p _ _ _ E)|]. intros Hall j Hj. destruct Htg as [?|[Hp40 _]]; [by destruct Hall|]. destruct (new_spte_facts m e Hm He ACC_ALL level gfn pfn prefault map_writable ltac:(lia) Hp40) as (F1 & F2 & _).
      cbn [translate]. rewrite (block_slot gfn j level level ltac:(lia) Hal Hj), (Hdone Hall). cbn. by rewrite F1, F2.
  - replace (sp_level sp =? level) with false by (symmetry; apply Z.eqb_neq; lia).
    destruct (descend_run x ls spt sp gfn spt (slot_of gfn (sp_level sp)) Hr Esp ltac:(lia) Hg Hsg ltac:(apply not_nil; lia) ltac:(lia) ltac:(apply not_nil; lia)) as (z & lz & w & c & Hb & EK).
    cbv zeta in EK. rewrite EK. destruct Hb as [Hrz Hpz Hwz Hnz Ec Hcl Hcg]. pose proof (pr_caches _ _ _ _ Hpz) as (A1 & A2 & A3).
    pose proof (se_tree _ _ _ _ (rd_settled _ _ _ Hr)) as Ht. destruct (entry_is _ _ _ _ _ _ _ Ht Esp (slot_range gfn (sp_level sp))) as (E1 & E2 & _).
    rewrite E2, Hsg, start_step, <- Hcl in Hcg by lia. rewrite <- Hcl.
    destruct (IH fuel z lz (child_of w) c (spt + 8 * slot_of gfn (sp_level sp)) (slot_of gfn (sp_level sp)) Hrz Ec ltac:(lia) Hcg ltac:(lia) ltac:(lia) ltac:(lia) ltac:(lia)
      (target_like _ _ (pr_slots _ _ _ _ Hpz) Htg)) as (r & x' & ls' & E & Hr' & Hp' & Hw' & Hrf & Hdone).
    exists r, x', ls'. split; [done|]. split; [done|]. split; [apply (progress_le _ _ _ _ _ _ (progress_trans _ _ _ _ _ _ _ Hpz Hp')); lia|]. split.
    + apply (wrote_trans m _ _ x z); [by apply (wrote_mono m _ _ _ _ _ _ Hwz)|]. apply (wrote_mono m _ _ _ _ _ _ Hw'); [done|].
      intros b. by apply (above_progress _ _ _ _ _ Hpz).
    + split.
      { intros Hsy Hpc p. rewrite (Hrf Hsy Hpc p). specialize (EK _ mret). apply (descend_keeps m v is_pae sync Hsy) in EK. unfold bal. by rewrite EK. }
      intros Hall j Hj. apply (allowed_less _ _ _ _ _ _ Ht Hpz Hwz) in Hall. destruct (pr_pages _ _ _ _ Hpz _ _ Esp) as (sp' & Esp' & [_ G2 _ _ _ _] & _).
      destruct (wr_nonleaf _ _ _ _ _ Hw' _ _ Hnz) as (Ew & Hpw & q & Eq & Hq); [exists sp'; rewrite E1; split; [done|lia]|].
      assert (Hq' : is_last_spte w (sp_level sp) = false).
      { destruct Hnz as (_ & _ & q' & Eq' & Hq'). rewrite E1 in Eq'. assert (q' = sp') as -> by congruence. by rewrite <- G2. }
      cbn [translate]. rewrite (block_slot gfn j level (sp_level sp) ltac:(lia) Hal Hj), Ew. cbn. rewrite Hpw, Hq'. rewrite <- Hcl. by apply Hdone.
Qed.

End fault.

(** Every leaf maps frames the host has at the addresses of the slots. *)
Definition all_backed (k : kvm) : Prop :=
  forall b w g level, leaf m k b w -> spte_gfn k b = Some (g, level) -> backed host (slots k) g level (spte_to_pfn w).

(** What the hardware reads for a frame is what the host has there. *)
Definition covered (k : kvm) (g p : Z) : Prop :=
  exists s, search_memslots (slots k) g = Some s /\ host (__gfn_to_hva_memslot s g) p.

Lemma wrote_backed np no C x x' ls : tree m (core x) ls None -> progress np no x x' -> wrote m (fresh host x') C x x' -> all_backed (core x) -> all_backed (core x').
Proof.
  intros Ht Hp Hw Hb b w g lv Hl Eg. destruct (wr_leaf _ _ _ _ _ Hw b w Hl) as [Hx|(g' & lv' & Eg' & Hbk)]; [|congruence].
  destruct (leaf_gfn _ _ _ _ Ht Hx) as [[g' lv'] Eg']. pose proof (progress_gfn _ _ _ _ _ _ Hp Eg') as E2. assert ((g', lv') = (g, lv)) as [= -> ->] by congruence.
  apply (backed_like host (slots (core x))); [apply Hp|]. by apply (Hb b w).
Qed.

Lemma backed_frame k g lv w : 1 <= lv -> backed host (slots k) (start_of g (lv - 1)) lv (spte_to_pfn w) -> covered k g (frame_of w lv g).
Proof.
  intros Hl [Ha Hb]. pose proof (frames_pos lv Hl) as Hf0. pose proof (Z.mod_pos_bound g (frames lv) Hf0) as Hr. destruct (Hb (g mod frames lv) Hr) as (s & Es & Hh).
  unfold start_of in Es, Hh. rewrite Z.sub_simpl_r in Es, Hh. replace (g - g mod frames lv + g mod frames lv) with g in Es, Hh by lia.
  exists s. split; [done|]. unfold frame_of. rewrite Ha, Z.sub_0_r. done.
Qed.

Lemma translate_covered fuel k ls spt sp g p : tree m k ls None -> all_backed k -> pages k !! spt = Some sp -> sp_gfn sp = start_of g (sp_level sp) ->
  translate m fuel k spt (sp_level sp) g = Some p -> covered k g p.
Proof.
  intros Ht Hb. revert spt sp. induction fuel as [|fuel IH]; intros spt sp Esp Hg E; [done|]. cbn [translate] in E.
  destruct (entry_is _ _ _ _ _ _ _ Ht Esp (slot_range g (sp_level sp))) as (E1 & E2 & [w Ew]). rewrite Ew in E. cbn in E.
  pose proof (tr_pages _ _ _ _ Ht _ _ Esp) as Hpo. pose proof (pg_level _ _ Hpo) as Hl. pose proof (start_step g (sp_level sp) ltac:(lia)) as Hst.
  destruct (is_shadow_present_pte m w) eqn:Hp; [|done]. cbn in E. destruct (is_last_spte w (sp_level sp)) eqn:Hla.
  - injection E as <-. set (a := spt + 8 * slot_of g (sp_level sp)) in *.
    assert (Hlf : leaf m k a w) by (split; [done|]; split; [done|]; exists sp; by rewrite E1). assert (H3 : sp_level sp <= 3) by (apply (tr_level _ _ _ _ Ht a w); [done|by rewrite E1]).
    apply backed_frame; [lia|]. apply (Hb a w _ _ Hlf). unfold spte_gfn. rewrite E1, Esp. cbn. rewrite E2, (entry_gfn spt sp _ Hpo H3 (slot_range _ _)), Hg. cbn. by rewrite Hst.
  - set (a := spt + 8 * slot_of g (sp_level sp)) in *. assert (Hnl : nonleaf m k a w) by (split; [done|]; split; [done|]; exists sp; by rewrite E1).
    destruct (tr_child _ _ _ _ Ht _ _ _ Hnl ltac:(by rewrite E1)) as (c & Ec & Hcl & Hcg). rewrite <- Hcl in E. apply (IH _ c Ec); [|done].
    rewrite Hcg, E2, Hg, Hst. by rewrite Hcl.
Qed.

(** The root of the direct map. *)
Record rooted (x : mmu) : Prop := {
  ro_hpa : VALID_PAGE (root_hpa v) = true;
  ro_mode : shadow_root_level v = 4 /\ direct_map v = true;
  ro_page : exists sp, pages (core x) !! root_hpa v = Some sp /\ sp_gfn sp = 0 /\ sp_level sp = 4;
  ro_count : is_root x (root_hpa v) = true
}.

Lemma start_root g : 0 <= g < 2 ^ 36 -> start_of g 4 = 0.
Proof. intros Hg. unfold start_of. change (frames (4 + 1)) with (2 ^ 36). rewrite Z.mod_small by lia. lia. Qed.

Lemma rooted_progress np no x x' : progress np no x x' -> rooted x -> rooted x'.
Proof.
  intros Hp [H1 H2 (sp & Esp & Hg & Hl) Hc]. split; [done|done| |by rewrite (pr_root _ _ _ _ Hp)]. destruct (pr_pages _ _ _ _ Hp _ _ Esp) as (sp' & Esp' & [G1 G2 _ _ _ _] & _). exists sp'. split; [done|]. split; congruence.
Qed.

Lemma direct_map_run x ls gfn level pfn write map_writable prefault : ready m x ls -> rooted x -> 0 <= gfn < 2 ^ 36 -> 1 <= level <= 3 -> gfn mod frames level = 0 ->
  (3 <= length (mmu_page_cache x))%nat -> (3 <= mmu_page_header_cache x)%nat -> (12 <= length (objects (lists (core x))))%nat ->
  target_ok gfn level pfn (slots (core x)) ->
  exists r x' ls', __direct_map m e v is_pae sync write map_writable level gfn pfn prefault x = Ok (r, x') /\ ready m x' ls' /\ progress 3 12 x x' /\
    wrote m (fresh host x') (above level x) x x' /\ dropped_ref pfn x x' /\
    (allowed gfn level pfn map_writable x -> forall j, 0 <= j < frames level -> translate m 5 (core x') (root_hpa v) 4 (gfn + j) = Some (pfn + j)).
Proof using Hm He Hf Hiv.
  intros Hr [Hro [Hrl Hdm] (sp & Esp & Hsg & Hsl) _] Hg Hl Hal Hc1 Hc2 Ho Htg. unfold __direct_map. rewrite Hro. cbn [negb].
  assert (Ei : shadow_walk_init v (u64 (Z.shiftl gfn PAGE_SHIFT)) = Ok (Walk (u64 (Z.shiftl gfn PAGE_SHIFT)) (root_hpa v) 0 (sp_level sp) 0)).
  { unfold shadow_walk_init. rewrite Hrl, Hdm, Hsl. cbn [negb]. by rewrite !andb_false_r. }
  rewrite (st_bind_Ok _ _ _ _ _ (lift_res_Ok _ x _ Ei)).
  destruct (loop_run gfn level pfn write map_writable prefault Hg Hl Hal (Z.to_nat (4 - level)) 5 x ls (root_hpa v) sp 0 0 Hr Esp ltac:(lia)) as (r & x' & ls' & E & Hr' & Hp & Hw & Hrf & Hd);
    [by rewrite Hsl, start_root|lia|lia|lia|lia|done|].
  exists r, x', ls'. split; [done|]. split; [done|]. split; [apply (progress_le _ _ _ _ _ _ Hp); lia|]. split; [done|]. split; [done|]. intros Hall j Hj.
  rewrite <- Hsl, (Hd Hall j Hj). f_equal. destruct Hall as (Hns & _). destruct Htg as [?|[Hp40 [Hpa _]]]; [done|].
  destruct (new_spte_facts m e Hm He ACC_ALL level gfn pfn prefault map_writable ltac:(lia) Hp40) as (_ & _ & _ & F4 & _). unfold frame_of. rewrite F4, Hpa.
  rewrite Z.sub_0_r. f_equal. rewrite <- Z.add_mod_idemp_l, Hal, Z.add_0_l by (pose proof (frames_pos level); lia). by apply Z.mod_small.
Qed.

End descend.

End walk.
