(* ===== verification/LargePages.v ===== *)
(** * Large pages of a memory slot (kvm-kmod x86/x86.c)

    A slot has a reverse map for each of the three sizes of pages, and for the
    two large ones a count that forbids a large page where it is not zero.
    [kvm_arch_create_memslot] allocates them and forbids the pages that stick
    out of the slot, and all of them when the guest and the host addresses are
    not aligned alike. *)

From S2P Require Import Prelude MemSlots Spte PteList Rmap ShadowPages ShadowSpec DirectMap.

(** [None] for a NULL pointer *)
Record kvm_arch_memory_slot := Arch { rmap : list (option (list Z)); lpage_info : list (option (list Z)) }.

Definition no_arrays : kvm_arch_memory_slot := Arch [None; None; None] [None; None].

Definition lpages_of (slot : kvm_memory_slot) (npages level : Z) : Z :=
  s32 (gfn_to_index (u64 (base_gfn slot + npages - 1)) (base_gfn slot) level + 1).

(** The counts of one size. *)
Definition large_info (largepages : bool) (slot : kvm_memory_slot) (npages level : Z) : list Z :=
  let lpages := lpages_of slot npages level in
  let info := replicate (Z.to_nat lpages) 0 in
  let info := if any (base_gfn slot) (KVM_PAGES_PER_HPAGE level - 1) then <[0%nat := 1]> info else info in
  let info := if any (u64 (base_gfn slot + npages)) (KVM_PAGES_PER_HPAGE level - 1) then <[Z.to_nat (lpages - 1) := 1]> info else info in
  let ugfn := Z.shiftr (userspace_addr slot) PAGE_SHIFT in
  if any (Z.lxor (base_gfn slot) ugfn) (KVM_PAGES_PER_HPAGE level - 1) || negb largepages then (fun _ => 1) <$> info else info.

(** [alloc] tells for each allocation whether it succeeds. *)
Fixpoint create_loop (ls : list nat) (alloc : list bool) (largepages : bool) (slot : kvm_memory_slot) (npages : Z) (a : kvm_arch_memory_slot) : kvm_arch_memory_slot * Z :=
  match ls with
  | [] => (a, 0)
  | i :: ls =>
      let level := Z.of_nat i + 1 in
      let lpages := lpages_of slot npages level in
      match alloc with
      | true :: alloc =>
          let a := Arch (<[i := Some (replicate (Z.to_nat lpages) 0)]> (rmap a)) (lpage_info a) in
          if (i =? 0)%nat then create_loop ls alloc largepages slot npages a
          else
            match alloc with
            | true :: alloc =>
                create_loop ls alloc largepages slot npages
                  (Arch (rmap a) (<[(i - 1)%nat := Some (large_info largepages slot npages level)]> (lpage_info a)))
            | _ => (no_arrays, - ENOMEM)
            end
      | _ => (no_arrays, - ENOMEM)
      end
  end.

Definition kvm_arch_create_memslot (alloc : list bool) (largepages : bool) (slot : kvm_memory_slot) (npages : Z) (a : kvm_arch_memory_slot) : kvm_arch_memory_slot * Z :=
  create_loop [0%nat; 1%nat; 2%nat] alloc largepages slot npages a.

(** ** Where large pages are allowed *)

(** A large page of the slot that starts at frame [g]. *)
Definition fits (largepages : bool) (slot : kvm_memory_slot) (npages level g : Z) : Prop :=
  largepages = true /\ base_gfn slot <= g /\ g + frames level <= base_gfn slot + npages /\
  (base_gfn slot - userspace_addr slot / PAGE_SIZE) mod frames level = 0.

Lemma pages_per level : 1 <= level -> KVM_PAGES_PER_HPAGE level = frames level.
Proof.
  intros Hl. unfold KVM_PAGES_PER_HPAGE, KVM_HPAGE_SIZE, KVM_HPAGE_GFN_SHIFT, frames. rewrite Z.shiftl_1_l. change PAGE_SIZE with (2 ^ 12). change PAGE_SHIFT with 12.
  rewrite Z.pow_add_r, Z.mul_comm, Z.div_mul by lia. f_equal. lia.
Qed.

Lemma land_frames level a : 1 <= level -> Z.land a (KVM_PAGES_PER_HPAGE level - 1) = a mod frames level.
Proof.
  intros Hl. rewrite pages_per by done. unfold frames. replace (2 ^ (9 * (level - 1)) - 1) with (Z.ones (9 * (level - 1))) by (rewrite Z.ones_equiv; lia).
  by rewrite Z.land_ones by lia.
Qed.

Lemma any_mod a level : 1 <= level -> any a (KVM_PAGES_PER_HPAGE level - 1) = negb (a mod frames level =? 0).
Proof. intros Hl. unfold any. by rewrite land_frames. Qed.

(** Low bits agree. *)
Lemma lxor_mod a b n : 0 <= n -> (Z.lxor a b) mod 2 ^ n = 0 <-> (a - b) mod 2 ^ n = 0.
Proof.
  intros Hn. assert (E : (Z.lxor a b) mod 2 ^ n = 0 <-> a mod 2 ^ n = b mod 2 ^ n).
  { rewrite <- !Z.land_ones by done. split.
    - intros H. apply Z.bits_inj'. intros i Hi. apply (f_equal (fun z => Z.testbit z i)) in H. rewrite !Z.land_spec, Z.lxor_spec, Z.bits_0 in *.
      destruct (Z.testbit (Z.ones n) i); [|by rewrite !andb_false_r]. rewrite !andb_true_r in *. by apply xorb_eq.
    - intros H. apply Z.bits_inj'. intros i Hi. apply (f_equal (fun z => Z.testbit z i)) in H. rewrite !Z.land_spec, Z.lxor_spec, Z.bits_0 in *.
      destruct (Z.testbit (Z.ones n) i); [|by rewrite !andb_false_r]. rewrite !andb_true_r in *. rewrite H. apply xorb_nilpotent. }
  rewrite E. split; intros H.
  - rewrite Zminus_mod, H, Z.sub_diag. by apply Zmod_0_l.
  - apply Z.mod_divide in H as [q Hq]; [|lia]. replace a with (b + q * 2 ^ n) by lia. by rewrite Z.mod_add by lia.
Qed.

(** The first and the last count set, or all. *)
Lemma edges (n : Z) (p q r : bool) (i : Z) : 0 <= i <= n ->
  let info := replicate (Z.to_nat (n + 1)) 0 in
  let info := if p then <[0%nat := 1]> info else info in
  let info := if q then <[Z.to_nat (n + 1 - 1) := 1]> info else info in
  exists c, (if r then (fun _ => 1) <$> info else info) !! Z.to_nat i = Some c /\ (c = 0 <-> ~ (i = 0 /\ p = true) /\ ~ (i = n /\ q = true) /\ r = false).
Proof.
  intros Hi info0 info1 info2. assert (L0 : info0 !! Z.to_nat i = Some 0) by (apply lookup_replicate_2; lia).
  assert (N0 : length info0 = Z.to_nat (n + 1)) by apply length_replicate. clearbody info0. assert (N1 : length info1 = length info0) by (unfold info1; destruct p; [apply length_insert|done]).
  assert (L1 : info1 !! Z.to_nat i = Some (if bool_decide (i = 0 /\ p = true) then 1 else 0)).
  { unfold info1. destruct p; [|by rewrite bool_decide_false by naive_solver]. rewrite list_lookup_insert. case_bool_decide as H.
    - rewrite decide_True by lia. done.
    - rewrite decide_False by (intros [H0 _]; apply H; lia). done. }
  clearbody info1. assert (L2 : info2 !! Z.to_nat i = Some (if bool_decide (i = n /\ q = true) then 1 else if bool_decide (i = 0 /\ p = true) then 1 else 0)).
  { unfold info2. destruct q; [|by rewrite (bool_decide_false (i = n /\ _)) by naive_solver]. rewrite list_lookup_insert. destruct (decide (i = n)) as [->|H].
    - rewrite decide_True by lia. by rewrite bool_decide_true.
    - rewrite decide_False by lia. by rewrite (bool_decide_false (i = n /\ _)) by tauto. }
  destruct r; rewrite ?list_lookup_fmap, L2; [eexists; split; [done|]; split; [done|]; by intros (_ & _ & ?)|].
  eexists. split; [done|]. repeat case_bool_decide; naive_solver.
Qed.

Section slot.
  Context (largepages : bool) (slot : kvm_memory_slot) (level : Z).
  Context (Hb : 0 <= base_gfn slot) (Hn : 1 <= npages slot <= KVM_MEM_MAX_NR_PAGES) (He : base_gfn slot + npages slot <= 2 ^ 52) (Hl : 2 <= level <= 3).

Abbreviation F := (frames level).
Abbreviation last := ((base_gfn slot + npages slot - 1) / F - base_gfn slot / F).

Lemma index_div g lv : 1 <= lv -> base_gfn slot <= g < 2 ^ 52 -> gfn_to_index g (base_gfn slot) lv = g / frames lv - base_gfn slot / frames lv.
Proof using Hb.
  intros Hlv Hg. unfold gfn_to_index, KVM_HPAGE_GFN_SHIFT, frames. rewrite !Z.shiftr_div_pow2 by lia. replace ((lv - 1) * 9) with (9 * (lv - 1)) by lia.
  assert (Hp : 0 < 2 ^ (9 * (lv - 1))) by lia. pose proof (Z.div_le_mono (base_gfn slot) g _ Hp ltac:(lia)).
  pose proof (Z.div_pos (base_gfn slot) _ Hb Hp). assert (g / 2 ^ (9 * (lv - 1)) <= g) by (apply Z.div_le_upper_bound; nia). apply u64_small. lia.
Qed.

Lemma lpages_eq lv : 1 <= lv -> lpages_of slot (npages slot) lv = (base_gfn slot + npages slot - 1) / frames lv - base_gfn slot / frames lv + 1.
Proof using Hb Hn He.
  intros Hlv. unfold lpages_of. rewrite u64_small by (unfold KVM_MEM_MAX_NR_PAGES in *; lia). rewrite index_div by (unfold KVM_MEM_MAX_NR_PAGES in *; lia).
  assert (Hp : 0 < frames lv) by (unfold frames; lia). pose proof (Z.div_le_mono (base_gfn slot) (base_gfn slot + npages slot - 1) _ Hp ltac:(lia)).
  assert (Hub : (base_gfn slot + npages slot - 1) / frames lv <= base_gfn slot / frames lv + (npages slot - 1)).
  { replace (base_gfn slot + npages slot - 1) with (npages slot - 1 + base_gfn slot) by lia. apply Z.lt_succ_r. apply Z.div_lt_upper_bound; [done|].
    pose proof (Z.div_mod (base_gfn slot) (frames lv) ltac:(lia)). pose proof (Z.mod_pos_bound (base_gfn slot) (frames lv) Hp). nia. }
  unfold s32. rewrite Z.mod_small by (unfold KVM_MEM_MAX_NR_PAGES in *; lia). lia.
Qed.

(** The block of a frame of the slot, by its place. *)
Lemma block_place g : base_gfn slot <= g < base_gfn slot + npages slot ->
  let i := g / F - base_gfn slot / F in
  0 <= i <= last /\
  (base_gfn slot <= g - g mod F <-> ~ (i = 0 /\ base_gfn slot mod F <> 0)) /\
  (g - g mod F + F <= base_gfn slot + npages slot <-> ~ (i = last /\ (base_gfn slot + npages slot) mod F <> 0)).
Proof using Hl.
  intros Hg. cbv zeta. assert (HF : F = 512 \/ F = 262144) by (assert (level = 2 \/ level = 3) as [->| ->] by lia; by vm_compute; auto).
  assert (Hp : 0 < F) by lia. set (b := base_gfn slot) in *. set (e := b + npages slot) in *.
  pose proof (Z.div_mod g F ltac:(lia)) as Dg. pose proof (Z.mod_pos_bound g F Hp) as Bg. pose proof (Z.div_mod b F ltac:(lia)) as Db. pose proof (Z.mod_pos_bound b F Hp) as Bb.
  pose proof (Z.div_mod e F ltac:(lia)) as De. pose proof (Z.mod_pos_bound e F Hp) as Be. pose proof (Z.div_mod (e - 1) F ltac:(lia)) as Dl. pose proof (Z.mod_pos_bound (e - 1) F Hp) as Bl.
  replace (b + npages slot - 1) with (e - 1) by lia. clearbody e b. set (F' := F) in *. clearbody F'. destruct HF as [-> | ->]; lia.
Qed.

Lemma large_info_lookup g : base_gfn slot <= g < base_gfn slot + npages slot ->
  exists c, large_info largepages slot (npages slot) level !! Z.to_nat (gfn_to_index g (base_gfn slot) level) = Some c /\
    (c = 0 <-> fits largepages slot (npages slot) level (g - g mod F)).
Proof using Hb Hn He Hl.
  intros Hg. rewrite index_div by lia. destruct (block_place g Hg) as (Hi & H1 & H2). set (i := g / F - base_gfn slot / F) in *.
  assert (Hx : (Z.lxor (base_gfn slot) (Z.shiftr (userspace_addr slot) PAGE_SHIFT)) mod F = 0 <-> (base_gfn slot - userspace_addr slot / PAGE_SIZE) mod F = 0).
  { rewrite Z.shiftr_div_pow2 by (unfold PAGE_SHIFT; lia). change (2 ^ PAGE_SHIFT) with PAGE_SIZE. apply lxor_mod. lia. }
  unfold large_info, fits. rewrite lpages_eq by lia. rewrite !any_mod by lia. rewrite u64_small by (unfold KVM_MEM_MAX_NR_PAGES in *; lia).
  destruct (edges last (negb (base_gfn slot mod F =? 0)) (negb ((base_gfn slot + npages slot) mod F =? 0))
    (negb ((Z.lxor (base_gfn slot) (Z.shiftr (userspace_addr slot) PAGE_SHIFT)) mod F =? 0) || negb largepages) i Hi) as (c & Ec & Hc).
  exists c. split; [exact Ec|]. rewrite Hc, H1, H2, <- Hx. rewrite !negb_true_iff, orb_false_iff, !negb_false_iff, !Z.eqb_neq, Z.eqb_eq. tauto.
Qed.

End slot.

(** ** The arrays of a slot *)

Definition array_at (o : list (option (list Z))) (i : nat) (j : Z) : option Z := l ← o !! i; l ← l; l !! Z.to_nat j.

Lemma array_at_some (o : list (option (list Z))) i l j : o !! i = Some (Some l) -> array_at o i j = l !! Z.to_nat j.
Proof. intros E. unfold array_at. by rewrite E. Qed.

Lemma create_run largepages slot alloc a : length (rmap a) = 3%nat -> length (lpage_info a) = 2%nat ->
  kvm_arch_create_memslot alloc largepages slot (npages slot) a =
    if bool_decide (take 5 alloc = replicate 5 true)
    then (Arch ((fun lv => Some (replicate (Z.to_nat (lpages_of slot (npages slot) lv)) 0)) <$> [1; 2; 3])
               ((fun lv => Some (large_info largepages slot (npages slot) lv)) <$> [2; 3]), 0)
    else (no_arrays, - ENOMEM).
Proof.
  intros H3 H2. destruct a as [rs infos]. cbn in H3, H2. destruct rs as [|r1 [|r2 [|r3 [|]]]]; try done. destruct infos as [|i1 [|i2 [|]]]; try done.
  unfold kvm_arch_create_memslot. destruct alloc as [|[] alloc]; [done| |done]. cbn [create_loop Nat.eqb].
  do 4 (destruct alloc as [|[] alloc]; [done| |done]; cbn [create_loop Nat.eqb]). done.
Qed.

(** C24: [kvm_arch_create_memslot] gives every frame of the slot a reverse map
    for each page size, all empty, and its count of a large size is 0 exactly
    where such a page lies inside the slot, guest and host addresses are
    aligned alike and large pages are enabled.  When an allocation fails,
    nothing is left allocated. *)
Theorem create_memslot_correct largepages slot alloc a a' r :
  slot_ok slot -> 1 <= npages slot -> length (rmap a) = 3%nat -> length (lpage_info a) = 2%nat ->
  kvm_arch_create_memslot alloc largepages slot (npages slot) a = (a', r) ->
  if bool_decide (take 5 alloc = replicate 5 true) then
    r = 0 /\ forall g, base_gfn slot <= g < base_gfn slot + npages slot ->
      (forall level, 1 <= level <= 3 -> array_at (rmap a') (Z.to_nat (level - 1)) (gfn_to_index g (base_gfn slot) level) = Some 0) /\
      (forall level, 2 <= level <= 3 -> exists c, array_at (lpage_info a') (Z.to_nat (level - 2)) (gfn_to_index g (base_gfn slot) level) = Some c /\
        (c = 0 <-> fits largepages slot (npages slot) level (g - g mod frames level)))
  else r = - ENOMEM /\ a' = no_arrays.
Proof.
  intros [[_ Hn] [Hb He] _] H1 H3 H2 E. rewrite create_run in E by done. case_bool_decide; apply pair_equal_spec in E as [<- <-]; [|done]. split; [done|].
  intros g Hg. split; intros level Hl.
  - rewrite (array_at_some _ _ (replicate (Z.to_nat (lpages_of slot (npages slot) level)) 0))
      by (assert (level = 1 \/ level = 2 \/ level = 3) as [->|[->| ->]] by lia; reflexivity).
    apply lookup_replicate_2. rewrite index_div, lpages_eq by lia. assert (Hp : 0 < frames level) by (unfold frames; lia).
    pose proof (Z.div_le_mono g (base_gfn slot + npages slot - 1) _ Hp ltac:(lia)). pose proof (Z.div_le_mono (base_gfn slot) g _ Hp ltac:(lia)). lia.
  - rewrite (array_at_some _ _ (large_info largepages slot (npages slot) level))
      by (assert (level = 2 \/ level = 3) as [->| ->] by lia; reflexivity).
    by apply large_info_lookup.
Qed.

(** A slot of a page and a half of the large size: only the first one fits. *)
Definition demo_large : kvm_memory_slot := Slot 0x200 768 None 0x7f0000200000 0 0.

Lemma create_memslot_correct_witness :
  exists a', kvm_arch_create_memslot (replicate 5 true) true demo_large 768 no_arrays = (a', 0) /\
    array_at (lpage_info a') 0 (gfn_to_index 0x210 0x200 2) = Some 0 /\ fits true demo_large 768 2 0x200 /\ ~ fits true demo_large 768 2 0x400.
Proof.
  destruct (kvm_arch_create_memslot (replicate 5 true) true demo_large 768 no_arrays) as [a' r] eqn:E.
  assert (Hok : slot_ok demo_large) by (split; [cbn; unfold KVM_MEM_MAX_NR_PAGES; lia|cbn; lia|reflexivity]).
  pose proof (create_memslot_correct true demo_large (replicate 5 true) no_arrays a' r Hok ltac:(cbn; lia) eq_refl eq_refl E) as H.
  rewrite bool_decide_true in H by reflexivity. destruct H as [-> H]. exists a'. split; [reflexivity|].
  destruct (H 0x210 ltac:(cbn; lia)) as [_ H2]. destruct (H2 2 ltac:(lia)) as (c & Ec & Hc).
  assert (Hf : fits true demo_large 768 2 0x200) by (split; [reflexivity|]; vm_compute; repeat split; discriminate).
  split; [etrans; [exact Ec|]; f_equal; apply Hc; exact Hf|]. split; [exact Hf|].
  intros (_ & _ & H4 & _). vm_compute in H4. apply H4. reflexivity.
Defined.
