(* ===== verification/DirectTdp.v ===== *)
(** * Faults with two-dimensional paging (kvm-kmod x86/mmu.c)

    [tdp_page_fault] from end to end: the caches are filled, the size of the
    page is chosen, a fault that only needs the writable bit is fixed without
    the lock, the host gives a frame, and the frame is mapped.  Whatever the
    hardware reads from the tables afterwards is a frame the host has at the
    address of the slot. *)

From S2P Require Import Prelude MemSlots GuestCopy Spte PteList Rmap ShadowPages ShadowSpec RoomSpec DirectMap PageRefs DirectSpec DirectSet DirectFault LargePages.

(** ** What the host guarantees *)

(** The large page of [frames lv] frames around the address [a], which has
    frame [p], is mapped as one. *)
Definition block (host : Z -> Z -> Prop) (lv a p : Z) : Prop :=
  let i := (a / PAGE_SIZE) mod frames lv in
  p mod frames lv = i /\ forall j, 0 <= j < frames lv -> host (a + (j - i) * PAGE_SIZE) (p - i + j).

(** While the lock is held and no notifier runs: [lk_compound] says that a
    transparent large page is mapped whole. *)
Record locked_ok (e : env) (host : Z -> Z -> Prop) : Prop := {
  lk_fast : fast_ok e host;
  lk_mt : mt_ok e;
  lk_compound a p : host a p -> is_mmio_pfn e p = false -> trans_compound e p = true -> block host 2 a p
}.

(** An area of large pages maps them whole. *)
Definition area_ok (e : env) (host : Z -> Z -> Prop) : Prop :=
  forall lv a b p, 2 <= lv <= 3 -> KVM_HPAGE_SIZE lv <= vma_pagesize e a -> a / KVM_HPAGE_SIZE lv = b / KVM_HPAGE_SIZE lv -> host b p -> block host lv b p.

Record host_ok (e : env) (host : Z -> Z -> Prop) : Prop := {
  ho_locked : locked_ok e host;
  ho_level : 1 <= lpage_level e <= 3;
  ho_area : area_ok e host
}.

(** ** Slots and their counts *)

Record laid_out (x : mmu) : Prop := {
  lo_addr g sl : search_memslots (slots (core x)) g = Some sl -> slot_addr_ok sl;
  lo_fit g lv sl : search_memslots (slots (core x)) g = Some sl -> 2 <= lv <= 3 -> write_count x !! lpage_info_slot g sl lv = Some 0 ->
    fits true sl (npages sl) lv (g - g mod frames lv)
}.

Lemma hva_eq k g sl : slots_ok k -> search_memslots k g = Some sl -> slot_addr_ok sl -> __gfn_to_hva_memslot sl g = userspace_addr sl + (g - base_gfn sl) * PAGE_SIZE.
Proof.
  intros Hok Es [[H1 H2] _]. destruct (search_Some _ _ _ Hok Es) as [_ Hc]. unfold covers in Hc. unfold __gfn_to_hva_memslot. apply u64_small.
  change PAGE_SIZE with 4096 in *. lia.
Qed.

(** Guest and host addresses are aligned alike. *)
Lemma hva_mod k g sl lv g0 : slots_ok k -> search_memslots k g = Some sl -> slot_addr_ok sl -> 1 <= lv -> fits true sl (npages sl) lv g0 ->
  (__gfn_to_hva_memslot sl g / PAGE_SIZE) mod frames lv = g mod frames lv.
Proof.
  intros Hok Es Ha Hl (_ & _ & _ & Hf3). pose proof (frames_pos lv Hl) as Hf0. rewrite (hva_eq k) by done. destruct Ha as [_ Ha]. rewrite Z.div_add by done.
  apply Z.mod_divide in Hf3 as [q Hq]; [|lia]. replace (userspace_addr sl / PAGE_SIZE + (g - base_gfn sl)) with (g + (- q) * frames lv) by lia. apply Z.mod_add. lia.
Qed.

(** A large page of the host at a place of a slot where one fits. *)
Lemma block_backed host k g sl lv p : slots_ok k -> one_slot k -> search_memslots k g = Some sl -> slot_addr_ok sl -> 1 <= lv ->
  fits true sl (npages sl) lv (g - g mod frames lv) -> block host lv (__gfn_to_hva_memslot sl g) p ->
  (__gfn_to_hva_memslot sl g / PAGE_SIZE) mod frames lv = g mod frames lv /\ backed host k (g - g mod frames lv) lv (p - p mod frames lv).
Proof.
  intros Hok H1 Es Ha Hl Hfit [Hp Hb]. pose proof (frames_pos lv Hl) as Hf0. pose proof (Z.mod_pos_bound g (frames lv) Hf0) as Hr.
  pose proof (hva_mod k g sl lv _ Hok Es Ha Hl Hfit) as Ei. destruct Hfit as (_ & Hf1 & Hf2 & _). split; [done|]. rewrite Ei in Hp, Hb. rewrite Hp. split.
  - rewrite Zminus_mod, Hp, Z.mod_mod, Z.sub_diag by lia. by apply Zmod_0_l.
  - intros j Hj. destruct (one_slot_at _ g (g - g mod frames lv + j) sl H1 Es) as (s & Es' & Hss); [unfold covers; lia|]. exists s. split; [done|].
    specialize (Hb j Hj). destruct Hss as (_ & A2 & A3 & A4 & _).
    assert (Ha' : slot_addr_ok s) by (destruct Ha as [? ?]; split; by rewrite ?A3, ?A4).
    rewrite (hva_eq k _ sl) in Hb by done. rewrite (hva_eq k _ s), A2, A4 by done. rewrite <- Z.add_assoc, <- Z.mul_add_distr_r in Hb.
    by replace (g - g mod frames lv + j - base_gfn sl) with (g - base_gfn sl + (j - g mod frames lv)) by lia.
  - intros s j Es' Hj. destruct (one_slot_at _ g (g - g mod frames lv) sl H1 Es) as (s' & E' & Hss); [unfold covers; lia|]. assert (s' = s) as -> by congruence.
    destruct Hss as (_ & A2 & A3 & _). unfold covers. lia.
Qed.

(** ** The size of the page *)

Lemma wrprotected_run x g lv : arrays x -> 2 <= lv <= 3 ->
  exists n, has_wrprotected_page g lv x = Ok (n, x) /\
    (n = 0 -> exists sl, search_memslots (slots (core x)) g = Some sl /\ write_count x !! lpage_info_slot g sl lv = Some 0).
Proof.
  intros Ha Hl. unfold has_wrprotected_page, gfn_to_memslot. rewrite st_bind_assoc, (st_bind_Ok _ _ x x x), (st_bind_Ok _ _ x (search_memslots (slots (core x)) g) x) by done.
  destruct (search_memslots (slots (core x)) g) as [sl|] eqn:Es; [|by exists 1]. rewrite (st_bind_Ok _ _ x x x) by done.
  destruct (ar_counts _ Ha g lv sl Es Hl) as [n En]. rewrite En. exists n. split; [unfold on_core, known; cbn; by rewrite set_core_core|]. intros ->. eauto.
Qed.

Lemma host_level_spec e k g : let h := host_mapping_level e k g in 0 <= h <= 3 /\ forall lv, 2 <= lv <= h -> KVM_HPAGE_SIZE lv <= kvm_host_page_size e k g.
Proof.
  unfold host_mapping_level, levels. set (size := kvm_host_page_size e k g). cbn [host_level].
  destruct (Z.leb_spec (KVM_HPAGE_SIZE 1) size); [|split; [lia|intros; lia]]. destruct (Z.leb_spec (KVM_HPAGE_SIZE 2) size); [|split; [lia|intros; lia]].
  destruct (Z.leb_spec (KVM_HPAGE_SIZE 3) size); (split; [lia|]); intros lv Hl; assert (lv = 2 \/ lv = 3) as [->| ->] by lia; lia.
Qed.

Lemma mapping_run e x g : arrays x -> 1 <= lpage_level e <= 3 ->
  exists level, mapping_level e g x = Ok (level, x) /\ 1 <= level <= 3 /\
    (2 <= level -> KVM_HPAGE_SIZE level <= kvm_host_page_size e (slots (core x)) g /\
       exists sl, search_memslots (slots (core x)) g = Some sl /\ write_count x !! lpage_info_slot g sl level = Some 0).
Proof.
  intros Ha He. unfold mapping_level. rewrite (st_bind_Ok _ _ x x x) by done. destruct (host_level_spec e (slots (core x)) g) as [Hh Hs].
  set (h := host_mapping_level e (slots (core x)) g) in *. destruct (Z.eqb_spec h PT_PAGE_TABLE_LEVEL) as [E1|E1].
  { exists h. change PT_PAGE_TABLE_LEVEL with 1 in E1. split; [done|]. split; [lia|]. intros; lia. }
  set (mx := Z.min (lpage_level e) h). unfold large_levels. cbn [level_loop]. change PT_DIRECTORY_LEVEL with 2.
  destruct (Z.ltb_spec mx 2); [exists 1; split; [done|]; split; [lia|intros; lia]|].
  destruct (wrprotected_run x g 2 Ha ltac:(lia)) as (n2 & E2 & H2). rewrite st_bind_assoc, (st_bind_Ok _ _ _ _ _ E2).
  destruct (Z.eqb_spec n2 0) as [->|]; cbn [negb]; [|exists 1; split; [done|]; split; [lia|intros; lia]]. change (2 + 1) with 3.
  destruct (Z.ltb_spec mx 3); [exists 2; split; [done|]; split; [lia|]; intros _; split; [apply Hs; lia|auto]|].
  destruct (wrprotected_run x g 3 Ha ltac:(lia)) as (n3 & E3 & H3). rewrite st_bind_assoc, (st_bind_Ok _ _ _ _ _ E3).
  destruct (Z.eqb_spec n3 0) as [->|]; cbn [negb]; [exists 3; split; [done|]; split; [lia|]; intros _; split; [apply Hs; lia|auto]|].
  exists 2; split; [done|]; split; [lia|]; intros _; split; [apply Hs; lia|auto].
Qed.

(** The size and the frame the fault goes on with. *)
Definition chosen (e : env) (x : mmu) (g level gfn : Z) : Prop :=
  1 <= level <= 3 /\ gfn = g - g mod frames level /\
  (2 <= level -> KVM_HPAGE_SIZE level <= kvm_host_page_size e (slots (core x)) g /\
     exists sl, search_memslots (slots (core x)) g = Some sl /\ write_count x !! lpage_info_slot g sl level = Some 0).

Lemma ldiff_frames g level : 1 <= level -> Z.ldiff g (KVM_PAGES_PER_HPAGE level - 1) = g - g mod frames level.
Proof.
  intros Hl. rewrite pages_per by done. unfold frames. replace (2 ^ (9 * (level - 1)) - 1) with (Z.ones (9 * (level - 1))) by (rewrite Z.ones_equiv; lia).
  rewrite Z.ldiff_ones_r, Z.shiftl_mul_pow2, Z.shiftr_div_pow2, Z.mod_eq by lia. lia.
Qed.

Lemma choose_run e x g : arrays x -> 1 <= lpage_level e <= 3 ->
  exists force level gfn, mapping_level_dirty_bitmap g x = Ok (force, x) /\ chosen e x g level gfn /\
    (if negb force then level ← mapping_level e g; mret (level, Z.ldiff g (KVM_PAGES_PER_HPAGE level - 1))
     else mret (PT_PAGE_TABLE_LEVEL, g) : VM (Z * Z)) x = Ok ((level, gfn), x).
Proof.
  intros Ha He. assert (Ef : exists force, mapping_level_dirty_bitmap g x = Ok (force, x)) by by eexists.
  destruct Ef as [force Ef]. exists force. destruct force.
  - exists 1, g. split; [done|]. split; [|done]. split; [lia|]. split; [|lia]. change (frames 1) with 1. rewrite Z.mod_1_r. lia.
  - destruct (mapping_run e x g Ha He) as (level & E & Hl & Hlg). exists level, (g - g mod frames level). split; [done|]. split; [done|].
    cbn [negb]. rewrite (st_bind_Ok _ _ _ _ _ E). by rewrite ldiff_frames by lia.
Qed.

Lemma frames_le lv : 1 <= lv <= 3 -> 1 <= frames lv <= 2 ^ 18.
Proof. intros Hl. assert (lv = 1 \/ lv = 2 \/ lv = 3) as [->|[->| ->]] by lia; by vm_compute. Qed.

Lemma hpage_size lv : 1 <= lv -> KVM_HPAGE_SIZE lv = PAGE_SIZE * frames lv.
Proof.
  intros Hl. unfold KVM_HPAGE_SIZE, KVM_HPAGE_GFN_SHIFT, frames. rewrite Z.shiftl_1_l. change PAGE_SIZE with (2 ^ 12). change PAGE_SHIFT with 12.
  rewrite Z.pow_add_r by lia. do 2 f_equal. lia.
Qed.

(** What the host has at the chosen frame, it has for the whole page. *)
Lemma chosen_backed e host x g level gfn sl pfn : area_ok e host -> slots_ok (slots (core x)) -> one_slot (slots (core x)) -> laid_out x ->
  chosen e x g level gfn -> search_memslots (slots (core x)) gfn = Some sl -> host (__gfn_to_hva_memslot sl gfn) pfn ->
  backed host (slots (core x)) gfn level pfn.
Proof.
  intros Hh Hok H1 Hlay (Hl & -> & Hlg) Es Hp. destruct (Z.eq_dec level 1) as [->|Hne].
  { by apply (small_backed host _ _ sl). }
  destruct (Hlg ltac:(lia)) as (Hsz & sl0 & Es0 & Hc). pose proof (lo_fit _ Hlay g level sl0 Es0 ltac:(lia) Hc) as Hfit. pose proof (lo_addr _ Hlay _ _ Es0) as Ha0.
  pose proof (frames_le level Hl) as Hfr. pose proof (Z.mod_pos_bound g (frames level) ltac:(lia)) as Hr. set (F := frames level) in *.
  assert (Hm0 : (g - g mod F) mod F = 0) by (rewrite Zminus_mod, Z.mod_mod, Z.sub_diag by lia; by apply Zmod_0_l).
  assert (Hcov : covers sl0 (g - g mod F) = true) by (destruct Hfit as (_ & Hf1 & Hf2 & _); unfold covers; fold F in Hf2; lia).
  destruct (one_slot_at _ g _ sl0 H1 Es0 Hcov) as (s & Es' & Hss). assert (s = sl) as -> by congruence. destruct Hss as (_ & A2 & A3 & A4 & _).
  assert (Ha : slot_addr_ok sl) by (destruct Ha0 as [? ?]; split; by rewrite ?A3, ?A4).
  assert (Hfit' : fits true sl (npages sl) level (g - g mod F)) by (unfold fits in *; by rewrite A2, A3, A4).
  assert (Ea : __gfn_to_hva_memslot sl (g - g mod F) = __gfn_to_hva_memslot sl0 g - (g mod F) * PAGE_SIZE).
  { rewrite (hva_eq (slots (core x)) _ sl), (hva_eq (slots (core x)) _ sl0), A2, A4 by done. lia. }
  pose proof (hva_mod _ g sl0 level _ Hok Es0 Ha0 ltac:(lia) Hfit) as Hi. fold F in Hi.
  assert (Hb : block host level (__gfn_to_hva_memslot sl (g - g mod F)) pfn).
  { apply (Hh level (__gfn_to_hva_memslot sl0 g)); [lia|..|done].
    - revert Hsz. unfold kvm_host_page_size, gfn_to_hva. rewrite Es0. assert (PAGE_SIZE < KVM_HPAGE_SIZE level).
      { rewrite hpage_size by lia. fold F. assert (2 <= F); [|change PAGE_SIZE with 4096; lia].
        unfold F. assert (level = 2 \/ level = 3) as [->| ->] by lia; by vm_compute. }
      destruct (__gfn_to_hva_many (Some sl0) g true) as [a|] eqn:Eh; [|lia]. assert (a = __gfn_to_hva_memslot sl0 g) as ->.
      { revert Eh. unfold __gfn_to_hva_many. destruct (negb _); [done|]. destruct (_ && _); [done|]. destruct (kvm_is_error_hva _); [done|]. by intros [= ->]. }
      destruct (Z.eqb_spec (vma_pagesize e (__gfn_to_hva_memslot sl0 g)) 0); lia.
    - rewrite hpage_size by lia. fold F. assert (HP : 0 < PAGE_SIZE) by done. rewrite <- !Z.div_div, Ea by lia. set (A := __gfn_to_hva_memslot sl0 g) in *.
      replace (A - g mod F * PAGE_SIZE) with (A + (- (g mod F)) * PAGE_SIZE) by lia. rewrite Z.div_add by done. rewrite <- Hi. set (B := A / PAGE_SIZE).
      replace (B + - (B mod F)) with (B / F * F) by (pose proof (Z.div_mod B F); lia). by rewrite Z.div_mul by lia. }
  destruct (block_backed host (slots (core x)) _ sl level pfn Hok H1 Es Ha ltac:(lia)) as [E1 E2]; [fold F; by rewrite Hm0, Z.sub_0_r|done|].
  fold F in E1, E2. rewrite Hm0, Z.sub_0_r in *. destruct Hb as [Hb _]. fold F in Hb. by rewrite Hb, E1, Z.sub_0_r in E2.
Qed.

(** A page of this size may be writable there. *)
Definition unblocked (x : mmu) (gfn level : Z) : Prop :=
  level = 1 \/ exists sl, search_memslots (slots (core x)) gfn = Some sl /\ write_count x !! lpage_info_slot gfn sl level = Some 0.

Lemma start_unblocked x g level sl : one_slot (slots (core x)) -> laid_out x -> 2 <= level <= 3 -> search_memslots (slots (core x)) g = Some sl ->
  write_count x !! lpage_info_slot g sl level = Some 0 -> unblocked x (g - g mod frames level) level.
Proof.
  intros H1 Hlay Hl Es Hc. right. destruct (lo_fit _ Hlay _ _ _ Es Hl Hc) as (_ & Hf1 & Hf2 & _). pose proof (frames_le level ltac:(lia)) as Hfr.
  destruct (one_slot_at _ g (g - g mod frames level) sl H1 Es ltac:(unfold covers; lia)) as (s & Es' & Hss). exists s. split; [done|]. rewrite (same_slot_lpage _ _ _ _ Hss), <- Hc.
  unfold lpage_info_slot. do 2 f_equal. unfold gfn_to_index, KVM_HPAGE_GFN_SHIFT. do 2 f_equal. rewrite !Z.shiftr_div_pow2 by lia.
  replace ((level - 1) * 9) with (9 * (level - 1)) by lia. fold (frames level). rewrite Z.mod_eq by lia. replace (g - (g - frames level * (g / frames level))) with (g / frames level * frames level) by lia.
  by rewrite Z.div_mul by lia.
Qed.

Lemma chosen_unblocked e x g level gfn : one_slot (slots (core x)) -> laid_out x -> chosen e x g level gfn -> unblocked x gfn level.
Proof.
  intros H1 Hlay (Hl & -> & Hlg). destruct (Z.eq_dec level 1) as [->|]; [by left|]. destruct (Hlg ltac:(lia)) as (_ & sl & Es & Hc).
  by apply (start_unblocked x g level sl); [..|lia| |].
Qed.

(** ** Transparent large pages *)

Section adjust.
  Context (e : env) (host : Z -> Z -> Prop) (Hh : locked_ok e host).

Lemma get_pfn_run x pfn : exists k', kvm_get_pfn e pfn x = Ok (tt, set_core k' x) /\ told_only (core x) k'.
Proof.
  unfold kvm_get_pfn. destruct (negb (is_mmio_pfn e pfn)); [by eexists|]. exists (core x). by rewrite set_core_core.
Qed.

Lemma adjust_run x gfn pfn level : arrays x -> laid_out x -> slots_ok (slots (core x)) -> one_slot (slots (core x)) -> 1 <= level <= 3 ->
  gfn mod frames level = 0 -> target_ok host gfn level pfn (slots (core x)) -> unblocked x gfn level ->
  exists gfn' pfn' level' k', transparent_hugepage_adjust e gfn pfn level x = Ok ((gfn', pfn', level'), set_core k' x) /\ told_only (core x) k' /\
    1 <= level' <= 3 /\ gfn' mod frames level' = 0 /\ target_ok host gfn' level' pfn' (slots (core x)) /\
    gfn' <= gfn /\ gfn + frames level <= gfn' + frames level' /\ pfn - pfn' = gfn - gfn' /\ unblocked x gfn' level' /\ (pfn = KVM_PFN_NOSLOT <-> pfn' = KVM_PFN_NOSLOT).
Proof using Hh.
  intros Ha Hlay Hok H1 Hl Hal Ht Hub. unfold transparent_hugepage_adjust.
  assert (Hsame : exists gfn' pfn' level' k', (mret (gfn, pfn, level) : VM (Z * Z * Z)) x = Ok ((gfn', pfn', level'), set_core k' x) /\ told_only (core x) k' /\
    1 <= level' <= 3 /\ gfn' mod frames level' = 0 /\ target_ok host gfn' level' pfn' (slots (core x)) /\
    gfn' <= gfn /\ gfn + frames level <= gfn' + frames level' /\ pfn - pfn' = gfn - gfn' /\ unblocked x gfn' level' /\ (pfn = KVM_PFN_NOSLOT <-> pfn' = KVM_PFN_NOSLOT)).
  { exists gfn, pfn, level, (core x). rewrite set_core_core. repeat split; try done; lia. }
  destruct (_ && trans_compound e pfn) eqn:Ec; [|done]. apply andb_true_iff in Ec as [[[Hne Hmm%negb_true_iff]%andb_true_iff ->%Z.eqb_eq]%andb_true_iff Hc].
  destruct (wrprotected_run x gfn PT_DIRECTORY_LEVEL Ha ltac:(done)) as (n & E & Hn). rewrite (st_bind_Ok _ _ _ _ _ E).
  destruct (Z.eqb_spec n 0) as [->|]; cbn [negb]; [|done]. destruct (Hn eq_refl) as (sl & Es & Hcnt). change PT_DIRECTORY_LEVEL with 2 in *.
  destruct Ht as [->|[Hp40 [_ Hb]]]; [done|]. destruct (Hb 0 ltac:(done)) as (s & Es' & Hp). rewrite Z.add_0_r in Es', Hp. rewrite (Z.add_0_r pfn) in Hp. assert (s = sl) as -> by congruence.
  pose proof (lo_fit _ Hlay gfn 2 sl Es ltac:(lia) Hcnt) as Hfit. pose proof (lo_addr _ Hlay _ _ Es) as Had.
  pose proof (lk_compound _ _ Hh _ _ Hp Hmm Hc) as Hblk. destruct (block_backed host _ gfn sl 2 pfn Hok H1 Es Had ltac:(lia) Hfit Hblk) as [Ei Hbk].
  destruct Hblk as [Hpm _]. rewrite Ei in Hpm. rewrite !(land_frames 2) by lia. rewrite Hpm, Z.eqb_refl, (st_bind_Ok _ _ x tt x) by done. rewrite any_mod, !ldiff_frames by lia. change (frames 2) with 512 in *.
  pose proof (Z.mod_pos_bound gfn 512 ltac:(lia)) as Hr. pose proof (Z.mod_le pfn 512 ltac:(lia) ltac:(lia)) as Hle.
  assert (Hm0 : (gfn - gfn mod 512) mod 512 = 0) by (rewrite Zminus_mod, Z.mod_mod, Z.sub_diag by lia; by apply Zmod_0_l).
  assert (Hns : KVM_PFN_NOSLOT = 2 ^ 63) by done. pose proof (start_unblocked x gfn 2 sl H1 Hlay ltac:(lia) Es Hcnt) as Hub'. change (frames 2) with 512 in Hub'.
  change (frames PT_PAGE_TABLE_LEVEL) with 1. destruct (Z.eqb_spec (pfn mod 512) 0) as [E0|E0]; cbn [negb].
  - rewrite <- Hpm, E0, !Z.sub_0_r in *. exists gfn, pfn, 2, (core x). rewrite set_core_core. repeat split; try done; [right; done|..]; change (frames 2) with 512; lia.
  - rewrite (st_bind_Ok _ _ _ _ _ (release_run e x pfn)). destruct (get_pfn_run (set_core (released e pfn (core x)) x) (pfn - pfn mod 512)) as (k' & Eg & Hk').
    rewrite (st_bind_Ok _ _ _ _ _ Eg). exists (gfn - gfn mod 512), (pfn - pfn mod 512), 2, k'. rewrite set_core_twice. split; [done|]. split.
    { unfold told_only in *. cbn [core set_core] in Hk'. destruct (released_same e pfn (core x)) as (R1 & R2 & R3 & R4 & R5). intuition congruence. }
    repeat split; try done; [right; split; [lia|done]|..]; change (frames 2) with 512; lia.
Qed.

End adjust.

(** ** Filling the caches *)

(** The allocators give out nothing that is in use; 0 is a failure. *)
Record alloc_ok (topup : list Z * list Z * nat) (x : mmu) : Prop := {
  al_objects : NoDup topup.1.1 /\ Forall (fun o => o <> 0 -> good o /\ descs (lists (core x)) !! o = None) topup.1.1;
  al_pages : NoDup topup.1.2 /\ forall p, p ∈ topup.1.2 -> p <> 0 -> aligned p /\ pages (core x) !! p = None /\ p ∉ mmu_page_cache x
}.

Lemma topup_pages_spec page : forall cache, NoDup page -> NoDup cache -> (forall p, p ∈ page -> p <> 0 -> p ∉ cache) ->
  exists c r, topup_pages page cache = (c, r) /\ NoDup c /\ (forall p, p ∈ c -> p ∈ cache \/ p ∈ page /\ p <> 0) /\
    (r = 0 /\ (KVM_NR_MEM_OBJS <= length c)%nat \/ r = - ENOMEM).
Proof.
  induction page as [|p page IH]; intros cache Hn Hc Hf; cbn [topup_pages]; (destruct (Nat.ltb_spec (length cache) KVM_NR_MEM_OBJS);
    [|exists cache, 0; split; [done|]; split; [done|]; split; [by left|by left]]).
  { exists cache, (- ENOMEM). split; [done|]. split; [done|]. split; [by left|by right]. }
  destruct (Z.eqb_spec p 0) as [->|Hp0]; [exists cache, (- ENOMEM); split; [done|]; split; [done|]; split; [by left|by right]|].
  apply NoDup_cons in Hn as [Hnp Hn]. destruct (IH (p :: cache) Hn) as (c & r & E & Hnc & Hin & Hr).
  - apply NoDup_cons. split; [|done]. apply Hf; [left|done].
  - intros q Hq Hq0 [->|Hqc]%elem_of_cons; [done|]. by apply (Hf q); [right|..].
  - exists c, r. split; [done|]. split; [done|]. split; [|done]. intros q [[->|?]%elem_of_cons|[? ?]]%Hin; [right; split; [left|done]|by left|right; split; [by right|done]].
Qed.

Section topup.
  Context (m : shadow_masks).

Lemma tree_lists k ls pend p chunks : tree m k ls pend -> lists_ok p (heads k) ls chunks -> tree m (set_heads Datatypes.id p k) ls pend.
Proof.
  intros Ht Hl. apply (tree_leaves m k _ ls ls); try done; [|intros b v sp; apply (tr_level _ _ _ _ Ht)].
  destruct (tr_mmu _ _ _ _ Ht) as [H1 _ H3 H4 H5 H6]. split; [done|by exists chunks|done..].
Qed.

Lemma settled_caches x ls c h : settled m x ls None -> NoDup c -> (forall p, p ∈ c -> aligned p /\ pages (core x) !! p = None) ->
  settled m (set_caches c h x) ls None.
Proof. intros [Ht [T1 T2 T3 T4 T5 T6] Hact Hz Hroot Hinv] Hn Hc. by split; [|split|..]. Qed.

(** What filling changes. *)
Record topped_up (x x' : mmu) : Prop := {
  tp_slots : slots (core x') = slots (core x);
  tp_heads : heads (core x') = heads (core x);
  tp_mem : spt_mem (core x') = spt_mem (core x);
  tp_pages : pages (core x') = pages (core x);
  tp_counts : write_count x' = write_count x;
  tp_gen : valid_gen x' = valid_gen x;
  tp_active : active_mmu_pages x' = active_mmu_pages x;
  tp_used : n_used_mmu_pages x' = n_used_mmu_pages x /\ n_max_mmu_pages x' = n_max_mmu_pages x
}.

Lemma topup_run x ls topup : settled m x ls None -> alloc_ok topup x ->
  exists r x', mmu_topup_memory_caches topup.1.1 topup.1.2 topup.2 x = Ok (r, x') /\ settled m x' ls None /\ topped_up x x' /\
    (r = 0 -> (16 <= length (objects (lists (core x'))))%nat /\ (8 <= length (mmu_page_cache x'))%nat /\ (4 <= mmu_page_header_cache x')%nat).
Proof.
  intros Hse [[Ho1 Ho2] [Hp1 Hp2]]. destruct topup as [[obj page] headers]. cbn [fst snd] in *. unfold mmu_topup_memory_caches. rewrite (st_bind_Ok _ _ x x x) by done.
  destruct (mk_lists _ _ _ (tr_mmu _ _ _ _ (se_tree _ _ _ _ Hse))) as [chunks Hl]. destruct (tb_cache _ (se_tables _ _ _ _ Hse)) as [Hc1 Hc2].
  destruct (topup_lists obj (8 + Z.to_nat PTE_PREFETCH_NUM) (lists (core x)) _ _ _ Hl Ho1 Ho2 ltac:(vm_compute; lia)) as (p & r & E & Hl' & Hr). rewrite E.
  set (k1 := set_heads Datatypes.id p (core x)). rewrite (st_bind_Ok _ _ x tt (set_core k1 x)) by done.
  assert (H1 : settled m (set_core k1 x) ls None).
  { apply (settled_core m x ls k1 ls None None Hse); [apply (tree_lists _ _ _ _ chunks); [apply Hse|done]|cbn; intros b q Eq; by exists q|done]. }
  destruct (Z.eqb_spec r 0) as [->|Hne]; cbn [negb]; [|exists r, (set_core k1 x); split; [done|]; split; [done|]; split; [done|done]].
  destruct Hr as [[_ Hobj]|?]; [|done].
  assert (Hpg : exists c r, mmu_topup_memory_cache_page page 8 (mmu_page_cache x) = (c, r) /\ NoDup c /\ (forall p, p ∈ c -> aligned p /\ pages (core x) !! p = None) /\ (r = 0 -> (8 <= length c)%nat)).
  { unfold mmu_topup_memory_cache_page. destruct (Nat.leb_spec 8 (length (mmu_page_cache x))); [by exists (mmu_page_cache x), 0|].
    destruct (topup_pages_spec page (mmu_page_cache x) Hp1 Hc1) as (c & r & Ec & Hn & Hin & Hr); [intros q Hq Hq0; by apply Hp2|].
    exists c, r. split; [done|]. split; [done|]. split; [intros q [?|[Hq ?]]%Hin; [by apply Hc2|]; destruct (Hp2 q Hq); tauto|].
    intros ->. destruct Hr as [[_ ?]|?]; [|done]. unfold KVM_NR_MEM_OBJS in *. lia. }
  destruct Hpg as (c & r & Ec & Hn & Hin & Hr). rewrite Ec. set (x2 := set_caches c (mmu_page_header_cache x) (set_core k1 x)).
  rewrite (st_bind_Ok _ _ _ tt x2) by done. assert (H2 : settled m x2 ls None) by (by apply settled_caches).
  destruct (Z.eqb_spec r 0) as [->|Hne]; cbn [negb]; [|exists r, x2; split; [done|]; split; [done|]; split; [done|done]].
  destruct (topup_headers headers 4 (mmu_page_header_cache x)) as [h r] eqn:Eh. rewrite (st_bind_Ok _ _ _ tt (set_caches c h x2)) by done.
  exists r, (set_caches c h x2). split; [done|]. split; [by apply settled_caches|]. split; [done|]. intros ->. split; [exact Hobj|]. split; [by apply Hr|]. cbn [mmu_page_header_cache set_caches].
  revert Eh. unfold topup_headers. destruct (Nat.leb_spec 4 (mmu_page_header_cache x)); [intros [= <-]; done|].
  destruct (Nat.leb_spec KVM_NR_MEM_OBJS (mmu_page_header_cache x + headers)); [|by intros [=]]. intros [= <-]. unfold KVM_NR_MEM_OBJS. lia.
Qed.

End topup.

(** ** Walks without the lock *)

Section lockless.
  Context (m : shadow_masks) (Hm : direct_masks m).

Lemma index_range addr level : 0 <= SHADOW_PT_INDEX addr level < 512.
Proof.
  unfold SHADOW_PT_INDEX. change (Z.shiftl 1 PT64_LEVEL_BITS - 1) with (Z.ones 9). rewrite Z.land_ones by lia. apply Z.mod_pos_bound. lia.
Qed.

(** The walk ends at an entry of the tables. *)
Lemma walk_run stop addr x ls : tree m (core x) ls None -> (forall w l, is_shadow_present_pte m w = false -> stop w l = true) ->
  forall n fuel spt sp a0 i0 s0, pages (core x) !! spt = Some sp -> sp_level sp = Z.of_nat (S n) -> (S n < fuel)%nat ->
  exists w it, walk_lockless fuel stop (Walk addr spt a0 (sp_level sp) i0) s0 x = Ok ((w, it), x) /\
    spt_mem (core x) !! sptep it = Some w /\ is_Some (pages (core x) !! spt_of (sptep it)).
Proof.
  intros Ht Hstop. induction n as [|n IH]; intros fuel spt sp a0 i0 s0 Esp Hl Hf; (destruct fuel as [|fuel]; [lia|]); cbn [walk_lockless];
    unfold shadow_walk_okay; cbn [w_level DirectMap.addr shadow_addr]; rewrite (proj2 (Z.ltb_ge _ _)) by (change PT_PAGE_TABLE_LEVEL with 1; lia); cbn [negb];
    set (i := SHADOW_PT_INDEX addr (sp_level sp)); destruct (entry_is m (core x) ls None spt sp i Ht Esp (index_range _ _)) as (E1 & E2 & [w Ew]);
    rewrite (st_bind_Ok _ _ x w x) by (by apply entry_Ok); cbn [w_level].
  all: set (it := Walk addr spt (spt + 8 * i) (sp_level sp) i) in *.
  all: destruct (stop w (sp_level sp)) eqn:Es; [exists w, it; split; [done|]; split; [done|]; cbn; rewrite E1; by eexists|].
  all: destruct (is_last_spte w (sp_level sp)) eqn:Ela; [unfold __shadow_walk_next; cbn [w_level it]; rewrite Ela; (destruct fuel as [|fuel]; [lia|]);
    exists w, (Walk addr spt (spt + 8 * i) 0 i); split; [done|]; split; [done|]; cbn; rewrite E1; by eexists|].
  - unfold is_last_spte in Ela. by rewrite Hl in Ela.
  - assert (Hp : is_shadow_present_pte m w = true) by (destruct (is_shadow_present_pte m w) eqn:E; [done|]; by rewrite Hstop in Es).
    assert (Hnl : nonleaf m (core x) (spt + 8 * i) w) by (split; [done|]; split; [done|]; exists sp; by rewrite E1).
    destruct (tr_child _ _ _ _ Ht _ _ _ Hnl ltac:(by rewrite E1)) as (c & Ec & Hcl & _). unfold __shadow_walk_next. cbn [w_level it]. rewrite Ela.
    cbn [DirectMap.addr sptep index]. rewrite <- Hcl. apply (IH fuel _ c); [done|lia|lia].
Qed.

(** Leaves may have got bits but map what they mapped. *)
Definition remapped (x : mmu) (b w : Z) : Prop := exists u, leaf m (core x) b u /\ spte_to_pfn u = spte_to_pfn w.

Lemma outside_same s s' l : outside m s s' -> is_last_spte s' l = is_last_spte s l /\ spte_to_pfn s' = spte_to_pfn s.
Proof using Hm.
  intros H. pose proof (fun i => outside_bit m (dm_ok _ Hm) s s' i H) as Hb. split.
  - unfold is_last_spte. destruct (_ =? _); [done|]. unfold is_large_pte, PT_PAGE_SIZE_MASK. rewrite !any_bit by lia. apply Hb; [lia|lia|]. unfold hw_bit. lia.
  - unfold spte_to_pfn. f_equal. apply Z.bits_inj'. intros i Hi. rewrite !Z.land_spec, base_mask_bit by done.
    destruct (Z.leb_spec 12 i); [|by rewrite !andb_false_r]. rewrite Hb; [done|done|lia|]. unfold hw_bit. lia.
Qed.

Lemma revalue_run x ls a v w : settled m x ls None -> leaf m (core x) a v -> outside m v w ->
  let x' := set_core (set_mem a w [] (core x)) x in settled m x' ls None /\ progress 0 0 x x' /\ wrote m (remapped x) (fun _ => True) x x'.
Proof using Hm.
  intros Hse Hl Ho x'. pose proof Hl as (Ev & Hp & sp & Esp & Hla). destruct (outside_same v w (sp_level sp) Ho) as [E1 E2].
  destruct (outside_leaf m (dm_ok _ Hm) v w) as [Hok Hpw]; [by apply (mk_leaf _ _ _ (tr_mmu _ _ _ _ (se_tree _ _ _ _ Hse)) a)|done|].
  assert (Hn : near 0 (core x) (set_mem a w [] (core x))) by by apply near_same. split; [|split].
  - apply (settled_near m 0 x ls); [done| |done]. apply (tree_revalued m _ _ _ a v w sp); [apply Hse|done|done|done|done|by rewrite E1].
  - by apply near_progress.
  - split; cbn [x' core set_core].
    + intros b u (Eu & Hu & q & Eq & Hq). cbn [set_mem spt_mem pages] in *. rewrite lookup_insert in Eu. case_decide; [|left; split; [done|]; split; [done|]; by exists q].
      subst b. injection Eu as <-. right. by exists v.
    + intros b u (Eu & Hu & q & Eq & Hq) _. split; [|split; [done|]; by exists q]. cbn. rewrite lookup_insert_ne; [done|]. intros <-.
      simplify_eq. congruence.
Qed.

Lemma mark_run x ls gfn : settled m x ls None ->
  exists x', mark_dirty gfn x = Ok (tt, x') /\ settled m x' ls None /\ progress 0 0 x x' /\ wrote m (remapped x) (fun _ => True) x x'.
Proof.
  intros Hse. set (k' := with_slots (mark_page_dirty (slots (core x)) gfn) (core x)). exists (set_core k' x). split; [done|].
  assert (Hn : near 0 (core x) k') by (split; [apply mark_like|done|done|done]). split; [|split; [by apply near_progress|split; auto]].
  apply (settled_near m 0 x ls); [done|apply tree_slots; [apply Hse|apply mark_like]|done].
Qed.

Lemma wrote_remapped x y z C : wrote m (remapped x) C x y -> wrote m (remapped y) C y z -> wrote m (remapped x) C x z.
Proof.
  intros [A1 A2] [B1 B2]. split; [|auto]. assert (H : forall b w, leaf m (core y) b w -> remapped x b w) by (intros b w [?|?]%A1; [by exists w|done]).
  intros b w [Hb|(u & Hu & Eu)]%B1; right; [by apply H|]. destruct (H b u Hu) as (u' & ? & ?). exists u'. split; [done|congruence].
Qed.

Lemma walk_start v x gva : rooted v x -> exists sp, pages (core x) !! root_hpa v = Some sp /\ sp_level sp = 4 /\
  shadow_walk_init v gva = Ok (Walk gva (root_hpa v) 0 (sp_level sp) 0).
Proof.
  intros [_ [Hrl Hdm] (sp & Esp & _ & Hsl) _]. exists sp. split; [done|]. split; [done|]. unfold shadow_walk_init. rewrite Hrl, Hdm, Hsl. cbn [negb]. by rewrite !andb_false_r.
Qed.

(** [fast_page_fault] sets the writable bit of one entry at most. *)
Lemma fast_run v x ls gva level ec : settled m x ls None -> rooted v x ->
  exists b x', fast_page_fault m v gva level ec x = Ok (b, x') /\ settled m x' ls None /\ progress 0 0 x x' /\ wrote m (remapped x) (fun _ => True) x x' /\
    (page_fault_can_be_fast ec = false -> b = false).
Proof using Hm.
  intros Hse Hro. unfold fast_page_fault. rewrite (ro_hpa _ _ Hro). cbn [negb].
  assert (Hstay : forall b, (page_fault_can_be_fast ec = false -> b = false) -> exists b' x', (mret b : VM bool) x = Ok (b', x') /\ settled m x' ls None /\ progress 0 0 x x' /\
    wrote m (remapped x) (fun _ => True) x x' /\ (page_fault_can_be_fast ec = false -> b' = false)).
  { intros b Hb. exists b, x. split; [done|]. split; [done|]. split; [apply progress_refl|]. split; [apply wrote_refl|done]. }
  destruct (page_fault_can_be_fast ec) eqn:Ef; cbn [negb]; [|by apply Hstay]. clear Ef. destruct (walk_start v x gva Hro) as (sp & Esp & Hsl & Ei).
  rewrite (st_bind_Ok _ _ _ _ _ (lift_res_Ok _ x _ Ei)). set (stop := fun spte l => _).
  destruct (walk_run stop gva x ls (se_tree _ _ _ _ Hse) ltac:(intros w l Hw; unfold stop; by rewrite Hw) 3 5 _ sp 0 0 0 Esp ltac:(lia) ltac:(lia)) as (w & it & Ew & Em & [q Eq]).
  rewrite (st_bind_Ok _ _ _ _ _ Ew). unfold is_rmap_spte. destruct (is_shadow_present_pte m w) eqn:Hp; cbn [negb]; [|by apply Hstay].
  rewrite (st_bind_Ok _ _ _ _ _ (header_Ok _ _ _ Eq)). destruct (is_last_spte w (sp_level q)) eqn:Hla; cbn [negb]; [|by apply Hstay].
  destruct (is_writable_pte w) eqn:Hwr; [by apply Hstay|]. destruct (spte_is_locklessly_modifiable w) eqn:Hlk; cbn [negb]; [|by apply Hstay].
  destruct (Z.ltb_spec PT_PAGE_TABLE_LEVEL (sp_level q)) as [|Hl1]; [by apply Hstay|]. change PT_PAGE_TABLE_LEVEL with 1 in Hl1.
  pose proof (tr_pages _ _ _ _ (se_tree _ _ _ _ Hse) _ _ Eq) as Hpo. assert (Ha8 : sptep it mod 8 = 0) by (apply (tr_mem _ _ _ _ (se_tree _ _ _ _ Hse)); eauto).
  destruct (entry_at _ Ha8) as (_ & Hix & _). unfold fast_pf_fix_direct_spte. rewrite (st_bind_Ok _ _ _ _ _ (lift_res_Ok _ x _ (entry_gfn _ q _ Hpo ltac:(lia) Hix))).
  rewrite (st_bind_Ok _ _ _ _ _ (entry_Ok _ _ _ Em)), Z.eqb_refl.
  assert (Hlf : leaf m (core x) (sptep it) w) by (split; [done|]; split; [done|]; by exists q).
  destruct (revalue_run x ls (sptep it) w (Z.lor w PT_WRITABLE_MASK) Hse Hlf ltac:(by apply fast_fix)) as (H1 & H2 & H3).
  set (x1 := set_core _ x) in *. destruct (mark_run x1 ls (sp_gfn q + spt_index (sptep it) * frames (sp_level q)) H1) as (x2 & E2 & K1 & K2 & K3).
  rewrite st_bind_assoc, (st_bind_Ok _ _ x tt x1) by done. rewrite (st_bind_Ok _ _ _ _ _ E2). exists true, x2. split; [done|]. split; [done|].
  split; [by apply (progress_trans 0 0 0 0 x x1)|]. split; [by apply (wrote_remapped x x1)|done].
Qed.

End lockless.

(** ** Accesses without memory *)

(** Only the requests and the last access without memory are different. *)
Definition noted (x x' : mmu) : Prop :=
  exists rq info, x' = Mmu (core x) (mmu_page_hash x) (active_mmu_pages x) (zapped_obsolete_pages x) (n_used_mmu_pages x)
    (n_max_mmu_pages x) (indirect_shadow_pages x) (valid_gen x) (write_count x) (mmu_page_cache x) (mmu_page_header_cache x) rq info.

Lemma noted_refl x : noted x x.
Proof. exists (requests x), (mmio_info x). by destruct x. Qed.

Lemma noted_ok m x x' ls : noted x x' -> settled m x ls None -> settled m x' ls None /\ progress 0 0 x x' /\ core x' = core x.
Proof.
  intros (rq & info & ->) [Ht [T1 T2 T3 T4 T5 T6] Hact Hz Hroot Hinv]. split; [by split; [|split|..]|]. split; [|done].
  split; cbn; [reflexivity|done|done| |done|done|done|done|done|lia]. intros b q Eq. by exists q.
Qed.

Lemma mmio_run m v x ls gpa : settled m x ls None -> rooted v x ->
  exists r x', handle_mmio_page_fault_common m v gpa x = Ok (r, x') /\ noted x x'.
Proof.
  intros Hse Hro. unfold handle_mmio_page_fault_common. rewrite (st_bind_Ok _ _ x x x) by done.
  assert (Hstay : forall r, exists r' x', (mret r : VM Z) x = Ok (r', x') /\ noted x x') by (intros r; exists r, x; split; [done|apply noted_refl]).
  destruct (vcpu_match_mmio_gpa x gpa); [by apply Hstay|]. unfold walk_shadow_page_get_mmio_spte. rewrite (ro_hpa _ _ Hro). cbn [negb].
  destruct (walk_start v x gpa Hro) as (sp & Esp & Hsl & Ei). rewrite st_bind_assoc, (st_bind_Ok _ _ _ _ _ (lift_res_Ok _ x _ Ei)).
  set (stop := fun spte _ => _).
  destruct (walk_run m stop gpa x ls (se_tree _ _ _ _ Hse) ltac:(intros w l Hw; unfold stop; by rewrite Hw) 3 5 _ sp 0 0 0 Esp ltac:(lia) ltac:(lia)) as (w & it & Ew & _ & _).
  rewrite st_bind_assoc, (st_bind_Ok _ _ _ _ _ Ew), (st_bind_Ok _ _ x w x) by done.
  destruct (is_mmio_spte m w); [|destruct (negb _); by apply Hstay]. destruct (negb _); [by apply Hstay|].
  eexists _, _. split; [done|]. by eexists _, _.
Qed.

Lemma abnormal_run x gva gfn pfn acc : exists o x', handle_abnormal_pfn gva gfn pfn acc x = Ok (o, x') /\ noted x x' /\ (o = None <-> is_error_pfn pfn = false).
Proof.
  unfold handle_abnormal_pfn. destruct (is_error_pfn pfn).
  - unfold kvm_handle_bad_page. destruct (pfn =? KVM_PFN_ERR_RO_FAULT); [eexists _, x; split; [done|]; split; [apply noted_refl|done]|].
    destruct (pfn =? KVM_PFN_ERR_HWPOISON); [|eexists _, x; split; [done|]; split; [apply noted_refl|done]].
    eexists _, _. split; [done|]. split; [by eexists _, _|done].
  - destruct (is_noslot_pfn pfn); [eexists _, _; split; [done|]; split; [by eexists _, _|done]|].
    eexists _, x. split; [done|]. split; [apply noted_refl|done].
Qed.

(** ** Between two faults *)

Section sound.
  Context (m : shadow_masks) (Hm : direct_masks m) (host : Z -> Z -> Prop) (v : kvm_mmu).

(** The tables are in order, every leaf maps what the host has, and the limit
    of pages leaves room beside the roots. *)
Record steady (x : mmu) : Prop := {
  sd_ready : exists ls, ready m x ls;
  sd_laid : laid_out x;
  sd_backed : all_backed m host (core x);
  sd_limit : Z.of_nat (length (active_mmu_pages x)) <= n_max_mmu_pages x < 2 ^ 32;
  sd_roots : Z.of_nat (roots x) + KVM_REFILL_PAGES <= n_max_mmu_pages x;
  sd_orderly : orderly x
}.

(** The root of the processor is in place too. *)
Record sound (x : mmu) : Prop := {
  so_steady : steady x;
  so_rooted : rooted v x
}.

Lemma laid_like x x' : slots_like (slots (core x)) (slots (core x')) -> write_count x' = write_count x -> laid_out x -> laid_out x'.
Proof.
  intros [_ _ Hs _] Ec [H1 H2].
  assert (Hse : forall g sl, search_memslots (slots (core x')) g = Some sl -> exists sl0, search_memslots (slots (core x)) g = Some sl0 /\ same_slot sl0 sl).
  { intros g sl E. specialize (Hs g). rewrite E in Hs. destruct (search_memslots (slots (core x)) g) as [s|]; [eauto|done]. }
  split; intros g; [intros sl (sl0 & E0 & Hss)%Hse|intros lv sl (sl0 & E0 & Hss)%Hse].
  - destruct (H1 _ _ E0) as [? ?]. destruct Hss as (_ & _ & A3 & A4 & _). split; by rewrite ?A3, ?A4.
  - rewrite Ec, (same_slot_lpage _ _ _ _ Hss). intros Hl Hc. pose proof (H2 _ _ _ E0 Hl Hc) as Hf. destruct Hss as (_ & A2 & A3 & A4 & _). unfold fits in *. by rewrite A2, A3, A4.
Qed.

(** Steps that only add what is backed. *)
Lemma steady_progress np no C N x x' ls ls' : ready m x ls -> steady x -> progress np no x x' -> settled m x' ls' None -> wrote m N C x x' ->
  (forall b w, N b w -> leaf m (core x') b w -> fresh host x' b w) -> Z.of_nat (length (active_mmu_pages x')) <= n_max_mmu_pages x -> steady x'.
Proof.
  intros Hr [_ Hlay Hb Hli Hrt Hyo] Hp Hse Hw HN Hlen. destruct (pr_active _ _ _ _ Hp) as [_ Emx]. split.
  - exists ls'. by apply (ready_progress m np no x x' ls).
  - apply (laid_like x); [apply Hp|apply Hp|done].
  - assert (Hw' : wrote m (fresh host x') C x x').
    { destruct Hw as [W1 W2]. split; [|done]. intros b w Hl. destruct (W1 b w Hl); [by left|right; by apply HN]. }
    apply (wrote_backed m host np no C x x' ls); [apply Hr|done|done|done].
  - rewrite Emx. lia.
  - by rewrite Emx, (pr_roots _ _ _ _ Hp).
  - by apply Hp.
Qed.

Lemma sound_progress np no C N x x' ls ls' : ready m x ls -> sound x -> progress np no x x' -> settled m x' ls' None -> wrote m N C x x' ->
  (forall b w, N b w -> leaf m (core x') b w -> fresh host x' b w) -> Z.of_nat (length (active_mmu_pages x')) <= n_max_mmu_pages x -> sound x'.
Proof.
  intros Hr [Hs Hro] Hp Hse Hw HN Hlen. split; [by apply (steady_progress np no C N x x' ls ls')|by apply (rooted_progress v np no x)].
Qed.

Lemma remapped_fresh np no x x' ls b w : ready m x ls -> all_backed m host (core x) -> progress np no x x' -> remapped m x b w -> fresh host x' b w.
Proof.
  intros Hr Hb Hp (u & Hu & Eu). destruct (leaf_gfn m _ _ _ _ (se_tree _ _ _ _ (rd_settled _ _ _ Hr)) Hu) as [[g lv] Eg].
  apply (fresh_mono host np no x x' b w Hp). exists g, lv. split; [done|]. rewrite <- Eu. by apply (Hb b u).
Qed.

Lemma fewer_gfn k k' b : fewer m k k' -> is_Some (pages k' !! spt_of b) -> spte_gfn k' b = spte_gfn k b.
Proof.
  intros Hf [q Eq]. destruct (fe_pages _ _ _ Hf _ _ Eq) as (q0 & E0 & [S1 S2 S3 S4 _ _] & _). unfold spte_gfn. rewrite Eq, E0. cbn.
  unfold kvm_mmu_page_get_gfn. by rewrite S1, S2, S3, S4.
Qed.

Lemma roots_le x x' : (forall b, is_root x' b = true -> is_root x b = true) -> NoDup (active_mmu_pages x') -> (forall b, is_root x b = true -> b ∈ active_mmu_pages x) ->
  (roots x' <= roots x)%nat.
Proof.
  intros Hi Hn Ha. unfold roots, count. apply submseteq_length, NoDup_submseteq; [by apply NoDup_filter|].
  intros b [Hb Hin]%list_elem_of_filter. apply list_elem_of_filter. auto.
Qed.

Lemma uncrowded_fewer u k k' : fewer m k k' -> slots k' = slots k -> uncrowded m u k -> uncrowded m u k'.
Proof.
  intros Hf Hs Hu h l Hn Hl. apply (Hu h l Hn). intros b Hb. destruct (Hl b Hb) as [[w Hw] Hr]. split; [exists w; by apply (fewer_leaf m k k')|].
  rewrite <- Hr. unfold rmap_of. rewrite (fewer_gfn k k' b Hf), Hs; [done|]. destruct Hw as (_ & _ & q & Eq & _). by eexists.
Qed.

(** What is left of it while a page waits to be freed. *)
Record bare (x : mmu) : Prop := {
  ba_arrays : arrays x;
  ba_used : counted x;
  ba_slots : one_slot (slots (core x));
  ba_laid : laid_out x;
  ba_backed : all_backed m host (core x);
  ba_limit : Z.of_nat (length (active_mmu_pages x)) <= n_max_mmu_pages x < 2 ^ 32;
  ba_roots : Z.of_nat (roots x) + KVM_REFILL_PAGES <= n_max_mmu_pages x;
  ba_orderly : orderly x;
  ba_where spt : is_Some (pages (core x) !! spt) -> spt ∈ active_mmu_pages x
}.

Lemma steady_bare x : steady x -> bare x.
Proof. intros [[ls [Hse ? ? ?]] ? ? ? ? ?]. split; try done. apply (se_active _ _ _ _ Hse). Qed.

Lemma bare_steady x ls : settled m x ls None -> bare x -> steady x /\ ready m x ls.
Proof. intros Hse [? ? ? ? ? ? ? ? ?]. assert (ready m x ls) by by split. split; [|done]. split; try done. by exists ls. Qed.

Lemma room_bare x x' ls' : bare x -> settled m x' ls' None -> roomier m x x' -> steady x' /\ ready m x' ls'.
Proof.
  intros [[Ha1 Ha2] Hu H1 Hlay Hb Hli Hrt Hyo Hwh] Hse' [Hf Has Hr].
  assert (Hr' : ready m x' ls').
  { split; [done|split|by apply Has|by rewrite (as_slots _ _ Has)]; rewrite (as_slots _ _ Has); intros g lv sl Es Hlv; [apply (as_rmaps _ _ Has)|rewrite (as_counts _ _ Has)]; eauto. }
  assert (Hi : forall b, is_root x' b = true -> is_root x b = true).
  { intros b. unfold is_root. destruct (pages (core x') !! b) as [q|] eqn:Eq; [|done]. destruct (fe_pages _ _ _ Hf _ _ Eq) as (q0 & -> & _ & ->). done. }
  split; [|done]. split; [by exists ls'|..].
  - apply (laid_like x); [by rewrite (as_slots _ _ Has)|apply Has|done].
  - intros b w g lv Hlf Eg. rewrite (as_slots _ _ Has). pose proof Hlf as (_ & _ & q & Eq & _). apply (Hb b w); [by apply (fewer_leaf m (core x) (core x'))|].
    by rewrite <- (fewer_gfn (core x) (core x')) by (done || by eexists).
  - rewrite (as_max _ _ Has). pose proof (as_active _ _ Has). lia.
  - rewrite (as_max _ _ Has). pose proof (roots_le x x' Hi (tb_active_nodup _ (se_tables _ _ _ _ Hse'))) as Hle.
    enough (roots x' <= roots x)%nat by lia. apply Hle. intros b Hbr. apply Hwh. unfold is_root in Hbr. destruct (pages (core x) !! b); [by eexists|done].
  - by apply Has.
Qed.

Lemma room_steady x x' ls ls' : ready m x ls -> steady x -> settled m x' ls' None -> roomier m x x' -> steady x' /\ ready m x' ls'.
Proof. intros _ Hs%steady_bare. by apply room_bare. Qed.

Lemma room_rooted x x' : roomier m x x' -> rooted v x -> rooted v x'.
Proof.
  intros [_ _ Hr] [Hv Hmd (sp & Esp & Hg & Hl) Hc]. pose proof Hc as Hc'. unfold is_root in Hc'. rewrite Esp in Hc'.
  destruct (Hr _ _ Esp ltac:(lia)) as (sp' & Esp' & [G1 G2 _ _ _ _] & Er).
  split; [done|done|exists sp'; split; [done|]; split; congruence|]. unfold is_root. by rewrite Esp', Er.
Qed.

Lemma room_sound x x' ls ls' : ready m x ls -> sound x -> settled m x' ls' None -> roomier m x x' -> sound x' /\ ready m x' ls'.
Proof.
  intros Hr [Hs Hro] Hse Hrm. destruct (room_steady x x' ls ls' Hr Hs Hse Hrm) as [Hs' Hr']. split; [|done]. split; [done|by apply (room_rooted x)].
Qed.

End sound.

(** ** The fault *)

Section tdp.
  Context (m : shadow_masks) (Hm : direct_masks m) (e : env) (host : Z -> Z -> Prop).
  Context (v : kvm_mmu) (is_pae : bool) (sync : Z -> VM Z) (Hiv : invalid (base_role v) = false).

(** Turns enough to make room. *)
Definition zap_enough (fuel : nat) (x : mmu) : Prop := (S (length (active_mmu_pages x)) * S (length (active_mmu_pages x)) <= fuel)%nat.

(** No reverse map is near the length at which it is recycled. *)
Definition short_lists (x : mmu) : Prop := exists u, uncrowded m u (core x) /\ (u <= 992)%nat.

Lemma topped_ready x x' ls : ready m x ls -> settled m x' ls None -> topped_up x x' -> ready m x' ls.
Proof.
  intros [_ [A1 A2] Hu H1] Hse [E1 E2 E3 E4 E5 _ E6 [E7 E8]]. split; [done|split|unfold counted in *; congruence|by rewrite E1]; rewrite E1, ?E2, ?E5; done.
Qed.

Lemma topped_steady x x' ls : ready m x ls -> steady m host x -> settled m x' ls None -> topped_up x x' -> steady m host x' /\ (short_lists x -> short_lists x').
Proof.
  intros Hr [_ Hlay Hb Hli Hrt Hyo] Hse Ht. pose proof (topped_ready x x' ls Hr Hse Ht) as Hr'. pose proof Ht as [E1 E2 E3 E4 E5 Eg E6 [E7 E8]].
  assert (Hi : forall b, is_root x' b = is_root x b) by (intros b; unfold is_root; by rewrite E4).
  assert (Hlf : forall b w, leaf m (core x') b w <-> leaf m (core x) b w) by (intros b w; unfold leaf; by rewrite E3, E4).
  assert (Hgf : forall b, spte_gfn (core x') b = spte_gfn (core x) b) by (intros b; unfold spte_gfn; by rewrite E4). split; [split|].
  - by exists ls.
  - apply (laid_like x); [by rewrite E1|done|done].
  - intros b w g lv ?%Hlf. rewrite Hgf, E1. by apply Hb.
  - by rewrite E6, E8.
  - unfold roots. by rewrite E6, E8, (count_ext _ _ _ Hi).
  - intros b q. rewrite E4, Eg. apply Hyo.
  - intros (u & Hu & Hle). exists u. split; [|done]. intros h l Hnd Hl. apply (Hu h l Hnd). intros b Hbl. destruct (Hl b Hbl) as [[w Hw%Hlf] Hrm]. split; [by exists w|].
    rewrite <- Hrm. unfold rmap_of. by rewrite Hgf, E1.
Qed.

Lemma topped_sound x x' ls : ready m x ls -> sound m host v x -> settled m x' ls None -> topped_up x x' -> sound m host v x' /\ (short_lists x -> short_lists x').
Proof.
  intros Hr [Hs [Hv Hmd Hpg Hc]] Hse Ht. destruct (topped_steady x x' ls Hr Hs Hse Ht) as [Hs' Hsh]. split; [|done]. split; [done|].
  split; [done|done|by rewrite (tp_pages _ _ Ht)|]. unfold is_root in *. by rewrite (tp_pages _ _ Ht).
Qed.

Lemma noted_topped x x' : noted x x' -> topped_up x x' /\ mmu_page_cache x' = mmu_page_cache x /\ mmu_page_header_cache x' = mmu_page_header_cache x /\ lists (core x') = lists (core x).
Proof. by intros (rq & info & ->). Qed.

Lemma calm_short x x' : calm m 0 (fun _ => False) x x' -> short_lists x -> short_lists x'.
Proof. intros Hc (u & Hu & Hle). exists u. split; [|done]. destruct (Hc u Hu ltac:(lia)) as [Hu' _]. by rewrite Nat.add_0_r in Hu'. Qed.

Lemma map_locked_run fuel retry force write mw level gfn pfn prefault x : sound m host v x -> zap_enough fuel x -> 0 <= gfn < 2 ^ 36 -> 1 <= level <= 3 ->
  gfn mod frames level = 0 -> (retry = false -> target_ok host gfn level pfn (slots (core x))) -> unblocked x gfn level ->
  (3 <= length (mmu_page_cache x))%nat -> (3 <= mmu_page_header_cache x)%nat -> (12 <= length (objects (lists (core x))))%nat -> (retry = false -> locked_ok e host) ->
  exists r x', map_locked m e v is_pae sync fuel retry force write mw level gfn pfn prefault x = Ok (r, x') /\ sound m host v x' /\ dropped_ref e sync pfn x x' /\
    (retry = false -> pfn <> KVM_PFN_NOSLOT -> short_lists x -> forall j, 0 <= j < frames level -> translate m 5 (core x') (root_hpa v) 4 (gfn + j) = Some (pfn + j)).
Proof using Hm Hiv.
  intros Hs Hf Hg Hl Hal Ht Hub Hc1 Hc2 Hc3 Hh. pose proof Hs as [[[ls Hr] Hlay Hbk [Hli Hmx] Hrt _] Hro]. unfold map_locked. destruct retry.
  { rewrite (st_bind_Ok _ _ _ _ _ (release_run e x pfn)). exists 0. eexists. split; [done|]. split; [|split; [intros _ _ p; by apply (release_drops e pfn p x tt), release_run|done]].
    assert (Hto : told_only (core x) (released e pfn (core x))) by apply released_same.
    destruct (told_ok m x ls _ Hr Hto) as (Hr1 & Hp1 & Hw1 & _). apply (sound_progress m host v 0 0 (fun _ => True) _ x _ ls ls Hr Hs Hp1 (rd_settled _ _ _ Hr1) Hw1); [done|cbn; lia]. }
  specialize (Ht eq_refl). specialize (Hh eq_refl).
  destruct (make_available_run m fuel x ls (rd_settled _ _ _ Hr) (rd_used _ _ _ Hr) ltac:(lia) Hrt Hf) as (x1 & ls1 & E1 & Hse1 & Hrm & Hroom).
  rewrite (st_bind_Ok _ _ _ _ _ E1). destruct (room_sound m host v x x1 ls ls1 Hr Hs Hse1 Hrm) as [Hs1 Hr1]. pose proof Hrm as [Hfe Has _].
  rewrite <- (as_slots _ _ Has) in Ht. assert (Hub1 : unblocked x1 gfn level) by (unfold unblocked; by rewrite (as_slots _ _ Has), (as_counts _ _ Has)).
  destruct (as_caches _ _ Has) as [Ec1 Ec2]. rewrite <- Ec1 in Hc1. rewrite <- Ec2 in Hc2. rewrite <- (as_objects _ _ Has) in Hc3.
  pose proof (mk_slots _ _ _ (tr_mmu _ _ _ _ (se_tree _ _ _ _ Hse1))) as Hok1.
  assert (Hadj : exists gfn' pfn' level' k', (if negb force then transparent_hugepage_adjust e gfn pfn level else mret (gfn, pfn, level) : VM (Z * Z * Z)) x1 = Ok ((gfn', pfn', level'), set_core k' x1) /\
    told_only (core x1) k' /\ 1 <= level' <= 3 /\ gfn' mod frames level' = 0 /\ target_ok host gfn' level' pfn' (slots (core x1)) /\
    gfn' <= gfn /\ gfn + frames level <= gfn' + frames level' /\ pfn - pfn' = gfn - gfn' /\ unblocked x1 gfn' level' /\ (pfn = KVM_PFN_NOSLOT <-> pfn' = KVM_PFN_NOSLOT)).
  { destruct force; cbn [negb]; [exists gfn, pfn, level, (core x1); rewrite set_core_core; repeat split; try done; lia|].
    apply (adjust_run e host Hh x1 gfn pfn level); [apply Hr1|apply Hs1|done|apply Hr1|done..]. }
  destruct Hadj as (gfn' & pfn' & level' & k' & E2 & Hto & Hl' & Hal' & Ht' & Hge & Hend & Hdiff & Hub' & Hns). rewrite (st_bind_Ok _ _ _ _ _ E2).
  destruct (told_ok m x1 ls1 k' Hr1 Hto) as (Hr2 & Hp2 & Hw2 & Hca). pose proof (calm_short _ _ Hca) as Hsh2. set (x2 := set_core k' x1) in *.
  assert (Hs2 : sound m host v x2) by (apply (sound_progress m host v 0 0 (fun _ => True) _ x1 _ ls1 ls1 Hr1 Hs1 Hp2 (rd_settled _ _ _ Hr2) Hw2); [done|cbn; apply Hs1]).
  pose proof (tr_mmu _ _ _ _ (se_tree _ _ _ _ (rd_settled _ _ _ Hr2))) as Hmm2. destruct Hto as (T1 & T2 & T3 & T4 & T5).
  pose proof (frames_pos level' ltac:(lia)) as Hfp'. assert (Hg' : 0 <= gfn' < 2 ^ 36).
  { split; [|lia]. destruct (Z.lt_ge_cases gfn' 0) as [Hneg|]; [|done]. pose proof (Z.div_mod gfn' (frames level') ltac:(lia)) as Hd. pose proof (frames_pos level ltac:(lia)).
    assert (gfn' / frames level' < 0) by (apply Z.div_lt_upper_bound; lia). nia. }
  destruct (direct_map_run m e host Hm (lk_mt _ _ Hh) (lk_fast _ _ Hh) v is_pae sync Hiv x2 ls1 gfn' level' pfn' write mw prefault Hr2 (so_rooted _ _ _ _ Hs2) Hg' Hl' Hal')
    as (r & x3 & ls3 & E3 & Hr3 & Hp3 & Hw3 & Hrf3 & Htr); [by cbn..|cbn; by rewrite T4|cbn; by rewrite T1|].
  rewrite (st_bind_Ok _ _ _ _ _ E3). exists (Z.b2z r), x3. split; [done|]. split.
  { apply (sound_progress m host v 3 12 (above level' x2) (fresh host x3) x2 x3 ls1 ls3 Hr2 Hs2 Hp3 (rd_settled _ _ _ Hr3) Hw3); [done|].
    destruct (pr_active _ _ _ _ Hp3) as [Ha3 _]. cbn [x2 active_mmu_pages set_core n_max_mmu_pages] in *. rewrite (as_max _ _ Has). unfold KVM_MIN_FREE_MMU_PAGES in Hroom. lia. }
  split.
  { intros Hsy Hpc p. rewrite (Hrf3 Hsy Hpc p). apply (keeps_available m fuel) in E1.
    assert (E2' : bal p x2 - part e p pfn' = bal p x1 - part e p pfn) by (destruct force; cbn [negb] in E2; [injection E2 as _ <- _ <-; lia|by apply (adjust_bal e p _ _ _ _ _ _ _ _ E2)]).
    unfold bal in *. rewrite <- E1. lia. }
  intros _ Hne (u & Hu & Hu2) j Hj. replace (gfn + j) with (gfn' + (gfn - gfn' + j)) by lia. replace (pfn + j) with (pfn' + (gfn - gfn' + j)) by lia.
  apply Htr; [|lia]. split; [by rewrite <- Hns|]. split.
  { apply Hsh2. exists u. split; [|done]. by apply (uncrowded_fewer m u (core x)); [..|apply Has|]. }
  destruct Ht' as [?|[_ [_ Hb']]]; [tauto|]. destruct (Hb' 0 ltac:(lia)) as (sl & Es & _). rewrite Z.add_0_r in Es. exists sl. cbn [x2 core set_core]. rewrite T1. split; [done|].
  unfold blocked. destruct Hub' as [->|(s & Es' & Hc)]; [cbn; by rewrite andb_false_r|]. assert (s = sl) as -> by congruence. cbn [x2 write_count set_core]. rewrite Hc. cbn. by rewrite andb_false_r.
Qed.

(** Leaves with other bits. *)
Lemma remapped_sound x x' ls : ready m x ls -> sound m host v x -> settled m x' ls None -> progress 0 0 x x' -> wrote m (remapped m x) (fun _ => True) x x' ->
  sound m host v x' /\ ready m x' ls /\ (short_lists x -> short_lists x').
Proof.
  intros Hr Hs Hse Hp Hw. split; [|split; [by apply (ready_progress m 0 0 x x' ls)|]].
  - apply (sound_progress m host v 0 0 _ _ x x' ls ls Hr Hs Hp Hse Hw).
    + intros b w Hb _. by apply (remapped_fresh m host 0 0 x x' ls b w Hr (sd_backed _ _ _ (so_steady _ _ _ _ Hs)) Hp).
    + destruct (pr_active _ _ _ _ Hp) as [Ha _]. pose proof (sd_limit _ _ _ (so_steady _ _ _ _ Hs)). lia.
  - intros (u & Hu & Hle). exists u. split; [|done]. apply (uncrowded_kept m 0 0 x x' ls u); [apply Hr|done| |done].
    intros b w [?|(w' & ? & _)]%(wr_leaf _ _ _ _ _ Hw); eauto.
Qed.

Lemma chosen_like x x' g level gfn : slots_like (slots (core x)) (slots (core x')) -> write_count x' = write_count x -> chosen e x g level gfn -> chosen e x' g level gfn.
Proof.
  intros [_ _ Hs _] Ec (Hl & Eg & Hlg). split; [done|]. split; [done|]. intros H2. destruct (Hlg H2) as (Hsz & sl & Es & Hc). specialize (Hs g). rewrite Es in Hs.
  destruct (search_memslots (slots (core x')) g) as [s|] eqn:Es'; [|done]. split.
  - revert Hsz. unfold kvm_host_page_size, gfn_to_hva. rewrite Es, Es'. destruct Hs as (_ & A2 & _ & A4 & A5 & _). unfold __gfn_to_hva_many, memslot_is_readonly, __gfn_to_hva_memslot. by rewrite A2, A4, A5.
  - exists s. split; [done|]. by rewrite Ec, (same_slot_lpage _ _ _ _ Hs).
Qed.

(** The caches are full enough for a fault. *)
Definition stocked (x : mmu) : Prop :=
  (16 <= length (objects (lists (core x))))%nat /\ (8 <= length (mmu_page_cache x))%nat /\ (4 <= mmu_page_header_cache x)%nat.

Lemma prepare_run topup gpa ec x : sound m host v x -> alloc_ok topup x -> 1 <= lpage_level e <= 3 ->
  exists o x', tdp_prepare m e v topup gpa ec x = Ok (o, x') /\ sound m host v x' /\ (length (active_mmu_pages x') <= length (active_mmu_pages x))%nat /\
    (short_lists x -> short_lists x') /\ slots_like (slots (core x)) (slots (core x')) /\
    match o with inl _ => True | inr (force, level, gfn) => chosen e x' (Z.shiftr gpa PAGE_SHIFT) level gfn /\ stocked x' end /\
    (any ec PFERR_RSVD_MASK = false -> page_fault_can_be_fast ec = false -> (exists y, mmu_topup_memory_caches topup.1.1 topup.1.2 topup.2 x = Ok (0, y)) -> exists p, o = inr p).
Proof using Hm.
  intros Hs Hal Hle. pose proof Hs as [[[ls Hr] _ _ _ _ _] Hro]. unfold tdp_prepare. set (g := Z.shiftr gpa PAGE_SHIFT).
  assert (Hmm : exists r x1, (if any ec PFERR_RSVD_MASK then handle_mmio_page_fault_common m v gpa else mret RET_MMIO_PF_INVALID : VM Z) x = Ok (r, x1) /\ noted x x1 /\
    (any ec PFERR_RSVD_MASK = false -> r = RET_MMIO_PF_INVALID /\ x1 = x)).
  { destruct (any ec PFERR_RSVD_MASK); [|exists RET_MMIO_PF_INVALID, x; split; [done|]; split; [apply noted_refl|done]].
    destruct (mmio_run m v x ls gpa (rd_settled _ _ _ Hr) Hro) as (r & x1 & E & Hn). by exists r, x1. }
  destruct Hmm as (r & x1 & E1 & Hn & Hrs). rewrite (st_bind_Ok _ _ _ _ _ E1). destruct (noted_topped x x1 Hn) as (Ht1 & Ec1 & Ec2 & El1).
  destruct (noted_ok m x x1 ls Hn (rd_settled _ _ _ Hr)) as (Hse1 & _ & Eco). destruct (topped_sound x x1 ls Hr Hs Hse1 Ht1) as [Hs1 Hsh1].
  pose proof (topped_ready x x1 ls Hr Hse1 Ht1) as Hr1. pose proof (tp_active _ _ Ht1) as Eac1.
  destruct (Z.eqb_spec r RET_MMIO_PF_INVALID) as [->|Hne]; cbn [negb].
  2: { exists (inl r), x1. split; [done|]. split; [done|]. split; [by rewrite Eac1|]. split; [done|]. split; [by rewrite Eco|]. split; [done|]. intros H0. by destruct (Hrs H0). }
  assert (Hal1 : alloc_ok topup x1) by (destruct Hal as [A1 A2]; split; rewrite Eco, ?Ec1; done).
  destruct (topup_run m x1 ls topup Hse1 Hal1) as (r & x2 & E2 & Hse2 & Ht2 & Hst). rewrite (st_bind_Ok _ _ _ _ _ E2).
  destruct (topped_sound x1 x2 ls Hr1 Hs1 Hse2 Ht2) as [Hs2 Hsh2]. pose proof (topped_ready x1 x2 ls Hr1 Hse2 Ht2) as Hr2. pose proof (tp_active _ _ Ht2) as Eac2.
  destruct (Z.eqb_spec r 0) as [->|Hne]; cbn [negb].
  2: { exists (inl r), x2. split; [done|]. split; [done|]. split; [by rewrite Eac2, Eac1|]. split; [auto|]. split; [by rewrite (tp_slots _ _ Ht2), Eco|]. split; [done|]. intros H0 _ [y Ey]. destruct (Hrs H0) as [_ ->]. congruence. }
  destruct (choose_run e x2 g (rd_arrays _ _ _ Hr2) Hle) as (force & level & gfn & E3 & Hch & E4). rewrite (st_bind_Ok _ _ _ _ _ E3), (st_bind_Ok _ _ _ _ _ E4).
  destruct (fast_run m Hm v x2 ls gpa level ec Hse2 (so_rooted _ _ _ _ Hs2)) as (b & x3 & E5 & Hse3 & Hp3 & Hw3 & Hb). rewrite (st_bind_Ok _ _ _ _ _ E5).
  destruct (remapped_sound x2 x3 ls Hr2 Hs2 Hse3 Hp3 Hw3) as (Hs3 & _ & Hsh3). destruct (pr_active _ _ _ _ Hp3) as [Ha3 _]. destruct (pr_caches _ _ _ _ Hp3) as (C1 & C2 & C3).
  assert (Hlen : (length (active_mmu_pages x3) <= length (active_mmu_pages x))%nat) by (rewrite Eac2, Eac1 in Ha3; lia).
  destruct b; [exists (inl 0), x3|exists (inr (force, level, gfn)), x3]; (split; [done|]; split; [done|]; split; [done|]; split; [auto|]; split; [rewrite <- Eco, <- (tp_slots _ _ Ht2); apply Hp3|]).
  - split; [done|]. intros _ Hfa. by specialize (Hb Hfa).
  - split; [|eauto]. split; [apply (chosen_like x2); [apply Hp3|apply Hp3|done]|]. destruct (Hst eq_refl) as (S1 & S2 & S3). unfold stocked. lia.
Qed.

(** What the lookup of a frame may answer: an error, no memory, or the frame
    the host has. *)
Definition lookup_ok (k : kvm_memslots) (gfn pfn : Z) : Prop :=
  is_error_pfn pfn = true \/ pfn = KVM_PFN_NOSLOT \/
  0 <= pfn < 2 ^ 40 /\ exists sl, search_memslots k gfn = Some sl /\ host (__gfn_to_hva_memslot sl gfn) pfn.

Lemma error_noslot pfn : is_error_pfn pfn = true -> is_error_noslot_pfn pfn = true.
Proof.
  unfold is_error_pfn, is_error_noslot_pfn, any. rewrite !negb_true_iff, !Z.eqb_neq. intros H E. apply H.
  replace KVM_PFN_ERR_MASK with (Z.land KVM_PFN_ERR_NOSLOT_MASK KVM_PFN_ERR_MASK) by (vm_compute; reflexivity). by rewrite Z.land_assoc, E, Z.land_0_l.
Qed.

(** The frame is mapped, or the fault is tried again. *)
Lemma tdp_map_target fuel retry force write level gfn pfn mw prefault x : sound m host v x -> zap_enough fuel x -> 0 <= gfn < 2 ^ 36 -> 1 <= level <= 3 ->
  gfn mod frames level = 0 -> unblocked x gfn level -> stocked x -> (retry = false -> is_error_pfn pfn = false -> target_ok host gfn level pfn (slots (core x))) ->
  (retry = false -> locked_ok e host) ->
  exists r x', tdp_map m e v is_pae sync fuel retry force write level gfn pfn mw prefault x = Ok (r, x') /\ sound m host v x' /\ dropped_ref e sync pfn x x' /\
    (retry = false -> is_error_pfn pfn = false -> pfn <> KVM_PFN_NOSLOT -> short_lists x ->
     forall j, 0 <= j < frames level -> translate m 5 (core x') (root_hpa v) 4 (gfn + j) = Some (pfn + j)).
Proof using Hm Hiv.
  intros Hs Hf Hg Hl Hal Hub (S1 & S2 & S3) Ht Hh. pose proof Hs as [[[ls Hr] Hlay _ _ _ _] Hro].
  unfold tdp_map. destruct (abnormal_run x 0 gfn pfn ACC_ALL) as (o & x1 & E1 & Hn & Ho). rewrite (st_bind_Ok _ _ _ _ _ E1).
  destruct (noted_topped x x1 Hn) as (Ht1 & Ec1 & Ec2 & El1). destruct (noted_ok m x x1 ls Hn (rd_settled _ _ _ Hr)) as (Hse1 & _ & Eco).
  destruct (topped_sound x x1 ls Hr Hs Hse1 Ht1) as [Hs1 Hsh1]. destruct o as [r|].
  { exists r, x1. split; [done|]. split; [done|]. split; [|intros _ He; by apply Ho in He]. intros _ _ p. unfold bal. rewrite (abnormal_keeps _ _ _ _ _ _ _ E1).
    unfold part, counted_pfn. destruct (is_error_pfn pfn) eqn:He; [|discriminate (proj2 Ho eq_refl)]. rewrite (error_noslot pfn He). cbn. lia. }
  pose proof (proj1 Ho eq_refl) as He.
  destruct (map_locked_run fuel retry force write mw level gfn pfn prefault x1) as (r & x2 & E2 & Hs2 & Hrf & Htr); try done.
  - unfold zap_enough. by rewrite (tp_active _ _ Ht1).
  - rewrite Eco. auto.
  - unfold unblocked in *. by rewrite Eco, (tp_counts _ _ Ht1).
  - rewrite Ec1. lia.
  - rewrite Ec2. lia.
  - rewrite El1. lia.
  - exists r, x2. split; [done|]. split; [done|]. split; [|intros Hre _ Hne Hsh; apply Htr; auto]. intros Hsy Hpc p. rewrite (Hrf Hsy Hpc p). unfold bal. by rewrite (abnormal_keeps _ _ _ _ _ _ _ E1).
Qed.

(** Where a chosen page begins. *)
Lemma chosen_start x g level gfn : 0 <= g < 2 ^ 36 -> chosen e x g level gfn -> 1 <= level <= 3 /\ 0 <= gfn < 2 ^ 36 /\ gfn mod frames level = 0 /\ 0 <= g - gfn < frames level.
Proof.
  intros Hg (Hl & -> & _). pose proof (frames_le level Hl) as Hfr. pose proof (Z.mod_pos_bound g (frames level) ltac:(lia)) as Hmd.
  pose proof (Z.mod_le g (frames level) ltac:(lia) ltac:(lia)) as Hml. split; [done|]. split; [lia|]. split; [|lia].
  rewrite Zminus_mod, Z.mod_mod, Z.sub_diag by lia. by apply Zmod_0_l.
Qed.

Lemma tdp_map_run fuel retry force write level gfn pfn mw prefault g x : sound m host v x -> zap_enough fuel x -> 0 <= g < 2 ^ 36 ->
  chosen e x g level gfn -> stocked x -> lookup_ok (slots (core x)) gfn pfn -> host_ok e host ->
  exists r x', tdp_map m e v is_pae sync fuel retry force write level gfn pfn mw prefault x = Ok (r, x') /\ sound m host v x' /\ dropped_ref e sync pfn x x' /\
    (retry = false -> is_error_pfn pfn = false -> pfn <> KVM_PFN_NOSLOT -> short_lists x -> translate m 5 (core x') (root_hpa v) 4 g = Some (pfn + (g - gfn))).
Proof using Hm Hiv.
  intros Hs Hf Hg Hch Hst Hlk Hh. pose proof Hs as [[[ls Hr] Hlay _ _ _ _] Hro]. destruct (chosen_start x g level gfn Hg Hch) as (Hl & Hg' & Hal & Hd).
  pose proof (mk_slots _ _ _ (tr_mmu _ _ _ _ (se_tree _ _ _ _ (rd_settled _ _ _ Hr)))) as Hok.
  destruct (tdp_map_target fuel retry force write level gfn pfn mw prefault x) as (r & x2 & E2 & Hs2 & Hrf & Htr); try done.
  - exact (chosen_unblocked e x g level gfn (rd_slots _ _ _ Hr) Hlay Hch).
  - intros _ He. destruct Hlk as [?|[?|[Hp (sl & Es & Hh')]]]; [congruence|by left|]. right. split; [done|].
    by apply (chosen_backed e host x g level gfn sl pfn (ho_area _ _ Hh) Hok (rd_slots _ _ _ Hr)).
  - intros _. apply Hh.
  - exists r, x2. split; [done|]. split; [done|]. split; [done|]. intros Hre He Hne Hsh. replace g with (gfn + (g - gfn)) at 1 by lia. by apply Htr.
Qed.

End tdp.

Lemma lookup_like host k k' gfn pfn : slots_like k k' -> lookup_ok host k gfn pfn -> lookup_ok host k' gfn pfn.
Proof.
  intros [_ _ Hs _] [?|[?|[Hp (sl & Es & Hh)]]]; [by left|right; by left|]. right. right. split; [done|]. specialize (Hs gfn). rewrite Es in Hs.
  destruct (search_memslots k' gfn) as [s|]; [|done]. exists s. split; [done|]. destruct Hs as (_ & A2 & _ & A4 & _). unfold __gfn_to_hva_memslot in *. by rewrite A2, A4.
Qed.

(** The frame a fault goes on with is in the slot. *)
Lemma chosen_covers e x g level gfn sl : slots_ok (slots (core x)) -> laid_out x -> chosen e x g level gfn -> search_memslots (slots (core x)) g = Some sl -> covers sl gfn = true.
Proof.
  intros Hok Hlay (Hl & -> & Hlg) Es. destruct (search_Some _ _ _ Hok Es) as [_ Hc]. destruct (Z.eq_dec level 1) as [->|Hne]; [change (frames 1) with 1; by rewrite Z.mod_1_r, Z.sub_0_r|].
  destruct (Hlg ltac:(lia)) as (_ & s & Es' & Hcn). assert (s = sl) as -> by congruence. destruct (lo_fit _ Hlay g level sl Es ltac:(lia) Hcn) as (_ & H1 & H2 & _).
  pose proof (frames_le level Hl). unfold covers. lia.
Qed.

(** What the processor reads from sound tables. *)
Lemma sound_reads m host v x g p : sound m host v x -> 0 <= g < 2 ^ 36 -> translate m 5 (core x) (root_hpa v) 4 g = Some p -> covered host (core x) g p.
Proof.
  intros [[[ls Hr] _ Hb _ _ _] [_ _ (sp & Esp & Hsg & Hsl) _]] Hg E. rewrite <- Hsl in E.
  apply (translate_covered m host 5 (core x) ls (root_hpa v) sp g p); [apply Hr|done|done|by rewrite Hsg, Hsl, start_root|done].
Qed.
