(* ===== verification/MmuRoots.v ===== *)
(** * Roots of the page tables (kvm-kmod x86/mmu.c, x86/mmu.h, x86/x86.c)

    A virtual processor gets its root when it is about to run without one,
    and gives it up when it is reset or asked to reload: a direct map has one
    root at frame 0, a shadow one for the guest table in CR3 or four for a
    table of 32 bits.  A root that was zapped while in use goes with its last
    user. *)

From S2P Require Import Prelude MemSlots Spte PteList Rmap ShadowPages ShadowSpec RoomSpec DirectMap DirectSpec DirectSet DirectFault DirectTdp.

(** ** Pages out of step below a root *)

Section sync.
  Context (m : shadow_masks) (is_pae : bool) (sync_page : Z -> VM Z).

Definition kvm_sync_page (spt : Z) (invalid_list : list Z) : VM (Z * list Z) := __kvm_sync_page m is_pae sync_page spt invalid_list true.

(** [for_each_sp] with [rmap_write_protect]: whether one was writable. *)
Fixpoint protect_each (fuel : nat) (pvec : kvm_mmu_pages) (i : nat) (parents : mmu_page_path) (protected : bool) : VM (mmu_page_path * bool) :=
  match fuel with
  | O => lift_res (Err OutOfFuel)
  | S fuel =>
      match pvec !! i with
      | None => mret (parents, protected)
      | Some (spt, _) =>
          sp ← header spt;
          b ← on_core (rmap_write_protect m (sp_gfn sp));
          '(i, parents) ← mmu_pages_next (drop (S i) pvec) (S i) parents;
          protect_each fuel pvec i parents (protected || b)
      end
  end.

Fixpoint sync_each (fuel : nat) (pvec : kvm_mmu_pages) (i : nat) (parents : mmu_page_path) (invalid_list : list Z) : VM (mmu_page_path * list Z) :=
  match fuel with
  | O => lift_res (Err OutOfFuel)
  | S fuel =>
      match pvec !! i with
      | None => mret (parents, invalid_list)
      | Some (spt, _) =>
          '(_, invalid_list) ← kvm_sync_page spt invalid_list;
          mmu_pages_clear_parents parents ;;
          '(i, parents) ← mmu_pages_next (drop (S i) pvec) (S i) parents;
          sync_each fuel pvec i parents invalid_list
      end
  end.

(** [while (mmu_unsync_walk(parent, &pages))] *)
Fixpoint sync_children_loop (rounds : nat) (spt : Z) (parents : mmu_page_path) (pvec : kvm_mmu_pages) : VM unit :=
  match rounds with
  | O => lift_res (Err OutOfFuel)
  | S rounds =>
      '(r, pvec) ← mmu_unsync_walk m spt pvec;
      if r =? 0 then mret tt
      else
        '(i, parents) ← mmu_pages_next pvec 0 parents;
        '(parents, protected) ← protect_each (S KVM_PAGE_ARRAY_NR) pvec i parents false;
        (if protected : bool then on_core kvm_flush_remote_tlbs else mret tt) ;;
        '(i, parents) ← mmu_pages_next pvec 0 parents;
        '(parents, invalid_list) ← sync_each (S KVM_PAGE_ARRAY_NR) pvec i parents [];
        kvm_mmu_commit_zap_page invalid_list ;;
        '(parents, pvec) ← kvm_mmu_pages_init spt parents;
        sync_children_loop rounds spt parents pvec
  end.

Definition mmu_sync_children (rounds : nat) (spt : Z) : VM unit :=
  '(parents, pvec) ← kvm_mmu_pages_init spt new_path;
  sync_children_loop rounds spt parents pvec.

(** [vcpu_clear_mmio_info(vcpu, ~0ul)] *)
Definition vcpu_clear_mmio_info : VM unit :=
  change (fun x => Mmu (core x) (mmu_page_hash x) (active_mmu_pages x) (zapped_obsolete_pages x) (n_used_mmu_pages x)
    (n_max_mmu_pages x) (indirect_shadow_pages x) (valid_gen x) (write_count x) (mmu_page_cache x)
    (mmu_page_header_cache x) (requests x) (0, (mmio_info x).1.2, (mmio_info x).2)).

Fixpoint sync_pae_roots (rounds : nat) (l : list Z) : VM unit :=
  match l with
  | [] => mret tt
  | root :: l =>
      (if negb (root =? 0) && VALID_PAGE root then mmu_sync_children rounds (spt_of (Z.land root PT64_BASE_ADDR_MASK)) else mret tt) ;;
      sync_pae_roots rounds l
  end.

Definition mmu_sync_roots (v : kvm_mmu) (rounds : nat) : VM unit :=
  if direct_map v then mret tt
  else if negb (VALID_PAGE (root_hpa v)) then mret tt
  else
    vcpu_clear_mmio_info ;;
    if root_level v =? PT64_ROOT_LEVEL then mmu_sync_children rounds (spt_of (root_hpa v))
    else sync_pae_roots rounds (pae_root v).

(** ** Allocation *)

Definition mmu_check_root (root_gfn : Z) : VM Z :=
  x ← state;
  if negb (kvm_is_visible_gfn (slots (core x)) root_gfn) then change (add_request TRIPLE_FAULT) ;; mret 1 else mret 0.

Definition is_present_gpte (pte : Z) : bool := any pte PT_PRESENT_MASK.

(** The registers of the guest: CR3 and the four entries it loads under PAE. *)
Context (cr3 : Z) (pdptrs : list Z).

(** The loop over the four roots; [root_gfn] is that of CR3 until an entry
    replaces it.  The value and the roots so far. *)
Fixpoint shadow_pae_roots (v : kvm_mmu) (zap_fuel : nat) (pm_mask root_gfn : Z) (l : list Z) (roots : list Z) : VM (Z * list Z) :=
  match l with
  | [] => mret (0, roots)
  | i :: l =>
      let get root_gfn :=
        root ← get_root m v is_pae sync_page zap_fuel root_gfn (u32 (Z.shiftl i 30)) PT32_ROOT_LEVEL false;
        shadow_pae_roots v zap_fuel pm_mask root_gfn l (<[Z.to_nat i := Z.lor root pm_mask]> roots) in
      if root_level v =? PT32E_ROOT_LEVEL then
        pdptr ← on_core (known (pdptrs !! Z.to_nat i));
        if negb (is_present_gpte pdptr) then shadow_pae_roots v zap_fuel pm_mask root_gfn l (<[Z.to_nat i := 0]> roots)
        else
          let root_gfn := Z.shiftr pdptr PAGE_SHIFT in
          r ← mmu_check_root root_gfn;
          if negb (r =? 0) then mret (1, roots) else get root_gfn
      else get root_gfn
  end.

(** [lm_root] with its first entry; [page] is what [get_zeroed_page] gives. *)
Definition mmu_alloc_shadow_roots (v : kvm_mmu) (zap_fuel : nat) (lm_root : option (Z * Z)) (page : Z) : VM (Z * kvm_mmu * option (Z * Z)) :=
  let root_gfn := Z.shiftr cr3 PAGE_SHIFT in
  r ← mmu_check_root root_gfn;
  if negb (r =? 0) then mret (1, v, lm_root)
  else if root_level v =? PT64_ROOT_LEVEL then
    root ← get_root m v is_pae sync_page zap_fuel root_gfn 0 PT64_ROOT_LEVEL false;
    mret (0, with_root v root (pae_root v), lm_root)
  else
    let pm_mask := if shadow_root_level v =? PT64_ROOT_LEVEL
                   then Z.lor PT_PRESENT_MASK (Z.lor (Z.lor PT_ACCESSED_MASK PT_WRITABLE_MASK) PT_USER_MASK) else PT_PRESENT_MASK in
    '(r, roots) ← shadow_pae_roots v zap_fuel pm_mask root_gfn [0; 1; 2; 3] (pae_root v);
    if negb (r =? 0) then mret (1, with_root v (root_hpa v) roots, lm_root)
    else
      let v := with_root v (pae_root_pa v) roots in
      if shadow_root_level v =? PT64_ROOT_LEVEL then
        match lm_root with
        | Some (lm, _) => mret (0, with_root v lm roots, lm_root)
        | None =>
            if page =? 0 then mret (1, v, None)
            else mret (0, with_root v page roots, Some (page, Z.lor (pae_root_pa v) pm_mask))
        end
      else mret (0, v, lm_root).

Definition mmu_alloc_roots (v : kvm_mmu) (zap_fuel : nat) (lm_root : option (Z * Z)) (page : Z) : VM (Z * kvm_mmu * option (Z * Z)) :=
  if direct_map v then v ← mmu_alloc_direct_roots m v is_pae sync_page zap_fuel; mret (0, v, lm_root)
  else mmu_alloc_shadow_roots v zap_fuel lm_root page.

(** ** Loading and unloading *)

(** [set_cr3] gives the root to the processor. *)
Definition kvm_mmu_load (v : kvm_mmu) (topup : list Z * list Z * nat) (zap_fuel rounds : nat) (lm_root : option (Z * Z)) (page : Z) :
    VM (Z * kvm_mmu * option (Z * Z)) :=
  r ← mmu_topup_memory_caches topup.1.1 topup.1.2 topup.2;
  if negb (r =? 0) then mret (r, v, lm_root)
  else
    '(r, v, lm_root) ← mmu_alloc_roots v zap_fuel lm_root page;
    mmu_sync_roots v rounds ;;
    mret (r, v, lm_root).

Definition kvm_mmu_unload (v : kvm_mmu) : VM kvm_mmu := mmu_free_roots m v.

Definition kvm_mmu_reload (v : kvm_mmu) (topup : list Z * list Z * nat) (zap_fuel rounds : nat) (lm_root : option (Z * Z)) (page : Z) :
    VM (Z * kvm_mmu * option (Z * Z)) :=
  if negb (root_hpa v =? INVALID_PAGE) then mret (0, v, lm_root)
  else kvm_mmu_load v topup zap_fuel rounds lm_root page.

(** The mode of two-dimensional paging; [tdp_level] is the depth the
    processor has. *)
Definition init_kvm_tdp_mmu (tdp_level : Z) (is_paging is_long_mode : bool) (v : kvm_mmu) : kvm_mmu :=
  let root_level := if negb is_paging then 0 else if is_long_mode then PT64_ROOT_LEVEL
                    else if is_pae then PT32E_ROOT_LEVEL else PT32_ROOT_LEVEL in
  Mode INVALID_PAGE root_level tdp_level zero_role true (pae_root v) (pae_root_pa v).

(** [kvm_mmu_reset_context] where [init_kvm_mmu] is that of the mode. *)
Definition kvm_mmu_reset_context (init_kvm_mmu : kvm_mmu -> kvm_mmu) (v : kvm_mmu) : VM kvm_mmu :=
  v ← kvm_mmu_unload v; mret (init_kvm_mmu v).

(** A page that was waited for is there: the fault is taken ahead of the
    guest.  [page_fault] is the method of the mode; [work_direct] and
    [work_cr3] are those of the time the wait began. *)
Definition kvm_arch_async_page_ready (page_fault : kvm_mmu -> Z -> Z -> bool -> VM Z) (v : kvm_mmu) (topup : list Z * list Z * nat)
    (zap_fuel rounds : nat) (lm_root : option (Z * Z)) (page : Z) (work_direct wakeup_all : bool) (work_cr3 gva : Z) :
    VM (kvm_mmu * option (Z * Z)) :=
  if negb (Bool.eqb (direct_map v) work_direct) || wakeup_all then mret (v, lm_root)
  else
    '(r, v, lm_root) ← kvm_mmu_reload v topup zap_fuel rounds lm_root page;
    if negb (r =? 0) then mret (v, lm_root)
    else if negb (direct_map v) && negb (work_cr3 =? cr3) then mret (v, lm_root)
    else page_fault v gva 0 true ;; mret (v, lm_root).

End sync.

(** ** Users of a root *)

Section users.
  Context (m : shadow_masks) (Hm : direct_masks m) (host : Z -> Z -> Prop).

Definition reroot (spt : Z) (sp : kvm_mmu_page) (n : Z) (x : mmu) : mmu := set_core (set_pages (<[spt := with_roots n sp]>) (core x)) x.

Lemma reroot_pages spt sp n x b q : pages (core x) !! spt = Some sp -> pages (core (reroot spt sp n x)) !! b = Some q ->
  exists q0, pages (core x) !! b = Some q0 /\ same_page q0 q /\ role q = role q0 /\ mmu_valid_gen q = mmu_valid_gen q0 /\
    (b = spt /\ q0 = sp /\ root_count q = n \/ b <> spt /\ root_count q = root_count q0).
Proof.
  intros Esp. cbn. rewrite lookup_insert. case_decide as Eb.
  - intros [= <-]. subst b. exists sp. split; [done|]. split; [done|]. split; [done|]. split; [done|]. by left.
  - intros Eq. exists q. split; [done|]. split; [done|]. split; [done|]. split; [done|]. right. split; [congruence|done].
Qed.

Lemma reroot_is spt sp n x b : pages (core x) !! spt = Some sp -> is_Some (pages (core (reroot spt sp n x)) !! b) <-> is_Some (pages (core x) !! b).
Proof. intros Esp. cbn. rewrite lookup_insert. case_decide; [subst b; rewrite Esp; split; eauto|done]. Qed.

Lemma reroot_tree spt sp n x ls : tree m (core x) ls None -> pages (core x) !! spt = Some sp -> tree m (core (reroot spt sp n x)) ls None.
Proof. intros Ht Esp. by apply (tree_update m _ _ _ _ sp). Qed.

Lemma reroot_tables spt sp n x : tables x -> pages (core x) !! spt = Some sp -> tables (reroot spt sp n x).
Proof.
  intros Hb Esp. apply (tables_core x _ Hb); [|intros b; by apply reroot_is].
  intros b q (q0 & E0 & [Eg _ _ _ _ _] & _)%(reroot_pages _ _ _ _ _ _ Esp). by exists q0.
Qed.

Lemma reroot_settled spt sp n x ls : settled m x ls None -> pages (core x) !! spt = Some sp -> (n <> 0 -> sp_level sp = 4) ->
  (invalid (role sp) = true -> n <> 0) -> settled m (reroot spt sp n x) ls None.
Proof.
  intros [Ht Hb Hact Hz Hroot Hinv] Esp Hl Hi. split; [by apply reroot_tree|by apply reroot_tables|..].
  - intros b Hs. apply Hact. by apply (reroot_is spt sp n).
  - done.
  - intros b q (q0 & E0 & [_ S2 _ _ _ _] & _ & _ & Hc)%(reroot_pages _ _ _ _ _ _ Esp). rewrite S2.
    destruct Hc as [(_ & -> & ->)|[_ ->]]; [done|by apply (Hroot b)].
  - intros b q (q0 & E0 & _ & -> & _ & Hc)%(reroot_pages _ _ _ _ _ _ Esp). destruct Hc as [(_ & -> & ->)|[_ ->]]; [done|by apply (Hinv b)].
Qed.

Lemma reroot_bare spt sp n x : bare m host x -> pages (core x) !! spt = Some sp -> 0 <= n -> Z.of_nat (roots (reroot spt sp n x)) + KVM_REFILL_PAGES <= n_max_mmu_pages x ->
  bare m host (reroot spt sp n x).
Proof.
  intros [Ha Hu H1 Hlay Hb Hli _ Hyo Hwh] Esp Hn Hr. split; [by destruct Ha; split|exact Hu|exact H1|by destruct Hlay; split| |exact Hli|exact Hr|..].
  - intros b w g lv (Ew & Hw & q & Eq & Hq) Eg. pose proof Eq as (q0 & E0 & [S1 S2 S3 S4 _ _] & _)%(reroot_pages _ _ _ _ _ _ Esp).
    apply (Hb b w); [split; [done|]; split; [done|]; exists q0; by rewrite <- S2|]. unfold spte_gfn in *. rewrite Eq in Eg. rewrite E0, <- Eg. cbn.
    unfold kvm_mmu_page_get_gfn. by rewrite S1, S2, S3, S4.
  - intros b q (q0 & E0 & [S1 S2 _ _ _ _] & _ & Eg & Hc)%(reroot_pages _ _ _ _ _ _ Esp). destruct (Hyo b q0 E0) as [R1 R2 R3]. split; [by rewrite Eg| |by rewrite S1, S2]. destruct Hc as [(_ & _ & ->)|[_ ->]]; done.
  - intros b Hs. apply Hwh. by apply (reroot_is spt sp n).
Qed.

(** One root more at most. *)
Lemma reroot_more spt sp n x : NoDup (active_mmu_pages x) -> pages (core x) !! spt = Some sp -> (roots (reroot spt sp n x) <= S (roots x))%nat.
Proof.
  intros Hn Esp. unfold roots, count. change (S (length ?l)) with (length (spt :: l)). apply submseteq_length, NoDup_submseteq; [by apply NoDup_filter|].
  intros b [Hb Hin]%list_elem_of_filter. apply elem_of_cons. destruct (decide (b = spt)) as [|Hne]; [by left|right]. apply list_elem_of_filter. split; [|done].
  revert Hb. unfold is_root. cbn. by rewrite lookup_insert_ne.
Qed.

Lemma reroot_less spt sp n x : NoDup (active_mmu_pages x) -> pages (core x) !! spt = Some sp -> is_root x spt = true -> (forall b, is_Some (pages (core x) !! b) -> b ∈ active_mmu_pages x) ->
  (roots (reroot spt sp n x) <= roots x)%nat.
Proof.
  intros Hn Esp Hs Ha. apply roots_le; [|done|].
  - intros b. unfold is_root in *. cbn. rewrite lookup_insert. case_decide; [by subst b|done].
  - intros b Hb. apply Ha. unfold is_root in Hb. destruct (pages (core x) !! b); [by eexists|done].
Qed.

(** A page made or found adds no leaf. *)
Lemma grew_wrote x x' ls : tree m (core x) ls None -> grew m x x' -> wrote m (fun _ _ => False) (fun _ => True) x x'.
Proof.
  intros Ht Hg. split.
  - intros b u (Eu & Hu & q & Eq & Hq). left. pose proof (gr_mem _ _ _ Hg _ _ Eu Hu) as Eu0. split; [done|]. split; [done|].
    destruct (present_cases _ _ _ _ _ _ Ht Eu0 Hu) as (q0 & Eq0 & _). exists q0. split; [done|]. destruct (gr_pages _ _ _ Hg _ _ Eq0) as (q' & Eq' & [_ F2 _ _ _ _] & _).
    assert (q' = q) as -> by congruence. by rewrite <- F2.
  - intros b u (Eu & Hu & q & Eq & Hq) _. destruct (gr_pages _ _ _ Hg _ _ Eq) as (q' & Eq' & [_ F2 _ _ _ _] & _).
    split; [by apply (gr_keep _ _ _ Hg)|]. split; [done|]. exists q'. by rewrite F2.
Qed.

Lemma roomier_roots x x' ls ls' : settled m x ls None -> settled m x' ls' None -> roomier m x x' -> (roots x' <= roots x)%nat.
Proof.
  intros Hse Hse' Hrm. apply roots_le; [|apply (tb_active_nodup _ (se_tables _ _ _ _ Hse'))|].
  - intros b. unfold is_root. destruct (pages (core x') !! b) as [q|] eqn:Eq; [|done]. destruct (fe_pages _ _ _ (rm_fewer _ _ _ Hrm) _ _ Eq) as (q0 & -> & _ & ->). done.
  - intros b Hb. apply (se_active _ _ _ _ Hse). unfold is_root in Hb. destruct (pages (core x) !! b); [by eexists|done].
Qed.

Section alloc.
  Context (v : kvm_mmu) (is_pae : bool) (sync : Z -> VM Z) (Hv : shadow_root_level v = 4 /\ direct_map v = true) (Hiv : invalid (base_role v) = false).

(** A processor gets its root. *)
Lemma alloc_root_run fuel x : steady m host x -> zap_enough fuel x -> Z.of_nat (roots x) + 1 + KVM_REFILL_PAGES <= n_max_mmu_pages x ->
  mmu_page_cache x <> [] -> mmu_page_header_cache x <> O ->
  exists root x', mmu_alloc_direct_roots m v is_pae sync fuel x = Ok (with_root v root (pae_root v), x') /\ sound m host (with_root v root (pae_root v)) x' /\
    exists sp, pages (core x') !! root = Some sp /\ invalid (role sp) = false.
Proof using Hm Hv Hiv.
  intros Hs Hf Hrt Hc1 Hc2. pose proof Hs as [[ls Hr] _ _ Hli _ _]. unfold mmu_alloc_direct_roots. rewrite (proj1 Hv). change (4 =? PT64_ROOT_LEVEL) with true. cbn [andb]. unfold get_root.
  destruct (make_available_run m fuel x ls (rd_settled _ _ _ Hr) (rd_used _ _ _ Hr) Hli ltac:(lia) Hf) as (x1 & ls1 & E1 & Hse1 & Hrm & Hroom).
  destruct (room_steady m host x x1 ls ls1 Hr Hs Hse1 Hrm) as [Hs1 Hr1]. pose proof Hrm as [_ Has _]. destruct (as_caches _ _ Has) as [Ec1 Ec2].
  rewrite !st_bind_assoc, (st_bind_Ok _ _ _ _ _ E1).
  destruct (get_page_run m v is_pae sync x1 ls1 0 0 0 4 Hse1) as (spt & c & x2 & ls2 & E2 & Hse2 & Esp & Hg & Hl & _ & Hi & Hgr);
    [by left|congruence|congruence|lia|lia|by vm_compute|done|done|]. change (pend_of spt 0) with (@None (Z * Z)) in Hse2. change PT64_ROOT_LEVEL with 4. rewrite st_bind_assoc, (st_bind_Ok _ _ _ _ _ E2).
  pose proof (grew_progress m x1 x2 Hgr) as Hp. pose proof (grew_wrote x1 x2 ls1 (se_tree _ _ _ _ Hse1) Hgr) as Hw.
  assert (Hs2 : steady m host x2).
  { apply (steady_progress m host 1 1 (fun _ => True) (fun _ _ => False) x1 x2 ls1 ls2 Hr1 Hs1 Hp Hse2 Hw); [done|]. destruct (pr_active _ _ _ _ Hp) as [Ha _].
    rewrite (as_max _ _ Has). unfold KVM_MIN_FREE_MMU_PAGES in Hroom. lia. }
  destruct (tree_page _ _ _ _ _ _ (se_tree _ _ _ _ Hse2) Esp) as [Es _]. pose proof Esp as Esp'. rewrite <- Es in Esp'.
  rewrite st_bind_assoc, (st_bind_Ok _ _ _ _ _ (header_Ok _ _ _ Esp')), st_bind_assoc, (st_bind_Ok _ _ _ _ _ (update_Ok _ spt c _ Esp Es)). fold (reroot spt c (root_count c + 1) x2).
  set (x3 := reroot spt c (root_count c + 1) x2). exists spt, x3. split; [done|].
  pose proof (rg_users _ _ (sd_orderly _ _ _ Hs2 _ _ Esp)) as Hrc.
  assert (Hse3 : settled m x3 ls2 None) by (apply reroot_settled; [done|done|done|congruence]).
  assert (Hb3 : bare m host x3).
  { apply reroot_bare; [by apply steady_bare|done|lia|]. pose proof (reroot_more spt c (root_count c + 1) x2 (tb_active_nodup _ (se_tables _ _ _ _ Hse2)) Esp) as Hmore.
    pose proof (pr_roots _ _ _ _ Hp) as Er. destruct (pr_active _ _ _ _ Hp) as [_ Em]. rewrite Em, (as_max _ _ Has).
    pose proof (roomier_roots x x1 ls ls1 (rd_settled _ _ _ Hr) Hse1 Hrm). lia. }
  assert (E3 : pages (core x3) !! spt = Some (with_roots (root_count c + 1) c)) by apply lookup_insert_eq.
  split; [split; [by apply (bare_steady m host x3 ls2)|split]|].
  - destruct (tr_pages _ _ _ _ (se_tree _ _ _ _ Hse2) _ _ Esp) as [[Hpos Hal] _ _ _ _]. cbn [root_hpa with_root]. unfold VALID_PAGE, INVALID_PAGE. lia.
  - done.
  - exists (with_roots (root_count c + 1) c). by split.
  - unfold is_root. cbn [root_hpa with_root]. rewrite E3. cbn. lia.
  - eexists. by split.
Qed.

End alloc.

(** The last user of a zapped root is gone: the page is zapped again, and
    freed now. *)
Lemma zap_root_run x ls spt sp : settled m x ls None -> pages (core x) !! spt = Some sp ->
  let y := reroot spt sp 0 x in
  exists l y1 x' ls', kvm_mmu_prepare_zap_page m spt [] y = Ok ((1, l), y1) /\ kvm_mmu_commit_zap_page l y1 = Ok (tt, x') /\ settled m x' ls' None /\ roomier m y x'.
Proof.
  intros [Ht Hb Hact Hz Hroot Hinv] Esp y. assert (Ey : pages (core y) !! spt = Some (with_roots 0 sp)) by apply lookup_insert_eq.
  assert (Hzb : zapping_but m (Some spt) y ls []).
  { split; [by apply reroot_tree|by apply reroot_tables|..].
    - intros b q (q0 & E0 & [_ S2 _ _ _ _] & _ & _ & Hc)%(reroot_pages _ _ _ _ _ _ Esp). rewrite S2. destruct Hc as [(_ & _ & ->)|[_ ->]]; [done|by apply (Hroot b)].
    - split; [apply NoDup_nil_2|]. intros b Hb'. by apply not_elem_of_nil in Hb'.
    - intros b Hs. left. apply Hact. by apply (reroot_is spt sp 0).
    - intros b q Hb'. by apply not_elem_of_nil in Hb'.
    - intros b q Hne _ (q0 & E0 & _ & -> & _ & Hc)%(reroot_pages _ _ _ _ _ _ Esp). destruct Hc as [(-> & _)|[_ ->]]; [done|by apply (Hinv b)]. }
  destruct (zap_step m y ls [] spt _ Hzb (Hact spt ltac:(by eexists)) Ey) as (y1 & ls1 & E1 & Hzg & Hf1 & Ha1 & [His Hmk] & Ez1 & _).
  change (root_count (with_roots 0 sp) =? 0) with true in E1, Hzg. cbv iota in E1, Hzg. set (l := spt :: remove spt []) in *.
  destruct (zapping_commit m y1 ls1 l Hzg) as (x' & ls' & E' & Hse' & Hf' & Ha' & Hlast & Hrt). exists l, y1, x', ls'. split; [done|]. split; [done|].
  assert (Ez' : zapped_obsolete_pages x' = []).
  { destruct (commit_run m l y1 ls1 (zg_tree _ _ _ _ _ Hzg) (zg_tables _ _ _ _ _ Hzg) (zg_doomed _ _ _ _ _ Hzg)) as (x2 & ls2 & E2 & _ & _ & _ & _ & _ & Ez2 & _).
    assert (x2 = x') as -> by congruence. by rewrite Ez2, Ez1. }
  rewrite set_zapped_nil in Hse' by done. split; [done|]. split; [by etrans|by etrans|].
  intros b q Eq Hrc. destruct (proj2 (His b)) as [q1 Eq1]; [by eexists|]. destruct (fe_pages _ _ _ Hf1 b q1 Eq1) as (q0 & E0 & Hs & Hr).
  assert (q0 = q) as -> by congruence. exists q1. split; [apply Hrt; congruence|done].
Qed.

(** A processor gives up its root. *)
Lemma free_root_run v x : sound m host v x -> exists x', mmu_free_roots m v x = Ok (with_root v INVALID_PAGE (pae_root v), x') /\ steady m host x'.
Proof.
  intros [Hs [Hv [Hl Hd] (sp & Esp & _ & Hsl) Hc]]. unfold mmu_free_roots. rewrite Hv, Hl, Hd. cbn [negb]. change (4 =? PT64_ROOT_LEVEL) with true. rewrite orb_true_r. cbn [andb].
  pose proof Hs as [[ls Hr] _ _ _ Hrt Hyo]. pose proof (rd_settled _ _ _ Hr) as Hse. destruct (tree_page _ _ _ _ _ _ (se_tree _ _ _ _ Hse) Esp) as [Es _].
  pose proof Esp as Esp'. rewrite <- Es in Esp'. unfold put_root. rewrite !st_bind_assoc, (st_bind_Ok _ _ _ _ _ (header_Ok _ _ _ Esp')), Es, st_bind_assoc.
  rewrite (st_bind_Ok _ _ _ _ _ (update_Ok _ _ sp _ Esp Es)). fold (reroot (root_hpa v) sp (root_count sp - 1) x).
  pose proof Hc as Hrc. unfold is_root in Hrc. rewrite Esp in Hrc. pose proof (rg_users _ _ (Hyo _ _ Esp)) as Hrc0.
  assert (Hb : bare m host (reroot (root_hpa v) sp (root_count sp - 1) x)).
  { apply reroot_bare; [by apply steady_bare|done|lia|].
    pose proof (reroot_less (root_hpa v) sp (root_count sp - 1) x (tb_active_nodup _ (se_tables _ _ _ _ Hse)) Esp Hc (se_active _ _ _ _ Hse)). lia. }
  destruct (Z.eqb_spec (root_count sp - 1) 0) as [E0|Hne]; [destruct (invalid (role sp)) eqn:Hi|]; cbn [andb].
  - rewrite E0 in *. destruct (zap_root_run x ls (root_hpa v) sp Hse Esp) as (l & y1 & x' & ls' & E1 & E2 & Hse' & Hrm).
    rewrite !st_bind_assoc, (st_bind_Ok _ _ _ _ _ E1), (st_bind_Ok _ _ y1 l y1) by done. rewrite (st_bind_Ok _ _ _ _ _ E2). exists x'. split; [done|].
    by apply (room_bare m host _ x' ls' Hb).
  - eexists. split; [done|]. apply (bare_steady m host _ ls); [|done]. apply reroot_settled; [done|done|lia|congruence].
  - eexists. split; [done|]. apply (bare_steady m host _ ls); [|done]. by apply reroot_settled.
Qed.

(** Loading a root: the caches cannot be filled, or the root is there. *)
Lemma load_run is_pae sync v topup fuel x : shadow_root_level v = 4 -> direct_map v = true -> invalid (base_role v) = false -> steady m host x -> alloc_ok topup x -> zap_enough fuel x ->
  Z.of_nat (roots x) + 1 + KVM_REFILL_PAGES <= n_max_mmu_pages x ->
  exists r v' x', kvm_mmu_load m is_pae sync 0 [] v topup fuel 0 None 0 x = Ok ((r, v', None), x') /\ steady m host x' /\
    (r <> 0 /\ v' = v \/ exists root, r = 0 /\ v' = with_root v root (pae_root v) /\ rooted v' x').
Proof using Hm.
  intros M1 M2 M3 Hs Hal Hfu Hrt. pose proof Hs as [[ls Hr] _ _ _ _ _].
  destruct (topup_run m x ls topup (rd_settled _ _ _ Hr) Hal) as (r & x1 & E1 & Hse1 & Ht1 & Hst).
  destruct (topped_steady m host x x1 ls Hr Hs Hse1 Ht1) as [Hs1 _]. unfold kvm_mmu_load. rewrite (st_bind_Ok _ _ _ _ _ E1). destruct (Z.eqb_spec r 0) as [->|Hne]; cbn [negb].
  - destruct (Hst eq_refl) as (S1 & S2 & S3). destruct (tp_used _ _ Ht1) as [_ Emx].
    destruct (alloc_root_run v is_pae sync (conj M1 M2) M3 fuel x1 Hs1) as (root & x2 & E2 & [Hs2 Hro] & _).
    + unfold zap_enough. by rewrite (tp_active _ _ Ht1).
    + rewrite Emx. unfold roots in *. rewrite (tp_active _ _ Ht1). rewrite (count_ext (is_root x1) (is_root x)); [done|]. intros b. unfold is_root. by rewrite (tp_pages _ _ Ht1).
    + intros E0. rewrite E0 in S2. cbn in S2. lia.
    + lia.
    + exists 0, (with_root v root (pae_root v)), x2. split; [|split; [done|right; by exists root]].
      unfold mmu_alloc_roots. rewrite M2, st_bind_assoc, (st_bind_Ok _ _ _ _ _ E2). rewrite (st_bind_Ok _ _ x2 (0, with_root v root (pae_root v), None) x2) by done.
      unfold mmu_sync_roots. change (direct_map (with_root v root (pae_root v))) with (direct_map v). rewrite M2. by rewrite (st_bind_Ok _ _ x2 tt x2) by done.
  - exists r, v, x1. split; [done|]. split; [done|]. by left.
Qed.

End users.

(** ** A machine without tables *)

Section blank.
  Context (m : shadow_masks).

(** The memory is registered, with the arrays of its slots, and no page
    table is made. *)
Record blank (x : mmu) : Prop := {
  bl_empty : pages (core x) = ∅ /\ spt_mem (core x) = ∅ /\ lists (core x) = Pool ∅ [];
  bl_heads h a : heads (core x) !! h = Some a -> a = 0 /\ exists sl lv i, h = Rmap sl lv i;
  bl_tables : mmu_page_hash x = ∅ /\ active_mmu_pages x = [] /\ zapped_obsolete_pages x = [] /\ n_used_mmu_pages x = 0 /\ mmu_page_cache x = [];
  bl_limit : KVM_REFILL_PAGES <= n_max_mmu_pages x < 2 ^ 32;
  bl_slots : slots_ok (slots (core x)) /\ one_slot (slots (core x));
  bl_arrays : arrays x /\ laid_out x
}.

Lemma blank_settled x : blank x -> settled m x ((fun _ => []) <$> heads (core x)) None.
Proof.
  intros [(E1 & E2 & E3) Hh (T1 & T2 & T3 & T4 & T5) _ [Hok _] _]. set (k := core x) in *.
  assert (Hl : lists_ok (lists k) (heads k) ((fun _ => []) <$> heads k) ((fun _ => []) <$> heads k)).
  { rewrite E3. split.
    - split; by rewrite !dom_fmap_L.
    - intros h a cs l Ha. rewrite !lookup_fmap, Ha. cbn. intros [= <-] [= <-]. destruct (Hh h a Ha) as [-> _]. constructor.
    - intros h h' cs cs' a. rewrite !lookup_fmap. destruct (heads k !! h); [|done]. cbn. intros [= <-] _ Ha. by apply not_elem_of_nil in Ha.
    - split; [apply NoDup_nil_2|]. intros a Ha. by apply not_elem_of_nil in Ha.
    - intros h cs a. rewrite lookup_fmap. destruct (heads k !! h); [|done]. cbn. intros [= <-] Ha. by apply not_elem_of_nil in Ha.
    - intros a. cbn. set_solver. }
  assert (Hnl : forall a v, ~ leaf m k a v) by (intros a v (Ev & _); by rewrite E2, lookup_empty in Ev).
  assert (Hnp : forall a sp, pages k !! a = Some sp -> False) by (intros a sp; by rewrite E1, lookup_empty).
  subst k. split; [split; [split|..]|split|..].
  - done.
  - by eexists.
  - intros a v. by rewrite E2, lookup_empty.
  - intros a v. by rewrite E2, lookup_empty.
  - intros a v Hv. by apply Hnl in Hv.
  - intros sl lv i l. rewrite lookup_fmap. destruct (heads (core x) !! Rmap sl lv i); [|done]. cbn. intros [= <-]. split; [apply NoDup_nil_2|]. intros a. split; [intros Ha; by apply not_elem_of_nil in Ha|].
    intros (_ & v & Hv). by apply Hnl in Hv.
  - intros a sp Esp. by apply Hnp in Esp.
  - intros a. rewrite E1, E2, !lookup_empty. split; [by intros [? ?]|intros [_ [? ?]]; done].
  - intros a v sp Hv. by apply Hnl in Hv.
  - intros a v sp _ Esp. by apply Hnp in Esp.
  - intros spt. rewrite E1, lookup_empty. split; [|by intros [? ?]]. intros [a Ha]. destruct (Hh _ _ Ha) as [_ (? & ? & ? & ?)]. done.
  - intros spt l. rewrite lookup_fmap. destruct (heads (core x) !! Parents spt) eqn:Ha; [|done]. destruct (Hh _ _ Ha) as [_ (? & ? & ? & ?)]. done.
  - intros a sp Esp. by apply Hnp in Esp.
  - intros b l a. by rewrite T1, lookup_empty.
  - intros b l. by rewrite T1, lookup_empty.
  - intros a. rewrite T2. intros Ha. by apply not_elem_of_nil in Ha.
  - rewrite T2. apply NoDup_nil_2.
  - rewrite T5. split; [apply NoDup_nil_2|]. intros a Ha. by apply not_elem_of_nil in Ha.
  - intros a [sp Esp]. by apply Hnp in Esp.
  - done.
  - intros a sp Esp. by apply Hnp in Esp.
  - intros a sp Esp. by apply Hnp in Esp.
Qed.

Lemma blank_steady host x : blank x -> steady m host x.
Proof.
  intros Hn. pose proof (blank_settled x Hn) as Hse. destruct Hn as [(E1 & E2 & E3) Hh (T1 & T2 & T3 & T4 & T5) Hli [Hok H1] [Ha Hlay]].
  assert (Hnp : forall a sp, pages (core x) !! a = Some sp -> False) by (intros a sp; by rewrite E1, lookup_empty).
  eapply bare_steady; [exact Hse|]. split; [done| |done|done|..].
  - unfold counted. by rewrite T2, T4.
  - intros b u g lv (Eu & _). by rewrite E2, lookup_empty in Eu.
  - rewrite T2. cbn. unfold KVM_REFILL_PAGES in Hli. lia.
  - unfold roots. rewrite T2. cbn. lia.
  - intros b q Eq. by apply Hnp in Eq.
  - intros b [q Eq]. by apply Hnp in Eq.
Qed.

End blank.

(** ** A small machine *)

Definition small_mmu : mmu :=
  Mmu (Kvm small_slots (<[Rmap 0 1 0 := 0]> (<[Rmap 0 1 1 := 0]> (<[Rmap 0 2 0 := 0]> (<[Rmap 0 3 0 := 0]> ∅)))) (Pool ∅ []) ∅ ∅ [] 0 0 0)
    ∅ [] [] 0 64 0 0 (<[(0, 2, 0) := 1]> (<[(0, 3, 0) := 1]> ∅)) [] 0 [] (0, 0, 0).

Definition small_mode : kvm_mmu := Mode INVALID_PAGE 4 4 zero_role true (replicate 4 0) 0.

Definition small_topup : list Z * list Z * nat := ((fun i => 0x100 * i) <$> seqZ 1 40, (fun i => 0x100000 + PAGE_SIZE * i) <$> seqZ 0 40, 40%nat).

(** The host has frames 5 and 6 at the two pages of the slot. *)
Definition small_table (a : Z) : option Z := if a =? 0x7f0000000000 then Some 5 else if a =? 0x7f0000001000 then Some 6 else None.
Definition small_host (a p : Z) : Prop := small_table a = Some p.

Definition small_env : env :=
  Env (fun _ => PAGE_SIZE) 1 (fun _ _ => 0) true (fun _ => false) (fun _ => false) (fun _ _ => [])
    (fun g _ => if (0 <=? g) && (g <? 2) then Some (5 + g, true) else Some (KVM_PFN_NOSLOT, false)).

Lemma small_direct : direct_masks (ept_masks true (init_masks 36)).
Proof.
  split; [apply ept_masks_ok|]. intros i.
  change (shadow_x_mask (ept_masks true (init_masks 36))) with (2 ^ 2). change (shadow_nx_mask (ept_masks true (init_masks 36))) with 0. change (shadow_user_mask (ept_masks true (init_masks 36))) with 0.
  rewrite !Z.bits_0. intros [H|[H|H]]; [|done|done]. left. destruct (Z.lt_ge_cases i 0); [by rewrite Z.testbit_neg_r in H|].
  rewrite Z.pow2_bits_eqb in H by lia. apply Z.eqb_eq in H. lia.
Qed.

Lemma small_search g sl : search_memslots small_slots g = Some sl -> sl = Slot 0 2 (Some ∅) 0x7f0000000000 1 0 /\ (g = 0 \/ g = 1).
Proof.
  intros Es. apply find_some in Es as [Hin%list_elem_of_In Hc]. assert (El : live (memslots small_slots) = [Slot 0 2 (Some ∅) 0x7f0000000000 1 0]) by (vm_compute; reflexivity).
  rewrite El in Hin. apply list_elem_of_singleton in Hin as ->. split; [done|]. unfold covers in Hc. cbn in Hc. lia.
Qed.

Lemma small_blank : blank small_mmu.
Proof.
  split; [done| |done|split; by vm_compute|split; [exact small_slots_ok|]|split; split].
  - intros h a Ha. cbn in Ha. repeat (apply lookup_insert_Some in Ha as [[<- <-]|[_ Ha]]; [split; [done|by do 3 eexists]|]). by rewrite lookup_empty in Ha.
  - intros sl g Hin Hc. assert (El : live (memslots small_slots) = [Slot 0 2 (Some ∅) 0x7f0000000000 1 0]) by (vm_compute; reflexivity).
    cbn [slots core small_mmu] in Hin. rewrite El in Hin. apply list_elem_of_singleton in Hin as ->. unfold covers in Hc. cbn in Hc. exists (Slot 0 2 (Some ∅) 0x7f0000000000 1 0).
    assert (g = 0 \/ g = 1) as [->| ->] by lia; (split; [vm_compute; reflexivity|done]).
  - intros g lv sl [-> Hg]%small_search Hl. assert (lv = 1 \/ lv = 2 \/ lv = 3) as [->|[->| ->]] by lia; destruct Hg as [->| ->]; eexists; vm_compute; reflexivity.
  - intros g lv sl [-> Hg]%small_search Hl. assert (lv = 2 \/ lv = 3) as [->| ->] by lia; destruct Hg as [->| ->]; eexists; vm_compute; reflexivity.
  - intros g sl [-> _]%small_search. split; [cbn; unfold PAGE_SIZE; lia|reflexivity].
  - intros g lv sl [-> Hg]%small_search Hl Hw. exfalso. assert (lv = 2 \/ lv = 3) as [->| ->] by lia; destruct Hg as [->| ->]; vm_compute in Hw; discriminate.
Qed.

Lemma small_alloc : alloc_ok small_topup small_mmu.
Proof.
  split; cbn [fst snd small_topup].
  - split; [apply NoDup_fmap_2; [intros a b; lia|apply NoDup_seqZ]|]. apply Forall_forall. intros o (i & -> & Hi)%list_elem_of_fmap _. apply elem_of_seqZ in Hi. split; [|done].
    split; [lia|]. rewrite Z.bit0_odd, Z.odd_mul. done.
  - split; [apply NoDup_fmap_2; [intros a b; unfold PAGE_SIZE; lia|apply NoDup_seqZ]|]. intros o (i & -> & Hi)%list_elem_of_fmap _. apply elem_of_seqZ in Hi.
    split; [|split; [done|apply not_elem_of_nil]]. unfold aligned, PAGE_SIZE. split; [lia|]. replace (0x100000 + 4096 * i) with ((256 + i) * 4096) by lia. apply Z.mod_mul. lia.
Qed.

Lemma small_host_ok : host_ok small_env small_host.
Proof.
  split; [split; [split; [intros; cbn; lia|done]|intros gfn b i; by rewrite Z.bits_0|done]|cbn; lia|].
  intros lv a b p Hl Hv. exfalso. assert (lv = 2 \/ lv = 3) as [->| ->] by lia; vm_compute in Hv; by apply Hv.
Qed.

Lemma small_load : exists v x,
  kvm_mmu_load (ept_masks true (init_masks 36)) false (fun _ => mret 0) 0 [] small_mode small_topup 1 0 None 0 small_mmu = Ok ((0, v, None), x) /\
  sound (ept_masks true (init_masks 36)) small_host v x /\ invalid (base_role v) = false /\ slots (core x) = small_slots.
Proof.
  destruct (load_run (ept_masks true (init_masks 36)) small_direct small_host false (fun _ => mret 0) small_mode small_topup 1 small_mmu) as (r & v & x & E & Hs & Hv);
    [done|done|done|by apply blank_steady, small_blank|exact small_alloc|vm_compute; lia|by vm_compute|].
  assert (E0 : match kvm_mmu_load (ept_masks true (init_masks 36)) false (fun _ => mret 0) 0 [] small_mode small_topup 1 0 None 0 small_mmu with Ok ((r, _, _), _) => r =? 0 | _ => false end = true) by (vm_compute; reflexivity).
  assert (Esl : match kvm_mmu_load (ept_masks true (init_masks 36)) false (fun _ => mret 0) 0 [] small_mode small_topup 1 0 None 0 small_mmu with Ok (_, y) => Some (slots (core y)) | _ => None end = Some small_slots) by (vm_compute; reflexivity).
  rewrite E in E0, Esl. injection Esl as Esl. apply Z.eqb_eq in E0 as ->. destruct Hv as [[Hne _]|(root & _ & -> & Hro)]; [exfalso; exact (Hne eq_refl)|].
  eexists _, x. split; [exact E|]. split; [split; [exact Hs|exact Hro]|]. split; [reflexivity|exact Esl].
Qed.

(** The machine with its root loaded has nothing mapped, and its caches are
    full. *)
Lemma small_loaded : exists v x,
  kvm_mmu_load (ept_masks true (init_masks 36)) false (fun _ => mret 0) 0 [] small_mode small_topup 1 0 None 0 small_mmu = Ok ((0, v, None), x) /\
  short_lists (ept_masks true (init_masks 36)) x /\ exists y, mmu_topup_memory_caches [] [] 0 x = Ok (0, y).
Proof.
  assert (E0 : match kvm_mmu_load (ept_masks true (init_masks 36)) false (fun _ => mret 0) 0 [] small_mode small_topup 1 0 None 0 small_mmu with
    | Ok ((r, v, None), x) => (r =? 0) && bool_decide (map_Forall (fun _ u => u = 0) (spt_mem (core x))) && match mmu_topup_memory_caches [] [] 0 x with Ok (r, _) => r =? 0 | Err _ => false end
    | _ => false end = true) by (vm_compute; reflexivity).
  destruct (kvm_mmu_load _ _ _ _ _ _ _ _ _ _ _ _) as [[[[r v] [o|]] x]|]; try discriminate E0. apply andb_true_iff in E0 as [[->%Z.eqb_eq E1%bool_decide_eq_true]%andb_true_iff E2].
  exists v, x. split; [reflexivity|]. split; [|destruct (mmu_topup_memory_caches [] [] 0 x) as [[r y]|]; [apply Z.eqb_eq in E2 as ->; by exists y|discriminate E2]].
  exists O. split; [|lia]. intros h [|b l] _ Hl; [done|]. destruct (Hl b ltac:(by left)) as [(u & Hu & Hu2 & _) _]. apply E1 in Hu as ->. vm_compute in Hu2. discriminate Hu2.
Qed.

Lemma small_alloc_none x : alloc_ok ([], [], 0%nat) x.
Proof. split; split; [constructor|constructor|constructor|]. intros p Hp. by apply not_elem_of_nil in Hp. Qed.

(** C3: A fault of a processor with two-dimensional paging and a valid root,
    on a machine whose limit leaves [KVM_REFILL_PAGES] pages beside the roots,
    ends without a failed [BUG_ON] or [VM_BUG_ON] and keeps the tables in
    order, so that whatever the processor reads from them for a guest frame
    is the frame the host has at the address of the slot.  The guest frame is
    mapped afterwards when it lies in a slot for whose frames the host gives
    frames, no notifier interferes, the caches can be filled, no list of the
    reverse map is near the length at which it is recycled, and the error
    code is neither that of an MMIO entry nor one that may be a fast fault
    (such a fault, when the entry is gone by then, returns to the guest,
    which faults again). *)
Theorem tdp_fault_sound m e host v is_pae sync topup fuel retry gpa ec prefault x :
  direct_masks m -> host_ok e host -> invalid (base_role v) = false -> sound m host v x -> alloc_ok topup x -> zap_enough fuel x -> 0 <= gpa < 2 ^ 48 ->
  (forall g w pfn mw, try_async_pf e g w = Some (pfn, mw) -> lookup_ok host (slots (core x)) g pfn) ->
  let g := Z.shiftr gpa PAGE_SHIFT in
  exists r x', tdp_page_fault m e v is_pae sync topup fuel retry gpa ec prefault x = Ok (r, x') /\ sound m host v x' /\
    (forall g' p, 0 <= g' < 2 ^ 36 -> translate m 5 (core x') (root_hpa v) 4 g' = Some p -> covered host (core x') g' p) /\
    (retry = false -> any ec PFERR_RSVD_MASK = false -> page_fault_can_be_fast ec = false -> short_lists m x ->
     (exists y, mmu_topup_memory_caches topup.1.1 topup.1.2 topup.2 x = Ok (0, y)) ->
     forall sl, search_memslots (slots (core x)) g = Some sl ->
     (forall g' w, covers sl g' = true -> exists pfn mw, try_async_pf e g' w = Some (pfn, mw) /\ is_error_pfn pfn = false /\ pfn <> KVM_PFN_NOSLOT) ->
     exists p, translate m 5 (core x') (root_hpa v) 4 g = Some p).
Proof.
  intros Hm Hh Hiv Hs Hal Hf Hgpa Hlk g.
  assert (Hg : 0 <= g < 2 ^ 36).
  { unfold g. rewrite Z.shiftr_div_pow2 by done. change (2 ^ PAGE_SHIFT) with 4096. split; [apply Z.div_pos; lia|apply Z.div_lt_upper_bound; lia]. }
  unfold tdp_page_fault. destruct (prepare_run m Hm e host v topup gpa ec x Hs Hal (ho_level _ _ Hh)) as (o & x1 & E1 & Hs1 & Hlen & Hsh & Hlike & Ho & Hgo). fold g in Ho.
  rewrite (st_bind_Ok _ _ _ _ _ E1). destruct o as [r|[[force level] gfn]].
  { exists r, x1. split; [done|]. split; [done|]. split; [intros; by apply (sound_reads m host v)|]. intros _ H1 H2 _ H3. by destruct (Hgo H1 H2 H3). }
  destruct Ho as [Hch Hst]. pose proof Hs1 as [[[ls1 Hr1] Hlay1 _ _ _ _] _]. pose proof (mk_slots _ _ _ (tr_mmu _ _ _ _ (se_tree _ _ _ _ (rd_settled _ _ _ Hr1)))) as Hok1.
  assert (Hcov : forall sl, search_memslots (slots (core x)) g = Some sl -> covers sl gfn = true).
  { intros sl Es. pose proof (sk_search _ _ Hlike g) as Hss. rewrite Es in Hss. destruct (search_memslots (slots (core x1)) g) as [s|] eqn:Es1; [|done].
    pose proof (chosen_covers e x1 g level gfn s Hok1 Hlay1 Hch Es1) as Hc. destruct Hss as (_ & A2 & A3 & _). unfold covers in *. by rewrite <- A2, <- A3. }
  destruct (try_async_pf e gfn (any ec PFERR_WRITE_MASK)) as [[pfn mw]|] eqn:Et.
  - assert (Hf1 : zap_enough fuel x1) by (unfold zap_enough in *; nia).
    destruct (tdp_map_run m Hm e host v is_pae sync Hiv fuel retry force (any ec PFERR_WRITE_MASK) level gfn pfn mw prefault g x1 Hs1 Hf1 Hg Hch Hst)
      as (r & x2 & E2 & Hs2 & Htr); [apply (lookup_like host (slots (core x))); [done|by apply (Hlk _ _ _ _ Et)]|done|].
    exists r, x2. split; [done|]. split; [done|]. split; [intros; by apply (sound_reads m host v)|]. intros Hre _ _ Hshort _ sl Es Hall.
    destruct (Hall gfn (any ec PFERR_WRITE_MASK) (Hcov sl Es)) as (p' & mw' & E' & He & Hne). rewrite Et in E'. injection E' as <- <-. eexists. by apply Htr; auto.
  - exists 0, x1. split; [done|]. split; [done|]. split; [intros; by apply (sound_reads m host v)|]. intros _ _ _ _ _ sl Es Hall.
    destruct (Hall gfn (any ec PFERR_WRITE_MASK) (Hcov sl Es)) as (? & ? & E' & _). congruence.
Qed.

(** The small machine has its root loaded, its guest touches frame 0, and
    frame 0 is mapped afterwards. *)
Lemma tdp_fault_sound_witness : exists v x fuel r x' p,
  kvm_mmu_load (ept_masks true (init_masks 36)) false (fun _ => mret 0) 0 [] small_mode small_topup 1 0 None 0 small_mmu = Ok ((0, v, None), x) /\
  tdp_page_fault (ept_masks true (init_masks 36)) small_env v false (fun _ => mret 0) ([], [], 0%nat) fuel false 0 PFERR_WRITE_MASK false x = Ok (r, x') /\
  sound (ept_masks true (init_masks 36)) small_host v x' /\
  translate (ept_masks true (init_masks 36)) 5 (core x') (root_hpa v) 4 0 = Some p /\ covered small_host (core x') 0 p.
Proof.
  destruct small_load as (v & x & E & Hs & Hiv & Esl). destruct small_loaded as (v0 & x0 & E0 & Hsl & Htop). rewrite E in E0. injection E0 as <- <-.
  destruct (tdp_fault_sound (ept_masks true (init_masks 36)) small_env small_host v false (fun _ => mret 0) ([], [], 0%nat)
    (S (length (active_mmu_pages x)) * S (length (active_mmu_pages x))) false 0 PFERR_WRITE_MASK false x) as (r & x' & Er & Hs' & Hc & Hmap).
  - exact small_direct.
  - exact small_host_ok.
  - exact Hiv.
  - exact Hs.
  - exact (small_alloc_none x).
  - unfold zap_enough. lia.
  - lia.
  - intros g w pfn mw. rewrite Esl. cbn [try_async_pf small_env]. destruct ((0 <=? g) && (g <? 2)) eqn:Eg; intros [= <- <-]; [|right; left; reflexivity]. right; right.
    assert (g = 0 \/ g = 1) as [->| ->] by lia; (split; [lia|]); eexists; (split; [vm_compute; reflexivity|reflexivity]).
  - destruct (Hmap eq_refl eq_refl eq_refl Hsl Htop (Slot 0 2 (Some ∅) 0x7f0000000000 1 0)) as [p Hp].
    { rewrite Esl. vm_compute. reflexivity. }
    { intros g' w Hcv. unfold covers in Hcv. cbn in Hcv. cbn [try_async_pf small_env]. replace ((0 <=? g') && (g' <? 2)) with true by lia. exists (5 + g'), true.
      assert (g' = 0 \/ g' = 1) as [->| ->] by lia; (split; [reflexivity|split; [reflexivity|discriminate]]). }
    eexists v, x, _, r, x', p. split; [exact E|]. split; [exact Er|]. split; [exact Hs'|]. split; [exact Hp|]. apply (Hc 0 p); [lia|exact Hp].
Defined.
