(* ===== verification/MmuNotifier.v ===== *)
(** * Notifiers of the host's memory (kvm-kmod x86/kvm_main.c)

    The host tells the machine before it takes pages away and after it has:
    a range is announced and its end too, a single page is announced when it
    is gone from the host's tables but not freed.  [mmu_notifier_seq] and
    [mmu_notifier_count] let a fault notice that the frame it looked up may
    have gone in the meantime.  The other notifiers ask for the accessed bits
    or replace one frame by another. *)

From S2P Require Import Prelude MemSlots GuestCopy Spte PteList Rmap RmapSpec ShadowPages ShadowSpec RoomSpec DirectMap DirectSpec DirectSet DirectFault LargePages DirectTdp MmuRoots.

(** ** State and operations *)

Record notified := Notified { vm : mmu; mmu_notifier_seq : Z; mmu_notifier_count : Z }.

Abbreviation NM := (st notified).

Definition on_vm {A} (c : VM A) : NM A :=
  fun n => match c (vm n) with Ok (a, x) => Ok (a, Notified x (mmu_notifier_seq n) (mmu_notifier_count n)) | Err e => Err e end.

Definition bump_seq : NM unit := fun n => Ok (tt, Notified (vm n) (u64 (mmu_notifier_seq n + 1)) (mmu_notifier_count n)).
Definition add_count (d : Z) : NM unit := fun n => Ok (tt, Notified (vm n) (mmu_notifier_seq n) (mmu_notifier_count n + d)).
Definition get_count : NM Z := fun n => Ok (mmu_notifier_count n, n).

(** The translation buffers are flushed when the operation asks for it or an
    earlier one left it to do. *)
Definition flush_if (need_tlb_flush : Z) : VM unit :=
  x ← state;
  if negb (Z.lor need_tlb_flush (tlbs_dirty (core x)) =? 0) then on_core kvm_flush_remote_tlbs else mret tt.

Section notifiers.
  Context (m : shadow_masks).

Definition kvm_mmu_notifier_invalidate_page (address : Z) : NM unit :=
  bump_seq ;;
  need_tlb_flush ← on_vm (on_core (kvm_unmap_hva m address));
  on_vm (flush_if need_tlb_flush).

Definition kvm_mmu_notifier_change_pte (address : Z) (writable : bool) (pfn : Z) : NM unit :=
  bump_seq ;;
  on_vm (on_core (kvm_set_spte_hva m address writable pfn)).

Definition kvm_mmu_notifier_invalidate_range_start (start end_ : Z) : NM unit :=
  add_count 1 ;;
  need_tlb_flush ← on_vm (on_core (kvm_unmap_hva_range m start end_));
  on_vm (flush_if need_tlb_flush).

Definition kvm_mmu_notifier_invalidate_range_end : NM unit :=
  bump_seq ;;
  add_count (- 1) ;;
  count ← get_count;
  on_vm (on_core (BUG_ON (count <? 0))).

Definition kvm_mmu_notifier_clear_flush_young (address : Z) : NM Z :=
  young ← on_vm (on_core (kvm_age_hva m address));
  on_vm (if negb (young =? 0) then on_core kvm_flush_remote_tlbs else mret tt) ;;
  mret young.

Definition kvm_mmu_notifier_test_young (address : Z) : NM Z := on_vm (on_core (kvm_test_age_hva m address)).

Definition kvm_arch_flush_shadow_all (yields : list bool) : VM unit := kvm_mmu_invalidate_zap_all_pages m yields.

Definition kvm_mmu_notifier_release (yields : list bool) : NM unit := on_vm (kvm_arch_flush_shadow_all yields).

Definition mmu_notifier_retry (mmu_seq : Z) (n : notified) : bool :=
  if negb (mmu_notifier_count n =? 0) then true else negb (mmu_notifier_seq n =? mmu_seq).

(** ** The fault and its sequence number *)

(** What [tdp_page_fault] holds between the read of the sequence number and
    the lock; [f_found] is the frame, once it is looked up. *)
Record fault := Fault {
  f_write : bool; f_force : bool; f_level : Z; f_gfn : Z; f_prefault : bool; f_seq : Z; f_found : option (Z * bool)
}.

Context (is_pae : bool) (sync_page : Z -> VM Z).

Definition fault_begin (e : env) (v : kvm_mmu) (topup : list Z * list Z * nat) (gpa error_code : Z) (prefault : bool) : NM (Z + fault) :=
  o ← on_vm (tdp_prepare m e v topup gpa error_code);
  match o with
  | inl r => mret (inl r)
  | inr (force, level, gfn) =>
      fun n => Ok (inr (Fault (any error_code PFERR_WRITE_MASK) force level gfn prefault (mmu_notifier_seq n) None), n)
  end.

(** [None] when the frame is waited for. *)
Definition fault_lookup (e : env) (f : fault) : option fault :=
  match try_async_pf e (f_gfn f) (f_write f) with
  | None => None
  | Some r => Some (Fault (f_write f) (f_force f) (f_level f) (f_gfn f) (f_prefault f) (f_seq f) (Some r))
  end.

Definition fault_map (e : env) (v : kvm_mmu) (zap_fuel : nat) (f : fault) : NM Z :=
  match f_found f with
  | None => mret 0
  | Some (pfn, map_writable) => fun n =>
      on_vm (tdp_map m e v is_pae sync_page zap_fuel (mmu_notifier_retry (f_seq f) n) (f_force f) (f_write f) (f_level f) (f_gfn f) pfn map_writable
        (f_prefault f)) n
  end.

Definition fault_whole (e : env) (v : kvm_mmu) (topup : list Z * list Z * nat) (zap_fuel : nat) (gpa error_code : Z) (prefault : bool) : NM Z :=
  o ← fault_begin e v topup gpa error_code prefault;
  match o with
  | inl r => mret r
  | inr f => match fault_lookup e f with None => mret 0 | Some f => fault_map e v zap_fuel f end
  end.

(** With nothing between its parts this is [tdp_page_fault], which tries
    again exactly while a range is announced. *)
Lemma fault_whole_eq e v topup zap_fuel gpa error_code prefault n :
  fault_whole e v topup zap_fuel gpa error_code prefault n =
  on_vm (tdp_page_fault m e v is_pae sync_page topup zap_fuel (negb (mmu_notifier_count n =? 0)) gpa error_code prefault) n.
Proof.
  unfold fault_whole, fault_begin, tdp_page_fault, on_vm, mbind, st_bind. destruct n as [x seq count]. cbn [vm mmu_notifier_count mmu_notifier_seq].
  destruct (tdp_prepare m e v topup gpa error_code x) as [[[r|[[force level] gfn]] x1]|err]; [done| |done].
  unfold fault_lookup. cbn [f_gfn f_write]. destruct (try_async_pf e gfn _) as [[pfn mw]|]; [|done].
  unfold fault_map, mmu_notifier_retry, on_vm. cbn [f_found f_seq f_force f_write f_level f_gfn f_prefault vm mmu_notifier_count mmu_notifier_seq].
  rewrite Z.eqb_refl. by destruct (count =? 0).
Qed.

End notifiers.

(** ** Steps that take leaves away or change their bits *)

Section mild.
  Context (m : shadow_masks) (Hm : direct_masks m).

(** The leaves of [k'] map what they mapped in [k]. *)
Record milder (k k' : kvm) : Prop := {
  ml_near : near 0 k k';
  ml_leaf b w : leaf m k' b w -> exists u, leaf m k b u /\ spte_to_pfn u = spte_to_pfn w;
  ml_nonleaf b w : nonleaf m k b w -> nonleaf m k' b w
}.

#[local] Instance milder_preorder : PreOrder milder.
Proof.
  split; [intros k; split; [by apply near_same|eauto|done]|]. intros k1 k2 k3 [N1 L1 O1] [N2 L2 O2]. split; [exact (near_trans 0 0 _ _ _ N1 N2)| |auto].
  intros b w (u & Hu & E)%L2. destruct (L1 _ _ Hu) as (u' & Hu' & E'). exists u'. split; [done|congruence].
Qed.

(** Entries changed in place, by a change that leaves leaves and their frames
    alone. *)
Lemma mild_change k k' ls l f : tree m k ls None -> mmu_ok m k' ls -> same_frame k k' -> mem_after f l k k' -> (forall a, a ∈ l -> exists v, leaf m k a v) ->
  (forall v, leaf_ok v -> is_shadow_present_pte m v = true -> is_shadow_present_pte m (f v) = true /\ is_large_pte (f v) = is_large_pte v /\ spte_to_pfn (f v) = spte_to_pfn v) ->
  tree m k' ls None /\ milder k k'.
Proof.
  intros Ht Hok [F1 F2 F3 F4 F5 F6] Hma Hl Hf.
  assert (Hcase : forall b w, spt_mem k' !! b = Some w -> spt_mem k !! b = Some w \/ exists v, leaf m k b v /\ w = f v).
  { intros b w. rewrite Hma. case_bool_decide as Hin; [|by left]. destruct (Hl b Hin) as (v & Hv). pose proof Hv as (Ev & _). rewrite Ev. intros [= <-]. right. by exists v. }
  assert (Hlf : forall b w, leaf m k' b w -> exists u, leaf m k b u /\ spte_to_pfn u = spte_to_pfn w).
  { intros b w (Ew & Hw & q & Eq & Hq). rewrite F4 in Eq. destruct (Hcase b w Ew) as [Ew'|(v & Hv & ->)].
    - exists w. split; [|done]. split; [done|]. split; [done|]. by exists q.
    - exists v. split; [done|]. symmetry. apply Hf; [by apply (mk_leaf _ _ _ (tr_mmu _ _ _ _ Ht) b)|apply Hv]. }
  assert (Hnl : forall b w, nonleaf m k' b w <-> nonleaf m k b w).
  { intros b w. unfold nonleaf. rewrite F4. split; intros (Ew & Hw & q & Eq & Hq).
    - split; [|split; [done|]; by exists q]. destruct (Hcase b w Ew) as [?|(v & (Ev & Hv & q' & Eq' & Hq') & ->)]; [done|]. exfalso. assert (q' = q) as -> by congruence.
      destruct (Hf v) as (_ & Hlg & _); [by apply (mk_leaf _ _ _ (tr_mmu _ _ _ _ Ht) b v); split; [|split; [|exists q]]|done|]. revert Hq Hq'. unfold is_last_spte. rewrite Hlg. congruence.
    - split; [|split; [done|]; by exists q]. rewrite Hma. rewrite bool_decide_false; [done|]. intros Hin. destruct (Hl b Hin) as (v & Ev & Hv & q' & Eq' & Hq'). congruence. }
  split; [|split; [by apply near_same|done|intros b w; apply Hnl]].
  apply (tree_leaves m k k' ls ls None Ht Hok); try done; [by rewrite F2| |].
  - apply set_eq. intros b. rewrite !elem_of_dom, Hma. case_bool_decide; [|done]. by rewrite fmap_is_Some.
  - intros b v sp (u & Hu & _)%Hlf. by apply (tr_level _ _ _ _ Ht b u).
Qed.

(** Entries removed. *)
Lemma mild_cleared k k' ls ls' hs : tree m k ls None -> mmu_ok m k' ls' -> (forall spt, ls' !! Parents spt = ls !! Parents spt) -> cleared m hs k k' ->
  (forall b, mapped_in m hs k b \/ ~ mapped_in m hs k b) ->
  tree m k' ls' None /\ milder k k' /\ forall b w, leaf m k' b w -> leaf m k b w /\ ~ mapped_in m hs k b.
Proof.
  intros Ht Hok Hp [[T1 T2 _ _ T5 T6] G K] Hdec.
  assert (Hcase : forall b w, spt_mem k' !! b = Some w -> is_shadow_present_pte m w = true -> spt_mem k !! b = Some w /\ ~ mapped_in m hs k b).
  { intros b w Ew Hw. destruct (Hdec b) as [Hin|Hin]; [|by rewrite <- (K b Hin)]. rewrite (G b Hin) in Ew. injection Ew as <-. by rewrite zero_not_present in Hw. }
  assert (Hlf : forall b w, leaf m k' b w -> leaf m k b w /\ ~ mapped_in m hs k b).
  { intros b w (Ew & Hw & q & Eq & Hq). destruct (Hcase b w Ew Hw) as [Ew' Hno]. rewrite T2 in Eq. split; [|done]. split; [done|]. split; [done|]. by exists q. }
  assert (Hnl : forall b w, nonleaf m k' b w <-> nonleaf m k b w).
  { intros b w. unfold nonleaf. rewrite T2. split; intros (Ew & Hw & q & Eq & Hq).
    - split; [by apply Hcase|]. split; [done|]. by exists q.
    - split; [|split; [done|]; by exists q]. rewrite K; [done|]. intros (v & h & (Ev & _ & q' & Eq' & Hq') & _). congruence. }
  split; [|split; [split|]].
  - apply (tree_leaves m k k' ls ls' None Ht Hok); try done.
    + apply set_eq. intros b. rewrite !elem_of_dom. destruct (Hdec b) as [Hin|Hin]; [|by rewrite (K b Hin)]. rewrite (G b Hin). destruct Hin as (v & _ & (Ev & _) & _). rewrite Ev. split; by eexists.
    + intros b v sp [Hb _]%Hlf. by apply (tr_level _ _ _ _ Ht b v).
  - split; [by rewrite T1|done|done|by rewrite T5].
  - intros b w [Hb _]%Hlf. by exists w.
  - intros b w. apply Hnl.
  - done.
Qed.

(** ** The handlers *)

Definition mild_handler (f : list_head -> M Z) : Prop := forall sl lv i k ls, tree m k ls None -> is_Some (heads k !! Rmap sl lv i) ->
  exists r k' ls', f (Rmap sl lv i) k = Ok (r, k') /\ tree m k' ls' None /\ milder k k'.

Lemma mild_all f hs : mild_handler f -> forall ret k ls, tree m k ls None -> Forall (fun h => (exists sl lv i, h = Rmap sl lv i) /\ is_Some (heads k !! h)) hs ->
  exists r k' ls', handle_all f hs ret k = Ok (r, k') /\ tree m k' ls' None /\ milder k k'.
Proof.
  intros Hf. induction hs as [|h hs IH]; intros ret k ls Ht Hh; [exists ret, k, ls; split; [done|]; split; [done|reflexivity]|].
  apply Forall_cons in Hh as [[(sl & lv & i & ->) Hs] Hh]. cbn [handle_all]. destruct (Hf sl lv i k ls Ht Hs) as (r & k1 & ls1 & E1 & Ht1 & Hm1).
  rewrite (st_bind_Ok _ _ _ _ _ E1). destruct (IH (Z.lor ret r) k1 ls1 Ht1) as (r2 & k2 & ls2 & E2 & Ht2 & Hm2).
  { eapply Forall_impl; [done|]. intros h [? Hsh]. split; [done|]. apply elem_of_dom. rewrite (nr_heads _ _ _ (ml_near _ _ Hm1)). by apply elem_of_dom. }
  exists r2, k2, ls2. split; [done|]. split; [done|]. by etrans.
Qed.

Lemma mild_unmap : mild_handler (kvm_unmap_rmapp m).
Proof.
  intros sl lv i k ls Ht Hs. pose proof (tr_mmu _ _ _ _ Ht) as Hok. destruct (mmu_list _ _ _ _ Hok Hs) as [l El].
  destruct (handle_unmap m [Rmap sl lv i] 0 k ls Hok) as (b & k' & ls' & E & Hok' & _ & Hp & Hc & _); [by repeat constructor; eauto|].
  cbn [handle_all] in E. unfold mbind, st_bind in E. destruct (kvm_unmap_rmapp m (Rmap sl lv i) k) as [[r k1]|] eqn:E1; [|done]. injection E as _ ->.
  destruct (mild_cleared k k' ls ls' [Rmap sl lv i] Ht Hok' Hp Hc) as (Ht' & Hm' & _); [|by exists r, k', ls'].
  intros c. apply (mapped_dec m k ls); [done|]. apply Forall_singleton. split; [eauto|by eexists].
Qed.

Lemma mild_age : mild_handler (kvm_age_rmapp m).
Proof using Hm.
  intros sl lv i k ls Ht Hs. pose proof (dm_ok _ Hm) as Hmo. destruct (mo_ad _ Hmo) as [[Ha _]|(a & d & Ha & _ & _ & Hb & _)].
  { unfold kvm_age_rmapp. rewrite Ha. by apply (mild_unmap sl lv i k ls). }
  pose proof (tr_mmu _ _ _ _ Ht) as Hok. destruct (mmu_list _ _ _ _ Hok Hs) as [l El].
  destruct (kvm_age_rmapp_spec m Hmo a Ha Hb k ls sl lv i l Hok El) as (y & k' & E & Hok' & Hfr & _ & Hma & _). exists (Z.b2z y), k', ls. split; [done|].
  apply (mild_change k k' ls l (fun v => Z.clearbit v a) Ht Hok' Hfr Hma).
  - intros b Hin. destruct (rmap_entries _ _ _ _ _ _ _ Hok El) as (_ & _ & Hlf). destruct (Hlf b Hin) as (v & Hv & _). by exists v.
  - intros v Hv Hp. destruct (clear_accessed_keeps m Hmo a Hb v Hv Hp) as (_ & H1 & H2). split; [done|]. split; [done|]. unfold spte_to_pfn. f_equal.
    apply Z.bits_inj'. intros j Hj. rewrite !Z.land_spec, base_mask_bit by done. destruct (Z.leb_spec 12 j); [|by rewrite !andb_false_r].
    destruct Hb as [Hr _]. by rewrite Z.clearbit_neq by lia.
Qed.

Lemma mild_test_age : mild_handler (kvm_test_age_rmapp m).
Proof using Hm.
  intros sl lv i k ls Ht Hs. pose proof (dm_ok _ Hm) as Hmo. destruct (mo_ad _ Hmo) as [[Ha _]|(a & d & Ha & _ & _ & Hb & _)].
  { exists 0, k, ls. unfold kvm_test_age_rmapp. rewrite Ha. split; [done|]. split; [done|reflexivity]. }
  pose proof (tr_mmu _ _ _ _ Ht) as Hok. destruct (mmu_list _ _ _ _ Hok Hs) as [l El].
  eexists _, k, ls. split; [by apply (kvm_test_age_rmapp_spec m Hmo a Ha Hb k ls sl lv i l)|]. split; [done|reflexivity].
Qed.

(** ** From memory to the machine *)

Lemma steady_arrays host x : steady m host x -> arrays_ok m (core x).
Proof using.
  clear Hm. intros [[ls Hr] Hlay _ _ _ _]. pose proof (se_tree _ _ _ _ (rd_settled _ _ _ Hr)) as Ht. pose proof (mk_slots _ _ _ (tr_mmu _ _ _ _ Ht)) as Hok.
  assert (Hs : forall sl f, sl ∈ live (memslots (slots (core x))) -> base_gfn sl <= f < base_gfn sl + npages sl -> exists s, search_memslots (slots (core x)) f = Some s /\ same_slot sl s).
  { intros sl f Hl Hf. apply (rd_slots _ _ _ Hr); [done|]. unfold covers. lia. }
  split.
  - intros sl lv f Hl Hlv Hf. destruct (Hs sl f Hl Hf) as (s & Es & Hss). rewrite <- (same_slot_rmap _ _ _ _ Hss). apply (ar_heads _ (rd_arrays _ _ _ Hr)); [done|]. unfold levels in Hlv. set_unfold. lia.
  - intros sl Hl. pose proof Hl as Hl'. apply live_elem in Hl' as [Hin Hn]; [|apply Hok..]. pose proof (proj1 (Forall_forall _ _) (ok_slots _ Hok) sl Hin) as [Hnp _ _].
    destruct (Hs sl (base_gfn sl) Hl ltac:(lia)) as (s & Es & (_ & _ & A3 & A4 & _)). destruct (lo_addr _ Hlay _ _ Es) as [R1 R2]. rewrite A3, A4 in *. by split.
  - intros a v sp Hv Esp. pose proof (tr_level _ _ _ _ Ht _ _ _ Hv Esp). destruct (tr_pages _ _ _ _ Ht _ _ Esp) as [_ _ _ Hlv _]. unfold levels. set_unfold. lia.
Qed.

Lemma milder_steady host x k' ls' : steady m host x -> tree m k' ls' None -> milder (core x) k' ->
  steady m host (set_core k' x) /\ progress 0 0 x (set_core k' x).
Proof.
  intros Hs Ht [Hn Hl Hnl]. pose proof Hs as [[ls Hr] _ Hb Hli _ _]. pose proof (near_progress 0 x k' Hn) as Hp. split; [|done].
  apply (steady_progress m host 0 0 (fun _ => True) (remapped m x) x (set_core k' x) ls ls' Hr Hs Hp); [by apply (settled_near m 0 x ls); [apply Hr|..]| | |cbn; lia].
  - split; [|auto]. intros b w (u & Hu & E)%Hl. right. by exists u.
  - intros b w Hw _. by apply (remapped_fresh m host 0 0 x _ ls b w Hr Hb Hp).
Qed.

Lemma mild_range f host x start end_ : mild_handler f -> steady m host x -> 0 <= start -> 0 <= end_ ->
  exists r k', on_core (kvm_handle_hva_range start end_ f) x = Ok (r, set_core k' x) /\ steady m host (set_core k' x) /\ progress 0 0 x (set_core k' x).
Proof using.
  intros Hf Hs H0 H1. pose proof Hs as [[ls Hr] _ _ _ _ _]. pose proof (steady_arrays host x Hs) as Har. pose proof (se_tree _ _ _ _ (rd_settled _ _ _ Hr)) as Ht.
  destruct (mild_all f (range_heads start end_ (slots (core x))) Hf 0 (core x) ls Ht) as (r & k' & ls' & E & Ht' & Hm').
  { pose proof (range_heads_rmap m (core x) ls start end_ (tr_mmu _ _ _ _ Ht) Har H0 H1) as Hh. eapply Forall_impl; [exact Hh|]. intros h [? [l El]].
    split; [done|]. destruct (mmu_head _ _ _ _ _ (tr_mmu _ _ _ _ Ht) El) as [w Hw]. by eexists. }
  rewrite <- kvm_handle_hva_range_all in E. exists r, k'. split; [by apply on_core_Ok|]. by apply (milder_steady host x k' ls').
Qed.

(** The whole range is gone, and the leaves that are left are of before. *)
Lemma unmap_range host x start end_ : steady m host x -> 0 <= start -> 0 <= end_ ->
  exists r k', on_core (kvm_unmap_hva_range m start end_) x = Ok (r, set_core k' x) /\ steady m host (set_core k' x) /\ progress 0 0 x (set_core k' x) /\
    forall b w, leaf m k' b w -> leaf m (core x) b w /\ ~ touches m start end_ (core x) b.
Proof using.
  intros Hs H0 H1. pose proof Hs as [[ls Hr] _ _ _ _ _]. pose proof (steady_arrays host x Hs) as Har. pose proof (se_tree _ _ _ _ (rd_settled _ _ _ Hr)) as Ht.
  pose proof (tr_mmu _ _ _ _ Ht) as Hok. pose proof (range_heads_rmap m (core x) ls start end_ Hok Har H0 H1) as Hh.
  destruct (handle_unmap m (range_heads start end_ (slots (core x))) 0 (core x) ls Hok Hh) as (b & k' & ls' & E & Hok' & _ & Hp & Hc & _).
  destruct (mild_cleared (core x) k' ls ls' _ Ht Hok' Hp Hc) as (Ht' & Hm' & Hlf); [intros a; by apply (mapped_dec m (core x) ls)|].
  rewrite <- kvm_handle_hva_range_all in E. destruct (milder_steady host x k' ls' Hs Ht' Hm') as [Hs' Hp']. eexists _, k'. split; [by apply on_core_Ok|]. split; [done|]. split; [done|].
  intros a w [Ha Hno]%Hlf. split; [done|]. by rewrite <- (mapped_in_range m (core x) ls start end_ Hok Har H0 H1).
Qed.

(** A frame of a leaf that is left is outside the range. *)
Lemma untouched host x start end_ b w g lv sl j : steady m host x -> leaf m (core x) b w -> ~ touches m start end_ (core x) b -> spte_gfn (core x) b = Some (g, lv) ->
  0 <= j < frames lv -> search_memslots (slots (core x)) (g + j) = Some sl ->
  ~ (start < end_ /\ start < __gfn_to_hva_memslot sl (g + j) + PAGE_SIZE /\ __gfn_to_hva_memslot sl (g + j) < end_).
Proof using.
  intros [[ls Hr] Hlay Hb _ _ Hor] Hlf Hno Eg Hj Es (H1 & H2 & H3). pose proof (se_tree _ _ _ _ (rd_settled _ _ _ Hr)) as Ht. apply Hno.
  pose proof (mk_slots _ _ _ (tr_mmu _ _ _ _ Ht)) as Hok. destruct (Hb b w g lv Hlf Eg) as [_ Hbk Hcv]. destruct (Hbk 0 ltac:(lia)) as (s0 & Es0 & _). rewrite Z.add_0_r in Es0.
  pose proof (Hcv s0 j Es0 Hj) as Hc. destruct (one_slot_at _ g (g + j) s0 (rd_slots _ _ _ Hr) Es0 Hc) as (s & Es' & (_ & A2 & _ & A4 & _)). assert (s = sl) as -> by congruence.
  assert (Eh : __gfn_to_hva_memslot sl (g + j) = frame_hva s0 (g + j)).
  { rewrite (hva_eq (slots (core x)) _ sl Hok Es (lo_addr _ Hlay _ _ Es)). unfold frame_hva. by rewrite A2, A4. }
  exists w, g, lv, s0, (g + j). split; [done|]. split; [done|]. split; [done|]. split.
  { unfold in_range. rewrite <- Eh. unfold covers in Hc. lia. }
  pose proof Hlf as (_ & _ & sp & Esp & _). pose proof (tr_pages _ _ _ _ Ht _ _ Esp) as Hpo. pose proof (rg_aligned _ _ (Hor _ _ Esp)) as Hal.
  assert (Ha8 : b mod 8 = 0) by (destruct Hlf as (Ew & _); apply (tr_mem _ _ _ _ Ht); by eexists). destruct (entry_at _ Ha8) as (_ & Hix & _).
  pose proof (tr_level _ _ _ _ Ht _ _ _ Hlf Esp) as Hl3. pose proof (pg_level _ _ Hpo) as Hlv.
  unfold spte_gfn in Eg. rewrite Esp in Eg. cbn in Eg. rewrite (entry_gfn _ sp _ Hpo ltac:(lia) Hix) in Eg. cbn in Eg. injection Eg as Eg <-.
  pose proof (frames_pos (sp_level sp) ltac:(lia)) as Hfp. rewrite frames_succ in Hal by lia.
  assert (Hg : g mod frames (sp_level sp) = 0).
  { rewrite <- Eg, Z.mod_add by lia. apply Z.mod_divide in Hal as [q Hq]; [|lia]. rewrite Hq. replace (q * (frames (sp_level sp) * 512)) with (q * 512 * frames (sp_level sp)) by lia. apply Z.mod_mul. lia. }
  unfold gfn_to_index, KVM_HPAGE_GFN_SHIFT. rewrite !Z.shiftr_div_pow2 by lia.
  replace (2 ^ ((sp_level sp - 1) * 9)) with (frames (sp_level sp)) by (unfold frames; f_equal; lia). f_equal. apply Z.mod_divide in Hg as [q ->]; [|lia].
  rewrite Z.add_comm, Z.div_add, Z.div_mul, Z.div_small by lia. done.
Qed.

(** The page at [a] meets the range. *)
Definition meets (start end_ a : Z) : Prop := start < end_ /\ start < a + PAGE_SIZE /\ a < end_.

#[global] Instance meets_dec start end_ a : Decision (meets start end_ a).
Proof. unfold meets. apply _. Defined.

Lemma steady_host (host host' : Z -> Z -> Prop) x : steady m host x -> all_backed m host' (core x) -> steady m host' x.
Proof. intros [? ? _ ? ? ?] Hb. by split. Qed.

Lemma backed_mono (host host' : Z -> Z -> Prop) k g lv pfn : (forall a p, host a p -> host' a p) -> backed host k g lv pfn -> backed host' k g lv pfn.
Proof. intros Hi [A B C]. split; [done| |done]. intros j Hj. destruct (B j Hj) as (s & Es & Hh). eauto. Qed.

Lemma steady_mono (host host' : Z -> Z -> Prop) x : (forall a p, host a p -> host' a p) -> steady m host x -> steady m host' x.
Proof. intros Hi Hs. apply (steady_host host); [done|]. intros b w g lv Hb Eg. by apply (backed_mono host), (sd_backed _ _ _ Hs b w). Qed.

(** After the range is unmapped, nothing in it is mapped. *)
Lemma unmap_steady host x start end_ : steady m host x -> 0 <= start -> 0 <= end_ ->
  exists r k', on_core (kvm_unmap_hva_range m start end_) x = Ok (r, set_core k' x) /\
    steady m (fun a p => host a p /\ ~ meets start end_ a) (set_core k' x) /\ progress 0 0 x (set_core k' x).
Proof using.
  intros Hs H0 H1. destruct (unmap_range host x start end_ Hs H0 H1) as (r & k' & E & Hs' & Hp & Hlf). exists r, k'. split; [done|]. split; [|done].
  apply (steady_host host); [done|]. intros b w g lv Hb Eg. cbn [core set_core] in *. destruct (Hlf b w Hb) as [Hb0 Hno].
  destruct (sd_backed _ _ _ Hs' b w g lv Hb Eg) as [A B C]. split; [done| |done]. intros j Hj. destruct (B j Hj) as (sl & Es & Hh). exists sl. split; [done|]. split; [done|].
  pose proof Hs as [[ls Hr] _ _ _ _ _]. destruct (leaf_gfn m _ _ _ _ (se_tree _ _ _ _ (rd_settled _ _ _ Hr)) Hb0) as [[g0 lv0] Eg0].
  pose proof (progress_gfn _ _ _ _ _ _ Hp Eg0) as Eg1. cbn [core set_core] in Eg1. rewrite Eg in Eg1. injection Eg1 as <- <-.
  pose proof (sk_search _ _ (pr_slots _ _ _ _ Hp) (g + j)) as Hss. cbn [core set_core] in Hss, Es. rewrite Es in Hss.
  destruct (search_memslots (slots (core x)) (g + j)) as [s0|] eqn:E0; [|done]. destruct Hss as (_ & A2 & _ & A4 & _).
  pose proof (untouched host x start end_ b w g lv s0 j Hs Hb0 Hno Eg0 Hj E0) as Hu. unfold meets. unfold __gfn_to_hva_memslot in *. by rewrite A2, A4.
Qed.

(** The buffers are flushed, or not. *)
Lemma flush_when host x (b : bool) : steady m host x ->
  exists k', (if b then on_core kvm_flush_remote_tlbs else mret tt : VM unit) x = Ok (tt, set_core k' x) /\ steady m host (set_core k' x) /\ progress 0 0 x (set_core k' x).
Proof.
  intros Hs. destruct b.
  - eexists. split; [done|]. pose proof Hs as [[ls Hr] _ _ _ _ _]. apply (milder_steady host x _ ls Hs).
    + apply (tree_ext m (core x)); try done. apply Hr.
    + split; [by apply near_same|intros b w Hb; by exists w|done].
  - exists (core x). rewrite set_core_core. split; [done|]. split; [done|apply progress_refl].
Qed.

Lemma flush_run host x r : steady m host x -> exists k', flush_if r x = Ok (tt, set_core k' x) /\ steady m host (set_core k' x) /\ progress 0 0 x (set_core k' x).
Proof. intros Hs. unfold flush_if. rewrite (st_bind_Ok _ _ x x x) by done. by apply flush_when. Qed.

(** Bits set outside the lock. *)
Lemma hardware_steady host x a v w : steady m host x -> leaf m (core x) a v -> outside m v w ->
  let x' := set_core (set_mem a w [] (core x)) x in steady m host x' /\ progress 0 0 x x'.
Proof using Hm.
  intros Hs Hl Ho x'. pose proof Hs as [[ls Hr] _ Hb Hli _ _]. destruct (revalue_run m Hm x ls a v w (rd_settled _ _ _ Hr) Hl Ho) as (Hse & Hp & Hw). split; [|done].
  apply (steady_progress m host 0 0 _ _ x x' ls ls Hr Hs Hp Hse Hw); [|cbn; lia]. intros b u Hu _. by apply (remapped_fresh m host 0 0 x x' ls b u Hr Hb Hp).
Qed.

(** Everything is zapped: what is left are the roots in use, empty. *)
Lemma zap_all_steady host x : steady m host x -> 0 <= valid_gen x < 2 ^ 64 - 1 ->
  exists x', kvm_mmu_invalidate_zap_all_pages m [] x = Ok (tt, x') /\ steady m host x' /\ roomier m (add_request MMU_RELOAD_ALL (set_gen (valid_gen x + 1) x)) x'.
Proof.
  intros Hs Hg. pose proof (steady_bare m host x Hs) as Hba. pose proof Hs as [[ls Hr] _ _ _ _ Hor].
  destruct (zap_all_run m x ls (rd_settled _ _ _ Hr)) as (x' & ls' & E & Hse & Hf & Has & _ & _ & Hk).
  { intros spt sp Esp. pose proof (rg_gen _ _ (Hor _ _ Esp)). rewrite u64_small; lia. }
  rewrite u64_small in Has by lia. set (x1 := add_request MMU_RELOAD_ALL (set_gen (valid_gen x + 1) x)) in *.
  assert (Hrm : roomier m x1 x') by (by split). exists x'. split; [done|]. split; [|done]. apply (room_bare m host x1 x' ls'); [|done|done].
  destruct Hba as [[B1 B2] B3 B4 [B5 B6] B7 B8 B9 B10 B11]. split; try done. intros b q Eq. destruct (B10 b q Eq) as [R1 R2 R3]. split; [cbn; lia|done|done].
Qed.

End mild.
