(* ===== verification/MmuHistory.v ===== *)
(** * Guest memory and the host over time (kvm-kmod x86/mmu.c, x86/kvm_main.c)

    A machine with one virtual processor runs beside a host that maps, moves
    and takes away the pages of its memory: faults stop between the read of
    the sequence number, the lookup of the frame and the lock, and the
    notifiers, the hardware and other requests come in between.  In every
    history the tables translate a guest frame to the frame the host has, or
    to one it is about to announce as gone, and never to a frame of a range
    that is announced. *)

From S2P Require Import Prelude MemSlots GuestCopy Spte PteList Rmap RmapSpec ShadowPages ShadowSpec RoomSpec DirectMap DirectSpec DirectSet DirectFault LargePages DirectTdp MmuRoots MmuNotifier.

(** ** State *)

(** [w_host] is the page table of the process: the frame at the address of a
    page.  [w_ranges] are the ranges announced and not ended, [w_owed] the
    pages with their frames that are gone from the table and not announced
    yet.  [w_time] counts the changes of the sequence number, and a fault
    goes with the time it read the number at.  [w_sizes] are the page sizes
    of the areas of the process. *)
Record world := World {
  w_n : notified; w_v : kvm_mmu; w_fault : option (fault * Z);
  w_host : Z -> option Z; w_ranges : list (Z * Z); w_owed : list (Z * Z); w_time : Z; w_sizes : Z -> Z
}.

Definition w_x (w : world) : mmu := vm (w_n w).

Inductive op :=
| Begin (e : env) (topup : list Z * list Z * nat) (gpa error_code : Z) (prefault : bool)
| Lookup (e : env)
| Map (e : env) (fuel : nat)
| Range_start (start end_ : Z)
| Range_end (i : nat)
| Host_clear (a p : Z)
| Invalidate_page (a : Z)
| Host_fill (a p : Z)
| Host_replace (h : Z -> option Z)
| Areas (s : Z -> Z)
| Young (a : Z)
| Test_young (a : Z)
| Hardware (a v : Z)
| Release
| Change_pages (fuel : nat) (goal : Z)
| Unload
| Load (topup : list Z * list Z * nat) (fuel : nat).

Section history.
  Context (m : shadow_masks) (is_pae : bool) (sync_page : Z -> VM Z).

Definition set_n (n : notified) (w : world) : world := World n (w_v w) (w_fault w) (w_host w) (w_ranges w) (w_owed w) (w_time w) (w_sizes w).
Definition set_fault (f : option (fault * Z)) (w : world) : world := World (w_n w) (w_v w) f (w_host w) (w_ranges w) (w_owed w) (w_time w) (w_sizes w).
Definition set_host (h : Z -> option Z) (w : world) : world := World (w_n w) (w_v w) (w_fault w) h (w_ranges w) (w_owed w) (w_time w) (w_sizes w).
Definition set_ranges (l : list (Z * Z)) (w : world) : world := World (w_n w) (w_v w) (w_fault w) (w_host w) l (w_owed w) (w_time w) (w_sizes w).
Definition set_owed (l : list (Z * Z)) (w : world) : world := World (w_n w) (w_v w) (w_fault w) (w_host w) (w_ranges w) l (w_time w) (w_sizes w).
Definition set_mode (v : kvm_mmu) (w : world) : world := World (w_n w) v (w_fault w) (w_host w) (w_ranges w) (w_owed w) (w_time w) (w_sizes w).
Definition tick (w : world) : world := World (w_n w) (w_v w) (w_fault w) (w_host w) (w_ranges w) (w_owed w) (w_time w + 1) (w_sizes w).
Definition set_sizes (z : Z -> Z) (w : world) : world := World (w_n w) (w_v w) (w_fault w) (w_host w) (w_ranges w) (w_owed w) (w_time w) z.

(** An operation of the machine; its value goes to [k]. *)
Definition act {A} (c : NM A) (k : A -> world -> world) (w : world) : res world :=
  match c (w_n w) with Ok (a, n) => Ok (k a (set_n n w)) | Err e => Err e end.

Definition run (o : op) (w : world) : res world :=
  match o with
  | Begin e topup gpa error_code prefault =>
      act (fault_begin m e (w_v w) topup gpa error_code prefault)
        (fun r w => match r with inl _ => w | inr f => set_fault (Some (f, w_time w)) w end) w
  | Lookup e =>
      match w_fault w with
      | None => Ok w
      | Some (f, t) => Ok (set_fault (match fault_lookup e f with None => None | Some f => Some (f, t) end) w)
      end
  | Map e fuel =>
      match w_fault w with
      | None => Ok w
      | Some (f, _) => act (fault_map m is_pae sync_page e (w_v w) fuel f) (fun _ => set_fault None) w
      end
  | Range_start s t => act (kvm_mmu_notifier_invalidate_range_start m s t) (fun _ w => set_ranges ((s, t) :: w_ranges w) w) w
  | Range_end i => act kvm_mmu_notifier_invalidate_range_end (fun _ w => tick (set_ranges (delete i (w_ranges w)) w)) w
  | Host_clear a p => Ok (set_owed ((a, p) :: w_owed w) (set_host (fun b => if decide (b = a) then None else w_host w b) w))
  | Invalidate_page a =>
      act (kvm_mmu_notifier_invalidate_page m a) (fun _ w => tick (set_owed (filter (fun q => ~ meets a (a + 1) q.1) (w_owed w)) w)) w
  | Host_fill a p => Ok (set_host (fun b => if decide (b = a) then Some p else w_host w b) w)
  | Host_replace h => Ok (set_host h w)
  | Areas z => Ok (set_sizes z w)
  | Young a => act (kvm_mmu_notifier_clear_flush_young m a) (fun _ w => w) w
  | Test_young a => act (kvm_mmu_notifier_test_young m a) (fun _ w => w) w
  | Hardware a v => act (on_vm (on_core (modify (set_mem a v [])))) (fun _ w => w) w
  | Release => act (kvm_mmu_notifier_release m []) (fun _ w => w) w
  | Change_pages fuel goal => act (on_vm (kvm_mmu_change_mmu_pages m fuel goal)) (fun _ w => w) w
  | Unload => act (on_vm (kvm_mmu_unload m (w_v w))) set_mode w
  | Load topup fuel => act (on_vm (kvm_mmu_load m is_pae sync_page 0 [] (w_v w) topup fuel 0 None 0)) (fun r => set_mode r.1.2) w
  end.

(** ** What the host may do, and when *)

Definition announced (w : world) (a : Z) : Prop := exists r, r ∈ w_ranges w /\ meets r.1 r.2 a.

(** What may be mapped for the page at [a]. *)
Definition may (w : world) (a p : Z) : Prop := ~ announced w a /\ (w_host w a = Some p \/ (a, p) ∈ w_owed w).

(** The sequence number does not come round while a fault waits. *)
Definition patient (w : world) : Prop := match w_fault w with None => True | Some (_, t) => w_time w + 1 - t < 2 ^ 64 end.

Definition hosts (w : world) (a p : Z) : Prop := w_host w a = Some p.

Definition enabled (w : world) (o : op) : Prop :=
  match o with
  | Begin e topup gpa _ _ => w_fault w = None /\ VALID_PAGE (root_hpa (w_v w)) = true /\ alloc_ok topup (w_x w) /\ 1 <= lpage_level e <= 3 /\
      (forall a, vma_pagesize e a = w_sizes w a) /\ 0 <= gpa < 2 ^ 48
  | Lookup e => (forall a, vma_pagesize e a = w_sizes w a) /\ area_ok e (hosts w) /\
      forall g wr pfn mw, try_async_pf e g wr = Some (pfn, mw) -> lookup_ok (hosts w) (slots (core (w_x w))) g pfn
  | Map e fuel => (w_ranges w = [] -> locked_ok e (may w)) /\ zap_enough fuel (w_x w)
  | Range_start s t => 0 <= s /\ 0 <= t
  | Range_end i => is_Some (w_ranges w !! i) /\ patient w
  | Host_clear a p => w_host w a = Some p
  | Invalidate_page a => 0 <= a < 2 ^ 64 - 1 /\ patient w
  | Host_fill a _ => w_host w a = None
  | Host_replace h => forall a, h a <> w_host w a -> announced w a
  | Areas z => forall a, z a <> w_sizes w a -> announced w a
  | Young a | Test_young a => 0 <= a < 2 ^ 64 - 1
  | Hardware a v => exists u, leaf m (core (w_x w)) a u /\ outside m u v
  | Release => 0 <= valid_gen (w_x w) < 2 ^ 64 - 1
  | Change_pages fuel goal => Z.of_nat (roots (w_x w)) + KVM_REFILL_PAGES <= goal < 2 ^ 32 /\ zap_enough fuel (w_x w)
  | Unload => w_fault w = None
  | Load topup fuel => w_fault w = None /\ root_hpa (w_v w) = INVALID_PAGE /\ alloc_ok topup (w_x w) /\ zap_enough fuel (w_x w) /\
      Z.of_nat (roots (w_x w)) + 1 + KVM_REFILL_PAGES <= n_max_mmu_pages (w_x w)
  end.

(** A history of operations, each allowed when it happens. *)
Inductive history : world -> list op -> world -> Prop :=
| history_nil w : history w [] w
| history_cons w o w1 os w2 : enabled w o -> run o w = Ok w1 -> history w1 os w2 -> history w (o :: os) w2.

(** ** What holds between the operations *)

(** What a fault that read the present sequence number may have found. *)
Definition seen (w : world) (a p : Z) : Prop := w_host w a = Some p \/ (a, p) ∈ w_owed w \/ announced w a.

(** A fault under way: unless the number has changed or a range is
    announced, the areas have the sizes it saw and the frame it found is
    still there or about to be announced. *)
Record pending (w : world) (f : fault) (t : Z) : Prop := {
  pd_root : rooted (w_v w) (w_x w);
  pd_time : t <= w_time w < t + 2 ^ 64;
  pd_seq : f_seq f = u64 t;
  pd_page : exists e g, (t = w_time w -> w_ranges w = [] -> forall a, vma_pagesize e a = w_sizes w a) /\ 0 <= g < 2 ^ 36 /\ chosen e (w_x w) g (f_level f) (f_gfn f);
  pd_stocked : stocked (w_x w);
  pd_found pfn mw : f_found f = Some (pfn, mw) -> is_error_pfn pfn = true \/ pfn = KVM_PFN_NOSLOT \/
    0 <= pfn < 2 ^ 40 /\ (t = w_time w -> w_ranges w = [] -> backed (seen w) (slots (core (w_x w))) (f_gfn f) (f_level f) pfn)
}.

Record consistent (w : world) : Prop := {
  co_steady : steady m (may w) (w_x w);
  co_mode : shadow_root_level (w_v w) = 4 /\ direct_map (w_v w) = true /\ invalid (base_role (w_v w)) = false;
  co_root : root_hpa (w_v w) = INVALID_PAGE \/ rooted (w_v w) (w_x w);
  co_count : mmu_notifier_count (w_n w) = Z.of_nat (length (w_ranges w));
  co_seq : mmu_notifier_seq (w_n w) = u64 (w_time w);
  co_fault f t : w_fault w = Some (f, t) -> pending w f t
}.

(** What operations of others leave to a fault under way. *)
Record alike (v : kvm_mmu) (x x' : mmu) : Prop := {
  li_root : rooted v x -> rooted v x';
  li_slots : slots_like (slots (core x)) (slots (core x'));
  li_counts : write_count x' = write_count x;
  li_stocked : stocked x -> stocked x'
}.

Lemma alike_refl v x : alike v x x.
Proof. by split. Qed.

Lemma alike_progress v x x' : progress 0 0 x x' -> alike v x x'.
Proof.
  intros Hp. split; [by apply (rooted_progress v 0 0 x x')|apply Hp|apply Hp|]. intros (S1 & S2 & S3). destruct (pr_caches _ _ _ _ Hp) as (C1 & C2 & C3). unfold stocked. lia.
Qed.

Lemma alike_trans v x y z : alike v x y -> alike v y z -> alike v x z.
Proof. intros [A1 A2 A3 A4] [B1 B2 B3 B4]. split; [auto|by etrans|congruence|auto]. Qed.

Lemma alike_room v x x' : roomier m x x' -> alike v x x'.
Proof.
  intros Hr. pose proof (rm_aside _ _ _ Hr) as Ha. destruct (as_caches _ _ Ha) as [C1 C2].
  split; [by apply (room_rooted m)|by rewrite (as_slots _ _ Ha)|apply Ha|]. unfold stocked. by rewrite C1, C2, (as_objects _ _ Ha).
Qed.

Lemma pending_kept w w' f t : pending w f t -> alike (w_v w) (w_x w) (w_x w') -> w_v w' = w_v w -> w_time w <= w_time w' < t + 2 ^ 64 ->
  (w_time w' = w_time w -> w_ranges w' = [] -> w_ranges w = [] /\ (forall a, w_sizes w' a = w_sizes w a) /\ forall a p, seen w a p -> seen w' a p) -> pending w' f t.
Proof.
  intros [P1 P2 P3 (e & g & Pe & Pg & Pc) P5 P6] [A1 A2 A3 A4] Ev Ht Hse. split.
  - rewrite Ev. auto.
  - lia.
  - done.
  - exists e, g. split; [|split; [done|by apply (chosen_like e (w_x w))]]. intros Et Er a. destruct (Hse ltac:(lia) Er) as (Er0 & Hz & _). rewrite Hz. apply Pe; [lia|done].
  - auto.
  - intros pfn mw Ef. destruct (P6 pfn mw Ef) as [?|[?|[Hp Hb]]]; [by left|right; by left|right; right]. split; [done|]. intros Et Er. destruct (Hse ltac:(lia) Er) as (Er0 & _ & Hs).
    apply (backed_like _ (slots (core (w_x w)))); [done|]. eapply backed_mono; [exact Hs|]. apply Hb; [lia|done].
Qed.

(** The number changes or stays, and nothing else of the fault does. *)
Lemma consistent_next w w' : consistent w -> steady m (may w') (w_x w') -> alike (w_v w) (w_x w) (w_x w') -> w_v w' = w_v w -> w_fault w' = w_fault w ->
  mmu_notifier_count (w_n w') = Z.of_nat (length (w_ranges w')) -> mmu_notifier_seq (w_n w') = u64 (w_time w') ->
  (w_time w' = w_time w /\ (w_ranges w' = [] -> w_ranges w = [] /\ (forall a, w_sizes w' a = w_sizes w a) /\ forall a p, seen w a p -> seen w' a p)) \/ w_time w' = w_time w + 1 /\ patient w -> consistent w'.
Proof.
  intros [C1 C2 C3 C4 C5 C6] Hs Ha Ev Ef Hc Hq Ht. split; [done|by rewrite Ev| |done|done|].
  - rewrite Ev. destruct C3 as [?|?]; [by left|right]. by apply Ha.
  - intros f t. rewrite Ef. intros E. pose proof (C6 f t E) as Hpd. pose proof (pd_time _ _ _ Hpd) as Htm.
    apply (pending_kept w w' f t Hpd Ha Ev).
    + destruct Ht as [[-> _]|[-> Hpa]]; [lia|]. unfold patient in Hpa. rewrite E in Hpa. lia.
    + intros Et. destruct Ht as [[_ ?]|[? _]]; [done|lia].
Qed.

(** ** The host *)

Lemma host_next w w' : consistent w -> w_n w' = w_n w -> w_v w' = w_v w -> w_fault w' = w_fault w -> w_ranges w' = w_ranges w -> w_time w' = w_time w -> (w_ranges w = [] -> forall a, w_sizes w' a = w_sizes w a) ->
  (forall a p, may w a p -> may w' a p) -> (forall a p, seen w a p -> seen w' a p) -> consistent w'.
Proof.
  intros Hc En Ev Ef Er Et Hz Hm' Hs. assert (Ex : w_x w' = w_x w) by (unfold w_x; by rewrite En). apply (consistent_next w w' Hc); [|rewrite Ex; apply alike_refl|done|done|..].
  - rewrite Ex. apply (steady_mono m (may w)); [done|apply Hc].
  - rewrite En, Er. apply Hc.
  - rewrite En, Et. apply Hc.
  - left. split; [done|]. rewrite Er. intros Er0. auto.
Qed.

Lemma announced_eq w w' a : w_ranges w' = w_ranges w -> announced w' a <-> announced w a.
Proof. intros E. unfold announced. by rewrite E. Qed.

Lemma clear_next w a p : consistent w -> w_host w a = Some p -> exists w', run (Host_clear a p) w = Ok w' /\ consistent w'.
Proof.
  intros Hc Ha. eexists. split; [done|].
  apply (host_next w); try done; intros b q; unfold may, seen; cbn [w_host w_owed set_owed set_host]; rewrite announced_eq by done; rewrite elem_of_cons; destruct (decide (b = a)) as [->|]; rewrite ?Ha; naive_solver.
Qed.

Lemma fill_next w a p : consistent w -> w_host w a = None -> exists w', run (Host_fill a p) w = Ok w' /\ consistent w'.
Proof.
  intros Hc Ha. eexists. split; [done|].
  apply (host_next w); try done; intros b q; unfold may, seen; cbn [w_host w_owed set_host]; rewrite announced_eq by done; destruct (decide (b = a)) as [->|]; rewrite ?Ha; naive_solver.
Qed.

Lemma replace_next w h : consistent w -> (forall a, h a <> w_host w a -> announced w a) -> exists w', run (Host_replace h) w = Ok w' /\ consistent w'.
Proof.
  intros Hc Hh. eexists. split; [done|].
  apply (host_next w); try done; intros b q; unfold may, seen; cbn [w_host w_owed set_host]; rewrite announced_eq by done;
    (destruct (decide (h b = w_host w b)) as [->|Hne%Hh]; naive_solver).
Qed.

Lemma areas_next w z : consistent w -> (forall a, z a <> w_sizes w a -> announced w a) -> exists w', run (Areas z) w = Ok w' /\ consistent w'.
Proof.
  intros Hc Hz. eexists. split; [done|]. apply (host_next w); try done. intros Er a. cbn. destruct (decide (z a = w_sizes w a)) as [|Hne]; [done|].
  destruct (Hz a Hne) as (r & Hr & _). rewrite Er in Hr. by apply not_elem_of_nil in Hr.
Qed.

(** ** The notifiers *)

Lemma on_vm_Ok {A} (c : VM A) n a x : c (vm n) = Ok (a, x) -> on_vm c n = Ok (a, Notified x (mmu_notifier_seq n) (mmu_notifier_count n)).
Proof. intros E. unfold on_vm. by rewrite E. Qed.

Lemma act_Ok {A} (c : NM A) (k : A -> world -> world) w a n : c (w_n w) = Ok (a, n) -> act c k w = Ok (k a (set_n n w)).
Proof. intros E. unfold act. by rewrite E. Qed.

(** A range is unmapped and the buffers flushed. *)
Lemma unmap_flush n start end_ host : steady m host (vm n) -> 0 <= start -> 0 <= end_ ->
  exists x', (r ← on_vm (on_core (kvm_unmap_hva_range m start end_)); on_vm (flush_if r)) n = Ok (tt, Notified x' (mmu_notifier_seq n) (mmu_notifier_count n)) /\
    steady m (fun a p => host a p /\ ~ meets start end_ a) x' /\ progress 0 0 (vm n) x'.
Proof.
  intros Hs H0 H1. destruct (unmap_steady m host (vm n) start end_ Hs H0 H1) as (r & k1 & E1 & Hs1 & Hp1).
  destruct (flush_run m _ (set_core k1 (vm n)) r Hs1) as (k2 & E2 & Hs2 & Hp2). rewrite (st_bind_Ok _ _ _ _ _ (on_vm_Ok _ n _ _ E1)).
  eexists. split; [by apply (on_vm_Ok _ (Notified _ _ _) tt _ E2)|]. split; [done|]. exact (progress_trans 0 0 0 0 _ _ _ Hp1 Hp2).
Qed.

Lemma start_next w start end_ : consistent w -> 0 <= start -> 0 <= end_ -> exists w', run (Range_start start end_) w = Ok w' /\ consistent w'.
Proof.
  intros Hc H0 H1. set (n1 := Notified (w_x w) (mmu_notifier_seq (w_n w)) (mmu_notifier_count (w_n w) + 1)).
  destruct (unmap_flush n1 start end_ (may w) (co_steady _ Hc) H0 H1) as (x' & E & Hs & Hp). eexists. split.
  { cbn [run]. apply (act_Ok _ _ _ tt). unfold kvm_mmu_notifier_invalidate_range_start. rewrite (st_bind_Ok _ _ _ tt n1) by done. exact E. }
  apply (consistent_next w); [done|..|done|done| | |].
  - cbn. eapply steady_mono; [|exact Hs]. intros a p [[Hn Hh] Hno]. split; [|done]. intros (r & [->|Hr]%elem_of_cons & Hm'); [done|]. apply Hn. by exists r.
  - by apply alike_progress.
  - cbn. rewrite (co_count _ Hc). lia.
  - cbn. apply Hc.
  - left. by split.
Qed.

Lemma end_next w i : consistent w -> is_Some (w_ranges w !! i) -> patient w -> exists w', run (Range_end i) w = Ok w' /\ consistent w'.
Proof.
  intros Hc [r Hi] Hp. pose proof (length_delete (w_ranges w) i ltac:(by eexists)) as Hl. pose proof (lookup_lt_Some _ _ _ Hi) as Hlt.
  set (n1 := Notified (w_x w) (u64 (mmu_notifier_seq (w_n w) + 1)) (mmu_notifier_count (w_n w) - 1)). eexists. split.
  { cbn [run]. apply (act_Ok _ _ _ tt). unfold kvm_mmu_notifier_invalidate_range_end. rewrite (st_bind_Ok _ _ _ tt (Notified (w_x w) (u64 (mmu_notifier_seq (w_n w) + 1)) (mmu_notifier_count (w_n w)))) by done.
    rewrite (st_bind_Ok _ _ _ tt n1) by done. rewrite (st_bind_Ok _ _ _ (mmu_notifier_count n1) n1) by done. cbn [mmu_notifier_count n1]. rewrite (co_count _ Hc).
    replace (Z.of_nat (length (w_ranges w)) - 1 <? 0) with false by lia. apply (on_vm_Ok _ n1 tt (w_x w)). cbn. by rewrite set_core_core. }
  apply (consistent_next w); [done|..|done|done| | |].
  - cbn. eapply steady_mono; [|apply Hc]. intros a p [Hn Hh]. split; [|done]. intros (r' & Hr' & Hm'). apply Hn. exists r'. split; [|done].
    apply list_elem_of_lookup in Hr' as [j Hj]. eapply (elem_of_submseteq (delete i (w_ranges w))); [by eapply list_elem_of_lookup_2|apply sublist_submseteq, sublist_delete].
  - apply alike_refl.
  - cbn. rewrite (co_count _ Hc), Hl. lia.
  - cbn. rewrite (co_seq _ Hc). unfold u64. by rewrite Zplus_mod_idemp_l.
  - by right.
Qed.

Lemma page_next w a : consistent w -> 0 <= a < 2 ^ 64 - 1 -> patient w -> exists w', run (Invalidate_page a) w = Ok w' /\ consistent w'.
Proof.
  intros Hc Ha Hp. set (n1 := Notified (w_x w) (u64 (mmu_notifier_seq (w_n w) + 1)) (mmu_notifier_count (w_n w))).
  destruct (unmap_flush n1 a (a + 1) (may w) (co_steady _ Hc) ltac:(lia) ltac:(lia)) as (x' & E & Hs & Hpr). eexists. split.
  { cbn [run]. apply (act_Ok _ _ _ tt). unfold kvm_mmu_notifier_invalidate_page. rewrite (st_bind_Ok _ _ _ tt n1) by done. unfold kvm_unmap_hva, kvm_handle_hva. rewrite u64_small by lia. exact E. }
  apply (consistent_next w); [done|..|done|done| | |].
  - cbn. eapply steady_mono; [|exact Hs]. intros b p [[Hn Hh] Hno]. split; [done|]. destruct Hh as [?|Ho]; [by left|right]. apply list_elem_of_filter. by split.
  - by apply alike_progress.
  - cbn. apply Hc.
  - cbn. rewrite (co_seq _ Hc). unfold u64. by rewrite Zplus_mod_idemp_l.
  - by right.
Qed.

(** ** Operations that leave host and ranges alone *)

Lemma same_may w n : forall a p, may w a p -> may (set_n n w) a p.
Proof. done. Qed.

Lemma quiet_next w x' : consistent w -> steady m (may w) x' -> alike (w_v w) (w_x w) x' ->
  consistent (set_n (Notified x' (mmu_notifier_seq (w_n w)) (mmu_notifier_count (w_n w))) w).
Proof. intros Hc Hs Ha. apply (consistent_next w); [done|done|done|done|done|apply Hc|apply Hc|left]. split; [done|]. cbn. auto. Qed.

Context (Hm : direct_masks m).

Lemma young_next w a : consistent w -> 0 <= a < 2 ^ 64 - 1 -> exists w', run (Young a) w = Ok w' /\ consistent w'.
Proof using Hm.
  intros Hc Ha. destruct (mild_range m _ (may w) (w_x w) a (a + 1) (mild_age m Hm) (co_steady _ Hc) ltac:(lia) ltac:(lia)) as (r & k1 & E1 & Hs1 & Hp1).
  assert (E1' : on_core (kvm_age_hva m a) (w_x w) = Ok (r, set_core k1 (w_x w))) by (unfold kvm_age_hva, kvm_handle_hva; rewrite u64_small by lia; exact E1).
  destruct (flush_when m (may w) (set_core k1 (w_x w)) (negb (r =? 0)) Hs1) as (k2 & E2 & Hs2 & Hp2). eexists. split.
  { cbn [run]. apply (act_Ok _ _ _ r). unfold kvm_mmu_notifier_clear_flush_young. rewrite (st_bind_Ok _ _ _ _ _ (on_vm_Ok _ _ _ _ E1')).
    rewrite (st_bind_Ok _ _ _ _ _ (on_vm_Ok _ (Notified _ _ _) _ _ E2)). done. }
  apply quiet_next; [done|done|]. apply alike_progress. exact (progress_trans 0 0 0 0 _ _ _ Hp1 Hp2).
Qed.

Lemma test_young_next w a : consistent w -> 0 <= a < 2 ^ 64 - 1 -> exists w', run (Test_young a) w = Ok w' /\ consistent w'.
Proof using Hm.
  intros Hc Ha. destruct (mild_range m _ (may w) (w_x w) a (a + 1) (mild_test_age m Hm) (co_steady _ Hc) ltac:(lia) ltac:(lia)) as (r & k1 & E1 & Hs1 & Hp1).
  eexists. split.
  { cbn [run]. apply (act_Ok _ _ _ r). unfold kvm_mmu_notifier_test_young, kvm_test_age_hva, kvm_handle_hva. rewrite u64_small by lia. by apply on_vm_Ok. }
  by apply quiet_next, alike_progress.
Qed.

Lemma hardware_next w a v : consistent w -> (exists u, leaf m (core (w_x w)) a u /\ outside m u v) -> exists w', run (Hardware a v) w = Ok w' /\ consistent w'.
Proof using Hm.
  intros Hc (u & Hu & Ho). destruct (hardware_steady m Hm (may w) (w_x w) a u v (co_steady _ Hc) Hu Ho) as [Hs Hp]. eexists. split; [done|]. by apply quiet_next, alike_progress.
Qed.

Lemma release_next w : consistent w -> 0 <= valid_gen (w_x w) < 2 ^ 64 - 1 -> exists w', run Release w = Ok w' /\ consistent w'.
Proof.
  intros Hc Hg. destruct (zap_all_steady m (may w) (w_x w) (co_steady _ Hc) Hg) as (x' & E & Hs & Hr). eexists. split.
  { cbn [run]. apply (act_Ok _ _ _ tt). by apply on_vm_Ok. }
  apply quiet_next; [done|done|]. eapply alike_trans; [|by apply alike_room]. split; [|done|done|done]. intros [R1 R2 R3 R4]. by split.
Qed.

Lemma change_pages_next w fuel goal : consistent w -> Z.of_nat (roots (w_x w)) + KVM_REFILL_PAGES <= goal < 2 ^ 32 -> zap_enough fuel (w_x w) ->
  exists w', run (Change_pages fuel goal) w = Ok w' /\ consistent w'.
Proof.
  intros Hc Hg Hf. pose proof (co_steady _ Hc) as Hs. pose proof Hs as [[ls Hr] _ _ Hli _ _].
  destruct (change_pages_run m fuel goal (w_x w) ls (rd_settled _ _ _ Hr) (rd_used _ _ _ Hr) ltac:(lia) ltac:(unfold KVM_REFILL_PAGES in Hg; lia) Hf) as (x1 & ls1 & E & Hse & Hrm & Hl).
  destruct (room_steady m (may w) (w_x w) x1 ls ls1 Hr Hs Hse Hrm) as [Hs1 Hr1]. eexists. split.
  { cbn [run]. apply (act_Ok _ _ _ tt). by apply on_vm_Ok. }
  apply quiet_next; [done| |].
  - pose proof Hs1 as [_ [L1 L2] Hb _ _ Ho]. apply (bare_steady m (may w) (set_max goal x1) ls1).
    + destruct Hse as [T1 [T2 T3 T4 T5 T6 T7] T8 T9 T10 T11]. by split; [|split|..].
    + split; [by destruct (rd_arrays _ _ _ Hr1); split|exact (rd_used _ _ _ Hr1)|exact (rd_slots _ _ _ Hr1)|by split|exact Hb|cbn; lia| |exact Ho|exact (se_active _ _ _ _ Hse)].
      cbn [n_max_mmu_pages set_max]. change (roots (set_max goal x1)) with (roots x1). enough (roots x1 <= roots (w_x w))%nat by lia. apply (roomier_roots m _ _ ls ls1); [apply Hr|done|done].
  - eapply alike_trans; [by apply alike_room|]. split; [|done|done|done]. intros [R1 R2 R3 R4]. by split.
Qed.

(** ** Roots *)

(** The processor has another root, or none, and no fault is under way. *)
Lemma root_next w x' v' : consistent w -> w_fault w = None -> steady m (may w) x' -> v' = w_v w \/ (exists root, v' = with_root (w_v w) root (pae_root (w_v w))) ->
  root_hpa v' = INVALID_PAGE \/ rooted v' x' ->
  consistent (set_mode v' (set_n (Notified x' (mmu_notifier_seq (w_n w)) (mmu_notifier_count (w_n w))) w)).
Proof.
  intros Hc Hf Hs Hv Hr. split; [done| |done|apply Hc|apply Hc|].
  - cbn. destruct Hv as [->|[root ->]]; apply Hc.
  - cbn. rewrite Hf. done.
Qed.

Lemma unload_next w : consistent w -> w_fault w = None -> exists w', run Unload w = Ok w' /\ consistent w'.
Proof.
  intros Hc Hf. destruct (co_root _ Hc) as [Hi|Hro].
  - eexists. split.
    { cbn [run]. apply (act_Ok _ _ _ (w_v w)). apply on_vm_Ok. unfold kvm_mmu_unload, mmu_free_roots, VALID_PAGE. rewrite Hi, Z.eqb_refl. reflexivity. }
    apply root_next; [done|done|apply Hc|by left|by left].
  - destruct (free_root_run m (may w) (w_v w) (w_x w)) as (x' & E & Hs); [split; [apply Hc|done]|]. eexists. split.
    { cbn [run]. apply (act_Ok _ _ _ (with_root (w_v w) INVALID_PAGE (pae_root (w_v w)))). by apply on_vm_Ok. }
    apply root_next; [done|done|done|right; by eexists|by left].
Qed.

Lemma load_next w topup fuel : consistent w -> w_fault w = None -> root_hpa (w_v w) = INVALID_PAGE -> alloc_ok topup (w_x w) -> zap_enough fuel (w_x w) ->
  Z.of_nat (roots (w_x w)) + 1 + KVM_REFILL_PAGES <= n_max_mmu_pages (w_x w) -> exists w', run (Load topup fuel) w = Ok w' /\ consistent w'.
Proof using Hm.
  intros Hc Hf Hi Hal Hfu Hrt. destruct (co_mode _ Hc) as (M1 & M2 & M3).
  destruct (load_run m Hm (may w) is_pae sync_page (w_v w) topup fuel (w_x w) M1 M2 M3 (co_steady _ Hc) Hal Hfu Hrt) as (r & v' & x' & E & Hs & Hv). eexists. split.
  { cbn [run]. apply (act_Ok _ _ _ (r, v', None)). by apply on_vm_Ok. }
  cbn [fst snd]. destruct Hv as [[_ ->]|(root & _ & -> & Hro)]; apply root_next; try done; [by left|by left|right; by eexists|by right].
Qed.

(** ** The fault *)

Lemma begin_next w e topup gpa ec prefault : consistent w -> enabled w (Begin e topup gpa ec prefault) -> exists w', run (Begin e topup gpa ec prefault) w = Ok w' /\ consistent w'.
Proof using Hm.
  intros Hc (Hf & Hv & Hal & Hl & Hz & Hgpa). assert (Hro : rooted (w_v w) (w_x w)).
  { destruct (co_root _ Hc) as [Hi|?]; [|done]. unfold VALID_PAGE in Hv. by rewrite Hi, Z.eqb_refl in Hv. }
  destruct (prepare_run m Hm e (may w) (w_v w) topup gpa ec (w_x w) ltac:(split; [apply Hc|done]) Hal Hl) as (o & x1 & E1 & [Hs1 Hro1] & _ & _ & _ & Ho & _).
  assert (Hn : forall f', (forall f t, f' = Some (f, t) -> pending (set_fault f' (set_n (Notified x1 (mmu_notifier_seq (w_n w)) (mmu_notifier_count (w_n w))) w)) f t) ->
    consistent (set_fault f' (set_n (Notified x1 (mmu_notifier_seq (w_n w)) (mmu_notifier_count (w_n w))) w))).
  { intros f' Hp. split; [done|apply Hc|by right|apply Hc|apply Hc|done]. }
  destruct o as [r|[[force level] gfn]].
  - eexists. split.
    { cbn [run]. apply (act_Ok _ _ _ (inl r)). unfold fault_begin. by rewrite (st_bind_Ok _ _ _ _ _ (on_vm_Ok _ _ _ _ E1)). }
    cbn beta iota. specialize (Hn None). rewrite <- Hf in Hn. apply Hn. intros f t. by rewrite Hf.
  - destruct Ho as [Hch Hst]. set (f := Fault (any ec PFERR_WRITE_MASK) force level gfn prefault (mmu_notifier_seq (w_n w)) None). eexists. split.
    { cbn [run]. apply (act_Ok _ _ _ (inr f)). unfold fault_begin. by rewrite (st_bind_Ok _ _ _ _ _ (on_vm_Ok _ _ _ _ E1)). }
    apply Hn. intros f' t [= <- <-]. split; cbn [w_time set_fault set_n w_v f f_seq f_level f_gfn f_found]; [done|lia|apply Hc| |done|done].
    exists e, (Z.shiftr gpa PAGE_SHIFT). split; [by intros _ _|]. split; [|done]. rewrite Z.shiftr_div_pow2 by done. change (2 ^ PAGE_SHIFT) with 4096. split; [apply Z.div_pos; lia|apply Z.div_lt_upper_bound; lia].
Qed.

Lemma chosen_sizes e e' x g level gfn : (forall a, vma_pagesize e' a = vma_pagesize e a) -> chosen e x g level gfn -> chosen e' x g level gfn.
Proof.
  intros He (H1 & H2 & H3). split; [done|]. split; [done|]. intros H4. destruct (H3 H4) as [H5 H6]. split; [|done]. revert H5. unfold kvm_host_page_size. destruct (gfn_to_hva _ _); [|done]. by rewrite He.
Qed.

Lemma lookup_next w e : consistent w -> enabled w (Lookup e) -> exists w', run (Lookup e) w = Ok w' /\ consistent w'.
Proof.
  intros Hc (Hz & Har & Hlk). cbn [run]. destruct (w_fault w) as [[f t]|] eqn:Ef; [|by exists w]. eexists. split; [done|].
  split; try apply Hc. cbn [w_fault set_fault]. unfold fault_lookup. destruct (try_async_pf e (f_gfn f) (f_write f)) as [[pfn mw]|] eqn:Et; [|done].
  intros f' t' [= <- <-]. destruct (co_fault _ Hc f t Ef) as [P1 P2 P3 P4 P5 P6]. split; [done|done|done|done|done|]. cbn [f_found f_gfn f_level]. intros pfn' mw' [= <- <-].
  destruct (Hlk _ _ _ _ Et) as [?|[?|[Hp (sl & Es & Hh)]]]; [by left|right; by left|right; right]. split; [done|]. intros Et0 Er0. destruct P4 as (e0 & g & Pe & Pg & Pc). specialize (Pe Et0 Er0).
  pose proof (co_steady _ Hc) as [[ls Hr] Hlay _ _ _ _]. apply (backed_mono (hosts w)); [intros a p Ha; by left|].
  apply (chosen_backed e (hosts w) (w_x w) g (f_level f) (f_gfn f) sl pfn); [done|apply (mk_slots _ _ _ (tr_mmu _ _ _ _ (se_tree _ _ _ _ (rd_settled _ _ _ Hr))))|apply Hr|done| |done|done].
  apply (chosen_sizes e0); [|done]. intros a. by rewrite Hz, Pe.
Qed.

Lemma map_next w e fuel : consistent w -> enabled w (Map e fuel) -> exists w', run (Map e fuel) w = Ok w' /\ consistent w'.
Proof using Hm.
  intros Hc (Hlo & Hfu). cbn [run]. destruct (w_fault w) as [[f t]|] eqn:Ef; [|by exists w]. destruct (co_fault _ Hc f t Ef) as [P1 P2 P3 (e0 & g & Pe & Pg & Pc) P5 P6].
  pose proof (co_steady _ Hc) as Hs. pose proof Hs as [[ls Hr] Hlay _ _ _ _]. destruct (co_mode _ Hc) as (M1 & M2 & M3). destruct (chosen_start e0 (w_x w) g _ _ Pg Pc) as (Hl & Hg & Hal & _).
  assert (Hdone : forall x', sound m (may w) (w_v w) x' -> consistent (set_fault None (set_n (Notified x' (mmu_notifier_seq (w_n w)) (mmu_notifier_count (w_n w))) w))).
  { intros x' [Hs' Hro']. split; [done|apply Hc|by right|apply Hc|apply Hc|done]. }
  destruct (f_found f) as [[pfn mw]|] eqn:Efo.
  - set (retry := mmu_notifier_retry (f_seq f) (w_n w)).
    assert (Hret : retry = false -> w_ranges w = [] /\ t = w_time w).
    { unfold retry, mmu_notifier_retry. rewrite (co_count _ Hc), (co_seq _ Hc), P3. destruct (Z.eqb_spec (Z.of_nat (length (w_ranges w))) 0) as [El|]; [|done]. cbn [negb].
      destruct (Z.eqb_spec (u64 (w_time w)) (u64 t)) as [Eq|]; [|done]. intros _. split; [apply nil_length_inv; lia|]. unfold u64 in Eq.
      pose proof (Z.div_mod (w_time w) (2 ^ 64) ltac:(lia)). pose proof (Z.div_mod t (2 ^ 64) ltac:(lia)). nia. }
    destruct (tdp_map_target m Hm e (may w) (w_v w) is_pae sync_page M3 fuel retry (f_force f) (f_write f) (f_level f) (f_gfn f) pfn mw (f_prefault f) (w_x w)) as (r & x' & E & Hs' & _); try done.
    + exact (chosen_unblocked e0 (w_x w) g _ _ (rd_slots _ _ _ Hr) Hlay Pc).
    + intros Hre He. destruct (Hret Hre) as [Hno Et]. destruct (P6 pfn mw eq_refl) as [?|[?|[Hp Hb]]]; [congruence|by left|right]. split; [done|]. eapply backed_mono; [|exact (Hb Et Hno)].
      intros a p Hse. assert (Hna : ~ announced w a) by (intros (q & Hq & _); rewrite Hno in Hq; by apply not_elem_of_nil in Hq). split; [done|]. destruct Hse as [?|[?|?]]; [by left|by right|done].
    + intros Hre. apply Hlo. by apply Hret.
    + eexists. split; [apply (act_Ok _ _ _ r); unfold fault_map; rewrite Efo; by apply on_vm_Ok|]. by apply Hdone.
  - eexists. split; [apply (act_Ok _ _ _ 0); unfold fault_map; by rewrite Efo|]. cbn beta. destruct (w_n w) as [x seq cnt] eqn:En. unfold w_x in *. rewrite En in *. apply Hdone. by split.
Qed.

Lemma next w o : consistent w -> enabled w o -> exists w', run o w = Ok w' /\ consistent w'.
Proof using Hm.
  intros Hc He. destruct o; cbn [enabled] in He.
  - by apply begin_next.
  - by apply lookup_next.
  - by apply map_next.
  - apply start_next; tauto.
  - apply end_next; tauto.
  - by apply clear_next.
  - apply page_next; tauto.
  - by apply fill_next.
  - by apply replace_next.
  - by apply areas_next.
  - by apply young_next.
  - by apply test_young_next.
  - by apply hardware_next.
  - by apply release_next.
  - destruct He; by apply change_pages_next.
  - by apply unload_next.
  - destruct He as (H1 & H2 & H3 & H4 & H5). by apply load_next.
Qed.

Lemma history_consistent w os w' : history w os w' -> consistent w -> consistent w'.
Proof using Hm.
  induction 1 as [w|w o w1 os w2 He Er _ IH]; [done|]. intros Hc. apply IH. destruct (next w o Hc He) as (w1' & Er' & Hc1). congruence.
Qed.

(** ** A new machine *)

Record newborn (w : world) : Prop := {
  nb_blank : blank (w_x w);
  nb_mode : shadow_root_level (w_v w) = 4 /\ direct_map (w_v w) = true /\ invalid (base_role (w_v w)) = false /\ root_hpa (w_v w) = INVALID_PAGE;
  nb_notifier : mmu_notifier_seq (w_n w) = 0 /\ mmu_notifier_count (w_n w) = 0 /\ w_time w = 0;
  nb_idle : w_fault w = None /\ w_ranges w = [] /\ w_owed w = []
}.

Lemma newborn_consistent w : newborn w -> consistent w.
Proof.
  intros [Hb (M1 & M2 & M3 & M4) (N1 & N2 & N3) (I1 & I2 & I3)].
  split; [by apply blank_steady|done|by left|by rewrite N2, I2|by rewrite N1, N3|by rewrite I1].
Qed.

End history.

(** C2: A machine with one virtual processor and fixed slots runs beside a
    host that fills, clears and replaces pages and areas as the notifier
    protocol allows, its notifiers (but for [change_pte]) and the hardware.
    A fault reads the page size and the sequence number in one step (an area
    replaced between those two reads is excluded), then looks the frame up,
    then takes the lock, and everything else may come in between.  In every
    history of such steps: every step that may come next completes without a
    failed [BUG_ON], and what the page tables give for a guest frame is the
    frame the host has at its address, or one whose removal it is about to
    announce, and never lies in a range that is announced as going away. *)
Theorem no_stale_translation m is_pae sync w0 os w : direct_masks m -> newborn w0 -> history m is_pae sync w0 os w ->
  (forall o, enabled m w o -> exists w', run m is_pae sync o w = Ok w') /\
  (forall g p, VALID_PAGE (root_hpa (w_v w)) = true -> 0 <= g < 2 ^ 36 -> translate m 5 (core (w_x w)) (root_hpa (w_v w)) 4 g = Some p ->
     exists sl, search_memslots (slots (core (w_x w))) g = Some sl /\ let a := __gfn_to_hva_memslot sl g in
       ~ announced w a /\ (w_host w a = Some p \/ (a, p) ∈ w_owed w)).
Proof.
  intros Hm Hn Hh. pose proof (history_consistent m is_pae sync Hm w0 os w Hh (newborn_consistent m w0 Hn)) as Hc. split.
  - intros o Ho. destruct (next m is_pae sync Hm w o Hc Ho) as (w' & E & _). by exists w'.
  - intros g p Hv Hg Et. destruct (co_root _ _ Hc) as [Hi|Hro]; [unfold VALID_PAGE in Hv; by rewrite Hi, Z.eqb_refl in Hv|].
    destruct (sound_reads m (may w) (w_v w) (w_x w) g p) as (sl & Es & Ha); [split; [apply Hc|done]|done|done|]. by exists sl.
Qed.

(** ** A history of the small machine *)

Definition small_world : world := World (Notified small_mmu 0 0) small_mode None (fun _ => None) [] [] 0 (fun _ => PAGE_SIZE).

Lemma small_newborn : newborn small_world.
Proof. split; [exact small_blank|done|done|done]. Qed.

Abbreviation small_masks := (ept_masks true (init_masks 36)).
Abbreviation small_run := (run small_masks false (fun _ => mret 0)).

(** The state after some operations. *)
Fixpoint after (os : list op) (w : world) : world :=
  match os with [] => w | o :: os => match small_run o w with Ok w' => after os w' | Err _ => w end end.

(** The host fills both pages and the processor gets its root; a fault starts
    and a range is announced, emptied and ended before it takes the lock; the
    page comes back, the guest faults again and gets it. *)
Definition small_touch : op := Begin small_env ([], [], 0%nat) 0 PFERR_WRITE_MASK false.
Definition small_history : list op :=
  [Host_fill 0x7f0000000000 5; Host_fill 0x7f0000001000 6; Load small_topup 1; small_touch; Lookup small_env;
   Range_start 0x7f0000000000 0x7f0000001000; Range_end 0; Map small_env 100; small_touch; Lookup small_env; Map small_env 100].

Lemma small_locked host : locked_ok small_env host.
Proof. split; [split; [intros; cbn; lia|done]|intros gfn b i; by rewrite Z.bits_0|done]. Qed.

(** What holds of the host and the slots before each lookup. *)
Lemma small_found w : w_host w 0x7f0000000000 = Some 5 -> w_host w 0x7f0000001000 = Some 6 -> slots (core (w_x w)) = small_slots -> (forall a, w_sizes w a = PAGE_SIZE) ->
  enabled small_masks w (Lookup small_env).
Proof.
  intros H5 H6 Es Hz. split; [by intros a; rewrite Hz|]. split.
  - intros lv a b p Hl Hv. exfalso. assert (lv = 2 \/ lv = 3) as [->| ->] by lia; vm_compute in Hv; by apply Hv.
  - intros g wr pfn mw. rewrite Es. cbn [try_async_pf small_env]. destruct ((0 <=? g) && (g <? 2)) eqn:Eg; intros [= <- <-]; [|right; left; reflexivity]. right; right.
    assert (g = 0 \/ g = 1) as [->| ->] by lia; (split; [lia|]); eexists; (split; [vm_compute; reflexivity|done]).
Qed.

Lemma history_after os : forall w, (forall k o, os !! k = Some o -> enabled small_masks (after (take k os) w) o /\ match small_run o (after (take k os) w) with Ok _ => true | Err _ => false end = true) ->
  history small_masks false (fun _ => mret 0) w os (after os w).
Proof.
  induction os as [|o os IH]; intros w H; [constructor|]. destruct (H O o eq_refl) as [He Hr]. cbn [take after] in *. destruct (small_run o w) as [w1|] eqn:E; [|done].
  apply (history_cons _ _ _ w o w1); [done|done|]. apply IH. intros k o' Hk. specialize (H (S k) o' Hk). cbn [take after] in H. by rewrite E in H.
Qed.

Lemma small_zap w : Z.of_nat (length (active_mmu_pages (w_x w))) <= 4 -> zap_enough 100 (w_x w).
Proof. intros H. unfold zap_enough. nia. Qed.

Lemma small_begin w : w_fault w = None -> VALID_PAGE (root_hpa (w_v w)) = true -> (forall a, w_sizes w a = PAGE_SIZE) -> enabled small_masks w small_touch.
Proof.
  intros Hf Hv Hz. split; [done|]. split; [done|]. split; [apply small_alloc_none|]. split; [cbn; lia|]. split; [|lia]. intros a. by rewrite Hz.
Qed.

Lemma small_history_run : history small_masks false (fun _ => mret 0) small_world small_history (after small_history small_world).
Proof.
  apply history_after. intros k o Hk. split.
  2: { destruct k as [|[|[|[|[|[|[|[|[|[|[|k]]]]]]]]]]]; [injection Hk as <-; vm_compute; reflexivity..|discriminate Hk]. }
  destruct k as [|[|[|[|[|[|[|[|[|[|[|k]]]]]]]]]]]; [injection Hk as <-..|discriminate Hk].
  - reflexivity.
  - reflexivity.
  - split; [reflexivity|]. split; [reflexivity|]. split; [exact small_alloc|]. split; [vm_compute; lia|]. vm_compute. discriminate.
  - apply small_begin; [vm_compute; reflexivity|vm_compute; reflexivity|intros a; vm_compute; reflexivity].
  - apply small_found; [vm_compute; reflexivity|vm_compute; reflexivity|vm_compute; reflexivity|intros a; vm_compute; reflexivity].
  - split; discriminate.
  - split; [vm_compute; eexists; reflexivity|vm_compute; reflexivity].
  - split; [intros _; apply small_locked|]. apply small_zap. vm_compute. discriminate.
  - apply small_begin; [vm_compute; reflexivity|vm_compute; reflexivity|intros a; vm_compute; reflexivity].
  - apply small_found; [vm_compute; reflexivity|vm_compute; reflexivity|vm_compute; reflexivity|intros a; vm_compute; reflexivity].
  - split; [intros _; apply small_locked|]. apply small_zap. vm_compute. discriminate.
Qed.

(** At its end frame 0 is translated to 5, which the host has there. *)
Lemma no_stale_translation_witness : let w := after small_history small_world in
  history small_masks false (fun _ => mret 0) small_world small_history w /\
  translate small_masks 5 (core (w_x w)) (root_hpa (w_v w)) 4 0 = Some 5 /\
  (exists w', small_run (Range_start 0x7f0000000000 0x7f0000001000) w = Ok w') /\
  exists sl, search_memslots (slots (core (w_x w))) 0 = Some sl /\ (w_host w (__gfn_to_hva_memslot sl 0) = Some 5 \/ (__gfn_to_hva_memslot sl 0, 5) ∈ w_owed w).
Proof.
  intros w. assert (Ht : translate small_masks 5 (core (w_x w)) (root_hpa (w_v w)) 4 0 = Some 5) by (vm_compute; reflexivity).
  split; [exact small_history_run|]. split; [exact Ht|].
  destruct (no_stale_translation _ _ _ _ _ _ small_direct small_newborn small_history_run) as [Hn Hr]. split.
  - apply Hn. split; discriminate.
  - destruct (Hr 0 5) as (sl & Es & _ & Ha); [vm_compute; reflexivity|lia|exact Ht|]. exists sl. split; [exact Es|exact Ha].
Defined.
