(* ===== verification/AsyncPf.v ===== *)
(** * Asynchronous page faults (kvm-kmod x86/x86.c, x86/async_pf.c, x86/mmu.c)

    When the host has swapped a page out, a worker brings it in while the
    guest goes on.  The frames waited for are in a hash table of 64 places
    with linear probing; an entry is deleted by moving later ones up.  The
    table holds the frames of the queued works and no others, so that there is
    a free place whenever a work may be queued. *)

From S2P Require Import Prelude MemSlots.

(** ** The table *)

Definition ASYNC_PF_PER_VCPU : Z := 64.

(** [~0], as a frame number *)
Definition NO_GFN : Z := 2 ^ 64 - 1.

Section table.
  Context (hash_32 : Z -> Z -> Z).

Definition kvm_async_pf_hash_fn (gfn : Z) : Z := hash_32 (Z.land gfn 0xffffffff) 6.

Definition kvm_async_pf_next_probe (key : Z) : Z := Z.land (key + 1) (ASYNC_PF_PER_VCPU - 1).

Definition kvm_async_pf_hash_reset : list Z := replicate (Z.to_nat ASYNC_PF_PER_VCPU) NO_GFN.

Definition gfn_at (gfns : list Z) (key : Z) : res Z :=
  match gfns !! Z.to_nat key with None => Err BufferOverflow | Some g => Ok g end.

(** The places bound the search for a free one. *)
Fixpoint add_loop (fuel : nat) (gfns : list Z) (key gfn : Z) : res (list Z) :=
  match fuel with
  | O => Err OutOfFuel
  | S fuel =>
      g ← gfn_at gfns key;
      if negb (g =? NO_GFN) then add_loop fuel gfns (kvm_async_pf_next_probe key) gfn
      else Ok (<[Z.to_nat key := gfn]> gfns)
  end.

Definition kvm_add_async_pf_gfn (gfns : list Z) (gfn : Z) : res (list Z) :=
  add_loop (Z.to_nat ASYNC_PF_PER_VCPU) gfns (kvm_async_pf_hash_fn gfn) gfn.

(** [for (i = 0; i < 64 && ...; i++)] *)
Fixpoint slot_loop (n : nat) (gfns : list Z) (gfn key : Z) : res Z :=
  match n with
  | O => Ok key
  | S n =>
      g ← gfn_at gfns key;
      if negb (g =? gfn) && negb (g =? NO_GFN) then slot_loop n gfns gfn (kvm_async_pf_next_probe key) else Ok key
  end.

Definition kvm_async_pf_gfn_slot (gfns : list Z) (gfn : Z) : res Z :=
  slot_loop (Z.to_nat ASYNC_PF_PER_VCPU) gfns gfn (kvm_async_pf_hash_fn gfn).

Definition kvm_find_async_pf_gfn (gfns : list Z) (gfn : Z) : res bool :=
  key ← kvm_async_pf_gfn_slot gfns gfn;
  g ← gfn_at gfns key;
  Ok (g =? gfn).

(** The inner loop: [None] for the return at a free place, or the place of an
    entry that may move. *)
Fixpoint del_probe (fuel : nat) (gfns : list Z) (i j : Z) : res (option Z) :=
  match fuel with
  | O => Err OutOfFuel
  | S fuel =>
      let j := kvm_async_pf_next_probe j in
      g ← gfn_at gfns j;
      if g =? NO_GFN then Ok None
      else
        let k := kvm_async_pf_hash_fn g in
        if (if i <=? j then (i <? k) && (k <=? j) else (i <? k) || (k <=? j)) then del_probe fuel gfns i j else Ok (Some j)
  end.

(** Every round moves an entry nearer to its hash, which bounds the rounds. *)
Fixpoint del_loop (fuel : nat) (gfns : list Z) (i j : Z) : res (list Z) :=
  match fuel with
  | O => Err OutOfFuel
  | S fuel =>
      let gfns := <[Z.to_nat i := NO_GFN]> gfns in
      o ← del_probe (Z.to_nat ASYNC_PF_PER_VCPU) gfns i j;
      match o with
      | None => Ok gfns
      | Some j => g ← gfn_at gfns j; del_loop fuel (<[Z.to_nat i := g]> gfns) j j
      end
  end.

Definition kvm_del_async_pf_gfn (gfns : list Z) (gfn : Z) : res (list Z) :=
  i ← kvm_async_pf_gfn_slot gfns gfn;
  del_loop (64 * 64) gfns i i.

End table.

(** ** Works *)

(** [ptr] is the address of the object. *)
Record kvm_async_pf := Work {
  ptr : Z; gva : Z; hva : Z; token : Z; w_gfn : Z; direct_map : bool; cr3 : Z; wakeup_all : bool
}.

#[global] Instance kvm_async_pf_eq_dec : EqDecision kvm_async_pf.
Proof. solve_decision. Defined.

Inductive apf_event :=
| PageReady (w : kvm_async_pf)
| InjectNotPresent (token : Z)
| InjectPresent (token : Z)
| ApfHalt.

(** The fields of the virtual processor, the objects allocated for works, and
    what was done to the guest. *)
Record vcpu := Vcpu {
  gfns : list Z;
  queue : list kvm_async_pf;
  done_list : list kvm_async_pf;
  queued : Z;
  msr_val : Z;
  apf_id : Z;
  send_user_only : bool;
  halted : bool;
  live : list Z;
  events : list apf_event
}.

Abbreviation APF := (st vcpu).

Definition the_vcpu : APF vcpu := fun s => Ok (s, s).
Definition modify_vcpu (f : vcpu -> vcpu) : APF unit := fun s => Ok (tt, f s).

Definition set_gfns (t : list Z) (s : vcpu) : vcpu :=
  Vcpu t (queue s) (done_list s) (queued s) (msr_val s) (apf_id s) (send_user_only s) (halted s) (live s) (events s).
Definition set_works (q d : list kvm_async_pf) (n : Z) (s : vcpu) : vcpu :=
  Vcpu (gfns s) q d n (msr_val s) (apf_id s) (send_user_only s) (halted s) (live s) (events s).
Definition set_msr (v : Z) (u : bool) (s : vcpu) : vcpu :=
  Vcpu (gfns s) (queue s) (done_list s) (queued s) v (apf_id s) u (halted s) (live s) (events s).
Definition set_id (i : Z) (s : vcpu) : vcpu :=
  Vcpu (gfns s) (queue s) (done_list s) (queued s) (msr_val s) i (send_user_only s) (halted s) (live s) (events s).
Definition set_halted (b : bool) (s : vcpu) : vcpu :=
  Vcpu (gfns s) (queue s) (done_list s) (queued s) (msr_val s) (apf_id s) (send_user_only s) b (live s) (events s).
Definition emit (e : apf_event) (s : vcpu) : vcpu :=
  Vcpu (gfns s) (queue s) (done_list s) (queued s) (msr_val s) (apf_id s) (send_user_only s) (halted s) (live s) (events s ++ [e]).

Definition set_live (l : list Z) (s : vcpu) : vcpu :=
  Vcpu (gfns s) (queue s) (done_list s) (queued s) (msr_val s) (apf_id s) (send_user_only s) (halted s) l (events s).

(** [kmem_cache_zalloc], which answers with an address, and
    [kmem_cache_free]; to free an object twice is an error. *)
Definition cache_zalloc (p : Z) : APF unit := s ← the_vcpu; modify_vcpu (set_live (p :: live s)).
Definition cache_free (p : Z) : APF unit :=
  s ← the_vcpu;
  if bool_decide (p ∈ live s) then modify_vcpu (set_live (filter (fun q => q <> p) (live s))) else lift_res (Err BadPointer).

Definition KVM_ASYNC_PF_ENABLED : Z := 1.
Definition KVM_ASYNC_PF_SEND_ALWAYS : Z := 2.

Section works.
  Context (hash_32 : Z -> Z -> Z).

(** [user_mode]: the privilege level is not 0; [put]: [apf_put_user]
    succeeds. *)
Definition kvm_arch_async_page_not_present (user_mode put : bool) (work : kvm_async_pf) : APF unit :=
  s ← the_vcpu;
  t ← lift_res (kvm_add_async_pf_gfn hash_32 (gfns s) (w_gfn work));
  modify_vcpu (set_gfns t) ;;
  if negb (any (msr_val s) KVM_ASYNC_PF_ENABLED) || (send_user_only s && negb user_mode) then modify_vcpu (emit ApfHalt)
  else if put then modify_vcpu (emit (InjectNotPresent (token work)))
  else mret tt.

Definition kvm_arch_async_page_present (put : bool) (work : kvm_async_pf) : APF unit :=
  s ← the_vcpu;
  token ← (if wakeup_all work then mret (2 ^ 32 - 1)
           else t ← lift_res (kvm_del_async_pf_gfn hash_32 (gfns s) (w_gfn work)); modify_vcpu (set_gfns t) ;; mret (token work));
  (if any (msr_val s) KVM_ASYNC_PF_ENABLED && put then modify_vcpu (emit (InjectPresent token)) else mret tt) ;;
  modify_vcpu (set_halted false).

(** [alloc] is the address of the new object, 0 for none; [sched] is the answer
    of [schedule_work]. *)
Definition kvm_setup_async_pf (alloc : Z) (sched user_mode put : bool) (gva hva : option Z) (token gfn : Z) (direct : bool) (cr3 : Z) : APF Z :=
  s ← the_vcpu;
  if ASYNC_PF_PER_VCPU <=? queued s then mret 0
  else if alloc =? 0 then mret 0
  else
    cache_zalloc alloc ;;
    match hva with
    | None => cache_free alloc ;; mret 0
    | Some addr =>
        if negb sched then cache_free alloc ;; mret 0
        else
          let work := Work alloc (default 0 gva) addr token gfn direct cr3 false in
          modify_vcpu (set_works (queue s ++ [work]) (done_list s) (queued s + 1)) ;;
          kvm_arch_async_page_not_present user_mode put work ;;
          mret 1
    end.

Definition kvm_arch_setup_async_pf (alloc : Z) (sched user_mode put : bool) (vcpu_id gva gfn : Z) (hva : option Z) (direct : bool) (cr3 : Z) : APF Z :=
  s ← the_vcpu;
  modify_vcpu (set_id (u32 (apf_id s + 1))) ;;
  kvm_setup_async_pf alloc sched user_mode put (Some gva) hva (Z.lor (u32 (Z.shiftl (apf_id s) 12)) vcpu_id) gfn direct cr3.

(** The worker, once the page is in memory. *)
Definition async_pf_execute (work : kvm_async_pf) : APF unit :=
  s ← the_vcpu; modify_vcpu (set_works (queue s) (done_list s ++ [work]) (queued s)).

(** The completed works one after another; [puts] are the answers of
    [apf_put_user], and [can] that of
    [kvm_arch_can_inject_async_page_present] before each. *)
Fixpoint kvm_check_async_pf_completion (answers : list (bool * bool)) : APF unit :=
  s ← the_vcpu;
  match answers, done_list s with
  | (true, put) :: answers, work :: d =>
      modify_vcpu (set_works (queue s) d (queued s)) ;;
      modify_vcpu (emit (PageReady work)) ;;
      kvm_arch_async_page_present put work ;;
      s ← the_vcpu;
      modify_vcpu (set_works (filter (fun w => ptr w <> ptr work) (queue s)) (done_list s) (u32 (queued s - 1))) ;;
      cache_free (ptr work) ;;
      kvm_check_async_pf_completion answers
  | _, _ => mret tt
  end.

(** The works of the queue.  [pending] are the answers of [cancel_work_sync]:
    a work that has not run is freed; it waits for one that runs, which is
    then completed like those before. *)
Fixpoint clear_queue (q : list kvm_async_pf) (pending : list bool) : APF unit :=
  match q with
  | [] => mret tt
  | work :: q =>
      s ← the_vcpu;
      modify_vcpu (set_works q (done_list s) (queued s)) ;;
      (if bool_decide (work ∈ done_list s) then mret tt
       else if hd true pending then cache_free (ptr work)
       else async_pf_execute work) ;;
      clear_queue q (tl pending)
  end.

Fixpoint clear_done (d : list kvm_async_pf) : APF unit :=
  match d with
  | [] => mret tt
  | work :: d => s ← the_vcpu; modify_vcpu (set_works (queue s) d (queued s)) ;; cache_free (ptr work) ;; clear_done d
  end.

Definition kvm_clear_async_pf_completion_queue (pending : list bool) : APF unit :=
  s ← the_vcpu;
  clear_queue (queue s) pending ;;
  s ← the_vcpu;
  clear_done (done_list s) ;;
  s ← the_vcpu;
  modify_vcpu (set_works (queue s) (done_list s) 0).

Definition kvm_async_pf_wakeup_all (alloc : Z) : APF Z :=
  s ← the_vcpu;
  if negb (bool_decide (done_list s = [])) then mret 0
  else if alloc =? 0 then mret (- ENOMEM)
  else cache_zalloc alloc ;; modify_vcpu (set_works (queue s) (done_list s ++ [Work alloc 0 0 0 0 false 0 true]) (queued s + 1)) ;; mret 0.

(** When paging is switched on or off, or the processor is reset. *)
Definition kvm_async_pf_reset (pending : list bool) : APF unit :=
  kvm_clear_async_pf_completion_queue pending ;; modify_vcpu (set_gfns kvm_async_pf_hash_reset).

(** [init]: [kvm_gfn_to_hva_cache_init] succeeds. *)
Definition kvm_pv_enable_async_pf (pending : list bool) (data : Z) (init : bool) (alloc : Z) : APF Z :=
  if any data 0x3c then mret 1
  else
    s ← the_vcpu;
    modify_vcpu (set_msr data (send_user_only s)) ;;
    if negb (any data KVM_ASYNC_PF_ENABLED) then
      kvm_async_pf_reset pending ;; mret 0
    else if negb init then mret 1
    else
      modify_vcpu (set_msr data (negb (any data KVM_ASYNC_PF_SEND_ALWAYS))) ;;
      kvm_async_pf_wakeup_all alloc ;;
      mret 0.

End works.

(** ** Histories *)

(** What the processor, its workers and the guest may do. *)
Inductive apf_op :=
| Setup (alloc : Z) (sched user_mode put : bool) (vcpu_id gva gfn : Z) (hva : option Z) (direct : bool) (cr3 : Z)
| Execute (work : kvm_async_pf)
| Check (answers : list (bool * bool))
| Reset (pending : list bool)
| Enable (pending : list bool) (data : Z) (init : bool) (alloc : Z).

Definition run_op (hash_32 : Z -> Z -> Z) (op : apf_op) : APF Z :=
  match op with
  | Setup alloc sched u put vid gva gfn hva direct cr3 => kvm_arch_setup_async_pf hash_32 alloc sched u put vid gva gfn hva direct cr3
  | Execute work => async_pf_execute work ;; mret 0
  | Check answers => kvm_check_async_pf_completion hash_32 answers ;; mret 0
  | Reset pending => kvm_async_pf_reset pending ;; mret 0
  | Enable pending data init alloc => kvm_pv_enable_async_pf pending data init alloc
  end.

(** The allocator does not give out an object twice, a worker runs a queued
    work once, and no frame has the number that marks a free place. *)
Definition may (s : vcpu) (op : apf_op) : Prop :=
  match op with
  | Setup alloc _ _ _ _ _ gfn _ _ _ => gfn <> NO_GFN /\ (alloc = 0 \/ alloc ∉ live s)
  | Execute work => work ∈ queue s /\ work ∉ done_list s
  | Enable _ _ _ alloc => alloc = 0 \/ alloc ∉ live s
  | _ => True
  end.

Definition new_vcpu : vcpu := Vcpu kvm_async_pf_hash_reset [] [] 0 0 0 false false [] [].

Inductive reachable (hash_32 : Z -> Z -> Z) : vcpu -> Prop :=
| reach_new : reachable hash_32 new_vcpu
| reach_op s op r s' : reachable hash_32 s -> may s op -> run_op hash_32 op s = Ok (r, s') -> reachable hash_32 s'.

(** ** Places on a circle *)

Definition place (p : Z) : Prop := 0 <= p < 64.

(** Steps from one place to another. *)
Definition dist (a b : Z) : Z := if a <=? b then b - a else b - a + 64.

Ltac places := unfold place, dist in *; repeat match goal with
  | H : context [if ?a <=? ?b then _ else _] |- _ => destruct (Z.leb_spec a b)
  | |- context [if ?a <=? ?b then _ else _] => destruct (Z.leb_spec a b)
  end; try lia.

Lemma next_probe p : place p -> kvm_async_pf_next_probe p = if p =? 63 then 0 else p + 1.
Proof.
  intros Hp. unfold kvm_async_pf_next_probe. change (ASYNC_PF_PER_VCPU - 1) with (Z.ones 6). rewrite Z.land_ones by lia. change (2 ^ 6) with 64.
  destruct (Z.eqb_spec p 63) as [->|]; [done|]. unfold place in Hp. apply Z.mod_small. lia.
Qed.

Lemma next_place p : place p -> place (kvm_async_pf_next_probe p).
Proof. intros Hp. rewrite next_probe by done. unfold place in *. destruct (Z.eqb_spec p 63); lia. Qed.

Lemma dist_next a p : place a -> place p -> dist a p < 63 -> dist a (kvm_async_pf_next_probe p) = dist a p + 1.
Proof. intros Ha Hp Hd. rewrite next_probe by done. destruct (Z.eqb_spec p 63) as [->|]; places. Qed.

Lemma dist_wrap a p : place a -> place p -> dist a p = 63 -> kvm_async_pf_next_probe p = a.
Proof. intros Ha Hp Hd. rewrite next_probe by done. destruct (Z.eqb_spec p 63) as [->|]; places. Qed.

Lemma dist_range a b : place a -> place b -> 0 <= dist a b < 64.
Proof. intros Ha Hb. places. Qed.

Lemma dist_inj a p q : place a -> place p -> place q -> dist a p = dist a q -> p = q.
Proof. intros Ha Hp Hq. places. Qed.

(** The test of [kvm_del_async_pf_gfn]: [k] lies in ]i, j]. *)
Lemma between i j k : place i -> place j -> place k -> i <> j ->
  (if i <=? j then (i <? k) && (k <=? j) else (i <? k) || (k <=? j)) = true <-> 0 < dist i k <= dist i j.
Proof. intros Hi Hj Hk Hne. places; rewrite ?andb_true_iff, ?orb_true_iff, ?Z.ltb_lt, ?Z.leb_le; lia. Qed.

(** ** The invariant *)

Section proofs.
  Context (hash_32 : Z -> Z -> Z) (Hhash : forall v, 0 <= hash_32 v 6 < 64).

Abbreviation h := (kvm_async_pf_hash_fn hash_32).

Lemma h_place g : place (h g).
Proof using Hhash. apply Hhash. Qed.

Definition holds_at (t : list Z) (p g : Z) : Prop := t !! Z.to_nat p = Some g.

(** Every entry is found from its hash on without a gap, but for the places
    of [gap]. *)
Record probed (gap : Z -> Prop) (t : list Z) : Prop := {
  pb_length : length t = 64%nat;
  pb_path p g q : place p -> holds_at t p g -> g <> NO_GFN -> place q -> dist (h g) q < dist (h g) p -> ~ gap q -> ~ holds_at t q NO_GFN
}.

Abbreviation table_ok := (probed (fun _ => False)).

(** The frames in the table. *)
Definition frames_in (t : list Z) : list Z := filter (fun g => g <> NO_GFN) t.

Lemma at_place t p : length t = 64%nat -> place p -> exists g, holds_at t p g /\ gfn_at t p = Ok g.
Proof.
  intros Hl Hp. unfold holds_at, gfn_at. destruct (lookup_lt_is_Some_2 t (Z.to_nat p)) as [g ->]; [unfold place in Hp; lia|]. by exists g.
Qed.

Lemma holds_insert t p g q u : length t = 64%nat -> place p -> place q -> holds_at (<[Z.to_nat p := g]> t) q u <-> q = p /\ u = g \/ q <> p /\ holds_at t q u.
Proof.
  intros Hl Hp Hq. unfold holds_at, place in *. rewrite list_lookup_insert. case_decide as E.
  - assert (q = p) as -> by lia. naive_solver.
  - assert (q <> p) by lia. naive_solver.
Qed.

Lemma holds_fun t p g g' : holds_at t p g -> holds_at t p g' -> g = g'.
Proof. unfold holds_at. congruence. Qed.

Lemma frames_in_elem t g : length t = 64%nat -> g ∈ frames_in t <-> g <> NO_GFN /\ exists p, place p /\ holds_at t p g.
Proof.
  intros Hl. unfold frames_in. rewrite list_elem_of_filter, list_elem_of_lookup. split.
  - intros [Hg [i Hi]]. split; [done|]. exists (Z.of_nat i). pose proof (lookup_lt_Some _ _ _ Hi). unfold place, holds_at. rewrite Nat2Z.id. split; [lia|done].
  - intros [Hg (p & _ & Hp)]. split; [done|]. by exists (Z.to_nat p).
Qed.

Lemma frames_fill t p g : holds_at t p NO_GFN -> g <> NO_GFN -> frames_in (<[Z.to_nat p := g]> t) ≡ₚ g :: frames_in t.
Proof.
  intros Hp Hg. pose proof (lookup_lt_Some _ _ _ Hp) as Hlt. rewrite insert_take_drop by done. unfold frames_in.
  rewrite <- (take_drop_middle t _ _ Hp) at 3. rewrite !filter_app, !filter_cons, decide_True, decide_False by (done || by intros ?). by rewrite Permutation_middle.
Qed.

Lemma frames_empty t p g : holds_at t p g -> g <> NO_GFN -> g :: frames_in (<[Z.to_nat p := NO_GFN]> t) ≡ₚ frames_in t.
Proof.
  intros Hp Hg. pose proof (lookup_lt_Some _ _ _ Hp) as Hlt.
  rewrite <- (frames_fill (<[Z.to_nat p := NO_GFN]> t) p g); [|by apply list_lookup_insert_eq|done]. rewrite list_insert_insert_eq, list_insert_id by done. done.
Qed.

(** ** Finding *)

Lemma slot_run t g : length t = 64%nat -> forall n key, place key -> dist (h g) key + Z.of_nat n = 64 \/ n = O /\ key = h g ->
  (forall q, place q -> dist (h g) q < (if (n =? 0)%nat then 64 else dist (h g) key) -> ~ holds_at t q g /\ ~ holds_at t q NO_GFN) ->
  exists key' u, slot_loop n t g key = Ok key' /\ place key' /\ holds_at t key' u /\
    (u = g \/ u = NO_GFN /\ (forall q, place q -> dist (h g) q < dist (h g) key' -> ~ holds_at t q g) \/ u <> g /\ forall q, place q -> ~ holds_at t q g).
Proof using Hhash.
  intros Hl n. induction n as [|n IH]; intros key Hk Hd Hq; destruct (at_place t key Hl Hk) as (u & Hu & Eu); pose proof (h_place g) as Hh.
  - exists key, u. split; [done|]. split; [done|]. split; [done|]. right. right. cbn in Hq.
    assert (Hall : forall q, place q -> ~ holds_at t q g) by (intros q Hp; apply Hq; [done|]; by apply dist_range). split; [|done]. intros ->. by apply (Hall key).
  - cbn [slot_loop]. rewrite Eu. cbn. destruct Hd as [Hd|[? _]]; [|done]. cbn [Nat.eqb] in Hq.
    destruct (Z.eqb_spec u g) as [->|Hne]; cbn [negb andb]; [exists key, g; eauto 6|].
    destruct (Z.eqb_spec u NO_GFN) as [->|Hno]; cbn [negb].
    { exists key, NO_GFN. split; [done|]. split; [done|]. split; [done|]. right. left. split; [done|]. intros q Hp Hlt. by apply Hq. }
    assert (Hstep : forall q, place q -> dist (h g) q < dist (h g) key + 1 -> ~ holds_at t q g /\ ~ holds_at t q NO_GFN).
    { intros q Hp Hlt. destruct (decide (dist (h g) q = dist (h g) key)) as [E|]; [|apply Hq; [done|lia]]. apply dist_inj in E; [|done..]. subst q.
      split; intros Hx; by pose proof (holds_fun _ _ _ _ Hu Hx). }
    apply IH; [by apply next_place|..].
    + destruct (decide (n = O)) as [Hn|]; [right; split; [exact Hn|]; apply dist_wrap; [done..|lia]|]. left. rewrite dist_next by (done || lia). lia.
    + intros q Hp Hlt. apply Hstep; [done|]. destruct (Nat.eqb_spec n 0) as [Hn|]; [lia|]. rewrite dist_next in Hlt by (done || lia). done.
Qed.

Lemma slot_spec t g : table_ok t -> g <> NO_GFN -> exists key u, kvm_async_pf_gfn_slot hash_32 t g = Ok key /\ place key /\ holds_at t key u /\ (u = g <-> g ∈ frames_in t).
Proof using Hhash.
  intros [Hl Hp] Hg. pose proof (h_place g) as Hh.
  destruct (slot_run t g Hl 64 (h g) Hh) as (key & u & E & Hk & Hu & Hc); [left; places|intros q Hq Hd; cbn in Hd; exfalso; places|].
  exists key, u. split; [done|]. split; [done|]. split; [done|]. rewrite frames_in_elem by done. split; [intros ->; split; [done|]; by exists key|].
  intros [_ (p & Hpp & Hgp)]. destruct Hc as [?|[[-> Hb]|[_ Hn]]]; [done| |by apply Hn in Hgp]. exfalso.
  destruct (Z.lt_trichotomy (dist (h g) p) (dist (h g) key)) as [Hlt|[Heq|Hgt]].
  - by apply (Hb p).
  - apply dist_inj in Heq; [|done..]. subst p. by pose proof (holds_fun _ _ _ _ Hu Hgp).
  - by apply (Hp p g key Hpp Hgp Hg Hk Hgt (fun H => H)).
Qed.

Lemma find_spec t g : table_ok t -> g <> NO_GFN -> kvm_find_async_pf_gfn hash_32 t g = Ok (bool_decide (g ∈ frames_in t)).
Proof using Hhash.
  intros Ht Hg. destruct (slot_spec t g Ht Hg) as (key & u & E & Hk & Hu & Hc). unfold kvm_find_async_pf_gfn. rewrite E. cbn. unfold gfn_at. rewrite Hu. cbn. f_equal.
  destruct (Z.eqb_spec u g) as [->|Hne]; [by rewrite bool_decide_true by tauto|]. rewrite bool_decide_false; [done|]. tauto.
Qed.

(** ** Adding *)

Lemma add_run t g : length t = 64%nat -> forall n key, place key -> dist (h g) key + Z.of_nat n = 64 ->
  (forall q, place q -> dist (h g) q < dist (h g) key -> ~ holds_at t q NO_GFN) -> (exists p, place p /\ holds_at t p NO_GFN) ->
  exists key', add_loop n t key g = Ok (<[Z.to_nat key' := g]> t) /\ place key' /\ holds_at t key' NO_GFN /\
    forall q, place q -> dist (h g) q < dist (h g) key' -> ~ holds_at t q NO_GFN.
Proof using Hhash.
  intros Hl n. induction n as [|n IH]; intros key Hk Hd Hq (p & Hp & Hfree); pose proof (h_place g) as Hh.
  - pose proof (dist_range _ _ Hh Hk). lia.
  - destruct (at_place t key Hl Hk) as (u & Hu & Eu). cbn [add_loop]. rewrite Eu. cbn. destruct (Z.eqb_spec u NO_GFN) as [->|Hno]; cbn [negb]; [by exists key|].
    assert (Hstep : forall q, place q -> dist (h g) q < dist (h g) key + 1 -> ~ holds_at t q NO_GFN).
    { intros q Hp' Hlt. destruct (decide (dist (h g) q = dist (h g) key)) as [E|]; [|apply Hq; [done|lia]]. apply dist_inj in E; [|done..]. subst q.
      intros Hx; by pose proof (holds_fun _ _ _ _ Hu Hx). }
    destruct (decide (dist (h g) key = 63)) as [E|]; [exfalso; apply (Hstep p Hp); [|done]; pose proof (dist_range _ _ Hh Hp); lia|].
    pose proof (dist_range _ _ Hh Hk). apply IH; [by apply next_place|..|eauto]; rewrite dist_next by (done || lia); [lia|done].
Qed.

Lemma add_spec t g : table_ok t -> g <> NO_GFN -> (exists p, place p /\ holds_at t p NO_GFN) ->
  exists t', kvm_add_async_pf_gfn hash_32 t g = Ok t' /\ table_ok t' /\ frames_in t' ≡ₚ g :: frames_in t.
Proof using Hhash.
  intros [Hl Hpath] Hg Hfree. pose proof (h_place g) as Hh. destruct (add_run t g Hl 64 (h g) Hh) as (key & E & Hk & Hno & Hb); [places|intros q Hq Hd; exfalso; places|done|].
  exists (<[Z.to_nat key := g]> t). split; [done|]. split; [|by apply frames_fill]. split; [by rewrite length_insert|].
  intros p u q Hp Hu Hun Hq Hd _ Hx. apply holds_insert in Hx as [[-> ?]|[Hqk Hx]]; [done| |done..].
  apply holds_insert in Hu as [[-> ->]|[Hpk Hu]]; [by apply (Hb q)| |done..]. by apply (Hpath p u q Hp Hu Hun Hq Hd (fun H => H)).
Qed.

(** ** Deleting *)

(** How far entries are from their hashes. *)
Definition weight (i : nat) (g : Z) : nat := if decide (g = NO_GFN) then 0 else Z.to_nat (dist (h g) (Z.of_nat i)).
Definition total (t : list Z) : nat := sum_list (imap weight t).

Lemma sum_insert (f : nat -> Z -> nat) (t : list Z) : forall i x y, t !! i = Some x ->
  (sum_list (imap f (<[i := y]> t)) + f i x = sum_list (imap f t) + f i y)%nat.
Proof.
  revert f. induction t as [|z t IH]; intros f i x y E; [done|]. destruct i as [|i]; cbn in *; [injection E as ->; lia|].
  rewrite <- !Nat.add_assoc. f_equal. exact (IH (f ∘ S) i x y E).
Qed.

Lemma total_bound t : length t = 64%nat -> (total t <= 64 * 63)%nat.
Proof using Hhash.
  intros Hl. unfold total. assert (Hgen : forall (l : list Z) (f : nat -> Z -> nat), (forall i g, (i < length l)%nat -> (f i g <= 63)%nat) -> (sum_list (imap f l) <= length l * 63)%nat).
  { induction l as [|z l IH]; intros f Hf; [cbn; lia|]. cbn [imap sum_list length foldr] in *. pose proof (Hf 0%nat z ltac:(lia)).
    specialize (IH (f ∘ S) ltac:(intros i g Hi; apply Hf; lia)). unfold sum_list, sum_list_with in *. cbn in *. lia. }
  rewrite <- Hl at 1. apply Hgen. intros i g Hi. unfold weight. case_decide; [lia|]. pose proof (h_place g) as Hh. places.
Qed.

(** The search for an entry that may move into place [i]. *)
Lemma probe_run t i : length t = 64%nat -> place i -> holds_at t i NO_GFN -> forall n j, place j -> dist i j + Z.of_nat n = 64 -> (0 < n)%nat ->
  (forall p, place p -> 0 < dist i p <= dist i j -> exists g, holds_at t p g /\ g <> NO_GFN /\ 0 < dist i (h g) <= dist i p) ->
  exists j' : Z, place j' /\ (forall p, place p -> 0 < dist i p < (if j' =? i then 64 else dist i j') -> exists g, holds_at t p g /\ g <> NO_GFN /\ 0 < dist i (h g) <= dist i p) /\
    (del_probe hash_32 n t i j = Ok None /\ holds_at t j' NO_GFN \/
     del_probe hash_32 n t i j = Ok (Some j') /\ j' <> i /\ exists g, holds_at t j' g /\ g <> NO_GFN /\ ~ (0 < dist i (h g) <= dist i j')).
Proof using Hhash.
  intros Hl Hi Hhole n. induction n as [|n IH]; intros j Hj Hd Hn Hb; [lia|]. cbn [del_probe]. pose proof (next_place j Hj) as Hj'.
  destruct (at_place t _ Hl Hj') as (g & Hg & Eg). rewrite Eg. cbn. pose proof (dist_range i j Hi Hj) as Hr. destruct (decide (dist i j = 63)) as [E63|Hn63].
  { pose proof (dist_wrap i j Hi Hj E63) as Ew. rewrite Ew in *. assert (g = NO_GFN) as -> by (by apply (holds_fun t i)). rewrite Z.eqb_refl.
    exists i. split; [done|]. split; [|by left]. rewrite Z.eqb_refl. intros p Hp Hlt. apply Hb; [done|]. pose proof (dist_range i p Hi Hp). lia. }
  assert (En : dist i (kvm_async_pf_next_probe j) = dist i j + 1) by (apply dist_next; [done..|lia]). set (j' := kvm_async_pf_next_probe j) in *.
  assert (Hne : j' <> i) by (intros Ei; rewrite Ei in En; clear -En Hi Hr; places).
  destruct (Z.eqb_spec g NO_GFN) as [->|Hno].
  { exists j'. split; [done|]. split; [|by left]. rewrite (proj2 (Z.eqb_neq j' i) Hne). intros p Hp Hlt. apply Hb; [done|lia]. }
  destruct (if i <=? j' then _ else _) eqn:Ec.
  - apply between in Ec; [|done|done|apply h_place|done]. apply IH; [done|lia|lia|]. intros p Hp Hlt. destruct (decide (dist i p = dist i j')) as [E|]; [|apply Hb; [done|lia]].
    apply dist_inj in E; [|done..]. subst p. by exists g.
  - exists j'. split; [done|]. split; [rewrite (proj2 (Z.eqb_neq j' i) Hne); intros p Hp Hlt; apply Hb; [done|lia]|]. right. split; [done|]. split; [done|]. exists g.
    split; [done|]. split; [done|]. intros Hbt. apply between in Hbt; [congruence|done|done|apply h_place|done].
Qed.

(** Steps past [i] and on to [p] pass the places between. *)
Lemma passes hg i p j : place hg -> place i -> place p -> place j -> dist hg i < dist hg p -> 0 < dist i j < dist i p -> dist hg j < dist hg p.
Proof. intros. places. Qed.

Lemma not_behind hg i p : place hg -> place i -> place p -> 0 < dist i hg <= dist i p -> ~ dist hg i < dist hg p.
Proof. intros. places. Qed.

Lemma ahead hg i j : place hg -> place i -> place j -> i <> j -> ~ (0 < dist i hg <= dist i j) -> dist hg i < dist hg j.
Proof. intros. places. Qed.

(** Nothing needs the place left free. *)
Lemma probe_end t i j : probed (fun q => q = i) t -> place i -> place j -> holds_at t i NO_GFN -> holds_at t j NO_GFN ->
  (forall p, place p -> 0 < dist i p < (if j =? i then 64 else dist i j) -> exists g, holds_at t p g /\ g <> NO_GFN /\ 0 < dist i (h g) <= dist i p) -> table_ok t.
Proof using Hhash.
  intros [Hl Hp] Hi Hj Hhi Hhj Hb. split; [done|]. intros p g q Hpp Hg Hne Hq Hd _ Hno. pose proof (h_place g) as Hh.
  destruct (decide (q = i)) as [->|Hqi]; [|by apply (Hp p g q)].
  assert (Hpi : p <> i) by (intros ->; by pose proof (holds_fun _ _ _ _ Hg Hhi)). assert (Hdp : 0 < dist i p < 64) by (clear -Hpp Hi Hpi; places).
  assert (Hfar : ~ 0 < dist i p < (if j =? i then 64 else dist i j)).
  { intros Hlt. destruct (Hb p Hpp Hlt) as (g' & Hg' & _ & Hbt). rewrite (holds_fun _ _ _ _ Hg' Hg) in Hbt. by apply (not_behind (h g) i p). }
  destruct (Z.eqb_spec j i) as [->|Hji]; [done|]. assert (Hpj : p <> j) by (intros ->; by pose proof (holds_fun _ _ _ _ Hg Hhj)).
  assert (Hdj : 0 < dist i j < dist i p) by (clear -Hfar Hdp Hpp Hi Hj Hji Hpj; places).
  apply (Hp p g j Hpp Hg Hne Hj); [by apply (passes (h g) i)|done|done].
Qed.

(** An entry moves up, and its place is free instead. *)
Lemma probe_move t i j g : probed (fun q => q = i) t -> place i -> place j -> i <> j -> holds_at t i NO_GFN -> holds_at t j g -> g <> NO_GFN ->
  ~ (0 < dist i (h g) <= dist i j) -> probed (fun q => q = j) (<[Z.to_nat i := g]> t).
Proof using Hhash.
  intros [Hl Hp] Hi Hj Hij Hhi Hg Hne Hnb. pose proof (h_place g) as Hh. pose proof (ahead (h g) i j Hh Hi Hj Hij Hnb) as Ha.
  split; [by rewrite length_insert|]. intros p u q Hpp Hu Hun Hq Hd Hqj Hx. apply holds_insert in Hx as [[_ Hx]|[Hqi Hx]]; [congruence| |done..].
  apply holds_insert in Hu as [[-> ->]|[Hpi Hu]]; [|by apply (Hp p u q)|done..]. apply (Hp j g q); try done. lia.
Qed.

Lemma total_move t i j g : holds_at t i NO_GFN -> holds_at t j g -> place i -> place j -> i <> j -> g <> NO_GFN -> length t = 64%nat -> dist (h g) i < dist (h g) j ->
  (total (<[Z.to_nat j := NO_GFN]> (<[Z.to_nat i := g]> t)) < total t)%nat.
Proof using Hhash.
  intros Hi Hg Pi Pj Hij Hne Hl Hd. pose proof (sum_insert weight t _ _ g Hi) as E1.
  assert (Hj : holds_at (<[Z.to_nat i := g]> t) j g) by (apply holds_insert; [done..|]; right; by split).
  pose proof (sum_insert weight _ _ _ NO_GFN Hj) as E2. unfold total. unfold place in Pi, Pj.
  assert (W0 : forall k, weight k NO_GFN = O) by (intros k; unfold weight; by rewrite decide_True).
  assert (W1 : weight (Z.to_nat i) g = Z.to_nat (dist (h g) i)) by (unfold weight; rewrite decide_False by done; by rewrite Z2Nat.id by lia).
  assert (W2 : weight (Z.to_nat j) g = Z.to_nat (dist (h g) j)) by (unfold weight; rewrite decide_False by done; by rewrite Z2Nat.id by lia).
  rewrite !W0 in *. rewrite W1 in E1. rewrite W2 in E2. pose proof (dist_range (h g) i (h_place g) Pi). lia.
Qed.

Lemma del_run fuel : forall t i, place i -> probed (fun q => q = i) t -> (total (<[Z.to_nat i := NO_GFN]> t) < fuel)%nat ->
  exists t', del_loop hash_32 fuel t i i = Ok t' /\ table_ok t' /\ frames_in t' ≡ₚ frames_in (<[Z.to_nat i := NO_GFN]> t).
Proof using Hhash.
  induction fuel as [|fuel IH]; intros t i Hi Hp Htot; [lia|]. cbn [del_loop]. pose proof (pb_length _ _ Hp) as Hl. set (t1 := <[Z.to_nat i := NO_GFN]> t) in *.
  assert (Hl1 : length t1 = 64%nat) by (unfold t1; by rewrite length_insert). assert (Hhi : holds_at t1 i NO_GFN) by (apply holds_insert; [done..|]; by left).
  assert (Hp1 : probed (fun q => q = i) t1).
  { split; [done|]. intros p g q Hpp Hg Hne Hq Hd Hqi Hx. apply holds_insert in Hg as [[_ ?]|[_ Hg]]; [done| |done..].
    apply holds_insert in Hx as [[? _]|[_ Hx]]; [done| |done..]. by apply (pb_path _ _ Hp p g q). }
  destruct (probe_run t1 i Hl1 Hi Hhi 64 i Hi) as (j & Hj & Hb & [[E Hno]|(E & Hji & g & Hg & Hgn & Hnb)]); [places|lia|intros p Hpp Hx; exfalso; clear -Hx Hpp Hi; places| |];
    change (Z.to_nat ASYNC_PF_PER_VCPU) with 64%nat; rewrite E; cbn.
  - exists t1. split; [done|]. split; [by apply (probe_end t1 i j)|done].
  - unfold gfn_at. rewrite Hg. cbn. assert (Ha : dist (h g) i < dist (h g) j) by (apply ahead; [apply h_place|done..]).
    assert (Hj2 : holds_at (<[Z.to_nat i := g]> t1) j g) by (apply holds_insert; [done..|]; right; by split).
    destruct (IH (<[Z.to_nat i := g]> t1) j Hj) as (t' & E' & Hok & Hfr).
    + by apply probe_move.
    + pose proof (total_move t1 i j g Hhi Hg Hi Hj ltac:(done) Hgn Hl1 Ha). lia.
    + exists t'. split; [done|]. split; [done|]. rewrite Hfr. apply (Permutation_cons_inv (a := g)). rewrite frames_empty by done. by apply frames_fill.
Qed.

Lemma del_spec t g : table_ok t -> g <> NO_GFN -> g ∈ frames_in t -> exists t', kvm_del_async_pf_gfn hash_32 t g = Ok t' /\ table_ok t' /\ g :: frames_in t' ≡ₚ frames_in t.
Proof using Hhash.
  intros Ht Hg Hin. destruct (slot_spec t g Ht Hg) as (key & u & E & Hk & Hu & Hc). apply Hc in Hin as ->. unfold kvm_del_async_pf_gfn. rewrite E.
  change (exists t', del_loop hash_32 (64 * 64) t key key = Ok t' /\ table_ok t' /\ g :: frames_in t' ≡ₚ frames_in t).
  assert (Hp : probed (fun q => q = key) t) by (destruct Ht as [Hl Hp]; split; [done|]; intros p u q P1 P2 P3 P4 P5 _; exact (Hp p u q P1 P2 P3 P4 P5 (fun H => H))).
  destruct (del_run (64 * 64) t key Hk Hp) as (t' & E' & Hok & Hfr).
  - pose proof (total_bound (<[Z.to_nat key := NO_GFN]> t) ltac:(rewrite length_insert; apply Ht)). lia.
  - exists t'. split; [done|]. split; [done|]. rewrite Hfr. by apply frames_empty.
Qed.

(** ** The works and the table agree *)

Record apf_ok (s : vcpu) : Prop := {
  ao_table : table_ok (gfns s);
  ao_frames : frames_in (gfns s) ≡ₚ w_gfn <$> queue s;
  ao_queue w : w ∈ queue s -> w_gfn w <> NO_GFN /\ wakeup_all w = false;
  ao_ptrs : NoDup (ptr <$> queue s) /\ NoDup (ptr <$> done_list s);
  ao_done w : w ∈ done_list s -> w ∈ queue s \/ wakeup_all w = true /\ ptr w ∉ ptr <$> queue s;
  ao_live p : p ∈ live s <-> p ∈ ptr <$> queue s \/ p ∈ ptr <$> done_list s;
  ao_queued : queued s = Z.of_nat (length (queue s) + length (filter (fun w => wakeup_all w = true) (done_list s)));
  ao_bound : (length (queue s) <= 64)%nat /\ (length (filter (fun w => wakeup_all w = true) (done_list s)) <= 1)%nat
}.

Lemma free_place s : apf_ok s -> (length (queue s) < 64)%nat -> exists p, place p /\ holds_at (gfns s) p NO_GFN.
Proof.
  intros Hs Hlt. pose proof (pb_length _ _ (ao_table _ Hs)) as Hl. destruct (decide (NO_GFN ∈ gfns s)) as [Hin|Hout].
  - apply list_elem_of_lookup in Hin as [i Hi]. exists (Z.of_nat i). pose proof (lookup_lt_Some _ _ _ Hi). unfold place, holds_at. rewrite Nat2Z.id. split; [lia|done].
  - exfalso. assert (E : length (frames_in (gfns s)) = 64%nat); [|rewrite (Permutation_length (ao_frames _ Hs)), length_fmap in E; lia].
    rewrite <- Hl. f_equal. unfold frames_in. clear -Hout. induction (gfns s) as [|g t IH]; [done|]. rewrite not_elem_of_cons in Hout. rewrite filter_cons, decide_True by (intros ->; tauto).
    f_equal. apply IH. tauto.
Qed.

Lemma find_work s g : apf_ok s -> g <> NO_GFN -> kvm_find_async_pf_gfn hash_32 (gfns s) g = Ok (bool_decide (g ∈ w_gfn <$> queue s)).
Proof using Hhash. intros Hs Hg. rewrite find_spec by (done || apply Hs). f_equal. apply bool_decide_ext. by rewrite (ao_frames _ Hs). Qed.

Lemma apf_ok_ext s s' : apf_ok s -> gfns s' = gfns s -> queue s' = queue s -> done_list s' = done_list s -> queued s' = queued s -> live s' = live s -> apf_ok s'.
Proof. intros [? ? ? ? ? ? ? ?] E1 E2 E3 E4 E5. split; rewrite ?E1, ?E2, ?E3, ?E4, ?E5; done. Qed.

Lemma not_present_run s work u put : table_ok (gfns s) -> w_gfn work <> NO_GFN -> (exists p, place p /\ holds_at (gfns s) p NO_GFN) ->
  exists s', kvm_arch_async_page_not_present hash_32 u put work s = Ok (tt, s') /\ table_ok (gfns s') /\ frames_in (gfns s') ≡ₚ w_gfn work :: frames_in (gfns s) /\
    queue s' = queue s /\ done_list s' = done_list s /\ queued s' = queued s /\ live s' = live s.
Proof using Hhash.
  intros Ht Hg Hfree. destruct (add_spec (gfns s) (w_gfn work) Ht Hg Hfree) as (t & E & Ht' & Hfr). unfold kvm_arch_async_page_not_present.
  rewrite (st_bind_Ok _ _ s s s) by done. rewrite (st_bind_Ok _ _ _ _ _ (lift_res_Ok _ s _ E)). rewrite (st_bind_Ok _ _ s tt (set_gfns t s)) by done.
  destruct (_ || _); [|destruct put]; (eexists; split; [done|]; by split_and!).
Qed.

Lemma fresh_freed (p : Z) (l : list Z) (q : Z) : p ∉ l -> q ∈ filter (fun q => q <> p) (p :: l) <-> q ∈ l.
Proof. intros Hp. rewrite list_elem_of_filter, elem_of_cons. split; [by intros [? [?|?]]|]. intros Hq. split; [by intros ->|by right]. Qed.

(** A work refused leaves nothing allocated. *)
Lemma refused_run s alloc r : apf_ok s -> alloc ∉ live s -> exists s', (cache_zalloc alloc ;; cache_free alloc ;; mret r) s = Ok (r : Z, s') /\ apf_ok s'.
Proof.
  intros Hs Hf. exists (set_live (filter (fun q => q <> alloc) (alloc :: live s)) s). split.
  - unfold cache_zalloc. rewrite st_bind_assoc, (st_bind_Ok _ _ s s s) by done. rewrite (st_bind_Ok _ _ s tt (set_live (alloc :: live s) s)) by done.
    unfold cache_free. rewrite st_bind_assoc, (st_bind_Ok _ _ _ _ _ (eq_refl (the_vcpu (set_live (alloc :: live s) s)))).
    rewrite bool_decide_true by (cbn; left). done.
  - destruct Hs as [? ? ? ? ? Hl ? ?]. split; try done. intros p. cbn [set_live live queue done_list]. rewrite fresh_freed by done. apply Hl.
Qed.

Lemma setup_run s alloc sched u put vid gva gfn hva direct cr3 : apf_ok s -> gfn <> NO_GFN -> alloc = 0 \/ alloc ∉ live s ->
  exists r s', kvm_arch_setup_async_pf hash_32 alloc sched u put vid gva gfn hva direct cr3 s = Ok (r, s') /\ apf_ok s' /\
    (r = 1 -> w_gfn <$> queue s' = (w_gfn <$> queue s) ++ [gfn]) /\ (r = 0 \/ r = 1).
Proof using Hhash.
  intros Hs0 Hg Hal. unfold kvm_arch_setup_async_pf. rewrite (st_bind_Ok _ _ s s s) by done. set (s1 := set_id (u32 (apf_id s + 1)) s).
  rewrite (st_bind_Ok _ _ s tt s1) by done. assert (Hs : apf_ok s1) by (by apply (apf_ok_ext s)). assert (Hl1 : live s1 = live s) by done.
  assert (Hq1 : queue s1 = queue s) by done. rewrite <- Hl1 in Hal. rewrite <- Hq1. set (tok := Z.lor _ _). clearbody tok s1. unfold kvm_setup_async_pf.
  rewrite (st_bind_Ok _ _ s1 s1 s1) by done. assert (Hno : forall s', apf_ok s' -> apf_ok s' /\ (0 = 1 -> w_gfn <$> queue s' = (w_gfn <$> queue s1) ++ [gfn]) /\ (0 = 0 \/ 0 = 1)) by (intros s' Hx; split; [done|]; split; [done|by left]).
  destruct (Z.leb_spec ASYNC_PF_PER_VCPU (queued s1)) as [|Hq]; [exists 0, s1; auto|].
  destruct (Z.eqb_spec alloc 0) as [->|Hne]; [exists 0, s1; auto|]. destruct Hal as [?|Hal]; [done|].
  destruct hva as [addr|]; [|destruct (refused_run s1 alloc 0 Hs Hal) as (s' & E & Hok); exists 0, s'; auto].
  destruct sched; [|destruct (refused_run s1 alloc 0 Hs Hal) as (s' & E & Hok); exists 0, s'; auto]. cbn [negb].
  set (work := Work alloc (default 0 (Some gva)) addr tok gfn direct cr3 false).
  set (s2 := set_live (alloc :: live s1) s1). rewrite (st_bind_Ok _ _ s1 tt s2) by done.
  set (s3 := set_works (queue s1 ++ [work]) (done_list s1) (queued s1 + 1) s2). rewrite (st_bind_Ok _ _ s2 tt s3) by done.
  unfold ASYNC_PF_PER_VCPU in Hq. rewrite (ao_queued _ Hs) in Hq.
  destruct (not_present_run s3 work u put (ao_table _ Hs) Hg) as (s' & E & Ht & Hfr & E1 & E2 & E3 & E4); [apply (free_place s1 Hs); lia|].
  exists 1, s'. split; [by rewrite (st_bind_Ok _ _ _ _ _ E)|]. split; [|split; [intros _; rewrite E1; cbn; by rewrite fmap_app|by right]].
  assert (Hout : alloc ∉ ptr <$> queue s1 /\ alloc ∉ ptr <$> done_list s1) by (split; intros ?; apply Hal, (ao_live _ Hs); tauto).
  destruct (ao_ptrs _ Hs) as [N1 N2]. split; rewrite ?E1, ?E2, ?E3, ?E4; cbn [s3 s2 set_works set_live queue done_list queued live gfns].
  - done.
  - rewrite Hfr, fmap_app. cbn. rewrite (ao_frames _ Hs). apply Permutation_cons_append.
  - intros w [Hw|Hw]%elem_of_app; [by apply (ao_queue _ Hs)|]. apply list_elem_of_singleton in Hw as ->. done.
  - split; [|done]. rewrite fmap_app. apply NoDup_app. split; [done|]. split; [|apply NoDup_singleton]. intros p Hp. cbn. rewrite list_elem_of_singleton. intros ->. tauto.
  - intros w Hw. destruct (ao_done _ Hs w Hw) as [?|[Hwk Hp]]; [left; apply elem_of_app; by left|]. right. split; [done|]. rewrite fmap_app, elem_of_app. cbn. rewrite list_elem_of_singleton.
    intros [?|Hx]; [done|]. apply (proj2 Hout). rewrite <- Hx. by apply list_elem_of_fmap_2.
  - intros p. rewrite elem_of_cons, (ao_live _ Hs), fmap_app, elem_of_app. cbn. rewrite list_elem_of_singleton. tauto.
  - rewrite length_app. cbn. rewrite (ao_queued _ Hs). lia.
  - rewrite length_app. cbn. pose proof (ao_bound _ Hs). lia.
Qed.

Lemma present_run s work put : table_ok (gfns s) -> (wakeup_all work = false -> w_gfn work <> NO_GFN /\ w_gfn work ∈ frames_in (gfns s)) ->
  exists s', kvm_arch_async_page_present hash_32 put work s = Ok (tt, s') /\ table_ok (gfns s') /\
    (if wakeup_all work then frames_in (gfns s') = frames_in (gfns s) else w_gfn work :: frames_in (gfns s') ≡ₚ frames_in (gfns s)) /\
    queue s' = queue s /\ done_list s' = done_list s /\ queued s' = queued s /\ live s' = live s.
Proof using Hhash.
  intros Ht Hg. unfold kvm_arch_async_page_present. rewrite (st_bind_Ok _ _ s s s) by done. destruct (wakeup_all work).
  - rewrite (st_bind_Ok _ _ s (2 ^ 32 - 1) s) by done. destruct (_ && put); (eexists; split; [done|]; by split_and!).
  - destruct Hg as [Hn Hin]; [done|]. destruct (del_spec (gfns s) (w_gfn work) Ht Hn Hin) as (t & E & Ht' & Hfr).
    rewrite (st_bind_Ok _ _ s (token work) (set_gfns t s)) by (by rewrite (st_bind_Ok _ _ _ _ _ (lift_res_Ok _ s _ E))).
    destruct (_ && put); (eexists; split; [done|]; by split_and!).
Qed.

Lemma free_run s p : p ∈ live s -> cache_free p s = Ok (tt, set_live (filter (fun q => q <> p) (live s)) s).
Proof. intros Hp. unfold cache_free. rewrite (st_bind_Ok _ _ s s s) by done. by rewrite bool_decide_true. Qed.

Lemma ptr_filter (l : list kvm_async_pf) w p : p ∈ ptr <$> filter (fun v => ptr v <> ptr w) l <-> p ∈ ptr <$> l /\ p <> ptr w.
Proof. rewrite !list_elem_of_fmap. setoid_rewrite list_elem_of_filter. naive_solver. Qed.

Lemma ptr_out (l : list kvm_async_pf) w : ptr w ∉ ptr <$> l -> filter (fun v => ptr v <> ptr w) l = l.
Proof.
  induction l as [|v l IH]; [done|]. rewrite fmap_cons, not_elem_of_cons. intros [H1 H2]. rewrite filter_cons, decide_True by (intros E; by rewrite E in H1). by rewrite IH.
Qed.

Lemma ptr_in (l : list kvm_async_pf) w : NoDup (ptr <$> l) -> w ∈ l -> l ≡ₚ w :: filter (fun v => ptr v <> ptr w) l.
Proof.
  induction l as [|v l IH]; intros Hn Hw; [by apply not_elem_of_nil in Hw|]. cbn in Hn. apply NoDup_cons in Hn as [Hv Hn]. rewrite filter_cons.
  apply elem_of_cons in Hw as [->|Hw]; [rewrite decide_False by (intros Hx; by apply Hx); by rewrite ptr_out|].
  rewrite decide_True by (intros E; apply Hv; rewrite E; by apply list_elem_of_fmap_2). rewrite (IH Hn Hw) at 1. apply Permutation_swap.
Qed.

(** One completed work leaves the lists. *)
Lemma work_completed_ok s work d t : apf_ok s -> done_list s = work :: d -> table_ok t ->
  (if wakeup_all work then frames_in t = frames_in (gfns s) else w_gfn work :: frames_in t ≡ₚ frames_in (gfns s)) ->
  apf_ok (Vcpu t (filter (fun w => ptr w <> ptr work) (queue s)) d (u32 (queued s - 1)) (msr_val s) (apf_id s) (send_user_only s) false (filter (fun q => q <> ptr work) (live s)) (events s)).
Proof.
  intros [H1 H2 H3 [N1 N2] H5 H6 H7 H8] Ed Ht Hfr. rewrite Ed in *. cbn in N2. apply NoDup_cons in N2 as [Nw N2].
  assert (Hlive : forall p, p ∈ filter (fun q => q <> ptr work) (live s) <-> p ∈ ptr <$> filter (fun w => ptr w <> ptr work) (queue s) \/ p ∈ ptr <$> d).
  { intros p. rewrite list_elem_of_filter, H6, ptr_filter. cbn. rewrite elem_of_cons. destruct (decide (p = ptr work)) as [->|]; [split; [by intros [? _]|]; by intros [[_ ?]|?]|tauto]. }
  assert (Hdone : forall w, w ∈ d -> w ∈ filter (fun v => ptr v <> ptr work) (queue s) \/ wakeup_all w = true /\ ptr w ∉ ptr <$> filter (fun v => ptr v <> ptr work) (queue s)).
  { intros w Hw. assert (Hne : ptr w <> ptr work) by (intros E; apply Nw; rewrite <- E; by apply list_elem_of_fmap_2).
    destruct (H5 w) as [Hq|[Hk Hq]]; [by right|left; by apply list_elem_of_filter|]. right. split; [done|]. rewrite ptr_filter. tauto. }
  destruct (H5 work ltac:(left)) as [Hq|[Hk Hq]].
  - destruct (H3 work Hq) as [Hg Hk]. pose proof (ptr_in (queue s) work N1 Hq) as Hpm. set (q' := filter (fun w => ptr w <> ptr work) (queue s)) in *.
    rewrite Hk in Hfr. pose proof (Permutation_length Hpm) as Hlen. cbn in Hlen. rewrite filter_cons, decide_False in H7, H8 by (by rewrite Hk).
    split; cbn [gfns queue done_list queued live]; try done.
    + apply (Permutation_cons_inv (a := w_gfn work)). rewrite Hfr, H2, Hpm. done.
    + intros w Hw. apply H3. by apply list_elem_of_filter in Hw as [_ ?].
    + split; [|done]. rewrite Hpm in N1. cbn in N1. by apply NoDup_cons in N1 as [_ ?].
    + rewrite H7. unfold u32. rewrite Z.mod_small by lia. lia.
    + lia.
  - rewrite Hk in Hfr. rewrite filter_cons, decide_True in H7, H8 by done. cbn [length] in H7, H8. rewrite (ptr_out (queue s) work Hq) in *.
    split; cbn [gfns queue done_list queued live]; try done.
    + by rewrite Hfr.
    + rewrite H7. unfold u32. rewrite Z.mod_small by lia. lia.
    + lia.
Qed.

Lemma check_run answers : forall s, apf_ok s -> exists s', kvm_check_async_pf_completion hash_32 answers s = Ok (tt, s') /\ apf_ok s'.
Proof using Hhash.
  induction answers as [|[can put] answers IH]; intros s Hs; cbn [kvm_check_async_pf_completion]; rewrite (st_bind_Ok _ _ s s s) by done; [by exists s|].
  destruct can; [|by exists s]. destruct (done_list s) as [|work d] eqn:Ed; [by exists s|].
  set (s1 := set_works (queue s) d (queued s) s). rewrite (st_bind_Ok _ _ s tt s1) by done. set (s2 := emit (PageReady work) s1). rewrite (st_bind_Ok _ _ s1 tt s2) by done.
  destruct (present_run s2 work put (ao_table _ Hs)) as (s3 & E & Ht & Hfr & E1 & E2 & E3 & E4).
  { intros Hk. destruct (ao_done _ Hs work ltac:(rewrite Ed; left)) as [Hq|[? _]]; [|congruence]. destruct (ao_queue _ Hs work Hq) as [Hg _]. split; [done|].
    cbn. rewrite (ao_frames _ Hs). by apply list_elem_of_fmap_2. }
  rewrite (st_bind_Ok _ _ _ _ _ E). rewrite (st_bind_Ok _ _ s3 s3 s3) by done. set (s4 := set_works (filter (fun w => ptr w <> ptr work) (queue s3)) (done_list s3) (u32 (queued s3 - 1)) s3). rewrite (st_bind_Ok _ _ s3 tt s4) by done.
  assert (Hin : ptr work ∈ live s4) by (cbn; rewrite E4; cbn; apply (ao_live _ Hs); right; rewrite Ed; left).
  rewrite (st_bind_Ok _ _ _ _ _ (free_run s4 (ptr work) Hin)). apply IH.
  apply (apf_ok_ext _ _ (work_completed_ok s work d (gfns s3) Hs Ed Ht Hfr)); cbn; rewrite ?E1, ?E2, ?E3, ?E4; done.
Qed.

(** The objects while the lists are emptied. *)
Record objects_ok (q : list kvm_async_pf) (s : vcpu) : Prop := {
  oo_ptrs : NoDup (ptr <$> q) /\ NoDup (ptr <$> done_list s);
  oo_done w : w ∈ done_list s -> w ∈ q \/ ptr w ∉ ptr <$> q;
  oo_live p : p ∈ live s <-> p ∈ ptr <$> q \/ p ∈ ptr <$> done_list s
}.

Lemma clear_queue_run q : forall pending s, objects_ok q s -> exists s', clear_queue q pending s = Ok (tt, s') /\ objects_ok [] s' /\ (q <> [] -> queue s' = []) /\ (q = [] -> s' = s).
Proof.
  induction q as [|work q IH]; intros pending s Ho; cbn [clear_queue]; [by exists s|]. rewrite (st_bind_Ok _ _ s s s) by done.
  set (s1 := set_works q (done_list s) (queued s) s). rewrite (st_bind_Ok _ _ s tt s1) by done.
  destruct Ho as [[N1 N2] Hd Hl]. rewrite fmap_cons in N1, Hl, Hd. apply NoDup_cons in N1 as [Nw N1].
  assert (Hdq : forall w, w ∈ done_list s -> w = work \/ w ∈ q \/ ptr w ∉ ptr work :: (ptr <$> q)).
  { intros w Hw. destruct (Hd w Hw) as [Hx|Hx]; [apply elem_of_cons in Hx as [?|?]; tauto|tauto]. }
  assert (Hnext : exists s2, (if bool_decide (work ∈ done_list s) then mret tt else if hd true pending then cache_free (ptr work) else async_pf_execute work) s1 = Ok (tt, s2) /\
    objects_ok q s2 /\ queue s2 = q).
  { case_bool_decide as Hin; [|destruct (hd true pending)].
    - exists s1. split; [done|]. split; [|done]. split; cbn [s1 set_works done_list live]; [done|..].
      + intros w Hw. destruct (Hdq w Hw) as [->|[?|Hx]]; [by right|by left|right]. rewrite not_elem_of_cons in Hx. tauto.
      + intros p. rewrite Hl, elem_of_cons. split; [|tauto]. intros [[->|?]|?]; [right; by apply list_elem_of_fmap_2|tauto..].
    - assert (Hout : ptr work ∉ ptr <$> done_list s).
      { intros Hx. apply list_elem_of_fmap in Hx as (w & Ew & Hw). destruct (Hdq w Hw) as [->|[Hq|Hx]]; [done| |rewrite <- Ew, not_elem_of_cons in Hx; tauto].
        apply Nw. rewrite Ew. by apply list_elem_of_fmap_2. }
      exists (set_live (filter (fun p => p <> ptr work) (live s1)) s1). split; [apply free_run; cbn; apply Hl; left; left|]. split; [|done].
      split; cbn [s1 set_works set_live done_list live]; [done|..].
      + intros w Hw. destruct (Hdq w Hw) as [->|[?|Hx]]; [done|by left|right]. rewrite not_elem_of_cons in Hx. tauto.
      + intros p. rewrite list_elem_of_filter, Hl, elem_of_cons. split; [tauto|]. intros Hp. split; [intros ->; tauto|tauto].
    - exists (set_works q (done_list s ++ [work]) (queued s) s1). split; [done|]. split; [|done]. split; cbn [s1 set_works done_list live].
      + split; [done|]. rewrite fmap_app. apply NoDup_app. split; [done|]. split; [|apply NoDup_singleton]. intros p Hp. cbn. rewrite list_elem_of_singleton. intros ->.
        apply list_elem_of_fmap in Hp as (w & Ew & Hw). destruct (Hdq w Hw) as [->|[Hq|Hx]]; [done| |rewrite <- Ew, not_elem_of_cons in Hx; tauto].
        apply Nw. rewrite Ew. by apply list_elem_of_fmap_2.
      + intros w Hw. apply elem_of_app in Hw as [Hw|Hw%list_elem_of_singleton]; [|subst w; by right].
        destruct (Hdq w Hw) as [->|[?|Hx]]; [done|by left|right]. rewrite not_elem_of_cons in Hx. tauto.
      + intros p. rewrite Hl, fmap_app, elem_of_app, elem_of_cons. cbn. rewrite list_elem_of_singleton. tauto. }
  destruct Hnext as (s2 & E & Ho2 & Eq). rewrite (st_bind_Ok _ _ _ _ _ E). destruct (IH (tl pending) s2 Ho2) as (s' & E' & Ho' & Hq & Hsame).
  exists s'. split; [done|]. split; [done|]. split; [|done]. intros _. destruct q; [|by apply Hq]. by rewrite Hsame.
Qed.

Lemma clear_done_run d : forall s, NoDup (ptr <$> d) -> (forall p, p ∈ live s <-> p ∈ ptr <$> d) -> done_list s = d ->
  exists s', clear_done d s = Ok (tt, s') /\ live s' = [] /\ done_list s' = [] /\ queue s' = queue s.
Proof.
  induction d as [|work d IH]; intros s Hn Hl Ed; cbn [clear_done].
  - exists s. split; [done|]. split; [|done]. destruct (live s) as [|p l] eqn:E; [done|]. exfalso. apply (not_elem_of_nil p), Hl. left.
  - rewrite (st_bind_Ok _ _ s s s) by done. set (s1 := set_works (queue s) d (queued s) s). rewrite (st_bind_Ok _ _ s tt s1) by done.
    rewrite fmap_cons in Hn, Hl. apply NoDup_cons in Hn as [Nw Hn]. assert (Hin : ptr work ∈ live s1) by (cbn; apply Hl; left).
    rewrite (st_bind_Ok _ _ _ _ _ (free_run s1 _ Hin)). destruct (IH (set_live (filter (fun q => q <> ptr work) (live s1)) s1) Hn) as (s' & E & H1 & H2 & H3); [|done|by exists s'].
    intros p. cbn. rewrite list_elem_of_filter, Hl, elem_of_cons. split; [tauto|]. intros Hp. split; [by intros ->|tauto].
Qed.

(** ** The empty state *)

Lemma reset_table : table_ok kvm_async_pf_hash_reset /\ frames_in kvm_async_pf_hash_reset = [].
Proof.
  split; [|by vm_compute]. split; [by vm_compute|]. intros p g q Hp Hg Hn. unfold holds_at, kvm_async_pf_hash_reset in Hg. apply lookup_replicate_1 in Hg as [-> _]. done.
Qed.

Lemma reset_run s pending : apf_ok s -> exists s', kvm_async_pf_reset pending s = Ok (tt, s') /\ apf_ok s' /\ queue s' = [] /\ live s' = [].
Proof.
  intros Hs. assert (Ho : objects_ok (queue s) s) by (split; [apply Hs|intros w Hw; destruct (ao_done _ Hs w Hw); tauto|apply Hs]).
  destruct (clear_queue_run (queue s) pending s Ho) as (s1 & E1 & Ho1 & Hq1 & Hsame).
  assert (Eq : queue s1 = []) by (destruct (queue s) eqn:E; [rewrite Hsame; done|by apply Hq1]).
  destruct (clear_done_run (done_list s1) s1) as (s2 & E2 & L2 & D2 & Q2); [apply Ho1| |done|].
  { intros p. rewrite (oo_live _ _ Ho1). cbn. split; [intros [Hx|?]; [by apply not_elem_of_nil in Hx|done]|by right]. }
  exists (set_gfns kvm_async_pf_hash_reset (set_works (queue s2) (done_list s2) 0 s2)). split.
  - unfold kvm_async_pf_reset, kvm_clear_async_pf_completion_queue. rewrite st_bind_assoc, (st_bind_Ok _ _ s s s) by done. rewrite st_bind_assoc, (st_bind_Ok _ _ _ _ _ E1).
    rewrite st_bind_assoc, (st_bind_Ok _ _ s1 s1 s1) by done. rewrite st_bind_assoc, (st_bind_Ok _ _ _ _ _ E2). done.
  - cbn [set_gfns set_works queue live]. rewrite Q2, Eq. split; [|done]. destruct reset_table as [R1 R2]. set (t0 := kvm_async_pf_hash_reset) in *. clearbody t0.
    split; cbn [set_gfns set_works gfns queue done_list queued live]; rewrite ?Q2, ?Eq, ?D2, ?L2; try done.
    + by rewrite R2.
    + intros w Hw. by apply not_elem_of_nil in Hw.
    + split; constructor.
    + intros w Hw. by apply not_elem_of_nil in Hw.
    + intros p. cbn. tauto.
    + cbn. lia.
Qed.

Lemma wakeup_run s alloc : apf_ok s -> alloc = 0 \/ alloc ∉ live s -> exists r s', kvm_async_pf_wakeup_all alloc s = Ok (r, s') /\ apf_ok s'.
Proof.
  intros Hs Hal. unfold kvm_async_pf_wakeup_all. rewrite (st_bind_Ok _ _ s s s) by done. case_bool_decide as Ed; cbn [negb]; [|by exists 0, s].
  destruct (Z.eqb_spec alloc 0) as [->|Hne]; [by exists (- ENOMEM), s|]. destruct Hal as [?|Hal]; [done|].
  eexists 0, _. split; [done|]. destruct Hs as [H1 H2 H3 [N1 N2] H5 H6 H7 H8]. rewrite Ed in *.
  split; cbn [set_works set_live gfns queue done_list queued live app]; try done.
  - split; [done|apply NoDup_singleton].
  - intros w Hw. apply list_elem_of_singleton in Hw as ->. right. split; [done|]. cbn. intros Hx. apply Hal, H6. by left.
  - intros p. rewrite elem_of_cons, H6. cbn. rewrite elem_of_cons. pose proof (not_elem_of_nil p). tauto.
  - rewrite filter_cons, decide_True, H7 by done. cbn. lia.
  - rewrite filter_cons, decide_True by done. cbn in *. lia.
Qed.

(** ** Histories *)

Lemma new_ok : apf_ok new_vcpu.
Proof.
  unfold new_vcpu. destruct reset_table as [R1 R2]. set (t0 := kvm_async_pf_hash_reset) in *. clearbody t0. split; cbn [gfns queue done_list queued live]; try done.
  - by rewrite R2.
  - intros w Hw. by apply not_elem_of_nil in Hw.
  - split; constructor.
  - intros w Hw. by apply not_elem_of_nil in Hw.
  - intros p. cbn. tauto.
  - cbn. lia.
Qed.

Lemma execute_ok s w : apf_ok s -> w ∈ queue s -> w ∉ done_list s -> apf_ok (set_works (queue s) (done_list s ++ [w]) (queued s) s).
Proof.
  intros [H1 H2 H3 [N1 N2] H5 H6 H7 H8] Hq Hd. destruct (H3 w Hq) as [_ Hk].
  assert (Hout : ptr w ∉ ptr <$> done_list s).
  { intros Hx. apply list_elem_of_fmap in Hx as (v & Ev & Hv). destruct (H5 v Hv) as [Hvq|[_ Hx]]; [|apply Hx; rewrite <- Ev; by apply list_elem_of_fmap_2].
    assert (v = w) as ->; [|done]. apply list_elem_of_lookup in Hq as [i Hi], Hvq as [j Hj]. assert (i = j) as ->; [|congruence].
    eapply NoDup_lookup; [exact N1|by rewrite list_lookup_fmap, Hi|rewrite list_lookup_fmap, Hj; cbn; by rewrite Ev]. }
  assert (Hfil : filter (fun v => wakeup_all v = true) (done_list s ++ [w]) = filter (fun v => wakeup_all v = true) (done_list s)).
  { rewrite filter_app, filter_cons, decide_False by (by rewrite Hk). by rewrite app_nil_r. }
  split; cbn [set_works gfns queue done_list queued live]; try done; rewrite ?Hfil; try done.
  - split; [done|]. rewrite fmap_app. apply NoDup_app. split; [done|]. split; [|apply NoDup_singleton]. intros p Hp. cbn. rewrite list_elem_of_singleton. by intros ->.
  - intros v [Hv|Hv]%elem_of_app; [by apply H5|]. apply list_elem_of_singleton in Hv as ->. by left.
  - intros p. rewrite H6, fmap_app, elem_of_app. cbn. rewrite list_elem_of_singleton. split; [tauto|]. intros [?|[?| ->]]; [tauto..|left; by apply list_elem_of_fmap_2].
Qed.

Lemma op_run s op : apf_ok s -> may s op -> exists r s', run_op hash_32 op s = Ok (r, s') /\ apf_ok s'.
Proof using Hhash.
  intros Hs Hm. destruct op as [alloc sched u put vid gva gfn hva direct cr3|work|answers|pending|pending data init alloc]; cbn [run_op may] in *.
  - destruct Hm as [Hg Hal]. destruct (setup_run s alloc sched u put vid gva gfn hva direct cr3 Hs Hg Hal) as (r & s' & E & Hok & _). eauto.
  - exists 0. eexists. split; [done|]. destruct Hm. by apply execute_ok.
  - destruct (check_run answers s Hs) as (s' & E & Hok). exists 0, s'. by rewrite (st_bind_Ok _ _ _ _ _ E).
  - destruct (reset_run s pending Hs) as (s' & E & Hok & _). exists 0, s'. by rewrite (st_bind_Ok _ _ _ _ _ E).
  - unfold kvm_pv_enable_async_pf. destruct (any data 0x3c); [by exists 1, s|]. rewrite (st_bind_Ok _ _ s s s) by done.
    set (s1 := set_msr data (send_user_only s) s). rewrite (st_bind_Ok _ _ s tt s1) by done. assert (Hs1 : apf_ok s1) by (by apply (apf_ok_ext s)).
    destruct (any data KVM_ASYNC_PF_ENABLED); cbn [negb].
    + destruct init; [|by exists 1, s1]. cbn [negb]. set (s2 := set_msr data (negb (any data KVM_ASYNC_PF_SEND_ALWAYS)) s1). rewrite (st_bind_Ok _ _ s1 tt s2) by done.
      destruct (wakeup_run s2 alloc) as (r & s' & E & Hok); [by apply (apf_ok_ext s)|done|]. exists 0, s'. by rewrite (st_bind_Ok _ _ _ _ _ E).
    + destruct (reset_run s1 pending Hs1) as (s' & E & Hok & _). exists 0, s'. by rewrite (st_bind_Ok _ _ _ _ _ E).
Qed.

Lemma reachable_ok s : reachable hash_32 s -> apf_ok s.
Proof using Hhash.
  induction 1 as [|s op r s' _ Hs Hm E]; [apply new_ok|]. destruct (op_run s op Hs Hm) as (r' & s2 & E' & Hok). congruence.
Qed.

(** C10: In every state that faults, workers, completions, resets and writes of
    the MSR lead to, [kvm_find_async_pf_gfn] finds a frame exactly when a
    queued work waits for it; the allocated objects are those of the two
    lists; and whatever comes next ends without an error: the search for a
    free place stops, no place outside of the table is touched and nothing is
    freed twice. *)
Theorem async_pf_safe s : reachable hash_32 s ->
  (forall g, g <> NO_GFN -> kvm_find_async_pf_gfn hash_32 (gfns s) g = Ok (bool_decide (g ∈ w_gfn <$> queue s))) /\
  (forall p, p ∈ live s <-> p ∈ ptr <$> queue s \/ p ∈ ptr <$> done_list s) /\
  0 <= queued s <= 65 /\
  (forall op, may s op -> exists r s', run_op hash_32 op s = Ok (r, s')).
Proof using Hhash.
  intros Hs%reachable_ok. split; [by intros g Hg; apply find_work|]. split; [apply Hs|]. split; [rewrite (ao_queued _ Hs); pose proof (ao_bound _ Hs); lia|].
  intros op Hm. destruct (op_run s op Hs Hm) as (r & s' & E & _). eauto.
Qed.

(** C23: A frame added to the table is found, and once it is deleted again,
    every frame is found or missed as before: the deletion, which moves later
    entries up, loses none of them and leaves none behind a gap. *)
Theorem async_pf_table_roundtrip t g : table_ok t -> g <> NO_GFN -> (exists p, place p /\ holds_at t p NO_GFN) ->
  exists t1 t2, kvm_add_async_pf_gfn hash_32 t g = Ok t1 /\ kvm_del_async_pf_gfn hash_32 t1 g = Ok t2 /\
    kvm_find_async_pf_gfn hash_32 t1 g = Ok true /\
    (forall g', g' <> NO_GFN -> kvm_find_async_pf_gfn hash_32 t2 g' = kvm_find_async_pf_gfn hash_32 t g').
Proof using Hhash.
  intros Ht Hg Hfree. destruct (add_spec t g Ht Hg Hfree) as (t1 & E1 & Ht1 & F1). assert (Hin : g ∈ frames_in t1) by (rewrite F1; left).
  destruct (del_spec t1 g Ht1 Hg Hin) as (t2 & E2 & Ht2 & F2). exists t1, t2. split; [done|]. split; [done|]. split; [by rewrite find_spec, bool_decide_true|].
  intros g' Hg'. rewrite !find_spec by done. f_equal. apply bool_decide_ext. assert (Hp : frames_in t2 ≡ₚ frames_in t) by (apply (Permutation_cons_inv (a := g)); by rewrite F2, F1).
  by rewrite Hp.
Qed.

End proofs.

(** ** A concrete hash *)

(** [hash_32] of the kernel *)
Definition golden_hash (v bits : Z) : Z := Z.shiftr (u32 (v * 0x9e370001)) (32 - bits).

Lemma golden_range v : 0 <= golden_hash v 6 < 64.
Proof.
  unfold golden_hash, u32. rewrite Z.shiftr_div_pow2 by lia. pose proof (Z.mod_pos_bound (v * 0x9e370001) (2 ^ 32) ltac:(lia)) as Hb.
  split; [apply Z.div_pos; lia|]. apply Z.div_lt_upper_bound; lia.
Qed.

Definition one_fault : apf_op := Setup 0x1000 true false true 0 0 5 (Some 0x7f0000005000) true 0.

Lemma async_pf_safe_witness : exists s, reachable golden_hash s /\ kvm_find_async_pf_gfn golden_hash (gfns s) 5 = Ok true /\ live s = [0x1000].
Proof.
  destruct (run_op golden_hash one_fault new_vcpu) as [[r s]|] eqn:E; [|by vm_compute in E].
  assert (Hq : w_gfn <$> queue s = [5] /\ live s = [0x1000]).
  { assert (Es : run_op golden_hash one_fault new_vcpu = Ok (r, s)) by exact E. vm_compute in Es. injection Es as _ <-. split; reflexivity. }
  assert (Hr : reachable golden_hash s).
  { apply (reach_op _ new_vcpu one_fault r); [apply reach_new| |exact E]. split; [by vm_compute|]. right. cbn. apply not_elem_of_nil. }
  exists s. split; [exact Hr|]. destruct (async_pf_safe golden_hash golden_range s Hr) as [Hf _]. split; [|apply Hq].
  rewrite (Hf 5) by (by vm_compute). destruct Hq as [-> _]. reflexivity.
Defined.

Lemma async_pf_table_roundtrip_witness : exists t1 t2, kvm_add_async_pf_gfn golden_hash kvm_async_pf_hash_reset 5 = Ok t1 /\
  kvm_del_async_pf_gfn golden_hash t1 5 = Ok t2 /\ kvm_find_async_pf_gfn golden_hash t1 5 = Ok true.
Proof.
  destruct (async_pf_table_roundtrip golden_hash golden_range kvm_async_pf_hash_reset 5) as (t1 & t2 & E1 & E2 & E3 & _).
  - apply reset_table.
  - by vm_compute.
  - exists 0. split; [unfold place; lia|reflexivity].
  - exists t1, t2. split; [exact E1|]. split; [exact E2|exact E3].
Defined.
