(* ===== verification/HvaToPfn.v ===== *)
(** * Frames of the host behind guest frames (kvm-kmod x86/kvm_main.c, x86/mmu.c)

    [hva_to_pfn] pins the page at a host address, without waiting where it
    can; [try_async_pf] leaves a page that is swapped out to a worker.  The
    memory of the host answers as a parameter. *)

From S2P Require Import Prelude MemSlots Spte DirectMap AsyncPf.

(** ** The memory of the host *)

Record vm_area := Vma { vm_start : Z; vm_pgoff : Z; vm_read : bool; vm_write : bool; vm_pfnmap : bool }.

(** The frame [get_user_pages] finds, or its other results. *)
Record host_mm := Mm {
  (** [__get_user_pages_fast] for writing *)
  gup_now : Z -> option Z;
  (** [__get_user_pages] with FOLL_NOWAIT *)
  gup_nowait : Z -> bool -> Z + Z;
  (** [get_user_pages_fast] *)
  gup_fast : Z -> bool -> Z + Z;
  hwpoison : Z -> bool;
  find_vma_intersection : Z -> option vm_area;
  mmio_pfn : Z -> bool
}.

Definition KVM_HVA_ERR_BAD : Z := HOST_PAGE_OFFSET.
Definition KVM_HVA_ERR_RO_BAD : Z := HOST_PAGE_OFFSET + PAGE_SIZE.
Definition EHWPOISON : Z := 133.

(** [__gfn_to_hva_many] with its error addresses *)
Definition hva_many (slot : option kvm_memory_slot) (gfn : Z) (write : bool) : Z :=
  match slot with
  | None => KVM_HVA_ERR_BAD
  | Some s =>
      if any (flags s) KVM_MEMSLOT_INVALID then KVM_HVA_ERR_BAD
      else if memslot_is_readonly s && write then KVM_HVA_ERR_RO_BAD
      else __gfn_to_hva_memslot s gfn
  end.

(** A lookup: the frame, [*async], what is assigned to [*writable] if anything,
    and the frames pinned. *)
Record lookup := Lookup { l_pfn : Z; l_async : bool; l_writable : option bool; pinned : list Z }.

Section host.
  Context (mm : host_mm).

(** [wants_writable]: the pointer is not NULL *)
Definition hva_to_pfn_fast (addr : Z) (atomic has_async write_fault wants_writable : bool) : option lookup :=
  if negb (has_async || atomic) then None
  else if negb (write_fault || wants_writable) then None
  else
    match gup_now mm addr with
    | Some pfn => Some (Lookup pfn false (if wants_writable then Some true else None) [pfn])
    | None => None
    end.

(** The lookup, or the number of pages that is not 1; [*writable] is assigned
    in both cases. *)
Definition hva_to_pfn_slow (addr : Z) (has_async write_fault wants_writable : bool) : (lookup + Z) * option bool :=
  let writable := if wants_writable then Some write_fault else None in
  match (if has_async then gup_nowait mm addr write_fault else gup_fast mm addr write_fault) with
  | inr npages => (inr npages, writable)
  | inl page =>
      if negb write_fault && wants_writable then
        match gup_now mm addr with
        | Some wpage => (inl (Lookup wpage false (Some true) [wpage]), Some true)
        | None => (inl (Lookup page false writable [page]), writable)
        end
      else (inl (Lookup page false writable [page]), writable)
  end.

Definition vma_is_valid (vma : vm_area) (write_fault : bool) : bool :=
  if negb (vm_read vma) then false else if write_fault && negb (vm_write vma) then false else true.

Definition hva_to_pfn (addr : Z) (atomic has_async write_fault wants_writable : bool) : res lookup :=
  if atomic && has_async then Err AssertFailed
  else
    match hva_to_pfn_fast addr atomic has_async write_fault wants_writable with
    | Some l => Ok l
    | None =>
        if atomic then Ok (Lookup KVM_PFN_ERR_FAULT false None [])
        else
          match hva_to_pfn_slow addr has_async write_fault wants_writable with
          | (inl l, _) => Ok l
          | (inr npages, writable) =>
              if (npages =? - EHWPOISON) || (negb has_async && hwpoison mm addr)
              then Ok (Lookup KVM_PFN_ERR_HWPOISON false writable [])
              else
                match find_vma_intersection mm addr with
                | None => Ok (Lookup KVM_PFN_ERR_FAULT false writable [])
                | Some vma =>
                    if vm_pfnmap vma then
                      let pfn := u64 (Z.shiftr (u64 (addr - vm_start vma)) PAGE_SHIFT + vm_pgoff vma) in
                      if mmio_pfn mm pfn then Ok (Lookup pfn false writable []) else Err AssertFailed
                    else Ok (Lookup KVM_PFN_ERR_FAULT (has_async && vma_is_valid vma write_fault) writable [])
                end
          end
    end.

Definition __gfn_to_pfn_memslot (slot : option kvm_memory_slot) (gfn : Z) (atomic has_async write_fault wants_writable : bool) : res lookup :=
  let addr := hva_many slot gfn write_fault in
  if addr =? KVM_HVA_ERR_RO_BAD then Ok (Lookup KVM_PFN_ERR_RO_FAULT false None [])
  else if kvm_is_error_hva addr then Ok (Lookup KVM_PFN_NOSLOT false None [])
  else
    match slot with
    | None => Err BadPointer
    | Some s =>
        if wants_writable && memslot_is_readonly s then
          l ← hva_to_pfn addr atomic has_async write_fault false;
          Ok (Lookup (l_pfn l) (l_async l) (Some false) (pinned l))
        else hva_to_pfn addr atomic has_async write_fault wants_writable
    end.

Definition __gfn_to_pfn (k : kvm_memslots) (gfn : Z) (atomic has_async write_fault wants_writable : bool) : res lookup :=
  __gfn_to_pfn_memslot (search_memslots k gfn) gfn atomic has_async write_fault wants_writable.

Definition gfn_to_pfn_atomic (k : kvm_memslots) (gfn : Z) : res lookup := __gfn_to_pfn k gfn true false true false.
Definition gfn_to_pfn_async (k : kvm_memslots) (gfn : Z) (write_fault : bool) : res lookup := __gfn_to_pfn k gfn false true write_fault true.
Definition gfn_to_pfn (k : kvm_memslots) (gfn : Z) : res lookup := __gfn_to_pfn k gfn false false true false.
Definition gfn_to_pfn_prot (k : kvm_memslots) (gfn : Z) (write_fault : bool) : res lookup := __gfn_to_pfn k gfn false false write_fault true.
Definition gfn_to_pfn_memslot (slot : option kvm_memory_slot) (gfn : Z) : res lookup := __gfn_to_pfn_memslot slot gfn false false true false.
Definition gfn_to_pfn_memslot_atomic (slot : option kvm_memory_slot) (gfn : Z) : res lookup := __gfn_to_pfn_memslot slot gfn true false true false.

(** ** Faults that need not wait *)

Definition can_do_async_pf (irqchip_in_kernel needs_reinjection interrupt_allowed : bool) : bool :=
  if negb irqchip_in_kernel || needs_reinjection then false else interrupt_allowed.

(** What setting up a work depends on: the allocation and the worker queue,
    the mode of the processor and its identity. *)
Record setup_env := SetupEnv { e_alloc : Z; e_sched : bool; e_user : bool; e_put : bool; e_vcpu : Z; e_direct : bool; e_cr3 : Z }.

(** [None]: the fault is left to a worker.  [can_do] is the answer of
    [can_do_async_pf]. *)
Definition try_async_pf (hash_32 : Z -> Z -> Z) (se : setup_env) (k : kvm_memslots) (can_do prefault : bool) (gfn gva : Z) (write : bool) : APF (option lookup) :=
  l ← lift_res (gfn_to_pfn_async k gfn write);
  if negb (l_async l) then mret (Some l)
  else
    left ← (if negb prefault && can_do then
              s ← the_vcpu;
              found ← lift_res (kvm_find_async_pf_gfn hash_32 (gfns s) gfn);
              if found : bool then modify_vcpu (emit ApfHalt) ;; mret true
              else
                r ← kvm_arch_setup_async_pf hash_32 (e_alloc se) (e_sched se) (e_user se) (e_put se) (e_vcpu se) gva gfn (gfn_to_hva k gfn) (e_direct se) (e_cr3 se);
                mret (negb (r =? 0))
            else mret false);
    if left : bool then mret None
    else
      l2 ← lift_res (gfn_to_pfn_prot k gfn write);
      mret (Some (Lookup (l_pfn l2) false (match l_writable l2 with Some w => Some w | None => l_writable l end) (pinned l2))).

End host.

(** ** What a lookup promises *)

(** The frame [remap_pfn_range] puts at an address of its area. *)
Definition raw_pfn (vma : vm_area) (a : Z) : Z := vm_pgoff vma + (a - vm_start vma) / PAGE_SIZE.

(** The host's own functions find the frames the process has mapped, pages
    that are not reserved, and writable ones when asked for writing.  An area
    of raw frames is one of [remap_pfn_range]: [vm_pgoff] is the frame at its
    start, and the frames follow each other. *)
Record mm_ok (mm : host_mm) (host : Z -> option Z) (may_write : Z -> bool) : Prop := {
  mo_now a p : gup_now mm a = Some p -> host a = Some p /\ may_write a = true /\ 0 <= p < 2 ^ 40 /\ mmio_pfn mm p = false;
  mo_nowait a w p : gup_nowait mm a w = inl p -> host a = Some p /\ (w = true -> may_write a = true) /\ 0 <= p < 2 ^ 40 /\ mmio_pfn mm p = false;
  mo_fast a w p : gup_fast mm a w = inl p -> host a = Some p /\ (w = true -> may_write a = true) /\ 0 <= p < 2 ^ 40 /\ mmio_pfn mm p = false;
  mo_raw a vma : find_vma_intersection mm a = Some vma -> vm_pfnmap vma = true ->
    0 <= vm_start vma <= a /\ a < 2 ^ 64 /\ 0 <= vm_pgoff vma /\ host a = Some (raw_pfn vma a) /\ raw_pfn vma a < 2 ^ 40
}.

(** An address in an area of raw frames where the frame is one of ordinary
    memory. *)
Definition remapped (mm : host_mm) (a : Z) : Prop :=
  exists vma, find_vma_intersection mm a = Some vma /\ vm_pfnmap vma = true /\ mmio_pfn mm (raw_pfn vma a) = false.
Definition remapped_gfn (mm : host_mm) (k : kvm_memslots) (gfn : Z) : Prop :=
  exists s, search_memslots k gfn = Some s /\ remapped mm (__gfn_to_hva_memslot s gfn).

Section promise.
  Context (mm : host_mm) (host : Z -> option Z) (may_write : Z -> bool) (Hmm : mm_ok mm host may_write).

(** A frame of the host at address [a], or an error. *)
Record found (a : Z) (write_fault : bool) (l : lookup) : Prop := {
  fd_frame : is_error_noslot_pfn (l_pfn l) = false -> host a = Some (l_pfn l) /\ 0 <= l_pfn l < 2 ^ 40;
  fd_pinned : pinned l = if is_error_noslot_pfn (l_pfn l) || mmio_pfn mm (l_pfn l) then [] else [l_pfn l];
  fd_write : pinned l <> [] -> write_fault = true \/ l_writable l = Some true -> may_write a = true;
  fd_async : l_async l = true -> l_pfn l = KVM_PFN_ERR_FAULT;
  fd_error : is_error_noslot_pfn (l_pfn l) = true -> is_error_pfn (l_pfn l) = true
}.

Lemma frame_is_fine p : 0 <= p < 2 ^ 40 -> is_error_noslot_pfn p = false.
Proof.
  intros Hp. unfold is_error_noslot_pfn, any, KVM_PFN_ERR_NOSLOT_MASK. apply negb_false_iff, Z.eqb_eq, Z.bits_inj'. intros i Hi. rewrite Z.land_spec, Z.bits_0.
  destruct (Z.lt_ge_cases i 40) as [H|H]; [|by rewrite (testbit_above p 40) by lia]. rewrite Z.shiftl_spec by lia. by rewrite (Z.testbit_neg_r _ (i - 52)), andb_false_r by lia.
Qed.

Lemma found_page a wf p w as_ : host a = Some p -> 0 <= p < 2 ^ 40 -> mmio_pfn mm p = false -> (wf = true \/ w = Some true -> may_write a = true) -> as_ = false ->
  found a wf (Lookup p as_ w [p]).
Proof. intros H1 H2 H3 H4 ->. split; cbn; [done|by rewrite frame_is_fine, H3|by intros _|done|by rewrite frame_is_fine]. Qed.

Lemma found_error a wf p w as_ : is_error_noslot_pfn p = true /\ is_error_pfn p = true -> (as_ = true -> p = KVM_PFN_ERR_FAULT) -> found a wf (Lookup p as_ w []).
Proof. intros [H1 H3] H2. split; cbn; [by rewrite H1|by rewrite H1|done|done|done]. Qed.

(** The words the code computes the frame in are wide enough. *)
Lemma raw_pfn_words vma a : 0 <= vm_start vma <= a -> a < 2 ^ 64 -> 0 <= vm_pgoff vma -> raw_pfn vma a < 2 ^ 40 ->
  u64 (Z.shiftr (u64 (a - vm_start vma)) PAGE_SHIFT + vm_pgoff vma) = raw_pfn vma a /\ 0 <= raw_pfn vma a.
Proof using.
  intros H1 H2 H3 H4. unfold raw_pfn, u64 in *. rewrite (Z.mod_small (a - vm_start vma)) by lia. rewrite Z.shiftr_div_pow2 by done. change (2 ^ PAGE_SHIFT) with PAGE_SIZE.
  assert (Hd : 0 <= (a - vm_start vma) / PAGE_SIZE) by (apply Z.div_pos; [lia|done]). rewrite Z.mod_small; lia.
Qed.

(** What the flags of a lookup mean for its result. *)
Definition fitting (a : Z) (atomic has_async wf ww : bool) (l : lookup) : Prop :=
  found a wf l /\ (l_async l = true -> has_async = true) /\ (ww = false -> l_writable l = None) /\ (ww = true -> atomic = false -> l_writable l <> None).

Lemma hva_to_pfn_found a atomic has_async wf ww : atomic && has_async = false ->
  (exists l, hva_to_pfn mm a atomic has_async wf ww = Ok l /\ fitting a atomic has_async wf ww l) \/
  (hva_to_pfn mm a atomic has_async wf ww = Err AssertFailed /\ remapped mm a).
Proof using Hmm.
  intros Hb. unfold hva_to_pfn, fitting. rewrite Hb. unfold hva_to_pfn_fast.
  set (slow := if atomic then Ok (Lookup KVM_PFN_ERR_FAULT false None []) else
     match hva_to_pfn_slow mm a has_async wf ww with
     | (inl l, _) => Ok l
     | (inr npages, writable) =>
         if (npages =? - EHWPOISON) || (negb has_async && hwpoison mm a) then Ok (Lookup KVM_PFN_ERR_HWPOISON false writable [])
         else match find_vma_intersection mm a with
              | None => Ok (Lookup KVM_PFN_ERR_FAULT false writable [])
              | Some vma => if vm_pfnmap vma then let pfn := u64 (Z.shiftr (u64 (a - vm_start vma)) PAGE_SHIFT + vm_pgoff vma) in
                              if mmio_pfn mm pfn then Ok (Lookup pfn false writable []) else Err AssertFailed
                            else Ok (Lookup KVM_PFN_ERR_FAULT (has_async && vma_is_valid vma wf) writable [])
              end
     end).
  assert (Hslow : (exists l, slow = Ok l /\ fitting a atomic has_async wf ww l) \/ (slow = Err AssertFailed /\ remapped mm a)).
  { unfold slow, fitting. destruct atomic; [left; eexists; split; [done|]; split; [by apply found_error|by destruct ww]|]. unfold hva_to_pfn_slow.
    destruct (if has_async then gup_nowait mm a wf else gup_fast mm a wf) as [p|n] eqn:Eg.
    - assert (Hp : host a = Some p /\ (wf = true -> may_write a = true) /\ 0 <= p < 2 ^ 40 /\ mmio_pfn mm p = false) by (destruct has_async; [by apply (mo_nowait _ _ _ Hmm)|by apply (mo_fast _ _ _ Hmm)]).
      destruct Hp as (H1 & H2 & H3 & H4). destruct (negb wf && ww) eqn:Ew.
      + apply andb_true_iff in Ew as [Ew ->]. apply negb_true_iff in Ew as ->. destruct (gup_now mm a) as [q|] eqn:En.
        * destruct (mo_now _ _ _ Hmm _ _ En) as (J1 & J2 & J3 & J4). left. eexists. split; [done|]. split; [by apply found_page|done].
        * left. eexists. split; [done|]. split; [apply found_page; try done; intros [?|?]; done|done].
      + left. eexists. split; [done|]. split; [apply found_page; try done|by destruct ww]. intros [?|Hw]; [by apply H2|]. destruct ww; [|done]. injection Hw as Hw. by apply H2.
    - destruct (_ || _); [left; eexists; split; [done|]; split; [by apply found_error|by destruct ww]|]. destruct (find_vma_intersection mm a) as [vma|] eqn:Ev.
      + destruct (vm_pfnmap vma) eqn:Em; [|left; eexists; split; [done|]; split; [by apply found_error|split; [by intros [? _]%andb_true_iff|by destruct ww]]].
        destruct (mo_raw _ _ _ Hmm _ _ Ev Em) as (J1 & J2 & J3 & H1 & J4). destruct (raw_pfn_words vma a J1 J2 J3 J4) as [Eraw Hraw]. cbv zeta. rewrite Eraw. destruct (mmio_pfn mm (raw_pfn vma a)) eqn:H3; [left|right; split; [done|by exists vma]]. eexists. split; [done|]. split; [|by destruct ww].
        split; cbn [l_pfn l_async l_writable pinned]; [done|by rewrite H3, orb_true_r|done|done|by rewrite frame_is_fine].
      + left. eexists. split; [done|]. split; [by apply found_error|by destruct ww]. }
  destruct (negb (has_async || atomic)); [exact Hslow|]. destruct (negb (wf || ww)); [exact Hslow|]. destruct (gup_now mm a) as [q|] eqn:En; [|exact Hslow].
  destruct (mo_now _ _ _ Hmm _ _ En) as (J1 & J2 & J3 & J4). left. eexists. split; [done|]. split; [by apply found_page|by destruct ww].
Qed.

(** The lookup of a guest frame. *)
Definition promised (k : kvm_memslots) (gfn : Z) (write_fault : bool) (l : lookup) : Prop :=
  match search_memslots k gfn with
  | None => l_pfn l = KVM_PFN_NOSLOT /\ pinned l = []
  | Some s =>
      if any (flags s) KVM_MEMSLOT_INVALID then l_pfn l = KVM_PFN_NOSLOT /\ pinned l = []
      else if memslot_is_readonly s && write_fault then l_pfn l = KVM_PFN_ERR_RO_FAULT /\ pinned l = []
      else if kvm_is_error_hva (__gfn_to_hva_memslot s gfn) then (is_error_pfn (l_pfn l) = true \/ l_pfn l = KVM_PFN_NOSLOT) /\ pinned l = []
      else found (__gfn_to_hva_memslot s gfn) write_fault l /\ (memslot_is_readonly s = true -> l_writable l <> Some true)
  end.

Lemma gfn_to_pfn_promised k gfn atomic has_async wf ww : atomic && has_async = false ->
  (exists l, __gfn_to_pfn mm k gfn atomic has_async wf ww = Ok l /\ promised k gfn wf l /\ (l_async l = true -> has_async = true) /\
    (ww = true -> atomic = false -> is_error_noslot_pfn (l_pfn l) = false -> l_writable l <> None)) \/
  (__gfn_to_pfn mm k gfn atomic has_async wf ww = Err AssertFailed /\ remapped_gfn mm k gfn).
Proof using Hmm.
  intros Hb. unfold __gfn_to_pfn, __gfn_to_pfn_memslot, promised, hva_many, remapped_gfn. destruct (search_memslots k gfn) as [s|]; [|left; by eexists].
  destruct (any (flags s) KVM_MEMSLOT_INVALID); [left; by eexists|]. destruct (memslot_is_readonly s && wf) eqn:Er; [left; by eexists|].
  set (a := __gfn_to_hva_memslot s gfn). destruct (Z.eqb_spec a KVM_HVA_ERR_RO_BAD) as [->|_].
  { left. eexists. split; [done|]. split; [|done]. replace (kvm_is_error_hva KVM_HVA_ERR_RO_BAD) with true by (by vm_compute). split; [by left|done]. }
  destruct (kvm_is_error_hva a); [left; eexists; split; [done|]; split; [by split; [right|]|done]|]. destruct (ww && memslot_is_readonly s) eqn:Ew.
  - destruct (hva_to_pfn_found a atomic has_async wf false Hb) as [(l & E & [F1 F2 F3 F4 F5] & Ha & _)|[E Hr]]; [|right; rewrite E; split; [done|by exists s]].
    left. rewrite E, bind_Ok. eexists. split; [done|]. split; [|split; [done|by intros]].
    split; [|done]. split; cbn [l_pfn l_async l_writable pinned]; [done|done| |done|done]. intros Hp [->|?]; [|done]. apply F3; [done|by left].
  - destruct (hva_to_pfn_found a atomic has_async wf ww Hb) as [(l & E & Hf & Ha & Hn & Hs)|[E Hr]]; [|right; rewrite E; split; [done|by exists s]]. left. exists l. split; [done|]. split; [|split; [done|intros ? ? _; by apply Hs]]. split; [done|]. intros Hro Hw.
    rewrite Hro in Ew, Er. rewrite andb_true_r in Ew. subst ww. by rewrite Hn in Hw.
Qed.

Lemma try_async_pf_run hash_32 se k can_do prefault gfn gva write s :
  (forall v, 0 <= hash_32 v 6 < 64) -> apf_ok hash_32 s -> gfn <> NO_GFN -> e_alloc se = 0 \/ e_alloc se ∉ live s ->
  (exists o s', try_async_pf mm hash_32 se k can_do prefault gfn gva write s = Ok (o, s') /\ apf_ok hash_32 s' /\
    match o with Some l => promised k gfn write l /\ l_async l = false | None => prefault = false /\ gfn ∈ w_gfn <$> queue s' end) \/
  (try_async_pf mm hash_32 se k can_do prefault gfn gva write s = Err AssertFailed /\ remapped_gfn mm k gfn).
Proof using Hmm.
  intros Hh Hs Hg Hal. unfold try_async_pf. destruct (gfn_to_pfn_promised k gfn false true write true eq_refl) as [(l & E & Hp & _)|[E Hr]];
    [|right; split; [|done]; unfold mbind, st_bind, lift_res, gfn_to_pfn_async; by rewrite E].
  rewrite (st_bind_Ok _ _ _ _ _ (lift_res_Ok _ s _ E)). destruct (l_async l) eqn:Ea; [|left; by exists (Some l), s]. cbn [negb].
  set (sync := (l2 ← lift_res (gfn_to_pfn_prot mm k gfn write);
      mret (Some (Lookup (l_pfn l2) false (match l_writable l2 with Some w => Some w | None => l_writable l end) (pinned l2))) : APF (option lookup))).
  assert (Hsync : forall s', apf_ok hash_32 s' -> (exists o s2, sync s' = Ok (o, s2) /\ apf_ok hash_32 s2 /\
      match o with Some l => promised k gfn write l /\ l_async l = false | None => prefault = false /\ gfn ∈ w_gfn <$> queue s2 end) \/
      (sync s' = Err AssertFailed /\ remapped_gfn mm k gfn)).
  { intros s' Hs'. destruct (gfn_to_pfn_promised k gfn false false write true eq_refl) as [(l2 & E2 & Hp2 & _ & Hw2)|[E2 Hr]];
      [|right; split; [|done]; unfold sync, mbind, st_bind, lift_res, gfn_to_pfn_prot; by rewrite E2].
    left. unfold sync. rewrite (st_bind_Ok _ _ _ _ _ (lift_res_Ok _ s' _ E2)). eexists _, s'. split; [done|]. split; [done|]. split; [|done]. revert Hp Hp2. unfold promised.
    destruct (search_memslots k gfn) as [sl|]; [|done]. destruct (any _ _); [done|]. destruct (_ && write); [done|]. destruct (kvm_is_error_hva _); [done|].
    intros [_ Hr] [[F1 F2 F3 F4 F5] Hr2]. destruct (l_writable l2) eqn:Ew; [split; [split; cbn [l_pfn l_async l_writable pinned]; done|done]|]. split; [|done].
    split; cbn [l_pfn l_async l_writable pinned]; [done|done| |done|done]. intros Hpin _. exfalso. apply Hw2; try done.
    destruct (is_error_noslot_pfn (l_pfn l2)); [by rewrite F2 in Hpin|done]. }
  destruct (negb prefault && can_do) eqn:Ec; [|rewrite (st_bind_Ok _ _ s false s) by done; by apply Hsync].
  apply andb_true_iff in Ec as [Epf _]. apply negb_true_iff in Epf as ->. 
  rewrite st_bind_assoc, (st_bind_Ok _ _ s s s) by done. rewrite st_bind_assoc, (st_bind_Ok _ _ _ _ _ (lift_res_Ok _ s _ (find_work hash_32 Hh s gfn Hs Hg))).
  case_bool_decide as Hin.
  - left. exists None, (emit ApfHalt s). split; [done|]. split; [by apply (apf_ok_ext hash_32 s)|done].
  - destruct (setup_run hash_32 Hh s (e_alloc se) (e_sched se) (e_user se) (e_put se) (e_vcpu se) gva gfn (gfn_to_hva k gfn) (e_direct se) (e_cr3 se) Hs Hg Hal) as (r & s' & Er & Hs' & H1).
    rewrite st_bind_assoc, (st_bind_Ok _ _ _ _ _ Er). destruct (Z.eqb_spec r 0) as [->|Hr]; cbn [negb]; [rewrite (st_bind_Ok _ _ s' false s') by done; by apply Hsync|].
    rewrite (st_bind_Ok _ _ s' true s') by done. left. exists None, s'. split; [done|]. split; [done|]. split; [done|].
    destruct H1 as [H1 [?|Hr1]]; [done|]. rewrite (H1 Hr1), elem_of_app, list_elem_of_singleton. by right.
Qed.


End promise.

(** ** Examples *)

(** A host that has swapped everything out, to frame 7, and has the registers
    of a device, from frame 0xfe000, in one page. *)
Definition device : vm_area := Vma 0x7f0000001000 0xfe000 true true true.
Definition in_device (a : Z) : bool := (0x7f0000001000 <=? a) && (a <? 0x7f0000002000).
Definition swapped : host_mm :=
  Mm (fun _ => None) (fun a _ => inr (if in_device a then - EFAULT else - 11)) (fun a _ => if in_device a then inr (- EFAULT) else inl 7) (fun _ => false)
    (fun a => Some (if in_device a then device else Vma 0 0 true true false)) (fun p => 0xfe000 <=? p).
Definition swapped_frames (a : Z) : option Z := if in_device a then Some 0xfe000 else Some 7.

Lemma swapped_ok : mm_ok swapped swapped_frames (fun _ => true).
Proof.
  split; cbn; unfold swapped_frames; intros a; [by intros|by destruct (in_device a)| |].
  - intros w p. destruct (in_device a); [done|]. intros [= <-]. split_and!; [reflexivity|reflexivity|lia|lia|reflexivity].
  - intros vma. destruct (in_device a) eqn:Ea; intros [= <-]; [|done]. intros _. apply andb_true_iff in Ea as [E1%Z.leb_le E2%Z.ltb_lt]. unfold raw_pfn. cbn.
    replace ((a - _) / _) with 0 by (symmetry; apply Z.div_small; unfold PAGE_SIZE; lia). split_and!; [lia|lia|lia|lia|reflexivity|lia].
Qed.

Definition quiet_setup : setup_env := SetupEnv 0x1000 true false true 0 true 0.


(** An area of raw frames is mapped for writing although its pages may only be
    read: the permissions of the area are not looked at. *)
Definition readonly_device : host_mm :=
  Mm (fun _ => None) (fun _ _ => inr (- EFAULT)) (fun _ _ => inr (- EFAULT)) (fun _ => false)
    (fun _ => Some (Vma 0x7f0000000000 0xfe000 true false true)) (fun _ => true).

Lemma raw_frames_written : vma_is_valid (Vma 0x7f0000000000 0xfe000 true false true) true = false /\
  hva_to_pfn readonly_device 0x7f0000001000 false false true true = Ok (Lookup 0xfe001 false (Some true) []).
Proof. split; vm_compute; reflexivity. Qed.

(** A page that is reserved though the host counts its references, as the zero
    page of untouched memory is: a read fault takes a reference, and
    [kvm_release_pfn_clean], which takes reserved frames for MMIO, keeps it. *)
Definition untouched : host_mm :=
  Mm (fun _ => None) (fun _ w => if w : bool then inr (- 11) else inl 0x1e0) (fun _ _ => inl 0x1e0) (fun _ => false) (fun _ => None) (fun p => p =? 0x1e0).

Lemma reserved_page_leaks e x : is_mmio_pfn e 0x1e0 = true ->
  hva_to_pfn untouched 0x7f0000001000 false true false true = Ok (Lookup 0x1e0 false (Some false) [0x1e0]) /\ kvm_release_pfn_clean e 0x1e0 x = Ok (tt, x).
Proof. intros He. split; [vm_compute; reflexivity|]. unfold kvm_release_pfn_clean. by rewrite He, andb_false_r. Qed.
