(* ===== verification/FaultPath.v ===== *)
(** * A fault from end to end (kvm-kmod x86/mmu.c, x86/kvm_main.c, x86/async_pf.c)

    [tdp_page_fault] with the lookup of the frame in it: through the slot to
    the memory of the process, or to a worker when the page is swapped out.
    The table of waiting frames, the page tables and the references of the
    host's frames stay in order together. *)

From S2P Require Import Prelude AsyncPf HvaToPfn MemSlots Spte PteList Rmap ShadowPages ShadowSpec RoomSpec DirectMap PageRefs DirectSpec DirectSet DirectFault LargePages DirectTdp MmuRoots MmuNotifier.

Record guest := Guest { g_n : notified; g_apf : AsyncPf.vcpu }.

Abbreviation G := (st guest).

Definition on_n {A} (c : NM A) : G A :=
  fun g => match c (g_n g) with Ok (a, n) => Ok (a, Guest n (g_apf g)) | Err e => Err e end.
Definition on_apf {A} (c : APF A) : G A :=
  fun g => match c (g_apf g) with Ok (a, s) => Ok (a, Guest (g_n g) s) | Err e => Err e end.
Definition the_guest : G guest := fun g => Ok (g, g).

Section path.
  Context (m : shadow_masks) (is_pae : bool) (sync_page : Z -> VM Z) (mm : host_mm) (hash_32 : Z -> Z -> Z).

(** [junk] is [map_writable] before it is assigned, [can_do] the answer of
    [can_do_async_pf]. *)
Definition page_fault (e : env) (v : kvm_mmu) (se : setup_env) (can_do : bool) (topup : list Z * list Z * nat) (zap_fuel : nat) (gpa error_code : Z)
    (prefault junk : bool) : G Z :=
  o ← on_n (fault_begin m e v topup gpa error_code prefault);
  match o with
  | inl r => mret r
  | inr f =>
      g ← the_guest;
      l ← on_apf (HvaToPfn.try_async_pf mm hash_32 se (slots (core (vm (g_n g)))) can_do prefault (f_gfn f) gpa (f_write f));
      match l with
      | None => mret 0
      | Some l =>
          on_n (on_vm (tell (Taken <$> pinned l))) ;;
          on_n (fault_map m is_pae sync_page e v zap_fuel
            (Fault (f_write f) (f_force f) (f_level f) (f_gfn f) (f_prefault f) (f_seq f) (Some (l_pfn l, default junk (l_writable l)))))
      end
  end.

Context (host : Z -> option Z) (may_write : Z -> bool) (e : env).
Context (Hmm : mm_ok mm host may_write) (Hmmio : forall p, is_mmio_pfn e p = mmio_pfn mm p).

Abbreviation has := (fun a p => host a = Some p).

(** The frame a lookup promises is the host's, and comes with the reference
    that is dropped later. *)
Lemma promised_ok k gfn wf l : promised mm host may_write k gfn wf l ->
  lookup_ok has k gfn (l_pfn l) /\ forall p, held p (Taken <$> pinned l) = part e p (l_pfn l).
Proof using Hmmio.
  assert (Hbad : forall pfn, is_error_noslot_pfn pfn = true -> forall p, held p (Taken <$> @nil Z) = part e p pfn) by (intros pfn H p; unfold part, counted_pfn; by rewrite H).
  unfold promised. destruct (search_memslots k gfn) as [s|] eqn:Es; [|intros [-> ->]; split; [by right; left|by apply Hbad]].
  destruct (any _ _); [intros [-> ->]; split; [by right; left|by apply Hbad]|]. destruct (_ && wf); [intros [-> ->]; split; [by left|by apply Hbad]|].
  destruct (kvm_is_error_hva _).
  { intros [[He| ->] ->]; [split; [by left|by apply Hbad, error_noslot]|split; [by right; left|by apply Hbad]]. }
  intros [[F1 F2 _ _ F5] _]. rewrite F2. destruct (is_error_noslot_pfn (l_pfn l)) eqn:He; cbn [orb].
  - split; [left; by apply F5|by apply Hbad].
  - destruct (F1 eq_refl) as [Hh Hp]. split; [right; right; split; [done|]; by exists s|]. intros p. unfold part, counted_pfn. rewrite He, Hmmio. cbn [negb andb].
    destruct (mmio_pfn mm (l_pfn l)); [done|]. cbn. by destruct (l_pfn l =? p).
Qed.

(** The slots lead to the same addresses after a step of the page tables. *)
Lemma remapped_like k k' gfn : slots_like k k' -> remapped_gfn mm k' gfn -> remapped_gfn mm k gfn.
Proof using.
  intros Hl (s & Es & Hr). pose proof (sk_search _ _ Hl gfn) as Hss. rewrite Es in Hss. unfold remapped_gfn. destruct (search_memslots k gfn) as [s0|]; [|done].
  exists s0. split; [done|]. destruct Hss as (A1 & A2 & A3 & A4 & A5). unfold __gfn_to_hva_memslot in *. congruence.
Qed.

(** The frame in hand, with its reference taken. *)
Lemma pin_run v l x : sound m has v x -> exists k, tell (Taken <$> pinned l) x = Ok (tt, set_core k x) /\ told_only (core x) k /\ sound m has v (set_core k x) /\
  forall p, bal p (set_core k x) = bal p x + held p (Taken <$> pinned l).
Proof using.
  intros Hs. pose proof Hs as [[[ls Hr] _ _ _ _ _] _]. eexists. split; [done|]. split; [done|]. split; [|intros p; by apply (tell_bal _ p x tt)].
  destruct (told_ok m x ls _ Hr (conj eq_refl (conj eq_refl (conj eq_refl (conj eq_refl eq_refl))) : told_only (core x) (Kvm (slots (core x)) (heads (core x)) (lists (core x)) (spt_mem (core x)) (pages (core x)) (told (core x) ++ (Taken <$> pinned l)) (flushes (core x)) (lpages (core x)) (tlbs_dirty (core x))))) as (Hr1 & Hp1 & Hw1 & _).
  apply (sound_progress m has v 0 0 (fun _ => True) _ x _ ls ls Hr Hs Hp1 (rd_settled _ _ _ Hr1) Hw1); [done|cbn; apply Hs].
Qed.

End path.


(** The memory of the small machine's process: an ordinary page, and a page of
    a device's registers. *)
Definition small_pages (a : Z) : option Z := if a =? 0x7f0000000000 then Some 5 else None.
Definition small_gup (a : Z) : Z + Z := match small_pages a with Some p => inl p | None => inr (- EFAULT) end.
Definition small_mm : host_mm :=
  Mm small_pages (fun a _ => small_gup a) (fun a _ => small_gup a) (fun _ => false)
    (fun a => if a =? 0x7f0000001000 then Some (Vma 0x7f0000001000 6 true true true) else None) (fun p => p =? 6).
Definition device_env : env :=
  Env (vma_pagesize small_env) 1 (mt_mask small_env) true (fun p => p =? 6) (fun _ => false) (fun _ _ => []) (DirectMap.try_async_pf small_env).

Lemma small_mm_ok : mm_ok small_mm small_table (fun _ => true).
Proof.
  assert (H : forall a p, small_pages a = Some p -> small_table a = Some p /\ true = true /\ 0 <= p < 2 ^ 40 /\ (p =? 6) = false)
    by (intros a p; unfold small_pages, small_table; case_match; [|done]; intros [= <-]; split_and!; [done|done|lia|lia|done]).
  assert (H2 : forall a p, small_gup a = inl p -> small_pages a = Some p) by (intros a p; unfold small_gup; destruct (small_pages a); by intros [= ->]).
  split; cbn.
  - exact H.
  - intros a w p E%H2%H. naive_solver.
  - intros a w p E%H2%H. naive_solver.
  - intros a vma. destruct (Z.eqb_spec a 0x7f0000001000) as [->|]; intros [= <-] _. cbn. split_and!; [lia|lia|lia|lia|reflexivity|vm_compute; reflexivity].
Qed.

Lemma device_host_ok : host_ok device_env small_host.
Proof. destruct small_host_ok as [[[H1 H2] H3 H4] H5 H6]. split; [split; [split; [exact H1|exact H2]|exact H3|by intros]|exact H5|exact H6]. Qed.

Lemma small_not_remapped gfn : ~ remapped_gfn small_mm small_slots gfn.
Proof.
  intros (s & [-> [->| ->]]%small_search & vma & Ev & _ & Hf); vm_compute in Ev; [discriminate Ev|]. injection Ev as <-. vm_compute in Hf. discriminate Hf.
Qed.

