(* ===== verification/Paging.v ===== *)
(** * Paging modes of the guest (kvm-kmod x86/mmu.c, x86/mmu.h, x86/paging_tmpl.h)

    The walker of the guest's page tables asks three tables that are made
    when the guest changes its mode: which error codes fault for which
    permissions, which bits of an entry are reserved, and which entries end
    the walk.  They are compared with the rules of the architecture. *)

From S2P Require Import Prelude MemSlots Spte Rmap ShadowPages DirectMap.

(** ** Entry formats *)

(** [PTTYPE] *)
Inductive pttype := PT_64 | PT_32 | PT_EPT.

Definition pte_size (t : pttype) : Z := match t with PT_32 => 4 | _ => 8 end.
Definition PT_LEVEL_BITS (t : pttype) : Z := match t with PT_32 => 10 | _ => 9 end.
Definition PT_MAX_FULL_LEVELS (t : pttype) : nat := match t with PT_32 => 2 | _ => 4 end.
Definition PT_GUEST_ACCESSED_MASK (t : pttype) : Z := match t with PT_EPT => 0 | _ => Z.shiftl 1 5 end.
Definition PT_GUEST_DIRTY_MASK (t : pttype) : Z := match t with PT_EPT => 0 | _ => Z.shiftl 1 6 end.
Definition PT_GUEST_DIRTY_SHIFT : Z := 6.
Definition PT_GUEST_ACCESSED_SHIFT : Z := 5.
Definition PT_WRITABLE_SHIFT : Z := 1.

Definition PAGE_MASK : Z := u64 (Z.lnot (PAGE_SIZE - 1)).

Definition PT_BASE_ADDR_MASK (t : pttype) : Z := match t with PT_32 => PAGE_MASK | _ => PT64_BASE_ADDR_MASK end.

(** The bytes a level maps, less one. *)
Definition level_ones (t : pttype) (level : Z) : Z := Z.shiftl 1 (PAGE_SHIFT + (level - 1) * PT_LEVEL_BITS t) - 1.

Definition PT_LVL_ADDR_MASK (t : pttype) (level : Z) : Z := Z.ldiff (PT_BASE_ADDR_MASK t) (level_ones t level).
Definition PT_LVL_OFFSET_MASK (t : pttype) (level : Z) : Z := Z.land (PT_BASE_ADDR_MASK t) (level_ones t level).
Definition PT_INDEX (t : pttype) (address level : Z) : Z :=
  Z.land (Z.shiftr address (PAGE_SHIFT + (level - 1) * PT_LEVEL_BITS t)) (Z.shiftl 1 (PT_LEVEL_BITS t) - 1).

Definition gpte_to_gfn_lvl (t : pttype) (gpte lvl : Z) : Z := Z.shiftr (Z.land gpte (PT_LVL_ADDR_MASK t lvl)) PAGE_SHIFT.
Definition gpte_to_gfn (t : pttype) (gpte : Z) : Z := gpte_to_gfn_lvl t gpte PT_PAGE_TABLE_LEVEL.

Definition PT32_DIR_PSE36_SIZE : Z := 4.
Definition PT32_DIR_PSE36_SHIFT : Z := 13.
Definition PT32_DIR_PSE36_MASK : Z := Z.shiftl (Z.shiftl 1 PT32_DIR_PSE36_SIZE - 1) PT32_DIR_PSE36_SHIFT.
Definition is_cpuid_PSE36 : bool := true.

Definition pse36_gfn_delta (gpte : Z) : Z :=
  let shift := 32 - PT32_DIR_PSE36_SHIFT - PAGE_SHIFT in Z.shiftl (Z.land gpte PT32_DIR_PSE36_MASK) shift.

(** [FNAME(is_present_gpte)] *)
Definition pte_present (t : pttype) (pte : Z) : bool := match t with PT_EPT => any pte 7 | _ => any pte PT_PRESENT_MASK end.

Definition VMX_EPT_WRITABLE_MASK : Z := 2.
Definition PT64_NX_SHIFT : Z := 63.

Definition gpte_access (t : pttype) (gpte : Z) : Z :=
  match t with
  | PT_EPT =>
      Z.lor (Z.lor (if any gpte VMX_EPT_WRITABLE_MASK then ACC_WRITE_MASK else 0)
                   (if any gpte VMX_EPT_EXECUTABLE_MASK then ACC_EXEC_MASK else 0)) ACC_USER_MASK
  | _ => Z.ldiff (Z.lor (Z.land gpte (Z.lor PT_WRITABLE_MASK PT_USER_MASK)) ACC_EXEC_MASK) (Z.shiftr gpte PT64_NX_SHIFT)
  end.

Definition protect_clean_gpte (t : pttype) (access gpte : Z) : Z :=
  if PT_GUEST_DIRTY_MASK t =? 0 then access
  else
    let mask := Z.ldiff (2 ^ 32 - 1) ACC_WRITE_MASK in
    let mask := Z.lor mask (Z.land (Z.shiftr (u32 gpte) (PT_GUEST_DIRTY_SHIFT - PT_WRITABLE_SHIFT)) PT_WRITABLE_MASK) in
    Z.land access mask.

(** ** The mode *)

(** What the processor says of its mode. *)
Record cpu := Cpu {
  is_nx : bool; is_pse : bool; is_write_protection : bool; cr4_smep : bool; cr4_smap : bool;
  cpuid_maxphyaddr : Z; guest_cpuid_has_gbpages : bool; get_cpl : Z; get_rflags : Z
}.

(** The part of [struct kvm_mmu] the walker uses. *)
Record guest_mmu := GuestMmu {
  g_root_level : Z; g_nx : bool; permissions : list Z; rsvd_bits_mask : list (list Z); bad_mt_xwr : Z; last_pte_bitmap : Z
}.

Definition rsvd_bits (s e : Z) : Z := u64 (Z.shiftl (Z.shiftl 1 (e - s + 1) - 1) s).

Definition mask_at (mmu : guest_mmu) (bit7 i : nat) : Z := default 0 (default [] (rsvd_bits_mask mmu !! bit7) !! i).
Definition set_mask (bit7 i : nat) (v : Z) (mmu : guest_mmu) : guest_mmu :=
  GuestMmu (g_root_level mmu) (g_nx mmu) (permissions mmu) (alter (<[i := v]>) bit7 (rsvd_bits_mask mmu)) (bad_mt_xwr mmu) (last_pte_bitmap mmu).
Definition set_bad_mt_xwr (v : Z) (mmu : guest_mmu) : guest_mmu :=
  GuestMmu (g_root_level mmu) (g_nx mmu) (permissions mmu) (rsvd_bits_mask mmu) v (last_pte_bitmap mmu).

Definition PT_PDPE_LEVEL : Z := 3.

Definition reset_rsvds_bits_mask (c : cpu) (context : guest_mmu) : guest_mmu :=
  let maxphyaddr := cpuid_maxphyaddr c in
  let context := set_bad_mt_xwr 0 context in
  let exb_bit_rsvd := if negb (g_nx context) then rsvd_bits 63 63 else 0 in
  let gbpages_bit_rsvd := if negb (guest_cpuid_has_gbpages c) then rsvd_bits 7 7 else 0 in
  if g_root_level context =? PT32_ROOT_LEVEL then
    let context := set_mask 0 1 0 context in
    let context := set_mask 0 0 0 context in
    let context := set_mask 1 0 (mask_at context 0 0) context in
    if negb (is_pse c) then set_mask 1 1 0 context
    else if is_cpuid_PSE36 then set_mask 1 1 (rsvd_bits 17 21) context
    else set_mask 1 1 (rsvd_bits 13 21) context
  else if g_root_level context =? PT32E_ROOT_LEVEL then
    let context := set_mask 0 2 (Z.lor (Z.lor (rsvd_bits maxphyaddr 63) (rsvd_bits 5 8)) (rsvd_bits 1 2)) context in
    let context := set_mask 0 1 (Z.lor exb_bit_rsvd (rsvd_bits maxphyaddr 62)) context in
    let context := set_mask 0 0 (Z.lor exb_bit_rsvd (rsvd_bits maxphyaddr 62)) context in
    let context := set_mask 1 1 (Z.lor (Z.lor exb_bit_rsvd (rsvd_bits maxphyaddr 62)) (rsvd_bits 13 20)) context in
    set_mask 1 0 (mask_at context 0 0) context
  else if g_root_level context =? PT64_ROOT_LEVEL then
    let context := set_mask 0 3 (Z.lor (Z.lor exb_bit_rsvd (rsvd_bits maxphyaddr 51)) (rsvd_bits 7 7)) context in
    let context := set_mask 0 2 (Z.lor (Z.lor exb_bit_rsvd gbpages_bit_rsvd) (rsvd_bits maxphyaddr 51)) context in
    let context := set_mask 0 1 (Z.lor exb_bit_rsvd (rsvd_bits maxphyaddr 51)) context in
    let context := set_mask 0 0 (Z.lor exb_bit_rsvd (rsvd_bits maxphyaddr 51)) context in
    let context := set_mask 1 3 (mask_at context 0 3) context in
    let context := set_mask 1 2 (Z.lor (Z.lor (Z.lor exb_bit_rsvd gbpages_bit_rsvd) (rsvd_bits maxphyaddr 51)) (rsvd_bits 13 29)) context in
    let context := set_mask 1 1 (Z.lor (Z.lor exb_bit_rsvd (rsvd_bits maxphyaddr 51)) (rsvd_bits 13 20)) context in
    set_mask 1 0 (mask_at context 0 0) context
  else context.

(** [for (pte = 0; pte < 64; pte++)] *)
Fixpoint bad_loop (n : nat) (execonly : bool) (bad : Z) : Z :=
  match n with
  | O => bad
  | S k =>
      let bad := bad_loop k execonly bad in
      let pte := Z.of_nat k in
      let rwx_bits := Z.land pte 7 in
      let mt := Z.shiftr pte 3 in
      if (mt =? 2) || (mt =? 3) || (mt =? 7) || (rwx_bits =? 2) || (rwx_bits =? 6) || ((rwx_bits =? 4) && negb execonly)
      then Z.lor bad (Z.shiftl 1 pte) else bad
  end.

Definition reset_rsvds_bits_mask_ept (c : cpu) (execonly : bool) (context : guest_mmu) : guest_mmu :=
  let maxphyaddr := cpuid_maxphyaddr c in
  let context := set_mask 0 3 (Z.lor (rsvd_bits maxphyaddr 51) (rsvd_bits 3 7)) context in
  let context := set_mask 0 2 (Z.lor (rsvd_bits maxphyaddr 51) (rsvd_bits 3 6)) context in
  let context := set_mask 0 1 (Z.lor (rsvd_bits maxphyaddr 51) (rsvd_bits 3 6)) context in
  let context := set_mask 0 0 (rsvd_bits maxphyaddr 51) context in
  let context := set_mask 1 3 (mask_at context 0 3) context in
  let context := set_mask 1 2 (Z.lor (rsvd_bits maxphyaddr 51) (rsvd_bits 12 29)) context in
  let context := set_mask 1 1 (Z.lor (rsvd_bits maxphyaddr 51) (rsvd_bits 12 20)) context in
  let context := set_mask 1 0 (mask_at context 0 0) context in
  set_bad_mt_xwr (bad_loop 64 execonly (bad_mt_xwr context)) context.

(** [FNAME(is_rsvd_bits_set)]; [1ull << low6] is within 64 bits *)
Definition is_rsvd_bits_set (mmu : guest_mmu) (gpte level : Z) : bool :=
  let bit7 := Z.land (Z.shiftr gpte 7) 1 in
  let low6 := Z.land gpte 0x3f in
  any gpte (mask_at mmu (Z.to_nat bit7) (Z.to_nat (level - 1))) || any (bad_mt_xwr mmu) (Z.shiftl 1 low6).

(** *** Permissions *)

Definition PFERR_USER_MASK : Z := 4.
Definition PFERR_FETCH_MASK : Z := 16.

(** The bit for one set of permissions under the error code [pfec]. *)
Definition permission_bit (c : cpu) (nx ept : bool) (pfec bit : Z) : bool :=
  let wf := any pfec PFERR_WRITE_MASK in
  let uf := any pfec PFERR_USER_MASK in
  let ff := any pfec PFERR_FETCH_MASK in
  let smapf := negb (any pfec PFERR_RSVD_MASK) in
  let x := any bit ACC_EXEC_MASK in
  let w := any bit ACC_WRITE_MASK in
  let u := any bit ACC_USER_MASK in
  let '(x, w, u, smap) :=
    if negb ept then
      let x := x || negb nx in
      let w := w || (negb (is_write_protection c) && negb uf) in
      let x := x && negb (cr4_smep c && u && negb uf) in
      (x, w, u, cr4_smap c && u && negb uf && negb ff)
    else (x, w, true, false) in
  (ff && negb x) || (uf && negb u) || (wf && negb w) || (smapf && smap).

Fixpoint permission_map (n : nat) (c : cpu) (nx ept : bool) (pfec : Z) : Z :=
  match n with
  | O => 0
  | S k => Z.lor (permission_map k c nx ept pfec) (Z.shiftl (Z.b2z (permission_bit c nx ept pfec (Z.of_nat k))) (Z.of_nat k))
  end.

Definition update_permission_bitmask (c : cpu) (ept : bool) (mmu : guest_mmu) : guest_mmu :=
  GuestMmu (g_root_level mmu) (g_nx mmu) ((fun byte => permission_map 8 c (g_nx mmu) ept (Z.shiftl byte 1)) <$> seqZ 0 16)
    (rsvd_bits_mask mmu) (bad_mt_xwr mmu) (last_pte_bitmap mmu).

Definition X86_EFLAGS_AC_BIT : Z := 18.
Definition PFERR_RSVD_BIT : Z := 3.

Definition permission_fault (c : cpu) (mmu : guest_mmu) (pte_access pfec : Z) : res bool :=
  let smap := Z.land (u64 (get_cpl c - 3)) (Z.land (get_rflags c) (Z.shiftl 1 X86_EFLAGS_AC_BIT)) in
  let index := Z.shiftr pfec 1 + Z.shiftr smap (X86_EFLAGS_AC_BIT - PFERR_RSVD_BIT + 1) in
  match permissions mmu !! Z.to_nat index with
  | None => Err BufferOverflow
  | Some map => Ok (negb (Z.land (Z.shiftr map pte_access) 1 =? 0))
  end.

(** *** The end of the walk *)

Fixpoint last_loop (n : nat) (c : cpu) (root_level level map : Z) : Z :=
  match n with
  | O => map
  | S n =>
      let map := if (level <=? PT_PDPE_LEVEL) && ((PT32E_ROOT_LEVEL <=? root_level) || is_pse c)
                 then Z.lor map (Z.shiftl 1 (Z.lor 4 (level - 1))) else map in
      last_loop n c root_level (level + 1) map
  end.

Definition update_last_pte_bitmap (c : cpu) (mmu : guest_mmu) : guest_mmu :=
  let root_level := if g_root_level mmu =? PT32E_ROOT_LEVEL then g_root_level mmu - 1 else g_root_level mmu in
  let map := Z.lor 1 (Z.shiftl 1 4) in
  GuestMmu (g_root_level mmu) (g_nx mmu) (permissions mmu) (rsvd_bits_mask mmu) (bad_mt_xwr mmu)
    (last_loop (Z.to_nat (root_level - 1)) c (g_root_level mmu) PT_DIRECTORY_LEVEL map).

Definition PT_PAGE_SIZE_SHIFT : Z := 7.

Definition is_last_gpte (mmu : guest_mmu) (level gpte : Z) : bool :=
  let index := Z.lor (level - 1) (Z.shiftr (Z.land gpte PT_PAGE_SIZE_MASK) (PT_PAGE_SIZE_SHIFT - 2)) in
  any (last_pte_bitmap mmu) (Z.shiftl 1 index).

(** *** Changes of the mode *)

Definition with_mode (root_level : Z) (nx : bool) (mmu : guest_mmu) : guest_mmu :=
  GuestMmu root_level nx (permissions mmu) (rsvd_bits_mask mmu) (bad_mt_xwr mmu) (last_pte_bitmap mmu).

Definition paging64_init_context_common (c : cpu) (level : Z) (mmu : guest_mmu) : guest_mmu :=
  update_last_pte_bitmap c (update_permission_bitmask c false (reset_rsvds_bits_mask c (with_mode level (is_nx c) mmu))).
Definition paging64_init_context (c : cpu) : guest_mmu -> guest_mmu := paging64_init_context_common c PT64_ROOT_LEVEL.
Definition paging32E_init_context (c : cpu) : guest_mmu -> guest_mmu := paging64_init_context_common c PT32E_ROOT_LEVEL.
Definition paging32_init_context (c : cpu) (mmu : guest_mmu) : guest_mmu :=
  update_last_pte_bitmap c (update_permission_bitmask c false (reset_rsvds_bits_mask c (with_mode PT32_ROOT_LEVEL false mmu))).

(** ** The rules of the architecture *)

Section rules.
  Context (c : cpu) (nx : bool) (root : Z).

(** Whether EFLAGS.AC suspends SMAP. *)
Definition smap_off : bool := (get_cpl c <? 3) && Z.testbit (get_rflags c) X86_EFLAGS_AC_BIT.

(** Whether an access is denied to a page with the permissions [acc], of
    which the first bit forbids nothing when execution is not controlled;
    [off] says whether SMAP is suspended. *)
Definition denied (off : bool) (acc : Z) (write user fetch : bool) : bool :=
  let x := Z.testbit acc 0 || negb nx in
  let w := Z.testbit acc 1 in
  let u := Z.testbit acc 2 in
  if user then negb u || (write && negb w) || (fetch && negb x)
  else (write && negb w && is_write_protection c) || (fetch && (negb x || (cr4_smep c && u))) || (negb fetch && cr4_smap c && u && negb off).

(** The bits that must be zero in an entry of a level; [ps] is its bit 7. *)
Definition reserved_bit (level : Z) (ps : bool) (i : Z) : bool :=
  let within a b := (a <=? i) && (i <=? b) in
  if root =? 4 then
    (negb nx && (i =? 63)) || within (cpuid_maxphyaddr c) 51 || ((level =? 4) && (i =? 7)) || ((level =? 3) && negb (guest_cpuid_has_gbpages c) && (i =? 7)) ||
    (ps && (((level =? 3) && within 13 29) || ((level =? 2) && within 13 20)))
  else if root =? 3 then (negb nx && (i =? 63)) || within (cpuid_maxphyaddr c) 62 || (ps && (level =? 2) && within 13 20)
  else is_pse c && ps && (level =? 2) && within 17 21.

Definition reserved (level gpte : Z) : bool := existsb (fun i => Z.testbit gpte i && reserved_bit level (Z.testbit gpte 7) i) (seqZ 0 64).

(** Whether an entry maps a page. *)
Definition maps_page (level gpte : Z) : bool := (level =? 1) || (Z.testbit gpte 7 && (level <=? 3) && ((3 <=? root) || is_pse c)).

End rules.

Lemma land_bit x i : 0 <= i -> Z.land x (Z.shiftl 1 i) = if Z.testbit x i then 2 ^ i else 0.
Proof.
  intros Hi. rewrite Z.shiftl_1_l. apply Z.bits_inj'. intros j Hj. rewrite Z.land_spec, Z.pow2_bits_eqb by lia.
  destruct (Z.eqb_spec i j) as [<-|]; [rewrite andb_true_r|rewrite andb_false_r]; destruct (Z.testbit x i); rewrite ?Z.pow2_bits_true, ?Z.bits_0 by lia; try done. by rewrite Z.pow2_bits_false by lia.
Qed.

(** *** The end of the walk *)

Lemma last_gpte_rule c mmu level gpte : 2 <= g_root_level mmu <= 4 -> 1 <= level <= g_root_level mmu -> (g_root_level mmu = 3 -> level <= 2) ->
  is_last_gpte (update_last_pte_bitmap c mmu) level gpte = maps_page c (g_root_level mmu) level gpte.
Proof.
  intros Hr Hl H3. unfold is_last_gpte, maps_page. change PT_PAGE_SIZE_MASK with (Z.shiftl 1 7). rewrite land_bit by done.
  replace (Z.shiftr (if Z.testbit gpte 7 then 2 ^ 7 else 0) (PT_PAGE_SIZE_SHIFT - 2)) with (if Z.testbit gpte 7 then 4 else 0) by by destruct (Z.testbit gpte 7).
  unfold update_last_pte_bitmap. cbn [last_pte_bitmap]. generalize (Z.testbit gpte 7) as ps. intros ps. destruct mmu as [r nx p rs b l]. cbn [g_root_level] in *. destruct c as [c1 pse c3 c4 c5 c6 c7 c8 c9].
  unfold last_loop. cbn [is_pse].
  assert (r = 2 \/ r = 3 \/ r = 4) as [->|[->| ->]] by lia; (assert (level = 1 \/ level = 2 \/ level = 3 \/ level = 4) as [->|[->|[->| ->]]] by lia); try lia; destruct ps, pse; vm_compute; reflexivity.
Qed.

(** *** Reserved bits *)

Lemma rsvd_bits_spec s e i : 0 <= s -> s <= e + 1 -> e <= 63 -> 0 <= i -> Z.testbit (rsvd_bits s e) i = (s <=? i) && (i <=? e).
Proof.
  intros Hs He H63 Hi. unfold rsvd_bits. rewrite Z.shiftl_1_l. replace (2 ^ (e - s + 1) - 1) with (Z.ones (e - s + 1)) by (rewrite Z.ones_equiv; lia).
  unfold u64. rewrite <- (Z.land_ones _ 64), Z.land_spec, Z.shiftl_spec, (Z.testbit_ones_nonneg 64) by lia. destruct (Z.leb_spec s i).
  - rewrite Z.testbit_ones_nonneg by lia. destruct (Z.leb_spec i e), (Z.ltb_spec i 64), (Z.ltb_spec (i - s) (e - s + 1)); try lia; done.
  - by rewrite Z.testbit_neg_r by lia.
Qed.

Lemma any_exists x y f : (forall i, 0 <= i -> Z.testbit y i = f i) -> (forall i, 64 <= i -> f i = false) ->
  any x y = existsb (fun i => Z.testbit x i && f i) (seqZ 0 64).
Proof.
  intros Hy Hf. apply eq_true_iff_eq. rewrite any_spec, existsb_exists. split.
  - intros H. destruct (decide (Exists (fun i => Z.testbit x i && f i = true) (seqZ 0 64))) as [He|He]; [apply Exists_exists in He as (i & Hi & Hb); exists i; by rewrite <- list_elem_of_In|].
    exfalso. apply H, Z.bits_inj'. intros i Hi. rewrite Z.land_spec, Z.bits_0, Hy by done. destruct (Z.lt_ge_cases i 64) as [Hlt|Hge]; [|by rewrite Hf, andb_false_r].
    apply not_true_iff_false. intros Hb. apply He, Exists_exists. exists i. split; [apply elem_of_seqZ; lia|done].
  - intros (i & Hi & Hb) H. apply list_elem_of_In, elem_of_seqZ in Hi. rewrite <- Hy, <- Z.land_spec, H, Z.bits_0 in Hb by lia. done.
Qed.

(** The matrix of masks has its size. *)
Definition shaped (mmu : guest_mmu) : Prop := exists a b c d e f g h, rsvd_bits_mask mmu = [[a; b; c; d]; [e; f; g; h]].

(** The matrix for each depth of the tables. *)
Definition matrix (c : cpu) (nx : bool) (root m2 m3 m6 m7 : Z) : list (list Z) :=
  let max := cpuid_maxphyaddr c in
  let exb := if negb nx then rsvd_bits 63 63 else 0 in
  let gb := if negb (guest_cpuid_has_gbpages c) then rsvd_bits 7 7 else 0 in
  if root =? 2 then [[0; 0; m2; m3]; [0; if negb (is_pse c) then 0 else rsvd_bits 17 21; m6; m7]]
  else if root =? 3 then
    let low := Z.lor exb (rsvd_bits max 62) in
    [[low; low; Z.lor (Z.lor (rsvd_bits max 63) (rsvd_bits 5 8)) (rsvd_bits 1 2); m3]; [low; Z.lor low (rsvd_bits 13 20); m6; m7]]
  else
    let low := Z.lor exb (rsvd_bits max 51) in
    let big := Z.lor (Z.lor exb gb) (rsvd_bits max 51) in
    let top := Z.lor low (rsvd_bits 7 7) in
    [[low; low; big; top]; [low; Z.lor low (rsvd_bits 13 20); Z.lor big (rsvd_bits 13 29); top]].

Lemma matrix_eq c mmu : shaped mmu -> 2 <= g_root_level mmu <= 4 ->
  exists m2 m3 m6 m7, rsvd_bits_mask (reset_rsvds_bits_mask c mmu) = matrix c (g_nx mmu) (g_root_level mmu) m2 m3 m6 m7 /\ bad_mt_xwr (reset_rsvds_bits_mask c mmu) = 0.
Proof.
  intros (m0 & m1 & m2 & m3 & m4 & m5 & m6 & m7 & Em) Hr. destruct mmu as [r nx p rs b l]. cbn [g_root_level g_nx rsvd_bits_mask] in *. subst rs. exists m2, m3, m6, m7.
  assert (r = 2 \/ r = 3 \/ r = 4) as [->|[->| ->]] by lia; unfold reset_rsvds_bits_mask, matrix; cbn [g_root_level set_bad_mt_xwr g_nx]; destruct (is_pse c); done.
Qed.

Lemma rsvd_rule c mmu level gpte : shaped mmu -> 32 <= cpuid_maxphyaddr c <= 52 -> 2 <= g_root_level mmu <= 4 -> 1 <= level <= g_root_level mmu -> (g_root_level mmu = 3 -> level <= 2) ->
  is_rsvd_bits_set (reset_rsvds_bits_mask c mmu) gpte level = reserved c (g_nx mmu) (g_root_level mmu) level gpte.
Proof.
  intros Hsh Hmax Hr Hl H3. destruct (matrix_eq c mmu Hsh Hr) as (m2 & m3 & m6 & m7 & Em & Hb). unfold is_rsvd_bits_set, mask_at, reserved. rewrite Em, Hb.
  replace (Z.land (Z.shiftr gpte 7) 1) with (Z.b2z (Z.testbit gpte 7)) by (rewrite (Z.land_ones _ 1), <- Z.bit0_mod, Z.shiftr_spec by lia; done).
  replace (any 0 _) with false by (unfold any; by rewrite Z.land_0_l). rewrite orb_false_r. generalize (Z.testbit gpte 7) as ps. intros ps. generalize (g_nx mmu) as nx. intros nx.
  clear Em Hb. set (r := g_root_level mmu) in *. clearbody r.
  assert (Hcase : r = 2 /\ (level = 1 \/ level = 2) \/ r = 3 /\ (level = 1 \/ level = 2) \/ r = 4 /\ (level = 1 \/ level = 2 \/ level = 3 \/ level = 4)) by lia.
  apply any_exists; intros i Hi.
  - destruct Hcase as [[-> [->| ->]]|[[-> [->| ->]]|[-> [->|[->|[->| ->]]]]]]; destruct ps; unfold matrix, reserved_bit;
      (match goal with |- Z.testbit (default 0 (default [] (_ !! ?a) !! ?b)) _ = _ => let x := eval vm_compute in a in let y := eval vm_compute in b in change a with x; change b with y end);
      cbn [Z.eqb Pos.eqb andb orb]; destruct nx, (guest_cpuid_has_gbpages c), (is_pse c); do 2 cbn [negb andb orb lookup list_lookup default from_option Datatypes.id];
      rewrite ?Z.lor_spec, ?rsvd_bits_spec, ?Z.bits_0 by lia; lia.
  - unfold reserved_bit. destruct Hcase as [[-> _]|[[-> _]|[-> _]]]; cbn [Z.eqb Pos.eqb]; lia.
Qed.

(** *** Permissions *)

(** The flag that suspends SMAP takes the place of the reserved bit. *)
Lemma smap_index c : 0 <= get_cpl c <= 3 ->
  Z.shiftr (Z.land (u64 (get_cpl c - 3)) (Z.land (get_rflags c) (Z.shiftl 1 X86_EFLAGS_AC_BIT))) (X86_EFLAGS_AC_BIT - PFERR_RSVD_BIT + 1) = if smap_off c then 4 else 0.
Proof.
  intros Hc. unfold smap_off. rewrite land_bit by done. destruct (Z.testbit (get_rflags c) X86_EFLAGS_AC_BIT); [|by rewrite Z.land_0_r, andb_false_r].
  assert (get_cpl c = 0 \/ get_cpl c = 1 \/ get_cpl c = 2 \/ get_cpl c = 3) as [->|[->|[->| ->]]] by lia; vm_compute; reflexivity.
Qed.

(** The table and the rules side by side. *)
Definition agree (c : cpu) (nx off : bool) : bool :=
  forallb (fun pfec => any pfec PFERR_RSVD_MASK ||
    match ((fun byte => permission_map 8 c nx false (Z.shiftl byte 1)) <$> seqZ 0 16) !! Z.to_nat (Z.shiftr pfec 1 + (if off then 4 else 0)) with
    | None => false
    | Some map => forallb (fun acc => Bool.eqb (negb (Z.land (Z.shiftr map acc) 1 =? 0))
        (denied c nx off acc (any pfec PFERR_WRITE_MASK) (any pfec PFERR_USER_MASK) (any pfec PFERR_FETCH_MASK))) (seqZ 0 8)
    end) (seqZ 0 32).

Lemma tables_agree c nx off : agree c nx off = true.
Proof. destruct c as [c1 c2 [] [] [] c6 c7 c8 c9], nx, off; vm_compute; reflexivity. Qed.

(** The table answers by the rules. *)
Lemma permission_rule c mmu acc pfec : 0 <= get_cpl c <= 3 -> 0 <= acc < 8 -> 0 <= pfec < 32 -> any pfec PFERR_RSVD_MASK = false ->
  permission_fault c (update_permission_bitmask c false mmu) acc pfec =
  Ok (denied c (g_nx mmu) (smap_off c) acc (any pfec PFERR_WRITE_MASK) (any pfec PFERR_USER_MASK) (any pfec PFERR_FETCH_MASK)).
Proof.
  intros Hc Ha Hp Hr. unfold permission_fault. rewrite smap_index by done. pose proof (tables_agree c (g_nx mmu) (smap_off c)) as H. unfold agree in H. rewrite forallb_forall in H.
  assert (Hin : forall a n, 0 <= a < n -> In a (seqZ 0 n)) by (intros a n Han; apply list_elem_of_In, elem_of_seqZ; lia). specialize (H pfec (Hin _ _ Hp)). rewrite Hr in H. cbn [orb] in H. unfold update_permission_bitmask. cbn [permissions].
  destruct (_ !! Z.to_nat _) as [map|]; [|done]. rewrite forallb_forall in H. specialize (H acc (Hin _ _ Ha)).
  apply eqb_prop in H. by rewrite H.
Qed.

(** C6: The table of permissions answers by the rules of the architecture:
    for every mode, every error code without the reserved bit and every set
    of permissions, an access faults exactly when it is denied, with write
    protection of the supervisor, execution control, SMEP and SMAP. *)
Theorem permission_fault_arch c mmu acc pfec : 0 <= get_cpl c <= 3 -> 0 <= acc < 8 -> 0 <= pfec < 32 -> any pfec PFERR_RSVD_MASK = false ->
  permission_fault c (update_permission_bitmask c false mmu) acc pfec =
  Ok (denied c (g_nx mmu) (smap_off c) acc (any pfec PFERR_WRITE_MASK) (any pfec PFERR_USER_MASK) (any pfec PFERR_FETCH_MASK)).
Proof. exact (permission_rule c mmu acc pfec). Qed.

(** A processor with write protection, SMEP and SMAP in ring 0, at a write
    to a user's page with the flag clear. *)
Definition demo_cpu : cpu := Cpu true true true true true 40 true 0 2.

Lemma permission_fault_arch_witness :
  permission_fault demo_cpu (update_permission_bitmask demo_cpu false (GuestMmu 4 true [] [[0; 0; 0; 0]; [0; 0; 0; 0]] 0 0)) 7 PFERR_WRITE_MASK = Ok true.
Proof. rewrite permission_fault_arch; [vm_compute; reflexivity|cbn; lia|lia|vm_compute; split; [discriminate|reflexivity]|vm_compute; reflexivity]. Defined.

(** An error code with the reserved bit, as the shadow fault handler passes
    it on, is taken for a fetch when the flag suspends SMAP: the sum carries
    into the next bit. *)
Lemma reserved_taken_for_fetch :
  let c := Cpu true true true true true 40 true 0 (2 ^ 18) in
  permission_fault c (update_permission_bitmask c false (GuestMmu 4 true [] [[0; 0; 0; 0]; [0; 0; 0; 0]] 0 0)) 2 (Z.lor PFERR_WRITE_MASK PFERR_RSVD_MASK) = Ok true /\
  denied c true (smap_off c) 2 true false false = false.
Proof. split; vm_compute; reflexivity. Qed.
