(* ===== verification/GuestWalk.v ===== *)
(** * The walker of the guest's page tables (kvm-kmod x86/paging_tmpl.h)

    [walk_addr_generic] reads the entries on the path of an address through
    the slots, checks them as the processor would, and sets their accessed
    and dirty bits with an exchange; when an entry is no longer what it was,
    the walk starts again.  It is compared with the processor's walk on the
    memory as it was at the start.  The [ASSERT] of the file is empty in the
    build. *)

From coqutil Require Import Byte Word.LittleEndianList.
From S2P Require Import Prelude MemSlots GuestCopy Spte Rmap ShadowPages DirectMap Paging.

(** ** State *)

Record x86_exception := Exception { vector : Z; error_code_valid : bool; error_code : Z; address : Z; nested_page_fault : bool }.

(** The arrays are indexed by the level less one. *)
Record guest_walker := Walker {
  level : Z; max_level : Z; table_gfn : list Z; ptes : list Z; prefetch_ptes : list Z; pte_gpa : list Z; ptep_user : list Z; pte_writable : list bool;
  pt_access : Z; pte_access : Z; gfn : Z; fault : x86_exception
}.

Definition no_fault : x86_exception := Exception 0 false 0 0 false.

(** A walker on the stack, with nothing of interest in it. *)
Definition new_walker (t : pttype) : guest_walker :=
  let n := PT_MAX_FULL_LEVELS t in
  Walker 0 0 (replicate n 0) (replicate n 0) (replicate (Z.to_nat PTE_PREFETCH_NUM) 0) (replicate n 0) (replicate n 0) (replicate n false) 0 0 0 no_fault.

Definition set_levels (l n : Z) (w : guest_walker) : guest_walker :=
  Walker l n (table_gfn w) (ptes w) (prefetch_ptes w) (pte_gpa w) (ptep_user w) (pte_writable w) (pt_access w) (pte_access w) (gfn w) (fault w).
Definition set_table (t p : list Z) (w : guest_walker) : guest_walker :=
  Walker (level w) (max_level w) t (ptes w) (prefetch_ptes w) p (ptep_user w) (pte_writable w) (pt_access w) (pte_access w) (gfn w) (fault w).
Definition set_user (u : list Z) (b : list bool) (w : guest_walker) : guest_walker :=
  Walker (level w) (max_level w) (table_gfn w) (ptes w) (prefetch_ptes w) (pte_gpa w) u b (pt_access w) (pte_access w) (gfn w) (fault w).
Definition set_ptes (p : list Z) (w : guest_walker) : guest_walker :=
  Walker (level w) (max_level w) (table_gfn w) p (prefetch_ptes w) (pte_gpa w) (ptep_user w) (pte_writable w) (pt_access w) (pte_access w) (gfn w) (fault w).
Definition set_prefetch (p : list Z) (w : guest_walker) : guest_walker :=
  Walker (level w) (max_level w) (table_gfn w) (ptes w) p (pte_gpa w) (ptep_user w) (pte_writable w) (pt_access w) (pte_access w) (gfn w) (fault w).
Definition set_result (a b g : Z) (w : guest_walker) : guest_walker :=
  Walker (level w) (max_level w) (table_gfn w) (ptes w) (prefetch_ptes w) (pte_gpa w) (ptep_user w) (pte_writable w) a b g (fault w).
Definition set_fault (e : x86_exception) (w : guest_walker) : guest_walker :=
  Walker (level w) (max_level w) (table_gfn w) (ptes w) (prefetch_ptes w) (pte_gpa w) (ptep_user w) (pte_writable w) (pt_access w) (pte_access w) (gfn w) e.

(** An array written at an index, and read. *)
Definition put {A} (l : list A) (i : Z) (v : A) : res (list A) :=
  if (0 <=? i) && (i <? Z.of_nat (length l)) then Ok (<[Z.to_nat i := v]> l) else Err BufferOverflow.
Definition at_index {A} (l : list A) (i : Z) : res A :=
  match l !! Z.to_nat i with Some a => if 0 <=? i then Ok a else Err BufferOverflow | None => Err BufferOverflow end.

(** The store to [walker->ptes[level]], which is one cell too far: at the top
    level it is behind the array.  C leaves that undefined; in the layout of
    the structure the cell is the first of [prefetch_ptes]. *)
Definition put_behind (w : guest_walker) (i pte : Z) : res guest_walker :=
  let n := Z.of_nat (length (ptes w)) in
  if i <? n then ps ← put (ptes w) i pte; Ok (set_ptes ps w)
  else qs ← put (prefetch_ptes w) (i - n) pte; Ok (set_prefetch qs w).

(** The memory of the guest: its slots and the process; and what a nested
    guest is told of its fault. *)
Record gmem := Gmem { g_slots : kvm_memslots; g_um : umem; exit_qualification : Z }.

Section walk.
  (** The format of the entries, the mode, the value of CR3 and the PDPTEs,
      the translation of a nested guest's addresses ([None] when there is
      none), whether the walk is for a nested guest, and the pages of the
      process [get_user_pages_fast] finds for writing. *)
  Context (t : pttype) (c : cpu) (mmu : guest_mmu) (cr3 : Z) (pdptr : Z -> Z) (translate_gpa : Z -> Z -> option Z) (nested : bool) (gup : Z -> bool).

Definition load_pte (um : umem) (a : Z) : option Z := le_combine <$> copy_from_user um a (Z.to_nat (pte_size t)).

(** [gfn_to_hva_prot] with its second result *)
Definition hva_prot (k : kvm_memslots) (gfn : Z) : option (Z * bool) :=
  hva ← gfn_to_hva_prot k gfn; slot ← search_memslots k gfn; Some (hva, negb (memslot_is_readonly slot)).

(** ** The accessed and dirty bits *)

(** The result and the memory.  The page that was found is mapped. *)
Definition cmpxchg_gpte (um : umem) (ptep_user index orig_pte new_pte : Z) : res (Z * umem) :=
  if negb (gup ptep_user) then Ok (- EFAULT, um)
  else
    let a := ptep_user - GuestCopy.offset_in_page ptep_user + index * pte_size t in
    match load_pte um a with
    | None => Err BadPointer
    | Some ret =>
        let um := if ret =? orig_pte then (copy_to_user um a (le_split (Z.to_nat (pte_size t)) new_pte)).1 else um in
        Ok (Z.b2z (negb (ret =? orig_pte)), um)
    end.

(** The entry with the bits it gets at level [l]. *)
Definition marked_pte (w : guest_walker) (l : Z) (write_fault : bool) (pte : Z) : Z :=
  let pte := if negb (any pte (PT_GUEST_ACCESSED_MASK t)) then Z.lor pte (PT_GUEST_ACCESSED_MASK t) else pte in
  if (l =? level w) && write_fault && negb (any pte (PT_GUEST_DIRTY_MASK t)) then Z.lor pte (PT_GUEST_DIRTY_MASK t) else pte.

(** [for (level = walker->max_level; level >= walker->level; --level)] *)
Fixpoint update_loop (n : nat) (l : Z) (write_fault : bool) (w : guest_walker) (g : gmem) : res (Z * guest_walker * gmem) :=
  match n with
  | O => Ok (0, w, g)
  | S n =>
      orig_pte ← at_index (ptes w) (l - 1);
      table ← at_index (table_gfn w) (l - 1);
      ptep ← at_index (ptep_user w) (l - 1);
      let index := GuestCopy.offset_in_page ptep / pte_size t in
      let pte := marked_pte w l write_fault orig_pte in
      if pte =? orig_pte then update_loop n (l - 1) write_fault w g
      else
        writable ← at_index (pte_writable w) (l - 1);
        if negb writable then update_loop n (l - 1) write_fault w g
        else
          '(ret, um) ← cmpxchg_gpte (g_um g) ptep index orig_pte pte;
          if negb (ret =? 0) then Ok (ret, w, Gmem (g_slots g) um (exit_qualification g))
          else
            w ← put_behind w l pte;
            update_loop n (l - 1) write_fault w (Gmem (mark_page_dirty (g_slots g) table) um (exit_qualification g))
  end.

Definition update_accessed_dirty_bits (write_fault : bool) (w : guest_walker) (g : gmem) : res (Z * guest_walker * gmem) :=
  if PT_GUEST_DIRTY_MASK t =? 0 then Ok (0, w, g) else update_loop (Z.to_nat (max_level w - level w + 1)) (max_level w) write_fault w g.

(** ** The walk *)

(** How the loop over the levels ends: an error with [errcode], the access of
    the tables above and the entry read last, or the last entry with the
    access and the accessed bits of the path. *)
Inductive descent := Bad (errcode pt_access pte : Z) | Found (pte pt_access pte_access accessed_dirty : Z).

Fixpoint walk_levels (n : nat) (addr : Z) (g : gmem) (w : guest_walker) (pte pt_acc pte_acc accessed_dirty : Z) : res (guest_walker * descent) :=
  match n with
  | O => Err OutOfFuel
  | S n =>
      let pt_acc := Z.land pt_acc pte_acc in
      let w := set_levels (level w - 1) (max_level w) w in
      let index := PT_INDEX t addr (level w) in
      let table := gpte_to_gfn t pte in
      let offset := index * pte_size t in
      let gpa := Z.shiftl table PAGE_SHIFT + offset in
      ts ← put (table_gfn w) (level w - 1) table;
      gs ← put (pte_gpa w) (level w - 1) gpa;
      let w := set_table ts gs w in
      match translate_gpa (Z.shiftl table PAGE_SHIFT) (Z.lor PFERR_USER_MASK PFERR_WRITE_MASK) with
      | None => Ok (w, Bad 0 pt_acc pte)
      | Some real_gpa =>
          match hva_prot (g_slots g) (Z.shiftr real_gpa PAGE_SHIFT) with
          | None => Ok (w, Bad 0 pt_acc pte)
          | Some (host_addr, writable) =>
              bs ← put (pte_writable w) (level w - 1) writable;
              let w := set_user (ptep_user w) bs w in
              let ptep := host_addr + offset in
              match load_pte (g_um g) ptep with
              | None => Ok (w, Bad 0 pt_acc pte)
              | Some pte =>
                  us ← put (ptep_user w) (level w - 1) ptep;
                  let w := set_user us (pte_writable w) w in
                  if negb (pte_present t pte) then Ok (w, Bad 0 pt_acc pte)
                  else if is_rsvd_bits_set mmu pte (level w) then Ok (w, Bad (Z.lor PFERR_RSVD_MASK PFERR_PRESENT_MASK) pt_acc pte)
                  else
                    let accessed_dirty := Z.land accessed_dirty pte in
                    let pte_acc := Z.land pt_acc (gpte_access t pte) in
                    ps ← put (ptes w) (level w - 1) pte;
                    let w := set_ptes ps w in
                    if is_last_gpte mmu (level w) pte then Ok (w, Found pte pt_acc pte_acc accessed_dirty)
                    else walk_levels n addr g w pte pt_acc pte_acc accessed_dirty
              end
          end
      end
  end.

Definition PF_VECTOR : Z := 14.

(** [error:] *)
Definition walk_error (addr access errcode pt_acc pte : Z) (w : guest_walker) (g : gmem) : Z * guest_walker * gmem :=
  let errcode := Z.lor errcode (Z.lor (Z.land access PFERR_WRITE_MASK) (Z.land access PFERR_USER_MASK)) in
  let errcode := if any access PFERR_FETCH_MASK && (g_nx mmu || cr4_smep c) then Z.lor errcode PFERR_FETCH_MASK else errcode in
  let g := match t with
           | PT_EPT =>
               if negb (any errcode PFERR_RSVD_MASK)
               then Gmem (g_slots g) (g_um g) (Z.lor (Z.land (exit_qualification g) 0x187) (Z.shiftl (Z.land (Z.land pt_acc pte) 7) 3)) else g
           | _ => g
           end in
  (0, set_fault (Exception PF_VECTOR true errcode addr nested) w, g).

(** The frame of the address in the page of the last entry. *)
Definition walk_frame (addr pte l : Z) : Z :=
  let frame := gpte_to_gfn_lvl t pte l + Z.shiftr (Z.land addr (PT_LVL_OFFSET_MASK t l)) PAGE_SHIFT in
  match t with
  | PT_32 => if (l =? PT_DIRECTORY_LEVEL) && is_cpuid_PSE36 then frame + pse36_gfn_delta pte else frame
  | _ => frame
  end.

(** What follows the loop over the levels; [retry] is [goto retry_walk]. *)
Definition walk_end (retry : guest_walker -> gmem -> res (Z * guest_walker * gmem)) (addr access : Z) (w : guest_walker) (d : descent) (g : gmem)
    : res (Z * guest_walker * gmem) :=
  let write_fault := any access PFERR_WRITE_MASK in
  match d with
  | Bad errcode pt_acc pte => Ok (walk_error addr access errcode pt_acc pte w g)
  | Found pte pt_acc pte_acc accessed_dirty =>
      denied ← permission_fault c mmu pte_acc access;
      if denied : bool then Ok (walk_error addr access PFERR_PRESENT_MASK pt_acc pte w g)
      else
        match translate_gpa (Z.shiftl (walk_frame addr pte (level w)) PAGE_SHIFT) access with
        | None => Ok (0, w, g)
        | Some real_gpa =>
            let w := set_result (pt_access w) (pte_access w) (Z.shiftr real_gpa PAGE_SHIFT) w in
            let '(pte_acc, accessed_dirty) :=
              if negb write_fault then (protect_clean_gpte t pte_acc pte, accessed_dirty)
              else (pte_acc, Z.land accessed_dirty (Z.shiftr pte (PT_GUEST_DIRTY_SHIFT - PT_GUEST_ACCESSED_SHIFT))) in
            '(ret, w, g) ← (if accessed_dirty =? 0 then update_accessed_dirty_bits write_fault w g else Ok (0, w, g));
            if ret <? 0 then Ok (walk_error addr access 0 pt_acc pte w g)
            else if negb (ret =? 0) then retry w g
            else Ok (1, set_result pt_acc pte_acc (gfn w) w, g)
        end
  end.

Fixpoint walk_addr_generic (fuel : nat) (addr access : Z) (w : guest_walker) (g : gmem) : res (Z * guest_walker * gmem) :=
  match fuel with
  | O => Err OutOfFuel
  | S fuel =>
      let pae := match t with PT_64 => g_root_level mmu =? PT32E_ROOT_LEVEL | _ => false end in
      let pte := if pae then pdptr (Z.land (Z.shiftr addr 30) 3) else match t with PT_32 => u32 cr3 | _ => cr3 end in
      if pae && negb (pte_present t pte) then Ok (walk_error addr access 0 ACC_ALL pte (set_levels (g_root_level mmu) (max_level w) w) g)
      else
        let root := if pae then g_root_level mmu - 1 else g_root_level mmu in
        '(w, d) ← walk_levels (Z.to_nat root) addr g (set_levels (root + 1) root w) pte ACC_ALL ACC_ALL (PT_GUEST_ACCESSED_MASK t);
        walk_end (walk_addr_generic fuel addr access) addr access w d g
  end.

(** [FNAME(gva_to_gpa)]: the address, or the exception. *)
Definition gva_to_gpa (fuel : nat) (vaddr access : Z) (g : gmem) : res ((Z + x86_exception) * gmem) :=
  '(r, w, g) ← walk_addr_generic fuel vaddr access (new_walker t) g;
  Ok (if negb (r =? 0) then inl (Z.lor (Z.shiftl (gfn w) PAGE_SHIFT) (Z.ldiff vaddr PAGE_MASK)) else inr (fault w), g).

End walk.

(** ** The processor's walk *)

(** Long mode, physical address extension, and two levels of 32 bits. *)
Inductive gmode := Long | Pae | Legacy.

Definition format (md : gmode) : pttype := match md with Legacy => PT_32 | _ => PT_64 end.
Definition depth (md : gmode) : Z := match md with Long => 4 | Pae => 3 | Legacy => 2 end.
Definition mode_nx (md : gmode) (c : cpu) : bool := match md with Legacy => false | _ => is_nx c end.
Definition mode_mmu (md : gmode) (c : cpu) (m0 : guest_mmu) : guest_mmu :=
  match md with Long => paging64_init_context c m0 | Pae => paging32E_init_context c m0 | Legacy => paging32_init_context c m0 end.

(** An entry on the path of an address: its level, the frame of its table,
    its place in the process, whether the slot may be written, its value. *)
Record entry := Entry { en_level : Z; en_table : Z; en_hva : Z; en_writable : bool; en_pte : Z }.

Inductive stop := Absent | Reserved.

Section processor.
  Context (md : gmode) (c : cpu) (k : kvm_memslots).

Abbreviation t := (format md).
Abbreviation nx := (mode_nx md c).

(** The widths of an index and of a physical address. *)
Definition index_bits : Z := match md with Legacy => 10 | _ => 9 end.
Definition phys_bits : Z := match md with Legacy => 32 | _ => 52 end.

(** The frame an entry names, and the entry of an address in a table. *)
Definition frame_of (pte : Z) : Z := (pte mod 2 ^ phys_bits) / 2 ^ 12.
Definition slot_in (addr l : Z) : Z := (addr / 2 ^ (12 + (l - 1) * index_bits)) mod 2 ^ index_bits.

Definition read_entry (um : umem) (addr l table : Z) : option entry :=
  match hva_prot k table with
  | None => None
  | Some (h, writable) =>
      let a := h + slot_in addr l * pte_size t in
      match load_pte t um a with None => None | Some pte => Some (Entry l table a writable pte) end
  end.

Fixpoint hw_path (n : nat) (um : umem) (addr l table : Z) : list entry * option stop :=
  match n with
  | O => ([], Some Absent)
  | S n =>
      match read_entry um addr l table with
      | None => ([], Some Absent)
      | Some e =>
          if negb (Z.testbit (en_pte e) 0) then ([], Some Absent)
          else if reserved c nx (depth md) l (en_pte e) then ([], Some Reserved)
          else if maps_page c (depth md) l (en_pte e) then ([e], None)
          else let '(path, o) := hw_path n um addr (l - 1) (frame_of (en_pte e)) in (e :: path, o)
      end
  end.

(** A right is there when every entry grants it. *)
Definition right (i pte : Z) : bool := if i =? 0 then negb (Z.testbit pte 63) else Z.testbit pte i.
Definition rights (path : list entry) : Z :=
  let all i := forallb (fun e => right i (en_pte e)) path in Z.b2z (all 0) + 2 * Z.b2z (all 1) + 4 * Z.b2z (all 2).

(** The frame of an address in the page an entry maps; a page of 4 MB takes
    four more bits of its frame from bits 13 to 16 of the entry. *)
Definition page_frame (addr l pte : Z) : Z :=
  let s := (l - 1) * index_bits in
  let f := frame_of pte in
  f - f mod 2 ^ s + (addr / 2 ^ 12) mod 2 ^ s + (match md with Legacy => if l =? 2 then (pte / 2 ^ 13) mod 16 * 2 ^ 20 else 0 | _ => 0 end).

(** The error code of the access itself. *)
Definition base_code (access : Z) : Z :=
  Z.lor (Z.land access 6) (if Z.testbit access 4 && (nx || cr4_smep c) then 16 else 0).

(** The table the walk starts from, if there is one, and its level. *)
Definition start (cr3 : Z) (pdptr : Z -> Z) (addr : Z) : option Z :=
  match md with
  | Pae => let pdpte := pdptr ((addr / 2 ^ 30) mod 4) in if Z.testbit pdpte 0 then Some (frame_of pdpte) else None
  | _ => Some (frame_of cr3)
  end.
Definition top : Z := match md with Long => 4 | _ => 2 end.

(** The error code, or the path that maps the address. *)
Definition hw_walk (um : umem) (cr3 : Z) (pdptr : Z -> Z) (addr access : Z) : Z + list entry :=
  match start cr3 pdptr addr with
  | None => inl (base_code access)
  | Some table =>
      match hw_path (Z.to_nat top) um addr top table with
      | (_, Some Absent) => inl (base_code access)
      | (_, Some Reserved) => inl (Z.lor (base_code access) 9)
      | (path, None) =>
          if denied c nx (smap_off c) (rights path) (Z.testbit access 1) (Z.testbit access 2) (Z.testbit access 4)
          then inl (Z.lor (base_code access) 1) else inr path
      end
  end.

(** *** The bits the walk leaves behind *)

(** The accessed and dirty bits of a path's entry; the last has [tail = []]. *)
Definition entry_bits (write : bool) (is_last : bool) : Z := Z.lor 32 (if is_last && write then 64 else 0).

(** What is set in the word at [a]. *)
Fixpoint path_bits (write : bool) (path : list entry) (a : Z) : Z :=
  match path with
  | [] => 0
  | e :: path => Z.lor (if (en_hva e =? a) && en_writable e then entry_bits write (bool_decide (path = [])) else 0) (path_bits write path a)
  end.

End processor.
