(* ===== verification/WalkSpec.v ===== *)
(** * The walker against the processor's walk

    [walk_addr_generic] ends within as many rounds as there are bits to set
    and one more, with the fault of the processor's walk, or with its page,
    the path's accessed and dirty bits set and nothing else changed. *)

From Stdlib Require Import ZifyBool.
From coqutil Require Import Byte Word.LittleEndianList.
From S2P Require Import Prelude MemSlots GuestCopy Spte Rmap ShadowPages DirectMap Paging GuestWalk.

(** ** Words of the process *)

Lemma copy_from_spec um n : forall a bs, copy_from_user um a n = Some bs <-> length bs = n /\ forall i, (i < n)%nat -> um !! (a + Z.of_nat i) = bs !! i.
Proof.
  induction n as [|n IH]; intros a bs; cbn.
  - split; [intros [= <-]; split; [done|lia]|intros [H _]; by destruct bs].
  - split.
    + intros (b & Hb & (l & Hl & [= <-])%bind_Some)%bind_Some. apply IH in Hl as [Hn Hl]. split; [cbn; lia|]. intros [|i] Hi; [by rewrite Z.add_0_r|]. change ((b :: l) !! S i) with (l !! i). rewrite <- Hl by lia. f_equal. lia.
    + intros [Hn H]. destruct bs as [|b bs]; [done|]. pose proof (H O ltac:(lia)) as H0. rewrite Z.add_0_r in H0. cbn in H0. rewrite H0. cbn.
      assert (E : copy_from_user um (a + 1) n = Some bs); [|by rewrite E]. apply IH. split; [cbn in Hn; lia|]. intros i Hi. specialize (H (S i) ltac:(lia)). change ((b :: bs) !! S i) with (bs !! i) in H. rewrite <- H. f_equal. lia.
Qed.

Lemma copy_to_spec bs : forall um a, (forall i, (i < length bs)%nat -> is_Some (um !! (a + Z.of_nat i))) -> forall x,
  (copy_to_user um a bs).1 !! x = if (a <=? x) && (x <? a + Z.of_nat (length bs)) then bs !! Z.to_nat (x - a) else um !! x.
Proof.
  induction bs as [|b bs IH]; intros um a H x; cbn [copy_to_user length].
  - destruct (_ && _) eqn:E; [exfalso; change (Z.of_nat 0) with 0 in E; lia|done].
  - destruct (H O ltac:(cbn; lia)) as [b0 H0]. rewrite Z.add_0_r in H0. rewrite H0. rewrite IH.
    + destruct (decide (x = a)) as [->|Hx].
      * replace (a + 1 <=? a) with false by lia. cbn [andb]. rewrite lookup_insert_eq. replace (_ && _) with true by lia. by rewrite Z.sub_diag.
      * rewrite lookup_insert_ne by done. destruct ((a + 1 <=? x) && _) eqn:E; [replace (_ && _) with true by lia|replace (_ && _) with false by lia; done].
        replace (Z.to_nat (x - a)) with (S (Z.to_nat (x - (a + 1)))) by lia. done.
    + intros i Hi. destruct (decide (a + 1 + Z.of_nat i = a)); [lia|]. rewrite lookup_insert_ne by lia. replace (a + 1 + Z.of_nat i) with (a + Z.of_nat (S i)) by lia. apply H. cbn. lia.
Qed.

Lemma copy_from_mapped um a n bs : copy_from_user um a n = Some bs -> forall i, (i < n)%nat -> is_Some (um !! (a + Z.of_nat i)).
Proof. intros [Hn H]%copy_from_spec i Hi. rewrite H by done. apply lookup_lt_is_Some. lia. Qed.

Lemma copy_from_ext um um' a n : (forall i, (i < n)%nat -> um !! (a + Z.of_nat i) = um' !! (a + Z.of_nat i)) -> copy_from_user um a n = copy_from_user um' a n.
Proof.
  intros H. apply option_eq. intros bs. rewrite !copy_from_spec. split; intros [Hn Hl]; (split; [done|]); intros i Hi; [rewrite <- H|rewrite H]; auto.
Qed.

Section words.
  Context (t : pttype).

Definition store_pte (um : umem) (a v : Z) : umem := (copy_to_user um a (le_split (Z.to_nat (pte_size t)) v)).1.

Lemma size_pos : 0 < pte_size t.
Proof. by destruct t. Qed.

Lemma load_range um a v : load_pte t um a = Some v -> 0 <= v < 2 ^ (8 * pte_size t).
Proof.
  unfold load_pte. intros (bs & H & ->)%fmap_Some. apply copy_from_spec in H as [Hn _]. pose proof (le_combine_bound bs) as Hb. rewrite Hn in Hb. pose proof size_pos. by rewrite Z2Nat.id in Hb by lia.
Qed.

Lemma load_store um a v0 v : load_pte t um a = Some v0 -> 0 <= v < 2 ^ (8 * pte_size t) -> load_pte t (store_pte um a v) a = Some v.
Proof.
  unfold load_pte. intros (bs & H & ->)%fmap_Some Hv. pose proof size_pos as Hp. replace (copy_from_user _ _ _) with (Some (le_split (Z.to_nat (pte_size t)) v)).
  - cbn. rewrite le_combine_split, Z2Nat.id by lia. f_equal. apply Z.mod_small. by rewrite Z.mul_comm.
  - symmetry. apply copy_from_spec. rewrite length_le_split. split; [done|]. intros i Hi. unfold store_pte. rewrite copy_to_spec; rewrite length_le_split; [|exact (copy_from_mapped _ _ _ _ H)].
    replace (_ && _) with true by lia. f_equal. lia.
Qed.

Lemma load_store_ne um a v0 v b : load_pte t um a = Some v0 -> b + pte_size t <= a \/ a + pte_size t <= b -> load_pte t (store_pte um a v) b = load_pte t um b.
Proof.
  unfold load_pte. intros (bs & H & ->)%fmap_Some Hb. pose proof size_pos as Hp. f_equal. apply copy_from_ext. intros i Hi. unfold store_pte. rewrite copy_to_spec; rewrite length_le_split; [|exact (copy_from_mapped _ _ _ _ H)].
  destruct (_ && _) eqn:E; [exfalso; lia|done].
Qed.

Lemma apart_words a b : a mod pte_size t = 0 -> b mod pte_size t = 0 -> a <> b -> b + pte_size t <= a \/ a + pte_size t <= b.
Proof.
  pose proof size_pos as Hp. intros Ha Hb Hne. apply Z.div_exact in Ha, Hb; [|lia..]. revert Ha Hb. generalize (a / pte_size t) as x, (b / pte_size t) as y. intros x y Ha Hb.
  destruct (Z.lt_trichotomy x y) as [H|[->|H]]; [right; nia|lia|left; nia].
Qed.

End words.

(** ** Bits *)

Definition sub (x y : Z) : Prop := Z.lor x y = y.

Lemma sub_spec x y : sub x y <-> forall i, 0 <= i -> Z.testbit x i = true -> Z.testbit y i = true.
Proof.
  unfold sub. split.
  - intros H i Hi Hx. rewrite <- H, Z.lor_spec, Hx. done.
  - intros H. apply Z.bits_inj'. intros i Hi. rewrite Z.lor_spec. destruct (Z.testbit x i) eqn:E; [|done]. by rewrite (H i Hi E).
Qed.

Lemma sub_refl x : sub x x.
Proof. apply Z.lor_diag. Qed.
Lemma sub_trans x y z : sub x y -> sub y z -> sub x z.
Proof. rewrite !sub_spec. auto. Qed.
Lemma sub_0 x : sub 0 x.
Proof. apply Z.lor_0_l. Qed.
Lemma sub_lor_l x y : sub x (Z.lor x y).
Proof. unfold sub. by rewrite Z.lor_assoc, Z.lor_diag. Qed.
Lemma sub_lor_r x y : sub y (Z.lor x y).
Proof. rewrite Z.lor_comm. apply sub_lor_l. Qed.
Lemma sub_lor x y z : sub x z -> sub y z -> sub (Z.lor x y) z.
Proof. unfold sub. intros H1 H2. by rewrite <- Z.lor_assoc, H2. Qed.
Lemma sub_antisym x y : sub x y -> sub y x -> x = y.
Proof. unfold sub. intros H1 H2. rewrite Z.lor_comm in H2. congruence. Qed.

#[export] Instance sub_preorder : PreOrder sub.
Proof. split; [exact sub_refl|exact sub_trans]. Qed.

(** The accessed and the dirty bit. *)
Definition AD : Z := 96.

Lemma AD_bit i : Z.testbit AD i = (i =? 5) || (i =? 6).
Proof.
  destruct (Z.lt_ge_cases i 0); [rewrite Z.testbit_neg_r by done; lia|]. change AD with (Z.lor (2 ^ 5) (2 ^ 6)). rewrite Z.lor_spec, !Z.pow2_bits_eqb by lia. lia.
Qed.

Lemma grow_bit p x i : sub x AD -> i <> 5 -> i <> 6 -> Z.testbit (Z.lor p x) i = Z.testbit p i.
Proof.
  intros H H5 H6. destruct (Z.lt_ge_cases i 0); [by rewrite !Z.testbit_neg_r|]. rewrite Z.lor_spec. destruct (Z.testbit x i) eqn:E; [|by rewrite orb_false_r].
  apply (proj1 (sub_spec _ _) H) in E; [|done]. rewrite AD_bit in E. lia.
Qed.

(** ** Memory with more bits set *)

Section grown.
  Context (md : gmode) (c : cpu) (k : kvm_memslots).
  Hypothesis Hmax : 32 <= cpuid_maxphyaddr c <= 52.
  Hypothesis Halign : forall f h b, hva_prot k f = Some (h, b) -> h mod PAGE_SIZE = 0.

Abbreviation t := (format md).
Abbreviation nx := (mode_nx md c).

(** [um] is [um0] with the bits of [m] set, word by word. *)
Definition grown (um0 : umem) (m : Z -> Z) (um : umem) : Prop :=
  forall a, a mod pte_size t = 0 -> load_pte t um a = (fun p => Z.lor p (m a)) <$> load_pte t um0 a.

Definition grow (m : Z -> Z) (e : entry) : entry := Entry (en_level e) (en_table e) (en_hva e) (en_writable e) (Z.lor (en_pte e) (m (en_hva e))).

Lemma grown_refl um : grown um (fun _ => 0) um.
Proof using. intros a _. destruct (load_pte t um a); cbn; [by rewrite Z.lor_0_r|done]. Qed.

Lemma grown_trans um0 um1 um2 m1 m2 : grown um0 m1 um1 -> grown um1 m2 um2 -> grown um0 (fun a => Z.lor (m1 a) (m2 a)) um2.
Proof using. intros H1 H2 a Ha. rewrite H2, H1 by done. destruct (load_pte t um0 a); cbn; [by rewrite Z.lor_assoc|done]. Qed.

Lemma frame_bit pte i : 0 <= i -> Z.testbit (frame_of md pte) i = Z.testbit pte (i + 12) && (i + 12 <? phys_bits md).
Proof using.
  intros Hi. unfold frame_of. rewrite <- Z.shiftr_div_pow2, Z.shiftr_spec by lia. rewrite <- Z.land_ones by (destruct md; cbn; lia).
  rewrite Z.land_spec, Z.testbit_ones_nonneg by (destruct md; cbn; lia). done.
Qed.

Lemma frame_grow p x : sub x AD -> frame_of md (Z.lor p x) = frame_of md p.
Proof using. intros H. apply Z.bits_inj'. intros i Hi. by rewrite !frame_bit, grow_bit by (done || lia). Qed.

Lemma existsb_same {A} (f g : A -> bool) l : (forall a, f a = g a) -> existsb f l = existsb g l.
Proof using. intros H. induction l as [|a l IH]; cbn; [done|]. by rewrite H, IH. Qed.

Lemma reserved_grow l p x : sub x AD -> reserved c nx (depth md) l (Z.lor p x) = reserved c nx (depth md) l p.
Proof using Hmax.
  intros H. apply existsb_same. intros i. rewrite (grow_bit p x 7) by (done || lia). destruct (decide (i = 5 \/ i = 6)) as [Hi|Hi].
  - replace (reserved_bit _ _ _ _ _ i) with false; [by rewrite !andb_false_r|]. symmetry. unfold reserved_bit. destruct md; cbn [depth Z.eqb Pos.eqb]; lia.
  - by rewrite grow_bit by (done || lia).
Qed.

Lemma maps_grow l p x : sub x AD -> maps_page c (depth md) l (Z.lor p x) = maps_page c (depth md) l p.
Proof using. intros H. unfold maps_page. by rewrite grow_bit by (done || lia). Qed.

(** The place of an entry is a multiple of its size. *)
Lemma entry_place h i : h mod PAGE_SIZE = 0 -> (h + i * pte_size t) mod pte_size t = 0.
Proof using.
  intros H. pose proof (size_pos t). rewrite Z.mod_add by lia. apply Z.mod_divide; [lia|]. apply Z.mod_divide in H; [|done]. eapply Z.divide_trans; [|exact H].
  apply Z.mod_divide; [lia|]. by destruct md.
Qed.

Lemma read_place um addr l table e : read_entry md k um addr l table = Some e ->
  en_hva e mod pte_size t = 0 /\ load_pte t um (en_hva e) = Some (en_pte e) /\ en_level e = l /\ en_table e = table.
Proof using Halign.
  unfold read_entry. destruct (hva_prot k table) as [[h b]|] eqn:Eh; [|done]. destruct (load_pte t um _) as [p|] eqn:El; [|done]. intros [= <-]. cbn.
  split; [by apply entry_place, (Halign _ _ _ Eh)|done].
Qed.

Lemma read_grown um0 m um addr l table : grown um0 m um -> read_entry md k um addr l table = grow m <$> read_entry md k um0 addr l table.
Proof using Halign.
  intros H. unfold read_entry. destruct (hva_prot k table) as [[h b]|] eqn:Eh; [|done]. rewrite H by (by apply entry_place, (Halign _ _ _ Eh)). by destruct (load_pte t um0 _).
Qed.

Lemma path_grown um0 m um addr n : grown um0 m um -> (forall a, sub (m a) AD) -> forall l table,
  hw_path md c k n um addr l table = let '(path, o) := hw_path md c k n um0 addr l table in (grow m <$> path, o).
Proof using Hmax Halign.
  intros Hg Hm. induction n as [|n IH]; intros l table; cbn [hw_path]; [done|]. rewrite (read_grown um0 m um) by done.
  destruct (read_entry md k um0 addr l table) as [e|]; cbn [fmap option_fmap option_map grow en_pte]; [|done].
  rewrite grow_bit, reserved_grow, maps_grow, frame_grow by (done || lia || apply Hm).
  destruct (Z.testbit (en_pte e) 0); cbn; [|done]. destruct (reserved c nx (depth md) l (en_pte e)); [done|]. destruct (maps_page c (depth md) l (en_pte e)); [done|].
  rewrite IH. by destruct (hw_path md c k n um0 addr (l - 1) _).
Qed.

Lemma rights_grow m path : (forall a, sub (m a) AD) -> rights (grow m <$> path) = rights path.
Proof using.
  intros Hm. unfold rights.
  assert (H : forall i, i = 0 \/ i = 1 \/ i = 2 -> forallb (fun e => right i (en_pte e)) (grow m <$> path) = forallb (fun e => right i (en_pte e)) path).
  { intros i Hi. induction path as [|e path IH]; cbn; [done|]. rewrite IH. f_equal. unfold right. destruct (i =? 0); by rewrite grow_bit by (apply Hm || lia). }
  by rewrite !H by lia.
Qed.

End grown.

(** ** The tables of the mode *)

Section mode.
  Context (md : gmode) (c : cpu) (m0 : guest_mmu).
  Hypothesis Hmax : 32 <= cpuid_maxphyaddr c <= 52.
  Hypothesis Hshape : shaped m0.

Abbreviation t := (format md).
Abbreviation nx := (mode_nx md c).
Abbreviation mmu := (mode_mmu md c m0).

Lemma reset_keeps m : g_root_level (reset_rsvds_bits_mask c m) = g_root_level m /\ g_nx (reset_rsvds_bits_mask c m) = g_nx m.
Proof using. unfold reset_rsvds_bits_mask. cbv zeta. repeat (destruct (_ =? _)); destruct (is_pse c); split; reflexivity. Qed.

(** The mode before the tables are made. *)
Definition bare : guest_mmu := with_mode (depth md) nx m0.

Lemma mode_eq : mmu = update_last_pte_bitmap c (update_permission_bitmask c false (reset_rsvds_bits_mask c bare)).
Proof using. unfold bare, mode_mmu, paging64_init_context, paging32E_init_context, paging32_init_context, paging64_init_context_common. destruct md; cbn [depth mode_nx]; reflexivity. Qed.

Lemma last_keeps m : g_root_level (update_last_pte_bitmap c m) = g_root_level m /\ g_nx (update_last_pte_bitmap c m) = g_nx m /\
  (forall acc access, permission_fault c (update_last_pte_bitmap c m) acc access = permission_fault c m acc access) /\
  (forall p l, is_rsvd_bits_set (update_last_pte_bitmap c m) p l = is_rsvd_bits_set m p l).
Proof using. done. Qed.

Lemma permission_keeps m : g_root_level (update_permission_bitmask c false m) = g_root_level m /\ g_nx (update_permission_bitmask c false m) = g_nx m /\
  (forall p l, is_rsvd_bits_set (update_permission_bitmask c false m) p l = is_rsvd_bits_set m p l).
Proof using. done. Qed.

Lemma mode_root : g_root_level mmu = depth md /\ g_nx mmu = nx.
Proof using.
  rewrite mode_eq. destruct (last_keeps (update_permission_bitmask c false (reset_rsvds_bits_mask c bare))) as (-> & -> & _).
  destruct (permission_keeps (reset_rsvds_bits_mask c bare)) as (-> & -> & _). apply (reset_keeps bare).
Qed.

Lemma depth_range : 2 <= depth md <= 4 /\ top md <= depth md /\ (depth md = 3 -> top md <= 2).
Proof using. destruct md; cbn; lia. Qed.

Lemma mode_rsvd l p : 1 <= l <= top md -> is_rsvd_bits_set mmu p l = reserved c nx (depth md) l p.
Proof using Hmax Hshape.
  intros Hl. pose proof depth_range. rewrite mode_eq. destruct (last_keeps (update_permission_bitmask c false (reset_rsvds_bits_mask c bare))) as (_ & _ & _ & ->).
  destruct (permission_keeps (reset_rsvds_bits_mask c bare)) as (_ & _ & ->). apply (rsvd_rule c bare); cbn [bare with_mode g_root_level]; (done || lia).
Qed.

Lemma mode_last l p : 1 <= l <= top md -> is_last_gpte mmu l p = maps_page c (depth md) l p.
Proof using.
  clear Hmax. intros Hl. pose proof depth_range. destruct mode_root as [Hr _]. rewrite mode_eq in Hr |- *. rewrite (proj1 (last_keeps _)) in Hr. rewrite last_gpte_rule, Hr by lia. done.
Qed.

Lemma mode_denied acc access : 0 <= get_cpl c <= 3 -> 0 <= acc < 8 -> 0 <= access < 32 -> any access PFERR_RSVD_MASK = false ->
  permission_fault c mmu acc access = Ok (denied c nx (smap_off c) acc (any access PFERR_WRITE_MASK) (any access PFERR_USER_MASK) (any access PFERR_FETCH_MASK)).
Proof using.
  intros Hc Ha Hp Hr. rewrite mode_eq. destruct (last_keeps (update_permission_bitmask c false (reset_rsvds_bits_mask c bare))) as (_ & _ & -> & _).
  rewrite permission_rule by done. by rewrite (proj2 (reset_keeps bare)).
Qed.

(** ** The bits of an entry *)

Lemma gpte_mask_bit i : Z.testbit (PT_BASE_ADDR_MASK t) i = (12 <=? i) && (i <? match md with Legacy => 64 | _ => 52 end).
Proof using.
  destruct (Z.lt_ge_cases i 0); [rewrite Z.testbit_neg_r by done; destruct md; lia|]. replace (PT_BASE_ADDR_MASK t) with (Z.shiftl (Z.ones (match md with Legacy => 52 | _ => 40 end)) 12) by (by destruct md).
  destruct (Z.lt_ge_cases i 12); [rewrite Z.shiftl_spec_low by lia; destruct md; lia|]. rewrite Z.shiftl_spec_high, Z.testbit_ones_nonneg by (destruct md; lia). destruct md; lia.
Qed.

Lemma ones_bit l i : 1 <= l -> 0 <= i -> Z.testbit (level_ones t l) i = (i <? 12 + (l - 1) * index_bits md).
Proof using.
  intros Hl Hi. unfold level_ones. rewrite Z.shiftl_1_l, Z.sub_1_r, <- Z.ones_equiv. change PAGE_SHIFT with 12. replace (PT_LEVEL_BITS t) with (index_bits md) by (by destruct md).
  rewrite Z.testbit_ones_nonneg; destruct md; cbn [index_bits]; lia.
Qed.

(** The word of an entry has its size. *)
Definition entry_range (pte : Z) : Prop := 0 <= pte < 2 ^ (8 * pte_size t).

Lemma range_bit pte i : entry_range pte -> 8 * pte_size t <= i -> Z.testbit pte i = false.
Proof using.
  intros [H1 H2] Hi. rewrite <- (Z.mod_small pte (2 ^ (8 * pte_size t))) by done. apply Z.mod_pow2_bits_high. destruct md; cbn in *; lia.
Qed.

Lemma addr_bits l pte i : entry_range pte -> 1 <= l -> 0 <= i ->
  Z.testbit (gpte_to_gfn_lvl t pte l) i = Z.testbit (frame_of md pte) i && ((l - 1) * index_bits md <=? i).
Proof using.
  intros Hr Hl Hi. unfold gpte_to_gfn_lvl, PT_LVL_ADDR_MASK. change PAGE_SHIFT with 12. rewrite Z.shiftr_spec, Z.land_spec, Z.ldiff_spec, gpte_mask_bit, ones_bit, frame_bit by lia.
  destruct (Z.testbit pte (i + 12)) eqn:E; [|done]. assert (i + 12 < 8 * pte_size t) by (destruct (Z.lt_ge_cases (i + 12) (8 * pte_size t)); [done|by rewrite range_bit in E]).
  destruct md; cbn in *; lia.
Qed.

Lemma next_table pte : entry_range pte -> gpte_to_gfn t pte = frame_of md pte.
Proof using. intros Hr. apply Z.bits_inj'. intros i Hi. unfold gpte_to_gfn. change PT_PAGE_TABLE_LEVEL with 1. rewrite addr_bits by (done || lia). rewrite andb_comm. replace (_ <=? i) with true by lia. done. Qed.

Lemma index_eq addr l : 1 <= l -> PT_INDEX t addr l = slot_in md addr l.
Proof using.
  clear Hmax. intros Hl. unfold PT_INDEX, slot_in. replace (PT_LEVEL_BITS t) with (index_bits md) by (by destruct md). rewrite Z.shiftl_1_l. replace (2 ^ index_bits md - 1) with (Z.ones (index_bits md)) by (rewrite Z.ones_equiv; lia). change PAGE_SHIFT with 12.
  assert (0 < index_bits md) by (by destruct md). rewrite Z.land_ones, Z.shiftr_div_pow2 by nia. done.
Qed.

Lemma high_part f s : 0 <= s -> f - f mod 2 ^ s = Z.shiftl (Z.shiftr f s) s.
Proof using. intros Hs. rewrite Z.shiftl_mul_pow2, Z.shiftr_div_pow2 by done. pose proof (Z.div_mod f (2 ^ s)). lia. Qed.

Lemma frame_part l pte : entry_range pte -> 1 <= l -> gpte_to_gfn_lvl t pte l = frame_of md pte - frame_of md pte mod 2 ^ ((l - 1) * index_bits md).
Proof using.
  clear Hmax. intros Hr Hl. assert (Hs : 0 <= (l - 1) * index_bits md) by (destruct md; cbn [index_bits]; lia). rewrite high_part by done. apply Z.bits_inj'. intros i Hi. rewrite addr_bits by done.
  destruct (Z.leb_spec ((l - 1) * index_bits md) i) as [H|H]; [rewrite andb_true_r, Z.shiftl_spec_high, Z.shiftr_spec by lia; f_equal; lia|by rewrite andb_false_r, Z.shiftl_spec_low].
Qed.

Lemma offset_part l addr : 1 <= l <= top md -> Z.shiftr (Z.land addr (PT_LVL_OFFSET_MASK t l)) PAGE_SHIFT = (addr / 2 ^ 12) mod 2 ^ ((l - 1) * index_bits md).
Proof using.
  clear Hmax. intros Hl. assert (Hs : 0 <= (l - 1) * index_bits md <= 39) by (destruct md; cbn [index_bits top] in *; lia). change PAGE_SHIFT with 12.
  rewrite <- Z.land_ones by lia. rewrite <- Z.shiftr_div_pow2 by lia. apply Z.bits_inj'. intros i Hi. unfold PT_LVL_OFFSET_MASK.
  rewrite Z.land_spec, !Z.shiftr_spec, Z.testbit_ones_nonneg, !Z.land_spec, gpte_mask_bit, ones_bit by lia. destruct (Z.testbit addr (i + 12)); [cbn [andb]|done]. destruct md; lia.
Qed.

Lemma pse36_part pte : pse36_gfn_delta pte = (pte / 2 ^ 13) mod 16 * 2 ^ 20.
Proof using.
  unfold pse36_gfn_delta. change PT32_DIR_PSE36_MASK with (Z.shiftl (Z.ones 4) 13). change (32 - PT32_DIR_PSE36_SHIFT - PAGE_SHIFT) with 7.
  change 16 with (2 ^ 4). rewrite <- Z.land_ones, <- Z.shiftr_div_pow2, <- Z.shiftl_mul_pow2 by lia. apply Z.bits_inj'. intros i Hi.
  destruct (Z.lt_ge_cases i 20) as [H|H].
  - rewrite (Z.shiftl_spec_low _ 20) by lia. destruct (Z.lt_ge_cases i 7); [by rewrite Z.shiftl_spec_low by lia|]. by rewrite Z.shiftl_spec_high, Z.land_spec, Z.shiftl_spec_low, andb_false_r by lia.
  - rewrite !Z.shiftl_spec_high, !Z.land_spec, Z.shiftl_spec_high, Z.shiftr_spec by lia. f_equal; f_equal; lia.
Qed.

Lemma page_frame_eq l addr pte : entry_range pte -> 1 <= l <= top md ->
  (let frame := gpte_to_gfn_lvl t pte l + Z.shiftr (Z.land addr (PT_LVL_OFFSET_MASK t l)) PAGE_SHIFT in
   match t with PT_32 => if (l =? PT_DIRECTORY_LEVEL) && is_cpuid_PSE36 then frame + pse36_gfn_delta pte else frame | _ => frame end) = page_frame md addr l pte.
Proof using.
  intros Hr Hl. cbv zeta. rewrite frame_part, offset_part, pse36_part by lia || done. unfold page_frame, is_cpuid_PSE36. change PT_DIRECTORY_LEVEL with 2.
  destruct md; cbn [format]; rewrite ?andb_true_r; try (destruct (l =? 2)); clear; lia.
Qed.

(** *** Permissions *)

Definition bits3 (x w u : bool) : Z := Z.b2z x + 2 * Z.b2z w + 4 * Z.b2z u.

Lemma access_eq pte : 0 <= pte < 2 ^ 64 -> gpte_access t pte = bits3 (right 0 pte) (right 1 pte) (right 2 pte).
Proof using.
  intros Hr. replace (gpte_access t pte) with (Z.ldiff (Z.lor (Z.land pte 6) 1) (Z.shiftr pte 63)) by (by destruct md). unfold right, bits3. cbn [Z.eqb].
  assert (H63 : Z.shiftr pte 63 = Z.b2z (Z.testbit pte 63)).
  { rewrite Z.shiftr_div_pow2 by lia. rewrite Z.testbit_spec' by lia. symmetry. apply Z.mod_small. split; [apply Z.div_pos; lia|apply Z.div_lt_upper_bound; lia]. }
  rewrite H63. replace (Z.land pte 6) with (2 * Z.b2z (Z.testbit pte 1) + 4 * Z.b2z (Z.testbit pte 2)); [destruct (Z.testbit pte 1), (Z.testbit pte 2), (Z.testbit pte 63); reflexivity|].
  change 6 with (Z.lor (Z.shiftl 1 1) (Z.shiftl 1 2)). rewrite Z.land_lor_distr_r, !land_bit by lia. by destruct (Z.testbit pte 1), (Z.testbit pte 2).
Qed.

Lemma bits3_land x w u x' w' u' : Z.land (bits3 x w u) (bits3 x' w' u') = bits3 (x && x') (w && w') (u && u').
Proof using. by destruct x, w, u, x', w', u'. Qed.

Lemma rights_snoc path e : 0 <= en_pte e < 2 ^ 64 -> Z.land (rights path) (gpte_access t (en_pte e)) = rights (path ++ [e]).
Proof using. intros Hr. rewrite access_eq by done. unfold rights. rewrite !forallb_app. cbn [forallb]. rewrite !andb_true_r. apply bits3_land. Qed.

Lemma rights_range path : 0 <= rights path < 8.
Proof using. unfold rights. destruct (forallb _ path), (forallb _ path), (forallb _ path); cbn; lia. Qed.

End mode.

(** ** The walk down the tables *)

Lemma put_ok {A} (l : list A) i v : 0 <= i < Z.of_nat (length l) -> put l i v = Ok (<[Z.to_nat i := v]> l).
Proof. intros H. unfold put. by replace (_ && _) with true by lia. Qed.

Lemma at_put {A} (l : list A) i v j : 0 <= i < Z.of_nat (length l) -> at_index (<[Z.to_nat i := v]> l) j = if j =? i then Ok v else at_index l j.
Proof.
  intros H. unfold at_index. destruct (Z.eqb_spec j i) as [->|Hne].
  - rewrite list_lookup_insert_eq by lia. by replace (0 <=? i) with true by lia.
  - destruct (Z.lt_ge_cases j 0); [replace (0 <=? j) with false by lia; by destruct (_ !! _), (_ !! _)|]. by rewrite list_lookup_insert_ne by lia.
Qed.

(** The arrays have their length. *)
Record sized (t : pttype) (w : guest_walker) : Prop := {
  sz_tables : length (table_gfn w) = PT_MAX_FULL_LEVELS t;
  sz_ptes : length (ptes w) = PT_MAX_FULL_LEVELS t;
  sz_prefetch : length (prefetch_ptes w) = Z.to_nat PTE_PREFETCH_NUM;
  sz_gpas : length (pte_gpa w) = PT_MAX_FULL_LEVELS t;
  sz_users : length (ptep_user w) = PT_MAX_FULL_LEVELS t;
  sz_writable : length (pte_writable w) = PT_MAX_FULL_LEVELS t
}.

(** The walker has an entry in its arrays. *)
Record holds (w : guest_walker) (e : entry) : Prop := {
  ho_pte : at_index (ptes w) (en_level e - 1) = Ok (en_pte e);
  ho_table : at_index (table_gfn w) (en_level e - 1) = Ok (en_table e);
  ho_user : at_index (ptep_user w) (en_level e - 1) = Ok (en_hva e);
  ho_writable : at_index (pte_writable w) (en_level e - 1) = Ok (en_writable e)
}.

(** From the index [l] up nothing has changed. *)
Record same_above (l : Z) (w w' : guest_walker) : Prop := {
  sa_pte j : l <= j -> at_index (ptes w') j = at_index (ptes w) j;
  sa_table j : l <= j -> at_index (table_gfn w') j = at_index (table_gfn w) j;
  sa_user j : l <= j -> at_index (ptep_user w') j = at_index (ptep_user w) j;
  sa_writable j : l <= j -> at_index (pte_writable w') j = at_index (pte_writable w) j
}.

Lemma same_above_trans l l' w w' w'' : l' <= l -> same_above l w w' -> same_above l' w' w'' -> same_above l w w''.
Proof. intros Hl [A1 A2 A3 A4] [B1 B2 B3 B4]. split; intros j Hj; [rewrite B1, A1|rewrite B2, A2|rewrite B3, A3|rewrite B4, A4]; done || lia. Qed.

Lemma holds_above l w w' e : l <= en_level e - 1 -> same_above l w w' -> holds w e -> holds w' e.
Proof. intros Hl [A1 A2 A3 A4] [B1 B2 B3 B4]. split; [rewrite A1|rewrite A2|rewrite A3|rewrite A4]; done. Qed.

(** Levels go down by one along a path. *)
Fixpoint descends (l : Z) (path : list entry) : Prop :=
  match path with [] => True | e :: path => en_level e = l /\ descends (l - 1) path end.

(** Whether the accessed bit is set in every entry. *)
Definition seen (path : list entry) : Z := if forallb (fun e => Z.testbit (en_pte e) 5) path then 32 else 0.

Lemma seen_snoc path e : Z.land (seen path) (en_pte e) = seen (path ++ [e]).
Proof.
  unfold seen. rewrite forallb_app. cbn [forallb]. rewrite andb_true_r. destruct (forallb _ path); [|done]. rewrite Z.land_comm. change 32 with (Z.shiftl 1 5) at 1. by rewrite land_bit.
Qed.

(** The arrays after one level. *)
Definition filled (w : guest_walker) (l : Z) (e : entry) (gpa : Z) : guest_walker :=
  let i := Z.to_nat (l - 1) in
  Walker l (max_level w) (<[i := en_table e]> (table_gfn w)) (<[i := en_pte e]> (ptes w)) (prefetch_ptes w) (<[i := gpa]> (pte_gpa w)) (<[i := en_hva e]> (ptep_user w))
    (<[i := en_writable e]> (pte_writable w)) (pt_access w) (pte_access w) (gfn w) (fault w).

Lemma filled_sized t w l e gpa : sized t w -> sized t (filled w l e gpa).
Proof. intros [A1 A2 A0 A3 A4 A5]. split; cbn; by rewrite ?length_insert. Qed.

Lemma filled_holds t w l e gpa : sized t w -> 1 <= l <= Z.of_nat (PT_MAX_FULL_LEVELS t) -> en_level e = l -> holds (filled w l e gpa) e.
Proof. intros [A1 A2 A0 A3 A4 A5] Hl He. split; rewrite He; cbn; rewrite at_put, Z.eqb_refl by lia; done. Qed.

Lemma filled_above t w l e gpa : sized t w -> 1 <= l <= Z.of_nat (PT_MAX_FULL_LEVELS t) -> same_above l w (filled w l e gpa).
Proof. intros [A1 A2 A0 A3 A4 A5] Hl. split; intros j Hj; cbn; rewrite at_put by lia; replace (j =? l - 1) with false by lia; done. Qed.

Section run.
  Context (md : gmode) (c : cpu) (m0 : guest_mmu) (k : kvm_memslots) (cr3 : Z) (pdptr : Z -> Z) (nested : bool) (gup : Z -> bool).
  Hypothesis Hmax : 32 <= cpuid_maxphyaddr c <= 52.
  Hypothesis Hshape : shaped m0.
  Hypothesis Halign : forall f h b, hva_prot k f = Some (h, b) -> h mod PAGE_SIZE = 0.

Abbreviation t := (format md).
Abbreviation nx := (mode_nx md c).
Abbreviation mmu := (mode_mmu md c m0).
Abbreviation levels := (walk_levels t mmu (fun a _ => Some a)).
Abbreviation pathof := (hw_path md c k).

Lemma full_levels : 2 <= top md <= Z.of_nat (PT_MAX_FULL_LEVELS t).
Proof using. destruct md; cbn; lia. Qed.

Lemma present_eq p : pte_present t p = Z.testbit p 0.
Proof using. replace (pte_present t p) with (any p (Z.shiftl 1 0)) by (by destruct md). unfold any. rewrite land_bit by done. by destruct (Z.testbit p 0). Qed.

Lemma walk_step n addr g l w pte pt pa ad : (forall f, hva_prot (g_slots g) f = hva_prot k f) -> 1 <= l <= top md -> sized t w -> level w = l + 1 -> entry_range md pte ->
  exists w0 w1 gpa, levels (S n) addr g w pte pt pa ad =
    match read_entry md k (g_um g) addr l (frame_of md pte) with
    | None => Ok (w0, Bad 0 (Z.land pt pa) pte)
    | Some e =>
        if negb (Z.testbit (en_pte e) 0) then Ok (w1, Bad 0 (Z.land pt pa) (en_pte e))
        else if reserved c nx (depth md) l (en_pte e) then Ok (w1, Bad 9 (Z.land pt pa) (en_pte e))
        else
          let pa' := Z.land (Z.land pt pa) (gpte_access t (en_pte e)) in
          if maps_page c (depth md) l (en_pte e) then Ok (filled w l e gpa, Found (en_pte e) (Z.land pt pa) pa' (Z.land ad (en_pte e)))
          else levels n addr g (filled w l e gpa) (en_pte e) (Z.land pt pa) pa' (Z.land ad (en_pte e))
    end.
Proof using Hmax Hshape.
  intros Hk Hl [A1 A2 A0 A3 A4 A5] Hw Hr. pose proof full_levels as Ht. unfold read_entry. rewrite <- Hk.
  cbn [walk_levels]. cbv zeta. cbn [level set_levels]. rewrite Hw. replace (l + 1 - 1) with l by lia. rewrite next_table by done. rewrite index_eq by lia.
  set (table := frame_of md pte). set (off := slot_in md addr l * pte_size t). set (gpa := Z.shiftl table PAGE_SHIFT + off).
  rewrite Z.shiftr_shiftl_l by done. change (PAGE_SHIFT - PAGE_SHIFT) with 0. rewrite Z.shiftl_0_r.
  cbn [table_gfn set_levels pte_gpa pte_writable ptep_user ptes]. rewrite !put_ok by lia. cbn.
  destruct (hva_prot (g_slots g) table) as [[h b]|]; cbn.
  2: { eexists _, w, 0. reflexivity. }
  rewrite ?put_ok by lia. cbn. destruct (load_pte t (g_um g) (h + off)) as [p|]; cbn.
  2: { eexists _, w, 0. reflexivity. }
  rewrite ?put_ok by lia. cbn. rewrite present_eq. exists w. eexists _, gpa. rewrite ?Z.bit0_odd. destruct (Z.odd p); cbn; [|reflexivity].
  rewrite mode_rsvd by done. destruct (reserved c nx (depth md) l p); cbn; [reflexivity|]. rewrite ?put_ok by lia. cbn. rewrite mode_last by done. destruct (maps_page c (depth md) l p); reflexivity.
Qed.

(** An entry is a word of the process. *)
Definition placed (um : umem) (e : entry) : Prop := en_hva e mod pte_size t = 0 /\ load_pte t um (en_hva e) = Some (en_pte e).

Lemma path_facts n um addr : forall l table path o, pathof n um addr l table = (path, o) -> descends l path /\ Forall (placed um) path /\ (length path <= n)%nat.
Proof using Halign.
  induction n as [|n IH]; intros l table path o; cbn [hw_path]; [intros [= <- _]; repeat constructor|]. destruct (read_entry md k um addr l table) as [e|] eqn:Ee; [|intros [= <- _]; split; [done|]; split; [constructor|cbn; lia]].
  destruct (read_place md k Halign _ _ _ _ _ Ee) as (Ha & Hp & He & _). destruct (negb _); [intros [= <- _]; split; [done|]; split; [constructor|cbn; lia]|].
  destruct (reserved _ _ _ _ _); [intros [= <- _]; split; [done|]; split; [constructor|cbn; lia]|]. destruct (maps_page _ _ _ _); [intros [= <- _]; split; [done|]; split; [by apply Forall_singleton|cbn; lia]|].
  destruct (pathof n um addr (l - 1) _) as [path' o'] eqn:E. intros [= <- _]. destruct (IH _ _ _ _ E) as (H1 & H2 & H3). cbn. split; [done|]. split; [constructor; done|lia].
Qed.

Lemma placed_range um e : placed um e -> entry_range md (en_pte e).
Proof using. intros [_ H]. exact (load_range t _ _ _ H). Qed.

(** How the loop over the levels ends. *)
Definition reached (l : Z) (w w' : guest_walker) (pre path : list entry) (d : descent) : Prop :=
  exists e, last path = Some e /\ d = Found (en_pte e) (rights (removelast (pre ++ path))) (rights (pre ++ path)) (seen (pre ++ path)) /\
    level w' = en_level e /\ max_level w' = max_level w /\ sized t w' /\ Forall (holds w') path /\ same_above l w w'.

Lemma walk_levels_run addr g n : (forall f, hva_prot (g_slots g) f = hva_prot k f) -> forall l w pre pte pt pa, n = Z.to_nat l -> 1 <= l <= top md -> sized t w -> level w = l + 1 -> entry_range md pte ->
  Z.land pt pa = rights pre -> exists w' d, levels n addr g w pte pt pa (seen pre) = Ok (w', d) /\
  let '(path, o) := pathof n (g_um g) addr l (frame_of md pte) in
  match o with
  | Some Absent => exists pt' p, d = Bad 0 pt' p
  | Some Reserved => exists pt' p, d = Bad 9 pt' p
  | None => reached l w w' pre path d
  end.
Proof using Hmax Hshape Halign.
  intros Hk. induction n as [|n IH]; intros l w pre pte pt pa Hn Hl Hs Hw Hr Hpa; [lia|].
  destruct (walk_step n addr g l w pte pt pa (seen pre) Hk Hl Hs Hw Hr) as (w0 & w1 & gpa & Es). rewrite Es. clear Es. cbn [hw_path].
  destruct (read_entry md k (g_um g) addr l (frame_of md pte)) as [e|] eqn:Ee; [|by eauto 6]. destruct (read_place md k Halign _ _ _ _ _ Ee) as (Ha & Hp & He & _).
  assert (Hre : entry_range md (en_pte e)) by (by apply (placed_range (g_um g))). pose proof full_levels as Hf.
  assert (Hr64 : 0 <= en_pte e < 2 ^ 64) by (destruct Hre as [H1 H2]; split; [done|eapply Z.lt_le_trans; [exact H2|]; by destruct md]).
  destruct (negb _); [by eauto 6|]. destruct (reserved _ _ _ _ _); [by eauto 6|]. cbv zeta. rewrite Hpa, seen_snoc, rights_snoc by done.
  destruct (maps_page c (depth md) l (en_pte e)) eqn:Em.
  - do 2 eexists. split; [done|]. exists e. split; [done|]. rewrite removelast_last. split; [done|]. split; [done|]. split; [done|]. split; [by apply filled_sized|].
    split; [|by apply (filled_above t); [|lia]]. constructor; [|done]. apply (filled_holds t); done || lia.
  - assert (Hl1 : l <> 1) by (intros ->; by unfold maps_page in Em).
    destruct (IH (l - 1) (filled w l e gpa) (pre ++ [e]) (en_pte e) (rights pre) (rights (pre ++ [e]))) as (w' & d & Er & H); [lia|lia|by apply filled_sized|cbn; lia|done| |].
    { rewrite <- (rights_snoc md pre e) by done. by rewrite Z.land_assoc, Z.land_diag. }
    exists w', d. split; [done|]. destruct (pathof n (g_um g) addr (l - 1) (frame_of md (en_pte e))) as [path o] eqn:Ep. destruct o as [[]|]; [done..|].
    destruct H as (e' & H1 & H2 & H3 & H4 & H5 & H6 & H7). rewrite <- (assoc_L (++) pre [e] path) in H2. cbn [app] in H2. exists e'. split; [destruct path; done|]. split; [done|]. split; [done|]. split; [done|].
    split; [done|]. split; [|apply (same_above_trans l (l - 1) w (filled w l e gpa) w'); [lia|by apply (filled_above t); [|lia]|done]]. constructor; [|done].
    apply (holds_above (l - 1) (filled w l e gpa)); [lia|done|]. apply (filled_holds t); done || lia.
Qed.

(** ** The update of the bits *)

Lemma lor_bound x y n : 0 <= n -> 0 <= x < 2 ^ n -> 0 <= y < 2 ^ n -> 0 <= Z.lor x y < 2 ^ n.
Proof using.
  intros Hn Hx Hy. rewrite <- (Z.mod_small x (2 ^ n)), <- (Z.mod_small y (2 ^ n)) by done. rewrite <- !Z.land_ones, <- Z.land_lor_distr_l, Z.land_ones by done. apply Z.mod_pos_bound. lia.
Qed.

Lemma exchange_place a : a mod pte_size t = 0 -> a - offset_in_page a + offset_in_page a / pte_size t * pte_size t = a.
Proof using.
  clear Hmax. intros Ha. pose proof (size_pos t) as Hp. assert (H : offset_in_page a mod pte_size t = 0); [|apply Z.div_exact in H; lia].
  unfold offset_in_page. change (PAGE_SIZE - 1) with (Z.ones 12). rewrite Z.land_ones by done. replace (2 ^ 12) with (pte_size t * (2 ^ 12 / pte_size t)) by (by destruct md).
  rewrite <- Znumtheory.Zmod_div_mod; [done|lia|by destruct md|by apply Z.divide_factor_l].
Qed.

Lemma exchange_run um a v orig new : gup a = true -> a mod pte_size t = 0 -> load_pte t um a = Some v ->
  cmpxchg_gpte t gup um a (offset_in_page a / pte_size t) orig new = Ok (Z.b2z (negb (v =? orig)), if v =? orig then store_pte t um a new else um).
Proof using. intros Hg Ha Hv. unfold cmpxchg_gpte. rewrite Hg. cbn [negb]. cbv zeta. by rewrite exchange_place, Hv. Qed.

Lemma set_bit_if p i : 0 <= i -> (if negb (any p (Z.shiftl 1 i)) then Z.lor p (Z.shiftl 1 i) else p) = Z.lor p (Z.shiftl 1 i).
Proof using.
  intros Hi. unfold any. rewrite land_bit by done. destruct (Z.testbit p i) eqn:E; [|done]. replace (2 ^ i =? 0) with false by (pose proof (Z.pow_pos_nonneg 2 i); lia). cbn.
  symmetry. rewrite Z.lor_comm. apply sub_spec. intros j Hj. rewrite Z.shiftl_1_l, Z.pow2_bits_eqb by done. by intros <-%Z.eqb_eq.
Qed.

Lemma marked_eq w l write p : marked_pte t w l write p = Z.lor p (entry_bits write (l =? level w)).
Proof using.
  unfold marked_pte, entry_bits. replace (PT_GUEST_ACCESSED_MASK t) with (Z.shiftl 1 5) by (by destruct md). replace (PT_GUEST_DIRTY_MASK t) with (Z.shiftl 1 6) by (by destruct md).
  rewrite set_bit_if by done. cbv zeta. destruct ((l =? level w) && write); cbn [andb]; [rewrite set_bit_if by done; by rewrite <- Z.lor_assoc|by rewrite Z.lor_0_r].
Qed.

Lemma entry_bits_AD write last : sub (entry_bits write last) AD.
Proof using. by destruct write, last. Qed.

Lemma path_bits_AD write path a : sub (path_bits write path a) AD.
Proof using. induction path as [|e path IH]; cbn [path_bits]; [apply sub_0|]. apply sub_lor; [|done]. destruct (_ && _); [apply entry_bits_AD|apply sub_0]. Qed.

(** What the loop over the entries [es] has done: from the bits [m] over the
    memory [um0] to [m'], with the frames [fs] marked dirty. *)
Record updated (write : bool) (um0 : umem) (es : list entry) (m m' : Z -> Z) (fs : list Z) (g g' : gmem) (r : Z) : Prop := {
  up_slots : g_slots g' = foldl mark_page_dirty (g_slots g) fs;
  up_qual : exit_qualification g' = exit_qualification g;
  up_grown : grown md um0 m' (g_um g');
  up_more a : sub (m a) (m' a);
  up_only a : sub (m' a) (Z.lor (m a) (path_bits write es a));
  up_tables f : f ∈ fs -> f ∈ en_table <$> es;
  up_logged a : m' a <> m a -> exists e, e ∈ es /\ en_hva e = a /\ en_table e ∈ fs;
  up_end : (r = 0 /\ forall a p, load_pte t um0 a = Some p -> sub (path_bits write es a) (Z.lor p (m' a))) \/
           (r = 1 /\ exists e, e ∈ es /\ Z.lor (en_pte e) (m' (en_hva e)) <> en_pte e)
}.

(** An entry that needs no exchange. *)
Lemma updated_skip write um0 e es m m' fs g g' r : load_pte t um0 (en_hva e) = Some (en_pte e) ->
  (en_writable e = true -> sub (entry_bits write (bool_decide (es = []))) (en_pte e)) ->
  updated write um0 es m m' fs g g' r -> updated write um0 (e :: es) m m' fs g g' r.
Proof using.
  intros Hp Hb [H1 H2 H3 H4 H5 H6 H7 H8]. split; try done.
  - intros a. cbn [path_bits]. etrans; [apply H5|]. apply sub_lor; [apply sub_lor_l|]. etrans; [|apply sub_lor_r]. apply sub_lor_r.
  - intros f Hf. cbn. apply elem_of_cons. right. by apply H6.
  - intros a Ha. destruct (H7 a Ha) as (e' & He' & Hr). exists e'. split; [by apply elem_of_cons; right|done].
  - destruct H8 as [[-> H8]|[-> (e' & He' & Hr)]]; [left|right]; (split; [done|]).
    + intros a p Ha. cbn [path_bits]. apply sub_lor; [|by apply H8]. destruct (Z.eqb_spec (en_hva e) a) as [<-|]; [|apply sub_0]. destruct (en_writable e); [|apply sub_0]. cbn [andb].
      rewrite Hp in Ha. injection Ha as <-. etrans; [by apply Hb|apply sub_lor_l].
    + exists e'. split; [by apply elem_of_cons; right|done].
Qed.

(** The bits after an exchange at [a]. *)
Definition more (m : Z -> Z) (a b : Z) : Z -> Z := fun x => if x =? a then Z.lor (m x) b else m x.

Lemma grown_store um0 um m a p b : grown md um0 m um -> a mod pte_size t = 0 -> load_pte t um0 a = Some p -> load_pte t um a = Some p -> entry_range md (Z.lor p b) ->
  grown md um0 (more m a b) (store_pte t um a (Z.lor p b)).
Proof using.
  intros Hg Ha H0 H1 Hr x Hx. unfold more. destruct (Z.eqb_spec x a) as [->|Hne].
  - rewrite (load_store t um a p) by done. rewrite H0. cbn. f_equal. pose proof (Hg a Ha) as H. rewrite H0, H1 in H. cbn in H. injection H as H. by rewrite Z.lor_assoc, <- H.
  - rewrite (load_store_ne t um a p) by (done || by apply apart_words). by apply Hg.
Qed.

(** An entry that was exchanged. *)
Lemma updated_step write um0 e es m m' fs g g1 g' r : en_writable e = true ->
  let b := entry_bits write (bool_decide (es = [])) in
  g_slots g1 = mark_page_dirty (g_slots g) (en_table e) -> exit_qualification g1 = exit_qualification g ->
  updated write um0 es (more m (en_hva e) b) m' fs g1 g' r -> updated write um0 (e :: es) m m' (en_table e :: fs) g g' r.
Proof using.
  intros Hw b Hs Hq [H1 H2 H3 H4 H5 H6 H7 H8].
  assert (Hm : forall a, sub (m a) (more m (en_hva e) b a)) by (intros a; unfold more; destruct (a =? en_hva e); [apply sub_lor_l|done]).
  split; try done.
  - cbn. by rewrite H1, Hs.
  - congruence.
  - intros a. etrans; [apply Hm|apply H4].
  - intros a. cbn [path_bits]. etrans; [apply H5|]. apply sub_lor; [|etrans; [|apply sub_lor_r]; apply sub_lor_r]. unfold more. rewrite Hw, andb_true_r, (Z.eqb_sym _ a).
    destruct (a =? en_hva e); [|apply sub_lor_l]. apply sub_lor; [apply sub_lor_l|]. etrans; [|apply sub_lor_r]. apply sub_lor_l.
  - intros f [->|Hf]%elem_of_cons; cbn; apply elem_of_cons; [by left|right; by apply H6].
  - intros a Ha. destruct (decide (a = en_hva e)) as [->|Hne]; [exists e; split; [by apply elem_of_cons; left|split; [done|by apply elem_of_cons; left]]|].
    destruct (H7 a) as (e' & He' & Hr & Hf); [unfold more; by replace (a =? en_hva e) with false by lia|]. exists e'. split; [by apply elem_of_cons; right|split; [done|by apply elem_of_cons; right]].
  - destruct H8 as [[-> H8]|[-> (e' & He' & Hr)]]; [left|right]; (split; [done|]).
    + intros a p Ha. cbn [path_bits]. apply sub_lor; [|by apply H8]. rewrite Hw, andb_true_r. destruct (Z.eqb_spec (en_hva e) a) as [<-|]; [|apply sub_0].
      etrans; [|apply sub_lor_r]. etrans; [|apply H4]. unfold more. rewrite Z.eqb_refl. apply sub_lor_r.
    + exists e'. split; [by apply elem_of_cons; right|done].
Qed.

Lemma updated_refl write um0 m g : grown md um0 m (g_um g) -> updated write um0 [] m m [] g g 0.
Proof using.
  intros H. split; try done.
  - intros a. apply sub_lor_l.
  - left. split; [done|]. intros a p _. apply sub_0.
Qed.

(** The store one cell too far leaves the entries below alone. *)
Lemma behind_run w l pte : sized t w -> 0 <= l <= Z.of_nat (PT_MAX_FULL_LEVELS t) ->
  exists w', put_behind w l pte = Ok w' /\ sized t w' /\ (exists ps qs, w' = set_prefetch qs (set_ptes ps w)) /\ forall e, en_level e <= l -> holds w e -> holds w' e.
Proof using.
  intros [A1 A2 A0 A3 A4 A5] Hl. unfold put_behind. destruct (Z.ltb_spec l (Z.of_nat (length (ptes w)))) as [H|H].
  - rewrite put_ok by lia. eexists. split; [done|]. split; [by split; cbn; rewrite ?length_insert|]. split; [eexists _, (prefetch_ptes w); reflexivity|].
    intros e He [B1 B2 B3 B4]. split; cbn; try done. rewrite at_put by lia. by replace (en_level e - 1 =? l) with false by lia.
  - rewrite put_ok by (rewrite A0; change (Z.of_nat (Z.to_nat PTE_PREFETCH_NUM)) with 8; lia). eexists. split; [done|]. split; [by split; cbn; rewrite ?length_insert|].
    split; [by eexists (ptes w), _; destruct w|]. intros e He [B1 B2 B3 B4]. by split.
Qed.

Lemma descends_le l path : descends l path -> Forall (fun e => en_level e <= l) path.
Proof using. revert l. induction path as [|e path IH]; intros l; cbn; [constructor|]. intros [He H]. constructor; [lia|]. eapply Forall_impl; [by apply IH|]. cbn. lia. Qed.

Lemma last_level (es : list entry) l w : level w = l - Z.of_nat (length es) -> (l =? level w) = bool_decide (es = []).
Proof using. intros H. rewrite H. destruct es; [rewrite bool_decide_true by done; cbn; lia|rewrite bool_decide_false by done; cbn; lia]. Qed.

Lemma update_run write um0 es : forall l w g m, descends l es -> level w = l + 1 - Z.of_nat (length es) -> l <= top md -> 1 <= level w -> sized t w ->
  Forall (holds w) es -> Forall (placed um0) es -> Forall (fun e => en_writable e = true -> gup (en_hva e) = true) es -> grown md um0 m (g_um g) ->
  exists r ps qs g' m' fs, update_loop t gup (length es) l write w g = Ok (r, set_prefetch qs (set_ptes ps w), g') /\ sized t (set_prefetch qs (set_ptes ps w)) /\ updated write um0 es m m' fs g g' r.
Proof using.
  clear Hmax. pose proof full_levels as Hfl. induction es as [|e es IH]; intros l w g m Hd Hlv Htop Hpos Hs Hh Hp Hu Hg.
  { exists 0, (ptes w), (prefetch_ptes w), g, m, []. split; [by destruct w|]. split; [by destruct Hs; split|by apply updated_refl]. }
  destruct Hd as [He Hd]. apply Forall_cons in Hh as [Hhe Hh], Hp as [Hpe Hp], Hu as [Hue Hu]. destruct Hhe as [B1 B2 B3 B4]. rewrite He in *. cbn [length] in Hlv.
  cbn [update_loop length]. rewrite B1, B2, B3. cbn -[Z.eqb]. rewrite marked_eq, (last_level es) by lia. set (b := entry_bits write (bool_decide (es = []))).
  destruct Hpe as [Ha Hl0].
  destruct (Z.eqb_spec (Z.lor (en_pte e) b) (en_pte e)) as [Eb|Eb].
  { destruct (IH (l - 1) w g m) as (r & ps & qs & g' & m' & fs & Er & Hps & Hup); try done; try lia. exists r, ps, qs, g', m', fs. split; [done|]. split; [done|]. apply updated_skip; [done| |done].
    intros _. unfold sub. by rewrite Z.lor_comm. }
  rewrite B4. cbn -[Z.eqb]. destruct (en_writable e) eqn:Ew; cbn -[Z.eqb].
  2: { destruct (IH (l - 1) w g m) as (r & ps & qs & g' & m' & fs & Er & Hps & Hup); try done; try lia. exists r, ps, qs, g', m', fs. split; [done|]. split; [done|]. apply updated_skip; [done| |done]. congruence. }
  pose proof (Hg _ Ha) as Hl. rewrite Hl0 in Hl. cbn in Hl. rewrite (exchange_run _ _ _ _ _ (Hue eq_refl) Ha Hl). cbn -[Z.eqb].
  destruct (Z.eqb_spec (Z.lor (en_pte e) (m (en_hva e))) (en_pte e)) as [Ec|Ec]; cbn.
  - destruct (behind_run w l (Z.lor (en_pte e) b) Hs ltac:(lia)) as (w1 & -> & Hs1 & (ps1 & qs1 & ->) & Hh1). cbn. set (w1 := set_prefetch qs1 (set_ptes ps1 w)) in *. set (g1 := Gmem _ _ _).
    destruct (IH (l - 1) w1 g1 (more m (en_hva e) b)) as (r & ps & qs & g' & m' & fs & Er & Hps & Hup); try done; try (cbn; lia).
    { apply Forall_forall. intros e' He'. apply Hh1; [|by eapply Forall_forall in Hh]. pose proof (descends_le _ _ Hd) as Hle. eapply Forall_forall in Hle; [|done]. cbn in Hle. lia. }
    { cbn. apply (grown_store _ (g_um g) _ _ (en_pte e)); try done; [congruence|]. apply lor_bound; [pose proof (size_pos t); lia|exact (load_range t _ _ _ Hl0)|]. unfold b. clear. destruct md, write, (bool_decide _); vm_compute; (split; [discriminate|reflexivity]). }
    exists r, ps, qs, g', m', (en_table e :: fs). split; [exact Er|]. split; [exact Hps|]. apply (updated_step _ _ _ _ _ _ _ _ g1); done.
  - exists 1, (ptes w), (prefetch_ptes w), (Gmem (g_slots g) (g_um g) (exit_qualification g)), m, []. split; [by destruct w|]. split; [by destruct Hs; split|]. split; try done.
    + intros a. apply sub_lor_l.
    + intros f Hf. by apply elem_of_nil in Hf.
    + right. split; [done|]. exists e. split; [by apply elem_of_cons; left|done].
Qed.

(** ** Rounds *)

(** The bits of [b] that [v] has not. *)
Definition missing (b v : Z) : nat := Z.to_nat (Z.b2z (Z.testbit b 5 && negb (Z.testbit v 5)) + Z.b2z (Z.testbit b 6 && negb (Z.testbit v 6))).

Fixpoint need (write : bool) (path : list entry) (m : Z -> Z) : nat :=
  match path with
  | [] => O
  | e :: path => ((if en_writable e then missing (entry_bits write (bool_decide (path = []))) (Z.lor (en_pte e) (m (en_hva e))) else 0) + need write path m)%nat
  end.

Lemma missing_le b v v' : sub v v' -> (missing b v' <= missing b v)%nat.
Proof using.
  intros H. rewrite sub_spec in H. pose proof (H 5 ltac:(lia)) as H5. pose proof (H 6 ltac:(lia)) as H6. unfold missing.
  destruct (Z.testbit v 5), (Z.testbit v 6), (Z.testbit v' 5), (Z.testbit v' 6), (Z.testbit b 5), (Z.testbit b 6); cbn; try lia; (discriminate (H5 eq_refl) || discriminate (H6 eq_refl)).
Qed.

Lemma missing_lt b v v' i : sub v v' -> i = 5 \/ i = 6 -> Z.testbit b i = true -> Z.testbit v i = false -> Z.testbit v' i = true -> (missing b v' < missing b v)%nat.
Proof using.
  intros H Hi Hb Hv Hv'. rewrite sub_spec in H. pose proof (H 5 ltac:(lia)) as H5. pose proof (H 6 ltac:(lia)) as H6. unfold missing.
  destruct Hi as [-> | ->]; rewrite Hb, Hv, Hv' in *;
    [destruct (Z.testbit v 6), (Z.testbit v' 6), (Z.testbit b 6)|destruct (Z.testbit v 5), (Z.testbit v' 5), (Z.testbit b 5)]; cbn; try lia; (discriminate (H5 eq_refl) || discriminate (H6 eq_refl)).
Qed.

Lemma sub_lor_mono p x y : sub x y -> sub (Z.lor p x) (Z.lor p y).
Proof using. intros H. apply sub_lor; [apply sub_lor_l|]. etrans; [exact H|apply sub_lor_r]. Qed.

Lemma need_mono write path m m' : (forall a, sub (m a) (m' a)) -> (need write path m' <= need write path m)%nat.
Proof using.
  intros H. induction path as [|e path IH]; cbn [need]; [done|]. destruct (en_writable e); [|done]. apply Nat.add_le_mono; [|done]. apply missing_le, sub_lor_mono, H.
Qed.

Lemma need_lt write path m m' a i p : (forall a, sub (m a) (m' a)) -> (forall e, e ∈ path -> en_hva e = a -> en_pte e = p) -> i = 5 \/ i = 6 ->
  Z.testbit (path_bits write path a) i = true -> Z.testbit (Z.lor p (m a)) i = false -> Z.testbit (Z.lor p (m' a)) i = true -> (need write path m' < need write path m)%nat.
Proof using.
  intros H He Hi Hb Hv Hv'. induction path as [|e path IH]; cbn [need path_bits] in *; [by rewrite Z.bits_0 in Hb|]. pose proof (need_mono write path m m' H) as Hmono.
  rewrite Z.lor_spec in Hb. apply orb_true_iff in Hb as [Hb|Hb].
  - destruct (Z.eqb_spec (en_hva e) a) as [Ha|]; [|by rewrite Z.bits_0 in Hb]. destruct (en_writable e); [|by rewrite Z.bits_0 in Hb]. cbn [andb] in Hb.
    rewrite (He e), Ha by (done || by apply elem_of_cons; left). pose proof (missing_lt _ _ _ i (sub_lor_mono p _ _ (H a)) Hi Hb Hv Hv'). lia.
  - pose proof (IH (fun e' He' => He e' ltac:(by apply elem_of_cons; right)) Hb). pose proof (missing_le (entry_bits write (bool_decide (path = []))) _ _ (sub_lor_mono (en_pte e) _ _ (H (en_hva e)))).
    destruct (en_writable e); lia.
Qed.

Lemma need_le write path m : (need write path m <= length path + 1)%nat.
Proof using.
  assert (H : forall b v, (missing (entry_bits write b) v <= 1 + (if b then 1 else 0))%nat) by (intros b v; unfold missing; by destruct b, write, (Z.testbit v 5), (Z.testbit v 6); vm_compute; lia).
  induction path as [|e path IH]; cbn [need length]; [lia|]. specialize (H (bool_decide (path = [])) (Z.lor (en_pte e) (m (en_hva e)))). destruct (bool_decide_reflect (path = [])) as [->|]; [cbn in *; destruct (en_writable e); lia|].
  destruct (en_writable e); lia.
Qed.

(** *** The pieces of a round *)

Lemma protect_eq acc p : 0 <= acc < 8 -> protect_clean_gpte t acc p = if Z.testbit p 6 then acc else Z.land acc 5.
Proof using.
  intros Ha. unfold protect_clean_gpte. replace (PT_GUEST_DIRTY_MASK t =? 0) with false by (by destruct md). cbv zeta.
  replace (Z.land (Z.shiftr (u32 p) _) PT_WRITABLE_MASK) with (if Z.testbit p 6 then 2 else 0).
  - assert (acc = 0 \/ acc = 1 \/ acc = 2 \/ acc = 3 \/ acc = 4 \/ acc = 5 \/ acc = 6 \/ acc = 7) as Hc by lia. destruct (Z.testbit p 6); repeat (destruct Hc as [-> |Hc]; [reflexivity|]); subst; reflexivity.
  - change PT_WRITABLE_MASK with (Z.shiftl 1 1). rewrite land_bit, Z.shiftr_spec by done. unfold u32. rewrite Z.mod_pow2_bits_low by (vm_compute; reflexivity). done.
Qed.

Lemma page_frame_grow addr l p x : sub x AD -> page_frame md addr l (Z.lor p x) = page_frame md addr l p.
Proof using.
  intros H. unfold page_frame. rewrite frame_grow by done. f_equal. destruct md; try done. destruct (l =? 2); [|done]. f_equal. change 16 with (2 ^ 4). rewrite <- !Z.land_ones, <- !Z.shiftr_div_pow2 by done.
  apply Z.bits_inj'. intros i Hi. rewrite !Z.land_spec, !Z.shiftr_spec by done. by rewrite grow_bit by (done || lia).
Qed.

Lemma path_bits_grow write m path a : path_bits write (grow m <$> path) a = path_bits write path a.
Proof using.
  induction path as [|e path IH]; [done|]. cbn [fmap list_fmap path_bits]. fold (fmap (M := list) (grow m)). change (list_fmap entry entry (grow m) path) with (grow m <$> path). rewrite IH.
  f_equal. cbn [grow en_hva en_writable]. by destruct path.
Qed.

Lemma path_bits_read path a : sub (path_bits false path a) 32.
Proof using. induction path as [|e path IH]; cbn [path_bits]; [apply sub_0|]. apply sub_lor; [|done]. destruct (_ && _); [|apply sub_0]. unfold entry_bits. by rewrite andb_false_r. Qed.

Lemma hva_marks fs : forall k' f, hva_prot (foldl mark_page_dirty k' fs) f = hva_prot k' f.
Proof using.
  induction fs as [|x fs IH]; intros k' f; [done|]. cbn [foldl]. rewrite IH. unfold hva_prot, gfn_to_hva_prot. pose proof (search_mark k' x f) as H.
  destruct (search_memslots k' f) as [sl|]; [|by rewrite H]. destruct H as [[-> _]| ->]; done.
Qed.

(** Nothing is missing when the bits the walk collected are set. *)
Lemma all_set write um0 m path e : Forall (placed um0) path -> last path = Some e -> forallb (fun e => Z.testbit (en_pte e) 5) (grow m <$> path) = true ->
  (write = true -> Z.testbit (en_pte (grow m e)) 6 = true) -> forall a p, load_pte t um0 a = Some p -> sub (path_bits write path a) (Z.lor p (m a)).
Proof using.
  intros Hp Hl Hs Hd a p Ha. induction path as [|e0 path IH]; [done|]. apply Forall_cons in Hp as [[_ Hp0] Hp]. apply andb_true_iff in Hs as [Hs0 Hs]. cbn [path_bits].
  apply sub_lor; [|destruct path; [apply sub_0|by apply IH]]. destruct (Z.eqb_spec (en_hva e0) a) as [<-|]; [|apply sub_0]. destruct (en_writable e0); [|apply sub_0]. cbn [andb].
  rewrite Hp0 in Ha. injection Ha as <-. cbn [grow en_pte] in Hs0. unfold entry_bits. apply sub_lor.
  - apply sub_spec. intros i Hi. change 32 with (2 ^ 5). rewrite Z.pow2_bits_eqb by done. by intros <-%Z.eqb_eq.
  - destruct (bool_decide_reflect (path = [])) as [->|]; [|apply sub_0]. destruct write; [|apply sub_0]. injection Hl as ->. cbn [andb]. specialize (Hd eq_refl). cbn [grow en_pte] in Hd.
    apply sub_spec. intros i Hi. change 64 with (2 ^ 6). rewrite Z.pow2_bits_eqb by done. by intros <-%Z.eqb_eq.
Qed.

Lemma write_test access : any access PFERR_WRITE_MASK = Z.testbit access 1 /\ any access PFERR_USER_MASK = Z.testbit access 2 /\ any access PFERR_FETCH_MASK = Z.testbit access 4.
Proof using.
  change PFERR_WRITE_MASK with (Z.shiftl 1 1). change PFERR_USER_MASK with (Z.shiftl 1 2). change PFERR_FETCH_MASK with (Z.shiftl 1 4). unfold any. rewrite !land_bit by done.
  by destruct (Z.testbit access 1), (Z.testbit access 2), (Z.testbit access 4).
Qed.

(** The accessed bits folded with the dirty bit. *)
Lemma folded path p : Z.land (seen path) (Z.shiftr p 1) = if forallb (fun e => Z.testbit (en_pte e) 5) path && Z.testbit p 6 then 32 else 0.
Proof using.
  unfold seen. destruct (forallb _ path); [|done]. rewrite Z.land_comm. change 32 with (Z.shiftl 1 5) at 1. rewrite land_bit, Z.shiftr_spec by done. done.
Qed.

(** What rounds do to the memory. *)
Record progress (write : bool) (um0 : umem) (path : list entry) (m m' : Z -> Z) (fs : list Z) (g g' : gmem) : Prop := {
  pr_slots : g_slots g' = foldl mark_page_dirty (g_slots g) fs;
  pr_qual : exit_qualification g' = exit_qualification g;
  pr_grown : grown md um0 m' (g_um g');
  pr_more a : sub (m a) (m' a);
  pr_only a : sub (m' a) (path_bits write path a);
  pr_tables f : f ∈ fs -> f ∈ en_table <$> path;
  pr_logged a : m' a <> m a -> exists e, e ∈ path /\ en_hva e = a /\ en_table e ∈ fs
}.

Lemma rounds_refl write um0 path m g : grown md um0 m (g_um g) -> (forall a, sub (m a) (path_bits write path a)) -> progress write um0 path m m [] g g.
Proof using. intros H1 H2. split; try done. intros f Hf. by apply elem_of_nil in Hf. Qed.

Lemma rounds_trans write um0 path m1 m2 m3 fs fs' g1 g2 g3 : progress write um0 path m1 m2 fs g1 g2 -> progress write um0 path m2 m3 fs' g2 g3 ->
  progress write um0 path m1 m3 (fs ++ fs') g1 g3.
Proof using.
  intros [A1 A2 A3 A4 A5 A6 A7] [B1 B2 B3 B4 B5 B6 B7]. split; try done.
  - by rewrite B1, A1, foldl_app.
  - congruence.
  - intros a. etrans; [apply A4|apply B4].
  - intros f [Hf|Hf]%elem_of_app; auto.
  - intros a Ha. destruct (decide (m2 a = m1 a)) as [Em|Em].
    + destruct (B7 a) as (e & H1 & H2 & H3); [congruence|]. exists e. split; [done|]. split; [done|]. apply elem_of_app. by right.
    + destruct (A7 a Em) as (e & H1 & H2 & H3). exists e. split; [done|]. split; [done|]. apply elem_of_app. by left.
Qed.

(** One update of the bits, over the memory the walk began with. *)
Lemma updated_progress write um0 path m m1 fs g g' r : grown md um0 m (g_um g) -> (forall a, sub (m a) (path_bits write path a)) ->
  updated write (g_um g) (grow m <$> path) (fun _ => 0) m1 fs g g' r -> progress write um0 path m (fun a => Z.lor (m a) (m1 a)) fs g g'.
Proof using.
  intros Hg Hm [H1 H2 H3 H4 H5 H6 H7 _]. split; try done.
  - by apply (grown_trans md um0 (g_um g)).
  - intros a. apply sub_lor_l.
  - intros a. apply sub_lor; [apply Hm|]. rewrite <- (path_bits_grow write m path a). apply H5.
  - intros f Hf. apply H6 in Hf. by rewrite <- list_fmap_compose in Hf.
  - intros a Ha. destruct (H7 a) as (e' & (e & -> & He)%list_elem_of_fmap & Ha' & Hf); [intros E; apply Ha; by rewrite E, Z.lor_0_r|]. by exists e.
Qed.

(** An update that failed leaves less to do. *)
Lemma updated_less write um0 path m m1 fs g g' : Forall (placed um0) path -> (forall a, sub (m1 a) (path_bits write path a)) ->
  updated write (g_um g) (grow m <$> path) (fun _ => 0) m1 fs g g' 1 -> (need write path (fun a => Z.lor (m a) (m1 a)) < need write path m)%nat.
Proof using.
  clear Hmax Hshape Halign. intros Hp Hm1 Hup. destruct (up_end _ _ _ _ _ _ _ _ _ Hup) as [[? _]|[_ (e' & (e & -> & He)%list_elem_of_fmap & Hne)]]; [done|]. cbn [grow en_pte en_hva] in Hne.
  set (p := en_pte e) in *. set (a := en_hva e) in *. set (v := Z.lor p (m a)) in *.
  assert (Hx : exists i, 0 <= i /\ Z.testbit (m1 a) i = true /\ Z.testbit v i = false).
  { destruct (decide (Forall (fun i => Z.testbit (m1 a) i = true -> Z.testbit v i = true) [5; 6])) as [Hf|Hf].
    - exfalso. apply Hne. rewrite Z.lor_comm. apply sub_spec. intros i Hi Hb. assert (Hi56 : i = 5 \/ i = 6).
      { pose proof (sub_trans _ _ _ (Hm1 a) (path_bits_AD write path a)) as Hs. rewrite sub_spec in Hs. specialize (Hs i Hi Hb). rewrite AD_bit in Hs. lia. }
      apply Forall_cons in Hf as [H5 Hf]. apply Forall_cons in Hf as [H6 _]. destruct Hi56 as [-> | ->]; auto.
    - apply not_Forall_Exists in Hf; [|apply _]. apply Exists_exists in Hf as (i & Hi & Hb). exists i. split; [apply elem_of_cons in Hi as [->|Hi]; [done|by apply list_elem_of_singleton in Hi as ->]|].
      destruct (Z.testbit (m1 a) i) eqn:E1, (Z.testbit v i) eqn:E2; [exfalso; apply Hb; congruence|done|exfalso; apply Hb; congruence..]. }
  destruct Hx as (i & Hi & Hb & Hv). assert (Hpb : Z.testbit (path_bits write path a) i = true) by (by apply (proj1 (sub_spec _ _) (Hm1 a))).
  apply (need_lt write path _ _ a i p); try done.
  - intros x. apply sub_lor_l.
  - intros e2 He2 Ha2. pose proof (proj1 (Forall_forall _ _) Hp e He) as [_ L1]. pose proof (proj1 (Forall_forall _ _) Hp e2 He2) as [_ L2]. rewrite Ha2 in L2. unfold a, p in *. congruence.
  - apply (proj1 (sub_spec _ _) (path_bits_AD write path a)) in Hpb; [|done]. rewrite AD_bit in Hpb. lia.
  - rewrite Z.lor_assoc, Z.lor_spec, Hb. apply orb_true_r.
Qed.

Lemma last_descends path : forall l e, descends l path -> last path = Some e -> en_level e = l + 1 - Z.of_nat (length path).
Proof using.
  induction path as [|e0 path IH]; intros l e Hd Hl; [done|]. destruct Hd as [He Hd]. destruct path as [|e1 path]; [injection Hl as <-; cbn; lia|].
  change (last (e0 :: e1 :: path)) with (last (e1 :: path)) in Hl. rewrite (IH _ _ Hd Hl). cbn [length]. lia.
Qed.

Lemma descends_grow m path : forall l, descends l path -> descends l (grow m <$> path).
Proof using. induction path as [|e path IH]; intros l; [done|]. intros [He Hd]. split; [done|by apply IH]. Qed.

Lemma removelast_grow m path : removelast (grow m <$> path) = grow m <$> removelast path.
Proof using. induction path as [|e path IH]; [done|]. destruct path as [|e1 path]; [done|]. change (grow m e :: removelast (grow m <$> e1 :: path) = grow m e :: (grow m <$> removelast (e1 :: path))). by rewrite IH. Qed.

Lemma last_pte_bit m path e i : last path = Some e -> forallb (fun e => Z.testbit (en_pte e) i) (grow m <$> path) = true -> Z.testbit (en_pte (grow m e)) i = true.
Proof using. intros (pre & ->)%last_Some H. rewrite fmap_app, forallb_app in H. apply andb_true_iff in H as [_ H]. apply andb_true_iff in H as [H _]. done. Qed.

(** The result of a walk that ends at the entry [e]. *)
Record result (write : bool) (addr : Z) (path : list entry) (e : entry) (w : guest_walker) : Prop := {
  re_level : level w = en_level e;
  re_gfn : gfn w = page_frame md addr (en_level e) (en_pte e);
  re_pt : pt_access w = rights (removelast path);
  re_pte : pte_access w = if write || Z.testbit (en_pte e) 6 then rights path else Z.land (rights path) 5
}.

Abbreviation ending := (walk_end t c mmu (fun a _ => Some a) nested gup).

(** The permissions the walker keeps. *)
Lemma kept_access write m path e : last path = Some e -> (forall a, sub (m a) (path_bits write path a)) ->
  (if negb write then protect_clean_gpte t (rights path) (en_pte (grow m e)) else rights path) = if write || Z.testbit (en_pte e) 6 then rights path else Z.land (rights path) 5.
Proof using.
  intros Hl Hm. destruct write; [done|]. cbn [negb orb]. rewrite protect_eq by apply rights_range. cbn [grow en_pte]. rewrite Z.lor_spec. replace (Z.testbit (m (en_hva e)) 6) with false; [by rewrite orb_false_r|].
  symmetry. apply not_true_iff_false. intros H. pose proof (sub_trans _ _ _ (Hm (en_hva e)) (path_bits_read path _)) as Hs. rewrite sub_spec in Hs. by specialize (Hs 6 ltac:(lia) H).
Qed.

(** Whether every bit is set already. *)
Definition all_there (write : bool) (m : Z -> Z) (path : list entry) (e : entry) : bool :=
  forallb (fun e => Z.testbit (en_pte e) 5) (grow m <$> path) && (negb write || Z.testbit (en_pte (grow m e)) 6).
Definition found_access (write : bool) (path : list entry) (e : entry) : Z := if write || Z.testbit (en_pte e) 6 then rights path else Z.land (rights path) 5.
Definition found_at (path : list entry) (e : entry) (m : Z -> Z) : descent := Found (en_pte (grow m e)) (rights (removelast path)) (rights path) (seen (grow m <$> path)).

Lemma placed_grow um0 um m path : Forall (placed um0) path -> grown md um0 m um -> Forall (placed um) (grow m <$> path).
Proof using. intros Hp Hg. apply Forall_fmap. eapply Forall_impl; [exact Hp|]. intros e0 [Ha0 Hl0]. split; [done|]. cbn. by rewrite (Hg _ Ha0), Hl0. Qed.

(** The end of a walk that is not denied. *)
Lemma ending_eq retry addr access w g um0 path m e : let write := Z.testbit access 1 in
  0 <= get_cpl c <= 3 -> 0 <= access < 32 -> any access PFERR_RSVD_MASK = false ->
  denied c nx (smap_off c) (rights path) (Z.testbit access 1) (Z.testbit access 2) (Z.testbit access 4) = false ->
  Forall (placed um0) path -> last path = Some e -> 1 <= en_level e <= top md -> level w = en_level e -> grown md um0 m (g_um g) -> (forall a, sub (m a) (path_bits write path a)) ->
  let w1 := set_result (pt_access w) (pte_access w) (page_frame md addr (en_level e) (en_pte e)) w in
  ending retry addr access w (found_at path e m) g =
    '(ret, w, g) ← (if all_there write m path e then Ok (0, w1, g) else update_accessed_dirty_bits t gup write w1 g);
    if ret <? 0 then Ok (walk_error t c mmu nested addr access 0 (rights (removelast path)) (en_pte (grow m e)) w g)
    else if negb (ret =? 0) then retry w g else Ok (1, set_result (rights (removelast path)) (found_access write path e) (gfn w) w, g).
Proof using.
  intros write Hc Hacc Hrs Hden Hp Hl Hlev Hlw Hg Hm w1. unfold all_there, found_access, found_at. pose proof (placed_grow _ _ _ _ Hp Hg) as Hpg.
  assert (HmA : forall a, sub (m a) AD) by (intros a; etrans; [apply Hm|apply path_bits_AD]).
  set (acc := if write || Z.testbit (en_pte e) 6 then rights path else Z.land (rights path) 5).
  set (all := forallb (fun e => Z.testbit (en_pte e) 5) (grow m <$> path) && (negb write || Z.testbit (en_pte (grow m e)) 6)).
  assert (Epair : (if negb write then (protect_clean_gpte t (rights path) (en_pte (grow m e)), seen (grow m <$> path))
    else (rights path, Z.land (seen (grow m <$> path)) (Z.shiftr (en_pte (grow m e)) (PT_GUEST_DIRTY_SHIFT - PT_GUEST_ACCESSED_SHIFT)))) = (acc, if all then 32 else 0)).
  { pose proof (kept_access write m path e Hl Hm) as Hk. fold acc in Hk. unfold all. change (PT_GUEST_DIRTY_SHIFT - PT_GUEST_ACCESSED_SHIFT) with 1. rewrite folded.
    destruct write; cbn [negb orb] in *; [by rewrite <- Hk|]. by rewrite Hk, andb_true_r. }
  unfold walk_end. rewrite mode_denied by (done || apply rights_range). destruct (write_test access) as (-> & -> & ->). rewrite Hden. fold write.
  cbn -[Z.eqb Z.ltb Z.sub Z.testbit grow seen protect_clean_gpte walk_frame rights PT_GUEST_DIRTY_SHIFT PT_GUEST_ACCESSED_SHIFT fmap removelast walk_error].
  fold write. rewrite Epair. replace (walk_frame t addr (en_pte (grow m e)) (level w)) with (page_frame md addr (en_level e) (en_pte e)).
  2: { rewrite Hlw. unfold walk_frame. rewrite page_frame_eq; [cbn [grow en_pte]; by rewrite page_frame_grow by apply HmA| |done].
       apply (placed_range (g_um g)), (proj1 (Forall_forall _ _) Hpg), list_elem_of_fmap. exists e. split; [done|by apply last_Some_elem_of]. }
  rewrite Z.shiftr_shiftl_l by done. change (PAGE_SHIFT - PAGE_SHIFT) with 0. rewrite Z.shiftl_0_r. by destruct all.
Qed.

Lemma walk_end_run retry addr access w g um0 path m e : let write := Z.testbit access 1 in
  0 <= get_cpl c <= 3 -> 0 <= access < 32 -> any access PFERR_RSVD_MASK = false ->
  denied c nx (smap_off c) (rights path) (Z.testbit access 1) (Z.testbit access 2) (Z.testbit access 4) = false ->
  descends (top md) path -> Forall (placed um0) path -> last path = Some e -> 1 <= en_level e -> Forall (fun e => en_writable e = true -> gup (en_hva e) = true) path ->
  level w = en_level e -> max_level w = top md -> sized t w -> Forall (holds w) (grow m <$> path) -> grown md um0 m (g_um g) -> (forall a, sub (m a) (path_bits write path a)) ->
  let d := found_at path e m in
  exists w' g' m' fs, sized t w' /\ progress write um0 path m m' fs g g' /\
    ((ending retry addr access w d g = Ok (1, w', g') /\ result write addr path e w' /\ forall a p, load_pte t um0 a = Some p -> a mod pte_size t = 0 -> sub (path_bits write path a) (Z.lor p (m' a))) \/
     (ending retry addr access w d g = retry w' g' /\ (need write path m' < need write path m)%nat)).
Proof using.
  intros write Hc Hacc Hrs Hden Hd Hp Hl He1 Hu Hlw Hmw Hs Hh Hg Hm d. pose proof (last_descends _ _ _ Hd Hl) as Hlev. pose proof (placed_grow _ _ _ _ Hp Hg) as Hpg.
  assert (Htop : en_level e <= top md) by (destruct path; [done|cbn [length] in Hlev; lia]).
  set (w1 := set_result (pt_access w) (pte_access w) (page_frame md addr (en_level e) (en_pte e)) w).
  unfold d. rewrite (ending_eq retry addr access w g um0 path m e) by done. fold w1 write. set (acc := found_access write path e).
  assert (Hsz1 : sized t w1) by (by destruct Hs; split). destruct (all_there write m path e) eqn:Eall.
  - exists (set_result (rights (removelast path)) acc (gfn w1) w1), g, m, []. split; [by destruct Hsz1; split|]. split; [by apply rounds_refl|]. left. split; [done|]. split; [by split|].
    intros a p Ha _. apply andb_true_iff in Eall as [E5 E6]. apply (all_set write um0 m path e); try done. intros ->. exact E6.
  - unfold update_accessed_dirty_bits. replace (PT_GUEST_DIRTY_MASK t =? 0) with false by (by destruct md). change (max_level w1) with (max_level w). change (level w1) with (level w). rewrite Hmw.
    replace (Z.to_nat (top md - level w + 1)) with (length (grow m <$> path)) by (rewrite length_fmap; lia).
    destruct (update_run write (g_um g) (grow m <$> path) (top md) w1 g (fun _ => 0)) as (r & ps & qs & g' & m1 & fs & Er & Hw2 & Hup);
      [by apply descends_grow|rewrite length_fmap; change (level w1) with (level w); lia|lia|change (level w1) with (level w); lia|done| |done|by apply Forall_fmap|apply grown_refl|].
    { eapply Forall_impl; [exact Hh|]. intros e0 [B1 B2 B3 B4]. by split. }
    rewrite Er. pose proof (updated_progress write um0 path m m1 fs g g' r Hg Hm Hup) as Hpr.
    destruct (up_end _ _ _ _ _ _ _ _ _ Hup) as [[-> Hall]|[-> _]].
    + exists (set_result (rights (removelast path)) acc (gfn (set_prefetch qs (set_ptes ps w1))) (set_prefetch qs (set_ptes ps w1))), g', (fun a => Z.lor (m a) (m1 a)), fs. split; [by destruct Hw2; split|]. split; [done|]. left. split; [done|]. split; [by split|].
      intros a p Ha Hal. rewrite <- (path_bits_grow write m path a), Z.lor_assoc. apply Hall. by rewrite (Hg a Hal), Ha.
    + exists (set_prefetch qs (set_ptes ps w1)), g', (fun a => Z.lor (m a) (m1 a)), fs. split; [done|]. split; [done|]. right. split; [done|]. apply (updated_less write um0 path m m1 fs g g'); [done| |done].
      intros a. rewrite <- (path_bits_grow write m path a). apply (up_only _ _ _ _ _ _ _ _ _ Hup).
Qed.

(** *** The walk *)

Abbreviation walk := (walk_addr_generic t c mmu cr3 pdptr (fun a _ => Some a) nested gup).

Lemma frame_u32 v : frame_of Legacy (u32 v) = frame_of Legacy v.
Proof using. unfold frame_of, u32. cbn [phys_bits]. by rewrite Z.mod_mod. Qed.

(** A round begins at the table of the address. *)
Lemma round_start fuel addr access w g : 0 <= cr3 < 2 ^ 64 -> (forall i, 0 <= pdptr i < 2 ^ 64) ->
  match start md cr3 pdptr addr with
  | None => exists p w', walk (S fuel) addr access w g = Ok (walk_error t c mmu nested addr access 0 ACC_ALL p w' g)
  | Some table => exists pte, frame_of md pte = table /\ entry_range md pte /\
      walk (S fuel) addr access w g =
      '(w, d) ← levels (Z.to_nat (top md)) addr g (set_levels (top md + 1) (top md) w) pte 7 7 (seen []); ending (walk fuel addr access) addr access w d g
  end.
Proof using.
  intros Hcr Hpd. cbn [walk_addr_generic]. rewrite (proj1 (mode_root md c m0)). unfold start. destruct md eqn:Emd; cbn [depth top format]; cbv zeta.
  - exists cr3. split; [done|]. split; [exact Hcr|]. reflexivity.
  - change (3 =? PT32E_ROOT_LEVEL) with true. cbn [andb]. replace (Z.land (Z.shiftr addr 30) 3) with ((addr / 2 ^ 30) mod 4) by (rewrite (Z.land_ones _ 2), Z.shiftr_div_pow2 by done; done).
    set (p := pdptr _). pose proof (present_eq p) as Hp. rewrite Emd in Hp. cbn [format] in Hp. rewrite Hp. destruct (Z.testbit p 0); cbn [negb].
    + exists p. split; [done|]. split; [apply Hpd|]. reflexivity.
    + eauto.
  - exists (u32 cr3). split; [apply frame_u32|]. split; [by apply Z.mod_pos_bound|]. reflexivity.
Qed.

(** The path is found round after round until nothing is missing. *)
Lemma rounds_run addr access um0 table path e : let write := Z.testbit access 1 in
  0 <= cr3 < 2 ^ 64 -> (forall i, 0 <= pdptr i < 2 ^ 64) -> 0 <= get_cpl c <= 3 -> 0 <= access < 32 -> any access PFERR_RSVD_MASK = false ->
  start md cr3 pdptr addr = Some table -> pathof (Z.to_nat (top md)) um0 addr (top md) table = (path, None) -> last path = Some e ->
  denied c nx (smap_off c) (rights path) (Z.testbit access 1) (Z.testbit access 2) (Z.testbit access 4) = false ->
  Forall (fun e => en_writable e = true -> gup (en_hva e) = true) path -> forall fuel w g m, sized t w -> (forall f, hva_prot (g_slots g) f = hva_prot k f) -> grown md um0 m (g_um g) ->
  (forall a, sub (m a) (path_bits write path a)) -> (need write path m < fuel)%nat ->
  exists w' g' m' fs, walk fuel addr access w g = Ok (1, w', g') /\ progress write um0 path m m' fs g g' /\ result write addr path e w' /\
    forall a p, load_pte t um0 a = Some p -> a mod pte_size t = 0 -> sub (path_bits write path a) (Z.lor p (m' a)).
Proof using Hmax Hshape Halign.
  intros write Hcr Hpd Hc Hacc Hrs Hst Hpath Hl Hden Hu. destruct (path_facts _ _ _ _ _ _ _ Hpath) as (Hd & Hp & Hlen). pose proof full_levels as Hfl.
  pose proof (last_descends _ _ _ Hd Hl) as Hlev. induction fuel as [|fuel IH]; intros w g m Hs Hk Hg Hm Hn; [lia|].
  assert (HmA : forall a, sub (m a) AD) by (intros a; etrans; [apply Hm|apply path_bits_AD]).
  pose proof (round_start fuel addr access w g Hcr Hpd) as Hr. rewrite Hst in Hr. destruct Hr as (pte & Hpte & Hrange & ->).
  destruct (walk_levels_run addr g (Z.to_nat (top md)) Hk (top md) (set_levels (top md + 1) (top md) w) [] pte 7 7) as (w1 & d & -> & H); try done; [lia|by destruct Hs; split|].
  rewrite Hpte, (path_grown md c k Hmax Halign um0 m (g_um g)), Hpath in H by done. destruct H as (e' & He' & -> & H3 & H4 & H5 & H6 & _). cbn [app] in *.
  assert (Ee : e' = grow m e) by (rewrite fmap_last, Hl in He'; cbn in He'; congruence). subst e'. rewrite removelast_grow, !rights_grow by done.
  destruct (walk_end_run (walk fuel addr access) addr access w1 g um0 path m e) as (w2 & g2 & m2 & fs & Hs2 & Hpr & [(E & Hres & Hall)|[E Hlt]]); try done; [lia|..].
  - exists w2, g2, m2, fs. done.
  - destruct (IH w2 g2 m2) as (w3 & g3 & m3 & fs3 & E3 & Hpr3 & Hres & Hall); [done|intros f; by rewrite (pr_slots _ _ _ _ _ _ _ _ Hpr), hva_marks|apply (pr_grown _ _ _ _ _ _ _ _ Hpr)|apply (pr_only _ _ _ _ _ _ _ _ Hpr)|fold write in Hlt; lia|].
    exists w3, g3, m3, (fs ++ fs3). split; [exact (eq_trans E E3)|]. split; [by apply (rounds_trans _ _ _ _ m2 _ _ _ _ g2)|done].
Qed.

(** *** Faults *)

Lemma error_eq addr access errcode pt pte w g : walk_error t c mmu nested addr access errcode pt pte w g =
  (0, set_fault (Exception PF_VECTOR true (Z.lor (base_code md c access) errcode) addr nested) w, g).
Proof using.
  unfold walk_error. rewrite (proj2 (mode_root md c m0)), (proj2 (proj2 (write_test access))). cbv zeta. replace (match t with PT_EPT => _ | _ => g end) with g by (by destruct md).
  do 4 f_equal. unfold base_code. rewrite <- Z.land_lor_distr_r. change (Z.lor PFERR_WRITE_MASK PFERR_USER_MASK) with 6. change PFERR_FETCH_MASK with 16.
  destruct (_ && _); rewrite ?Z.lor_0_r, (Z.lor_comm errcode); [|done]. by rewrite <- !Z.lor_assoc, (Z.lor_comm errcode).
Qed.

Lemma path_last n um addr : forall l table path, pathof n um addr l table = (path, None) -> exists e, last path = Some e.
Proof using.
  induction n as [|n IH]; intros l table path; cbn [hw_path]; [done|]. destruct (read_entry _ _ _ _ _ _) as [e|]; [|done]. destruct (negb _); [done|]. destruct (reserved _ _ _ _ _); [done|].
  destruct (maps_page _ _ _ _); [intros [= <-]; by exists e|]. destruct (pathof n um addr (l - 1) _) as [path' o'] eqn:E. intros [= <- ->]. destruct (IH _ _ _ E) as [e' He']. exists e'. by destruct path'.
Qed.

Lemma new_sized : sized t (new_walker t).
Proof using. by destruct md. Qed.

(** A walk that faults ends in its first round and changes nothing. *)
Lemma fault_run fuel addr access g code : 0 <= cr3 < 2 ^ 64 -> (forall i, 0 <= pdptr i < 2 ^ 64) -> 0 <= get_cpl c <= 3 -> 0 <= access < 32 -> any access PFERR_RSVD_MASK = false ->
  (forall f, hva_prot (g_slots g) f = hva_prot k f) -> hw_walk md c k (g_um g) cr3 pdptr addr access = inl code ->
  exists w, walk (S fuel) addr access (new_walker t) g = Ok (0, w, g) /\ fault w = Exception PF_VECTOR true code addr nested.
Proof using Hmax Hshape Halign.
  intros Hcr Hpd Hc Hacc Hrs Hk. unfold hw_walk. pose proof full_levels as Hfl. pose proof (round_start fuel addr access (new_walker t) g Hcr Hpd) as Hr. destruct (start md cr3 pdptr addr) as [table|].
  2: { destruct Hr as (p & w' & ->). intros [= <-]. rewrite error_eq, Z.lor_0_r. eexists. split; [reflexivity|done]. }
  destruct Hr as (pte & <- & Hrange & ->).
  destruct (walk_levels_run addr g (Z.to_nat (top md)) Hk (top md) (set_levels (top md + 1) (top md) (new_walker t)) [] pte 7 7) as (w1 & d & -> & H); try done; [lia|by destruct new_sized; split|].
  destruct (pathof _ (g_um g) addr (top md) (frame_of md pte)) as [path o]. destruct o as [[]|].
  - destruct H as (pt' & p & ->). intros [= <-]. cbn. rewrite error_eq, Z.lor_0_r. eexists. split; [reflexivity|done].
  - destruct H as (pt' & p & ->). intros [= <-]. cbn. rewrite error_eq. eexists. split; [reflexivity|done].
  - destruct H as (e & Hl & -> & _). cbn [app]. destruct (denied _ _ _ _ _ _ _) eqn:Ed; [|done]. intros [= <-]. cbn -[walk_error rights Z.testbit removelast seen]. rewrite mode_denied by (done || apply rights_range).
    destruct (write_test access) as (-> & -> & ->). rewrite Ed. cbn -[walk_error rights Z.testbit removelast seen]. rewrite error_eq. eexists. split; [reflexivity|done].
Qed.

End run.

Lemma aligned_slots k : (forall sl, sl ∈ live (memslots k) -> userspace_addr sl mod PAGE_SIZE = 0) -> forall f h b, hva_prot k f = Some (h, b) -> h mod PAGE_SIZE = 0.
Proof.
  intros H f h b. unfold hva_prot, gfn_to_hva_prot, search_memslots. destruct (find _ _) as [sl|] eqn:E; [|done]. apply find_some in E as [Hin _]. apply list_elem_of_In, H in Hin. unfold __gfn_to_hva_many.
  destruct (negb (_ =? 0)); [done|]. rewrite andb_false_r. destruct (kvm_is_error_hva _); [done|]. cbn. intros [= <- _]. unfold __gfn_to_hva_memslot, u64. change (2 ^ 64) with (PAGE_SIZE * 2 ^ 52).
  rewrite <- Znumtheory.Zmod_div_mod; [|done|done|apply Z.divide_factor_l]. by rewrite Z.mod_add.
Qed.

(** C4: The walker of the tables of a guest that is not nested (no further
    translation of its addresses), while nobody else writes them, is the
    processor's walk in long mode, with physical address extension and with
    32-bit tables.  It ends within six rounds, also when one word is an entry
    of several levels, with every access to its arrays within them but the
    store that [put_behind] models.  An access the processor refuses
    gets the processor's error code and changes nothing.  Otherwise, when
    [get_user_pages_fast] finds the pages of the path's entries in slots that
    may be written, the walker has the frame, the level and the permissions
    of the path, every word of memory is as it was but for the accessed bits
    of those entries and the dirty bit of the last at a write, and the frame
    of each table that changed is marked dirty. *)
Theorem walk_addr_correct md c m0 cr3 pdptr nested gup addr access g : shaped m0 -> 32 <= cpuid_maxphyaddr c <= 52 -> 0 <= get_cpl c <= 3 ->
  0 <= cr3 < 2 ^ 64 -> (forall i, 0 <= pdptr i < 2 ^ 64) -> 0 <= access < 32 -> any access PFERR_RSVD_MASK = false ->
  (forall sl, sl ∈ live (memslots (g_slots g)) -> userspace_addr sl mod PAGE_SIZE = 0) ->
  let t := format md in
  let write := Z.testbit access 1 in
  let walk := walk_addr_generic t c (mode_mmu md c m0) cr3 pdptr (fun a _ => Some a) nested gup 6 addr access (new_walker t) g in
  match hw_walk md c (g_slots g) (g_um g) cr3 pdptr addr access with
  | inl code => exists w, walk = Ok (0, w, g) /\ fault w = Exception PF_VECTOR true code addr nested
  | inr path => Forall (fun e => en_writable e = true -> gup (en_hva e) = true) path ->
      exists w g' e fs, walk = Ok (1, w, g') /\ last path = Some e /\ result md write addr path e w /\
        (forall a, a mod pte_size t = 0 -> load_pte t (g_um g') a = (fun p => Z.lor p (path_bits write path a)) <$> load_pte t (g_um g) a) /\
        g_slots g' = foldl mark_page_dirty (g_slots g) fs /\ (forall f, f ∈ fs -> f ∈ en_table <$> path) /\
        (forall a, a mod pte_size t = 0 -> load_pte t (g_um g') a <> load_pte t (g_um g) a -> exists e, e ∈ path /\ en_hva e = a /\ en_table e ∈ fs)
  end.
Proof.
  intros Hsh Hmax Hc Hcr Hpd Hacc Hrs Hal t write walk. subst t walk. pose proof (aligned_slots _ Hal) as Halign.
  destruct (hw_walk md c (g_slots g) (g_um g) cr3 pdptr addr access) as [code|path] eqn:Ew; [by apply (fault_run md c m0 (g_slots g))|]. intros Hu.
  unfold hw_walk in Ew. destruct (start md cr3 pdptr addr) as [table|] eqn:Es; [|done]. destruct (hw_path md c (g_slots g) _ _ _ _ table) as [path0 o] eqn:Ep. destruct o as [[]|]; [done..|].
  destruct (denied _ _ _ _ _ _ _) eqn:Ed; [done|]. injection Ew as ->. destruct (path_last _ _ _ _ _ _ _ _ _ Ep) as [e He].
  pose proof (proj2 (proj2 (path_facts md c (g_slots g) Halign _ _ _ _ _ _ _ Ep))) as Hlen. pose proof (need_le write path (fun _ => 0)) as Hn.
  destruct (rounds_run md c m0 (g_slots g) cr3 pdptr nested gup Hmax Hsh Halign addr access (g_um g) table path e Hcr Hpd Hc Hacc Hrs Es Ep He Ed Hu 6 (new_walker (format md)) g (fun _ => 0)) as (w & g' & m' & fs & E & Hpr & Hres & Hall);
    [apply new_sized|done|apply grown_refl|intros a; apply sub_0|fold write; destruct md; cbn in Hlen; lia|].
  assert (Hmem : forall a, a mod pte_size (format md) = 0 -> load_pte (format md) (g_um g') a = (fun p => Z.lor p (path_bits write path a)) <$> load_pte (format md) (g_um g) a).
  { intros a Ha. rewrite (pr_grown _ _ _ _ _ _ _ _ _ Hpr a Ha). destruct (load_pte (format md) (g_um g) a) as [p|] eqn:El; [|done]. cbn. f_equal.
    apply sub_antisym; [apply sub_lor_mono, (pr_only _ _ _ _ _ _ _ _ _ Hpr)|apply sub_lor; [apply sub_lor_l|by apply Hall]]. }
  exists w, g', e, fs. split; [done|]. split; [done|]. split; [done|]. split; [done|]. split; [apply (pr_slots _ _ _ _ _ _ _ _ _ Hpr)|]. split; [apply (pr_tables _ _ _ _ _ _ _ _ _ Hpr)|].
  intros a Ha Hne. apply (pr_logged _ _ _ _ _ _ _ _ _ Hpr). intros E0. apply Hne. rewrite (pr_grown _ _ _ _ _ _ _ _ _ Hpr a Ha), E0. destruct (load_pte (format md) (g_um g) a); [cbn; by rewrite Z.lor_0_r|done].
Qed.

(** A table whose first entry is the table itself: one word is the entry of
    all four levels, and a write in ring 0 finds its accessed bit set under
    its feet. *)
Definition self_um : umem := list_to_map (zip (seqZ 0x7f0000000000 8) (le_split 8 3)).
Definition self_mem : gmem := Gmem demo_slots self_um 0.
Definition self_mmu : guest_mmu := GuestMmu 4 true [] [[0; 0; 0; 0]; [0; 0; 0; 0]] 0 0.
Definition self_path : list entry := (fun l => Entry l 0 0x7f0000000000 true 3) <$> [4; 3; 2; 1].

Lemma self_walk : hw_walk Long demo_cpu demo_slots self_um 0 (fun _ => 0) 0x123 2 = inr self_path.
Proof. vm_compute. reflexivity. Qed.

Lemma walk_addr_correct_witness : exists w g', walk_addr_generic PT_64 demo_cpu (mode_mmu Long demo_cpu self_mmu) 0 (fun _ => 0) (fun a _ => Some a) false (fun _ => true) 6 0x123 2 (new_walker PT_64) self_mem = Ok (1, w, g') /\
  gfn w = 0 /\ level w = 1 /\ load_pte PT_64 (g_um g') 0x7f0000000000 = Some 99.
Proof.
  assert (Hlive : forall sl, sl ∈ live (memslots (g_slots self_mem)) -> userspace_addr sl mod PAGE_SIZE = 0).
  { assert (El : Forall (fun sl => userspace_addr sl mod PAGE_SIZE = 0) (live (memslots (g_slots self_mem)))) by (vm_compute; repeat constructor). by rewrite Forall_forall in El. }
  pose proof (walk_addr_correct Long demo_cpu self_mmu 0 (fun _ => 0) false (fun _ => true) 0x123 2 self_mem) as H. cbv zeta in H. cbn [self_mem g_slots g_um] in H. rewrite self_walk in H.
  destruct H as (w & g' & e & fs & E & He & Hr & Hm & _); [by exists 0, 0, 0, 0, 0, 0, 0, 0|cbn; lia|cbn; lia|lia|intros; lia|lia|by vm_compute|exact Hlive|by repeat constructor|].
  injection He as <-. exists w, g'. split; [exact E|]. split; [rewrite (re_gfn _ _ _ _ _ _ Hr); vm_compute; reflexivity|]. split; [exact (re_level _ _ _ _ _ _ Hr)|].
  refine (eq_trans (Hm 0x7f0000000000 _) _); vm_compute; reflexivity.
Defined.

(** That walk has written the entry of the top level behind the array. *)
Lemma top_store_behind : match walk_addr_generic PT_64 demo_cpu (mode_mmu Long demo_cpu self_mmu) 0 (fun _ => 0) (fun a _ => Some a) false (fun _ => true) 6 0x123 2 (new_walker PT_64) self_mem with
  | Ok (_, w, _) => prefetch_ptes w !! 0%nat = Some 35 | Err _ => False end.
Proof. vm_compute. reflexivity. Qed.
